(* ===== verification/_CoqProject ===== *)
-Q . S2P
Prelude.v
GoStrings.v
Net.v
Exec.v
Models.v
Store.v
MemoryStore.v
SqliteStore.v
StoreRefinement.v
Migration.v
Runtime.v
WorkloadService.v
Reconciler.v
Interleaving.v
VolumeService.v
Base64.v
Bytes.v
Disks.v
DiskLayout.v
Auth.v
Mdns.v
Identity.v
Files.v
Boot.v
Banner.v
Tls.v
FirstBoot.v
Update.v
Installer.v
PortMap.v
Iptables.v
Container.v
VmSpec.v
Vm.v
VmLive.v
Paths.v
Guest.v
Streams.v
Copy.v
Images.v
Controllers.v
Info.v
Server.v
Startup.v
Daemon.v
Processes.v
Cli.v
Operator.v
Adoption.v
Manifest.v
Discover.v
Commands.v
