(* ===== verification/Prelude.v ===== *)
(** * Capsule: a verification library for the capsuled daemon

capsuled is the single daemon of a small operating system: as process 1 it
    brings the machine up, keeps the state, answers gRPC calls and runs
    containers and MicroVMs.  The library follows the Go code under src/; a
    definition carries the name of the function it translates.

    ** How programs are modelled

    A Go function that reads or changes the world is a [prog W A]: a function
    from a world [W] to a result (a value or an error) and a world.  Errors are
    data ([error]), wrapped as the code wraps them, so that [errors.Is] and
    the text of a message compute.  [bind] is "if err != nil return", [catch]
    hands the error to the code, [ignore] drops it.  Integers are [Z] with the
    wrap-around of their Go type written out ([u32], [i64], ...), strings and
    byte slices are [string].  Two things fail from outside: calls to the
    operating system, which a fault schedule in the world can make fail at any
    point ([os_call]), and external programs, which are an interface
    ([Commands]).  Code outside the repository (containerd, CNI, LVM, GRUB,
    SQLite, zeroconf, archive/tar, cryptography, protobuf and JSON codecs) is
    a parameter or a class with laws; a concrete instance of each class runs in
    the witnesses.

    ** The files

    - [Prelude], [GoStrings], [Bytes], [Base64], [Exec], [Files], [Net]: the
      language and its standard library - integers, errors, programs and their
      frames ([preserves], [keeps]), strings, byte slices, base64, os/exec,
      files with torn writes, addresses.
    - [Models], [Store], [Runtime]: the messages of models/capsule/v1 and the
      two interfaces between the layers, store.Store with the promises of its
      doc comments ([StoreLaws]) and the drivers with theirs ([DriverLaws]).
    - [MemoryStore], [SqliteStore], [Migration], [StoreRefinement]: store/memory
      and store/sqlite meet [StoreLaws]; the schema after Open types every
      statement; a client cannot tell the two stores apart.
    - [WorkloadService], [Reconciler], [Interleaving]: core/workload and
      core/reconciler against the interfaces, alone and interleaved.
    - [VolumeService]: core/volume over LVM.
    - [Auth], [Identity]: tokens, replay cache, interceptor and claim window of
      auth/; controllers/identity.go and the identity part of main.
    - [Mdns]: core/mdns.
    - [Update]: core/update, the A/B update state machine over devices, GRUB
      and reboots.
    - [Disks], [DiskLayout], [Installer], [FirstBoot], [Tls]: finding disks, the
      partition table, core/install from request to sealed disk, the first
      boot, the TLS files.
    - [Boot], [Banner], [Startup], [Daemon]: boot/, the console, and main from
      the boot result on; [Startup] composes installer, boot, first boot, TLS
      and identity up to the claim window, [Daemon] the rest: announcement,
      drivers, and the services that are exposed.
    - [PortMap], [Container]: runtime/container/driver.go over containerd, CNI
      and mount; it keeps the promises of the driver interface.
    - [Iptables], [VmSpec], [Vm], [VmLive]: runtime/microvm/firecracker - the
      port mappings as iptables rules that are found again in a listing; the
      addresses, drives and payload of a VM; the driver over the Firecracker
      SDK, the guest agent and containerd; what it does on a working host.

    - [Paths], [Guest], [Streams]: path/filepath; the guest agent of
      cmd/capsule-guest (StartPayload, the watcher, Stop, the OCI bundle); exec
      streams from the guest process to the client, the log followers, and the
      vsock handshake.
    - [Copy], [Images], [Controllers], [Info]: capsulectl cp with the CopyTo and
      CopyFrom calls; image list and push; the workload, volume and capsule
      controllers with their status codes; GetInfo.
    - [Server]: every service behind the gate over one shared state
      (router/router.go); any sequence of calls.
    - [Processes]: supervise/ and the reaper of PID 1 with boot.ExecMu, as a
      step relation.
    - [Cli], [Operator], [Adoption]: the command line of capsulectl; its
      registry, keys, pinning, adopt and install over a network class; the
      operator's machine and the server together.
    - [Manifest], [Discover], [Commands]: apply -f, discover, and every other
      command as the calls it makes over that network and a clock, recorded for
      the theorems; the process with its exit status.

    ** What the theorems show

    Safety of what is destructive (updates write the inactive slot only, an
    install touches the target only, a boot formats a blank partition only, a
    mounted volume is never deleted, an archive unpacks below its destination
    only, an update is confirmed only after it has held its slot); exactness
    of the gate (who is let through, replay, adoption), up to the whole server
    (an adopted capsule stays adopted and does nothing without a token) and to
    both sides together (what an adoption pins, and that the operator is
    served afterwards); functional behaviour of each operation on every
    branch, errors included; refinement of the interfaces by their
    implementations; round trips (tokens, announcements, partition table, port
    labels, rule listings, copied trees); no stray process after a failed
    start; the bytes of an exec session and of a log tail; no interleaving in
    which the reaper takes the exit status of a locked caller; termination of
    polls and copies; bounds of sizes, addresses, backoffs and percentages.
    Where the code does not do what it means to, a theorem on a concrete run
    shows it.

    ** Bounds and fuel

    Loops over data are structural.  Polls against a clock take fuel computed
    from the timeout and the interval ([poll_fuel], [eth_fuel], [ready_fuel],
    [dial_fuel], [reach_fuel], [settle_fuel]) and copies from the length left;
    theorems show the fuel is never used up.

    ** Not modelled

    - goroutine scheduling, except the interleavings of [Interleaving], the
      merged pumps of [Streams] and the steps of [Processes]; PTY resizing and
      progress channels;
    - copyTree and readContent of the Firecracker driver, which are operations
      of its interface;
    - logging, signals and the flags of capsuled; the connection between the
      two ends of cp, which are modelled apart;
    - the transport, keepalive and reflection of the gRPC server; the texts of
      the kernel and of lvs behind GetInfo, which are values;
    - the prompts and texts of adopt and install, the terminal of exec, and the
      formatting of floats, dates and durations;
    - generated protobuf code. *)

From stdpp Require Export base tactics numbers list gmap strings relations sorting.
From Stdlib Require Export ZArith Lia String Ascii.
From Stdlib Require Import DecimalString.

Set Default Goal Selector "!".

Declare Scope go_scope.
Delimit Scope go_scope with go.

(** ** Fixed-width integers

    A Go integer is a [Z] kept in the range of its type; [wrap] and [swrap]
    are the truncations of the unsigned and signed types of [w] bits. *)

Definition wrap (w x : Z) : Z := (x mod 2 ^ w)%Z.
Definition swrap (w x : Z) : Z := ((x + 2 ^ (w - 1)) mod 2 ^ w - 2 ^ (w - 1))%Z.

Abbreviation u8 := (wrap 8).
Abbreviation u32 := (wrap 32).
Abbreviation u64 := (wrap 64).
Abbreviation i32 := (swrap 32).
Abbreviation i64 := (swrap 64).

Section integers.
Local Open Scope Z_scope.

Lemma wrap_small w x : 0 <= x < 2 ^ w -> wrap w x = x.
Proof. apply Z.mod_small. Qed.

Lemma wrap_range w x : 0 <= w -> 0 <= wrap w x < 2 ^ w.
Proof. intros. apply Z.mod_pos_bound, Z.pow_pos_nonneg; lia. Qed.

Lemma swrap_small w x : 0 < w -> - 2 ^ (w - 1) <= x < 2 ^ (w - 1) -> swrap w x = x.
Proof.
  intros Hw Hx. unfold swrap.
  assert (2 ^ w = 2 * 2 ^ (w - 1)) as E.
  { rewrite <- Z.pow_succ_r by lia. f_equal. lia. }
  rewrite Z.mod_small by lia. lia.
Qed.

Lemma swrap_range w x : 0 < w -> - 2 ^ (w - 1) <= swrap w x < 2 ^ (w - 1).
Proof.
  intros Hw. unfold swrap.
  assert (2 ^ w = 2 * 2 ^ (w - 1)) as E.
  { rewrite <- Z.pow_succ_r by lia. f_equal. lia. }
  assert (0 < 2 ^ w) by (apply Z.pow_pos_nonneg; lia).
  pose proof (Z.mod_pos_bound (x + 2 ^ (w - 1)) (2 ^ w)). lia.
Qed.
End integers.

(** Durations are nanoseconds. *)
Definition Millisecond : Z := 1000000.
Definition Second : Z := 1000 * Millisecond.

(** ** Errors

    The sentinel errors of the packages, and the two ways Go code builds the
    other ones: a fresh error with a message ([errors.New], [fmt.Errorf]
    without [%w]) and one that wraps others ([fmt.Errorf] with [%w], once or
    twice).  [ExitError] is a command's non-zero exit status and
    [StatusError] what [status.Error] builds. *)

Inductive sentinel :=
  | StoreNotFound | StoreConflict
  | VolumeInUse | VolumeShrink
  | WorkloadNoRuntime | ImageNoRuntime
  | UpdateNoPending | UpdateSlotMismatch | UpdateChecksum | UpdateTooLarge
  | OsNotExist | OsExist | SysEBUSY | IoEOF | ErrdefsNotFound.

#[export] Instance sentinel_eq_dec : EqDecision sentinel.
Proof. solve_decision. Defined.

(** The gRPC status codes the handlers answer with. *)
Inductive code :=
  | CodeUnknown | CodeInvalidArgument | CodeNotFound | CodeAlreadyExists | CodeFailedPrecondition
  | CodeUnimplemented | CodeInternal | CodeUnauthenticated.

#[export] Instance code_eq_dec : EqDecision code.
Proof. solve_decision. Defined.

Inductive error :=
  | Sentinel (s : sentinel)
  | Errorf (msg : string)
  | Wrap (before : string) (e : error) (after : string)
  | Wrap2 (before : string) (e1 : error) (mid : string) (e2 : error) (after : string)
  | ExitError (status : Z)
  | StatusError (c : code) (msg : string).

#[export] Instance error_eq_dec : EqDecision error.
Proof. solve_decision. Defined.

Definition sentinel_text (s : sentinel) : string :=
  match s with
  | StoreNotFound => "store: not found"
  | StoreConflict => "store: conflict"
  | VolumeInUse => "volume in use by one or more workloads"
  | VolumeShrink => "cannot shrink volume (grow-only)"
  | WorkloadNoRuntime => "no runtime driver configured"
  | ImageNoRuntime => "image runtime not available"
  | UpdateNoPending => "update: no pending slot"
  | UpdateSlotMismatch => "update: active slot does not match pending slot"
  | UpdateChecksum => "update: bundle sha256 mismatch"
  | UpdateTooLarge => "update: bundle too large for slot"
  | OsNotExist => "file does not exist"
  | OsExist => "file already exists"
  | SysEBUSY => "device or resource busy"
  | IoEOF => "EOF"
  | ErrdefsNotFound => "not found"
  end.

Definition code_text (c : code) : string :=
  match c with
  | CodeUnknown => "Unknown"
  | CodeInvalidArgument => "InvalidArgument"
  | CodeNotFound => "NotFound"
  | CodeAlreadyExists => "AlreadyExists"
  | CodeFailedPrecondition => "FailedPrecondition"
  | CodeUnimplemented => "Unimplemented"
  | CodeInternal => "Internal"
  | CodeUnauthenticated => "Unauthenticated"
  end.

(** [strconv.Itoa] *)
Definition Itoa (z : Z) : string := NilZero.string_of_int (Z.to_int z).

(** [err.Error()] *)
Fixpoint Error (e : error) : string :=
  match e with
  | Sentinel s => sentinel_text s
  | Errorf m => m
  | Wrap b e a => b +:+ Error e +:+ a
  | Wrap2 b e1 m e2 a => b +:+ Error e1 +:+ m +:+ Error e2 +:+ a
  | ExitError c => "exit status " +:+ Itoa c
  | StatusError c m => "rpc error: code = " +:+ code_text c +:+ " desc = " +:+ m
  end.

(** [errors.Is(err, sentinel)] follows the chain of wrapped errors. *)
Fixpoint errors_Is (e : error) (s : sentinel) : bool :=
  match e with
  | Sentinel s' => bool_decide (s' = s)
  | Errorf _ => false
  | Wrap _ e _ => errors_Is e s
  | Wrap2 _ e1 _ e2 _ => errors_Is e1 s || errors_Is e2 s
  | ExitError _ | StatusError _ _ => false
  end.

(** [errors.As(err, &exit)] and [exit.ExitCode()]: the first exit status of the chain. *)
Fixpoint exit_code (e : error) : option Z :=
  match e with
  | ExitError c => Some c
  | Wrap _ e _ => exit_code e
  | Wrap2 _ e1 _ e2 _ => match exit_code e1 with Some c => Some c | None => exit_code e2 end
  | _ => None
  end.

(** ** Fallible, state-passing programs

    [prog W A] is Go code that runs against a world [W] and returns a value or
    an error.  [bind] is "if err != nil return err"; [catch] gives the error
    to the code as a value. *)

Inductive result (A : Type) :=
  | Ok (a : A)
  | Err (e : error).
Arguments Ok {A} a.
Arguments Err {A} e.

#[export] Instance result_eq_dec {A} `{!EqDecision A} : EqDecision (result A).
Proof. solve_decision. Defined.

Definition is_ok {A} (r : result A) : bool := match r with Ok _ => true | Err _ => false end.

Definition prog (W A : Type) : Type := W -> result A * W.

Section prog.
Context {W : Type}.

Definition ret {A} (a : A) : prog W A := fun w => (Ok a, w).
Definition fail {A} (e : error) : prog W A := fun w => (Err e, w).
Definition bind {A B} (m : prog W A) (k : A -> prog W B) : prog W B :=
  fun w => match m w with (Ok a, w') => k a w' | (Err e, w') => (Err e, w') end.
Definition catch {A} (m : prog W A) : prog W (result A) :=
  fun w => let '(r, w') := m w in (Ok r, w').
(** [_ = m()]: the result, an error too, is dropped. *)
Definition ignore {A} (m : prog W A) : prog W unit :=
  fun w => let '(_, w') := m w in (Ok tt, w').
(** [if err := m(); err != nil { return fmt.Errorf(before + "%w" + after) }] *)
Definition wrap_err {A} (b : string) (m : prog W A) : prog W A :=
  fun w => match m w with (Ok a, w') => (Ok a, w') | (Err e, w') => (Err (Wrap b e ""), w') end.
(** The error of [m], translated. *)
Definition on_error {A} (f : error -> error) (m : prog W A) : prog W A := fun w =>
  match m w with (Ok a, w') => (Ok a, w') | (Err e, w') => (Err (f e), w') end.
Definition lift {A} (r : result A) : prog W A := fun w => (r, w).
Definition when (b : bool) (m : prog W unit) : prog W unit := if b then m else ret tt.
Fixpoint for_each {A} (l : list A) (f : A -> prog W unit) : prog W unit :=
  match l with
  | [] => ret tt
  | x :: l => bind (f x) (fun _ => for_each l f)
  end.
End prog.

Notation "x <- m ;; k" := (bind m (fun x => k))
  (at level 100, m at next level, right associativity) : go_scope.
Notation "m ;;; k" := (bind m (fun _ => k))
  (at level 100, right associativity) : go_scope.

Section prog_laws.
Context {W : Type}.
Local Open Scope go_scope.

Lemma bind_ret {A B} (a : A) (k : A -> prog W B) w : bind (ret a) k w = k a w.
Proof. reflexivity. Qed.

Lemma bind_Ok {A B} (m : prog W A) (k : A -> prog W B) w a w' :
  m w = (Ok a, w') -> bind m k w = k a w'.
Proof. unfold bind. by intros ->. Qed.

Lemma bind_Err {A B} (m : prog W A) (k : A -> prog W B) w e w' :
  m w = (Err e, w') -> bind m k w = (Err e, w').
Proof. unfold bind. by intros ->. Qed.

Lemma bind_Ok_inv {A B} (m : prog W A) (k : A -> prog W B) w b w' :
  bind m k w = (Ok b, w') -> exists a w1, m w = (Ok a, w1) /\ k a w1 = (Ok b, w').
Proof. unfold bind. destruct (m w) as [[a|e] w1]; naive_solver. Qed.

Lemma bind_cases {A B} (m : prog W A) (k : A -> prog W B) w r w' : bind m k w = (r, w') ->
  (exists e, m w = (Err e, w') /\ r = Err e) \/ exists a w1, m w = (Ok a, w1) /\ k a w1 = (r, w').
Proof. unfold bind. destruct (m w) as [[a|e] w1]; [eauto|]. intros [= <- <-]. eauto. Qed.

Lemma wrap_err_Ok {A} b (m : prog W A) w a w' : wrap_err b m w = (Ok a, w') -> m w = (Ok a, w').
Proof. unfold wrap_err. by destruct (m w) as [[]]. Qed.
Lemma wrap_err_Err {A} b (m : prog W A) w e w' : wrap_err b m w = (Err e, w') -> exists e', m w = (Err e', w').
Proof. unfold wrap_err. destruct (m w) as [[|e']]; [done|]. intros [= <- <-]. by exists e'. Qed.

Lemma on_error_Ok {A} f (m : prog W A) w a w' : on_error f m w = (Ok a, w') <-> m w = (Ok a, w').
Proof. unfold on_error. destruct (m w) as [[]]; naive_solver. Qed.

(** [inv] is kept by a program in every outcome. *)
Definition preserves {A} (inv : W -> Prop) (m : prog W A) : Prop :=
  forall w, inv w -> inv (m w).2.

Context (inv : W -> Prop).

Lemma preserves_run {A} (m : prog W A) w r w' : m w = (r, w') -> preserves inv m -> inv w -> inv w'.
Proof. intros E Hm Hw. specialize (Hm w Hw). by rewrite E in Hm. Qed.
Lemma preserves_ret {A} (a : A) : preserves inv (ret a).
Proof. by intros w. Qed.
Lemma preserves_fail {A} e : preserves inv (fail (A:=A) e).
Proof. by intros w. Qed.
Lemma preserves_lift {A} (r : result A) : preserves inv (lift r).
Proof. by intros w. Qed.
Lemma preserves_bind {A B} (m : prog W A) (k : A -> prog W B) :
  preserves inv m -> (forall a, preserves inv (k a)) -> preserves inv (bind m k).
Proof.
  intros Hm Hk w Hw. unfold bind. specialize (Hm w Hw).
  destruct (m w) as [[a|e] w1]; [apply Hk|]; done.
Qed.
(** What the value of the first part satisfies helps the second. *)
Lemma preserves_bind_post {A B} (Q : A -> Prop) (m : prog W A) (k : A -> prog W B) :
  preserves inv m -> (forall w a w', m w = (Ok a, w') -> Q a) -> (forall a, Q a -> preserves inv (k a)) ->
  preserves inv (bind m k).
Proof.
  intros Hm HQ Hk w Hw. unfold bind. specialize (Hm w Hw). specialize (HQ w).
  destruct (m w) as [[a|e] w1]; [|done]. apply Hk; [by eapply HQ|done].
Qed.
Lemma preserves_catch {A} (m : prog W A) : preserves inv m -> preserves inv (catch m).
Proof. intros Hm w Hw. unfold catch. specialize (Hm w Hw). by destruct (m w). Qed.
Lemma preserves_ignore {A} (m : prog W A) : preserves inv m -> preserves inv (ignore m).
Proof. intros Hm w Hw. unfold ignore. specialize (Hm w Hw). by destruct (m w). Qed.
Lemma preserves_wrap_err {A} b (m : prog W A) : preserves inv m -> preserves inv (wrap_err b m).
Proof. intros Hm w Hw. unfold wrap_err. specialize (Hm w Hw). by destruct (m w) as [[]]. Qed.
Lemma preserves_on_error {A} f (m : prog W A) : preserves inv m -> preserves inv (on_error f m).
Proof. intros H w Hw. specialize (H w Hw). unfold on_error. by destruct (m w) as [[]]. Qed.
Lemma preserves_when b m : preserves inv m -> preserves inv (when b m).
Proof. destruct b; [done|]. intros _. apply preserves_ret. Qed.
Lemma preserves_for_each {A} (l : list A) f :
  (forall x, x ∈ l -> preserves inv (f x)) -> preserves inv (for_each l f).
Proof.
  induction l as [|x l IH]; intros Hf; [apply preserves_ret|]. simpl.
  apply preserves_bind; [apply Hf; set_solver|]. intros _. apply IH. set_solver.
Qed.
End prog_laws.

(** Automation: [go_preserves] walks a program and closes the leaves with the
    lemmas of the [preserves] database. *)
Create HintDb preserves.
#[export] Hint Resolve preserves_on_error preserves_ret preserves_fail preserves_lift preserves_bind
  preserves_catch preserves_ignore preserves_wrap_err preserves_when : preserves.

Ltac go_preserves :=
  repeat match goal with
  | |- preserves _ (bind _ _) => apply preserves_bind; [|intros ?]
  | |- preserves _ (catch _) => apply preserves_catch
  | |- preserves _ (ignore _) => apply preserves_ignore
  | |- preserves _ (wrap_err _ _) => apply preserves_wrap_err
  | |- preserves _ (when _ _) => apply preserves_when
  | |- preserves _ (if ?b then _ else _) => destruct b eqn:?
  | |- preserves _ (match ?x with _ => _ end) => destruct x eqn:?
  | |- preserves _ (let _ := _ in _) => cbv zeta
  end; auto 3 with preserves.

(** Membership in a list of constants. *)
Ltac in_names := repeat first [apply list_elem_of_here|apply list_elem_of_further].

(** ** Frames

    [keeps f m]: the program [m] never changes the part [f] of the world. *)

Section keeps.
Context {W B : Type} (f : W -> B).

Definition keeps {A} (m : prog W A) : Prop := forall w, f (m w).2 = f w.

Lemma keeps_ret {A} (a : A) : keeps (ret a).
Proof. by intros w. Qed.
Lemma keeps_fail {A} e : keeps (fail (A:=A) e).
Proof. by intros w. Qed.
Lemma keeps_lift {A} (r : result A) : keeps (lift r).
Proof. by intros w. Qed.
Lemma keeps_bind {A C} (m : prog W A) (k : A -> prog W C) :
  keeps m -> (forall a, keeps (k a)) -> keeps (bind m k).
Proof.
  intros Hm Hk w. specialize (Hm w). unfold bind. destruct (m w) as [[a|e] w1]; simpl in *; [|done].
  by rewrite Hk.
Qed.
Lemma keeps_catch {A} (m : prog W A) : keeps m -> keeps (catch m).
Proof. intros Hm w. specialize (Hm w). unfold catch. by destruct (m w). Qed.
Lemma keeps_ignore {A} (m : prog W A) : keeps m -> keeps (ignore m).
Proof. intros Hm w. specialize (Hm w). unfold ignore. by destruct (m w). Qed.
Lemma keeps_wrap_err {A} b (m : prog W A) : keeps m -> keeps (wrap_err b m).
Proof. intros Hm w. specialize (Hm w). unfold wrap_err. by destruct (m w) as [[]]. Qed.
Lemma keeps_on_error {A} g (m : prog W A) : keeps m -> keeps (on_error g m).
Proof. intros Hm w. specialize (Hm w). unfold on_error. by destruct (m w) as [[]]. Qed.
Lemma keeps_when b m : keeps m -> keeps (when b m).
Proof. destruct b; [done|]. intros _. apply keeps_ret. Qed.
Lemma keeps_preserves {A} (m : prog W A) : (forall b, preserves (fun w => f w = b) m) -> keeps m.
Proof. intros Hm w. by apply (Hm (f w)). Qed.
Lemma keeps_run {A} (m : prog W A) w r w' : keeps m -> m w = (r, w') -> f w' = f w.
Proof. intros Hm E. specialize (Hm w). by rewrite E in Hm. Qed.
End keeps.

Create HintDb keeps.
#[export] Hint Resolve keeps_ret keeps_fail keeps_lift : keeps.

Ltac go_keeps :=
  repeat match goal with
  | |- keeps _ (bind _ _) => apply keeps_bind; [|intros ?]
  | |- keeps _ (catch _) => apply keeps_catch
  | |- keeps _ (ignore _) => apply keeps_ignore
  | |- keeps _ (wrap_err _ _) => apply keeps_wrap_err
  | |- keeps _ (on_error _ _) => apply keeps_on_error
  | |- keeps _ (when _ _) => apply keeps_when
  | |- keeps _ (if ?b then _ else _) => destruct b eqn:?
  | |- keeps _ (match ?x with _ => _ end) => destruct x eqn:?
  | |- keeps _ (let _ := _ in _) => cbv zeta
  end; auto 3 with keeps.

(** ** Calls that can fail

    A world with a fault schedule: for each call to the operating system, in
    order, whether it fails, with which error and after how many bytes.  Calls
    beyond the schedule succeed. *)

Definition fault : Type := option (nat * error).

Class Faulty (W : Type) := {
  faults_of : W -> list fault;
  with_faults : list fault -> W -> W }.

Class FaultyLaws (W : Type) `{!Faulty W} := {
  faults_with l w : faults_of (with_faults l w) = l;
  with_same w : with_faults (faults_of w) w = w }.

Section os_call.
Context {W : Type} `{!Faulty W}.

(** A call with effect [act]; a fault leaves [part n]. *)
Definition os_call {A} (part : nat -> W -> W) (act : prog W A) : prog W A := fun w =>
  match faults_of w with
  | Some (n, e) :: l => (Err e, part n (with_faults l w))
  | None :: l => act (with_faults l w)
  | [] => act w
  end.
Definition no_part (n : nat) (w : W) : W := w.

Lemma keeps_os_call {A B} (f : W -> B) part (act : prog W A) :
  (forall l w, f (with_faults l w) = f w) -> (forall n w, f (part n w) = f w) -> keeps f act ->
  keeps f (os_call part act).
Proof.
  intros Hl Hp Ha w. unfold os_call. destruct (faults_of w) as [|[[n e]|] l]; simpl.
  - apply Ha.
  - by rewrite Hp, Hl.
  - by rewrite Ha, Hl.
Qed.
Lemma preserves_os_call {A} (inv : W -> Prop) part (act : prog W A) :
  (forall l w, inv w -> inv (with_faults l w)) -> (forall n w, inv w -> inv (part n w)) -> preserves inv act ->
  preserves inv (os_call part act).
Proof.
  intros Hl Hp Ha w Hw. unfold os_call. destruct (faults_of w) as [|[[n e]|] l]; simpl; [by apply Ha|auto|].
  by apply Ha, Hl.
Qed.
Lemma keeps_pure_call {A B} (f : W -> B) (m : prog W A) :
  (forall l w, f (with_faults l w) = f w) -> keeps f m -> keeps f (os_call no_part m).
Proof. intros. by apply keeps_os_call. Qed.

Lemma os_call_Ok {A} `{!FaultyLaws W} part (act : prog W A) w a w' :
  os_call part act w = (Ok a, w') -> exists l, act (with_faults l w) = (Ok a, w').
Proof.
  unfold os_call. destruct (faults_of w) as [|[[n e]|] l] eqn:E; [|done|eauto].
  intros H. exists []. by rewrite <- E, with_same.
Qed.

(** A world without faults has none later. *)
Definition faultless (w : W) : Prop := faults_of w = [].

Lemma faultless_os_call {A} part (act : prog W A) : preserves faultless act -> preserves faultless (os_call part act).
Proof. intros Ha w Hw. unfold os_call. rewrite Hw. by apply Ha. Qed.
End os_call.

(** [go_step] runs the next call of a program whose outcome is known. *)
Ltac go_step :=
  match goal with
  | H : ?m ?w = (Ok ?a, ?w') |- context [bind ?m ?k ?w] => rewrite (bind_Ok m k w a w' H)
  | H : ?m ?w = (Err ?e, ?w') |- context [bind ?m ?k ?w] => rewrite (bind_Err m k w e w' H)
  end; cbv beta iota zeta.

(** [go_unfold] reduces the monad away in the goal. *)
Ltac go_unfold := unfold bind, catch, ignore, wrap_err, lift, ret, fail, when; cbn [fst snd].
Tactic Notation "go_unfold" "in" hyp(H) :=
  unfold bind, catch, ignore, wrap_err, lift, ret, fail, when in H; cbn [fst snd] in H.

(** ** Programs on a part of the world *)

Definition zoom {W P A} (get : W -> P) (set : P -> W -> W) (m : prog P A) : prog W A :=
  fun w => let '(r, p) := m (get w) in (r, set p w).
