(* ===== verification/GoStrings.v ===== *)
(** * The parts of Go's string libraries the program uses

    Go strings are byte strings, modelled by [string] (a sequence of 8-bit
    [ascii]).  The functions of package [strings], [strconv] and [regexp] are
    written out with the laws their callers rely on.  White space and letter
    case are those of ASCII: the program applies these functions to command
    output, tokens, digests and protocol names. *)

From S2P Require Import Prelude.
From Stdlib Require Import DecimalString DecimalZ DecimalFacts Decimal.

Set Default Goal Selector "!".

(** ** Characters *)

Definition chr (n : N) : ascii := ascii_of_N n.
Definition ord (c : ascii) : Z := Z.of_N (N_of_ascii c).
Definition NL : ascii := chr 10.
Definition DQ : ascii := chr 34.

(** ['\t' '\n' '\v' '\f' '\r' ' '] *)
Definition is_space (c : ascii) : bool :=
  (((9 <=? ord c) && (ord c <=? 13)) || (ord c =? 32))%Z.
Definition is_lower (c : ascii) : bool := ((97 <=? ord c) && (ord c <=? 122))%Z.
Definition is_upper (c : ascii) : bool := ((65 <=? ord c) && (ord c <=? 90))%Z.
Definition is_digit (c : ascii) : bool := ((48 <=? ord c) && (ord c <=? 57))%Z.

Definition lower (c : ascii) : ascii :=
  if is_upper c then chr (Z.to_N (ord c + 32)) else c.

Fixpoint all_chars (P : ascii -> bool) (s : string) : bool :=
  match s with
  | "" => true
  | String c s => P c && all_chars P s
  end.

Definition no_char (c : ascii) : string -> bool := all_chars (fun d => negb (Ascii.eqb c d)).

Fixpoint last_char (s : string) : option ascii :=
  match s with
  | "" => None
  | String c "" => Some c
  | String _ s => last_char s
  end.

(** Slices [s[:n]] and [s[n:]] (the caller has checked the bounds). *)
Fixpoint slice_to (n : nat) (s : string) : string :=
  match n, s with S n, String c s => String c (slice_to n s) | _, _ => "" end.
Fixpoint slice_from (n : nat) (s : string) : string :=
  match n, s with S n, String _ s => slice_from n s | _, _ => s end.

(** ** Package [strings] *)

Fixpoint map_string (f : ascii -> ascii) (s : string) : string :=
  match s with "" => "" | String c s => String (f c) (map_string f s) end.

Definition ToLower : string -> string := map_string lower.
Definition EqualFold (s t : string) : bool := String.eqb (ToLower s) (ToLower t).
Definition HasPrefix (s pre : string) : bool := String.prefix pre s.

Fixpoint Contains (s sub : string) : bool :=
  String.prefix sub s || match s with "" => false | String _ s => Contains s sub end.

Fixpoint trim_left (s : string) : string :=
  match s with
  | "" => ""
  | String c s' => if is_space c then trim_left s' else s
  end.

Fixpoint trim_right (s : string) : string :=
  match s with
  | "" => ""
  | String c s =>
      match trim_right s with
      | "" => if is_space c then "" else String c ""
      | t => String c t
      end
  end.

Definition TrimSpace (s : string) : string := trim_right (trim_left s).

(** [strings.Split(s, sep)] for a one-byte separator. *)
Fixpoint Split (sep : ascii) (s : string) : list string :=
  match s with
  | "" => [""]
  | String c s =>
      if Ascii.eqb c sep then "" :: Split sep s
      else match Split sep s with
           | [] => [String c ""]
           | h :: t => String c h :: t
           end
  end.

(** [%q]: Go's quoting of a string; bytes of printable UTF-8 runes beyond ASCII
    stand for themselves. *)
Definition hex_digit (n : Z) : ascii := chr (Z.to_N (if (n <? 10)%Z then 48 + n else 87 + n)%Z).
Definition quote_char (c : ascii) (rest : string) : string :=
  let n := ord c in
  if (Ascii.eqb c DQ || Ascii.eqb c (chr 92))%bool then String (chr 92) (String c rest)
  else if ((32 <=? n) && negb (n =? 127))%Z then String c rest
  else String (chr 92)
    (if (n =? 7)%Z then String "a" rest else if (n =? 8)%Z then String "b" rest
     else if (n =? 9)%Z then String "t" rest else if (n =? 10)%Z then String "n" rest
     else if (n =? 11)%Z then String "v" rest else if (n =? 12)%Z then String "f" rest
     else if (n =? 13)%Z then String "r" rest
     else String "x" (String (hex_digit (n / 16)) (String (hex_digit (n mod 16)) rest))).
Fixpoint quote_body (s : string) : string :=
  match s with "" => String DQ "" | String c s => quote_char c (quote_body s) end.
Definition Quote (s : string) : string := String DQ (quote_body s).

Definition Join (l : list string) (sep : string) : string := String.concat sep l.

(** [strings.Cut(s, sep)]: the text before and after the first separator. *)
Fixpoint Cut (sep : ascii) (s : string) : option (string * string) :=
  match s with
  | "" => None
  | String c s =>
      if Ascii.eqb c sep then Some ("", s)
      else match Cut sep s with
           | Some (b, a) => Some (String c b, a)
           | None => None
           end
  end.

(** [strings.LastIndex(s, c)] for one byte. *)
Fixpoint LastIndex (c : ascii) (s : string) : option nat :=
  match s with
  | "" => None
  | String d s => match LastIndex c s with
                  | Some i => Some (S i)
                  | None => if Ascii.eqb d c then Some 0 else None
                  end
  end.

(** [strings.Fields]: split around runs of white space. *)
Fixpoint fields_go (s cur : string) : list string :=
  match s with
  | "" => match cur with "" => [] | _ => [cur] end
  | String c s =>
      if is_space c then match cur with "" => fields_go s "" | _ => cur :: fields_go s "" end
      else fields_go s (cur +:+ String c "")
  end.
Definition Fields (s : string) : list string := fields_go s "".

Definition last_of (s : string) : ascii := default (chr 0) (last_char s).

(** [s == ""] *)
Definition str_empty (s : string) : bool := String.eqb s "".

(** ** Package [strconv] *)

(** [strconv.Atoi] on a 64-bit platform: an optional sign, digits, and the
    result in the range of [int]. *)
Definition parse_int (s : string) : option Z :=
  match s with
  | String "+" s =>
      match NilZero.uint_of_string s with
      | Some u => Some (Z.of_uint u)
      | None => None
      end
  | _ => match NilZero.int_of_string s with
         | Some i => Some (Z.of_int i)
         | None => None
         end
  end.

Definition Atoi (s : string) : option Z :=
  match parse_int s with
  | Some z => if ((- 2 ^ 63 <=? z) && (z <? 2 ^ 63))%Z then Some z else None
  | None => None
  end.

(** [strconv.ParseUint(s, 10, 64)] *)
Definition ParseUint (s : string) : option Z :=
  match NilZero.uint_of_string s with
  | Some u => if (Z.of_uint u <? 2 ^ 64)%Z then Some (Z.of_uint u) else None
  | None => None
  end.

(** ** Laws *)

Global Arguments String.append : simpl nomatch.

Lemma app_nil_str s : s +:+ "" = s.
Proof. induction s as [|c s IH]; simpl; congruence. Qed.

Lemma app_assoc_str s t u : (s +:+ t) +:+ u = s +:+ (t +:+ u).
Proof. induction s as [|c s IH]; simpl; congruence. Qed.

Lemma app_inj_l (p a b : string) : p +:+ a = p +:+ b -> a = b.
Proof. induction p as [|c p IH]; [done|]. intros [= H]. by apply IH. Qed.

Lemma prefix_app p s : HasPrefix (p +:+ s) p = true.
Proof.
  unfold HasPrefix. induction p as [|c p IH]; [by destruct s|].
  change (String c p +:+ s) with (String c (p +:+ s)). simpl. by destruct (ascii_dec c c).
Qed.

Lemma slice_from_app p s : slice_from (String.length p) (p +:+ s) = s.
Proof. induction p as [|c p IH]; [by destruct s|]. exact IH. Qed.

Lemma HasPrefix_app p s : HasPrefix s p = true -> exists r, s = p +:+ r.
Proof.
  unfold HasPrefix. revert s. induction p as [|c p IH]; intros s H; [by exists s|]. destruct s as [|d s]; [done|]. cbn in H.
  destruct (ascii_dec c d) as [->|]; [|done]. destruct (IH s H) as [r ->]. by exists r.
Qed.

Lemma all_chars_app P s t : all_chars P (s +:+ t) = all_chars P s && all_chars P t.
Proof. induction s as [|c s IH]; simpl; [done|]. rewrite IH. by destruct (P c). Qed.

Lemma all_chars_impl (P Q : ascii -> bool) s :
  (forall c, P c = true -> Q c = true) -> all_chars P s = true -> all_chars Q s = true.
Proof.
  intros HPQ. induction s as [|c s IH]; simpl; [done|].
  rewrite !andb_true_iff. naive_solver.
Qed.

Lemma Split_not_nil sep s : Split sep s <> [].
Proof. destruct s as [|c s]; simpl; [done|]. destruct (c =? sep)%char, (Split sep s); done. Qed.

Lemma Join_cons x y l sep : Join (x :: y :: l) sep = x +:+ sep +:+ Join (y :: l) sep.
Proof. reflexivity. Qed.

Lemma Join_head c x l sep : Join (String c x :: l) sep = String c (Join (x :: l) sep).
Proof. by destruct l. Qed.

(** Joining what [Split] returned gives the string back. *)
Lemma Join_Split sep s : Join (Split sep s) (String sep "") = s.
Proof.
  induction s as [|c s IH]; [done|]. cbn [Split].
  pose proof (Split_not_nil sep s). destruct (Split sep s) as [|h t] eqn:E; [done|].
  destruct (Ascii.eqb_spec c sep) as [->|Hne].
  - by rewrite Join_cons, IH.
  - by rewrite Join_head, IH.
Qed.

Lemma Split_app sep s t :
  no_char sep s = true -> Split sep (s +:+ String sep t) = s :: Split sep t.
Proof.
  intros Hs. induction s as [|c s IH]; cbn [String.append Split].
  - by rewrite Ascii.eqb_refl.
  - unfold no_char in Hs. cbn in Hs. apply andb_true_iff in Hs as [Hc Hs].
    rewrite Ascii.eqb_sym in Hc. apply negb_true_iff in Hc. rewrite Hc.
    by rewrite (IH Hs).
Qed.

Lemma Split_single sep s : no_char sep s = true -> Split sep s = [s].
Proof.
  induction s as [|c s IH]; [done|]. unfold no_char. cbn.
  intros [Hc Hs]%andb_true_iff. rewrite Ascii.eqb_sym in Hc. apply negb_true_iff in Hc.
  rewrite Hc. by rewrite IH.
Qed.

(** [Split] gives back the joined parts when no part holds the separator. *)
Lemma Split_app_both sep s t : Split sep (s +:+ String sep t) = Split sep s ++ Split sep t.
Proof.
  induction s as [|c s IH]; cbn [String.append Split].
  - rewrite Ascii.eqb_refl. done.
  - destruct (Ascii.eqb c sep); [by rewrite IH|]. rewrite IH. pose proof (Split_not_nil sep s). by destruct (Split sep s).
Qed.

Lemma Split_Join sep l :
  l <> [] -> Forall (fun s => no_char sep s = true) l ->
  Split sep (Join l (String sep "")) = l.
Proof.
  intros Hne Hl. induction Hl as [|s l Hs Hl IH]; [done|].
  destruct l as [|s2 l]; [by apply Split_single|].
  rewrite Join_cons. change (String sep "" +:+ ?x) with (String sep x).
  rewrite Split_app by done. f_equal. by apply IH.
Qed.

Lemma Cut_app sep s t :
  no_char sep s = true -> Cut sep (s +:+ String sep t) = Some (s, t).
Proof.
  intros Hs. induction s as [|c s IH]; cbn [String.append Cut].
  - by rewrite Ascii.eqb_refl.
  - unfold no_char in Hs. cbn in Hs. apply andb_true_iff in Hs as [Hc Hs].
    rewrite Ascii.eqb_sym in Hc. apply negb_true_iff in Hc. rewrite Hc.
    by rewrite (IH Hs).
Qed.

(** *** Decimal *)

Lemma to_int_not_nil z : Z.to_int z <> Pos Nil /\ Z.to_int z <> Neg Nil.
Proof.
  pose proof (DecimalZ.to_of (Z.to_int z)) as H. rewrite DecimalZ.of_to in H.
  split; intros E; rewrite E in H; discriminate H.
Qed.

Lemma Itoa_cases z :
  exists u, u <> Nil /\ (Itoa z = NilEmpty.string_of_uint u \/ Itoa z = String "-" (NilEmpty.string_of_uint u)).
Proof.
  unfold Itoa. destruct (to_int_not_nil z) as [Hp Hn].
  destruct (Z.to_int z) as [u|u]; exists u; (split; [congruence|]); [left|right];
    destruct u; simpl; congruence.
Qed.

Lemma parse_int_Itoa z : parse_int (Itoa z) = Some z.
Proof.
  unfold Itoa. destruct (to_int_not_nil z) as [Hp Hn].
  pose proof (NilZero.isi (Z.to_int z) Hp Hn) as H.
  assert (exists c s, NilZero.string_of_int (Z.to_int z) = String c s /\ c <> "+"%char) as (c & s & E & Hc).
  { destruct (Z.to_int z) as [u|u]; destruct u; try congruence; do 2 eexists; (split; [reflexivity|done]). }
  unfold parse_int. rewrite E in *. rewrite H.
  destruct (ascii_dec c "+"%char) as [|Hne]; [done|].
  rewrite DecimalZ.of_to.
  destruct c as [[] [] [] [] [] [] [] []]; done.
Qed.

(** [Atoi(Itoa(z)) = z] for every value of [int]. *)
Lemma Atoi_Itoa z : (- 2 ^ 63 <= z < 2 ^ 63)%Z -> Atoi (Itoa z) = Some z.
Proof.
  intros Hz. unfold Atoi. rewrite parse_int_Itoa.
  case_match eqn:E; [done|]. apply andb_false_iff in E. lia.
Qed.

Lemma ParseUint_Itoa z : (0 <= z < 2 ^ 64)%Z -> ParseUint (Itoa z) = Some z.
Proof.
  intros Hz. unfold ParseUint, Itoa. destruct (to_int_not_nil z) as [Hp _].
  pose proof (DecimalZ.of_to z) as Hof. assert (exists u, Z.to_int z = Pos u) as [u Hu].
  { unfold Z.to_int. destruct z; [eauto..|lia]. }
  rewrite Hu in *. simpl. rewrite NilZero.usu by congruence. simpl in Hof. rewrite Hof.
  by rewrite (proj2 (Z.ltb_lt _ _)) by lia.
Qed.

Lemma Itoa_inj a b : Itoa a = Itoa b -> a = b.
Proof. intros H. pose proof (parse_int_Itoa a) as Ha. rewrite H, parse_int_Itoa in Ha. congruence. Qed.

Definition is_decimal (c : ascii) : bool := is_digit c || Ascii.eqb c "-".

Lemma uint_chars u : all_chars is_digit (NilEmpty.string_of_uint u) = true.
Proof. induction u; simpl; try done. Qed.

Lemma Itoa_chars z : all_chars is_decimal (Itoa z) = true.
Proof.
  destruct (Itoa_cases z) as (u & _ & [-> | ->]).
  - eapply all_chars_impl, uint_chars. intros c Hc. unfold is_decimal. by rewrite Hc.
  - cbn. eapply all_chars_impl, uint_chars. intros c Hc. unfold is_decimal. by rewrite Hc.
Qed.

Lemma Itoa_digits n : (0 <= n)%Z -> all_chars is_digit (Itoa n) = true.
Proof.
  intros Hn. unfold Itoa. destruct n as [|p|p]; [done| |lia]. cbn [Z.to_int NilZero.string_of_int].
  unfold NilZero.string_of_uint. destruct (Pos.to_uint p) eqn:E; [done|..]; apply (uint_chars (_ _)).
Qed.

Lemma Itoa_no_char z c : is_decimal c = false -> no_char c (Itoa z) = true.
Proof.
  intros Hc. eapply all_chars_impl, Itoa_chars. intros d Hd. simpl.
  destruct (Ascii.eqb_spec c d) as [->|]; [congruence|done].
Qed.

Lemma Itoa_not_empty z : Itoa z <> "".
Proof. destruct (Itoa_cases z) as (u & Hu & [-> | ->]); [destruct u|]; simpl; congruence. Qed.

(** *** White space *)

Lemma trim_right_id s c : last_char s = Some c -> is_space c = false -> trim_right s = s.
Proof.
  induction s as [|d s IH]; [done|]. intros Hl Hc. cbn [trim_right].
  destruct s as [|e s].
  - simpl in *. simplify_eq. by rewrite Hc.
  - rewrite IH by done. done.
Qed.

Lemma TrimSpace_id c s d :
  is_space c = false -> last_char (String c s) = Some d -> is_space d = false ->
  TrimSpace (String c s) = String c s.
Proof.
  intros Hc Hl Hd. unfold TrimSpace. cbn [trim_left]. rewrite Hc. by eapply trim_right_id.
Qed.

Lemma trim_no_space s : all_chars (fun c => negb (is_space c)) s = true -> TrimSpace s = s.
Proof.
  intros H. unfold TrimSpace. assert (trim_left s = s) as ->.
  { destruct s as [|c s]; [done|]. cbn [all_chars trim_left] in *. apply andb_true_iff in H as [Hc _]. by apply negb_true_iff in Hc as ->. }
  induction s as [|c s IH]; [done|]. cbn [all_chars trim_right] in *. apply andb_true_iff in H as [Hc H]. rewrite IH by done.
  apply negb_true_iff in Hc as ->. by destruct s.
Qed.

Lemma ToLower_id s : all_chars (fun c => negb (is_upper c)) s = true -> ToLower s = s.
Proof.
  induction s as [|c s IH]; [done|]. unfold ToLower in *. cbn [all_chars map_string]. intros [Hc H]%andb_true_iff. rewrite IH by done. f_equal.
  unfold lower. by apply negb_true_iff in Hc as ->.
Qed.

Lemma last_char_app s t : t <> "" -> last_char (s +:+ t) = last_char t.
Proof.
  intros Ht. induction s as [|c s IH]; [done|]. cbn [String.append last_char].
  destruct (s +:+ t) eqn:E; [|by rewrite IH].
  destruct s; simpl in E; congruence.
Qed.

Lemma ToLower_idem s : ToLower (ToLower s) = ToLower s.
Proof.
  unfold ToLower. induction s as [|c s IH]; [done|]. cbn [map_string]. rewrite IH. f_equal.
  destruct c as [[] [] [] [] [] [] [] []]; reflexivity.
Qed.

(** ** Package [regexp]

    A matcher by derivatives for the two patterns of the program, with the
    language it decides. *)

Inductive regexp :=
  | RNone
  | REps
  | RClass (P : ascii -> bool)
  | RSeq (r1 r2 : regexp)
  | RAlt (r1 r2 : regexp)
  | RStar (r : regexp).

Definition ROpt (r : regexp) : regexp := RAlt r REps.

Inductive re_in : regexp -> string -> Prop :=
  | in_eps : re_in REps ""
  | in_class P c : P c = true -> re_in (RClass P) (String c "")
  | in_seq r1 r2 s t : re_in r1 s -> re_in r2 t -> re_in (RSeq r1 r2) (s +:+ t)
  | in_alt_l r1 r2 s : re_in r1 s -> re_in (RAlt r1 r2) s
  | in_alt_r r1 r2 s : re_in r2 s -> re_in (RAlt r1 r2) s
  | in_star_nil r : re_in (RStar r) ""
  | in_star_cons r s t : re_in r s -> re_in (RStar r) t -> re_in (RStar r) (s +:+ t).

Fixpoint nullable (r : regexp) : bool :=
  match r with
  | RNone | RClass _ => false
  | REps | RStar _ => true
  | RSeq r1 r2 => nullable r1 && nullable r2
  | RAlt r1 r2 => nullable r1 || nullable r2
  end.

Fixpoint deriv (c : ascii) (r : regexp) : regexp :=
  match r with
  | RNone | REps => RNone
  | RClass P => if P c then REps else RNone
  | RSeq r1 r2 =>
      if nullable r1 then RAlt (RSeq (deriv c r1) r2) (deriv c r2) else RSeq (deriv c r1) r2
  | RAlt r1 r2 => RAlt (deriv c r1) (deriv c r2)
  | RStar r => RSeq (deriv c r) (RStar r)
  end.

(** [re.MatchString] for a pattern anchored by [^] and [$]. *)
Fixpoint MatchString (r : regexp) (s : string) : bool :=
  match s with
  | "" => nullable r
  | String c s => MatchString (deriv c r) s
  end.

Lemma seq_inv r1 r2 u :
  re_in (RSeq r1 r2) u <-> exists s t, u = s +:+ t /\ re_in r1 s /\ re_in r2 t.
Proof. split; [inversion 1; eauto|]. intros (s & t & -> & ? & ?). by constructor. Qed.

Lemma alt_inv r1 r2 u : re_in (RAlt r1 r2) u <-> re_in r1 u \/ re_in r2 u.
Proof. split; [inversion 1; auto|]. intros [?|?]; by constructor. Qed.

Lemma class_inv P u : re_in (RClass P) u <-> exists c, u = String c "" /\ P c = true.
Proof. split; [inversion 1; eauto|]. intros (c & -> & ?). by constructor. Qed.

Lemma eps_inv u : re_in REps u <-> u = "".
Proof. split; [by inversion 1|]. intros ->. constructor. Qed.

Lemma nullable_spec r : nullable r = true <-> re_in r "".
Proof.
  induction r as [| |P|r1 IH1 r2 IH2|r1 IH1 r2 IH2|r IH]; cbn [nullable].
  - split; [done|inversion 1].
  - by rewrite eps_inv.
  - rewrite class_inv. split; [done|]. by intros (c & ? & _).
  - rewrite andb_true_iff, IH1, IH2, seq_inv. split; [intros []; by exists "", ""|].
    intros ([|? s] & t & E & H1 & H2); simpl in E; by simplify_eq.
  - by rewrite orb_true_iff, IH1, IH2, alt_inv.
  - split; [constructor|done].
Qed.

Lemma star_cons_inv r c s :
  re_in (RStar r) (String c s) ->
  exists s1 s2, s = s1 +:+ s2 /\ re_in r (String c s1) /\ re_in (RStar r) s2.
Proof.
  intros H. remember (RStar r) as q eqn:Eq. remember (String c s) as u eqn:Eu.
  revert c s Eu. induction H as [| | | | | |r' s1 s2 H1 _ H2 IH2]; intros c0 s' Eu;
    try discriminate.
  injection Eq as ->. destruct s1 as [|d s1]; cbn in Eu; [by apply IH2|].
  injection Eu as -> <-. eauto.
Qed.

Lemma seq_cons_inv r1 r2 c u :
  re_in (RSeq r1 r2) (String c u) <->
  (exists s t, u = s +:+ t /\ re_in r1 (String c s) /\ re_in r2 t) \/
  (re_in r1 "" /\ re_in r2 (String c u)).
Proof.
  rewrite seq_inv. split.
  - intros ([|d s] & t & E & H1 & H2); simpl in E; simplify_eq; [by right|left; eauto].
  - intros [(s & t & -> & H1 & H2)|[H1 H2]]; [exists (String c s), t|exists "", (String c u)]; done.
Qed.

Lemma deriv_spec c r s : re_in (deriv c r) s <-> re_in r (String c s).
Proof.
  revert s. induction r as [| |P|r1 IH1 r2 IH2|r1 IH1 r2 IH2|r IH]; intros s; cbn [deriv].
  - split; inversion 1.
  - split; inversion 1.
  - rewrite class_inv. destruct (P c) eqn:HP.
    + rewrite eps_inv. split; [intros ->; eauto|]. by intros (d & [= <- ->] & _).
    + split; [inversion 1|]. intros (d & [= <- ->] & Hd). congruence.
  - rewrite seq_cons_inv. assert (re_in (RSeq (deriv c r1) r2) s <->
      exists s1 s2, s = s1 +:+ s2 /\ re_in r1 (String c s1) /\ re_in r2 s2) as Hseq.
    { rewrite seq_inv. by setoid_rewrite IH1. }
    destruct (nullable r1) eqn:Hn; [apply nullable_spec in Hn; rewrite alt_inv, IH2|];
      rewrite Hseq; [tauto|].
    split; [auto|]. intros [?|[?%nullable_spec _]]; [done|congruence].
  - by rewrite !alt_inv, IH1, IH2.
  - split.
    + intros (s1 & s2 & -> & H1%IH & H2)%seq_inv. by apply (in_star_cons _ (String c s1) s2).
    + intros (s1 & s2 & -> & H1 & H2)%star_cons_inv. constructor; [by apply IH|done].
Qed.

(** The matcher decides the language of its pattern. *)
Lemma MatchString_spec r s : MatchString r s = true <-> re_in r s.
Proof.
  revert r. induction s as [|c s IH]; intros r; simpl; [apply nullable_spec|].
  rewrite IH. apply deriv_spec.
Qed.

Lemma star_class_spec P s : re_in (RStar (RClass P)) s <-> all_chars P s = true.
Proof.
  split.
  - induction s as [|c s IH]; [done|].
    intros (s1 & s2 & -> & (d & Ed & Hd)%class_inv & H2)%star_cons_inv. simplify_eq.
    cbn in *. by rewrite Hd, IH.
  - induction s as [|c s IH]; cbn; [constructor|].
    intros [Hc Hs]%andb_true_iff. apply (in_star_cons _ (String c "") s); [by constructor|auto].
Qed.

(** *** The DNS-1123 label pattern of workload and volume names *)

Definition is_alnum_lower (c : ascii) : bool := is_lower c || is_digit c.
Definition is_label_char (c : ascii) : bool := Ascii.eqb c "-" || is_alnum_lower c.

(** [regexp.MustCompile(`^[a-z0-9]([-a-z0-9]*[a-z0-9])?$`)] *)
Definition nameRE : regexp :=
  RSeq (RClass is_alnum_lower)
    (ROpt (RSeq (RStar (RClass is_label_char)) (RClass is_alnum_lower))).

(** What the pattern says: lower-case letters, digits and ['-'], neither the
    first nor the last character a ['-']. *)
Definition dns_label (s : string) : Prop :=
  exists c d, String.get 0 s = Some c /\ last_char s = Some d /\
    is_alnum_lower c = true /\ is_alnum_lower d = true /\ all_chars is_label_char s = true.

Lemma last_char_snoc s d : last_char (s +:+ String d "") = Some d.
Proof. by rewrite last_char_app. Qed.

Lemma last_char_split s d :
  last_char s = Some d -> exists t, s = t +:+ String d "".
Proof.
  induction s as [|c s IH]; [done|]. cbn [last_char]. destruct s as [|e s].
  - intros [= ->]. by exists "".
  - intros H. destruct (IH H) as [t ->]. by exists (String c t).
Qed.

Lemma alnum_label c : is_alnum_lower c = true -> is_label_char c = true.
Proof. unfold is_label_char. intros ->. apply orb_true_r. Qed.

Lemma nameRE_spec s : MatchString nameRE s = true <-> dns_label s.
Proof.
  rewrite MatchString_spec. unfold nameRE, ROpt. rewrite seq_inv. split.
  - intros (s1 & s2 & -> & (c & -> & Hc)%class_inv & [H|H]%alt_inv).
    + apply seq_inv in H as (t & u & -> & Ht%star_class_spec & (d & -> & Hd)%class_inv).
      exists c, d. split_and!; try done.
      * change (last_char (String c t +:+ String d "") = Some d). apply last_char_snoc.
      * cbn. rewrite all_chars_app, Ht. cbn. by rewrite !alnum_label.
    + apply eps_inv in H as ->. exists c, c. cbn. by rewrite alnum_label.
  - intros (c & d & Hc & Hd & Hac & Had & Hall).
    destruct s as [|c' s]; [done|]. cbn in Hc. simplify_eq.
    exists (String c ""), s. split_and!; [done|by constructor|]. apply alt_inv.
    destruct s as [|e s]; [right; constructor|left].
    cbn in Hall. apply andb_true_iff in Hall as [_ Hall].
    change (all_chars is_label_char (String e s) = true) in Hall.
    destruct (last_char_split (String e s) d Hd) as [t Ht]. rewrite Ht in *.
    rewrite all_chars_app in Hall. apply andb_true_iff in Hall as [Hall _].
    apply in_seq; [by apply star_class_spec|by constructor].
Qed.
