(* ===== verification/Net.v ===== *)
(** * Addresses: package net *)

From S2P Require Import Prelude GoStrings.

Set Default Goal Selector "!".
Local Open Scope go_scope.

(** A [net.IP]: 4 or 16 bytes. *)
Definition IP := list Z.

Definition To4 (a : IP) : option IP :=
  match a with
  | [_; _; _; _] => Some a
  | [0; 0; 0; 0; 0; 0; 0; 0; 0; 0; 255; 255; b0; b1; b2; b3]%Z => Some [b0; b1; b2; b3]
  | _ => None
  end.

(** [ip.String()] of four bytes. *)
Definition dotted (a : IP) : string := Join (Itoa <$> a) ".".

Definition IsLoopback4 (a : IP) : bool := match a with b0 :: _ => (b0 =? 127)%Z | [] => false end.

(** An interface as [net.Interfaces] lists it, with its [Addrs]; an address
    that is not a [*net.IPNet] is [None]. *)
Record Iface := mkIface { if_loopback : bool; if_up : bool; if_addrs : result (list (option IP)) }.

(** The first global IPv4 address. *)
Definition addr_ipv4 (a : option IP) : option string :=
  match a with
  | None => None
  | Some ip => match To4 ip with
               | Some ipv4 => if IsLoopback4 ipv4 then None else Some (dotted ipv4)
               | None => None
               end
  end.
Definition iface_ipv4 (i : Iface) : option string :=
  if if_loopback i then None
  else if negb (if_up i) then None
  else match if_addrs i with Err _ => None | Ok addrs => head (omap addr_ipv4 addrs) end.
Definition defaultIPv4 (ifaces : result (list Iface)) : string :=
  match ifaces with Err _ => "" | Ok l => default "" (head (omap iface_ipv4 l)) end.
