(* ===== verification/Exec.v ===== *)
(** * External commands: package os/exec

    The programs the daemon runs (LVM, mkfs, mount, ip, ...) are outside the
    repository: a type of machines with a command runner, whose behaviour the
    components that rely on it state as laws. *)

From S2P Require Import Prelude GoStrings.

Set Default Goal Selector "!".
Local Open Scope go_scope.

(** What a finished command gives: standard output, standard output and
    error together, and the error of [Run]. *)
Record Output := mkOutput { o_stdout : string; o_combined : string; o_err : option error }.

Class Commands (D : Type) := exec_Command : string -> list string -> D -> Output * D.

Section exec.
Context {D : Type} `{!Commands D}.

Definition exec_prog (path : string) (args : list string) : prog D Output := fun d =>
  let '(o, d') := exec_Command path args d in (Ok o, d').

(** [_ = exec.Command(...).Run()] *)
Definition exec_quiet (path : string) (args : list string) : prog D unit := ignore (exec_prog path args).

(** A command whose failure is reported with its combined output. *)
Definition exec_or_fail (what path : string) (args : list string) : prog D unit :=
  o <- exec_prog path args ;;
  match o_err o with
  | Some err => fail (Wrap (what +:+ ": ") err (": " +:+ TrimSpace (o_combined o)))
  | None => ret tt
  end.
End exec.

(** A world that records the commands it runs, the latest first. *)
Class Recorded (W : Type) `{!Commands W} := {
  log_of : W -> list (string * list string);
  log_exec path args w : log_of (exec_Command path args w).2 = (path, args) :: log_of w }.

(** Any machine can be made to record. *)
Record Logged (D : Type) := mkLogged { lg_machine : D; lg_log : list (string * list string) }.
Arguments mkLogged {D}.
Arguments lg_machine {D}.
Arguments lg_log {D}.

#[export] Instance Logged_exec {D} `{!Commands D} : Commands (Logged D) := fun path args d =>
  let '(o, m) := exec_Command path args (lg_machine d) in (o, mkLogged m ((path, args) :: lg_log d)).
#[export] Program Instance Logged_recorded {D} `{!Commands D} : Recorded (Logged D) := {| log_of := lg_log |}.
Next Obligation. intros D C path args w. unfold exec_Command, Logged_exec. by destruct (exec_Command _ _ _). Qed.

(** ** Invariants of the commands run

    [runs P m]: every command [m] runs satisfies [P]. *)
Section runs.
Context {W : Type} `{!Commands W} `{!Recorded W} (P : string * list string -> Prop).

Definition logs (w : W) : Prop := Forall P (log_of w).
Definition runs {A} (m : prog W A) : Prop := preserves logs m.

Lemma runs_quiet {A} (m : prog W A) : keeps log_of m -> runs m.
Proof. intros Hm w Hw. unfold logs. by rewrite Hm. Qed.
Lemma runs_exec path args : P (path, args) -> runs (exec_prog path args).
Proof.
  intros H w Hw. unfold exec_prog. pose proof (log_exec path args w) as Hl. unfold logs.
  destruct (exec_Command path args w) as [o w']. simpl in *. rewrite Hl. by constructor.
Qed.
Lemma runs_exec_quiet path args : P (path, args) -> runs (exec_quiet path args).
Proof. intros. by apply preserves_ignore, runs_exec. Qed.
Lemma runs_exec_or_fail what path args : P (path, args) -> runs (exec_or_fail what path args).
Proof. intros. apply preserves_bind; [by apply runs_exec|]. intros o. destruct (o_err o); [apply preserves_fail|apply preserves_ret]. Qed.
End runs.

(** ** Waiting for a device node

    [waitForPath] (core/install) and [waitForBlockDevice] (boot) poll every
    50 ms until the path exists or the deadline has passed. *)
Class Clocked (W : Type) := {
  now_ns : W -> Z;
  sleep : Z -> W -> W;
  path_exists : string -> W -> bool }.


Section poll.
Context {W : Type} `{!Clocked W}.

(** One round per unit of fuel; [true] when the path was seen. *)
Fixpoint poll (fuel : nat) (until : Z) (path : string) : prog W bool := fun w =>
  match fuel with
  | O => (Ok false, w)
  | S fuel =>
      if (now_ns w <? until)%Z then
        if path_exists path w then (Ok true, w)
        else poll fuel until path (sleep (50 * Millisecond) w)
      else (Ok false, w)
  end.

Definition poll_fuel (deadline : Z) : nat := Z.to_nat (deadline / (50 * Millisecond) + 1).

(** [deadline] in nanoseconds, [shown] as [%s] prints it. *)
Definition wait_for (prefix shown path : string) (deadline : Z) : prog W unit := fun w =>
  (seen <- poll (poll_fuel deadline) (now_ns w + deadline)%Z path ;;
   if (seen : bool) then ret tt else fail (Errorf (prefix +:+ path +:+ " not present after " +:+ shown))) w.

(** The poll gives up only when the deadline has passed: the fuel is enough on
    a clock that advances by at least the time slept. *)
Lemma poll_deadline fuel until path w w' :
  (forall t v, 0 <= t -> now_ns v + t <= now_ns (sleep t v))%Z ->
  (until - now_ns w < Z.of_nat fuel * (50 * Millisecond))%Z ->
  poll fuel until path w = (Ok false, w') -> (until <= now_ns w')%Z.
Proof.
  intros Hclock. revert w. induction fuel as [|fuel IH]; intros w Hf H; cbn [poll] in H.
  - injection H as <-. lia.
  - destruct (Z.ltb_spec (now_ns w) until); [|injection H as <-; lia].
    destruct (path_exists path w); [done|]. apply IH in H; [done|].
    pose proof (Hclock (50 * Millisecond)%Z w). unfold Millisecond in *. lia.
Qed.
Lemma poll_seen fuel until path w w' : poll fuel until path w = (Ok true, w') -> path_exists path w' = true.
Proof.
  revert w. induction fuel as [|fuel IH]; intros w H; cbn [poll] in H; [done|].
  destruct (_ <? _)%Z; [|done]. destruct (path_exists path w) eqn:E; [by injection H as <-|by apply IH in H].
Qed.
Lemma poll_Ok fuel until path w : exists b, (poll fuel until path w).1 = Ok b.
Proof.
  revert w. induction fuel as [|fuel IH]; intros w; cbn [poll]; [eauto|].
  destruct (_ <? _)%Z; [|eauto]. destruct (path_exists path w); eauto.
Qed.
Lemma keeps_poll {B} (f : W -> B) fuel until path :
  (forall t w, f (sleep t w) = f w) -> keeps f (poll fuel until path).
Proof.
  intros Hs. induction fuel as [|fuel IH]; intros w; cbn [poll]; [done|].
  destruct (_ <? _)%Z; [|done]. destruct (path_exists path w); [done|]. by rewrite IH, Hs.
Qed.
Lemma keeps_wait_for {B} (f : W -> B) prefix shown path deadline :
  (forall t w, f (sleep t w) = f w) -> keeps f (wait_for prefix shown path deadline).
Proof.
  intros Hs w. unfold wait_for.
  match goal with |- _ (?m w).2 = _ => enough (keeps f m) as Hk by apply Hk end.
  apply keeps_bind; [by apply keeps_poll|]. intros []; [apply keeps_ret|apply keeps_fail].
Qed.

Lemma preserves_wait_for (inv : W -> Prop) prefix shown path deadline :
  (forall t w, inv w -> inv (sleep t w)) -> preserves inv (wait_for prefix shown path deadline).
Proof.
  intros Hs w Hw. unfold wait_for.
  assert (forall fuel until, preserves inv (poll fuel until path)) as Hp.
  { clear w Hw. intros fuel until. induction fuel as [|fuel IH]; intros w Hw; cbn [poll]; [done|].
    destruct (_ <? _)%Z; [|done]. destruct (path_exists path w); [done|]. by apply IH, Hs. }
  match goal with |- inv (?m w).2 => enough (preserves inv m) as Hk by by apply Hk end.
  apply preserves_bind; [done|]. intros []; [apply preserves_ret|apply preserves_fail].
Qed.

(** Either the path was seen, or the deadline has passed without it. *)
Lemma wait_for_spec prefix shown path deadline w r w' :
  (forall t v, 0 <= t -> now_ns v + t <= now_ns (sleep t v))%Z -> (0 <= deadline)%Z ->
  wait_for prefix shown path deadline w = (r, w') ->
  match r with Ok _ => path_exists path w' = true | Err _ => (now_ns w + deadline <= now_ns w')%Z end.
Proof.
  intros Hclock Hd H. unfold wait_for, bind in H.
  destruct (poll_Ok (poll_fuel deadline) (now_ns w + deadline)%Z path w) as [b Hb].
  destruct (poll _ _ path w) as [r1 w1] eqn:E. simpl in Hb. subst r1. destruct b; injection H as <- <-.
  - by apply poll_seen in E.
  - apply poll_deadline in E; [done|done|]. unfold poll_fuel.
    pose proof (Z.mul_succ_div_gt deadline (50 * Millisecond) ltac:(unfold Millisecond; lia)).
    pose proof (Z.div_pos deadline (50 * Millisecond) Hd ltac:(unfold Millisecond; lia)). lia.
Qed.
End poll.

(** [defer cleanup()] after a step that needs it: the result is the body's. *)
Definition finally {W A} (m : prog W A) (cleanup : prog W unit) : prog W A :=
  r <- catch m ;; ignore cleanup ;;; lift r.

Lemma keeps_finally {W A B} (f : W -> B) (m : prog W A) c : keeps f m -> keeps f c -> keeps f (finally m c).
Proof. intros. unfold finally. go_keeps; done. Qed.
Lemma preserves_finally {W A} (inv : W -> Prop) (m : prog W A) c :
  preserves inv m -> preserves inv c -> preserves inv (finally m c).
Proof. intros. unfold finally. go_preserves; done. Qed.
Lemma finally_Ok {W A} (m : prog W A) c w a w' : finally m c w = (Ok a, w') -> exists w1, m w = (Ok a, w1) /\ w' = (c w1).2.
Proof.
  unfold finally, bind, catch, ignore, lift. destruct (m w) as [r w1]. destruct (c w1) as [rc w2] eqn:E.
  intros [= -> <-]. exists w1. by rewrite E.
Qed.
