(* ===== verification/Models.v ===== *)
(** * The data model: messages of models/capsule/v1 and records of store/

    Protocol-buffer messages are records; a message-typed field (a Go pointer
    that can be nil) is an [option].  A proto3 enum is open: a value the code
    has no name for is the constructor [..._OTHER]. *)

From S2P Require Import Prelude.

Set Default Goal Selector "!".

(** ** workload.proto *)

Inductive DesiredState :=
  | DESIRED_STATE_UNSPECIFIED | DESIRED_STATE_RUNNING | DESIRED_STATE_STOPPED
  | DESIRED_STATE_DELETING | DESIRED_STATE_OTHER (n : Z).
Inductive WorkloadKind :=
  | WORKLOAD_KIND_UNSPECIFIED | WORKLOAD_KIND_CONTAINER | WORKLOAD_KIND_MICRO_VM
  | WORKLOAD_KIND_OTHER (n : Z).
Inductive WorkloadPhase :=
  | WORKLOAD_PHASE_UNSPECIFIED | WORKLOAD_PHASE_PENDING | WORKLOAD_PHASE_RUNNING
  | WORKLOAD_PHASE_FAILED | WORKLOAD_PHASE_STOPPED | WORKLOAD_PHASE_OTHER (n : Z).
Inductive NetworkMode :=
  | NETWORK_MODE_UNSPECIFIED | NETWORK_MODE_HOST | NETWORK_MODE_BRIDGE
  | NETWORK_MODE_OTHER (n : Z).

#[export] Instance DesiredState_eq_dec : EqDecision DesiredState.
Proof. solve_decision. Defined.
#[export] Instance WorkloadKind_eq_dec : EqDecision WorkloadKind.
Proof. solve_decision. Defined.
#[export] Instance WorkloadPhase_eq_dec : EqDecision WorkloadPhase.
Proof. solve_decision. Defined.
#[export] Instance NetworkMode_eq_dec : EqDecision NetworkMode.
Proof. solve_decision. Defined.

Record PortMapping := mkPortMapping {
  pm_container_port : Z;   (* uint32 *)
  pm_host_port : Z;        (* uint32 *)
  pm_protocol : string }.

Record VolumeMount := mkVolumeMount {
  vm_volume_name : string;
  vm_mount_path : string;
  vm_read_only : bool }.

#[export] Instance PortMapping_eq_dec : EqDecision PortMapping.
Proof. solve_decision. Defined.
#[export] Instance VolumeMount_eq_dec : EqDecision VolumeMount.
Proof. solve_decision. Defined.

Record ContainerSpec := mkContainerSpec {
  cs_image : string;
  cs_command : list string;
  cs_args : list string;
  cs_env : gmap string string;
  cs_mounts : list VolumeMount;
  cs_network_mode : NetworkMode;
  cs_ports : list PortMapping;
  cs_privileged : bool;
  cs_host_pid : bool;
  cs_host_mount : bool;
  cs_host_ipc : bool;
  cs_host_bind_paths : list string }.

Record MicroVMSpec := mkMicroVMSpec {
  mv_image : string;
  mv_command : list string;
  mv_args : list string;
  mv_env : gmap string string;
  mv_kernel_path : string;
  mv_rootfs_path : string;
  mv_vcpus : Z;            (* uint32 *)
  mv_memory_mib : Z;       (* uint32 *)
  mv_mounts : list VolumeMount;
  mv_kernel_cmdline_extra : string;
  mv_backend : Z;
  mv_ports : list PortMapping }.

Record WorkloadStatus := mkWorkloadStatus {
  ws_phase : WorkloadPhase;
  ws_message : string;
  ws_restart_count : Z }.

#[export] Instance ContainerSpec_eq_dec : EqDecision ContainerSpec.
Proof. solve_decision. Defined.
#[export] Instance MicroVMSpec_eq_dec : EqDecision MicroVMSpec.
Proof. solve_decision. Defined.
#[export] Instance WorkloadStatus_eq_dec : EqDecision WorkloadStatus.
Proof. solve_decision. Defined.

Record Workload := mkWorkload {
  wl_name : string;
  wl_kind : WorkloadKind;
  wl_container : option ContainerSpec;
  wl_micro_vm : option MicroVMSpec;
  wl_status : option WorkloadStatus;
  wl_desired_state : DesiredState }.

#[export] Instance Workload_eq_dec : EqDecision Workload.
Proof. solve_decision. Defined.

(** Assignments [w.Status = s] and [w.DesiredState = d] on a copy. *)
Definition set_wl_status (w : Workload) (s : option WorkloadStatus) : Workload :=
  mkWorkload (wl_name w) (wl_kind w) (wl_container w) (wl_micro_vm w) s (wl_desired_state w).
Definition set_wl_desired (w : Workload) (d : DesiredState) : Workload :=
  mkWorkload (wl_name w) (wl_kind w) (wl_container w) (wl_micro_vm w) (wl_status w) d.

(** ** volume.proto *)

Record Volume := mkVolume {
  vol_name : string;
  vol_size_bytes : Z;      (* uint64 *)
  vol_host_path : string;
  vol_mounted_by : list string;
  vol_created_at_unix : Z  (* int64 *) }.

#[export] Instance Volume_eq_dec : EqDecision Volume.
Proof. solve_decision. Defined.

(** ** store.go *)

Record OSState := mkOSState {
  os_ActiveSlot : string;
  os_PendingSlot : string;
  os_PendingDeadlineUnix : Z;
  os_LastGoodSlot : string;
  os_LastVersion : string;
  os_UpdatedAtUnix : Z }.

Record CapsuleIdentity := mkCapsuleIdentity {
  ci_CapsuleID : string;
  ci_ShortID : string;
  ci_CreatedAtUnix : Z;
  ci_AdoptedAtUnix : Z;
  ci_AdoptedByKid : string }.

Record AuthorizedKey := mkAuthorizedKey {
  ak_Kid : string;
  ak_Pubkey : string;      (* []byte *)
  ak_Name : string;
  ak_AddedByKid : string;
  ak_AddedAtUnix : Z }.

#[export] Instance OSState_eq_dec : EqDecision OSState.
Proof. solve_decision. Defined.
#[export] Instance CapsuleIdentity_eq_dec : EqDecision CapsuleIdentity.
Proof. solve_decision. Defined.
#[export] Instance AuthorizedKey_eq_dec : EqDecision AuthorizedKey.
Proof. solve_decision. Defined.

(** ** runtime.go *)

Inductive Phase := PhaseUnknown | PhasePending | PhaseRunning | PhaseStopped | PhaseFailed.

Record Status := mkStatus {
  st_Phase : Phase;
  st_Message : string;
  st_RestartCount : Z }.

#[export] Instance Phase_eq_dec : EqDecision Phase.
Proof. solve_decision. Defined.
#[export] Instance Status_eq_dec : EqDecision Status.
Proof. solve_decision. Defined.
