(* ===== verification/Store.v ===== *)
(** * The persistence port: store/store.go

    The interfaces of package store as classes of operations over a world
    [W], and the contract ([StoreLaws]) the core services are proved against:
    an abstract state ([StoreView]) that every operation either updates as its
    comment says or, when it fails, leaves alone. *)

From S2P Require Import Prelude GoStrings Models.

Set Default Goal Selector "!".

(** ** Operations *)

Class WorkloadStore (W : Type) := {
  wst_Put : Workload -> prog W unit;
  wst_Get : string -> prog W Workload;
  wst_List : prog W (list Workload);
  wst_Delete : string -> prog W unit }.

Class VolumeStore (W : Type) := {
  vst_Put : Z -> Volume -> prog W unit;      (* the first argument is the clock *)
  vst_Get : string -> prog W Volume;
  vst_List : prog W (list Volume);
  vst_Delete : string -> prog W unit }.

Class OSStateStore (W : Type) := {
  ost_Get : prog W OSState;
  ost_Put : Z -> OSState -> prog W unit }.

Class IdentityStore (W : Type) := {
  ist_Get : prog W CapsuleIdentity;
  ist_Put : Z -> CapsuleIdentity -> prog W unit }.

Class AuthorizedKeyStore (W : Type) := {
  kst_Add : Z -> AuthorizedKey -> prog W unit;
  kst_Get : string -> prog W AuthorizedKey;
  kst_List : prog W (list AuthorizedKey);
  kst_Delete : string -> prog W unit;
  kst_Count : prog W nat;
  kst_DeleteAll : prog W unit }.

Class Store (W : Type) := {
  Workloads :: WorkloadStore W;
  Volumes :: VolumeStore W;
  OSState_ :: OSStateStore W;
  Identity :: IdentityStore W;
  AuthorizedKeys :: AuthorizedKeyStore W }.

(** ** The abstract state *)

Record StoreView := mkView {
  v_workloads : gmap string Workload;
  v_volumes : gmap string Volume;
  v_os : option OSState;
  v_identity : option CapsuleIdentity;
  v_keys : gmap string AuthorizedKey }.

Definition on_workloads f v := mkView (f (v_workloads v)) (v_volumes v) (v_os v) (v_identity v) (v_keys v).
Definition on_volumes f v := mkView (v_workloads v) (f (v_volumes v)) (v_os v) (v_identity v) (v_keys v).
Definition set_os o v := mkView (v_workloads v) (v_volumes v) o (v_identity v) (v_keys v).
Definition set_identity i v := mkView (v_workloads v) (v_volumes v) (v_os v) i (v_keys v).
Definition on_keys f v := mkView (v_workloads v) (v_volumes v) (v_os v) (v_identity v) (f (v_keys v)).

(** "List returns every record, sorted by name." *)
Definition listing {A} (key : A -> string) (m : gmap string A) (l : list A) : Prop :=
  StronglySorted (fun a b => String.le (key a) (key b)) l /\ l ≡ₚ (map_to_list m).*2.

(** The order of the key list: added_at, then kid. *)
Definition key_before (a b : AuthorizedKey) : Prop :=
  (ak_AddedAtUnix a < ak_AddedAtUnix b)%Z \/
  (ak_AddedAtUnix a = ak_AddedAtUnix b /\ String.le (ak_Kid a) (ak_Kid b)).
#[export] Instance key_before_dec : RelDecision key_before.
Proof. intros a b. unfold key_before. apply _. Defined.

(** Two os_state records that differ only in the diagnostics timestamp. *)
Definition os_eqv (a b : OSState) : Prop :=
  os_ActiveSlot a = os_ActiveSlot b /\ os_PendingSlot a = os_PendingSlot b /\
  os_PendingDeadlineUnix a = os_PendingDeadlineUnix b /\
  os_LastGoodSlot a = os_LastGoodSlot b /\ os_LastVersion a = os_LastVersion b.

#[export] Instance os_eqv_equiv : Equivalence os_eqv.
Proof.
  unfold os_eqv. split; [by intros a|intros a b; intuition congruence|intros a b c; intuition congruence].
Qed.

(** The clock value replaces a zero timestamp. *)
Definition stamp (now t : Z) : Z := if (t =? 0)%Z then now else t.

Definition stamp_identity (now : Z) (id : CapsuleIdentity) : CapsuleIdentity :=
  mkCapsuleIdentity (ci_CapsuleID id) (ci_ShortID id) (stamp now (ci_CreatedAtUnix id))
    (ci_AdoptedAtUnix id) (ci_AdoptedByKid id).
Definition stamp_key (now : Z) (k : AuthorizedKey) : AuthorizedKey :=
  mkAuthorizedKey (ak_Kid k) (ak_Pubkey k) (ak_Name k) (ak_AddedByKid k) (stamp now (ak_AddedAtUnix k)).

(** ** The contract *)

Class StoreLaws (W : Type) `{!Store W} := {
  view : W -> StoreView;
  store_ok : W -> Prop;

  (** a failed call changes nothing; [Get] reports NotFound only for a missing record *)
  wst_Get_law n w : store_ok w ->
    let '(r, w') := wst_Get n w in
    store_ok w' /\ view w' = view w /\
    match r with
    | Ok x => v_workloads (view w) !! n = Some x
    | Err e => errors_Is e StoreNotFound = true -> v_workloads (view w) !! n = None
    end;
  wst_Put_law x w : store_ok w -> wl_name x <> "" ->
    let '(r, w') := wst_Put x w in
    store_ok w' /\
    match r with
    | Ok _ => view w' = on_workloads <[wl_name x := x]> (view w)
    | Err _ => view w' = view w
    end;
  wst_List_law w : store_ok w ->
    let '(r, w') := wst_List w in
    store_ok w' /\ view w' = view w /\
    match r with Ok l => listing wl_name (v_workloads (view w)) l | Err _ => True end;
  wst_Delete_law n w : store_ok w ->
    let '(r, w') := wst_Delete n w in
    store_ok w' /\
    match r with
    | Ok _ => view w' = on_workloads (delete n) (view w)
    | Err _ => view w' = view w
    end;

  vst_Get_law n w : store_ok w ->
    let '(r, w') := vst_Get n w in
    store_ok w' /\ view w' = view w /\
    match r with
    | Ok x => v_volumes (view w) !! n = Some x
    | Err e => errors_Is e StoreNotFound = true -> v_volumes (view w) !! n = None
    end;
  vst_Put_law now x w : store_ok w -> vol_name x <> "" ->
    let '(r, w') := vst_Put now x w in
    store_ok w' /\
    match r with
    | Ok _ => exists x', view w' = on_volumes <[vol_name x := x']> (view w) /\
                vol_name x' = vol_name x /\ vol_host_path x' = vol_host_path x
    | Err _ => view w' = view w
    end;
  vst_List_law w : store_ok w ->
    let '(r, w') := vst_List w in
    store_ok w' /\ view w' = view w /\
    match r with Ok l => listing vol_name (v_volumes (view w)) l | Err _ => True end;
  vst_Delete_law n w : store_ok w ->
    let '(r, w') := vst_Delete n w in
    store_ok w' /\
    match r with
    | Ok _ => view w' = on_volumes (delete n) (view w)
    | Err _ => view w' = view w
    end;

  ost_Get_law w : store_ok w ->
    let '(r, w') := ost_Get w in
    store_ok w' /\ view w' = view w /\
    match r with
    | Ok x => v_os (view w) = Some x
    | Err e => errors_Is e StoreNotFound = true -> v_os (view w) = None
    end;
  ost_Put_law now x w : store_ok w ->
    let '(r, w') := ost_Put now x w in
    store_ok w' /\
    match r with
    | Ok _ => exists x', view w' = set_os (Some x') (view w) /\ os_eqv x' x
    | Err _ => view w' = view w
    end;

  ist_Get_law w : store_ok w ->
    let '(r, w') := ist_Get w in
    store_ok w' /\ view w' = view w /\
    match r with
    | Ok x => v_identity (view w) = Some x
    | Err e => errors_Is e StoreNotFound = true -> v_identity (view w) = None
    end;
  ist_Put_law now x w : store_ok w ->
    let '(r, w') := ist_Put now x w in
    store_ok w' /\
    match r with
    | Ok _ => view w' = set_identity (Some (stamp_identity now x)) (view w)
    | Err _ => view w' = view w
    end;

  kst_Add_law now k w : store_ok w ->
    let '(r, w') := kst_Add now k w in
    store_ok w' /\
    match r with
    | Ok _ => v_keys (view w) !! ak_Kid k = None /\
              view w' = on_keys <[ak_Kid k := stamp_key now k]> (view w)
    | Err e => view w' = view w /\
              (errors_Is e StoreConflict = true -> is_Some (v_keys (view w) !! ak_Kid k))
    end;
  kst_Get_law n w : store_ok w ->
    let '(r, w') := kst_Get n w in
    store_ok w' /\ view w' = view w /\
    match r with
    | Ok x => v_keys (view w) !! n = Some x
    | Err e => errors_Is e StoreNotFound = true -> v_keys (view w) !! n = None
    end;
  kst_List_law w : store_ok w ->
    let '(r, w') := kst_List w in
    store_ok w' /\ view w' = view w /\
    match r with
    | Ok l => StronglySorted key_before l /\ l ≡ₚ (map_to_list (v_keys (view w))).*2
    | Err _ => True
    end;
  kst_Delete_law n w : store_ok w ->
    let '(r, w') := kst_Delete n w in
    store_ok w' /\
    match r with
    | Ok _ => view w' = on_keys (delete n) (view w)
    | Err _ => view w' = view w
    end;
  kst_Count_law w : store_ok w ->
    let '(r, w') := kst_Count w in
    store_ok w' /\ view w' = view w /\
    match r with Ok n => n = size (v_keys (view w)) | Err _ => True end;
  kst_DeleteAll_law w : store_ok w ->
    let '(r, w') := kst_DeleteAll w in
    store_ok w' /\
    match r with
    | Ok _ => view w' = on_keys (fun _ => ∅) (view w)
    | Err _ => view w' = view w
    end }.
