(* ===== verification/MemoryStore.v ===== *)
(** * The in-memory store: store/memory/memory.go

    Each sub-store is a map or a singleton; the mutexes make every operation
    atomic, so an operation is one state transition.  The clones and struct
    copies of the code are value copies here. *)

From S2P Require Import Prelude GoStrings Models Store.

Set Default Goal Selector "!".

Record memStore := mkMemStore {
  mem_workloads : gmap string Workload;
  mem_volumes : gmap string Volume;
  mem_osState : option OSState;
  mem_identity : option CapsuleIdentity;
  mem_authKeys : gmap string AuthorizedKey }.

(** [memory.New] *)
Definition mem_New : memStore := mkMemStore ∅ ∅ None None ∅.

Definition mem_set_workloads m s := mkMemStore m (mem_volumes s) (mem_osState s) (mem_identity s) (mem_authKeys s).
Definition mem_set_volumes m s := mkMemStore (mem_workloads s) m (mem_osState s) (mem_identity s) (mem_authKeys s).
Definition mem_set_os o s := mkMemStore (mem_workloads s) (mem_volumes s) o (mem_identity s) (mem_authKeys s).
Definition mem_set_identity i s := mkMemStore (mem_workloads s) (mem_volumes s) (mem_osState s) i (mem_authKeys s).
Definition mem_set_keys m s := mkMemStore (mem_workloads s) (mem_volumes s) (mem_osState s) (mem_identity s) m.

(** ** osStateStore *)
Definition mem_os_Get : prog memStore OSState := fun s =>
  match mem_osState s with
  | None => (Err (Sentinel StoreNotFound), s)
  | Some st => (Ok st, s)
  end.
Definition mem_os_Put (now : Z) (st : OSState) : prog memStore unit := fun s =>
  (Ok tt, mem_set_os (Some st) s).

(** ** volumeStore *)
Definition mem_vol_Put (now : Z) (v : Volume) : prog memStore unit := fun s =>
  if String.eqb (vol_name v) "" then (Err (Sentinel StoreNotFound), s)
  else (Ok tt, mem_set_volumes (<[vol_name v := v]> (mem_volumes s)) s).
Definition mem_vol_Get (name : string) : prog memStore Volume := fun s =>
  match mem_volumes s !! name with
  | None => (Err (Sentinel StoreNotFound), s)
  | Some v => (Ok v, s)
  end.
Definition mem_vol_List : prog memStore (list Volume) := fun s =>
  (Ok (merge_sort (fun a b => String.le (vol_name a) (vol_name b)) (map_to_list (mem_volumes s)).*2), s).
Definition mem_vol_Delete (name : string) : prog memStore unit := fun s =>
  (Ok tt, mem_set_volumes (delete name (mem_volumes s)) s).

(** ** workloadStore *)
Definition mem_wl_Put (w : Workload) : prog memStore unit := fun s =>
  if String.eqb (wl_name w) "" then (Err (Sentinel StoreNotFound), s)
  else (Ok tt, mem_set_workloads (<[wl_name w := w]> (mem_workloads s)) s).
Definition mem_wl_Get (name : string) : prog memStore Workload := fun s =>
  match mem_workloads s !! name with
  | None => (Err (Sentinel StoreNotFound), s)
  | Some w => (Ok w, s)
  end.
Definition mem_wl_List : prog memStore (list Workload) := fun s =>
  (Ok (merge_sort (fun a b => String.le (wl_name a) (wl_name b)) (map_to_list (mem_workloads s)).*2), s).
Definition mem_wl_Delete (name : string) : prog memStore unit := fun s =>
  (Ok tt, mem_set_workloads (delete name (mem_workloads s)) s).

(** ** identityStore *)
Definition mem_id_Get : prog memStore CapsuleIdentity := fun s =>
  match mem_identity s with
  | None => (Err (Sentinel StoreNotFound), s)
  | Some id => (Ok id, s)
  end.
Definition mem_id_Put (now : Z) (id : CapsuleIdentity) : prog memStore unit := fun s =>
  (Ok tt, mem_set_identity (Some (stamp_identity now id)) s).

(** ** authKeyStore *)
Definition mem_key_Add (now : Z) (k : AuthorizedKey) : prog memStore unit := fun s =>
  match mem_authKeys s !! ak_Kid k with
  | Some _ => (Err (Sentinel StoreConflict), s)
  | None => (Ok tt, mem_set_keys (<[ak_Kid k := stamp_key now k]> (mem_authKeys s)) s)
  end.
Definition mem_key_Get (kid : string) : prog memStore AuthorizedKey := fun s =>
  match mem_authKeys s !! kid with
  | None => (Err (Sentinel StoreNotFound), s)
  | Some k => (Ok k, s)
  end.
Definition mem_key_List : prog memStore (list AuthorizedKey) := fun s =>
  (Ok (merge_sort key_before (map_to_list (mem_authKeys s)).*2), s).
Definition mem_key_Delete (kid : string) : prog memStore unit := fun s =>
  (Ok tt, mem_set_keys (delete kid (mem_authKeys s)) s).
Definition mem_key_Count : prog memStore nat := fun s => (Ok (size (mem_authKeys s)), s).
Definition mem_key_DeleteAll : prog memStore unit := fun s => (Ok tt, mem_set_keys ∅ s).

#[export] Instance memory_Store : Store memStore := {|
  Workloads := Build_WorkloadStore _ mem_wl_Put mem_wl_Get mem_wl_List mem_wl_Delete;
  Volumes := Build_VolumeStore _ mem_vol_Put mem_vol_Get mem_vol_List mem_vol_Delete;
  OSState_ := Build_OSStateStore _ mem_os_Get mem_os_Put;
  Identity := Build_IdentityStore _ mem_id_Get mem_id_Put;
  AuthorizedKeys := Build_AuthorizedKeyStore _ mem_key_Add mem_key_Get mem_key_List
                      mem_key_Delete mem_key_Count mem_key_DeleteAll |}.

(** ** The store meets its contract *)

Definition mem_view (s : memStore) : StoreView :=
  mkView (mem_workloads s) (mem_volumes s) (mem_osState s) (mem_identity s) (mem_authKeys s).

Lemma key_before_total : Total key_before.
Proof.
  intros a b. unfold key_before.
  destruct (Z.lt_trichotomy (ak_AddedAtUnix a) (ak_AddedAtUnix b)) as [?|[?|?]]; [auto| |auto].
  destruct (total String.le (ak_Kid a) (ak_Kid b)); auto.
Qed.

Lemma key_before_trans : Transitive key_before.
Proof.
  intros a b c. unfold key_before. intros [?|[? H1]] [?|[? H2]]; [left; lia..|].
  right. split; [lia|]. by transitivity (ak_Kid b).
Qed.

Lemma listing_sort {A} (key : A -> string) (m : gmap string A) :
  listing key m (merge_sort (fun a b => String.le (key a) (key b)) (map_to_list m).*2).
Proof.
  split; [|apply merge_sort_Permutation].
  assert (Transitive (fun a b => String.le (key a) (key b))) by (intros a b c; apply transitivity).
  assert (Total (fun a b => String.le (key a) (key b))) by (intros a b; apply (total String.le)).
  apply (StronglySorted_merge_sort _).
Qed.

#[export] Program Instance memory_laws : StoreLaws memStore := {|
  view := mem_view;
  store_ok := fun _ => True |}.
Next Obligation. intros n s _. simpl. unfold mem_wl_Get. by destruct (mem_workloads s !! n). Qed.
Next Obligation. intros x s _ Hx. simpl. unfold mem_wl_Put. apply String.eqb_neq in Hx. by rewrite Hx. Qed.
Next Obligation. intros s _. simpl. split_and!; [done|done|apply listing_sort]. Qed.
Next Obligation. done. Qed.
Next Obligation. intros n s _. simpl. unfold mem_vol_Get. by destruct (mem_volumes s !! n). Qed.
Next Obligation.
  intros now x s _ Hx. simpl. unfold mem_vol_Put. apply String.eqb_neq in Hx. rewrite Hx.
  split; [done|]. by exists x.
Qed.
Next Obligation. intros s _. simpl. split_and!; [done|done|apply listing_sort]. Qed.
Next Obligation. done. Qed.
Next Obligation. intros s _. simpl. unfold mem_os_Get. by destruct (mem_osState s). Qed.
Next Obligation. intros now x s _. simpl. split; [done|]. by exists x. Qed.
Next Obligation. intros s _. simpl. unfold mem_id_Get. by destruct (mem_identity s). Qed.
Next Obligation. done. Qed.
Next Obligation. intros now k s _. simpl. unfold mem_key_Add. by destruct (mem_authKeys s !! ak_Kid k). Qed.
Next Obligation. intros n s _. simpl. unfold mem_key_Get. by destruct (mem_authKeys s !! n). Qed.
Next Obligation.
  intros s _. simpl. split_and!; [done|done| |apply merge_sort_Permutation].
  pose proof key_before_trans. pose proof key_before_total. apply (StronglySorted_merge_sort _).
Qed.
Next Obligation. done. Qed.
Next Obligation. done. Qed.
Next Obligation. done. Qed.
