(* ===== verification/SqliteStore.v ===== *)
(** * The production store: store/sqlite/sqlite.go

    The database is its tables: a map from primary key to row, or a singleton
    row, with a nullable column an [option].  A statement can fail: [db_faults]
    lists, statement by statement, the error the driver reports (the disk is
    full, the file is locked, the context is cancelled), so every error path
    of the callers can be exercised.  The wire encoding of a workload is the
    protobuf library's, a parameter with its documented round trip. *)

From S2P Require Import Prelude GoStrings Models Store MemoryStore.

Set Default Goal Selector "!".

(** ** Tables *)

Record workloadRow := mkWorkloadRow { wr_spec : string; wr_updated_at : Z }.
Record volumeRow := mkVolumeRow { vr_host_path : string; vr_created_at : Z }.
Record osRow := mkOsRow {
  or_active_slot : string;
  or_pending_slot : option string;
  or_pending_deadline_unix : option Z;
  or_last_good_slot : string;
  or_last_version : option string;
  or_updated_at_unix : Z }.
Record identityRow := mkIdentityRow {
  ir_capsule_id : string;
  ir_short_id : option string;
  ir_created_at_unix : Z;
  ir_adopted_at_unix : option Z;
  ir_adopted_by_kid : option string }.
Record keyRow := mkKeyRow {
  kr_pubkey : string;
  kr_name : string;
  kr_added_by_kid : option string;
  kr_added_at_unix : Z }.

Record DB := mkDB {
  db_workloads : gmap string workloadRow;
  db_volumes : gmap string volumeRow;
  db_os_state : option osRow;
  db_identity : option identityRow;
  db_keys : gmap string keyRow;
  db_clock : Z;                       (* strftime('%s','now') *)
  db_faults : list (option error) }.

Definition db_set_workloads m d := mkDB m (db_volumes d) (db_os_state d) (db_identity d) (db_keys d) (db_clock d) (db_faults d).
Definition db_set_volumes m d := mkDB (db_workloads d) m (db_os_state d) (db_identity d) (db_keys d) (db_clock d) (db_faults d).
Definition db_set_os r d := mkDB (db_workloads d) (db_volumes d) r (db_identity d) (db_keys d) (db_clock d) (db_faults d).
Definition db_set_identity r d := mkDB (db_workloads d) (db_volumes d) (db_os_state d) r (db_keys d) (db_clock d) (db_faults d).
Definition db_set_keys m d := mkDB (db_workloads d) (db_volumes d) (db_os_state d) (db_identity d) m (db_clock d) (db_faults d).
Definition db_set_faults f d := mkDB (db_workloads d) (db_volumes d) (db_os_state d) (db_identity d) (db_keys d) (db_clock d) f.

(** One statement: it runs, or it fails with the next error of the list. *)
Definition stmt {A} (body : prog DB A) : prog DB A := fun d =>
  match db_faults d with
  | [] => body d
  | Some e :: fs => (Err e, db_set_faults fs d)
  | None :: fs => body (db_set_faults fs d)
  end.

(** A Go zero value is stored as NULL and read back as the zero value. *)
Definition null_string (s : string) : option string := if String.eqb s "" then None else Some s.
Definition null_int (z : Z) : option Z := if (z =? 0)%Z then None else Some z.

(** The rows of a table in the order of its key. *)
Definition rows_by_key {R} (m : gmap string R) : list (string * R) :=
  merge_sort (fun a b => String.le a.1 b.1) (map_to_list m).

(** ** osStateStore *)
Definition os_of_row (r : osRow) : OSState :=
  mkOSState (or_active_slot r) (default "" (or_pending_slot r))
    (default 0%Z (or_pending_deadline_unix r)) (or_last_good_slot r)
    (default "" (or_last_version r)) (or_updated_at_unix r).
Definition sq_os_Get : prog DB OSState := stmt (fun d =>
  match db_os_state d with
  | None => (Err (Sentinel StoreNotFound), d)
  | Some r => (Ok (os_of_row r), d)
  end).
Definition sq_os_Put (now : Z) (st : OSState) : prog DB unit := stmt (fun d =>
  (Ok tt, db_set_os (Some (mkOsRow (os_ActiveSlot st) (null_string (os_PendingSlot st))
     (null_int (os_PendingDeadlineUnix st)) (os_LastGoodSlot st)
     (null_string (os_LastVersion st)) (db_clock d))) d)).

(** ** volumeStore *)
Definition vol_of_row (name : string) (r : volumeRow) : Volume :=
  mkVolume name 0 (vr_host_path r) [] (vr_created_at r).
Definition sq_vol_Put (now : Z) (v : Volume) : prog DB unit := stmt (fun d =>
  let row := match db_volumes d !! vol_name v with
             | Some old => mkVolumeRow (vol_host_path v) (vr_created_at old)
             | None => mkVolumeRow (vol_host_path v) (stamp (db_clock d) (vol_created_at_unix v))
             end in
  (Ok tt, db_set_volumes (<[vol_name v := row]> (db_volumes d)) d)).
Definition sq_vol_Get (name : string) : prog DB Volume := stmt (fun d =>
  match db_volumes d !! name with
  | None => (Err (Sentinel StoreNotFound), d)
  | Some r => (Ok (vol_of_row name r), d)
  end).
Definition sq_vol_List : prog DB (list Volume) := stmt (fun d =>
  (Ok ((fun p => vol_of_row p.1 p.2) <$> rows_by_key (db_volumes d)), d)).
Definition sq_vol_Delete (name : string) : prog DB unit := stmt (fun d =>
  (Ok tt, db_set_volumes (delete name (db_volumes d)) d)).

(** ** identityStore *)
Definition identity_of_row (r : identityRow) : CapsuleIdentity :=
  mkCapsuleIdentity (ir_capsule_id r) (default "" (ir_short_id r)) (ir_created_at_unix r)
    (default 0%Z (ir_adopted_at_unix r)) (default "" (ir_adopted_by_kid r)).
Definition sq_id_Get : prog DB CapsuleIdentity := stmt (fun d =>
  match db_identity d with
  | None => (Err (Sentinel StoreNotFound), d)
  | Some r => (Ok (identity_of_row r), d)
  end).
Definition sq_id_Put (now : Z) (id : CapsuleIdentity) : prog DB unit :=
  let createdAt := stamp now (ci_CreatedAtUnix id) in
  stmt (fun d =>
    (Ok tt, db_set_identity (Some (mkIdentityRow (ci_CapsuleID id) (null_string (ci_ShortID id))
       createdAt (null_int (ci_AdoptedAtUnix id)) (null_string (ci_AdoptedByKid id)))) d)).

(** ** authKeyStore *)
Definition key_of_row (kid : string) (r : keyRow) : AuthorizedKey :=
  mkAuthorizedKey kid (kr_pubkey r) (kr_name r) (default "" (kr_added_by_kid r)) (kr_added_at_unix r).
Definition row_of_key (now : Z) (k : AuthorizedKey) : keyRow :=
  mkKeyRow (ak_Pubkey k) (ak_Name k) (null_string (ak_AddedByKid k)) (stamp now (ak_AddedAtUnix k)).
(** The error text of a violated primary key. *)
Definition unique_violation : error :=
  Errorf "constraint failed: UNIQUE constraint failed: authorized_keys.kid (1555)".
Definition sq_key_insert (now : Z) (k : AuthorizedKey) : prog DB unit := stmt (fun d =>
  match db_keys d !! ak_Kid k with
  | Some _ => (Err unique_violation, d)
  | None => (Ok tt, db_set_keys (<[ak_Kid k := row_of_key now k]> (db_keys d)) d)
  end).
Definition sq_key_Add (now : Z) (k : AuthorizedKey) : prog DB unit := fun d =>
  match sq_key_insert now k d with
  | (Ok _, d') => (Ok tt, d')
  | (Err e, d') =>
      if Contains (Error e) "UNIQUE" || Contains (Error e) "constraint"
      then (Err (Sentinel StoreConflict), d') else (Err e, d')
  end.
Definition sq_key_Get (kid : string) : prog DB AuthorizedKey := stmt (fun d =>
  match db_keys d !! kid with
  | None => (Err (Sentinel StoreNotFound), d)
  | Some r => (Ok (key_of_row kid r), d)
  end).
(** ORDER BY added_at_unix, kid *)
Definition sq_key_List : prog DB (list AuthorizedKey) := stmt (fun d =>
  (Ok (merge_sort key_before ((fun p => key_of_row p.1 p.2) <$> map_to_list (db_keys d))), d)).
Definition sq_key_Delete (kid : string) : prog DB unit := stmt (fun d =>
  (Ok tt, db_set_keys (delete kid (db_keys d)) d)).
Definition sq_key_Count : prog DB nat := stmt (fun d => (Ok (size (db_keys d)), d)).
Definition sq_key_DeleteAll : prog DB unit := stmt (fun d => (Ok tt, db_set_keys ∅ d)).

Section sqlite.
(** [proto.Marshal] and [proto.Unmarshal] of a workload. *)
Context (Marshal : Workload -> result string) (Unmarshal : string -> result Workload).
Hypothesis Unmarshal_Marshal : forall w b, Marshal w = Ok b -> Unmarshal b = Ok w.

(** ** workloadStore *)
Definition sq_wl_Put (w : Workload) : prog DB unit :=
  bind (wrap_err "marshal workload: " (lift (Marshal w))) (fun blob =>
  stmt (fun d => (Ok tt, db_set_workloads
                     (<[wl_name w := mkWorkloadRow blob (db_clock d)]> (db_workloads d)) d))).
Definition sq_wl_Get (name : string) : prog DB Workload :=
  bind (stmt (fun d => match db_workloads d !! name with
                       | None => (Err (Sentinel StoreNotFound), d)
                       | Some r => (Ok (wr_spec r), d)
                       end)) (fun blob =>
  wrap_err ("unmarshal workload " +:+ Quote name +:+ ": ") (lift (Unmarshal blob))).
Fixpoint unmarshal_all (rs : list (string * workloadRow)) : result (list Workload) :=
  match rs with
  | [] => Ok []
  | r :: rs =>
      match Unmarshal (wr_spec r.2) with
      | Err e => Err e
      | Ok w => match unmarshal_all rs with Err e => Err e | Ok ws => Ok (w :: ws) end
      end
  end.
Definition sq_wl_List : prog DB (list Workload) := stmt (fun d =>
  (unmarshal_all (rows_by_key (db_workloads d)), d)).
Definition sq_wl_Delete (name : string) : prog DB unit := stmt (fun d =>
  (Ok tt, db_set_workloads (delete name (db_workloads d)) d)).

Definition sqlite_Store : Store DB := {|
  Workloads := Build_WorkloadStore _ sq_wl_Put sq_wl_Get sq_wl_List sq_wl_Delete;
  Volumes := Build_VolumeStore _ sq_vol_Put sq_vol_Get sq_vol_List sq_vol_Delete;
  OSState_ := Build_OSStateStore _ sq_os_Get sq_os_Put;
  Identity := Build_IdentityStore _ sq_id_Get sq_id_Put;
  AuthorizedKeys := Build_AuthorizedKeyStore _ sq_key_Add sq_key_Get sq_key_List
                      sq_key_Delete sq_key_Count sq_key_DeleteAll |}.

(** ** The abstract state of a database *)

Definition wl_of_row (r : workloadRow) : option Workload :=
  match Unmarshal (wr_spec r) with Ok w => Some w | Err _ => None end.

Definition sq_view (d : DB) : StoreView := mkView
  (omap wl_of_row (db_workloads d))
  (map_imap (fun n r => Some (vol_of_row n r)) (db_volumes d))
  (os_of_row <$> db_os_state d)
  (identity_of_row <$> db_identity d)
  (map_imap (fun n r => Some (key_of_row n r)) (db_keys d)).

Local Arguments sq_view : simpl never.

(** A driver fault is none of the store's sentinels and does not read like
    a constraint violation. *)
Definition fault_ok (e : error) : Prop :=
  errors_Is e StoreNotFound = false /\ errors_Is e StoreConflict = false /\
  Contains (Error e) "UNIQUE" = false /\ Contains (Error e) "constraint" = false.

Record sq_ok (d : DB) : Prop := mkSqOk {
  ok_rows n r : db_workloads d !! n = Some r ->
    exists w, Unmarshal (wr_spec r) = Ok w /\ wl_name w = n;
  ok_faults : Forall (fun f => match f with Some e => fault_ok e | None => True end) (db_faults d) }.

(** ** The store meets its contract *)

(** A statement fails cleanly, or runs on a database with the same tables. *)
Lemma stmt_cases {A} (body : prog DB A) d :
  sq_ok d ->
  (exists e d', stmt body d = (Err e, d') /\ sq_ok d' /\ sq_view d' = sq_view d /\ fault_ok e) \/
  (exists d', stmt body d = body d' /\ sq_ok d' /\ sq_view d' = sq_view d).
Proof.
  intros [Hrows Hf]. unfold stmt. destruct (db_faults d) as [|[e|] fs] eqn:E.
  - right. exists d. split_and!; [done| |done]. constructor; [done|]. by rewrite E.
  - left. inversion Hf; subst. exists e, (db_set_faults fs d). by split_and!.
  - right. inversion Hf; subst. exists (db_set_faults fs d). by split_and!.
Qed.

Lemma sq_ok_same d d' :
  db_workloads d' = db_workloads d -> db_faults d' = db_faults d -> sq_ok d -> sq_ok d'.
Proof. intros E1 E2 []. constructor; rewrite ?E1, ?E2; done. Qed.

Lemma null_string_default s : default "" (null_string s) = s.
Proof. unfold null_string. destruct (String.eqb_spec s ""); by subst. Qed.
Lemma null_int_default z : default 0%Z (null_int z) = z.
Proof. unfold null_int. destruct (Z.eqb_spec z 0); by subst. Qed.

Lemma lookup_vol_view d n : v_volumes (sq_view d) !! n = vol_of_row n <$> db_volumes d !! n.
Proof. unfold sq_view. simpl. rewrite map_lookup_imap. by destruct (_ !! n). Qed.
Lemma lookup_key_view d n : v_keys (sq_view d) !! n = key_of_row n <$> db_keys d !! n.
Proof. unfold sq_view. simpl. rewrite map_lookup_imap. by destruct (_ !! n). Qed.
Lemma lookup_wl_view d n :
  v_workloads (sq_view d) !! n = match db_workloads d !! n with Some r => wl_of_row r | None => None end.
Proof. unfold sq_view. simpl. rewrite lookup_omap. by destruct (_ !! n). Qed.

(** The values of a table read through its rows. *)
Lemma values_of_rows {R A} (g : string -> R -> A) (m : gmap string R) (m' : gmap string A) :
  (forall n, m' !! n = g n <$> m !! n) ->
  (map_to_list m').*2 ≡ₚ (fun p => g p.1 p.2) <$> map_to_list m.
Proof.
  intros H. assert (map_to_list m' ≡ₚ (fun p => (p.1, g p.1 p.2)) <$> map_to_list m) as ->.
  { apply NoDup_Permutation.
    - apply NoDup_map_to_list.
    - apply NoDup_fmap_2_strong; [|apply NoDup_map_to_list].
      intros [n1 r1] [n2 r2] H1%elem_of_map_to_list H2%elem_of_map_to_list [= -> _].
      congruence.
    - intros [n a]. rewrite elem_of_map_to_list, H, list_elem_of_fmap. split.
      + intros (r & Hr & ->)%fmap_Some. exists (n, r). by rewrite elem_of_map_to_list.
      + intros ([n' r] & [= -> ->] & Hr%elem_of_map_to_list). simpl. by rewrite Hr. }
  by rewrite <- list_fmap_compose.
Qed.

Lemma rows_by_key_perm {R} (m : gmap string R) : rows_by_key m ≡ₚ map_to_list m.
Proof. apply merge_sort_Permutation. Qed.

Lemma rows_by_key_sorted {R} (m : gmap string R) :
  StronglySorted (fun a b => String.le a.1 b.1) (rows_by_key m).
Proof.
  assert (Transitive (fun a b : string * R => String.le a.1 b.1)) by (intros a b c; apply transitivity).
  assert (Total (fun a b : string * R => String.le a.1 b.1)) by (intros a b; apply (total String.le)).
  apply (StronglySorted_merge_sort _).
Qed.

Lemma rows_listing {R A} (key : A -> string) (g : string -> R -> A) (m : gmap string R) (m' : gmap string A) :
  (forall n, m' !! n = g n <$> m !! n) -> (forall n r, m !! n = Some r -> key (g n r) = n) ->
  listing key m' ((fun p => g p.1 p.2) <$> rows_by_key m).
Proof.
  intros H Hk. split.
  - assert (Forall (fun p => m !! p.1 = Some p.2) (rows_by_key m)) as Hin.
    { apply Forall_forall. intros [n r] Hp. apply elem_of_map_to_list. by rewrite <- rows_by_key_perm. }
    induction (rows_by_key_sorted m) as [|[n r] l Hl IH Hall]; simpl; [constructor|].
    inversion Hin as [|? ? Hnr Hin']; subst. constructor; [by apply IH|].
    apply Forall_fmap, Forall_forall. intros [n' r'] Hp. simpl.
    rewrite (Hk n r Hnr), (Hk n' r'); [by apply (proj1 (Forall_forall _ _) Hall (n', r'))|].
    by apply (proj1 (Forall_forall _ _) Hin' (n', r')).
  - rewrite (values_of_rows g m m' H). by rewrite rows_by_key_perm.
Qed.

(** Unmarshalling the rows of a well-formed table succeeds. *)
Definition dec_row (r : workloadRow) : Workload :=
  default (mkWorkload "" WORKLOAD_KIND_UNSPECIFIED None None None DESIRED_STATE_UNSPECIFIED)
    (wl_of_row r).

Lemma unmarshal_all_ok rs :
  Forall (fun r : string * workloadRow => exists w, Unmarshal (wr_spec r.2) = Ok w) rs ->
  unmarshal_all rs = Ok ((fun p => dec_row p.2) <$> rs).
Proof.
  induction 1 as [|[n r] rs [w Hw] _ IH]; [done|]. simpl in *.
  unfold dec_row, wl_of_row. rewrite Hw, IH. done.
Qed.

Ltac stmt_step :=
  match goal with
  | H : sq_ok _ |- context [stmt ?b ?d] =>
      destruct (stmt_cases b d H) as [(e & d' & -> & Hok & Hv & Hfe)|(d' & -> & Hok & Hv)];
      [|rewrite <- Hv; clear H]
  end.

Lemma workloads_listing d :
  sq_ok d ->
  exists l, unmarshal_all (rows_by_key (db_workloads d)) = Ok l /\
    listing wl_name (v_workloads (sq_view d)) l.
Proof.
  intros [Hrows _]. eexists. split.
  - apply unmarshal_all_ok, Forall_forall. intros [n r] Hp. simpl.
    rewrite rows_by_key_perm, elem_of_map_to_list in Hp. destruct (Hrows _ _ Hp) as (w & ? & _). eauto.
  - apply (rows_listing wl_name (fun _ r => dec_row r)).
    + intros n. rewrite lookup_wl_view. destruct (db_workloads d !! n) as [r|] eqn:E; [|done].
      destruct (Hrows _ _ E) as (w & Hw & _). simpl. unfold dec_row, wl_of_row. by rewrite Hw.
    + intros n r E. destruct (Hrows _ _ E) as (w & Hw & Hn). unfold dec_row, wl_of_row. by rewrite Hw.
Qed.

Lemma sq_ok_put d w b :
  sq_ok d -> Marshal w = Ok b ->
  sq_ok (db_set_workloads (<[wl_name w := mkWorkloadRow b (db_clock d)]> (db_workloads d)) d).
Proof.
  intros [Hrows Hf] Hm. constructor; [|done]. intros n r. simpl.
  rewrite lookup_insert_Some. intros [[<- <-]|[_ ?]]; [|by apply Hrows].
  exists w. split; [by apply Unmarshal_Marshal|done].
Qed.

Lemma sq_view_put d w b :
  Marshal w = Ok b ->
  sq_view (db_set_workloads (<[wl_name w := mkWorkloadRow b (db_clock d)]> (db_workloads d)) d)
  = on_workloads <[wl_name w := w]> (sq_view d).
Proof.
  intros Hm. unfold sq_view, on_workloads. simpl. f_equal.
  apply omap_insert_Some. unfold wl_of_row. simpl. by rewrite (Unmarshal_Marshal _ _ Hm).
Qed.

Lemma sq_ok_delete d n : sq_ok d -> sq_ok (db_set_workloads (delete n (db_workloads d)) d).
Proof.
  intros [Hrows Hf]. constructor; [|done]. intros m r. simpl.
  rewrite lookup_delete_Some. intros [_ ?]. by apply Hrows.
Qed.

(** The three operations that go through the wire format. *)
Lemma sq_wl_Get_law n d : sq_ok d ->
  let '(r, d') := sq_wl_Get n d in
  sq_ok d' /\ sq_view d' = sq_view d /\
  match r with
  | Ok x => v_workloads (sq_view d) !! n = Some x
  | Err e => errors_Is e StoreNotFound = true -> v_workloads (sq_view d) !! n = None
  end.
Proof.
  intros Hd. unfold sq_wl_Get, bind. stmt_step.
  { destruct Hfe. split_and!; [done..|congruence]. }
  rewrite lookup_wl_view. destruct (db_workloads d' !! n) as [r|] eqn:E; [|done].
  destruct (ok_rows _ Hok _ _ E) as (w & Hw & _).
  unfold wrap_err, lift. rewrite Hw. unfold wl_of_row. by rewrite Hw.
Qed.

Lemma sq_wl_Put_law x d : sq_ok d -> wl_name x <> "" ->
  let '(r, d') := sq_wl_Put x d in
  sq_ok d' /\
  match r with
  | Ok _ => sq_view d' = on_workloads <[wl_name x := x]> (sq_view d)
  | Err _ => sq_view d' = sq_view d
  end.
Proof.
  intros Hd _. unfold sq_wl_Put, bind, wrap_err, lift.
  destruct (Marshal x) as [b|e] eqn:Hm; [|done].
  stmt_step; [done|]. split; [by apply sq_ok_put|by apply sq_view_put].
Qed.

Lemma sq_key_Add_law now k d : sq_ok d ->
  let '(r, d') := sq_key_Add now k d in
  sq_ok d' /\
  match r with
  | Ok _ => v_keys (sq_view d) !! ak_Kid k = None /\
            sq_view d' = on_keys <[ak_Kid k := stamp_key now k]> (sq_view d)
  | Err e => sq_view d' = sq_view d /\
            (errors_Is e StoreConflict = true -> is_Some (v_keys (sq_view d) !! ak_Kid k))
  end.
Proof.
  intros Hd. unfold sq_key_Add, sq_key_insert. stmt_step.
  { destruct Hfe as (_ & Hc & -> & ->). simpl. split_and!; [done..|congruence]. }
  rewrite lookup_key_view. destruct (db_keys d' !! ak_Kid k) as [r|] eqn:E; simpl.
  { split_and!; [done..|eauto]. }
  split_and!; [by apply (sq_ok_same d')|done|]. unfold sq_view, on_keys. simpl. f_equal.
  apply map_eq. intros n. rewrite map_lookup_imap, !lookup_insert.
  case_decide as Hn; [|by rewrite map_lookup_imap]. subst. simpl.
  unfold key_of_row, stamp_key. simpl. by rewrite null_string_default.
Qed.

Ltac view_simpl := cbn -[sq_view v_workloads v_volumes v_os v_identity v_keys on_workloads on_volumes
  set_os set_identity on_keys].

(** The SQLite store implements the persistence contract. *)
Program Definition sqlite_laws : @StoreLaws DB sqlite_Store := {|
  view := sq_view;
  store_ok := sq_ok |}.
Next Obligation. intros n d. apply sq_wl_Get_law. Qed.
Next Obligation. intros x d. apply sq_wl_Put_law. Qed.
Next Obligation.
  intros d Hd. view_simpl. unfold sq_wl_List. stmt_step; [done|].
  destruct (workloads_listing d' Hok) as (l & -> & Hl). done.
Qed.
Next Obligation.
  intros n d Hd. view_simpl. unfold sq_wl_Delete. stmt_step; [done|].
  split; [by apply sq_ok_delete|]. unfold sq_view, on_workloads. simpl. f_equal. apply omap_delete.
Qed.
Next Obligation.
  intros n d Hd. view_simpl. unfold sq_vol_Get. stmt_step.
  { destruct Hfe. split_and!; [done..|congruence]. }
  rewrite lookup_vol_view. by destruct (db_volumes d' !! n).
Qed.
Next Obligation.
  intros now x d Hd Hx. view_simpl. unfold sq_vol_Put. stmt_step; [done|].
  split; [by apply (sq_ok_same d')|]. eexists. split; [|split].
  - unfold sq_view, on_volumes. simpl. f_equal. by apply map_imap_insert_Some.
  - done.
  - simpl. by destruct (db_volumes d' !! vol_name x).
Qed.
Next Obligation.
  intros d Hd. view_simpl. unfold sq_vol_List. stmt_step; [done|]. split_and!; [done..|].
  apply (rows_listing vol_name vol_of_row); [apply lookup_vol_view|done].
Qed.
Next Obligation.
  intros n d Hd. view_simpl. unfold sq_vol_Delete. stmt_step; [done|].
  split; [by apply (sq_ok_same d')|]. unfold sq_view, on_volumes. simpl. f_equal. apply map_imap_delete.
Qed.
Next Obligation.
  intros d Hd. view_simpl. unfold sq_os_Get. stmt_step.
  { destruct Hfe. split_and!; [done..|congruence]. }
  change (v_os (sq_view d')) with (os_of_row <$> db_os_state d'). destruct (db_os_state d'); done.
Qed.
Next Obligation.
  intros now x d Hd. view_simpl. unfold sq_os_Put. stmt_step; [done|].
  split; [by apply (sq_ok_same d')|]. eexists. split; [done|].
  unfold os_eqv. simpl. by rewrite !null_string_default, null_int_default.
Qed.
Next Obligation.
  intros d Hd. view_simpl. unfold sq_id_Get. stmt_step.
  { destruct Hfe. split_and!; [done..|congruence]. }
  change (v_identity (sq_view d')) with (identity_of_row <$> db_identity d').
  destruct (db_identity d'); done.
Qed.
Next Obligation.
  intros now x d Hd. view_simpl. unfold sq_id_Put. stmt_step; [done|].
  split; [by apply (sq_ok_same d')|]. unfold sq_view, set_identity, identity_of_row, stamp_identity.
  simpl. by rewrite !null_string_default, null_int_default.
Qed.
Next Obligation. intros now k d. apply sq_key_Add_law. Qed.
Next Obligation.
  intros n d Hd. view_simpl. unfold sq_key_Get. stmt_step.
  { destruct Hfe. split_and!; [done..|congruence]. }
  rewrite lookup_key_view. by destruct (db_keys d' !! n).
Qed.
Next Obligation.
  intros d Hd. view_simpl. unfold sq_key_List. stmt_step; [done|]. split_and!; [done..| |].
  - pose proof key_before_trans. pose proof key_before_total. apply (StronglySorted_merge_sort _).
  - rewrite merge_sort_Permutation. symmetry. apply (values_of_rows key_of_row), lookup_key_view.
Qed.
Next Obligation.
  intros n d Hd. view_simpl. unfold sq_key_Delete. stmt_step; [done|].
  split; [by apply (sq_ok_same d')|]. unfold sq_view, on_keys. simpl. f_equal. apply map_imap_delete.
Qed.
Next Obligation.
  intros d Hd. view_simpl. unfold sq_key_Count. stmt_step; [done|]. split_and!; [done..|].
  rewrite <- !length_map_to_list, <- !(length_fmap snd).
  rewrite (values_of_rows key_of_row (db_keys d') (v_keys (sq_view d')) (lookup_key_view d')).
  by rewrite !length_fmap.
Qed.
Next Obligation.
  intros d Hd. view_simpl. unfold sq_key_DeleteAll. stmt_step; [done|].
  split; [by apply (sq_ok_same d')|done].
Qed.
End sqlite.
