(* ===== verification/StoreRefinement.v ===== *)
(** * The stores agree: store/memory/memory.go, store/sqlite/sqlite.go

    The memory store is what the daemon runs on when there is no database, and
    what the services are developed against.  Seen through the calls of the
    port, the database refines it: on related states every call gives the same
    answer and leads to related states, up to the time stamps the two keep
    differently. *)

From S2P Require Import Prelude GoStrings Models Store MemoryStore SqliteStore.

Set Default Goal Selector "!".

(** ** Calls *)

Inductive store_op : Type -> Type :=
  | OpWorkloadPut (w : Workload) : store_op unit
  | OpWorkloadGet (name : string) : store_op Workload
  | OpWorkloadList : store_op (list Workload)
  | OpWorkloadDelete (name : string) : store_op unit
  | OpVolumePut (now : Z) (v : Volume) : store_op unit
  | OpVolumeGet (name : string) : store_op Volume
  | OpVolumeList : store_op (list Volume)
  | OpVolumeDelete (name : string) : store_op unit
  | OpOSGet : store_op OSState
  | OpOSPut (now : Z) (st : OSState) : store_op unit
  | OpIdentityGet : store_op CapsuleIdentity
  | OpIdentityPut (now : Z) (id : CapsuleIdentity) : store_op unit
  | OpKeyAdd (now : Z) (k : AuthorizedKey) : store_op unit
  | OpKeyGet (kid : string) : store_op AuthorizedKey
  | OpKeyList : store_op (list AuthorizedKey)
  | OpKeyDelete (kid : string) : store_op unit
  | OpKeyCount : store_op nat
  | OpKeyDeleteAll : store_op unit.

Definition run_op {W} `{!Store W} {A} (o : store_op A) : prog W A :=
  match o with
  | OpWorkloadPut w => wst_Put w
  | OpWorkloadGet n => wst_Get n
  | OpWorkloadList => wst_List
  | OpWorkloadDelete n => wst_Delete n
  | OpVolumePut now v => vst_Put now v
  | OpVolumeGet n => vst_Get n
  | OpVolumeList => vst_List
  | OpVolumeDelete n => vst_Delete n
  | OpOSGet => ost_Get
  | OpOSPut now st => ost_Put now st
  | OpIdentityGet => ist_Get
  | OpIdentityPut now id => ist_Put now id
  | OpKeyAdd now k => kst_Add now k
  | OpKeyGet n => kst_Get n
  | OpKeyList => kst_List
  | OpKeyDelete n => kst_Delete n
  | OpKeyCount => kst_Count
  | OpKeyDeleteAll => kst_DeleteAll
  end.

(** What the two stores keep of a volume: its name and path. *)
Definition vol_eqv (a b : Volume) : Prop := vol_name a = vol_name b /\ vol_host_path a = vol_host_path b.
#[export] Instance vol_eqv_equiv : Equivalence vol_eqv.
Proof. unfold vol_eqv. split; [by intros a|intros a b; intuition congruence|intros a b c; intuition congruence]. Qed.

(** The same answer, up to time stamps. *)
Definition answer_eqv {A} (o : store_op A) : A -> A -> Prop :=
  match o with
  | OpVolumeGet _ => vol_eqv
  | OpVolumeList => Forall2 vol_eqv
  | OpOSGet => os_eqv
  | _ => eq
  end.
Inductive result_rel {A} (R : A -> A -> Prop) : result A -> result A -> Prop :=
  | rel_Ok a b : R a b -> result_rel R (Ok a) (Ok b)
  | rel_Err e : result_rel R (Err e) (Err e).

(** ** Clients

    A client of the port decides each call from the answers before it. *)
Inductive client (B : Type) : Type :=
  | Done (b : B)
  | Call {A : Type} (o : store_op A) (k : result A -> client B).
Arguments Done {B} b.
Arguments Call {B A} o k.

Fixpoint run_client {W B} `{!Store W} (c : client B) (w : W) : B * W :=
  match c with
  | Done b => (b, w)
  | Call o k => let '(r, w') := run_op o w in run_client (k r) w'
  end.

(** ** Related states *)

Record view_rel (a b : StoreView) : Prop := mkViewRel {
  rel_workloads : v_workloads a = v_workloads b;
  rel_volumes n : option_relation vol_eqv (fun _ => False) (fun _ => False) (v_volumes a !! n) (v_volumes b !! n);
  rel_os : option_relation os_eqv (fun _ => False) (fun _ => False) (v_os a) (v_os b);
  rel_identity : v_identity a = v_identity b;
  rel_keys : v_keys a = v_keys b;
  (** each record is under its own name *)
  named_workloads n w : v_workloads b !! n = Some w -> wl_name w = n;
  named_volumes n v : v_volumes b !! n = Some v -> vol_name v = n;
  named_keys n k : v_keys b !! n = Some k -> ak_Kid k = n }.

(** *** Updates on both sides *)

Section updates.
Context (a b : StoreView) (H : view_rel a b).

Lemma vr_workloads_put w : view_rel (on_workloads <[wl_name w := w]> a) (on_workloads <[wl_name w := w]> b).
Proof.
  destruct H. constructor; simpl; try done; [by f_equal|]. intros n x.
  rewrite lookup_insert_Some. intros [[<- <-]|[_ ?]]; [done|eauto].
Qed.
Lemma vr_workloads_delete n : view_rel (on_workloads (delete n) a) (on_workloads (delete n) b).
Proof. destruct H. constructor; simpl; try done; [by f_equal|]. intros m x [_ ?]%lookup_delete_Some. eauto. Qed.
Lemma vr_volumes_put n v v' : vol_eqv v v' -> vol_name v' = n ->
  view_rel (on_volumes <[n := v]> a) (on_volumes <[n := v']> b).
Proof.
  intros Hv Hn. destruct H. constructor; simpl; try done.
  - intros m. rewrite !lookup_insert. by case_decide.
  - intros m x. rewrite lookup_insert_Some. intros [[<- <-]|[_ ?]]; [done|eauto].
Qed.
Lemma vr_volumes_delete n : view_rel (on_volumes (delete n) a) (on_volumes (delete n) b).
Proof.
  destruct H. constructor; simpl; try done.
  - intros m. rewrite !lookup_delete. by case_decide.
  - intros m x [_ ?]%lookup_delete_Some. eauto.
Qed.
Lemma vr_os x y : os_eqv x y -> view_rel (set_os (Some x) a) (set_os (Some y) b).
Proof. intros Ho. by destruct H. Qed.
Lemma vr_identity i : view_rel (set_identity i a) (set_identity i b).
Proof. by destruct H. Qed.
Lemma vr_keys_put n k : ak_Kid k = n -> view_rel (on_keys <[n := k]> a) (on_keys <[n := k]> b).
Proof.
  intros Hk. destruct H. constructor; simpl; try done; [by f_equal|]. intros m x.
  rewrite lookup_insert_Some. intros [[<- <-]|[_ ?]]; [done|eauto].
Qed.
Lemma vr_keys_delete n : view_rel (on_keys (delete n) a) (on_keys (delete n) b).
Proof. destruct H. constructor; simpl; try done; [by f_equal|]. intros m x [_ ?]%lookup_delete_Some. eauto. Qed.
Lemma vr_keys_clear : view_rel (on_keys (fun _ => ∅) a) (on_keys (fun _ => ∅) b).
Proof. destruct H. by constructor. Qed.

(** Listings of related volumes are related. *)
Lemma volumes_listed l1 l2 : listing vol_name (v_volumes a) l1 -> listing vol_name (v_volumes b) l2 -> Forall2 vol_eqv l1 l2.
Proof.
  intros [S1 P1] [S2 P2]. set (key := fun v => (vol_name v, vol_host_path v)).
  set (R := fun p q : string * string => String.le p.1 q.1).
  assert (forall l, StronglySorted (fun x y => String.le (vol_name x) (vol_name y)) l -> StronglySorted R (key <$> l)) as Hs.
  { intros l. induction 1 as [|x l _ IH Hx]; constructor; [done|]. apply Forall_fmap. exact Hx. }
  assert (forall (m : gmap string Volume), key <$> (map_to_list m).*2 ≡ₚ (map_to_list (key <$> m)).*2) as Hm.
  { intros m. rewrite map_to_list_fmap, <- !list_fmap_compose. done. }
  assert (key <$> v_volumes a = key <$> v_volumes b) as Em.
  { apply map_eq. intros n. rewrite !lookup_fmap. pose proof (rel_volumes _ _ H n) as Hn.
    destruct (v_volumes a !! n) as [x|], (v_volumes b !! n) as [y|]; try done. destruct Hn as [Hn Hp].
    simpl. unfold key. by rewrite Hn, Hp. }
  assert (key <$> l1 = key <$> l2) as E.
  { apply (StronglySorted_unique_strong R); [|by apply Hs..|by rewrite P1, P2, !Hm, Em].
    assert (forall p, p ∈ (key <$> l1) \/ p ∈ (key <$> l2) -> (key <$> v_volumes b) !! p.1 = Some p) as Hin.
    { intros p Hp. rewrite P1, P2, !Hm, Em in Hp. assert (p ∈ (map_to_list (key <$> v_volumes b)).*2) as Hp' by tauto.
      apply list_elem_of_fmap in Hp' as ([n q] & -> & Hq%elem_of_map_to_list). simpl.
      rewrite lookup_fmap in Hq. apply fmap_Some in Hq as (v & Hv & ->). simpl. rewrite lookup_fmap.
      by rewrite (named_volumes _ _ H n v Hv), Hv. }
    intros p q Hp Hq R1 R2. assert (p.1 = q.1) as E1 by (by apply (anti_symm String.le)).
    pose proof (Hin p (or_introl Hp)) as E2. pose proof (Hin q (or_intror Hq)) as E3. congruence. }
  apply (Forall2_impl (fun x y => key x = key y)); [|by intros x y [= ? ?]].
  apply Forall2_fmap. by rewrite E.
Qed.
End updates.

Section refinement.
Context (Marshal : Workload -> result string) (Unmarshal : string -> result Workload).
Context (Unmarshal_Marshal : forall w b, Marshal w = Ok b -> Unmarshal b = Ok w).
#[local] Instance sq : Store DB := sqlite_Store Marshal Unmarshal.

(** A database whose statements succeed, with the content of [s]. *)
Definition sim (s : memStore) (d : DB) : Prop :=
  sq_ok Unmarshal d /\ db_faults d = [] /\ view_rel (mem_view s) (sq_view Unmarshal d).

(** The callers store named records that can be marshalled. *)
Definition op_ok {A} (o : store_op A) : Prop :=
  match o with
  | OpWorkloadPut w => wl_name w <> "" /\ is_ok (Marshal w) = true
  | OpVolumePut _ v => vol_name v <> ""
  | _ => True
  end.

Lemma stmt_runs {A} (body : prog DB A) d : db_faults d = [] -> stmt body d = body d.
Proof. unfold stmt. by intros ->. Qed.

(** Two sorted listings of one set of records with distinct names are equal. *)
Lemma listing_unique {A} (key : A -> string) (m : gmap string A) l1 l2 :
  (forall n a, m !! n = Some a -> key a = n) -> listing key m l1 -> listing key m l2 -> l1 = l2.
Proof.
  intros Hk [S1 P1] [S2 P2]. apply (StronglySorted_unique_strong (fun a b => String.le (key a) (key b))); [|done|done|by rewrite P1, P2].
  assert (forall x, x ∈ l1 \/ x ∈ l2 -> m !! key x = Some x) as Hin.
  { intros x Hx. rewrite P1, P2 in Hx. assert (x ∈ (map_to_list m).*2) as Hx' by tauto.
    apply list_elem_of_fmap in Hx' as ([n a] & -> & Ha%elem_of_map_to_list). simpl. by rewrite (Hk _ _ Ha). }
  intros x y Hx Hy H1 H2. assert (key x = key y) as E by (by apply (anti_symm String.le)).
  pose proof (Hin x (or_introl Hx)) as E1. pose proof (Hin y (or_intror Hy)) as E2. congruence.
Qed.
Lemma keys_unique (m : gmap string AuthorizedKey) l1 l2 :
  (forall n a, m !! n = Some a -> ak_Kid a = n) -> StronglySorted key_before l1 -> l1 ≡ₚ (map_to_list m).*2 ->
  StronglySorted key_before l2 -> l2 ≡ₚ (map_to_list m).*2 -> l1 = l2.
Proof.
  intros Hk S1 P1 S2 P2. apply (StronglySorted_unique_strong key_before); [|done|done|by rewrite P1, P2].
  assert (forall x, x ∈ l1 \/ x ∈ l2 -> m !! ak_Kid x = Some x) as Hin.
  { intros x Hx. rewrite P1, P2 in Hx. assert (x ∈ (map_to_list m).*2) as Hx' by tauto.
    apply list_elem_of_fmap in Hx' as ([n a] & -> & Ha%elem_of_map_to_list). simpl. by rewrite (Hk _ _ Ha). }
  intros x y Hx Hy H1 H2.
  assert (ak_Kid x = ak_Kid y) as E.
  { unfold key_before in *. destruct H1 as [|[? L1]], H2 as [|[? L2]]; [lia..|]. by apply (anti_symm String.le). }
  pose proof (Hin x (or_introl Hx)) as E1. pose proof (Hin y (or_intror Hy)) as E2. congruence.
Qed.

#[local] Instance sq_laws : StoreLaws DB := sqlite_laws Marshal Unmarshal Unmarshal_Marshal.

Ltac ops := cbn [run_op wst_Put wst_Get wst_List wst_Delete vst_Put vst_Get vst_List vst_Delete ost_Get ost_Put ist_Get ist_Put
    kst_Add kst_Get kst_List kst_Delete kst_Count kst_DeleteAll Workloads Volumes OSState_ Identity AuthorizedKeys
    sq sqlite_Store memory_Store sq_laws sqlite_laws view store_ok].
Tactic Notation "ops" "in" hyp(H) := cbn [run_op wst_Put wst_Get wst_List wst_Delete vst_Put vst_Get vst_List vst_Delete ost_Get ost_Put ist_Get ist_Put
    kst_Add kst_Get kst_List kst_Delete kst_Count kst_DeleteAll Workloads Volumes OSState_ Identity AuthorizedKeys
    sq sqlite_Store memory_Store sq_laws sqlite_laws view store_ok] in H.

(** One call on both sides. *)
Definition agrees {A} (R : A -> A -> Prop) (m1 : prog memStore A) (m2 : prog DB A) (s : memStore) (d : DB) : Prop :=
  result_rel R (m1 s).1 (m2 d).1 /\ sim (m1 s).2 (m2 d).2.

Section calls.
Context (s : memStore) (d : DB) (Hs : sim s d).

(** [run_law H L]: the law [L] of the database, on a statement that runs. *)
Ltac run_law H L := pose proof L as H; ops in H.
Ltac runs := rewrite ?stmt_runs by apply Hs.

Lemma workload_Get_agrees n : agrees eq (mem_wl_Get n) (sq_wl_Get Unmarshal n) s d.
Proof.
  destruct Hs as (Hok & Hf & Hv). unfold agrees, mem_wl_Get, sq_wl_Get, bind. runs.
  pose proof (lookup_wl_view Unmarshal d n) as Hn. rewrite <- (rel_workloads _ _ Hv) in Hn. cbn [mem_view v_workloads] in Hn. rewrite Hn.
  destruct (db_workloads d !! n) as [r|] eqn:E; [|by split; [constructor|]].
  destruct (ok_rows _ _ Hok _ _ E) as (w & Hw & _). unfold wl_of_row, wrap_err, lift. rewrite Hw.
  split; [by constructor|done].
Qed.
Lemma workload_Put_agrees w : wl_name w <> "" -> is_ok (Marshal w) = true -> agrees eq (mem_wl_Put w) (sq_wl_Put Marshal w) s d.
Proof.
  intros Hn Hm. destruct Hs as (Hok & Hf & Hv). pose proof (sq_wl_Put_law Marshal Unmarshal Unmarshal_Marshal w d Hok Hn) as HL.
  unfold agrees, mem_wl_Put, sq_wl_Put, bind, wrap_err, lift in *. apply String.eqb_neq in Hn. rewrite Hn.
  destruct (Marshal w) as [b|e]; [|done]. rewrite stmt_runs in HL |- * by done. destruct HL as [Hok' Hv'].
  split; [by constructor|]. unfold sim. cbn [fst snd] in *. split_and!; [done|done|]. rewrite Hv'. by apply (vr_workloads_put (mem_view s)).
Qed.
Lemma workload_List_agrees : agrees eq mem_wl_List (sq_wl_List Unmarshal) s d.
Proof.
  destruct Hs as (Hok & Hf & Hv). unfold agrees, mem_wl_List, sq_wl_List. runs.
  destruct (workloads_listing Unmarshal d Hok) as (l & -> & Hl). split; [|done]. constructor.
  apply (listing_unique wl_name (v_workloads (sq_view Unmarshal d))); [apply (named_workloads _ _ Hv)| |done].
  rewrite <- (rel_workloads _ _ Hv). apply listing_sort.
Qed.
Lemma workload_Delete_agrees n : agrees eq (mem_wl_Delete n) (sq_wl_Delete n) s d.
Proof.
  destruct Hs as (Hok & Hf & Hv). run_law HL (wst_Delete_law n d Hok).
  unfold agrees, mem_wl_Delete, sq_wl_Delete in *. rewrite stmt_runs in HL |- * by done. destruct HL as [Hok' Hv'].
  split; [by constructor|]. unfold sim. cbn [fst snd] in *. split_and!; [done|done|]. rewrite Hv'. by apply (vr_workloads_delete (mem_view s)).
Qed.

Lemma volume_Get_agrees n : agrees vol_eqv (mem_vol_Get n) (sq_vol_Get n) s d.
Proof.
  destruct Hs as (Hok & Hf & Hv). unfold agrees, mem_vol_Get, sq_vol_Get. runs.
  pose proof (rel_volumes _ _ Hv n) as Hn. rewrite lookup_vol_view in Hn. cbn [mem_view v_volumes] in Hn.
  destruct (mem_volumes s !! n) as [v|], (db_volumes d !! n) as [r|]; try done; split; try done; by constructor.
Qed.
Lemma volume_Put_agrees now v : vol_name v <> "" -> agrees eq (mem_vol_Put now v) (sq_vol_Put now v) s d.
Proof.
  intros Hn. destruct Hs as (Hok & Hf & Hv). run_law HL (vst_Put_law now v d Hok Hn).
  unfold agrees, mem_vol_Put, sq_vol_Put in *. apply String.eqb_neq in Hn. rewrite Hn. rewrite stmt_runs in HL |- * by done.
  destruct HL as (Hok' & v' & Hv' & Hname & Hpath).
  split; [by constructor|]. unfold sim. cbn [fst snd] in *. split_and!; [done|done|]. rewrite Hv'.
  by apply (vr_volumes_put (mem_view s)).
Qed.
Lemma volume_List_agrees : agrees (Forall2 vol_eqv) mem_vol_List sq_vol_List s d.
Proof.
  destruct Hs as (Hok & Hf & Hv). run_law HL (vst_List_law d Hok). unfold agrees, mem_vol_List, sq_vol_List in *.
  rewrite stmt_runs in HL |- * by done. split; [|done]. constructor.
  eapply (volumes_listed _ _ Hv); [apply listing_sort|apply HL].
Qed.
Lemma volume_Delete_agrees n : agrees eq (mem_vol_Delete n) (sq_vol_Delete n) s d.
Proof.
  destruct Hs as (Hok & Hf & Hv). run_law HL (vst_Delete_law n d Hok).
  unfold agrees, mem_vol_Delete, sq_vol_Delete in *. rewrite stmt_runs in HL |- * by done. destruct HL as [Hok' Hv'].
  split; [by constructor|]. unfold sim. cbn [fst snd] in *. split_and!; [done|done|]. rewrite Hv'. by apply (vr_volumes_delete (mem_view s)).
Qed.

Lemma os_Get_agrees : agrees os_eqv mem_os_Get sq_os_Get s d.
Proof.
  destruct Hs as (Hok & Hf & Hv). unfold agrees, mem_os_Get, sq_os_Get. runs.
  pose proof (rel_os _ _ Hv) as Hn. change (v_os (mem_view s)) with (mem_osState s) in Hn.
  change (v_os (sq_view Unmarshal d)) with (os_of_row <$> db_os_state d) in Hn.
  destruct (mem_osState s) as [v|], (db_os_state d) as [r|]; try done; split; try done; by constructor.
Qed.
Lemma os_Put_agrees now st : agrees eq (mem_os_Put now st) (sq_os_Put now st) s d.
Proof.
  destruct Hs as (Hok & Hf & Hv). run_law HL (ost_Put_law now st d Hok).
  unfold agrees, mem_os_Put, sq_os_Put in *. rewrite stmt_runs in HL |- * by done. destruct HL as (Hok' & x' & Hv' & Hx).
  split; [by constructor|]. unfold sim. cbn [fst snd] in *. split_and!; [done|done|]. rewrite Hv'. by apply (vr_os (mem_view s)).
Qed.
Lemma identity_Get_agrees : agrees eq mem_id_Get sq_id_Get s d.
Proof.
  destruct Hs as (Hok & Hf & Hv). unfold agrees, mem_id_Get, sq_id_Get. runs.
  pose proof (rel_identity _ _ Hv) as Hn. change (v_identity (mem_view s)) with (mem_identity s) in Hn. rewrite Hn.
  change (v_identity (sq_view Unmarshal d)) with (identity_of_row <$> db_identity d).
  destruct (db_identity d) as [r|]; split; try done; by constructor.
Qed.
Lemma identity_Put_agrees now id : agrees eq (mem_id_Put now id) (sq_id_Put now id) s d.
Proof.
  destruct Hs as (Hok & Hf & Hv). run_law HL (ist_Put_law now id d Hok).
  unfold agrees, mem_id_Put, sq_id_Put in *. rewrite stmt_runs in HL |- * by done. destruct HL as (Hok' & Hv').
  split; [by constructor|]. unfold sim. cbn [fst snd] in *. split_and!; [done|done|]. rewrite Hv'. by apply (vr_identity (mem_view s)).
Qed.

Lemma key_lookup n : mem_authKeys s !! n = key_of_row n <$> db_keys d !! n.
Proof. destruct Hs as (_ & _ & Hv). rewrite <- (lookup_key_view Unmarshal). by rewrite <- (rel_keys _ _ Hv). Qed.
Lemma key_Get_agrees n : agrees eq (mem_key_Get n) (sq_key_Get n) s d.
Proof.
  unfold agrees, mem_key_Get, sq_key_Get. runs. rewrite key_lookup.
  destruct (db_keys d !! n); split; try done; by constructor.
Qed.
Lemma key_Add_agrees now k : agrees eq (mem_key_Add now k) (sq_key_Add now k) s d.
Proof.
  destruct Hs as (Hok & Hf & Hv). pose proof (sq_key_Add_law Unmarshal now k d Hok) as HL.
  unfold agrees, mem_key_Add, sq_key_Add, sq_key_insert in *. rewrite key_lookup. rewrite stmt_runs in HL |- * by done.
  destruct (db_keys d !! ak_Kid k) as [r|]; cbn [fmap option_fmap option_map].
  - split; [|done]. constructor.
  - destruct HL as (Hok' & _ & Hv'). split; [by constructor|]. unfold sim. cbn [fst snd] in *. split_and!; [done|done|].
    rewrite Hv'. by apply (vr_keys_put (mem_view s)).
Qed.
Lemma key_List_agrees : agrees eq mem_key_List sq_key_List s d.
Proof.
  destruct Hs as (Hok & Hf & Hv). run_law HL (kst_List_law d Hok). run_law HM (kst_List_law s I).
  unfold agrees, mem_key_List, sq_key_List in *. rewrite stmt_runs in HL |- * by done.
  destruct HL as (_ & _ & S2 & P2), HM as (_ & _ & S1 & P1). split; [|done]. constructor.
  apply (keys_unique (v_keys (sq_view Unmarshal d))); [apply (named_keys _ _ Hv)|done| |done|done].
  by rewrite <- (rel_keys _ _ Hv).
Qed.
Lemma key_Delete_agrees n : agrees eq (mem_key_Delete n) (sq_key_Delete n) s d.
Proof.
  destruct Hs as (Hok & Hf & Hv). run_law HL (kst_Delete_law n d Hok).
  unfold agrees, mem_key_Delete, sq_key_Delete in *. rewrite stmt_runs in HL |- * by done. destruct HL as [Hok' Hv'].
  split; [by constructor|]. unfold sim. cbn [fst snd] in *. split_and!; [done|done|]. rewrite Hv'. by apply (vr_keys_delete (mem_view s)).
Qed.
Lemma key_Count_agrees : agrees eq mem_key_Count sq_key_Count s d.
Proof.
  destruct Hs as (Hok & Hf & Hv). run_law HL (kst_Count_law d Hok). unfold agrees, mem_key_Count, sq_key_Count in *.
  rewrite stmt_runs in HL |- * by done. destruct HL as (_ & _ & ->). rewrite <- (rel_keys _ _ Hv). split; [|done]. by constructor.
Qed.
Lemma key_DeleteAll_agrees : agrees eq mem_key_DeleteAll sq_key_DeleteAll s d.
Proof.
  destruct Hs as (Hok & Hf & Hv). run_law HL (kst_DeleteAll_law d Hok).
  unfold agrees, mem_key_DeleteAll, sq_key_DeleteAll in *. rewrite stmt_runs in HL |- * by done. destruct HL as [Hok' Hv'].
  split; [by constructor|]. unfold sim. cbn [fst snd] in *. split_and!; [done|done|]. rewrite Hv'. by apply (vr_keys_clear (mem_view s)).
Qed.
End calls.

Lemma op_agrees {A} (o : store_op A) s d : sim s d -> op_ok o -> agrees (answer_eqv o) (run_op o) (run_op o) s d.
Proof.
  intros Hs Ho. destruct o; ops; cbn [answer_eqv op_ok] in *.
  all: eauto using workload_Get_agrees, workload_List_agrees, workload_Delete_agrees, volume_Get_agrees, volume_Put_agrees,
    volume_List_agrees, volume_Delete_agrees, os_Get_agrees, os_Put_agrees, identity_Get_agrees, identity_Put_agrees,
    key_Get_agrees, key_Add_agrees, key_List_agrees, key_Delete_agrees, key_Count_agrees, key_DeleteAll_agrees.
  destruct Ho. by apply workload_Put_agrees.
Qed.

(** [client_rel] relates two clients that make the same calls and go on alike
    after equivalent answers: related to itself is a client that makes sensible
    calls and does not look at time stamps. *)
Inductive client_rel {B} : client B -> client B -> Prop :=
  | rel_Done b : client_rel (Done b) (Done b)
  | rel_Call A (o : store_op A) k1 k2 : op_ok o ->
      (forall r1 r2, result_rel (answer_eqv o) r1 r2 -> client_rel (k1 r1) (k2 r2)) ->
      client_rel (Call o k1) (Call o k2).

Lemma sim_empty : sim mem_New (mkDB ∅ ∅ None None ∅ 0 []).
Proof.
  split; [|split; [done|]].
  - constructor; [|done]. intros n r. simpl. by rewrite lookup_empty.
  - constructor; simpl; try done; intros n; try intros x; unfold sq_view; simpl; by rewrite ?lookup_empty, ?omap_empty, ?map_lookup_imap, ?lookup_empty.
Qed.

End refinement.

(** ** A client on both stores *)

Module RefinementDemo.
Definition bare (name : string) : Workload :=
  mkWorkload name WORKLOAD_KIND_CONTAINER None None None DESIRED_STATE_RUNNING.
Definition Marshal (w : Workload) : result string :=
  if decide (w = bare (wl_name w)) then Ok (wl_name w) else Err (Errorf "not bare").
Definition Unmarshal (b : string) : result Workload := Ok (bare b).
Lemma roundtrip w b : Marshal w = Ok b -> Unmarshal b = Ok w.
Proof. unfold Marshal, Unmarshal. case_decide as H; [|done]. intros [= <-]. by f_equal. Qed.

(** Store two workloads and a volume, delete one, list the rest by name. *)
Definition names_left : client (list string * bool) :=
  Call (OpWorkloadPut (bare "web")) (fun _ =>
  Call (OpWorkloadPut (bare "db")) (fun _ =>
  Call (OpVolumePut 5 (mkVolume "data" 1024 "/dev/capsule/vol-data" [] 0)) (fun _ =>
  Call (OpWorkloadDelete "web") (fun _ =>
  Call OpWorkloadList (fun ws =>
  Call (OpVolumeGet "data") (fun v =>
  Done (match ws with Ok l => wl_name <$> l | Err _ => [] end, is_ok v))))))).
Lemma names_left_rel : client_rel Marshal names_left names_left.
Proof.
  unfold names_left. do 4 (apply rel_Call; [repeat split; discriminate|]; intros _ _ _).
  apply rel_Call; [exact I|]. intros l1 l2 Hl. apply rel_Call; [exact I|]. intros v1 v2 Hv.
  inversion Hl; subst; inversion Hv; subst; cbn [answer_eqv] in *; subst; apply rel_Done.
Qed.
End RefinementDemo.

