(* ===== verification/Migration.v ===== *)
(** * The schema: Open and migrate of store/sqlite/sqlite.go

    A database is its tables with their columns; every statement can fail.
    What the operations of SqliteStore take for granted, that their queries
    name columns that exist, is what [migrate] establishes. *)

From S2P Require Import Prelude GoStrings Models Store MemoryStore SqliteStore.

Set Default Goal Selector "!".
Local Open Scope go_scope.

(** Columns with their declarations, in table order. *)
Abbreviation columns := (list (string * string)).
Record Schema := mkSchema { sc_tables : gmap string columns; sc_open : bool; sc_faults : list fault }.
#[export] Instance Schema_faulty : Faulty Schema :=
  {| faults_of := sc_faults; with_faults l d := mkSchema (sc_tables d) (sc_open d) l |}.
#[export] Instance Schema_laws : FaultyLaws Schema.
Proof. split; [done|by intros []]. Qed.
Definition set_tables (f : gmap string columns -> gmap string columns) (d : Schema) : Schema :=
  mkSchema (f (sc_tables d)) (sc_open d) (sc_faults d).

Definition now_default : string := "INTEGER NOT NULL DEFAULT (strftime('%s','now'))".
Definition create_stmts : list (string * columns) :=
  [("workloads", [("name", "TEXT PRIMARY KEY"); ("spec", "BLOB NOT NULL"); ("updated_at", now_default)]);
   ("volumes", [("name", "TEXT PRIMARY KEY"); ("host_path", "TEXT NOT NULL"); ("created_at", now_default)]);
   ("os_state", [("singleton", "INTEGER PRIMARY KEY CHECK (singleton = 1)"); ("active_slot", "TEXT NOT NULL");
      ("pending_slot", "TEXT"); ("pending_deadline_unix", "INTEGER"); ("last_good_slot", "TEXT NOT NULL");
      ("last_version", "TEXT"); ("updated_at_unix", now_default)]);
   ("capsule_identity", [("singleton", "INTEGER PRIMARY KEY CHECK (singleton = 1)"); ("capsule_id", "TEXT NOT NULL");
      ("short_id", "TEXT"); ("created_at_unix", now_default); ("adopted_at_unix", "INTEGER"); ("adopted_by_kid", "TEXT")]);
   ("authorized_keys", [("kid", "TEXT PRIMARY KEY"); ("pubkey", "BLOB NOT NULL"); ("name", "TEXT NOT NULL");
      ("added_by_kid", "TEXT"); ("added_at_unix", now_default)])].

(** ** The statements *)

(** CREATE TABLE IF NOT EXISTS *)
Definition create_if_missing (table : string) (cols : columns) : prog Schema unit :=
  os_call no_part (fun d => (Ok tt, set_tables (fun m => match m !! table with Some _ => m | None => <[table := cols]> m end) d)).
(** PRAGMA table_info: no rows for a table that does not exist. *)
Definition table_info (table : string) : prog Schema (list string) :=
  os_call no_part (fun d => (Ok (default [] (sc_tables d !! table)).*1, d)).
(** ALTER TABLE ADD COLUMN *)
Definition alter_add (table column decl : string) : prog Schema unit :=
  os_call no_part (fun d =>
    match sc_tables d !! table with
    | None => (Err (Errorf ("no such table: " +:+ table)), d)
    | Some cols =>
        if bool_decide (column ∈ cols.*1) then (Err (Errorf ("duplicate column name: " +:+ column)), d)
        else (Ok tt, set_tables <[table := cols ++ [(column, decl)]]> d)
    end).

(** The rows of the query, scanned until one has the name; [rows.Err] after the last. *)
Fixpoint scan_for (column : string) (names : list string) : prog Schema bool :=
  match names with
  | [] => os_call no_part (ret false)
  | name :: names =>
      wrap_err "scan table_info: " (os_call no_part (ret tt)) ;;;
      if String.eqb name column then ret true else scan_for column names
  end.
Definition addColumnIfMissing (table column decl : string) : prog Schema unit :=
  names <- wrap_err ("table_info(" +:+ table +:+ "): ") (table_info table) ;;
  present <- scan_for column names ;;
  if (present : bool) then ret tt
  else wrap_err ("alter table " +:+ table +:+ " add column " +:+ column +:+ ": ") (alter_add table column decl).

Definition migrate : prog Schema unit :=
  for_each create_stmts (fun s => wrap_err "sqlite migrate: " (create_if_missing s.1 s.2)) ;;;
  wrap_err "sqlite migrate short_id: " (addColumnIfMissing "capsule_identity" "short_id" "TEXT").

Definition close : prog Schema unit := fun d => (Ok tt, mkSchema (sc_tables d) false (sc_faults d)).
(** [Open]: the handle is closed again when the migration fails. *)
Definition Open : prog Schema unit :=
  wrap_err "sqlite open: " (os_call no_part (fun d => (Ok tt, mkSchema (sc_tables d) true (sc_faults d)))) ;;;
  r <- catch migrate ;;
  match r with
  | Err e => close ;;; fail e
  | Ok _ => ret tt
  end.

(** ** Queries *)

Record query := mkQuery { q_table : string; q_columns : list string }.

(** The queries of the operations, with the columns each one names. *)
Definition queries : list query :=
  [mkQuery "os_state" ["active_slot"; "pending_slot"; "pending_deadline_unix"; "last_good_slot"; "last_version"; "updated_at_unix"; "singleton"];
   mkQuery "volumes" ["name"; "host_path"; "created_at"];
   mkQuery "workloads" ["name"; "spec"; "updated_at"];
   mkQuery "capsule_identity" ["singleton"; "capsule_id"; "short_id"; "created_at_unix"; "adopted_at_unix"; "adopted_by_kid"];
   mkQuery "authorized_keys" ["kid"; "pubkey"; "name"; "added_by_kid"; "added_at_unix"]].

(** A query is well typed in a schema: its table is there with its columns. *)
Definition typed (m : gmap string columns) (q : query) : Prop :=
  exists cols, m !! q_table q = Some cols /\ forall c, c ∈ q_columns q -> c ∈ cols.*1.
#[export] Instance typed_dec m q : Decision (typed m q).
Proof.
  refine (match m !! q_table q as o return m !! q_table q = o -> _ with
          | Some cols => fun E => match decide (Forall (fun c => c ∈ cols.*1) (q_columns q)) with left H => left _ | right H => right _ end
          | None => fun E => right _ end eq_refl).
  - exists cols. split; [done|]. by apply Forall_forall.
  - intros (cols' & E' & Hc). rewrite E in E'. injection E' as <-. apply H. by apply Forall_forall.
  - intros (cols' & E' & _). congruence.
Defined.

(** A database an earlier or this version made: no table of ours, or all of a
    table's columns, or an identity table from before [short_id]. *)
Definition old_identity : columns := filter (fun c => c.1 <> "short_id") (default [] (list_to_map (M:=gmap string columns) create_stmts !! "capsule_identity")).
Definition made_by_capsule (m : gmap string columns) : Prop :=
  forall t cols, (t, cols) ∈ create_stmts ->
    match m !! t with
    | None => True
    | Some cols' => cols ⊆ cols' \/ (t = "capsule_identity" /\ old_identity ⊆ cols' /\ "short_id" ∉ cols'.*1)
    end.

(** [m'] has the tables of [m], each with its columns first. *)
Definition extends (m m' : gmap string columns) : Prop :=
  forall t cols, m !! t = Some cols -> exists more, m' !! t = Some (cols ++ more).
#[export] Instance extends_preorder : PreOrder extends.
Proof.
  split.
  - intros m t cols H. exists []. by rewrite app_nil_r.
  - intros m1 m2 m3 H1 H2 t cols Ht. destruct (H1 _ _ Ht) as (a & Ha). destruct (H2 _ _ Ha) as (b & Hb).
    exists (a ++ b). by rewrite app_assoc.
Qed.

(** ** What a migration does *)

(** Any outcome of a statement keeps the tables and their columns. *)
Definition grows {A} (m : prog Schema A) : Prop := forall t, preserves (fun d => extends t (sc_tables d)) m.

Lemma grows_call {A} (act : prog Schema A) : (forall d, extends (sc_tables d) (sc_tables (act d).2)) -> grows (os_call no_part act).
Proof. intros Ha t. apply preserves_os_call; [done..|]. intros d Hd. etrans; [done|apply Ha]. Qed.
Lemma grows_create t c : grows (create_if_missing t c).
Proof.
  apply grows_call. intros d. cbn. destruct (sc_tables d !! t) eqn:E; [done|]. intros t' c' H.
  exists []. rewrite app_nil_r. destruct (decide (t = t')) as [->|]; [congruence|]. by rewrite lookup_insert_ne.
Qed.
Lemma grows_table_info t : grows (table_info t).
Proof. by apply grows_call. Qed.
Lemma grows_alter t c decl : grows (alter_add t c decl).
Proof.
  apply grows_call. intros d. cbn. destruct (sc_tables d !! t) as [cols|] eqn:E; [|done].
  case_bool_decide; [done|]. cbn. intros t' c' H'. destruct (decide (t' = t)) as [->|].
  - exists [(c, decl)]. rewrite lookup_insert_eq. congruence.
  - exists []. by rewrite app_nil_r, lookup_insert_ne.
Qed.
Lemma grows_scan c names : grows (scan_for c names).
Proof.
  intros t. induction names as [|n names IH]; cbn; [by apply grows_call|].
  apply preserves_bind; [apply preserves_wrap_err; by apply grows_call|]. intros _. by case_match; [apply preserves_ret|].
Qed.
Lemma grows_migrate : grows migrate.
Proof.
  intros t. pose proof grows_table_info as H1. pose proof grows_alter as H2. pose proof grows_scan as H3.
  unfold migrate, addColumnIfMissing. go_preserves.
  - apply preserves_for_each. intros s _. apply preserves_wrap_err, grows_create.
  - apply H1.
  - apply H3.
  - apply H2.
Qed.

Definition create_all (l : list (string * columns)) (m : gmap string columns) : gmap string columns :=
  foldl (fun m s => match m !! s.1 with Some _ => m | None => <[s.1 := s.2]> m end) m l.

Lemma create_all_Ok l d d' :
  for_each l (fun s => wrap_err "sqlite migrate: " (create_if_missing s.1 s.2)) d = (Ok tt, d') ->
  sc_tables d' = create_all l (sc_tables d) /\ sc_open d' = sc_open d.
Proof.
  revert d. induction l as [|[t c] l IH]; intros d; [by intros [= <-]|].
  cbn [for_each fst snd]. intros ([] & d1 & H1 & H)%bind_Ok_inv. apply IH in H as [-> ->]. unfold wrap_err in H1.
  destruct (create_if_missing t c d) as [[[]|e] d2] eqn:E; [|done]. injection H1 as ->.
  apply os_call_Ok in E as [f E]. cbn in E. by injection E as <-.
Qed.

Lemma create_all_lookup l m t :
  create_all l m !! t = match m !! t with
                        | Some c => Some c
                        | None => snd <$> List.find (fun s => String.eqb s.1 t) l
                        end.
Proof.
  revert m. induction l as [|[t' c'] l IH]; intros m; cbn [create_all foldl List.find fst].
  { by destruct (m !! t). }
  change (create_all l (match m !! t' with Some _ => m | None => <[t' := c']> m end) !! t =
    match m !! t with Some c => Some c | None => snd <$> (if String.eqb t' t then Some (t', c') else List.find (fun s => String.eqb s.1 t) l) end).
  rewrite IH. destruct (String.eqb_spec t' t) as [->|Hne].
  - destruct (m !! t) as [c|] eqn:E; [by rewrite E|]. by rewrite lookup_insert_eq.
  - destruct (m !! t') as [c|] eqn:E; [done|]. by rewrite lookup_insert_ne.
Qed.

(** The columns a table of ours has after the creations. *)
Lemma created_columns m t cols :
  made_by_capsule m -> (t, cols) ∈ create_stmts ->
  exists cols', create_all create_stmts m !! t = Some cols' /\
    (cols ⊆ cols' \/ (t = "capsule_identity" /\ old_identity ⊆ cols' /\ "short_id" ∉ cols'.*1)).
Proof.
  intros Hm Hin. specialize (Hm t cols Hin). rewrite create_all_lookup. destruct (m !! t) as [c|]; [eauto|].
  exists cols. split; [|by left].
  assert (Forall (fun s => List.find (fun s' => String.eqb s'.1 s.1) create_stmts = Some s) create_stmts) as Hall
    by (repeat constructor).
  rewrite Forall_forall in Hall. specialize (Hall _ Hin). cbn [fst] in Hall. by rewrite Hall.
Qed.

(** A scan that ends tells whether the name is there. *)
Lemma scan_for_Ok c names d b d' : scan_for c names d = (Ok b, d') ->
  b = bool_decide (c ∈ names) /\ sc_tables d' = sc_tables d /\ sc_open d' = sc_open d.
Proof.
  revert d. induction names as [|n names IH]; intros d; cbn.
  - intros [f H]%os_call_Ok. injection H as <- <-. by rewrite bool_decide_false by apply not_elem_of_nil.
  - intros ([] & d1 & H1 & H)%bind_Ok_inv. unfold wrap_err in H1.
    destruct (os_call no_part (ret tt) d) as [[[]|e] d2] eqn:E; [|done]. injection H1 as <-.
    apply os_call_Ok in E as [f E]. injection E as <-. destruct (String.eqb_spec n c) as [->|Hne].
    + injection H as <- <-. by rewrite bool_decide_true by apply list_elem_of_here.
    + destruct (IH _ H) as (-> & Ht & Ho). split_and!; [|by rewrite Ht|by rewrite Ho].
      apply bool_decide_ext. rewrite elem_of_cons. split; [tauto|intros [->|?]; done].
Qed.

(** The last step completes an old identity table and leaves others alone. *)
Lemma addColumn_Ok table column decl d d' :
  addColumnIfMissing table column decl d = (Ok tt, d') ->
  exists cols, sc_tables d !! table = Some cols /\ sc_open d' = sc_open d /\
    sc_tables d' = (if bool_decide (column ∈ cols.*1) then sc_tables d else <[table := cols ++ [(column, decl)]]> (sc_tables d)).
Proof.
  unfold addColumnIfMissing. intros (names & d1 & H1 & H)%bind_Ok_inv. unfold wrap_err at 1 in H1.
  destruct (table_info table d) as [[ns|e] d2] eqn:E; [|done]. injection H1 as <- <-.
  apply os_call_Ok in E as [f E]. cbn in E. injection E as <- <-.
  apply bind_Ok_inv in H as (b & d4 & Hs & H). apply scan_for_Ok in Hs as (-> & Ht & Ho). cbn in Ht, Ho. case_bool_decide as Hin.
  - injection H as <-. destruct (sc_tables d !! table) as [cols|]; [|by apply not_elem_of_nil in Hin]. exists cols.
    by rewrite bool_decide_true, Ht, Ho.
  - unfold wrap_err in H. destruct (alter_add table column decl _) as [[[]|e] d3] eqn:E3; [|done]. injection H as ->.
    apply os_call_Ok in E3 as [f3 E3]. cbn in E3. rewrite Ht in E3. destruct (sc_tables d !! table) as [cols|]; [|done].
    case_bool_decide as Hin'; [done|]. injection E3 as <-. exists cols.
    split_and!; [done|exact Ho|]. by rewrite bool_decide_false.
Qed.

Lemma migrate_Ok d d' : migrate d = (Ok tt, d') ->
  exists cols, create_all create_stmts (sc_tables d) !! "capsule_identity" = Some cols /\ sc_open d' = sc_open d /\
    sc_tables d' = (if bool_decide ("short_id" ∈ cols.*1) then create_all create_stmts (sc_tables d)
                    else <["capsule_identity" := cols ++ [("short_id", "TEXT")]]> (create_all create_stmts (sc_tables d))).
Proof.
  unfold migrate. intros ([] & d1 & H1 & H)%bind_Ok_inv. apply create_all_Ok in H1 as [E1 E2].
  unfold wrap_err in H. destruct (addColumnIfMissing _ _ _ d1) as [[[]|e] d2] eqn:E; [|done]. injection H as ->.
  apply addColumn_Ok in E as (cols & Hc & Ho & Ht). rewrite E1 in Hc, Ht. exists cols. split_and!; [done|congruence|done].
Qed.

Lemma Open_cases d r d' : Open d = (r, d') ->
  (exists e, r = Err e) \/
  (r = Ok tt /\ exists d1 d2, migrate d1 = (Ok tt, d2) /\ sc_tables d1 = sc_tables d /\ sc_open d1 = true /\ d' = d2).
Proof.
  unfold Open. unfold bind at 1, wrap_err at 1. destruct (os_call _ _ d) as [[[]|e] d1] eqn:E; [|intros [= <- <-]; left; by eexists].
  apply os_call_Ok in E as [f E]. cbn in E. injection E as <-.
  set (d1 := mkSchema (sc_tables d) true f). intros H. unfold bind, catch in H. destruct (migrate d1) as [[[]|e] d2] eqn:Em.
  - injection H as <- <-. right. split; [done|]. by exists d1, d2.
  - injection H as <- <-. left. by eexists.
Qed.

Lemma identity_columns cols : ("capsule_identity", cols) ∈ create_stmts -> old_identity ++ [("short_id", "TEXT")] ≡ₚ cols.
Proof.
  intros H. assert (cols = default [] (list_to_map (M:=gmap string columns) create_stmts !! "capsule_identity")) as ->.
  { assert (Forall (fun s : string * columns => s.1 = "capsule_identity" -> s.2 = default [] (list_to_map (M:=gmap string columns) create_stmts !! "capsule_identity")) create_stmts) as Hall
      by (repeat constructor; done).
    rewrite Forall_forall in Hall. by apply (Hall _ H). }
  apply (bool_decide_unpack _). vm_compute. exact I.
Qed.

(** The tables after a migration of a database of ours have all the columns. *)
Lemma migrate_columns d d' t cols : made_by_capsule (sc_tables d) -> migrate d = (Ok tt, d') -> (t, cols) ∈ create_stmts ->
  exists cols', sc_tables d' !! t = Some cols' /\ cols ⊆ cols'.
Proof.
  intros Hm H Hin. apply migrate_Ok in H as (ic & Hic & _ & ->).
  destruct (created_columns _ _ _ Hm Hin) as (cols' & Hc & Hcase).
  destruct (decide (t = "capsule_identity")) as [->|Hne].
  - rewrite Hic in Hc. injection Hc as <-. case_bool_decide as Hs.
    + exists ic. split; [done|]. by destruct Hcase as [|(_ & _ & ?)].
    + rewrite lookup_insert_eq. eexists. split; [done|]. destruct Hcase as [Hsub|(_ & Hsub & _)].
      * intros x Hx. apply elem_of_app. left. by apply Hsub.
      * intros x Hx. rewrite <- (identity_columns cols Hin) in Hx. apply elem_of_app in Hx as [Hx|Hx]; apply elem_of_app; [left; by apply Hsub|by right].
  - exists cols'. split; [|by destruct Hcase as [|(? & _)]]. case_bool_decide; [done|]. by rewrite lookup_insert_ne.
Qed.

Lemma queries_typed m :
  (forall t cols, (t, cols) ∈ create_stmts -> exists cols', m !! t = Some cols' /\ cols ⊆ cols') -> Forall (typed m) queries.
Proof.
  intros Hm. apply Forall_forall. intros q Hq.
  assert (Forall (fun q => exists cols, (q_table q, cols) ∈ create_stmts /\ forall c, c ∈ q_columns q -> c ∈ cols.*1) queries) as Hall.
  { unfold queries. repeat (apply Forall_cons; split; [eexists; split; [cbn [q_table]; in_names|]; cbn [q_columns];
      apply (proj1 (Forall_forall (fun c => c ∈ _) _)); apply (bool_decide_unpack _); vm_compute; exact I|]). by apply Forall_nil. }
  rewrite Forall_forall in Hall. destruct (Hall q Hq) as (cols & Hin & Hc). destruct (Hm _ _ Hin) as (cols' & Hc' & Hsub).
  exists cols'. split; [done|]. intros c Hcq. apply Hc in Hcq. apply list_elem_of_fmap in Hcq as (x & -> & Hx).
  apply list_elem_of_fmap_2. by apply Hsub.
Qed.

(** A migrated database is left alone. *)
Lemma scan_tables m c names : preserves (fun d => sc_tables d = m) (scan_for c names).
Proof.
  induction names as [|n names IH]; cbn; [apply preserves_os_call; [done..|apply preserves_ret]|].
  apply preserves_bind; [apply preserves_wrap_err, preserves_os_call; [done..|apply preserves_ret]|]. intros _. by case_match; [apply preserves_ret|].
Qed.
Definition migrated (m : gmap string columns) : Prop :=
  (forall t cols, (t, cols) ∈ create_stmts -> is_Some (m !! t)) /\
  exists cols, m !! "capsule_identity" = Some cols /\ "short_id" ∈ cols.*1.

Lemma Open_stable m : migrated m -> preserves (fun d => sc_tables d = m) Open.
Proof.
  intros [Hall (ic & Hic & Hs)].
  assert (preserves (fun d => sc_tables d = m) migrate) as Hmig.
  { unfold migrate. apply preserves_bind.
    - apply preserves_for_each. intros [t c] Hin. apply preserves_wrap_err, preserves_os_call; [done..|].
      intros d <-. cbn. destruct (Hall t c Hin) as [x Hx]. by rewrite Hx.
    - intros _. apply preserves_wrap_err. unfold addColumnIfMissing. intros d Hd. unfold bind, wrap_err at 1.
      destruct (table_info "capsule_identity" d) as [[ns|e] d1] eqn:E.
      + apply os_call_Ok in E as [f E]. cbn in E. rewrite Hd, Hic in E. injection E as <- <-. cbn [default].
        pose proof (scan_tables m "short_id" ic.*1 (mkSchema m (sc_open d) f) eq_refl) as Hkeep. cbn.
        destruct (scan_for "short_id" ic.*1 _) as [[b|e] d2] eqn:E2; [|exact Hkeep].
        apply scan_for_Ok in E2 as (-> & _). by rewrite bool_decide_true.
      + assert (preserves (fun d => sc_tables d = m) (table_info "capsule_identity")) as Ht by (apply preserves_os_call; [done..|by intros d0]).
        specialize (Ht d Hd). by rewrite E in Ht. }
  unfold Open. apply preserves_bind; [apply preserves_wrap_err, preserves_os_call; [done..|by intros d0]|intros _].
  go_preserves. by intros d.
Qed.

Lemma Open_extends d : extends (sc_tables d) (sc_tables (Open d).2).
Proof.
  assert (preserves (fun d' => extends (sc_tables d) (sc_tables d')) Open) as H; [|by apply H].
  unfold Open. apply preserves_bind; [apply preserves_wrap_err, preserves_os_call; [done..|by intros d0]|intros _].
  go_preserves; [apply grows_migrate|by intros d'].
Qed.

Lemma migrate_migrated d d' : made_by_capsule (sc_tables d) -> migrate d = (Ok tt, d') -> migrated (sc_tables d').
Proof.
  intros Hm H. split.
  - intros t cols Hin. destruct (migrate_columns d d' t cols Hm H Hin) as (c & Hc & _). by exists c.
  - assert (exists cols, ("capsule_identity", cols) ∈ create_stmts /\ "short_id" ∈ cols.*1) as (cols & Hin & Hs).
    { eexists. split; [unfold create_stmts; in_names|apply (bool_decide_unpack _); vm_compute; exact I]. }
    destruct (migrate_columns d d' _ _ Hm H Hin) as (c & Hc & Hsub). exists c. split; [done|].
    apply list_elem_of_fmap in Hs as (x & -> & Hx). apply list_elem_of_fmap_2. by apply Hsub.
Qed.

(** C26: Opening a database makes it the one the queries are written for.  On a
    database an earlier version made, or none, a successful [Open] leaves every
    query of the store with its table and columns, and opening it again
    changes nothing even if that fails part way; and no outcome loses a table
    or a column. *)
Theorem Open_types_queries d r d' :
  made_by_capsule (sc_tables d) -> Open d = (r, d') ->
  extends (sc_tables d) (sc_tables d') /\
  (r = Ok tt -> sc_open d' = true /\ Forall (typed (sc_tables d')) queries /\
    forall d2, sc_tables d2 = sc_tables d' -> sc_tables (Open d2).2 = sc_tables d').
Proof.
  intros Hm H. split; [pose proof (Open_extends d) as He; by rewrite H in He|]. intros ->.
  apply Open_cases in H as [(e & ?)|(_ & d1 & d2 & H & E1 & E2 & ->)]; [done|]. rewrite <- E1 in Hm.
  split_and!.
  - apply migrate_Ok in H as (c & _ & -> & _). done.
  - apply queries_typed. intros t cols. by apply (migrate_columns d1).
  - intros d3 E3. by apply (Open_stable (sc_tables d2)); [by apply (migrate_migrated d1)|].
Qed.

(** A database from before [short_id], and an unrelated table in it. *)
Module MigrationDemo.
Definition before : gmap string columns :=
  <["capsule_identity" := old_identity]> (<["notes" := [("id", "INTEGER")]]> ∅).
Definition opened : result unit * Schema := Open (mkSchema before false []).
End MigrationDemo.

Lemma Open_types_queries_witness :
  MigrationDemo.opened.1 = Ok tt /\
  extends MigrationDemo.before (sc_tables MigrationDemo.opened.2) /\
  Forall (typed (sc_tables MigrationDemo.opened.2)) queries.
Proof.
  assert (MigrationDemo.opened.1 = Ok tt) as E by (vm_compute; reflexivity).
  split; [exact E|].
  destruct (Open_types_queries (mkSchema MigrationDemo.before false []) MigrationDemo.opened.1 MigrationDemo.opened.2) as [He Ht].
  - intros t cols Hin. unfold create_stmts in Hin.
    assert (MigrationDemo.before !! "capsule_identity" = Some old_identity) as E1 by (vm_compute; reflexivity).
    repeat (apply elem_of_cons in Hin as [Hin|Hin]; [injection Hin as -> ->; cbn [sc_tables]; first [rewrite E1|vm_compute; exact I]|]).
    + right. split; [reflexivity|]. split; [done|]. apply (bool_decide_unpack _); vm_compute; exact I.
    + by apply not_elem_of_nil in Hin.
  - apply surjective_pairing.
  - split; [exact He|]. apply (Ht E).
Defined.
