(* ===== verification/Runtime.v ===== *)
(** * The runtime port: runtime/runtime.go

    The driver interfaces the core layer calls, as classes of operations over
    a driver world [D], with the contract the comments of the interface give
    ([DriverLaws]): which workload specs run under which names. *)

From S2P Require Import Prelude GoStrings Models.

Set Default Goal Selector "!".

(** ** Spec hash *)

(** The kind-specific message of a workload: what a driver runs. *)
Inductive RuntimeSpec :=
  | RunContainer (c : option ContainerSpec)
  | RunMicroVM (v : option MicroVMSpec).

#[export] Instance RuntimeSpec_eq_dec : EqDecision RuntimeSpec.
Proof. solve_decision. Defined.


(** [hex.EncodeToString] *)
Fixpoint EncodeToString (b : string) : string :=
  match b with
  | "" => ""
  | String c b => String (hex_digit (ord c / 16)) (String (hex_digit (ord c mod 16)) (EncodeToString b))
  end.

Definition kind_string (k : WorkloadKind) : string :=
  match k with
  | WORKLOAD_KIND_UNSPECIFIED => "WORKLOAD_KIND_UNSPECIFIED"
  | WORKLOAD_KIND_CONTAINER => "WORKLOAD_KIND_CONTAINER"
  | WORKLOAD_KIND_MICRO_VM => "WORKLOAD_KIND_MICRO_VM"
  | WORKLOAD_KIND_OTHER n => Itoa n
  end.

Section SpecHash.
(** [proto.MarshalOptions{Deterministic: true}.Marshal] and [sha256.Sum256]. *)
Context (marshal : RuntimeSpec -> result string) (sha256 : string -> string).

(** [msg] is an interface value; after either case it holds a typed pointer,
    so it compares different from nil even when the pointer is nil. *)
Definition SpecHash (w : Workload) : result string :=
  let go (msg : option RuntimeSpec) :=
    match msg with
    | None => Err (Errorf ("spec hash: workload " +:+ wl_name w +:+ " has no spec"))
    | Some m =>
        match marshal m with
        | Err e => Err (Wrap "spec hash: marshal: " e "")
        | Ok b => Ok (EncodeToString (sha256 b))
        end
    end in
  match wl_kind w with
  | WORKLOAD_KIND_CONTAINER => go (Some (RunContainer (wl_container w)))
  | WORKLOAD_KIND_MICRO_VM => go (Some (RunMicroVM (wl_micro_vm w)))
  | k => Err (Errorf ("spec hash: unsupported kind " +:+ kind_string k))
  end.
End SpecHash.

(** [Phase.String] *)
Definition Phase_String (p : Phase) : string :=
  match p with
  | PhasePending => "Pending"
  | PhaseRunning => "Running"
  | PhaseStopped => "Stopped"
  | PhaseFailed => "Failed"
  | PhaseUnknown => "Unknown"
  end.

(** ** Driver interfaces *)

Record ExecRequest := mkExecRequest {
  ex_Name : string;
  ex_Command : list string;
  ex_Env : gmap string string;
  ex_TTY : bool }.

(** What [Logs], [SerialLogs] and [os.Open] hand back: which stream is read. *)
Inductive LogStream :=
  | LogFile (path : string)
  | PayloadLog (name : string) (follow : bool) (tailLines : Z)
  | SerialLog (name : string) (follow : bool).

Class Driver (D : Type) := {
  EnsureRunning : Workload -> prog D unit;
  Remove : string -> prog D unit;
  Driver_Status : string -> prog D Status;
  Driver_Exec : ExecRequest -> prog D Z }.

Class ContainerDriver (D : Type) := {
  ctr_driver :: Driver D;
  Driver_LogPath : string -> string }.

Class VMDriver (D : Type) := {
  vm_driver :: Driver D;
  Driver_Logs : string -> bool -> Z -> prog D LogStream;
  Driver_SerialLogs : string -> bool -> prog D LogStream }.

(** The spec a workload of its kind asks a driver to run. *)
Definition wanted_spec (w : Workload) : option RuntimeSpec :=
  match wl_kind w with
  | WORKLOAD_KIND_CONTAINER => RunContainer ∘ Some <$> wl_container w
  | WORKLOAD_KIND_MICRO_VM => RunMicroVM ∘ Some <$> wl_micro_vm w
  | _ => None
  end.

(** The contract: [EnsureRunning] makes the workload's spec run under its
    name, [Remove] leaves nothing under the name, and neither touches another
    name; [Status] and [Exec] start and stop no workload. *)
Class DriverLaws (D : Type) `{!Driver D} := {
  running : D -> gmap string RuntimeSpec;
  EnsureRunning_law w d :
    let '(r, d') := EnsureRunning w d in
    (forall n, n <> wl_name w -> running d' !! n = running d !! n) /\
    match r with Ok _ => running d' !! wl_name w = wanted_spec w | Err _ => True end;
  Remove_law n d :
    let '(r, d') := Remove n d in
    (forall m, m <> n -> running d' !! m = running d !! m) /\
    match r with Ok _ => running d' !! n = None | Err _ => True end;
  Status_law n d : running (Driver_Status n d).2 = running d;
  Exec_law q d : running (Driver_Exec q d).2 = running d }.

(** ** A reference driver

    The least driver that meets the contract: the running specs and, per
    name, whether the next call on it fails.  It instantiates the contract in
    concrete runs. *)

Record RefDriver := mkRefDriver {
  rd_running : gmap string RuntimeSpec;
  rd_broken : gset string }.

Definition rd_EnsureRunning (w : Workload) : prog RefDriver unit := fun d =>
  if decide (wl_name w ∈ rd_broken d) then (Err (Errorf "driver: broken"), d)
  else match wanted_spec w with
       | Some sp => (Ok tt, mkRefDriver (<[wl_name w := sp]> (rd_running d)) (rd_broken d))
       | None => (Err (Errorf ("workload " +:+ Quote (wl_name w) +:+ " has no spec")), d)
       end.
Definition rd_Remove (n : string) : prog RefDriver unit := fun d =>
  if decide (n ∈ rd_broken d) then (Err (Errorf "driver: broken"), d)
  else (Ok tt, mkRefDriver (delete n (rd_running d)) (rd_broken d)).
Definition rd_Status (n : string) : prog RefDriver Status := fun d =>
  match rd_running d !! n with
  | Some _ => (Ok (mkStatus PhaseRunning "" 0), d)
  | None => (Ok (mkStatus PhaseUnknown "" 0), d)
  end.
Definition rd_Exec (q : ExecRequest) : prog RefDriver Z := fun d =>
  match rd_running d !! ex_Name q with
  | Some _ => (Ok 0%Z, d)
  | None => (Err (Errorf "load container: not found"), d)
  end.

#[export] Instance RefDriver_driver : Driver RefDriver := {|
  EnsureRunning := rd_EnsureRunning; Remove := rd_Remove;
  Driver_Status := rd_Status; Driver_Exec := rd_Exec |}.
#[export] Instance RefDriver_container : ContainerDriver RefDriver := {|
  Driver_LogPath := fun n => "/run/capsule/workloads/" +:+ n +:+ "/combined.log" |}.
#[export] Instance RefDriver_vm : VMDriver RefDriver := {|
  Driver_Logs := fun n f t d => (Ok (PayloadLog n f t), d);
  Driver_SerialLogs := fun n f d => (Ok (SerialLog n f), d) |}.

#[export] Program Instance RefDriver_laws : DriverLaws RefDriver := {| running := rd_running |}.
Next Obligation.
  intros w d. simpl. unfold rd_EnsureRunning. case_decide; [done|].
  destruct (wanted_spec w) as [sp|]; [|done]. simpl.
  split; [intros n Hn; by rewrite lookup_insert_ne|by rewrite lookup_insert_eq].
Qed.
Next Obligation.
  intros n d. simpl. unfold rd_Remove. case_decide; [done|]. simpl.
  split; [intros m Hm; by rewrite lookup_delete_ne|by rewrite lookup_delete_eq].
Qed.
Next Obligation. intros n d. simpl. unfold rd_Status. by destruct (rd_running d !! n). Qed.
Next Obligation. intros q d. simpl. unfold rd_Exec. by destruct (rd_running d !! ex_Name q). Qed.

(** [SpecHash] depends on the kind-specific spec only, and its "no spec"
    branch is never taken: a nil spec hashes like an empty message. *)
Lemma SpecHash_nil_spec marshal sha256 w b :
  wl_kind w = WORKLOAD_KIND_CONTAINER -> wl_container w = None ->
  marshal (RunContainer None) = Ok b ->
  SpecHash marshal sha256 w = Ok (EncodeToString (sha256 b)).
Proof. intros Hk Hc Hb. unfold SpecHash. by rewrite Hk, Hc, Hb. Qed.

(** ** A healthy driver

    While it is healthy a driver's calls succeed and [Status] reports Running
    for what runs. *)
Class DriverLive (D : Type) `{!Driver D, !DriverLaws D} := {
  healthy : D -> Prop;
  EnsureRunning_live w d : healthy d -> is_Some (wanted_spec w) ->
    exists d', EnsureRunning w d = (Ok tt, d') /\ healthy d';
  Remove_live n d : healthy d -> exists d', Remove n d = (Ok tt, d') /\ healthy d';
  Status_live n d : healthy d ->
    exists st d', Driver_Status n d = (Ok st, d') /\ healthy d' /\
      (is_Some (running d !! n) -> st_Phase st = PhaseRunning) }.

#[export] Program Instance RefDriver_live : DriverLive RefDriver :=
  {| healthy := fun d => rd_broken d = ∅ |}.
Next Obligation.
  intros w d Hd [sp Hsp]. simpl. unfold rd_EnsureRunning. rewrite Hd, Hsp.
  rewrite decide_False by set_solver. eauto.
Qed.
Next Obligation.
  intros n d Hd. simpl. unfold rd_Remove. rewrite Hd, decide_False by set_solver. eauto.
Qed.
Next Obligation.
  intros n d Hd. simpl. unfold rd_Status. destruct (rd_running d !! n) eqn:E.
  - do 2 eexists. split_and!; [done..|]. done.
  - do 2 eexists. split_and!; [done..|]. intros [? ?]. congruence.
Qed.
