(* ===== verification/WorkloadService.v ===== *)
(** * Workload lifecycle: core/workload/service.go

    The service runs against a node: the store, the two drivers (each may be
    missing: a nil interface in [workload.New]) and the reconciler's wake
    channel, which the change callback fills. *)

From S2P Require Import Prelude GoStrings Models Store MemoryStore Runtime.

Set Default Goal Selector "!".
Local Open Scope go_scope.

(** ** The world *)

Record Node (S C V : Type) := mkNode {
  n_store : S;
  n_ctr : C;
  n_vm : V;
  n_wake : bool }.
Arguments mkNode {S C V}.
Arguments n_store {S C V}.
Arguments n_ctr {S C V}.
Arguments n_vm {S C V}.
Arguments n_wake {S C V}.

(** What [workload.New] and [SetOnChange] were given. *)
Record Config := mkConfig {
  has_driver : bool;
  has_vm : bool;
  has_onChange : bool }.

Section node.
Context {S C V : Type}.
Definition in_store {A} : prog S A -> prog (Node S C V) A :=
  zoom n_store (fun s n => mkNode s (n_ctr n) (n_vm n) (n_wake n)).
Definition in_ctr {A} : prog C A -> prog (Node S C V) A :=
  zoom n_ctr (fun c n => mkNode (n_store n) c (n_vm n) (n_wake n)).
Definition in_vm {A} : prog V A -> prog (Node S C V) A :=
  zoom n_vm (fun v n => mkNode (n_store n) (n_ctr n) v (n_wake n)).
(** [Reconciler.Kick]: a send on a channel of capacity 1 that never blocks. *)
Definition Kick : prog (Node S C V) unit := fun n =>
  (Ok tt, mkNode (n_store n) (n_ctr n) (n_vm n) true).
End node.

(** ** Validation *)

Definition valid_name (s : string) : bool :=
  (Z.of_nat (String.length s) <=? 63)%Z && MatchString nameRE s.


Definition validate (ow : option Workload) : result unit :=
  match ow with
  | None => Err (Errorf "workload is nil")
  | Some w =>
      if str_empty (wl_name w) then Err (Errorf "workload.name is required")
      else if negb (valid_name (wl_name w)) then
        Err (Errorf ("workload.name " +:+ Quote (wl_name w) +:+ " is invalid (expect DNS-1123 label, <=63 chars)"))
      else match wl_kind w with
      | WORKLOAD_KIND_CONTAINER =>
          match wl_container w with
          | None => Err (Errorf "kind=Container requires container spec")
          | Some c => if str_empty (cs_image c) then Err (Errorf "container.image is required") else Ok tt
          end
      | WORKLOAD_KIND_MICRO_VM =>
          match wl_micro_vm w with
          | None => Err (Errorf "kind=MicroVM requires micro_vm spec")
          | Some v =>
              if str_empty (mv_image v) then
                if str_empty (mv_kernel_path v) then Err (Errorf "micro_vm: either image or kernel_path is required")
                else if str_empty (mv_rootfs_path v) then
                  Err (Errorf "micro_vm.rootfs_path is required when image is not set")
                else Ok tt
              else Ok tt
          end
      | _ => Err (Errorf "workload.kind is required (Container or MicroVM)")
      end
  end.

(** ** Log helpers *)

Definition workloadKindString (k : WorkloadKind) : string :=
  match k with
  | WORKLOAD_KIND_CONTAINER => "container"
  | WORKLOAD_KIND_MICRO_VM => "microvm"
  | _ => "unknown"
  end.

Definition workloadImage (w : Workload) : string :=
  match wl_kind w with
  | WORKLOAD_KIND_CONTAINER => from_option cs_image "" (wl_container w)
  | WORKLOAD_KIND_MICRO_VM => from_option mv_image "" (wl_micro_vm w)
  | _ => ""
  end.

Inductive LogSource := LogSourcePayload | LogSourceSerial.

#[export] Instance LogSource_eq_dec : EqDecision LogSource.
Proof. solve_decision. Defined.

Section Service.
Context {S C V : Type} `{!Store S, !ContainerDriver C, !VMDriver V}.
Context (cfg : Config).

Definition notifyChange : prog (Node S C V) unit := when (has_onChange cfg) Kick.

Definition is_micro_vm (w : Workload) : bool := bool_decide (wl_kind w = WORKLOAD_KIND_MICRO_VM).

(** ** Apply *)
Definition Apply (ow : option Workload) : prog (Node S C V) Workload :=
  lift (validate ow) ;;;
  match ow with
  | None => fail (Errorf "workload is nil")
  | Some w =>
      existing <- catch (in_store (wst_Get (wl_name w))) ;;
      match existing with
      | Err e => if errors_Is e StoreNotFound then
                   in_store (wst_Put w) ;;; notifyChange ;;; ret w
                 else fail e
      | Ok old =>
          let merged := set_wl_status w (wl_status old) in
          in_store (wst_Put merged) ;;; notifyChange ;;; ret merged
      end
  end.

Definition Service_Get (name : string) : prog (Node S C V) Workload := in_store (wst_Get name).
Definition Service_List : prog (Node S C V) (list Workload) := in_store wst_List.

(** Driver teardown as [Delete] runs it: a missing driver is skipped. *)
Definition runtime_remove (kind : WorkloadKind) (name : string) : prog (Node S C V) unit :=
  match kind with
  | WORKLOAD_KIND_MICRO_VM =>
      when (has_vm cfg) (wrap_err ("runtime vm remove " +:+ Quote name +:+ ": ") (in_vm (Remove name)))
  | _ => when (has_driver cfg) (wrap_err ("runtime remove " +:+ Quote name +:+ ": ") (in_ctr (Remove name)))
  end.

(** ** Delete *)
Definition Delete (name : string) : prog (Node S C V) unit :=
  r <- catch (in_store (wst_Get name)) ;;
  let kind := match r with Ok w => wl_kind w | Err _ => WORKLOAD_KIND_UNSPECIFIED end in
  match r with
  | Ok w =>
      when (negb (bool_decide (wl_desired_state w = DESIRED_STATE_DELETING)))
        (wrap_err ("mark workload " +:+ Quote name +:+ " deleting: ")
           (in_store (wst_Put (set_wl_desired w DESIRED_STATE_DELETING))))
  | Err _ => ret tt
  end ;;;
  runtime_remove kind name ;;;
  in_store (wst_Delete name) ;;;
  notifyChange.

(** ** Logs *)
Definition LogPath (name : string) : string :=
  if has_driver cfg then Driver_LogPath name else "".

Definition OpenLogs (os_Open : string -> result LogStream) (name : string) (follow : bool)
    (tailLines : Z) (source : LogSource) : prog (Node S C V) LogStream :=
  w <- in_store (wst_Get name) ;;
  if is_micro_vm w then
    if negb (has_vm cfg) then fail (Sentinel WorkloadNoRuntime)
    else if bool_decide (source = LogSourceSerial) then in_vm (Driver_SerialLogs name follow)
    else in_vm (Driver_Logs name follow tailLines)
  else if bool_decide (source = LogSourceSerial) then
    fail (Errorf "--serial is only valid for MicroVM workloads")
  else if negb (has_driver cfg) then fail (Sentinel WorkloadNoRuntime)
  else let path := Driver_LogPath name in
    if str_empty path then fail (Sentinel OsNotExist) else lift (os_Open path).

(** ** Exec *)
Definition Exec (req : ExecRequest) : prog (Node S C V) Z :=
  r <- catch (in_store (wst_Get (ex_Name req))) ;;
  match r with
  | Ok w =>
      if is_micro_vm w then
        if has_vm cfg then in_vm (Driver_Exec req) else fail (Sentinel WorkloadNoRuntime)
      else if has_driver cfg then in_ctr (Driver_Exec req) else fail (Sentinel WorkloadNoRuntime)
  | Err _ => if has_driver cfg then in_ctr (Driver_Exec req) else fail (Sentinel WorkloadNoRuntime)
  end.

(** ** Restart, Stop, Start *)
Definition Restart (name : string) : prog (Node S C V) unit :=
  w <- in_store (wst_Get name) ;;
  (if is_micro_vm w then
     if has_vm cfg then in_vm (Remove name) else fail (Sentinel WorkloadNoRuntime)
   else if has_driver cfg then in_ctr (Remove name) else fail (Sentinel WorkloadNoRuntime)) ;;;
  notifyChange.

Definition Stop (name : string) : prog (Node S C V) unit :=
  w <- in_store (wst_Get name) ;;
  in_store (wst_Put (set_wl_desired w DESIRED_STATE_STOPPED)) ;;;
  (if is_micro_vm w then when (has_vm cfg) (ignore (in_vm (Remove name)))
   else when (has_driver cfg) (ignore (in_ctr (Remove name)))) ;;;
  notifyChange.

Definition Start (name : string) : prog (Node S C V) unit :=
  w <- in_store (wst_Get name) ;;
  let w1 := set_wl_desired w DESIRED_STATE_RUNNING in
  let w2 := set_wl_status w1 (Some (mkWorkloadStatus WORKLOAD_PHASE_PENDING "starting" 0)) in
  in_store (wst_Put w2) ;;;
  notifyChange.

(** ** SetStatus: [proto.Equal] skips a write that changes nothing. *)
Definition SetStatus (name : string) (status : WorkloadStatus) : prog (Node S C V) unit :=
  w <- in_store (wst_Get name) ;;
  if bool_decide (wl_status w = Some status) then ret tt
  else in_store (wst_Put (set_wl_status w (Some status))).
End Service.

(** ** Correctness *)

(** A row: the record is stored under its own name and passes validation. *)
Definition valid_row (name : string) (w : Workload) : Prop :=
  wl_name w = name /\ validate (Some w) = Ok tt.

(** Validation reads the name, the kind and the spec only. *)
Lemma validate_set_status w s : validate (Some (set_wl_status w s)) = validate (Some w).
Proof. done. Qed.
Lemma validate_set_desired w d : validate (Some (set_wl_desired w d)) = validate (Some w).
Proof. done. Qed.

Lemma valid_row_set_status n w s : valid_row n w -> valid_row n (set_wl_status w s).
Proof. done. Qed.
Lemma valid_row_set_desired n w d : valid_row n w -> valid_row n (set_wl_desired w d).
Proof. done. Qed.
#[export] Hint Resolve valid_row_set_status valid_row_set_desired : preserves.

Lemma validate_name w : validate (Some w) = Ok tt -> wl_name w <> "" /\ valid_name (wl_name w) = true.
Proof.
  unfold validate, str_empty. destruct (String.eqb_spec (wl_name w) ""); [done|].
  destruct (valid_name (wl_name w)); done.
Qed.

Lemma valid_row_name n w : valid_row n w -> wl_name w <> "".
Proof. intros [_ H]. by apply validate_name in H as [? _]. Qed.

Section correctness.
Context {S C V : Type} `{!Store S, !ContainerDriver C, !VMDriver V}.
Context `{!StoreLaws S, !DriverLaws C, !DriverLaws V}.
Context (cfg : Config).
Implicit Types n : Node S C V.

Definition rows n : gmap string Workload := v_workloads (view (n_store n)).
Definition node_ok n : Prop := store_ok (n_store n) /\ map_Forall valid_row (rows n).
Definition with_store (s : S) n : Node S C V := mkNode s (n_ctr n) (n_vm n) (n_wake n).

(** *** Store calls at the node *)

Lemma node_Get name n : store_ok (n_store n) ->
  exists r s', in_store (wst_Get name) n = (r, with_store s' n) /\ store_ok s' /\
    rows (with_store s' n) = rows n /\
    match r with
    | Ok w => rows n !! name = Some w
    | Err e => errors_Is e StoreNotFound = true -> rows n !! name = None
    end.
Proof.
  intros Hok. pose proof (wst_Get_law name (n_store n) Hok) as H. unfold in_store, zoom.
  destruct (wst_Get name (n_store n)) as [r s']. destruct H as (? & Hv & ?).
  exists r, s'. split_and!; [done..| |done]. unfold rows. simpl. by rewrite Hv.
Qed.

Lemma node_Put w n : store_ok (n_store n) -> wl_name w <> "" ->
  exists r s', in_store (wst_Put w) n = (r, with_store s' n) /\ store_ok s' /\
    rows (with_store s' n) = match r with Ok _ => <[wl_name w := w]> (rows n) | Err _ => rows n end.
Proof.
  intros Hok Hn. pose proof (wst_Put_law w (n_store n) Hok Hn) as H. unfold in_store, zoom.
  destruct (wst_Put w (n_store n)) as [r s']. destruct H as (? & Hv).
  exists r, s'. split_and!; [done..|]. unfold rows. simpl. by destruct r; rewrite Hv.
Qed.

Lemma node_Delete name n : store_ok (n_store n) ->
  exists r s', in_store (wst_Delete name) n = (r, with_store s' n) /\ store_ok s' /\
    rows (with_store s' n) = match r with Ok _ => delete name (rows n) | Err _ => rows n end.
Proof.
  intros Hok. pose proof (wst_Delete_law name (n_store n) Hok) as H. unfold in_store, zoom.
  destruct (wst_Delete name (n_store n)) as [r s']. destruct H as (? & Hv).
  exists r, s'. split_and!; [done..|]. unfold rows. simpl. by destruct r; rewrite Hv.
Qed.

Lemma node_List n : store_ok (n_store n) ->
  exists r s', in_store wst_List n = (r, with_store s' n) /\ store_ok s' /\
    rows (with_store s' n) = rows n /\
    match r with Ok l => listing wl_name (rows n) l | Err _ => True end.
Proof.
  intros Hok. pose proof (wst_List_law (n_store n) Hok) as H. unfold in_store, zoom.
  destruct (wst_List (n_store n)) as [r s']. destruct H as (? & Hv & ?).
  exists r, s'. split_and!; [done..| |done]. unfold rows. simpl. by rewrite Hv.
Qed.

(** *** Invariants are kept

    An invariant of the node that implies [node_ok] and that the calls on rows
    keep, whatever the drivers do, is kept by every operation. *)

Class RowInvariant (inv : Node S C V -> Prop) := {
  ri_ok n : inv n -> node_ok n;
  ri_Put w name : valid_row name w -> preserves inv (in_store (wst_Put w));
  ri_Get name : preserves inv (in_store (wst_Get name));
  ri_List : preserves inv (in_store wst_List);
  ri_Delete name : preserves inv (in_store (wst_Delete name));
  ri_ctr {A} (m : prog C A) : preserves inv (in_ctr m);
  ri_vm {A} (m : prog V A) : preserves inv (in_vm m);
  ri_Kick : preserves inv Kick }.

(** The rest of the store's records. *)
Definition off_workloads (v : StoreView) := (v_volumes v, v_os v, v_identity v, v_keys v).
(** Rows valid, the other records as given. *)
Definition node_with (F : _) n : Prop := node_ok n /\ off_workloads (view (n_store n)) = F.

#[export] Instance node_with_invariant F : RowInvariant (node_with F).
Proof.
  split.
  - by intros n [H _].
  - intros w name Hw n [[Hok Hrows] HF]. pose proof (wst_Put_law w (n_store n) Hok (valid_row_name _ _ Hw)) as H. unfold in_store, zoom, node_with, node_ok, rows in *.
    destruct (wst_Put w (n_store n)) as [r s']. destruct H as (Hok' & Hv). cbn. destruct r; rewrite Hv; [|by split_and!].
    split; [|done]. split; [done|]. destruct Hw as [<- Hw]. by apply map_Forall_insert_2.
  - intros name n [[Hok Hrows] HF]. pose proof (wst_Get_law name (n_store n) Hok) as H. unfold in_store, zoom, node_with, node_ok, rows in *.
    destruct (wst_Get name (n_store n)) as [r s']. destruct H as (Hok' & Hv & _). cbn. by rewrite Hv.
  - intros n [[Hok Hrows] HF]. pose proof (wst_List_law (n_store n) Hok) as H. unfold in_store, zoom, node_with, node_ok, rows in *.
    destruct (wst_List (n_store n)) as [r s']. destruct H as (Hok' & Hv & _). cbn. by rewrite Hv.
  - intros name n [[Hok Hrows] HF]. pose proof (wst_Delete_law name (n_store n) Hok) as H. unfold in_store, zoom, node_with, node_ok, rows in *.
    destruct (wst_Delete name (n_store n)) as [r s']. destruct H as (Hok' & Hv). cbn. destruct r; rewrite Hv; [|by split_and!].
    split; [|done]. split; [done|]. by apply map_Forall_delete.
  - intros A m n Hn. unfold in_ctr, zoom. by destruct (m (n_ctr n)).
  - intros A m n Hn. unfold in_vm, zoom. by destruct (m (n_vm n)).
  - by intros n Hn.
Qed.

(** What is kept with every value of the other records is kept. *)
Lemma node_with_all {A} (m : prog (Node S C V) A) : (forall F, preserves (node_with F) m) -> preserves node_ok m.
Proof. intros H n Hn. by apply (H (off_workloads (view (n_store n)))). Qed.
#[export] Instance node_ok_invariant : RowInvariant node_ok.
Proof.
  split; [done|..]; intros; apply node_with_all; intros F.
  - by eapply ri_Put.
  - apply ri_Get.
  - apply ri_List.
  - apply ri_Delete.
  - apply ri_ctr.
  - apply ri_vm.
  - apply ri_Kick.
Qed.

Section invariant.
Context (inv : Node S C V -> Prop) `{!RowInvariant inv}.

Lemma preserves_notify : preserves inv (notifyChange cfg).
Proof. unfold notifyChange. apply preserves_when, ri_Kick. Qed.

(** A record read from the store is a valid row. *)
Lemma preserves_catch_Get_bind {A} name (k : result Workload -> prog (Node S C V) A) :
  (forall w, valid_row name w -> preserves inv (k (Ok w))) ->
  (forall e, preserves inv (k (Err e))) ->
  preserves inv (bind (catch (in_store (wst_Get name))) k).
Proof using RowInvariant0 StoreLaws0.
  intros Hk He n Hn. pose proof (ri_ok n Hn) as [Hok Hrows]. pose proof (ri_Get name n Hn) as Hn'. unfold bind, catch.
  destruct (node_Get name n Hok) as (r & s' & E & Hok' & Hr & Hget). rewrite E in *.
  destruct r as [w|e]; [|by apply He]. apply Hk; [by apply (Hrows name w)|done].
Qed.
Lemma preserves_Get_bind {A} name (k : Workload -> prog (Node S C V) A) :
  (forall w, valid_row name w -> preserves inv (k w)) ->
  preserves inv (bind (in_store (wst_Get name)) k).
Proof using RowInvariant0 StoreLaws0.
  intros Hk n Hn. pose proof (preserves_catch_Get_bind name (fun r => match r with Ok w => k w | Err e => fail e end) Hk (preserves_fail _) n Hn) as H.
  unfold bind, catch, fail in *. by destruct (in_store (wst_Get name) n) as [[w|e] n'].
Qed.

Lemma preserves_store_Put_status w name s :
  valid_row name w -> preserves inv (in_store (wst_Put (set_wl_status w s))).
Proof using RowInvariant0. intros. by eapply ri_Put, valid_row_set_status. Qed.
Lemma preserves_store_Put_desired w name d :
  valid_row name w -> preserves inv (in_store (wst_Put (set_wl_desired w d))).
Proof using RowInvariant0. intros. by eapply ri_Put, valid_row_set_desired. Qed.
Hint Resolve ri_Put ri_Get ri_Delete ri_ctr ri_vm preserves_notify
  preserves_store_Put_status preserves_store_Put_desired : preserves.

Lemma runtime_remove_preserves kind name : preserves inv (runtime_remove cfg kind name).
Proof using RowInvariant0. unfold runtime_remove. go_preserves. Qed.
Hint Resolve runtime_remove_preserves : preserves.

Lemma Apply_preserves ow : preserves inv (Apply cfg ow).
Proof using RowInvariant0 StoreLaws0.
  intros n Hn. unfold Apply. unfold bind at 1, lift. destruct (validate ow) as [[]|e] eqn:Hv; [|done].
  destruct ow as [w|]; [|done]. assert (valid_row (wl_name w) w) as Hw by done.
  revert n Hn. apply preserves_catch_Get_bind.
  - intros old _. cbv zeta. go_preserves. eauto with preserves.
  - intros e. go_preserves. eauto with preserves.
Qed.

Lemma Delete_preserves name : preserves inv (Delete cfg name).
Proof using RowInvariant0 StoreLaws0.
  unfold Delete. apply preserves_catch_Get_bind.
  - intros w Hw. cbv zeta. go_preserves. eauto with preserves.
  - intros e. cbv zeta. go_preserves.
Qed.

Lemma Restart_preserves name : preserves inv (Restart cfg name).
Proof using RowInvariant0 StoreLaws0. unfold Restart. apply preserves_Get_bind. intros w Hw. go_preserves. Qed.

Lemma Stop_preserves name : preserves inv (Stop cfg name).
Proof using RowInvariant0 StoreLaws0.
  unfold Stop. apply preserves_Get_bind. intros w Hw. go_preserves. eauto with preserves.
Qed.

Lemma Start_preserves name : preserves inv (Start cfg name).
Proof using RowInvariant0 StoreLaws0.
  unfold Start. apply preserves_Get_bind. intros w Hw. cbv zeta. go_preserves.
  eapply ri_Put, valid_row_set_status, valid_row_set_desired, Hw.
Qed.

Lemma SetStatus_preserves name st : preserves inv (SetStatus name st).
Proof using RowInvariant0 StoreLaws0.
  unfold SetStatus. apply preserves_Get_bind. intros w Hw. go_preserves. eauto with preserves.
Qed.

Lemma OpenLogs_preserves os_Open name follow tail source : preserves inv (OpenLogs cfg os_Open name follow tail source).
Proof using RowInvariant0 StoreLaws0. unfold OpenLogs. apply preserves_Get_bind. intros w _. go_preserves. Qed.
Lemma Exec_preserves req : preserves inv (Exec cfg req).
Proof using RowInvariant0 StoreLaws0. unfold Exec. apply preserves_catch_Get_bind; intros; go_preserves. Qed.
End invariant.
End correctness.

(** The class premise of these lemmas is for instance search, not for [auto]. *)
#[export] Hint Extern 1 (preserves _ (in_store (wst_Get _))) => apply ri_Get : preserves.
#[export] Hint Extern 1 (preserves _ (in_store (wst_Delete _))) => apply ri_Delete : preserves.
#[export] Hint Extern 1 (preserves _ (in_ctr _)) => apply ri_ctr : preserves.
#[export] Hint Extern 1 (preserves _ (in_vm _)) => apply ri_vm : preserves.
#[export] Hint Extern 1 (preserves _ (notifyChange _)) => apply preserves_notify; apply _ : preserves.
#[export] Hint Extern 1 (preserves _ (runtime_remove _ _ _)) => apply runtime_remove_preserves; apply _ : preserves.
#[export] Hint Extern 1 (preserves _ (Apply _ _)) => apply Apply_preserves; apply _ : preserves.
#[export] Hint Extern 1 (preserves _ (Delete _ _)) => apply Delete_preserves; apply _ : preserves.
#[export] Hint Extern 1 (preserves _ (Restart _ _)) => apply Restart_preserves; apply _ : preserves.
#[export] Hint Extern 1 (preserves _ (Stop _ _)) => apply Stop_preserves; apply _ : preserves.
#[export] Hint Extern 1 (preserves _ (Start _ _)) => apply Start_preserves; apply _ : preserves.
#[export] Hint Extern 1 (preserves _ (SetStatus _ _)) => apply SetStatus_preserves; apply _ : preserves.
#[export] Hint Extern 1 (preserves _ (OpenLogs _ _ _ _ _ _)) => apply OpenLogs_preserves; apply _ : preserves.
#[export] Hint Extern 1 (preserves _ (Exec _ _)) => apply Exec_preserves; apply _ : preserves.

(** *** What each operation does *)

Section operations.
Context {S C V : Type} `{!Store S, !ContainerDriver C, !VMDriver V}.
Context `{!StoreLaws S, !DriverLaws C, !DriverLaws V}.
Context (cfg : Config).
Implicit Types n : Node S C V.

(** The drivers' view of a name. *)
Definition runs n (w : Workload) : option RuntimeSpec :=
  if is_micro_vm w then running (n_vm n) !! wl_name w else running (n_ctr n) !! wl_name w.

Definition same_runtime n n' : Prop := n_ctr n' = n_ctr n /\ n_vm n' = n_vm n.

Lemma notify_spec n :
  notifyChange cfg n = (Ok tt, mkNode (n_store n) (n_ctr n) (n_vm n) (has_onChange cfg || n_wake n)).
Proof. unfold notifyChange, when, Kick, ret. destruct (has_onChange cfg), n; done. Qed.

(** The record [Apply] stores: the request, with the status of the row it replaces. *)
Definition merged_row (old : option Workload) (w : Workload) : Workload :=
  match old with Some o => set_wl_status w (wl_status o) | None => w end.


(** *** Driver calls at the node *)

Lemma runtime_remove_spec w name n r n' :
  runtime_remove cfg (wl_kind w) name n = (r, n') ->
  n_store n' = n_store n /\ n_wake n' = n_wake n /\
  (forall m, m <> name -> running (n_ctr n') !! m = running (n_ctr n) !! m /\
                      running (n_vm n') !! m = running (n_vm n) !! m) /\
  (r = Ok tt -> (if is_micro_vm w then has_vm cfg else has_driver cfg) = true ->
   (if is_micro_vm w then running (n_vm n') !! name else running (n_ctr n') !! name) = None).
Proof.
  assert (forall b pre, when b (wrap_err pre (in_vm (Remove name))) n = (r, n') ->
    n_store n' = n_store n /\ n_wake n' = n_wake n /\ n_ctr n' = n_ctr n /\
    (forall m, m <> name -> running (n_vm n') !! m = running (n_vm n) !! m) /\
    (r = Ok tt -> b = true -> running (n_vm n') !! name = None)) as Hvm.
  { intros b pre. unfold when, wrap_err, in_vm, zoom. pose proof (Remove_law name (n_vm n)) as HL.
    destruct b; [|by intros [= <- <-]]. destruct (Remove name (n_vm n)) as [[[]|e] v'].
    all: destruct HL as [? ?]; intros [= <- <-]; by split_and!. }
  assert (forall b pre, when b (wrap_err pre (in_ctr (Remove name))) n = (r, n') ->
    n_store n' = n_store n /\ n_wake n' = n_wake n /\ n_vm n' = n_vm n /\
    (forall m, m <> name -> running (n_ctr n') !! m = running (n_ctr n) !! m) /\
    (r = Ok tt -> b = true -> running (n_ctr n') !! name = None)) as Hctr.
  { intros b pre. unfold when, wrap_err, in_ctr, zoom. pose proof (Remove_law name (n_ctr n)) as HL.
    destruct b; [|by intros [= <- <-]]. destruct (Remove name (n_ctr n)) as [[[]|e] c'].
    all: destruct HL as [? ?]; intros [= <- <-]; by split_and!. }
  unfold runtime_remove, is_micro_vm. intros H.
  destruct (wl_kind w);
    first [apply Hvm in H as (-> & -> & Hc & Hm & Hn) | apply Hctr in H as (-> & -> & Hc & Hm & Hn)];
    (split_and!; [done|done|intros m Hne; rewrite Hc; split; [try done; by apply Hm|try done; by apply Hm]|exact Hn]).
Qed.

Definition driver_present (w : Workload) : bool :=
  if is_micro_vm w then has_vm cfg else has_driver cfg.

(** The tombstone [Delete] puts on a row before it touches the runtime. *)
Definition tombstone (w : Workload) : Workload := set_wl_desired w DESIRED_STATE_DELETING.

Lemma tombstone_id w : wl_desired_state w = DESIRED_STATE_DELETING -> tombstone w = w.
Proof. destruct w. simpl. by intros ->. Qed.

(** First half of [Delete]: the row, when it was read, carries the tombstone. *)
Lemma mark_deleting name w n r n' :
  node_ok n -> rows n !! name = Some w ->
  when (negb (bool_decide (wl_desired_state w = DESIRED_STATE_DELETING)))
    (wrap_err ("mark workload " +:+ Quote name +:+ " deleting: ") (in_store (wst_Put (tombstone w)))) n = (r, n') ->
  node_ok n' /\ same_runtime n n' /\
  match r with
  | Ok _ => rows n' = <[name := tombstone w]> (rows n)
  | Err _ => rows n' = rows n
  end.
Proof.
  intros Hn Hw. assert (valid_row name w) as Hval by (by apply Hn).
  unfold when. case_bool_decide as Hd; cbn [negb].
  - intros [= <- <-]. split_and!; [done|by split|]. by rewrite tombstone_id, insert_id.
  - intros H. assert (node_ok n') as Hn'.
    { pose proof (preserves_wrap_err node_ok ("mark workload " +:+ Quote name +:+ " deleting: ") _
        (preserves_store_Put_desired node_ok w name DESIRED_STATE_DELETING Hval) n Hn) as Hp.
      change (set_wl_desired w DESIRED_STATE_DELETING) with (tombstone w) in Hp. by rewrite H in Hp. }
    unfold wrap_err in H. destruct Hn as [Hok _].
    destruct (node_Put (tombstone w) n Hok (valid_row_name _ _ Hval)) as (p & s' & Hp & _ & Hr).
    rewrite Hp in H. destruct Hval as [<- _].
    destruct p; simplify_eq; (split_and!; [done|by split|done]).
Qed.

(** Second half of [Delete]. *)
Lemma remove_then_drop w name n r n' :
  node_ok n ->
  bind (runtime_remove cfg (wl_kind w) name)
    (fun _ => bind (in_store (wst_Delete name)) (fun _ => notifyChange cfg)) n = (r, n') ->
  (forall m, m <> name -> rows n' !! m = rows n !! m /\ running (n_ctr n') !! m = running (n_ctr n) !! m /\
                      running (n_vm n') !! m = running (n_vm n) !! m) /\
  match r with
  | Ok _ => rows n' !! name = None /\
      (driver_present w = true ->
        (if is_micro_vm w then running (n_vm n') !! name else running (n_ctr n') !! name) = None)
  | Err _ => rows n' = rows n
  end.
Proof.
  intros [Hok _] H. unfold bind in H. destruct (runtime_remove cfg (wl_kind w) name n) as [rr n1] eqn:Hrm.
  apply runtime_remove_spec in Hrm as (Hs & Hw & Hoth & Hrun).
  assert (rows n1 = rows n) as Hr1 by (unfold rows; by rewrite Hs).
  destruct rr as [[]|e]; [|simplify_eq; split; [|done]; intros m Hm; rewrite Hr1; by split; [|apply Hoth]].
  assert (store_ok (n_store n1)) as Hok1 by (by rewrite Hs).
  destruct (node_Delete name n1 Hok1) as (p & s2 & Hp & _ & Hr2). rewrite Hp in H.
  destruct p as [[]|e].
  - rewrite notify_spec in H. simplify_eq.
    assert (forall b, rows (mkNode s2 (n_ctr n1) (n_vm n1) b) = delete name (rows n)) as Hr3.
    { intros b. rewrite <- Hr1, <- Hr2. done. }
    simpl. split.
    + intros m Hm. rewrite Hr3, lookup_delete_ne by done. by split; [|apply Hoth].
    + rewrite Hr3, lookup_delete_eq. split; [done|]. by apply Hrun.
  - simplify_eq. rewrite Hr2, Hr1. split; [|done]. intros m Hm. by split; [|apply Hoth].
Qed.


(** [SetStatus] on every outcome of the two store calls. *)
Lemma SetStatus_frame name st n r n' :
  node_ok n -> SetStatus name st n = (r, n') ->
  same_runtime n n' /\ n_wake n' = n_wake n /\
  match r with
  | Ok _ => exists w, rows n !! name = Some w /\ rows n' = <[name := set_wl_status w (Some st)]> (rows n)
  | Err _ => rows n' = rows n
  end.
Proof.
  intros [Hok Hrows] H. unfold SetStatus, bind in H.
  destruct (node_Get name n Hok) as (g & s1 & Hget & Hok1 & Hr1 & Hrow).
  rewrite Hget in H. destruct g as [w|e]; [|by simplify_eq; split_and!].
  pose proof (Hrows name w Hrow) as Hval. case_bool_decide as Hst.
  - unfold ret in H. simplify_eq. split_and!; [by split|done|]. exists w. split; [done|].
    rewrite Hr1, insert_id; [done|]. rewrite Hrow. f_equal. destruct w; simpl in *; by subst.
  - assert (wl_name (set_wl_status w (Some st)) <> "") as Hne by (by apply (valid_row_name name)).
    destruct (node_Put _ (with_store s1 n) Hok1 Hne) as (p & s2 & Hp & _ & Hr2).
    rewrite Hp in H. destruct p as [[]|e]; simplify_eq; (split_and!; [by split|done|]).
    + exists w. split; [done|]. rewrite Hr2, Hr1. destruct Hval as [<- _]. done.
    + by rewrite Hr2, Hr1.
Qed.

(** [SetStatus] writes the status of the named row and nothing else: the
    spec, the desired state, every other row and both runtimes are as before. *)
Theorem SetStatus_spec name st n r n' :
  node_ok n -> SetStatus name st n = (r, n') ->
  same_runtime n n' /\ n_wake n' = n_wake n /\
  match r with
  | Ok _ => exists w, rows n !! name = Some w /\ rows n' = <[name := set_wl_status w (Some st)]> (rows n)
  | Err _ => rows n' = rows n
  end.
Proof. apply SetStatus_frame. Qed.

(** A best-effort teardown touches one driver, under one name. *)
Lemma ignore_vm_spec b name n r n' :
  when b (ignore (in_vm (Remove name))) n = (r, n') ->
  r = Ok tt /\ n_store n' = n_store n /\ n_ctr n' = n_ctr n /\ n_wake n' = n_wake n /\
  (forall m, m <> name -> running (n_vm n') !! m = running (n_vm n) !! m) /\
  (b = true -> is_ok (Remove name (n_vm n)).1 = true -> running (n_vm n') !! name = None).
Proof.
  unfold when, ignore, in_vm, zoom. pose proof (Remove_law name (n_vm n)) as HL.
  destruct b; [|by intros [= <- <-]]. destruct (Remove name (n_vm n)) as [[u|e] v'].
  all: destruct HL as [? ?]; intros [= <- <-]; by split_and!.
Qed.

Lemma ignore_ctr_spec b name n r n' :
  when b (ignore (in_ctr (Remove name))) n = (r, n') ->
  r = Ok tt /\ n_store n' = n_store n /\ n_vm n' = n_vm n /\ n_wake n' = n_wake n /\
  (forall m, m <> name -> running (n_ctr n') !! m = running (n_ctr n) !! m) /\
  (b = true -> is_ok (Remove name (n_ctr n)).1 = true -> running (n_ctr n') !! name = None).
Proof.
  unfold when, ignore, in_ctr, zoom. pose proof (Remove_law name (n_ctr n)) as HL.
  destruct b; [|by intros [= <- <-]]. destruct (Remove name (n_ctr n)) as [[u|e] c'].
  all: destruct HL as [? ?]; intros [= <- <-]; by split_and!.
Qed.

(** [Stop] records the wish before it tears the runtime down (best effort). *)
Lemma Stop_spec name w n r n' :
  node_ok n -> (in_store (wst_Get name) n).1 = Ok w -> Stop cfg name n = (r, n') ->
  match r with
  | Ok _ => rows n' = <[name := set_wl_desired w DESIRED_STATE_STOPPED]> (rows n)
  | Err _ => rows n' = rows n /\ same_runtime n n'
  end.
Proof.
  intros [Hok Hrows] Hg H. unfold Stop, bind at 1 in H.
  destruct (node_Get name n Hok) as (g & s1 & Hget & Hok1 & Hr1 & Hrow).
  rewrite Hget in H, Hg. simpl in Hg. subst g.
  pose proof (Hrows name w Hrow) as Hval.
  assert (wl_name (set_wl_desired w DESIRED_STATE_STOPPED) <> "") as Hne by (by apply (valid_row_name name)).
  destruct (node_Put _ (with_store s1 n) Hok1 Hne) as (p & s2 & Hp & _ & Hr2).
  unfold bind at 1 in H. rewrite Hp in H.
  destruct p as [[]|e]; [|simplify_eq; split; [by rewrite Hr2, Hr1|by split]].
  set (n2 := with_store s2 (with_store s1 n)) in *.
  unfold bind at 1 in H. destruct (if is_micro_vm w then _ else _) as [q n3] eqn:Hq in H.
  assert (q = Ok tt /\ n_store n3 = n_store n2) as [-> Hs3].
  { destruct (is_micro_vm w); [by apply ignore_vm_spec in Hq as (-> & -> & _)|
                               by apply ignore_ctr_spec in Hq as (-> & -> & _)]. }
  rewrite notify_spec in H. injection H as <- <-.
  assert (forall b, rows (mkNode (n_store n3) (n_ctr n3) (n_vm n3) b) = rows n2) as Hr3
    by (intros b; unfold rows; simpl; by rewrite Hs3).
  rewrite Hr3, Hr2, Hr1. destruct Hval as [<- _]. done.
Qed.

(** [Start] asks for RUNNING again and shows PENDING until the next pass. *)
Lemma Start_spec name w n r n' :
  node_ok n -> (in_store (wst_Get name) n).1 = Ok w -> Start cfg name n = (r, n') ->
  same_runtime n n' /\
  match r with
  | Ok _ => rows n' = <[name := set_wl_status (set_wl_desired w DESIRED_STATE_RUNNING)
                                  (Some (mkWorkloadStatus WORKLOAD_PHASE_PENDING "starting" 0))]> (rows n)
  | Err _ => rows n' = rows n
  end.
Proof.
  intros [Hok Hrows] Hg H. unfold Start, bind at 1 in H.
  destruct (node_Get name n Hok) as (g & s1 & Hget & Hok1 & Hr1 & Hrow).
  rewrite Hget in H, Hg. simpl in Hg. subst g. cbv zeta in H.
  pose proof (Hrows name w Hrow) as Hval.
  set (w2 := set_wl_status _ _) in *.
  assert (wl_name w2 <> "") as Hne by (by apply (valid_row_name name)).
  destruct (node_Put _ (with_store s1 n) Hok1 Hne) as (p & s2 & Hp & _ & Hr2).
  unfold bind at 1 in H. rewrite Hp in H. destruct p as [[]|e].
  - rewrite notify_spec in H. simplify_eq. split; [by split|].
    change (rows (with_store s2 (with_store s1 n)) = <[name := w2]> (rows n)).
    rewrite Hr2, Hr1. destruct Hval as [<- _]. done.
  - simplify_eq. split; [by split|]. by rewrite Hr2, Hr1.
Qed.
End operations.

(** ** A concrete node *)

#[export] Instance valid_row_dec n w : Decision (valid_row n w).
Proof. unfold valid_row. apply _. Defined.

Module Demo.
Definition container (image : string) : ContainerSpec :=
  mkContainerSpec image [] [] ∅ [] NETWORK_MODE_UNSPECIFIED [] false false false false [].
Definition vmspec (image : string) : MicroVMSpec :=
  mkMicroVMSpec image [] [] ∅ "" "" 1 128 [] "" 0 [].
Definition web : Workload :=
  mkWorkload "web" WORKLOAD_KIND_CONTAINER (Some (container "nginx")) None None DESIRED_STATE_UNSPECIFIED.
Definition web2 : Workload :=
  mkWorkload "web" WORKLOAD_KIND_CONTAINER (Some (container "nginx:2")) None None DESIRED_STATE_UNSPECIFIED.
Definition box : Workload :=
  mkWorkload "box" WORKLOAD_KIND_MICRO_VM None (Some (vmspec "alpine"))
    (Some (mkWorkloadStatus WORKLOAD_PHASE_RUNNING "" 0)) DESIRED_STATE_STOPPED.
Definition gone : Workload :=
  mkWorkload "gone" WORKLOAD_KIND_CONTAINER (Some (container "old")) None None DESIRED_STATE_DELETING.

Definition full : Config := mkConfig true true true.
Definition node : Type := Node memStore RefDriver RefDriver.
Definition empty : node := mkNode mem_New (mkRefDriver ∅ ∅) (mkRefDriver ∅ ∅) false.
(** Three rows: one to start, one to stop, one being deleted. *)
Definition busy : node :=
  mkNode (mem_set_workloads (<["web" := web]> (<["box" := box]> {["gone" := gone]})) mem_New)
    (mkRefDriver {["gone" := RunContainer (Some (container "old"))]} ∅)
    (mkRefDriver {["box" := RunMicroVM (Some (vmspec "alpine"))]} ∅) false.

Lemma node_ok_by_rows (n : node) :
  bool_decide (map_Forall valid_row (mem_workloads (n_store n))) = true -> node_ok n.
Proof. intros H. split; [done|]. by apply bool_decide_eq_true in H. Qed.
End Demo.



Lemma SetStatus_spec_witness :
  exists n', SetStatus "web" (mkWorkloadStatus WORKLOAD_PHASE_RUNNING "" 0) Demo.busy = (Ok tt, n') /\
    exists w, rows Demo.busy !! "web" = Some w /\
      rows n' = <["web" := set_wl_status w (Some (mkWorkloadStatus WORKLOAD_PHASE_RUNNING "" 0))]> (rows Demo.busy).
Proof.
  destruct (SetStatus "web" (mkWorkloadStatus WORKLOAD_PHASE_RUNNING "" 0) Demo.busy) as [r n'] eqn:H.
  assert (r = Ok tt) as -> by (pose proof (f_equal fst H) as E; vm_compute in E; by rewrite <- E).
  exists n'. split; [done|].
  apply (SetStatus_spec "web" _ Demo.busy (Ok tt) n'); [by apply Demo.node_ok_by_rows; vm_compute|exact H].
Defined.
