(* ===== verification/Reconciler.v ===== *)
(** * The reconciliation loop: core/reconciler/reconciler.go

    One pass lists the workloads and drives each one's runtime towards its
    desired state; the loop runs a pass up front, on every tick of the timer
    and whenever the wake channel holds a value. *)

From S2P Require Import Prelude GoStrings Models Store MemoryStore Runtime WorkloadService.

Set Default Goal Selector "!".
Local Open Scope go_scope.

(** ** Definitions *)

Definition toProtoPhase (p : Phase) : WorkloadPhase :=
  match p with
  | PhaseRunning => WORKLOAD_PHASE_RUNNING
  | PhasePending => WORKLOAD_PHASE_PENDING
  | PhaseStopped => WORKLOAD_PHASE_STOPPED
  | PhaseFailed => WORKLOAD_PHASE_FAILED
  | PhaseUnknown => WORKLOAD_PHASE_UNSPECIFIED
  end.

(** [reconciler.New]: a missing or negative interval becomes two seconds
    (durations in nanoseconds). *)
Definition New_interval (interval : Z) : Z :=
  if (interval <=? 0)%Z then (2 * 1000000000)%Z else interval.

Section Reconciler.
Context {S C V : Type} `{!Store S, !ContainerDriver C, !VMDriver V}.
Context (cfg : Config).

Definition writeStatus (name : string) (phase : WorkloadPhase) (msg : string) : prog (Node S C V) unit :=
  ignore (SetStatus name (mkWorkloadStatus phase msg 0)).

(** What follows [EnsureRunning]: its error, or the observed phase, is recorded. *)
Definition report (name : string) (ensure : prog (Node S C V) unit) (status : prog (Node S C V) Status)
    : prog (Node S C V) unit :=
  r <- catch ensure ;;
  match r with
  | Err e => writeStatus name WORKLOAD_PHASE_FAILED (Error e)
  | Ok _ =>
      st <- catch status ;;
      match st with
      | Err _ => ret tt
      | Ok st => writeStatus name (toProtoPhase (st_Phase st)) (st_Message st)
      end
  end.

Definition reconcileOne (w : Workload) : prog (Node S C V) unit :=
  let name := wl_name w in
  match wl_desired_state w with
  | DESIRED_STATE_DELETING => ret tt
  | DESIRED_STATE_STOPPED =>
      match wl_kind w with
      | WORKLOAD_KIND_CONTAINER => when (has_driver cfg) (ignore (in_ctr (Remove name)))
      | WORKLOAD_KIND_MICRO_VM => when (has_vm cfg) (ignore (in_vm (Remove name)))
      | _ => ret tt
      end ;;;
      writeStatus name WORKLOAD_PHASE_STOPPED "stopped by operator"
  | _ =>
      match wl_kind w with
      | WORKLOAD_KIND_CONTAINER =>
          if has_driver cfg then report name (in_ctr (EnsureRunning w)) (in_ctr (Driver_Status name))
          else writeStatus name WORKLOAD_PHASE_FAILED "no container runtime"
      | WORKLOAD_KIND_MICRO_VM =>
          if has_vm cfg then report name (in_vm (EnsureRunning w)) (in_vm (Driver_Status name))
          else writeStatus name WORKLOAD_PHASE_FAILED "no vm runtime"
      | _ => writeStatus name WORKLOAD_PHASE_FAILED "unsupported kind"
      end
  end.

Definition Tick : prog (Node S C V) unit :=
  r <- catch Service_List ;;
  match r with
  | Err _ => ret tt
  | Ok ws => for_each ws reconcileOne
  end.

(** [Run]: the events its select statement can take, in the order it takes
    them; [EvDone] is the cancelled context. *)
Inductive event := EvTimer | EvWake | EvDone.

(** The receive from the wake channel, possible only when it holds a value. *)
Definition take_wake : prog (Node S C V) bool := fun n =>
  (Ok (n_wake n), mkNode (n_store n) (n_ctr n) (n_vm n) false).

Fixpoint Run_loop (evs : list event) : prog (Node S C V) unit :=
  match evs with
  | [] | EvDone :: _ => ret tt
  | EvTimer :: evs => Tick ;;; Run_loop evs
  | EvWake :: evs => b <- take_wake ;; when b Tick ;;; Run_loop evs
  end.
Definition Run (evs : list event) : prog (Node S C V) unit := Tick ;;; Run_loop evs.
End Reconciler.

(** ** A pass is total *)

Section correctness.
Context {S C V : Type} `{!Store S, !ContainerDriver C, !VMDriver V}.
Context `{!StoreLaws S, !DriverLaws C, !DriverLaws V}.
Context (cfg : Config).
Implicit Types n : Node S C V.
Local Abbreviation node_ok := (node_ok (S:=S) (C:=C) (V:=V)).

Lemma writeStatus_Ok name p m n : (writeStatus name p m n).1 = Ok tt.
Proof. unfold writeStatus, ignore. by destruct (SetStatus _ _ n). Qed.

Lemma writeStatus_preserves name p m : preserves node_ok (writeStatus name p m).
Proof. unfold writeStatus. apply preserves_ignore, (SetStatus_preserves node_ok). Qed.
Hint Resolve writeStatus_preserves : preserves.

Lemma report_preserves name e st :
  preserves node_ok e -> preserves node_ok st -> preserves node_ok (report name e st).
Proof. intros He Hst. unfold report. go_preserves. Qed.

Lemma reconcileOne_preserves w : preserves node_ok (reconcileOne cfg w).
Proof. unfold reconcileOne. go_preserves; apply report_preserves; auto with preserves. Qed.

Lemma Tick_preserves : preserves node_ok (Tick cfg).
Proof.
  intros n Hn. unfold Tick, bind, catch, Service_List.
  destruct (node_List n (proj1 Hn)) as (r & s' & Hl & Hok & Hr & _). rewrite Hl.
  assert (node_ok (with_store s' n)) by (split; [done|rewrite Hr; apply Hn]).
  destruct r as [l|e]; [|done].
  apply preserves_for_each; [|done]. intros w _. apply reconcileOne_preserves.
Qed.

Lemma report_Ok name e st n : (report name e st n).1 = Ok tt.
Proof.
  unfold report, bind, catch. destruct (e n) as [[u|err] n1]; [|apply writeStatus_Ok].
  destruct (st n1) as [[s|err] n2]; [apply writeStatus_Ok|done].
Qed.

Lemma reconcileOne_Ok w n : (reconcileOne cfg w n).1 = Ok tt.
Proof.
  assert (forall n0 (b : prog (Node S C V) unit), (bind b (fun _ => writeStatus (wl_name w) WORKLOAD_PHASE_STOPPED "stopped by operator") n0).1
    = Ok tt \/ is_ok (b n0).1 = false) as Hb.
  { intros n0 b. unfold bind. destruct (b n0) as [[u|e] n1]; [left; apply writeStatus_Ok|by right]. }
  unfold reconcileOne.
  destruct (wl_desired_state w); try done; destruct (wl_kind w);
    try (destruct (has_driver cfg)); try (destruct (has_vm cfg));
    try apply report_Ok; try apply writeStatus_Ok.
  all: match goal with |- (bind ?b _ ?n0).1 = _ => destruct (Hb n0 b) as [|Hf]; [done|] end.
  all: unfold when, ignore, ret in Hf; repeat case_match; simplify_eq; done.
Qed.

Lemma for_each_Ok l n : (for_each l (reconcileOne cfg) n).1 = Ok tt.
Proof.
  revert n. induction l as [|w l IH]; intros n; [done|]. simpl. unfold bind.
  pose proof (reconcileOne_Ok w n). destruct (reconcileOne cfg w n) as [[u|e] n1]; [apply IH|done].
Qed.

(** A pass over [w :: l] is a pass over [w], then one over [l]. *)
Lemma for_each_cons w l n :
  for_each (w :: l) (reconcileOne cfg) n = for_each l (reconcileOne cfg) (reconcileOne cfg w n).2.
Proof.
  simpl. unfold bind. pose proof (reconcileOne_Ok w n).
  destruct (reconcileOne cfg w n) as [[u|e] n1]; done.
Qed.

(** *** What a pass may touch *)

(** The rows without their status: what the operators asked for. *)
Definition specs (m : gmap string Workload) : gmap string Workload :=
  (fun w => set_wl_status w None) <$> m.

(** [frame k c v n n']: from [n] to [n'] only the status of row [k] changed,
    and what runs under [k] in the drivers flagged by [c] and [v]. *)
Definition frame (k : string) (c v : bool) n n' : Prop :=
  node_ok n' /\ specs (rows n') = specs (rows n) /\
  (forall m, m <> k -> rows n' !! m = rows n !! m) /\
  (forall m, m <> k \/ c = false -> running (n_ctr n') !! m = running (n_ctr n) !! m) /\
  (forall m, m <> k \/ v = false -> running (n_vm n') !! m = running (n_vm n) !! m).

Lemma frame_refl k c v n : node_ok n -> frame k c v n n.
Proof. intros Hn. unfold frame. by split_and!. Qed.

Lemma frame_trans k c v n1 n2 n3 : frame k c v n1 n2 -> frame k c v n2 n3 -> frame k c v n1 n3.
Proof.
  intros (_ & S1 & R1 & C1 & V1) (H & S2 & R2 & C2 & V2). unfold frame. split_and!; [done|congruence|..].
  - intros m Hm. by rewrite R2, R1.
  - intros m Hm. by rewrite C2, C1.
  - intros m Hm. by rewrite V2, V1.
Qed.

Lemma specs_insert_status m k w s : m !! k = Some w -> specs (<[k := set_wl_status w s]> m) = specs m.
Proof.
  intros Hk. unfold specs. rewrite fmap_insert. apply insert_id. rewrite lookup_fmap, Hk. done.
Qed.

Lemma writeStatus_runtime name p m n : node_ok n -> same_runtime n (writeStatus name p m n).2.
Proof.
  intros Hn. unfold writeStatus, ignore. destruct (SetStatus _ _ n) as [r n'] eqn:H.
  by apply SetStatus_frame in H as (? & _).
Qed.

Lemma writeStatus_frame name p m c v n : node_ok n -> frame name c v n (writeStatus name p m n).2.
Proof.
  intros Hn. pose proof (writeStatus_preserves name p m n Hn) as Hn'. revert Hn'.
  unfold writeStatus, ignore. destruct (SetStatus _ _ n) as [r n'] eqn:H. intros Hn'.
  apply SetStatus_frame in H as ([Ec Ev] & _ & H); [|done]. unfold frame. simpl. rewrite Ec, Ev.
  destruct r; [destruct H as (w & Hw & ->)|rewrite H]; (split_and!; [done|try by rewrite specs_insert_status|..]; try done).
  intros m' Hm. by rewrite lookup_insert_ne.
Qed.

Lemma in_ctr_EnsureRunning_frame w n : node_ok n -> frame (wl_name w) true false n (in_ctr (EnsureRunning w) n).2.
Proof.
  intros Hn. unfold in_ctr, zoom. pose proof (EnsureRunning_law w (n_ctr n)) as HL.
  destruct (EnsureRunning w (n_ctr n)) as [r d]. destruct HL as [HL _].
  unfold frame. split_and!; [done..| |done]. intros m [Hm|?]; [by apply HL|done].
Qed.
Lemma in_vm_EnsureRunning_frame w n : node_ok n -> frame (wl_name w) false true n (in_vm (EnsureRunning w) n).2.
Proof.
  intros Hn. unfold in_vm, zoom. pose proof (EnsureRunning_law w (n_vm n)) as HL.
  destruct (EnsureRunning w (n_vm n)) as [r d]. destruct HL as [HL _].
  unfold frame. split_and!; [done..|]. intros m [Hm|?]; [by apply HL|done].
Qed.
Lemma in_ctr_Status_frame name k c v n : node_ok n -> frame k c v n (in_ctr (Driver_Status name) n).2.
Proof.
  intros Hn. unfold in_ctr, zoom. pose proof (Status_law name (n_ctr n)) as HL.
  destruct (Driver_Status name (n_ctr n)) as [r d]. simpl in HL.
  unfold frame. split_and!; [done..| |done]. intros m _. simpl. by rewrite HL.
Qed.
Lemma in_vm_Status_frame name k c v n : node_ok n -> frame k c v n (in_vm (Driver_Status name) n).2.
Proof.
  intros Hn. unfold in_vm, zoom. pose proof (Status_law name (n_vm n)) as HL.
  destruct (Driver_Status name (n_vm n)) as [r d]. simpl in HL.
  unfold frame. split_and!; [done..|]. intros m _. simpl. by rewrite HL.
Qed.

Lemma report_frame name c v e st n :
  (forall n, node_ok n -> frame name c v n (e n).2) -> (forall n, node_ok n -> frame name c v n (st n).2) ->
  node_ok n -> frame name c v n (report name e st n).2.
Proof.
  intros He Hst Hn. specialize (He n Hn). unfold report, bind, catch.
  destruct (e n) as [[u|err] n1]; simpl in He; (eapply frame_trans; [exact He|]).
  - specialize (Hst n1 (proj1 He)). destruct (st n1) as [[s|err] n2]; simpl in Hst; [|done].
    eapply frame_trans; [exact Hst|]. apply writeStatus_frame, Hst.
  - apply writeStatus_frame, He.
Qed.

(** The drivers a row of this kind uses. *)
Definition uses_ctr (w : Workload) : bool := bool_decide (wl_kind w = WORKLOAD_KIND_CONTAINER).
Definition uses_vm (w : Workload) : bool := bool_decide (wl_kind w = WORKLOAD_KIND_MICRO_VM).

Lemma stop_then_frame b c v name n (m : prog (Node S C V) unit) :
  (forall n r n', node_ok n -> m n = (r, n') -> r = Ok tt /\ frame name c v n n') ->
  node_ok n -> b = m ->
  frame name c v n (bind b (fun _ => writeStatus name WORKLOAD_PHASE_STOPPED "stopped by operator") n).2.
Proof.
  intros Hm Hn ->. unfold bind. destruct (m n) as [r n1] eqn:E.
  destruct (Hm n r n1 Hn E) as [-> Hf]. eapply frame_trans; [exact Hf|]. apply writeStatus_frame, Hf.
Qed.

Lemma ignore_ctr_frame b name n r n' : node_ok n ->
  when b (ignore (in_ctr (Remove name))) n = (r, n') -> r = Ok tt /\ frame name true false n n'.
Proof.
  intros Hn H. assert (node_ok n') as Hn'.
  { pose proof (preserves_when node_ok b _ (preserves_ignore node_ok _ (ri_ctr (inv:=node_ok) (Remove name))) n Hn) as Hp.
    by rewrite H in Hp. }
  apply ignore_ctr_spec in H as (-> & Hs & Hv & _ & Hoth & _). split; [done|].
  unfold frame, rows in *. rewrite Hs, Hv. split_and!; try done. intros m [?|?]; [by apply Hoth|done].
Qed.
Lemma ignore_vm_frame b name n r n' : node_ok n ->
  when b (ignore (in_vm (Remove name))) n = (r, n') -> r = Ok tt /\ frame name false true n n'.
Proof.
  intros Hn H. assert (node_ok n') as Hn'.
  { pose proof (preserves_when node_ok b _ (preserves_ignore node_ok _ (ri_vm (inv:=node_ok) (Remove name))) n Hn) as Hp.
    by rewrite H in Hp. }
  apply ignore_vm_spec in H as (-> & Hs & Hv & _ & Hoth & _). split; [done|].
  unfold frame, rows in *. rewrite Hs, Hv. split_and!; try done. intros m [?|?]; [by apply Hoth|done].
Qed.

Lemma reconcileOne_frame w n : node_ok n -> frame (wl_name w) (uses_ctr w) (uses_vm w) n (reconcileOne cfg w n).2.
Proof.
  intros Hn. unfold reconcileOne, uses_ctr, uses_vm.
  destruct (wl_desired_state w); [..|by apply frame_refl|]; destruct (wl_kind w); simpl.
  all: try destruct (has_driver cfg) eqn:?; try destruct (has_vm cfg) eqn:?.
  all: try by apply writeStatus_frame.
  all: try (apply report_frame; auto using in_ctr_EnsureRunning_frame, in_vm_EnsureRunning_frame,
         in_ctr_Status_frame, in_vm_Status_frame).
  all: eapply stop_then_frame; [|done|reflexivity].
  all: intros n0 r n1 Hn0 H; try by eapply ignore_ctr_frame. all: try by eapply ignore_vm_frame.
  all: unfold ret in H; simplify_eq; split; [done|]; by apply frame_refl.
Qed.

(** *** A whole pass *)

(** The frame of a pass over [l]. *)
Lemma pass_frame l n : node_ok n ->
  let n' := (for_each l (reconcileOne cfg) n).2 in
  node_ok n' /\ specs (rows n') = specs (rows n) /\
  (forall k, k ∉ wl_name <$> l -> rows n' !! k = rows n !! k /\
     running (n_ctr n') !! k = running (n_ctr n) !! k /\ running (n_vm n') !! k = running (n_vm n) !! k).
Proof.
  revert n. induction l as [|w l IH]; intros n Hn; [by split_and!|].
  cbv zeta. rewrite for_each_cons.
  destruct (reconcileOne_frame w n Hn) as (Hn1 & S1 & R1 & C1 & V1).
  destruct (IH _ Hn1) as (Hn2 & S2 & H2). split_and!; [done|congruence|].
  intros k Hk. apply not_elem_of_cons in Hk as [Hkw Hk].
  destruct (H2 k Hk) as (-> & -> & ->). rewrite R1, C1, V1 by auto. done.
Qed.

Lemma listing_rows n l : node_ok n -> listing wl_name (rows n) l ->
  NoDup (wl_name <$> l) /\ (forall w, w ∈ l <-> rows n !! wl_name w = Some w).
Proof.
  intros [_ Hrows] [_ Hl]. assert (forall k w, rows n !! k = Some w -> wl_name w = k) as Hkey
    by (intros k w Hk; apply (Hrows k w Hk)).
  split.
  - rewrite Hl. replace (wl_name <$> (map_to_list (rows n)).*2) with (map_to_list (rows n)).*1.
    { apply NoDup_fst_map_to_list. }
    rewrite <- list_fmap_compose. apply list_fmap_ext. intros i [k w] Hi. simpl. symmetry.
    apply Hkey, elem_of_map_to_list. by eapply list_elem_of_lookup_2.
  - intros w. rewrite Hl, list_elem_of_fmap. split.
    + intros ([k w'] & -> & Hin). apply elem_of_map_to_list in Hin. simpl. by rewrite (Hkey k w' Hin).
    + intros Hw. exists (wl_name w, w). split; [done|]. by apply elem_of_map_to_list.
Qed.

(** [Tick] as the pass over the rows, when the list call succeeds. *)
Lemma Tick_unfold n : node_ok n ->
  exists n1, n_ctr n1 = n_ctr n /\ n_vm n1 = n_vm n /\ rows n1 = rows n /\ node_ok n1 /\
  ((exists e, (in_store wst_List n).1 = Err e /\ Tick cfg n = (Ok tt, n1)) \/
   exists l, (in_store wst_List n).1 = Ok l /\ listing wl_name (rows n) l /\
     Tick cfg n = for_each l (reconcileOne cfg) n1).
Proof.
  intros Hn. unfold Tick, bind, catch, Service_List.
  destruct (node_List n (proj1 Hn)) as (r & s' & Hl & Hok & Hr & Hlist). rewrite Hl.
  exists (with_store s' n). split_and!; [done..|split; [done|rewrite Hr; apply Hn]|].
  destruct r as [l|e]; [right; by exists l|left; by exists e].
Qed.

Lemma Tick_specs n : node_ok n -> specs (rows (Tick cfg n).2) = specs (rows n).
Proof.
  intros Hn. destruct (Tick_unfold n Hn) as (n1 & _ & _ & Er & Hn1 & [(e & _ & ->)|(l & _ & _ & ->)]).
  - simpl. by rewrite Er.
  - rewrite <- Er. by apply pass_frame.
Qed.

(** A pass changes no row except for its status, and leaves alone, in the
    store and in both runtimes, every name that has no row or whose row
    carries the DELETING tombstone. *)
Theorem Tick_frame n k :
  node_ok n ->
  (forall w, rows n !! k = Some w -> wl_desired_state w = DESIRED_STATE_DELETING) ->
  let n' := (Tick cfg n).2 in
  specs (rows n') = specs (rows n) /\ rows n' !! k = rows n !! k /\
  running (n_ctr n') !! k = running (n_ctr n) !! k /\ running (n_vm n') !! k = running (n_vm n) !! k.
Proof.
  intros Hn Hk. destruct (Tick_unfold n Hn) as (n1 & Ec & Ev & Er & Hn1 & [(e & _ & HT)|(l & _ & Hl & HT)]).
  { cbv zeta. rewrite HT. simpl. by rewrite Ec, Ev, Er. }
  cbv zeta. rewrite HT, <- Ec, <- Ev, <- Er. clear HT.
  destruct (listing_rows n l Hn Hl) as [Hnd Hin].
  assert (forall w, w ∈ l -> wl_name w = k -> wl_desired_state w = DESIRED_STATE_DELETING) as Hdel.
  { intros w Hw <-. by apply Hk, Hin. }
  clear Hn Hl Hin Hk Ec Ev Er n. revert n1 Hn1. induction l as [|w l IH]; intros n Hn; [done|].
  rewrite for_each_cons. pose proof (reconcileOne_frame w n Hn) as (Hn2 & S2 & R2 & C2 & V2).
  destruct (decide (wl_name w = k)) as [Hw|Hw].
  - assert ((reconcileOne cfg w n).2 = n) as ->.
    { unfold reconcileOne. rewrite (Hdel w); [done|set_solver|done]. }
    apply NoDup_cons in Hnd as [_ Hnd]. apply IH; [done|set_solver|done].
  - apply NoDup_cons in Hnd as [_ Hnd].
    destruct (IH Hnd ltac:(set_solver) _ Hn2) as (-> & -> & -> & ->).
    by rewrite S2, R2, C2, V2 by auto.
Qed.

(** *** Convergence *)

Context `{!DriverLive C, !DriverLive V}.

(** What should run under a name, for one driver: the wish of a row of its
    kind, else what runs already. *)
Definition wish (now : option RuntimeSpec) (w : Workload) : option RuntimeSpec :=
  match wl_desired_state w with
  | DESIRED_STATE_DELETING => now
  | DESIRED_STATE_STOPPED => None
  | _ => wanted_spec w
  end.
Definition goal (kind : WorkloadKind) (m : gmap string Workload) (run : gmap string RuntimeSpec)
    (k : string) : option RuntimeSpec :=
  match m !! k with
  | Some w => if decide (wl_kind w = kind) then wish (run !! k) w else run !! k
  | None => run !! k
  end.

Lemma valid_wanted k w : valid_row k w -> is_Some (wanted_spec w).
Proof.
  intros [_ Hv]. unfold validate in Hv. unfold wanted_spec.
  destruct (str_empty (wl_name w)); [done|]. destruct (negb (valid_name (wl_name w))); [done|].
  destruct (wl_kind w); try done; [destruct (wl_container w)|destruct (wl_micro_vm w)]; try done; eauto.
Qed.

Lemma report_ctr_live w n : node_ok n -> healthy (n_ctr n) -> is_Some (wanted_spec w) ->
  let n' := (report (wl_name w) (in_ctr (EnsureRunning w)) (in_ctr (Driver_Status (wl_name w))) n).2 in
  healthy (n_ctr n') /\ n_vm n' = n_vm n /\ running (n_ctr n') !! wl_name w = wanted_spec w.
Proof.
  intros Hn Hh Hw. pose proof (EnsureRunning_law w (n_ctr n)) as HL.
  destruct (EnsureRunning_live w _ Hh Hw) as (d & He & Hd). rewrite He in HL. destruct HL as [_ HL].
  pose proof (Status_law (wl_name w) d) as HS.
  destruct (Status_live (wl_name w) d Hd) as (st & d' & Hst & Hd' & _). rewrite Hst in HS. simpl in HS.
  unfold report, bind, catch, in_ctr, zoom. rewrite He. simpl. rewrite Hst. simpl.
  match goal with |- context [writeStatus ?a ?b ?c ?m] =>
    destruct (writeStatus_runtime a b c m) as [Hc Hv]; [done|] end.
  simpl in Hc, Hv. rewrite Hc, Hv. split_and!; [done..|]. by rewrite HS.
Qed.
Lemma report_vm_live w n : node_ok n -> healthy (n_vm n) -> is_Some (wanted_spec w) ->
  let n' := (report (wl_name w) (in_vm (EnsureRunning w)) (in_vm (Driver_Status (wl_name w))) n).2 in
  n_ctr n' = n_ctr n /\ healthy (n_vm n') /\ running (n_vm n') !! wl_name w = wanted_spec w.
Proof.
  intros Hn Hh Hw. pose proof (EnsureRunning_law w (n_vm n)) as HL.
  destruct (EnsureRunning_live w _ Hh Hw) as (d & He & Hd). rewrite He in HL. destruct HL as [_ HL].
  pose proof (Status_law (wl_name w) d) as HS.
  destruct (Status_live (wl_name w) d Hd) as (st & d' & Hst & Hd' & _). rewrite Hst in HS. simpl in HS.
  unfold report, bind, catch, in_vm, zoom. rewrite He. simpl. rewrite Hst. simpl.
  match goal with |- context [writeStatus ?a ?b ?c ?m] =>
    destruct (writeStatus_runtime a b c m) as [Hc Hv]; [done|] end.
  simpl in Hc, Hv. rewrite Hc, Hv. split_and!; [done..|]. by rewrite HS.
Qed.

Lemma stop_ctr_live name n : node_ok n -> healthy (n_ctr n) ->
  let n' := (bind (when true (ignore (in_ctr (Remove name))))
               (fun _ => writeStatus name WORKLOAD_PHASE_STOPPED "stopped by operator") n).2 in
  healthy (n_ctr n') /\ n_vm n' = n_vm n /\ running (n_ctr n') !! name = None.
Proof.
  intros Hn Hh. pose proof (Remove_law name (n_ctr n)) as HL.
  destruct (Remove_live name _ Hh) as (d & He & Hd). rewrite He in HL. destruct HL as [_ HL].
  unfold when, bind, ignore, in_ctr, zoom. rewrite He. cbv zeta.
  match goal with |- context [writeStatus ?a ?b ?c ?m] =>
    destruct (writeStatus_runtime a b c m) as [Hc Hv]; [done|] end.
  simpl in Hc, Hv. by rewrite Hc, Hv.
Qed.
Lemma stop_vm_live name n : node_ok n -> healthy (n_vm n) ->
  let n' := (bind (when true (ignore (in_vm (Remove name))))
               (fun _ => writeStatus name WORKLOAD_PHASE_STOPPED "stopped by operator") n).2 in
  n_ctr n' = n_ctr n /\ healthy (n_vm n') /\ running (n_vm n') !! name = None.
Proof.
  intros Hn Hh. pose proof (Remove_law name (n_vm n)) as HL.
  destruct (Remove_live name _ Hh) as (d & He & Hd). rewrite He in HL. destruct HL as [_ HL].
  unfold when, bind, ignore, in_vm, zoom. rewrite He. cbv zeta.
  match goal with |- context [writeStatus ?a ?b ?c ?m] =>
    destruct (writeStatus_runtime a b c m) as [Hc Hv]; [done|] end.
  simpl in Hc, Hv. by rewrite Hc, Hv.
Qed.

Definition both_healthy n : Prop := healthy (n_ctr n) /\ healthy (n_vm n).
Definition both_wired : Prop := has_driver cfg = true /\ has_vm cfg = true.

Lemma reconcileOne_live w n :
  both_wired -> node_ok n -> both_healthy n -> valid_row (wl_name w) w ->
  let n' := (reconcileOne cfg w n).2 in
  both_healthy n' /\
  (wl_kind w = WORKLOAD_KIND_CONTAINER ->
     running (n_ctr n') !! wl_name w = wish (running (n_ctr n) !! wl_name w) w) /\
  (wl_kind w = WORKLOAD_KIND_MICRO_VM ->
     running (n_vm n') !! wl_name w = wish (running (n_vm n) !! wl_name w) w).
Proof.
  intros [Hd Hv] Hn [Hc Hvm] Hw. pose proof (valid_wanted _ _ Hw) as Hsp.
  unfold reconcileOne, wish, both_healthy. rewrite Hd, Hv.
  pose proof (report_ctr_live w n Hn Hc Hsp) as (C1 & C2 & C3).
  pose proof (report_vm_live w n Hn Hvm Hsp) as (V1 & V2 & V3).
  pose proof (stop_ctr_live (wl_name w) n Hn Hc) as (D1 & D2 & D3).
  pose proof (stop_vm_live (wl_name w) n Hn Hvm) as (E1 & E2 & E3).
  assert (wl_kind w = WORKLOAD_KIND_CONTAINER \/ wl_kind w = WORKLOAD_KIND_MICRO_VM) as [Hk|Hk].
  { unfold wanted_spec in Hsp. destruct Hsp as [? Hsp]. destruct (wl_kind w); auto; done. }
  all: rewrite Hk; destruct (wl_desired_state w); cbv zeta; try by split_and!.
  all: try (rewrite C2; by split_and!). all: try (rewrite D2; by split_and!).
  all: try (rewrite V1; by split_and!). all: try (rewrite E1; by split_and!).
Qed.

Lemma pass_live l n :
  both_wired -> node_ok n -> both_healthy n -> NoDup (wl_name <$> l) ->
  (forall w, w ∈ l -> valid_row (wl_name w) w) ->
  let n' := (for_each l (reconcileOne cfg) n).2 in
  both_healthy n' /\
  (forall w, w ∈ l ->
    running (n_ctr n') !! wl_name w =
      (if decide (wl_kind w = WORKLOAD_KIND_CONTAINER) then wish (running (n_ctr n) !! wl_name w) w
       else running (n_ctr n) !! wl_name w) /\
    running (n_vm n') !! wl_name w =
      (if decide (wl_kind w = WORKLOAD_KIND_MICRO_VM) then wish (running (n_vm n) !! wl_name w) w
       else running (n_vm n) !! wl_name w)).
Proof.
  intros Hcfg. revert n. induction l as [|w l IH]; intros n Hn Hh Hnd Hval; [split; [done|set_solver]|].
  cbv zeta. rewrite for_each_cons. apply NoDup_cons in Hnd as [Hw Hnd].
  destruct (reconcileOne_live w n Hcfg Hn Hh (Hval w ltac:(set_solver))) as (Hh1 & Hc1 & Hv1).
  pose proof (reconcileOne_frame w n Hn) as (Hn1 & _ & _ & C1 & V1).
  destruct (IH _ Hn1 Hh1 Hnd ltac:(set_solver)) as [Hh2 H2]. split; [done|].
  intros x Hx. apply elem_of_cons in Hx as [->|Hx].
  - destruct (pass_frame l _ Hn1) as (_ & _ & Hf). destruct (Hf _ Hw) as (_ & -> & ->).
    split; case_decide as Hk; auto; [apply C1|apply V1]; right; by apply bool_decide_eq_false_2.
  - destruct (H2 x Hx) as [-> ->].
    assert (wl_name x <> wl_name w) by (intros E; apply Hw; rewrite <- E; set_solver).
    by rewrite C1, V1 by auto.
Qed.

Lemma Tick_live n l :
  both_wired -> node_ok n -> both_healthy n -> (in_store wst_List n).1 = Ok l ->
  let n' := (Tick cfg n).2 in
  both_healthy n' /\
  (forall k, running (n_ctr n') !! k = goal WORKLOAD_KIND_CONTAINER (rows n) (running (n_ctr n)) k) /\
  (forall k, running (n_vm n') !! k = goal WORKLOAD_KIND_MICRO_VM (rows n) (running (n_vm n)) k).
Proof.
  intros Hcfg Hn Hh Hls.
  destruct (Tick_unfold n Hn) as (n1 & Ec & Ev & Er & Hn1 & [(e & He & _)|(l' & _ & Hl & HT)]); [congruence|].
  cbv zeta. rewrite HT, <- Ec, <- Ev, <- Er. clear HT.
  destruct (listing_rows n l' Hn Hl) as [Hnd Hin].
  assert (both_healthy n1) as Hh1 by (unfold both_healthy; by rewrite Ec, Ev).
  destruct (pass_live l' n1 Hcfg Hn1 Hh1 Hnd) as [Hh' Hlive].
  { intros w Hw. apply (proj2 Hn), Hin, Hw. }
  destruct (pass_frame l' n1 Hn1) as (_ & _ & Hf). split; [done|].
  assert (forall k, match rows n1 !! k with
    | Some w => w ∈ l' /\ wl_name w = k | None => k ∉ wl_name <$> l' end) as Hcase.
  { intros k. rewrite Er. destruct (rows n !! k) as [w|] eqn:Ek.
    - destruct (proj2 Hn k w Ek) as [Hname _]. split; [|done]. apply Hin. by rewrite Hname.
    - intros (w & -> & Hw)%list_elem_of_fmap. apply Hin in Hw. congruence. }
  split; intros k; unfold goal; specialize (Hcase k); destruct (rows n1 !! k) as [w|].
  all: try (destruct Hcase as [Hw <-]; by apply Hlive). all: by apply Hf.
Qed.

(** C9: Level-triggered convergence.  With both drivers wired and healthy and
    the list call succeeding, one pass brings each runtime to the desired
    state of every row: a RUNNING (or unspecified) row's own spec runs under
    its name, a STOPPED row has nothing running, a DELETING row and a name
    without a row are as they were.  The drivers stay healthy. *)
Theorem Tick_converges n l :
  both_wired -> node_ok n -> both_healthy n -> (in_store wst_List n).1 = Ok l ->
  let n' := (Tick cfg n).2 in
  both_healthy n' /\
  (forall k, running (n_ctr n') !! k = goal WORKLOAD_KIND_CONTAINER (rows n) (running (n_ctr n)) k) /\
  (forall k, running (n_vm n') !! k = goal WORKLOAD_KIND_MICRO_VM (rows n) (running (n_vm n)) k).
Proof. apply Tick_live. Qed.

(** The goal reads no status. *)
Lemma goal_specs kind m m' run k : specs m' = specs m -> goal kind m' run k = goal kind m run k.
Proof.
  intros H. unfold goal. assert (specs m' !! k = specs m !! k) as E by (by rewrite H).
  unfold specs in E. rewrite !lookup_fmap in E.
  destruct (m' !! k) as [w'|], (m !! k) as [w|]; try done; simpl in E.
  assert (wl_kind w' = wl_kind w /\ wish (run !! k) w' = wish (run !! k) w) as [-> ->]; [|done].
  destruct w', w; simplify_eq; done.
Qed.

Lemma goal_idem kind m m' run run' k :
  specs m' = specs m -> (forall k, run' !! k = goal kind m run k) -> goal kind m' run' k = run' !! k.
Proof.
  intros Hm Hrun. rewrite (goal_specs _ _ _ _ _ Hm). rewrite (Hrun k). unfold goal at 1.
  rewrite (Hrun k). unfold goal. destruct (m !! k) as [w|]; [|done]. case_decide; [|done].
  unfold wish. by destruct (wl_desired_state w).
Qed.

(** A second pass on the steady state starts and stops nothing. *)
Theorem Tick_idempotent n l l' :
  both_wired -> node_ok n -> both_healthy n -> (in_store wst_List n).1 = Ok l ->
  let n' := (Tick cfg n).2 in
  (in_store wst_List n').1 = Ok l' ->
  let n'' := (Tick cfg n').2 in
  running (n_ctr n'') = running (n_ctr n') /\ running (n_vm n'') = running (n_vm n') /\
  specs (rows n'') = specs (rows n).
Proof.
  intros Hcfg Hn Hh Hl n' Hl'.
  destruct (Tick_live n l Hcfg Hn Hh Hl) as (Hh' & Hc & Hv). fold n' in Hh', Hc, Hv.
  pose proof (Tick_preserves n Hn) as Hn'. fold n' in Hn'.
  destruct (Tick_live n' l' Hcfg Hn' Hh' Hl') as (_ & Hc' & Hv').
  assert (specs (rows n') = specs (rows n)) as Hs.
  { by apply Tick_specs. }
  split_and!.
  - apply map_eq. intros k. rewrite Hc'. by eapply goal_idem.
  - apply map_eq. intros k. rewrite Hv'. by eapply goal_idem.
  - rewrite <- Hs. apply Tick_specs, Hn'.
Qed.
End correctness.

(** ** The demo node under one pass *)

Lemma Tick_frame_witness :
  rows (Tick Demo.full Demo.busy).2 !! "gone" = Some Demo.gone /\
  running (n_ctr (Tick Demo.full Demo.busy).2) !! "gone" = Some (RunContainer (Some (Demo.container "old"))).
Proof.
  destruct (Tick_frame Demo.full Demo.busy "gone") as (_ & Hr & Hc & _).
  - by apply Demo.node_ok_by_rows; vm_compute.
  - intros w Hw. vm_compute in Hw. by injection Hw as <-.
  - split; [exact Hr|exact Hc].
Defined.

Lemma Tick_converges_witness :
  let n' := (Tick Demo.full Demo.busy).2 in
  running (n_ctr n') !! "web" = wanted_spec Demo.web /\ running (n_vm n') !! "box" = None.
Proof.
  destruct (Tick_converges Demo.full Demo.busy [Demo.box; Demo.gone; Demo.web]) as (_ & Hc & Hv).
  - by split.
  - by apply Demo.node_ok_by_rows; vm_compute.
  - by split.
  - vm_compute. reflexivity.
  - split; [exact (Hc "web")|exact (Hv "box")].
Defined.

Lemma Tick_idempotent_witness :
  let n' := (Tick Demo.full Demo.busy).2 in
  running (n_ctr (Tick Demo.full n').2) = running (n_ctr n').
Proof.
  destruct (in_store wst_List (Tick Demo.full Demo.busy).2) as [r n2] eqn:E.
  destruct r as [l|e]; [|exfalso; apply (f_equal fst) in E; by vm_compute in E].
  destruct (Tick_idempotent Demo.full Demo.busy [Demo.box; Demo.gone; Demo.web] l) as [H _].
  - by split.
  - by apply Demo.node_ok_by_rows; vm_compute.
  - by split.
  - vm_compute. reflexivity.
  - by rewrite E.
  - exact H.
Defined.
