(* ===== verification/Interleaving.v ===== *)
(** * API calls interleaved with the reconciler

    The daemon serves every API call on its own goroutine while the reconciler
    loop runs on another.  The store's operations are atomic; here each
    service call and each [reconcileOne] is one step, and a pass works through
    the snapshot [Service.List] returned when it began. *)

From S2P Require Import Prelude GoStrings Models Store MemoryStore Runtime WorkloadService Reconciler.

Set Default Goal Selector "!".
Local Open Scope go_scope.

(** The calls of the workload API that change state. *)
Inductive call :=
  | CallApply (w : option Workload)
  | CallDelete (name : string)
  | CallRestart (name : string)
  | CallStop (name : string)
  | CallStart (name : string).

Section Interleaving.
Context {S C V : Type} `{!Store S, !ContainerDriver C, !VMDriver V}.
Context (cfg : Config).

Definition run_call (c : call) (n : Node S C V) : Node S C V :=
  match c with
  | CallApply w => (Apply cfg w n).2
  | CallDelete name => (Delete cfg name n).2
  | CallRestart name => (Restart cfg name n).2
  | CallStop name => (Stop cfg name n).2
  | CallStart name => (Start cfg name n).2
  end.

(** The node, and what the pass under way has left of its snapshot. *)
Record sys := mkSys { sys_node : Node S C V; sys_pass : list Workload }.

Inductive step : sys -> sys -> Prop :=
  | step_call c n ws : step (mkSys n ws) (mkSys (run_call c n) ws)
  | step_snapshot n n' ws : Service_List n = (Ok ws, n') -> step (mkSys n []) (mkSys n' ws)
  | step_list_error n n' e : Service_List n = (Err e, n') -> step (mkSys n []) (mkSys n' [])
  | step_one w ws n : step (mkSys n (w :: ws)) (mkSys (reconcileOne cfg w n).2 ws).

(** A pass that nothing interrupts is the sequence of its steps. *)
Lemma steps_pass ws n : rtc step (mkSys n ws) (mkSys (for_each ws (reconcileOne cfg) n).2 []).
Proof.
  revert n. induction ws as [|w ws IH]; intros n; [apply rtc_refl|].
  rewrite for_each_cons. eapply rtc_l; [apply step_one|]. apply IH.
Qed.

Lemma steps_Tick n : rtc step (mkSys n []) (mkSys (Tick cfg n).2 []).
Proof.
  unfold Tick, bind, catch. destruct (Service_List n) as [[ws|e] n'] eqn:H.
  - eapply rtc_l; [by apply step_snapshot|]. apply steps_pass.
  - apply rtc_once. by eapply step_list_error.
Qed.
End Interleaving.

Arguments sys : clear implicits.

Section invariant.
Context {S C V : Type} `{!Store S, !ContainerDriver C, !VMDriver V}.
Context `{!StoreLaws S, !DriverLaws C, !DriverLaws V}.
Context (cfg : Config).

Definition sys_ok (s : sys S C V) : Prop :=
  node_ok (sys_node s) /\ Forall (fun w => valid_row (wl_name w) w) (sys_pass s).

Lemma run_call_ok c (n : Node S C V) : node_ok n -> node_ok (run_call cfg c n).
Proof.
  intros Hn. assert (forall A (m : prog (Node S C V) A), preserves node_ok m -> node_ok (m n).2) as H by auto.
  destruct c; cbn [run_call]; apply H; auto with preserves.
Qed.

Lemma snapshot_ok n r n' : node_ok (S:=S) (C:=C) (V:=V) n -> Service_List n = (r, n') ->
  node_ok n' /\ forall ws, r = Ok ws -> Forall (fun w => valid_row (wl_name w) w) ws.
Proof.
  intros Hn H. unfold Service_List in H.
  destruct (node_List n (proj1 Hn)) as (r' & s' & Hl & Hok & Hr & Hlist). rewrite Hl in H.
  injection H as -> <-. split; [split; [done|rewrite Hr; apply Hn]|]. intros ws ->.
  apply Forall_forall. intros w Hw. destruct (listing_rows n ws Hn Hlist) as [_ Hin].
  by apply (proj2 Hn), Hin.
Qed.

Lemma step_ok s s' : sys_ok s -> step cfg s s' -> sys_ok s'.
Proof.
  intros [Hn Hp] Hstep. destruct Hstep as [c n ws|n n' ws H|n n' e H|w ws n]; simpl in *.
  - split; [by apply run_call_ok|done].
  - destruct (snapshot_ok n (Ok ws) n' Hn H) as [? Hws]. split; [done|]. by apply Hws.
  - destruct (snapshot_ok n (Err e) n' Hn H) as [? _]. by split.
  - split; [by apply reconcileOne_preserves|]. by apply Forall_cons in Hp as [_ ?].
Qed.

(** In every state reached by any interleaving of API calls with
    reconciler steps, started from a store whose rows are valid, each row is
    stored under its own name and passes validation, and so does every entry
    of the snapshot a pass still has to work through. *)
Theorem reachable_rows_valid s s' : sys_ok s -> rtc (step cfg) s s' -> sys_ok s'.
Proof. intros Hs H. induction H as [|s1 s2 s3 H _ IH]; [done|]. apply IH. by eapply step_ok. Qed.
End invariant.

(** ** Two runs that leave a container behind *)

Section orphans.
Abbreviation demo := (sys memStore RefDriver RefDriver).

Definition one_row : Demo.node :=
  mkNode (mem_set_workloads {["web" := Demo.web]} mem_New) (mkRefDriver ∅ ∅) (mkRefDriver ∅ ∅) false.

Definition orphaned (n : Demo.node) : Prop :=
  rows n !! "web" = None /\ running (n_ctr n) !! "web" = wanted_spec Demo.web.

(** What stays orphaned: a pass leaves a name without a row alone. *)
Lemma orphan_stays n : node_ok n -> orphaned n -> orphaned (Tick Demo.full n).2.
Proof.
  intros Hn [Hr Hc]. destruct (Tick_frame Demo.full n "web" Hn) as (_ & Er & Ec & _).
  { intros w Hw. congruence. }
  split; [by rewrite Er|exact (eq_trans Ec Hc)].
Qed.

Lemma orphan_stays_forever n k : node_ok n -> orphaned n ->
  orphaned (Nat.iter k (fun m => (Tick Demo.full m).2) n).
Proof.
  intros Hn Ho. assert (node_ok (Nat.iter k (fun m => (Tick Demo.full m).2) n) /\
    orphaned (Nat.iter k (fun m => (Tick Demo.full m).2) n)) as [_ ?]; [|done].
  induction k as [|k [IHn IHo]]; [by split|]. simpl.
  split; [by apply Tick_preserves|by apply orphan_stays].
Qed.

Definition raced : Demo.node :=
  (reconcileOne Demo.full Demo.web (run_call Demo.full (CallDelete "web") one_row)).2.

(** A pass that listed the workloads before a Delete ran to completion
    starts the deleted workload again from its snapshot: the row is gone,
    the container runs, and no later pass removes it. *)
Theorem stale_snapshot_orphans_container :
  rtc (step Demo.full) (mkSys one_row []) (mkSys raced []) /\
  forall k, orphaned (Nat.iter k (fun m => (Tick Demo.full m).2) raced).
Proof.
  split.
  - eapply rtc_l; [by apply (step_snapshot Demo.full one_row one_row [Demo.web])|].
    eapply rtc_l; [apply (step_call Demo.full (CallDelete "web"))|].
    apply rtc_once, step_one.
  - intros k. apply orphan_stays_forever; [by apply Demo.node_ok_by_rows; vm_compute|].
    split; vm_compute; reflexivity.
Qed.

Definition web_vm : Workload :=
  mkWorkload "web" WORKLOAD_KIND_MICRO_VM None (Some (Demo.vmspec "alpine")) None DESIRED_STATE_UNSPECIFIED.

(** Re-applying a name with the other kind leaves the old runtime
    behind: after the next pass both the container and the MicroVM run under
    the name, and deleting the workload afterwards removes only the VM. *)
Theorem kind_change_leaves_container :
  let n1 := (Tick Demo.full one_row).2 in
  let n2 := (Tick Demo.full (run_call Demo.full (CallApply (Some web_vm)) n1)).2 in
  let n3 := run_call Demo.full (CallDelete "web") n2 in
  running (n_ctr n2) !! "web" = wanted_spec Demo.web /\
  running (n_vm n2) !! "web" = wanted_spec web_vm /\
  orphaned n3 /\ running (n_vm n3) !! "web" = None.
Proof. vm_compute. done. Qed.
End orphans.

Lemma reachable_rows_valid_witness :
  sys_ok (mkSys Demo.busy []) /\ sys_ok (mkSys (Tick Demo.full Demo.busy).2 []).
Proof.
  assert (sys_ok (mkSys Demo.busy [])) as H
    by (split; [by apply Demo.node_ok_by_rows; vm_compute|done]).
  split; [exact H|]. apply (reachable_rows_valid Demo.full _ _ H), steps_Tick.
Defined.
