(* ===== verification/VolumeService.v ===== *)
(** * Persistent volumes: core/volume/service.go

    The service keeps a store row and a thin LVM logical volume per volume in
    step.  The LVM and ext4 tools are programs outside the repository: the
    class [LVM] runs a command line, [LVMLaws] states what their manuals say
    of the exact command lines the service issues, and [RefLVM] is an
    executable volume group that meets it, with a script of failures. *)

From S2P Require Import Prelude GoStrings Exec Models Store MemoryStore WorkloadService.

Set Default Goal Selector "!".
Local Open Scope go_scope.

(** ** Constants and names *)

Definition VGName : string := "capsule".
Definition ThinPoolName : string := "thinpool".
Definition VolPrefix : string := "vol-".
Definition DefaultSizeMiB : Z := 512.
Definition MinSizeMiB : Z := 32.
Definition MaxSizeMiB : Z := 1024 * 1024.
Definition MiB : Z := 1024 * 1024.

Definition HostPath (name : string) : string := "/dev/" +:+ VGName +:+ "/" +:+ VolPrefix +:+ name.
Definition LVName (name : string) : string := VolPrefix +:+ name.

(** ** Validation *)

Definition vol_validateName (name : string) : result unit :=
  if str_empty name then Err (Errorf "volume name is required")
  else if (63 <? Z.of_nat (String.length name))%Z || negb (MatchString nameRE name) then
    Err (Errorf ("volume name " +:+ Quote name +:+ " is invalid (DNS-1123 label, <=63 chars)"))
  else Ok tt.

Definition validateSize (sizeMiB : Z) : result unit :=
  if (sizeMiB <? MinSizeMiB)%Z then
    Err (Errorf ("size " +:+ Itoa sizeMiB +:+ " MiB below minimum " +:+ Itoa MinSizeMiB +:+ " MiB"))
  else if (MaxSizeMiB <? sizeMiB)%Z then
    Err (Errorf ("size " +:+ Itoa sizeMiB +:+ " MiB above maximum " +:+ Itoa MaxSizeMiB +:+ " MiB"))
  else Ok tt.

(** ** References from workloads *)

Definition mounts_of (w : Workload) : list VolumeMount :=
  (match wl_container w with Some c => cs_mounts c | None => [] end) ++
  (match wl_micro_vm w with Some v => mv_mounts v | None => [] end).

Fixpoint usersFromWorkloads (ws : list Workload) (volume : string) : list string :=
  match ws with
  | [] => []
  | w :: ws =>
      if existsb (fun m => String.eqb (vm_volume_name m) volume) (mounts_of w)
      then wl_name w :: usersFromWorkloads ws volume
      else usersFromWorkloads ws volume
  end.

(** [fmt]'s [%v] of a string slice. *)
Definition show_list (l : list string) : string := "[" +:+ Join l " " +:+ "]".

(** ** The command runner *)

(** The outcome of opening a block device and asking its size. *)
Inductive BlkSize := OpenFailed | IoctlFailed | BlkBytes (n : Z).

Class LVM (D : Type) := {
  #[global] lvm_exec :: Commands D;
  blkgetsize64 : string -> D -> BlkSize }.

Record VNode (S D : Type) := mkVNode { vn_store : S; vn_lvm : D }.
Arguments mkVNode {S D}.
Arguments vn_store {S D}.
Arguments vn_lvm {S D}.

Section tools.
Context {D : Type} `{!LVM D}.

Definition lvcreate_args (lv : string) (sizeMiB : Z) : list string :=
  ["-V"; Itoa sizeMiB +:+ "M"; "-T"; VGName +:+ "/" +:+ ThinPoolName; "-n"; lv].

Definition createVolumeLV (name : string) (sizeMiB : Z) : prog D unit :=
  let lv := LVName name in
  o <- exec_prog "/sbin/lvcreate" (lvcreate_args lv sizeMiB) ;;
  match o_err o with
  | Some err => fail (Wrap ("lvcreate " +:+ lv +:+ ": ") err (": " +:+ TrimSpace (o_combined o)))
  | None =>
      let dev := HostPath name in
      o1 <- exec_prog "/usr/sbin/mkfs.ext4" ["-q"; "-F"; dev] ;;
      match o_err o1 with
      | None => ret tt
      | Some err =>
          o2 <- exec_prog "/sbin/mkfs.ext4" ["-q"; "-F"; dev] ;;
          match o_err o2 with
          | None => ret tt
          | Some err2 =>
              exec_prog "/sbin/lvremove" ["-y"; VGName +:+ "/" +:+ lv] ;;;
              fail (Wrap2 ("mkfs.ext4 " +:+ dev +:+ ": ") err " / " err2
                (": " +:+ TrimSpace (o_combined o1) +:+ " / " +:+ TrimSpace (o_combined o2)))
          end
      end
  end.

(** The messages of lvremove for a volume that does not exist. *)
Definition says_missing (msg : string) : bool :=
  Contains msg "not found" || Contains msg "Failed to find".

Definition removeVolumeLV (name : string) : prog D unit :=
  let lv := VGName +:+ "/" +:+ LVName name in
  o <- exec_prog "/sbin/lvremove" ["-y"; lv] ;;
  match o_err o with
  | None => ret tt
  | Some err =>
      let msg := TrimSpace (o_combined o) in
      if says_missing msg then ret tt
      else fail (Wrap ("lvremove " +:+ lv +:+ ": ") err (": " +:+ msg))
  end.

Fixpoint runExt4Bin_from (prefixes : list string) (bin : string) (args : list string) : prog D unit :=
  match prefixes with
  | [] => fail (Errorf (bin +:+ " not found in /usr/sbin or /sbin"))
  | prefix :: rest =>
      o <- exec_prog (prefix +:+ bin) args ;;
      match o_err o with
      | None => ret tt
      | Some err =>
          if negb (Contains (Error err) "no such file") then
            fail (Wrap (prefix +:+ bin +:+ " " +:+ show_list args +:+ ": ") err
              (": " +:+ TrimSpace (o_combined o)))
          else runExt4Bin_from rest bin args
      end
  end.
Definition runExt4Bin : string -> list string -> prog D unit :=
  runExt4Bin_from ["/usr/sbin/"; "/sbin/"].

Definition resizeVolumeLV (name : string) (newSizeMiB : Z) : prog D unit :=
  let lv := VGName +:+ "/" +:+ LVName name in
  let dev := HostPath name in
  o <- exec_prog "/sbin/lvresize" ["-L"; Itoa newSizeMiB +:+ "M"; lv] ;;
  match o_err o with
  | Some err => fail (Wrap ("lvresize " +:+ lv +:+ ": ") err (": " +:+ TrimSpace (o_combined o)))
  | None =>
      r <- catch (runExt4Bin "e2fsck" ["-f"; "-y"; dev]) ;;
      match r with
      | Err err => if bool_decide (exit_code err = Some 1%Z) then ret tt
                   else fail (Wrap ("e2fsck " +:+ dev +:+ ": ") err "")
      | Ok _ => ret tt
      end ;;;
      wrap_err ("resize2fs " +:+ dev +:+ ": ") (runExt4Bin "resize2fs" [dev])
  end.

Definition lvmReportedSize (path : string) : prog D (option Z) :=
  match Split "/" path with
  | [p0; p1; vg; lv] =>
      if negb (String.eqb p0 "") || negb (String.eqb p1 "dev") then ret None
      else
        o <- exec_prog "/sbin/lvs"
               ["--units"; "b"; "--nosuffix"; "--noheadings"; "-o"; "lv_size"; vg +:+ "/" +:+ lv] ;;
        match o_err o with
        | Some _ => ret None
        | None => ret (ParseUint (TrimSpace (o_stdout o)))
        end
  | _ => ret None
  end.

Definition blockDeviceSize (path : string) : prog D Z :=
  if str_empty path then ret 0%Z
  else fun d =>
    match blkgetsize64 path d with
    | OpenFailed => (Ok 0%Z, d)
    | BlkBytes n => (Ok n, d)
    | IoctlFailed => (sz <- lvmReportedSize path ;; ret (default 0%Z sz)) d
    end.
End tools.

(** ** The service *)

Section Service.
Context {S D : Type} `{!Store S, !LVM D}.

Definition on_store {A} : prog S A -> prog (VNode S D) A := zoom vn_store (fun s n => mkVNode s (vn_lvm n)).
Definition on_lvm {A} : prog D A -> prog (VNode S D) A := zoom vn_lvm (fun d n => mkVNode (vn_store n) d).

Definition set_derived (v : Volume) (users : list string) (size : Z) : Volume :=
  mkVolume (vol_name v) size (vol_host_path v) users (vol_created_at_unix v).

Definition populateDerived (v : Volume) : prog (VNode S D) Volume :=
  r <- catch (on_store wst_List) ;;
  let ws := match r with Ok ws => ws | Err _ => [] end in
  size <- on_lvm (blockDeviceSize (vol_host_path v)) ;;
  ret (set_derived v (usersFromWorkloads ws (vol_name v)) size).

Definition refsTo (name : string) : prog (VNode S D) (list string) :=
  ws <- on_store wst_List ;; ret (usersFromWorkloads ws name).

Definition vol_Create (now : Z) (name : string) (sizeMiB : Z) : prog (VNode S D) Volume :=
  lift (vol_validateName name) ;;;
  let sizeMiB := if (sizeMiB =? 0)%Z then DefaultSizeMiB else sizeMiB in
  lift (validateSize sizeMiB) ;;;
  existing <- catch (on_store (vst_Get name)) ;;
  match existing with
  | Ok _ => fail (Errorf ("volume " +:+ Quote name +:+ " already exists"))
  | Err e =>
      if negb (errors_Is e StoreNotFound) then fail e
      else
        let hostPath := HostPath name in
        on_lvm (createVolumeLV name sizeMiB) ;;;
        let v := mkVolume name 0 hostPath [] now in
        p <- catch (on_store (vst_Put now v)) ;;
        match p with
        | Err e => ignore (on_lvm (removeVolumeLV name)) ;;; fail e
        | Ok _ => ret v
        end
  end.

Definition vol_Get (name : string) : prog (VNode S D) Volume :=
  v <- on_store (vst_Get name) ;; populateDerived v.

Fixpoint derive_all (ws : list Workload) (vs : list Volume) : prog (VNode S D) (list Volume) :=
  match vs with
  | [] => ret []
  | v :: vs =>
      size <- on_lvm (blockDeviceSize (vol_host_path v)) ;;
      vs' <- derive_all ws vs ;;
      ret (set_derived v (usersFromWorkloads ws (vol_name v)) size :: vs')
  end.

Definition vol_List : prog (VNode S D) (list Volume) :=
  vs <- on_store vst_List ;;
  r <- catch (on_store wst_List) ;;
  derive_all (match r with Ok ws => ws | Err _ => [] end) vs.

Definition vol_Delete (name : string) (force : bool) : prog (VNode S D) unit :=
  g <- catch (on_store (vst_Get name)) ;;
  match g with
  | Err e => if errors_Is e StoreNotFound then ret tt else fail e
  | Ok v =>
      users <- refsTo name ;;
      if (0 <? Z.of_nat (List.length users))%Z && negb force then
        fail (Wrap "" (Sentinel VolumeInUse) (": " +:+ show_list users))
      else
        wrap_err ("lvremove " +:+ vol_host_path v +:+ ": ") (on_lvm (removeVolumeLV name)) ;;;
        on_store (vst_Delete name)
  end.

Definition vol_Resize (name : string) (newSizeMiB : Z) : prog (VNode S D) Volume :=
  lift (vol_validateName name) ;;;
  lift (validateSize newSizeMiB) ;;;
  v <- on_store (vst_Get name) ;;
  users <- refsTo name ;;
  if (0 <? Z.of_nat (List.length users))%Z then
    fail (Wrap "" (Sentinel VolumeInUse) (": " +:+ show_list users))
  else
    current <- on_lvm (blockDeviceSize (vol_host_path v)) ;;
    let want := u64 (newSizeMiB * 1024 * 1024) in
    if (want <? current)%Z then
      fail (Wrap "" (Sentinel VolumeShrink)
        (": current=" +:+ Itoa (current / 1024 / 1024) +:+ " MiB, requested=" +:+ Itoa newSizeMiB +:+ " MiB"))
    else if (want =? current)%Z then populateDerived v
    else
      on_lvm (resizeVolumeLV name newSizeMiB) ;;;
      populateDerived v.

Definition vol_Exists (name : string) : prog (VNode S D) bool :=
  r <- catch (on_store (vst_Get name)) ;;
  match r with
  | Ok _ => ret true
  | Err e => if errors_Is e StoreNotFound then ret false else fail e
  end.
End Service.

(** ** What the tools do *)

(** The ext4 tools and lvs change no logical volume. *)
Definition harmless_tool (bin : string) : bool :=
  existsb (String.eqb bin) ["/usr/sbin/mkfs.ext4"; "/sbin/mkfs.ext4"; "/usr/sbin/e2fsck"; "/sbin/e2fsck";
    "/usr/sbin/resize2fs"; "/sbin/resize2fs"; "/sbin/lvs"].

Class LVMLaws (D : Type) `{!LVM D} := {
  (** the logical volumes of the group, with their sizes in bytes *)
  lvs : D -> gmap string Z;
  (** lvremove works: it removes what exists, and says so when nothing does *)
  steady : D -> Prop;
  lvcreate_law lv size d :
    let '(o, d') := exec_Command "/sbin/lvcreate" (lvcreate_args lv size) d in
    (steady d -> steady d') /\
    match o_err o with
    | None => lvs d !! lv = None /\ exists b, (size * MiB <= b)%Z /\ lvs d' = <[lv := b]> (lvs d)
    | Some _ => lvs d' = lvs d
    end;
  lvremove_law lv d :
    let '(o, d') := exec_Command "/sbin/lvremove" ["-y"; VGName +:+ "/" +:+ lv] d in
    (steady d -> steady d') /\
    match o_err o with
    | None => lvs d' = delete lv (lvs d)
    | Some _ => lvs d' = lvs d /\
        (says_missing (TrimSpace (o_combined o)) = true -> lvs d !! lv = None) /\
        (steady d -> says_missing (TrimSpace (o_combined o)) = true)
    end;
  lvresize_law lv size d :
    let '(o, d') := exec_Command "/sbin/lvresize" ["-L"; Itoa size +:+ "M"; VGName +:+ "/" +:+ lv] d in
    (steady d -> steady d') /\
    match o_err o with
    | None => exists b b', lvs d !! lv = Some b /\ (size * MiB <= b')%Z /\ lvs d' = <[lv := b']> (lvs d)
    | Some _ => lvs d' = lvs d
    end;
  ext4_law bin args d :
    harmless_tool bin = true ->
    let d' := (exec_Command bin args d).2 in
    lvs d' = lvs d /\ (steady d -> steady d');
  blk_law lv d n : blkgetsize64 ("/dev/" +:+ VGName +:+ "/" +:+ lv) d = BlkBytes n -> lvs d !! lv = Some n }.

(** ** Lemmas on the helpers *)

Section tool_lemmas.
Context {D : Type} `{!LVM D, !LVMLaws D}.
Implicit Types d : D.

(** A program that leaves every logical volume as it is. *)
Definition inert {A} (m : prog D A) : Prop :=
  forall d, lvs (m d).2 = lvs d /\ (steady d -> steady (m d).2).

Lemma inert_ret {A} (a : A) : inert (ret a).
Proof. by intros d. Qed.
Lemma inert_fail {A} e : inert (fail (A:=A) e).
Proof. by intros d. Qed.
Lemma inert_bind {A B} (m : prog D A) (k : A -> prog D B) : inert m -> (forall a, inert (k a)) -> inert (bind m k).
Proof.
  intros Hm Hk d. unfold bind. specialize (Hm d). destruct (m d) as [[a|e] d1]; simpl in *; [|done].
  destruct (Hk a d1) as [-> ?]. intuition.
Qed.
Lemma inert_catch {A} (m : prog D A) : inert m -> inert (catch m).
Proof. intros Hm d. specialize (Hm d). unfold catch. by destruct (m d). Qed.
Lemma inert_wrap_err {A} b (m : prog D A) : inert m -> inert (wrap_err b m).
Proof. intros Hm d. specialize (Hm d). unfold wrap_err. by destruct (m d) as [[]]. Qed.
Lemma inert_exec bin args :
  harmless_tool bin = true -> inert (exec_prog bin args).
Proof. intros Hb d. pose proof (ext4_law bin args d Hb) as H. unfold exec_prog. by destruct (exec_Command bin args d). Qed.

Lemma inert_runExt4Bin_from prefixes bin args :
  Forall (fun p => harmless_tool (p +:+ bin) = true) prefixes -> inert (runExt4Bin_from prefixes bin args).
Proof.
  intros H. induction H as [|p prefixes Hp _ IH]; [apply inert_fail|]. simpl.
  apply inert_bind; [by apply inert_exec|]. intros o. destruct (o_err o); [|apply inert_ret].
  destruct (negb _); [apply inert_fail|done].
Qed.
Lemma inert_runExt4Bin bin args : bin = "e2fsck" \/ bin = "resize2fs" -> inert (runExt4Bin bin args).
Proof. intros [-> | ->]; apply inert_runExt4Bin_from; repeat constructor. Qed.

Lemma inert_blockDeviceSize path : inert (blockDeviceSize path).
Proof.
  unfold blockDeviceSize. destruct (str_empty path); [apply inert_ret|]. intros d.
  destruct (blkgetsize64 path d); [done| |done]. revert d.
  apply inert_bind; [|intros a; apply inert_ret].
  unfold lvmReportedSize. repeat case_match; try apply inert_ret.
  apply inert_bind; [apply inert_exec; reflexivity|]. intros o. destruct (o_err o); apply inert_ret.
Qed.

Lemma blockDeviceSize_Ok path d : is_ok (blockDeviceSize path d).1 = true.
Proof.
  unfold blockDeviceSize. destruct (str_empty path); [done|]. destruct (blkgetsize64 path d); [done| |done].
  unfold lvmReportedSize, bind, exec_prog, ret. repeat case_match; by simplify_eq.
Qed.

(** A readable device of the group reports the size of its logical volume. *)
Lemma blockDeviceSize_read name b d :
  blkgetsize64 (HostPath name) d = BlkBytes b ->
  blockDeviceSize (HostPath name) d = (Ok b, d) /\ lvs d !! LVName name = Some b.
Proof.
  intros H. split; [|by apply blk_law]. unfold blockDeviceSize.
  destruct (str_empty (HostPath name)) eqn:E; [by apply String.eqb_eq in E|]. by rewrite H.
Qed.

Lemma removeVolumeLV_spec name d r d' :
  removeVolumeLV name d = (r, d') ->
  (steady d -> steady d' /\ r = Ok tt) /\
  match r with Ok _ => lvs d' = delete (LVName name) (lvs d) | Err e => lvs d' = lvs d end.
Proof.
  intros H. unfold removeVolumeLV, bind, exec_prog in H. pose proof (lvremove_law (LVName name) d) as HL.
  destruct (exec_Command "/sbin/lvremove" _ d) as [o d1] in H, HL. destruct HL as [Hs HL].
  destruct (o_err o) as [e|].
  - destruct HL as (Hl & Hm & Hst). cbv zeta in H.
    destruct (says_missing (TrimSpace (o_combined o))) eqn:Hmiss; unfold ret, fail in H; simplify_eq.
    + split; [intros; split; [auto|done]|]. rewrite Hl, delete_id; [done|auto].
    + split; [|done]. intros Hd. specialize (Hst Hd). done.
  - unfold ret in H. simplify_eq. split; [auto|done].
Qed.

Lemma createVolumeLV_spec name size d r d' :
  createVolumeLV name size d = (r, d') ->
  (steady d -> steady d') /\
  match r with
  | Ok _ => lvs d !! LVName name = None /\
      exists b, (size * MiB <= b)%Z /\ lvs d' = <[LVName name := b]> (lvs d)
  | Err _ => lvs d' = lvs d \/
      (lvs d !! LVName name = None /\ ~ steady d /\ exists b, lvs d' = <[LVName name := b]> (lvs d))
  end.
Proof.
  intros H. unfold createVolumeLV, exec_prog in H. unfold bind at 1 in H. cbv zeta in H.
  pose proof (lvcreate_law (LVName name) size d) as HL.
  destruct (exec_Command "/sbin/lvcreate" _ d) as [o d1] in H, HL. destruct HL as [Hs HL].
  destruct (o_err o) as [e|]; [unfold fail in H; simplify_eq; by split; [|left]|].
  destruct HL as (Hnone & b & Hb & Hl1).
  assert (forall bin args o d2, harmless_tool bin = true -> forall d1, lvs d1 = <[LVName name := b]> (lvs d) ->
    (steady d -> steady d1) -> exec_Command bin args d1 = (o, d2) ->
    lvs d2 = <[LVName name := b]> (lvs d) /\ (steady d -> steady d2)) as Hmk.
  { intros bin args o2 d2 Hin d1' Hd1 Hs1 E. pose proof (ext4_law bin args d1') as HE.
    rewrite E in HE. simpl in HE. destruct HE as [-> ?]; [done|]. auto. }
  unfold bind at 1 in H.
  destruct (exec_Command "/usr/sbin/mkfs.ext4" _ d1) as [o1 d2] eqn:E1 in H.
  apply Hmk in E1 as [Hl2 Hs2]; [|done..].
  destruct (o_err o1) as [e1|]; [|unfold ret in H; simplify_eq; eauto].
  unfold bind at 1 in H.
  destruct (exec_Command "/sbin/mkfs.ext4" _ d2) as [o2 d3] eqn:E2 in H.
  apply Hmk in E2 as [Hl3 Hs3]; [|done..].
  destruct (o_err o2) as [e2|]; [|unfold ret in H; simplify_eq; eauto].
  unfold bind, fail in H. pose proof (lvremove_law (LVName name) d3) as HR.
  destruct (exec_Command "/sbin/lvremove" _ d3) as [o3 d4] in H, HR. simplify_eq.
  destruct HR as [Hs4 HR]. split; [auto|].
  destruct (o_err o3) as [e3|].
  - right. destruct HR as (-> & Hmiss & Hst). split_and!; [done| |by exists b].
    intros Hd. specialize (Hst (Hs3 Hd)). apply Hmiss in Hst.
    rewrite Hl3, lookup_insert_eq in Hst. done.
  - left. by rewrite HR, Hl3, delete_insert_id.
Qed.

Lemma resizeVolumeLV_spec name size d r d' :
  resizeVolumeLV name size d = (r, d') ->
  lvs d' = lvs d /\ is_ok r = false \/
  exists b b', lvs d !! LVName name = Some b /\ (size * MiB <= b')%Z /\ lvs d' = <[LVName name := b']> (lvs d).
Proof.
  intros H. unfold resizeVolumeLV in H. unfold bind at 1, exec_prog at 1 in H.
  pose proof (lvresize_law (LVName name) size d) as HL.
  destruct (exec_Command "/sbin/lvresize" _ d) as [o d1] in H, HL. destruct HL as [_ HL].
  destruct (o_err o) as [e|]; [unfold fail in H; simplify_eq; by left|].
  right. destruct HL as (b & b' & Hb & Hb' & Hl). exists b, b'. split_and!; [done..|]. rewrite <- Hl.
  match type of H with ?m d1 = _ => assert (inert m) as Hm end.
  { apply inert_bind; [apply inert_catch, inert_runExt4Bin; auto|]. intros [u|e]; [|case_bool_decide].
    all: apply inert_bind; [first [apply inert_ret|apply inert_fail]|]; intros _.
    all: apply inert_wrap_err, inert_runExt4Bin; auto. }
  specialize (Hm d1). rewrite H in Hm. by destruct Hm as [Hm _].
Qed.
End tool_lemmas.

(** ** The service *)

Definition mounts_volume (volume : string) (w : Workload) : Prop :=
  Exists (fun m => vm_volume_name m = volume) (mounts_of w).
#[export] Instance mounts_volume_dec volume w : Decision (mounts_volume volume w).
Proof. unfold mounts_volume. apply _. Defined.

(** Every workload that mounts the volume is named once, in list order. *)
Lemma usersFromWorkloads_filter ws volume :
  usersFromWorkloads ws volume = wl_name <$> filter (mounts_volume volume) ws.
Proof.
  induction ws as [|w ws IH]; [done|]. simpl. rewrite filter_cons.
  assert (existsb (fun m => String.eqb (vm_volume_name m) volume) (mounts_of w) = true <-> mounts_volume volume w)
    as Hex.
  { unfold mounts_volume. rewrite existsb_exists, Exists_exists. setoid_rewrite list_elem_of_In.
    by setoid_rewrite String.eqb_eq. }
  destruct (existsb _ (mounts_of w)) eqn:E.
  - rewrite decide_True by (by apply Hex). by rewrite fmap_cons, IH.
  - rewrite decide_False; [done|]. intros Hm. apply Hex in Hm. congruence.
Qed.

Lemma usersFromWorkloads_nil ws volume :
  usersFromWorkloads ws volume = [] <-> (forall w, w ∈ ws -> ~ mounts_volume volume w).
Proof.
  rewrite usersFromWorkloads_filter. split.
  - intros H%fmap_nil_inv w Hw Hm. assert (w ∈ filter (mounts_volume volume) ws) as Hf
      by (by apply list_elem_of_filter).
    rewrite H in Hf. set_solver.
  - intros H. destruct (filter _ ws) as [|w l] eqn:E; [done|]. exfalso.
    assert (w ∈ filter (mounts_volume volume) ws) as Hf by (rewrite E; set_solver).
    apply list_elem_of_filter in Hf as [??]. by apply (H w).
Qed.

Section service.
Context {S D : Type} `{!Store S, !LVM D, !StoreLaws S, !LVMLaws D}.
Implicit Types n : VNode S D.

Definition vrows n : gmap string Volume := v_volumes (view (vn_store n)).
Definition wrows n : gmap string Workload := v_workloads (view (vn_store n)).
Definition devs n : gmap string Z := lvs (vn_lvm n).

(** The contract of the service: a row and its logical volume exist
    together, under valid names, at the path the name determines. *)
Definition row_ok (n0 : gmap string Z) (k : string) (v : Volume) : Prop :=
  vol_name v = k /\ vol_host_path v = HostPath k /\ vol_validateName k = Ok tt /\ is_Some (n0 !! LVName k).
Definition in_sync n : Prop :=
  store_ok (vn_store n) /\ map_Forall (row_ok (devs n)) (vrows n) /\
  (forall k, is_Some (devs n !! LVName k) -> is_Some (vrows n !! k)).

(** *** Store calls *)

Definition with_vstore (s : S) n : VNode S D := mkVNode s (vn_lvm n).

Lemma v_Get name n : store_ok (vn_store n) ->
  exists r s', on_store (vst_Get name) n = (r, with_vstore s' n) /\ store_ok s' /\ view s' = view (vn_store n) /\
    match r with
    | Ok v => vrows n !! name = Some v
    | Err e => errors_Is e StoreNotFound = true -> vrows n !! name = None
    end.
Proof.
  intros Hok. pose proof (vst_Get_law name (vn_store n) Hok) as H. unfold on_store, zoom.
  destruct (vst_Get name (vn_store n)) as [r s']. destruct H as (? & ? & ?). by exists r, s'.
Qed.

Lemma v_WList n : store_ok (vn_store n) ->
  exists r s', on_store wst_List n = (r, with_vstore s' n) /\ store_ok s' /\ view s' = view (vn_store n) /\
    match r with Ok l => listing wl_name (wrows n) l | Err _ => True end.
Proof.
  intros Hok. pose proof (wst_List_law (vn_store n) Hok) as H. unfold on_store, zoom.
  destruct (wst_List (vn_store n)) as [r s']. destruct H as (? & ? & ?). by exists r, s'.
Qed.

(** [same n n']: the store's records and the logical volumes are as before. *)
Definition same n n' : Prop :=
  store_ok (vn_store n') /\ view (vn_store n') = view (vn_store n) /\ devs n' = devs n.

Lemma same_sync n n' : in_sync n -> same n n' -> in_sync n'.
Proof. intros (_ & H1 & H2) (Hok & Hv & Hd). unfold in_sync, vrows. by rewrite Hd, Hv. Qed.
Lemma same_trans n1 n2 n3 : same n1 n2 -> same n2 n3 -> same n1 n3.
Proof. intros (_ & E1 & E2) (Hok & E3 & E4). split_and!; [done|congruence..]. Qed.

Lemma refsTo_spec name n r n' : store_ok (vn_store n) -> refsTo name n = (r, n') ->
  same n n' /\
  forall users, r = Ok users ->
    users = [] <-> (forall k w, wrows n !! k = Some w -> ~ mounts_volume name w).
Proof.
  intros Hok H. unfold refsTo, bind in H. destruct (v_WList n Hok) as (rl & s' & Hl & Hok' & Hv & Hlist).
  rewrite Hl in H. destruct rl as [ws|e]; unfold ret in H; simplify_eq; (split; [by split_and!|]); [|done].
  intros users [= <-]. rewrite usersFromWorkloads_nil. destruct Hlist as [_ Hp]. split; intros Hu.
  - intros k w Hw. apply Hu. rewrite Hp. apply list_elem_of_fmap. exists (k, w).
    split; [done|by apply elem_of_map_to_list].
  - intros w Hw. rewrite Hp in Hw. apply list_elem_of_fmap in Hw as ([k w'] & -> & Hin).
    apply elem_of_map_to_list in Hin. by eapply Hu.
Qed.

Lemma refsTo_lvm name n r n' : refsTo name n = (r, n') -> vn_lvm n' = vn_lvm n.
Proof.
  unfold refsTo, bind, on_store, zoom, ret. destruct (wst_List (vn_store n)) as [[ws|e] s']; by intros [= <- <-].
Qed.

Lemma populateDerived_spec v n r n' : store_ok (vn_store n) -> populateDerived v n = (r, n') ->
  same n n' /\
  match r with
  | Ok v' => vol_name v' = vol_name v /\ vol_host_path v' = vol_host_path v
  | Err _ => False
  end.
Proof.
  intros Hok H. unfold populateDerived, bind, catch in H.
  destruct (v_WList n Hok) as (rl & s' & Hl & Hok' & Hv & _). rewrite Hl in H. cbv zeta in H.
  unfold on_lvm, zoom in H. pose proof (inert_blockDeviceSize (vol_host_path v) (vn_lvm n)) as [Hin _].
  simpl in H.
  assert (is_ok (blockDeviceSize (vol_host_path v) (vn_lvm n)).1 = true) as Hb by apply blockDeviceSize_Ok.
  destruct (blockDeviceSize (vol_host_path v) (vn_lvm n)) as [[z|e] d']; [|done].
  unfold ret in H. simplify_eq. split; [by split_and!|done].
Qed.

Lemma LVName_inj a b : LVName a = LVName b -> a = b.
Proof. unfold LVName, VolPrefix. by intros [= ->]. Qed.

Lemma validateSize_bounds z : validateSize z = Ok tt -> (MinSizeMiB <= z <= MaxSizeMiB)%Z.
Proof.
  unfold validateSize. destruct (Z.ltb_spec z MinSizeMiB); [done|].
  destruct (Z.ltb_spec MaxSizeMiB z); [done|]. lia.
Qed.

(** The byte count of an accepted size does not wrap. *)
Lemma want_exact z : validateSize z = Ok tt -> u64 (z * 1024 * 1024) = (z * MiB)%Z.
Proof.
  intros H%validateSize_bounds. unfold MinSizeMiB, MaxSizeMiB, MiB in *. rewrite wrap_small; lia.
Qed.

(** *** Create *)

Lemma sync_insert n s' d' name v b :
  in_sync n -> store_ok s' -> vol_name v = name -> vol_host_path v = HostPath name ->
  vol_validateName name = Ok tt ->
  v_volumes (view s') = <[name := v]> (vrows n) -> lvs d' = <[LVName name := b]> (devs n) ->
  in_sync (mkVNode s' d').
Proof.
  intros (_ & Hrows & Hback) Hok Hn Hh Hval Hv Hd. unfold in_sync, vrows, devs. simpl. rewrite Hv, Hd.
  split_and!; [done| |].
  - apply map_Forall_insert_2.
    + split_and!; [done..|]. rewrite lookup_insert_eq. eauto.
    + intros k x Hk. destruct (Hrows k x Hk) as (? & ? & ? & ?). split_and!; [done..|].
      destruct (decide (LVName k = LVName name)) as [->|]; [rewrite lookup_insert_eq; eauto|].
      by rewrite lookup_insert_ne.
  - intros k. destruct (decide (k = name)) as [->|Hk]; [rewrite !lookup_insert_eq; eauto|].
    rewrite !lookup_insert_ne by (try congruence; intros E; by apply LVName_inj in E). apply Hback.
Qed.

(** The store and tool calls of [Create] once its arguments are accepted. *)
Lemma create_body now name size n r n' :
  in_sync n -> vol_validateName name = Ok tt -> vrows n !! name = None ->
  bind (on_lvm (createVolumeLV name size)) (fun _ =>
    bind (catch (on_store (vst_Put now (mkVolume name 0 (HostPath name) [] now)))) (fun p =>
      match p with
      | Err e => bind (ignore (on_lvm (removeVolumeLV name))) (fun _ => fail e)
      | Ok _ => ret (mkVolume name 0 (HostPath name) [] now)
      end)) n = (r, n') ->
  match r with
  | Ok v => v = mkVolume name 0 (HostPath name) [] now /\ in_sync n' /\
      (exists v', vrows n' = <[name := v']> (vrows n)) /\
      exists b, (size * MiB <= b)%Z /\ devs n' = <[LVName name := b]> (devs n)
  | Err _ => store_ok (vn_store n') /\ view (vn_store n') = view (vn_store n) /\
      (steady (vn_lvm n) -> devs n' = devs n)
  end.
Proof.
  intros Hs Hval Hnone H. pose proof Hs as (Hok & _ & _). unfold bind, on_lvm at 1, zoom at 1 in H.
  destruct (createVolumeLV name size (vn_lvm n)) as [rc d1] eqn:Hc.
  apply createVolumeLV_spec in Hc as [Hst1 Hc].
  destruct rc as [[]|e]; [|simplify_eq; split_and!; [done..|]; intros Hst; by destruct Hc as [?|(_ & [] & _)]].
  destruct Hc as (Hfree & b & Hb & Hd1).
  unfold catch, on_store, zoom in H. simpl in H.
  set (v := mkVolume name 0 (HostPath name) [] now) in *.
  assert (vol_name v <> "") as Hne.
  { simpl. intros ->. done. }
  pose proof (vst_Put_law now v (vn_store n) Hok Hne) as HP.
  destruct (vst_Put now v (vn_store n)) as [rp s1]. destruct HP as [Hok1 HP].
  destruct rp as [[]|e].
  - unfold ret in H. simplify_eq. destruct HP as (v' & Hv & Hn' & Hh').
    assert (v_volumes (view s1) = <[name := v']> (vrows n)) as Hrows by (by rewrite Hv).
    split_and!; [done| |by exists v'|by exists b].
    by eapply (sync_insert n s1 d1 name v').
  - unfold ignore, on_lvm, zoom in H. simpl in H.
    destruct (removeVolumeLV name d1) as [rr d2] eqn:Hrm. unfold fail in H. simplify_eq.
    apply removeVolumeLV_spec in Hrm as [Hst2 Hrm]. split_and!; [done..|]. intros Hst.
    destruct (Hst2 (Hst1 Hst)) as [_ ->]. unfold devs. simpl. by rewrite Hrm, Hd1, delete_insert_id.
Qed.

(** C28: [Create] adds the row and the logical volume together.  On success
    the name was free and valid, the size (512 MiB when none is given) is
    within the bounds, the volume is at least that large, and rows and
    logical volumes still correspond one to one.  On an error no row has
    changed, and if lvremove works no logical volume is left behind: the
    rollback paths undo the half that was done. *)
Theorem vol_Create_spec now name size n r n' :
  in_sync n -> vol_Create now name size n = (r, n') ->
  let want := if (size =? 0)%Z then DefaultSizeMiB else size in
  match r with
  | Ok v => v = mkVolume name 0 (HostPath name) [] now /\ in_sync n' /\
      vrows n !! name = None /\ vol_validateName name = Ok tt /\ (MinSizeMiB <= want <= MaxSizeMiB)%Z /\
      (exists v', vrows n' = <[name := v']> (vrows n)) /\
      exists b, (want * MiB <= b)%Z /\ devs n' = <[LVName name := b]> (devs n)
  | Err _ => view (vn_store n') = view (vn_store n) /\
      (steady (vn_lvm n) -> devs n' = devs n /\ in_sync n')
  end.
Proof.
  intros Hs H. cbv zeta. unfold vol_Create in H. unfold bind at 1, lift in H.
  destruct (vol_validateName name) as [[]|e] eqn:Hval; [|by simplify_eq].
  unfold bind at 1 in H. cbv zeta in H. set (want := if (size =? 0)%Z then _ else _) in *.
  destruct (validateSize want) as [[]|e] eqn:Hsz; [|by simplify_eq].
  apply validateSize_bounds in Hsz. unfold bind at 1, catch at 1 in H.
  destruct (v_Get name n (proj1 Hs)) as (g & s1 & Hg & Hok1 & Hv1 & Hget). rewrite Hg in H.
  assert (same n (with_vstore s1 n)) as Hsame by (by split_and!).
  pose proof (same_sync _ _ Hs Hsame) as Hs1.
  assert (vrows (with_vstore s1 n) = vrows n) as Hr1 by (unfold vrows; by rewrite <- Hv1).
  destruct g as [v|e]; [unfold fail in H; by simplify_eq|].
  destruct (errors_Is e StoreNotFound); [|unfold fail in H; simpl in H; by simplify_eq].
  simpl in H. apply create_body in H; [|done|done|by rewrite Hr1; auto].
  destruct r as [v|e'].
  - destruct H as (-> & Hs' & Hrows & Hd). rewrite Hr1 in Hrows. split_and!; try done; [by apply Hget|lia..].
  - destruct H as (Hok' & Hv' & Hd). split; [by rewrite Hv'|]. intros Hst.
    assert (devs n' = devs n) as E by (by rewrite Hd). split; [done|].
    eapply same_sync; [exact Hs|]. split_and!; [done|by rewrite Hv'|done].
Qed.

(** *** Delete *)

Lemma sync_delete n s' d' name :
  in_sync n -> store_ok s' -> v_volumes (view s') = delete name (vrows n) ->
  lvs d' = delete (LVName name) (devs n) -> in_sync (mkVNode s' d').
Proof.
  intros (_ & Hrows & Hback) Hok Hv Hd. unfold in_sync, vrows, devs. simpl. rewrite Hv, Hd.
  split_and!; [done| |].
  - intros k x Hk. apply lookup_delete_Some in Hk as [Hne Hk].
    destruct (Hrows k x Hk) as (? & ? & ? & ?). split_and!; [done..|].
    rewrite lookup_delete_ne; [done|]. intros E. by apply LVName_inj in E.
  - intros k. destruct (decide (k = name)) as [->|Hk].
    + rewrite lookup_delete_eq. intros [? [=]].
    + rewrite !lookup_delete_ne by (try congruence; intros E; by apply LVName_inj in E). apply Hback.
Qed.

Lemma vol_Delete_cases name force n r n' :
  in_sync n -> vol_Delete name force n = (r, n') ->
  match r with
  | Ok _ => in_sync n' /\ vrows n' = delete name (vrows n) /\ devs n' = delete (LVName name) (devs n)
  | Err _ => view (vn_store n') = view (vn_store n) /\
      (devs n' = devs n \/ devs n' = delete (LVName name) (devs n))
  end /\
  (is_Some (vrows n !! name) -> force = false ->
   (exists k w, wrows n !! k = Some w /\ mounts_volume name w) -> is_ok r = false /\ same n n').
Proof.
  intros Hs H. unfold vol_Delete in H. unfold bind at 1, catch in H.
  destruct (v_Get name n (proj1 Hs)) as (g & s1 & Hg & Hok1 & Hv1 & Hget). rewrite Hg in H.
  set (n1 := with_vstore s1 n) in *. assert (same n n1) as Hsame by (by split_and!).
  assert (wrows n1 = wrows n) as Hw1 by (unfold wrows; by rewrite <- Hv1).
  destruct g as [v|e]; cycle 1.
  { destruct (errors_Is e StoreNotFound) eqn:He; unfold ret, fail in H; simplify_eq.
    - specialize (Hget eq_refl). split; [|by rewrite Hget; intros [? [=]]].
      assert (devs n !! LVName name = None) as Hdev.
      { destruct (devs n !! LVName name) eqn:E; [|done]. destruct Hs as (_ & _ & Hback).
        destruct (Hback name) as [? ?]; [by rewrite E|congruence]. }
      split_and!; [by eapply same_sync| |by rewrite delete_id].
      change (v_volumes (view s1) = delete name (vrows n)). rewrite Hv1. by rewrite delete_id.
    - split; [|by intros]. by split; [|left]. }
  unfold bind at 1 in H. destruct (refsTo name n1) as [ru n2] eqn:Hu.
  apply refsTo_spec in Hu as [Hsame2 Hu]; [|done]. pose proof (same_trans _ _ _ Hsame Hsame2) as Hsm.
  rewrite Hw1 in Hu.
  destruct ru as [users|e]; [|simplify_eq; split; [split; [apply Hsm|left; apply Hsm]|done]].
  specialize (Hu users eq_refl).
  destruct ((0 <? Z.of_nat (List.length users))%Z && negb force) eqn:Hg'.
  { unfold fail in H. simplify_eq. split; [split; [apply Hsm|left; apply Hsm]|done]. }
  split; cycle 1.
  { intros _ -> (k & w & Hk & Hm). exfalso. rewrite andb_true_r in Hg'. apply Z.ltb_ge in Hg'.
    destruct users as [|u us]; [|simpl in Hg'; lia]. by eapply (proj1 Hu eq_refl). }
  unfold bind, wrap_err, on_lvm, zoom in H.
  destruct (removeVolumeLV name (vn_lvm n2)) as [rr d1] eqn:Hrm.
  apply removeVolumeLV_spec in Hrm as [_ Hrm]. destruct Hsm as (Hok2 & Hv2 & Hd2).
  destruct rr as [[]|e]; [|simplify_eq; split; [done|left]; unfold devs; simpl; by rewrite Hrm].
  unfold on_store, zoom in H. simpl in H. pose proof (vst_Delete_law name (vn_store n2) Hok2) as HD.
  destruct (vst_Delete name (vn_store n2)) as [rd s3]. destruct HD as [Hok3 HD]. unfold devs in Hd2.
  assert (lvs d1 = delete (LVName name) (devs n)) as Hd3 by (rewrite Hrm; by rewrite Hd2).
  simplify_eq. destruct r as [[]|e].
  - assert (v_volumes (view s3) = delete name (vrows n)) as E by (rewrite HD, Hv2; done).
    split_and!; [by eapply sync_delete|done|done].
  - split; [by simpl; rewrite HD|by right].
Qed.

(** [Delete] removes the row and the logical volume together.  On
    success both are gone, everything else is as before and rows and logical
    volumes still correspond.  On an error the row is still there, so the
    call can be retried; only this volume's logical volume can be gone. *)
Theorem vol_Delete_spec name force n r n' :
  in_sync n -> vol_Delete name force n = (r, n') ->
  match r with
  | Ok _ => in_sync n' /\ vrows n' = delete name (vrows n) /\ devs n' = delete (LVName name) (devs n)
  | Err _ => view (vn_store n') = view (vn_store n) /\
      (devs n' = devs n \/ devs n' = delete (LVName name) (devs n))
  end.
Proof. intros Hs H. by apply vol_Delete_cases in H as [? _]. Qed.

(** Without force, a volume some workload mounts is never deleted: the
    call fails and neither the store nor any logical volume has changed. *)
Theorem vol_Delete_in_use name n r n' k w :
  in_sync n -> is_Some (vrows n !! name) -> wrows n !! k = Some w -> mounts_volume name w ->
  vol_Delete name false n = (r, n') -> is_ok r = false /\ same n n'.
Proof. intros Hs Hr Hw Hm H. apply vol_Delete_cases in H as [_ H]; [|done]. apply H; eauto. Qed.

(** *** Resize *)

Lemma sync_grow n s' d' name b b' :
  in_sync n -> store_ok s' -> view s' = view (vn_store n) -> devs n !! LVName name = Some b ->
  lvs d' = <[LVName name := b']> (devs n) -> in_sync (mkVNode s' d').
Proof.
  intros (_ & Hrows & Hback) Hok Hv Hb Hd. unfold in_sync, vrows, devs. simpl. rewrite Hv, Hd.
  assert (forall k, is_Some (<[LVName name := b']> (devs n) !! k) <-> is_Some (devs n !! k)) as Hdom.
  { intros k. destruct (decide (k = LVName name)) as [->|]; [rewrite lookup_insert_eq, Hb|rewrite lookup_insert_ne by done]; naive_solver. }
  split_and!; [done| |intros k Hk; by apply Hback, Hdom].
  intros k v Hk. destruct (Hrows k v Hk) as (? & ? & ? & ?). split_and!; [done..|]. by apply Hdom.
Qed.

(** After the checks: read the size, compare, grow. *)
Lemma resize_body v name size n r n' :
  in_sync n -> validateSize size = Ok tt -> vol_host_path v = HostPath name ->
  bind (on_lvm (blockDeviceSize (vol_host_path v))) (fun current =>
    if (u64 (size * 1024 * 1024) <? current)%Z then
      fail (Wrap "" (Sentinel VolumeShrink)
        (": current=" +:+ Itoa (current / 1024 / 1024) +:+ " MiB, requested=" +:+ Itoa size +:+ " MiB"))
    else if (u64 (size * 1024 * 1024) =? current)%Z then populateDerived v
    else bind (on_lvm (resizeVolumeLV name size)) (fun _ => populateDerived v)) n = (r, n') ->
  in_sync n' /\ view (vn_store n') = view (vn_store n) /\
  (devs n' = devs n \/ exists b', (size * MiB <= b')%Z /\ devs n' = <[LVName name := b']> (devs n)) /\
  (forall b, blkgetsize64 (HostPath name) (vn_lvm n) = BlkBytes b ->
     exists b', devs n' !! LVName name = Some b' /\ (b <= b')%Z /\ (is_ok r = true -> (size * MiB <= b')%Z)).
Proof.
  intros Hs Hsz Hhp H. rewrite (want_exact size Hsz), Hhp in H. unfold bind at 1, on_lvm at 1, zoom at 1 in H.
  pose proof (inert_blockDeviceSize (HostPath name) (vn_lvm n)) as [Hin _].
  pose proof (blockDeviceSize_Ok (HostPath name) (vn_lvm n)) as Hok.
  destruct (blockDeviceSize (HostPath name) (vn_lvm n)) as [[current|e] d1] eqn:Hbs; [|done]. simpl in Hin.
  set (n1 := mkVNode (vn_store n) d1) in *.
  assert (same n n1) as Hsame by (split_and!; [apply Hs|done|done]).
  assert (forall b, blkgetsize64 (HostPath name) (vn_lvm n) = BlkBytes b ->
    current = b /\ devs n !! LVName name = Some b) as Hread.
  { intros b Hb. apply blockDeviceSize_read in Hb as [E ?]. rewrite Hbs in E. by simplify_eq. }
  destruct (Z.ltb_spec (size * MiB) current) as [Hlt|Hge].
  { unfold fail in H. simplify_eq. split_and!; [by eapply same_sync|done|by left|].
    intros b [-> Hb]%Hread. exists b. split_and!; [|lia|done]. by rewrite (proj2 (proj2 Hsame)). }
  destruct (Z.eqb_spec (size * MiB) current) as [Heq|Hne].
  { apply populateDerived_spec in H as [Hsame2 _]; [|apply Hs]. pose proof (same_trans _ _ _ Hsame Hsame2) as Hsm.
    split_and!; [by eapply same_sync|apply Hsm|left; apply Hsm|]. intros b [-> Hb]%Hread. exists b.
    rewrite (proj2 (proj2 Hsm)). split_and!; [done|lia|lia]. }
  unfold bind, on_lvm, zoom in H. simpl in H.
  destruct (resizeVolumeLV name size d1) as [rr d2] eqn:Hrs. apply resizeVolumeLV_spec in Hrs.
  destruct Hrs as [[Hl Hr]|(b0 & b' & Hb0 & Hb' & Hl)].
  - destruct rr; [done|]. simplify_eq.
    assert (same n (mkVNode (vn_store n) d2)) as Hsm by (split_and!; [apply Hs|done|by unfold devs; simpl; rewrite Hl]).
    split_and!; [by eapply same_sync|done|left; apply Hsm|]. intros b [-> Hb]%Hread. exists b.
    rewrite (proj2 (proj2 Hsm)). split_and!; [done|lia|done].
  - rewrite Hin in Hb0, Hl.
    assert (in_sync (mkVNode (vn_store n) d2)) as Hs2 by (eapply (sync_grow n); [done|apply Hs|done|exact Hb0|exact Hl]).
    assert (same (mkVNode (vn_store n) d2) n') as Hsm.
    { destruct rr as [[]|e]; [apply populateDerived_spec in H as [? _]; [done|apply Hs]|].
      simplify_eq. split_and!; [apply Hs|done|done]. }
    assert (devs n' = <[LVName name := b']> (devs n)) as Hd' by (rewrite (proj2 (proj2 Hsm)); exact Hl).
    split_and!; [by eapply same_sync|apply Hsm|right; by exists b'|]. intros b [-> Hb]%Hread. exists b'.
    rewrite Hd', lookup_insert_eq. split_and!; [done|lia|lia].
Qed.

(** [Resize] is grow-only and touches one volume.  Whatever its outcome
    no row changes, no other logical volume changes, rows and logical
    volumes still correspond, and when the device could be read this
    volume is at least as large as before; when the call succeeds it has
    the requested size at least, and no workload mounts it. *)
Theorem vol_Resize_spec name size n r n' :
  in_sync n -> vol_Resize name size n = (r, n') ->
  in_sync n' /\ view (vn_store n') = view (vn_store n) /\
  (devs n' = devs n \/ exists b', (size * MiB <= b')%Z /\ devs n' = <[LVName name := b']> (devs n)) /\
  (is_ok r = true -> is_Some (vrows n !! name) /\ forall k w, wrows n !! k = Some w -> ~ mounts_volume name w) /\
  (forall b, is_Some (vrows n !! name) -> blkgetsize64 (HostPath name) (vn_lvm n) = BlkBytes b ->
     exists b', devs n' !! LVName name = Some b' /\ (b <= b')%Z /\ (is_ok r = true -> (size * MiB <= b')%Z)).
Proof.
  intros Hs H. assert (forall n', same n n' -> forall b, blkgetsize64 (HostPath name) (vn_lvm n) = BlkBytes b ->
     exists b', devs n' !! LVName name = Some b' /\ (b <= b')%Z /\ (false = true -> (size * MiB <= b')%Z)) as Hkeep.
  { intros m (_ & _ & Hd) b Hb. apply blk_law in Hb. exists b. unfold devs in *. rewrite Hd. by split_and!. }
  assert (forall e n2, same n n2 -> (r, n') = (Err e, n2) ->
    in_sync n' /\ view (vn_store n') = view (vn_store n) /\
    (devs n' = devs n \/ exists b', (size * MiB <= b')%Z /\ devs n' = <[LVName name := b']> (devs n)) /\
    (is_ok r = true -> is_Some (vrows n !! name) /\ forall k w, wrows n !! k = Some w -> ~ mounts_volume name w) /\
    (forall b, is_Some (vrows n !! name) -> blkgetsize64 (HostPath name) (vn_lvm n) = BlkBytes b ->
      exists b', devs n' !! LVName name = Some b' /\ (b <= b')%Z /\ (is_ok r = true -> (size * MiB <= b')%Z))) as Herr.
  { intros e n2 Hsm [= -> ->]. split_and!; [by eapply same_sync|apply Hsm|left; apply Hsm|done|].
    intros b _ Hb. by apply Hkeep. }
  unfold vol_Resize in H. unfold bind at 1, lift in H.
  assert (same n n) as Hnn by (split_and!; [apply Hs|done|done]).
  destruct (vol_validateName name) as [[]|e]; [|by eapply Herr].
  unfold bind at 1 in H. destruct (validateSize size) as [[]|e] eqn:Hsz; [|by eapply Herr].
  unfold bind at 1 in H. destruct (v_Get name n (proj1 Hs)) as (g & s1 & Hg & Hok1 & Hv1 & Hget). rewrite Hg in H.
  set (n1 := with_vstore s1 n) in *. assert (same n n1) as Hs1 by (by split_and!).
  destruct g as [v|e]; [|by eapply Herr].
  unfold bind at 1 in H. destruct (refsTo name n1) as [ru n2] eqn:Hu. pose proof (refsTo_lvm _ _ _ _ Hu) as Hlvm.
  apply refsTo_spec in Hu as [Hsame2 Hu]; [|done]. pose proof (same_trans _ _ _ Hs1 Hsame2) as Hsm.
  destruct ru as [users|e]; [|by eapply Herr].
  destruct (Z.ltb_spec 0 (Z.of_nat (List.length users))) as [|Hlen]; [by eapply Herr|].
  destruct users as [|u us]; [|simpl in Hlen; lia].
  cbv zeta in H. apply resize_body in H as (Hs' & Hv' & Hd' & Hb'); [|by eapply same_sync|done|].
  2:{ destruct Hs as (_ & Hrows & _). by destruct (Hrows name v Hget) as (_ & -> & _). }
  destruct Hsm as (_ & Hvm & Hdm). rewrite Hdm in Hd'. rewrite Hvm in Hv'.
  split_and!; [done..| |]; [|intros b _ Hb; apply Hb'; by rewrite Hlvm].
  intros _. split; [by rewrite Hget|]. intros k w Hk. eapply (proj1 (Hu [] eq_refl) eq_refl k w).
  unfold wrows, n1. simpl. by rewrite Hv1.
Qed.

End service.

(** ** A reference volume group

    Logical volumes with their sizes, and the programs that fail. *)

Record RefLVM := mkRefLVM { rl_lvs : gmap string Z; rl_failing : list string }.

Definition done_ok (out : string) : Output := mkOutput out out None.
Definition exit5 (out : string) : Output := mkOutput "" out (Some (ExitError 5)).

Definition parse_mib (s : string) : option Z :=
  match Cut "M" s with Some (num, "") => parse_int num | _ => None end.
Definition lv_of (s : string) : string := match Cut "/" s with Some (_, lv) => lv | None => s end.

Definition rl_exec (path : string) (args : list string) (d : RefLVM) : Output * RefLVM :=
  if existsb (String.eqb path) (rl_failing d) then (exit5 "device or resource busy", d)
  else if String.eqb path "/sbin/lvcreate" then
    match args with
    | ["-V"; sz; "-T"; _; "-n"; lv] =>
        match parse_mib sz, rl_lvs d !! lv with
        | Some n, None => (done_ok "created", mkRefLVM (<[lv := (n * MiB)%Z]> (rl_lvs d)) (rl_failing d))
        | _, _ => (exit5 "already exists in volume group", d)
        end
    | _ => (exit5 "usage", d)
    end
  else if String.eqb path "/sbin/lvremove" then
    match args with
    | ["-y"; x] =>
        match rl_lvs d !! lv_of x with
        | Some _ => (done_ok "removed", mkRefLVM (delete (lv_of x) (rl_lvs d)) (rl_failing d))
        | None => (exit5 "  Failed to find logical volume", d)
        end
    | _ => (exit5 "usage", d)
    end
  else if String.eqb path "/sbin/lvresize" then
    match args with
    | ["-L"; sz; x] =>
        match parse_mib sz, rl_lvs d !! lv_of x with
        | Some n, Some _ => (done_ok "resized", mkRefLVM (<[lv_of x := (n * MiB)%Z]> (rl_lvs d)) (rl_failing d))
        | _, _ => (exit5 "  Failed to find logical volume", d)
        end
    | _ => (exit5 "usage", d)
    end
  else (done_ok "", d).

Definition rl_blk (path : string) (d : RefLVM) : BlkSize :=
  match Split "/" path with
  | [""; "dev"; _; lv] => match rl_lvs d !! lv with Some b => BlkBytes b | None => OpenFailed end
  | _ => OpenFailed
  end.

#[export] Instance RefLVM_LVM : LVM RefLVM := {| lvm_exec := rl_exec; blkgetsize64 := rl_blk |}.

Lemma parse_mib_Itoa z : parse_mib (Itoa z +:+ "M") = Some z.
Proof.
  unfold parse_mib. rewrite (Cut_app "M" (Itoa z) "") by (by apply Itoa_no_char).
  apply parse_int_Itoa.
Qed.
Lemma lv_of_vg lv : lv_of (VGName +:+ "/" +:+ lv) = lv.
Proof. reflexivity. Qed.

#[export] Program Instance RefLVM_laws : LVMLaws RefLVM := {|
  lvs := rl_lvs; steady := fun d => existsb (String.eqb "/sbin/lvremove") (rl_failing d) = false |}.
Next Obligation.
  intros lv size d. unfold exec_Command, lvm_exec, RefLVM_LVM, rl_exec, lvcreate_args. destruct (existsb _ _); [done|]. simpl.
  rewrite parse_mib_Itoa. destruct (rl_lvs d !! lv) eqn:E; [done|]. simpl. split_and!; [done..|].
  exists (size * MiB)%Z. by split.
Qed.
Next Obligation.
  intros lv d. unfold exec_Command, lvm_exec, RefLVM_LVM, rl_exec. destruct (existsb _ _) eqn:Hf; [by split_and!|].
  cbn -[lv_of String.append VGName delete].
  rewrite lv_of_vg. destruct (rl_lvs d !! lv) eqn:E; [done|]. simpl. by split_and!.
Qed.
Next Obligation.
  intros lv size d. unfold exec_Command, lvm_exec, RefLVM_LVM, rl_exec. destruct (existsb _ _) eqn:Hf; [done|].
  cbn -[lv_of String.append VGName parse_mib insert MiB].
  rewrite lv_of_vg, parse_mib_Itoa. destruct (rl_lvs d !! lv) as [b|] eqn:E; [|done]. simpl. split; [done|].
  by exists b, (size * MiB)%Z.
Qed.
Next Obligation.
  intros bin args d Hb. unfold exec_Command, lvm_exec, RefLVM_LVM, rl_exec. destruct (existsb _ (rl_failing d)); [done|].
  unfold harmless_tool in Hb. apply existsb_exists in Hb as (x & Hx & ->%String.eqb_eq). apply list_elem_of_In in Hx.
  repeat (apply elem_of_cons in Hx as [->|Hx]; [done|]). by apply elem_of_nil in Hx.
Qed.
Next Obligation.
  intros lv d n. cbn [blkgetsize64 RefLVM_LVM]. unfold rl_blk.
  change (Split "/" ("/dev/" +:+ VGName +:+ "/" +:+ lv)) with ("" :: "dev" :: "capsule" :: Split "/" lv).
  destruct (Split "/" lv) as [|x [|y l]] eqn:E; [done| |done].
  assert (x = lv) as -> by (rewrite <- (Join_Split "/" lv), E; done).
  destruct (rl_lvs d !! lv); [by intros [= ->]|done].
Qed.

Module VolumeDemo.
Definition node : Type := VNode memStore RefLVM.
Definition empty : node := mkVNode mem_New (mkRefLVM ∅ []).
Definition data : Volume := mkVolume "data" 0 (HostPath "data") [] 1700000000.
Definition user : Workload :=
  mkWorkload "db" WORKLOAD_KIND_CONTAINER
    (Some (mkContainerSpec "postgres" [] [] ∅ [mkVolumeMount "data" "/var/lib" false]
       NETWORK_MODE_UNSPECIFIED [] false false false false [])) None None DESIRED_STATE_UNSPECIFIED.
(** One volume of 512 MiB; [used] adds a workload that mounts it. *)
Definition one : node :=
  mkVNode (mem_set_volumes {["data" := data]} mem_New) (mkRefLVM {["vol-data" := 536870912%Z]} []).
Definition used : node :=
  mkVNode (mem_set_workloads {["db" := user]} (vn_store one)) (vn_lvm one).

Lemma one_sync s : mem_volumes s = {["data" := data]} -> in_sync (mkVNode s (vn_lvm one)).
Proof.
  intros Hs. split_and!; [done| |].
  - unfold vrows. simpl. rewrite Hs. apply map_Forall_singleton. split_and!; [done..|]. by eexists.
  - intros k. unfold devs, vrows. simpl. rewrite Hs. intros [b Hb]. apply lookup_singleton_Some in Hb as [E _].
    assert (k = "data") as -> by (by apply LVName_inj). by eexists.
Qed.
Lemma empty_sync : in_sync empty.
Proof. split_and!; [done|done|]. intros k [? [=]]. Qed.
End VolumeDemo.

Lemma vol_Create_spec_witness :
  exists v n', vol_Create 1700000000 "data" 0 VolumeDemo.empty = (Ok v, n') /\ in_sync n' /\
    exists b, (512 * MiB <= b)%Z /\ devs n' = <["vol-data" := b]> ∅.
Proof.
  destruct (vol_Create 1700000000 "data" 0 VolumeDemo.empty) as [r n'] eqn:H.
  pose proof (f_equal (fun x => is_ok x.1) H) as E. vm_compute in E. destruct r as [v|e]; [|done].
  exists v, n'. split; [done|].
  destruct (vol_Create_spec 1700000000 "data" 0 VolumeDemo.empty (Ok v) n') as (_ & Hs & _ & _ & _ & _ & Hb);
    [apply VolumeDemo.empty_sync|exact H|]. split; [exact Hs|exact Hb].
Defined.

Lemma vol_Delete_spec_witness :
  exists n', vol_Delete "data" true VolumeDemo.used = (Ok tt, n') /\ in_sync n' /\ devs n' = ∅.
Proof.
  destruct (vol_Delete "data" true VolumeDemo.used) as [r n'] eqn:H.
  pose proof (f_equal (fun x => is_ok x.1) H) as E. vm_compute in E. destruct r as [[]|e]; [|done].
  exists n'. split; [done|].
  destruct (vol_Delete_spec "data" true VolumeDemo.used (Ok tt) n') as (Hs & _ & Hd);
    [by apply VolumeDemo.one_sync|exact H|]. split; [exact Hs|]. rewrite Hd. reflexivity.
Defined.

Lemma vol_Delete_in_use_witness :
  is_ok (vol_Delete "data" false VolumeDemo.used).1 = false /\
  same VolumeDemo.used (vol_Delete "data" false VolumeDemo.used).2.
Proof.
  apply (vol_Delete_in_use "data" VolumeDemo.used _ _ "db" VolumeDemo.user).
  - by apply VolumeDemo.one_sync.
  - by eexists.
  - reflexivity.
  - by apply Exists_cons_hd.
  - by destruct (vol_Delete "data" false VolumeDemo.used).
Defined.

Lemma vol_Resize_spec_witness :
  exists v n' b', vol_Resize "data" 1024 VolumeDemo.one = (Ok v, n') /\
    devs n' !! LVName "data" = Some b' /\ (1024 * MiB <= b')%Z.
Proof.
  destruct (vol_Resize "data" 1024 VolumeDemo.one) as [r n'] eqn:H.
  pose proof (f_equal (fun x => is_ok x.1) H) as E. vm_compute in E. destruct r as [v|e]; [|done].
  destruct (vol_Resize_spec "data" 1024 VolumeDemo.one (Ok v) n') as (_ & _ & _ & _ & Hb);
    [by apply VolumeDemo.one_sync|exact H|].
  destruct (Hb 536870912%Z) as (b' & Hb' & _ & Hge); [by eexists|reflexivity|].
  exists v, n', b'. split; [done|]. split; [done|]. by apply Hge.
Defined.
