(* ===== verification/Base64.v ===== *)
(** * base64.RawURLEncoding

    The unpadded URL-safe encoding of package [encoding/base64], used for
    token parts, key identifiers and token ids.  Byte slices are strings. *)

From S2P Require Import Prelude GoStrings.

Set Default Goal Selector "!".
Local Open Scope Z_scope.

Definition byte (n : Z) : ascii := chr (Z.to_N n).

(** The alphabet: A-Z a-z 0-9 - _ *)
Definition b64_char (i : Z) : ascii :=
  if i <? 26 then byte (65 + i)
  else if i <? 52 then byte (97 + (i - 26))
  else if i <? 62 then byte (48 + (i - 52))
  else if i =? 62 then byte 45
  else byte 95.

Definition b64_val (c : ascii) : option Z :=
  let n := ord c in
  if (65 <=? n) && (n <=? 90) then Some (n - 65)
  else if (97 <=? n) && (n <=? 122) then Some (n - 97 + 26)
  else if (48 <=? n) && (n <=? 57) then Some (n - 48 + 52)
  else if n =? 45 then Some 62
  else if n =? 95 then Some 63
  else None.

Fixpoint b64_encode (s : string) : string :=
  match s with
  | "" => ""
  | String a "" => String (b64_char (ord a / 4)) (String (b64_char (ord a mod 4 * 16)) "")
  | String a (String b "") =>
      String (b64_char (ord a / 4)) (String (b64_char (ord a mod 4 * 16 + ord b / 16))
        (String (b64_char (ord b mod 16 * 4)) ""))
  | String a (String b (String c s)) =>
      String (b64_char (ord a / 4)) (String (b64_char (ord a mod 4 * 16 + ord b / 16))
        (String (b64_char (ord b mod 16 * 4 + ord c / 64)) (String (b64_char (ord c mod 64)) (b64_encode s))))
  end.

(** The decoder skips carriage returns and line feeds, and ignores the unused
    low bits of a short last group (the encoding is not [Strict]). *)
Fixpoint strip_newlines (s : string) : string :=
  match s with
  | "" => ""
  | String c s => if Ascii.eqb c (chr 10) || Ascii.eqb c (chr 13) then strip_newlines s
                  else String c (strip_newlines s)
  end.

Fixpoint b64_groups (s : string) : option string :=
  match s with
  | "" => Some ""
  | String _ "" => None
  | String c0 (String c1 "") =>
      v0 ← b64_val c0; v1 ← b64_val c1;
      Some (String (byte (v0 * 4 + v1 / 16)) "")
  | String c0 (String c1 (String c2 "")) =>
      v0 ← b64_val c0; v1 ← b64_val c1; v2 ← b64_val c2;
      Some (String (byte (v0 * 4 + v1 / 16)) (String (byte (v1 mod 16 * 16 + v2 / 4)) ""))
  | String c0 (String c1 (String c2 (String c3 s))) =>
      v0 ← b64_val c0; v1 ← b64_val c1; v2 ← b64_val c2; v3 ← b64_val c3;
      rest ← b64_groups s;
      Some (String (byte (v0 * 4 + v1 / 16)) (String (byte (v1 mod 16 * 16 + v2 / 4))
        (String (byte (v2 mod 4 * 64 + v3)) rest)))
  end.

Definition b64_decode (s : string) : option string := b64_groups (strip_newlines s).

(** ** Round trip *)

Lemma byte_ord c : byte (ord c) = c.
Proof. unfold byte, ord, chr. rewrite N2Z.id. apply ascii_N_embedding. Qed.

Lemma ord_range c : 0 <= ord c < 256.
Proof. unfold ord. pose proof (N_ascii_bounded c). lia. Qed.

Lemma ord_byte n : 0 <= n < 256 -> ord (byte n) = n.
Proof. intros H. unfold byte, ord, chr. rewrite N_ascii_embedding by lia. lia. Qed.

Lemma b64_val_char i : 0 <= i < 64 -> b64_val (b64_char i) = Some i.
Proof.
  intros Hi. assert (Forall (fun i => b64_val (b64_char (Z.of_nat i)) = Some (Z.of_nat i)) (seq 0 64)) as H
    by (apply (bool_decide_unpack _); vm_compute; exact I).
  rewrite Forall_forall in H. rewrite <- (Z2Nat.id i) by lia. apply H, elem_of_seq. lia.
Qed.

Definition is_b64 (c : ascii) : bool := match b64_val c with Some _ => true | None => false end.

Lemma is_b64_char i : 0 <= i < 64 -> is_b64 (b64_char i) = true.
Proof. intros Hi. unfold is_b64. by rewrite b64_val_char. Qed.

(** Induction in steps of three bytes. *)
Lemma string_ind3 (P : string -> Prop) :
  P "" -> (forall a, P (String a "")) -> (forall a b, P (String a (String b ""))) ->
  (forall a b c s, P s -> P (String a (String b (String c s)))) -> forall s, P s.
Proof.
  intros H0 H1 H2 H3. fix IH 1. intros [|a [|b [|c s]]]; [done|apply H1|apply H2|apply H3, IH].
Qed.

Lemma b64_bounds a b c :
  0 <= a < 256 -> 0 <= b < 256 -> 0 <= c < 256 ->
  (0 <= a / 4 < 64) /\ (0 <= a mod 4 * 16 + b / 16 < 64) /\ (0 <= b mod 16 * 4 + c / 64 < 64) /\ (0 <= c mod 64 < 64).
Proof. intros. split_and!; Z.to_euclidean_division_equations; lia. Qed.

Lemma b64_encode_chars s : all_chars is_b64 (b64_encode s) = true.
Proof.
  induction s as [|a|a b|a b c s IH] using string_ind3; [done|..].
  - pose proof (b64_bounds (ord a) 0 0 (ord_range a)) as (? & ? & _); [lia..|].
    change (0 / 16) with 0 in *. rewrite !Z.add_0_r in *. simpl. by rewrite !is_b64_char.
  - pose proof (b64_bounds (ord a) (ord b) 0 (ord_range a) (ord_range b)) as (? & ? & ? & _); [lia..|].
    change (0 / 64) with 0 in *. rewrite !Z.add_0_r in *. simpl. by rewrite !is_b64_char.
  - pose proof (b64_bounds (ord a) (ord b) (ord c) (ord_range a) (ord_range b) (ord_range c)) as (? & ? & ? & ?).
    simpl. by rewrite !is_b64_char.
Qed.

Lemma strip_newlines_b64 s : all_chars is_b64 s = true -> strip_newlines s = s.
Proof.
  induction s as [|c s IH]; [done|]. cbn [all_chars strip_newlines]. intros [Hc Hs]%andb_true_iff.
  destruct (Ascii.eqb_spec c (chr 10)) as [->|]; [done|].
  destruct (Ascii.eqb_spec c (chr 13)) as [->|]; [done|]. cbn [orb]. by rewrite IH.
Qed.

Lemma b64_group0 a b : 0 <= a < 256 -> 0 <= b < 256 -> a / 4 * 4 + (a mod 4 * 16 + b / 16) / 16 = a.
Proof. intros. Z.to_euclidean_division_equations; lia. Qed.
Lemma b64_group1 a b c : 0 <= a < 256 -> 0 <= b < 256 -> 0 <= c < 256 ->
  (a mod 4 * 16 + b / 16) mod 16 * 16 + (b mod 16 * 4 + c / 64) / 4 = b.
Proof. intros. Z.to_euclidean_division_equations; lia. Qed.
Lemma b64_group2 b c : 0 <= b < 256 -> 0 <= c < 256 -> (b mod 16 * 4 + c / 64) mod 4 * 64 + c mod 64 = c.
Proof. intros. Z.to_euclidean_division_equations; lia. Qed.

(** Decoding what was encoded gives the bytes back. *)
Lemma b64_decode_encode s : b64_decode (b64_encode s) = Some s.
Proof.
  unfold b64_decode. rewrite strip_newlines_b64 by apply b64_encode_chars.
  induction s as [|a|a b|a b c s IH] using string_ind3; [done|..].
  - pose proof (ord_range a) as Ha. pose proof (b64_bounds (ord a) 0 0 Ha) as (? & ? & _); [lia..|].
    pose proof (b64_group0 (ord a) 0 Ha) as G0.
    change (0 / 16) with 0 in *. rewrite !Z.add_0_r in *. simpl. rewrite !b64_val_char by done. simpl.
    by rewrite G0, byte_ord by lia.
  - pose proof (ord_range a) as Ha. pose proof (ord_range b) as Hb.
    pose proof (b64_bounds (ord a) (ord b) 0 Ha Hb) as (? & ? & ? & _); [lia..|].
    pose proof (b64_group1 (ord a) (ord b) 0 Ha Hb) as G1.
    change (0 / 64) with 0 in *. rewrite !Z.add_0_r in *. simpl. rewrite !b64_val_char by done. simpl.
    by rewrite G1, b64_group0, !byte_ord by lia.
  - pose proof (ord_range a) as Ha. pose proof (ord_range b) as Hb. pose proof (ord_range c) as Hc.
    pose proof (b64_bounds (ord a) (ord b) (ord c) Ha Hb Hc) as (? & ? & ? & ?).
    cbn [b64_encode b64_groups]. rewrite !b64_val_char by done. simpl. rewrite IH. simpl.
    by rewrite b64_group0, b64_group1, b64_group2, !byte_ord.
Qed.

(** The alphabet has no dot, so an encoded part holds no separator. *)
Lemma b64_no_char c s : is_b64 c = false -> no_char c (b64_encode s) = true.
Proof.
  intros Hc. eapply all_chars_impl; [|apply b64_encode_chars]. intros d Hd. simpl.
  destruct (Ascii.eqb_spec c d) as [->|]; [congruence|done].
Qed.

Lemma b64_encode_inj s t : b64_encode s = b64_encode t -> s = t.
Proof. intros H. pose proof (b64_decode_encode s) as E. rewrite H, b64_decode_encode in E. by injection E. Qed.

Lemma b64_encode_empty s : b64_encode s = "" -> s = "".
Proof. apply (b64_encode_inj s ""). Qed.

(** ** The standard encoding: the alphabet with + and /, padded with = *)

Definition std_of_url (c : ascii) : ascii :=
  if Ascii.eqb c "-" then "+" else if Ascii.eqb c "_" then "/" else c.
(** Characters outside the standard alphabet stay outside the other one. *)
Definition url_of_std (c : ascii) : ascii :=
  if Ascii.eqb c "+" then "-" else if Ascii.eqb c "/" then "_"
  else if Ascii.eqb c "-" || Ascii.eqb c "_" then "!" else c.

Definition padding (n : nat) : string :=
  match (n mod 4)%nat with 2%nat => "==" | 3%nat => "=" | _ => "" end.
Definition std_encode (s : string) : string :=
  map_string std_of_url (b64_encode s) +:+ padding (String.length (b64_encode s)).

(** At most two padding characters end a whole number of groups. *)
Fixpoint strip_padding (s : string) : string :=
  match s with
  | "" => ""
  | String c s' => if String.eqb s "==" || String.eqb s "=" then "" else String c (strip_padding s')
  end.
Definition std_decode (s : string) : option string :=
  let t := strip_newlines s in
  if (String.length t mod 4 =? 0)%nat then b64_groups (map_string url_of_std (strip_padding t)) else None.

Lemma is_b64_special : is_b64 "=" = false /\ is_b64 "+" = false /\ is_b64 "/" = false /\ is_b64 (chr 10) = false /\ is_b64 (chr 13) = false.
Proof. vm_compute. done. Qed.

Definition std_char (c : ascii) : bool := is_b64 (url_of_std c).

Lemma std_char_of_url c : is_b64 c = true -> url_of_std (std_of_url c) = c.
Proof.
  intros H. destruct is_b64_special as (_ & Hp & Hs & _). unfold url_of_std, std_of_url.
  destruct (Ascii.eqb_spec c "-") as [->|]; [done|]. destruct (Ascii.eqb_spec c "_") as [->|]; [done|].
  destruct (Ascii.eqb_spec c "+") as [->|]; [congruence|]. destruct (Ascii.eqb_spec c "/") as [->|]; [congruence|].
  destruct (Ascii.eqb_spec c "-"); [done|]. by destruct (Ascii.eqb_spec c "_").
Qed.

Lemma map_std_text s : all_chars is_b64 s = true ->
  map_string url_of_std (map_string std_of_url s) = s /\ all_chars std_char (map_string std_of_url s) = true.
Proof.
  induction s as [|c s IH]; [done|]. cbn [all_chars map_string]. intros [Hc Hs]%andb_true_iff.
  destruct (IH Hs) as [-> ->]. unfold std_char at 1. rewrite std_char_of_url by done. by rewrite Hc.
Qed.

Lemma std_char_plain c : std_char c = true -> c <> "="%char /\ c <> chr 10 /\ c <> chr 13.
Proof. intros H. split_and!; intros ->; by vm_compute in H. Qed.

Lemma strip_newlines_app s t : strip_newlines (s +:+ t) = strip_newlines s +:+ strip_newlines t.
Proof.
  induction s as [|c s IH]; [done|]. change (String c s +:+ t) with (String c (s +:+ t)). cbn [strip_newlines].
  destruct (_ || _); [done|]. by rewrite IH.
Qed.
Lemma strip_newlines_std s : all_chars std_char s = true -> strip_newlines s = s.
Proof.
  induction s as [|c s IH]; [done|]. cbn [all_chars strip_newlines]. intros [Hc Hs]%andb_true_iff.
  apply std_char_plain in Hc as (_ & H1 & H2).
  destruct (Ascii.eqb_spec c (chr 10)); [done|]. destruct (Ascii.eqb_spec c (chr 13)); [done|]. cbn [orb]. by rewrite IH.
Qed.
Lemma strip_padding_std s n : all_chars std_char s = true -> strip_padding (s +:+ padding n) = s.
Proof.
  induction s as [|c s IH].
  - intros _. change ("" +:+ padding n) with (padding n). unfold padding. by destruct (n mod 4)%nat as [|[|[|[|k]]]].
  - cbn [all_chars]. intros [Hc Hs]%andb_true_iff. apply std_char_plain in Hc as (H1 & _).
    change (String c s +:+ padding n) with (String c (s +:+ padding n)). cbn [strip_padding].
    destruct (String.eqb_spec (String c (s +:+ padding n)) "==") as [[=]|]; [done|].
    destruct (String.eqb_spec (String c (s +:+ padding n)) "=") as [[=]|]; [done|]. cbn [orb]. by rewrite IH.
Qed.

Lemma length_append s t : String.length (s +:+ t) = (String.length s + String.length t)%nat.
Proof. induction s as [|c s IH]; [done|]. simpl. by rewrite IH. Qed.
Lemma length_map_string f s : String.length (map_string f s) = String.length s.
Proof. induction s as [|c s IH]; [done|]. simpl. by rewrite IH. Qed.
Lemma b64_length s : (String.length (b64_encode s) mod 4)%nat <> 1%nat.
Proof.
  induction s as [|a|a b|a b c s IH] using string_ind3; [done..|]. cbn [b64_encode].
  change (String.length (String ?a (String ?b (String ?c (String ?d ?s))))) with (4 + String.length s)%nat.
  match goal with |- ((4 + ?n) mod 4)%nat <> _ => replace (4 + n)%nat with (n + 1 * 4)%nat by lia end.
  by rewrite Nat.Div0.mod_add.
Qed.
Lemma padded_length n : (n mod 4)%nat <> 1%nat -> ((n + String.length (padding n)) mod 4)%nat = 0%nat.
Proof.
  intros H. unfold padding. pose proof (Nat.mod_upper_bound n 4 ltac:(lia)) as Hb.
  rewrite Nat.Div0.add_mod. destruct (n mod 4)%nat as [|[|[|[|k]]]]; [done..|lia].
Qed.

Lemma std_decode_encode s : std_decode (std_encode s) = Some s.
Proof.
  destruct (map_std_text (b64_encode s) (b64_encode_chars s)) as [Hm Hc]. unfold std_decode, std_encode.
  rewrite strip_newlines_app, (strip_newlines_std _ Hc).
  assert (strip_newlines (padding (String.length (b64_encode s))) = padding (String.length (b64_encode s))) as ->
    by (unfold padding; by destruct (_ mod 4)%nat as [|[|[|[|k]]]]).
  rewrite length_append, length_map_string, padded_length by apply b64_length. cbn [Nat.eqb].
  rewrite strip_padding_std, Hm by done.
  pose proof (b64_decode_encode s) as H. unfold b64_decode in H. by rewrite strip_newlines_b64 in H by apply b64_encode_chars.
Qed.

Lemma std_encode_empty s : std_encode s = "" -> s = "".
Proof. intros H. pose proof (std_decode_encode s) as E. rewrite H in E. by injection E. Qed.
