(* ===== verification/Bytes.v ===== *)
(** * Byte strings by offset

    Slices and in-place writes of byte strings at [Z] offsets (the [ReadAt] and
    [WriteAt] of a fixed-size device), and the little-endian words of package
    encoding/binary. *)

From S2P Require Import Prelude GoStrings Base64.

Set Default Goal Selector "!".
Local Open Scope Z_scope.

Definition len (s : string) : Z := Z.of_nat (String.length s).

(** [s[:n]] and [s[n:]], clipped to the string. *)
Fixpoint take (n : Z) (s : string) : string :=
  match s with "" => "" | String c s => if n <=? 0 then "" else String c (take (n - 1) s) end.
Fixpoint drop (n : Z) (s : string) : string :=
  match s with "" => "" | String c s' => if n <=? 0 then s else drop (n - 1) s' end.

(** The bytes read at an offset, and a write over the bytes at an offset. *)
Definition read_at (off n : Z) (s : string) : string := take n (drop off s).
Definition write_at (off : Z) (b s : string) : string := take off s +:+ b +:+ drop (off + len b) s.

Lemma len_nonneg s : 0 <= len s.
Proof. unfold len. lia. Qed.
Lemma len_cons c s : len (String c s) = len s + 1.
Proof. unfold len. simpl. lia. Qed.
Lemma len_app s t : len (s +:+ t) = len s + len t.
Proof. induction s as [|c s IH]; [done|]. cbn [String.app]. rewrite !len_cons, IH. lia. Qed.
Lemma len_empty s : len s = 0 -> s = "".
Proof. destruct s as [|c s]; [done|]. rewrite len_cons. pose proof (len_nonneg s). lia. Qed.

Lemma take_nonpos n s : n <= 0 -> take n s = "".
Proof. intros H. destruct s; [done|]. simpl. destruct (Z.leb_spec n 0); [done|lia]. Qed.
Lemma drop_nonpos n s : n <= 0 -> drop n s = s.
Proof. intros H. destruct s; [done|]. simpl. destruct (Z.leb_spec n 0); [done|lia]. Qed.
Lemma take_cons n c s : 0 < n -> take n (String c s) = String c (take (n - 1) s).
Proof. intros H. cbn [take]. destruct (Z.leb_spec n 0); [lia|done]. Qed.
Lemma drop_cons n c s : 0 < n -> drop n (String c s) = drop (n - 1) s.
Proof. intros H. cbn [drop]. destruct (Z.leb_spec n 0); [lia|done]. Qed.

Lemma take_drop n s : take n s +:+ drop n s = s.
Proof.
  revert n. induction s as [|c s IH]; intros n; [done|]. cbn [take drop].
  destruct (n <=? 0); [done|]. cbn [String.app]. by rewrite IH.
Qed.
Lemma len_take n s : 0 <= n -> len (take n s) = Z.min n (len s).
Proof.
  revert n. induction s as [|c s IH]; intros n Hn; [unfold len; simpl; lia|]. cbn [take].
  destruct (Z.leb_spec n 0).
  - rewrite len_cons. pose proof (len_nonneg s). unfold len at 1. simpl. lia.
  - rewrite !len_cons, IH by lia. lia.
Qed.
Lemma len_drop n s : 0 <= n -> len (drop n s) = Z.max 0 (len s - n).
Proof.
  intros Hn. pose proof (len_app (take n s) (drop n s)) as H. rewrite take_drop, len_take in H by done.
  pose proof (len_nonneg s). lia.
Qed.
Lemma take_all n s : len s <= n -> take n s = s.
Proof.
  revert n. induction s as [|c s IH]; intros n H; [done|]. rewrite len_cons in H. pose proof (len_nonneg s).
  rewrite take_cons, IH by lia. done.
Qed.
Lemma drop_all n s : len s <= n -> drop n s = "".
Proof. intros H. apply len_empty. pose proof (len_nonneg s). rewrite len_drop by lia. lia. Qed.

Lemma take_app_l n s t : n <= len s -> take n (s +:+ t) = take n s.
Proof.
  revert n. induction s as [|c s IH]; intros n H.
  - change (len "") with 0 in H. by rewrite !take_nonpos.
  - rewrite len_cons in H. cbn [String.app take]. destruct (n <=? 0); [done|]. rewrite IH by lia. done.
Qed.
Lemma take_app_r n s t : len s <= n -> take n (s +:+ t) = s +:+ take (n - len s) t.
Proof.
  revert n. induction s as [|c s IH]; intros n H.
  - change (len "") with 0. by rewrite Z.sub_0_r.
  - rewrite len_cons in H |- *. pose proof (len_nonneg s). cbn [String.app]. rewrite take_cons, IH by lia.
    f_equal. f_equal. f_equal. lia.
Qed.
Lemma drop_app_l n s t : n <= len s -> drop n (s +:+ t) = drop n s +:+ t.
Proof.
  revert n. induction s as [|c s IH]; intros n H.
  - change (len "") with 0 in H. by rewrite !drop_nonpos.
  - rewrite len_cons in H. cbn [String.app drop]. destruct (n <=? 0); [done|]. by rewrite IH by lia.
Qed.
Lemma drop_app_r n s t : len s <= n -> drop n (s +:+ t) = drop (n - len s) t.
Proof.
  revert n. induction s as [|c s IH]; intros n H.
  - change (len "") with 0. by rewrite Z.sub_0_r.
  - rewrite len_cons in H |- *. pose proof (len_nonneg s). cbn [String.app]. rewrite drop_cons, IH by lia.
    f_equal. lia.
Qed.
Lemma drop_drop m n s : 0 <= m -> 0 <= n -> drop m (drop n s) = drop (m + n) s.
Proof.
  revert n. induction s as [|c s IH]; intros n Hm Hn; [done|].
  destruct (decide (n = 0)) as [->|]; [by rewrite (drop_nonpos 0), Z.add_0_r by lia|].
  rewrite !drop_cons, IH by lia. f_equal. lia.
Qed.
Lemma take_take m n s : 0 <= m -> take m (take n s) = take (Z.min m n) s.
Proof.
  revert m n. induction s as [|c s IH]; intros m n Hm; [done|].
  destruct (Z.leb_spec n 0); [rewrite (take_nonpos n) by lia; symmetry; apply take_nonpos; lia|].
  rewrite (take_cons n) by lia. destruct (Z.leb_spec m 0); [by rewrite !take_nonpos by lia|].
  rewrite !take_cons, IH by lia. f_equal. f_equal. lia.
Qed.

(** ** In-place writes *)

Lemma len_write_at off b s : 0 <= off -> off + len b <= len s -> len (write_at off b s) = len s.
Proof.
  intros Ho Hl. pose proof (len_nonneg b). unfold write_at. rewrite !len_app, len_take, len_drop by lia. lia.
Qed.
Lemma read_write_same off b s : 0 <= off -> off <= len s -> read_at off (len b) (write_at off b s) = b.
Proof.
  intros Ho Hl. unfold read_at, write_at.
  assert (len (take off s) = off) as Ht by (rewrite len_take; lia).
  rewrite drop_app_r by lia. rewrite Ht, Z.sub_diag, drop_nonpos, take_app_l, take_all by lia. done.
Qed.
(** A write changes nothing before its offset and nothing after its end. *)
Lemma take_write_at off b s n : 0 <= n <= off -> off <= len s -> take n (write_at off b s) = take n s.
Proof.
  intros Hn Hl. unfold write_at. rewrite take_app_l by (rewrite len_take; lia).
  rewrite take_take by lia. f_equal. lia.
Qed.
Lemma drop_write_at off b s n :
  0 <= off -> off <= len s -> off + len b <= n -> drop n (write_at off b s) = drop n s.
Proof.
  intros Ho Hl Hn. pose proof (len_nonneg b). unfold write_at.
  assert (len (take off s) = off) as Ht by (rewrite len_take; lia).
  rewrite drop_app_r by lia. rewrite drop_app_r by lia. rewrite drop_drop by lia. f_equal. lia.
Qed.
Lemma write_at_nil off s : 0 <= off -> write_at off "" s = s.
Proof. intros H. unfold write_at. change (len "") with 0. rewrite Z.add_0_r. apply take_drop. Qed.

(** Two writes, the second where the first ended, are one. *)
Lemma write_at_app off b c s :
  0 <= off -> off + len b + len c <= len s -> write_at (off + len b) c (write_at off b s) = write_at off (b +:+ c) s.
Proof.
  intros Ho Hl. pose proof (len_nonneg b). pose proof (len_nonneg c).
  assert (len (take off s) = off) as Ht by (rewrite len_take; lia).
  assert (take (off + len b) (write_at off b s) = take off s +:+ b) as H1.
  { unfold write_at. rewrite take_app_r, take_app_l, (take_all _ b) by lia. done. }
  assert (write_at (off + len b) c (write_at off b s) =
    take (off + len b) (write_at off b s) +:+ c +:+ drop (off + len b + len c) (write_at off b s)) as -> by done.
  rewrite H1, drop_write_at by lia. unfold write_at. rewrite len_app, <- !app_assoc_str, Z.add_assoc. done.
Qed.

(** ** Little-endian words *)

(** [binary.LittleEndian.PutUint32] *)
Definition le32 (x : Z) : string :=
  String (byte (x mod 256)) (String (byte (x / 256 mod 256))
    (String (byte (x / 65536 mod 256)) (String (byte (x / 16777216 mod 256)) ""))).

Definition le_value (s : string) : Z :=
  match s with
  | String a (String b (String c (String d _))) => ord a + 256 * ord b + 65536 * ord c + 16777216 * ord d
  | _ => 0
  end.

Lemma le32_value x : 0 <= x < 2 ^ 32 -> le_value (le32 x) = x.
Proof.
  intros H. unfold le32, le_value. rewrite !ord_byte by (apply Z.mod_pos_bound; lia).
  change (2 ^ 32) with 4294967296 in H. Z.div_mod_to_equations. lia.
Qed.
