(* ===== verification/Disks.v ===== *)
(** * Finding disks and partitions: boot/boot_linux.go, boot/install_linux.go

    The lookups read /proc/cmdline, /sys/class/block and the first sector of
    the disks.  [Sys] is what those reads give; the lookups are functions of it. *)

From S2P Require Import Prelude GoStrings Models Runtime Base64 Bytes.

Set Default Goal Selector "!".
Local Open Scope go_scope.

(** ** What the kernel shows *)

(** An entry of /sys/class/block: its name, the [partition] file (absent for a
    whole disk), the path its symlink resolves to, and the [removable] and
    [size] files. *)
Record BlockEntry := mkBlock {
  be_Name : string;
  be_partition : option (result string);
  be_link : result string;
  be_removable : result string;
  be_size : result string }.

Record Sys := mkSys {
  sys_cmdline : result string;            (* /proc/cmdline *)
  sys_block : result (list BlockEntry);   (* /sys/class/block, in directory order *)
  sys_dev : gmap string string }.         (* the devices that can be opened under /dev *)

Record TargetDisk := mkTarget { td_Path : string; td_SizeBytes : Z; td_Reinstall : bool }.

(** The outcome of the early boot. *)
Record BootResult := mkBootResult {
  br_MountedPerm : bool;
  br_ActiveSlot : string;
  br_InstallerMode : bool;
  br_MountPermErr : string;
  br_Targets : list TargetDisk }.

(** A path in the text of /proc/mounts. *)
Definition isMounted_in (data path : string) : bool :=
  existsb (fun line => match Fields line with _ :: p :: _ => String.eqb p path | _ => false end) (Split NL data).

(** [filepath.Base] and [filepath.Dir] of a clean absolute path. *)
Fixpoint path_split (s : string) : option (string * string) :=
  match s with
  | "" => None
  | String c s' =>
      match path_split s' with
      | Some (d, b) => Some (String c d, b)
      | None => if Ascii.eqb c "/" then Some ("", s') else None
      end
  end.
Definition path_Base (s : string) : string := match path_split s with Some (_, b) => b | None => s end.
Definition path_Dir (s : string) : string :=
  match path_split s with Some ("", _) => "/" | Some (d, _) => d | None => "." end.

(** ** The disk signature *)

(** The first token [root=PARTUUID=<sig>-<NN>] of the command line. *)
Fixpoint partuuid_from (cmdline : string) (toks : list string) : result string :=
  match toks with
  | [] => Err (Errorf ("no root=PARTUUID in /proc/cmdline (cmdline: " +:+ Quote (TrimSpace cmdline) +:+ ")"))
  | f :: toks =>
      if HasPrefix f "root=PARTUUID=" then
        let pu := slice_from 14 f in
        match Cut "-" pu with
        | None => Err (Errorf ("malformed PARTUUID " +:+ Quote pu))
        | Some (sig, _) => Ok (ToLower sig)
        end
      else partuuid_from cmdline toks
  end.

Definition bootDiskSignature (m : Sys) : result string :=
  match sys_cmdline m with
  | Err e => Err (Wrap "read /proc/cmdline: " e "")
  | Ok cmdline => partuuid_from cmdline (Fields cmdline)
  end.

(** The four bytes at 0x1B8, most significant first. *)
Definition readMBRDiskSig (m : Sys) (devPath : string) : result string :=
  match sys_dev m !! devPath with
  | None => Err (Sentinel OsNotExist)
  | Some b =>
      match read_at 440 4 b with
      | String s0 (String s1 (String s2 (String s3 ""))) =>
          Ok (EncodeToString (String s3 (String s2 (String s1 (String s0 "")))))
      | _ => Err (Sentinel IoEOF)
      end
  end.

(** ** The lookups *)

Definition is_partition (e : BlockEntry) : bool := match be_partition e with Some _ => true | None => false end.

Definition has_signature (m : Sys) (sig disk : string) : bool :=
  match readMBRDiskSig m ("/dev/" +:+ disk) with Ok got => String.eqb got sig | Err _ => false end.

(** One entry of the scan: is it partition [want] of a disk with the signature? *)
Definition partition_matches (m : Sys) (wantSig want : string) (e : BlockEntry) : bool :=
  match be_partition e with
  | Some (Ok n) =>
      if negb (String.eqb (TrimSpace n) want) then false
      else match be_link e with
      | Err _ => false
      | Ok target => has_signature m wantSig (path_Base (path_Dir target))
      end
  | _ => false
  end.

Fixpoint first_entry (p : BlockEntry -> bool) (es : list BlockEntry) : option BlockEntry :=
  match es with [] => None | e :: es => if p e then Some e else first_entry p es end.

Definition FindPartitionByNumber (m : Sys) (partNum : Z) : result string :=
  match bootDiskSignature m with
  | Err e => Err e
  | Ok wantSig =>
      match sys_block m with
      | Err e => Err e
      | Ok entries =>
          match first_entry (partition_matches m wantSig (Itoa partNum)) entries with
          | Some e => Ok ("/dev/" +:+ be_Name e)
          | None => Err (Errorf ("no partition " +:+ Itoa partNum +:+ " found with disk signature " +:+ wantSig))
          end
      end
  end.

Definition BootDisk (m : Sys) : result string :=
  match bootDiskSignature m with
  | Err e => Err e
  | Ok wantSig =>
      match sys_block m with
      | Err e => Err e
      | Ok entries =>
          match first_entry (fun e => negb (is_partition e) && has_signature m wantSig (be_Name e)) entries with
          | Some e => Ok ("/dev/" +:+ be_Name e)
          | None => Err (Errorf ("no whole disk found with signature " +:+ wantSig))
          end
      end
  end.

(** The first slot marker of the command line. *)
Fixpoint slot_from (toks : list string) : string :=
  match toks with
  | [] => ""
  | f :: toks =>
      if String.eqb f "capsule.slot=a" then "slot_a"
      else if String.eqb f "capsule.slot=b" then "slot_b"
      else slot_from toks
  end.
Definition detectActiveSlot (m : Sys) : string :=
  match sys_cmdline m with Err _ => "" | Ok c => slot_from (Fields c) end.

(** ** Installer mode *)

Definition CapsuleMBRSig : string := "b1a570ff".
Definition minTargetSizeBytes : Z := 16 * 1024 * 1024 * 1024.

Definition cmdlineHasInstallerFlag (m : Sys) : bool :=
  match sys_cmdline m with
  | Err _ => false
  | Ok c => existsb (fun tok => String.eqb tok "capsule.mode=installer") (Fields c)
  end.

Definition isRemovableBlock (e : BlockEntry) : bool :=
  match be_removable e with Err _ => false | Ok b => String.eqb (TrimSpace b) "1" end.

Definition isVirtualBlock (e : BlockEntry) : bool :=
  match be_link e with Err _ => false | Ok target => Contains target "/devices/virtual/" end.

Definition blockSizeBytes (e : BlockEntry) : result Z :=
  match be_size e with
  | Err err => Err err
  | Ok b => match ParseUint (TrimSpace b) with
            | None => Err (Errorf ("strconv.ParseUint: parsing " +:+ Quote (TrimSpace b) +:+ ": invalid syntax"))
            | Some n => Ok (u64 (n * 512))
            end
  end.

Definition hasCapsuleMBR (m : Sys) (devPath : string) : bool :=
  match readMBRDiskSig m devPath with Err _ => false | Ok got => String.eqb got CapsuleMBRSig end.

(** One entry of the scan for target disks. *)
Definition scan_entry (m : Sys) (bootBase : string) (e : BlockEntry) : option TargetDisk :=
  if String.eqb (be_Name e) bootBase then None
  else if is_partition e then None
  else if isVirtualBlock e then None
  else if isRemovableBlock e then None
  else match blockSizeBytes e with
  | Err _ => None
  | Ok size =>
      if (size <? minTargetSizeBytes)%Z then None
      else let path := "/dev/" +:+ be_Name e in Some (mkTarget path size (hasCapsuleMBR m path))
  end.

Definition scanTargetDisks (m : Sys) (skipBootDisk : bool) : list TargetDisk :=
  let bootBase := if skipBootDisk then match BootDisk m with Ok dev => path_Base dev | Err _ => "" end else "" in
  match sys_block m with
  | Err _ => []
  | Ok entries => omap (scan_entry m bootBase) entries
  end.

(** The entry of a block device by name, as the per-device files are read. *)
Definition removable_by_name (m : Sys) (name : string) : bool :=
  match sys_block m with
  | Err _ => false
  | Ok entries => match first_entry (fun e => String.eqb (be_Name e) name) entries with
                  | Some e => isRemovableBlock e | None => false end
  end.

Definition DetectInstallerMode (m : Sys) : bool * list TargetDisk :=
  if cmdlineHasInstallerFlag m then (true, scanTargetDisks m false)
  else match BootDisk m with
  | Err _ => (false, [])
  | Ok bootDev =>
      if negb (removable_by_name m (path_Base bootDev)) then (false, [])
      else match scanTargetDisks m true with
      | [] => (false, [])
      | targets => (true, targets)
      end
  end.

(** ** Properties *)

Lemma first_entry_Some p es e : first_entry p es = Some e -> e ∈ es /\ p e = true.
Proof.
  induction es as [|x es IH]; [done|]. cbn [first_entry]. destruct (p x) eqn:E.
  - intros [= ->]. split; [apply list_elem_of_here|done].
  - intros [? ?]%IH. split; [by apply list_elem_of_further|done].
Qed.
Lemma first_entry_Some_iff p es : is_Some (first_entry p es) <-> exists e, e ∈ es /\ p e = true.
Proof.
  split; [intros [e He]; exists e; by apply first_entry_Some|].
  induction es as [|x es IH]; intros (e & He & Hp); [by apply not_elem_of_nil in He|].
  cbn [first_entry]. destruct (p x) eqn:E; [done|]. apply IH. apply elem_of_cons in He as [->|He]; [congruence|eauto].
Qed.

(** Directory entries have distinct names. *)
Definition block_names (m : Sys) : list string :=
  match sys_block m with Ok es => be_Name <$> es | Err _ => [] end.

(** A partition of a disk with the boot signature, as sysfs shows it. *)
Definition boot_partition (m : Sys) (partNum : Z) (dev : string) : Prop :=
  exists es e n target sig, sys_block m = Ok es /\ e ∈ es /\ dev = "/dev/" +:+ be_Name e /\
    be_partition e = Some (Ok n) /\ TrimSpace n = Itoa partNum /\ be_link e = Ok target /\
    bootDiskSignature m = Ok sig /\ readMBRDiskSig m ("/dev/" +:+ path_Base (path_Dir target)) = Ok sig.

Lemma FindPartition_Ok m partNum dev : FindPartitionByNumber m partNum = Ok dev -> boot_partition m partNum dev.
Proof.
  unfold FindPartitionByNumber. destruct (bootDiskSignature m) as [sig|] eqn:Hs; [|done].
  destruct (sys_block m) as [es|] eqn:Hb; [|done].
  destruct (first_entry _ es) as [e|] eqn:He; [|done]. intros [= <-].
  apply first_entry_Some in He as [Hin Hm]. unfold partition_matches in Hm.
  destruct (be_partition e) as [[n|]|] eqn:Hp; [|done..].
  destruct (String.eqb_spec (TrimSpace n) (Itoa partNum)) as [Hn|]; [|done]. simpl in Hm.
  destruct (be_link e) as [target|] eqn:Hl; [|done]. unfold has_signature in Hm.
  destruct (readMBRDiskSig _ _) as [got|] eqn:Hr; [|done]. apply String.eqb_eq in Hm as ->.
  by exists es, e, n, target, sig.
Qed.

Lemma NoDup_map_inj {A B} (f : A -> B) (l : list A) x y :
  NoDup (f <$> l) -> x ∈ l -> y ∈ l -> f x = f y -> x = y.
Proof.
  induction l as [|z l IH]; intros Hd Hx Hy Hf; [by apply not_elem_of_nil in Hx|].
  rewrite fmap_cons, NoDup_cons in Hd. destruct Hd as [Hn Hd].
  apply elem_of_cons in Hx as [->|Hx]; apply elem_of_cons in Hy as [->|Hy]; [done|..|by apply IH].
  - destruct Hn. rewrite Hf. by apply list_elem_of_fmap_2.
  - destruct Hn. rewrite <- Hf. by apply list_elem_of_fmap_2.
Qed.

Lemma partitions_distinct m n1 n2 d1 d2 :
  NoDup (block_names m) -> FindPartitionByNumber m n1 = Ok d1 -> FindPartitionByNumber m n2 = Ok d2 ->
  d1 = d2 -> n1 = n2.
Proof.
  intros Hd H1%FindPartition_Ok H2%FindPartition_Ok ->.
  destruct H1 as (es & e1 & s1 & _ & _ & Hb & Hin1 & E1 & Hp1 & Ht1 & _).
  destruct H2 as (es' & e2 & s2 & _ & _ & Hb' & Hin2 & E2 & Hp2 & Ht2 & _).
  rewrite Hb in Hb'. injection Hb' as <-. unfold block_names in Hd. rewrite Hb in Hd.
  rewrite E1 in E2. apply app_inj_l in E2.
  pose proof (NoDup_map_inj _ _ _ _ Hd Hin1 Hin2 E2) as <-. rewrite Hp1 in Hp2. injection Hp2 as ->.
  rewrite Ht1 in Ht2. by apply Itoa_inj in Ht2.
Qed.

Lemma path_split_none b : no_char "/" b = true -> path_split b = None.
Proof.
  induction b as [|c b IH]; [done|]. unfold no_char. cbn [all_chars path_split]. intros [Hc Hb]%andb_true_iff.
  rewrite (IH Hb). rewrite Ascii.eqb_sym in Hc. by destruct (Ascii.eqb c "/").
Qed.
Lemma path_split_app a b : no_char "/" b = true -> path_split (a +:+ String "/" b) = Some (a, b).
Proof.
  intros Hb. induction a as [|c a IH].
  - change ("" +:+ String "/" b) with (String "/" b). cbn [path_split]. by rewrite path_split_none.
  - change (String c a +:+ String "/" b) with (String c (a +:+ String "/" b)). cbn [path_split]. by rewrite IH.
Qed.
Lemma path_Base_dev name : no_char "/" name = true -> path_Base ("/dev/" +:+ name) = name.
Proof. intros H. unfold path_Base. change ("/dev/" +:+ name) with ("/dev" +:+ String "/" name). by rewrite path_split_app. Qed.
Lemma path_Dir_Base d b : d <> "" -> no_char "/" b = true -> path_Dir (d +:+ String "/" b) = d.
Proof. intros Hd H. unfold path_Dir. rewrite path_split_app by done. by destruct d. Qed.

(** A whole internal disk of at least 16 GiB. *)
Definition internal_disk (m : Sys) (t : TargetDisk) (name : string) : Prop :=
  exists es e, sys_block m = Ok es /\ e ∈ es /\ be_Name e = name /\ td_Path t = "/dev/" +:+ name /\
    be_partition e = None /\ isVirtualBlock e = false /\ isRemovableBlock e = false /\
    blockSizeBytes e = Ok (td_SizeBytes t) /\ (minTargetSizeBytes <= td_SizeBytes t)%Z.

Lemma scan_spec m skip t : t ∈ scanTargetDisks m skip ->
  exists name, internal_disk m t name /\
    (skip = true -> forall dev, BootDisk m = Ok dev -> name <> path_Base dev).
Proof.
  unfold scanTargetDisks. destruct (sys_block m) as [es|] eqn:Hb; [|by intros ?%not_elem_of_nil].
  intros (e & Hin & He)%list_elem_of_omap. unfold scan_entry in He.
  destruct (String.eqb_spec (be_Name e) (if skip then match BootDisk m with Ok dev => path_Base dev | Err _ => "" end else "")) as [|Hn]; [done|].
  unfold is_partition in He. destruct (be_partition e) eqn:Hp; [done|].
  destruct (isVirtualBlock e) eqn:Hv; [done|]. destruct (isRemovableBlock e) eqn:Hr; [done|].
  destruct (blockSizeBytes e) as [size|] eqn:Hs; [|done].
  destruct (Z.ltb_spec size minTargetSizeBytes); [done|]. injection He as <-.
  exists (be_Name e). split; [by exists es, e|]. intros -> dev Hdev. by rewrite Hdev in Hn.
Qed.

(** The lookups on a concrete machine: booted from the internal disk sda. *)
Module DisksDemo.
Definition sig_sector (b0 b1 b2 b3 : Z) : string :=
  write_at 440 (String (byte b0) (String (byte b1) (String (byte b2) (String (byte b3) ""))))
    (Nat.iter 512 (String (byte 0)) "").
Definition whole (name link size removable : string) : BlockEntry := mkBlock name None (Ok link) (Ok removable) (Ok size).
Definition part (name n link : string) : BlockEntry :=
  mkBlock name (Some (Ok n)) (Ok link) (Err (Sentinel OsNotExist)) (Ok "1000").
Definition pci : string := "/sys/devices/pci0/".
Definition entries : list BlockEntry :=
  [whole "loop0" "/sys/devices/virtual/block/loop0" "99999999" "0";
   whole "sda" (pci +:+ "sda") "62914560" "0";
   part "sda1" ("1" +:+ String NL "") (pci +:+ "sda/sda1"); part "sda2" ("2" +:+ String NL "") (pci +:+ "sda/sda2");
   part "sda3" ("3" +:+ String NL "") (pci +:+ "sda/sda3");
   whole "sdb" (pci +:+ "sdb") "62914560" "1"; part "sdb1" ("1" +:+ String NL "") (pci +:+ "sdb/sdb1")].
Definition installed : Sys := mkSys (Ok "root=PARTUUID=b1a570ff-02 capsule.slot=a quiet") (Ok entries)
  (<["/dev/sda" := sig_sector 0xff 0x70 0xa5 0xb1]> {["/dev/sdb" := sig_sector 0x1e 0xab 0x05 0xb0]}).
(** The same machine booted from the removable sdb. *)
Definition usb_boot : Sys := mkSys (Ok "root=PARTUUID=b005ab1e-02") (Ok entries) (sys_dev installed).
End DisksDemo.

Example installed_lookups :
  BootDisk DisksDemo.installed = Ok "/dev/sda" /\
  FindPartitionByNumber DisksDemo.installed 3 = Ok "/dev/sda3" /\
  detectActiveSlot DisksDemo.installed = "slot_a" /\
  DetectInstallerMode DisksDemo.installed = (false, []) /\
  DetectInstallerMode DisksDemo.usb_boot = (true, [mkTarget "/dev/sda" 32212254720 true]).
Proof. vm_compute. done. Qed.

(** The partition lookup stays on the boot disk.  What
    [FindPartitionByNumber] returns is the device of a partition with the
    number asked for, on a disk that carries the signature the kernel was
    booted with, and different numbers give different devices. *)
Theorem FindPartition_spec m n dev :
  NoDup (block_names m) -> FindPartitionByNumber m n = Ok dev ->
  boot_partition m n dev /\ forall n', FindPartitionByNumber m n' = Ok dev -> n' = n.
Proof.
  intros Hd H. split; [by apply FindPartition_Ok|]. intros n' H'. by eapply partitions_distinct.
Qed.

Lemma FindPartition_spec_witness :
  NoDup (block_names DisksDemo.installed) /\ boot_partition DisksDemo.installed 3 "/dev/sda3".
Proof.
  assert (NoDup (block_names DisksDemo.installed)) as Hd by (apply (bool_decide_unpack _); vm_compute; exact I).
  split; [exact Hd|]. apply (FindPartition_spec DisksDemo.installed 3 "/dev/sda3" Hd). vm_compute. reflexivity.
Defined.

(** The installer offers only disks it may overwrite: every candidate is a
    whole, physical, non-removable disk of at least 16 GiB, and when installer
    mode was inferred from the boot medium it is not the boot disk. *)
Theorem targets_are_internal m t :
  Forall (fun n => no_char "/" n = true) (block_names m) -> t ∈ (DetectInstallerMode m).2 ->
  (exists name, internal_disk m t name) /\
  (cmdlineHasInstallerFlag m = false -> BootDisk m <> Ok (td_Path t)).
Proof.
  intros Hnames Ht. unfold DetectInstallerMode in Ht. destruct (cmdlineHasInstallerFlag m).
  - apply scan_spec in Ht as (name & Hi & _). split; [eauto|done].
  - destruct (BootDisk m) as [dev|] eqn:Hb; [|by apply not_elem_of_nil in Ht].
    destruct (negb _); [by apply not_elem_of_nil in Ht|].
    assert (t ∈ scanTargetDisks m true) as Hin by (by destruct (scanTargetDisks m true)).
    apply scan_spec in Hin as (name & Hi & Hne). split; [eauto|]. intros _ [= ->].
    apply (Hne eq_refl _ Hb). destruct Hi as (es & e & He & Hin & <- & -> & _).
    rewrite path_Base_dev; [done|]. unfold block_names in Hnames. rewrite He, Forall_fmap, Forall_forall in Hnames.
    by apply Hnames.
Qed.

Lemma targets_are_internal_witness :
  mkTarget "/dev/sda" 32212254720 true ∈ (DetectInstallerMode DisksDemo.usb_boot).2 /\
  BootDisk DisksDemo.usb_boot <> Ok "/dev/sda".
Proof.
  assert (mkTarget "/dev/sda" 32212254720 true ∈ (DetectInstallerMode DisksDemo.usb_boot).2) as Hin.
  { assert (DetectInstallerMode DisksDemo.usb_boot = (true, [mkTarget "/dev/sda" 32212254720 true])) as -> by (vm_compute; reflexivity).
    apply list_elem_of_here. }
  split; [exact Hin|].
  apply (targets_are_internal DisksDemo.usb_boot (mkTarget "/dev/sda" 32212254720 true)); [|exact Hin|vm_compute; reflexivity].
  apply (bool_decide_unpack _); vm_compute; exact I.
Defined.
