(* ===== verification/DiskLayout.v ===== *)
(** * The partition layout of an installed disk: core/install/disklayout.go

    The layout computed from the size of the disk, the 512-byte MBR that
    describes it and the copy of partitions from the installer medium.  A
    block device is a byte string of fixed length; calls to the operating
    system can fail as the fault schedule of [Disks] says. *)

From S2P Require Import Prelude GoStrings Base64 Bytes Runtime Disks.

Set Default Goal Selector "!".
Local Open Scope Z_scope.
Local Open Scope go_scope.

Definition sectorSize : Z := 512.
Definition bootPartStart : Z := 2048.
Definition bootPartSizeMiB : Z := 256.
Definition slotPartSizeMiB : Z := 2048.
Definition minPermSizeMiB : Z := 2048.
Definition bootPartSectors : Z := bootPartSizeMiB * 1024 * 2.
Definition slotPartSectors : Z := slotPartSizeMiB * 1024 * 2.
Definition partTypeESP : Z := 0xEF.
Definition partTypeLinux : Z := 0x83.
Definition partTypeLVM : Z := 0x8E.
Definition MBRSigWord : Z := 0xb1a570ff.

Abbreviation u32 := (wrap 32).

(** [uint32] sector numbers. *)
Record Layout := mkLayout {
  BootStart : Z; BootSectors : Z;
  SlotAStart : Z; SlotASectors : Z;
  SlotBStart : Z; SlotBSectors : Z;
  PermStart : Z; PermSectors : Z }.

Definition LayoutForDisk (sizeBytes : Z) : result Layout :=
  let totalSectors := sizeBytes / sectorSize in
  let totalSectors := if 0xFFFFFFFF <? totalSectors then 0xFFFFFFFF else totalSectors in
  let SlotAStart := bootPartStart + bootPartSectors in
  let SlotBStart := u32 (SlotAStart + slotPartSectors) in
  let PermStart := u32 (SlotBStart + slotPartSectors) in
  if totalSectors <=? PermStart then
    Err (Errorf ("target too small for capsule layout (need at least "
      +:+ Itoa (bootPartSizeMiB + 2 * slotPartSizeMiB + minPermSizeMiB + 8) +:+ " MiB)"))
  else
    let PermSectors := u32 (totalSectors - PermStart) in
    if PermSectors <? minPermSizeMiB * 1024 * 2 then
      Err (Errorf ("target too small: " +:+ Itoa (PermSectors / (1024 * 2)) +:+ " MiB PERM would be available, need >= "
        +:+ Itoa minPermSizeMiB +:+ " MiB"))
    else Ok (mkLayout bootPartStart bootPartSectors SlotAStart slotPartSectors SlotBStart slotPartSectors PermStart PermSectors).

(** ** The MBR *)

(** [make([]byte, n)] *)
Fixpoint zeros (n : nat) : string := match n with O => "" | S n => String (byte 0) (zeros n) end.

(** The entry [i] of the partition table: flag, CHS start, type, CHS end, LBA
    start and size. *)
Definition mbr_entry (typ start size : Z) (bootable : bool) : string :=
  String (byte (if bootable then 0x80 else 0))
    (String (byte 0xFE) (String (byte 0xFF) (String (byte 0xFF)
      (String (byte typ) (String (byte 0xFE) (String (byte 0xFF) (String (byte 0xFF)
        (le32 start +:+ le32 size)))))))).

Definition mbr_parts (l : Layout) : list (Z * Z * Z * bool) :=
  [(partTypeESP, BootStart l, BootSectors l, true);
   (partTypeLinux, SlotAStart l, SlotASectors l, false);
   (partTypeLinux, SlotBStart l, SlotBSectors l, false);
   (partTypeLVM, PermStart l, PermSectors l, false)].

Fixpoint put_entries (i : Z) (ps : list (Z * Z * Z * bool)) (mbr : string) : string :=
  match ps with
  | [] => mbr
  | (typ, start, size, bootable) :: ps =>
      put_entries (i + 1) ps (write_at (0x1BE + i * 16) (mbr_entry typ start size bootable) mbr)
  end.

Definition build_mbr (l : Layout) : string :=
  let mbr := write_at 0x1B8 (le32 MBRSigWord) (zeros 512) in
  let mbr := put_entries 0 (mbr_parts l) mbr in
  write_at 0x1FE (String (byte 0x55) (String (byte 0xAA) "")) mbr.

(** ** The devices of the machine *)

Class DiskWorld (W : Type) := {
  dw_faulty :: Faulty W;
  dw_laws :: FaultyLaws W;
  disks : W -> gmap string string;
  set_disks : (gmap string string -> gmap string string) -> W -> W;
  disks_set f w : disks (set_disks f w) = f (disks w);
  disks_faults l w : disks (with_faults l w) = disks w }.

Inductive ReadStatus := ReadFilled | ReadShort | ReadFailed (e : error).

Section devices.
Context {W : Type} `{!DiskWorld W}.

(** Opening a device that is not there fails. *)
Definition open_dev (dev : string) : prog W unit :=
  os_call no_part (fun w => match disks w !! dev with
    | Some _ => (Ok tt, w) | None => (Err (Sentinel OsNotExist), w) end).

(** A write at an offset of an open device: what does not fit is not written
    and is an error; a failing write may have written a prefix. *)
Definition pwrite (dev : string) (off : Z) (b : string) : prog W unit :=
  os_call (fun n => set_disks (alter (fun s => write_at off (take (Z.min (Z.of_nat n) (len s - off)) b) s) dev)) (fun w =>
    match disks w !! dev with
    | None => (Err (Sentinel OsNotExist), w)
    | Some s =>
        if (len s <? off + len b)%Z then
          (Err (Errorf "no space left on device"), set_disks <[dev := write_at off (take (len s - off) b) s]> w)
        else (Ok tt, set_disks <[dev := write_at off b s]> w)
    end).

Definition fsync : prog W unit := os_call no_part (ret tt).

(** A read of up to [want] bytes ([io.ReadFull]): what was read, and whether
    the read was complete, met the end of the device or failed part way. *)
Definition ReadFull (dev : string) (off want : Z) : prog W (string * ReadStatus) := fun w =>
  let data := match disks w !! dev with Some s => read_at off want s | None => "" end in
  match faults_of w with
  | Some (n, e) :: l => (Ok (take (Z.of_nat n) data, ReadFailed e), with_faults l w)
  | fs => (Ok (data, if (len data <? want)%Z then ReadShort else ReadFilled),
           match fs with None :: l => with_faults l w | _ => w end)
  end.

Definition WriteMBR (devPath : string) (layout : Layout) : prog W unit :=
  let mbr := build_mbr layout in
  wrap_err ("open " +:+ devPath +:+ ": ") (open_dev devPath) ;;;
  wrap_err ("write MBR to " +:+ devPath +:+ ": ") (pwrite devPath 0 mbr) ;;;
  wrap_err ("sync MBR on " +:+ devPath +:+ ": ") fsync.

(** ** CopyPartition *)

Definition chunkBytes : Z := 4 * 1024 * 1024.

(** The progress callback works on state of its own. *)
Context (onProgress : Z -> Z -> W -> W).

(** The copy loop; [copied] and [tick] are its variables.  With the fuel
    [CopyPartition] gives it the loop always ends by its own condition. *)
Fixpoint copy_loop (fuel : nat) (srcDev : string) (srcOff : Z) (dstDev : string) (dstOff totalBytes copied tick : Z)
    : prog W Z :=
  if (totalBytes <=? copied)%Z then ret copied
  else match fuel with
  | O => ret copied
  | S fuel =>
      let want := Z.min chunkBytes (totalBytes - copied) in
      rd <- ReadFull srcDev (srcOff + copied) want ;;
      let n := len rd.1 in
      let report := (0 <? n)%Z && (16 * 1024 * 1024 <=? copied + n - tick)%Z in
      when (0 <? n)%Z (wrap_err "write dst: " (pwrite dstDev (dstOff + copied) rd.1)) ;;;
      when report (fun w => (Ok tt, onProgress (copied + n)%Z totalBytes w)) ;;;
      let tick := if report then (copied + n)%Z else tick in
      match rd.2 with
      | ReadShort => ret (copied + n)%Z
      | ReadFailed e => fail (Wrap "read src: " e "")
      | ReadFilled => copy_loop fuel srcDev srcOff dstDev dstOff totalBytes (copied + n)%Z tick
      end
  end.

Definition copy_fuel (totalBytes : Z) : nat := Z.to_nat (totalBytes / chunkBytes + 1).

Definition CopyPartition (srcDev : string) (srcStart : Z) (dstDev : string) (dstStart count : Z) : prog W unit :=
  wrap_err ("open src " +:+ srcDev +:+ ": ") (open_dev srcDev) ;;;
  wrap_err ("open dst " +:+ dstDev +:+ ": ") (open_dev dstDev) ;;;
  let totalBytes := (count * sectorSize)%Z in
  copied <- copy_loop (copy_fuel totalBytes) srcDev (srcStart * sectorSize) dstDev (dstStart * sectorSize) totalBytes 0 0 ;;
  wrap_err "sync dst: " fsync ;;;
  (fun w => (Ok tt, onProgress copied totalBytes w)).
End devices.

(** ** The layout *)

(** The sectors before PERM. *)
Definition permStart : Z := bootPartStart + bootPartSectors + 2 * slotPartSectors.

(** Four partitions, one after the other from sector 2048 on, boot and slots
    of the fixed sizes, PERM up to the last sector an MBR can address. *)
Record layout_ok (sizeBytes : Z) (l : Layout) : Prop := {
  lo_boot : BootStart l = 2048 /\ BootSectors l = bootPartSectors;
  lo_slot_a : SlotAStart l = BootStart l + BootSectors l /\ SlotASectors l = slotPartSectors;
  lo_slot_b : SlotBStart l = SlotAStart l + SlotASectors l /\ SlotBSectors l = slotPartSectors;
  lo_perm : PermStart l = SlotBStart l + SlotBSectors l /\ minPermSizeMiB * 1024 * 2 <= PermSectors l;
  lo_end : PermStart l + PermSectors l = Z.min (sizeBytes / 512) (2 ^ 32 - 1) }.

Lemma LayoutForDisk_cases sizeBytes :
  0 <= sizeBytes < 2 ^ 64 ->
  match LayoutForDisk sizeBytes with
  | Ok l => layout_ok sizeBytes l
  | Err _ => sizeBytes < (permStart + minPermSizeMiB * 1024 * 2) * 512
  end.
Proof.
  intros Hs. unfold LayoutForDisk, permStart, bootPartStart, bootPartSectors, slotPartSectors, bootPartSizeMiB,
    slotPartSizeMiB, minPermSizeMiB, sectorSize. cbv zeta.
  pose proof (Z.div_pos sizeBytes 512 ltac:(lia) ltac:(lia)). pose proof (Z.mul_div_le sizeBytes 512 ltac:(lia)).
  pose proof (Z.mul_succ_div_gt sizeBytes 512 ltac:(lia)).
  set (t := if _ <? _ then _ else _).
  assert (t = Z.min (sizeBytes / 512) (2 ^ 32 - 1)) as Ht by (unfold t; case_match; lia).
  change (u32 (2048 + 256 * 1024 * 2 + 2048 * 1024 * 2)) with 4720640.
  change (u32 (4720640 + 2048 * 1024 * 2)) with 8914944.
  assert (0 <= t < 2 ^ 32) by lia. clearbody t.
  destruct (Z.leb_spec t 8914944); [lia|]. rewrite wrap_small by lia.
  destruct (Z.ltb_spec (t - 8914944) (2048 * 1024 * 2)); [lia|].
  constructor; simpl; unfold bootPartSectors, slotPartSectors, bootPartSizeMiB, slotPartSizeMiB, minPermSizeMiB; lia.
Qed.

(** ** What firmware and kernel read from the first sector *)

Record PartEntry := mkEntry { pe_active : bool; pe_type : Z; pe_start : Z; pe_size : Z }.

Definition ord_at (off : Z) (s : string) : Z := match drop off s with String c _ => ord c | "" => 0 end.
Definition read_entry (mbr : string) (i : Z) : PartEntry :=
  let e := read_at (446 + 16 * i) 16 mbr in
  mkEntry (ord_at 0 e =? 128) (ord_at 4 e) (le_value (read_at 8 4 e)) (le_value (read_at 12 4 e)).
Definition read_table (mbr : string) : list PartEntry := read_entry mbr <$> [0; 1; 2; 3].

Definition u32_layout (l : Layout) : Prop :=
  Forall (fun x => 0 <= x < 2 ^ 32)
    [BootStart l; BootSectors l; SlotAStart l; SlotASectors l; SlotBStart l; SlotBSectors l; PermStart l; PermSectors l].

Lemma layout_ok_u32 sizeBytes l : 0 <= sizeBytes -> layout_ok sizeBytes l -> u32_layout l.
Proof.
  intros Hs [[H1 H2] [H3 H4] [H5 H6] [H7 H8] H9].
  unfold bootPartSectors, slotPartSectors, bootPartSizeMiB, slotPartSizeMiB, minPermSizeMiB in *.
  unfold u32_layout. repeat constructor; try lia.
Qed.

Lemma le32_chars x : exists a b c d, le32 x = String a (String b (String c (String d ""))).
Proof. by do 4 eexists. Qed.

(** An entry is sixteen bytes. *)
Definition entry16 (e : string) : Prop :=
  exists a b c d a' b' c' d' i j k m i' j' k' m', e = String a (String b (String c (String d
    (String a' (String b' (String c' (String d' (String i (String j (String k (String m
    (String i' (String j' (String k' (String m' ""))))))))))))))).
Lemma mbr_entry16 typ start size active : entry16 (mbr_entry typ start size active).
Proof. by repeat eexists. Qed.

(** The sector as it is laid out: the signature, the table at 0x1BE and the
    magic at the end. *)
Lemma build_mbr_fields l :
  let mbr := build_mbr l in
  len mbr = 512 /\ read_at 440 4 mbr = le32 MBRSigWord /\
  read_at 510 2 mbr = String (byte 0x55) (String (byte 0xAA) "") /\
  read_at 446 16 mbr = mbr_entry partTypeESP (BootStart l) (BootSectors l) true /\
  read_at 462 16 mbr = mbr_entry partTypeLinux (SlotAStart l) (SlotASectors l) false /\
  read_at 478 16 mbr = mbr_entry partTypeLinux (SlotBStart l) (SlotBSectors l) false /\
  read_at 494 16 mbr = mbr_entry partTypeLVM (PermStart l) (PermSectors l) false.
Proof.
  unfold build_mbr, mbr_parts. cbv zeta. cbn [put_entries].
  pose proof (mbr_entry16 partTypeESP (BootStart l) (BootSectors l) true) as H0.
  pose proof (mbr_entry16 partTypeLinux (SlotAStart l) (SlotASectors l) false) as H1.
  pose proof (mbr_entry16 partTypeLinux (SlotBStart l) (SlotBSectors l) false) as H2.
  pose proof (mbr_entry16 partTypeLVM (PermStart l) (PermSectors l) false) as H3.
  generalize dependent (mbr_entry partTypeESP (BootStart l) (BootSectors l) true); intros e0 H0.
  generalize dependent (mbr_entry partTypeLinux (SlotAStart l) (SlotASectors l) false); intros e1 H1.
  generalize dependent (mbr_entry partTypeLinux (SlotBStart l) (SlotBSectors l) false); intros e2 H2.
  generalize dependent (mbr_entry partTypeLVM (PermStart l) (PermSectors l) false); intros e3 H3.
  destruct H0 as (? & ? & ? & ? & ? & ? & ? & ? & ? & ? & ? & ? & ? & ? & ? & ? & ->).
  destruct H1 as (? & ? & ? & ? & ? & ? & ? & ? & ? & ? & ? & ? & ? & ? & ? & ? & ->).
  destruct H2 as (? & ? & ? & ? & ? & ? & ? & ? & ? & ? & ? & ? & ? & ? & ? & ? & ->).
  destruct H3 as (? & ? & ? & ? & ? & ? & ? & ? & ? & ? & ? & ? & ? & ? & ? & ? & ->).
  split_and!; vm_compute; reflexivity.
Qed.

Lemma read_mbr_entry typ start size active mbr i :
  0 <= typ < 256 -> 0 <= start < 2 ^ 32 -> 0 <= size < 2 ^ 32 ->
  read_at (446 + 16 * i) 16 mbr = mbr_entry typ start size active ->
  read_entry mbr i = mkEntry active typ start size.
Proof.
  intros Ht Hs Hn H. unfold read_entry. rewrite H.
  assert (ord_at 4 (mbr_entry typ start size active) = typ) as -> by (exact (ord_byte typ Ht)).
  assert (read_at 8 4 (mbr_entry typ start size active) = le32 start) as -> by reflexivity.
  assert (read_at 12 4 (mbr_entry typ start size active) = le32 size) as -> by reflexivity.
  rewrite !le32_value by done. f_equal. by destruct active.
Qed.

(** The table read back. *)
Lemma build_mbr_table l : u32_layout l ->
  read_table (build_mbr l) =
    [mkEntry true partTypeESP (BootStart l) (BootSectors l); mkEntry false partTypeLinux (SlotAStart l) (SlotASectors l);
     mkEntry false partTypeLinux (SlotBStart l) (SlotBSectors l); mkEntry false partTypeLVM (PermStart l) (PermSectors l)].
Proof.
  intros Hl. destruct (build_mbr_fields l) as (_ & _ & _ & H0 & H1 & H2 & H3).
  unfold u32_layout in Hl. rewrite !Forall_cons in Hl. destruct Hl as (? & ? & ? & ? & ? & ? & ? & ? & _).
  unfold read_table. cbn [fmap list_fmap]. generalize dependent (build_mbr l). intros mbr H0 H1 H2 H3.
  apply (read_mbr_entry _ _ _ _ mbr 0) in H0 as ->; [|done..].
  apply (read_mbr_entry _ _ _ _ mbr 1) in H1 as ->; [|done..].
  apply (read_mbr_entry _ _ _ _ mbr 2) in H2 as ->; [|done..].
  apply (read_mbr_entry _ _ _ _ mbr 3) in H3 as ->; [|done..]. done.
Qed.

(** Only the first 512 bytes count. *)
Lemma read_at_write_at off n b s : 0 <= off -> 0 <= n -> off + n <= len b -> len b <= len s ->
  read_at off n (write_at 0 b s) = read_at off n b.
Proof.
  intros Ho Hn Hb Hs. unfold write_at, read_at. rewrite (take_nonpos 0) by lia. cbn [String.app].
  change ("" +:+ (b +:+ drop (0 + len b) s)) with (b +:+ drop (0 + len b) s).
  rewrite drop_app_l by lia. apply take_app_l. rewrite len_drop; lia.
Qed.

(** ** Writes to the devices *)

Section device_lemmas.
Context {W : Type} `{!DiskWorld W}.
Implicit Types w : W.

(** Everything but the bytes [lo, hi) of the device [dev]. *)
Definition outside (dev : string) (lo hi : Z) w : gmap string string * option (Z * string * string) :=
  (delete dev (disks w), (fun s => (len s, take lo s, drop hi s)) <$> disks w !! dev).

Lemma write_outside lo hi off b s :
  0 <= lo <= off -> off + len b <= hi -> len b <= Z.max 0 (len s - off) ->
  len (write_at off b s) = len s /\ take lo (write_at off b s) = take lo s /\ drop hi (write_at off b s) = drop hi s.
Proof.
  intros Ho Hh Hb. destruct (decide (len s < off)).
  - assert (b = "") as ->. { apply len_empty. pose proof (len_nonneg b). lia. }
    rewrite write_at_nil by lia. done.
  - pose proof (len_nonneg b). rewrite len_write_at, take_write_at, drop_write_at by lia. done.
Qed.

Lemma keeps_open_dev {B} (f : W -> B) dev : (forall l w, f (with_faults l w) = f w) -> keeps f (open_dev dev).
Proof. intros Hl. apply keeps_pure_call; [done|]. intros w. by destruct (disks w !! dev). Qed.
Lemma keeps_fsync {B} (f : W -> B) : (forall l w, f (with_faults l w) = f w) -> keeps f fsync.
Proof. intros Hl. by apply keeps_pure_call. Qed.
Lemma keeps_ReadFull {B} (f : W -> B) dev off want :
  (forall l w, f (with_faults l w) = f w) -> keeps f (ReadFull dev off want).
Proof. intros Hl w. unfold ReadFull. by destruct (faults_of w) as [|[[n e]|] l]; simpl. Qed.

Lemma outside_faults dev lo hi l w : outside dev lo hi (with_faults l w) = outside dev lo hi w.
Proof. unfold outside. by rewrite disks_faults. Qed.

Lemma len_take_le n s : len (take n s) <= Z.max 0 n /\ len (take n s) <= len s.
Proof.
  pose proof (len_nonneg s). destruct (decide (n <= 0)).
  - rewrite take_nonpos by done. change (len "") with 0. lia.
  - rewrite len_take by lia. lia.
Qed.

Lemma keeps_pwrite dev off b lo hi :
  0 <= lo <= off -> off + len b <= hi -> keeps (outside dev lo hi) (pwrite dev off b).
Proof.
  intros Ho Hh. apply keeps_os_call; [apply outside_faults|..].
  - intros n w. unfold outside. rewrite disks_set, lookup_alter_eq.
    assert (delete dev (alter (fun s => write_at off (take (Z.min (Z.of_nat n) (len s - off)) b) s) dev (disks w))
      = delete dev (disks w)) as ->.
    { apply map_eq. intros i. destruct (decide (i = dev)) as [->|]; [by rewrite !lookup_delete_eq|].
      by rewrite !lookup_delete_ne, lookup_alter_ne. }
    destruct (disks w !! dev) as [s|]; [|done]. simpl.
    pose proof (len_take_le (Z.min (Z.of_nat n) (len s - off)) b).
    destruct (write_outside lo hi off (take (Z.min (Z.of_nat n) (len s - off)) b) s) as (-> & -> & ->); [lia..|done].
  - intros w. unfold outside. destruct (disks w !! dev) as [s|] eqn:E; [|cbn; by rewrite E].
    destruct (Z.ltb_spec (len s) (off + len b)) as [Hl|Hl]; simpl;
      rewrite disks_set, delete_insert_eq, lookup_insert_eq; simpl.
    + pose proof (len_take_le (len s - off) b).
      destruct (write_outside lo hi off (take (len s - off) b) s) as (-> & -> & ->); [lia..|done].
    + destruct (write_outside lo hi off b s) as (-> & -> & ->); [lia..|done].
Qed.

Lemma open_dev_Ok dev w w' : open_dev dev w = (Ok tt, w') -> is_Some (disks w !! dev) /\ disks w' = disks w.
Proof.
  intros [l H]%os_call_Ok. rewrite disks_faults in H. destruct (disks w !! dev) eqn:E; [|done].
  injection H as <-. rewrite disks_faults. by eauto.
Qed.
Lemma pwrite_Ok dev off b w w' : pwrite dev off b w = (Ok tt, w') ->
  exists s, disks w !! dev = Some s /\ off + len b <= len s /\ disks w' = <[dev := write_at off b s]> (disks w).
Proof.
  intros [l H]%os_call_Ok. rewrite disks_faults in H. destruct (disks w !! dev) as [s|] eqn:E; [|done].
  destruct (Z.ltb_spec (len s) (off + len b)); [done|]. injection H as <-. rewrite disks_set, disks_faults. eauto.
Qed.
Lemma fsync_Ok w w' : fsync w = (Ok tt, w') -> disks w' = disks w.
Proof. intros [l H]%os_call_Ok. injection H as <-. by rewrite disks_faults. Qed.
(** ** WriteMBR *)

(** Only the first sector of the target is written, whatever happens. *)
Lemma keeps_WriteMBR dev l : keeps (outside dev 0 512) (WriteMBR dev l).
Proof.
  destruct (build_mbr_fields l) as (Hn & _). unfold WriteMBR. go_keeps.
  - apply keeps_open_dev, outside_faults.
  - apply keeps_pwrite; lia.
  - apply keeps_fsync, outside_faults.
Qed.

Lemma WriteMBR_Ok dev l w w' : WriteMBR dev l w = (Ok tt, w') ->
  exists s, disks w !! dev = Some s /\ 512 <= len s /\ disks w' = <[dev := write_at 0 (build_mbr l) s]> (disks w).
Proof.
  destruct (build_mbr_fields l) as (Hn & _). unfold WriteMBR. cbv zeta.
  intros ([] & w1 & H1 & H)%bind_Ok_inv. apply bind_Ok_inv in H as ([] & w2 & H2 & H3).
  apply wrap_err_Ok, open_dev_Ok in H1 as [_ E1]. apply wrap_err_Ok, pwrite_Ok in H2 as (s & Hs & Hl & E2).
  apply wrap_err_Ok, fsync_Ok in H3 as E3. rewrite E1 in Hs. exists s. split; [done|]. split; [lia|].
  by rewrite E3, E2, E1.
Qed.
End device_lemmas.

(** A disk written by [WriteMBR] is recognised as a Capsule install. *)
Lemma mbr_signature m dev l s :
  512 <= len s -> sys_dev m !! dev = Some (write_at 0 (build_mbr l) s) -> readMBRDiskSig m dev = Ok CapsuleMBRSig.
Proof.
  intros Hl Hd. destruct (build_mbr_fields l) as (Hn & Hsig & _). unfold readMBRDiskSig. rewrite Hd.
  rewrite read_at_write_at, Hsig by lia. reflexivity.
Qed.

(** ** CopyPartition *)

Lemma read_at_app o a b s : 0 <= o -> 0 <= a -> 0 <= b -> a <= len s - o ->
  read_at o a s +:+ read_at (o + a) b s = read_at o (a + b) s.
Proof.
  intros Ho Ha Hb Hs. unfold read_at. rewrite (Z.add_comm o a), <- drop_drop by lia.
  set (t := drop o s). assert (a <= len t) as Ht by (unfold t; rewrite len_drop; lia).
  rewrite <- (take_drop a t) at 3. assert (len (take a t) = a) as Hl by (rewrite len_take; lia).
  rewrite take_app_r by lia. rewrite Hl. do 2 f_equal. lia.
Qed.
Lemma len_read_at o n s : 0 <= o -> 0 <= n -> len (read_at o n s) = Z.min n (Z.max 0 (len s - o)).
Proof. intros Ho Hn. unfold read_at. rewrite len_take, len_drop by lia. lia. Qed.

Lemma read_at_len o n s : 0 <= n -> read_at o (len (read_at o n s)) s = read_at o n s.
Proof.
  intros Hn. unfold read_at. set (t := drop o s). rewrite len_take by done. destruct (Z.min_spec n (len t)) as [[? ->]|[? ->]]; [done|].
  by rewrite !take_all by lia.
Qed.

Section copy.
Context {W : Type} `{!DiskWorld W} (onProgress : Z -> Z -> W -> W).
Context (onProgress_disks : forall a b w, disks (onProgress a b w) = disks w).
Implicit Types w : W.

(** What a read delivers, whatever its status. *)
Lemma ReadFull_spec src off want w : 0 <= want ->
  exists rd, ReadFull src off want w = (Ok rd, (ReadFull src off want w).2) /\
    disks (ReadFull src off want w).2 = disks w /\
    match rd.2 with
    | ReadFilled => len rd.1 = want
    | ReadShort => len rd.1 < want
    | ReadFailed _ => len rd.1 <= want
    end /\
    forall s, disks w !! src = Some s -> (forall e, rd.2 <> ReadFailed e) -> rd.1 = read_at off want s.
Proof.
  intros Hw. unfold ReadFull. set (data := match disks w !! src with Some _ => _ | None => _ end).
  assert (len data <= want) as Hd.
  { unfold data. destruct (disks w !! src); [|change (len "") with 0; lia].
    unfold read_at. pose proof (len_take_le want (drop off s)). lia. }
  assert (forall s, disks w !! src = Some s -> data = read_at off want s) as Hs by (unfold data; by intros s ->).
  destruct (faults_of w) as [|[[n e]|] l]; simpl; eexists; (split; [reflexivity|]); simpl; rewrite ?disks_faults.
  2: { split; [done|]. pose proof (len_take_le (Z.of_nat n) data). split; [lia|]. intros s _ Hn. by destruct (Hn e). }
  all: destruct (Z.ltb_spec (len data) want); split_and!; try (done || lia); auto.
Qed.

Lemma keeps_progress dst lo hi a b :
  keeps (outside dst lo hi) (fun w => (Ok tt, onProgress a b w)).
Proof. intros w. unfold outside. simpl. by rewrite onProgress_disks. Qed.

(** The copy writes only inside the target range, whatever happens. *)
Lemma keeps_copy_loop fuel src so dst do_ total copied tick :
  0 <= do_ -> 0 <= copied ->
  keeps (outside dst do_ (do_ + total)) (copy_loop (W:=W) onProgress fuel src so dst do_ total copied tick).
Proof.
  intros Hd. revert copied tick. induction fuel as [|fuel IH]; intros copied tick Hc w; cbn [copy_loop].
  all: destruct (Z.leb_spec total copied); [done|].
  { done. }
  set (want := Z.min chunkBytes (total - copied)).
  assert (0 <= want <= total - copied) as Hw by (unfold want, chunkBytes; lia).
  destruct (ReadFull_spec src (so + copied) want w) as (rd & HR & Hdk & Hn & _); [lia|].
  unfold bind at 1. rewrite HR. set (w1 := (ReadFull src (so + copied) want w).2) in *.
  assert (len rd.1 <= want) as Hle by (destruct rd.2; lia). pose proof (len_nonneg rd.1).
  assert (outside dst do_ (do_ + total) w = outside dst do_ (do_ + total) w1) as -> by (unfold outside; by rewrite Hdk).
  match goal with |- _ (?m w1).2 = _ => enough (keeps (outside dst do_ (do_ + total)) m) as Hk by apply Hk end.
  go_keeps; [apply keeps_pwrite; lia|apply keeps_progress|apply IH; lia].
Qed.

Lemma when_progress_Ok (b : bool) x y w w' :
  when b (fun w => (Ok tt, onProgress x y w)) w = (Ok tt, w') -> disks w' = disks w.
Proof. destruct b; intros [= <-]; [apply onProgress_disks|done]. Qed.

(** A completed copy: with enough fuel, the whole range. *)
Lemma copy_loop_Ok fuel src so dst do_ total copied tick w n w' s d :
  src <> dst -> 0 <= so -> 0 <= do_ -> 0 <= copied <= Z.max 0 (len s - so) -> copied <= total ->
  total - copied <= Z.of_nat fuel * chunkBytes -> (copied = 0 \/ do_ + copied <= len d) ->
  disks w !! src = Some s -> disks w !! dst = Some (write_at do_ (read_at so copied s) d) ->
  copy_loop (W:=W) onProgress fuel src so dst do_ total copied tick w = (Ok n, w') ->
  n = Z.min total (Z.max 0 (len s - so)) /\ disks w' = <[dst := write_at do_ (read_at so n s) d]> (disks w).
Proof.
  intros Hne Hso Hdo. revert copied tick w.
  induction fuel as [|fuel IH]; intros copied tick w Hc Ht Hf Hl Hs Hd H; cbn [copy_loop] in H.
  all: destruct (Z.leb_spec total copied) as [Htc|Htc]; [injection H as <- <-; split; [lia|by rewrite insert_id]|].
  { lia. }
  set (want := Z.min chunkBytes (total - copied)) in *.
  assert (0 <= want <= total - copied /\ 0 < want) as [Hw Hw'] by (unfold want, chunkBytes; lia).
  destruct (ReadFull_spec src (so + copied) want w) as (rd & HR & Hdk & Hn & Hb); [lia|].
  unfold bind at 1 in H. rewrite HR in H. set (w1 := (ReadFull src (so + copied) want w).2) in *.
  pose proof (len_nonneg rd.1). apply bind_Ok_inv in H as ([] & w2 & Hp & H).
  apply bind_Ok_inv in H as ([] & w3 & Hpr%when_progress_Ok & H).
  assert (forall e, rd.2 <> ReadFailed e) as Hnf by (intros e E; by rewrite E in H).
  specialize (Hb s Hs Hnf). pose proof (len_read_at (so + copied) want s ltac:(lia) ltac:(lia)) as Hlen. rewrite <- Hb in Hlen.
  assert ((copied + len rd.1 = 0 \/ do_ + (copied + len rd.1) <= len d) /\
    disks w2 = <[dst := write_at do_ (read_at so (copied + len rd.1) s) d]> (disks w)) as [Hl2 Hd2].
  { destruct (Z.ltb_spec 0 (len rd.1)); simpl in Hp.
    - apply wrap_err_Ok, pwrite_Ok in Hp as (s' & Hs' & Hfit & ->). rewrite Hdk, Hd in Hs'. injection Hs' as <-.
      assert (len (read_at so copied s) = copied) as Hrc by (rewrite len_read_at; lia).
      assert (len (write_at do_ (read_at so copied s) d) = len d) as Elen.
      { destruct Hl as [->|Hl]; [|apply len_write_at; lia]. unfold read_at. by rewrite take_nonpos, write_at_nil by lia. }
      rewrite Elen in Hfit. split; [lia|].
      rewrite <- (read_at_app so copied (len rd.1) s) by lia.
      assert (read_at (so + copied) (len rd.1) s = rd.1) as Er by (rewrite Hb; apply read_at_len; lia).
      rewrite Er. rewrite <- (write_at_app do_ (read_at so copied s) rd.1 d) by lia. rewrite Hrc, Hdk. done.
    - injection Hp as <-. assert (len rd.1 = 0) as -> by lia. rewrite Z.add_0_r. split; [done|]. by rewrite Hdk, insert_id. }
  rewrite <- Hpr in Hd2. destruct rd.2 eqn:E2; [..|by destruct (Hnf e)].
  - apply IH in H; [|unfold want, chunkBytes in *; try lia..].
    + destruct H as (-> & ->). split; [done|]. by rewrite Hd2, insert_insert_eq.
    + by rewrite Hd2, lookup_insert_ne.
    + by rewrite Hd2, lookup_insert_eq.
  - injection H as <- <-. split; [lia|done].
Qed.

Lemma keeps_CopyPartition src srcStart dst dstStart count :
  0 <= dstStart ->
  keeps (outside dst (dstStart * 512) (dstStart * 512 + count * 512)) (CopyPartition onProgress src srcStart dst dstStart count).
Proof.
  intros Hd. unfold CopyPartition, sectorSize. cbv zeta. go_keeps.
  1,2: apply keeps_open_dev, outside_faults. 2: apply keeps_fsync, outside_faults.
  - apply keeps_copy_loop; lia.
  - apply keeps_progress.
Qed.

Lemma CopyPartition_Ok src srcStart dst dstStart count w w' :
  src <> dst -> 0 <= srcStart -> 0 <= dstStart -> 0 <= count ->
  CopyPartition onProgress src srcStart dst dstStart count w = (Ok tt, w') ->
  exists s d, disks w !! src = Some s /\ disks w !! dst = Some d /\
    disks w' = <[dst := write_at (dstStart * 512) (read_at (srcStart * 512) (count * 512) s) d]> (disks w).
Proof.
  intros Hne Hs0 Hd0 Hc H. unfold CopyPartition in H. cbv zeta in H. change sectorSize with 512 in H.
  apply bind_Ok_inv in H as ([] & w1 & H1 & H). apply wrap_err_Ok, open_dev_Ok in H1 as [[s Hs] E1].
  apply bind_Ok_inv in H as ([] & w2 & H2 & H). apply wrap_err_Ok, open_dev_Ok in H2 as [[d Hd] E2].
  apply bind_Ok_inv in H as (n & w3 & H3 & H). rewrite E1 in *.
  apply (copy_loop_Ok _ _ _ _ _ _ _ _ _ _ _ s d) in H3; try done; try lia.
  - destruct H3 as (Hn & E3). apply bind_Ok_inv in H as ([] & w4 & H4 & H). apply wrap_err_Ok, fsync_Ok in H4.
    injection H as <-. exists s, d. split; [done|]. split; [done|]. rewrite onProgress_disks, H4, E3, E2.
    rewrite <- (read_at_len (srcStart * 512) (count * 512) s) by lia. by rewrite len_read_at, <- Hn by lia.
  - unfold copy_fuel, chunkBytes.
    pose proof (Z.mul_succ_div_gt (count * 512) (4 * 1024 * 1024) ltac:(lia)).
    pose proof (Z.div_pos (count * 512) (4 * 1024 * 1024) ltac:(lia) ltac:(lia)). lia.
  - by rewrite E2.
  - rewrite E2, Hd. f_equal. unfold read_at. rewrite take_nonpos by lia. symmetry. apply write_at_nil. lia.
Qed.
End copy.

(** What neither faults nor device contents nor progress touch is kept. *)
Section others.
Context {W : Type} `{!DiskWorld W} (inv : W -> Prop).
Context (inv_faults : forall l w, inv w -> inv (with_faults l w)) (inv_disks : forall g w, inv w -> inv (set_disks g w)).

Lemma preserves_open_dev dev : preserves inv (open_dev dev).
Proof. apply preserves_os_call; [done|done|]. intros w Hw. by destruct (disks w !! dev). Qed.
Lemma preserves_fsync : preserves inv fsync.
Proof. apply preserves_os_call; [done|done|apply preserves_ret]. Qed.
Lemma preserves_ReadFull dev off want : preserves inv (ReadFull dev off want).
Proof. intros w Hw. unfold ReadFull. destruct (faults_of w) as [|[[n e]|] l]; simpl; auto. Qed.
Lemma preserves_pwrite dev off b : preserves inv (pwrite dev off b).
Proof.
  apply preserves_os_call; [done|by intros; apply inv_disks|]. intros w Hw.
  destruct (disks w !! dev); [|done]. destruct (_ <? _); by apply inv_disks.
Qed.
Lemma preserves_WriteMBR dev l : preserves inv (WriteMBR dev l).
Proof.
  unfold WriteMBR. cbv zeta. go_preserves; [apply preserves_open_dev|apply preserves_pwrite|apply preserves_fsync].
Qed.

Context (onProgress : Z -> Z -> W -> W) (inv_progress : forall a b w, inv w -> inv (onProgress a b w)).

Lemma preserves_progress a b : preserves inv (fun w => (Ok tt, onProgress a b w)).
Proof. intros w. apply inv_progress. Qed.
Lemma preserves_copy_loop fuel src so dst do_ total copied tick :
  preserves inv (copy_loop (W:=W) onProgress fuel src so dst do_ total copied tick).
Proof.
  revert copied tick. induction fuel as [|fuel IH]; intros copied tick; cbn [copy_loop].
  all: destruct (total <=? copied); [apply preserves_ret|].
  { apply preserves_ret. }
  cbv zeta. go_preserves; first [apply preserves_ReadFull|apply preserves_pwrite|apply preserves_progress|apply IH].
Qed.
Lemma preserves_CopyPartition src srcStart dst dstStart count :
  preserves inv (CopyPartition onProgress src srcStart dst dstStart count).
Proof.
  unfold CopyPartition. cbv zeta. go_preserves; try apply preserves_open_dev.
  - apply preserves_copy_loop.
  - apply preserves_fsync.
  - apply preserves_progress.
Qed.
End others.

(** ** The properties of the layout and of the writes *)

(** The layout of every disk an MBR can address.  [LayoutForDisk] succeeds
    exactly on disks with room for boot, two slots and the smallest PERM; the
    four partitions then follow each other without overlap from sector 2048
    on, have the fixed sizes, PERM takes the rest, nothing lies past the end of
    the disk and every sector number fits its 32-bit field. *)
Theorem LayoutForDisk_spec sizeBytes :
  0 <= sizeBytes < 2 ^ 64 ->
  (is_ok (LayoutForDisk sizeBytes) = true <-> (permStart + minPermSizeMiB * 1024 * 2) * 512 <= sizeBytes) /\
  forall l, LayoutForDisk sizeBytes = Ok l ->
    layout_ok sizeBytes l /\ u32_layout l /\ (PermStart l + PermSectors l) * 512 <= sizeBytes.
Proof.
  intros Hs. pose proof (LayoutForDisk_cases sizeBytes Hs) as H. pose proof (Z.mul_div_le sizeBytes 512 ltac:(lia)) as Hdiv.
  destruct (LayoutForDisk sizeBytes) as [l|e].
  - split; [|intros l' [= <-]; split; [done|]; split; [apply (layout_ok_u32 sizeBytes); [lia|done]|destruct H; lia]].
    split; [intros _|done]. destruct H as [[? ?] [? ?] [? ?] [? ?] ?]. unfold permStart, bootPartStart. lia.
  - split; [|done]. split; [done|]. lia.
Qed.

Section theorems.
Context {W : Type} `{!DiskWorld W}.
Implicit Types w : W.

Lemma mbr_reads_back dev sizeBytes l s (m : gmap string string) :
  0 <= sizeBytes < 2 ^ 64 -> LayoutForDisk sizeBytes = Ok l -> 512 <= len s ->
  m !! dev = Some (write_at 0 (build_mbr l) s) ->
  read_table (write_at 0 (build_mbr l) s) =
    [mkEntry true partTypeESP (BootStart l) (BootSectors l);
     mkEntry false partTypeLinux (SlotAStart l) (SlotASectors l);
     mkEntry false partTypeLinux (SlotBStart l) (SlotBSectors l);
     mkEntry false partTypeLVM (PermStart l) (PermSectors l)] /\
  forall cmdline block, hasCapsuleMBR (mkSys cmdline block m) dev = true.
Proof.
  intros Hs Hl Hlen Hd. destruct (build_mbr_fields l) as (Hm & _). split.
  - pose proof (LayoutForDisk_cases sizeBytes Hs) as Hok. rewrite Hl in Hok.
    rewrite <- (build_mbr_table l) by (apply (layout_ok_u32 sizeBytes); [lia|done]).
    unfold read_table, read_entry. cbn [fmap list_fmap].
    rewrite !read_at_write_at by lia. done.
  - intros c b. unfold hasCapsuleMBR. by rewrite (mbr_signature _ dev l s).
Qed.

(** What [WriteMBR] writes is what firmware, kernel and capsuled read.
    Whatever happens only the first sector of the target changes; on success
    its partition table reads back as the layout, with the boot partition
    active, and the disk carries the Capsule signature. *)
Theorem WriteMBR_readback dev sizeBytes l w r w' :
  0 <= sizeBytes < 2 ^ 64 -> LayoutForDisk sizeBytes = Ok l -> WriteMBR dev l w = (r, w') ->
  outside dev 0 512 w' = outside dev 0 512 w /\
  (r = Ok tt -> exists s', disks w' !! dev = Some s' /\
    read_table s' = [mkEntry true partTypeESP (BootStart l) (BootSectors l);
                     mkEntry false partTypeLinux (SlotAStart l) (SlotASectors l);
                     mkEntry false partTypeLinux (SlotBStart l) (SlotBSectors l);
                     mkEntry false partTypeLVM (PermStart l) (PermSectors l)] /\
    forall cmdline block, hasCapsuleMBR (mkSys cmdline block (disks w')) dev = true).
Proof.
  intros Hs Hl H. split; [by eapply keeps_run; [apply keeps_WriteMBR|]|]. intros ->.
  apply WriteMBR_Ok in H as (s & Hd & Hlen & ->). rewrite lookup_insert_eq. eexists. split; [done|].
  apply (mbr_reads_back dev sizeBytes l s _ Hs Hl Hlen). apply lookup_insert_eq.
Qed.

(** C22: [CopyPartition] copies one partition and nothing else.  Whatever
    happens only the bytes of the target range change; when it succeeds they
    are the bytes of the source range, all of it or as far as the source
    reaches, and every other device is as it was. *)
Theorem CopyPartition_spec (onProgress : Z -> Z -> W -> W) src srcStart dst dstStart count w r w' :
  (forall a b w, disks (onProgress a b w) = disks w) ->
  src <> dst -> 0 <= srcStart -> 0 <= dstStart -> 0 <= count ->
  CopyPartition onProgress src srcStart dst dstStart count w = (r, w') ->
  outside dst (dstStart * 512) (dstStart * 512 + count * 512) w' = outside dst (dstStart * 512) (dstStart * 512 + count * 512) w /\
  (r = Ok tt -> exists s d, disks w !! src = Some s /\ disks w !! dst = Some d /\
     disks w' = <[dst := write_at (dstStart * 512) (read_at (srcStart * 512) (count * 512) s) d]> (disks w)).
Proof.
  intros Hp Hne Hs0 Hd0 Hc H. split; [by eapply keeps_run; [apply keeps_CopyPartition|exact H]|].
  intros ->. by eapply CopyPartition_Ok.
Qed.
End theorems.

(** ** A machine with two disks *)

Record RefDisks := mkRefDisks { rd_disks : gmap string string; rd_faults : list fault }.
#[export] Instance RefDisks_faulty : Faulty RefDisks :=
  {| faults_of := rd_faults; with_faults l w := mkRefDisks (rd_disks w) l |}.
#[export] Instance RefDisks_laws : FaultyLaws RefDisks.
Proof. split; [done|by intros []]. Qed.
#[export] Instance RefDisks_world : DiskWorld RefDisks.
Proof.
  refine {| disks := rd_disks; set_disks f w := mkRefDisks (f (rd_disks w)) (rd_faults w) |}; done.
Defined.

Module LayoutDemo.
Definition two_disks : RefDisks := mkRefDisks (<["/dev/sda" := "usb stick"]> {["/dev/sdb" := zeros 600]}) [].
Definition size : Z := 32 * 1024 * 1024 * 1024.
Definition silent (done total : Z) (w : RefDisks) : RefDisks := w.
Definition layout : Layout := match LayoutForDisk size with Ok l => l | Err _ => mkLayout 0 0 0 0 0 0 0 0 end.
(** The first write fails after three bytes. *)
Definition flaky : RefDisks := mkRefDisks (rd_disks two_disks) [None; None; None; Some (3%nat, Errorf "I/O error")].
End LayoutDemo.

Lemma LayoutForDisk_spec_witness :
  0 <= LayoutDemo.size < 2 ^ 64 /\ LayoutForDisk LayoutDemo.size = Ok LayoutDemo.layout /\
  (PermStart LayoutDemo.layout + PermSectors LayoutDemo.layout) * 512 <= LayoutDemo.size.
Proof.
  assert (0 <= LayoutDemo.size < 2 ^ 64) as Hs by (unfold LayoutDemo.size; lia).
  split; [done|]. split; [reflexivity|].
  apply (LayoutForDisk_spec LayoutDemo.size Hs). reflexivity.
Defined.

Lemma WriteMBR_readback_witness :
  let w' := (WriteMBR "/dev/sdb" LayoutDemo.layout LayoutDemo.two_disks).2 in
  disks w' !! "/dev/sda" = Some "usb stick" /\
  exists s', disks w' !! "/dev/sdb" = Some s' /\ List.length (read_table s') = 4%nat.
Proof.
  intros w'. assert (WriteMBR "/dev/sdb" LayoutDemo.layout LayoutDemo.two_disks = (Ok tt, w')) as H by (vm_compute; reflexivity).
  split; [vm_compute; reflexivity|].
  destruct (WriteMBR_readback "/dev/sdb" LayoutDemo.size LayoutDemo.layout LayoutDemo.two_disks (Ok tt) w') as [_ Ht];
    [unfold LayoutDemo.size; lia|reflexivity|exact H|].
  destruct (Ht eq_refl) as (s' & Hs & Htab & _). exists s'. split; [exact Hs|]. rewrite Htab. reflexivity.
Defined.

Lemma CopyPartition_spec_witness :
  let w' := (CopyPartition LayoutDemo.silent "/dev/sda" 0 "/dev/sdb" 1 1 LayoutDemo.two_disks).2 in
  outside "/dev/sdb" 512 1024 w' = outside "/dev/sdb" 512 1024 LayoutDemo.two_disks /\
  (exists d, disks w' !! "/dev/sdb" = Some d /\ read_at 512 9 d = "usb stick") /\
  is_ok (CopyPartition LayoutDemo.silent "/dev/sda" 0 "/dev/sdb" 1 1 LayoutDemo.flaky).1 = false.
Proof.
  split; [|split; [eexists; split; vm_compute; reflexivity|vm_compute; reflexivity]].
  apply (CopyPartition_spec LayoutDemo.silent "/dev/sda" 0 "/dev/sdb" 1 1 LayoutDemo.two_disks (Ok tt));
    [done|discriminate|lia..|vm_compute; reflexivity].
Defined.
