(* ===== verification/Auth.v ===== *)
(** * Tokens and the authorization gate: package auth

    jwt.go (Mint, Verify, splitN), jti_cache.go, interceptor.go, claim.go and
    fingerprint.go.  The Ed25519 and SHA-256 primitives and the JSON encoding
    of the two token structs are the class [TokenLib]; [TokenLaws] states what
    the code relies on: a signature made with a key verifies under its public
    half, and an encoded struct of ASCII strings decodes to itself. *)

From S2P Require Import Prelude GoStrings Base64 Runtime.

Set Default Goal Selector "!".
Local Open Scope go_scope.
Local Open Scope Z_scope.

(** ** Data *)

Record Claims := mkClaims {
  cl_Sub : string;
  cl_Aud : string;
  cl_Iat : Z;   (* int64 *)
  cl_Exp : Z;   (* int64 *)
  cl_Jti : string }.

Record jwtHeader := mkHeader { jh_Alg : string; jh_Typ : string; jh_Kid : string }.

#[export] Instance Claims_eq_dec : EqDecision Claims.
Proof. solve_decision. Defined.
#[export] Instance jwtHeader_eq_dec : EqDecision jwtHeader.
Proof. solve_decision. Defined.

Class TokenLib := {
  sha256 : string -> string;
  ed_Public : string -> string;
  ed_Sign : string -> string -> string;
  ed_Verify : string -> string -> string -> bool;
  marshal_header : jwtHeader -> result string;
  unmarshal_header : string -> option jwtHeader;
  marshal_claims : Claims -> result string;
  unmarshal_claims : string -> option Claims }.

Definition ClockSkew : Z := 5 * 60 * Second.
Definition DefaultLifetime : Z := 60 * Second.
Definition PrivateKeySize : Z := 64.
Definition PublicKeySize : Z := 32.

(** ** splitN *)

(** The loop of [splitN]: [cur] is [s[start:i]] and [k] the number of parts
    that may still be cut off, [n-1-len(out)]. *)
Fixpoint splitN_loop (sep : ascii) (s cur : string) (k : nat) : list string :=
  match s with
  | "" => [cur]
  | String c s' =>
      match k with
      | O => [cur +:+ s]
      | S k' => if Ascii.eqb c sep then cur :: splitN_loop sep s' "" k'
                else splitN_loop sep s' (cur +:+ String c "") k
      end
  end.
Definition splitN (s : string) (sep : ascii) (n : nat) : list string := splitN_loop sep s "" (n - 1).

Section Tokens.
Context {TL : TokenLib}.

Definition KidFromPubkey (pubkey : string) : string := b64_encode (sha256 pubkey).
Definition FingerprintRaw (raw : string) : string := EncodeToString (sha256 raw).

(** [randomJTI]: [rnd] is what the read of 16 random bytes gave. *)
Definition randomJTI (rnd : result string) : result string :=
  match rnd with
  | Err e => Err (Wrap "auth: jti rand: " e "")
  | Ok b => Ok (b64_encode b)
  end.

(** ** Mint *)
Definition Mint (now : Z) (rnd : result string) (priv audience : string) (lifetime : Z) : result string :=
  if negb (Z.of_nat (String.length priv) =? PrivateKeySize) then
    Err (Errorf "auth: invalid ed25519 private key length")
  else
    let lifetime := if lifetime <=? 0 then DefaultLifetime else lifetime in
    let pub := ed_Public priv in
    let kid := KidFromPubkey pub in
    match randomJTI rnd with
    | Err e => Err e
    | Ok jti =>
        let header := mkHeader "EdDSA" "JWT" kid in
        let claims := mkClaims kid audience now (i64 (now + Z.quot lifetime Second)) jti in
        match marshal_header header with
        | Err e => Err e
        | Ok hb =>
            match marshal_claims claims with
            | Err e => Err e
            | Ok pb =>
                let signingInput := b64_encode hb +:+ "." +:+ b64_encode pb in
                let sig := ed_Sign priv signingInput in
                Ok (signingInput +:+ "." +:+ b64_encode sig)
            end
        end
    end.

(** ** Verify *)
Definition check_claims (now : Z) (audience : string) (hdr : jwtHeader) (claims : Claims) : result Claims :=
  if negb (String.eqb (cl_Sub claims) (jh_Kid hdr)) then Err (Errorf "auth: sub/kid mismatch")
  else if negb (String.eqb audience "") && negb (String.eqb (cl_Aud claims) audience) then
    Err (Errorf "auth: wrong audience")
  else
    let skew := Z.quot ClockSkew Second in
    if (cl_Iat claims =? 0) || (i64 (now + skew) <? cl_Iat claims) then
      Err (Errorf "auth: token not yet valid")
    else if (cl_Exp claims =? 0) || (i64 (cl_Exp claims + skew) <? now) then
      Err (Errorf "auth: token expired")
    else if String.eqb (cl_Jti claims) "" then Err (Errorf "auth: missing jti")
    else Ok claims.

Definition Verify (now : Z) (token audience : string) (lookup : string -> option string) : result Claims :=
  match splitN token "." 3 with
  | [p0; p1; p2] =>
      match b64_decode p0 with
      | None => Err (Errorf "auth: bad header encoding")
      | Some headerBytes =>
          match unmarshal_header headerBytes with
          | None => Err (Errorf "auth: bad header json")
          | Some hdr =>
              if negb (String.eqb (jh_Alg hdr) "EdDSA") || negb (String.eqb (jh_Typ hdr) "JWT") then
                Err (Errorf "auth: unsupported algorithm")
              else if String.eqb (jh_Kid hdr) "" then Err (Errorf "auth: missing kid")
              else match lookup (jh_Kid hdr) with
              | None => Err (Errorf "auth: unknown key")
              | Some pub =>
                  match b64_decode p2 with
                  | None => Err (Errorf "auth: bad signature encoding")
                  | Some sig =>
                      let signingInput := p0 +:+ "." +:+ p1 in
                      if negb (ed_Verify pub signingInput sig) then Err (Errorf "auth: bad signature")
                      else match b64_decode p1 with
                      | None => Err (Errorf "auth: bad payload encoding")
                      | Some payload =>
                          match unmarshal_claims payload with
                          | None => Err (Errorf "auth: bad payload json")
                          | Some claims => check_claims now audience hdr claims
                          end
                      end
                  end
              end
          end
      end
  | _ => Err (Errorf "auth: malformed token")
  end.
End Tokens.

(** ** The replay cache *)

Abbreviation jtiCache := (gmap string Z).
Definition newJTICache : jtiCache := ∅.

Definition SeenOrAdd (jti : string) (expUnix : Z) (c : jtiCache) : bool * jtiCache :=
  match c !! jti with
  | Some _ => (true, c)
  | None => (false, <[jti := expUnix]> c)
  end.

Definition sweep (now : Z) (c : jtiCache) : jtiCache := filter (fun kv => ~ (kv.2 <= now)) c.

(** ** The authorization gate *)

Definition AdoptMethod : string := "/capsule.v1.IdentityService/Adopt".
Definition InstallerMethods : list string :=
  ["/capsule.v1.InstallService/Status"; "/capsule.v1.InstallService/Install"].

(** The request context: the "authorization" metadata and the caller's kid. *)
Record Ctx := mkCtx { ctx_authorization : list string; ctx_kid : option string }.

Definition KidFromContext (ctx : Ctx) : string := default "" (ctx_kid ctx).

Record Authenticator := mkAuthenticator {
  au_CapsuleID : string;
  au_InstallerMode : bool;
  au_jti : jtiCache }.

Definition NewAuthenticator (capsuleID : string) : Authenticator := mkAuthenticator capsuleID false newJTICache.

Definition set_jti (c : jtiCache) (a : Authenticator) : Authenticator :=
  mkAuthenticator (au_CapsuleID a) (au_InstallerMode a) c.

Definition bearer (values : list string) : string :=
  match values with
  | [] => ""
  | v0 :: _ =>
      let v := TrimSpace v0 in
      if (Z.of_nat (String.length v) <? 7) || negb (EqualFold (slice_to 7 v) "Bearer ") then ""
      else TrimSpace (slice_from 7 v)
  end.

Section Gate.
Context {TL : TokenLib}.

Definition authorize (now : Z) (lookup : string -> option string) (ctx : Ctx) (fullMethod : string)
    : prog Authenticator Ctx := fun a =>
  if String.eqb fullMethod AdoptMethod then (Ok ctx, a)
  else if au_InstallerMode a && existsb (String.eqb fullMethod) InstallerMethods then (Ok ctx, a)
  else
    let tok := bearer (ctx_authorization ctx) in
    if String.eqb tok "" then
      (Err (StatusError CodeUnauthenticated "missing bearer token (run: capsulectl adopt)"), a)
    else match Verify now tok (au_CapsuleID a) lookup with
    | Err e => (Err (StatusError CodeUnauthenticated (Error e)), a)
    | Ok claims =>
        let '(seen, c) := SeenOrAdd (cl_Jti claims) (cl_Exp claims) (au_jti a) in
        if seen then (Err (StatusError CodeUnauthenticated "auth: token replay"), set_jti c a)
        else (Ok (mkCtx (ctx_authorization ctx) (Some (cl_Sub claims))), set_jti c a)
    end.

(** The interceptors run the handler only behind [authorize], on the server
    state [H] the handlers share. *)
Definition Unary {H R} (now : Z) (lookup : string -> option string) (fullMethod : string)
    (handler : Ctx -> prog H R) (ctx : Ctx) : prog (Authenticator * H) R :=
  newCtx <- zoom fst (fun a w => (a, w.2)) (authorize now lookup ctx fullMethod) ;;
  zoom snd (fun h w => (w.1, h)) (handler newCtx).
End Gate.

(** ** The claim window *)

(** [open], and whether [once] has run. *)
Record ClaimWindow := mkClaimWindow { cw_open : bool; cw_once : bool; cw_expiry : option Z }.

(** The expiry is set exactly when the auto-close timer is started. *)
Definition NewClaimWindow (now startEnrolled timeout : Z) : ClaimWindow :=
  if 0 <? startEnrolled then mkClaimWindow false false None
  else mkClaimWindow true false (if 0 <? timeout then Some (now + timeout) else None).

Definition cw_Close (w : ClaimWindow) : ClaimWindow :=
  if cw_once w then w else mkClaimWindow false true (cw_expiry w).

(** ** Fingerprints and keys *)

Fixpoint format_loop (s : string) (col : Z) : string :=
  match s with
  | String a (String b s) =>
      let pre := if col =? 8 then String NL "" else if 0 <? col then ":" else "" in
      let col := if col =? 8 then 0 else col in
      pre +:+ String a (String b (format_loop s (col + 1)))
  | _ => ""
  end.
Definition FormatFingerprint (hexFingerprint : string) : string :=
  if negb (Z.of_nat (String.length hexFingerprint) mod 2 =? 0) then hexFingerprint
  else format_loop hexFingerprint 0.

Definition ParsePubkey (b : string) : result string :=
  if negb (Z.of_nat (String.length b) =? PublicKeySize) then
    Err (Errorf ("invalid ed25519 public key: expected " +:+ Itoa PublicKeySize +:+ " bytes, got "
      +:+ Itoa (Z.of_nat (String.length b))))
  else Ok b.

(** ** splitN *)

Lemma splitN_loop_join sep s cur k : Join (splitN_loop sep s cur k) (String sep "") = cur +:+ s.
Proof.
  revert cur k. induction s as [|c s IH]; intros cur k; cbn [splitN_loop].
  - by rewrite app_nil_str.
  - destruct k as [|k]; [done|]. destruct (Ascii.eqb_spec c sep) as [->|].
    + specialize (IH "" k). destruct (splitN_loop sep s "" k) as [|x l] eqn:E; [by destruct s, k|].
      rewrite Join_cons, IH. done.
    + by rewrite IH, app_assoc_str.
Qed.

Lemma splitN_loop_parts sep s cur k :
  no_char sep cur = true ->
  Forall (fun p => no_char sep p = true) (removelast (splitN_loop sep s cur k)) /\
  (List.length (splitN_loop sep s cur k) <= k + 1)%nat.
Proof.
  revert cur k. induction s as [|c s IH]; intros cur k Hcur; cbn [splitN_loop]; [split; [constructor|simpl; lia]|].
  destruct k as [|k]; [by split; [constructor|]|]. destruct (Ascii.eqb_spec c sep) as [->|Hne].
  - destruct (IH "" k eq_refl) as [Hp Hl]. split; [|simpl; lia].
    destruct (splitN_loop sep s "" k) as [|x l] eqn:E; [constructor|]. simpl in *. by constructor.
  - apply (IH _ (S k)). unfold no_char in *. rewrite all_chars_app, Hcur. simpl.
    destruct (Ascii.eqb_spec sep c); [congruence|done].
Qed.

Lemma splitN_cut sep a b cur k :
  no_char sep a = true ->
  splitN_loop sep (a +:+ String sep b) cur (S k) = (cur +:+ a) :: splitN_loop sep b "" k.
Proof.
  revert cur. induction a as [|c a IH]; intros cur.
  - intros _. cbn. by rewrite Ascii.eqb_refl, app_nil_str.
  - change (String c a +:+ String sep b) with (String c (a +:+ String sep b)).
    unfold no_char. cbn [all_chars splitN_loop]. intros [Hc Ha]%andb_true_iff.
    destruct (Ascii.eqb_spec sep c); [done|]. destruct (Ascii.eqb_spec c sep); [congruence|].
    rewrite IH by done. by rewrite app_assoc_str.
Qed.

(** The text of a token with its three parts. *)
Definition dotted (p0 p1 p2 : string) : string := p0 +:+ "." +:+ p1 +:+ "." +:+ p2.

(** A token splits into three parts exactly when it has two dots, the parts
    before them holding none. *)
Lemma splitN_three tok p0 p1 p2 :
  splitN tok "." 3 = [p0; p1; p2] <->
  tok = dotted p0 p1 p2 /\ no_char "." p0 = true /\ no_char "." p1 = true.
Proof.
  unfold splitN, dotted. simpl. split.
  - intros H. pose proof (splitN_loop_join "." tok "" 2) as HJ. rewrite H in HJ.
    destruct (splitN_loop_parts "." tok "" 2 eq_refl) as [HP _]. rewrite H in HP. simpl in HP.
    apply Forall_cons in HP as [H0 HP]. apply Forall_cons in HP as [H1 _]. split; [|done].
    rewrite !Join_cons in HJ. change (Join [p2] ".") with p2 in HJ. by symmetry.
  - intros (-> & H0 & H1).
    change (p0 +:+ "." +:+ p1 +:+ "." +:+ p2) with (p0 +:+ String "." (p1 +:+ String "." p2)).
    rewrite (splitN_cut "." p0) by done. rewrite (splitN_cut "." p1) by done. by destruct p2.
Qed.

(** ** What a valid token is *)

Definition is_ascii (c : ascii) : bool := ord c <? 128.
Definition ascii_text (s : string) : Prop := all_chars is_ascii s = true.
Definition int64 (z : Z) : Prop := - 2 ^ 63 <= z < 2 ^ 63.

Class TokenLaws `{!TokenLib} := {
  sha256_length b : String.length (sha256 b) = 32%nat;
  sign_verifies priv m : Z.of_nat (String.length priv) = PrivateKeySize ->
    ed_Verify (ed_Public priv) m (ed_Sign priv m) = true;
  header_roundtrip h : ascii_text (jh_Alg h) -> ascii_text (jh_Typ h) -> ascii_text (jh_Kid h) ->
    exists b, marshal_header h = Ok b /\ unmarshal_header b = Some h;
  claims_roundtrip c : ascii_text (cl_Sub c) -> ascii_text (cl_Aud c) -> ascii_text (cl_Jti c) ->
    int64 (cl_Iat c) -> int64 (cl_Exp c) ->
    exists b, marshal_claims c = Ok b /\ unmarshal_claims b = Some c }.

Section tokens.
Context {TL : TokenLib}.
Implicit Types c : Claims.

Definition skew : Z := 300.

(** The checks on the claims: bound to the key, the audience and the clock. *)
Definition claims_ok (now : Z) (audience : string) (hdr : jwtHeader) c : Prop :=
  cl_Sub c = jh_Kid hdr /\ (audience = "" \/ cl_Aud c = audience) /\
  cl_Iat c <> 0 /\ cl_Iat c <= i64 (now + skew) /\
  cl_Exp c <> 0 /\ now <= i64 (cl_Exp c + skew) /\ cl_Jti c <> "".

Lemma check_claims_spec now audience hdr c c' :
  check_claims now audience hdr c = Ok c' <-> c' = c /\ claims_ok now audience hdr c.
Proof.
  unfold check_claims, claims_ok, skew. change (Z.quot ClockSkew Second) with 300. cbv zeta.
  destruct (String.eqb_spec (cl_Sub c) (jh_Kid hdr)); [|naive_solver].
  destruct (String.eqb_spec audience ""), (String.eqb_spec (cl_Aud c) audience); simpl; try naive_solver.
  all: destruct (Z.eqb_spec (cl_Iat c) 0), (Z.ltb_spec (i64 (now + 300)) (cl_Iat c)); simpl;
    try (split; [done|intros (_ & _ & _ & ? & ? & _); lia]).
  all: destruct (Z.eqb_spec (cl_Exp c) 0), (Z.ltb_spec (i64 (cl_Exp c + 300)) now); simpl;
    try (split; [done|intros (_ & _ & _ & _ & _ & ? & ? & _); lia]).
  all: destruct (String.eqb_spec (cl_Jti c) ""); naive_solver.
Qed.

(** A token that carries [c]: three parts, a header naming an enrolled key,
    a signature of that key over the first two parts exactly as sent, and
    claims that pass the checks. *)
Definition valid_token (now : Z) (tok audience : string) (lookup : string -> option string) c : Prop :=
  exists p0 p1 p2 hb pb hdr pub sig,
    tok = dotted p0 p1 p2 /\ no_char "." p0 = true /\ no_char "." p1 = true /\
    b64_decode p0 = Some hb /\ unmarshal_header hb = Some hdr /\
    jh_Alg hdr = "EdDSA" /\ jh_Typ hdr = "JWT" /\ jh_Kid hdr <> "" /\
    lookup (jh_Kid hdr) = Some pub /\
    b64_decode p2 = Some sig /\ ed_Verify pub (p0 +:+ "." +:+ p1) sig = true /\
    b64_decode p1 = Some pb /\ unmarshal_claims pb = Some c /\
    claims_ok now audience hdr c.

Lemma Verify_iff now tok audience lookup c :
  Verify now tok audience lookup = Ok c <-> valid_token now tok audience lookup c.
Proof.
  unfold Verify, valid_token. split.
  - destruct (splitN tok "." 3) as [|p0 [|p1 [|p2 [|? ?]]]] eqn:Hs; try done.
    apply splitN_three in Hs as (-> & H0 & H1).
    destruct (b64_decode p0) as [hb|] eqn:D0; [|done].
    destruct (unmarshal_header hb) as [hdr|] eqn:Hh; [|done].
    destruct (String.eqb_spec (jh_Alg hdr) "EdDSA"); [|done].
    destruct (String.eqb_spec (jh_Typ hdr) "JWT"); [|done].
    destruct (String.eqb_spec (jh_Kid hdr) ""); [done|]. cbn [negb orb].
    destruct (lookup (jh_Kid hdr)) as [pub|] eqn:Hl; [|done].
    destruct (b64_decode p2) as [sig|] eqn:D2; [|done].
    destruct (ed_Verify pub (p0 +:+ "." +:+ p1) sig) eqn:Hv; [|done]. cbn [negb].
    destruct (b64_decode p1) as [pb|] eqn:D1; [|done].
    destruct (unmarshal_claims pb) as [c'|] eqn:Hc; [|done].
    intros [-> Hok]%check_claims_spec. exists p0, p1, p2, hb, pb, hdr, pub, sig. by split_and!.
  - intros (p0 & p1 & p2 & hb & pb & hdr & pub & sig & Ht & H0 & H1 & D0 & Hh & Ha & Hty & Hk & Hl & D2 & Hv & D1 & Hc & Hok).
    assert (splitN tok "." 3 = [p0; p1; p2]) as -> by (by apply splitN_three).
    rewrite D0, Hh, Ha, Hty, D1, D2, Hl, Hc, Hv. simpl.
    destruct (String.eqb_spec (jh_Kid hdr) ""); [done|]. by apply check_claims_spec.
Qed.

(** C27: [Verify] accepts exactly the valid tokens: signed by the enrolled
    key the header names, over the header and payload bytes as received, for
    this audience, inside the validity interval widened by five minutes, with
    a token id; and it returns the claims of that payload. *)
Theorem Verify_exact now tok audience lookup c :
  Verify now tok audience lookup = Ok c <-> valid_token now tok audience lookup c.
Proof. apply Verify_iff. Qed.

Context {LL : TokenLaws}.

Lemma b64_ascii s : ascii_text (b64_encode s).
Proof.
  eapply all_chars_impl; [|apply b64_encode_chars]. intros c. unfold is_b64, b64_val, is_ascii.
  repeat case_match; try done; lia.
Qed.

Lemma kid_not_empty pub : KidFromPubkey pub <> "".
Proof.
  unfold KidFromPubkey. intros HK%b64_encode_empty. pose proof (sha256_length pub) as E. by rewrite HK in E.
Qed.

(** A freshly minted token verifies.  For a 64-byte key, random bytes
    and an ASCII audience, [Mint] returns a token, and every verifier that
    knows the key under its kid accepts it for that audience from five
    minutes before the mint time to five minutes past its expiry, with the
    kid, audience and lifetime that were asked for. *)
Theorem Mint_Verify now now' r priv audience lifetime lookup :
  Z.of_nat (String.length priv) = PrivateKeySize -> r <> "" -> ascii_text audience ->
  let life := Z.quot (if lifetime <=? 0 then DefaultLifetime else lifetime) Second in
  0 < now -> now + life + skew < 2 ^ 63 -> 0 <= now' -> now' + skew < 2 ^ 63 ->
  lookup (KidFromPubkey (ed_Public priv)) = Some (ed_Public priv) ->
  now - skew <= now' <= now + life + skew ->
  exists tok c, Mint now (Ok r) priv audience lifetime = Ok tok /\
    Verify now' tok audience lookup = Ok c /\
    cl_Sub c = KidFromPubkey (ed_Public priv) /\ cl_Aud c = audience /\
    cl_Iat c = now /\ cl_Exp c = now + life /\ cl_Jti c = b64_encode r.
Proof.
  intros Hp Hr Ha life Hnow Hlife Hn' Hn'' Hl Hin. unfold Mint. cbv zeta.
  destruct (Z.eqb_spec (Z.of_nat (String.length priv)) PrivateKeySize); [|done]. cbn [negb randomJTI]. fold life.
  assert (0 <= life).
  { unfold life. apply Z.quot_pos; [|done]. destruct (Z.leb_spec lifetime 0); [done|lia]. }
  unfold skew in *. set (kid := KidFromPubkey (ed_Public priv)) in *.
  assert (i64 (now + life) = now + life) as -> by (apply swrap_small; lia).
  destruct (header_roundtrip (mkHeader "EdDSA" "JWT" kid)) as (hb & -> & Hh); [done..|apply b64_ascii|].
  set (c := mkClaims kid audience now (now + life) (b64_encode r)).
  destruct (claims_roundtrip c) as (pb & -> & Hc); [apply b64_ascii|done|apply b64_ascii|unfold int64; simpl; lia..|].
  eexists _, c. split; [done|]. split; [|by split_and!]. apply Verify_iff.
  exists (b64_encode hb), (b64_encode pb), (b64_encode (ed_Sign priv (b64_encode hb +:+ "." +:+ b64_encode pb))).
  exists hb, pb, (mkHeader "EdDSA" "JWT" kid), (ed_Public priv), (ed_Sign priv (b64_encode hb +:+ "." +:+ b64_encode pb)).
  rewrite !b64_decode_encode. split_and!; try done.
  - unfold dotted. by rewrite !app_assoc_str.
  - by apply b64_no_char.
  - by apply b64_no_char.
  - apply kid_not_empty.
  - by apply sign_verifies.
  - unfold claims_ok, skew. simpl. rewrite !swrap_small by lia.
    split_and!; [done|by right|lia..|]. by intros E%b64_encode_empty.
Qed.
End tokens.

(** ** The gate *)

Section gate.
Context {TL : TokenLib}.
Implicit Types a : Authenticator.

(** The calls that need no token. *)
Definition exempt a (m : string) : Prop :=
  m = AdoptMethod \/ (au_InstallerMode a = true /\ m ∈ InstallerMethods).

(** A call that presents a valid token not seen before. *)
Definition fresh_token (now : Z) (lookup : string -> option string) (ctx : Ctx) a (c : Claims) : Prop :=
  bearer (ctx_authorization ctx) <> "" /\
  Verify now (bearer (ctx_authorization ctx)) (au_CapsuleID a) lookup = Ok c /\
  au_jti a !! cl_Jti c = None.

Lemma authorize_cases now lookup ctx m a r a' :
  authorize now lookup ctx m a = (r, a') ->
  (exempt a m /\ r = Ok ctx /\ a' = a) \/
  (~ exempt a m /\
   ((exists c, fresh_token now lookup ctx a c /\
      r = Ok (mkCtx (ctx_authorization ctx) (Some (cl_Sub c))) /\
      a' = set_jti (<[cl_Jti c := cl_Exp c]> (au_jti a)) a) \/
    ((forall c, ~ fresh_token now lookup ctx a c) /\
      (exists msg, r = Err (StatusError CodeUnauthenticated msg)) /\ a' = a))).
Proof.
  unfold authorize, fresh_token, exempt, SeenOrAdd. intros Ha.
  destruct (String.eqb_spec m AdoptMethod); [left; simplify_eq; naive_solver|].
  destruct (au_InstallerMode a && existsb (String.eqb m) InstallerMethods) eqn:Hi.
  { apply andb_true_iff in Hi as [Hi Hx]. left. simplify_eq. split_and!; [|done..]. right. split; [done|].
    apply existsb_exists in Hx as (x & Hx & ->%String.eqb_eq). by apply list_elem_of_In. }
  right. split.
  { intros [?|[Hm Hin]]; [done|]. rewrite Hm in Hi. cbn [andb] in Hi. apply not_true_iff_false in Hi. apply Hi.
    apply existsb_exists. exists m. split; [by apply list_elem_of_In|apply String.eqb_refl]. }
  cbv zeta in Ha. destruct (String.eqb_spec (bearer (ctx_authorization ctx)) "") as [E|E].
  { right. simplify_eq. split_and!; [naive_solver|by eexists|done]. }
  destruct (Verify now _ _ lookup) as [c|e] eqn:Hv.
  - destruct (au_jti a !! cl_Jti c) eqn:Hj; simplify_eq.
    + right. split_and!; [naive_solver|by eexists|by destruct a].
    + left. exists c. by split_and!.
  - right. simplify_eq. split_and!; [naive_solver|by eexists|done].
Qed.

(** C7: The gate lets a call through only if its method is exempt (Adopt,
    or an installer method in installer mode) or it presents a valid token
    for this capsule, signed by an enrolled key, whose id was not accepted
    before; the handler then sees the signer's kid and the id is recorded.
    Every other call is answered Unauthenticated and changes nothing. *)
Theorem authorize_exact now lookup ctx m a r a' :
  authorize now lookup ctx m a = (r, a') ->
  (exempt a m /\ r = Ok ctx /\ a' = a) \/
  (~ exempt a m /\
   ((exists c, fresh_token now lookup ctx a c /\
      r = Ok (mkCtx (ctx_authorization ctx) (Some (cl_Sub c))) /\
      a' = set_jti (<[cl_Jti c := cl_Exp c]> (au_jti a)) a) \/
    ((forall c, ~ fresh_token now lookup ctx a c) /\
      (exists msg, r = Err (StatusError CodeUnauthenticated msg)) /\ a' = a))).
Proof. apply authorize_cases. Qed.

(** A rejected call never reaches its handler. *)
Lemma Unary_rejects {H R} now lookup m (handler : Ctx -> prog H R) ctx a h e a' :
  authorize now lookup ctx m a = (Err e, a') -> Unary now lookup m handler ctx (a, h) = (Err e, (a', h)).
Proof. intros E. unfold Unary, bind, zoom. simpl. by rewrite E. Qed.

(** *** Replay *)

Inductive auth_event :=
  | Req (now : Z) (lookup : string -> option string) (ctx : Ctx) (m : string)
  | SweepAt (now : Z).

Definition auth_step a (ev : auth_event) : Authenticator :=
  match ev with
  | Req now lookup ctx m => (authorize now lookup ctx m a).2
  | SweepAt now => set_jti (sweep now (au_jti a)) a
  end.

(** No sweep of the run comes at or after [exp]. *)
Definition before (exp : Z) (ev : auth_event) : Prop :=
  match ev with Req _ _ _ _ => True | SweepAt t => t < exp end.

Lemma auth_step_config a ev :
  au_CapsuleID (auth_step a ev) = au_CapsuleID a /\ au_InstallerMode (auth_step a ev) = au_InstallerMode a.
Proof.
  destruct ev as [now lookup ctx m|t]; [|done]. simpl. destruct (authorize now lookup ctx m a) as [r a'] eqn:E.
  apply authorize_cases in E as [(_ & _ & ->)|(_ & [(c & _ & _ & ->)|(_ & _ & ->)])]; done.
Qed.

Lemma auth_step_keeps a ev j e :
  au_jti a !! j = Some e -> before e ev -> au_jti (auth_step a ev) !! j = Some e.
Proof.
  intros Hj Hb. destruct ev as [now lookup ctx m|t]; simpl.
  - destruct (authorize now lookup ctx m a) as [r a'] eqn:E. simpl.
    apply authorize_cases in E as [(_ & _ & ->)|(_ & [(c & (_ & _ & Hn) & _ & ->)|(_ & _ & ->)])]; [done| |done].
    simpl. rewrite lookup_insert_ne; [done|congruence].
  - unfold sweep. apply map_lookup_filter_Some. split; [done|]. simpl in *. lia.
Qed.

Lemma auth_run_keeps evs a j e :
  au_jti a !! j = Some e -> Forall (before e) evs -> au_jti (foldl auth_step a evs) !! j = Some e.
Proof.
  intros Hj Hall. revert a Hj. induction Hall as [|ev evs Hb _ IH]; intros a Hj; [done|].
  simpl. apply IH. by apply auth_step_keeps.
Qed.

Lemma auth_run_config evs a :
  au_CapsuleID (foldl auth_step a evs) = au_CapsuleID a /\
  au_InstallerMode (foldl auth_step a evs) = au_InstallerMode a.
Proof.
  revert a. induction evs as [|ev evs IH]; intros a; [done|]. simpl.
  destruct (IH (auth_step a ev)) as [-> ->]. apply auth_step_config.
Qed.

(** First acceptance wins.  Once a call has been let through on a token,
    then after any further calls and any sweeps made before the token's
    expiry, every call that presents a token with the same id is refused. *)
Theorem replay_refused now lookup ctx m a ctx' a1 c evs now2 lookup2 ctx2 m2 c2 :
  ~ exempt a m -> authorize now lookup ctx m a = (Ok ctx', a1) ->
  Verify now (bearer (ctx_authorization ctx)) (au_CapsuleID a) lookup = Ok c ->
  Forall (before (cl_Exp c)) evs ->
  let a2 := foldl auth_step a1 evs in
  ~ exempt a m2 ->
  Verify now2 (bearer (ctx_authorization ctx2)) (au_CapsuleID a) lookup2 = Ok c2 -> cl_Jti c2 = cl_Jti c ->
  exists msg, authorize now2 lookup2 ctx2 m2 a2 = (Err (StatusError CodeUnauthenticated msg), a2).
Proof.
  intros Hex Ha Hv Hevs a2 Hex2 Hv2 Hj.
  apply authorize_cases in Ha as [(? & _)|(_ & [(c' & (_ & Hv' & _) & _ & ->)|(_ & [msg ?] & _)])]; [done| |done].
  rewrite Hv in Hv'. injection Hv' as <-.
  assert (au_jti a2 !! cl_Jti c = Some (cl_Exp c)) as Hj2.
  { apply auth_run_keeps; [|done]. simpl. apply lookup_insert_eq. }
  destruct (auth_run_config evs (set_jti (<[cl_Jti c := cl_Exp c]> (au_jti a)) a)) as [HC HM]. fold a2 in HC, HM. cbn [au_CapsuleID au_InstallerMode set_jti] in HC, HM.
  destruct (authorize now2 lookup2 ctx2 m2 a2) as [r a3] eqn:E.
  apply authorize_cases in E as [([->|[Hi Hin]] & _)|(_ & [(c3 & (_ & Hv3 & Hn) & _)|(_ & [msg ->] & ->)])].
  - by destruct Hex2; left.
  - destruct Hex2. right. by rewrite HM in Hi.
  - rewrite HC, Hv2 in Hv3. injection Hv3 as <-. congruence.
  - by exists msg.
Qed.

(** The cache forgets a token at its expiry although [Verify] accepts it
    for five more minutes: after a sweep at a time between the expiry and
    the end of the skew, the same request is let through a second time. *)
Theorem replay_after_sweep now lookup ctx m a ctx' a1 c t :
  ~ exempt a m -> authorize now lookup ctx m a = (Ok ctx', a1) ->
  Verify now (bearer (ctx_authorization ctx)) (au_CapsuleID a) lookup = Ok c ->
  now <= t -> cl_Exp c <= t <= cl_Exp c + skew -> int64 (cl_Exp c + skew) -> 0 <= now -> int64 (t + skew) ->
  (authorize t lookup ctx m (auth_step a1 (SweepAt t))).1 = Ok ctx'.
Proof.
  intros Hex Ha Hv Hnt Ht Hov Hn Hov2.
  apply authorize_cases in Ha as [(? & _)|(_ & [(c' & (Hb & Hv' & Hnone) & -> & ->)|(_ & [msg ?] & _)])]; [done| |done].
  rewrite Hv in Hv'. injection Hv' as <-.
  assert (Verify t (bearer (ctx_authorization ctx)) (au_CapsuleID a) lookup = Ok c) as Hvt.
  { apply Verify_iff in Hv as (p0 & p1 & p2 & hb & pb & hdr & pub & sig & Hrest).
    apply Verify_iff. exists p0, p1, p2, hb, pb, hdr, pub, sig.
    destruct_and! Hrest. split_and!; try done. unfold claims_ok, skew, int64 in *. destruct_and!.
    split_and!; try done.
    - rewrite swrap_small by lia. rewrite swrap_small in * by lia. lia.
    - rewrite swrap_small by lia. lia. }
  set (a2 := auth_step _ _). destruct (authorize t lookup ctx m a2) as [r a3] eqn:E. simpl.
  apply authorize_cases in E as [(? & _)|(_ & [(c3 & (_ & Hv3 & _) & -> & _)|(Hno & _)])].
  - exfalso. by apply Hex.
  - simpl in Hv3. rewrite Hvt in Hv3. by injection Hv3 as <-.
  - destruct (Hno c). split_and!; [done..|]. simpl. unfold sweep.
    apply map_lookup_filter_None. right. intros x Hx. rewrite lookup_insert_eq in Hx. injection Hx as <-.
    simpl. lia.
Qed.

End gate.

(** ** A token library that can be run

    A stand-in for the cryptography that satisfies the laws: the digest pads
    or cuts to 32 bytes, a signature carries the public key and the message. *)

Module DemoLib.
Definition digest (s : string) : string := slice_to 32 (s +:+ "00000000000000000000000000000000").
Definition join (l : list string) : result string := Ok (Join l ".").

#[export] Instance lib : TokenLib := {|
  sha256 := digest;
  ed_Public := slice_to 32;
  ed_Sign := fun priv m => slice_to 32 priv +:+ m;
  ed_Verify := fun pub m sig => String.eqb sig (pub +:+ m);
  marshal_header := fun h => join [b64_encode (jh_Alg h); b64_encode (jh_Typ h); b64_encode (jh_Kid h)];
  unmarshal_header := fun s =>
    match Split "." s with
    | [x; y; z] => a ← b64_decode x; t ← b64_decode y; k ← b64_decode z; Some (mkHeader a t k)
    | _ => None
    end;
  marshal_claims := fun c =>
    join [b64_encode (cl_Sub c); b64_encode (cl_Aud c); Itoa (cl_Iat c); Itoa (cl_Exp c); b64_encode (cl_Jti c)];
  unmarshal_claims := fun s =>
    match Split "." s with
    | [x; y; i; e; z] => sub ← b64_decode x; aud ← b64_decode y; iat ← parse_int i; exp ← parse_int e;
                         jti ← b64_decode z; Some (mkClaims sub aud iat exp jti)
    | _ => None
    end |}.

Lemma slice_to_length n s : (n <= String.length s)%nat -> String.length (slice_to n s) = n.
Proof. revert s. induction n as [|n IH]; intros [|c s]; simpl; intros H; try lia. by rewrite IH by lia. Qed.

#[export] Instance laws : TokenLaws.
Proof.
  split.
  - intros b. apply slice_to_length. rewrite length_append. simpl. lia.
  - intros priv m _. apply String.eqb_refl.
  - intros [a t k] _ _ _. eexists. split; [reflexivity|]. cbn [unmarshal_header lib].
    rewrite Split_Join; [|done|repeat constructor; by apply b64_no_char].
    by rewrite !b64_decode_encode.
  - intros [sub aud iat exp jti] _ _ _ _ _. eexists. split; [reflexivity|]. cbn [unmarshal_claims lib].
    rewrite Split_Join; [|done|repeat constructor; first [by apply b64_no_char|by apply Itoa_no_char]].
    by rewrite !b64_decode_encode, !parse_int_Itoa.
Qed.

Definition priv : string := "0123456789abcdefghijklmnopqrstuvSECRETSECRETSECRETSECRETSECRETSE".
Definition pub : string := slice_to 32 priv.
Definition kid : string := KidFromPubkey pub.
Definition lookup (k : string) : option string := if String.eqb k kid then Some pub else None.
Definition rnd : string := "random-16-bytes!".
Definition t0 : Z := 1700000000.
Definition tok : string := match Mint t0 (Ok rnd) priv "capsule-1" 0 with Ok t => t | Err _ => "" end.
Definition claims : Claims := mkClaims kid "capsule-1" t0 (t0 + 60) (b64_encode rnd).
Definition ctx : Ctx := mkCtx ["Bearer " +:+ tok] None.
Definition gate : Authenticator := NewAuthenticator "capsule-1".
Definition method : string := "/capsule.v1.WorkloadService/Apply".

Lemma not_exempt : ~ exempt gate method.
Proof. intros [H|[H _]]; done. Qed.
End DemoLib.

#[local] Existing Instance DemoLib.lib.
#[local] Existing Instance DemoLib.laws.

Lemma Mint_Verify_witness :
  exists tok c, Mint DemoLib.t0 (Ok DemoLib.rnd) DemoLib.priv "capsule-1" 0 = Ok tok /\
    Verify (DemoLib.t0 + 30) tok "capsule-1" DemoLib.lookup = Ok c /\
    cl_Sub c = DemoLib.kid /\ cl_Exp c = DemoLib.t0 + 60.
Proof.
  destruct (Mint_Verify DemoLib.t0 (DemoLib.t0 + 30) DemoLib.rnd DemoLib.priv "capsule-1" 0 DemoLib.lookup)
    as (tok & c & Hm & Hv & Hs & _ & _ & He & _); [vm_compute; done..|].
  exists tok, c. split; [exact Hm|]. split; [exact Hv|]. split; [exact Hs|exact He].
Defined.

Lemma authorize_exact_witness :
  exists c, fresh_token DemoLib.t0 DemoLib.lookup DemoLib.ctx DemoLib.gate c /\
    ctx_kid <$> (match (authorize DemoLib.t0 DemoLib.lookup DemoLib.ctx DemoLib.method DemoLib.gate).1 with
                 | Ok x => Some x | Err _ => None end) = Some (Some (cl_Sub c)).
Proof.
  destruct (authorize DemoLib.t0 DemoLib.lookup DemoLib.ctx DemoLib.method DemoLib.gate) as [r a'] eqn:E.
  assert (is_ok r = true) as Hr
    by (etransitivity; [symmetry; exact (f_equal (fun x => is_ok x.1) E)|vm_compute; reflexivity]).
  destruct (authorize_exact DemoLib.t0 DemoLib.lookup DemoLib.ctx DemoLib.method DemoLib.gate r a' E)
    as [(H & _)|(_ & [(c & Hf & -> & _)|(_ & [msg ->] & _)])].
  - destruct (DemoLib.not_exempt H).
  - exists c. split; [exact Hf|reflexivity].
  - discriminate Hr.
Defined.

Lemma replay_refused_witness :
  exists msg, let a2 := foldl auth_step
      (authorize DemoLib.t0 DemoLib.lookup DemoLib.ctx DemoLib.method DemoLib.gate).2 [SweepAt (DemoLib.t0 + 30)] in
    authorize (DemoLib.t0 + 40) DemoLib.lookup DemoLib.ctx DemoLib.method a2 =
      (Err (StatusError CodeUnauthenticated msg), a2).
Proof.
  destruct (authorize DemoLib.t0 DemoLib.lookup DemoLib.ctx DemoLib.method DemoLib.gate) as [r a1] eqn:E.
  destruct r as [ctx'|e]; [|exfalso; apply (f_equal (fun x => is_ok x.1)) in E; vm_compute in E; discriminate E].
  apply (replay_refused DemoLib.t0 DemoLib.lookup DemoLib.ctx DemoLib.method DemoLib.gate ctx' a1 DemoLib.claims
    [SweepAt (DemoLib.t0 + 30)] (DemoLib.t0 + 40) DemoLib.lookup DemoLib.ctx DemoLib.method DemoLib.claims).
  - apply DemoLib.not_exempt.
  - exact E.
  - vm_compute. reflexivity.
  - repeat constructor.
  - apply DemoLib.not_exempt.
  - vm_compute. reflexivity.
  - reflexivity.
Defined.

Lemma replay_after_sweep_witness :
  exists ctx' a1, authorize DemoLib.t0 DemoLib.lookup DemoLib.ctx DemoLib.method DemoLib.gate = (Ok ctx', a1) /\
    (authorize (DemoLib.t0 + 90) DemoLib.lookup DemoLib.ctx DemoLib.method
       (auth_step a1 (SweepAt (DemoLib.t0 + 90)))).1 = Ok ctx'.
Proof.
  destruct (authorize DemoLib.t0 DemoLib.lookup DemoLib.ctx DemoLib.method DemoLib.gate) as [r a1] eqn:E.
  destruct r as [ctx'|e]; [|exfalso; apply (f_equal (fun x => is_ok x.1)) in E; vm_compute in E; discriminate E].
  exists ctx', a1. split; [reflexivity|].
  apply (replay_after_sweep DemoLib.t0 DemoLib.lookup DemoLib.ctx DemoLib.method DemoLib.gate ctx' a1 DemoLib.claims
    (DemoLib.t0 + 90)); [apply DemoLib.not_exempt|exact E|clear E; vm_compute; done..].
Defined.
