(* ===== verification/Mdns.v ===== *)
(** * LAN discovery: core/mdns

    announcer.go publishes the capsule's identity as DNS-SD TXT records,
    browser.go reads them back.  The zeroconf library is a parameter: whether
    [Register] succeeds ([registers]); the published record is the
    announcer's state. *)

From S2P Require Import Prelude GoStrings Net.

Set Default Goal Selector "!".
Local Open Scope go_scope.

(** ** Announcements *)

Record Announcement := mkAnnouncement {
  an_CapsuleID : string;
  an_ShortID : string;
  an_Hostname : string;
  an_Adopted : bool;
  an_Version : string;
  an_Mode : string;
  an_TargetDisk : string;
  an_TargetSizeBytes : Z;   (* uint64 *)
  an_Targets : list string }.

#[export] Instance Announcement_eq_dec : EqDecision Announcement.
Proof. solve_decision. Defined.

Definition instanceName (a : Announcement) : string :=
  if negb (String.eqb (an_Hostname a) "") then an_Hostname a else an_ShortID a.

Definition boolStr (b : bool) : string := if b then "true" else "false".

Definition announced_mode (a : Announcement) : string :=
  if String.eqb (an_Mode a) "" then "runtime" else an_Mode a.

(** [sort.Strings] *)
Definition sort_Strings (l : list string) : list string := merge_sort String.le l.

Definition text (a : Announcement) : list string :=
  let mode := announced_mode a in
  ["capsule_id=" +:+ an_CapsuleID a;
   "short_id=" +:+ an_ShortID a;
   "adopted=" +:+ boolStr (an_Adopted a);
   "version=" +:+ an_Version a;
   "mode=" +:+ mode] ++
  (if negb (String.eqb (an_Hostname a) "") then ["hostname=" +:+ an_Hostname a] else []) ++
  (if String.eqb mode "installer" then
     (if negb (String.eqb (an_TargetDisk a) "") then ["target_disk=" +:+ an_TargetDisk a] else []) ++
     (if (0 <? an_TargetSizeBytes a)%Z then ["target_size_bytes=" +:+ Itoa (an_TargetSizeBytes a)] else []) ++
     (if (0 <? Z.of_nat (List.length (an_Targets a)))%Z
      then ["targets=" +:+ Join (sort_Strings (an_Targets a)) ","] else [])
   else []).

(** ** The announcer *)

(** A registered server publishes an instance name and its TXT records. *)
Record Announcer := mkAnnouncer {
  am_port : Z;
  am_server : option (string * list string);
  am_current : Announcement }.

Definition no_announcement : Announcement := mkAnnouncement "" "" "" false "" "" "" 0 [].

Definition New (port : Z) : Announcer := mkAnnouncer port None no_announcement.

Definition publish (ann : Announcement) (a : Announcer) : Announcer :=
  mkAnnouncer (am_port a) (Some (instanceName ann, text ann)) ann.

Section Announcer.
(** [zeroconf.Register]'s error, if any, for an instance name. *)
Context (registers : string -> option error).

Definition mdns_Start (ann : Announcement) : prog Announcer unit := fun a =>
  match am_server a with
  | Some _ => (Err (Errorf "mdns: already started"), a)
  | None =>
      match registers (instanceName ann) with
      | Some err => (Err (Wrap "mdns register: " err ""), a)
      | None => (Ok tt, publish ann a)
      end
  end.

Definition mdns_Update (ann : Announcement) : prog Announcer unit := fun a =>
  match am_server a with
  | None =>
      match registers (instanceName ann) with
      | Some err => (Err (Wrap "mdns register: " err ""), a)
      | None => (Ok tt, publish ann a)
      end
  | Some (instance, _) =>
      if String.eqb (instanceName ann) (instanceName (am_current a)) then
        (Ok tt, mkAnnouncer (am_port a) (Some (instance, text ann)) ann)
      else
        match registers (instanceName ann) with
        | Some err => (Err (Wrap "mdns re-register: " err ""), mkAnnouncer (am_port a) None (am_current a))
        | None => (Ok tt, publish ann a)
        end
  end.

Definition set_adopted (ann : Announcement) : Announcement :=
  mkAnnouncement (an_CapsuleID ann) (an_ShortID ann) (an_Hostname ann) true (an_Version ann) (an_Mode ann)
    (an_TargetDisk ann) (an_TargetSizeBytes ann) (an_Targets ann).

Definition MarkAdopted : prog Announcer unit := fun a =>
  match am_server a with
  | None => (Ok tt, a)
  | Some _ =>
      if an_Adopted (am_current a) then (Ok tt, a)
      else mdns_Update (set_adopted (am_current a)) a
  end.

Definition mdns_Stop : prog Announcer unit := fun a =>
  match am_server a with
  | None => (Ok tt, a)
  | Some _ => (Ok tt, mkAnnouncer (am_port a) None (am_current a))
  end.
End Announcer.

(** ** Browsing *)

Record Entry := mkEntry {
  en_Instance : string;
  en_Addr : string;
  en_CapsuleID : string;
  en_ShortID : string;
  en_Hostname : string;
  en_Adopted : bool;
  en_Version : string;
  en_Mode : string;
  en_TargetDisk : string;
  en_TargetSizeBytes : Z;
  en_Targets : list string }.

Definition IsInstaller (e : Entry) : bool := String.eqb (en_Mode e) "installer".

Definition IsLinkLocalUnicast (a : IP) : bool :=
  match To4 a with
  | Some (b0 :: b1 :: _) => (b0 =? 169)%Z && (b1 =? 254)%Z
  | Some _ => false
  | None => match a with
            | b0 :: b1 :: _ => bool_decide (List.length a = 16) && (b0 =? 254)%Z && (Z.land b1 192 =? 128)%Z
            | _ => false
            end
  end.

Definition pickIPv4 (addrs : list IP) : option IP := head (omap To4 addrs).

Definition pickIPv6 (addrs : list IP) : option IP :=
  match List.find (fun a => match To4 a with None => negb (IsLinkLocalUnicast a) | Some _ => false end) addrs with
  | Some a => Some a
  | None => head addrs
  end.

(** A browse answer, as zeroconf reports it. *)
Record ServiceEntry := mkServiceEntry {
  se_Instance : string;
  se_AddrIPv4 : list IP;
  se_AddrIPv6 : list IP;
  se_Port : Z;
  se_Text : list string }.

(** One TXT record. *)
Definition take_record (e : Entry) (kv : string) : Entry :=
  match Cut "=" kv with
  | None => e
  | Some (k, v) =>
      let '(mkEntry i ad id sh ho adp ver mo td ts tg) := e in
      if String.eqb k "capsule_id" then mkEntry i ad v sh ho adp ver mo td ts tg
      else if String.eqb k "short_id" then mkEntry i ad id v ho adp ver mo td ts tg
      else if String.eqb k "hostname" then mkEntry i ad id sh v adp ver mo td ts tg
      else if String.eqb k "adopted" then mkEntry i ad id sh ho (String.eqb v "true") ver mo td ts tg
      else if String.eqb k "version" then mkEntry i ad id sh ho adp v mo td ts tg
      else if String.eqb k "mode" then mkEntry i ad id sh ho adp ver v td ts tg
      else if String.eqb k "target_disk" then mkEntry i ad id sh ho adp ver mo v ts tg
      else if String.eqb k "target_size_bytes" then
        match ParseUint v with Some n => mkEntry i ad id sh ho adp ver mo td n tg | None => e end
      else if String.eqb k "targets" then
        if negb (String.eqb v "") then mkEntry i ad id sh ho adp ver mo td ts (Split "," v) else e
      else e
  end.

Section Browser.
(** [net.JoinHostPort(ip.String(), port)] *)
Context (host_port : IP -> Z -> string).

Definition fromServiceEntry (s : ServiceEntry) : Entry :=
  let ip := match pickIPv4 (se_AddrIPv4 s) with Some a => Some a | None => pickIPv6 (se_AddrIPv6 s) end in
  let addr := match ip with Some a => host_port a (se_Port s) | None => "" end in
  foldl take_record (mkEntry (se_Instance s) addr "" "" "" false "" "" "" 0 []) (se_Text s).

(** [Browse] on the answers that came before the timeout. *)
Definition Browse (results : list ServiceEntry) : list Entry :=
  filter (fun e => en_CapsuleID e <> "") (fromServiceEntry <$> results).
End Browser.

(** ** Round trip *)

Lemma take_record_key e k v :
  no_char "=" k = true ->
  take_record e (k +:+ String "=" v) =
    let '(mkEntry i ad id sh ho adp ver mo td ts tg) := e in
      if String.eqb k "capsule_id" then mkEntry i ad v sh ho adp ver mo td ts tg
      else if String.eqb k "short_id" then mkEntry i ad id v ho adp ver mo td ts tg
      else if String.eqb k "hostname" then mkEntry i ad id sh v adp ver mo td ts tg
      else if String.eqb k "adopted" then mkEntry i ad id sh ho (String.eqb v "true") ver mo td ts tg
      else if String.eqb k "version" then mkEntry i ad id sh ho adp v mo td ts tg
      else if String.eqb k "mode" then mkEntry i ad id sh ho adp ver v td ts tg
      else if String.eqb k "target_disk" then mkEntry i ad id sh ho adp ver mo v ts tg
      else if String.eqb k "target_size_bytes" then
        match ParseUint v with Some n => mkEntry i ad id sh ho adp ver mo td n tg | None => e end
      else if String.eqb k "targets" then
        if negb (String.eqb v "") then mkEntry i ad id sh ho adp ver mo td ts (Split "," v) else e
      else e.
Proof. intros Hk. unfold take_record. by rewrite Cut_app. Qed.

(** Target paths that survive the comma-separated list. *)
Definition plain_targets (l : list string) : Prop := Forall (fun t => no_char "," t = true /\ t <> "") l.

Lemma Join_targets l : l <> [] -> plain_targets l ->
  Join l "," <> "" /\ Split "," (Join l ",") = l.
Proof.
  intros Hne Hl. split.
  - destruct l as [|x [|y l]]; [done|..]; apply Forall_cons in Hl as [[_ Hx] _]; [done|].
    rewrite Join_cons. by destruct x.
  - apply Split_Join; [done|]. eapply Forall_impl; [exact Hl|]. by intros x [? _].
Qed.

(** The installer fields travel in installer mode only. *)
Definition target_fields (a : Announcement) : string * Z * list string :=
  if String.eqb (announced_mode a) "installer"
  then (an_TargetDisk a, an_TargetSizeBytes a, sort_Strings (an_Targets a)) else ("", 0%Z, []).

Lemma sort_Strings_nil l : sort_Strings l = [] <-> l = [].
Proof.
  unfold sort_Strings. pose proof (merge_sort_Permutation String.le l) as H. split; [|by intros ->].
  intros E. rewrite E in H. by apply Permutation_nil in H.
Qed.

(** What the announcer publishes is what the browser reads: from the TXT
    records of an announcement, [fromServiceEntry] recovers the capsule id,
    the short id, the hostname, the adopted flag, the version and the mode
    (empty becomes "runtime") and, in installer mode, the target disk, its
    size and the targets in sorted order. *)
Theorem announcement_roundtrip host_port a s :
  (0 <= an_TargetSizeBytes a < 2 ^ 64)%Z -> plain_targets (an_Targets a) -> se_Text s = text a ->
  let e := fromServiceEntry host_port s in
  en_CapsuleID e = an_CapsuleID a /\ en_ShortID e = an_ShortID a /\ en_Hostname e = an_Hostname a /\
  en_Adopted e = an_Adopted a /\ en_Version e = an_Version a /\ en_Mode e = announced_mode a /\
  (en_TargetDisk e, en_TargetSizeBytes e, en_Targets e) = target_fields a.
Proof.
  intros Hsz Htg Htx. unfold fromServiceEntry. rewrite Htx. unfold text. cbv zeta.
  set (addr := match _ with Some _ => _ | None => _ end). set (e0 := mkEntry _ _ _ _ _ _ _ _ _ _ _).
  rewrite !foldl_app.
  assert (foldl take_record e0
      ["capsule_id=" +:+ an_CapsuleID a; "short_id=" +:+ an_ShortID a; "adopted=" +:+ boolStr (an_Adopted a);
       "version=" +:+ an_Version a; "mode=" +:+ announced_mode a] =
    mkEntry (se_Instance s) addr (an_CapsuleID a) (an_ShortID a) "" (an_Adopted a) (an_Version a)
      (announced_mode a) "" 0 []) as ->.
  { subst e0. simpl. by destruct (an_Adopted a). }
  assert (forall ho, foldl take_record
      (mkEntry (se_Instance s) addr (an_CapsuleID a) (an_ShortID a) "" (an_Adopted a) (an_Version a)
        (announced_mode a) "" 0 []) (if negb (String.eqb ho "") then ["hostname=" +:+ ho] else []) =
    mkEntry (se_Instance s) addr (an_CapsuleID a) (an_ShortID a) ho (an_Adopted a) (an_Version a)
      (announced_mode a) "" 0 []) as ->.
  { intros ho. by destruct (String.eqb_spec ho "") as [->|]. }
  unfold target_fields. destruct (String.eqb (announced_mode a) "installer"); [|by split_and!].
  rewrite !foldl_app.
  set (e1 := foldl take_record _ (if negb (String.eqb (an_TargetDisk a) "") then _ else _)).
  assert (e1 = mkEntry (se_Instance s) addr (an_CapsuleID a) (an_ShortID a) (an_Hostname a) (an_Adopted a)
    (an_Version a) (announced_mode a) (an_TargetDisk a) 0 []) as ->.
  { subst e1. by destruct (String.eqb_spec (an_TargetDisk a) "") as [->|]. }
  set (e2 := foldl take_record _ (if (0 <? an_TargetSizeBytes a)%Z then _ else _)).
  assert (e2 = mkEntry (se_Instance s) addr (an_CapsuleID a) (an_ShortID a) (an_Hostname a) (an_Adopted a)
    (an_Version a) (announced_mode a) (an_TargetDisk a) (an_TargetSizeBytes a) []) as ->.
  { subst e2. destruct (Z.ltb_spec 0 (an_TargetSizeBytes a)).
    - cbn [foldl].
      change ("target_size_bytes=" +:+ Itoa (an_TargetSizeBytes a))
        with ("target_size_bytes" +:+ String "=" (Itoa (an_TargetSizeBytes a))).
      rewrite take_record_key by done. cbn [String.eqb]. simpl. by rewrite ParseUint_Itoa.
    - simpl. replace (an_TargetSizeBytes a) with 0%Z by lia. done. }
  assert (plain_targets (sort_Strings (an_Targets a))) as Hs.
  { unfold plain_targets, sort_Strings. by rewrite merge_sort_Permutation. }
  destruct (Z.ltb_spec 0 (Z.of_nat (List.length (an_Targets a)))) as [Hl|Hl].
  - assert (sort_Strings (an_Targets a) <> []) as Hne.
    { rewrite sort_Strings_nil. intros E. rewrite E in Hl. simpl in Hl. lia. }
    destruct (Join_targets _ Hne Hs) as [Hj Hsp]. cbn [foldl].
    change ("targets=" +:+ Join (sort_Strings (an_Targets a)) ",")
      with ("targets" +:+ String "=" (Join (sort_Strings (an_Targets a)) ",")).
    rewrite take_record_key by done. simpl.
    destruct (String.eqb_spec (Join (sort_Strings (an_Targets a)) ",") ""); [done|]. simpl. by rewrite Hsp.
  - simpl. destruct (an_Targets a) as [|x l]; [done|]. simpl in Hl. lia.
Qed.

Definition demo_announcement : Announcement :=
  mkAnnouncement "6f1c" "capsule-6f1c" "" true "v1" "installer" "/dev/nvme0n1" 512110190592 ["/dev/sda"; "/dev/nvme0n1"].
Definition demo_answer : ServiceEntry :=
  mkServiceEntry "capsule-6f1c" [[192; 168; 1; 7]%Z] [] 50000 (text demo_announcement).

Lemma announcement_roundtrip_witness :
  en_CapsuleID (fromServiceEntry (fun _ _ => "192.168.1.7:50000") demo_answer) = "6f1c" /\
  en_Targets (fromServiceEntry (fun _ _ => "192.168.1.7:50000") demo_answer) = ["/dev/nvme0n1"; "/dev/sda"].
Proof.
  destruct (announcement_roundtrip (fun _ _ => "192.168.1.7:50000") demo_announcement demo_answer)
    as (Hid & _ & _ & _ & _ & _ & Ht).
  - split; [discriminate|reflexivity].
  - repeat constructor; discriminate.
  - reflexivity.
  - split; [exact Hid|]. exact (f_equal (fun p => p.2) Ht).
Defined.

(** [MarkAdopted] keeps the instance on the air and changes one flag. *)
Lemma MarkAdopted_spec registers a i tx :
  am_server a = Some (i, tx) -> tx = text (am_current a) ->
  exists a', MarkAdopted registers a = (Ok tt, a') /\ am_server a' = Some (i, text (set_adopted (am_current a))) /\
    an_Adopted (am_current a') = true.
Proof.
  intros Hs Ht. unfold MarkAdopted. rewrite Hs. destruct (an_Adopted (am_current a)) eqn:Ea.
  - exists a. split_and!; [done| |done]. rewrite Hs, Ht. do 2 f_equal.
    destruct (am_current a); simpl in *; by subst.
  - unfold mdns_Update. rewrite Hs. replace (instanceName (set_adopted (am_current a))) with (instanceName (am_current a)) by done.
    rewrite String.eqb_refl. eexists. by split_and!.
Qed.
