(* ===== verification/Identity.v ===== *)
(** * Adoption and operator keys: controllers/identity.go, cmd/capsuled/main.go

    The identity controller works on the store, the claim window and the mDNS
    announcer.  The startup code of the daemon decides which store is used,
    seeds the identity, opens the claim window and honours RESET_AUTH. *)

From S2P Require Import Prelude GoStrings Net Models Store MemoryStore Runtime Base64 Bytes Disks Auth Mdns.

Set Default Goal Selector "!".
Local Open Scope go_scope.

(** ** The world of the controller *)

Record IWorld (S : Type) := mkIWorld {
  iw_store : S;
  iw_claim : ClaimWindow;
  iw_mdns : option Announcer }.
Arguments mkIWorld {S}.
Arguments iw_store {S}.
Arguments iw_claim {S}.
Arguments iw_mdns {S}.

Record AdoptResponse := mkAdoptResponse { ar_CapsuleId : string; ar_Kid : string; ar_TlsFingerprintSha256 : string }.
Record WhoAmIResponse := mkWhoAmIResponse { wr_CapsuleId : string; wr_Kid : string; wr_Name : string }.
(** The wire form of a key: no public key bytes. *)
Record KeyInfo := mkKeyInfo { ki_Kid : string; ki_Name : string; ki_AddedByKid : string; ki_AddedAtUnix : Z }.

(** [status.Errorf(code, prefix + "%v", err)] *)
Definition status_of {W A} (c : code) (prefix : string) (m : prog W A) : prog W A := fun w =>
  match m w with
  | (Ok a, w') => (Ok a, w')
  | (Err e, w') => (Err (StatusError c (prefix +:+ Error e)), w')
  end.

Section Identity.
Context {S : Type} `{!Store S} {TL : TokenLib}.
Context (registers : string -> option error) (TLSFingerprint : string).

Definition istore {A} : prog S A -> prog (IWorld S) A :=
  zoom iw_store (fun s w => mkIWorld s (iw_claim w) (iw_mdns w)).

Definition claim_Open : prog (IWorld S) bool := fun w => (Ok (cw_open (iw_claim w)), w).
Definition claim_Close : prog (IWorld S) unit := fun w =>
  (Ok tt, mkIWorld (iw_store w) (cw_Close (iw_claim w)) (iw_mdns w)).

Definition mark_adopted : prog (IWorld S) unit := fun w =>
  match iw_mdns w with
  | None => (Ok tt, w)
  | Some a => (Ok tt, mkIWorld (iw_store w) (iw_claim w) (Some (MarkAdopted registers a).2))
  end.

Definition set_adoption (id : CapsuleIdentity) (at_ : Z) (kid : string) : CapsuleIdentity :=
  mkCapsuleIdentity (ci_CapsuleID id) (ci_ShortID id) (ci_CreatedAtUnix id) at_ kid.

(** The pre-enrolled path: the window is closed. *)
Definition adopt_closed (kid : string) : prog (IWorld S) AdoptResponse :=
  r <- catch (istore (kst_Get kid)) ;;
  match r with
  | Err _ => fail (StatusError CodeFailedPrecondition
               "adoption window closed; use an enrolled key, or trigger RESET_AUTH at the console")
  | Ok _ =>
      id <- status_of CodeInternal "load identity: " (istore ist_Get) ;;
      ret (mkAdoptResponse (ci_CapsuleID id) kid TLSFingerprint)
  end.

(** The bootstrap path: the window was open when it was read. *)
Definition adopt_open (now : Z) (pub kid name : string) : prog (IWorld S) AdoptResponse :=
  let name := if String.eqb name "" then "operator" else name in
  id <- status_of CodeInternal "load identity: " (istore ist_Get) ;;
  r <- catch (istore (kst_Add now (mkAuthorizedKey kid pub name "" now))) ;;
  match r with
  | Ok _ => ret tt
  | Err e => if errors_Is e StoreConflict then ret tt
             else fail (StatusError CodeInternal ("store key: " +:+ Error e))
  end ;;;
  let id' := set_adoption id now kid in
  status_of CodeInternal "save identity: " (istore (ist_Put now id')) ;;;
  claim_Close ;;;
  mark_adopted ;;;
  ret (mkAdoptResponse (ci_CapsuleID id') kid TLSFingerprint).

Definition Adopt (now : Z) (pubkey name : string) : prog (IWorld S) AdoptResponse :=
  match ParsePubkey pubkey with
  | Err e => fail (StatusError CodeInvalidArgument (Error e))
  | Ok pub =>
      let kid := KidFromPubkey pub in
      is_open <- claim_Open ;;
      if negb is_open then adopt_closed kid else adopt_open now pub kid name
  end.

Definition WhoAmI (ctx : Ctx) : prog (IWorld S) WhoAmIResponse :=
  let kid := KidFromContext ctx in
  if String.eqb kid "" then fail (StatusError CodeUnauthenticated "no authenticated identity")
  else
    id <- status_of CodeInternal "load identity: " (istore ist_Get) ;;
    k <- catch (istore (kst_Get kid)) ;;
    match k with
    | Err _ => ret (mkWhoAmIResponse (ci_CapsuleID id) kid "")
    | Ok k => ret (mkWhoAmIResponse (ci_CapsuleID id) kid (ak_Name k))
    end.

Definition KeyAdd (now : Z) (ctx : Ctx) (pubkey name : string) : prog (IWorld S) KeyInfo :=
  let caller := KidFromContext ctx in
  if String.eqb caller "" then fail (StatusError CodeUnauthenticated "no authenticated identity")
  else match ParsePubkey pubkey with
  | Err e => fail (StatusError CodeInvalidArgument (Error e))
  | Ok pub =>
      if String.eqb name "" then fail (StatusError CodeInvalidArgument "name required")
      else
        let kid := KidFromPubkey pub in
        r <- catch (istore (kst_Add now (mkAuthorizedKey kid pub name caller now))) ;;
        match r with
        | Err e =>
            if errors_Is e StoreConflict then fail (StatusError CodeAlreadyExists "key already enrolled")
            else fail (StatusError CodeInternal ("store key: " +:+ Error e))
        | Ok _ => ret (mkKeyInfo kid name caller now)
        end
  end.

Definition KeyList : prog (IWorld S) (list KeyInfo) :=
  keys <- status_of CodeInternal "list keys: " (istore kst_List) ;;
  ret ((fun k => mkKeyInfo (ak_Kid k) (ak_Name k) (ak_AddedByKid k) (ak_AddedAtUnix k)) <$> keys).

(** The checks of [KeyRemove], then the removal. *)
Definition key_remove_check (ctx : Ctx) (kid : string) : prog (IWorld S) unit :=
  if String.eqb (KidFromContext ctx) "" then fail (StatusError CodeUnauthenticated "no authenticated identity")
  else if String.eqb kid "" then fail (StatusError CodeInvalidArgument "kid required")
  else
    count <- status_of CodeInternal "count keys: " (istore kst_Count) ;;
    if (Z.of_nat count <=? 1)%Z then
      fail (StatusError CodeFailedPrecondition
        "cannot remove the last enrolled key; add another first or use the console RESET_AUTH procedure")
    else ret tt.
Definition key_remove_commit (kid : string) : prog (IWorld S) unit :=
  status_of CodeInternal "delete key: " (istore (kst_Delete kid)).
Definition KeyRemove (ctx : Ctx) (kid : string) : prog (IWorld S) unit :=
  key_remove_check ctx kid ;;; key_remove_commit kid.

(** The key lookup main.go gives the authenticator. *)
Definition lookup_key (kid : string) : prog (IWorld S) (option string) :=
  r <- catch (istore (kst_Get kid)) ;;
  match r with
  | Err _ => ret None
  | Ok k => match ParsePubkey (ak_Pubkey k) with Err _ => ret None | Ok pub => ret (Some pub) end
  end.

(** ** Startup *)

(** [uuid.Parse], and the bytes it gives. *)
Context (uuid_Parse : string -> option (list Z)).

Definition hex2 (b : Z) : string := EncodeToString (String (byte b) "").

Definition deriveShortID (capsuleID : string) : string :=
  match uuid_Parse capsuleID with
  | Some (u0 :: u1 :: _) => "capsule-" +:+ hex2 u0 +:+ hex2 u1
  | _ => ""
  end.

Definition set_short_id (id : CapsuleIdentity) (s : string) : CapsuleIdentity :=
  mkCapsuleIdentity (ci_CapsuleID id) s (ci_CreatedAtUnix id) (ci_AdoptedAtUnix id) (ci_AdoptedByKid id).

(** [fresh] is the new UUID, should one be needed. *)
Definition ensureIdentity (now : Z) (fresh : string) : prog S CapsuleIdentity :=
  r <- catch ist_Get ;;
  match r with
  | Ok id =>
      if String.eqb (ci_ShortID id) "" then
        let id' := set_short_id id (deriveShortID (ci_CapsuleID id)) in
        ist_Put now id' ;;; ret id'
      else ret id
  | Err e =>
      if negb (errors_Is e StoreNotFound) then fail e
      else
        let id := mkCapsuleIdentity fresh (deriveShortID fresh) now 0 "" in
        ist_Put now id ;;; ret id
  end.

(** RESET_AUTH: honoured within five minutes of the sentinel's mtime. *)
Definition resetAuthMaxAge : Z := 5 * 60 * Second.
Definition reset_honored (now mtime : Z) : bool := (now - mtime <=? resetAuthMaxAge)%Z.

Definition wipeAuth (now : Z) : prog S unit :=
  kst_DeleteAll ;;;
  r <- catch ist_Get ;;
  match r with
  | Err e => if negb (errors_Is e StoreNotFound) then fail e else ret tt
  | Ok id => ist_Put now (set_adoption id 0 "")
  end.
End Identity.

(** Which store main.go runs on, and whether its state is broken. *)
Inductive store_choice := UseMemory | UseSqlite.

Definition choose_store (isPID1 : bool) (br : BootResult) (opened : result unit) : store_choice * bool * string :=
  if isPID1 && negb (String.eqb (br_ActiveSlot br) "") && negb (br_MountedPerm br) && negb (br_InstallerMode br) then
    (UseMemory, true, "/perm mount failed: " +:+ br_MountPermErr br)
  else if br_MountedPerm br then
    match opened with
    | Err e => (UseMemory, true, "sqlite open: " +:+ Error e)
    | Ok _ => (UseSqlite, false, "")
    end
  else (UseMemory, false, "").

Definition claimWindowDuration : Z := 30 * 60 * Second.

(** The claim window of a boot: [count] is what [Count] answered on the store
    in use; its error is dropped and the count is then zero. *)
Definition boot_claim (now : Z) (stateBroken : bool) (count : result nat) : ClaimWindow :=
  let enrolledCount := match count with Ok n => Z.of_nat n | Err _ => 0%Z end in
  let claimSeed := if stateBroken then 1%Z else enrolledCount in
  NewClaimWindow now claimSeed claimWindowDuration.

(** ** The controller's invariant *)

(** An enrolled key is stored under the kid its public key determines. *)
Definition key_ok {TL : TokenLib} (kid : string) (k : AuthorizedKey) : Prop :=
  ak_Kid k = kid /\ kid = KidFromPubkey (ak_Pubkey k) /\ Z.of_nat (String.length (ak_Pubkey k)) = PublicKeySize.

Definition claim_ok (c : ClaimWindow) : Prop := cw_once c = true -> cw_open c = false.

Lemma cw_Close_closed c : claim_ok c -> cw_open (cw_Close c) = false.
Proof. unfold claim_ok, cw_Close. destruct (cw_once c); auto. Qed.
Lemma cw_Close_ok c : claim_ok c -> claim_ok (cw_Close c).
Proof. unfold claim_ok, cw_Close. destruct (cw_once c) eqn:E; auto. Qed.

Lemma ParsePubkey_Ok b pub :
  ParsePubkey b = Ok pub <-> pub = b /\ Z.of_nat (String.length b) = PublicKeySize.
Proof.
  unfold ParsePubkey. destruct (Z.eqb_spec (Z.of_nat (String.length b)) PublicKeySize); simpl; naive_solver.
Qed.

Section controller.
Context {S : Type} `{!Store S, !StoreLaws S} {TL : TokenLib}.
Context (registers : string -> option error) (fp : string).
Implicit Types w : IWorld S.

Definition ikeys w : gmap string AuthorizedKey := v_keys (view (iw_store w)).
Definition iid w : option CapsuleIdentity := v_identity (view (iw_store w)).
Definition iworld_ok w : Prop :=
  store_ok (iw_store w) /\ map_Forall key_ok (ikeys w) /\ claim_ok (iw_claim w).
Definition with_istore (s : S) w : IWorld S := mkIWorld s (iw_claim w) (iw_mdns w).

(** *** Store calls *)

Lemma i_kst_Get kid w : store_ok (iw_store w) ->
  exists r s', istore (kst_Get kid) w = (r, with_istore s' w) /\ store_ok s' /\ view s' = view (iw_store w) /\
    match r with Ok k => ikeys w !! kid = Some k | Err _ => True end.
Proof.
  intros Hok. pose proof (kst_Get_law kid (iw_store w) Hok) as H. unfold istore, zoom.
  destruct (kst_Get kid (iw_store w)) as [r s']. destruct H as (? & ? & H). exists r, s'. by destruct r.
Qed.
Lemma i_ist_Get w : store_ok (iw_store w) ->
  exists r s', istore ist_Get w = (r, with_istore s' w) /\ store_ok s' /\ view s' = view (iw_store w) /\
    match r with Ok id => iid w = Some id | Err _ => True end.
Proof.
  intros Hok. pose proof (ist_Get_law (iw_store w) Hok) as H. unfold istore, zoom.
  destruct (ist_Get (iw_store w)) as [r s']. destruct H as (? & ? & H). exists r, s'. by destruct r.
Qed.
Lemma i_ist_Put now id w : store_ok (iw_store w) ->
  exists r s', istore (ist_Put now id) w = (r, with_istore s' w) /\ store_ok s' /\
    view s' = match r with Ok _ => set_identity (Some (stamp_identity now id)) (view (iw_store w))
              | Err _ => view (iw_store w) end.
Proof.
  intros Hok. pose proof (ist_Put_law now id (iw_store w) Hok) as H. unfold istore, zoom.
  destruct (ist_Put now id (iw_store w)) as [r s']. destruct H as (? & H). exists r, s'. by destruct r.
Qed.
Lemma i_kst_Add now k w : store_ok (iw_store w) ->
  exists r s', istore (kst_Add now k) w = (r, with_istore s' w) /\ store_ok s' /\
    match r with
    | Ok _ => ikeys w !! ak_Kid k = None /\ view s' = on_keys <[ak_Kid k := stamp_key now k]> (view (iw_store w))
    | Err e => view s' = view (iw_store w) /\ (errors_Is e StoreConflict = true -> is_Some (ikeys w !! ak_Kid k))
    end.
Proof.
  intros Hok. pose proof (kst_Add_law now k (iw_store w) Hok) as H. unfold istore, zoom.
  destruct (kst_Add now k (iw_store w)) as [r s']. destruct H as (? & H). exists r, s'. by destruct r.
Qed.
Lemma i_kst_Count w : store_ok (iw_store w) ->
  exists r s', istore kst_Count w = (r, with_istore s' w) /\ store_ok s' /\ view s' = view (iw_store w) /\
    match r with Ok n => n = size (ikeys w) | Err _ => True end.
Proof.
  intros Hok. pose proof (kst_Count_law (iw_store w) Hok) as H. unfold istore, zoom.
  destruct (kst_Count (iw_store w)) as [r s']. destruct H as (? & ? & H). by exists r, s'.
Qed.
Lemma i_kst_Delete kid w : store_ok (iw_store w) ->
  exists r s', istore (kst_Delete kid) w = (r, with_istore s' w) /\ store_ok s' /\
    view s' = match r with Ok _ => on_keys (delete kid) (view (iw_store w)) | Err _ => view (iw_store w) end.
Proof.
  intros Hok. pose proof (kst_Delete_law kid (iw_store w) Hok) as H. unfold istore, zoom.
  destruct (kst_Delete kid (iw_store w)) as [r s']. destruct H as (? & H). exists r, s'. by destruct r.
Qed.

(** *** Adopt *)

(** A key is added under a free kid, or not at all. *)
Definition keys_extend (kid : string) w w' : Prop :=
  ikeys w' = ikeys w \/ (ikeys w !! kid = None /\ exists k, ikeys w' = <[kid := k]> (ikeys w) /\ key_ok kid k).

(** The announcer is the only part [mark_adopted] touches. *)
Lemma mark_adopted_store w r w' : mark_adopted registers w = (r, w') ->
  r = Ok tt /\ iw_store w' = iw_store w /\ iw_claim w' = iw_claim w.
Proof. unfold mark_adopted. destruct (iw_mdns w); by intros [= <- <-]. Qed.

Definition adopt_post now kid w (r : result AdoptResponse) w' : Prop :=
  keys_extend kid w w' /\ store_ok (iw_store w') /\
  match r with
  | Ok resp => is_Some (ikeys w' !! kid) /\ ar_Kid resp = kid /\ cw_open (iw_claim w') = false /\
      claim_ok (iw_claim w') /\
      exists id, iid w = Some id /\ iid w' = Some (stamp_identity now (set_adoption id now kid)) /\
        ar_CapsuleId resp = ci_CapsuleID id
  | Err _ => iid w' = iid w /\ iw_claim w' = iw_claim w
  end.

Lemma adopt_finish now kid id w1 w r w' :
  store_ok (iw_store w1) -> claim_ok (iw_claim w1) -> iid w1 = Some id -> iid w = Some id ->
  iw_claim w1 = iw_claim w -> keys_extend kid w w1 -> is_Some (ikeys w1 !! kid) ->
  bind (status_of CodeInternal "save identity: " (istore (ist_Put now (set_adoption id now kid)))) (fun _ =>
    bind claim_Close (fun _ => bind (mark_adopted registers) (fun _ =>
      ret (mkAdoptResponse (ci_CapsuleID (set_adoption id now kid)) kid fp)))) w1 = (r, w') ->
  adopt_post now kid w r w'.
Proof.
  intros Hok Hcl Hid Hid0 Hcw Hext Hk H. unfold bind, status_of in H.
  destruct (i_ist_Put now (set_adoption id now kid) w1 Hok) as (rp & s2 & Hp & Hok2 & Hv2). rewrite Hp in H.
  destruct rp as [[]|e]; cycle 1.
  { simplify_eq. unfold adopt_post, keys_extend, ikeys, iid in *. simpl. rewrite Hv2. split_and!; try done.
    congruence. }
  unfold claim_Close in H. cbv beta iota in H.
  match type of H with context [mark_adopted registers ?x] => destruct (mark_adopted registers x) as [rm w3] eqn:Hm end.
  apply mark_adopted_store in Hm as (-> & Hs & Hc). unfold ret in H. simplify_eq. simpl in Hs, Hc.
  unfold adopt_post, keys_extend, ikeys, iid in *. rewrite Hs, Hc, Hv2. simpl.
  split_and!; try done; [by apply cw_Close_closed|by apply cw_Close_ok|]. exists id. by split_and!.
Qed.

Lemma adopt_open_spec now pub name w r w' :
  iworld_ok w -> Z.of_nat (String.length pub) = PublicKeySize ->
  adopt_open registers fp now pub (KidFromPubkey pub) name w = (r, w') ->
  adopt_post now (KidFromPubkey pub) w r w'.
Proof.
  intros (Hok & Hkeys & Hcl) Hlen H. unfold adopt_open in H. cbv zeta in H.
  set (kid := KidFromPubkey pub) in *. unfold bind at 1, status_of at 1 in H.
  destruct (i_ist_Get w Hok) as (ri & s1 & Hi & Hok1 & Hv1 & Hid). rewrite Hi in H.
  assert (ikeys (with_istore s1 w) = ikeys w /\ iid (with_istore s1 w) = iid w) as [Ek1 Ei1]
    by (unfold ikeys, iid; simpl; by rewrite Hv1).
  destruct ri as [id|e]; [|simplify_eq; split_and!; [by left|done..]].
  unfold bind at 1, catch in H. set (key := mkAuthorizedKey _ _ _ _ _) in H.
  destruct (i_kst_Add now key (with_istore s1 w) Hok1) as (ra & s2 & Ha & Hok2 & Hadd). rewrite Ha in H.
  rewrite Ek1 in Hadd. simpl in Hadd. unfold bind at 1 in H.
  destruct ra as [[]|e].
  - destruct Hadd as [Hnone Hv2]. change (ak_Kid key) with kid in *.
    assert (ikeys (with_istore s2 (with_istore s1 w)) = <[kid := stamp_key now key]> (ikeys w)) as Ek2
      by (unfold ikeys; simpl; by rewrite Hv2, Hv1).
    eapply (adopt_finish now kid id _ w); [..|exact H]; try done.
    + unfold iid in *. simpl in *. rewrite Hv2. simpl. by rewrite Ei1.
    + right. split; [done|]. exists (stamp_key now key). by rewrite Ek2.
    + rewrite Ek2, lookup_insert_eq. eauto.
  - destruct Hadd as [Hv2 Hconf].
    assert (ikeys (with_istore s2 (with_istore s1 w)) = ikeys w) as Ek2
      by (unfold ikeys; simpl; by rewrite Hv2, Hv1).
    assert (iid (with_istore s2 (with_istore s1 w)) = iid w) as Ei2
      by (unfold iid; simpl; by rewrite Hv2, Hv1).
    destruct (errors_Is e StoreConflict); unfold ret, fail in H.
    + eapply (adopt_finish now kid id _ w); [..|exact H]; try done; [by rewrite Ei2|by left|].
      rewrite Ek2. by apply Hconf.
    + simplify_eq. split_and!; try done. by left.
Qed.

Lemma adopt_closed_spec kid w r w' :
  store_ok (iw_store w) -> adopt_closed fp kid w = (r, w') ->
  view (iw_store w') = view (iw_store w) /\ store_ok (iw_store w') /\ iw_claim w' = iw_claim w /\
  match r with
  | Ok resp => is_Some (ikeys w !! kid) /\ ar_Kid resp = kid /\ ci_CapsuleID <$> iid w = Some (ar_CapsuleId resp)
  | Err _ => True
  end.
Proof.
  intros Hok H. unfold adopt_closed in H. unfold bind at 1, catch in H.
  destruct (i_kst_Get kid w Hok) as (rk & s1 & Hk & Hok1 & Hv1 & Hget). rewrite Hk in H.
  destruct rk as [k|e]; [|unfold fail in H; by simplify_eq]. unfold bind, status_of in H.
  destruct (i_ist_Get (with_istore s1 w) Hok1) as (ri & s2 & Hi & Hok2 & Hv2 & Hid). rewrite Hi in H.
  unfold iid in *. simpl in *. rewrite Hv1 in *.
  destruct ri as [id|e]; unfold ret in H; simplify_eq; simpl; (split_and!; try done; by rewrite ?Hget, ?Hid).
Qed.

Lemma same_view_ok w w' :
  iworld_ok w -> view (iw_store w') = view (iw_store w) -> store_ok (iw_store w') -> iw_claim w' = iw_claim w ->
  iworld_ok w' /\ ikeys w' = ikeys w /\ iid w' = iid w.
Proof. intros (_ & Hk & Hc) Hv Hok Hcl. unfold iworld_ok, ikeys, iid. by rewrite Hv, Hcl. Qed.

Lemma keys_extend_ok kid w w' : map_Forall key_ok (ikeys w) -> keys_extend kid w w' -> map_Forall key_ok (ikeys w').
Proof. intros Hk [->|(_ & k & -> & Hok)]; [done|]. by apply map_Forall_insert_2. Qed.

Lemma Adopt_cases now pubkey name w r w' :
  iworld_ok w -> Adopt registers fp now pubkey name w = (r, w') ->
  iworld_ok w' /\ keys_extend (KidFromPubkey pubkey) w w' /\
  (cw_open (iw_claim w) = false -> ikeys w' = ikeys w /\ iid w' = iid w /\ iw_claim w' = iw_claim w) /\
  match r with
  | Ok resp => is_Some (ikeys w' !! KidFromPubkey pubkey) /\ ar_Kid resp = KidFromPubkey pubkey /\
      cw_open (iw_claim w') = false /\ ci_CapsuleID <$> iid w' = Some (ar_CapsuleId resp)
  | Err _ => iid w' = iid w /\ iw_claim w' = iw_claim w
  end.
Proof.
  intros Hw H. unfold Adopt in H. destruct (ParsePubkey pubkey) as [pub|e] eqn:Hp.
  2:{ unfold fail in H. simplify_eq. split_and!; try done. by left. }
  apply ParsePubkey_Ok in Hp as [-> Hlen]. unfold bind, claim_Open in H. cbv zeta in H.
  destruct (cw_open (iw_claim w)) eqn:Ho; simpl in H.
  - apply adopt_open_spec in H as (Hext & Hok & H); [|done..]. pose proof Hw as (_ & Hk & Hcl).
    assert (map_Forall key_ok (ikeys w')) as Hk' by (by eapply keys_extend_ok).
    destruct r as [resp|e].
    + destruct H as (Hin & Hkid & Hopen & Hcl' & id & Hid & Hid' & Hcid).
      unfold iworld_ok. split_and!; try done. by rewrite Hid', Hcid.
    + destruct H as [Hid Hc]. unfold iworld_ok. split_and!; try done. by rewrite Hc.
  - apply adopt_closed_spec in H as (Hv & Hok & Hc & H); [|apply Hw].
    destruct (same_view_ok w w' Hw Hv Hok Hc) as (Hw' & Ek & Ei).
    rewrite Ek, Ei, Hc, Ho. split_and!; try done; [by left|]. destruct r; [|done].
    destruct H as (? & ? & ?). by split_and!.
Qed.

Lemma Adopt_Ok now pubkey name w resp w' :
  iworld_ok w -> Adopt registers fp now pubkey name w = (Ok resp, w') ->
  Z.of_nat (String.length pubkey) = PublicKeySize /\ ci_CapsuleID <$> iid w = Some (ar_CapsuleId resp).
Proof.
  intros Hw H. unfold Adopt in H. destruct (ParsePubkey pubkey) as [pub|e] eqn:Hp; [|done].
  apply ParsePubkey_Ok in Hp as [-> Hlen]. unfold bind, claim_Open in H. cbv zeta in H.
  split; [done|]. destruct (cw_open (iw_claim w)); simpl in H.
  - apply adopt_open_spec in H as (_ & _ & _ & _ & _ & _ & id & -> & _ & ->); done.
  - by apply adopt_closed_spec in H as (_ & _ & _ & _ & _ & ->); [|apply Hw].
Qed.

Lemma KeyAdd_cases now ctx pubkey name w r w' :
  iworld_ok w -> KeyAdd now ctx pubkey name w = (r, w') ->
  iworld_ok w' /\ iid w' = iid w /\ iw_claim w' = iw_claim w /\ keys_extend (KidFromPubkey pubkey) w w' /\
  (KidFromContext ctx = "" -> ikeys w' = ikeys w) /\
  match r with
  | Ok k => ikeys w !! KidFromPubkey pubkey = None /\ is_Some (ikeys w' !! KidFromPubkey pubkey) /\
      ki_Kid k = KidFromPubkey pubkey /\ ki_AddedByKid k = KidFromContext ctx
  | Err _ => ikeys w' = ikeys w
  end.
Proof.
  intros Hw H. unfold KeyAdd in H. cbv zeta in H.
  destruct (String.eqb_spec (KidFromContext ctx) "") as [E|E];
    [unfold fail in H; simplify_eq; split_and!; try done; by left|].
  destruct (ParsePubkey pubkey) as [pub|e] eqn:Hp; [|unfold fail in H; simplify_eq; split_and!; try done; by left].
  apply ParsePubkey_Ok in Hp as [-> Hlen].
  destruct (String.eqb name ""); [unfold fail in H; simplify_eq; split_and!; try done; by left|].
  set (kid := KidFromPubkey pubkey) in *. unfold bind, catch in H. set (key := mkAuthorizedKey _ _ _ _ _) in H.
  destruct Hw as (Hok & Hk & Hcl).
  destruct (i_kst_Add now key w Hok) as (ra & s2 & Ha & Hok2 & Hadd). rewrite Ha in H.
  destruct ra as [[]|e].
  - unfold ret in H. simplify_eq. destruct Hadd as [Hnone Hv]. change (ak_Kid key) with kid in *.
    assert (ikeys (with_istore s2 w) = <[kid := stamp_key now key]> (ikeys w)) as Ek
      by (unfold ikeys; simpl; by rewrite Hv).
    assert (keys_extend kid w (with_istore s2 w)) as Hext.
    { right. split; [done|]. exists (stamp_key now key). by rewrite Ek. }
    unfold iid. simpl. rewrite Hv. split_and!; try done.
    + split_and!; [done| |done]. by eapply keys_extend_ok.
    + rewrite Ek, lookup_insert_eq. eauto.
  - destruct Hadd as [Hv _].
    destruct (same_view_ok w (with_istore s2 w)) as (? & ? & ?); [done..|].
    destruct (errors_Is e StoreConflict); unfold fail in H; simplify_eq; split_and!; try done; by left.
Qed.

Lemma KeyRemove_cases ctx kid w r w' :
  iworld_ok w -> KeyRemove ctx kid w = (r, w') ->
  iworld_ok w' /\ iid w' = iid w /\ iw_claim w' = iw_claim w /\
  match r with
  | Ok _ => (2 <= size (ikeys w))%nat /\ KidFromContext ctx <> "" /\ ikeys w' = delete kid (ikeys w)
  | Err _ => ikeys w' = ikeys w
  end.
Proof.
  intros Hw H. unfold KeyRemove, key_remove_check in H. unfold bind at 1 in H.
  destruct (String.eqb_spec (KidFromContext ctx) ""); [unfold fail in H; by simplify_eq|].
  destruct (String.eqb kid ""); [unfold fail in H; by simplify_eq|].
  unfold bind, status_of in H. destruct (i_kst_Count w (proj1 Hw)) as (rc & s1 & Hc & Hok1 & Hv1 & Hn).
  rewrite Hc in H. destruct (same_view_ok w (with_istore s1 w)) as (Hw1 & Ek1 & Ei1); [done..|].
  destruct rc as [n0|e]; [|by simplify_eq]. subst n0.
  destruct (Z.leb_spec (Z.of_nat (size (ikeys w))) 1); unfold fail, ret in H; [by simplify_eq|].
  unfold key_remove_commit, status_of in H.
  destruct (i_kst_Delete kid (with_istore s1 w) Hok1) as (rd & s2 & Hd & Hok2 & Hv2). rewrite Hd in H.
  destruct rd as [[]|e]; simplify_eq.
  - assert (ikeys (with_istore s2 (with_istore s1 w)) = delete kid (ikeys w)) as Ek
      by (unfold ikeys; simpl; rewrite Hv2; simpl; by rewrite Hv1).
    split_and!; try done; [split_and!; [done| |apply Hw]|..].
    + rewrite Ek. apply map_Forall_delete, Hw.
    + unfold iid. simpl. rewrite Hv2; simpl; by rewrite Hv1.
    + lia.
  - destruct (same_view_ok w (with_istore s2 (with_istore s1 w))) as (? & ? & ?); [done|by simpl; rewrite Hv2|done..].
Qed.

(** [Adopt] never overwrites an enrolled key.  While the claim window is
    closed it changes neither the keys, nor the identity, nor the window,
    and succeeds only for a key that is already enrolled.  When it succeeds
    the caller's key is enrolled under the kid of its public key, the window
    is closed and the response names this capsule; when it fails the
    identity and the window are as before. *)
Theorem Adopt_spec now pubkey name w r w' :
  iworld_ok w -> Adopt registers fp now pubkey name w = (r, w') ->
  iworld_ok w' /\ keys_extend (KidFromPubkey pubkey) w w' /\
  (cw_open (iw_claim w) = false -> ikeys w' = ikeys w /\ iid w' = iid w /\ iw_claim w' = iw_claim w) /\
  match r with
  | Ok resp => is_Some (ikeys w' !! KidFromPubkey pubkey) /\ ar_Kid resp = KidFromPubkey pubkey /\
      cw_open (iw_claim w') = false /\ ci_CapsuleID <$> iid w' = Some (ar_CapsuleId resp)
  | Err _ => iid w' = iid w /\ iw_claim w' = iw_claim w
  end.
Proof. apply Adopt_cases. Qed.

(** *** Any sequence of calls *)

Inductive id_call :=
  | CallAdopt (now : Z) (pubkey name : string)
  | CallKeyAdd (now : Z) (ctx : Ctx) (pubkey name : string)
  | CallKeyRemove (ctx : Ctx) (kid : string)
  | ClaimTimer.

Definition run_id w (c : id_call) : IWorld S :=
  match c with
  | CallAdopt now pubkey name => (Adopt registers fp now pubkey name w).2
  | CallKeyAdd now ctx pubkey name => (KeyAdd now ctx pubkey name w).2
  | CallKeyRemove ctx kid => (KeyRemove ctx kid w).2
  | ClaimTimer => (claim_Close w).2
  end.

(** The calls that carry no authenticated kid. *)
Definition anonymous (c : id_call) : Prop :=
  match c with
  | CallKeyAdd _ ctx _ _ | CallKeyRemove ctx _ => KidFromContext ctx = ""
  | _ => True
  end.

Lemma keys_extend_nonempty kid w w' : keys_extend kid w w' -> ikeys w <> ∅ -> ikeys w' <> ∅.
Proof. intros [->|(_ & k & -> & _)] Hne; [done|apply insert_non_empty]. Qed.

Lemma run_id_step c w : iworld_ok w -> cw_open (iw_claim w) = false -> ikeys w <> ∅ ->
  iworld_ok (run_id w c) /\ cw_open (iw_claim (run_id w c)) = false /\ ikeys (run_id w c) <> ∅ /\
  (anonymous c -> ikeys (run_id w c) = ikeys w).
Proof.
  intros Hw Ho Hne. destruct c as [now pk name|now ctx pk name|ctx kid|]; simpl.
  - destruct (Adopt registers fp now pk name w) as [r w'] eqn:H. apply Adopt_cases in H as (Hw' & _ & Hc & _); [|done].
    destruct (Hc Ho) as (Ek & _ & Ec). simpl. by rewrite Ek, Ec.
  - destruct (KeyAdd now ctx pk name w) as [r w'] eqn:H. apply KeyAdd_cases in H as (Hw' & _ & Ec & Hext & Ha & _); [|done].
    simpl. rewrite Ec. split_and!; try done. by eapply keys_extend_nonempty.
  - destruct (KeyRemove ctx kid w) as [r w'] eqn:H. apply KeyRemove_cases in H as (Hw' & _ & Ec & H); [|done].
    simpl. rewrite Ec. destruct r; [|by rewrite H]. destruct H as (Hsz & Hctx & ->). split_and!; try done.
    intros E. assert (size (delete kid (ikeys w)) = 0%nat) as Hs by (by rewrite E, map_size_empty).
    destruct (ikeys w !! kid) as [k|] eqn:Hk.
    + rewrite (map_size_delete_Some kid (ikeys w)) in Hs by eauto. lia.
    + rewrite delete_id in Hs by done. lia.
  - destruct Hw as (? & ? & ?). split_and!; try done; [split_and!; [done..|by apply cw_Close_ok]|by apply cw_Close_closed].
Qed.

(** Adoption is final.  Once a key is enrolled and the claim window is
    closed, no sequence of calls re-opens the window or empties the key
    table, every key stays filed under the kid of its public key, and calls
    without an authenticated caller leave the key table as it is. *)
Theorem adoption_is_final cs w :
  iworld_ok w -> cw_open (iw_claim w) = false -> ikeys w <> ∅ ->
  let w' := foldl run_id w cs in
  iworld_ok w' /\ cw_open (iw_claim w') = false /\ ikeys w' <> ∅ /\
  (Forall anonymous cs -> ikeys w' = ikeys w).
Proof.
  revert w. induction cs as [|c cs IH]; intros w Hw Ho Hne; [by split_and!|].
  destruct (run_id_step c w Hw Ho Hne) as (Hw1 & Ho1 & Hne1 & Ha).
  destruct (IH _ Hw1 Ho1 Hne1) as (? & ? & ? & Hall). split_and!; try done.
  intros [Hc Hcs]%Forall_cons. simpl. by rewrite Hall, Ha.
Qed.

End controller.

(** ** Startup *)

Section startup.
Context {S : Type} `{!Store S, !StoreLaws S}.
Context (uuid_Parse : string -> option (list Z)).
Implicit Types s : S.

Lemma ensureIdentity_cases now fresh s r s' :
  store_ok s -> ensureIdentity uuid_Parse now fresh s = (r, s') ->
  store_ok s' /\ v_keys (view s') = v_keys (view s) /\ v_workloads (view s') = v_workloads (view s) /\
  match r with
  | Ok id => ci_CapsuleID <$> v_identity (view s') = Some (ci_CapsuleID id) /\
      ci_CapsuleID id = from_option ci_CapsuleID fresh (v_identity (view s)) /\
      (forall old, v_identity (view s) = Some old -> ci_ShortID old <> "" -> id = old)
  | Err _ => view s' = view s
  end.
Proof.
  intros Hok H. unfold ensureIdentity in H. unfold bind at 1, catch in H.
  pose proof (ist_Get_law s Hok) as HG. destruct (ist_Get s) as [g s1]. destruct HG as (Hok1 & Hv1 & HG).
  assert (forall id, bind (ist_Put now id) (fun _ => ret id) s1 = (r, s') ->
    store_ok s' /\ v_keys (view s') = v_keys (view s) /\ v_workloads (view s') = v_workloads (view s) /\
    match r with Ok id' => id' = id /\ ci_CapsuleID <$> v_identity (view s') = Some (ci_CapsuleID id)
    | Err _ => view s' = view s end) as Hput.
  { intros id Hp. unfold bind, ret in Hp. pose proof (ist_Put_law now id s1 Hok1) as HP.
    destruct (ist_Put now id s1) as [rp s2]. destruct HP as [HP0 HP].
    destruct rp as [[]|e]; simplify_eq; rewrite HP, Hv1; by split_and!. }
  destruct g as [id|e].
  - rewrite HG. destruct (String.eqb_spec (ci_ShortID id) "") as [E|E].
    + cbv zeta in H. apply Hput in H as (? & ? & ? & H). split_and!; [done..|]. destruct r; [|done].
      destruct H as [-> H]. split_and!; [done..|]. by intros old [= ->].
    + unfold ret in H. simplify_eq. rewrite Hv1, HG. split_and!; try done. by intros old [= ->].
  - destruct (errors_Is e StoreNotFound) eqn:He; simpl in H; [|unfold fail in H; simplify_eq; by rewrite Hv1].
    apply Hput in H as (? & ? & ? & H). specialize (HG eq_refl). rewrite HG. split_and!; [done..|].
    destruct r; [|done]. destruct H as [-> H]. by split_and!.
Qed.

(** The capsule id is stable: when an identity exists, every boot
    returns and keeps its id (a missing short id is filled in), and only
    when none exists is the fresh one stored.  The enrolled keys and the
    workloads are untouched, whatever the outcome. *)
Theorem ensureIdentity_stable now fresh s r s' :
  store_ok s -> ensureIdentity uuid_Parse now fresh s = (r, s') ->
  v_keys (view s') = v_keys (view s) /\ v_workloads (view s') = v_workloads (view s) /\
  match r with
  | Ok id => ci_CapsuleID <$> v_identity (view s') = Some (ci_CapsuleID id) /\
      ci_CapsuleID id = from_option ci_CapsuleID fresh (v_identity (view s)) /\
      (forall old, v_identity (view s) = Some old -> ci_ShortID old <> "" -> id = old)
  | Err _ => view s' = view s
  end.
Proof. intros Hok H. by apply (ensureIdentity_cases now fresh s r s'). Qed.

(** RESET_AUTH empties the key table and clears the adoption record, and
    nothing else of the identity. *)
Lemma wipeAuth_spec now s r s' :
  store_ok s -> wipeAuth now s = (r, s') -> r = Ok tt ->
  v_keys (view s') = ∅ /\
  match v_identity (view s') with
  | Some id => ci_AdoptedAtUnix id = 0%Z /\ ci_AdoptedByKid id = "" /\
      ci_CapsuleID <$> v_identity (view s) = Some (ci_CapsuleID id)
  | None => v_identity (view s) = None
  end.
Proof.
  intros Hok H ->. unfold wipeAuth, bind, catch in H.
  pose proof (kst_DeleteAll_law s Hok) as HD. destruct (kst_DeleteAll s) as [rd s1]. destruct HD as [Hok1 HD].
  destruct rd as [[]|e]; [|done]. pose proof (ist_Get_law s1 Hok1) as HG.
  destruct (ist_Get s1) as [g s2]. destruct HG as (Hok2 & Hv2 & HG). rewrite HD in HG. simpl in HG.
  destruct g as [id|e].
  - pose proof (ist_Put_law now (set_adoption id 0 "") s2 Hok2) as HP. rewrite H in HP. destruct HP as [_ HP].
    rewrite HP, Hv2, HD. simpl. by rewrite HG.
  - destruct (errors_Is e StoreNotFound) eqn:He; simpl in H; unfold ret, fail in H; simplify_eq.
    rewrite Hv2, HD. simpl. by rewrite (HG eq_refl).
Qed.
End startup.

(** The window opens exactly when state is readable and the count is zero or
    could not be read. *)
Lemma boot_claim_open now broken count :
  cw_open (boot_claim now broken count) = true <->
  broken = false /\ (count = Ok 0%nat \/ exists e, count = Err e).
Proof.
  unfold boot_claim, NewClaimWindow. destruct broken; simpl; [naive_solver|].
  destruct count as [[|n]|e]; simpl; naive_solver.
Qed.

(** On an A/B install the claim window never opens on the in-memory
    fallback: when /perm is not mounted or the database does not open, the
    daemon runs on memory with the window closed; when the database is in use
    and its count is read, the window opens only with no key enrolled. *)
Theorem boot_claim_safe now br opened count choice broken msg n :
  br_ActiveSlot br <> "" -> br_InstallerMode br = false ->
  choose_store true br opened = (choice, broken, msg) -> count = Ok n ->
  match choice with
  | UseMemory => cw_open (boot_claim now broken count) = false
  | UseSqlite => br_MountedPerm br = true /\ opened = Ok tt /\
      (cw_open (boot_claim now broken count) = true <-> n = 0%nat)
  end.
Proof.
  intros Hs Hi H ->. unfold choose_store in H. rewrite Hi in H.
  destruct (String.eqb_spec (br_ActiveSlot br) ""); [done|]. simpl in H. rewrite andb_true_r in H.
  destruct (br_MountedPerm br); simpl in H; [|by simplify_eq].
  destruct opened as [[]|e]; simplify_eq; [|done].
  split_and!; [done..|]. rewrite boot_claim_open. naive_solver.
Qed.

Definition perm_boot : BootResult := mkBootResult true "slot_a" false "" [].
Lemma boot_claim_safe_witness :
  br_MountedPerm perm_boot = true /\ Ok tt = Ok tt /\
  (cw_open (boot_claim 1700000000 false (Ok 1%nat)) = true <-> 1%nat = 0%nat).
Proof.
  apply (boot_claim_safe 1700000000 perm_boot (Ok tt) (Ok 1%nat) UseSqlite false "" 1); [discriminate|reflexivity..].
Defined.

(** An error of the key count opens the window: the boot code drops the
    error and uses zero, so a capsule with enrolled keys whose count query
    fails once at boot accepts an unauthenticated Adopt. *)
Theorem boot_claim_count_error now e : cw_open (boot_claim now false (Err e)) = true.
Proof. apply boot_claim_open. eauto. Qed.

(** ** Concrete runs *)

#[local] Existing Instance DemoLib.lib.

Module IdentityDemo.
Definition world : Type := IWorld memStore.
Definition self : CapsuleIdentity := mkCapsuleIdentity "6f1c0d9e" "capsule-6f1c" 1700000000 0 "".
Definition pubA : string := "AAAAAAAAAAAAAAAAAAAAAAAAAAAAAAAA".
Definition pubB : string := "BBBBBBBBBBBBBBBBBBBBBBBBBBBBBBBB".
Definition registers (_ : string) : option error := None.

(** A fresh capsule with its window open. *)
Definition fresh : world :=
  mkIWorld (mem_set_identity (Some self) mem_New) (NewClaimWindow 0 0 claimWindowDuration) None.
Definition keyed (pub name : string) : AuthorizedKey := mkAuthorizedKey (KidFromPubkey pub) pub name "" 1700000000.
(** Two enrolled keys, window closed. *)
Definition adopted : world :=
  mkIWorld (mem_set_keys (<[KidFromPubkey pubA := keyed pubA "a"]> {[KidFromPubkey pubB := keyed pubB "b"]})
    (iw_store fresh)) (mkClaimWindow false true None) None.
Definition as_kid (pub : string) : Ctx := mkCtx [] (Some (KidFromPubkey pub)).

Lemma fresh_ok : iworld_ok fresh.
Proof. split_and!; [done|apply map_Forall_empty|done]. Qed.
Lemma adopted_ok : iworld_ok adopted.
Proof.
  split_and!; [done| |done]. unfold ikeys. simpl.
  apply map_Forall_insert_2; [by split_and!|]. apply map_Forall_singleton. by split_and!.
Qed.
End IdentityDemo.

Lemma Adopt_spec_witness :
  exists resp w', Adopt IdentityDemo.registers "fp" 1700000000 IdentityDemo.pubA "me" IdentityDemo.fresh = (Ok resp, w') /\
    is_Some (ikeys w' !! KidFromPubkey IdentityDemo.pubA) /\ cw_open (iw_claim w') = false.
Proof.
  destruct (Adopt IdentityDemo.registers "fp" 1700000000 IdentityDemo.pubA "me" IdentityDemo.fresh) as [r w'] eqn:H.
  destruct r as [resp|e]; [|exfalso; apply (f_equal (fun x => is_ok x.1)) in H; vm_compute in H; discriminate H].
  destruct (Adopt_spec IdentityDemo.registers "fp" 1700000000 IdentityDemo.pubA "me" IdentityDemo.fresh (Ok resp) w'
    IdentityDemo.fresh_ok H) as (_ & _ & _ & Hk & _ & Ho & _).
  exists resp, w'. split; [reflexivity|]. split; [exact Hk|exact Ho].
Defined.

Lemma adoption_is_final_witness :
  let cs := [CallKeyRemove (IdentityDemo.as_kid IdentityDemo.pubA) (KidFromPubkey IdentityDemo.pubB);
             CallKeyRemove (IdentityDemo.as_kid IdentityDemo.pubA) (KidFromPubkey IdentityDemo.pubA);
             CallAdopt 1700000001 "CCCCCCCCCCCCCCCCCCCCCCCCCCCCCCCC" "intruder"] in
  ikeys (foldl (run_id IdentityDemo.registers "fp") IdentityDemo.adopted cs) <> ∅.
Proof.
  cbv zeta. match goal with |- ikeys (foldl _ _ ?cs) <> _ =>
    destruct (adoption_is_final IdentityDemo.registers "fp" cs IdentityDemo.adopted) as (_ & _ & H & _) end.
  - apply IdentityDemo.adopted_ok.
  - reflexivity.
  - apply insert_non_empty.
  - exact H.
Defined.

Lemma ensureIdentity_stable_witness :
  exists id s', ensureIdentity (fun _ => None) 1700000000 "fresh" (mem_set_identity (Some IdentityDemo.self) mem_New) = (Ok id, s') /\
    ci_CapsuleID id = "6f1c0d9e".
Proof.
  destruct (ensureIdentity (fun _ => None) 1700000000 "fresh" (mem_set_identity (Some IdentityDemo.self) mem_New))
    as [r s'] eqn:H.
  destruct r as [id|e]; [|exfalso; apply (f_equal (fun x => is_ok x.1)) in H; vm_compute in H; discriminate H].
  destruct (ensureIdentity_stable (fun _ => None) 1700000000 "fresh" (mem_set_identity (Some IdentityDemo.self) mem_New)
    (Ok id) s') as (_ & _ & _ & Hid & _); [exact I|exact H|].
  exists id, s'. split; [reflexivity|exact Hid].
Defined.

(** The two check-then-act races of the controller: both callers pass the
    check before either commits. *)

(** Two KeyRemove calls whose count checks both run before either delete
    leave no key enrolled: the check and the delete are not one step. *)
Theorem key_remove_race :
  let w := IdentityDemo.adopted in
  let a := KidFromPubkey IdentityDemo.pubA in
  let b := KidFromPubkey IdentityDemo.pubB in
  (key_remove_check (IdentityDemo.as_kid IdentityDemo.pubA) b w) = (Ok tt, w) /\
  (key_remove_check (IdentityDemo.as_kid IdentityDemo.pubB) a w) = (Ok tt, w) /\
  ikeys (key_remove_commit a (key_remove_commit b w).2).2 = ∅.
Proof. by vm_compute. Qed.

(** Two Adopt calls that both read the window open before either closes it
    both enroll their key. *)
Theorem adopt_race :
  let w := IdentityDemo.fresh in
  (claim_Open w).1 = Ok true /\
  let w1 := (adopt_open IdentityDemo.registers "fp" 1 IdentityDemo.pubA (KidFromPubkey IdentityDemo.pubA) "a" w).2 in
  let '(r2, w2) := adopt_open IdentityDemo.registers "fp" 1 IdentityDemo.pubB (KidFromPubkey IdentityDemo.pubB) "b" w1 in
  cw_open (iw_claim w1) = false /\ is_ok r2 = true /\ size (ikeys w2) = 2%nat.
Proof. by vm_compute. Qed.
