(* ===== verification/Files.v ===== *)
(** * Files: package os

    The daemon's files beside its store: a map from paths to contents.  Every
    call can fail, a write part way. *)

From S2P Require Import Prelude GoStrings Bytes Store.

Set Default Goal Selector "!".
Local Open Scope go_scope.

(** ** The world: the store and the files *)

Record FWorld (S : Type) := mkFWorld { fw_store : S; fw_files : gmap string string; fw_faults : list fault }.
Arguments mkFWorld {S}.
Arguments fw_store {S}.
Arguments fw_files {S}.
Arguments fw_faults {S}.

#[export] Instance FWorld_faulty {S} : Faulty (FWorld S) :=
  {| faults_of := fw_faults; with_faults l w := mkFWorld (fw_store w) (fw_files w) l |}.
#[export] Instance FWorld_laws {S} : FaultyLaws (FWorld S).
Proof. split; [done|by intros []]. Qed.

Section files.
Context {S : Type}.
Abbreviation world := (FWorld S).

Definition fset (f : gmap string string -> gmap string string) (w : world) : world :=
  mkFWorld (fw_store w) (f (fw_files w)) (fw_faults w).
Definition fstore {A} : prog S A -> prog world A := zoom fw_store (fun s w => mkFWorld s (fw_files w) (fw_faults w)).

Definition f_ReadFile (path : string) : prog world string :=
  os_call no_part (fun w => match fw_files w !! path with
    | Some b => (Ok b, w) | None => (Err (Sentinel OsNotExist), w) end).
Definition f_Rename (from to_ : string) : prog world unit :=
  os_call no_part (fun w => match fw_files w !! from with
    | Some b => (Ok tt, fset (fun m => <[to_ := b]> (delete from m)) w) | None => (Err (Sentinel OsNotExist), w) end).
Definition f_Remove (path : string) : prog world unit :=
  os_call no_part (fun w => match fw_files w !! path with
    | Some _ => (Ok tt, fset (delete path) w) | None => (Err (Sentinel OsNotExist), w) end).
(** [os.Stat]: does it succeed? *)
Definition f_Stat (path : string) : prog world unit :=
  os_call no_part (fun w => match fw_files w !! path with
    | Some _ => (Ok tt, w) | None => (Err (Sentinel OsNotExist), w) end).
Definition f_MkdirAll (path : string) : prog world unit := os_call no_part (ret tt).
(** A failing write leaves the file truncated or partly written. *)
Definition f_WriteFile (path body : string) : prog world unit :=
  os_call (fun n => fset <[path := take (Z.of_nat n) body]>) (fun w => (Ok tt, fset <[path := body]> w)).
(** [os.CreateTemp]: a new, empty file of a name no file has. *)
Definition f_Create (path : string) : prog world unit := os_call no_part (fun w => (Ok tt, fset <[path := ""]> w)).
(** [f.Chmod], [f.Close] *)
Definition f_Chmod : prog world unit := os_call no_part (ret tt).
Definition f_Close : prog world unit := os_call no_part (ret tt).

(** *** Replacing a file

    Written to a temporary file that is then renamed; [wrap] is what the
    caller makes of the error of each step, [clean_rename] whether the temporary
    file is removed when the rename fails. *)
Inductive WriteStep := StepCreate | StepWrite | StepChmod | StepClose | StepRename.

(** A step after whose failure the temporary file is closed and removed. *)
Definition or_remove (close : bool) (tmpName : string) (m : prog world unit) : prog world unit :=
  r <- catch m ;;
  match r with
  | Ok _ => ret tt
  | Err e => when close (ignore f_Close) ;;; ignore (f_Remove tmpName) ;;; fail e
  end.
Definition stage_temp (wrap : WriteStep -> error -> error) (tmpName data : string) : prog world unit :=
  on_error (wrap StepCreate) (f_Create tmpName) ;;;
  or_remove true tmpName (on_error (wrap StepWrite) (f_WriteFile tmpName data)) ;;;
  or_remove true tmpName (on_error (wrap StepChmod) f_Chmod) ;;;
  or_remove false tmpName (on_error (wrap StepClose) f_Close).
Definition write_via_temp (wrap : WriteStep -> error -> error) (clean_rename : bool) (tmpName path data : string) : prog world unit :=
  stage_temp wrap tmpName data ;;;
  let rename := on_error (wrap StepRename) (f_Rename tmpName path) in
  if clean_rename then or_remove false tmpName rename else rename.

(** *** What the calls change *)

Lemma keeps_files_call {A B} (f : world -> B) part (act : prog world A) :
  (forall l w, f (with_faults l w) = f w) -> (forall n w, f (part n w) = f w) -> (forall w, f (act w).2 = f w) ->
  keeps f (os_call part act).
Proof. intros. by apply keeps_os_call. Qed.

Lemma f_ReadFile_cases path w :
  fw_files (f_ReadFile path w).2 = fw_files w /\ fw_store (f_ReadFile path w).2 = fw_store w /\
  forall b, (f_ReadFile path w).1 = Ok b -> fw_files w !! path = Some b.
Proof.
  unfold f_ReadFile, os_call. simpl. destruct (fw_faults w) as [|[[n e]|] l]; simpl; [|done|].
  all: destruct (fw_files w !! path); split_and!; try done; by intros ? [= ->].
Qed.
Lemma f_WriteFile_Ok path body w w' : f_WriteFile path body w = (Ok tt, w') -> fw_files w' = <[path := body]> (fw_files w).
Proof. intros [l H]%os_call_Ok. by injection H as <-. Qed.
(** Without failures. *)
Lemma f_ReadFile_faultless path w b : fw_faults w = [] -> fw_files w !! path = Some b -> f_ReadFile path w = (Ok b, w).
Proof. intros Hf Hb. unfold f_ReadFile, os_call. simpl. by rewrite Hf, Hb. Qed.
Lemma f_Stat_faultless path w b : fw_faults w = [] -> fw_files w !! path = Some b -> f_Stat path w = (Ok tt, w).
Proof. intros Hf Hb. unfold f_Stat, os_call. simpl. by rewrite Hf, Hb. Qed.
Lemma f_Stat_same path w : fw_files (f_Stat path w).2 = fw_files w.
Proof.
  unfold f_Stat, os_call. simpl. destruct (fw_faults w) as [|[[n e]|] l]; simpl; [|done|]; by destruct (fw_files w !! path).
Qed.
Lemma f_Rename_Ok from to_ w w' : f_Rename from to_ w = (Ok tt, w') ->
  exists b, fw_files w !! from = Some b /\ fw_files w' = <[to_ := b]> (delete from (fw_files w)).
Proof. intros [l H]%os_call_Ok. simpl in H. destruct (fw_files w !! from) as [b|] eqn:E; [|done]. injection H as <-. by exists b. Qed.

(** Whatever happens, a call changes no path but the ones it names. *)
Lemma keeps_path_WriteFile p path body : p <> path -> keeps (fun w => fw_files w !! p) (f_WriteFile path body).
Proof. intros Hp. apply keeps_files_call; [done|..]; intros; simpl; by rewrite lookup_insert_ne. Qed.
Lemma keeps_path_Create p path : p <> path -> keeps (fun w => fw_files w !! p) (f_Create path).
Proof. intros Hp. apply keeps_files_call; [done..|]. intros; simpl; by rewrite lookup_insert_ne. Qed.
Lemma keeps_path_Remove p path : p <> path -> keeps (fun w => fw_files w !! p) (f_Remove path).
Proof.
  intros Hp. apply keeps_files_call; [done..|]. intros w. destruct (fw_files w !! path); [|done]. simpl. by rewrite lookup_delete_ne.
Qed.
Lemma keeps_path_Rename p from to_ : p <> from -> p <> to_ -> keeps (fun w => fw_files w !! p) (f_Rename from to_).
Proof.
  intros Hp Hq. apply keeps_files_call; [done..|]. intros w. destruct (fw_files w !! from); [|done]. simpl.
  by rewrite lookup_insert_ne, lookup_delete_ne.
Qed.
Lemma keeps_no_file_call p (m : prog world unit) :
  (forall w, fw_files (m w).2 = fw_files w) -> keeps (fun w => fw_files w !! p) (os_call no_part m).
Proof. intros Hm. apply keeps_files_call; [done..|]. intros w. by rewrite Hm. Qed.
Lemma no_file_call_Ok (w w' : world) : os_call no_part (ret tt) w = (Ok tt, w') -> fw_files w' = fw_files w.
Proof. intros [l H]%os_call_Ok. by injection H as <-. Qed.

Lemma or_remove_Ok close tmp (m : prog world unit) w w' : or_remove close tmp m w = (Ok tt, w') -> m w = (Ok tt, w').
Proof.
  unfold or_remove. intros (r & w1 & H1 & H2)%bind_Ok_inv. unfold catch in H1. destruct (m w) as [r' w2]. injection H1 as -> ->.
  destruct r as [[]|e]; [by injection H2 as <-|]. apply bind_Ok_inv in H2 as (? & ? & _ & H2).
  by apply bind_Ok_inv in H2 as (? & ? & _ & H2).
Qed.
Lemma keeps_or_remove p close tmp (m : prog world unit) :
  p <> tmp -> keeps (fun w => fw_files w !! p) m -> keeps (fun w => fw_files w !! p) (or_remove close tmp m).
Proof. intros Hp Hm. unfold or_remove. go_keeps; [by apply keeps_no_file_call|by apply keeps_path_Remove]. Qed.

(** Everything before the rename leaves a path other than the temporary one
    alone, and success leaves the data in the temporary file. *)
Lemma keeps_stage p wrap tmp data : p <> tmp -> keeps (fun w => fw_files w !! p) (stage_temp wrap tmp data).
Proof.
  intros Hp. unfold stage_temp. go_keeps; try apply keeps_or_remove; try done; go_keeps.
  - by apply keeps_path_Create.
  - by apply keeps_path_WriteFile.
  - by apply keeps_no_file_call.
  - by apply keeps_no_file_call.
Qed.
Lemma stage_Ok wrap tmp data w w' : stage_temp wrap tmp data w = (Ok tt, w') -> fw_files w' !! tmp = Some data.
Proof.
  unfold stage_temp. intros ([] & w1 & _ & Ha)%bind_Ok_inv. apply bind_Ok_inv in Ha as ([] & w2 & H2 & Hb).
  apply bind_Ok_inv in Hb as ([] & w3 & H3 & H4). apply or_remove_Ok in H2, H3, H4.
  rewrite on_error_Ok in H2, H3, H4. apply f_WriteFile_Ok in H2. apply no_file_call_Ok in H3, H4.
  rewrite H4, H3, H2. apply lookup_insert_eq.
Qed.

(** The file is replaced as a whole, or left alone with an error. *)
Lemma write_via_temp_spec wrap clean tmp path data w r w' :
  tmp <> path -> write_via_temp wrap clean tmp path data w = (r, w') ->
  match r with
  | Ok _ => fw_files w' !! path = Some data
  | Err _ => fw_files w' !! path = fw_files w !! path
  end /\ (forall p, p <> path -> p <> tmp -> fw_files w' !! p = fw_files w !! p).
Proof.
  intros Hne H. unfold write_via_temp, bind at 1 in H. destruct (stage_temp wrap tmp data w) as [r1 w1] eqn:E1.
  pose proof (fun p Hp => keeps_run _ _ _ _ _ (keeps_stage p wrap tmp data Hp) E1) as K1. cbv beta in K1.
  destruct r1 as [[]|e]; [|injection H as <- <-; by auto]. apply stage_Ok in E1. cbv zeta in H. set (rn := on_error _ (f_Rename tmp path)) in H.
  assert (forall r2 w2, rn w1 = (r2, w2) -> match r2 with Ok _ => fw_files w2 !! path = Some data | Err _ => fw_files w2 = fw_files w1 end /\
    forall p, p <> path -> p <> tmp -> fw_files w2 !! p = fw_files w1 !! p) as Hrn.
  { intros r2 w2 E2. unfold rn, on_error in E2. destruct (f_Rename tmp path w1) as [r3 w3] eqn:E3.
    pose proof (fun p Hp Hq => keeps_run _ _ _ _ _ (keeps_path_Rename p tmp path Hq Hp) E3) as K3. cbv beta in K3. destruct r3 as [[]|e].
    - injection E2 as <- <-. apply f_Rename_Ok in E3 as (b & Hb & ->). split; [|intros; by rewrite lookup_insert_ne, lookup_delete_ne]. rewrite lookup_insert_eq. congruence.
    - injection E2 as <- <-. split; [|done]. unfold f_Rename, os_call in E3. simpl in E3. destruct (fw_faults w1) as [|[[n e0]|] l]; simpl in E3;
        try rewrite E1 in E3; try discriminate E3. by injection E3 as _ <-. }
  destruct clean.
  - unfold or_remove, bind at 1, catch in H. destruct (rn w1) as [r2 w2]. destruct (Hrn r2 w2 eq_refl) as [H2 K2]. destruct r2 as [[]|e].
    + injection H as <- <-. split; [done|]. intros p Hp Hq. by rewrite K2, K1.
    + assert (forall p, p <> tmp -> keeps (fun w => fw_files w !! p) (when false (ignore f_Close) ;;; ignore (f_Remove tmp) ;;; fail (A:=unit) e)) as K
        by (intros p Hp; go_keeps; [by apply keeps_no_file_call|by apply keeps_path_Remove]).
      pose proof (fun p Hp => keeps_run _ _ _ _ _ (K p Hp) H) as K4. cbv beta in K4. assert (r = Err e) as -> by (unfold when, bind, ignore, ret, fail in H; destruct (f_Remove tmp w2); by injection H).
      split; [rewrite K4, H2, K1 by done; done|]. intros p Hp Hq. by rewrite K4, K2, K1.
  - apply Hrn in H as [H2 K2]. split; [|intros p Hp Hq; by rewrite K2, K1]. destruct r; [done|]. rewrite H2. by apply K1.
Qed.
Lemma keeps_store_call {A} part (act : prog world A) :
  (forall n w, fw_store (part n w) = fw_store w) -> (forall w, fw_store (act w).2 = fw_store w) -> keeps fw_store (os_call part act).
Proof. intros. by apply keeps_files_call. Qed.
End files.
