(* ===== verification/Boot.v ===== *)
(** * The early boot: boot/boot.go, boot/boot_linux.go

    What the daemon does as PID 1 before it serves: mounts, kernel modules,
    the network, /perm and the host name.  The kernel, LVM and the programs of
    the image are a [Host]; files are those of [Files], and every call can
    fail. *)

From S2P Require Import Prelude GoStrings Net Exec Models Store Runtime Base64 Bytes Disks Files.

Set Default Goal Selector "!".
Local Open Scope go_scope.

(** ** The machine *)

Record mountSpec := mkMount {
  ms_source : string;
  ms_target : string;
  ms_fstype : string;
  ms_flags : Z;
  ms_data : string;
  ms_required : bool }.

(** What the kernel shows and does.  [h_Mount] gives the files of the file
    system it mounted, by their paths below the mount point. *)
Class Host (D : Type) := {
  h_exec :: Commands D;
  h_sys : D -> Sys;                                        (* /proc/cmdline, /sys/class/block *)
  h_net : D -> result (list (string * result string));     (* /sys/class/net and the [address] files *)
  h_ifaces : D -> result (list Iface);
  h_mounts : D -> result string;                           (* /proc/mounts *)
  h_exists : string -> D -> bool;                          (* directories and device nodes *)
  h_Mount : mountSpec -> D -> result (gmap string string) * D;
  h_Symlink : string -> string -> D -> result unit * D;
  h_now : D -> Z;
  h_pass : Z -> D -> D }.                                  (* the kernel while the process sleeps *)

(** The machine with what the process did to it that nothing reads back: the
    host name, the text on the consoles, the background commands. *)
Record Node (D : Type) := mkNode {
  nd_dev : D;
  nd_hostname : string;
  nd_console : list (string * string);
  nd_spawned : list (string * list string) }.
Arguments mkNode {D}.
Arguments nd_dev {D}.
Arguments nd_hostname {D}.
Arguments nd_console {D}.
Arguments nd_spawned {D}.

(** Mounting hides what was below the mount point. *)
Definition mount_files (target : string) (fs files : gmap string string) : gmap string string :=
  kmap (fun p => target +:+ "/" +:+ p) fs ∪ filter (fun kv => HasPrefix kv.1 (target +:+ "/") = false) files.

Definition MS_NOSUID : Z := 2.
Definition MS_NODEV : Z := 4.
Definition MS_NOEXEC : Z := 8.

Definition earlyMounts : list mountSpec :=
  let strict := Z.lor MS_NOSUID (Z.lor MS_NODEV MS_NOEXEC) in
  [mkMount "proc" "/proc" "proc" strict "" true;
   mkMount "sysfs" "/sys" "sysfs" strict "" true;
   mkMount "devtmpfs" "/dev" "devtmpfs" MS_NOSUID "mode=0755" true;
   mkMount "devpts" "/dev/pts" "devpts" (Z.lor MS_NOSUID MS_NOEXEC) "newinstance,ptmxmode=0666,mode=0620,gid=5" false;
   mkMount "tmpfs" "/run" "tmpfs" (Z.lor MS_NOSUID MS_NODEV) "mode=0755" false;
   mkMount "tmpfs" "/tmp" "tmpfs" (Z.lor MS_NOSUID MS_NODEV) "mode=1777" false;
   mkMount "cgroup2" "/sys/fs/cgroup" "cgroup2" strict "" false].

Definition bridgeModules : list string :=
  ["virtio_net"; "virtio_rng"; "igc"; "e1000e"; "e1000"; "igb"; "r8169"; "r8125";
   "bridge"; "br_netfilter"; "veth"; "nf_nat"; "kvm"; "kvm_intel"; "kvm_amd"; "dm_mod"; "dm-thin-pool"; "tun"].

(** ** The host name *)

(** The loops that sort the interface names: each name moves down while it is
    smaller than the one below it. *)
Fixpoint sift (j : nat) (names : list string) : list string :=
  match j with
  | O => names
  | S j' =>
      match names !! j, names !! j' with
      | Some a, Some b => if String.ltb a b then sift j' (<[j' := a]> (<[j := b]> names)) else names
      | _, _ => names
      end
  end.
Definition sort_names (names : list string) : list string :=
  foldl (fun l i => sift i l) names (seq 1 (List.length names - 1)).

(** The name a MAC address gives, if it is usable. *)
Definition mac_name (mac : result string) : option string :=
  match mac with
  | Err _ => None
  | Ok mac =>
      let s := TrimSpace mac in
      if String.eqb s "" || String.eqb s "00:00:00:00:00:00" then None
      else match Split ":" s with
      | [_; _; _; p3; p4; p5] => Some ("capsule-" +:+ ToLower (p3 +:+ p4 +:+ p5))
      | _ => None
      end
  end.

Definition address_of (entries : list (string * result string)) (n : string) : result string :=
  match List.find (fun e => String.eqb e.1 n) entries with
  | Some e => e.2
  | None => Err (Sentinel OsNotExist)
  end.

Definition macDerivedHostname (net : result (list (string * result string))) : string :=
  match net with
  | Err _ => ""
  | Ok entries =>
      let names := filter (fun n => n <> "lo") (entries.*1) in
      default "" (head (omap (fun n => mac_name (address_of entries n)) (sort_names names)))
  end.

(** The first interface other than lo, in directory order. *)
Definition firstEthIface (net : result (list (string * result string))) : result string :=
  match net with
  | Err e => Err e
  | Ok entries =>
      match List.find (fun e => negb (String.eqb e.1 "lo")) entries with
      | Some e => Ok e.1
      | None => Err (Errorf "no non-loopback interface found")
      end
  end.

(** ** The meta volume's size *)

Definition meta_floor : Z := 1024.
Definition meta_cap : Z := 32 * 1024.
Definition meta_of (vgMiB : Z) : Z :=
  let meta := (vgMiB / 4)%Z in
  let meta := if (meta <? meta_floor)%Z then meta_floor else meta in
  if (meta_cap <? meta)%Z then meta_cap else meta.

Definition PermHostnameFile : string := "/perm/capsule/hostname".
Definition permNetDir : string := "/perm/capsule".
Definition permLastIPFile : string := "/perm/capsule/last-ip".
Definition permClientIDFile : string := "/perm/capsule/dhcp-clientid".
Definition udhcpcScript : string := "/usr/share/capsule/udhcpc.script".
Definition ntpd_args : list string :=
  ["-d"; "-n"; "-q"; "-p"; "pool.ntp.org"; "-p"; "time.cloudflare.com"; "-p"; "time.google.com"].

(** The world of the boot: the machine below, the files, the faults. *)
Section world.
Context {D : Type} `{!Host D}.

Definition dev (w : FWorld (Node D)) : D := nd_dev (fw_store w).
Definition map_node (f : Node D -> Node D) (w : FWorld (Node D)) : FWorld (Node D) :=
  mkFWorld (f (fw_store w)) (fw_files w) (fw_faults w).
Definition set_dev (d : D) : FWorld (Node D) -> FWorld (Node D) :=
  map_node (fun n => mkNode d (nd_hostname n) (nd_console n) (nd_spawned n)).

#[export] Instance boot_exec : Commands (FWorld (Node D)) := fun path args w =>
  let '(o, d) := exec_Command path args (dev w) in (o, set_dev d w).
#[export] Instance boot_clock : Clocked (FWorld (Node D)) := {|
  now_ns w := h_now (dev w);
  sleep t w := set_dev (h_pass t (dev w)) w;
  path_exists path w := h_exists path (dev w) |}.
End world.

(** ** The steps *)

Section Boot.
Context {D : Type} `{!Host D}.
(** [uint64(f)] for what [strconv.ParseFloat] makes of a text, and the eight
    random bytes of the DHCP client id. *)
Context (parse_MiB : string -> result Z) (entropy : result string).
Abbreviation world := (FWorld (Node D)).

(** What the kernel shows now. *)
Definition look {A} (f : D -> A) : prog world A := fun w => (Ok (f (dev w)), w).
(** [os.Stat] and [os.Lstat] of a node or directory. *)
Definition stat (path : string) : prog world unit :=
  os_call no_part (fun w => (if h_exists path (dev w) then Ok tt else Err (Sentinel OsNotExist), w)).
(** [os.MkdirAll] where "already exists" is not an error. *)
Definition mkdir_ok (path : string) : prog world unit :=
  r <- catch (f_MkdirAll path) ;;
  match r with
  | Err e => if errors_Is e OsExist then ret tt else fail e
  | Ok _ => ret tt
  end.
Definition Mount (m : mountSpec) : prog world unit :=
  os_call no_part (fun w =>
    let '(r, d) := h_Mount m (dev w) in
    match r with
    | Ok fs => (Ok tt, fset (mount_files (ms_target m) fs) (set_dev d w))
    | Err e => (Err e, set_dev d w)
    end).
Definition Symlink (old new : string) : prog world unit :=
  os_call no_part (fun w => let '(r, d) := h_Symlink old new (dev w) in (r, set_dev d w)).
Definition Sethostname (name : string) : prog world unit :=
  os_call no_part (fun w => (Ok tt, map_node (fun n => mkNode (nd_dev n) name (nd_console n) (nd_spawned n)) w)).
(** [go cmd.Run()] *)
Definition spawn (path : string) (args : list string) : prog world unit := fun w =>
  (Ok tt, map_node (fun n => mkNode (nd_dev n) (nd_hostname n) (nd_console n) ((path, args) :: nd_spawned n)) w).

Definition mountOne (m : mountSpec) : prog world unit :=
  mkdir_ok (ms_target m) ;;;
  r <- catch (Mount m) ;;
  match r with
  | Err e => if errors_Is e SysEBUSY then ret tt else fail e
  | Ok _ => ret tt
  end.

Definition mount_early (m : mountSpec) : prog world unit :=
  r <- catch (mountOne m) ;;
  match r with
  | Err e => if ms_required m then fail (Wrap ("mount " +:+ ms_source m +:+ " -> " +:+ ms_target m +:+ ": ") e "") else ret tt
  | Ok _ => ret tt
  end.

Definition link_ptmx : prog world unit :=
  r <- catch (stat "/dev/ptmx") ;;
  match r with
  | Err e => when (errors_Is e OsNotExist) (ignore (Symlink "/dev/pts/ptmx" "/dev/ptmx"))
  | Ok _ => ret tt
  end.

(** *** Network *)

Definition loadBridgeModules : prog world unit :=
  for_each bridgeModules (fun m => exec_quiet "/sbin/modprobe" [m]).
Definition enableIPForward : prog world unit := f_WriteFile "/proc/sys/net/ipv4/ip_forward" (String "1" (String NL "")).

Definition linkUp (name : string) : prog world unit :=
  o <- exec_prog "/sbin/ip" ["link"; "set"; name; "up"] ;;
  match o_err o with
  | Some err => fail (Wrap "" err (": " +:+ o_combined o))
  | None => ret tt
  end.

Fixpoint eth_poll (fuel : nat) (deadline : Z) : prog world string := fun w =>
  match fuel with
  | O => (Err (Errorf "eth_poll: out of fuel"), w)
  | S fuel =>
      match firstEthIface (h_net (dev w)) with
      | Ok name => (Ok name, w)
      | Err err =>
          if (deadline <? now_ns w)%Z then (Err err, w)
          else eth_poll fuel deadline (sleep (100 * Millisecond) w)
      end
  end.
Definition eth_fuel (timeout : Z) : nat := Z.to_nat (timeout / (100 * Millisecond) + 3).
Definition firstEthIfaceWait (timeout : Z) : prog world string := fun w =>
  eth_poll (eth_fuel timeout) (now_ns w + timeout)%Z w.

Definition bringUpDefaultEth : prog world unit :=
  name <- firstEthIfaceWait (15 * Second) ;;
  wrap_err ("link up " +:+ name +:+ ": ") (linkUp name) ;;;
  o <- exec_prog "/sbin/udhcpc" ["-i"; name; "-q"; "-n"; "-t"; "4"; "-A"; "2"] ;;
  match o_err o with
  | Some _ => ret tt
  | None => spawn "/usr/sbin/ntpd" ntpd_args
  end.

(** The DHCP client id of the disk; [""] on any failure. *)
Definition make_client_id : prog world string :=
  r <- catch (mkdir_ok permNetDir) ;;
  match r with
  | Err _ => ret ""
  | Ok _ =>
      match entropy with
      | Err _ => ret ""
      | Ok bytes8 =>
          let s := EncodeToString (String (chr 0) bytes8) in
          let tmp := permClientIDFile +:+ ".tmp" in
          w1 <- catch (f_WriteFile tmp (s +:+ String NL "")) ;;
          match w1 with
          | Err _ => ret ""
          | Ok _ =>
              w2 <- catch (f_Rename tmp permClientIDFile) ;;
              match w2 with
              | Err _ => ignore (f_Remove tmp) ;;; ret ""
              | Ok _ => ret s
              end
          end
      end
  end.
Definition ensureDHCPClientID : prog world string :=
  r <- catch (f_ReadFile permClientIDFile) ;;
  match r with
  | Ok b => let s := TrimSpace b in if negb (String.eqb s "") then ret s else make_client_id
  | Err _ => make_client_id
  end.

Definition reclaimStickyIP : prog world unit :=
  net <- look h_net ;;
  match firstEthIface net with
  | Err _ => ret tt
  | Ok name =>
      cid <- ensureDHCPClientID ;;
      let args := ["-i"; name; "-q"; "-n"; "-t"; "4"; "-A"; "2"; "-s"; udhcpcScript] in
      let args := if negb (String.eqb cid "") then args ++ ["-x"; "0x3d:" +:+ cid] else args in
      last <- catch (f_ReadFile permLastIPFile) ;;
      let args := match last with
                  | Ok b => let ip := TrimSpace b in if negb (String.eqb ip "") then args ++ ["-r"; ip] else args
                  | Err _ => args
                  end in
      exec_quiet "/sbin/udhcpc" args
  end.

(** [installResolvConf]: a missing source is not an error. *)
Definition installResolvConf (src dst : string) : prog world unit :=
  r <- catch (f_ReadFile src) ;;
  match r with
  | Err e => if errors_Is e OsNotExist then ret tt else fail e
  | Ok data => f_WriteFile dst data
  end.

(** *** The host name *)

Definition readHostnameFile (path : string) : prog world (option string) :=
  r <- catch (f_ReadFile path) ;;
  match r with
  | Err _ => ret None
  | Ok b => let name := TrimSpace b in ret (if String.eqb name "" then None else Some name)
  end.

Definition hostname_fallback : prog world string :=
  net <- look h_net ;;
  let name := macDerivedHostname net in
  if negb (String.eqb name "") then ret name
  else
    r <- readHostnameFile "/etc/capsule/hostname" ;;
    ret (default "capsule" r).
Definition resolveHostname (permMounted : bool) : prog world string :=
  if permMounted then
    r <- readHostnameFile PermHostnameFile ;;
    match r with Some name => ret name | None => hostname_fallback end
  else hostname_fallback.

Definition applyResolvedHostname (permMounted : bool) : prog world unit :=
  name <- resolveHostname permMounted ;;
  if String.eqb name "" then ret tt
  else wrap_err ("sethostname " +:+ Quote name +:+ ": ") (Sethostname name).

(** *** /perm *)

Definition runLVM (bin : string) (args : list string) : prog world unit :=
  exec_or_fail (bin +:+ " " +:+ Join args " ") bin args.

Definition pvExists (dev : string) : prog world bool :=
  o <- exec_prog "/sbin/pvs" ["--noheadings"; dev] ;;
  ret (match o_err o with None => true | Some _ => false end).

Definition computeMetaMiB (vg : string) : prog world Z :=
  o <- exec_prog "/sbin/vgs" ["--noheadings"; "--units"; "m"; "--nosuffix"; "-o"; "vg_size"; vg] ;;
  match o_err o with
  | Some err => fail (Wrap ("vgs " +:+ vg +:+ ": ") err "")
  | None =>
      let field := TrimSpace (o_stdout o) in
      match parse_MiB field with
      | Err err => fail (Wrap ("parse vg_size " +:+ Quote field +:+ ": ") err "")
      | Ok vgMiB => ret (meta_of vgMiB)
      end
  end.

Definition make_meta_fs : prog world unit :=
  let args := ["-q"; "-F"; "/dev/capsule/meta"] in
  r <- catch (runLVM "/usr/sbin/mkfs.ext4" args) ;;
  match r with
  | Ok _ => ret tt
  | Err err =>
      r2 <- catch (runLVM "/sbin/mkfs.ext4" args) ;;
      match r2 with
      | Ok _ => ret tt
      | Err err2 => fail (Wrap2 "mkfs.ext4 /dev/capsule/meta: " err " / " err2 "")
      end
  end.

Definition initializeCapsuleVG (dev : string) : prog world unit :=
  runLVM "/sbin/pvcreate" ["-ff"; "-y"; dev] ;;;
  runLVM "/sbin/vgcreate" ["capsule"; dev] ;;;
  metaMiB <- computeMetaMiB "capsule" ;;
  runLVM "/sbin/lvcreate" ["-L"; Itoa metaMiB +:+ "M"; "-n"; "meta"; "capsule"] ;;;
  make_meta_fs ;;;
  runLVM "/sbin/lvcreate" ["--monitor"; "n"; "-l"; "95%FREE"; "--thinpool"; "thinpool"; "capsule"].

Definition activateVG (vg : string) : prog world unit :=
  ignore (runLVM "/sbin/vgscan" ["--mknodes"]) ;;;
  runLVM "/sbin/vgchange" ["--monitor"; "n"; "-ay"; vg].

Definition ensurePermDirs (root : string) : prog world unit :=
  for_each [root +:+ "/capsule"; root +:+ "/containerd"; root +:+ "/containerd/root"; root +:+ "/tls"] mkdir_ok.

Definition isMounted (path : string) : prog world bool :=
  r <- catch (os_call no_part (fun w => (h_mounts (dev w), w))) ;;
  ret (match r with Ok data => isMounted_in data path | Err _ => false end).

Definition perm_mount : mountSpec := mkMount "/dev/capsule/meta" "/perm" "ext4" 0 "" false.

Definition open_perm (permDev : string) : prog world unit :=
  pv <- pvExists permDev ;;
  when (negb pv) (wrap_err "initialize VG capsule: " (initializeCapsuleVG permDev)) ;;;
  wrap_err "activate vg capsule: " (activateVG "capsule") ;;;
  wrap_err "waiting for /dev/capsule/meta: " (wait_for "block device " "2s" "/dev/capsule/meta" (2 * Second)) ;;;
  wrap_err "mount /dev/capsule/meta -> /perm: " (Mount perm_mount) ;;;
  ensurePermDirs "/perm".

Definition mountPerm : prog world unit :=
  wrap_err "mount point /perm missing (rootfs must pre-create it): " (stat "/perm") ;;;
  mounted <- isMounted "/perm" ;;
  if (mounted : bool) then ensurePermDirs "/perm"
  else
    sys <- look h_sys ;;
    permDev <- wrap_err "locate PERM partition: " (lift (FindPartitionByNumber sys 4)) ;;
    open_perm permDev.

(** ** initPlatform *)

Definition bring_up : prog world unit :=
  ignore (installResolvConf "/etc/capsule/resolv.conf" "/etc/resolv.conf") ;;;
  ignore (linkUp "lo") ;;;
  loadBridgeModules ;;;
  ignore enableIPForward ;;;
  ignore bringUpDefaultEth.

(** Everything before /perm is touched; gives the active slot. *)
Definition early_boot : prog world string :=
  for_each earlyMounts mount_early ;;;
  link_ptmx ;;;
  slot <- look (fun d => detectActiveSlot (h_sys d)) ;;
  bring_up ;;;
  ret slot.

Definition initPlatform : prog world BootResult :=
  slot <- early_boot ;;
  mode <- look (fun d => DetectInstallerMode (h_sys d)) ;;
  let '(installer, targets) := mode in
  perm <- (if (installer : bool) then ret None else r <- catch mountPerm ;; ret (Some r)) ;;
  let mounted := match perm with Some (Ok _) => true | _ => false end in
  when mounted (ignore reclaimStickyIP) ;;;
  ignore (applyResolvedHostname mounted) ;;;
  ret (mkBootResult mounted slot installer
         (match perm with Some (Err e) => Error e | _ => "" end) (if installer then targets else [])).

(** [boot.Init] as [main] uses it: the error is logged and the result is what
    was filled in before it, nothing. *)
Definition zero_result : BootResult := mkBootResult false "" false "" [].
Definition boot_Init (w : world) : BootResult * world :=
  let '(r, w') := initPlatform w in (match r with Ok res => res | Err _ => zero_result end, w').
End Boot.

(** ** Sorting the names *)

#[local] Abbreviation le := String.le.

Lemma ltb_le a b : String.ltb a b = false -> le b a.
Proof.
  unfold String.ltb, le, String.leb. rewrite String.compare_antisym. by destruct (String.compare b a).
Qed.
Lemma ltb_le' a b : String.ltb a b = true -> le a b.
Proof. unfold String.ltb, le, String.leb. by destruct (String.compare a b). Qed.

(** The inner loop puts a name in its place below the ones larger than it. *)
Lemma sift_place p x s :
  exists p1 p2, p = p1 ++ p2 /\ sift (List.length p) (p ++ x :: s) = p1 ++ x :: p2 ++ s /\
    (forall y, y ∈ p2 -> le x y) /\ (forall z, last p1 = Some z -> le z x).
Proof.
  revert s. induction p as [|y p IH] using rev_ind; intros s.
  { exists [], []. split_and!; [done|done|by intros ? ?%not_elem_of_nil|done]. }
  rewrite length_app, Nat.add_1_r. cbn [sift]. rewrite <- app_assoc. cbn [app].
  assert ((p ++ y :: x :: s) !! Datatypes.S (List.length p) = Some x) as ->.
  { rewrite lookup_app_r by lia. by replace (_ - _)%nat with 1%nat by lia. }
  rewrite list_lookup_middle by done. destruct (String.ltb x y) eqn:E.
  - assert (<[List.length p := x]> (<[Datatypes.S (List.length p) := y]> (p ++ y :: x :: s)) = p ++ x :: y :: s) as ->.
    { rewrite <- Nat.add_1_r, insert_app_r. rewrite <- (Nat.add_0_r (List.length p)) at 1. by rewrite insert_app_r. }
    destruct (IH (y :: s)) as (p1 & p2 & -> & -> & H2 & H1). exists p1, (p2 ++ [y]).
    split_and!; [by rewrite app_assoc|by rewrite <- app_assoc| |done].
    intros z [Hz| ->%list_elem_of_singleton]%elem_of_app; [by apply H2|by apply ltb_le'].
  - exists (p ++ [y]), []. split_and!; [by rewrite app_nil_r|by rewrite <- app_assoc|by intros ? ?%not_elem_of_nil|].
    rewrite last_snoc. intros z [= <-]. by apply ltb_le.
Qed.

Lemma Sorted_last p x : StronglySorted le p -> (forall z, last p = Some z -> le z x) -> forall y, y ∈ p -> le y x.
Proof.
  induction p as [|a p IH] using rev_ind; intros Hs Hl y Hy; [by apply not_elem_of_nil in Hy|].
  rewrite last_snoc in Hl. specialize (Hl a eq_refl). apply elem_of_app in Hy as [Hy| ->%list_elem_of_singleton]; [|done].
  transitivity a; [|done]. apply StronglySorted_app in Hs as (Hs & _). by apply Hs; [|apply list_elem_of_singleton].
Qed.

Lemma sift_sorted p x s : StronglySorted le p ->
  exists q, sift (List.length p) (p ++ x :: s) = q ++ s /\ StronglySorted le q /\ q ≡ₚ x :: p.
Proof.
  intros Hs. destruct (sift_place p x s) as (p1 & p2 & -> & -> & H2 & H1).
  exists (p1 ++ x :: p2). split; [by rewrite <- app_assoc|].
  apply StronglySorted_app in Hs as (Hc & Hs1 & Hs2). pose proof (Sorted_last p1 x Hs1 H1) as H1'.
  split; [|by rewrite Permutation_middle].
  apply StronglySorted_app. split_and!; [|done|].
  - intros a b Ha [->|Hb]%elem_of_cons; [by apply H1'|by apply Hc].
  - constructor; [done|]. apply List.Forall_forall. intros y Hy. apply H2. by apply list_elem_of_In.
Qed.

Lemma sort_loop k : forall p s, p <> [] -> StronglySorted le p -> List.length s = k ->
  exists q, foldl (fun l i => sift i l) (p ++ s) (seq (List.length p) k) = q /\ StronglySorted le q /\ q ≡ₚ p ++ s.
Proof.
  induction k as [|k IH]; intros p s Hp Hs Hk.
  - destruct s; [|done]. exists p. by rewrite app_nil_r.
  - destruct s as [|x s]; [done|]. cbn [seq foldl]. destruct (sift_sorted p x s Hs) as (q & -> & Hq & Hperm).
    assert (List.length q = Datatypes.S (List.length p)) as Hl by (by rewrite Hperm).
    destruct (IH q s) as (r & Hr & Hsr & Hpr); [by intros ->|done|by injection Hk|].
    rewrite Hl in Hr. exists r. split_and!; [done|done|]. rewrite Hpr, Hperm. by rewrite <- Permutation_middle.
Qed.

(** The hand-written sort is a sort. *)
Lemma sort_names_spec names : StronglySorted le (sort_names names) /\ sort_names names ≡ₚ names.
Proof.
  unfold sort_names. destruct names as [|n names]; [by repeat constructor|].
  destruct (sort_loop (List.length names) [n] names) as (q & Hq & Hs & Hp); [done|by repeat constructor|done|].
  cbn [List.length app] in *. by rewrite Nat.sub_succ, Nat.sub_0_r, Hq.
Qed.
Lemma sort_names_merge names : sort_names names = merge_sort le names.
Proof.
  destruct (sort_names_spec names) as [Hs Hp].
  apply (StronglySorted_unique le); [done|apply (StronglySorted_merge_sort le)|by rewrite Hp, merge_sort_Permutation].
Qed.

(** ** The name of the box *)

(** The directory lists each interface once. *)
Lemma address_of_elem entries n a : NoDup entries.*1 -> (n, a) ∈ entries -> address_of entries n = a.
Proof.
  unfold address_of. induction entries as [|[m b] es IH]; [by intros _ ?%not_elem_of_nil|].
  cbn [fmap list_fmap]. rewrite NoDup_cons. intros [Hm Hd] Hin. cbn [List.find fst].
  destruct (String.eqb_spec m n) as [->|Hne].
  - apply elem_of_cons in Hin as [[= ->]|Hin]; [done|]. destruct Hm. by apply (list_elem_of_fmap_2 fst _ (n, a)).
  - apply IH; [done|]. apply elem_of_cons in Hin as [[= -> ->]|Hin]; [by destruct Hne|done].
Qed.
Lemma address_of_perm es es' n : NoDup es.*1 -> es ≡ₚ es' -> address_of es n = address_of es' n.
Proof.
  intros Hd Hp. assert (NoDup es'.*1) as Hd' by (by rewrite <- Hp).
  destruct (decide (n ∈ es.*1)) as [Hn|Hn].
  - apply list_elem_of_fmap in Hn as ([m a] & -> & Hin). rewrite (address_of_elem es _ a) by done.
    rewrite Hp in Hin. by rewrite (address_of_elem es' _ a).
  - unfold address_of. assert (forall l : list (string * result string), n ∉ l.*1 -> List.find (fun e => String.eqb e.1 n) l = None) as Hnone.
    { intros l Hl. induction l as [|[m a] l IH]; [done|]. cbn [fmap list_fmap List.find fst] in *.
      destruct (String.eqb_spec m n) as [->|]; [set_solver|]. apply IH. set_solver. }
    rewrite !Hnone; [done|by rewrite <- Hp|done].
Qed.

(** A usable interface: not lo, with an address that gives a name. *)
Definition usable (entries : list (string * result string)) (n name : string) : Prop :=
  n <> "lo" /\ exists a, (n, a) ∈ entries /\ mac_name a = Some name.

Lemma head_omap_sorted (f : string -> option string) l y :
  StronglySorted le l -> head (omap f l) = Some y ->
  exists x, x ∈ l /\ f x = Some y /\ forall x', x' ∈ l -> is_Some (f x') -> le x x'.
Proof.
  induction l as [|x l IH]; [done|]. intros Hs H. apply StronglySorted_cons in Hs as [Hx Hs]. simpl in H.
  destruct (f x) as [z|] eqn:E.
  - injection H as ->. exists x. split_and!; [apply list_elem_of_here|done|].
    intros x' [->|Hx']%elem_of_cons _; [done|]. rewrite List.Forall_forall in Hx. apply Hx. by apply list_elem_of_In.
  - destruct (IH Hs H) as (x0 & Hin & Hf & Hle). exists x0. split_and!; [by apply list_elem_of_further|done|].
    intros x' [->|Hx']%elem_of_cons Hsome; [rewrite E in Hsome; by destruct Hsome|by apply Hle].
Qed.

Lemma mac_name_not_empty a x : mac_name a = Some x -> x <> "".
Proof.
  unfold mac_name. destruct a as [a|]; [|done]. cbv zeta. destruct (_ || _); [done|].
  destruct (Split _ _) as [|? [|? [|? [|? [|? [|? []]]]]]]; try done. by intros [= <-].
Qed.

Lemma macDerived_perm es es' : NoDup es.*1 -> es ≡ₚ es' -> macDerivedHostname (Ok es) = macDerivedHostname (Ok es').
Proof.
  intros Hd Hp. unfold macDerivedHostname.
  assert (sort_names (filter (fun n => n <> "lo") es.*1) = sort_names (filter (fun n => n <> "lo") es'.*1)) as ->.
  { apply (StronglySorted_unique le); [apply sort_names_spec..|].
    rewrite (proj2 (sort_names_spec _)), (proj2 (sort_names_spec (filter _ es'.*1))). by rewrite Hp. }
  f_equal. f_equal. apply list_omap_ext. apply Forall_Forall2_diag, Forall_true. intros n. by rewrite (address_of_perm es es').
Qed.

Lemma macDerived_spec es x : NoDup es.*1 -> macDerivedHostname (Ok es) = x ->
  (x = "" /\ forall n y, ~ usable es n y) \/
  (x <> "" /\ exists n, usable es n x /\ forall n' y, usable es n' y -> le n n').
Proof.
  intros Hd. unfold macDerivedHostname. cbv zeta.
  set (names := filter (fun n => n <> "lo") es.*1). set (f := fun n => mac_name (address_of es n)).
  destruct (sort_names_spec names) as [Hs Hp].
  assert (forall n y, usable es n y <-> n ∈ sort_names names /\ f n = Some y) as Hu.
  { intros n y. rewrite Hp. unfold names, f, usable. rewrite list_elem_of_filter, list_elem_of_fmap. split.
    - intros (Hn & a & Hin & Ha). rewrite (address_of_elem _ _ a) by done. split_and!; [done|by exists (n, a)|done].
    - intros ((Hn & [m a] & -> & Hin) & Ha). simpl in *. rewrite (address_of_elem _ _ a) in Ha by done. split; [done|by exists a]. }
  destruct (head (omap f (sort_names names))) as [y|] eqn:E; intros <-; simpl.
  - right. apply head_omap_sorted in E as (n & Hin & Hf & Hle); [|done].
    split; [by eapply mac_name_not_empty|]. exists n. split; [by apply Hu|]. intros n' y' [Hin' Hf']%Hu. apply Hle; [done|by exists y'].
  - left. split; [done|]. intros n y [Hin Hf]%Hu.
    assert (y ∈ omap f (sort_names names)) as Hy by (apply list_elem_of_omap; eauto).
    destruct (omap f (sort_names names)); [by apply not_elem_of_nil in Hy|done].
Qed.

Section hostname.
Context {D : Type} `{!Host D}.
Implicit Types w : FWorld (Node D).

Definition nonblank (o : option string) : option string :=
  match o with Some b => if String.eqb (TrimSpace b) "" then None else Some (TrimSpace b) | None => None end.
Lemma nonblank_not_empty o x : nonblank o = Some x -> x <> "".
Proof. destruct o as [b|]; [|done]. simpl. destruct (String.eqb_spec (TrimSpace b) ""); [done|]. by intros [= <-]. Qed.

Lemma readHostnameFile_run path w : fw_faults w = [] ->
  readHostnameFile path w = (Ok (nonblank (fw_files w !! path)), w).
Proof.
  intros Hf. unfold readHostnameFile, f_ReadFile. go_unfold. unfold os_call. simpl. rewrite Hf.
  by destruct (fw_files w !! path) as [b|]; simpl; [|done].
Qed.

Definition hostname_of (m : bool) w : string :=
  match (if m then nonblank (fw_files w !! PermHostnameFile) else None) with
  | Some n => n
  | None => let n := macDerivedHostname (h_net (dev w)) in
            if String.eqb n "" then default "capsule" (nonblank (fw_files w !! "/etc/capsule/hostname")) else n
  end.
Lemma resolveHostname_run m w : fw_faults w = [] -> resolveHostname m w = (Ok (hostname_of m w), w).
Proof.
  intros Hf. unfold resolveHostname, hostname_of.
  assert (hostname_fallback w = (Ok (let n := macDerivedHostname (h_net (dev w)) in
    if String.eqb n "" then default "capsule" (nonblank (fw_files w !! "/etc/capsule/hostname")) else n), w)) as Hfb.
  { unfold hostname_fallback. go_unfold. unfold look. cbv zeta. destruct (String.eqb _ ""); simpl; [|done].
    by rewrite readHostnameFile_run. }
  destruct m; [|done]. rewrite (bind_Ok _ _ _ _ _ (readHostnameFile_run _ _ Hf)).
  by destruct (nonblank (fw_files w !! PermHostnameFile)).
Qed.
Lemma hostname_of_not_empty m w : hostname_of m w <> "".
Proof.
  unfold hostname_of. destruct (if m then _ else _) as [n|] eqn:E.
  - destruct m; [|done]. by eapply nonblank_not_empty.
  - cbv zeta. destruct (String.eqb_spec (macDerivedHostname (h_net (dev w))) ""); [|done].
    clear E. destruct (nonblank (fw_files w !! "/etc/capsule/hostname")) eqn:E'; [exact (nonblank_not_empty _ _ E')|done].
Qed.
Lemma applyResolvedHostname_run m w : fw_faults w = [] ->
  nd_hostname (fw_store (applyResolvedHostname m w).2) = hostname_of m w.
Proof.
  intros Hf. unfold applyResolvedHostname. rewrite (bind_Ok _ _ _ _ _ (resolveHostname_run m w Hf)).
  destruct (String.eqb_spec (hostname_of m w) ""); [by destruct (hostname_of_not_empty m w)|].
  unfold wrap_err, Sethostname, os_call. simpl. by rewrite Hf.
Qed.

(** A box keeps its name.  Two boots of the same box, whose network
    directory lists the same interfaces in any order and whose host name files
    agree, set the same host name, and it is never empty. *)
Theorem hostname_stable m w1 w2 es1 es2 :
  fw_faults w1 = [] -> fw_faults w2 = [] ->
  (forall p, p ∈ [PermHostnameFile; "/etc/capsule/hostname"] -> fw_files w1 !! p = fw_files w2 !! p) ->
  h_net (dev w1) = Ok es1 -> h_net (dev w2) = Ok es2 -> NoDup es1.*1 -> es1 ≡ₚ es2 ->
  let name := nd_hostname (fw_store (applyResolvedHostname m w1).2) in
  nd_hostname (fw_store (applyResolvedHostname m w2).2) = name /\ name <> "".
Proof.
  intros Hf1 Hf2 Hfiles Hn1 Hn2 Hd Hp. cbv zeta. rewrite !applyResolvedHostname_run by done.
  split; [|apply hostname_of_not_empty]. unfold hostname_of.
  rewrite Hn1, Hn2, (macDerived_perm es1 es2) by done.
  by rewrite (Hfiles _ (list_elem_of_here _ _)), (Hfiles _ (list_elem_of_further _ _ _ (list_elem_of_here _ _))).
Qed.
End hostname.

(** ** The programs a boot runs *)

#[export] Instance Logged_host {D} `{!Host D} : Host (Logged D) := {|
  h_exec := Logged_exec;
  h_sys d := h_sys (lg_machine d);
  h_net d := h_net (lg_machine d);
  h_ifaces d := h_ifaces (lg_machine d);
  h_mounts d := h_mounts (lg_machine d);
  h_exists p d := h_exists p (lg_machine d);
  h_Mount m d := let '(r, x) := h_Mount m (lg_machine d) in (r, mkLogged x (lg_log d));
  h_Symlink a b d := let '(r, x) := h_Symlink a b (lg_machine d) in (r, mkLogged x (lg_log d));
  h_now d := h_now (lg_machine d);
  h_pass t d := mkLogged (h_pass t (lg_machine d)) (lg_log d) |}.

Section commands.
Context {D : Type} `{!Host D} (parse_MiB : string -> result Z) (entropy : result string).
Abbreviation world := (FWorld (Node (Logged D))).
Implicit Types w : world.

#[export] Program Instance boot_recorded : Recorded world := {| log_of w := lg_log (dev w) |}.
Next Obligation.
  intros path args w. unfold exec_Command at 1, boot_exec. pose proof (log_exec path args (dev w)) as H.
  by destruct (exec_Command path args (dev w)).
Qed.

(** The steps that run no program. *)
Lemma quiet_os_call {A} part (act : prog world A) :
  (forall n w, log_of (part n w) = log_of w) -> keeps log_of act -> keeps log_of (os_call part act).
Proof. intros. by apply keeps_os_call. Qed.
Lemma quiet_file {A} part (act : prog world A) :
  (forall n w, fw_store (part n w) = fw_store w) -> (forall w, fw_store (act w).2 = fw_store w) -> keeps log_of (os_call part act).
Proof.
  intros Hp Ha. apply quiet_os_call; [|intros w]; intros; simpl; unfold dev; by rewrite ?Hp, ?Ha.
Qed.
Lemma quiet_Mount m : keeps log_of (Mount (D:=Logged D) m).
Proof.
  apply quiet_os_call; [done|]. intros w. simpl. by destruct (h_Mount m (lg_machine (dev w))) as [[fs|e] x].
Qed.
Lemma quiet_Symlink a b : keeps log_of (Symlink (D:=Logged D) a b).
Proof. apply quiet_os_call; [done|]. intros w. simpl. by destruct (h_Symlink a b (lg_machine (dev w))) as [[]]. Qed.
Lemma quiet_wait what shown path d : keeps log_of (wait_for (W:=world) what shown path d).
Proof. by apply keeps_wait_for. Qed.
Lemma quiet_stat p : keeps log_of (stat (D:=Logged D) p).
Proof. by apply quiet_os_call. Qed.
Lemma quiet_MkdirAll p : keeps log_of (f_MkdirAll (S:=Node (Logged D)) p).
Proof. by apply quiet_file. Qed.
Lemma quiet_mkdir_ok p : keeps log_of (mkdir_ok (D:=Logged D) p).
Proof. pose proof quiet_MkdirAll. unfold mkdir_ok. go_keeps. Qed.
Lemma quiet_isMounted p : keeps log_of (isMounted (D:=Logged D) p).
Proof. unfold isMounted. go_keeps. by apply quiet_os_call. Qed.
Lemma quiet_ensurePermDirs r : keeps log_of (ensurePermDirs (D:=Logged D) r).
Proof. apply keeps_preserves. intros b. apply preserves_for_each. intros x _ w <-. apply quiet_mkdir_ok. Qed.

Definition formats : list string :=
  ["/sbin/pvcreate"; "/sbin/vgcreate"; "/sbin/lvcreate"; "/usr/sbin/mkfs.ext4"; "/sbin/mkfs.ext4"].

(** What turns a blank partition into the volume group. *)
Definition format_script (dev : string) (c : string * list string) : Prop :=
  c ∈ [("/sbin/pvcreate", ["-ff"; "-y"; dev]); ("/sbin/vgcreate", ["capsule"; dev]);
       ("/usr/sbin/mkfs.ext4", ["-q"; "-F"; "/dev/capsule/meta"]); ("/sbin/mkfs.ext4", ["-q"; "-F"; "/dev/capsule/meta"]);
       ("/sbin/lvcreate", ["--monitor"; "n"; "-l"; "95%FREE"; "--thinpool"; "thinpool"; "capsule"])] \/
  exists n, (meta_floor <= n <= meta_cap)%Z /\ c = ("/sbin/lvcreate", ["-L"; Itoa n +:+ "M"; "-n"; "meta"; "capsule"]).

Lemma meta_of_bounds vg : (meta_floor <= meta_of vg <= meta_cap)%Z.
Proof. unfold meta_of, meta_floor, meta_cap. cbv zeta. repeat match goal with |- context [(?a <? ?b)%Z] => destruct (Z.ltb_spec a b) end; lia. Qed.

Lemma compute_bounds vg w n w' : computeMetaMiB (D:=Logged D) parse_MiB vg w = (Ok n, w') -> (meta_floor <= n <= meta_cap)%Z.
Proof.
  unfold computeMetaMiB. intros (o & w1 & _ & H)%bind_Ok_inv. destruct (o_err o); [done|].
  destruct (parse_MiB _) as [v|]; [|done]. injection H as <- _. apply meta_of_bounds.
Qed.
Lemma runs_initialize P dev : (forall c, format_script dev c -> P c) -> (forall args, P ("/sbin/vgs", args)) ->
  runs P (initializeCapsuleVG (D:=Logged D) parse_MiB dev).
Proof.
  intros HP Hvgs. unfold initializeCapsuleVG, make_meta_fs, runLVM, runs.
  apply preserves_bind; [apply runs_exec_or_fail, HP; left; in_names|intros _].
  apply preserves_bind; [apply runs_exec_or_fail, HP; left; in_names|intros _].
  apply (preserves_bind_post _ (fun n => meta_floor <= n <= meta_cap)%Z); [|apply compute_bounds|].
  - unfold computeMetaMiB. go_preserves. by apply runs_exec.
  - intros n Hn. go_preserves; apply runs_exec_or_fail, HP; [right; by exists n|left; in_names..].
Qed.

(** What follows the check for a volume group, with [b] its answer. *)
Lemma runs_open P : (forall args, P ("/sbin/vgscan", args)) -> (forall args, P ("/sbin/vgchange", args)) ->
  runs P (wrap_err "activate vg capsule: " (activateVG (D:=Logged D) "capsule") ;;;
    wrap_err "waiting for /dev/capsule/meta: " (wait_for "block device " "2s" "/dev/capsule/meta" (2 * Second)) ;;;
    wrap_err "mount /dev/capsule/meta -> /perm: " (Mount (D:=Logged D) perm_mount) ;;;
    ensurePermDirs (D:=Logged D) "/perm").
Proof.
  intros H1 H2. unfold activateVG, runLVM, runs. go_preserves; try by apply runs_exec_or_fail.
  - apply runs_quiet, quiet_wait.
  - apply runs_quiet, quiet_Mount.
  - apply runs_quiet, quiet_ensurePermDirs.
Qed.

Lemma keeps_dev_call {A} part (act : prog world A) :
  (forall n w, dev (part n w) = dev w) -> keeps dev act -> keeps dev (os_call part act).
Proof. intros. by apply keeps_os_call. Qed.
Lemma keeps_dev_stat p : keeps dev (stat (D:=Logged D) p).
Proof. by apply keeps_dev_call. Qed.
Lemma keeps_dev_isMounted p : keeps dev (isMounted (D:=Logged D) p).
Proof. unfold isMounted. go_keeps. by apply keeps_dev_call. Qed.

Definition no_format (c : string * list string) : Prop := c.1 ∉ formats.

Lemma open_perm_log p w c : log_of w = [] -> c ∈ log_of (open_perm (D:=Logged D) parse_MiB p w).2 -> c.1 ∈ formats ->
  is_Some (o_err (exec_Command "/sbin/pvs" ["--noheadings"; p] (lg_machine (dev w))).1) /\ format_script p c.
Proof.
  intros Hw Hc Hf. unfold open_perm, pvExists in Hc. unfold bind at 1 2 in Hc. unfold exec_prog in Hc.
  pose proof (log_exec "/sbin/pvs" ["--noheadings"; p] w) as Hlog. rewrite Hw in Hlog.
  assert ((exec_Command "/sbin/pvs" ["--noheadings"; p] w).1 =
          (exec_Command "/sbin/pvs" ["--noheadings"; p] (lg_machine (dev w))).1) as Ho.
  { unfold exec_Command at 1, boot_exec. unfold exec_Command at 1, h_exec at 1, Logged_host, Logged_exec.
    by destruct (exec_Command _ _ (lg_machine (dev w))). }
  rewrite <- Ho. destruct (exec_Command "/sbin/pvs" ["--noheadings"; p] w) as [o w1]. cbn [fst snd] in Hlog, Ho |- *. unfold ret in Hc at 1.
  assert (forall P, (forall args, P ("/sbin/pvs", args)) -> logs P w1) as Hstart.
  { intros P HP. unfold logs. rewrite Hlog. by constructor. }
  destruct (o_err o) as [e|].
  - split; [done|]. set (P := fun c : string * list string => c.1 ∈ formats -> format_script p c).
    assert (forall x, x ∉ formats -> forall args, P (x, args)) as Hno by (by intros x Hx args ?).
    match type of Hc with _ ∈ log_of (?m w1).2 => assert (runs P m) as Hr end.
    { apply preserves_bind; [|intros _; apply runs_open; apply Hno; apply (bool_decide_unpack _); exact I].
      apply preserves_when, preserves_wrap_err, runs_initialize; [by intros c0 Hc0 ?|apply Hno; apply (bool_decide_unpack _); exact I]. }
    specialize (Hr w1). unfold logs at 2 in Hr. rewrite Forall_forall in Hr. apply Hr; [|done|done].
    apply Hstart, Hno, (bool_decide_unpack _). exact I.
  - exfalso. match type of Hc with _ ∈ log_of (?m w1).2 => assert (runs no_format m) as Hr end.
    { apply preserves_bind; [apply preserves_ret|intros _]. apply runs_open; intros args; apply (bool_decide_unpack _); exact I. }
    specialize (Hr w1). unfold logs at 2 in Hr. rewrite Forall_forall in Hr. apply (Hr (Hstart no_format ltac:(intros args; apply (bool_decide_unpack _); exact I)) c Hc Hf).
Qed.

(** Only a blank partition is formatted.  If mounting /perm runs a program
    that creates a physical volume, a volume group, a logical volume or a file
    system, then the boot disk has a PERM partition, [pvs] reported no physical
    volume on it, and the program is a step of the script for that partition,
    with a meta volume between 1 and 32 GiB. *)
Theorem mountPerm_formats_blank w c :
  log_of w = [] -> c ∈ log_of (mountPerm (D:=Logged D) parse_MiB w).2 -> c.1 ∈ formats ->
  let m := lg_machine (dev w) in
  exists p, FindPartitionByNumber (h_sys m) 4 = Ok p /\
    is_Some (o_err (exec_Command "/sbin/pvs" ["--noheadings"; p] m).1) /\ format_script p c.
Proof.
  intros Hw Hc Hf. cbv zeta. unfold mountPerm, bind, wrap_err in Hc.
  assert (forall w', dev w' = dev w -> log_of w' = []) as Hsame.
  { intros w' E. unfold log_of, boot_recorded in *. by rewrite E. }
  assert (forall w', dev w' = dev w -> c ∈ log_of w' -> False) as Hno by (by intros w' E; rewrite Hsame by done; apply not_elem_of_nil).
  pose proof (keeps_dev_stat "/perm" w) as H1. destruct (stat "/perm" w) as [[[]|e] w1]; simpl in H1, Hc.
  2: { by apply (Hno w1) in Hc. }
  pose proof (keeps_dev_isMounted "/perm" w1) as H2. destruct (isMounted "/perm" w1) as [[b|e] w2]; simpl in H2, Hc.
  2: { apply (Hno w2) in Hc; [done|congruence]. }
  rewrite H1 in H2. destruct b.
  { pose proof (quiet_ensurePermDirs "/perm" w2) as Hq. destruct (Hno w2 H2). by rewrite <- Hq. }
  unfold look, lift in Hc. rewrite H2 in Hc. simpl in Hc.
  destruct (FindPartitionByNumber (h_sys (lg_machine (dev w))) 4) as [p|e] eqn:Hp.
  2: { by apply (Hno w2) in Hc. }
  exists p. split; [done|]. rewrite <- H2. by apply (open_perm_log p w2 c); [apply Hsame|..].
Qed.
End commands.

(** ** A boot keeps what is on /perm *)

(** What the boot relies on: [meta_of] is the content of the meta volume, if
    the boot disk has one; [pvs] then reports the physical volume, mounting
    the volume gives its files, and nothing but the formatting programs
    changes it. *)
Class PermLaws (D : Type) `{!Host D} := {
  meta_of_disk : D -> option (gmap string string);
  perm_mounted : D -> bool;
  mounts_law d data : h_mounts d = Ok data -> isMounted_in data "/perm" = perm_mounted d;
  pvs_law d p fs : meta_of_disk d = Some fs -> FindPartitionByNumber (h_sys d) 4 = Ok p ->
    o_err (exec_Command "/sbin/pvs" ["--noheadings"; p] d).1 = None;
  exec_meta path args d : path ∉ formats ->
    let d' := (exec_Command path args d).2 in meta_of_disk d' = meta_of_disk d /\ perm_mounted d' = perm_mounted d;
  mount_meta m d : let d' := (h_Mount m d).2 in
    meta_of_disk d' = meta_of_disk d /\ (ms_target m <> "/perm" -> perm_mounted d' = perm_mounted d);
  mount_perm d fs d' : h_Mount perm_mount d = (Ok fs, d') -> meta_of_disk d = Some fs;
  symlink_meta a b d : let d' := (h_Symlink a b d).2 in
    meta_of_disk d' = meta_of_disk d /\ perm_mounted d' = perm_mounted d;
  pass_meta t d : meta_of_disk (h_pass t d) = meta_of_disk d /\ perm_mounted (h_pass t d) = perm_mounted d }.

Section steady.
Context {D : Type} `{!Host D} (parse_MiB : string -> result Z) (entropy : result string).
Abbreviation world := (FWorld (Node D)).
(** A fact of the machine that only formatting or mounting /perm can change. *)
Context (I : D -> Prop).
Context (I_exec : forall path args d, path ∉ formats -> I d -> I (exec_Command path args d).2).
Context (I_mount : forall m d, ms_target m <> "/perm" -> I d -> I (h_Mount m d).2).
Context (I_symlink : forall a b d, I d -> I (h_Symlink a b d).2).
Context (I_pass : forall t d, I d -> I (h_pass t d)).

Definition steady {A} (m : prog world A) : Prop := preserves (fun w => I (dev w)) m.

Lemma steady_exec path args : path ∉ formats -> steady (exec_prog path args).
Proof.
  intros Hp w Hw. unfold exec_prog, exec_Command, boot_exec. specialize (I_exec path args (dev w) Hp Hw).
  by destruct (exec_Command path args (dev w)).
Qed.
Lemma steady_call {A} part (act : prog world A) :
  (forall n w, dev (part n w) = dev w) -> steady act -> steady (os_call part act).
Proof. intros Hp Ha. apply preserves_os_call; [done|intros n w; by rewrite Hp|done]. Qed.
Lemma steady_dev {A} part (act : prog world A) :
  (forall n w, dev (part n w) = dev w) -> keeps dev act -> steady (os_call part act).
Proof. intros Hp Ha. apply steady_call; [done|]. intros w. by rewrite Ha. Qed.
Lemma steady_Mount m : ms_target m <> "/perm" -> steady (Mount m).
Proof.
  intros Hm. apply steady_call; [done|]. intros w Hw. specialize (I_mount m (dev w) Hm Hw).
  by destruct (h_Mount m (dev w)) as [[fs|e] x].
Qed.
Lemma steady_Symlink a b : steady (Symlink a b).
Proof. apply steady_call; [done|]. intros w Hw. specialize (I_symlink a b (dev w) Hw). by destruct (h_Symlink a b (dev w)). Qed.
Lemma steady_stat p : steady (stat p).
Proof. by apply steady_dev. Qed.
Lemma steady_mkdir_ok p : steady (mkdir_ok p).
Proof. unfold mkdir_ok, steady. go_preserves. by apply steady_dev. Qed.
Lemma steady_ReadFile p : steady (f_ReadFile p).
Proof. apply steady_dev; [done|]. intros w. by destruct (fw_files w !! p). Qed.
Lemma steady_WriteFile p b : steady (f_WriteFile p b).
Proof. by apply steady_dev. Qed.
Lemma steady_Rename a b : steady (f_Rename a b).
Proof. apply steady_dev; [done|]. intros w. by destruct (fw_files w !! a). Qed.
Lemma steady_Remove a : steady (f_Remove a).
Proof. apply steady_dev; [done|]. intros w. by destruct (fw_files w !! a). Qed.
Lemma steady_look {A} (f : D -> A) : steady (look f).
Proof. by intros w. Qed.
Lemma steady_spawn p a : steady (spawn p a).
Proof. by intros w. Qed.
Lemma steady_wait what shown path d : steady (wait_for (W:=world) what shown path d).
Proof. apply preserves_wait_for. intros t w. apply I_pass. Qed.
Lemma steady_eth_wait t : steady (firstEthIfaceWait t).
Proof.
  intros w Hw. unfold firstEthIfaceWait. generalize (eth_fuel t), (now_ns w + t)%Z. intros fuel deadline. revert w Hw.
  induction fuel as [|fuel IH]; intros w Hw; cbn [eth_poll]; [done|].
  destruct (firstEthIface _); [done|]. destruct (_ <? _)%Z; [done|]. by apply IH, I_pass.
Qed.
End steady.

Create HintDb steady.
#[export] Hint Resolve steady_exec steady_Mount steady_Symlink steady_stat steady_mkdir_ok steady_ReadFile steady_WriteFile
  steady_Rename steady_Remove steady_look steady_spawn steady_wait steady_eth_wait : steady.

Section steps.
Context {D : Type} `{!Host D} (parse_MiB : string -> result Z) (entropy : result string).
Context (I : D -> Prop).
Context (I_exec : forall path args d, path ∉ formats -> I d -> I (exec_Command path args d).2).
Context (I_mount : forall m d, ms_target m <> "/perm" -> I d -> I (h_Mount m d).2).
Context (I_symlink : forall a b d, I d -> I (h_Symlink a b d).2).
Context (I_pass : forall t d, I d -> I (h_pass t d)).
Abbreviation steadyI := (steady I).

Ltac not_format := apply (bool_decide_unpack _); exact Logic.I.
Ltac go_steady := unfold steady; go_preserves;
  try lazymatch goal with |- preserves _ ?m => change (steadyI m) end;
  try first [apply steady_exec; [done|not_format]|eauto 3 with steady; fail].

Lemma steady_mount_early m : ms_target m <> "/perm" -> steadyI (mount_early m).
Proof. intros Hm. unfold mount_early, mountOne. go_steady. Qed.
Lemma steady_early : steadyI (for_each earlyMounts mount_early).
Proof.
  apply preserves_for_each. intros m Hm. apply steady_mount_early. intros E.
  assert (Forall (fun m => ms_target m <> "/perm") earlyMounts) as Hall by (repeat constructor; done).
  rewrite Forall_forall in Hall. by apply (Hall m).
Qed.
Lemma steady_link_ptmx : steadyI link_ptmx.
Proof. unfold link_ptmx. go_steady. Qed.
Lemma steady_linkUp n : steadyI (linkUp n).
Proof. unfold linkUp. go_steady. Qed.
Lemma steady_bring_up : steadyI bring_up.
Proof.
  unfold bring_up, installResolvConf, loadBridgeModules, enableIPForward, bringUpDefaultEth.
  go_steady; try apply steady_linkUp.
  apply preserves_for_each. intros m _. apply preserves_ignore. apply steady_exec; [done|not_format].
Qed.
Lemma steady_ensurePermDirs r : steadyI (ensurePermDirs r).
Proof. apply preserves_for_each. intros x _. apply steady_mkdir_ok. Qed.
Lemma steady_client_id : steadyI (ensureDHCPClientID entropy).
Proof. unfold ensureDHCPClientID, make_client_id. go_steady. Qed.
Lemma steady_sticky : steadyI (reclaimStickyIP entropy).
Proof. unfold reclaimStickyIP, exec_quiet. go_steady. apply steady_client_id. Qed.
Lemma steady_hostname m : steadyI (applyResolvedHostname m).
Proof.
  unfold applyResolvedHostname, resolveHostname, hostname_fallback, readHostnameFile. go_steady. by apply steady_dev.
Qed.
Lemma steady_isMounted p : steadyI (isMounted p).
Proof. unfold isMounted. go_steady. by apply steady_dev. Qed.
End steps.

Section perm.
Context {D : Type} `{!Host D, !PermLaws D} (parse_MiB : string -> result Z) (entropy : result string).
Abbreviation world := (FWorld (Node D)).
Implicit Types w : world.

(** The disk has its meta volume, not mounted yet. *)
Definition fresh_boot (fs : gmap string string) (d : D) : Prop := meta_of_disk d = Some fs /\ perm_mounted d = false.
Definition has_meta (fs : gmap string string) (d : D) : Prop := meta_of_disk d = Some fs.

Lemma fresh_exec fs path args d : path ∉ formats -> fresh_boot fs d -> fresh_boot fs (exec_Command path args d).2.
Proof. intros Hp [Hm Hn]. destruct (exec_meta path args d Hp) as [E1 E2]. split; congruence. Qed.
Lemma fresh_mount fs m d : ms_target m <> "/perm" -> fresh_boot fs d -> fresh_boot fs (h_Mount m d).2.
Proof. intros Hp [Hm Hn]. destruct (mount_meta m d) as [E1 E2]. specialize (E2 Hp). split; congruence. Qed.
Lemma fresh_symlink fs a b d : fresh_boot fs d -> fresh_boot fs (h_Symlink a b d).2.
Proof. intros [Hm Hn]. destruct (symlink_meta a b d) as [E1 E2]. split; congruence. Qed.
Lemma fresh_pass fs t d : fresh_boot fs d -> fresh_boot fs (h_pass t d).
Proof. intros [Hm Hn]. destruct (pass_meta t d) as [E1 E2]. split; congruence. Qed.
Lemma has_meta_exec fs path args d : path ∉ formats -> has_meta fs d -> has_meta fs (exec_Command path args d).2.
Proof. intros Hp Hm. unfold has_meta. by destruct (exec_meta path args d Hp) as [-> _]. Qed.
Lemma has_meta_mount fs m d : has_meta fs d -> has_meta fs (h_Mount m d).2.
Proof. intros Hm. unfold has_meta. by destruct (mount_meta m d) as [-> _]. Qed.
Lemma has_meta_symlink fs a b d : has_meta fs d -> has_meta fs (h_Symlink a b d).2.
Proof. intros Hm. unfold has_meta. by destruct (symlink_meta a b d) as [-> _]. Qed.
Lemma has_meta_pass fs t d : has_meta fs d -> has_meta fs (h_pass t d).
Proof. intros Hm. unfold has_meta. by destruct (pass_meta t d) as [-> _]. Qed.

(** The files of /perm, apart from the client id the boot may write. *)
Definition client_id_files : list string := ["capsule/dhcp-clientid"; "capsule/dhcp-clientid.tmp"].
Definition shows (fs : gmap string string) w : Prop :=
  forall p, p ∉ client_id_files -> fw_files w !! ("/perm/" +:+ p) = fs !! p.

Lemma mount_files_lookup fs files p : mount_files "/perm" fs files !! ("/perm/" +:+ p) = fs !! p.
Proof.
  unfold mount_files.
  assert ((kmap (fun p => "/perm" +:+ "/" +:+ p) fs : gmap string string) !! ("/perm/" +:+ p) = fs !! p) as Hk.
  { apply (lookup_kmap (fun p => "/perm/" +:+ p)). }
  destruct (fs !! p) as [b|].
  - by apply lookup_union_Some_l.
  - rewrite lookup_union_r by done. apply map_lookup_filter_None. right. intros b _. cbn [fst].
    assert (HasPrefix ("/perm/" +:+ p) ("/perm" +:+ "/") = true) as ->; [by destruct p|done].
Qed.

Lemma shows_keeps {A} fs (m : prog world A) : keeps fw_files m -> preserves (shows fs) m.
Proof. intros Hm w Hw p Hp. rewrite Hm. by apply Hw. Qed.

Lemma exec_files path args : keeps fw_files (exec_prog (D:=world) path args).
Proof. intros w. unfold exec_prog, exec_Command, boot_exec. by destruct (exec_Command path args (dev w)). Qed.
Lemma files_mkdir_ok p : keeps fw_files (mkdir_ok (D:=D) p).
Proof. unfold mkdir_ok. go_keeps. by apply keeps_files_call. Qed.
Lemma files_ensurePermDirs r : keeps fw_files (ensurePermDirs (D:=D) r).
Proof. apply keeps_preserves. intros b. apply preserves_for_each. intros x _ w <-. apply files_mkdir_ok. Qed.

Abbreviation meta_steady fs m := (steady (has_meta fs) m).
Lemma meta_Mount fs m : meta_steady fs (Mount m).
Proof.
  apply steady_call; [done|]. intros w Hw. pose proof (has_meta_mount fs m (dev w) Hw) as H.
  by destruct (h_Mount m (dev w)) as [[?|e] x].
Qed.
Lemma Mount_perm_shows fs w w' : has_meta fs (dev w) -> Mount perm_mount w = (Ok tt, w') -> shows fs w'.
Proof.
  intros Hw [l H]%os_call_Ok. cbn beta in H. change (dev (with_faults l w)) with (dev w) in H.
  destruct (h_Mount perm_mount (dev w)) as [[fs'|e] x] eqn:E; [|done]. injection H as <-.
  apply mount_perm in E. unfold has_meta in Hw. rewrite Hw in E. injection E as <-.
  intros p _. apply (mount_files_lookup fs).
Qed.

(** Mounting a volume that is there. *)
Lemma open_perm_keeps fs p w r w' :
  fresh_boot fs (dev w) -> FindPartitionByNumber (h_sys (dev w)) 4 = Ok p ->
  open_perm parse_MiB p w = (r, w') -> has_meta fs (dev w') /\ (r = Ok tt -> shows fs w').
Proof.
  intros Hw Hp H. unfold open_perm, pvExists in H. unfold bind at 1 2 in H.
  unfold exec_prog in H at 1. unfold exec_Command in H at 1. unfold boot_exec in H at 1.
  pose proof (pvs_law (dev w) p fs (proj1 Hw) Hp) as Hpv.
  assert ("/sbin/pvs" ∉ formats) as Hnf by (apply (bool_decide_unpack _); exact I).
  pose proof (fresh_exec fs "/sbin/pvs" ["--noheadings"; p] (dev w) Hnf Hw) as [H1 _].
  destruct (exec_Command "/sbin/pvs" ["--noheadings"; p] (dev w)) as [o d1]. cbn [fst snd] in Hpv, H1. rewrite Hpv in H.
  unfold ret in H at 1. cbn [negb when] in H. rewrite bind_ret in H.
  change (has_meta fs (dev (set_dev d1 w))) in H1. generalize dependent (set_dev d1 w). intros w1 H H1.
  assert (meta_steady fs (activateVG "capsule")) as Ha.
  { unfold activateVG, runLVM, exec_or_fail, steady. go_preserves; apply steady_exec; try apply has_meta_exec; apply (bool_decide_unpack _); exact I. }
  assert (meta_steady fs (wait_for "block device " "2s" "/dev/capsule/meta" (2 * Second))) as Hwait.
  { apply steady_wait. intros t d. apply has_meta_pass. }
  pose proof (meta_Mount fs perm_mount) as Hmount. pose proof (steady_ensurePermDirs (has_meta fs) "/perm") as Hdirs.
  split.
  - eapply (preserves_run (fun w => has_meta fs (dev w))); [exact H| |exact H1]. unfold steady in *. go_preserves.
  - intros ->. apply bind_Ok_inv in H as ([] & w2 & H2 & H). apply (preserves_run (fun w => has_meta fs (dev w)) _ _ _ _ H2) in H1; [|by apply preserves_wrap_err].
    apply bind_Ok_inv in H as ([] & w3 & H3 & H). apply (preserves_run (fun w => has_meta fs (dev w)) _ _ _ _ H3) in H1; [|by apply preserves_wrap_err].
    apply bind_Ok_inv in H as ([] & w4 & H4 & H). unfold wrap_err in H4.
    destruct (Mount perm_mount w3) as [[[]|e] w5] eqn:Em; [|done]. injection H4 as ->.
    apply (Mount_perm_shows fs) in Em; [|done].
    exact (preserves_run (shows fs) _ _ _ _ H (shows_keeps fs _ (files_ensurePermDirs "/perm")) Em).
Qed.

Lemma isMounted_fresh fs w : fresh_boot fs (dev w) -> exists w1, isMounted "/perm" w = (Ok false, w1) /\ dev w1 = dev w.
Proof.
  intros [_ Hn]. unfold isMounted.
  set (read := os_call no_part (fun w : world => (h_mounts (dev w), w))).
  assert (keeps dev read) as Hd by (by apply keeps_os_call). specialize (Hd w).
  assert (forall data, (read w).1 = Ok data -> h_mounts (dev w) = Ok data) as Hr.
  { intros data. unfold read, os_call. by destruct (faults_of w) as [|[[n e]|] l]. }
  unfold bind, catch. destruct (read w) as [[data|e] w1]; cbn [fst snd] in *; exists w1; split; try done.
  unfold ret. by rewrite (mounts_law (dev w) data (Hr data eq_refl)), Hn.
Qed.

Lemma mountPerm_keeps fs w r w' : fresh_boot fs (dev w) -> mountPerm parse_MiB w = (r, w') ->
  has_meta fs (dev w') /\ (r = Ok tt -> shows fs w').
Proof.
  intros Hw H. unfold mountPerm in H.
  assert (keeps dev (stat (D:=D) "/perm")) as Hstat by (intros v; unfold stat; by apply keeps_os_call).
  unfold bind at 1 in H. unfold wrap_err at 1 in H. specialize (Hstat w). destruct (stat "/perm" w) as [[[]|e] w1].
  all: cbn [snd] in Hstat; rewrite <- Hstat in Hw; clear Hstat w.
  2: { injection H as <- <-. split; [apply Hw|done]. }
  destruct (isMounted_fresh fs w1 Hw) as (w2 & E2 & Hd). unfold bind at 1 in H. rewrite E2 in H. cbn [fst snd] in H.
  rewrite <- Hd in Hw. clear Hd E2 w1. unfold look, lift, wrap_err at 1, bind at 1 2 in H.
  destruct (FindPartitionByNumber (h_sys (dev w2)) 4) as [p|e] eqn:Hp; [|injection H as <- <-; split; [apply Hw|done]].
  by apply (open_perm_keeps fs p w2).
Qed.

(** After /perm is mounted the boot writes only the client id there. *)
Lemma shows_path {A} fs (m : prog world A) :
  (forall q, q <> permClientIDFile -> q <> permClientIDFile +:+ ".tmp" -> keeps (fun w => fw_files w !! q) m) ->
  preserves (shows fs) m.
Proof.
  intros Hm w Hw p Hp.
  rewrite Hm; [by apply Hw|..]; unfold client_id_files, permClientIDFile in *; intros E.
  - change "/perm/capsule/dhcp-clientid" with ("/perm/" +:+ "capsule/dhcp-clientid") in E. apply app_inj_l in E as ->. apply Hp. in_names.
  - change ("/perm/capsule/dhcp-clientid" +:+ ".tmp") with ("/perm/" +:+ "capsule/dhcp-clientid.tmp") in E.
    apply app_inj_l in E as ->. apply Hp. in_names.
Qed.
Lemma files_ReadFile p : keeps fw_files (f_ReadFile (S:=Node D) p).
Proof. intros w. apply f_ReadFile_cases. Qed.
Lemma shows_sticky fs : preserves (shows fs) (reclaimStickyIP entropy).
Proof.
  assert (forall p, preserves (shows fs) (f_ReadFile p)) as Hread by (intros p; apply shows_keeps, files_ReadFile).
  unfold reclaimStickyIP, ensureDHCPClientID, make_client_id, exec_quiet. go_preserves; try apply Hread; try by intros w.
  all: try (apply shows_keeps; apply files_mkdir_ok); try (apply shows_keeps, exec_files).
  all: apply shows_path; intros q H1 H2.
  all: by first [apply keeps_path_WriteFile|apply keeps_path_Rename|apply keeps_path_Remove].
Qed.
Lemma shows_hostname fs m : preserves (shows fs) (applyResolvedHostname m).
Proof.
  apply shows_keeps. pose proof files_ReadFile. unfold applyResolvedHostname, resolveHostname, hostname_fallback, readHostnameFile.
  go_keeps; try done; try by intros w. by apply keeps_files_call.
Qed.

(** The steps before /perm is touched. *)
Lemma fresh_early fs : preserves (fun w => fresh_boot fs (dev w)) early_boot.
Proof.
  pose proof (fresh_exec fs). pose proof (fresh_mount fs). pose proof (fresh_symlink fs). pose proof (fresh_pass fs).
  unfold early_boot. go_preserves; [apply steady_early|apply steady_link_ptmx|by intros w|apply steady_bring_up]; done.
Qed.
Lemma meta_rest fs mounted :
  preserves (fun w => has_meta fs (dev w)) (when mounted (ignore (reclaimStickyIP entropy)) ;;; ignore (applyResolvedHostname mounted)).
Proof.
  pose proof (has_meta_exec fs). pose proof (has_meta_symlink fs). pose proof (has_meta_pass fs).
  go_preserves; [apply steady_sticky|apply steady_hostname]; done.
Qed.
Lemma shows_rest fs mounted :
  preserves (shows fs) (when mounted (ignore (reclaimStickyIP entropy)) ;;; ignore (applyResolvedHostname mounted)).
Proof. go_preserves; [apply shows_sticky|apply shows_hostname]. Qed.

Lemma initPlatform_cases w r w' : initPlatform parse_MiB entropy w = (r, w') ->
  (exists e, early_boot w = (Err e, w') /\ r = Err e) \/
  exists slot w1 w2 m, early_boot w = (Ok slot, w1) /\
    (let '(installer, targets) := DetectInstallerMode (h_sys (dev w1)) in
     exists res, r = Ok res /\ br_ActiveSlot res = slot /\ br_InstallerMode res = installer /\
       br_Targets res = (if installer then targets else []) /\ br_MountedPerm res = m /\
       if installer then m = false /\ br_MountPermErr res = "" /\ w2 = w1
       else exists p, mountPerm parse_MiB w1 = (p, w2) /\ m = is_ok p /\
              br_MountPermErr res = match p with Ok _ => "" | Err e => Error e end) /\
    w' = ((when m (ignore (reclaimStickyIP entropy)) ;;; ignore (applyResolvedHostname m)) w2).2.
Proof.
  unfold initPlatform. unfold bind at 1. destruct (early_boot w) as [[slot|e] w1]; [|intros [= <- <-]; left; by exists e].
  intros H. right. unfold look, bind at 1 in H.
  destruct (DetectInstallerMode (h_sys (dev w1))) as [installer targets] eqn:Emode.
  set (k := fun perm : option (result unit) => _) in H.
  assert (forall perm v, k perm v =
    (Ok (mkBootResult (match perm with Some (Ok _) => true | _ => false end) slot installer
           (match perm with Some (Err e) => Error e | _ => "" end) (if installer then targets else [])),
     ((when (match perm with Some (Ok _) => true | _ => false end) (ignore (reclaimStickyIP entropy)) ;;;
       ignore (applyResolvedHostname (match perm with Some (Ok _) => true | _ => false end))) v).2)) as Hk.
  { intros perm v. unfold k. go_unfold. unfold ret. destruct (match perm with Some (Ok _) => true | _ => false end).
    - destruct (reclaimStickyIP entropy v) as [x v1]. cbn beta iota. destruct (applyResolvedHostname true v1) as [y v2]. reflexivity.
    - cbn beta iota. destruct (applyResolvedHostname false v) as [y v2]. reflexivity. }
  clearbody k. destruct installer.
  - unfold bind, ret in H. rewrite Hk in H. injection H as <- <-. exists slot, w1, w1, false.
    rewrite Emode. split_and!; [done| |done]. by eexists.
  - unfold bind, catch, ret in H. destruct (mountPerm parse_MiB w1) as [p w2] eqn:Em. rewrite Hk in H. injection H as <- <-.
    exists slot, w1, w2, (is_ok p). rewrite Emode. split_and!; [done| |by destruct p].
    eexists. split_and!; [done..|by destruct p|]. exists p. split_and!; [done..|by destruct p].
Qed.

Lemma boot_keeps fs w br w' :
  fresh_boot fs (dev w) -> boot_Init parse_MiB entropy w = (br, w') ->
  meta_of_disk (dev w') = Some fs /\ (br_MountedPerm br = true -> br_InstallerMode br = false /\ shows fs w').
Proof.
  intros Hw H. unfold boot_Init in H. destruct (initPlatform parse_MiB entropy w) as [r v] eqn:E. injection H as <- <-.
  apply initPlatform_cases in E as [(e & E & ->)|(slot & w1 & w2 & m & E & Hres & ->)].
  { split; [|done]. apply (preserves_run (fun w => fresh_boot fs (dev w)) _ _ _ _ E (fresh_early fs) Hw). }
  apply (preserves_run (fun w => fresh_boot fs (dev w)) _ _ _ _ E (fresh_early fs)) in Hw.
  destruct (DetectInstallerMode (h_sys (dev w1))) as [installer targets].
  destruct Hres as (res & -> & _ & Hi & _ & Hm & Hrest). destruct installer.
  - destruct Hrest as (-> & _ & ->). rewrite Hm. split; [|done]. apply (meta_rest fs false), Hw.
  - destruct Hrest as (p & Hp & -> & _). apply (mountPerm_keeps fs) in Hp as [Hk Hs]; [|done].
    split; [by apply (meta_rest fs)|]. rewrite Hm, Hi. intros Hok. split; [done|]. apply (shows_rest fs). destruct p as [[]|]; [by apply Hs|done].
Qed.
Lemma boot_Init_shows fs w br w' :
  fresh_boot fs (dev w) -> boot_Init parse_MiB entropy w = (br, w') -> br_MountedPerm br = true ->
  br_InstallerMode br = false /\ shows fs w'.
Proof. intros Hw H. by apply (boot_keeps fs) in H as [_ H]. Qed.

End perm.

(** ** Waiting for the network *)

Section eth.
Context {D : Type} `{!Host D}.
Implicit Types w : FWorld (Node D).

(** Sleeping takes at least as long as asked. *)
Definition clock_runs : Prop := forall t (d : D), (0 <= t -> h_now d + t <= h_now (h_pass t d))%Z.

Lemma eth_poll_spec fuel deadline w r w' :
  clock_runs -> (deadline - h_now (dev w) < Z.of_nat fuel * (100 * Millisecond))%Z ->
  eth_poll (Datatypes.S fuel) deadline w = (r, w') ->
  firstEthIface (h_net (dev w')) = r /\ (is_ok r = false -> deadline < h_now (dev w'))%Z.
Proof.
  intros Hclock. revert w. induction fuel as [|fuel IH]; intros w Hf H.
  all: cbn [eth_poll] in H; destruct (firstEthIface (h_net (dev w))) as [n|e] eqn:En; [injection H as <- <-; by split|].
  all: destruct (Z.ltb_spec deadline (now_ns w)) as [Hd|Hd]; [injection H as <- <-; by split|].
  all: unfold now_ns, boot_clock in Hd.
  - lia.
  - apply IH in H; [done|]. pose proof (Hclock (100 * Millisecond)%Z (dev w) ltac:(unfold Millisecond; lia)) as Hc.
    unfold sleep, boot_clock. change (dev (set_dev (h_pass (100 * Millisecond) (dev w)) w)) with (h_pass (100 * Millisecond) (dev w)).
    lia.
Qed.

(** Waiting for a network interface ends.  On a clock that runs, the wait
    gives the interface that is first when it ends, and it gives up only after
    the timeout, with no interface there. *)
Theorem firstEthIfaceWait_spec timeout w r w' :
  clock_runs -> (0 <= timeout)%Z -> firstEthIfaceWait timeout w = (r, w') ->
  r = firstEthIface (h_net (dev w')) /\ (is_ok r = false -> h_now (dev w) + timeout < h_now (dev w'))%Z.
Proof.
  intros Hclock Ht H. unfold firstEthIfaceWait, eth_fuel in H.
  pose proof (Z.div_pos timeout (100 * Millisecond) Ht ltac:(unfold Millisecond; lia)) as Hq.
  pose proof (Z.mul_succ_div_gt timeout (100 * Millisecond) ltac:(unfold Millisecond; lia)) as Hm.
  set (q := (timeout / (100 * Millisecond))%Z) in *. clearbody q.
  replace (Z.to_nat (q + 3)) with (Datatypes.S (Z.to_nat (q + 2))) in H by lia.
  apply eth_poll_spec in H as [Hr Hd]; [by split|done|]. unfold now_ns, boot_clock. unfold Millisecond in *. lia.
Qed.
End eth.

(** ** A machine *)

Module RefHost.
Record machine := mkMachine {
  rh_sys : Sys;
  rh_net : list (string * result string);
  rh_meta : option (gmap string string);   (* the meta volume *)
  rh_mounted : bool;
  rh_now : Z }.
Definition set_meta (f : option (gmap string string)) (d : machine) : machine :=
  mkMachine (rh_sys d) (rh_net d) f (rh_mounted d) (rh_now d).
Definition output (err : option error) : Output := mkOutput "" "" err.

(** [pvs_ok]: does [pvs] work? *)
Definition exec (pvs_ok : bool) : Commands machine := fun path args d =>
  if String.eqb path "/sbin/pvs" then
    (output (match rh_meta d with Some _ => if pvs_ok then None else Some (ExitError 5) | None => Some (ExitError 5) end), d)
  else if String.eqb path "/sbin/vgs" then (mkOutput "  30720.00" "" None, d)
  else if String.eqb path "/sbin/pvcreate" then (output None, set_meta None d)
  else if String.eqb path "/usr/sbin/mkfs.ext4" then (output None, set_meta (Some ∅) d)
  else if String.eqb path "/sbin/lvcreate" || String.eqb path "/sbin/vgcreate" || String.eqb path "/sbin/mkfs.ext4"
  then (output None, d)
  else (output None, d).

Definition proc_mounts (d : machine) : string :=
  if rh_mounted d then "/dev/mapper/capsule-meta /perm ext4 rw 0 0" else "proc /proc proc rw 0 0".
Definition mount (m : mountSpec) (d : machine) : result (gmap string string) * machine :=
  if String.eqb (ms_target m) "/perm" then
    match rh_meta d with
    | Some fs => (Ok fs, mkMachine (rh_sys d) (rh_net d) (rh_meta d) true (rh_now d))
    | None => (Err (Sentinel OsNotExist), d)
    end
  else (Err (Sentinel SysEBUSY), d).

Definition host (pvs_ok : bool) : Host machine := {|
  h_exec := exec pvs_ok;
  h_sys := rh_sys;
  h_net d := Ok (rh_net d);
  h_ifaces _ := Ok [];
  h_mounts d := Ok (proc_mounts d);
  h_exists _ _ := true;
  h_Mount := mount;
  h_Symlink _ _ d := (Ok tt, d);
  h_now := rh_now;
  h_pass t d := mkMachine (rh_sys d) (rh_net d) (rh_meta d) (rh_mounted d) (rh_now d + t) |}.
End RefHost.

#[local] Instance ref_host : Host RefHost.machine := RefHost.host true.
#[local] Program Instance ref_laws : PermLaws RefHost.machine := {|
  meta_of_disk := RefHost.rh_meta;
  perm_mounted := RefHost.rh_mounted |}.
Next Obligation. intros d data [= <-]. unfold RefHost.proc_mounts. by destruct (RefHost.rh_mounted d). Qed.
Next Obligation. intros d p fs Hm _. unfold exec_Command. cbn. by rewrite Hm. Qed.
Next Obligation.
  intros path args d Hp. unfold exec_Command. cbn. unfold RefHost.exec, formats in *.
  destruct (String.eqb_spec path "/sbin/pvs"); [done|]. destruct (String.eqb_spec path "/sbin/vgs"); [done|].
  destruct (String.eqb_spec path "/sbin/pvcreate") as [->|]; [destruct Hp; in_names|].
  destruct (String.eqb_spec path "/usr/sbin/mkfs.ext4") as [->|]; [destruct Hp; in_names|]. by destruct (_ || _).
Qed.
Next Obligation.
  intros m d. cbn. unfold RefHost.mount. destruct (String.eqb_spec (ms_target m) "/perm"); [|done].
  by destruct (RefHost.rh_meta d) eqn:E.
Qed.
Next Obligation. intros d fs d'. cbn. unfold RefHost.mount. cbn. by destruct (RefHost.rh_meta d) as [f|]; [intros [= -> _]|]. Qed.
Next Obligation. done. Qed.
Next Obligation. done. Qed.

Module BootDemo.
Definition nics : list (string * result string) :=
  [("lo", Ok "00:00:00:00:00:00"); ("enp2s0", Ok ("9C:6B:00:1f:2e:3d" +:+ String NL "")); ("enp1s0", Ok "9c:6b:00:aa:bb:cc")].
Definition sys : Sys :=
  mkSys (sys_cmdline DisksDemo.installed)
    (Ok (DisksDemo.entries ++ [DisksDemo.part "sda4" "4" (DisksDemo.pci +:+ "sda/sda4")])) (sys_dev DisksDemo.installed).
Definition files : gmap string string := {["capsule/hostname" := "kitchen"]}.
Definition machine (m : option (gmap string string)) : RefHost.machine := RefHost.mkMachine sys nics m false 0.
Definition world (d : RefHost.machine) : FWorld (Node RefHost.machine) := mkFWorld (mkNode d "" [] []) ∅ [].
Definition parse_MiB (s : string) : result Z := Ok 30720%Z.
Definition entropy : result string := Ok "12345678".
End BootDemo.

Example boots :
  let '(br, w) := boot_Init BootDemo.parse_MiB BootDemo.entropy (BootDemo.world (BootDemo.machine (Some BootDemo.files))) in
  br = mkBootResult true "slot_a" false "" [] /\ nd_hostname (fw_store w) = "kitchen" /\
  fw_files w !! permClientIDFile = Some ("003132333435363738" +:+ String NL "").
Proof. vm_compute. done. Qed.

(** The first boot of a fresh disk formats it; an installer boot leaves /perm alone. *)
Example first_boot :
  let '(br, w) := boot_Init BootDemo.parse_MiB BootDemo.entropy (BootDemo.world (BootDemo.machine None)) in
  br_MountedPerm br = true /\ RefHost.rh_meta (dev w) = Some ∅ /\ nd_hostname (fw_store w) = "capsule-aabbcc".
Proof. vm_compute. done. Qed.

Lemma hostname_stable_witness :
  let w1 := BootDemo.world (BootDemo.machine None) in
  let w2 := BootDemo.world (RefHost.mkMachine BootDemo.sys (rev BootDemo.nics) None false 7) in
  nd_hostname (fw_store (applyResolvedHostname false w2).2) = nd_hostname (fw_store (applyResolvedHostname false w1).2) /\
  nd_hostname (fw_store (applyResolvedHostname false w1).2) <> "".
Proof.
  apply (hostname_stable false _ _ BootDemo.nics (rev BootDemo.nics)); try reflexivity.
  - apply (bool_decide_unpack _); vm_compute; exact I.
  - apply Permutation_rev.
Defined.

Lemma ref_clock : clock_runs (D:=RefHost.machine).
Proof. intros t d _. apply Z.le_refl. Qed.

Lemma firstEthIfaceWait_spec_witness :
  firstEthIfaceWait (15 * Second) (BootDemo.world (BootDemo.machine None)) = (Ok "enp2s0", BootDemo.world (BootDemo.machine None)) /\
  Ok "enp2s0" = firstEthIface (Ok BootDemo.nics).
Proof.
  assert (firstEthIfaceWait (15 * Second) (BootDemo.world (BootDemo.machine None)) =
    (Ok "enp2s0", BootDemo.world (BootDemo.machine None))) as E by reflexivity.
  split; [exact E|].
  destruct (firstEthIfaceWait_spec (15 * Second) _ _ _ ref_clock ltac:(unfold Second, Millisecond; lia) E) as [H _].
  exact H.
Defined.

Lemma demo_fresh fs : fresh_boot fs (dev (BootDemo.world (BootDemo.machine (Some fs)))).
Proof. split; reflexivity. Qed.
Definition installed_boot : BootResult * FWorld (Node RefHost.machine) :=
  boot_Init BootDemo.parse_MiB BootDemo.entropy (BootDemo.world (BootDemo.machine (Some BootDemo.files))).

Definition logged_demo (m : option (gmap string string)) : FWorld (Node (Logged RefHost.machine)) :=
  mkFWorld (mkNode (mkLogged (BootDemo.machine m) []) "" [] []) ∅ [].
Lemma mountPerm_formats_blank_witness :
  FindPartitionByNumber BootDemo.sys 4 = Ok "/dev/sda4" /\
  format_script "/dev/sda4" ("/sbin/pvcreate", ["-ff"; "-y"; "/dev/sda4"]).
Proof.
  assert (FindPartitionByNumber BootDemo.sys 4 = Ok "/dev/sda4") as Hp by (vm_compute; reflexivity).
  split; [exact Hp|].
  destruct (mountPerm_formats_blank BootDemo.parse_MiB (logged_demo None) ("/sbin/pvcreate", ["-ff"; "-y"; "/dev/sda4"])) as (p & H & _ & Hs).
  - reflexivity.
  - apply (bool_decide_unpack _). vm_compute. exact I.
  - in_names.
  - change (FindPartitionByNumber BootDemo.sys 4 = Ok p) in H. rewrite Hp in H. injection H as <-. exact Hs.
Defined.

(** A failure of [pvs] for any reason counts as "no volume": /perm of an
    enrolled capsule is formatted again, with everything on it. *)
Theorem pvs_failure_formats_perm :
  let '(br, w) := @boot_Init RefHost.machine (RefHost.host false) BootDemo.parse_MiB BootDemo.entropy
                    (BootDemo.world (BootDemo.machine (Some BootDemo.files))) in
  br_MountedPerm br = true /\ RefHost.rh_meta (dev w) = Some ∅.
Proof. vm_compute. done. Qed.
