(* ===== verification/Banner.v ===== *)
(** * The console banner: boot/boot.go, cmd/capsuled/main.go

    What the daemon prints on the screen of the box: its address, its
    adoption status and the fingerprint the operator compares. *)

From S2P Require Import Prelude GoStrings Net Exec Models Store Runtime Base64 Bytes Disks Auth Files Boot.

Set Default Goal Selector "!".
Local Open Scope go_scope.

Record BannerInfo := mkBannerInfo {
  bi_GRPCPort : Z;
  bi_TLSFingerprint : string;
  bi_ShortID : string;
  bi_ClaimOpen : bool;
  bi_EnrolledKeys : Z;
  bi_InstallerMode : bool;
  bi_TargetDisk : string;
  bi_TargetSize : string;
  bi_StoreBroken : bool;
  bi_StoreError : string }.

(** ** The text *)

Definition ipForCmd (ip : string) : string := if HasPrefix ip "(" then "<capsule-ip>" else ip.

(** The bytes of the fingerprint, eight to a row. *)
Fixpoint format_rows (col : Z) (hex : string) : string :=
  match hex with
  | String a (String b rest) =>
      let pair := String a (String b "") in
      if (col =? 8)%Z then String NL "" +:+ "    " +:+ pair +:+ format_rows 1 rest
      else if (0 <? col)%Z then ":" +:+ pair +:+ format_rows (col + 1) rest
      else pair +:+ format_rows (col + 1) rest
  | _ => ""
  end.
Definition formatFingerprintForBanner (hex : string) : string :=
  if String.eqb hex "" then "    (none)"
  else if negb (len hex mod 2 =? 0)%Z then "    " +:+ hex
  else "    " +:+ format_rows 0 hex.

(** A line of the banner. *)
Definition line (s : string) : string := s +:+ String NL "".
Definition or_text (s alt : string) : string := if String.eqb s "" then alt else s.

Definition status (info : BannerInfo) (ip : string) : string :=
  if bi_StoreBroken info then
    line "  status: STATE UNREADABLE — refusing adoption" +:+
    line ("  error:  " +:+ or_text (bi_StoreError info) "(see capsuled logs)") +:+
    line "  recover: restore /perm/capsule/state.db, or touch /perm/capsule/RESET_AUTH and reboot"
  else if bi_InstallerMode info then
    let tgt := or_text (bi_TargetDisk info) "(no target disk detected)" in
    let tgt := if negb (String.eqb (bi_TargetSize info) "") then tgt +:+ "  (" +:+ bi_TargetSize info +:+ ")" else tgt in
    line "  status: INSTALLER  ready to flash internal disk" +:+
    line ("  target: " +:+ tgt) +:+
    line ("  capsulectl install " +:+ bi_ShortID info +:+ " --name <name>")
  else if bi_ClaimOpen info then
    line "  status: AWAITING ADOPTION" +:+
    line ("  capsulectl adopt --capsule " +:+ ipForCmd ip +:+ ":" +:+ Itoa (bi_GRPCPort info))
  else
    line ("  status: adopted (" +:+ Itoa (bi_EnrolledKeys info) +:+ " enrolled key(s))") +:+
    line ("  capsulectl --capsule " +:+ ipForCmd ip +:+ ":" +:+ Itoa (bi_GRPCPort info) +:+ " capsule info").

Definition art : string :=
  line "" +:+
  line "   ____    _    ____  ____  _   _ _     _____" +:+
  line "  / ___|  / \  |  _ \/ ___|| | | | |   | ____|" +:+
  line " | |     / _ \ | |_) \___ \| | | | |   |  _|" +:+
  line " | |___ / ___ \|  __/ ___) | |_| | |___| |___" +:+
  line "  \____/_/   \_\_|   |____/ \___/|_____|_____|" +:+
  line "".

Definition banner (info : BannerInfo) (defaultIP : string) : string :=
  let ip := or_text defaultIP "(no IP — DHCP failed?)" in
  let id := or_text (bi_ShortID info) "(short_id pending — reboot to generate)" in
  art +:+ line ("  " +:+ id +:+ "  " +:+ ip +:+ ":" +:+ Itoa (bi_GRPCPort info)) +:+
  status info ip +:+ line "  tls fingerprint (sha256):" +:+
  line (formatFingerprintForBanner (bi_TLSFingerprint info)) +:+ line "".

(** ** Printing *)

Section print.
Context {D : Type} `{!Host D}.

Definition write_console (path text : string) (w : FWorld (Node D)) : FWorld (Node D) :=
  map_node (fun n => mkNode (nd_dev n) (nd_hostname n) ((path, text) :: nd_console n) (nd_spawned n)) w.
(** Both consoles are tried; a failing open or write is passed over. *)
Definition PrintBanner (info : BannerInfo) : prog (FWorld (Node D)) unit :=
  ifaces <- look h_ifaces ;;
  let text := banner info (defaultIPv4 ifaces) in
  for_each ["/dev/tty0"; "/dev/console"] (fun p =>
    f <- catch (os_call no_part (ret tt)) ;;
    match f with
    | Err _ => ret tt
    | Ok _ => ignore (os_call (fun n => write_console p (take (Z.of_nat n) text)) (fun w => (Ok tt, write_console p text w)))
    end).
End print.

(** ** Sizes *)

(** The loop of [humanInstallerBytes] (base 1000) and of capsulectl's
    [humanBytes] (base 1024); [div] is an int64. *)
Fixpoint human_loop (base : Z) (fuel : nat) (m div : Z) (exp : nat) : Z * nat :=
  match fuel with
  | O => (div, exp)
  | S fuel => if (base <=? m)%Z then human_loop base fuel (m / base) (i64 (div * base)) (exp + 1) else (div, exp)
  end.
Definition human_fuel : nat := 7.

(** [fmt_f1 n d]: [%.1f] of the quotient of the floats of [n] and [d]. *)
Definition humanInstallerBytes (fmt_f1 : Z -> Z -> string) (n : Z) : result string :=
  if (n <? 1000)%Z then Ok (Itoa n +:+ " B")
  else
    let '(div, exp) := human_loop 1000 human_fuel (n / 1000) 1000 0 in
    match String.get exp "KMGTPE" with
    | Some u => Ok (fmt_f1 n div +:+ " " +:+ String u "B")
    | None => Err (Errorf "runtime error: index out of range")
    end.

(** ** What main prints *)

Definition banner_info (port : Z) (fingerprint shortID : string) (claimOpen : bool) (count : result nat)
    (br : BootResult) (stateBroken : bool) (stateErr : string) (size : Z -> string) : BannerInfo :=
  let '(disk, text) := match br_Targets br with
                       | t :: _ => if br_InstallerMode br then (td_Path t, size (td_SizeBytes t)) else ("", "")
                       | [] => ("", "")
                       end in
  mkBannerInfo port fingerprint shortID claimOpen (match count with Ok n => Z.of_nat n | Err _ => 0%Z end)
    (br_InstallerMode br) disk text stateBroken stateErr.

(** ** The fingerprint *)

Fixpoint keep_chars (P : ascii -> bool) (s : string) : string :=
  match s with
  | "" => ""
  | String c s => if P c then String c (keep_chars P s) else keep_chars P s
  end.
Definition is_hex (c : ascii) : bool := is_digit c || ((97 <=? ord c) && (ord c <=? 102))%Z.

Lemma keep_chars_app P s t : keep_chars P (s +:+ t) = keep_chars P s +:+ keep_chars P t.
Proof.
  induction s as [|c s IH]; [done|]. change (String c s +:+ t) with (String c (s +:+ t)). cbn [keep_chars].
  rewrite IH. by destruct (P c).
Qed.
Lemma keep_chars_all P s : all_chars P s = true -> keep_chars P s = s.
Proof. induction s as [|c s IH]; [done|]. cbn [all_chars keep_chars]. intros [-> ?]%andb_true_iff. by rewrite IH. Qed.

Lemma format_rows_keep hex : forall col, all_chars is_hex hex = true -> Nat.even (String.length hex) = true ->
  keep_chars is_hex (format_rows col hex) = hex.
Proof.
  assert (forall n hex, (String.length hex < n)%nat -> forall col, all_chars is_hex hex = true ->
    Nat.even (String.length hex) = true -> keep_chars is_hex (format_rows col hex) = hex) as Hn.
  { clear hex. intros n. induction n as [|n IH]; [lia|]. intros [|a [|b rest]] Hl col Hh He; [done..|].
    cbn [all_chars] in Hh. apply andb_true_iff in Hh as [Ha Hh]. apply andb_true_iff in Hh as [Hb Hh].
    assert (forall col, keep_chars is_hex (format_rows col rest) = rest) as IH'.
    { intros c. apply IH; [simpl in Hl; lia|done|done]. }
    cbn [format_rows]. cbv zeta.
    assert (keep_chars is_hex (String a (String b "")) = String a (String b "")) as Hp.
    { cbn [keep_chars]. by rewrite Ha, Hb. }
    destruct (col =? 8)%Z; [|destruct (0 <? col)%Z].
    all: rewrite !keep_chars_app, Hp, IH'; done. }
  intros col. by apply (Hn (Datatypes.S (String.length hex))); [lia|..].
Qed.

(** The fingerprint on the screen is the fingerprint.  Read back without
    the separators, what the banner shows is the hex digest of the
    certificate, of whatever length. *)
Theorem banner_fingerprint_reads_back hex :
  all_chars is_hex hex = true -> hex <> "" -> keep_chars is_hex (formatFingerprintForBanner hex) = hex.
Proof.
  intros Hh Hne. unfold formatFingerprintForBanner. destruct (String.eqb_spec hex ""); [done|].
  destruct (Z.eqb_spec (len hex mod 2) 0) as [Hm|Hm]; simpl; rewrite ?keep_chars_app.
  - change ("    " +:+ format_rows 0 hex) with (String " " (String " " (String " " (String " " (format_rows 0 hex))))). 
    apply format_rows_keep; [done|]. apply Nat.even_spec. apply Z.mod_divide in Hm as [k Hk]; [|done]. exists (Z.to_nat k). unfold len in Hk. lia.
  - by apply keep_chars_all.
Qed.

Lemma banner_fingerprint_reads_back_witness :
  keep_chars is_hex (formatFingerprintForBanner "0123456789abcdef0011223344556677") = "0123456789abcdef0011223344556677".
Proof. apply banner_fingerprint_reads_back; [reflexivity|discriminate]. Defined.

(** ** Sizes *)

(** One unit per round: [div] stays the largest power of the base below [n]. *)
Section human.
Context (base : Z) (Hbase : (1000 <= base <= 1024)%Z).

Lemma base_pow k : (base ^ Z.of_nat (Datatypes.S k) = base * base ^ Z.of_nat k)%Z.
Proof using Type. rewrite Nat2Z.inj_succ. apply Z.pow_succ_r. lia. Qed.
Lemma base_pow_large k : (7 <= k)%nat -> (2 ^ 64 <= base ^ Z.of_nat k)%Z.
Proof using Hbase.
  intros Hk. transitivity (1000 ^ 7)%Z; [lia|]. transitivity (base ^ 7)%Z; [apply Z.pow_le_mono_l; lia|apply Z.pow_le_mono_r; lia].
Qed.
Lemma base_pow_small k : (k <= 6)%nat -> (base ^ Z.of_nat k <= 2 ^ 60)%Z.
Proof using Hbase.
  intros Hk. transitivity (1024 ^ 6)%Z; [|lia]. transitivity (base ^ 6)%Z; [apply Z.pow_le_mono_r; lia|apply Z.pow_le_mono_l; lia].
Qed.

Lemma human_loop_spec n fuel : forall exp d, (0 <= n < 2 ^ 64)%Z ->
  d = (base ^ Z.of_nat (Datatypes.S exp))%Z -> (d <= n < base ^ Z.of_nat (Datatypes.S (Datatypes.S exp) + fuel))%Z ->
  let '(div, e) := human_loop base fuel (n / d) d exp in
  div = (base ^ Z.of_nat (Datatypes.S e))%Z /\ (div <= n < base * div)%Z.
Proof using Hbase.
  induction fuel as [|fuel IH]; intros exp d Hn Hd Hr; cbn [human_loop].
  - split; [done|]. rewrite Hd in *. rewrite Nat.add_0_r, (base_pow (Datatypes.S exp)) in Hr. lia.
  - assert (0 < d)%Z as Hpos by (rewrite Hd; apply Z.pow_pos_nonneg; lia).
    destruct (Z.leb_spec base (n / d)) as [Hle|Hlt].
    + assert (base * d <= n)%Z as Hdn by (pose proof (Z.mul_div_le n d Hpos); nia).
      pose proof (base_pow (Datatypes.S exp)) as Hp. rewrite <- Hd in Hp.
      assert (base * d <= 2 ^ 60)%Z as Hd6.
      { rewrite <- Hp. destruct (decide (Datatypes.S (Datatypes.S exp) <= 6)%nat); [by apply base_pow_small|].
        pose proof (base_pow_large (Datatypes.S (Datatypes.S exp)) ltac:(lia)). lia. }
      rewrite Z.div_div by lia. rewrite swrap_small by lia.
      apply IH; [done| |].
      * rewrite Nat.add_1_r, Hp. lia.
      * replace (Datatypes.S (Datatypes.S (exp + 1)) + fuel)%nat with (Datatypes.S (Datatypes.S exp) + Datatypes.S fuel)%nat by lia. lia.
    + split; [done|]. pose proof (Z.mul_succ_div_gt n d Hpos). nia.
Qed.

Lemma human_loop_units n : (base <= n < 2 ^ 64)%Z -> exists e u, String.get e "KMGTPE" = Some u /\
  human_loop base human_fuel (n / base) base 0 = (base ^ Z.of_nat (Datatypes.S e), e)%Z /\
  (base ^ Z.of_nat (Datatypes.S e) <= n < base ^ Z.of_nat (Datatypes.S (Datatypes.S e)))%Z.
Proof using Hbase.
  intros Hn. pose proof (base_pow_large 9 ltac:(lia)) as H9.
  pose proof (human_loop_spec n human_fuel 0 base ltac:(lia) ltac:(lia) ltac:(unfold human_fuel; cbn [Nat.add]; lia)) as Hl.
  destruct (human_loop base human_fuel (n / base) base 0) as [div e]. destruct Hl as [-> Hr].
  rewrite <- (base_pow (Datatypes.S e)) in Hr.
  assert (e < 6)%nat as He.
  { destruct (decide (e < 6)%nat); [done|]. pose proof (base_pow_large (Datatypes.S e) ltac:(lia)). lia. }
  assert (exists u, String.get e "KMGTPE" = Some u) as [u Hu].
  { clear - He. do 6 (destruct e as [|e]; [eexists; reflexivity|]). lia. }
  by exists e, u.
Qed.
End human.

(** The size on the screen is well formed.  For every 64-bit size of at
    least 1000 bytes the loop neither overflows its divisor nor leaves the
    list of units: the unit is the largest one the size reaches. *)
Theorem humanInstallerBytes_spec fmt_f1 n :
  (1000 <= n < 2 ^ 64)%Z ->
  exists e u, String.get e "KMGTPE" = Some u /\ (1000 ^ Z.of_nat (Datatypes.S e) <= n < 1000 ^ Z.of_nat (Datatypes.S (Datatypes.S e)))%Z /\
    humanInstallerBytes fmt_f1 n = Ok (fmt_f1 n (1000 ^ Z.of_nat (Datatypes.S e))%Z +:+ " " +:+ String u "B").
Proof.
  intros Hn. destruct (human_loop_units 1000 ltac:(lia) n Hn) as (e & u & Hu & Hl & Hr). exists e, u. split; [done|]. split; [done|].
  unfold humanInstallerBytes. destruct (Z.ltb_spec n 1000); [lia|]. by rewrite Hl, Hu.
Qed.

Lemma humanInstallerBytes_spec_witness :
  humanInstallerBytes (fun n d => Itoa (n / d)) 512110190592 = Ok "512 GB" /\
  exists e u, String.get e "KMGTPE" = Some u /\ (1000 ^ Z.of_nat (Datatypes.S e) <= 512110190592 < 1000 ^ Z.of_nat (Datatypes.S (Datatypes.S e)))%Z.
Proof.
  split; [vm_compute; reflexivity|].
  destruct (humanInstallerBytes_spec (fun n d => Itoa (n / d)) 512110190592 ltac:(lia)) as (e & u & Hu & Hr & _).
  exists e, u. split; [exact Hu|exact Hr].
Defined.

(** The banner offers adoption exactly when the claim window is open on a
    working runtime capsule. *)
Lemma status_offers_adoption info ip :
  HasPrefix (status info ip) "  status: AWAITING ADOPTION" = true <->
  bi_StoreBroken info = false /\ bi_InstallerMode info = false /\ bi_ClaimOpen info = true.
Proof.
  unfold status. destruct (bi_StoreBroken info); [by split; [|intros (? & _)]|].
  destruct (bi_InstallerMode info); [by split; [|intros (_ & ? & _)]|].
  destruct (bi_ClaimOpen info); by split; [|intros (_ & _ & ?)].
Qed.
