(* ===== verification/Tls.v ===== *)
(** * TLS material: auth/tls.go

    The daemon's certificate is pinned by its fingerprint, so the files must
    never be replaced or torn once they exist.  Key generation, X.509 and PEM
    are the Go libraries: the class [CertLib]; [CertLaws] says that a PEM block
    decodes to itself and that a generated pair loads. *)

From S2P Require Import Prelude GoStrings Base64 Auth Disks Store Files.

Set Default Goal Selector "!".
Local Open Scope go_scope.

(** What the templates of [generate] and [GenerateCertPEM] set. *)
Inductive KeyUsage := KeyUsageDigitalSignature | KeyUsageCertSign.
Inductive ExtKeyUsage := ExtKeyUsageServerAuth | ExtKeyUsageClientAuth.
Record Template := mkTemplate {
  t_SerialNumber : Z;
  t_CommonName : string;
  t_NotBefore : Z;    (* nanoseconds *)
  t_NotAfter : Z;
  t_KeyUsage : list KeyUsage;
  t_ExtKeyUsage : list ExtKeyUsage;
  t_IsCA : bool;
  t_DNSNames : list string }.

(** [tls.Certificate]: the chain in DER form and the private key. *)
Record Certificate := mkCertificate { tc_Certificate : list string; tc_PrivateKey : string }.

Class CertLib := {
  GenerateKey : string -> result (string * string);           (* entropy; public and private half *)
  rand_Int : string -> result Z;
  CreateCertificate : Template -> string -> string -> result string;
  MarshalPKCS8PrivateKey : string -> result string;
  pem_Encode : string -> string -> string;                    (* block type, bytes *)
  pem_Decode : string -> option (string * string);
  X509KeyPair : string -> string -> result Certificate }.

Class CertLaws `{!CertLib} := {
  pem_roundtrip b : pem_Decode (pem_Encode "CERTIFICATE" b) = Some ("CERTIFICATE", b);
  pair_loads ent pub priv tpl der keyDER :
    GenerateKey ent = Ok (pub, priv) -> CreateCertificate tpl pub priv = Ok der ->
    MarshalPKCS8PrivateKey priv = Ok keyDER ->
    X509KeyPair (pem_Encode "CERTIFICATE" der) (pem_Encode "PRIVATE KEY" keyDER) = Ok (mkCertificate [der] priv) }.

Section tls.
Context {CL : CertLib} {TL : TokenLib}.

Definition template (now serial : Z) (capsuleID : string) : Template :=
  mkTemplate serial capsuleID (now - 3600 * Second) (now + 100 * 365 * 24 * 3600 * Second)
    [KeyUsageDigitalSignature; KeyUsageCertSign] [ExtKeyUsageServerAuth; ExtKeyUsageClientAuth] true
    ["capsule"; "localhost"; capsuleID].

Definition wrap_result {A} (b : string) (r : result A) : result A :=
  match r with Ok a => Ok a | Err e => Err (Wrap b e "") end.

(** The common part of [generate] and [GenerateCertPEM]: the certificate in DER
    form and the two PEM blobs.  [e1], [e2] are what the two draws from the
    random source give. *)
Definition mint_cert (now : Z) (e1 e2 : string) (capsuleID : string) : result (string * string * string) :=
  match wrap_result "auth: gen ed25519: " (GenerateKey e1) with
  | Err e => Err e
  | Ok (pub, priv) =>
      match wrap_result "auth: gen serial: " (rand_Int e2) with
      | Err e => Err e
      | Ok serial =>
          match wrap_result "auth: x509 create: " (CreateCertificate (template now serial capsuleID) pub priv) with
          | Err e => Err e
          | Ok der =>
              match wrap_result "auth: marshal key: " (MarshalPKCS8PrivateKey priv) with
              | Err e => Err e
              | Ok keyDER => Ok (der, pem_Encode "CERTIFICATE" der, pem_Encode "PRIVATE KEY" keyDER)
              end
          end
      end
  end.

Definition GenerateCertPEM (now : Z) (e1 e2 capsuleID : string) : result (string * string * string) :=
  match mint_cert now e1 e2 capsuleID with
  | Err e => Err e
  | Ok (der, certPEM, keyPEM) => Ok (certPEM, keyPEM, FingerprintRaw der)
  end.

Definition LeafFingerprint (cert : Certificate) : result string :=
  match tc_Certificate cert with
  | [] => Err (Errorf "auth: empty certificate chain")
  | der :: _ => Ok (FingerprintRaw der)
  end.

(** ** The files *)

Context {S : Type}.
Abbreviation world := (FWorld S).

(** [sfx] is what [os.CreateTemp] puts for the star. *)
Definition tmp_name (sfx path : string) : string := path_Dir path +:+ "/.tls-" +:+ sfx +:+ ".tmp".

Definition tls_error (tmpName path : string) (st : WriteStep) (e : error) : error :=
  match st with
  | StepCreate => Wrap "auth: temp file: " e ""
  | StepWrite => Wrap ("auth: write " +:+ path +:+ ": ") e ""
  | StepChmod => Wrap ("auth: chmod " +:+ tmpName +:+ ": ") e ""
  | StepClose => Wrap ("auth: close " +:+ tmpName +:+ ": ") e ""
  | StepRename => Wrap ("auth: rename " +:+ tmpName +:+ " -> " +:+ path +:+ ": ") e ""
  end.
Definition writeAtomic (sfx path data : string) : prog world unit :=
  let tmpName := tmp_name sfx path in write_via_temp (tls_error tmpName path) true tmpName path data.

Definition LoadX509KeyPair (certFile keyFile : string) : prog world Certificate :=
  c <- f_ReadFile certFile ;;
  k <- f_ReadFile keyFile ;;
  lift (X509KeyPair c k).

Context (now : Z) (e1 e2 sfx1 sfx2 : string).

Definition generate (certPath keyPath capsuleID : string) : prog world Certificate :=
  p <- lift (mint_cert now e1 e2 capsuleID) ;;
  let '(der, certPEM, keyPEM) := p in
  writeAtomic sfx1 certPath certPEM ;;;
  writeAtomic sfx2 keyPath keyPEM ;;;
  wrap_err "auth: parse fresh keypair: " (lift (X509KeyPair certPEM keyPEM)).

Definition LoadOrGenerate (certPath keyPath capsuleID : string) : prog world Certificate :=
  r <- catch (LoadX509KeyPair certPath keyPath) ;;
  match r with
  | Ok cert => ret cert
  | Err err =>
      if negb (errors_Is err OsNotExist) then
        s <- catch (f_Stat certPath) ;;
        match s with
        | Ok _ => fail (Wrap "auth: load cert: " err "")
        | Err _ => generate certPath keyPath capsuleID
        end
      else generate certPath keyPath capsuleID
  end.
End tls.

(** [fingerprintFromPEM] of core/install/installer.go reads what
    [GenerateCertPEM] wrote. *)
Definition fingerprintFromPEM `{!CertLib} {TL : TokenLib} (certPEM : string) : result string :=
  match pem_Decode certPEM with
  | Some (t, b) => if negb (String.eqb t "CERTIFICATE") then Err (Errorf "no CERTIFICATE block in PEM")
                   else Ok (FingerprintRaw b)
  | None => Err (Errorf "no CERTIFICATE block in PEM")
  end.

(** ** Correctness *)

Section correctness.
Context {CL : CertLib} {CLs : CertLaws} {TL : TokenLib} {S : Type}.
Implicit Types w : FWorld S.

(** The file is replaced as a whole or not at all. *)
Lemma writeAtomic_spec sfx path data w r w' :
  tmp_name sfx path <> path -> writeAtomic sfx path data w = (r, w') ->
  (fw_files w' !! path = fw_files w !! path \/ fw_files w' !! path = Some data) /\
  (r = Ok tt -> fw_files w' !! path = Some data) /\
  (forall p, p <> path -> p <> tmp_name sfx path -> fw_files w' !! p = fw_files w !! p).
Proof.
  intros Hne H. apply write_via_temp_spec in H as [H K]; [|done]. destruct r as [[]|e]; split_and!; auto. done.
Qed.

Context (now : Z) (e1 e2 sfx1 sfx2 : string).

(** A minted pair loads, and its fingerprint is the one of the PEM blob. *)
Lemma mint_cert_spec capsuleID der certPEM keyPEM :
  mint_cert now e1 e2 capsuleID = Ok (der, certPEM, keyPEM) ->
  certPEM = pem_Encode "CERTIFICATE" der /\ exists priv, X509KeyPair certPEM keyPEM = Ok (mkCertificate [der] priv).
Proof.
  unfold mint_cert. destruct (GenerateKey e1) as [[pub priv]|] eqn:E1; [|done]. simpl.
  destruct (rand_Int e2) as [n|]; [|done]. simpl.
  destruct (CreateCertificate _ pub priv) as [d|] eqn:E2; [|done]. simpl.
  destruct (MarshalPKCS8PrivateKey priv) as [kd|] eqn:E3; [|done]. simpl. intros [= <- <- <-].
  split; [done|]. exists priv. by eapply pair_loads.
Qed.

Definition loads (files : gmap string string) (certPath keyPath : string) (c : Certificate) : Prop :=
  exists cp kp, files !! certPath = Some cp /\ files !! keyPath = Some kp /\ X509KeyPair cp kp = Ok c.

(** [p] holds what it held, or all of what was minted. *)
Definition whole (old new : gmap string string) (p : string) (data : option string) : Prop :=
  new !! p = old !! p \/ (is_Some data /\ new !! p = data).

Lemma LoadX509KeyPair_cases certPath keyPath w r w' :
  LoadX509KeyPair certPath keyPath w = (r, w') ->
  fw_files w' = fw_files w /\ (forall c, r = Ok c -> loads (fw_files w) certPath keyPath c).
Proof.
  unfold LoadX509KeyPair, bind at 1. pose proof (f_ReadFile_cases certPath w) as (F1 & _ & B1).
  destruct (f_ReadFile certPath w) as [[c|e] w1]; simpl in *; [|intros [= <- <-]; by split].
  unfold bind. pose proof (f_ReadFile_cases keyPath w1) as (F2 & _ & B2).
  destruct (f_ReadFile keyPath w1) as [[k|e] w2]; simpl in *; [|intros [= <- <-]; split; [congruence|done]].
  unfold lift. intros [= <- <-]. split; [congruence|]. intros c' Hc. exists c, k. rewrite <- F1 at 2. auto.
Qed.

Definition minted (capsuleID : string) : option (string * string) :=
  match mint_cert now e1 e2 capsuleID with Ok (_, c, k) => Some (c, k) | Err _ => None end.

(** Without failures a pair on disk is used as it is. *)
Lemma LoadOrGenerate_existing certPath keyPath capsuleID cp kp w :
  fw_faults w = [] -> fw_files w !! certPath = Some cp -> fw_files w !! keyPath = Some kp ->
  (forall e, X509KeyPair cp kp = Err e -> errors_Is e OsNotExist = false) ->
  LoadOrGenerate now e1 e2 sfx1 sfx2 certPath keyPath capsuleID w = (wrap_result "auth: load cert: " (X509KeyPair cp kp), w).
Proof.
  intros Hf Hc Hk Hx. unfold LoadOrGenerate.
  assert (LoadX509KeyPair certPath keyPath w = (X509KeyPair cp kp, w)) as E.
  { unfold LoadX509KeyPair, bind. by rewrite (f_ReadFile_faultless _ _ cp Hf Hc), (f_ReadFile_faultless _ _ kp Hf Hk). }
  unfold bind at 1, catch. rewrite E. destruct (X509KeyPair cp kp) as [c|e]; [done|].
  rewrite (Hx e eq_refl). cbn [negb]. unfold bind, catch. by rewrite (f_Stat_faultless _ _ cp Hf Hc).
Qed.

Section generate.
Context (certPath keyPath capsuleID : string).
Context (distinct : certPath <> keyPath).
Context (tmp1 : tmp_name sfx1 certPath <> certPath) (tmp1' : tmp_name sfx1 certPath <> keyPath).
Context (tmp2 : tmp_name sfx2 keyPath <> keyPath) (tmp2' : tmp_name sfx2 keyPath <> certPath).

(** What generating does to the files [old], whatever its result. *)
Definition renewed (old new : gmap string string) (r : result Certificate) : Prop :=
  whole old new certPath (fst <$> minted capsuleID) /\ whole old new keyPath (snd <$> minted capsuleID) /\
  (forall p, p <> certPath -> p <> keyPath -> p <> tmp_name sfx1 certPath -> p <> tmp_name sfx2 keyPath -> new !! p = old !! p) /\
  (forall c, r = Ok c -> loads new certPath keyPath c).

Lemma renewed_same old r : (forall c, r = Ok c -> loads old certPath keyPath c) -> renewed old old r.
Proof. intros Hr. split_and!; try (by left); auto. Qed.

Lemma generate_spec w r w' :
  generate now e1 e2 sfx1 sfx2 certPath keyPath capsuleID w = (r, w') -> renewed (fw_files w) (fw_files w') r.
Proof.
  unfold generate, lift, bind at 1. unfold renewed, minted.
  destruct (mint_cert now e1 e2 capsuleID) as [[[der cp] kp]|e] eqn:Em; [|intros [= <- <-]; split_and!; by first [left|done]].
  apply mint_cert_spec in Em as (_ & priv & Hp).
  intros H. unfold bind at 1 in H. destruct (writeAtomic sfx1 certPath cp w) as [r1 w1] eqn:E1.
  apply writeAtomic_spec in E1 as (A1 & B1 & C1); [|done]. simpl.
  assert (fw_files w1 !! keyPath = fw_files w !! keyPath) as K1 by (by apply C1).
  destruct r1 as [[]|e].
  2: { injection H as <- <-. split_and!; [|by left|auto|done].
       destruct A1 as [A1|A1]; [by left|right; eauto]. }
  specialize (B1 eq_refl). unfold bind at 1 in H. destruct (writeAtomic sfx2 keyPath kp w1) as [r2 w2] eqn:E2.
  apply writeAtomic_spec in E2 as (A2 & B2 & C2); [|done].
  assert (fw_files w2 !! certPath = Some cp) as Hc by (by rewrite C2).
  assert (fw_files w' = fw_files w2) as ->.
  { destruct r2 as [[]|e]; [|by injection H as <- <-]. unfold wrap_err in H. rewrite Hp in H. by injection H as <- <-. }
  split_and!.
  - right. eauto.
  - destruct A2 as [A2|A2]; [left; congruence|right; eauto].
  - intros p ? ? ? ?. rewrite C2, C1; done.
  - intros c Hr. destruct r2 as [[]|e]; [|injection H as <- <-; done].
    unfold wrap_err in H. rewrite Hp in H. injection H as <- <-. injection Hr as <-.
    exists cp, kp. split; [done|]. split; [by apply B2|done].
Qed.

End generate.
End correctness.

(** A library in which a certificate is the template's name followed by the
    public key, and the two halves of a key are the same string. *)
Module TlsDemo.
#[export] Instance lib : CertLib := {|
  GenerateKey ent := Ok (ent, ent);
  rand_Int _ := Ok 7%Z;
  CreateCertificate tpl pub _ := Ok pub;
  MarshalPKCS8PrivateKey priv := Ok priv;
  pem_Encode t b := t +:+ ":" +:+ b;
  pem_Decode s := Cut ":" s;
  X509KeyPair c k :=
    match Cut ":" c, Cut ":" k with
    | Some (_, der), Some (_, priv) =>
        if String.eqb der priv then Ok (mkCertificate [der] priv) else Err (Errorf "tls: private key does not match public key")
    | _, _ => Err (Errorf "tls: failed to find any PEM data")
    end |}.
#[export] Instance laws : CertLaws.
Proof.
  split; [reflexivity|]. intros ent pub priv tpl der keyDER [= <- <-] [= <-] [= <-].
  cbn. by rewrite String.eqb_refl.
Qed.
Definition cert : string := "/perm/tls/server.crt".
Definition key : string := "/perm/tls/server.key".
Definition start (files : gmap string string) (l : list fault) : FWorld unit := mkFWorld tt files l.
Definition run (w : FWorld unit) : result Certificate * FWorld unit :=
  LoadOrGenerate 1700000000 "k1" "n1" "111" "222" cert key "6f1c0d9e" w.
Definition first : FWorld unit := (run (start ∅ [])).2.
End TlsDemo.

#[local] Existing Instance DemoLib.lib.


(** The key is gone but the certificate is still there: the certificate that
    clients have pinned is replaced, although the comment promises that valid
    material is not overwritten. *)
#[local] Existing Instance TlsDemo.lib.
Example missing_key_replaces_certificate :
  let w := TlsDemo.start {[TlsDemo.cert := "CERTIFICATE:pinned"]} [] in
  let '(r, w') := TlsDemo.run w in
  is_ok r = true /\ fw_files w' !! TlsDemo.cert = Some "CERTIFICATE:k1".
Proof. by vm_compute. Qed.
