(* ===== verification/FirstBoot.v ===== *)
(** * The first boot of an installed disk: core/install/firstboot.go

    The installer leaves firstboot.json on the PERM file system; the first
    boot from the disk takes identity, operator key and TLS material from it.
    The JSON codec of the bundle is a parameter; files are a map from paths,
    and calls to the operating system can fail. *)

From S2P Require Import Prelude GoStrings Models Store MemoryStore Base64 Bytes Auth Files.

Set Default Goal Selector "!".
Local Open Scope go_scope.

Record FirstBootBundle := mkFirstBoot {
  fb_CapsuleID : string;
  fb_ShortID : string;
  fb_TLSCertPEM : string;
  fb_TLSKeyPEM : string;
  fb_OperatorPubkey : string;
  fb_OperatorName : string }.

Section FirstBoot.
Context {S : Type} `{!Store S} {TL : TokenLib}.
Context (unmarshal_bundle : string -> option FirstBootBundle).
Abbreviation world := (FWorld S).

(** ** Ingesting the bundle *)

Definition set_fb_identity (id : CapsuleIdentity) (b : FirstBootBundle) (now : Z) : CapsuleIdentity :=
  mkCapsuleIdentity (fb_CapsuleID b) (fb_ShortID b)
    (if (ci_CreatedAtUnix id =? 0)%Z then now else ci_CreatedAtUnix id) (ci_AdoptedAtUnix id) (ci_AdoptedByKid id).

Definition applyIdentity (now : Z) (b : FirstBootBundle) : prog S unit :=
  r <- catch ist_Get ;;
  match r with
  | Err e =>
      if negb (errors_Is e StoreNotFound) then fail (Wrap "load identity: " e "")
      else ist_Put now (set_fb_identity (mkCapsuleIdentity "" "" 0 0 "") b now)
  | Ok id => ist_Put now (set_fb_identity id b now)
  end.

Definition applyAuthorizedKey (now : Z) (b : FirstBootBundle) : prog S unit :=
  if String.eqb (fb_OperatorPubkey b) "" then fail (Errorf "firstboot bundle missing operator_pubkey")
  else match std_decode (fb_OperatorPubkey b) with
  | None => fail (Errorf "decode operator_pubkey: illegal base64 data")
  | Some pub =>
      match ParsePubkey pub with
      | Err e => fail (Wrap "invalid operator_pubkey: " e "")
      | Ok _ =>
          let kid := KidFromPubkey pub in
          let name := if String.eqb (fb_OperatorName b) "" then "operator" else fb_OperatorName b in
          r <- catch (kst_Add now (mkAuthorizedKey kid pub name "" now)) ;;
          match r with
          | Ok _ => ret tt
          | Err e => if errors_Is e StoreConflict then ret tt else fail (Wrap "enroll key: " e "")
          end
      end
  end.

Definition certPath (permDir : string) : string := permDir +:+ "/tls/server.crt".
Definition keyPath (permDir : string) : string := permDir +:+ "/tls/server.key".

Definition writeTLSMaterial (permDir : string) (b : FirstBootBundle) : prog world unit :=
  if String.eqb (fb_TLSCertPEM b) "" || String.eqb (fb_TLSKeyPEM b) "" then
    fail (Errorf "firstboot bundle missing TLS material")
  else
    wrap_err "mkdir tls: " (f_MkdirAll (permDir +:+ "/tls")) ;;;
    c <- catch (f_Stat (certPath permDir)) ;;
    k <- (if is_ok c then catch (f_Stat (keyPath permDir)) else ret (Err (Sentinel OsNotExist))) ;;
    if is_ok c && is_ok k then ret tt
    else
      wrap_err ("write " +:+ certPath permDir +:+ ": ") (f_WriteFile (certPath permDir) (fb_TLSCertPEM b)) ;;;
      wrap_err ("write " +:+ keyPath permDir +:+ ": ") (f_WriteFile (keyPath permDir) (fb_TLSKeyPEM b)).

Definition bundlePath (permDir : string) : string := permDir +:+ "/firstboot.json".

Definition IngestFirstBoot (now : Z) (permDir : string) : prog world unit :=
  let path := bundlePath permDir in
  r <- catch (f_ReadFile path) ;;
  match r with
  | Err e => if errors_Is e OsNotExist then ret tt else fail (Wrap ("read " +:+ path +:+ ": ") e "")
  | Ok data =>
      match unmarshal_bundle data with
      | None => ignore (f_Rename path (path +:+ ".broken"))
      | Some b =>
          fstore (applyIdentity now b) ;;;
          fstore (applyAuthorizedKey now b) ;;;
          writeTLSMaterial permDir b ;;;
          ignore (f_Remove path)
      end
  end.
End FirstBoot.

(** ** Correctness *)

Section correctness.
Context {S : Type} `{!Store S, !StoreLaws S} {TL : TokenLib}.
Context (unmarshal_bundle : string -> option FirstBootBundle).
Implicit Types w : FWorld S.

Definition fkeys w : gmap string AuthorizedKey := v_keys (view (fw_store w)).
Definition fid w : option CapsuleIdentity := v_identity (view (fw_store w)).

(** The identity and the keys a bundle asks for. *)
Definition fb_seeded (b : FirstBootBundle) (v : StoreView) : Prop :=
  exists id, v_identity v = Some id /\ ci_CapsuleID id = fb_CapsuleID b /\ ci_ShortID id = fb_ShortID b.
Definition fb_kid (b : FirstBootBundle) : option string := KidFromPubkey <$> std_decode (fb_OperatorPubkey b).

Lemma applyIdentity_spec now b (s : S) r s' :
  store_ok s -> applyIdentity now b s = (r, s') ->
  store_ok s' /\ v_keys (view s') = v_keys (view s) /\ v_workloads (view s') = v_workloads (view s) /\
  match r with Ok _ => fb_seeded b (view s') | Err _ => view s' = view s end.
Proof.
  intros Hok H. unfold applyIdentity, bind, catch in H. pose proof (ist_Get_law s Hok) as HG.
  destruct (ist_Get s) as [g s1]. destruct HG as (Hok1 & Hv1 & _).
  assert (forall id r s', ist_Put now (set_fb_identity id b now) s1 = (r, s') ->
    store_ok s' /\ v_keys (view s') = v_keys (view s) /\ v_workloads (view s') = v_workloads (view s) /\
    match r with Ok _ => fb_seeded b (view s') | Err _ => view s' = view s end) as Hput.
  { intros id r2 s2 HP. pose proof (ist_Put_law now (set_fb_identity id b now) s1 Hok1) as HL. rewrite HP in HL.
    destruct HL as [Hok2 HL]. destruct r2 as [[]|e]; rewrite HL, Hv1; [|done].
    split; [done|]. split; [done|]. split; [done|]. eexists. by split_and!. }
  destruct g as [id|e]; [by eapply Hput|].
  destruct (negb _); [unfold fail in H; injection H as <- <-; by rewrite Hv1|by eapply Hput].
Qed.

Lemma applyAuthorizedKey_spec now b (s : S) r s' :
  store_ok s -> applyAuthorizedKey now b s = (r, s') ->
  store_ok s' /\ v_identity (view s') = v_identity (view s) /\ v_workloads (view s') = v_workloads (view s) /\
  match r with
  | Ok _ => exists kid pub, fb_kid b = Some kid /\ std_decode (fb_OperatorPubkey b) = Some pub /\
      ParsePubkey pub = Ok pub /\
      ((v_keys (view s) !! kid = None /\ exists k, v_keys (view s') = <[kid := k]> (v_keys (view s)) /\
          ak_Kid k = kid /\ ak_Pubkey k = pub) \/
       (is_Some (v_keys (view s) !! kid) /\ v_keys (view s') = v_keys (view s)))
  | Err _ => view s' = view s
  end.
Proof.
  intros Hok H. unfold applyAuthorizedKey in H.
  destruct (String.eqb (fb_OperatorPubkey b) ""); [unfold fail in H; by injection H as <- <-|].
  destruct (std_decode (fb_OperatorPubkey b)) as [pub|] eqn:Hd; [|unfold fail in H; by injection H as <- <-].
  destruct (ParsePubkey pub) as [p|] eqn:Hp; [|unfold fail in H; by injection H as <- <-].
  unfold bind, catch in H. cbv zeta in H.
  match type of H with context [kst_Add now ?k s] => pose proof (kst_Add_law now k s Hok) as HL;
    destruct (kst_Add now k s) as [[u|e] s1] end; destruct HL as [Hok1 HL].
  - unfold ret in H. injection H as <- <-. destruct HL as [Hnone HL]. rewrite HL. split; [done|]. split; [done|]. split; [done|].
    exists (KidFromPubkey pub), pub. unfold fb_kid. rewrite Hd. split; [done|]. split; [done|].
    unfold ParsePubkey in *. destruct (negb _); [done|]. injection Hp as <-. split; [done|]. left. split; [done|].
    eexists. split; [reflexivity|]. done.
  - destruct HL as [HL Hc]. destruct (errors_Is e StoreConflict).
    + unfold ret in H. injection H as <- <-. rewrite HL. split; [done|]. split; [done|]. split; [done|].
      exists (KidFromPubkey pub), pub. unfold fb_kid. rewrite Hd. split; [done|]. split; [done|].
      unfold ParsePubkey in *. destruct (negb _); [done|]. injection Hp as <-. split; [done|]. right. split; [by apply Hc|done].
    + unfold fail in H. injection H as <- <-. by rewrite HL.
Qed.

(** *** The steps on files leave the store alone, the steps on the store the files *)

Lemma keeps_write_tls permDir b : keeps fw_store (writeTLSMaterial (S:=S) permDir b).
Proof.
  unfold writeTLSMaterial, f_MkdirAll, f_Stat, f_WriteFile. go_keeps; apply keeps_os_call; try done.
  all: intros w; case_match; done.
Qed.
Lemma tls_paths permDir : certPath permDir <> keyPath permDir /\ certPath permDir <> bundlePath permDir /\ keyPath permDir <> bundlePath permDir.
Proof. unfold certPath, keyPath, bundlePath. split_and!; by intros ?%app_inj_l. Qed.

(** Everything but the TLS files. *)
Definition beside_tls (permDir : string) w : gmap string string := delete (certPath permDir) (delete (keyPath permDir) (fw_files w)).

Lemma keeps_beside_tls permDir b : keeps (beside_tls permDir) (writeTLSMaterial (S:=S) permDir b).
Proof.
  unfold writeTLSMaterial, f_MkdirAll, f_Stat, f_WriteFile, beside_tls. go_keeps; apply keeps_os_call; try done.
  all: try (intros w; case_match; done).
  all: repeat (intros ?); simpl; rewrite ?delete_insert_eq; try done.
  all: destruct (tls_paths permDir) as [? _]; rewrite delete_insert_ne by congruence; by rewrite delete_insert_eq.
Qed.

Definition tls_present (permDir : string) w : Prop :=
  is_Some (fw_files w !! certPath permDir) /\ is_Some (fw_files w !! keyPath permDir).

Lemma f_Stat_cases path w :
  let '(r, w') := catch (f_Stat (S:=S) path) w in
  fw_files w' = fw_files w /\ exists r0, r = Ok r0 /\ (is_ok r0 = true -> is_Some (fw_files w !! path)).
Proof.
  unfold catch, f_Stat, os_call. simpl. destruct (fw_faults w) as [|[[n e]|] l]; simpl.
  2: { split; [done|]. by eexists. }
  all: destruct (fw_files w !! path) eqn:E; simpl; (split; [done|]); eexists; (split; [reflexivity|]); [eauto|done].
Qed.

Lemma write_tls_Ok permDir b w w' : writeTLSMaterial (S:=S) permDir b w = (Ok tt, w') ->
  (tls_present permDir w /\ fw_files w' = fw_files w) \/
  fw_files w' = <[keyPath permDir := fb_TLSKeyPEM b]> (<[certPath permDir := fb_TLSCertPEM b]> (fw_files w)).
Proof.
  unfold writeTLSMaterial. destruct (_ || _); [done|]. intros ([] & w1 & H1 & H)%bind_Ok_inv.
  assert (fw_files w1 = fw_files w) as E1.
  { unfold wrap_err in H1. destruct (f_MkdirAll _ w) as [[[]|e] v] eqn:E; [|done]. injection H1 as ->.
    apply os_call_Ok in E as [l E]. by injection E as <-. }
  pose proof (f_Stat_cases (certPath permDir) w1) as HC. unfold bind at 1 in H.
  destruct (catch (f_Stat (certPath permDir)) w1) as [cr w2]. destruct HC as (E2 & c & -> & Hc).
  unfold bind at 1 in H.
  assert (exists k w3, (if is_ok c then catch (f_Stat (keyPath permDir)) else ret (Err (Sentinel OsNotExist))) w2 = (Ok k, w3) /\
    fw_files w3 = fw_files w2 /\ (is_ok k = true -> is_Some (fw_files w2 !! keyPath permDir))) as (k & w3 & HK & E3 & Hk).
  { destruct (is_ok c).
    - pose proof (f_Stat_cases (keyPath permDir) w2) as HC2. destruct (catch (f_Stat (keyPath permDir)) w2) as [kr w3].
      destruct HC2 as (? & k & -> & ?). eauto.
    - exists (Err (Sentinel OsNotExist)), w2. done. }
  rewrite HK in H. destruct (is_ok c && is_ok k) eqn:Eck.
  - injection H as <-. apply andb_true_iff in Eck as [Ec Ek]. left. unfold tls_present.
    rewrite <- E1. split; [|congruence]. split; [by apply Hc|]. rewrite <- E2. by apply Hk.
  - right. apply bind_Ok_inv in H as ([] & w4 & H4 & H5).
    unfold wrap_err in H4, H5. destruct (f_WriteFile (certPath permDir) _ w3) as [[[]|e] v4] eqn:W4; [|done]. injection H4 as ->.
    destruct (f_WriteFile (keyPath permDir) _ w4) as [[[]|e] v5] eqn:W5; [|done]. injection H5 as ->.
    apply f_WriteFile_Ok in W4, W5. by rewrite W5, W4, E3, E2, E1.
Qed.

(** No scheduled fault claims that an existing file is missing. *)
Definition real_faults w : Prop :=
  Forall (fun f : fault => match f with Some (_, e) => errors_Is e OsNotExist = false | None => True end) (fw_faults w).

Lemma fstore_run {A} (m : prog S A) w :
  fstore m w = ((m (fw_store w)).1, mkFWorld (m (fw_store w)).2 (fw_files w) (fw_faults w)).
Proof. unfold fstore, zoom. by destruct (m (fw_store w)). Qed.

(** What one attempt at the bundle [b] does. *)
Definition ingest_post (permDir data : string) (b : FirstBootBundle) w w' (r : result unit) : Prop :=
  store_ok (fw_store w') /\ v_workloads (view (fw_store w')) = v_workloads (view (fw_store w)) /\
  (forall k x, fkeys w !! k = Some x -> fkeys w' !! k = Some x) /\
  (forall k, fb_kid b <> Some k -> fkeys w' !! k = fkeys w !! k) /\
  match r with
  | Ok _ =>
      fb_seeded b (view (fw_store w')) /\
      (exists kid pub k, fb_kid b = Some kid /\ std_decode (fb_OperatorPubkey b) = Some pub /\
         ParsePubkey pub = Ok pub /\ fkeys w' !! kid = Some k /\ (fkeys w !! kid = None -> ak_Pubkey k = pub)) /\
      tls_present permDir w' /\
      (~ tls_present permDir w ->
         fw_files w' !! certPath permDir = Some (fb_TLSCertPEM b) /\ fw_files w' !! keyPath permDir = Some (fb_TLSKeyPEM b))
  | Err _ => fw_files w' !! bundlePath permDir = Some data
  end.

Lemma f_Remove_tls permDir w w' (r : result unit) :
  ignore (f_Remove (S:=S) (bundlePath permDir)) w = (r, w') ->
  r = Ok tt /\ fw_store w' = fw_store w /\ fw_files w' !! certPath permDir = fw_files w !! certPath permDir /\
  fw_files w' !! keyPath permDir = fw_files w !! keyPath permDir.
Proof.
  destruct (tls_paths permDir) as (_ & H1 & H2). unfold ignore. destruct (f_Remove _ w) as [r0 w0] eqn:E. intros [= <- <-].
  split; [done|]. unfold f_Remove, os_call in E. simpl in E.
  destruct (fw_faults w) as [|[[n e]|] l]; [|by injection E as <- <-|].
  all: simpl in E; destruct (fw_files w !! bundlePath permDir); injection E as <- <-; simpl; [|done].
  all: by rewrite !lookup_delete_ne by congruence.
Qed.

Lemma IngestFirstBoot_cases now permDir data b w r w' :
  store_ok (fw_store w) -> real_faults w -> fw_files w !! bundlePath permDir = Some data -> unmarshal_bundle data = Some b ->
  IngestFirstBoot unmarshal_bundle now permDir w = (r, w') -> ingest_post permDir data b w w' r.
Proof.
  intros Hok Hf Hfile Hb H. unfold IngestFirstBoot, bind at 1 in H. cbv zeta in H.
  assert (exists rd w1, catch (f_ReadFile (S:=S) (bundlePath permDir)) w = (Ok rd, w1) /\ fw_store w1 = fw_store w /\
    fw_files w1 = fw_files w /\ match rd with Ok d => d = data | Err e => errors_Is e OsNotExist = false end) as (rd & w1 & HR & Es1 & Ef1 & Hrd).
  { unfold catch, f_ReadFile, os_call. simpl. unfold real_faults in Hf.
    destruct (fw_faults w) as [|[[n e]|] l]; simpl; rewrite ?Hfile; do 2 eexists; (split; [reflexivity|]); split_and!; try done.
    by apply Forall_cons in Hf as [? _]. }
  rewrite HR in H. destruct rd as [d|e].
  2: { rewrite Hrd in H. unfold fail in H. injection H as <- <-. unfold ingest_post, fkeys. rewrite Es1, Ef1. done. }
  subst d. rewrite Hb in H.
  destruct (applyIdentity now b (fw_store w)) as [r2 s2] eqn:E2.
  pose proof (applyIdentity_spec now b _ _ _ Hok E2) as (Hok2 & Hk2 & Hw2 & HI).
  unfold bind at 1 in H. rewrite fstore_run, Es1, E2 in H. simpl in H. destruct r2 as [[]|e].
  2: { injection H as <- <-. unfold ingest_post, fkeys. simpl. rewrite Hk2, Ef1. done. }
  destruct (applyAuthorizedKey now b s2) as [r3 s3] eqn:E3.
  pose proof (applyAuthorizedKey_spec now b _ _ _ Hok2 E3) as (Hok3 & Hi3 & Hw3 & HK).
  unfold bind at 1 in H. rewrite fstore_run in H. simpl in H. rewrite E3 in H. simpl in H. destruct r3 as [[]|e].
  2: { injection H as <- <-. unfold ingest_post, fkeys. simpl. rewrite HK, Hk2, Ef1, Hw2. done. }
  destruct HK as (kid & pub & Hkid & Hdec & Hpub & HK). rewrite Hk2 in HK.
  set (w3 := mkFWorld s3 (fw_files w1) (fw_faults w1)) in H.
  assert ((forall k x, v_keys (view (fw_store w)) !! k = Some x -> v_keys (view s3) !! k = Some x) /\
    (forall k, fb_kid b <> Some k -> v_keys (view s3) !! k = v_keys (view (fw_store w)) !! k) /\
    exists k, v_keys (view s3) !! kid = Some k /\ (v_keys (view (fw_store w)) !! kid = None -> ak_Pubkey k = pub)) as (Hext & Hoth & k & Hk & Hkp).
  { destruct HK as [(Hn & k & HK & Hkk & Hkp)|([k Hk] & HK)]; rewrite HK.
    - split; [intros k' x Hx; rewrite lookup_insert_ne by congruence; done|].
      split; [intros k' Hne; rewrite lookup_insert_ne by congruence; done|]. exists k. by rewrite lookup_insert_eq.
    - split; [done|]. split; [done|]. exists k. split; [done|]. congruence. }
  unfold bind at 1 in H. destruct (writeTLSMaterial permDir b w3) as [r4 w4] eqn:E4.
  pose proof (keeps_run _ _ _ _ _ (keeps_write_tls permDir b) E4) as Es4.
  pose proof (keeps_run _ _ _ _ _ (keeps_beside_tls permDir b) E4) as Ef4. unfold beside_tls in Ef4. simpl in Es4, Ef4.
  destruct (tls_paths permDir) as (Hck & Hcb & Hkb).
  destruct r4 as [[]|e].
  2: { injection H as <- <-. unfold ingest_post, fkeys. rewrite Es4, Hw3, Hw2. split_and!; try done.
       assert (fw_files w4 !! bundlePath permDir = fw_files w1 !! bundlePath permDir) as ->.
       { apply (f_equal (lookup (bundlePath permDir))) in Ef4. by rewrite !lookup_delete_ne in Ef4 by congruence. }
       by rewrite Ef1. }
  apply f_Remove_tls in H as (-> & Es5 & Ec5 & Ek5). apply write_tls_Ok in E4. simpl in E4.
  unfold ingest_post, fkeys. rewrite Es5, Es4, Hw3, Hw2. split_and!; try done.
  - unfold fb_seeded in *. by rewrite Hi3.
  - by exists kid, pub, k.
  - unfold tls_present. rewrite Ec5, Ek5. destruct E4 as [[Hp ->]| ->]; [done|].
    rewrite lookup_insert_eq, lookup_insert_ne, lookup_insert_eq by congruence. eauto.
  - intros Hn. rewrite Ec5, Ek5. destruct E4 as [[Hp _]| ->].
    + destruct Hn. unfold tls_present in *. simpl in Hp. by rewrite Ef1 in Hp.
    + rewrite lookup_insert_eq, lookup_insert_ne, lookup_insert_eq by congruence. done.
Qed.

End correctness.

Module FirstBootDemo.
#[local] Existing Instance DemoLib.lib.
Definition pub : string := "AAAAAAAAAAAAAAAAAAAAAAAAAAAAAAAA".
Definition bundle : FirstBootBundle :=
  mkFirstBoot "6f1c0d9e" "6F1C" "CERT" "PRIVATE KEY" (std_encode pub) "alice".
Definition read_bundle (data : string) : option FirstBootBundle := if String.eqb data "{...}" then Some bundle else None.
Definition on_disk (l : list fault) : FWorld memStore := mkFWorld mem_New {["/perm/capsule/firstboot.json" := "{...}"]} l.
Definition ingest (w : FWorld memStore) : result unit * FWorld memStore :=
  IngestFirstBoot read_bundle 1700000000 "/perm/capsule" w.
(** Calls: read the bundle, mkdir, stat of the certificate, write the
    certificate, write the key.  The last one fails after eight bytes. *)
Definition torn : FWorld memStore :=
  on_disk [None; None; None; None; Some (8%nat, Errorf "no space left on device")].
End FirstBootDemo.


(** A private key that was cut short by a failing write is never repaired:
    the next boot finds both TLS files, skips them, reports success and removes
    the bundle. *)
Theorem torn_key_is_kept :
  let '(r1, w1) := FirstBootDemo.ingest FirstBootDemo.torn in
  let '(r2, w2) := FirstBootDemo.ingest w1 in
  is_ok r1 = false /\ r2 = Ok tt /\
  fw_files w2 !! "/perm/capsule/tls/server.key" = Some "PRIVATE " /\
  fw_files w2 !! "/perm/capsule/firstboot.json" = None.
Proof. by vm_compute. Qed.
