(* ===== verification/Update.v ===== *)
(** * A/B updates: core/update/service.go

    The service writes a streamed bundle to the inactive slot, checks its
    digest, flips GRUB's default and records the pending slot; a boot into the
    pending slot waits for Confirm or rolls back.

    The world holds the os_state store, the block devices, the staging
    directory, the files of the boot partition, the armed timer and the count
    of reboots.  Every call into the operating system consumes one entry of
    [u_faults]: [Some (n, e)] makes it fail with [e] after [n] bytes of the
    work it does, so that each error path can be taken. *)

From S2P Require Import Prelude GoStrings Models Store MemoryStore Runtime Base64 Bytes Disks.

Set Default Goal Selector "!".
Local Open Scope go_scope.

(** ** Slots *)

Definition otherSlot (s : string) : string := if String.eqb s "slot_a" then "slot_b" else "slot_a".
Definition slotPartitionNumber (slot : string) : Z := if String.eqb slot "slot_a" then 2 else 3.
Definition slotLetter (slot : string) : string := if String.eqb slot "slot_a" then "a" else "b".
Definition slotIndex (slot : string) : result Z :=
  if String.eqb slot "slot_a" then Ok 0%Z
  else if String.eqb slot "slot_b" then Ok 1%Z
  else Err (Errorf ("unknown slot " +:+ Quote slot)).

(** DefaultDeadline, in seconds. *)
Definition DefaultDeadline : Z := 10 * 60.

(** ** grub.cfg *)

Definition default_prefix : string := "set default=".
Definition is_default_line (ln : string) : bool := HasPrefix (TrimSpace ln) default_prefix.

(** The loop over the lines: the first `set default=` line is replaced. *)
Fixpoint replace_default (lines : list string) (idx : Z) : option (list string) :=
  match lines with
  | [] => None
  | ln :: rest =>
      if is_default_line ln then Some ((default_prefix +:+ Itoa idx) :: rest)
      else match replace_default rest idx with Some rest' => Some (ln :: rest') | None => None end
  end.

(** The new text of grub.cfg. *)
Definition rewrite_default (data : string) (idx : Z) : option string :=
  match replace_default (Split NL data) idx with
  | Some lines => Some (Join lines (String NL ""))
  | None => None
  end.

(** What GRUB reads: the value of the first `set default=` line. *)
Definition grub_default (data : string) : option string :=
  match filter (fun ln => is_default_line ln = true) (Split NL data) with
  | ln :: _ => Some (slice_from (String.length default_prefix) (TrimSpace ln))
  | [] => None
  end.

(** ** The world *)

Record UWorld (S : Type) := mkUWorld {
  u_store : S;
  u_dev : gmap string string;     (* block devices, each of fixed size *)
  u_stage : gmap string string;   (* <StagingDir>/staging *)
  u_boot : gmap string string;    (* the files of the boot partition *)
  u_mounted : bool;               (* is it mounted at BootMount? *)
  u_timer : option Z;             (* when the rollback timer fires *)
  u_reboots : nat;
  u_faults : list fault }.
Arguments mkUWorld {S}.
Arguments u_store {S}.
Arguments u_dev {S}.
Arguments u_stage {S}.
Arguments u_boot {S}.
Arguments u_mounted {S}.
Arguments u_timer {S}.
Arguments u_reboots {S}.
Arguments u_faults {S}.

Definition BootMount : string := "/run/capsule/boot-mount".
Definition grub_cfg : string := "EFI/BOOT/grub.cfg".

(** A member of the tar stream: its name, the size its header gives, the bytes
    that could be read and the error that ended the reading, if any. *)
Record Member := mkMember { m_Name : string; m_Size : Z; m_body : string; m_err : option error }.

Record bundlePaths := mkBundle { b_version : string }.

(** The bytes written over the start of a device. *)
Definition overwrite (body dev : string) : string := body +:+ slice_from (String.length body) dev.

Section Update.
Context {S : Type} `{!Store S}.
Abbreviation world := (UWorld S).

Definition set_dev f (w : world) := mkUWorld (u_store w) (f (u_dev w)) (u_stage w) (u_boot w) (u_mounted w) (u_timer w) (u_reboots w) (u_faults w).
Definition set_stage f (w : world) := mkUWorld (u_store w) (u_dev w) (f (u_stage w)) (u_boot w) (u_mounted w) (u_timer w) (u_reboots w) (u_faults w).
Definition set_boot f (w : world) := mkUWorld (u_store w) (u_dev w) (u_stage w) (f (u_boot w)) (u_mounted w) (u_timer w) (u_reboots w) (u_faults w).
Definition set_mounted b (w : world) := mkUWorld (u_store w) (u_dev w) (u_stage w) (u_boot w) b (u_timer w) (u_reboots w) (u_faults w).
Definition set_timer t (w : world) := mkUWorld (u_store w) (u_dev w) (u_stage w) (u_boot w) (u_mounted w) t (u_reboots w) (u_faults w).
Definition set_reboots n (w : world) := mkUWorld (u_store w) (u_dev w) (u_stage w) (u_boot w) (u_mounted w) (u_timer w) n (u_faults w).
Definition set_faults l (w : world) := mkUWorld (u_store w) (u_dev w) (u_stage w) (u_boot w) (u_mounted w) (u_timer w) (u_reboots w) l.

#[export] Instance UWorld_faulty : Faulty world := {| faults_of := u_faults; with_faults := set_faults |}.

#[export] Instance UWorld_faulty_laws : FaultyLaws world.
Proof. split; [done|by intros []]. Qed.

Definition state {A} : prog S A -> prog world A :=
  zoom u_store (fun s w => mkUWorld s (u_dev w) (u_stage w) (u_boot w) (u_mounted w) (u_timer w) (u_reboots w) (u_faults w)).

Definition set_os_active (st : OSState) (a : string) : OSState :=
  mkOSState a (os_PendingSlot st) (os_PendingDeadlineUnix st) (os_LastGoodSlot st) (os_LastVersion st) (os_UpdatedAtUnix st).
Definition set_os_pending (st : OSState) (p : string) (d : Z) : OSState :=
  mkOSState (os_ActiveSlot st) p d (os_LastGoodSlot st) (os_LastVersion st) (os_UpdatedAtUnix st).
Definition set_os_good (st : OSState) (g : string) : OSState :=
  mkOSState (os_ActiveSlot st) (os_PendingSlot st) (os_PendingDeadlineUnix st) g (os_LastVersion st) (os_UpdatedAtUnix st).
Definition set_os_version (st : OSState) (v : string) : OSState :=
  mkOSState (os_ActiveSlot st) (os_PendingSlot st) (os_PendingDeadlineUnix st) (os_LastGoodSlot st) v (os_UpdatedAtUnix st).

(** *** Files and devices *)

(** Files of the staging directory or of the boot partition. *)
Inductive dir := Stage | Boot.
Definition on_dir (d : dir) f : world -> world := match d with Stage => set_stage f | Boot => set_boot f end.
Definition in_dir (d : dir) (w : world) : gmap string string := match d with Stage => u_stage w | Boot => u_boot w end.

Definition os_Read (d : dir) (name : string) : prog world string :=
  os_call no_part (fun w => match in_dir d w !! name with
                            | Some b => (Ok b, w) | None => (Err (Sentinel OsNotExist), w) end).
(** [os.Create] truncates. *)
Definition os_Create (d : dir) (name : string) : prog world unit :=
  os_call no_part (fun w => (Ok tt, on_dir d <[name := ""]> w)).
(** [io.Copy] into a fresh file: a failed write leaves a prefix; an error of
    the source comes after the bytes that could be read. *)
Definition io_Copy (d : dir) (name body : string) (src_err : option error) : prog world unit :=
  os_call (fun n => on_dir d <[name := slice_to n body]>) (fun w =>
    (match src_err with Some e => Err e | None => Ok tt end, on_dir d <[name := body]> w)).
Definition os_Sync : prog world unit := os_call no_part (ret tt).

Definition writeFile (d : dir) (name : string) (m : Member) : prog world unit :=
  os_Create d name ;;; io_Copy d name (m_body m) (m_err m) ;;; os_Sync.

(** [os.WriteFile]: truncate, then write. *)
Definition os_WriteFile (d : dir) (name body : string) : prog world unit :=
  os_call (fun n => on_dir d <[name := slice_to n body]>) (fun w => (Ok tt, on_dir d <[name := body]> w)).

Definition blockDeviceSize (dev : string) : prog world Z :=
  os_call no_part (fun w => match u_dev w !! dev with
    | Some b => (Ok (Z.of_nat (String.length b)), w) | None => (Err (Sentinel OsNotExist), w) end).

Definition writeBlockDevice (dev : string) (m : Member) : prog world unit :=
  os_call no_part (fun w => match u_dev w !! dev with
    | Some _ => (Ok tt, w) | None => (Err (Sentinel OsNotExist), w) end) ;;;
  os_call (fun n => set_dev (alter (overwrite (slice_to n (m_body m))) dev)) (fun w =>
    match u_dev w !! dev with
    | None => (Err (Sentinel OsNotExist), w)
    | Some b =>
        if (Z.of_nat (String.length b) <? Z.of_nat (String.length (m_body m)))%Z then
          (Err (Errorf "no space left on device"), set_dev <[dev := slice_to (String.length b) (m_body m)]> w)
        else (match m_err m with Some e => Err e | None => Ok tt end,
              set_dev <[dev := overwrite (m_body m) b]> w)
    end) ;;;
  os_Sync.

(** *** The boot partition *)

Definition proc_mounts (dev : string) (w : world) : string :=
  if u_mounted w then dev +:+ " " +:+ BootMount +:+ " vfat rw 0 0" +:+ String NL "" else "".

(** [isMounted]: an error of the read counts as not mounted at the call. *)
Definition isMounted (dev : string) : prog world bool :=
  os_call no_part (fun w => (Ok (isMounted_in (proc_mounts dev w) BootMount), w)).

Definition withBootMount {A} (dev : string) (fn : prog world A) : prog world A :=
  wrap_err "mkdir boot mount: " (os_call no_part (ret tt)) ;;;
  m <- catch (isMounted dev) ;;
  (if match m with Ok b => b | Err _ => false end then ret tt
   else wrap_err ("mount " +:+ dev +:+ " -> " +:+ BootMount +:+ ": ")
          (os_call no_part (fun w => (Ok tt, set_mounted true w)))) ;;;
  r <- catch fn ;;
  ignore (os_call no_part (fun w => (Ok tt, set_mounted false w))) ;;;
  lift r.

Definition rewriteGrubDefault (slot : string) : prog world unit :=
  idx <- lift (slotIndex slot) ;;
  data <- wrap_err "read grub.cfg: " (os_Read Boot grub_cfg) ;;
  match rewrite_default data idx with
  | None => fail (Errorf ("no `set default=` line in " +:+ BootMount +:+ "/" +:+ grub_cfg))
  | Some data' => os_WriteFile Boot grub_cfg data'
  end.

Context (sha256 : string -> string).
(** [boot.FindPartitionByNumber] on the machine's disks. *)
Context (find_partition : Z -> result string).
Context (ActiveSlot : string).

Definition fileSHA256 (d : dir) (name : string) : prog world string :=
  b <- os_Read d name ;; ret (EncodeToString (sha256 b)).

Definition copyIfChanged (src dst : string) : prog world unit :=
  srcSum <- wrap_err "hash src: " (fileSHA256 Stage src) ;;
  dstSum <- catch (fileSHA256 Boot dst) ;;
  if match dstSum with Ok s => String.eqb s srcSum | Err _ => false end then ret tt
  else
    body <- os_Read Stage src ;;
    os_Create Boot dst ;;;
    io_Copy Boot dst body None ;;;
    os_Sync ;;;
    os_call no_part (ret tt).

Definition rollbackToLastGood (lastGood : string) : prog world unit :=
  match find_partition 1 with
  | Err e => fail (Wrap "find boot partition: " e "")
  | Ok bootPart => withBootMount bootPart (rewriteGrubDefault lastGood)
  end.

Definition Reboot : prog world unit := os_call no_part (fun w => (Ok tt, set_reboots (u_reboots w + 1) w)).

(** *** OnStartup *)

Definition OnStartup (now : Z) : prog world unit :=
  if String.eqb ActiveSlot "" then ret tt
  else
    g <- catch (state ost_Get) ;;
    match g with
    | Err e =>
        if errors_Is e StoreNotFound then
          wrap_err "seed os_state: " (state (ost_Put now (mkOSState ActiveSlot "" 0 ActiveSlot "" 0)))
        else fail (Wrap "read os_state: " e "")
    | Ok st0 =>
        let st := set_os_active st0 ActiveSlot in
        if String.eqb (os_PendingSlot st) "" then state (ost_Put now st)
        else if negb (String.eqb (os_PendingSlot st) ActiveSlot) then
          state (ost_Put now (set_os_pending st "" 0))
        else
          state (ost_Put now st) ;;;
          if (os_PendingDeadlineUnix st =? 0)%Z || (os_PendingDeadlineUnix st <=? now)%Z then
            ignore (rollbackToLastGood (os_LastGoodSlot st)) ;;;
            Reboot
          else fun w => (Ok tt, set_timer (Some (os_PendingDeadlineUnix st)) w)
    end.

(** What the timer runs when it fires. *)
Definition deadline_fired : prog world unit := fun w =>
  (g <- catch (state ost_Get) ;;
   match g with
   | Err _ => ret tt
   | Ok cur =>
       if String.eqb (os_PendingSlot cur) "" then ret tt
       else ignore (rollbackToLastGood (os_LastGoodSlot cur)) ;;; ignore Reboot
   end) (set_timer None w).

(** *** ReceiveBundle *)

(** [archive/tar] over the received bytes: the members it delivers, and the
    error that ends the archive instead of its end mark. *)
Context (tar_members : string -> option error -> list Member * result unit).

Definition set_version (b : bundlePaths) (v : string) : bundlePaths := mkBundle v.

Definition take_member (dev : string) (m : Member) (b : bundlePaths) : prog world bundlePaths :=
  if String.eqb (m_Name m) "VERSION" then
    match m_err m with
    | Some e => fail e
    | None => ret (set_version b (TrimSpace (m_body m)))
    end
  else if String.eqb (m_Name m) "vmlinuz" then writeFile Stage "vmlinuz" m ;;; ret b
  else if String.eqb (m_Name m) "initramfs" then writeFile Stage "initramfs" m ;;; ret b
  else
    slotBytes <- wrap_err ("size of " +:+ dev +:+ ": ") (blockDeviceSize dev) ;;
    if (slotBytes <? m_Size m)%Z then
      fail (Wrap "" (Sentinel UpdateTooLarge)
        (": rootfs.sqsh " +:+ Itoa (m_Size m) +:+ " bytes > slot " +:+ dev +:+ " capacity " +:+ Itoa slotBytes
         +:+ " bytes; bump SLOT_SIZE_MIB and reinstall to apply this update"))
    else
      wrap_err ("stream rootfs to " +:+ dev +:+ ": ") (writeBlockDevice dev m) ;;; ret b.

Fixpoint read_members (dev : string) (ms : list Member) (want : list string) (b : bundlePaths)
    : prog world (list string * bundlePaths) :=
  match ms with
  | [] => ret (want, b)
  | m :: ms =>
      if negb (bool_decide (m_Name m ∈ want)) then
        match m_err m with
        | Some e => fail e
        | None => read_members dev ms want b
        end
      else
        b' <- take_member dev m b ;;
        read_members dev ms (filter (fun x => x <> m_Name m) want) b'
  end.

(** The chunks of the stream and how it ended ([None] is io.EOF). *)
Record stream := mkStream { s_chunks : list string; s_end : option error }.
Definition s_bytes (s : stream) : string := String.concat "" (s_chunks s).

Definition stage_boot (bootPart nextSlot : string) : prog world unit :=
  withBootMount bootPart
    (copyIfChanged "vmlinuz" ("vmlinuz_" +:+ slotLetter nextSlot) ;;;
     copyIfChanged "initramfs" ("initramfs_" +:+ slotLetter nextSlot) ;;;
     rewriteGrubDefault nextSlot).

(** The checks after the stream: members, size, digest. *)
Definition check_bundle (s : stream) (expectSize : Z) (expectSHA256Hex : string) (want : list string) : result unit :=
  let bytesIn := Z.of_nat (String.length (s_bytes s)) in
  let got := EncodeToString (sha256 (s_bytes s)) in
  match s_end s with
  | Some e => Err (Wrap "stream: " e "")
  | None =>
      if negb (bool_decide (want = [])) then
        Err (Errorf ("bundle missing required members: [" +:+ Join want " " +:+ "]"))
      else if negb (expectSize =? 0)%Z && negb (bytesIn =? expectSize)%Z then
        Err (Errorf ("size mismatch: expected " +:+ Itoa expectSize +:+ " got " +:+ Itoa bytesIn))
      else if negb (EqualFold got expectSHA256Hex) then
        Err (Wrap "" (Sentinel UpdateChecksum) (": expected " +:+ expectSHA256Hex +:+ " got " +:+ got))
      else Ok tt
  end.

Definition all_members : list string := ["VERSION"; "vmlinuz"; "initramfs"; "rootfs.sqsh"].

(** Everything before the boot partition is touched. *)
Definition receive_stream (s : stream) (expectSize : Z) (expectSHA256Hex nextSlot : string)
    : prog world bundlePaths :=
  wrap_err "clean staging: " (os_call no_part (fun w => (Ok tt, set_stage (fun _ => ∅) w))) ;;;
  wrap_err "mkdir staging: " (os_call no_part (ret tt)) ;;;
  match find_partition (slotPartitionNumber nextSlot) with
  | Err e => fail (Wrap "find slot partition: " e "")
  | Ok inactiveDev =>
      let '(ms, tar_end) := tar_members (s_bytes s) (s_end s) in
      wb <- read_members inactiveDev ms all_members (mkBundle "") ;;
      match tar_end with
      | Err e => fail (Wrap "read tar: " e "")
      | Ok _ => lift (check_bundle s expectSize expectSHA256Hex wb.1) ;;; ret wb.2
      end
  end.

(** Persist the pending slot. *)
Definition record_pending (now : Z) (nextSlot version : string) : prog world unit :=
  st <- wrap_err "read os_state: " (state ost_Get) ;;
  wrap_err "write os_state: "
    (state (ost_Put now (set_os_version (set_os_pending st nextSlot (now + DefaultDeadline)) version))).

Definition ReceiveBundle (now : Z) (s : stream) (expectSize : Z) (expectSHA256Hex : string)
    : prog world (string * string) :=
  if String.eqb ActiveSlot "" then fail (Errorf "update service: ActiveSlot not set")
  else
    let nextSlot := otherSlot ActiveSlot in
    bundle <- receive_stream s expectSize expectSHA256Hex nextSlot ;;
    match find_partition 1 with
    | Err e => fail (Wrap "find boot partition: " e "")
    | Ok bootPart =>
        stage_boot bootPart nextSlot ;;;
        record_pending now nextSlot (b_version bundle) ;;;
        ret (nextSlot, b_version bundle)
    end.

(** *** Confirm *)

Definition Confirm (now : Z) : prog world (string * string) :=
  st <- wrap_err "read os_state: " (state ost_Get) ;;
  if String.eqb (os_PendingSlot st) "" then fail (Sentinel UpdateNoPending)
  else if negb (String.eqb (os_PendingSlot st) ActiveSlot) then fail (Sentinel UpdateSlotMismatch)
  else
    (fun w => (Ok tt, set_timer None w)) ;;;
    let committedVersion := os_LastVersion st in
    let committedSlot := os_ActiveSlot st in
    wrap_err "write os_state: "
      (state (ost_Put now (set_os_good (set_os_pending st "" 0) (os_ActiveSlot st)))) ;;;
    ret (committedSlot, committedVersion).
End Update.

(** ** grub.cfg keeps everything but the default *)

Lemma Split_no_char sep s : Forall (fun l => no_char sep l = true) (Split sep s).
Proof.
  induction s as [|c s IH]; [by repeat constructor|]. simpl.
  destruct (Ascii.eqb_spec c sep) as [->|Hne]; [by constructor|].
  destruct (Split sep s) as [|h t]; [repeat constructor|].
  - unfold no_char. simpl. by destruct (Ascii.eqb_spec sep c).
  - apply Forall_cons in IH as [Hh Ht]. constructor; [|done]. unfold no_char in *. simpl.
    destruct (Ascii.eqb_spec sep c); [congruence|done].
Qed.

Lemma replace_default_Some lines idx lines' :
  replace_default lines idx = Some lines' ->
  exists pre ln post, lines = pre ++ ln :: post /\ Forall (fun l => is_default_line l = false) pre /\
    is_default_line ln = true /\ lines' = pre ++ (default_prefix +:+ Itoa idx) :: post.
Proof.
  revert lines'. induction lines as [|ln lines IH]; intros lines'; [done|]. cbn [replace_default].
  destruct (is_default_line ln) eqn:E.
  - intros [= <-]. by exists [], ln, lines.
  - destruct (replace_default lines idx) as [l|] eqn:El; [|done]. intros [= <-].
    destruct (IH _ eq_refl) as (pre & ln' & post & -> & Hpre & Hln & ->).
    exists (ln :: pre), ln', post. split_and!; [done|by constructor|done|done].
Qed.

Lemma trim_default idx : TrimSpace (default_prefix +:+ Itoa idx) = default_prefix +:+ Itoa idx.
Proof.
  destruct (last_char (Itoa idx)) as [d|] eqn:Hd.
  - apply (TrimSpace_id "s" ("et default=" +:+ Itoa idx) d); [done| |].
    + change (String "s" ("et default=" +:+ Itoa idx)) with (default_prefix +:+ Itoa idx).
      rewrite last_char_app by apply Itoa_not_empty. done.
    + pose proof (Itoa_chars idx) as Hc.
      assert (is_decimal d = true) as Hdec.
      { clear -Hd Hc. induction (Itoa idx) as [|c s IH]; [done|]. simpl in *. apply andb_true_iff in Hc as [? ?].
        destruct s; [by simplify_eq|auto]. }
      unfold is_decimal, is_digit in Hdec. unfold is_space.
      destruct (Ascii.eqb_spec d "-") as [->|]; [done|]. rewrite orb_false_r in Hdec.
      repeat case_match; try done; lia.
  - exfalso. pose proof (Itoa_not_empty idx). destruct (Itoa idx) as [|c s]; [done|].
    clear -Hd. revert c Hd. induction s as [|c' s IH]; intros c; [done|]. apply (IH c').
Qed.

Lemma default_line_ok idx : is_default_line (default_prefix +:+ Itoa idx) = true.
Proof. unfold is_default_line. rewrite trim_default. apply prefix_app. Qed.

Lemma filter_default pre ln post :
  Forall (fun l => is_default_line l = false) pre -> is_default_line ln = true ->
  filter (fun l => is_default_line l = true) (pre ++ ln :: post) = ln :: filter (fun l => is_default_line l = true) post.
Proof.
  intros Hpre Hln. induction Hpre as [|x pre Hx _ IH]; simpl.
  - by rewrite filter_cons_True.
  - rewrite filter_cons_False by congruence. exact IH.
Qed.

Lemma rewrite_default_lines data idx data' :
  rewrite_default data idx = Some data' ->
  grub_default data' = Some (Itoa idx) /\
  exists pre ln post, Split NL data = pre ++ ln :: post /\
    Split NL data' = pre ++ (default_prefix +:+ Itoa idx) :: post.
Proof.
  unfold rewrite_default. destruct (replace_default (Split NL data) idx) as [l|] eqn:E; [|done]. intros [= <-].
  apply replace_default_Some in E as (pre & ln & post & HE & Hpre & Hln & ->).
  assert (Split NL (Join (pre ++ (default_prefix +:+ Itoa idx) :: post) (String NL "")) =
    pre ++ (default_prefix +:+ Itoa idx) :: post) as HS.
  { apply Split_Join; [by destruct pre|]. pose proof (Split_no_char NL data) as Hno. rewrite HE in Hno.
    apply Forall_app in Hno as [H1 H2]. apply Forall_cons in H2 as [_ H2].
    apply Forall_app. split; [done|]. constructor; [|done].
    unfold no_char. rewrite all_chars_app. apply andb_true_iff. split; [done|]. by apply Itoa_no_char. }
  split; [|by exists pre, ln, post]. unfold grub_default. rewrite HS.
  rewrite filter_default by (done || apply default_line_ok). rewrite trim_default, slice_from_app. done.
Qed.

(** The rewrite succeeds whenever GRUB finds a default at all. *)
Lemma rewrite_default_total data idx : is_Some (grub_default data) -> is_Some (rewrite_default data idx).
Proof.
  unfold grub_default, rewrite_default. intros H.
  assert (forall lines, filter (fun l => is_default_line l = true) lines <> [] -> is_Some (replace_default lines idx)) as Hr.
  { induction lines as [|l lines IH]; [done|]. cbn [replace_default]. destruct (is_default_line l) eqn:E; [eauto|].
    rewrite filter_cons_False by congruence. intros Hf. destruct (IH Hf) as [x ->]. eauto. }
  destruct (filter _ (Split NL data)) as [|ln rest] eqn:E; [by destruct H|].
  destruct (Hr (Split NL data)) as [x ->]; [by rewrite E|eauto].
Qed.

(** Rewriting the boot default changes one line: the text before and after
    the first `set default=` line is kept line by line, GRUB then reads the
    requested entry, and the rewrite succeeds on every file with a default. *)
Theorem rewrite_default_spec data idx :
  is_Some (grub_default data) ->
  exists data' pre ln post, rewrite_default data idx = Some data' /\
    grub_default data' = Some (Itoa idx) /\
    Split NL data = pre ++ ln :: post /\ Split NL data' = pre ++ (default_prefix +:+ Itoa idx) :: post.
Proof.
  intros H. destruct (rewrite_default_total data idx H) as [data' E].
  destruct (rewrite_default_lines data idx data' E) as (Hg & pre & ln & post & H1 & H2).
  by exists data', pre, ln, post.
Qed.

(** ** What the operations leave alone *)

Section frames.
Context {S : Type} `{!Store S, !StoreLaws S}.
Context (sha256 : string -> string) (find_partition : Z -> result string) (ActiveSlot : string).
Implicit Types w : UWorld S.

(** Every part but the boot partition and whether it is mounted. *)
Definition off_boot w := (u_store w, u_dev w, u_stage w, u_timer w, u_reboots w).
(** Every part but the staging directory and the device [dev]. *)
Definition off_slot (dev : string) w := (u_store w, delete dev (u_dev w), u_boot w, u_mounted w, u_timer w, u_reboots w).

Lemma keeps_Read {B} (f : UWorld S -> B) d name : (forall l w, f (set_faults l w) = f w) -> keeps f (os_Read d name).
Proof. intros Hl. apply keeps_os_call; [done|done|]. intros w. by destruct (in_dir d w !! name). Qed.
(** *** The boot partition *)

Lemma keeps_withBootMount {A} dev (fn : prog (UWorld S) A) : keeps off_boot fn -> keeps off_boot (withBootMount dev fn).
Proof.
  intros Hfn. unfold withBootMount, isMounted. go_keeps. all: by apply keeps_pure_call.
Qed.
Lemma keeps_rewriteGrub slot : keeps off_boot (rewriteGrubDefault slot).
Proof. unfold rewriteGrubDefault. go_keeps; [by apply keeps_Read|by apply keeps_os_call]. Qed.
Lemma keeps_copyIfChanged src dst : keeps off_boot (copyIfChanged sha256 src dst).
Proof.
  unfold copyIfChanged, fileSHA256, os_Create, io_Copy, os_Sync. go_keeps.
  all: try by apply keeps_Read. all: by apply keeps_os_call.
Qed.
Lemma keeps_stage_boot bp slot : keeps off_boot (stage_boot sha256 bp slot).
Proof.
  apply keeps_withBootMount. go_keeps; [apply keeps_copyIfChanged..|apply keeps_rewriteGrub].
Qed.
Lemma keeps_rollback g : keeps off_boot (rollbackToLastGood find_partition g).
Proof. unfold rollbackToLastGood. go_keeps. apply keeps_withBootMount, keeps_rewriteGrub. Qed.

(** *** The slot *)

Lemma keeps_writeFile dev name m : keeps (off_slot dev) (writeFile Stage name m).
Proof. unfold writeFile, os_Create, io_Copy, os_Sync. go_keeps. all: by apply keeps_os_call. Qed.

Lemma delete_alter_same {A} (g : A -> A) (k : string) (m : gmap string A) : delete k (alter g k m) = delete k m.
Proof.
  apply map_eq. intros i. destruct (decide (i = k)) as [->|]; [by rewrite !lookup_delete_eq|].
  by rewrite !lookup_delete_ne, lookup_alter_ne.
Qed.

Lemma keeps_writeBlockDevice dev m : keeps (off_slot dev) (writeBlockDevice dev m).
Proof.
  unfold writeBlockDevice, os_Sync. go_keeps.
  - apply keeps_pure_call; [done|]. intros w. by destruct (u_dev w !! dev).
  - apply keeps_os_call; [done|..].
    + intros n w. unfold off_slot. simpl. by rewrite delete_alter_same.
    + intros w. unfold off_slot. destruct (u_dev w !! dev); [|done].
      destruct (Z.ltb _ _); simpl; by rewrite delete_insert_eq.
  - by apply keeps_pure_call.
Qed.

Lemma keeps_take_member dev m b : keeps (off_slot dev) (take_member dev m b).
Proof.
  unfold take_member, blockDeviceSize. go_keeps; try apply keeps_writeFile; [|apply keeps_writeBlockDevice].
  apply keeps_pure_call; [done|]. intros w. by destruct (u_dev w !! dev).
Qed.

Lemma keeps_read_members dev ms want b : keeps (off_slot dev) (read_members dev ms want b).
Proof.
  revert want b. induction ms as [|m ms IH]; intros want b; cbn [read_members]; [apply keeps_ret|].
  go_keeps. apply keeps_take_member.
Qed.

Context (tar_members : string -> option error -> list Member * result unit).

Lemma keeps_receive_stream dev s sz sha slot :
  find_partition (slotPartitionNumber slot) = Ok dev ->
  keeps (off_slot dev) (receive_stream sha256 find_partition tar_members s sz sha slot).
Proof.
  intros Hd. unfold receive_stream. rewrite Hd. go_keeps.
  all: try by apply keeps_pure_call. apply keeps_read_members.
Qed.
End frames.

(** ** ReceiveBundle *)

Section receive.
Context {S : Type} `{!Store S, !StoreLaws S}.
Context (sha256 : string -> string) (find_partition : Z -> result string) (ActiveSlot : string).
Context (tar_members : string -> option error -> list Member * result unit).
Implicit Types w : UWorld S.

Lemma writeBlockDevice_Ok dev m w w' :
  writeBlockDevice dev m w = (Ok tt, w') ->
  exists old, u_dev w !! dev = Some old /\ m_err m = None /\
    (String.length (m_body m) <= String.length old)%nat /\ u_dev w' = <[dev := overwrite (m_body m) old]> (u_dev w).
Proof.
  unfold writeBlockDevice. intros (u1 & w1 & H1 & H)%bind_Ok_inv.
  apply os_call_Ok in H1 as [l1 H1]. simpl in H1. destruct (u_dev w !! dev) as [b|] eqn:Hb; [|done]. simplify_eq.
  apply bind_Ok_inv in H as (u2 & w2 & H2 & H3). apply os_call_Ok in H2 as [l2 H2]. simpl in H2. rewrite Hb in H2.
  destruct (Z.ltb_spec (Z.of_nat (String.length b)) (Z.of_nat (String.length (m_body m)))) as [|Hlen]; [done|].
  destruct (m_err m) as [e|] eqn:He; [done|]. simplify_eq.
  apply os_call_Ok in H3 as [l3 H3]. unfold ret in H3. simplify_eq. exists b. simpl. split_and!; [done..|lia|done].
Qed.

Lemma take_member_other dev m b w r w' :
  take_member dev m b w = (r, w') -> m_Name m ∈ ["VERSION"; "vmlinuz"; "initramfs"] -> u_dev w' = u_dev w.
Proof.
  intros H Hin. assert (keeps u_dev (writeFile (S:=S) Stage (m_Name m) m)) as Hwf.
  { unfold writeFile, os_Create, io_Copy, os_Sync. go_keeps. all: by apply keeps_os_call. }
  unfold take_member in H. cut (keeps u_dev (take_member (S:=S) dev m b)); [intros Hk; by eapply keeps_run|].
  unfold take_member. repeat (apply elem_of_cons in Hin as [E|Hin]; [rewrite E in *|]); [..|set_solver].
  all: cbn [String.eqb Ascii.eqb Bool.eqb]; go_keeps.
Qed.

Lemma take_member_rootfs dev m b w b' w' :
  take_member dev m b w = (Ok b', w') -> m_Name m = "rootfs.sqsh" ->
  exists old, u_dev w !! dev = Some old /\ m_err m = None /\
    (String.length (m_body m) <= String.length old)%nat /\ (m_Size m <= Z.of_nat (String.length old))%Z /\
    u_dev w' = <[dev := overwrite (m_body m) old]> (u_dev w).
Proof.
  unfold take_member. intros H Hn. rewrite Hn in H. cbn [String.eqb Ascii.eqb Bool.eqb] in H.
  apply bind_Ok_inv in H as (sz & w1 & H1 & H). unfold wrap_err in H1.
  destruct (blockDeviceSize dev w) as [[z|e] w0] eqn:Hsz; [|done]. simplify_eq.
  apply os_call_Ok in Hsz as [l Hsz]. simpl in Hsz. destruct (u_dev w !! dev) as [old|] eqn:Hold; [|done]. simplify_eq.
  destruct (Z.ltb_spec (Z.of_nat (String.length old)) (m_Size m)); [done|].
  apply bind_Ok_inv in H as (u & w2 & H2 & H3). unfold wrap_err in H2.
  destruct (writeBlockDevice dev m (set_faults l w)) as [[[]|e] w3] eqn:Hw; [|done]. unfold ret in H3. simplify_eq.
  apply writeBlockDevice_Ok in Hw as (old' & Hold' & He & Hlen & Hd). simpl in Hold', Hd.
  rewrite Hold in Hold'. injection Hold' as <-. by exists old.
Qed.

Lemma read_members_dev dev ms want b w want' b' w' :
  read_members dev ms want b w = (Ok (want', b'), w') -> want ⊆ all_members ->
  if decide ("rootfs.sqsh" ∈ want) then
    "rootfs.sqsh" ∈ want' \/
    exists m old, m ∈ ms /\ m_Name m = "rootfs.sqsh" /\ m_err m = None /\ u_dev w !! dev = Some old /\
      (String.length (m_body m) <= String.length old)%nat /\ (m_Size m <= Z.of_nat (String.length old))%Z /\
      u_dev w' = <[dev := overwrite (m_body m) old]> (u_dev w)
  else u_dev w' = u_dev w.
Proof.
  revert want b w. induction ms as [|m ms IH]; intros want b w H Hsub; cbn [read_members] in H.
  { unfold ret in H. simplify_eq. case_decide; auto. }
  case_bool_decide as Hin; cbn [negb] in H.
  - apply bind_Ok_inv in H as (b1 & w1 & H1 & H).
    specialize (IH _ _ _ H ltac:(intros x [_ Hx]%list_elem_of_filter; auto)).
    destruct (decide (m_Name m = "rootfs.sqsh")) as [Hr|Hr].
    + rewrite Hr in *. apply take_member_rootfs in H1 as (old & Hold & He & Hlen & Hsz & Hd); [|done].
      rewrite decide_True by done. rewrite decide_False in IH by (intros [? _]%list_elem_of_filter; done).
      right. exists m, old. rewrite IH. split_and!; try done. set_solver.
    + assert (u_dev w1 = u_dev w) as E.
      { eapply take_member_other; [exact H1|]. specialize (Hsub _ Hin). unfold all_members in Hsub. set_solver. }
      destruct (decide ("rootfs.sqsh" ∈ want)) as [Hw|Hw].
      * rewrite decide_True in IH by (apply list_elem_of_filter; split; [congruence|done]).
        destruct IH as [?|(m' & old & Hm & Hrest)]; [by left|right]. exists m', old. rewrite E in Hrest. set_solver.
      * rewrite decide_False in IH by (intros [_ ?]%list_elem_of_filter; done). congruence.
  - destruct (m_err m); [done|]. specialize (IH _ _ _ H Hsub).
    case_decide; [|done]. destruct IH as [?|(m' & old & Hm & Hrest)]; [by left|right].
    exists m', old. set_solver.
Qed.

(** The stream ended normally, has the announced size (when one was given)
    and the announced SHA-256, compared without regard to letter case. *)
Definition verified (s : stream) (sz : Z) (sha : string) : Prop :=
  s_end s = None /\ (sz = 0%Z \/ Z.of_nat (String.length (s_bytes s)) = sz) /\
  EqualFold (EncodeToString (sha256 (s_bytes s))) sha = true.

Lemma check_bundle_Ok s sz sha want : check_bundle sha256 s sz sha want = Ok tt <-> want = [] /\ verified s sz sha.
Proof.
  unfold check_bundle, verified. cbv zeta. destruct (s_end s); [naive_solver|].
  case_bool_decide; simpl; [|naive_solver].
  destruct (Z.eqb_spec sz 0), (Z.eqb_spec (Z.of_nat (String.length (s_bytes s))) sz); simpl;
    destruct (EqualFold _ sha); naive_solver.
Qed.

Lemma receive_stream_Ok dev s sz sha slot w b w' :
  find_partition (slotPartitionNumber slot) = Ok dev ->
  receive_stream sha256 find_partition tar_members s sz sha slot w = (Ok b, w') ->
  verified s sz sha /\
  exists m old, m ∈ (tar_members (s_bytes s) (s_end s)).1 /\ m_Name m = "rootfs.sqsh" /\ m_err m = None /\
    u_dev w !! dev = Some old /\ (String.length (m_body m) <= String.length old)%nat /\
    u_dev w' = <[dev := overwrite (m_body m) old]> (u_dev w).
Proof.
  intros Hd H. unfold receive_stream in H. rewrite Hd in H.
  apply bind_Ok_inv in H as (u1 & w1 & H1 & H). unfold wrap_err in H1.
  destruct (os_call _ _ w) as [[x|e] w1'] eqn:E1 in H1; [|done]. simplify_eq.
  apply os_call_Ok in E1 as [l1 E1]. simplify_eq.
  apply bind_Ok_inv in H as (u2 & w2 & H2 & H). unfold wrap_err in H2.
  destruct (os_call _ _ _) as [[y|e] w2'] eqn:E2 in H2; [|done]. simplify_eq.
  apply os_call_Ok in E2 as [l2 E2]. unfold ret in E2. simplify_eq.
  destruct (tar_members (s_bytes s) (s_end s)) as [ms tar_end] eqn:Ht.
  apply bind_Ok_inv in H as ([want' b'] & w3 & H3 & H). apply read_members_dev in H3; [|done].
  destruct tar_end as [[]|e]; [|done]. apply bind_Ok_inv in H as (u4 & w4 & H4 & H). unfold lift in H4.
  injection H4 as H4 <-. unfold ret in H. injection H as <- <-. destruct u4. apply check_bundle_Ok in H4 as [Hw Hv]. simpl in Hw. subst want'. split; [done|].
  rewrite decide_True in H3 by (unfold all_members; set_solver). simpl in H3.
  destruct H3 as [Hbad|(m & old & Hm & Hn & He & Hold & Hlen & _ & Hdev)]; [by apply elem_of_nil in Hbad|].
  exists m, old. by split_and!.
Qed.

Lemma record_pending_spec now slot ver w r w' : store_ok (u_store w) ->
  record_pending now slot ver w = (r, w') ->
  u_dev w' = u_dev w /\ u_boot w' = u_boot w /\ u_reboots w' = u_reboots w /\
  match r with
  | Ok _ => exists st, v_os (view (u_store w)) = Some st /\
      exists st', v_os (view (u_store w')) = Some st' /\
        os_eqv st' (set_os_version (set_os_pending st slot (now + DefaultDeadline)) ver)
  | Err _ => view (u_store w') = view (u_store w)
  end.
Proof.
  intros Hok H. unfold record_pending, bind, wrap_err, state, zoom in H.
  pose proof (ost_Get_law (u_store w) Hok) as HG. destruct (ost_Get (u_store w)) as [[st|e] s1].
  - destruct HG as (Hok1 & Hv1 & HG). simpl in H.
    match type of H with context [ost_Put now ?x s1] => pose proof (ost_Put_law now x s1 Hok1) as HP;
      destruct (ost_Put now x s1) as [[[]|e] s2] end; destruct HP as [_ HP]; simplify_eq; simpl; split_and!; try done.
    + destruct HP as (x & Hx & Heq). exists st. split; [done|]. exists x. by rewrite Hx.
    + by rewrite HP, Hv1.
  - destruct HG as (_ & Hv1 & _). simplify_eq. simpl. by split_and!.
Qed.

Lemma ReceiveBundle_frame now s sz sha w r w' dev :
  store_ok (u_store w) -> find_partition (slotPartitionNumber (otherSlot ActiveSlot)) = Ok dev ->
  ReceiveBundle sha256 find_partition ActiveSlot tar_members now s sz sha w = (r, w') ->
  (forall d, d <> dev -> u_dev w' !! d = u_dev w !! d) /\ u_reboots w' = u_reboots w /\
  (verified s sz sha \/
   (is_ok r = false /\ u_boot w' = u_boot w /\ u_store w' = u_store w /\ u_timer w' = u_timer w)).
Proof.
  intros Hok Hdev H. unfold ReceiveBundle in H.
  destruct (String.eqb ActiveSlot ""); [unfold fail in H; simplify_eq; split_and!; [done|done|by right]|]. unfold bind at 1 in H.
  destruct (receive_stream _ _ _ _ _ _ _ w) as [rs w1] eqn:Hrs.
  pose proof (keeps_run _ _ _ _ _ (keeps_receive_stream _ _ _ dev _ _ _ _ Hdev) Hrs) as Hk.
  unfold off_slot in Hk. injection Hk as Hst Hd Hb _ Htm Hrb.
  assert (forall d, d <> dev -> u_dev w1 !! d = u_dev w !! d) as Hdd.
  { intros d Hne. rewrite <- (lookup_delete_ne (u_dev w1) dev d), <- (lookup_delete_ne (u_dev w) dev d) by done.
    by rewrite Hd. }
  destruct rs as [b|e]; [|simplify_eq; split_and!; [done|done|by right]].
  pose proof (receive_stream_Ok _ _ _ _ _ _ _ _ Hdev Hrs) as [Hver _].
  destruct (find_partition 1) as [bp|e]; [|unfold fail in H; simplify_eq; split_and!; [done|done|by left]].
  unfold bind at 1 in H. destruct (stage_boot sha256 bp (otherSlot ActiveSlot) w1) as [rb w2] eqn:Hsb.
  pose proof (keeps_run _ _ _ _ _ (keeps_stage_boot _ _ _) Hsb) as Hk2. unfold off_boot in Hk2. injection Hk2 as Hst2 Hd2 _ _ Hrb2.
  destruct rb as [u|e]; [|simplify_eq; rewrite Hrb2, Hd2; split_and!; [done|done|by left]].
  unfold bind at 1 in H. destruct (record_pending _ _ _ w2) as [rp w3] eqn:Hrp.
  apply record_pending_spec in Hrp as (Hd3 & _ & Hrb3 & _); [|by rewrite Hst2, Hst].
  destruct rp; unfold ret in H; simplify_eq; rewrite Hrb3, Hrb2, Hd3, Hd2; (split_and!; [done|done|by left]).
Qed.

(** C1: An unverified bundle never becomes bootable.  Whatever the outcome of
    [ReceiveBundle], no block device but the inactive slot's is written, the
    machine is not rebooted, and unless the whole stream arrived with the
    announced size and SHA-256 the boot partition and the persistent update
    state are as they were. *)
Theorem ReceiveBundle_safe now s sz sha w r w' dev :
  store_ok (u_store w) -> find_partition (slotPartitionNumber (otherSlot ActiveSlot)) = Ok dev ->
  ReceiveBundle sha256 find_partition ActiveSlot tar_members now s sz sha w = (r, w') ->
  (forall d, d <> dev -> u_dev w' !! d = u_dev w !! d) /\ u_reboots w' = u_reboots w /\
  (verified s sz sha \/
   (is_ok r = false /\ u_boot w' = u_boot w /\ u_store w' = u_store w /\ u_timer w' = u_timer w)).
Proof. apply ReceiveBundle_frame. Qed.
End receive.

(** ** The boot default *)

(** GRUB will boot [slot]. *)
Definition boots {S} (w : UWorld S) (slot : string) : Prop :=
  exists data idx, u_boot w !! grub_cfg = Some data /\ slotIndex slot = Ok idx /\ grub_default data = Some (Itoa idx).

Section boot_default.
Context {S : Type} `{!Store S, !StoreLaws S}.
Context (sha256 : string -> string) (find_partition : Z -> result string).
Implicit Types w : UWorld S.

Lemma rewriteGrubDefault_Ok slot w w' : rewriteGrubDefault slot w = (Ok tt, w') -> boots w' slot.
Proof.
  unfold rewriteGrubDefault. intros (idx & w1 & H1 & H)%bind_Ok_inv. unfold lift in H1. injection H1 as Hidx <-.
  apply bind_Ok_inv in H as (data & w2 & H2 & H). unfold wrap_err in H2.
  destruct (os_Read Boot grub_cfg w) as [[b|e] w2'] eqn:Hr; [|done]. injection H2 as -> ->.
  destruct (rewrite_default data idx) as [data'|] eqn:Hrw; [|done].
  apply os_call_Ok in H as [l H]. injection H as <-. apply rewrite_default_lines in Hrw as [Hg _].
  exists data', idx. simpl. by rewrite lookup_insert_eq.
Qed.

Lemma withBootMount_Ok {A} dev (fn : prog (UWorld S) A) a w w' :
  withBootMount dev fn w = (Ok a, w') ->
  exists w1 w2, fn w1 = (Ok a, w2) /\ u_boot w' = u_boot w2.
Proof.
  unfold withBootMount. intros (u1 & w1 & _ & H)%bind_Ok_inv.
  apply bind_Ok_inv in H as (m & w2 & _ & H). apply bind_Ok_inv in H as (u3 & w3 & _ & H).
  apply bind_Ok_inv in H as (r & w4 & H4 & H). unfold catch in H4. destruct (fn w3) as [r' w4'] eqn:Hfn.
  injection H4 as <- <-. apply bind_Ok_inv in H as (u5 & w5 & H5 & H). unfold lift in H. injection H as -> <-.
  exists w3, w4'. split; [done|]. unfold ignore, os_call in H5.
  destruct (faults_of w4') as [|[[n e]|] l]; by injection H5 as <- <-.
Qed.

Lemma stage_boot_Ok bp slot w w' : stage_boot sha256 bp slot w = (Ok tt, w') -> boots w' slot.
Proof.
  unfold stage_boot. intros (w1 & w2 & H & Hb)%withBootMount_Ok.
  apply bind_Ok_inv in H as (u1 & w3 & _ & H). apply bind_Ok_inv in H as (u2 & w4 & _ & H).
  apply rewriteGrubDefault_Ok in H as (data & idx & H1 & H2 & H3). exists data, idx. by rewrite Hb.
Qed.

Context (ActiveSlot : string) (tar_members : string -> option error -> list Member * result unit).

Lemma ReceiveBundle_done now s sz sha w slot ver w' dev :
  store_ok (u_store w) -> find_partition (slotPartitionNumber (otherSlot ActiveSlot)) = Ok dev ->
  ReceiveBundle sha256 find_partition ActiveSlot tar_members now s sz sha w = (Ok (slot, ver), w') ->
  slot = otherSlot ActiveSlot /\ verified sha256 s sz sha /\ boots w' slot /\
  (exists m old, m ∈ (tar_members (s_bytes s) (s_end s)).1 /\ m_Name m = "rootfs.sqsh" /\ m_err m = None /\
    u_dev w !! dev = Some old /\ (String.length (m_body m) <= String.length old)%nat /\
    u_dev w' = <[dev := overwrite (m_body m) old]> (u_dev w)) /\
  exists st st', v_os (view (u_store w)) = Some st /\ v_os (view (u_store w')) = Some st' /\
    os_eqv st' (set_os_version (set_os_pending st slot (now + DefaultDeadline)) ver).
Proof.
  intros Hok Hdev H. unfold ReceiveBundle in H. destruct (String.eqb ActiveSlot ""); [done|].
  apply bind_Ok_inv in H as (b & w1 & Hrs & H).
  pose proof (keeps_run _ _ _ _ _ (keeps_receive_stream _ _ _ dev _ _ _ _ Hdev) Hrs) as Hk.
  unfold off_slot in Hk. injection Hk as Hst _ _ _ _ _.
  pose proof (receive_stream_Ok _ _ _ _ _ _ _ _ _ _ _ Hdev Hrs) as [Hver Hroot].
  destruct (find_partition 1) as [bp|e]; [|done].
  apply bind_Ok_inv in H as (u & w2 & Hsb & H). destruct u.
  pose proof (keeps_run _ _ _ _ _ (keeps_stage_boot _ _ _) Hsb) as Hk2. unfold off_boot in Hk2. injection Hk2 as Hst2 Hd2 _ _ _.
  apply stage_boot_Ok in Hsb as (data & idx & B1 & B2 & B3).
  apply bind_Ok_inv in H as (u & w3 & Hrp & H). unfold ret in H. injection H as <- <- <-.
  apply record_pending_spec in Hrp as (Hd3 & Hb3 & _ & st & Hst3 & st' & Hst' & Heq); [|by rewrite Hst2, Hst].
  rewrite Hst2, Hst in Hst3. split_and!; [done..|exists data, idx; by rewrite Hb3|by rewrite Hd3, Hd2|by exists st, st'].
Qed.

(** When [ReceiveBundle] succeeds the bundle is verified, the inactive
    slot starts with the whole rootfs of the archive (its remaining bytes
    unchanged) and fits it, GRUB will boot that slot, and the store records
    it as pending with a deadline ten minutes away, the active and
    last-good slots being as before. *)
Theorem ReceiveBundle_Ok now s sz sha w slot ver w' dev :
  store_ok (u_store w) -> find_partition (slotPartitionNumber (otherSlot ActiveSlot)) = Ok dev ->
  ReceiveBundle sha256 find_partition ActiveSlot tar_members now s sz sha w = (Ok (slot, ver), w') ->
  slot = otherSlot ActiveSlot /\ verified sha256 s sz sha /\ boots w' slot /\
  (exists m old, m ∈ (tar_members (s_bytes s) (s_end s)).1 /\ m_Name m = "rootfs.sqsh" /\ m_err m = None /\
    u_dev w !! dev = Some old /\ (String.length (m_body m) <= String.length old)%nat /\
    u_dev w' = <[dev := overwrite (m_body m) old]> (u_dev w)) /\
  exists st st', v_os (view (u_store w)) = Some st /\ v_os (view (u_store w')) = Some st' /\
    os_eqv st' (set_os_version (set_os_pending st slot (now + DefaultDeadline)) ver).
Proof. apply ReceiveBundle_done. Qed.

(** [Confirm] commits only the slot the machine is running: it fails with
    "no pending slot" or "slot mismatch" without touching the stored state,
    and when it succeeds the pending slot was the active one, the stored
    active slot becomes the last good one, nothing is pending any more and
    the rollback timer is stopped.  The boot partition is not touched. *)
Theorem Confirm_spec now w r w' :
  store_ok (u_store w) -> Confirm ActiveSlot now w = (r, w') ->
  u_boot w' = u_boot w /\ u_dev w' = u_dev w /\ u_reboots w' = u_reboots w /\
  match r with
  | Ok (slot, ver) => exists st st', v_os (view (u_store w)) = Some st /\ v_os (view (u_store w')) = Some st' /\
      os_PendingSlot st = ActiveSlot /\ ActiveSlot <> "" /\ slot = os_ActiveSlot st /\ ver = os_LastVersion st /\
      os_eqv st' (mkOSState (os_ActiveSlot st) "" 0 (os_ActiveSlot st) (os_LastVersion st) 0) /\ u_timer w' = None
  | Err e => view (u_store w') = view (u_store w) /\
      (forall st, v_os (view (u_store w)) = Some st -> os_PendingSlot st = ActiveSlot -> ActiveSlot <> "" ->
        e <> Sentinel UpdateNoPending /\ e <> Sentinel UpdateSlotMismatch)
  end.
Proof using StoreLaws0.
  clear sha256 find_partition tar_members. intros Hok H. unfold Confirm, bind, wrap_err, state, zoom in H.
  pose proof (ost_Get_law (u_store w) Hok) as HG. destruct (ost_Get (u_store w)) as [[st|e] s1]; simpl in H.
  2:{ destruct HG as (_ & Hv & _). simplify_eq. by split_and!. }
  destruct HG as (Hok1 & Hv1 & HG).
  destruct (String.eqb_spec (os_PendingSlot st) "") as [Hp|Hp].
  { unfold fail in H. simplify_eq. simpl. split_and!; try done. intros st0 Hst0. naive_solver congruence. }
  destruct (String.eqb_spec (os_PendingSlot st) ActiveSlot) as [Ha|Ha]; simpl in H.
  2:{ unfold fail in H. simplify_eq. simpl. split_and!; try done. intros st0 Hst0. naive_solver congruence. }
  match type of H with context [ost_Put now ?x s1] => pose proof (ost_Put_law now x s1 Hok1) as HP;
    destruct (ost_Put now x s1) as [[[]|e] s2] end; destruct HP as [_ HP]; unfold ret in H; simplify_eq; simpl.
  - destruct HP as (x & Hx & Heq). split_and!; try done. exists st, x. rewrite Hx. by split_and!.
  - rewrite HP, Hv1. by split_and!.
Qed.
End boot_default.

(** ** Startup and rollback *)

Section startup.
Context {S : Type} `{!Store S, !StoreLaws S}.
Context (find_partition : Z -> result string) (ActiveSlot : string).
Implicit Types w : UWorld S.

Lemma Reboot_Ok w w' : Reboot w = (Ok tt, w') -> u_reboots w' = u_reboots w + 1 /\ u_store w' = u_store w /\ u_timer w' = u_timer w.
Proof. intros [l H]%os_call_Ok. injection H as <-. done. Qed.

(** At startup the stored update state is reconciled with the slot that
    was booted.  Without a row it is seeded with this slot as active and
    last good.  With nothing pending only the active slot is updated.  When
    another slot was pending the update has failed: pending is cleared and
    the last good slot kept.  When this slot is pending it is on trial: past
    its deadline (or without one) the machine reboots, before it the
    rollback timer is armed for exactly that deadline. *)
Theorem OnStartup_spec now w w' :
  store_ok (u_store w) -> ActiveSlot <> "" -> OnStartup find_partition ActiveSlot now w = (Ok tt, w') ->
  match v_os (view (u_store w)) with
  | None => exists st', v_os (view (u_store w')) = Some st' /\
      os_eqv st' (mkOSState ActiveSlot "" 0 ActiveSlot "" 0) /\ u_timer w' = u_timer w /\ u_reboots w' = u_reboots w
  | Some st => exists st', v_os (view (u_store w')) = Some st' /\
      if decide (os_PendingSlot st = "" \/ os_PendingSlot st <> ActiveSlot) then
        os_eqv st' (mkOSState ActiveSlot "" (if decide (os_PendingSlot st = "") then os_PendingDeadlineUnix st else 0)
                      (os_LastGoodSlot st) (os_LastVersion st) 0) /\
        u_timer w' = u_timer w /\ u_reboots w' = u_reboots w
      else
        os_eqv st' (set_os_active st ActiveSlot) /\
        if decide (os_PendingDeadlineUnix st = 0 \/ os_PendingDeadlineUnix st <= now)%Z
        then u_reboots w' = u_reboots w + 1 /\ u_timer w' = u_timer w
        else u_reboots w' = u_reboots w /\ u_timer w' = Some (os_PendingDeadlineUnix st)
  end.
Proof.
  intros Hok Ha H. unfold OnStartup in H. destruct (String.eqb_spec ActiveSlot ""); [done|].
  unfold bind at 1, catch, state at 1, zoom at 1 in H.
  pose proof (ost_Get_law (u_store w) Hok) as HG. destruct (ost_Get (u_store w)) as [[st|e] s1]; cbv beta iota in H.
  2:{ destruct HG as (Hok1 & Hv1 & HG). destruct (errors_Is e StoreNotFound); [|done]. rewrite (HG eq_refl).
    unfold wrap_err, state, zoom in H. simpl in H.
    match type of H with context [ost_Put now ?x s1] => pose proof (ost_Put_law now x s1 Hok1) as HP;
      destruct (ost_Put now x s1) as [[[]|e'] s2] end; destruct HP as [_ HP]; [|done]. simplify_eq. simpl.
    destruct HP as (x & Hx & Heq). exists x. by rewrite Hx. }
  destruct HG as (Hok1 & Hv1 & HG). rewrite HG. cbv zeta in H. cbn [os_PendingSlot set_os_active] in H.
  destruct (String.eqb_spec (os_PendingSlot st) "") as [Hp|Hp]; [|destruct (String.eqb_spec (os_PendingSlot st) ActiveSlot) as [Hpa|Hpa]; simpl in H].
  - unfold state, zoom in H. simpl in H.
    match type of H with context [ost_Put now ?x s1] => pose proof (ost_Put_law now x s1 Hok1) as HP;
      destruct (ost_Put now x s1) as [[[]|e'] s2] end; destruct HP as [_ HP]; [|done]. simplify_eq. simpl.
    destruct HP as (x & Hx & Heq). exists x. rewrite Hx.
    rewrite !decide_True by auto. split_and!; try done.
    destruct Heq as (? & ? & ? & ? & ?). simpl in *. rewrite <- Hp. by split_and!.
  - unfold bind at 1, state, zoom in H. simpl in H.
    match type of H with context [ost_Put now ?x s1] => pose proof (ost_Put_law now x s1 Hok1) as HP;
      destruct (ost_Put now x s1) as [[[]|e'] s2] end; destruct HP as [_ HP]; [|done].
    destruct HP as (x & Hx & Heq).
    destruct ((os_PendingDeadlineUnix st =? 0)%Z || (os_PendingDeadlineUnix st <=? now)%Z) eqn:Hdl.
    + apply bind_Ok_inv in H as (u & w2 & H2 & H). unfold ignore in H2.
      match type of H2 with context [rollbackToLastGood find_partition ?g ?w0] =>
        pose proof (keeps_rollback find_partition g w0) as Hk; destruct (rollbackToLastGood find_partition g w0) as [rr w2'] end.
      unfold off_boot in Hk. simpl in Hk. injection Hk as Hst _ _ Htm Hrb. injection H2 as <- <-.
      apply Reboot_Ok in H as (Hr & Hs & Ht). exists x. rewrite Hs, Hst, Hx, Hr, Hrb, Ht, Htm.
      rewrite decide_False by naive_solver. rewrite decide_True by (apply orb_true_iff in Hdl; lia). by split_and!.
    + injection H as <-. simpl. exists x. rewrite Hx. rewrite decide_False by naive_solver.
      rewrite decide_False by (apply orb_false_iff in Hdl; lia). by split_and!.
  - unfold state, zoom in H. simpl in H.
    match type of H with context [ost_Put now ?x s1] => pose proof (ost_Put_law now x s1 Hok1) as HP;
      destruct (ost_Put now x s1) as [[[]|e'] s2] end; destruct HP as [_ HP]; [|done]. simplify_eq. simpl.
    destruct HP as (x & Hx & Heq). exists x. rewrite Hx, decide_True by auto. by rewrite decide_False.
Qed.

(** On a machine whose calls succeed, rolling back makes GRUB boot the last
    good slot and touches nothing else. *)
Lemma rollback_healthy bp good idx data w :
  u_faults w = [] -> find_partition 1 = Ok bp -> slotIndex good = Ok idx ->
  u_boot w !! grub_cfg = Some data -> is_Some (grub_default data) ->
  exists w', rollbackToLastGood find_partition good w = (Ok tt, w') /\ boots w' good /\
    off_boot w' = off_boot w /\ u_faults w' = [].
Proof.
  intros Hf Hbp Hidx Hg Hd. destruct (rewrite_default_total data idx Hd) as [data' Hrw].
  assert (exists w', rollbackToLastGood find_partition good w = (Ok tt, w') /\ u_faults w' = []) as (w' & H & Hf').
  { unfold rollbackToLastGood, withBootMount, isMounted, rewriteGrubDefault, os_Read, os_WriteFile, no_part. rewrite Hbp.
    destruct w as [us ud ug ub um ut ur uf]. simpl in Hf, Hg. subst uf.
    unfold bind, wrap_err, catch, ignore, lift, ret, os_call, on_dir, set_boot, set_mounted, set_faults. simpl.
    destruct (isMounted_in _ BootMount); simpl; rewrite Hidx; simpl; rewrite Hg; simpl; rewrite Hrw; simpl.
    all: eexists; split; reflexivity. }
  exists w'. split_and!; [done| |by eapply keeps_run; [apply keeps_rollback|exact H]|done].
  unfold rollbackToLastGood in H. rewrite Hbp in H. apply withBootMount_Ok in H as (w1 & w2 & H & Hb).
  apply rewriteGrubDefault_Ok in H as (x & i & ? & ? & ?). exists x, i. by rewrite Hb.
Qed.
End startup.

(** ** The whole cycle

    On a machine whose calls succeed, with the store in memory. *)

Section cycle.
Context (sha256 : string -> string) (find_partition : Z -> result string).
Context (tar_members : string -> option error -> list Member * result unit).
Abbreviation machine := (UWorld memStore).
Implicit Types w : machine.

Definition slot (s : string) : Prop := s = "slot_a" \/ s = "slot_b".

Lemma otherSlot_slot s : slot s -> slot (otherSlot s) /\ otherSlot s <> s /\ otherSlot (otherSlot s) = s.
Proof. intros [-> | ->]; (split_and!; [unfold slot; vm_compute; auto|done|done]). Qed.

(** The state a successful update leaves behind. *)
Definition awaiting (good : string) (deadline : Z) (ver : string) w : Prop :=
  u_faults w = [] /\ boots w (otherSlot good) /\
  exists st, mem_osState (u_store w) = Some st /\ os_PendingSlot st = otherSlot good /\
    os_PendingDeadlineUnix st = deadline /\ os_LastGoodSlot st = good /\ os_LastVersion st = ver.

(** Booting the new slot before its deadline arms the timer. *)
Lemma boot_tentative good deadline ver now w :
  slot good -> awaiting good deadline ver w -> (0 < now < deadline)%Z ->
  exists w', OnStartup find_partition (otherSlot good) now w = (Ok tt, w') /\
    u_timer w' = Some deadline /\ u_reboots w' = u_reboots w /\ u_dev w' = u_dev w /\ awaiting good deadline ver w' /\
    exists st, mem_osState (u_store w') = Some st /\ os_ActiveSlot st = otherSlot good.
Proof.
  intros Hslot (Hf & Hb & st & Hst & Hp & Hd & Hg & Hv) Hnow.
  destruct (otherSlot_slot good Hslot) as (Ho & Hne & _).
  unfold OnStartup. destruct (String.eqb_spec (otherSlot good) "") as [E|E]; [by destruct Ho; congruence|].
  unfold bind, catch, state, zoom, ost_Get, ost_Put. simpl. unfold mem_os_Get. rewrite Hst. simpl.
  rewrite Hp, String.eqb_refl, Hd. destruct (String.eqb_spec (otherSlot good) "") as [E'|_]; [done|].
  simpl. destruct (Z.eqb_spec deadline 0); [lia|]. destruct (Z.leb_spec deadline now); [lia|]. simpl.
  eexists. split; [done|]. unfold awaiting. simpl. split_and!; try done; [..|by eexists].
  eexists. split; [done|]. by split_and!.
Qed.

(** The timer fires without a Confirm. *)
Lemma deadline_rolls_back bp good deadline ver w :
  slot good -> find_partition 1 = Ok bp -> awaiting good deadline ver w ->
  exists w', deadline_fired find_partition w = (Ok tt, w') /\ boots w' good /\ u_reboots w' = u_reboots w + 1 /\
    u_dev w' = u_dev w /\ u_store w' = u_store w /\ u_faults w' = [].
Proof.
  intros Hslot Hbp (Hf & (data & idx & Hdata & _ & Hgd) & st & Hst & Hp & Hd & Hg & Hv).
  destruct (otherSlot_slot good Hslot) as (Ho & _ & _).
  assert (exists i, slotIndex good = Ok i) as [i Hi] by (destruct Hslot as [-> | ->]; by eexists).
  destruct (rollback_healthy find_partition bp good i data (set_timer None w)) as (w1 & H1 & Hb1 & Hoff & Hf1); [done..|by rewrite Hgd|].
  unfold off_boot in Hoff. simpl in Hoff. injection Hoff as Es Ed _ Et Er.
  unfold deadline_fired, bind at 1, catch, state, zoom, ost_Get. simpl. unfold mem_os_Get. rewrite Hst. simpl.
  rewrite Hp, Hg. destruct (String.eqb_spec (otherSlot good) "") as [E|E]; [by destruct Ho; congruence|].
  unfold bind, ignore.
  match goal with |- context [rollbackToLastGood find_partition good ?x] =>
    replace x with (set_timer None w) by (by destruct w) end.
  rewrite H1. unfold Reboot, os_call. simpl. rewrite Hf1.
  eexists. split; [done|]. simpl. rewrite Er, Ed, Es. by split_and!.
Qed.

Lemma boot_good good deadline ver now w :
  slot good -> (exists st, mem_osState (u_store w) = Some st /\ os_PendingSlot st = otherSlot good /\
    os_PendingDeadlineUnix st = deadline /\ os_LastGoodSlot st = good /\ os_LastVersion st = ver) ->
  exists w' st, OnStartup find_partition good now w = (Ok tt, w') /\ u_dev w' = u_dev w /\ u_boot w' = u_boot w /\
    mem_osState (u_store w') = Some st /\ os_ActiveSlot st = good /\ os_PendingSlot st = "" /\ os_LastGoodSlot st = good.
Proof.
  intros Hslot (st & Hst & Hp & Hd & Hg & Hv). destruct (otherSlot_slot good Hslot) as (Ho & Hne & _).
  unfold OnStartup. destruct (String.eqb_spec good "") as [E'|E']; [by destruct Hslot; congruence|].
  unfold bind, catch, state, zoom, ost_Get, ost_Put. simpl. unfold mem_os_Get. rewrite Hst. simpl. rewrite Hp.
  destruct (String.eqb_spec (otherSlot good) "") as [E|E]; [by destruct Ho; congruence|].
  destruct (String.eqb_spec (otherSlot good) good); [done|]. simpl.
  do 2 eexists. by split_and!.
Qed.

Lemma faultless_state {A} (m : prog memStore A) : preserves faultless (state m).
Proof. intros w Hw. unfold state, zoom. by destruct (m (u_store w)). Qed.
Lemma faultless_Read d name : preserves faultless (os_Read (S:=memStore) d name).
Proof. apply faultless_os_call. intros w Hw. by destruct (in_dir d w !! name). Qed.
Lemma faultless_dir {A} d f (r : result A) : preserves faultless (fun w : machine => (r, on_dir d f w)).
Proof. intros w Hw. by destruct d. Qed.
Lemma faultless_writeFile d name m : preserves faultless (writeFile (S:=memStore) d name m).
Proof.
  unfold writeFile, os_Create, io_Copy, os_Sync. go_preserves; apply faultless_os_call; go_preserves; apply faultless_dir.
Qed.
Lemma faultless_take_member dev m b : preserves faultless (take_member (S:=memStore) dev m b).
Proof.
  unfold take_member, blockDeviceSize, writeBlockDevice, os_Sync.
  go_preserves; try apply faultless_writeFile; apply faultless_os_call; go_preserves.
  all: intros w Hw; repeat case_match; done.
Qed.
Lemma faultless_read_members dev ms want b : preserves faultless (read_members (S:=memStore) dev ms want b).
Proof.
  revert want b. induction ms as [|m ms IH]; intros want b; cbn [read_members]; go_preserves. apply faultless_take_member.
Qed.
Lemma faultless_withBootMount {A} dev (fn : prog machine A) : preserves faultless fn -> preserves faultless (withBootMount dev fn).
Proof. intros Hfn. unfold withBootMount, isMounted. go_preserves; apply faultless_os_call; go_preserves; by intros w Hw. Qed.
Lemma faultless_stage_boot bp slot : preserves faultless (stage_boot (S:=memStore) sha256 bp slot).
Proof.
  apply faultless_withBootMount. unfold copyIfChanged, fileSHA256, rewriteGrubDefault, os_Create, io_Copy, os_Sync, os_WriteFile.
  go_preserves; try apply faultless_Read; apply faultless_os_call; go_preserves; apply faultless_dir.
Qed.
Lemma faultless_ReceiveBundle active now s sz sha :
  preserves faultless (ReceiveBundle sha256 find_partition active tar_members now s sz sha).
Proof.
  unfold ReceiveBundle, receive_stream, record_pending.
  go_preserves; try apply faultless_read_members; try apply faultless_stage_boot; try apply faultless_state.
  all: apply faultless_os_call; go_preserves; by intros w Hw.
Qed.

Lemma update_awaits active now s sz sha w slot ver w1 dev :
  faultless w -> find_partition (slotPartitionNumber (otherSlot active)) = Ok dev ->
  (exists st, mem_osState (u_store w) = Some st /\ os_LastGoodSlot st = active) ->
  ReceiveBundle sha256 find_partition active tar_members now s sz sha w = (Ok (slot, ver), w1) ->
  slot = otherSlot active /\ awaiting active (now + DefaultDeadline) ver w1 /\ u_reboots w1 = u_reboots w /\
  (forall d, d <> dev -> u_dev w1 !! d = u_dev w !! d).
Proof.
  intros Hf Hdev (st & Hst & Hg) H.
  assert (store_ok (u_store w)) as Hok by exact I.
  pose proof (faultless_ReceiveBundle active now s sz sha w Hf) as Hf1. rewrite H in Hf1. simpl in Hf1.
  pose proof (ReceiveBundle_frame sha256 find_partition active tar_members now s sz sha w (Ok (slot, ver)) w1 dev Hok Hdev H) as (Hd & Hr & _).
  apply (ReceiveBundle_done sha256 find_partition active tar_members now s sz sha w slot ver w1 dev Hok Hdev) in H
    as (-> & _ & Hb & _ & st0 & st' & Hst0 & Hst' & Heq).
  split_and!; [done| |done|done]. simpl in Hst0, Hst'. rewrite Hst in Hst0. injection Hst0 as <-.
  split_and!; [done|done|]. exists st'. destruct Heq as (_ & Hp & Hdl & Hlg & Hv). simpl in *. split_and!; congruence.
Qed.


(** A confirmed update stays.  On the same machine, when the operator
    confirms during the trial boot of B, the call returns B and its version,
    the timer is stopped, GRUB keeps booting B, B is the last good slot with
    nothing pending, and the timer callback, should it run after all,
    neither rewrites the default nor reboots. *)
Theorem confirmed_update_stays active now now1 now2 s sz sha w slot ver w1 dev :
  find_partition (slotPartitionNumber (otherSlot active)) = Ok dev ->
  (active = "slot_a" \/ active = "slot_b") -> u_faults w = [] ->
  (exists st, mem_osState (u_store w) = Some st /\ os_LastGoodSlot st = active) ->
  ReceiveBundle sha256 find_partition active tar_members now s sz sha w = (Ok (slot, ver), w1) ->
  (0 < now1 < now + DefaultDeadline)%Z ->
  let w2 := (OnStartup find_partition slot now1 w1).2 in
  let '(r, w3) := Confirm slot now2 w2 in
  let w4 := (deadline_fired find_partition w3).2 in
  r = Ok (slot, ver) /\ u_timer w3 = None /\ boots w3 slot /\
  (exists st, mem_osState (u_store w3) = Some st /\ os_PendingSlot st = "" /\ os_LastGoodSlot st = slot) /\
  boots w4 slot /\ u_reboots w4 = u_reboots w.
Proof.
  intros Hdev Hslot Hf Hst H Hnow w2.
  apply (update_awaits active now s sz sha w slot ver w1 dev) in H as (-> & Haw & Hr1 & Hd1); [|done..].
  destruct (boot_tentative active _ ver now1 w1 Hslot Haw Hnow) as (w2' & E2 & Ht2 & Hr2 & Hd2 & Haw2 & st & Hst2 & Ha2).
  subst w2. rewrite E2. simpl. destruct Haw2 as (Hf2 & Hb2 & st2 & Hst2' & Hp & Hdl & Hg & Hv).
  rewrite Hst2 in Hst2'. injection Hst2' as <-. destruct (otherSlot_slot active Hslot) as (Ho & _ & _).
  destruct (Confirm (otherSlot active) now2 w2') as [r w3] eqn:E3. revert E3.
  unfold Confirm, bind, wrap_err, state, zoom, ost_Get, ost_Put. simpl. unfold mem_os_Get. rewrite Hst2. simpl.
  rewrite Hp, String.eqb_refl. destruct (String.eqb_spec (otherSlot active) "") as [E|E]; [by destruct Ho; congruence|].
  simpl. unfold ret. intros [= <- <-]. simpl.
  assert (boots (mkUWorld (mem_set_os (Some (set_os_good (set_os_pending st "" 0) (os_ActiveSlot st))) (u_store w2'))
    (u_dev w2') (u_stage w2') (u_boot w2') (u_mounted w2') None (u_reboots w2') (u_faults w2')) (otherSlot active)) as Hb3
    by (destruct Hb2 as (x & i & ? & ? & ?); by exists x, i).
  split_and!; [by rewrite Ha2, Hv|done|done|eexists; by split_and!|..].
  - unfold deadline_fired, bind, catch, state, zoom, ost_Get. simpl. exact Hb3.
  - unfold deadline_fired, bind, catch, state, zoom, ost_Get. simpl. congruence.
Qed.

End cycle.

(** ** A concrete machine *)

Module UpdateDemo.
Definition grub : string := "set timeout=3" +:+ String NL ("set default=0" +:+ String NL "menuentry A").
Definition find (n : Z) : result string := Ok ("/dev/sda" +:+ Itoa n).
Definition digest (s : string) : string := slice_to 4 s.
(** An archive with the four members; the stream's text is arbitrary. *)
Definition members : list Member :=
  [mkMember "VERSION" 3 "v2 " None; mkMember "README" 1 "x" None; mkMember "vmlinuz" 2 "k2" None;
   mkMember "initramfs" 2 "i2" None; mkMember "rootfs.sqsh" 5 "root2" None].
Definition tar (bytes : string) (e : option error) : list Member * result unit := (members, Ok tt).
Definition bundle : stream := mkStream ["tar"; "-bytes"] None.
Definition sha : string := EncodeToString "tar-".
Definition bad : stream := mkStream ["bad"; "-bytes"] None.

Definition running_a : OSState := mkOSState "slot_a" "" 0 "slot_a" "v1" 0.
Definition machine (st : option OSState) : UWorld memStore :=
  mkUWorld (mem_set_os st mem_New) (<["/dev/sda2" := "AAAAAAAA"]> {["/dev/sda3" := "BBBBBBBB"]}) ∅
    {[grub_cfg := grub]} false None 0 [].
Definition m0 : UWorld memStore := machine (Some running_a).
(** Booted into B on trial; A is the last good slot. *)
Definition trial_b : UWorld memStore := machine (Some (mkOSState "slot_b" "slot_b" 2000 "slot_a" "v2" 0)).

Definition run := ReceiveBundle digest find "slot_a" tar 1000 bundle 9 sha m0.
Lemma run_Ok : exists w1, run = (Ok ("slot_b", "v2"), w1).
Proof.
  destruct run as [r w1] eqn:E. exists w1. f_equal.
  etransitivity; [symmetry; exact (f_equal fst E)|]. vm_compute. reflexivity.
Qed.
End UpdateDemo.

Lemma rewrite_default_spec_witness :
  exists data' pre ln post, rewrite_default UpdateDemo.grub 1 = Some data' /\ grub_default data' = Some (Itoa 1) /\
    Split NL UpdateDemo.grub = pre ++ ln :: post /\ Split NL data' = pre ++ (default_prefix +:+ Itoa 1) :: post.
Proof. apply (rewrite_default_spec UpdateDemo.grub 1). vm_compute. by eexists. Defined.

Lemma ReceiveBundle_safe_witness :
  let w' := (ReceiveBundle UpdateDemo.digest UpdateDemo.find "slot_a" UpdateDemo.tar 1000 UpdateDemo.bad 9
               UpdateDemo.sha UpdateDemo.m0).2 in
  u_dev w' !! "/dev/sda2" = Some "AAAAAAAA" /\ u_boot w' = u_boot UpdateDemo.m0.
Proof.
  cbv zeta.
  destruct (ReceiveBundle UpdateDemo.digest UpdateDemo.find "slot_a" UpdateDemo.tar 1000 UpdateDemo.bad 9
    UpdateDemo.sha UpdateDemo.m0) as [r w'] eqn:H.
  destruct (ReceiveBundle_safe UpdateDemo.digest UpdateDemo.find "slot_a" UpdateDemo.tar 1000 UpdateDemo.bad 9
    UpdateDemo.sha UpdateDemo.m0 r w' "/dev/sda3") as (Hd & _ & [(_ & _ & Hv)|(_ & Hb & _)]);
    [exact I|reflexivity|exact H|vm_compute in Hv; discriminate Hv|].
  split; [exact (Hd "/dev/sda2" ltac:(discriminate))|exact Hb].
Defined.

Lemma ReceiveBundle_Ok_witness :
  exists w1, UpdateDemo.run = (Ok ("slot_b", "v2"), w1) /\ boots w1 "slot_b" /\
    verified UpdateDemo.digest UpdateDemo.bundle 9 UpdateDemo.sha.
Proof.
  destruct UpdateDemo.run_Ok as [w1 H]. exists w1. split; [exact H|].
  destruct (ReceiveBundle_Ok UpdateDemo.digest UpdateDemo.find "slot_a" UpdateDemo.tar 1000 UpdateDemo.bundle 9
    UpdateDemo.sha UpdateDemo.m0 "slot_b" "v2" w1 "/dev/sda3") as (_ & Hv & Hb & _); [exact I|reflexivity|exact H|].
  split; [exact Hb|exact Hv].
Defined.

Lemma Confirm_spec_witness :
  exists w', Confirm "slot_b" 1500 UpdateDemo.trial_b = (Ok ("slot_b", "v2"), w') /\ u_timer w' = None.
Proof.
  destruct (Confirm "slot_b" 1500 UpdateDemo.trial_b) as [r w'] eqn:H.
  assert (r = Ok ("slot_b", "v2")) as ->
    by (etransitivity; [symmetry; exact (f_equal fst H)|vm_compute; reflexivity]).
  exists w'. split; [reflexivity|].
  destruct (Confirm_spec (StoreLaws0 := memory_laws) "slot_b" 1500 UpdateDemo.trial_b (Ok ("slot_b", "v2")) w'
    ltac:(exact I) H)
    as (_ & _ & _ & st & st' & _ & _ & _ & _ & _ & _ & _ & Ht). exact Ht.
Defined.

Lemma OnStartup_spec_witness :
  exists w', OnStartup UpdateDemo.find "slot_b" 1500 UpdateDemo.trial_b = (Ok tt, w') /\ u_timer w' = Some 2000%Z.
Proof.
  destruct (OnStartup UpdateDemo.find "slot_b" 1500 UpdateDemo.trial_b) as [r w'] eqn:H.
  assert (r = Ok tt) as -> by (etransitivity; [symmetry; exact (f_equal fst H)|vm_compute; reflexivity]).
  exists w'. split; [reflexivity|].
  destruct (OnStartup_spec (StoreLaws0 := memory_laws) UpdateDemo.find "slot_b" 1500 UpdateDemo.trial_b w'
    ltac:(exact I) ltac:(discriminate) H)
    as (st' & _ & Hr). exact (proj2 (proj2 Hr)).
Defined.


Lemma confirmed_update_stays_witness :
  exists w1, UpdateDemo.run = (Ok ("slot_b", "v2"), w1) /\
    let w2 := (OnStartup UpdateDemo.find "slot_b" 1100 w1).2 in
    (Confirm "slot_b" 1200 w2).1 = Ok ("slot_b", "v2").
Proof.
  destruct UpdateDemo.run_Ok as [w1 H]. exists w1. split; [exact H|]. cbv zeta.
  pose proof (confirmed_update_stays UpdateDemo.digest UpdateDemo.find UpdateDemo.tar "slot_a" 1000 1100 1200
    UpdateDemo.bundle 9 UpdateDemo.sha UpdateDemo.m0 "slot_b" "v2" w1 "/dev/sda3" eq_refl (or_introl eq_refl) eq_refl
    ltac:(by eexists) H ltac:(done)) as HC. cbv zeta in HC.
  destruct (Confirm "slot_b" 1200 _) as [r w3]. exact (proj1 HC).
Defined.

(** An update sent during a trial boot overwrites the last good slot.
    Booted into B on trial with A as the last good slot, a bundle that fails
    its checksum is nevertheless written over A's partition; when the deadline
    fires GRUB is set to boot A, whose contents are the rejected ones. *)
Theorem trial_update_destroys_last_good :
  let '(r, w1) := ReceiveBundle UpdateDemo.digest UpdateDemo.find "slot_b" UpdateDemo.tar 1000 UpdateDemo.bad 9
                    UpdateDemo.sha UpdateDemo.trial_b in
  let w2 := (deadline_fired UpdateDemo.find w1).2 in
  (exists e, r = Err e /\ errors_Is e UpdateChecksum = true) /\
  u_dev UpdateDemo.trial_b !! "/dev/sda2" = Some "AAAAAAAA" /\ u_dev w2 !! "/dev/sda2" = Some "root2AAA" /\
  grub_default (default "" (u_boot w2 !! grub_cfg)) = Some "0".
Proof. vm_compute. split; [eexists; by split|done]. Qed.

