(* ===== verification/Installer.v ===== *)
(** * The installer: core/install/installer.go, controllers/install.go

    One install is a pipeline over the machine: raw writes through device
    nodes, LVM and mount commands, files on the mounted file systems, and
    progress events on the stream of the RPC.  The commands are the machine's;
    [PlatformLaws] says what the pipeline relies on: a command changes only
    the devices behind its arguments. *)

From S2P Require Import Prelude GoStrings Exec Models Store Runtime Base64 Bytes Disks DiskLayout Auth Identity Files Tls FirstBoot.

Set Default Goal Selector "!".
Local Open Scope go_scope.

(** ** The machine *)

(** Raw contents by device node (a whole disk: its bytes outside any
    partition), the file systems on devices (["" ] is the root file system),
    the mount table (mount point to device) and the rest, which includes what
    LVM has scanned. *)
Record Machine (M : Type) := mkMachine {
  m_disks : gmap string string;
  m_fss : gmap string (gmap string string);
  m_mounts : gmap string string;
  m_rest : M }.
Arguments mkMachine {M}.
Arguments m_disks {M}.
Arguments m_fss {M}.
Arguments m_mounts {M}.
Arguments m_rest {M}.

(** [p_tick]: what the kernel does while the process sleeps; [volumes]: the
    devices a volume group or logical volume is on. *)
Class Platform (M : Type) := {
  p_exec :: Commands (Machine M);
  p_tick : Machine M -> Machine M;
  volumes : M -> string -> list string }.

(** The devices an argument of a command reaches: the device itself, also as
    [of=dev], what a volume is on, and what is mounted there. *)
Definition of_dev (a : string) : list string := if HasPrefix a "of=" then [slice_from 3 a] else [].
Definition behind {M} `{!Platform M} (m : Machine M) (a : string) : list string :=
  a :: of_dev a ++ volumes (m_rest m) a ++
  match m_mounts m !! a with Some d => [d] | None => [] end ++
  match m_mounts m !! path_Dir a with Some d => [d] | None => [] end.

Lemma not_behind {M} `{!Platform M} d (m : Machine M) a : d ∉ behind m a <->
  d <> a /\ (d ∉ of_dev a) /\ (d ∉ volumes (m_rest m) a) /\ m_mounts m !! a <> Some d /\ m_mounts m !! path_Dir a <> Some d.
Proof.
  unfold behind. rewrite !not_elem_of_cons, !not_elem_of_app.
  destruct (m_mounts m !! a) as [x|], (m_mounts m !! path_Dir a) as [y|]; set_solver.
Qed.

Definition quiet_commands : list string :=
  ["/bin/umount"; "/bin/sync"; "/sbin/modprobe"; "/sbin/vgchange"; "/sbin/blockdev"].
Definition plain_commands : list string :=
  ["/bin/mount"; "/bin/umount"; "/bin/sync"; "/bin/cp"; "/bin/dd"; "/sbin/modprobe"; "/sbin/mkfs.ext4"].

Class PlatformLaws (M : Type) `{!Platform M} := {
  (** A command changes the content of a device only if an argument reaches
      it; new device nodes may appear. *)
  exec_spares path args (m m' : Machine M) o d : exec_Command path args m = (o, m') ->
    d <> "" -> Forall (fun a => d ∉ behind m a) args ->
    (is_Some (m_disks m !! d) -> m_disks m' !! d = m_disks m !! d) /\ m_fss m' !! d = m_fss m !! d;
  (** These change no contents at all. *)
  exec_quiet_contents path args (m m' : Machine M) o d : exec_Command path args m = (o, m') ->
    path ∈ quiet_commands -> is_Some (m_disks m !! d) -> m_disks m' !! d = m_disks m !! d;
  exec_quiet_files path args (m m' : Machine M) o : exec_Command path args m = (o, m') ->
    path ∈ quiet_commands -> m_fss m' = m_fss m;
  (** Only mount adds to the mount table, and adds what it is asked for. *)
  mount_law ty dev mp (m m' : Machine M) o : exec_Command "/bin/mount" ["-t"; ty; dev; mp] m = (o, m') ->
    m_mounts m' = match o_err o with None => <[mp := dev]> (m_mounts m) | Some _ => m_mounts m end;
  exec_mounts path args (m m' : Machine M) o : exec_Command path args m = (o, m') ->
    path <> "/bin/mount" -> m_mounts m' ⊆ m_mounts m;
  cp_mounts args (m m' : Machine M) o : exec_Command "/bin/cp" args m = (o, m') -> m_mounts m' = m_mounts m;
  (** Volumes change only by LVM commands and re-reads, on the devices these reach. *)
  exec_plain path args (m m' : Machine M) o a : exec_Command path args m = (o, m') ->
    path ∈ plain_commands -> volumes (m_rest m') a = volumes (m_rest m) a;
  exec_volumes path args (m m' : Machine M) o d a : exec_Command path args m = (o, m') ->
    Forall (fun b => d ∉ behind m b) args -> d ∉ volumes (m_rest m) a -> d ∉ volumes (m_rest m') a;
  (** Time brings new device nodes and changes nothing that is there. *)
  tick_disks m d : is_Some (m_disks m !! d) -> m_disks (p_tick m) !! d = m_disks m !! d;
  tick_fss m : m_fss (p_tick m) = m_fss m;
  tick_mounts m : m_mounts (p_tick m) = m_mounts m;
  tick_volumes m a : volumes (m_rest (p_tick m)) a = volumes (m_rest m) a }.

(** ** The world of the process *)

Record Result := mkResult { rs_CapsuleID : string; rs_ShortID : string; rs_TLSFingerprintSha256 : string; rs_Kid : string }.

(** capsule.v1.InstallProgress *)
Record InstallProgress := mkProgress { ip_Phase : string; ip_Percent : Z; ip_Message : string; ip_Result : option Result }.

Record PWorld (M : Type) := mkPWorld {
  pw_machine : Machine M;
  pw_now : Z;
  pw_sent : list InstallProgress;   (* the stream, the latest first *)
  pw_faults : list fault }.
Arguments mkPWorld {M}.
Arguments pw_machine {M}.
Arguments pw_now {M}.
Arguments pw_sent {M}.
Arguments pw_faults {M}.

Definition set_machine {M} (m : Machine M) (w : PWorld M) : PWorld M := mkPWorld m (pw_now w) (pw_sent w) (pw_faults w).
Definition map_disks {M} (f : gmap string string -> gmap string string) (m : Machine M) : Machine M :=
  mkMachine (f (m_disks m)) (m_fss m) (m_mounts m) (m_rest m).

#[export] Instance PWorld_faulty {M} : Faulty (PWorld M) :=
  {| faults_of := pw_faults; with_faults l w := mkPWorld (pw_machine w) (pw_now w) (pw_sent w) l |}.
#[export] Instance PWorld_laws {M} : FaultyLaws (PWorld M).
Proof. split; [done|by intros []]. Qed.
#[export] Instance PWorld_disks {M} : DiskWorld (PWorld M).
Proof.
  refine {| disks w := m_disks (pw_machine w); set_disks f w := set_machine (map_disks f (pw_machine w)) w |}; done.
Defined.
#[export] Instance PWorld_exec {M} `{!Platform M} : Commands (PWorld M) := fun path args w =>
  let '(o, m) := exec_Command path args (pw_machine w) in (o, set_machine m w).
#[export] Instance PWorld_clock {M} `{!Platform M} : Clocked (PWorld M) := {|
  now_ns := pw_now;
  sleep t w := mkPWorld (p_tick (pw_machine w)) (pw_now w + t)%Z (pw_sent w) (pw_faults w);
  path_exists path w := bool_decide (is_Some (m_disks (pw_machine w) !! path)) |}.

(** ** The request *)

Record Request := mkRequest { rq_TargetDisk : string; rq_OperatorPubkey : string; rq_OperatorName : string; rq_Seal : bool }.
Record Installer := mkInstaller { in_USBBootDisk : string; in_Targets : list TargetDisk }.

Definition resolveTarget (i : Installer) (req : string) : result TargetDisk :=
  match in_Targets i with
  | [] => Err (Errorf "no candidate target disks")
  | t0 :: _ =>
      if String.eqb req "" then Ok t0
      else match List.find (fun t => String.eqb (td_Path t) req) (in_Targets i) with
      | Some t => Ok t
      | None => Err (Errorf ("target " +:+ req +:+ " not a viable candidate (available: " +:+
                             Join (td_Path <$> in_Targets i) ", " +:+ ")"))
      end
  end.

Definition partitionPath (disk : string) (n : Z) : string :=
  match last_char disk with
  | None => ""
  | Some last => if is_digit last then disk +:+ "p" +:+ Itoa n else disk +:+ Itoa n
  end.

(** ** The steps *)

(** The text of the installed grub.cfg. *)
Definition quoted (s : string) : string := String DQ (s +:+ String DQ "").
Definition menuentry (title letter part : string) : list string :=
  ["menuentry " +:+ quoted title +:+ " {";
   "    linux /vmlinuz_" +:+ letter +:+ " root=PARTUUID=b1a570ff-" +:+ part +:+
     " rootfstype=squashfs ro random.trust_cpu=on capsule.slot=" +:+ letter +:+
     " console=tty0 console=ttyS0,115200n8 panic=10";
   "    initrd /initramfs_" +:+ letter;
   "}"].
Definition grubCfg : string :=
  Join (["set timeout=2"; "set default=0"; ""] ++ menuentry "Capsule (slot_a)" "a" "02" ++ [""] ++
        menuentry "Capsule (slot_b)" "b" "03" ++ [""]) (String NL "").

Definition lvmLocalConf : string :=
  Join ["activation {"; String (chr 9) "udev_sync = 0"; String (chr 9) "udev_rules = 0"; "}"; ""] (String NL "").

Definition bootMnt : string := "/mnt/boot-target".
Definition permMnt : string := "/mnt/perm-target".
Definition metaDM : string := "/dev/mapper/capsule-meta".
Definition MiB : Z := 1024 * 1024.

Section Installer.
Context {M : Type} `{!Platform M} {TL : TokenLib} `{!CertLib}.
Context (marshal_bundle : FirstBootBundle -> result string) (uuid_Parse : string -> option (list Z)).
Abbreviation world := (PWorld M).

(** [stream.Send]; the pipeline drops its error. *)
Definition Send (p : InstallProgress) : prog world unit :=
  os_call no_part (fun w => (Ok tt, mkPWorld (pw_machine w) (pw_now w) (p :: pw_sent w) (pw_faults w))).
Definition fn (phase : string) (percent : Z) (message : string) : prog world unit :=
  ignore (Send (mkProgress phase percent message None)).

Definition MkdirAll (path : string) : prog world unit := os_call no_part (ret tt).

(** [os.WriteFile(filepath.Join(dir, name))] with [dir] a mount point, or a
    directory of the root file system. *)
Definition put_file (dir name body : string) (w : world) : world :=
  let m := pw_machine w in
  let '(dev, path) := match m_mounts m !! dir with Some d => (d, name) | None => ("", dir +:+ "/" +:+ name) end in
  set_machine (mkMachine (m_disks m)
    (partial_alter (fun fs => Some (<[path := body]> (default ∅ fs))) dev (m_fss m)) (m_mounts m) (m_rest m)) w.
Definition WriteFile (dir name body : string) : prog world unit :=
  os_call (fun n => put_file dir name (take (Z.of_nat n) body)) (fun w => (Ok tt, put_file dir name body w)).

Definition copyProgress (phase : string) (done total : Z) (w : world) : world :=
  ((if (total =? 0)%Z then fn phase 0 ""
    else
      let pct := u32 (u64 (done * 100) / total) in
      let pct := if (100 <? pct)%Z then 100%Z else pct in
      fn phase pct (Itoa (done / MiB) +:+ " / " +:+ Itoa (total / MiB) +:+ " MiB")) w).2.

Definition rereadPartitions (disk : string) : prog world unit :=
  exec_or_fail ("blockdev --rereadpt " +:+ disk) "/sbin/blockdev" ["--rereadpt"; disk].

Definition waitForPath (path : string) : prog world unit :=
  wrap_err ("waiting for " +:+ path +:+ ": ") (wait_for "" "5s" path (5 * Second)).

Definition patchBootGrubCfg (tgtBoot : string) : prog world unit :=
  wrap_err ("mkdir " +:+ bootMnt +:+ ": ") (MkdirAll bootMnt) ;;;
  exec_or_fail ("mount " +:+ tgtBoot) "/bin/mount" ["-t"; "vfat"; tgtBoot; bootMnt] ;;;
  finally
    (for_each [("vmlinuz_a", "vmlinuz_b"); ("initramfs_a", "initramfs_b")] (fun pair =>
       exec_or_fail ("seed " +:+ pair.2) "/bin/cp" [bootMnt +:+ "/" +:+ pair.1; bootMnt +:+ "/" +:+ pair.2]) ;;;
     wrap_err "write grub.cfg: " (WriteFile bootMnt "EFI/BOOT/grub.cfg" grubCfg) ;;;
     exec_quiet "/bin/sync" [])
    (exec_quiet "/bin/umount" [bootMnt]).

Definition writeLVMLocalConf : prog world unit := WriteFile "/etc/lvm" "lvmlocal.conf" lvmLocalConf.

Definition initTargetLVM (permDev : string) : prog world unit :=
  wrap_err "lvm local conf: " writeLVMLocalConf ;;;
  exec_quiet "/sbin/vgchange" ["-an"; "capsule-target"] ;;;
  exec_quiet "/sbin/vgchange" ["-an"; "capsule"] ;;;
  exec_quiet "/sbin/vgremove" ["-f"; "-y"; "capsule-target"] ;;;
  exec_quiet "/sbin/vgremove" ["-f"; "-y"; "capsule"] ;;;
  exec_quiet "/sbin/pvremove" ["-ff"; "-y"; permDev] ;;;
  exec_or_fail ("zero " +:+ permDev) "/bin/dd"
    ["if=/dev/zero"; "of=" +:+ permDev; "bs=1M"; "count=16"; "conv=fsync"] ;;;
  for_each [("/sbin/pvcreate", ["-ff"; "-y"; permDev]);
            ("/sbin/vgcreate", ["capsule"; permDev]);
            ("/sbin/lvcreate", ["-L"; "1024M"; "-n"; "meta"; "capsule"])]
    (fun cmd => exec_or_fail (Join (cmd.1 :: cmd.2) " ") cmd.1 cmd.2) ;;;
  exec_or_fail ("mkfs.ext4 " +:+ metaDM) "/sbin/mkfs.ext4" ["-q"; "-F"; "-L"; "PERM"; metaDM].

(** [uuid] is the fresh UUID, [e1], [e2] the draws of the key generation. *)
Definition buildFirstBootBundle (now : Z) (uuid e1 e2 : string) (req : Request) : result FirstBootBundle :=
  match GenerateCertPEM now e1 e2 uuid with
  | Err e => Err (Wrap "generate tls: " e "")
  | Ok (certPEM, keyPEM, _) =>
      Ok (mkFirstBoot uuid (deriveShortID uuid_Parse uuid) certPEM keyPEM
            (std_encode (rq_OperatorPubkey req)) (rq_OperatorName req))
  end.

Definition writeFirstBootBundle (bundle : FirstBootBundle) : prog world unit :=
  wrap_err ("mkdir " +:+ permMnt +:+ ": ") (MkdirAll permMnt) ;;;
  exec_quiet "/sbin/modprobe" ["ext4"] ;;;
  exec_or_fail ("mount " +:+ metaDM) "/bin/mount" ["-t"; "ext4"; metaDM; permMnt] ;;;
  finally
    (data <- wrap_err "marshal bundle: " (lift (marshal_bundle bundle)) ;;
     wrap_err ("write " +:+ permMnt +:+ "/firstboot.json: ") (WriteFile permMnt "firstboot.json" data) ;;;
     for_each ["capsule"; "containerd"; "containerd/root"; "tls"] (fun d => ignore (MkdirAll (permMnt +:+ "/" +:+ d))) ;;;
     exec_quiet "/bin/sync" [])
    (exec_quiet "/bin/umount" [permMnt]).

(** ** Run *)

Definition verify (i : Installer) (req : Request) : prog world (TargetDisk * Layout) :=
  fn "verify" 0 "checking target disk" ;;;
  target <- lift (resolveTarget i (rq_TargetDisk req)) ;;
  if String.eqb (in_USBBootDisk i) "" then fail (Errorf "installer has no source boot disk")
  else if String.eqb (in_USBBootDisk i) (td_Path target) then
    fail (Errorf ("refusing to install onto the boot disk " +:+ td_Path target))
  else
    fn "verify" 100 ("target=" +:+ td_Path target +:+ " (" +:+ Itoa (td_SizeBytes target) +:+ " bytes)") ;;;
    layout <- wrap_err "layout: " (lift (LayoutForDisk (td_SizeBytes target))) ;;
    ret (target, layout).

Definition partition (target : string) (layout : Layout) : prog world unit :=
  fn "partition" 0 "writing MBR" ;;;
  WriteMBR target layout ;;;
  r <- catch (rereadPartitions target) ;;
  match r with
  | Err e => fn "partition" 100 ("warning: kernel re-read failed: " +:+ Error e)
  | Ok _ => fn "partition" 100 "partition table written"
  end.

(** Wait for a partition and copy another one over it. *)
Definition write_part (what phase src dst : string) (sectors : Z) : prog world unit :=
  waitForPath dst ;;;
  wrap_err ("copy " +:+ what +:+ ": ") (CopyPartition (copyProgress phase) src 0 dst 0 sectors).

Definition patch_boot (tgtBoot : string) : prog world unit :=
  fn "patch_boot" 0 "patching grub.cfg for runtime disk + seeding slot_b kernel" ;;;
  wrap_err "patch boot: " (patchBootGrubCfg tgtBoot) ;;;
  fn "patch_boot" 100 "grub.cfg patched".

Definition init_lvm (tgtPerm : string) : prog world unit :=
  fn "init_lvm" 0 ("creating PV + VG + meta LV on " +:+ tgtPerm) ;;;
  waitForPath tgtPerm ;;;
  wrap_err "init lvm: " (initTargetLVM tgtPerm) ;;;
  fn "init_lvm" 100 "PV + VG + meta + thinpool created".

Definition seal_firstboot (now : Z) (uuid e1 e2 : string) (req : Request) : prog world Result :=
  if rq_Seal req && negb (String.eqb (rq_OperatorPubkey req) "") then
    fn "seal_firstboot" 0 "generating disk identity + sealing operator key" ;;;
    bundle <- lift (buildFirstBootBundle now uuid e1 e2 req) ;;
    wrap_err "write firstboot bundle: " (writeFirstBootBundle bundle) ;;;
    fp <- lift (fingerprintFromPEM (fb_TLSCertPEM bundle)) ;;
    fn "seal_firstboot" 100 "firstboot.json written" ;;;
    ret (mkResult (fb_CapsuleID bundle) (fb_ShortID bundle) fp (KidFromPubkey (rq_OperatorPubkey req)))
  else
    fn "seal_firstboot" 100 "seal=false; disk will open a claim window on first boot" ;;;
    ret (mkResult "" "" "" "").

Definition sync_target : prog world unit :=
  fn "sync" 0 "flushing buffers" ;;;
  exec_quiet "/bin/sync" [] ;;;
  o <- exec_prog "/sbin/vgchange" ["-an"; "capsule"] ;;
  match o_err o with
  | Some err => fn "sync" 50 ("warning: vgchange -an failed: " +:+ Error err)
  | None => ret tt
  end ;;;
  fn "sync" 100 "".

(** Everything after the checks, on the target disk. *)
Definition write_target (now : Z) (uuid e1 e2 usb target : string) (layout : Layout) (req : Request) : prog world Result :=
  partition target layout ;;;
  write_part "boot" "write_boot" (partitionPath usb 1) (partitionPath target 1) (BootSectors layout) ;;;
  patch_boot (partitionPath target 1) ;;;
  write_part "slot_a" "write_slot_a" (partitionPath usb 2) (partitionPath target 2) (SlotASectors layout) ;;;
  write_part "slot_b" "write_slot_b" (partitionPath usb 2) (partitionPath target 3) (SlotBSectors layout) ;;;
  init_lvm (partitionPath target 4) ;;;
  result <- seal_firstboot now uuid e1 e2 req ;;
  sync_target ;;;
  ret result.

Definition Run (now : Z) (uuid e1 e2 : string) (i : Installer) (req : Request) : prog world Result :=
  tl <- verify i req ;;
  write_target now uuid e1 e2 (in_USBBootDisk i) (td_Path tl.1) tl.2 req.

(** ** The controller *)

Record InstallRequest := mkInstallRequest {
  ir_TargetDisk : string; ir_OperatorPubkey : string; ir_OperatorName : string; ir_Seal : bool; ir_Reinstall : bool }.
Record InstallStatusResponse := mkInstallStatus {
  is_ShortId : string; is_CapsuleId : string; is_TargetDisk : string; is_TargetSizeBytes : Z;
  is_Targets : list string; is_Version : string }.
Record InstallController := mkInstallController {
  ic_ShortID : string; ic_CapsuleID : string; ic_Version : string;
  ic_USBBootDisk : string; ic_Targets : list TargetDisk }.

Definition Status (c : InstallController) : result InstallStatusResponse :=
  match ic_Targets c with
  | [] => Err (StatusError CodeFailedPrecondition "no candidate target disks")
  | t0 :: _ => Ok (mkInstallStatus (ic_ShortID c) (ic_CapsuleID c) (td_Path t0) (td_SizeBytes t0)
                     (td_Path <$> ic_Targets c) (ic_Version c))
  end.

Definition request_of (req : InstallRequest) : Request :=
  mkRequest (ir_TargetDisk req) (ir_OperatorPubkey req) (ir_OperatorName req)
    (ir_Seal req || negb (String.eqb (ir_OperatorPubkey req) "")).

Definition Install (now : Z) (uuid e1 e2 : string) (c : InstallController) (req : InstallRequest) : prog world unit :=
  if String.eqb (ic_USBBootDisk c) "" then
    fail (StatusError CodeFailedPrecondition "installer has no source disk; cannot flash")
  else match ic_Targets c with
  | [] => fail (StatusError CodeFailedPrecondition "no candidate target disks")
  | _ =>
      result <- status_of CodeInternal "install failed: "
        (Run now uuid e1 e2 (mkInstaller (ic_USBBootDisk c) (ic_Targets c)) (request_of req)) ;;
      Send (mkProgress "done" 100 "install complete; remove USB and power-cycle" (Some result))
  end.
End Installer.

(** ** What a command, a write or the passing of time leaves alone *)

Section frame.
Context {M : Type} `{!Platform M, !PlatformLaws M} {TL : TokenLib} {CL : CertLib}.
Abbreviation world := (PWorld M).
Implicit Types w : world.

Lemma keeps_machine_call {A} (act : prog world A) : keeps pw_machine act -> keeps pw_machine (os_call no_part act).
Proof. intros. by apply keeps_os_call. Qed.
Lemma keeps_fn phase pct msg : keeps pw_machine (fn (M:=M) phase pct msg).
Proof. unfold fn, Send. go_keeps. by apply keeps_machine_call. Qed.
Lemma keeps_MkdirAll path : keeps pw_machine (MkdirAll (M:=M) path).
Proof. by apply keeps_machine_call. Qed.
Lemma copyProgress_machine phase a b w : pw_machine (copyProgress phase a b w) = pw_machine w.
Proof. unfold copyProgress. destruct (b =? 0)%Z; apply keeps_fn. Qed.

Lemma copyProgress_disks phase a b w : disks (copyProgress phase a b w) = disks w.
Proof. cbn. by rewrite copyProgress_machine. Qed.

(** Raw writes leave the file systems, the mounts and the volumes alone. *)
Lemma keeps_raw_copy {B} (f : Machine M -> B) phase src dev count :
  (forall g m, f (map_disks g m) = f m) ->
  keeps (fun w => f (pw_machine w)) (CopyPartition (copyProgress phase) src 0 dev 0 count).
Proof.
  intros Hf. apply keeps_preserves. intros v. apply preserves_CopyPartition; [done|intros g w <-; apply Hf|].
  intros a b w. by rewrite copyProgress_machine.
Qed.
Lemma keeps_raw_MBR {B} (f : Machine M -> B) dev l :
  (forall g m, f (map_disks g m) = f m) -> keeps (fun w : world => f (pw_machine w)) (WriteMBR dev l).
Proof. intros Hf. apply keeps_preserves. intros v. apply preserves_WriteMBR; [done|]. intros g w <-. apply Hf. Qed.

(** No argument of [names] reaches the device [d]. *)
Definition unreached (d : string) (names : list string) (m : Machine M) : Prop := Forall (fun a => d ∉ behind m a) names.

Lemma unreached_exec d names path args (m m' : Machine M) o :
  exec_Command path args m = (o, m') -> path <> "/bin/mount" -> unreached d args m -> unreached d names m -> unreached d names m'.
Proof.
  intros E Hp Ha Hn. pose proof (exec_mounts _ _ _ _ _ E Hp) as Hm. eapply Forall_impl; [exact Hn|].
  intros a H. apply not_behind in H as (H1 & H2 & H3 & H4 & H5). apply not_behind. split_and!; try done.
  - by eapply exec_volumes.
  - intros H. by destruct H4; eapply lookup_weaken.
  - intros H. by destruct H5; eapply lookup_weaken.
Qed.
Lemma unreached_mount d names ty dev mp (m m' : Machine M) o :
  exec_Command "/bin/mount" ["-t"; ty; dev; mp] m = (o, m') -> (d <> dev \/ Forall (fun a => a <> mp /\ path_Dir a <> mp) names) ->
  unreached d names m -> unreached d names m'.
Proof.
  intros E Hd Hn. pose proof (mount_law _ _ _ _ _ _ E) as Hm. unfold unreached in *. rewrite Forall_forall in *.
  intros a Ha. specialize (Hn a Ha). apply not_behind in Hn as (H1 & H2 & H3 & H4 & H5). apply not_behind. split_and!; try done.
  - rewrite (exec_plain _ _ _ _ _ _ E) by set_solver. done.
  - rewrite Hm. destruct (o_err o); [done|]. destruct Hd as [Hd|Hd].
    + rewrite lookup_insert. case_decide; congruence.
    + destruct (Hd a Ha). by rewrite lookup_insert_ne.
  - rewrite Hm. destruct (o_err o); [done|]. destruct Hd as [Hd|Hd].
    + rewrite lookup_insert. case_decide; congruence.
    + destruct (Hd a Ha). by rewrite lookup_insert_ne.
Qed.
Lemma unreached_ext d names (m m' : Machine M) :
  m_mounts m' = m_mounts m -> (forall a, volumes (m_rest m') a = volumes (m_rest m) a) -> unreached d names m -> unreached d names m'.
Proof. intros Hm Hv Hn. eapply Forall_impl; [exact Hn|]. intros a. rewrite !not_behind, Hm, Hv. done. Qed.
Lemma unreached_sub d names names' (m : Machine M) : unreached d names m -> names' ⊆ names -> unreached d names' m.
Proof. unfold unreached. rewrite !Forall_forall. set_solver. Qed.

(** The device [d] holds [s] (when given) and the file system [fs], out of reach
    of [names]. *)
Record held (d : string) (s : option string) (fs : option (gmap string string)) (names : list string) w : Prop := {
  held_name : d <> "";
  held_disk b : s = Some b -> m_disks (pw_machine w) !! d = Some b;
  held_fs : m_fss (pw_machine w) !! d = fs;
  held_out : unreached d names (pw_machine w) }.

Section held.
Context (d : string) (s : option string) (fs : option (gmap string string)) (names : list string).
Abbreviation inv := (held d s fs names).

Lemma held_ext w w' : inv w ->
  (is_Some (m_disks (pw_machine w) !! d) -> m_disks (pw_machine w') !! d = m_disks (pw_machine w) !! d) ->
  m_fss (pw_machine w') !! d = m_fss (pw_machine w) !! d -> m_mounts (pw_machine w') = m_mounts (pw_machine w) ->
  (forall a, volumes (m_rest (pw_machine w')) a = volumes (m_rest (pw_machine w)) a) -> inv w'.
Proof.
  intros [H1 H2 H3 H4] E1 E2 E3 E4. split; [done| |congruence|by eapply unreached_ext].
  intros b Hb. rewrite E1; [by apply H2|]. rewrite (H2 b Hb). eauto.
Qed.
Lemma held_keeps {A} (m : prog world A) : keeps pw_machine m -> preserves inv m.
Proof. intros Hm w Hw. specialize (Hm w). by eapply held_ext; [exact Hw|rewrite Hm..]. Qed.
Lemma held_exec path args : path <> "/bin/mount" -> args ⊆ names -> preserves inv (exec_prog path args).
Proof.
  intros Hp Ha w [H1 H2 H3 H4]. unfold exec_prog, exec_Command at 1, PWorld_exec.
  destruct (exec_Command path args (pw_machine w)) as [o m'] eqn:E.
  assert (unreached d args (pw_machine w)) as Hu by by eapply unreached_sub.
  destruct (exec_spares _ _ _ _ _ _ E H1 Hu) as [E1 E2]. simpl. split; simpl; [done|intros b Hb; rewrite E1; [by apply H2|rewrite (H2 b Hb); eauto]|congruence|].
  by eapply unreached_exec.
Qed.
Lemma held_mount ty dev mp : ["-t"; ty; dev; mp] ⊆ names -> preserves inv (exec_prog "/bin/mount" ["-t"; ty; dev; mp]).
Proof.
  intros Ha w [H1 H2 H3 H4]. unfold exec_prog, exec_Command at 1, PWorld_exec.
  destruct (exec_Command "/bin/mount" _ (pw_machine w)) as [o m'] eqn:E.
  assert (unreached d ["-t"; ty; dev; mp] (pw_machine w)) as Hu by by eapply unreached_sub.
  destruct (exec_spares _ _ _ _ _ _ E H1 Hu) as [E1 E2]. simpl. split; simpl; [done|intros b Hb; rewrite E1; [by apply H2|rewrite (H2 b Hb); eauto]|congruence|].
  eapply unreached_mount; [done| |done]. left. unfold unreached in Hu. rewrite Forall_forall in Hu.
  specialize (Hu dev ltac:(set_solver)). apply not_behind in Hu. tauto.
Qed.
Lemma held_sleep t w : inv w -> inv (sleep t w).
Proof.
  intros Hw. eapply held_ext; [exact Hw|..]; simpl.
  - apply tick_disks.
  - by rewrite tick_fss.
  - apply tick_mounts.
  - intros a. apply tick_volumes.
Qed.
Lemma held_put_file dir name body w : dir ∈ names -> inv w -> inv (put_file dir name body w).
Proof.
  intros Hd Hw. unfold put_file. pose proof Hw as [H1 H2 H3 H4].
  unfold unreached in H4. rewrite Forall_forall in H4. specialize (H4 dir Hd). apply not_behind in H4 as (_ & _ & _ & H4 & _).
  destruct (m_mounts (pw_machine w) !! dir) as [x|] eqn:E; eapply held_ext; try exact Hw; simpl; try done.
  all: rewrite lookup_partial_alter_ne by congruence; done.
Qed.
Lemma held_WriteFile dir name body : dir ∈ names -> preserves inv (WriteFile dir name body).
Proof.
  intros Hd. apply preserves_os_call.
  - intros l w Hw. by eapply held_ext; [exact Hw|..].
  - intros n w. by apply held_put_file.
  - intros w Hw. by apply held_put_file.
Qed.
Lemma held_WriteMBR dev l : d <> dev -> preserves inv (WriteMBR dev l).
Proof.
  intros Hd w Hw.
  pose proof (keeps_WriteMBR dev l w) as K1.
  pose proof (keeps_raw_MBR m_fss dev l ltac:(done) w) as K2.
  pose proof (keeps_raw_MBR m_mounts dev l ltac:(done) w) as K3.
  pose proof (keeps_raw_MBR m_rest dev l ltac:(done) w) as K4.
  eapply held_ext; [exact Hw|..]; cbv beta in *; [|by rewrite K2|done|by rewrite K4].
  injection K1 as K1 _. apply (f_equal (lookup d)) in K1. by rewrite !lookup_delete_ne in K1.
Qed.
Lemma held_CopyPartition phase src dev count : d <> dev -> preserves inv (CopyPartition (copyProgress phase) src 0 dev 0 count).
Proof.
  intros Hd w Hw.
  pose proof (keeps_CopyPartition (copyProgress phase) (copyProgress_disks phase) src 0 dev 0 count ltac:(done) w) as K1.
  pose proof (keeps_raw_copy m_fss phase src dev count ltac:(done) w) as K2.
  pose proof (keeps_raw_copy m_mounts phase src dev count ltac:(done) w) as K3.
  pose proof (keeps_raw_copy m_rest phase src dev count ltac:(done) w) as K4.
  eapply held_ext; [exact Hw|..]; cbv beta in *; [|by rewrite K2|done|by rewrite K4].
  injection K1 as K1 _. apply (f_equal (lookup d)) in K1. by rewrite !lookup_delete_ne in K1.
Qed.
End held.

(** ** The steps of the pipeline *)

Definition boot_names (dev : string) : list string :=
  ["-t"; "vfat"; dev; bootMnt; bootMnt +:+ "/vmlinuz_a"; bootMnt +:+ "/vmlinuz_b";
   bootMnt +:+ "/initramfs_a"; bootMnt +:+ "/initramfs_b"].
Definition perm_names (dev : string) : list string :=
  ["/etc/lvm"; "-an"; "capsule-target"; "capsule"; "-f"; "-y"; "-ff"; dev; "if=/dev/zero"; "of=" +:+ dev; "bs=1M";
   "count=16"; "conv=fsync"; "-L"; "1024M"; "-n"; "meta"; "-q"; "-F"; "PERM"; metaDM; "ext4"; "-t"; permMnt].
(** Every argument the pipeline gives to a command. *)
Definition run_names (target : string) : list string :=
  ["--rereadpt"; target] ++ boot_names (partitionPath target 1) ++ perm_names (partitionPath target 4).

Lemma run_names_parts target :
  ["--rereadpt"; target] ⊆ run_names target /\ boot_names (partitionPath target 1) ⊆ run_names target /\
  perm_names (partitionPath target 4) ⊆ run_names target.
Proof. unfold run_names. split_and!; intros x Hx; rewrite !elem_of_app; tauto. Qed.
Lemma sub_nil (ns : list string) : [] ⊆ ns.
Proof. intros x Hx. by apply elem_of_nil in Hx. Qed.
Lemma sub_cons (x : string) l ns : x ∈ ns -> l ⊆ ns -> x :: l ⊆ ns.
Proof. intros Hx Hl y [->|Hy]%elem_of_cons; auto. Qed.
Ltac sub_names := repeat apply sub_cons; [in_names..|apply sub_nil].

Context (marshal_bundle : FirstBootBundle -> result string) (uuid_Parse : string -> option (list Z)).

Section stages.
Context (d : string) (s : option string) (fs : option (gmap string string)) (names : list string).
Abbreviation inv := (held d s fs names).

Lemma held_exec_quiet path args : path <> "/bin/mount" -> args ⊆ names -> preserves inv (exec_quiet path args).
Proof. intros. unfold exec_quiet. apply preserves_ignore. by apply held_exec. Qed.
Lemma held_exec_or_fail what path args : path <> "/bin/mount" -> args ⊆ names -> preserves inv (exec_or_fail what path args).
Proof. intros. unfold exec_or_fail. go_preserves. by apply held_exec. Qed.
Lemma held_mount_or_fail what ty dev mp : ["-t"; ty; dev; mp] ⊆ names ->
  preserves inv (exec_or_fail what "/bin/mount" ["-t"; ty; dev; mp]).
Proof. intros. unfold exec_or_fail. go_preserves. by apply held_mount. Qed.
Lemma held_fn phase pct msg : preserves inv (fn phase pct msg).
Proof. apply held_keeps, keeps_fn. Qed.
Lemma held_MkdirAll path : preserves inv (MkdirAll path).
Proof. apply held_keeps, keeps_MkdirAll. Qed.
Lemma held_waitForPath path : preserves inv (waitForPath path).
Proof. unfold waitForPath. apply preserves_wrap_err, preserves_wait_for. intros t w. apply held_sleep. Qed.

Ltac go_held := go_preserves; try (first
  [apply held_fn|apply held_MkdirAll|apply held_waitForPath|apply held_mount_or_fail
  |apply held_exec_quiet; [discriminate|]|apply held_exec_or_fail; [discriminate|]|apply held_exec; [discriminate|]
  |apply preserves_finally|progress cbn [for_each]|apply held_WriteFile]; go_held).

(** [by_names H]: the side conditions of the commands, from the inclusion [H]. *)
Ltac by_names H :=
  match goal with
  | |- _ ∈ _ => apply H; unfold boot_names, perm_names; in_names
  | |- _ ⊆ _ => etransitivity; [|exact H]; unfold boot_names, perm_names; sub_names
  end.

Lemma held_patch_boot dev : boot_names dev ⊆ names -> preserves inv (patch_boot dev).
Proof. intros Hn. unfold patch_boot, patchBootGrubCfg. go_held; by_names Hn. Qed.
Lemma held_init_lvm dev : perm_names dev ⊆ names -> preserves inv (init_lvm dev).
Proof. intros Hn. unfold init_lvm, initTargetLVM, writeLVMLocalConf. go_held; by_names Hn. Qed.
Lemma held_seal now uuid e1 e2 req dev : perm_names dev ⊆ names ->
  preserves inv (seal_firstboot marshal_bundle uuid_Parse now uuid e1 e2 req).
Proof. intros Hn. unfold seal_firstboot, writeFirstBootBundle. go_held; by_names Hn. Qed.
Lemma held_sync dev : perm_names dev ⊆ names -> preserves inv sync_target.
Proof. intros Hn. unfold sync_target. go_held; by_names Hn. Qed.
Lemma held_partition dev l : d <> dev -> ["--rereadpt"; dev] ⊆ names -> preserves inv (partition dev l).
Proof. intros Hd Hn. unfold partition, rereadPartitions. go_held. by apply held_WriteMBR. Qed.
Lemma held_write_part what phase src dst n : d <> dst -> preserves inv (write_part what phase src dst n).
Proof. intros Hd. unfold write_part. go_held. by apply held_CopyPartition. Qed.
End stages.

(** The nodes of a disk. *)
Definition nodes (disk : string) : list string := disk :: (partitionPath disk <$> [1; 2; 3; 4]%Z).

(** A device out of reach of the pipeline's arguments. *)
Definition aside (d : string) (target : string) w : Prop :=
  d <> "" /\ (d ∉ nodes target) /\ unreached d (run_names target) (pw_machine w).

Lemma write_target_held now uuid e1 e2 usb target layout req d s fs :
  d ∉ nodes target ->
  preserves (held d s fs (run_names target)) (write_target marshal_bundle uuid_Parse now uuid e1 e2 usb target layout req).
Proof.
  intros Hd. unfold nodes in Hd. cbn [fmap list_fmap] in Hd. rewrite !not_elem_of_cons in Hd.
  destruct Hd as (H0 & H1 & H2 & H3 & H4 & _). unfold write_target. cbv zeta.
  destruct (run_names_parts target) as (Hr & Hb & Hp).
  go_preserves.
  - by apply held_partition.
  - by apply held_write_part.
  - by apply held_patch_boot.
  - by apply held_write_part.
  - by apply held_write_part.
  - by apply held_init_lvm.
  - by eapply held_seal.
  - by eapply held_sync.
Qed.

(** The checks change nothing and let only a known target other than the boot
    disk through. *)
Lemma verify_spec i req w r w' : verify i req w = (r, w') ->
  pw_machine w' = pw_machine w /\
  forall t l, r = Ok (t, l) ->
    resolveTarget i (rq_TargetDisk req) = Ok t /\ t ∈ in_Targets i /\ (rq_TargetDisk req <> "" -> td_Path t = rq_TargetDisk req) /\
    in_USBBootDisk i <> "" /\ td_Path t <> in_USBBootDisk i /\ LayoutForDisk (td_SizeBytes t) = Ok l.
Proof.
  intros H. split.
  { apply (keeps_run pw_machine (verify i req) w r w') in H; [done|]. unfold verify. go_keeps; apply keeps_fn. }
  intros t l ->. unfold verify in H. apply bind_Ok_inv in H as ([] & w1 & _ & H).
  apply bind_Ok_inv in H as (t' & w2 & H2 & H). unfold lift in H2. injection H2 as H2 ->.
  destruct (String.eqb_spec (in_USBBootDisk i) ""); [done|].
  destruct (String.eqb_spec (in_USBBootDisk i) (td_Path t')); [done|].
  apply bind_Ok_inv in H as ([] & w3 & _ & H). apply bind_Ok_inv in H as (l' & w4 & H4 & H).
  apply wrap_err_Ok in H4. unfold lift in H4. injection H4 as H4 ->. injection H as -> -> ->.
  split; [done|]. split; [|split]; try done; unfold resolveTarget in H2; destruct (in_Targets i) as [|t0 ts] eqn:Ei; try done.
  - destruct (String.eqb _ ""); [injection H2 as ->; apply list_elem_of_here|].
    destruct (List.find _ _) as [x|] eqn:Ef; [|done]. injection H2 as ->. apply find_some in Ef as [Ef _].
    by apply list_elem_of_In.
  - destruct (String.eqb_spec (rq_TargetDisk req) ""); [done|].
    destruct (List.find _ _) as [x|] eqn:Ef; [|done]. injection H2 as ->. apply find_some in Ef as [_ Ef].
    apply String.eqb_eq in Ef. done.
Qed.

(** ** Success *)

(** Plain commands and everything that is not a command leave the reach of
    names alone. *)
Section reach.
Context (d : string) (names : list string).
Abbreviation out := (fun w => unreached d names (pw_machine w)).

Lemma out_keeps {A} (m : prog world A) : keeps pw_machine m -> preserves out m.
Proof. intros Hm w Hw. by rewrite Hm. Qed.
Lemma out_plain path args : path ∈ plain_commands -> path <> "/bin/mount" -> preserves out (exec_prog path args).
Proof.
  intros Hp Hm w Hw. unfold exec_prog, exec_Command at 1, PWorld_exec.
  destruct (exec_Command path args (pw_machine w)) as [o m'] eqn:E. simpl.
  pose proof (exec_mounts _ _ _ _ _ E Hm) as Hs. eapply Forall_impl; [exact Hw|].
  intros a. rewrite !not_behind, (exec_plain _ _ _ _ _ _ E Hp). intros (H1 & H2 & H3 & H4 & H5). split_and!; try done.
  - intros H. by destruct H4; eapply lookup_weaken.
  - intros H. by destruct H5; eapply lookup_weaken.
Qed.
Lemma out_mount ty dev mp : d <> dev \/ Forall (fun a => a <> mp /\ path_Dir a <> mp) names ->
  preserves out (exec_prog "/bin/mount" ["-t"; ty; dev; mp]).
Proof.
  intros Hd w Hw. unfold exec_prog, exec_Command at 1, PWorld_exec.
  destruct (exec_Command "/bin/mount" _ (pw_machine w)) as [o m'] eqn:E. simpl. by eapply unreached_mount.
Qed.
Lemma out_write_part what phase src dst n : preserves out (write_part what phase src dst n).
Proof.
  unfold write_part. go_preserves.
  - unfold waitForPath. apply preserves_wrap_err, preserves_wait_for. intros t w Hw.
    eapply unreached_ext; [..|exact Hw]; [apply tick_mounts|apply tick_volumes].
  - intros w Hw. eapply unreached_ext; [..|exact Hw].
    + apply (keeps_raw_copy m_mounts). done.
    + intros x. apply (f_equal (fun r => volumes r x)). apply (keeps_raw_copy m_rest). done.
Qed.
Lemma out_patch_boot dev : d <> dev \/ Forall (fun a => a <> bootMnt /\ path_Dir a <> bootMnt) names ->
  preserves out (patch_boot dev).
Proof.
  intros Hd. unfold patch_boot, patchBootGrubCfg, exec_or_fail, exec_quiet. go_preserves.
  all: try (apply out_keeps; first [apply keeps_fn|apply keeps_MkdirAll]).
  - by apply out_mount.
  - apply preserves_finally; cbn [for_each]; go_preserves.
    all: try (apply out_plain; [unfold plain_commands; set_solver|discriminate]).
    apply preserves_os_call; [done|intros n w|intros w]; intros Hw; unfold put_file;
      destruct (m_mounts (pw_machine w) !! bootMnt); by eapply unreached_ext.
Qed.
End reach.

(** What the successful steps leave. *)

Lemma partition_Ok target l w w' :
  partition target l w = (Ok tt, w') ->
  exists s o, (512 <= len s)%Z /\ m_disks (pw_machine w') !! target = Some (write_at 0 (build_mbr l) s) /\
    exec_Command "/sbin/blockdev" ["--rereadpt"; target] (map_disks <[target := write_at 0 (build_mbr l) s]> (pw_machine w))
      = (o, pw_machine w').
Proof.
  unfold partition. intros ([] & w1 & H1 & Ha)%bind_Ok_inv.
  apply (keeps_run pw_machine _ _ _ _ (keeps_fn _ _ _)) in H1.
  apply bind_Ok_inv in Ha as ([] & w2 & H2 & Hb).
  pose proof (keeps_run _ _ _ _ _ (keeps_raw_MBR m_fss target l ltac:(done)) H2) as K1.
  pose proof (keeps_run _ _ _ _ _ (keeps_raw_MBR m_mounts target l ltac:(done)) H2) as K2.
  pose proof (keeps_run _ _ _ _ _ (keeps_raw_MBR m_rest target l ltac:(done)) H2) as K3. cbv beta in K1, K2, K3.
  apply WriteMBR_Ok in H2 as (s & Hs & Hl & E2). simpl in Hs, E2.
  assert (pw_machine w2 = map_disks <[target := write_at 0 (build_mbr l) s]> (pw_machine w)) as Em.
  { rewrite <- H1. destruct (pw_machine w1), (pw_machine w2). simpl in *. unfold map_disks. simpl. congruence. }
  unfold bind, catch, rereadPartitions, exec_or_fail in Hb. unfold bind, exec_prog, exec_Command, PWorld_exec in Hb.
  destruct (exec_Command "/sbin/blockdev" _ (pw_machine w2)) as [o m'] eqn:Ex.
  assert (pw_machine w' = m') as ->.
  { destruct (o_err o); cbv beta iota delta [fail ret] in Hb;
      apply (keeps_run pw_machine _ _ _ _ (keeps_fn _ _ _)) in Hb; by rewrite Hb. }
  exists s, o. split; [done|]. rewrite <- Em. split; [|done].
  rewrite (exec_quiet_contents _ _ _ _ _ target Ex); [by rewrite Em; simpl; rewrite lookup_insert_eq|unfold quiet_commands; set_solver|].
  rewrite Em. simpl. rewrite lookup_insert_eq. eauto.
Qed.

Lemma write_part_Ok what phase src dst n w w' :
  src <> dst -> (0 <= n)%Z -> write_part what phase src dst n w = (Ok tt, w') ->
  exists w1 s d, w1 = (waitForPath dst w).2 /\ m_disks (pw_machine w1) !! src = Some s /\
    m_disks (pw_machine w1) !! dst = Some d /\
    m_disks (pw_machine w') = <[dst := write_at 0 (read_at 0 (n * 512)%Z s) d]> (m_disks (pw_machine w1)).
Proof.
  intros Hne Hn. unfold write_part. intros ([] & w1 & H1 & H)%bind_Ok_inv. apply wrap_err_Ok in H.
  apply CopyPartition_Ok in H as (s & d & Hs & Hd & E); try done; [|apply copyProgress_disks].
  exists w1, s, d. rewrite H1. done.
Qed.

Lemma mount_Ok what ty dev mp w w' :
  exec_or_fail what "/bin/mount" ["-t"; ty; dev; mp] w = (Ok tt, w') -> m_mounts (pw_machine w') !! mp = Some dev.
Proof.
  unfold exec_or_fail, bind, exec_prog, exec_Command at 1, PWorld_exec.
  destruct (exec_Command "/bin/mount" _ (pw_machine w)) as [o m'] eqn:E.
  pose proof (mount_law _ _ _ _ _ _ E) as Hm. destruct (o_err o); [done|]. intros [= <-]. simpl. rewrite Hm. apply lookup_insert_eq.
Qed.

(** Quiet commands keep the files. *)
Lemma files_exec path args : path ∈ quiet_commands -> keeps (fun w => m_fss (pw_machine w)) (exec_prog path args).
Proof.
  intros Hp w. unfold exec_prog, exec_Command at 1, PWorld_exec.
  destruct (exec_Command path args (pw_machine w)) as [o m'] eqn:E. simpl. by eapply exec_quiet_files.
Qed.
Lemma files_machine {A} (m : prog world A) : keeps pw_machine m -> keeps (fun w => m_fss (pw_machine w)) m.
Proof. intros Hm w. by rewrite Hm. Qed.

Definition has_file (dev name body : string) w : Prop :=
  exists fs, m_fss (pw_machine w) !! dev = Some fs /\ fs !! name = Some body.
Lemma has_file_keeps {A} dev name body (m : prog world A) w r w' :
  m w = (r, w') -> keeps (fun w => m_fss (pw_machine w)) m -> has_file dev name body w -> has_file dev name body w'.
Proof. intros E Hm. apply (keeps_run _ _ _ _ _ Hm) in E. unfold has_file. simpl in E. by rewrite E. Qed.

Lemma has_file_quiet dev name body path args w :
  path ∈ quiet_commands -> has_file dev name body w -> has_file dev name body (exec_quiet path args w).2.
Proof.
  intros Hp. destruct (exec_quiet path args w) as [r w'] eqn:E. intros Hf. eapply has_file_keeps; [exact E| |exact Hf].
  by apply keeps_ignore, files_exec.
Qed.
Lemma WriteFile_Ok dir dev name body w w' :
  m_mounts (pw_machine w) !! dir = Some dev -> WriteFile dir name body w = (Ok tt, w') -> has_file dev name body w'.
Proof.
  intros Hm [l H]%os_call_Ok. injection H as <-. unfold put_file, has_file. simpl. rewrite Hm. simpl.
  rewrite lookup_partial_alter_eq. eexists. split; [done|]. apply lookup_insert_eq.
Qed.
Ltac quiet := unfold quiet_commands; set_solver.

Lemma patch_boot_Ok dev w w' : patch_boot dev w = (Ok tt, w') -> has_file dev "EFI/BOOT/grub.cfg" grubCfg w'.
Proof.
  unfold patch_boot, patchBootGrubCfg. intros ([] & w1 & _ & Ha)%bind_Ok_inv.
  apply bind_Ok_inv in Ha as ([] & w2 & H2 & H3). apply wrap_err_Ok in H2.
  eapply has_file_keeps; [exact H3|apply files_machine, keeps_fn|].
  apply bind_Ok_inv in H2 as ([] & w4 & _ & H4). apply bind_Ok_inv in H4 as ([] & w5 & H5 & H6). apply mount_Ok in H5.
  apply finally_Ok in H6 as (w6 & H6 & ->).
  apply has_file_quiet; [quiet|].
  apply bind_Ok_inv in H6 as ([] & w7 & H7 & H8). apply bind_Ok_inv in H8 as ([] & w8 & H8 & H9).
  eapply has_file_keeps; [exact H9|apply keeps_ignore, files_exec; quiet|].
  apply wrap_err_Ok in H8. eapply WriteFile_Ok; [|exact H8].
  assert (keeps (fun w => m_mounts (pw_machine w)) (for_each [("vmlinuz_a", "vmlinuz_b"); ("initramfs_a", "initramfs_b")]
    (fun pair => exec_or_fail (D:=world) ("seed " +:+ pair.2) "/bin/cp" [bootMnt +:+ "/" +:+ pair.1; bootMnt +:+ "/" +:+ pair.2]))) as Hk.
  { unfold exec_or_fail. cbn [for_each]. go_keeps; intros v; unfold exec_prog, exec_Command at 1, PWorld_exec;
      destruct (exec_Command "/bin/cp" _ (pw_machine v)) as [o m'] eqn:E; simpl; by eapply cp_mounts. }
  apply (keeps_run _ _ _ _ _ Hk) in H7. simpl in H7. by rewrite H7.
Qed.

(** The sealed disk: what is written and what is reported. *)
Lemma seal_Ok now uuid e1 e2 req w r w' :
  rq_Seal req = true -> rq_OperatorPubkey req <> "" ->
  seal_firstboot marshal_bundle uuid_Parse now uuid e1 e2 req w = (Ok r, w') ->
  exists b data fp, buildFirstBootBundle uuid_Parse now uuid e1 e2 req = Ok b /\ marshal_bundle b = Ok data /\
    fingerprintFromPEM (fb_TLSCertPEM b) = Ok fp /\ has_file metaDM "firstboot.json" data w' /\
    r = mkResult (fb_CapsuleID b) (fb_ShortID b) fp (KidFromPubkey (rq_OperatorPubkey req)).
Proof.
  intros Hs Hk. unfold seal_firstboot. rewrite Hs. destruct (String.eqb_spec (rq_OperatorPubkey req) ""); [done|].
  simpl. intros ([] & w1 & _ & H1)%bind_Ok_inv. apply bind_Ok_inv in H1 as (b & w2 & H2 & H3).
  unfold lift in H2. injection H2 as Hb ->. apply bind_Ok_inv in H3 as ([] & w3 & H3 & H4). apply wrap_err_Ok in H3.
  apply bind_Ok_inv in H4 as (fp & w4 & H4 & H5). unfold lift in H4. injection H4 as Hf ->.
  apply bind_Ok_inv in H5 as ([] & w5 & H5 & H6). injection H6 as <- <-.
  unfold writeFirstBootBundle in H3. apply bind_Ok_inv in H3 as ([] & w6 & _ & H3).
  apply bind_Ok_inv in H3 as ([] & w7 & _ & H3). apply bind_Ok_inv in H3 as ([] & w8 & H8 & H3). apply mount_Ok in H8.
  apply finally_Ok in H3 as (w9 & H9 & ->). apply bind_Ok_inv in H9 as (data & w10 & H10 & H9).
  apply wrap_err_Ok in H10. unfold lift in H10. injection H10 as Hd ->.
  exists b, data, fp. split_and!; try done.
  eapply has_file_keeps; [exact H5|apply files_machine, keeps_fn|].
  apply has_file_quiet; [quiet|].
  apply bind_Ok_inv in H9 as ([] & w11 & H11 & H12). apply wrap_err_Ok in H11.
  eapply has_file_keeps; [exact H12| |by eapply WriteFile_Ok].
  cbn [for_each]. go_keeps; try (apply files_machine, keeps_MkdirAll). apply keeps_ignore, files_exec. quiet.
Qed.

(** *** The nodes of the target *)

Lemma partitionPath_shape disk n : disk <> "" ->
  partitionPath disk n = disk +:+ (if is_digit (last_of disk) then "p" else "") +:+ Itoa n.
Proof.
  intros Hd. unfold partitionPath, last_of. destruct (last_char disk) as [c|] eqn:E; simpl.
  - by destruct (is_digit c).
  - destruct disk as [|x s]; [done|]. exfalso. clear Hd. revert x E. induction s as [|y s IH]; intros x E; [done|]. by apply (IH y).
Qed.
Lemma partitionPath_inj disk n m : disk <> "" -> partitionPath disk n = partitionPath disk m -> n = m.
Proof. intros Hd. rewrite !partitionPath_shape by done. by intros ?%app_inj_l%app_inj_l%Itoa_inj. Qed.
Lemma partitionPath_not_disk disk n : disk <> "" -> disk <> partitionPath disk n.
Proof.
  intros Hd. rewrite partitionPath_shape by done. intros H. rewrite <- (app_nil_str disk) in H at 1. apply app_inj_l in H.
  destruct (is_digit (last_of disk)); [done|]. simpl in H. by destruct (Itoa_not_empty n).
Qed.

(** A device right under /dev. *)
Definition dev_node (disk : string) : Prop := exists name, disk = "/dev/" +:+ name /\ name <> "" /\ no_char "/" name = true.

Lemma dev_part_dir disk n pre : dev_node disk -> no_char "/" pre = true ->
  path_Dir (pre +:+ partitionPath disk n) = pre +:+ "/dev".
Proof.
  intros (name & -> & Hn & Hc) Hpre. rewrite partitionPath_shape by done.
  set (sfx := (if is_digit (last_of ("/dev/" +:+ name)) then "p" else "") +:+ Itoa n).
  assert (no_char "/" (name +:+ sfx) = true) as Hc'.
  { unfold no_char in *. rewrite all_chars_app, Hc. unfold sfx. rewrite all_chars_app.
    pose proof (Itoa_no_char n "/" eq_refl) as Hi. unfold no_char in Hi. rewrite Hi. by destruct (is_digit _). }
  replace (pre +:+ ("/dev/" +:+ name) +:+ sfx) with ((pre +:+ "/dev") +:+ String "/" (name +:+ sfx)).
  - apply path_Dir_Base; [|done]. by destruct pre.
  - rewrite !app_assoc_str. reflexivity.
Qed.

Lemma perm_names_off_boot disk : dev_node disk ->
  Forall (fun a => a <> bootMnt /\ path_Dir a <> bootMnt) (perm_names (partitionPath disk 4)).
Proof.
  intros Hd. pose proof (dev_part_dir disk 4 "" Hd eq_refl) as D1. pose proof (dev_part_dir disk 4 "of=" Hd eq_refl) as D2.
  simpl in D1. change ("" +:+ partitionPath disk 4) with (partitionPath disk 4) in D1.
  unfold perm_names. repeat (apply List.Forall_cons; [|]); [..|apply List.Forall_nil].
  all: try (split; discriminate).
  - rewrite D1. split; [|discriminate]. intros E. by rewrite E in D1.
  - rewrite D2. split; discriminate.
Qed.

(** *** The whole pipeline *)

(** What re-reading the new partition table [l] brings up does not put the
    target's table, its boot partition or its slots in reach of the names the
    rest of the pipeline uses (no volume group is found there). *)
Definition scan_clean (target : string) (l : Layout) (m : Machine M) : Prop :=
  forall s o m2,
    exec_Command "/sbin/blockdev" ["--rereadpt"; target] (map_disks <[target := write_at 0 (build_mbr l) s]> m) = (o, m2) ->
    unreached target (boot_names (partitionPath target 1) ++ perm_names (partitionPath target 4)) m2 /\
    Forall (fun n => unreached (partitionPath target n) (perm_names (partitionPath target 4)) m2) [1; 2; 3]%Z.

(** A slot holds the image [img] as far as the slot reaches. *)
Definition slot_holds (img dev : string) (sectors : Z) w : Prop :=
  exists old, m_disks (pw_machine w) !! dev = Some (write_at 0 (read_at 0 (sectors * 512)%Z img) old).

Definition sealed (now : Z) (uuid e1 e2 : string) (req : Request) (res : Result) w : Prop :=
  exists b data fp, buildFirstBootBundle uuid_Parse now uuid e1 e2 req = Ok b /\ marshal_bundle b = Ok data /\
    fingerprintFromPEM (fb_TLSCertPEM b) = Ok fp /\ has_file metaDM "firstboot.json" data w /\
    res = mkResult (fb_CapsuleID b) (fb_ShortID b) fp (KidFromPubkey (rq_OperatorPubkey req)).

Lemma held_start d s fs names w : d <> "" -> m_disks (pw_machine w) !! d = Some s ->
  m_fss (pw_machine w) !! d = fs -> unreached d names (pw_machine w) -> held d (Some s) fs names w.
Proof. intros. split; try done. by intros b [= <-]. Qed.
Lemma held_waited path d s fs names w : held d s fs names w -> held d s fs names (waitForPath path w).2.
Proof. intros H. by apply held_waitForPath. Qed.

(** A slot is written, and what follows leaves it alone. *)
Lemma write_slot_held what phase src dst n img fs names w w' :
  src <> dst -> dst <> "" -> (0 <= n)%Z -> held src (Some img) fs names w ->
  preserves (fun w => unreached dst names (pw_machine w)) (write_part what phase src dst n) ->
  unreached dst names (pw_machine w) ->
  write_part what phase src dst n w = (Ok tt, w') ->
  exists old fs', held dst (Some (write_at 0 (read_at 0 (n * 512)%Z img) old)) fs' names w'.
Proof.
  intros Hne Hd Hn Hsrc Hpres Hout H. pose proof (preserves_run _ _ _ _ _ H Hpres Hout) as Hout'. cbv beta in Hout'.
  apply write_part_Ok in H as (w1 & s & old & -> & Hs & _ & E); [|done..].
  apply (held_waited dst) in Hsrc as [_ Hi _ _]. rewrite (Hi img eq_refl) in Hs. injection Hs as <-.
  exists old, (m_fss (pw_machine w') !! dst). apply held_start; try done. rewrite E. apply lookup_insert_eq.
Qed.

Section pipeline.
Context (target usb : string) (layout : Layout) (img : string) (start : world).
Context (target_node : dev_node target).
Abbreviation tp := (partitionPath target).
Abbreviation up := (partitionPath usb).

Lemma tp_ne n m : n <> m -> tp n <> tp m.
Proof. intros Hn E. apply partitionPath_inj in E; [done|]. by destruct target_node as (? & -> & _). Qed.
Lemma tp_target n : target <> tp n.
Proof. apply partitionPath_not_disk. by destruct target_node as (? & -> & _). Qed.
Lemma tp_not_empty n : tp n <> "".
Proof. destruct target_node as (x & -> & _). rewrite partitionPath_shape by done. done. Qed.
Lemma in_nodes n : n ∈ [1; 2; 3; 4]%Z -> tp n ∈ nodes target.
Proof. intros Hn. unfold nodes. apply list_elem_of_further. by apply list_elem_of_fmap_2. Qed.
Lemma target_not_empty : target <> "".
Proof. by destruct target_node as (? & -> & _). Qed.

Abbreviation lvm_names := (perm_names (tp 4)).
Context (source : aside (up 2) target start) (source_img : m_disks (pw_machine start) !! up 2 = Some img).
Context (scan : scan_clean target layout (pw_machine start)).

Lemma source_ne n : n ∈ [1; 2; 3; 4]%Z -> up 2 <> tp n.
Proof. intros Hn E. destruct source as (_ & Hu & _). apply Hu. rewrite E. by apply in_nodes. Qed.
Lemma source_target : up 2 <> target.
Proof. intros E. destruct source as (_ & Hu & _). apply Hu. rewrite E. apply list_elem_of_here. Qed.

(** After the boot partition is written and patched. *)
Record booted w : Prop := {
  bo_source : exists fs, held (up 2) (Some img) fs (run_names target) w;
  bo_table : exists s fs, (512 <= len s)%Z /\ held target (Some (write_at 0 (build_mbr layout) s)) fs lvm_names w;
  bo_grub : exists fs, held (tp 1) None (Some fs) lvm_names w /\ fs !! "EFI/BOOT/grub.cfg" = Some grubCfg;
  bo_slots : unreached (tp 2) lvm_names (pw_machine w) /\ unreached (tp 3) lvm_names (pw_machine w) }.

Lemma held_weaken d s fs names names' w : held d s fs names w -> names' ⊆ names -> held d s fs names' w.
Proof. intros [H1 H2 H3 H4] Hn. split; try done. by eapply unreached_sub. Qed.

Lemma boot_phase w :
  (partition target layout ;;;
   write_part "boot" "write_boot" (up 1) (tp 1) (BootSectors layout) ;;;
   patch_boot (tp 1)) start = (Ok tt, w) -> booted w.
Proof.
  intros ([] & w1 & H1 & Ha)%bind_Ok_inv. apply bind_Ok_inv in Ha as ([] & w2 & H2 & H3).
  destruct source as (Hu0 & _ & Hu2). destruct (run_names_parts target) as (RN1 & RN2 & _).
  pose proof (held_start _ _ _ _ _ Hu0 source_img eq_refl Hu2) as U.
  eapply preserves_run in U; [|exact H1|by apply held_partition; [apply source_target|]].
  apply partition_Ok in H1 as (s & o & Hlen & Ht & Hscan). apply scan in Hscan as [St Sp].
  rewrite !Forall_cons in Sp. destruct Sp as (S1 & S2 & S3 & _).
  pose proof (held_start target _ _ _ _ target_not_empty Ht eq_refl St) as T.
  eapply preserves_run in T; [|exact H2|apply held_write_part, tp_target].
  eapply preserves_run in T; [|exact H3|apply held_patch_boot; intros x Hx; apply elem_of_app; tauto].
  eapply preserves_run in U; [|exact H2|apply held_write_part, source_ne; set_solver].
  eapply preserves_run in U; [|exact H3|by apply held_patch_boot].
  assert (forall d, unreached d lvm_names (pw_machine w1) -> unreached d lvm_names (pw_machine w)) as Hout.
  { intros d Hd. apply (preserves_run (fun w => unreached d lvm_names (pw_machine w)) _ _ _ _ H3).
    - apply out_patch_boot. right. by apply perm_names_off_boot.
    - apply (preserves_run (fun w => unreached d lvm_names (pw_machine w)) _ _ _ _ H2); [apply out_write_part|done]. }
  apply patch_boot_Ok in H3 as (fs1 & Hfs1 & Hgrub). split.
  - eauto.
  - exists s. eexists. split; [done|]. eapply held_weaken; [exact T|]. intros x Hx. apply elem_of_app. tauto.
  - exists fs1. split; [|done]. split; [apply tp_not_empty|done|done|by apply Hout].
  - split; by apply Hout.
Qed.

(** After both slots are written. *)
Definition kept (d : string) (s : option string) w : Prop := exists fs, held d s fs lvm_names w.
Record flashed w : Prop := {
  fl_table : exists s, (512 <= len s)%Z /\ kept target (Some (write_at 0 (build_mbr layout) s)) w;
  fl_grub : exists fs, held (tp 1) None (Some fs) lvm_names w /\ fs !! "EFI/BOOT/grub.cfg" = Some grubCfg;
  fl_a : exists old, kept (tp 2) (Some (write_at 0 (read_at 0 (SlotASectors layout * 512)%Z img) old)) w;
  fl_b : exists old, kept (tp 3) (Some (write_at 0 (read_at 0 (SlotBSectors layout * 512)%Z img) old)) w }.

Lemma slots_phase w w' : (0 <= SlotASectors layout)%Z -> (0 <= SlotBSectors layout)%Z -> booted w ->
  (write_part "slot_a" "write_slot_a" (up 2) (tp 2) (SlotASectors layout) ;;;
   write_part "slot_b" "write_slot_b" (up 2) (tp 3) (SlotBSectors layout)) w = (Ok tt, w') -> flashed w'.
Proof.
  intros HA HB [[fu U] (s & ft & Hlen & T) (fg & G & Hg) [O2 O3]] ([] & w1 & H1 & H2)%bind_Ok_inv.
  pose proof (preserves_run _ _ _ _ _ H1 (out_write_part (tp 3) lvm_names _ _ _ _ _) O3) as O3'.
  pose proof (preserves_run _ _ _ _ _ H1 (held_write_part _ _ _ _ _ _ _ _ _ (source_ne 2 ltac:(set_solver))) U) as U'.
  eapply preserves_run in T; [|exact H1|apply held_write_part, tp_target].
  eapply preserves_run in T; [|exact H2|apply held_write_part, tp_target].
  eapply preserves_run in G; [|exact H1|apply held_write_part, tp_ne; lia].
  eapply preserves_run in G; [|exact H2|apply held_write_part, tp_ne; lia].
  assert (held (up 2) (Some img) fu lvm_names w) as U1 by (eapply held_weaken; [exact U|apply run_names_parts]).
  assert (held (up 2) (Some img) fu lvm_names w1) as U2 by (eapply held_weaken; [exact U'|apply run_names_parts]).
  eapply write_slot_held in H1 as (oldA & fa & A); [|apply source_ne; set_solver|apply tp_not_empty|done|exact U1|apply out_write_part|done].
  eapply preserves_run in A; [|exact H2|apply held_write_part, tp_ne; lia].
  eapply write_slot_held in H2 as (oldB & fb & Bb); [|apply source_ne; set_solver|apply tp_not_empty|done|exact U2|apply out_write_part|done].
  split.
  - exists s. split; [done|]. by exists ft.
  - eauto.
  - exists oldA. by exists fa.
  - exists oldB. by exists fb.
Qed.

(** What is left works on the last partition. *)
Lemma kept_tail now uuid e1 e2 req d s fs :
  preserves (held d s fs lvm_names)
    (init_lvm (tp 4) ;;;
     result <- seal_firstboot marshal_bundle uuid_Parse now uuid e1 e2 req ;;
     sync_target ;;; ret result).
Proof.
  go_preserves; [by apply held_init_lvm|by eapply held_seal|by eapply held_sync].
Qed.

Lemma sync_files : keeps (fun w => m_fss (pw_machine w)) (sync_target (M:=M)).
Proof.
  unfold sync_target, exec_quiet. go_keeps; first [apply files_machine, keeps_fn|apply files_exec; quiet].
Qed.

Lemma seal_phase now uuid e1 e2 req w res w' :
  rq_Seal req = true -> rq_OperatorPubkey req <> "" ->
  (init_lvm (tp 4) ;;;
   result <- seal_firstboot marshal_bundle uuid_Parse now uuid e1 e2 req ;;
   sync_target ;;; ret result) w = (Ok res, w') -> sealed now uuid e1 e2 req res w'.
Proof.
  intros Hs Hk ([] & w1 & _ & H)%bind_Ok_inv. apply bind_Ok_inv in H as (r & w2 & H2 & H).
  apply bind_Ok_inv in H as ([] & w3 & H3 & H). injection H as <- <-.
  apply seal_Ok in H2 as (b & data & fp & Hb & Hm & Hf & Hfile & ->); [|done..].
  exists b, data, fp. split_and!; try done. eapply has_file_keeps; [exact H3|apply sync_files|done].
Qed.

Lemma write_target_phases now uuid e1 e2 req w :
  write_target marshal_bundle uuid_Parse now uuid e1 e2 usb target layout req w =
  ((partition target layout ;;;
    write_part "boot" "write_boot" (up 1) (tp 1) (BootSectors layout) ;;;
    patch_boot (tp 1)) ;;;
   (write_part "slot_a" "write_slot_a" (up 2) (tp 2) (SlotASectors layout) ;;;
    write_part "slot_b" "write_slot_b" (up 2) (tp 3) (SlotBSectors layout)) ;;;
   (init_lvm (tp 4) ;;;
    result <- seal_firstboot marshal_bundle uuid_Parse now uuid e1 e2 req ;;
    sync_target ;;; ret result)) w.
Proof.
  unfold write_target, bind. destruct (partition target layout w) as [[[]|] w1]; [|done].
  destruct (write_part "boot" _ _ _ _ w1) as [[[]|] w2]; [|done].
  destruct (patch_boot _ w2) as [[[]|] w3]; [|done].
  by destruct (write_part "slot_a" _ _ _ _ w3) as [[[]|] w4].
Qed.
End pipeline.

Lemma Run_held now uuid e1 e2 i req w r w' :
  Run marshal_bundle uuid_Parse now uuid e1 e2 i req w = (r, w') ->
  (is_ok r = false /\ pw_machine w' = pw_machine w) \/
  exists t, resolveTarget i (rq_TargetDisk req) = Ok t /\ t ∈ in_Targets i /\
    (rq_TargetDisk req <> "" -> td_Path t = rq_TargetDisk req) /\ td_Path t <> in_USBBootDisk i /\
    forall d s, aside d (td_Path t) w -> m_disks (pw_machine w) !! d = Some s ->
      m_disks (pw_machine w') !! d = Some s /\ m_fss (pw_machine w') !! d = m_fss (pw_machine w) !! d.
Proof.
  intros H. unfold Run, bind at 1 in H. destruct (verify i req w) as [r1 w1] eqn:E1.
  apply verify_spec in E1 as [Em Hv]. destruct r1 as [[t l]|e]; [|injection H as <- <-; by left].
  destruct (Hv t l eq_refl) as (Hres & Hin & Hreq & _ & Hne & _). right. exists t. split_and!; try done.
  intros d s (Hd0 & Hd & Hout) Hs. rewrite <- Em in Hs, Hout |- *.
  pose proof (held_start d s _ _ w1 Hd0 Hs eq_refl Hout) as Hh.
  eapply preserves_run in Hh; [|exact H|by apply write_target_held]. destruct Hh as [_ H1 H2 _]. split; [by apply H1|done].
Qed.


(** C20: A finished install.  The target's partition table reads back as the
    layout with the runtime signature; both slots hold the image of the running
    USB's slot A, which is unchanged; the boot partition has the runtime
    grub.cfg; and a sealed install has left the bundle, with the operator's
    key, the new identity and its TLS material, on the new PERM file system
    and reports exactly the identity, fingerprint and kid in that bundle. *)
Theorem Run_Ok now uuid e1 e2 i req t l img w res w' :
  resolveTarget i (rq_TargetDisk req) = Ok t -> (0 <= td_SizeBytes t < 2 ^ 64)%Z ->
  LayoutForDisk (td_SizeBytes t) = Ok l -> dev_node (td_Path t) ->
  aside (partitionPath (in_USBBootDisk i) 2) (td_Path t) w ->
  m_disks (pw_machine w) !! partitionPath (in_USBBootDisk i) 2 = Some img ->
  scan_clean (td_Path t) l (pw_machine w) ->
  Run marshal_bundle uuid_Parse now uuid e1 e2 i req w = (Ok res, w') ->
  (exists s, m_disks (pw_machine w') !! td_Path t = Some s /\
    read_table s = [mkEntry true partTypeESP (BootStart l) (BootSectors l);
                    mkEntry false partTypeLinux (SlotAStart l) (SlotASectors l);
                    mkEntry false partTypeLinux (SlotBStart l) (SlotBSectors l);
                    mkEntry false partTypeLVM (PermStart l) (PermSectors l)] /\
    forall cmdline block, hasCapsuleMBR (mkSys cmdline block (m_disks (pw_machine w'))) (td_Path t) = true) /\
  slot_holds img (partitionPath (td_Path t) 2) (SlotASectors l) w' /\
  slot_holds img (partitionPath (td_Path t) 3) (SlotBSectors l) w' /\
  m_disks (pw_machine w') !! partitionPath (in_USBBootDisk i) 2 = Some img /\
  has_file (partitionPath (td_Path t) 1) "EFI/BOOT/grub.cfg" grubCfg w' /\
  (rq_Seal req = true -> rq_OperatorPubkey req <> "" -> sealed now uuid e1 e2 req res w').
Proof.
  intros Hres Hsize Hl Hnode Haside Himg Hscan H.
  assert (m_disks (pw_machine w') !! partitionPath (in_USBBootDisk i) 2 = Some img) as Hu.
  { destruct (Run_held now uuid e1 e2 i req w (Ok res) w' H) as [[? _]|(t' & Ht' & _ & _ & _ & Hh)]; [done|].
    rewrite Hres in Ht'. injection Ht' as <-. by apply (Hh _ img). }
  unfold Run, bind at 1 in H. destruct (verify i req w) as [r1 w1] eqn:E1. apply verify_spec in E1 as [Em Hv].
  destruct r1 as [[t' l']|e]; [|done]. destruct (Hv t' l' eq_refl) as (Hres' & _ & _ & _ & _ & Hl').
  rewrite Hres in Hres'. injection Hres' as <-. rewrite Hl in Hl'. injection Hl' as <-. cbn [fst snd] in H.
  unfold aside in Haside. rewrite <- Em in Haside, Himg, Hscan.
  pose proof (LayoutForDisk_cases _ Hsize) as Hlok. rewrite Hl in Hlok.
  rewrite write_target_phases in H. apply bind_Ok_inv in H as ([] & w2 & H2 & H).
  eapply boot_phase in H2; [|done..]. apply bind_Ok_inv in H as ([] & w3 & H3 & H).
  eapply slots_phase in H3; [|done|done|..|done]; try by destruct Hlok as [[? ?] [? ->] [? ->] [? ?] ?].
  destruct H3 as [(s & Hlen & ft & T) (fg & G & Hgrub) (oa & fa & A) (ob & fb & Bb)].
  pose proof (fun d s fs => preserves_run _ _ _ _ _ H (kept_tail (td_Path t) now uuid e1 e2 req d s fs)) as K.
  apply K in T as [_ T _ _], G as [_ _ G _], A as [_ A _ _], Bb as [_ Bb _ _].
  split.
  { exists (write_at 0 (build_mbr l) s). split; [by apply T|]. apply (mbr_reads_back _ (td_SizeBytes t)); [done..|]. by apply T. }
  split; [eexists; by apply A|]. split; [eexists; by apply Bb|]. split; [done|]. split; [by exists fg|].
  intros Hs Hk. by eapply seal_phase.
Qed.
End frame.

(** ** Progress *)

Definition done_event (res : Result) : InstallProgress :=
  mkProgress "done" 100 "install complete; remove USB and power-cycle" (Some res).

Section progress.
Context {M : Type} `{!Platform M} {TL : TokenLib} {CL : CertLib}.
Context (marshal_bundle : FirstBootBundle -> result string) (uuid_Parse : string -> option (list Z)).
Abbreviation world := (PWorld M).
Implicit Types w : world.

(** A progress event of a running install: a percentage and no result. *)
Definition phase_event (p : InstallProgress) : Prop := (0 <= ip_Percent p <= 100)%Z /\ ip_Result p = None.
(** What was sent since [old] are such events. *)
Definition reporting (old : list InstallProgress) w : Prop := exists new, pw_sent w = new ++ old /\ Forall phase_event new.

Section reporting.
Context (old : list InstallProgress).
Abbreviation inv := (reporting old).

Lemma reporting_fn phase pct msg : (0 <= pct <= 100)%Z -> preserves inv (fn phase pct msg).
Proof.
  intros Hp. apply preserves_ignore, preserves_os_call; [done|done|]. intros w (new & Hs & Hf). simpl.
  exists (mkProgress phase pct msg None :: new). split; [by rewrite Hs|]. by apply List.Forall_cons.
Qed.
Lemma reporting_same {A} (m : prog world A) : keeps pw_sent m -> preserves inv m.
Proof. intros Hm w Hw. unfold reporting. by rewrite Hm. Qed.
Lemma reporting_exec path args : preserves inv (exec_prog path args).
Proof.
  apply reporting_same. intros w. unfold exec_prog, exec_Command at 1, PWorld_exec.
  by destruct (exec_Command path args (pw_machine w)).
Qed.
Lemma reporting_MkdirAll path : preserves inv (MkdirAll path).
Proof. apply reporting_same. by apply keeps_os_call. Qed.
Lemma reporting_WriteFile dir name body : preserves inv (WriteFile dir name body).
Proof.
  apply reporting_same, keeps_os_call; [done|intros n w|intros w]; unfold put_file; by destruct (m_mounts (pw_machine w) !! dir).
Qed.
Lemma reporting_waitForPath path : preserves inv (waitForPath path).
Proof. unfold waitForPath. apply preserves_wrap_err, preserves_wait_for. by intros t w. Qed.
Lemma reporting_copyProgress phase a b w : inv w -> inv (copyProgress phase a b w).
Proof.
  unfold copyProgress. destruct (b =? 0)%Z; apply reporting_fn; [lia|].
  pose proof (wrap_range 32 (u64 (a * 100) / b) ltac:(lia)). cbv zeta. destruct (Z.ltb_spec 100 (u32 (u64 (a * 100) / b))); lia.
Qed.
Lemma reporting_CopyPartition phase src dst n : preserves inv (CopyPartition (copyProgress phase) src 0 dst 0 n).
Proof. apply preserves_CopyPartition; [done|done|]. intros a b w. apply reporting_copyProgress. Qed.
Lemma reporting_WriteMBR dev l : preserves inv (WriteMBR dev l).
Proof. by apply preserves_WriteMBR. Qed.

Ltac go_reporting :=
  unfold exec_quiet, exec_or_fail; go_preserves; try (first
  [apply reporting_fn; lia|apply reporting_exec|apply reporting_MkdirAll|apply reporting_WriteFile|apply reporting_waitForPath
  |apply reporting_CopyPartition|apply reporting_WriteMBR|apply preserves_finally|progress cbn [for_each]]; go_reporting).

Lemma reporting_Run now uuid e1 e2 i req : preserves inv (Run marshal_bundle uuid_Parse now uuid e1 e2 i req).
Proof.
  unfold Run, verify, write_target, partition, rereadPartitions, write_part, patch_boot, patchBootGrubCfg, init_lvm, initTargetLVM,
    writeLVMLocalConf, seal_firstboot, writeFirstBootBundle, sync_target. cbv zeta. go_reporting.
Qed.
End reporting.

(** The stream of an Install call.  Every message has a percentage between 0
    and 100.  The call succeeds only when the pipeline did, and its last
    message is then the "done" event with the pipeline's result, or the stream
    failed; no other message carries a result, so a client never sees the
    identity of a disk whose install did not finish. *)
Theorem Install_progress now uuid e1 e2 c req w r w' :
  Install marshal_bundle uuid_Parse now uuid e1 e2 c req w = (r, w') ->
  exists new, pw_sent w' = new ++ pw_sent w /\ Forall (fun p => 0 <= ip_Percent p <= 100)%Z new /\
    ((Forall (fun p => ip_Result p = None) new /\ is_ok r = false) \/
     exists res w1 phases,
       Run marshal_bundle uuid_Parse now uuid e1 e2 (mkInstaller (ic_USBBootDisk c) (ic_Targets c)) (request_of req) w = (Ok res, w1) /\
       new = done_event res :: phases /\ Forall (fun p => ip_Result p = None) phases /\ r = Ok tt).
Proof.
  intros H. unfold Install in H.
  destruct (String.eqb (ic_USBBootDisk c) ""); [injection H as <- <-; exists []; split; [done|]; split; [done|by left]|].
  destruct (ic_Targets c) as [|t ts] eqn:Et; [injection H as <- <-; exists []; split; [done|]; split; [done|by left]|].
  unfold bind, status_of in H.
  destruct (Run _ _ _ _ _ _ _ _ w) as [r1 w1] eqn:E1.
  pose proof (reporting_Run (pw_sent w) now uuid e1 e2 (mkInstaller (ic_USBBootDisk c) (t :: ts)) (request_of req) w) as HR.
  rewrite E1 in HR. destruct HR as (new & Hs & Hf); [by exists []|]. simpl in Hs.
  assert (Forall (fun p => 0 <= ip_Percent p <= 100)%Z new /\ Forall (fun p => ip_Result p = None) new) as [H1 H2]
    by (by apply Forall_and).
  destruct r1 as [res|e]; [|injection H as <- <-; exists new; split; [done|]; split; [done|by left]].
  unfold Send, os_call in H. simpl in H. destruct (pw_faults w1) as [|[[n e]|] l]; simpl in H; injection H as <- <-; simpl.
  2: { exists new. split; [done|]. split; [done|by left]. }
  all: exists (done_event res :: new); rewrite Hs; (split; [done|]); (split; [apply List.Forall_cons; simpl; [lia|done]|]); right;
    by exists res, w1, new.
Qed.
End progress.

(** ** A machine

    Volume groups and logical volumes are lists of devices; a new partition
    node has 64 bytes.  A command is an [effect]: the devices it overwrites,
    the nodes it creates, the file system it writes, the mounts and volumes it
    changes. *)

Module RefMachine.
Abbreviation M := (gmap string (list string)).
Definition vols (r : M) (a : string) : list string := default [] (r !! a).

Record effect := mkEffect {
  e_ok : bool;
  e_wiped : list string;
  e_nodes : list string;
  e_fs : option (string * gmap string string);
  e_mounts : gmap string string -> gmap string string;
  e_vols : M -> M }.
Definition nothing (ok : bool) : effect := mkEffect ok [] [] None (fun t => t) (fun r => r).
Definition wipes (ds : list string) (f : M -> M) : effect := mkEffect true ds [] None (fun t => t) f.

Definition blank : string := zeros 64.
Definition wipe (ds : list string) (D : gmap string string) : gmap string string :=
  foldr (fun d D => alter (fun _ => "wiped") d D) D ds.
Definition add_nodes (ds : list string) (D : gmap string string) : gmap string string :=
  foldr (fun d D => match D !! d with Some _ => D | None => <[d := blank]> D end) D ds.
Definition run (e : effect) (m : Machine M) : Output * Machine M :=
  (if e_ok e then mkOutput "" "" None else mkOutput "" "no such device" (Some (ExitError 1)),
   mkMachine (add_nodes (e_nodes e) (wipe (e_wiped e) (m_disks m)))
     (match e_fs e with Some (d, fs) => <[d := fs]> (m_fss m) | None => m_fss m end)
     (e_mounts e (m_mounts m)) (e_vols e (m_rest m))).

(** The file system of the installer's boot image. *)
Definition boot_fs : gmap string string := <["vmlinuz_a" := "kernel"]> {["initramfs_a" := "initramfs"]}.

Definition mount (dev mp : string) (m : Machine M) : effect :=
  match m_disks m !! dev with
  | None => nothing false
  | Some _ => mkEffect true [] [] (Some (dev, default boot_fs (m_fss m !! dev))) <[mp := dev]> (fun r => r)
  end.
Definition copy (src dst : string) (m : Machine M) : effect :=
  match m_mounts m !! path_Dir src with
  | None => nothing false
  | Some d =>
      let fs := default ∅ (m_fss m !! d) in
      match fs !! path_Base src with
      | None => nothing false
      | Some b => mkEffect true [] [] (Some (d, <[path_Base dst := b]> fs)) (fun t => t) (fun r => r)
      end
  end.

Inductive command := Mount | Umount | Cp | Dd | PvWrite | VgRemove | VgCreate | LvCreate | Mkfs | BlockDev | Other.
Definition command_of (path : string) : command :=
  default Other (snd <$> List.find (fun p => String.eqb p.1 path)
    [("/bin/mount", Mount); ("/bin/umount", Umount); ("/bin/cp", Cp); ("/bin/dd", Dd); ("/sbin/pvremove", PvWrite);
     ("/sbin/pvcreate", PvWrite); ("/sbin/vgremove", VgRemove); ("/sbin/vgcreate", VgCreate);
     ("/sbin/lvcreate", LvCreate); ("/sbin/mkfs.ext4", Mkfs); ("/sbin/blockdev", BlockDev)]).

Definition effect_of (c : command) (args : list string) (m : Machine M) : effect :=
  match last args with
  | None => nothing true
  | Some arg =>
      match c, args with
      | Mount, [_; _; dev; mp] => mount dev mp m
      | Umount, _ => mkEffect true [] [] None (delete arg) (fun r => r)
      | Cp, [src; dst] => copy src dst m
      | Dd, _ => wipes (mjoin (of_dev <$> args)) (fun r => r)
      | PvWrite, _ => wipes [arg] (fun r => r)
      | VgRemove, _ => wipes (vols (m_rest m) arg) (delete arg)
      | VgCreate, [vg; dev] => wipes [] <[vg := [dev]]>
      | LvCreate, _ => mkEffect true [] [metaDM] None (fun t => t) <[metaDM := vols (m_rest m) arg]>
      | Mkfs, _ => mkEffect true [] [] (Some (arg, ∅)) (fun t => t) (fun r => r)
      | BlockDev, [_; d] => mkEffect true [] (partitionPath d <$> [1; 2; 3; 4]%Z) None (fun t => t) (fun r => r)
      | Other, _ => nothing true
      | _, _ => nothing false
      end
  end.
Definition exec (path : string) (args : list string) (m : Machine M) : Output * Machine M :=
  run (effect_of (command_of path) args m) m.

#[export] Instance platform : Platform M := {| p_exec := exec; p_tick m := m; volumes := vols |}.

(** *** It obeys the laws *)

Lemma wipe_ne ds D d : d ∉ ds -> wipe ds D !! d = D !! d.
Proof.
  intros Hd. induction ds as [|x ds IH]; [done|]. apply not_elem_of_cons in Hd as [? ?].
  unfold wipe. simpl. rewrite lookup_alter_ne by done. by apply IH.
Qed.
Lemma add_nodes_old ds D d : is_Some (D !! d) -> add_nodes ds D !! d = D !! d.
Proof.
  intros Hd. induction ds as [|x ds IH]; [done|]. unfold add_nodes in *. simpl.
  destruct (foldr _ D ds !! x) eqn:E; [done|]. rewrite lookup_insert_ne; [done|]. intros ->.
  rewrite E in IH. rewrite <- IH in Hd. by destruct Hd.
Qed.

Lemma arg_out d (m : Machine M) args arg :
  last args = Some arg -> Forall (fun a => d ∉ behind m a) args -> d ∉ behind m arg.
Proof. intros Hl Ha. rewrite Forall_forall in Ha. apply Ha. by apply last_Some_elem_of. Qed.
Lemma dd_out d (m : Machine M) args : Forall (fun a => d ∉ behind m a) args -> d ∉ mjoin (of_dev <$> args).
Proof.
  induction args as [|a args IH]; [by intros _ ?%elem_of_nil|]. intros [Ha Hs]%List.Forall_cons_iff. simpl.
  rewrite elem_of_app. intros [H|H]; [|by apply IH]. apply not_behind in Ha. tauto.
Qed.

(** What an effect touches is behind an argument. *)
Definition apart (d : string) (m : Machine M) (e : effect) : Prop :=
  (d ∉ e_wiped e) /\ (forall fs, e_fs e <> Some (d, fs)) /\
  (forall a, d ∉ vols (m_rest m) a -> d ∉ vols (e_vols e (m_rest m)) a).

Lemma apart_same d m ok ds ns t : d ∉ ds -> apart d m (mkEffect ok ds ns None t (fun r => r)).
Proof. by split. Qed.
Lemma apart_fs d m ok ns x fs t : d <> x -> apart d m (mkEffect ok [] ns (Some (x, fs)) t (fun r => r)).
Proof. intros Hx. split; [apply not_elem_of_nil|]. split; [|done]. by intros fs' [= ->]. Qed.
Lemma vols_insert d (r : M) v ds a : (d ∉ ds) -> d ∉ vols r a -> d ∉ vols (<[v := ds]> r) a.
Proof. unfold vols. rewrite lookup_insert. by case_decide. Qed.
Lemma vols_delete d (r : M) v a : d ∉ vols r a -> d ∉ vols (delete v r) a.
Proof. unfold vols. rewrite lookup_delete. case_decide; [intros _; apply not_elem_of_nil|done]. Qed.

Lemma effect_apart c args m d : Forall (fun a => d ∉ behind m a) args -> apart d m (effect_of c args m).
Proof.
  intros Ha. unfold effect_of. destruct (last args) as [arg|] eqn:Hl; [|by apply apart_same, not_elem_of_nil].
  pose proof (proj1 (not_behind d m arg) (arg_out d m args arg Hl Ha)) as (N1 & _ & N3 & _).
  pose proof (dd_out d m args Ha) as Hdd. rewrite Forall_forall in Ha.
  assert (forall ok, apart d m (nothing ok)) as Hn by (intros ok; apply apart_same, not_elem_of_nil).
  destruct c; try apply Hn; try by apply apart_same, not_elem_of_nil.
  - destruct args as [|? [|? [|dev [|mp [|]]]]]; try done. unfold mount. destruct (m_disks m !! dev); [|done].
    apply apart_fs. intros ->. apply (Ha dev); [set_solver|apply list_elem_of_here].
  - destruct args as [|src [|dst [|]]]; try done. unfold copy. destruct (m_mounts m !! path_Dir src) as [x|] eqn:E; [|done].
    cbv zeta. destruct (_ !! path_Base src); [|done]. apply apart_fs. intros ->.
    pose proof (proj1 (not_behind x m src) (Ha src ltac:(set_solver))). tauto.
  - unfold wipes. by apply apart_same.
  - unfold wipes. apply apart_same. by apply not_elem_of_cons; split; [|apply not_elem_of_nil].
  - split; [done|]. split; [done|]. intros a. apply vols_delete.
  - destruct args as [|vg [|dev [|]]]; try done. split; [apply not_elem_of_nil|]. split; [done|]. intros a.
    apply vols_insert. intros ->%list_elem_of_singleton. apply (Ha dev); [set_solver|apply list_elem_of_here].
  - split; [apply not_elem_of_nil|]. split; [done|]. intros a. by apply vols_insert.
  - by apply apart_fs.
  - destruct args as [|? [|? [|]]]; try done. by apply apart_same, not_elem_of_nil.
Qed.

(** The mounts of an effect. *)
Lemma effect_mounts c args m : c <> Mount ->
  e_mounts (effect_of c args m) (m_mounts m) ⊆ m_mounts m /\
  (c <> Umount -> e_mounts (effect_of c args m) (m_mounts m) = m_mounts m).
Proof.
  intros Hc. unfold effect_of. destruct (last args) as [arg|]; [|done].
  destruct c; try done; try (split; [apply delete_subseteq|done]); unfold copy; repeat case_match; done.
Qed.
Lemma effect_vols c args m : c ∈ [Mount; Umount; Cp; Dd; Mkfs; Other] -> e_vols (effect_of c args m) (m_rest m) = m_rest m.
Proof.
  intros Hc. unfold effect_of. destruct (last args); [|done].
  repeat (apply elem_of_cons in Hc as [->|Hc]; [unfold mount, copy; repeat case_match; done|]). by apply elem_of_nil in Hc.
Qed.
Lemma effect_quiet c args m : c ∈ [Umount; BlockDev; Other] ->
  e_wiped (effect_of c args m) = [] /\ e_fs (effect_of c args m) = None.
Proof.
  intros Hc. unfold effect_of. destruct (last args); [|done].
  repeat (apply elem_of_cons in Hc as [->|Hc]; [repeat case_match; done|]). by apply elem_of_nil in Hc.
Qed.

Lemma in_map (f : string -> command) (path : string) (paths : list string) (cs : list command) : path ∈ paths -> Forall (fun p => f p ∈ cs) paths -> f path ∈ cs.
Proof. intros Hp Hf. rewrite Forall_forall in Hf. by apply Hf. Qed.
Lemma quiet_classes path : path ∈ quiet_commands -> command_of path ∈ [Umount; BlockDev; Other].
Proof. intros Hp. eapply in_map; [exact Hp|]. unfold quiet_commands. repeat constructor; vm_compute; set_solver. Qed.
Lemma plain_classes path : path ∈ plain_commands -> command_of path ∈ [Mount; Umount; Cp; Dd; Mkfs; Other].
Proof. intros Hp. eapply in_map; [exact Hp|]. unfold plain_commands. repeat constructor; vm_compute; set_solver. Qed.
Lemma mount_class path : path <> "/bin/mount" -> command_of path <> Mount.
Proof.
  intros Hp. unfold command_of. cbn [List.find fst snd]. destruct (String.eqb_spec "/bin/mount" path); [congruence|].
  repeat (destruct (String.eqb _ path); [done|]). done.
Qed.

#[export] Instance machine_laws : PlatformLaws M.
Proof.
  split; try done.
  - intros path args m m' o d [= <- <-] _ Ha. destruct (effect_apart (command_of path) args m d Ha) as (H1 & H2 & _). simpl.
    split; [intros Hs; rewrite add_nodes_old; by rewrite wipe_ne|].
    destruct (e_fs _) as [[x fs]|] eqn:E; [|done]. rewrite lookup_insert_ne; [done|]. intros ->. by apply (H2 fs).
  - intros path args m m' o d [= <- <-] Hq Hs. destruct (effect_quiet _ args m (quiet_classes _ Hq)) as [H1 _]. simpl. rewrite H1.
    by apply add_nodes_old.
  - intros path args m m' o [= <- <-] Hq. destruct (effect_quiet _ args m (quiet_classes _ Hq)) as [_ H1]. simpl. by rewrite H1.
  - intros ty dev mp m m' o [= <- <-]. unfold run, effect_of. cbn [last snd m_mounts].
    change (command_of "/bin/mount") with Mount. cbn iota beta. unfold mount.
    by destruct (m_disks m !! dev).
  - intros path args m m' o [= <- <-] Hp. simpl. by apply effect_mounts, mount_class.
  - intros args m m' o [= <- <-]. unfold run. cbn [m_mounts].
    by apply effect_mounts.
  - intros path args m m' o a [= <- <-] Hp. simpl. by rewrite (effect_vols _ args m (plain_classes _ Hp)).
  - intros path args m m' o d a [= <- <-] Ha Hd. simpl. by apply (effect_apart (command_of path) args m d Ha).
Qed.
End RefMachine.

Module InstallDemo.
#[local] Existing Instance DemoLib.lib.
#[local] Existing Instance TlsDemo.lib.
#[local] Existing Instance RefMachine.platform.
Definition marshal (b : FirstBootBundle) : result string :=
  Ok (Join (b64_encode <$> [fb_CapsuleID b; fb_ShortID b; fb_TLSCertPEM b; fb_TLSKeyPEM b; fb_OperatorPubkey b; fb_OperatorName b]) ".").
Definition unmarshal (s : string) : option FirstBootBundle :=
  match mapM b64_decode (Split "." s) with
  | Some [a; b; c; d; e; f] => Some (mkFirstBoot a b c d e f)
  | _ => None
  end.
Definition uuid_Parse (s : string) : option (list Z) := Some [0x6f; 0x1c]%Z.
(** The USB disk is /dev/sda; /dev/sdc holds another capsule. *)
Definition machine : Machine RefMachine.M := mkMachine
  (<["/dev/sda" := "usb table"]> (<["/dev/sda1" := "usb boot image"]> (<["/dev/sda2" := "usb slot image"]>
   (<["/dev/nvme0n1" := zeros 512]> {["/dev/sdc4" := "volume group of the other capsule"]}))))
  ∅ ∅ ∅.
Definition start (m : Machine RefMachine.M) (l : list fault) : PWorld RefMachine.M := mkPWorld m 0 [] l.
Definition target : TargetDisk := mkTarget "/dev/nvme0n1" (32 * 1024 * 1024 * 1024) false.
Definition installer : Installer := mkInstaller "/dev/sda" [target].
Definition pub : string := "OOOOOOOOOOOOOOOOOOOOOOOOOOOOOOOO".
Definition request : Request := mkRequest "" pub "nuc-1" true.
Definition layout : Layout := match LayoutForDisk (td_SizeBytes target) with Ok l => l | Err _ => mkLayout 0 0 0 0 0 0 0 0 end.
Definition uuid : string := "6f1c0d9e".
Definition run (w : PWorld RefMachine.M) : result Result * PWorld RefMachine.M :=
  Run marshal uuid_Parse 1700000000 uuid "k1" "n1" installer request w.
Definition res : Result := match (run (start machine [])).1 with Ok r => r | Err _ => mkResult "" "" "" "" end.
Definition done : PWorld RefMachine.M := (run (start machine [])).2.
Lemma run_done : run (start machine []) = (Ok res, done).
Proof. vm_compute. reflexivity. Qed.
Definition controller : InstallController := mkInstallController "capsule-usb" "usb-id" "1.0" "/dev/sda" [target].
Definition install_request : InstallRequest := mkInstallRequest "" pub "nuc-1" false false.
Definition installed : PWorld RefMachine.M :=
  (Install marshal uuid_Parse 1700000000 uuid "k1" "n1" controller install_request (start machine [])).2.
Lemma install_done :
  Install marshal uuid_Parse 1700000000 uuid "k1" "n1" controller install_request (start machine []) = (Ok tt, installed).
Proof. vm_compute. reflexivity. Qed.
(** The other capsule's volume group has the name the installer uses. *)
Definition two_capsules : Machine RefMachine.M :=
  mkMachine (m_disks machine) ∅ ∅ {["capsule" := ["/dev/sdc4"]]}.

(** A concrete device is out of reach of concrete names. *)
Ltac unreached_by_computation :=
  apply (bool_decide_unpack _); vm_compute; exact I.

Lemma scan : scan_clean (td_Path target) layout machine.
Proof.
  intros s o m2 E. apply (f_equal snd) in E. cbn [snd] in E.
  assert (m_mounts m2 = m_mounts machine /\ m_rest m2 = m_rest machine) as [Em Er] by (rewrite <- E; split; reflexivity).
  clear E. assert (forall d names, unreached d names machine -> unreached d names m2) as Hx.
  { intros d names. apply unreached_ext; [done|]. by rewrite Er. }
  split; [|rewrite !Forall_cons; split_and!]; try apply Forall_nil_2; apply Hx; unreached_by_computation.
Qed.
End InstallDemo.

#[local] Existing Instance DemoLib.lib.
#[local] Existing Instance TlsDemo.lib.
#[local] Existing Instance RefMachine.platform.
#[local] Existing Instance RefMachine.machine_laws.

(** A client that leaves [seal] unset still gets a sealed disk. *)
Lemma Install_progress_witness :
  Forall (fun p => 0 <= ip_Percent p <= 100)%Z (pw_sent InstallDemo.installed) /\
  exists res w1, InstallDemo.run (InstallDemo.start InstallDemo.machine []) = (Ok res, w1) /\
    head (pw_sent InstallDemo.installed) = Some (done_event res).
Proof.
  destruct (Install_progress InstallDemo.marshal InstallDemo.uuid_Parse 1700000000 InstallDemo.uuid "k1" "n1" InstallDemo.controller
    InstallDemo.install_request (InstallDemo.start InstallDemo.machine []) (Ok tt) InstallDemo.installed) as (new & Hs & Hp & Hr).
  - exact InstallDemo.install_done.
  - rewrite Hs, app_nil_r. split; [exact Hp|]. destruct Hr as [[_ Hr]|(res & w1 & phases & Hrun & -> & _)]; [discriminate Hr|].
    exists res, w1. split; [exact Hrun|reflexivity].
Defined.


Lemma Run_Ok_witness :
  slot_holds "usb slot image" "/dev/nvme0n1p2" (SlotASectors InstallDemo.layout) InstallDemo.done /\
  slot_holds "usb slot image" "/dev/nvme0n1p3" (SlotBSectors InstallDemo.layout) InstallDemo.done /\
  has_file "/dev/nvme0n1p1" "EFI/BOOT/grub.cfg" grubCfg InstallDemo.done /\
  sealed InstallDemo.marshal InstallDemo.uuid_Parse 1700000000 InstallDemo.uuid "k1" "n1" InstallDemo.request InstallDemo.res
    InstallDemo.done.
Proof.
  destruct (Run_Ok InstallDemo.marshal InstallDemo.uuid_Parse 1700000000 InstallDemo.uuid "k1" "n1" InstallDemo.installer
    InstallDemo.request InstallDemo.target InstallDemo.layout "usb slot image" (InstallDemo.start InstallDemo.machine [])
    InstallDemo.res InstallDemo.done) as (_ & Ha & Hb & _ & Hg & Hs).
  - reflexivity.
  - simpl. lia.
  - reflexivity.
  - exists "nvme0n1". split; [reflexivity|]. split; [discriminate|reflexivity].
  - split; [discriminate|]. split; InstallDemo.unreached_by_computation.
  - reflexivity.
  - apply InstallDemo.scan.
  - exact InstallDemo.run_done.
  - split; [exact Ha|]. split; [exact Hb|]. split; [exact Hg|]. apply Hs; [reflexivity|discriminate].
Defined.

(** With another capsule's disk attached, the clean-up before the volume
    group is created removes every group named capsule, so an install onto one
    disk destroys the data of another one. *)
Theorem install_destroys_namesake_group :
  let '(r, w') := InstallDemo.run (InstallDemo.start InstallDemo.two_capsules []) in
  m_disks InstallDemo.two_capsules !! "/dev/sdc4" = Some "volume group of the other capsule" /\
  is_ok r = true /\ m_disks (pw_machine w') !! "/dev/sdc4" = Some "wiped".
Proof. by vm_compute. Qed.
