(* ===== verification/PortMap.v ===== *)
(** * Port mappings of containers: runtime/container/driver.go

    The conversion of declared ports to go-cni's mappings, and the label that
    carries them from the creation of a container to its removal: CNI's DEL
    must see the mappings its ADD saw. *)

From S2P Require Import Prelude GoStrings Models.

Set Default Goal Selector "!".

(** The fields of [gocni.PortMapping] that the driver fills in; the ports are
    [int32]. *)
Record CniPort := mkCniPort { cp_HostPort : Z; cp_ContainerPort : Z; cp_Protocol : string }.

#[export] Instance CniPort_eq_dec : EqDecision CniPort.
Proof. solve_decision. Defined.

Definition proto_of (p : PortMapping) : string :=
  let proto := ToLower (pm_protocol p) in if String.eqb proto "" then "tcp" else proto.

Definition gocniPortMapping (p : PortMapping) : CniPort :=
  mkCniPort (i32 (pm_host_port p)) (i32 (pm_container_port p)) (proto_of p).
(** A nil and an empty slice are both the empty list. *)
Definition gocniPortMappings (ports : list PortMapping) : list CniPort := gocniPortMapping <$> ports.

(** [fmt.Sprintf("%d:%d/%s", ...)] *)
Definition encode_mapping (p : CniPort) : string :=
  Itoa (cp_HostPort p) +:+ String ":" (Itoa (cp_ContainerPort p) +:+ String "/" (cp_Protocol p)).
Definition encodePortMappings (ports : list PortMapping) : string :=
  let m := gocniPortMappings ports in
  match m with [] => "" | _ => Join (encode_mapping <$> m) "," end.

(** One entry of the label; [None] for a malformed one, which is skipped. *)
Definition decode_mapping (e : string) : option CniPort :=
  match Cut "/" e with
  | None => None
  | Some (hostCtr, proto) =>
      match Cut ":" hostCtr with
      | None => None
      | Some (hp, cp) =>
          match Atoi hp, Atoi cp with
          | Some h, Some c => Some (mkCniPort (i32 h) (i32 c) proto)
          | _, _ => None
          end
      end
  end.
Definition decodePortMappings (s : string) : list CniPort :=
  let s := TrimSpace s in
  if String.eqb s "" then [] else omap decode_mapping (Split "," s).

(** [networkModeLabel] *)
Definition networkModeLabel (m : NetworkMode) : string :=
  match m with
  | NETWORK_MODE_HOST => "host"
  | NETWORK_MODE_BRIDGE => "bridge"
  | _ => "none"
  end.

(** ** The label reads back *)

Lemma i32_range x : (- 2 ^ 31 <= i32 x < 2 ^ 31)%Z.
Proof. by apply (swrap_range 32). Qed.

Lemma i32_idem x : i32 (i32 x) = i32 x.
Proof. apply swrap_small; [lia|]. apply i32_range. Qed.

Lemma decode_encode p : decode_mapping (encode_mapping (gocniPortMapping p)) = Some (gocniPortMapping p).
Proof.
  unfold decode_mapping, encode_mapping. cbn [gocniPortMapping cp_HostPort cp_ContainerPort cp_Protocol].
  change (String ":" ?s) with (":" +:+ s). rewrite <- !app_assoc_str.
  rewrite Cut_app.
  2: { unfold no_char. rewrite !all_chars_app. fold (no_char "/"). by rewrite !Itoa_no_char. }
  rewrite app_assoc_str. change (":" +:+ ?s) with (String ":" s). rewrite Cut_app by by apply Itoa_no_char.
  pose proof (i32_range (pm_host_port p)). pose proof (i32_range (pm_container_port p)).
  rewrite !Atoi_Itoa by lia. by rewrite !i32_idem.
Qed.

(** A protocol the label can carry: no separator, no trailing blank. *)
Definition plain_proto (p : PortMapping) : Prop :=
  no_char "," (proto_of p) = true /\ exists c, last_char (proto_of p) = Some c /\ is_space c = false.

Lemma encode_shape p : plain_proto p ->
  no_char "," (encode_mapping (gocniPortMapping p)) = true /\
  (exists c s, encode_mapping (gocniPortMapping p) = String c s /\ is_space c = false) /\
  exists c, last_char (encode_mapping (gocniPortMapping p)) = Some c /\ is_space c = false.
Proof.
  intros (Hp & d & Hd & Hsp). unfold encode_mapping. cbn [gocniPortMapping cp_HostPort cp_ContainerPort cp_Protocol]. split_and!.
  - unfold no_char. rewrite all_chars_app. fold (no_char ","). rewrite Itoa_no_char by done.
    change (String ":" ?s) with (":" +:+ s). unfold no_char. rewrite !all_chars_app. fold (no_char ",").
    rewrite Itoa_no_char by done. done.
  - pose proof (Itoa_chars (i32 (pm_host_port p))) as Hc. pose proof (Itoa_not_empty (i32 (pm_host_port p))) as Hne.
    destruct (Itoa _) as [|c s]; [done|]. cbn [String.append]. do 2 eexists. split; [done|].
    cbn [all_chars] in Hc. apply andb_true_iff in Hc as [Hc _]. clear -Hc. by destruct c as [[] [] [] [] [] [] [] []].
  - exists d. split; [|done]. change (String ":" ?s) with (":" +:+ s). change (String "/" ?s) with ("/" +:+ s).
    assert (proto_of p <> "") by (intros E; by rewrite E in Hd).
    rewrite <- !app_assoc_str. by rewrite last_char_app.
Qed.

Lemma Join_ends l c d :
  (exists e s t, l = e :: t /\ e = String c s) -> (exists e, last l = Some e /\ last_char e = Some d) ->
  exists s, Join l "," = String c s /\ last_char (Join l ",") = Some d.
Proof.
  intros (e & s & t & -> & ->) (x & Hx & Hd).
  assert (last_char (Join (String c s :: t) ",") = Some d) as Hl.
  { clear -Hx Hd. remember (String c s) as h eqn:E. clear E. revert h Hx. induction t as [|y t IH]; intros h Hx; [by injection Hx as ->|].
    rewrite Join_cons, !last_char_app; [by apply IH| |].
    - intros E. specialize (IH y Hx). by rewrite E in IH.
    - by destruct (Join (y :: t) ","). }
  destruct t; eexists; (split; [|exact Hl]); [done|]. by rewrite Join_head.
Qed.

Lemma label_reads_back ports :
  Forall plain_proto ports -> decodePortMappings (encodePortMappings ports) = gocniPortMappings ports.
Proof.
  intros Hp. unfold encodePortMappings, gocniPortMappings. destruct ports as [|p ports]; [done|]. cbn [fmap list_fmap].
  fold (gocniPortMapping <$> ports). set (l := encode_mapping <$> (gocniPortMapping p :: (gocniPortMapping <$> ports))).
  assert (Forall (fun s => no_char "," s = true) l) as Hl.
  { subst l. change (gocniPortMapping p :: (gocniPortMapping <$> ports)) with (gocniPortMapping <$> (p :: ports)).
    rewrite !Forall_fmap. eapply Forall_impl; [exact Hp|]. intros q Hq. by apply encode_shape. }
  destruct (encode_shape p) as (_ & (c & s & Ec & Hc) & _); [by inversion Hp|].
  assert (exists d e, last l = Some e /\ last_char e = Some d /\ is_space d = false) as (d & e & He & Hd & Hds).
  { destruct (last (p :: ports)) as [q|] eqn:Hq; [|by apply last_None in Hq].
    destruct (encode_shape q) as (_ & _ & d & Hd & Hds).
    { rewrite Forall_forall in Hp. apply Hp. apply last_Some in Hq as [l' ->]. apply elem_of_app. right. by apply list_elem_of_singleton. }
    exists d, (encode_mapping (gocniPortMapping q)). split_and!; [|done..]. subst l.
    change (gocniPortMapping p :: (gocniPortMapping <$> ports)) with (gocniPortMapping <$> (p :: ports)).
    by rewrite !fmap_last, Hq. }
  destruct (Join_ends l c d) as (t & Ej & Hj).
  { subst l. cbn. rewrite Ec. eauto. }
  { by exists e. }
  transitivity (decodePortMappings (Join l ",")); [done|].
  unfold decodePortMappings. rewrite Ej in Hj |- *. erewrite TrimSpace_id by eassumption. cbn [String.eqb].
  rewrite <- Ej. change "," with (String "," ""). rewrite Split_Join; [|by subst l|done]. subst l.
  clear -Hp. change (gocniPortMapping p :: (gocniPortMapping <$> ports)) with (gocniPortMapping <$> (p :: ports)).
  induction (p :: ports) as [|q qs IH]; [done|]. cbn. rewrite decode_encode. f_equal. apply IH. by inversion Hp.
Qed.

(** The label of a container reads back as the mappings CNI was given when
    the container was set up, whatever the ports (a port above the range of
    [int32] wraps on both sides) and the protocols, as long as these hold no
    comma and no trailing blank. *)
Theorem portmap_label_roundtrip ports :
  Forall plain_proto ports -> decodePortMappings (encodePortMappings ports) = gocniPortMappings ports.
Proof. apply label_reads_back. Qed.

Lemma portmap_label_roundtrip_witness :
  let ports := [mkPortMapping 22 2222 ""; mkPortMapping 9000 3000000000 "UDP"] in
  encodePortMappings ports = "2222:22/tcp,-1294967296:9000/udp" /\
  decodePortMappings (encodePortMappings ports) = gocniPortMappings ports.
Proof.
  intros ports. split; [reflexivity|]. apply (portmap_label_roundtrip ports).
  repeat (constructor; [split; [reflexivity|eexists; split; reflexivity]|]). constructor.
Defined.
