(* ===== verification/Iptables.v ===== *)
(** * Port mappings of MicroVMs: runtime/microvm/firecracker/portmap.go

    The DNAT and FORWARD rules of a VM, tagged with a comment, and their
    removal through the listing of [iptables -S].  iptables itself is an
    interface: the chains it keeps and how it prints them ([IptablesLaws]). *)

From S2P Require Import Prelude GoStrings Exec Models PortMap.

Set Default Goal Selector "!".
Local Open Scope go_scope.

Definition iptables : string := "/usr/sbin/iptables".
Definition portmapComment (workload : string) : string := "capsule-vm:" +:+ workload.

(** ** Reading the listing *)

(** [shellFields]: split at blanks outside double quotes; the quotes are
    dropped and an empty field is not kept. *)
Definition push_field (cur : string) (rest : list string) : list string := match cur with "" => rest | _ => cur :: rest end.
Fixpoint fields_loop (s cur : string) (inQuotes : bool) : list string :=
  match s with
  | "" => push_field cur []
  | String c s =>
      if Ascii.eqb c DQ then fields_loop s cur (negb inQuotes)
      else if Ascii.eqb c " " && negb inQuotes then push_field cur (fields_loop s "" inQuotes)
      else fields_loop s (cur +:+ String c "") inQuotes
  end.
Definition shellFields (s : string) : list string := fields_loop s "" false.

(** [bufio.Scanner] with its default split and buffer: lines without their
    end, up to the first one that does not fit in 64 KiB. *)
Definition drop_cr (s : string) : string :=
  match last_char s with
  | Some c => if Ascii.eqb c (chr 13) then slice_to (String.length s - 1) s else s
  | None => s
  end.
Definition text_lines (s : string) : list string :=
  match last (Split NL s) with
  | Some "" => removelast (Split NL s)
  | _ => Split NL s
  end.
Fixpoint fitting (l : list string) : list string :=
  match l with
  | [] => []
  | s :: l => if Nat.ltb (String.length s) (64 * 1024) then s :: fitting l else []
  end.
Definition scan_lines (s : string) : list string := drop_cr <$> fitting (text_lines s).

(** The rule body of one line, if it is tagged. *)
Definition tagged_body (chain needle line : string) : option (list string) :=
  if negb (Contains line needle) then None
  else match shellFields line with
       | f0 :: f1 :: body => if String.eqb f0 "-A" && String.eqb f1 chain then Some body else None
       | _ => None
       end.
Definition quoted (s : string) : string := String DQ (s +:+ String DQ "").

(** ** The commands *)

Section portmap.
Context {D : Type} `{!Commands D}.

Definition addIptablesRule (table chain : string) (body : list string) : prog D unit :=
  o <- exec_prog iptables (["-t"; table; "-C"; chain] ++ body) ;;
  match o_err o with
  | None => ret tt
  | Some _ => exec_or_fail ("iptables -A " +:+ table +:+ " " +:+ chain) iptables (["-t"; table; "-A"; chain] ++ body)
  end.

Definition findRulesWithComment (table chain comment : string) : prog D (list (list string)) :=
  o <- exec_prog iptables ["-t"; table; "-S"; chain] ;;
  match o_err o with
  | Some _ => ret []
  | None => ret (omap (tagged_body chain (quoted comment)) (scan_lines (o_stdout o)))
  end.

Definition delete_rule (table chain : string) (rule : list string) : prog D unit :=
  exec_quiet iptables (["-t"; table; "-D"; chain] ++ rule).
Definition teardown_chain (comment : string) (spec : string * string) : prog D unit :=
  rules <- findRulesWithComment spec.1 spec.2 comment ;;
  for_each rules (delete_rule spec.1 spec.2).
Definition chains : list (string * string) := [("nat", "PREROUTING"); ("nat", "OUTPUT"); ("filter", "FORWARD")].
Definition teardownPortMappings (workload : string) : prog D unit :=
  for_each chains (teardown_chain (portmapComment workload)).

(** The three rules of a mapping, without their tag. *)
Definition dnat_prerouting (guestIP : string) (p : PortMapping) : list string :=
  ["-p"; proto_of p; "--dport"; Itoa (pm_host_port p); "-j"; "DNAT"; "--to-destination"; guestIP +:+ ":" +:+ Itoa (pm_container_port p)].
Definition dnat_output (guestIP : string) (p : PortMapping) : list string :=
  ["-p"; proto_of p; "-d"; "127.0.0.1"; "--dport"; Itoa (pm_host_port p); "-j"; "DNAT"; "--to-destination"; guestIP +:+ ":" +:+ Itoa (pm_container_port p)].
Definition forward_accept (guestIP : string) (p : PortMapping) : list string :=
  ["-p"; proto_of p; "-d"; guestIP; "--dport"; Itoa (pm_container_port p); "-j"; "ACCEPT"].
Definition tag (comment : string) : list string := ["-m"; "comment"; "--comment"; comment].

Definition apply_mapping (comment guestIP : string) (p : PortMapping) : prog D unit :=
  let host := pm_host_port p in
  let ctr := pm_container_port p in
  if (host =? 0)%Z || (ctr =? 0)%Z then
    fail (Errorf ("host_port and container_port are both required (got " +:+ Itoa host +:+ " → " +:+ Itoa ctr +:+ ")"))
  else
    wrap_err "dnat prerouting: " (addIptablesRule "nat" "PREROUTING" (dnat_prerouting guestIP p ++ tag comment)) ;;;
    wrap_err "dnat output: " (addIptablesRule "nat" "OUTPUT" (dnat_output guestIP p ++ tag comment)) ;;;
    wrap_err "forward accept: " (addIptablesRule "filter" "FORWARD" (forward_accept guestIP p ++ tag comment)).
Definition applyPortMappings (workload guestIP : string) (ports : list PortMapping) : prog D unit :=
  for_each ports (apply_mapping (portmapComment workload) guestIP).
End portmap.

(** ** iptables

    A rule is its matches, an optional comment and its target.  A rule whose
    words hold no blank, quote or line end and whose comment has no quote,
    backslash or line end is printed as these words, the comment between
    quotes when it holds anything but letters, digits, [-] and [_]. *)
Record Rule := mkRule { ru_match : list string; ru_comment : option string; ru_target : list string }.
#[export] Instance Rule_eq_dec : EqDecision Rule.
Proof. solve_decision. Defined.

Definition rule_args (r : Rule) : list string :=
  ru_match r ++ match ru_comment r with Some c => tag c | None => [] end ++ ru_target r.

Definition word_char (c : ascii) : bool := negb (Ascii.eqb c " " || Ascii.eqb c DQ || Ascii.eqb c NL || Ascii.eqb c (chr 13)).
Definition comment_char (c : ascii) : bool := negb (Ascii.eqb c DQ || Ascii.eqb c (chr 92) || Ascii.eqb c NL || Ascii.eqb c (chr 13)).
Definition no_quote_char (c : ascii) : bool := is_lower c || is_upper c || is_digit c || Ascii.eqb c "-" || Ascii.eqb c "_".
Definition word (s : string) : bool := negb (String.eqb s "") && all_chars word_char s.
Definition tidy (r : Rule) : Prop :=
  Forall (fun s => word s = true) (ru_match r ++ ru_target r) /\
  match ru_comment r with Some c => c <> "" /\ all_chars comment_char c = true | None => True end.

Definition comment_text (c : string) : string := if all_chars no_quote_char c then c else quoted c.
Definition rule_words (r : Rule) : list string :=
  ru_match r ++ match ru_comment r with Some c => ["-m"; "comment"; "--comment"; comment_text c] | None => [] end ++ ru_target r.
Definition rule_line (chain : string) (body : string) : string := "-A " +:+ chain +:+ " " +:+ body.

Fixpoint remove_first (r : Rule) (l : list Rule) : list Rule :=
  match l with [] => [] | x :: l => if decide (x = r) then l else x :: remove_first r l end.
Definition tagged (comment : string) (r : Rule) : bool :=
  match ru_comment r with Some c => String.eqb c comment | None => false end.

Class IptablesLaws (D : Type) `{!Commands D} := {
  chain_rules : D -> string * string -> list Rule;
  parse_rule : list string -> Rule;
  print_rule : Rule -> string;
  (** an added rule carries the comment it was given *)
  parse_tag body c : ru_comment (parse_rule (body ++ tag c)) = Some c;
  parse_tidy body c : Forall (fun s => word s = true) body -> c <> "" -> all_chars comment_char c = true ->
    tidy (parse_rule (body ++ tag c));
  (** a listed rule is accepted back *)
  parse_back d ch r : r ∈ chain_rules d ch -> parse_rule (rule_args r) = r;
  print_tidy r : tidy r -> print_rule r = Join (rule_words r) " ";
  (** a rule is one line, and a rule in a chain is no larger than 64 KiB *)
  print_line r : no_char NL (print_rule r) = true /\ no_char (chr 13) (print_rule r) = true;
  print_fits d t ch r : r ∈ chain_rules d (t, ch) -> (String.length (rule_line ch (print_rule r)) < 64 * 1024)%nat;
  law_check t ch body d :
    let '(o, d') := exec_Command iptables (["-t"; t; "-C"; ch] ++ body) d in
    chain_rules d' = chain_rules d /\ (o_err o = None -> parse_rule body ∈ chain_rules d (t, ch));
  law_append t ch body d :
    let '(o, d') := exec_Command iptables (["-t"; t; "-A"; ch] ++ body) d in
    match o_err o with
    | None => chain_rules d' (t, ch) = chain_rules d (t, ch) ++ [parse_rule body] /\
              forall k, k <> (t, ch) -> chain_rules d' k = chain_rules d k
    | Some _ => chain_rules d' = chain_rules d
    end;
  law_delete t ch body d :
    let '(o, d') := exec_Command iptables (["-t"; t; "-D"; ch] ++ body) d in
    match o_err o with
    | None => chain_rules d' (t, ch) = remove_first (parse_rule body) (chain_rules d (t, ch)) /\
              forall k, k <> (t, ch) -> chain_rules d' k = chain_rules d k
    | Some _ => chain_rules d' = chain_rules d
    end;
  (** the listing: lines about the chain itself, then a line per rule *)
  law_list t ch d :
    let '(o, d') := exec_Command iptables ["-t"; t; "-S"; ch] d in
    chain_rules d' = chain_rules d /\
    match o_err o with
    | None => exists headers, Forall (fun h => no_char DQ h = true /\ no_char NL h = true /\ no_char (chr 13) h = true /\
                                    (String.length h < 64 * 1024)%nat) headers /\
        o_stdout o = Join (headers ++ (rule_line ch ∘ print_rule <$> chain_rules d (t, ch)) ++ [""]) (String NL "")
    | Some _ => True
    end }.

(** iptables working: listings succeed, and so does the deletion of a rule that
    is there. *)
Class IptablesLive (D : Type) `{!Commands D, !IptablesLaws D} := {
  ipt_works : D -> Prop;
  works_list t ch d : ipt_works d -> o_err (exec_Command iptables ["-t"; t; "-S"; ch] d).1 = None;
  works_delete t ch body d : ipt_works d -> parse_rule body ∈ chain_rules d (t, ch) ->
    o_err (exec_Command iptables (["-t"; t; "-D"; ch] ++ body) d).1 = None;
  works_on args d : ipt_works d -> ipt_works (exec_Command iptables args d).2 }.

(** ** The listing reads back *)

Lemma fields_word w rest cur : all_chars word_char w = true -> fields_loop (w +:+ rest) cur false = fields_loop rest (cur +:+ w) false.
Proof.
  revert cur. induction w as [|c w IH]; intros cur Hw; [by rewrite app_nil_str|].
  cbn in Hw. apply andb_true_iff in Hw as [Hc Hw]. unfold word_char in Hc. apply negb_true_iff in Hc.
  apply orb_false_iff in Hc as [Hc _]. apply orb_false_iff in Hc as [Hc _]. apply orb_false_iff in Hc as [H1 H2].
  cbn [String.append fields_loop]. rewrite H1, H2. cbn [andb]. rewrite IH by done. by rewrite app_assoc_str.
Qed.
Lemma fields_quoted w rest cur : all_chars comment_char w = true ->
  fields_loop (w +:+ String DQ rest) cur true = fields_loop rest (cur +:+ w) false.
Proof.
  revert cur. induction w as [|c w IH]; intros cur Hw; [by rewrite app_nil_str|].
  cbn in Hw. apply andb_true_iff in Hw as [Hc Hw]. unfold comment_char in Hc. apply negb_true_iff in Hc.
  apply orb_false_iff in Hc as [Hc _]. apply orb_false_iff in Hc as [Hc _]. apply orb_false_iff in Hc as [H1 _].
  cbn [String.append fields_loop]. rewrite H1. cbn [negb]. rewrite andb_false_r. rewrite IH by done. by rewrite app_assoc_str.
Qed.

(** A word as it is printed and as it is meant. *)
Definition prints (v t : string) : Prop :=
  v <> "" /\ ((t = v /\ all_chars word_char v = true) \/ (t = quoted v /\ all_chars comment_char v = true)).

Lemma fields_token v t rest : prints v t -> fields_loop (t +:+ rest) "" false = fields_loop rest v false.
Proof.
  intros [_ [[-> H]|[-> H]]]; [by rewrite fields_word|]. unfold quoted. cbn [String.append fields_loop].
  rewrite Ascii.eqb_refl. cbn [negb]. rewrite app_assoc_str. exact (fields_quoted v rest "" H).
Qed.
Lemma push_not_empty v rest : v <> "" -> push_field v rest = v :: rest.
Proof. by destruct v. Qed.
Lemma shellFields_cons v t rest : prints v t -> shellFields (t +:+ " " +:+ rest) = v :: shellFields rest.
Proof.
  intros Hp. unfold shellFields. rewrite (fields_token v t _ Hp). cbn [String.append fields_loop].
  change (Ascii.eqb " " DQ) with false. cbn [Ascii.eqb Bool.eqb andb negb]. by rewrite push_not_empty by apply Hp.
Qed.
Lemma shellFields_Join vs ts : Forall2 prints vs ts -> shellFields (Join ts " ") = vs.
Proof.
  induction 1 as [|v t vs ts Hp Hps IH]; [done|]. destruct Hps as [|v2 t2 vs ts Hp2 Hps].
  - unfold shellFields. cbn [Join String.concat]. rewrite <- (app_nil_str t), (fields_token v t "" Hp). cbn [fields_loop].
    by rewrite push_not_empty by apply Hp.
  - rewrite Join_cons, (shellFields_cons v t _ Hp). by rewrite IH.
Qed.

Lemma prefix_no c k s : no_char c s = true -> String.prefix (String c k) s = false.
Proof.
  destruct s as [|d s]; [done|]. intros [Hd _]%andb_true_iff. cbn in *. destruct (ascii_dec c d) as [->|]; [|done].
  by rewrite Ascii.eqb_refl in Hd.
Qed.
Lemma Contains_no c k s : no_char c s = true -> Contains s (String c k) = false.
Proof.
  induction s as [|d s IH]; intros Hs; [done|]. cbn [Contains]. rewrite prefix_no by done.
  apply IH. unfold no_char in Hs. cbn in Hs. by apply andb_true_iff in Hs as [_ Hs].
Qed.
Lemma prefix_quoted k s post : no_char DQ k = true -> no_char DQ s = true ->
  String.prefix (k +:+ String DQ "") (s +:+ String DQ post) = String.eqb s k.
Proof.
  revert s. induction k as [|c k IH]; intros [|d s] Hk Hs; cbn [String.append].
  - cbn. by destruct post.
  - unfold no_char in Hs. cbn in Hs. apply andb_true_iff in Hs as [Hd _]. cbn [String.prefix].
    destruct (ascii_dec DQ d) as [<-|]; [|done]. by vm_compute in Hd.
  - unfold no_char in Hk. cbn in Hk. apply andb_true_iff in Hk as [Hc _]. cbn [String.prefix].
    destruct (ascii_dec c DQ) as [->|]; [|done]. by vm_compute in Hc.
  - unfold no_char in Hs, Hk. cbn in Hs, Hk. apply andb_true_iff in Hs as [_ Hs]. apply andb_true_iff in Hk as [_ Hk].
    cbn [String.prefix String.eqb]. destruct (ascii_dec c d) as [->|Hne].
    + rewrite Ascii.eqb_refl. by apply IH.
    + by rewrite (proj2 (Ascii.eqb_neq d c)) by congruence.
Qed.
Lemma Contains_quoted pre s post k : no_char DQ pre = true -> no_char DQ s = true -> no_char DQ post = true -> no_char DQ k = true ->
  Contains (pre +:+ quoted s +:+ post) (quoted k) = String.eqb s k.
Proof.
  intros Hpre Hs Hpost Hk. unfold quoted at 2. induction pre as [|c pre IH].
  - unfold quoted. cbn [String.append Contains]. rewrite app_assoc_str. cbn [String.append].
    assert (Contains (s +:+ String DQ post) (String DQ (k +:+ String DQ "")) = false) as ->.
    { clear -Hs Hpost Hk. induction s as [|d s IH].
      - cbn [String.append Contains]. rewrite Contains_no by done. rewrite orb_false_r. cbn [String.prefix].
        destruct (ascii_dec DQ DQ); [|done]. clear -Hpost. revert post Hpost. induction k as [|c k IH]; intros post Hp; cbn [String.append]; [by apply prefix_no|].
        destruct post as [|d post]; [done|]. cbn [String.prefix]. destruct (ascii_dec c d); [|done]. apply IH.
        unfold no_char in Hp. cbn in Hp. by apply andb_true_iff in Hp as [_ Hp].
      - unfold no_char in Hs. cbn in Hs. apply andb_true_iff in Hs as [Hd Hs]. cbn [String.append Contains].
        rewrite IH by done. rewrite orb_false_r. cbn [String.prefix]. destruct (ascii_dec DQ d) as [<-|]; [|done]. by vm_compute in Hd. }
    rewrite orb_false_r. cbn [String.prefix]. destruct (ascii_dec DQ DQ); [|done]. by apply prefix_quoted.
  - unfold no_char in Hpre. cbn in Hpre. apply andb_true_iff in Hpre as [Hc Hpre]. cbn [String.append Contains].
    rewrite (IH Hpre). cbn [String.prefix]. destruct (ascii_dec DQ c) as [<-|]; [by vm_compute in Hc|done].
Qed.

(** ** The rules of one workload *)

Lemma no_char_Join c l sep : no_char c sep = true -> Forall (fun s => no_char c s = true) l -> no_char c (Join l sep) = true.
Proof.
  intros Hs Hl. induction Hl as [|x l Hx Hl IH]; [done|]. destruct l as [|y l]; [done|].
  rewrite Join_cons. unfold no_char in *. by rewrite !all_chars_app, Hx, Hs, IH.
Qed.
Lemma Join_app l1 l2 sep : l2 <> [] -> Join (l1 ++ l2) sep = match l1 with [] => "" | _ => Join l1 sep +:+ sep end +:+ Join l2 sep.
Proof.
  intros H2. induction l1 as [|x l1 IH]; [done|]. destruct l1 as [|y l1].
  - destruct l2; [done|]. cbn [app]. by rewrite Join_cons, <- app_assoc_str.
  - cbn [app] in IH |- *. rewrite !Join_cons, IH. by rewrite !app_assoc_str.
Qed.

Lemma word_char_DQ c : word_char c = true -> negb (Ascii.eqb DQ c) = true.
Proof. unfold word_char. destruct c as [[] [] [] [] [] [] [] []]; vm_compute; congruence. Qed.
Lemma comment_char_DQ c : comment_char c = true -> negb (Ascii.eqb DQ c) = true.
Proof. unfold comment_char. destruct c as [[] [] [] [] [] [] [] []]; vm_compute; congruence. Qed.
Lemma no_quote_word c : no_quote_char c = true -> word_char c = true.
Proof. destruct c as [[] [] [] [] [] [] [] []]; vm_compute; congruence. Qed.
Lemma word_no_DQ s : word s = true -> no_char DQ s = true.
Proof. intros [_ H]%andb_true_iff. eapply all_chars_impl, H. apply word_char_DQ. Qed.

Lemma word_prints s : word s = true -> prints s s.
Proof. intros [H1 H2]%andb_true_iff. split; [intros ->; done|by left]. Qed.
Lemma comment_prints c : c <> "" -> all_chars comment_char c = true -> prints c (comment_text c).
Proof.
  intros Hc H. split; [done|]. unfold comment_text. destruct (all_chars no_quote_char c) eqn:E; [left|by right].
  split; [done|]. eapply all_chars_impl, E. apply no_quote_word.
Qed.

Lemma tidy_prints r : tidy r -> Forall2 prints (rule_args r) (rule_words r).
Proof.
  intros [Hw Hc]. apply Forall_app in Hw as [Hm Ht]. unfold rule_args, rule_words.
  assert (forall l, Forall (fun s => word s = true) l -> Forall2 prints l l) as Hl by (induction 1; constructor; [by apply word_prints|done]).
  apply Forall2_app; [by apply Hl|]. apply Forall2_app; [|by apply Hl]. destruct (ru_comment r) as [c|]; [|constructor].
  destruct Hc as [H1 H2]. unfold tag. do 3 (constructor; [by apply word_prints|]). constructor; [by apply comment_prints|constructor].
Qed.

(** Only the comment of a tidy rule can match a quoted needle. *)
Lemma tidy_Contains chain r comment : tidy r -> word chain = true -> no_char DQ comment = true -> all_chars no_quote_char comment = false ->
  Contains (rule_line chain (Join (rule_words r) " ")) (quoted comment) = tagged comment r.
Proof.
  intros [Hw Hc] Hch Hcm Hq. apply Forall_app in Hw as [Hm Ht].
  assert (Forall (fun s => no_char DQ s = true) (ru_match r)) as Hm' by (eapply Forall_impl; [exact Hm|apply word_no_DQ]).
  assert (Forall (fun s => no_char DQ s = true) (ru_target r)) as Ht' by (eapply Forall_impl; [exact Ht|apply word_no_DQ]).
  assert (forall s, no_char DQ s = true -> no_char DQ (rule_line chain s) = true) as Hline.
  { intros s Hs. unfold rule_line, no_char in *. rewrite !all_chars_app, Hs. pose proof (word_no_DQ _ Hch) as H. unfold no_char in H. by rewrite H. }
  unfold rule_words, tagged. destruct (ru_comment r) as [c|] eqn:Ec.
  2: { apply Contains_no, Hline, no_char_Join; [done|]. by apply Forall_app. }
  destruct Hc as [Hc1 Hc2]. assert (no_char DQ c = true) as HcDQ by (eapply all_chars_impl, Hc2; apply comment_char_DQ).
  unfold comment_text. destruct (all_chars no_quote_char c) eqn:Eq.
  - rewrite (proj2 (String.eqb_neq c comment)) by congruence. apply Contains_no, Hline, no_char_Join; [done|].
    apply Forall_app; split; [done|]. by repeat (constructor; [done|]).
  - set (pre := Join (ru_match r ++ ["-m"; "comment"; "--comment"]) " " +:+ " ").
    set (post := match ru_target r with [] => "" | l => " " +:+ Join l " " end).
    assert (Join (ru_match r ++ ["-m"; "comment"; "--comment"; quoted c] ++ ru_target r) " " = pre +:+ quoted c +:+ post) as ->.
    { replace (ru_match r ++ ["-m"; "comment"; "--comment"; quoted c] ++ ru_target r)
        with ((ru_match r ++ ["-m"; "comment"; "--comment"]) ++ (quoted c :: ru_target r)) by by rewrite <- app_assoc.
      rewrite Join_app by done. subst pre post. destruct (ru_match r ++ ["-m"; "comment"; "--comment"]) eqn:E; [by destruct (ru_match r)|]. rewrite <- E.
      f_equal. destruct (ru_target r); [by rewrite app_nil_str|]. by rewrite Join_cons. }
    unfold rule_line. rewrite <- !app_assoc_str. rewrite (app_assoc_str _ (quoted c)). rewrite Contains_quoted; [done| |done| |done].
    + subst pre. rewrite !app_assoc_str. apply Hline. unfold no_char. rewrite all_chars_app. fold (no_char DQ).
      rewrite no_char_Join; [done..|]. apply Forall_app. split; [done|]. by repeat constructor.
    + subst post. destruct (ru_target r) eqn:E; [done|]. rewrite <- E. unfold no_char. rewrite all_chars_app. fold (no_char DQ).
      rewrite no_char_Join; [done..|]. by rewrite E.
Qed.

Lemma last_char_no c s : no_char c s = true -> last_char s <> Some c.
Proof.
  induction s as [|d s IH]; [done|]. unfold no_char. cbn [all_chars]. intros [Hd Hs]%andb_true_iff. cbn [last_char].
  destruct s; [|by apply IH]. intros [= ->]. by rewrite Ascii.eqb_refl in Hd.
Qed.
Lemma drop_cr_id s : no_char (chr 13) s = true -> drop_cr s = s.
Proof.
  intros Hs. unfold drop_cr. pose proof (last_char_no _ _ Hs) as H. destruct (last_char s) as [c|]; [|done].
  destruct (Ascii.eqb_spec c (chr 13)) as [->|]; done.
Qed.

Definition line_ok (s : string) : Prop :=
  no_char NL s = true /\ no_char (chr 13) s = true /\ (String.length s < 64 * 1024)%nat.

Lemma scan_lines_Join l : Forall line_ok l -> scan_lines (Join (l ++ [""]) (String NL "")) = l.
Proof.
  intros Hl. unfold scan_lines, text_lines. rewrite Split_Join.
  2: { by destruct l. }
  2: { apply Forall_app. split; [|by repeat constructor]. eapply Forall_impl; [exact Hl|]. by intros s (? & _). }
  rewrite last_snoc, removelast_last. induction Hl as [|s l (_ & Hcr & Hlen) Hl IH]; [done|].
  cbn [fitting]. rewrite (proj2 (Nat.ltb_lt _ _)) by exact Hlen. cbn [fmap list_fmap]. by rewrite drop_cr_id, IH.
Qed.

(** The comment of a workload: it has a colon, so it is always quoted. *)
Definition plain_name (name : string) : Prop := all_chars is_label_char name = true.
Lemma plain_comment name : plain_name name -> let c := portmapComment name in
  c <> "" /\ all_chars comment_char c = true /\ no_char DQ c = true /\ all_chars no_quote_char c = false.
Proof.
  intros Hn. unfold portmapComment. split_and!; [done| | |].
  - rewrite all_chars_app. apply andb_true_iff. split; [done|]. eapply all_chars_impl, Hn. intros c. destruct c as [[] [] [] [] [] [] [] []]; vm_compute; congruence.
  - unfold no_char. rewrite all_chars_app. apply andb_true_iff. split; [done|]. eapply all_chars_impl, Hn. intros c. destruct c as [[] [] [] [] [] [] [] []]; vm_compute; congruence.
  - reflexivity.
Qed.

Section chains.
Context {D : Type} `{!Commands D, !IptablesLaws D}.

(** What a listing must look like for the rules of [comment] to be found: every
    rule is tidy, or it is another's and its line does not mention the comment. *)
Definition readable (comment chain : string) (r : Rule) : Prop :=
  tidy r \/ (tagged comment r = false /\ Contains (rule_line chain (print_rule r)) (quoted comment) = false).

Lemma tagged_body_line name chain r : plain_name name -> word chain = true -> readable (portmapComment name) chain r ->
  tagged_body chain (quoted (portmapComment name)) (rule_line chain (print_rule r)) =
  if tagged (portmapComment name) r then Some (rule_args r) else None.
Proof.
  intros Hn Hch Hr. destruct (plain_comment name Hn) as (H1 & H2 & H3 & H4). unfold tagged_body. destruct Hr as [Ht|[-> ->]]; [|done].
  rewrite (print_tidy _ Ht), tidy_Contains by done. destruct (tagged _ r); [|done]. cbn [negb].
  assert (shellFields (rule_line chain (Join (rule_words r) " ")) = "-A" :: chain :: rule_args r) as ->.
  { unfold rule_line. change ("-A " +:+ ?s) with ("-A" +:+ " " +:+ s).
    rewrite (shellFields_cons "-A" "-A"), (shellFields_cons chain chain) by by apply word_prints.
    by rewrite (shellFields_Join (rule_args r) (rule_words r)) by by apply tidy_prints. }
  by rewrite !String.eqb_refl.
Qed.

Lemma word_char_NL c : word_char c = true -> negb (Ascii.eqb NL c) = true.
Proof. destruct c as [[] [] [] [] [] [] [] []]; vm_compute; congruence. Qed.
Lemma word_char_CR c : word_char c = true -> negb (Ascii.eqb (chr 13) c) = true.
Proof. destruct c as [[] [] [] [] [] [] [] []]; vm_compute; congruence. Qed.
Lemma rule_line_no_char c chain s : (forall d, word_char d = true -> negb (Ascii.eqb c d) = true) ->
  no_char c "-A " = true -> no_char c " " = true -> word chain = true -> no_char c s = true -> no_char c (rule_line chain s) = true.
Proof.
  intros Hc H1 H2 [_ Hch]%andb_true_iff Hs. unfold rule_line, no_char in *. rewrite !all_chars_app, H1, H2, Hs.
  by rewrite (all_chars_impl _ _ chain Hc Hch).
Qed.

Lemma omap_filter (f : string -> option (list string)) (g : Rule -> string) (p : Rule -> bool) l :
  (forall r, r ∈ l -> f (g r) = if p r then Some (rule_args r) else None) ->
  omap f (g <$> l) = rule_args <$> List.filter p l.
Proof.
  induction l as [|r l IH]; intros H; [done|]. cbn. rewrite H by apply list_elem_of_here.
  rewrite IH by (intros; apply H; by apply list_elem_of_further). by destruct (p r).
Qed.
Lemma omap_none (f : string -> option (list string)) l : Forall (fun s => f s = None) l -> omap f l = [].
Proof. induction 1 as [|s l Hs Hl IH]; [done|]. cbn. by rewrite Hs. Qed.

(** The rules found are the tagged ones. *)
Lemma find_spec name t ch d : plain_name name -> word ch = true -> Forall (readable (portmapComment name) ch) (chain_rules d (t, ch)) ->
  exists rules d', findRulesWithComment t ch (portmapComment name) d = (Ok rules, d') /\
    d' = (exec_Command iptables ["-t"; t; "-S"; ch] d).2 /\ chain_rules d' = chain_rules d /\
    (o_err (exec_Command iptables ["-t"; t; "-S"; ch] d).1 = None ->
       rules = rule_args <$> List.filter (tagged (portmapComment name)) (chain_rules d (t, ch))).
Proof.
  intros Hn Hch Hr. pose proof (law_list t ch d) as Hl. unfold findRulesWithComment, bind, exec_prog.
  destruct (exec_Command iptables ["-t"; t; "-S"; ch] d) as [o d'] eqn:Ex. destruct Hl as [Hd Ho]. cbn [fst snd].
  destruct (o_err o); [by do 2 eexists|]. destruct Ho as (headers & Hh & ->). do 2 eexists. split_and!; [done..|]. intros _.
  assert (Forall line_ok (headers ++ (rule_line ch ∘ print_rule <$> chain_rules d (t, ch)))) as Hok.
  { apply Forall_app. split; [eapply Forall_impl; [exact Hh|]; by intros h (_ & ? & ? & ?)|]. apply Forall_fmap.
    apply Forall_forall. intros r Hin. destruct (print_line r) as [H1 H2].
    split_and!; [by apply rule_line_no_char; [apply word_char_NL|..]|by apply rule_line_no_char; [apply word_char_CR|..]|by apply (print_fits d t)]. }
  rewrite app_assoc, scan_lines_Join by exact Hok. rewrite omap_app, omap_none.
  - apply (omap_filter _ (rule_line ch ∘ print_rule)). intros r Hin. apply tagged_body_line; [done..|]. by eapply Forall_forall.
  - eapply Forall_impl; [exact Hh|]. intros h (Hq & _). unfold tagged_body, quoted. by rewrite Contains_no.
Qed.

(** Deleting the tagged rules one after the other leaves the others, in order. *)
Lemma remove_first_tagged p r l ts : List.filter p l = r :: ts ->
  List.filter p (remove_first r l) = ts /\ List.filter (fun x => negb (p x)) (remove_first r l) = List.filter (fun x => negb (p x)) l /\ remove_first r l ⊆ l.
Proof.
  induction l as [|x l IH]; [done|]. cbn [List.filter remove_first]. intros H. destruct (decide (x = r)) as [->|Hne].
  - destruct (p r) eqn:E; cbn in *.
    + injection H as <-. split_and!; [done..|]. intros y Hy. by apply list_elem_of_further.
    + exfalso. assert (In r (List.filter p l)) as Hin by (rewrite H; by left). apply filter_In in Hin as [_ Hin]. congruence.
  - cbn [List.filter]. destruct (p x) eqn:E; [congruence|]. destruct (IH H) as (H1 & H2 & H3). cbn [negb].
    split_and!; [done|by rewrite H2|]. intros y [->|Hy]%elem_of_cons; [by apply list_elem_of_here|]. apply list_elem_of_further. by apply H3.
Qed.
End chains.

Section live.
Context {D : Type} `{!Commands D, !IptablesLaws D, !IptablesLive D}.

Lemma delete_all comment t ch ts : forall d, ipt_works d ->
  List.filter (tagged comment) (chain_rules d (t, ch)) = ts ->
  exists d', for_each (rule_args <$> ts) (delete_rule t ch) d = (Ok tt, d') /\ ipt_works d' /\
    chain_rules d' (t, ch) = List.filter (fun x => negb (tagged comment x)) (chain_rules d (t, ch)) /\
    forall k, k <> (t, ch) -> chain_rules d' k = chain_rules d k.
Proof.
  induction ts as [|r ts IH]; intros d Hw Hts.
  - exists d. split_and!; [done..| |done]. clear -Hts. induction (chain_rules d (t, ch)) as [|x l IHl]; [done|]. cbn in Hts |- *.
    destruct (tagged comment x); [done|]. cbn. f_equal. by apply IHl.
  - cbn [fmap list_fmap for_each]. assert (r ∈ chain_rules d (t, ch)) as Hin.
    { assert (In r (List.filter (tagged comment) (chain_rules d (t, ch)))) as H by (rewrite Hts; by left).
      apply filter_In in H as [H _]. by apply list_elem_of_In. }
    pose proof (parse_back d (t, ch) r Hin) as Hp.
    pose proof (law_delete t ch (rule_args r) d) as Hl. pose proof (works_delete t ch (rule_args r) d Hw) as Hok.
    pose proof (works_on ([ "-t"; t; "-D"; ch] ++ rule_args r) d Hw) as Hw'. rewrite Hp in Hl, Hok. specialize (Hok Hin).
    unfold delete_rule at 1, exec_quiet, exec_prog, ignore, bind. fold (@delete_rule D _).
    destruct (exec_Command iptables (["-t"; t; "-D"; ch] ++ rule_args r) d) as [o d1]. cbn [fst snd] in *. rewrite Hok in Hl.
    destruct Hl as [H1 H2]. destruct (remove_first_tagged _ _ _ _ Hts) as (F1 & F2 & _).
    destruct (IH d1 Hw') as (d' & E & Hw2 & H3 & H4); [by rewrite H1|]. exists d'. split_and!; [exact E|done| |].
    + by rewrite H3, H1.
    + intros k Hk. by rewrite H4, H2.
Qed.
Definition untagged (comment : string) (l : list Rule) : list Rule := List.filter (fun x => negb (tagged comment x)) l.

Lemma untagged_idem comment l : untagged comment (untagged comment l) = untagged comment l.
Proof. unfold untagged. induction l as [|x l IH]; [done|]. cbn. destruct (tagged comment x) eqn:E; cbn; [done|]. by rewrite E, IH. Qed.

Lemma teardown_chain_spec name k d : plain_name name -> word k.2 = true -> ipt_works d ->
  Forall (readable (portmapComment name) k.2) (chain_rules d k) ->
  exists d', teardown_chain (portmapComment name) k d = (Ok tt, d') /\ ipt_works d' /\
    chain_rules d' k = untagged (portmapComment name) (chain_rules d k) /\
    forall k', k' <> k -> chain_rules d' k' = chain_rules d k'.
Proof.
  destruct k as [t ch]. cbn [fst snd]. intros Hn Hch Hw Hr.
  destruct (find_spec name t ch d Hn Hch Hr) as (rules & d1 & E & Hd1 & Hsame & Hrules).
  specialize (Hrules (works_list t ch d Hw)). subst rules. unfold teardown_chain, bind. cbn [fst snd]. rewrite E.
  assert (ipt_works d1) as Hw1 by (rewrite Hd1; by apply works_on).
  rewrite <- Hsame in *. by apply delete_all.
Qed.

Lemma teardown_chains name specs : plain_name name -> NoDup specs -> Forall (fun k => word k.2 = true) specs -> forall d, ipt_works d ->
  (forall k, k ∈ specs -> Forall (readable (portmapComment name) k.2) (chain_rules d k)) ->
  exists d', for_each specs (teardown_chain (portmapComment name)) d = (Ok tt, d') /\ ipt_works d' /\
    forall k, chain_rules d' k = if decide (k ∈ specs) then untagged (portmapComment name) (chain_rules d k) else chain_rules d k.
Proof.
  intros Hn. induction specs as [|k specs IH]; intros Hnd Hw d Hd Hr.
  - exists d. split_and!; [done..|]. intros k. by rewrite decide_False by apply not_elem_of_nil.
  - inversion Hnd as [|? ? Hk Hnd']. subst. inversion Hw as [|? ? Hwk Hws]. subst.
    destruct (teardown_chain_spec name k d Hn Hwk Hd) as (d1 & E1 & Hd1 & H1 & H2); [apply Hr, list_elem_of_here|].
    destruct (IH Hnd' Hws d1 Hd1) as (d' & E & Hd' & H3).
    { intros k' Hk'. rewrite H2 by (intros ->; done). by apply Hr, list_elem_of_further. }
    exists d'. cbn [for_each]. unfold bind at 1. rewrite E1. split_and!; [done..|]. intros k'. rewrite H3.
    destruct (decide (k' = k)) as [->|Hne].
    + rewrite (decide_False (P:=k ∈ specs)) by done. rewrite decide_True by apply list_elem_of_here. done.
    + rewrite H2 by done. destruct (decide (k' ∈ specs)) as [Hin|Hin].
      * rewrite decide_True by by apply list_elem_of_further. done.
      * rewrite decide_False; [done|]. by intros [->|?]%elem_of_cons.
Qed.

(** *** Adding *)

(** What the rules of a workload leave alone. *)
Definition others (name : string) (R : string * string -> list Rule) (d : D) : Prop :=
  ipt_works d /\ (forall k, untagged (portmapComment name) (chain_rules d k) = untagged (portmapComment name) (R k)) /\
  (forall k, k ∈ chains -> Forall (readable (portmapComment name) k.2) (chain_rules d k)) /\
  forall k, k ∉ chains -> chain_rules d k = R k.

Lemma addIptablesRule_spec t ch body d r d' : addIptablesRule t ch body d = (r, d') -> ipt_works d ->
  ipt_works d' /\ (forall k, k <> (t, ch) -> chain_rules d' k = chain_rules d k) /\
  (chain_rules d' (t, ch) = chain_rules d (t, ch) \/ chain_rules d' (t, ch) = chain_rules d (t, ch) ++ [parse_rule body]) /\
  (r = Ok tt -> parse_rule body ∈ chain_rules d' (t, ch)).
Proof.
  intros H Hw. unfold addIptablesRule, exec_or_fail, exec_prog in H. unfold bind in H.
  pose proof (law_check t ch body d) as Hc. pose proof (works_on (["-t"; t; "-C"; ch] ++ body) d Hw) as Hw1.
  destruct (exec_Command iptables (["-t"; t; "-C"; ch] ++ body) d) as [o d1]. destruct Hc as [Hsame Hin]. cbn [fst snd] in *.
  destruct (o_err o) as [e|].
  - pose proof (law_append t ch body d1) as Ha. pose proof (works_on (["-t"; t; "-A"; ch] ++ body) d1 Hw1) as Hw2.
    destruct (exec_Command iptables (["-t"; t; "-A"; ch] ++ body) d1) as [o2 d2]. cbn [fst snd] in *.
    destruct (o_err o2).
    + injection H as <- <-. rewrite Ha, Hsame. split_and!; [done..|by left|done].
    + injection H as <- <-. destruct Ha as [Ha Hf]. rewrite <- Hsame. split_and!; [done..|by right|]. intros _. rewrite Ha.
      apply elem_of_app. right. by apply list_elem_of_here.
  - injection H as <- <-. rewrite Hsame. split_and!; [done..|by left|]. intros _. by apply Hin.
Qed.

Lemma others_add name R t ch body : plain_name name -> (t, ch) ∈ chains -> Forall (fun s => word s = true) body ->
  preserves (others name R) (addIptablesRule t ch (body ++ tag (portmapComment name))).
Proof.
  intros Hn Hk Hb d (Hw & Hu & Hr & Ho). destruct (addIptablesRule _ _ _ d) as [r d'] eqn:E.
  apply addIptablesRule_spec in E as (Hw' & Hf & Hcase & _); [|done]. cbn [snd].
  pose proof (parse_tag body (portmapComment name)) as Hp. destruct (plain_comment name Hn) as (H1 & H2 & _).
  pose proof (parse_tidy body (portmapComment name) Hb H1 H2) as Ht.
  unfold others. split_and!; [done|..].
  - intros k. destruct (decide (k = (t, ch))) as [->|Hne]; [|by rewrite Hf]. destruct Hcase as [-> | ->]; [done|].
    rewrite <- Hu. unfold untagged. rewrite List.filter_app. cbn [List.filter].
    replace (tagged (portmapComment name) (parse_rule (body ++ tag (portmapComment name)))) with true; [by rewrite app_nil_r|].
    unfold tagged. by rewrite Hp, String.eqb_refl.
  - intros k Hin. destruct (decide (k = (t, ch))) as [->|Hne]; [|rewrite Hf by done; by apply Hr].
    destruct Hcase as [-> | ->]; [by apply Hr|]. apply Forall_app. split; [by apply Hr|]. constructor; [by left|constructor].
  - intros k Hnin. rewrite Hf by (intros ->; done). by apply Ho.
Qed.

Lemma word_Itoa z : word (Itoa z) = true.
Proof.
  unfold word. apply andb_true_iff. split.
  - destruct (String.eqb_spec (Itoa z) "") as [E|]; [|done]. by apply Itoa_not_empty in E.
  - eapply all_chars_impl, Itoa_chars. intros c. destruct c as [[] [] [] [] [] [] [] []]; vm_compute; congruence.
Qed.
Lemma word_app s t : word s = true -> all_chars word_char t = true -> word (s +:+ t) = true.
Proof.
  unfold word. intros [H1 H2]%andb_true_iff Ht. rewrite all_chars_app, H2, Ht. by destruct s.
Qed.
Lemma mapping_words guestIP p : word guestIP = true -> word (proto_of p) = true ->
  Forall (fun s => word s = true) (dnat_prerouting guestIP p) /\ Forall (fun s => word s = true) (dnat_output guestIP p) /\
  Forall (fun s => word s = true) (forward_accept guestIP p).
Proof.
  intros Hip Hp. assert (word (guestIP +:+ ":" +:+ Itoa (pm_container_port p)) = true) as Hdst.
  { apply word_app; [done|]. rewrite all_chars_app. apply andb_true_iff. split; [done|]. pose proof (word_Itoa (pm_container_port p)) as H. by apply andb_true_iff in H as [_ H]. }
  pose proof (word_Itoa (pm_container_port p)). pose proof (word_Itoa (pm_host_port p)).
  split_and!; repeat (constructor; [done|]); constructor.
Qed.

Lemma others_apply name R guestIP ports : plain_name name -> word guestIP = true -> Forall (fun p => word (proto_of p) = true) ports ->
  preserves (others name R) (applyPortMappings name guestIP ports).
Proof.
  intros Hn Hip Hp. apply preserves_for_each. intros p Hin. rewrite Forall_forall in Hp.
  destruct (mapping_words guestIP p Hip (Hp p Hin)) as (H1 & H2 & H3).
  unfold apply_mapping. go_preserves; apply others_add; try done; unfold chains; set_solver.
Qed.

(** The rules of a mapping in their chains. *)
Definition installed (comment guestIP : string) (p : PortMapping) (d : D) : Prop :=
  parse_rule (dnat_prerouting guestIP p ++ tag comment) ∈ chain_rules d ("nat", "PREROUTING") /\
  parse_rule (dnat_output guestIP p ++ tag comment) ∈ chain_rules d ("nat", "OUTPUT") /\
  parse_rule (forward_accept guestIP p ++ tag comment) ∈ chain_rules d ("filter", "FORWARD").

Definition grown (d d' : D) : Prop := forall k r, r ∈ chain_rules d k -> r ∈ chain_rules d' k.

Lemma add_grown t ch body d : ipt_works d -> let '(r, d') := addIptablesRule t ch body d in
  ipt_works d' /\ grown d d' /\ (r = Ok tt -> parse_rule body ∈ chain_rules d' (t, ch)).
Proof.
  intros Hw. destruct (addIptablesRule t ch body d) as [r d'] eqn:E. apply addIptablesRule_spec in E as (H1 & H2 & H3 & H4); [|done].
  split_and!; [done| |done]. intros k x Hx. destruct (decide (k = (t, ch))) as [->|Hne]; [|by rewrite H2].
  destruct H3 as [-> | ->]; [done|]. apply elem_of_app. by left.
Qed.

Lemma apply_mapping_Ok comment guestIP p d d' : ipt_works d -> apply_mapping comment guestIP p d = (Ok tt, d') ->
  ipt_works d' /\ grown d d' /\ installed comment guestIP p d'.
Proof.
  intros Hw. unfold apply_mapping. case_match; [done|]. intros ([] & d1 & E1 & H2)%bind_Ok_inv. apply bind_Ok_inv in H2 as ([] & d2 & E2 & E3).
  unfold wrap_err in *.
  pose proof (add_grown "nat" "PREROUTING" (dnat_prerouting guestIP p ++ tag comment) d Hw) as A1.
  destruct (addIptablesRule "nat" "PREROUTING" _ d) as [[[]|] x1]; [|done]. injection E1 as ->. destruct A1 as (Hw1 & G1 & I1).
  pose proof (add_grown "nat" "OUTPUT" (dnat_output guestIP p ++ tag comment) d1 Hw1) as A2.
  destruct (addIptablesRule "nat" "OUTPUT" _ d1) as [[[]|] x2]; [|done]. injection E2 as ->. destruct A2 as (Hw2 & G2 & I2).
  pose proof (add_grown "filter" "FORWARD" (forward_accept guestIP p ++ tag comment) d2 Hw2) as A3.
  destruct (addIptablesRule "filter" "FORWARD" _ d2) as [[[]|] x3]; [|done]. injection E3 as ->. destruct A3 as (Hw3 & G3 & I3).
  split_and!; [done|by intros k r Hr; apply G3, G2, G1|]. split_and!; [by apply G3, G2, I1|by apply G3, I2|by apply I3].
Qed.

Lemma apply_installs name guestIP ports : forall d d', ipt_works d -> applyPortMappings name guestIP ports d = (Ok tt, d') ->
  grown d d' /\ Forall (fun p => installed (portmapComment name) guestIP p d') ports.
Proof.
  unfold applyPortMappings. induction ports as [|p ports IH]; intros d d' Hw H; cbn in H; [injection H as <-; split; [by intros k r|constructor]|].
  apply bind_Ok_inv in H as ([] & d1 & H1 & H). apply apply_mapping_Ok in H1 as (Hw1 & G1 & (I1 & I2 & I3)); [|done].
  destruct (IH _ _ Hw1 H) as [G2 I]. split; [by intros k r Hr; apply G2, G1|]. constructor; [|done].
  split_and!; by apply G2.
Qed.

(** C12: While iptables works, applying the port mappings of a VM installs the
    three rules of every mapping or fails, and after a teardown - whatever the
    applying did before it failed - every chain is as it was without the
    workload's rules: the rules of others are all there, in their order, and
    none tagged with the workload is left, though the teardown only knows the
    rules by what [iptables -S] prints. *)
Theorem portmap_teardown_restores name guestIP ports d r d1 :
  plain_name name -> word guestIP = true -> Forall (fun p => word (proto_of p) = true) ports ->
  ipt_works d -> (forall k, k ∈ chains -> Forall (readable (portmapComment name) k.2) (chain_rules d k)) ->
  applyPortMappings name guestIP ports d = (r, d1) ->
  (r = Ok tt -> Forall (fun p => installed (portmapComment name) guestIP p d1) ports) /\
  exists d2, teardownPortMappings name d1 = (Ok tt, d2) /\
    forall k, chain_rules d2 k = if decide (k ∈ chains) then untagged (portmapComment name) (chain_rules d k) else chain_rules d k.
Proof.
  intros Hn Hip Hp Hw Hr E. split; [intros ->; by eapply apply_installs|].
  pose proof (others_apply name (chain_rules d) guestIP ports Hn Hip Hp d) as (Hw1 & Hu & Hr1 & Ho); [by split_and!|].
  rewrite E in Hw1, Hu, Hr1, Ho. cbn [snd] in *.
  destruct (teardown_chains name chains Hn) with (d := d1) as (d2 & E2 & _ & H2); [|by repeat constructor|done..|].
  { apply (bool_decide_unpack _). vm_compute. exact I. }
  exists d2. split; [exact E2|]. intros k. rewrite H2. destruct (decide (k ∈ chains)); [apply Hu|by apply Ho].
Qed.
End live.

(** ** A reference iptables *)

Module RefIptables.
Record machine := mkMachine { tables : gmap (string * string) (list Rule) }.

Definition parse (body : list string) : Rule :=
  match rev body with
  | c :: "--comment" :: "comment" :: "-m" :: pre => mkRule (rev pre) (Some c) []
  | _ => mkRule body None []
  end.
Definition tidyb (r : Rule) : bool :=
  forallb word (ru_match r ++ ru_target r) &&
  match ru_comment r with Some c => negb (String.eqb c "") && all_chars comment_char c | None => true end.
Definition print (r : Rule) : string := if tidyb r then Join (rule_words r) " " else "-m unprintable".
Definition ok (k : string * string) (r : Rule) : bool :=
  Nat.ltb (String.length (rule_line k.2 (print r))) (64 * 1024) && bool_decide (parse (rule_args r) = r).
Definition rules (m : machine) (k : string * string) : list Rule := List.filter (ok k) (default [] (tables m !! k)).
Definition put (k : string * string) (l : list Rule) (m : machine) : machine := mkMachine (<[k := l]> (tables m)).
Definition header_ok (h : string) : bool :=
  no_char DQ h && no_char NL h && no_char (chr 13) h && Nat.ltb (String.length h) (64 * 1024).
Definition headers (ch : string) : list string :=
  let h := "-P " +:+ ch +:+ " ACCEPT" in
  if header_ok h then [h] else [].
Definition fine (text : string) : Output := mkOutput text "" None.
Definition bad : Output := mkOutput "" "iptables: Bad rule" (Some (Errorf "exit status 1")).

Definition exec : Commands machine := fun path args m =>
  match args with
  | ["-t"; t; "-S"; ch] =>
      (fine (Join (headers ch ++ (rule_line ch ∘ print <$> rules m (t, ch)) ++ [""]) (String NL "")), m)
  | "-t" :: t :: op :: ch :: body =>
      if String.eqb op "-C" then ((if bool_decide (parse body ∈ rules m (t, ch)) then fine "" else bad), m)
      else if String.eqb op "-A" then
        if ok (t, ch) (parse body) then (fine "", put (t, ch) (rules m (t, ch) ++ [parse body]) m) else (bad, m)
      else if String.eqb op "-D" then
        if bool_decide (parse body ∈ rules m (t, ch)) then (fine "", put (t, ch) (remove_first (parse body) (rules m (t, ch))) m)
        else (bad, m)
      else (bad, m)
  | _ => (bad, m)
  end.

Lemma filter_all {A} (p : A -> bool) l : (forall x, x ∈ l -> p x = true) -> List.filter p l = l.
Proof.
  induction l as [|x l IH]; intros H; [done|]. cbn. rewrite (H x) by apply list_elem_of_here. f_equal. apply IH.
  intros y Hy. by apply H, list_elem_of_further.
Qed.
Lemma rules_ok m k r : r ∈ rules m k -> ok k r = true.
Proof. intros H%list_elem_of_In. by apply filter_In in H as [_ H]. Qed.
Lemma rules_put m k l : (forall r, r ∈ l -> ok k r = true) -> rules (put k l m) k = l.
Proof. intros H. unfold rules, put. cbn. rewrite lookup_insert_eq. by apply filter_all. Qed.
Lemma rules_put_ne m k k' l : k' <> k -> rules (put k l m) k' = rules m k'.
Proof. intros H. unfold rules, put. cbn. by rewrite lookup_insert_ne. Qed.
Lemma remove_first_in r x l : x ∈ remove_first r l -> x ∈ l.
Proof.
  induction l as [|y l IH]; [done|]. cbn. destruct (decide (y = r)); [intros; by apply list_elem_of_further|].
  intros [->|H]%elem_of_cons; [apply list_elem_of_here|by apply list_elem_of_further, IH].
Qed.
Lemma parse_tagged body c : parse (body ++ tag c) = mkRule body (Some c) [].
Proof. unfold parse, tag. rewrite rev_app_distr. cbn. by rewrite rev_involutive. Qed.
Lemma tidyb_spec r : tidyb r = true <-> tidy r.
Proof.
  unfold tidyb, tidy. rewrite andb_true_iff, forallb_forall, Forall_forall. f_equiv.
  - split; intros H s Hs; apply H; by apply list_elem_of_In.
  - destruct (ru_comment r) as [c|]; [|done]. rewrite andb_true_iff, negb_true_iff, String.eqb_neq. done.
Qed.
End RefIptables.

#[local] Instance ref_commands : Commands RefIptables.machine := RefIptables.exec.
#[local] Program Instance ref_iptables : IptablesLaws RefIptables.machine := {|
  chain_rules := RefIptables.rules; parse_rule := RefIptables.parse; print_rule := RefIptables.print |}.
Next Obligation. intros body c. by rewrite RefIptables.parse_tagged. Qed.
Next Obligation.
  intros body c Hb Hc Hcc. rewrite RefIptables.parse_tagged. split; [|done]. cbn. by rewrite app_nil_r.
Qed.
Next Obligation. intros d ch r H. apply RefIptables.rules_ok in H. apply andb_true_iff in H as [_ H]. by apply bool_decide_eq_true in H. Qed.
Next Obligation. intros r H. unfold RefIptables.print. by rewrite (proj2 (RefIptables.tidyb_spec r) H). Qed.
Next Obligation.
  intros r. unfold RefIptables.print. destruct (RefIptables.tidyb r) eqn:E; [|by vm_compute]. apply RefIptables.tidyb_spec in E.
  pose proof (tidy_prints r E) as Hp.
  assert (Forall (fun t => no_char NL t = true /\ no_char (chr 13) t = true) (rule_words r)) as Hall.
  { induction Hp as [|v t vs ts [_ Hvt] Hps IH]; constructor; [|exact IH].
    assert (forall w, all_chars word_char w = true -> no_char NL w = true /\ no_char (chr 13) w = true) as Hw
      by (intros w H; split; (eapply all_chars_impl, H; [apply word_char_NL || apply word_char_CR])).
    assert (forall w, all_chars comment_char w = true -> no_char NL w = true /\ no_char (chr 13) w = true) as Hc
      by (intros w H; split; (eapply all_chars_impl, H; intros c; destruct c as [[] [] [] [] [] [] [] []]; vm_compute; congruence)).
    destruct Hvt as [[-> H]|[-> H]]; [by apply Hw|]. destruct (Hc _ H) as [H1 H2]. unfold quoted, no_char in *. cbn [all_chars].
    rewrite !all_chars_app, H1, H2. done. }
  split; (apply no_char_Join; [done|]; eapply Forall_impl; [exact Hall|]; by intros s [? ?]).
Qed.
Next Obligation. intros d t ch r H. apply RefIptables.rules_ok in H. apply andb_true_iff in H as [H _]. by apply Nat.ltb_lt in H. Qed.
Next Obligation.
  intros t ch body d. cbn. split; [done|]. by case_bool_decide.
Qed.
Next Obligation.
  intros t ch body d. cbn. destruct (RefIptables.ok (t, ch) (RefIptables.parse body)) eqn:E; cbn; [|done]. split.
  - apply RefIptables.rules_put. intros r [H|H]%elem_of_app; [by eapply RefIptables.rules_ok|]. apply list_elem_of_singleton in H as ->. done.
  - intros k Hk. by apply RefIptables.rules_put_ne.
Qed.
Next Obligation.
  intros t ch body d. cbn. case_bool_decide as H; cbn; [|done]. split.
  - apply RefIptables.rules_put. intros r Hr. by eapply RefIptables.rules_ok, RefIptables.remove_first_in.
  - intros k Hk. by apply RefIptables.rules_put_ne.
Qed.
Next Obligation.
  intros t ch d. unfold exec_Command, ref_commands, RefIptables.exec, RefIptables.fine. cbn [o_err o_stdout].
  split; [reflexivity|]. exists (RefIptables.headers ch). split; [|reflexivity]. unfold RefIptables.headers.
  cbv zeta. destruct (RefIptables.header_ok _) eqn:E; constructor; [|constructor]. unfold RefIptables.header_ok in E.
  apply andb_true_iff in E as [E E4]. apply andb_true_iff in E as [E E3]. apply andb_true_iff in E as [E1 E2].
  split_and!; [exact E1|exact E2|exact E3|]. by apply Nat.ltb_lt in E4.
Qed.
#[local] Program Instance ref_iptables_live : IptablesLive RefIptables.machine := {| ipt_works := fun _ => True |}.
Next Obligation. done. Qed.
Next Obligation. intros t ch body d _ H. cbn. by rewrite bool_decide_true. Qed.
Next Obligation. done. Qed.

(** A workload beside another one, and a rule of CNI's. *)
Module IptablesDemo.
Definition ports : list PortMapping := [mkPortMapping 22 2222 ""; mkPortMapping 53 53 "UDP"].
Definition foreign : Rule := mkRule ["-p"; "tcp"] (Some "dnat name: capsule id: web") [].
Definition start : RefIptables.machine :=
  RefIptables.put ("nat", "PREROUTING") [foreign; RefIptables.parse (["-p"; "tcp"] ++ tag "capsule-vm:db")] (RefIptables.mkMachine ∅).
Definition applied : result unit * RefIptables.machine := applyPortMappings "web" "172.20.254.7" ports start.
End IptablesDemo.

Lemma portmap_teardown_restores_witness :
  IptablesDemo.applied.1 = Ok tt /\
  List.length (RefIptables.rules IptablesDemo.applied.2 ("nat", "PREROUTING")) = 4%nat /\
  exists d2, teardownPortMappings "web" IptablesDemo.applied.2 = (Ok tt, d2) /\
    RefIptables.rules d2 ("nat", "PREROUTING") = RefIptables.rules IptablesDemo.start ("nat", "PREROUTING").
Proof.
  split; [by vm_compute|]. split; [by vm_compute|].
  destruct (portmap_teardown_restores "web" "172.20.254.7" IptablesDemo.ports IptablesDemo.start IptablesDemo.applied.1 IptablesDemo.applied.2)
    as [_ (d2 & E & H)].
  - by vm_compute.
  - by vm_compute.
  - by repeat (constructor; [by vm_compute|]).
  - exact I.
  - intros k Hk. apply Forall_forall. intros r Hr. left. apply RefIptables.tidyb_spec. revert k Hk r Hr.
    apply (Forall_forall (fun k => forall r, r ∈ RefIptables.rules IptablesDemo.start k -> RefIptables.tidyb r = true)).
    unfold chains. repeat (apply Forall_cons; split; [apply Forall_forall; apply (bool_decide_unpack _); vm_compute; exact I|]). by apply Forall_nil.
  - unfold IptablesDemo.applied. apply surjective_pairing.
  - exists d2. split; [exact E|]. transitivity (untagged "capsule-vm:web" (RefIptables.rules IptablesDemo.start ("nat", "PREROUTING"))); [exact (H ("nat", "PREROUTING"))|by vm_compute].
Defined.
