(* ===== verification/Container.v ===== *)
(** * The container driver: runtime/container/driver.go

    [EnsureRunning], [Remove], [Status] and [Exec] over containerd, CNI and
    the mount commands.  These are interfaces: their operations ([Containerd])
    and what the driver relies on ([ContainerdLaws]). *)

From S2P Require Import Prelude GoStrings Exec Models Runtime PortMap.

Set Default Goal Selector "!".
Local Open Scope go_scope.

(** ** Data *)

(** [specs.Mount] *)
Record OciMount := mkOciMount { om_Type : string; om_Source : string; om_Destination : string; om_Options : list string }.

(** The [oci.SpecOpts] the driver uses. *)
Inductive SpecOpt :=
  | WithImageConfig (image : string)
  | WithProcessArgs (args : list string)
  | WithEnv (env : list string)
  | WithMounts (mounts : list OciMount)
  | WithHostNamespace (ns : string)
  | WithHostHostsFile | WithHostResolvconf
  | WithPrivileged | WithAllDevicesAllowed | WithHostDevices.

(** The options of [NewContainer]. *)
Record CtrOpts := mkCtrOpts {
  co_image : string;
  co_snapshot : string;
  co_spec : list SpecOpt;
  co_labels : gmap string string }.

(** A process spec as [Exec] changes it. *)
Record ProcessSpec := mkProcessSpec { ps_Args : list string; ps_Terminal : bool; ps_Env : list string }.

Definition LogDir : string := "/run/capsule/workloads".
Definition volumeMountDir : string := "/run/capsule/mounts".
Definition BridgeLabel : string := "capsule.network/mode".
Definition SpecHashLabel : string := "capsule.spec/hash".
Definition PortMapLabel : string := "capsule.network/portmap".

(** containerd's statuses of a task. *)
Definition Running : string := "running".
Definition Created : string := "created".
Definition Stopped : string := "stopped".
Definition Paused : string := "paused".
Definition Pausing : string := "pausing".

(** ** The pure parts of a container's spec *)

Definition processArgs (spec : ContainerSpec) : list string :=
  if (0 <? Z.of_nat (List.length (cs_command spec)))%Z then cs_command spec ++ cs_args spec else cs_args spec.

(** Go iterates the map in any order; the model uses the one of [map_to_list]. *)
Definition envSlice (spec : ContainerSpec) : list string :=
  (fun kv => kv.1 +:+ "=" +:+ kv.2) <$> map_to_list (cs_env spec).

Definition hostBindMounts (paths : list string) : list OciMount :=
  omap (fun p => if String.eqb p "" || negb (HasPrefix p "/") then None
                 else Some (mkOciMount "bind" p p ["rbind"; "rw"])) paths.

Definition bindMounts (spec : ContainerSpec) (mounted : gmap string string) : list OciMount :=
  omap (fun m =>
    match mounted !! vm_volume_name m with
    | None => None
    | Some src =>
        if String.eqb (vm_mount_path m) "" then None
        else Some (mkOciMount "bind" src (vm_mount_path m) ["rbind"; if vm_read_only m then "ro" else "rw"])
    end) (cs_mounts spec).

(** One entry of the base environment, its value replaced if it is overridden. *)
Definition override (extra : gmap string string) (e : string) : string :=
  match Cut "=" e with
  | Some (k, _) =>
      if String.eqb k "" then e
      else match extra !! k with Some v => k +:+ "=" +:+ v | None => e end
  | None => e
  end.
Definition env_key (e : string) : string := match Cut "=" e with Some (k, _) => k | None => "" end.
Definition mergeEnv (base : list string) (extra : gmap string string) : list string :=
  let seen k := existsb (fun e => negb (String.eqb (env_key e) "") && String.eqb (env_key e) k) base in
  (override extra <$> base) ++
  omap (fun kv => if (seen kv.1 : bool) then None else Some (kv.1 +:+ "=" +:+ kv.2)) (map_to_list extra).

Definition network_opts (m : NetworkMode) : list SpecOpt :=
  match m with
  | NETWORK_MODE_HOST => [WithHostNamespace "network"; WithHostHostsFile; WithHostResolvconf]
  | NETWORK_MODE_BRIDGE => [WithHostHostsFile; WithHostResolvconf]
  | _ => []
  end.
Definition opt_if (b : bool) (l : list SpecOpt) : list SpecOpt := if b then l else [].
Definition some_opt {A} (l : list A) (o : list A -> SpecOpt) : list SpecOpt := match l with [] => [] | _ => [o l] end.
Definition specOpts (spec : ContainerSpec) (image : string) (mounted : gmap string string) : list SpecOpt :=
  [WithImageConfig image] ++ some_opt (processArgs spec) WithProcessArgs ++ some_opt (envSlice spec) WithEnv ++
  some_opt (bindMounts spec mounted) WithMounts ++ network_opts (cs_network_mode spec) ++
  opt_if (cs_privileged spec) [WithPrivileged; WithAllDevicesAllowed; WithHostDevices] ++
  opt_if (cs_host_pid spec) [WithHostNamespace "pid"] ++ opt_if (cs_host_mount spec) [WithHostNamespace "mount"] ++
  opt_if (cs_host_ipc spec) [WithHostNamespace "ipc"] ++ some_opt (hostBindMounts (cs_host_bind_paths spec)) WithMounts.

Definition labels_of (spec : ContainerSpec) (hash : string) : gmap string string :=
  <[BridgeLabel := networkModeLabel (cs_network_mode spec)]> (<[SpecHashLabel := hash]>
    {[PortMapLabel := encodePortMappings (cs_ports spec)]}).

Definition containerOpts (name : string) (spec : ContainerSpec) (hash image : string) (mounted : gmap string string) : CtrOpts :=
  mkCtrOpts image (name +:+ "-snapshot") (specOpts spec image mounted) (labels_of spec hash).

(** ** containerd, CNI and the file system *)

Class Containerd (D : Type) := {
  ctr_commands :: Commands D;
  LoadContainer : string -> prog D unit;
  Ctr_Info : string -> prog D (gmap string string);
  Ctr_Task : string -> prog D Z;
  Task_Status : string -> prog D (string * Z);
  Task_Delete : string -> prog D unit;            (* WithProcessKill *)
  Ctr_Delete : string -> prog D unit;             (* WithSnapshotCleanup *)
  GetImage : string -> prog D string;
  Pull : string -> prog D string;
  NewContainer : string -> CtrOpts -> prog D unit;
  NewTask : string -> string -> prog D Z;
  Task_Start : string -> prog D unit;
  Task_Kill : string -> prog D unit;              (* SIGKILL, WithKillAll *)
  Task_Wait : string -> prog D unit;              (* until it exits, 5 s at most *)
  cni_Load : prog D unit;                         (* gocni.New and Load *)
  cni_Setup : string -> string -> list CniPort -> prog D unit;
  cni_Remove : string -> string -> list CniPort -> prog D unit;
  os_Stat : string -> prog D unit;
  os_MkdirAll : string -> prog D unit;
  os_ReadDir : string -> prog D (list string);
  os_Remove : string -> prog D unit;
  Ctr_Spec : string -> prog D ProcessSpec;
  Task_Exec : string -> ProcessSpec -> prog D unit;
  Process_Wait : string -> prog D unit;
  Process_Start : string -> prog D unit;
  Process_Result : string -> prog D Z;
  Process_Delete : string -> prog D unit }.

(** The driver: its world and what [cniOnce] left. *)
Record CDriver (D : Type) := mkCDriver { cd_world : D; cd_cni : option (result unit) }.
Arguments mkCDriver {D}.
Arguments cd_world {D}.
Arguments cd_cni {D}.

Section driver.
Context {D : Type} `{!Containerd D}.
Abbreviation W := (CDriver D).

Definition call {A} : prog D A -> prog W A := zoom cd_world (fun d w => mkCDriver d (cd_cni w)).
Definition IsNotFound (e : error) : bool := errors_Is e ErrdefsNotFound.

(** *** CNI *)

Definition ensureCNI : prog W unit := fun w =>
  match cd_cni w with
  | Some r => (r, w)
  | None => let '(r, d) := cni_Load (cd_world w) in (r, mkCDriver d (Some r))
  end.
Definition netnsPath (pid : Z) : string := "/proc/" +:+ Itoa pid +:+ "/ns/net".
Definition cniSetup (name : string) (pid : Z) (ports : list PortMapping) : prog W unit :=
  ensureCNI ;;; call (cni_Setup name (netnsPath pid) (gocniPortMappings ports)).
Definition cniTeardown (name : string) (pid : Z) (pm : list CniPort) : prog W unit :=
  ensureCNI ;;; call (cni_Remove name (netnsPath pid) pm).

(** *** Volumes *)

Definition volumeBlockDevice (name : string) : string := "/dev/capsule/vol-" +:+ name.
Definition mountDir (workload : string) : string := volumeMountDir +:+ "/" +:+ workload.
Definition mountPath (workload vol : string) : string := mountDir workload +:+ "/" +:+ vol.
Definition show_args (l : list string) : string := "[" +:+ Join l " " +:+ "]".
Definition runMount (args : list string) : prog W unit := call (exec_or_fail ("mount " +:+ show_args args) "/bin/mount" args).
Definition runUmount (mp : string) : prog W unit := call (exec_or_fail ("umount " +:+ mp) "/bin/umount" [mp]).

Definition mount_args (m : VolumeMount) (dev mp : string) : list string :=
  ["-t"; "ext4"] ++ (if vm_read_only m then ["-o"; "ro"] else []) ++ [dev; mp].

(** One declared volume; a nameless one is skipped. *)
Definition mount_volume (workload : string) (m : VolumeMount) : prog W unit :=
  let vol := vm_volume_name m in
  let dev := volumeBlockDevice vol in
  let mp := mountPath workload vol in
  s <- catch (call (os_Stat dev)) ;;
  match s with
  | Err e => fail (Wrap ("volume " +:+ Quote vol +:+ ": ") e (" (run `capsulectl volume create " +:+ vol +:+ "`)"))
  | Ok _ =>
      wrap_err ("mkdir " +:+ mp +:+ ": ") (call (os_MkdirAll mp)) ;;;
      wrap_err ("mount " +:+ dev +:+ " at " +:+ mp +:+ ": ") (runMount (mount_args m dev mp))
  end.

(** The volumes mounted so far are returned with the error. *)
Fixpoint mount_all (workload : string) (declared : list VolumeMount) (mounted : gmap string string) : prog W (gmap string string * result unit) :=
  match declared with
  | [] => ret (mounted, Ok tt)
  | m :: declared =>
      if String.eqb (vm_volume_name m) "" then mount_all workload declared mounted
      else
        r <- catch (mount_volume workload m) ;;
        match r with
        | Err e => ret (mounted, Err e)
        | Ok _ => mount_all workload declared (<[vm_volume_name m := mountPath workload (vm_volume_name m)]> mounted)
        end
  end.
Definition mountContainerVolumes (workload : string) (declared : list VolumeMount) : prog W (gmap string string * result unit) :=
  mount_all workload declared ∅.

Definition release (mp : string) : prog W unit := ignore (runUmount mp) ;;; ignore (call (os_Remove mp)).
(** With nothing in memory, whatever lies in the workload's directory. *)
Definition unmountContainerVolumes (workload : string) (mounted : gmap string string) : prog W unit :=
  let root := mountDir workload in
  if decide (mounted = ∅) then
    r <- catch (call (os_ReadDir root)) ;;
    match r with
    | Err _ => ret tt
    | Ok entries => for_each entries (fun e => release (root +:+ "/" +:+ e)) ;;; ignore (call (os_Remove root))
    end
  else
    for_each (map_to_list mounted).*2 release ;;; ignore (call (os_Remove root)).

(** *** Remove *)

Definition kill_task (name : string) (pid : Z) (needsCNI : bool) (pm : list CniPort) : prog W unit :=
  when needsCNI (ignore (cniTeardown name pid pm)) ;;;
  ignore (call (Task_Kill name)) ;;;
  ignore (call (Task_Wait name)) ;;;
  ignore (call (Task_Delete name)).

Definition Ctr_Remove (name : string) : prog W unit :=
  l <- catch (call (LoadContainer name)) ;;
  match l with
  | Err err => if IsNotFound err then ret tt else fail (Wrap ("load container " +:+ Quote name +:+ ": ") err "")
  | Ok _ =>
      info <- catch (call (Ctr_Info name)) ;;
      let needsCNI := match info with Ok labels => String.eqb (default "" (labels !! BridgeLabel)) "bridge" | Err _ => false end in
      let pm := match info with Ok labels => decodePortMappings (default "" (labels !! PortMapLabel)) | Err _ => [] end in
      t <- catch (call (Ctr_Task name)) ;;
      match t with
      | Ok pid => kill_task name pid needsCNI pm
      | Err _ => ret tt
      end ;;;
      d <- catch (call (Ctr_Delete name)) ;;
      match d with
      | Err err => if IsNotFound err then ret tt else fail (Wrap ("delete container " +:+ Quote name +:+ ": ") err "")
      | Ok _ => ret tt
      end ;;;
      unmountContainerVolumes name ∅
  end.

(** *** EnsureRunning *)

Definition is_running (st : result (string * Z)) : bool :=
  match st with Ok (s, _) => String.eqb s Running | Err _ => false end.
Definition drop_container (name : string) : prog W unit :=
  wrap_err ("delete stale container " +:+ Quote name +:+ ": ") (call (Ctr_Delete name)).

(** What is there under the name: [true] when it already runs on the desired
    spec; what is in the way is removed.  A failing [Info] gives no labels. *)
Definition settle (name desiredHash : string) : prog W bool :=
  l <- catch (call (LoadContainer name)) ;;
  match l with
  | Err err => if IsNotFound err then ret false else fail (Wrap ("load container " +:+ Quote name +:+ ": ") err "")
  | Ok _ =>
      info <- catch (call (Ctr_Info name)) ;;
      let runningHash := match info with Ok labels => default "" (labels !! SpecHashLabel) | Err _ => "" end in
      let specChanged := negb (String.eqb runningHash "") && negb (String.eqb runningHash desiredHash) in
      t <- catch (call (Ctr_Task name)) ;;
      match t with
      | Ok _ =>
          st <- catch (call (Task_Status name)) ;;
          if is_running st then
            if negb specChanged then ret true
            else wrap_err ("remove stale container " +:+ Quote name +:+ ": ") (Ctr_Remove name) ;;; ret false
          else ignore (call (Task_Delete name)) ;;; drop_container name ;;; ret false
      | Err _ => drop_container name ;;; ret false
      end
  end.

Definition find_image (ref : string) : prog W string :=
  g <- catch (call (GetImage ref)) ;;
  match g with
  | Ok image => ret image
  | Err err =>
      if IsNotFound err then wrap_err ("pull image " +:+ Quote ref +:+ ": ") (call (Pull ref))
      else fail (Wrap ("get image " +:+ Quote ref +:+ ": ") err "")
  end.

Definition mount_declared (name : string) (declared : list VolumeMount) : prog W (gmap string string) :=
  r <- mountContainerVolumes name declared ;;
  match r with
  | (mounted, Err err) => unmountContainerVolumes name mounted ;;; fail (Wrap "mount volumes: " err "")
  | (mounted, Ok _) => ret mounted
  end.

Definition Driver_LogPath_of (name : string) : string := LogDir +:+ "/" +:+ name +:+ "/combined.log".

Definition discard (name : string) : prog W unit := ignore (call (Task_Delete name)) ;;; ignore (call (Ctr_Delete name)).
Definition is_bridge (spec : ContainerSpec) : bool := bool_decide (cs_network_mode spec = NETWORK_MODE_BRIDGE).

(** The task of a container that was just created: its network, then its start. *)
Definition bring_network (name : string) (spec : ContainerSpec) (pid : Z) : prog W unit :=
  ignore (cniTeardown name pid (gocniPortMappings (cs_ports spec))) ;;;
  r <- catch (cniSetup name pid (cs_ports spec)) ;;
  match r with
  | Err err => discard name ;;; fail (Wrap ("cni setup " +:+ Quote name +:+ ": ") err "")
  | Ok _ => ret tt
  end.
Definition start_task (name : string) (spec : ContainerSpec) (pid : Z) : prog W unit :=
  r <- catch (call (Task_Start name)) ;;
  match r with
  | Err err =>
      when (is_bridge spec) (ignore (cniTeardown name pid (gocniPortMappings (cs_ports spec)))) ;;;
      discard name ;;;
      fail (Wrap ("start task " +:+ Quote name +:+ ": ") err "")
  | Ok _ => ret tt
  end.
Definition new_task (name : string) : prog W Z :=
  m <- catch (call (os_MkdirAll (LogDir +:+ "/" +:+ name))) ;;
  match m with
  | Err err => ignore (call (Ctr_Delete name)) ;;; fail (Wrap ("mkdir logs " +:+ Quote (LogDir +:+ "/" +:+ name) +:+ ": ") err "")
  | Ok _ =>
      t <- catch (call (NewTask name (Driver_LogPath_of name))) ;;
      match t with
      | Err err => ignore (call (Ctr_Delete name)) ;;; fail (Wrap ("new task " +:+ Quote name +:+ ": ") err "")
      | Ok pid => ret pid
      end
  end.

Definition create (name : string) (spec : ContainerSpec) (desiredHash : string) : prog W unit :=
  image <- find_image (cs_image spec) ;;
  mounted <- mount_declared name (cs_mounts spec) ;;
  wrap_err ("create container " +:+ Quote name +:+ ": ")
    (call (NewContainer name (containerOpts name spec desiredHash image mounted))) ;;;
  pid <- new_task name ;;
  when (is_bridge spec) (bring_network name spec pid) ;;;
  start_task name spec pid.

(** *** Status and Exec *)

Definition Ctr_Status (name : string) : prog W Status :=
  l <- catch (call (LoadContainer name)) ;;
  match l with
  | Err err => if IsNotFound err then ret (mkStatus PhaseUnknown "" 0) else fail err
  | Ok _ =>
      t <- catch (call (Ctr_Task name)) ;;
      match t with
      | Err err => if IsNotFound err then ret (mkStatus PhaseStopped "no task" 0) else fail err
      | Ok _ =>
          st <- call (Task_Status name) ;;
          let '(s, code) := st in
          if String.eqb s Running then ret (mkStatus PhaseRunning "" 0)
          else if String.eqb s Created || String.eqb s Pausing || String.eqb s Paused then ret (mkStatus PhasePending s 0)
          else if String.eqb s Stopped then
            let msg := "exited " +:+ Itoa code in
            ret (mkStatus (if (code =? 0)%Z then PhaseStopped else PhaseFailed) msg 0)
          else ret (mkStatus PhaseUnknown s 0)
      end
  end.

(** The deferred [process.Delete] runs whatever happens after [task.Exec]. *)
Definition exec_process (name : string) : prog W Z :=
  wrap_err "process wait: " (call (Process_Wait name)) ;;;
  wrap_err "process start: " (call (Process_Start name)) ;;;
  call (Process_Result name).
Definition Ctr_Exec (req : ExecRequest) : prog W Z :=
  let name := ex_Name req in
  match ex_Command req with
  | [] => fail (Errorf "exec: command is required")
  | _ =>
      wrap_err ("load container " +:+ Quote name +:+ ": ") (call (LoadContainer name)) ;;;
      wrap_err ("get task " +:+ Quote name +:+ ": ") (call (Ctr_Task name)) ;;;
      wrap_err "container info: " (call (Ctr_Info name)) ;;;
      spec <- wrap_err "container spec: " (call (Ctr_Spec name)) ;;
      let pspec := mkProcessSpec (ex_Command req) (ex_TTY req)
                     (if decide (ex_Env req = ∅) then ps_Env spec else mergeEnv (ps_Env spec) (ex_Env req)) in
      wrap_err "task exec: " (call (Task_Exec name pspec)) ;;;
      finally (exec_process name) (ignore (call (Process_Delete name)))
  end.

Section hash.
(** The parameters of [runtime.SpecHash]. *)
Context (marshal : RuntimeSpec -> result string) (sha256 : string -> string).

Definition Ctr_EnsureRunning (w : Workload) : prog W unit :=
  match wl_container w with
  | None => fail (Errorf ("workload " +:+ Quote (wl_name w) +:+ " has no container spec"))
  | Some spec =>
      desiredHash <- lift (SpecHash marshal sha256 w) ;;
      done <- settle (wl_name w) desiredHash ;;
      if (done : bool) then ret tt else create (wl_name w) spec desiredHash
  end.
End hash.
End driver.

(** ** What the driver relies on

    The containers of the namespace with the status of their task, the volumes
    mounted, and per name the port mappings CNI has installed. *)

Record Ctr := mkCtr { ct_opts : CtrOpts; ct_task : option string }.

Section view.
Context {D : Type} (ctrs : D -> gmap string Ctr) (vmounts : D -> gmap string (string * bool)) (attached : D -> gmap string (list CniPort)).

(** Nothing the driver cares about changes. *)
Definition same (d d' : D) : Prop := ctrs d' = ctrs d /\ vmounts d' = vmounts d /\ attached d' = attached d.
(** Only the task of one container changes. *)
Definition only_task (n : string) (d d' : D) : Prop :=
  (forall m, m <> n -> ctrs d' !! m = ctrs d !! m) /\ ct_opts <$> ctrs d' !! n = ct_opts <$> ctrs d !! n /\
  vmounts d' = vmounts d /\ attached d' = attached d.
(** Only the mappings of one name change. *)
Definition only_net (n : string) (d d' : D) : Prop :=
  ctrs d' = ctrs d /\ vmounts d' = vmounts d /\ forall m, m <> n -> attached d' !! m = attached d !! m.
(** Only the mounts change. *)
Definition only_mounts (d d' : D) : Prop := ctrs d' = ctrs d /\ attached d' = attached d.
End view.

Definition ports_in (m : gmap string (list CniPort)) (n : string) : list CniPort := default [] (m !! n).

Class ContainerdLaws (D : Type) `{!Containerd D} := {
  ctrs : D -> gmap string Ctr;
  vmounts : D -> gmap string (string * bool);
  attached : D -> gmap string (list CniPort);
  (** reading *)
  load_law n d : let '(r, d') := LoadContainer n d in same ctrs vmounts attached d d' /\
    match r with Ok _ => is_Some (ctrs d !! n) | Err e => IsNotFound e = true -> ctrs d !! n = None end;
  info_law n d : let '(r, d') := Ctr_Info n d in same ctrs vmounts attached d d' /\
    forall l, r = Ok l -> (co_labels ∘ ct_opts <$> ctrs d !! n) = Some l;
  task_law n d : same ctrs vmounts attached d (Ctr_Task n d).2;
  status_law n d : let '(r, d') := Task_Status n d in same ctrs vmounts attached d d' /\
    forall s c, r = Ok (s, c) -> ctrs d !! n ≫= ct_task = Some s;
  image_law ref d : same ctrs vmounts attached d (GetImage ref d).2;
  pull_law ref d : same ctrs vmounts attached d (Pull ref d).2;
  load_cni_law d : same ctrs vmounts attached d (cni_Load d).2;
  stat_law p d : same ctrs vmounts attached d (os_Stat p d).2;
  mkdir_law p d : same ctrs vmounts attached d (os_MkdirAll p d).2;
  rm_law p d : same ctrs vmounts attached d (os_Remove p d).2;
  spec_law n d : same ctrs vmounts attached d (Ctr_Spec n d).2;
  exec_law n p d : same ctrs vmounts attached d (Task_Exec n p d).2;
  process_law n d : same ctrs vmounts attached d (Process_Wait n d).2 /\ same ctrs vmounts attached d (Process_Start n d).2 /\
    same ctrs vmounts attached d (Process_Result n d).2 /\ same ctrs vmounts attached d (Process_Delete n d).2;
  (** the directory of a workload lists its mount points *)
  readdir_law p d : let '(r, d') := os_ReadDir p d in same ctrs vmounts attached d d' /\
    forall l mp, r = Ok l -> is_Some (vmounts d !! (p +:+ "/" +:+ mp)) -> no_char "/" mp = true -> mp ∈ l;
  (** tasks *)
  kill_law n d : only_task ctrs vmounts attached n d (Task_Kill n d).2;
  wait_law n d : only_task ctrs vmounts attached n d (Task_Wait n d).2;
  task_delete_law n d : only_task ctrs vmounts attached n d (Task_Delete n d).2;
  new_task_law n log d : only_task ctrs vmounts attached n d (NewTask n log d).2;
  start_law n d : let '(r, d') := Task_Start n d in only_task ctrs vmounts attached n d d' /\
    (r = Ok tt -> ctrs d' !! n ≫= ct_task = Some Running);
  (** containers *)
  delete_law n d : let '(r, d') := Ctr_Delete n d in
    vmounts d' = vmounts d /\ attached d' = attached d /\
    match r with Ok _ => ctrs d' = delete n (ctrs d) | Err e => ctrs d' = ctrs d /\ (IsNotFound e = true -> ctrs d !! n = None) end;
  new_law n o d : let '(r, d') := NewContainer n o d in
    vmounts d' = vmounts d /\ attached d' = attached d /\
    match r with Ok _ => ctrs d' = <[n := mkCtr o None]> (ctrs d) | Err _ => ctrs d' = ctrs d end;
  (** CNI: ADD installs mappings beside those that are there; DEL takes down
      the mappings it is given and adds none *)
  setup_law n ns pm d : let '(r, d') := cni_Setup n ns pm d in only_net ctrs vmounts attached n d d' /\
    (r = Ok tt -> ports_in (attached d') n = ports_in (attached d) n ++ pm);
  teardown_law n ns pm d : let '(r, d') := cni_Remove n ns pm d in only_net ctrs vmounts attached n d d' /\
    ports_in (attached d') n ⊆ ports_in (attached d) n /\
    (r = Ok tt -> ports_in (attached d) n = pm -> ports_in (attached d') n = []);
  (** mounts; a device is not mounted twice on the same point *)
  mount_law m dev mp d : let '(o, d') := exec_Command "/bin/mount" (mount_args m dev mp) d in only_mounts ctrs attached d d' /\
    vmounts d' = match o_err o with None => <[mp := (dev, vm_read_only m)]> (vmounts d) | Some _ => vmounts d end /\
    (forall ro, vmounts d !! mp = Some (dev, ro) -> o_err o <> None);
  umount_law mp d : let '(o, d') := exec_Command "/bin/umount" [mp] d in only_mounts ctrs attached d d' /\
    vmounts d' = match o_err o with None => delete mp (vmounts d) | Some _ => vmounts d end }.

(** ** Frames

    What a call for one workload leaves alone: the other containers and their
    networks, and every mount outside the workload's directory. *)
Section frame.
Context {D : Type} `{!Containerd D, !ContainerdLaws D}.
Abbreviation W := (CDriver D).

Definition outside (n : string) (kv : string * (string * bool)) : Prop := HasPrefix kv.1 (mountDir n +:+ "/") = false.
#[export] Instance outside_dec n kv : Decision (outside n kv).
Proof. unfold outside. apply _. Defined.
Definition others (n : string) (w : W) : gmap string Ctr * gmap string (string * bool) * gmap string (list CniPort) :=
  let d := cd_world w in (delete n (ctrs d), filter (outside n) (vmounts d), delete n (attached d)).
Abbreviation local n := (keeps (others n)).

Lemma call_keeps {A B} (f : W -> B) (m : prog D A) : (forall d c, f (mkCDriver (m d).2 c) = f (mkCDriver d c)) -> keeps f (call m).
Proof. intros H [d c]. unfold call, zoom. specialize (H d c). cbn in *. by destruct (m d). Qed.

Lemma others_same n d d' c : same ctrs vmounts attached d d' -> others n (mkCDriver d' c) = others n (mkCDriver d c).
Proof. intros (H1 & H2 & H3). unfold others. cbn. by rewrite H1, H2, H3. Qed.
Lemma others_task n d d' c : only_task ctrs vmounts attached n d d' -> others n (mkCDriver d' c) = others n (mkCDriver d c).
Proof.
  intros (H1 & _ & H2 & H3). unfold others. cbn. rewrite H2, H3. f_equal. f_equal. apply map_eq. intros m.
  destruct (decide (m = n)) as [->|]; [by rewrite !lookup_delete_eq|]. rewrite !lookup_delete_ne by done. by apply H1.
Qed.
Lemma others_net n d d' c : only_net ctrs vmounts attached n d d' -> others n (mkCDriver d' c) = others n (mkCDriver d c).
Proof.
  intros (H1 & H2 & H3). unfold others. cbn. rewrite H1, H2. f_equal. apply map_eq. intros m.
  destruct (decide (m = n)) as [->|]; [by rewrite !lookup_delete_eq|]. rewrite !lookup_delete_ne by done. by apply H3.
Qed.

Lemma prefix_append p s : HasPrefix (p +:+ s) p = true.
Proof. unfold HasPrefix. induction p as [|c p IH]; cbn; [by destruct s|]. by destruct (ascii_dec c c). Qed.
Lemma inside_path n vol : HasPrefix (mountPath n vol) (mountDir n +:+ "/") = true.
Proof. unfold mountPath. rewrite <- app_assoc_str. apply prefix_append. Qed.

Lemma local_load n : local n (call (LoadContainer n)).
Proof. apply call_keeps. intros d c. pose proof (load_law n d) as H. destruct (LoadContainer n d). by apply others_same, H. Qed.
Lemma local_info n : local n (call (Ctr_Info n)).
Proof. apply call_keeps. intros d c. pose proof (info_law n d) as H. destruct (Ctr_Info n d). by apply others_same, H. Qed.
Lemma local_status n : local n (call (Task_Status n)).
Proof. apply call_keeps. intros d c. pose proof (status_law n d) as H. destruct (Task_Status n d). by apply others_same, H. Qed.
Lemma local_task n : local n (call (Ctr_Task n)).
Proof. apply call_keeps. intros. apply others_same, task_law. Qed.
Lemma local_image n r : local n (call (GetImage r)).
Proof. apply call_keeps. intros. apply others_same, image_law. Qed.
Lemma local_pull n r : local n (call (Pull r)).
Proof. apply call_keeps. intros. apply others_same, pull_law. Qed.
Lemma local_stat n p : local n (call (os_Stat p)).
Proof. apply call_keeps. intros. apply others_same, stat_law. Qed.
Lemma local_mkdir n p : local n (call (os_MkdirAll p)).
Proof. apply call_keeps. intros. apply others_same, mkdir_law. Qed.
Lemma local_rm n p : local n (call (os_Remove p)).
Proof. apply call_keeps. intros. apply others_same, rm_law. Qed.
Lemma local_readdir n p : local n (call (os_ReadDir p)).
Proof. apply call_keeps. intros d c. pose proof (readdir_law p d) as H. destruct (os_ReadDir p d). by apply others_same, H. Qed.
Lemma local_kill n : local n (call (Task_Kill n)).
Proof. apply call_keeps. intros. apply others_task, kill_law. Qed.
Lemma local_wait n : local n (call (Task_Wait n)).
Proof. apply call_keeps. intros. apply others_task, wait_law. Qed.
Lemma local_task_delete n : local n (call (Task_Delete n)).
Proof. apply call_keeps. intros. apply others_task, task_delete_law. Qed.
Lemma local_new_task n l : local n (call (NewTask n l)).
Proof. apply call_keeps. intros. apply others_task, new_task_law. Qed.
Lemma local_start n : local n (call (Task_Start n)).
Proof. apply call_keeps. intros d c. pose proof (start_law n d) as H. destruct (Task_Start n d). by apply others_task, H. Qed.
Lemma local_delete n : local n (call (Ctr_Delete n)).
Proof.
  apply call_keeps. intros d c. pose proof (delete_law n d) as H. destruct (Ctr_Delete n d) as [r d']. destruct H as (H1 & H2 & H3).
  unfold others. cbn in *. rewrite H1, H2. f_equal. f_equal. destruct r; [|by destruct H3 as [-> _]]. rewrite H3. by rewrite delete_delete_eq.
Qed.
Lemma local_new n o : local n (call (NewContainer n o)).
Proof.
  apply call_keeps. intros d c. pose proof (new_law n o d) as H. destruct (NewContainer n o d) as [r d']. destruct H as (H1 & H2 & H3).
  unfold others. cbn in *. rewrite H1, H2. f_equal. f_equal. destruct r; rewrite H3; [|done]. by rewrite delete_insert_eq.
Qed.
Lemma local_cni n : local n ensureCNI.
Proof.
  intros [d [r|]]; [done|]. unfold ensureCNI. cbn [cd_cni cd_world]. pose proof (load_cni_law d) as H. destruct (cni_Load d) as [r d'].
  cbn [snd] in *. exact (others_same n d d' None H).
Qed.
Lemma local_setup n pid ports : local n (cniSetup n pid ports).
Proof.
  apply keeps_bind; [apply local_cni|]. intros _. apply call_keeps. intros d c. pose proof (setup_law n (netnsPath pid) (gocniPortMappings ports) d) as H. destruct (cni_Setup _ _ _ d). by apply others_net, H.
Qed.
Lemma local_teardown n pid pm : local n (cniTeardown n pid pm).
Proof.
  apply keeps_bind; [apply local_cni|]. intros _. apply call_keeps. intros d c. pose proof (teardown_law n (netnsPath pid) pm d) as H. destruct (cni_Remove _ _ _ d). by apply others_net, H.
Qed.

Lemma call_exec_or_fail what path args (w : W) :
  let '(o, d') := exec_Command path args (cd_world w) in
  call (exec_or_fail what path args) w =
    (match o_err o with Some err => Err (Wrap (what +:+ ": ") err (": " +:+ TrimSpace (o_combined o))) | None => Ok tt end, mkCDriver d' (cd_cni w)).
Proof.
  unfold call, zoom, exec_or_fail, exec_prog, bind. destruct (exec_Command path args (cd_world w)) as [o d']. by destruct (o_err o).
Qed.
Lemma local_mount n m dev vol : local n (runMount (D:=D) (mount_args m dev (mountPath n vol))).
Proof.
  intros w. unfold runMount. pose proof (call_exec_or_fail ("mount " +:+ show_args (mount_args m dev (mountPath n vol))) "/bin/mount" (mount_args m dev (mountPath n vol)) w) as E.
  pose proof (mount_law m dev (mountPath n vol) (cd_world w)) as H. destruct (exec_Command _ _ _) as [o d']. rewrite E. destruct H as ([H1 H2] & H3 & _).
  unfold others. cbn. rewrite H1, H2, H3. f_equal. f_equal. destruct (o_err o); [done|].
  apply map_filter_insert_not. intros y. unfold outside. cbn [fst]. by rewrite inside_path.
Qed.
Lemma local_umount n vol : local n (runUmount (D:=D) (mountPath n vol)).
Proof.
  intros w. unfold runUmount. pose proof (call_exec_or_fail ("umount " +:+ mountPath n vol) "/bin/umount" [mountPath n vol] w) as E.
  pose proof (umount_law (mountPath n vol) (cd_world w)) as H. destruct (exec_Command _ _ _) as [o d']. rewrite E. destruct H as ([H1 H2] & H3).
  unfold others. cbn. rewrite H1, H2, H3. f_equal. f_equal. destruct (o_err o); [done|].
  apply map_filter_delete_not. intros y _. unfold outside. cbn [fst]. by rewrite inside_path.
Qed.
End frame.
Create HintDb local.
#[export] Hint Resolve local_load local_info local_status local_task local_image local_pull local_stat local_mkdir local_rm local_readdir
  local_kill local_wait local_task_delete local_new_task local_start local_delete local_new local_cni local_setup local_teardown
  local_mount local_umount : local.
Ltac go_local := go_keeps; auto with local.

Section local_steps.
Context {D : Type} `{!Containerd D, !ContainerdLaws D}.
Abbreviation local n := (keeps (others (D:=D) n)).

Lemma local_mount_volume n m : local n (mount_volume n m).
Proof. unfold mount_volume. go_local. Qed.
Lemma local_mount_all n declared : forall mounted, local n (mount_all n declared mounted).
Proof.
  induction declared as [|m declared IH]; intros mounted; cbn; [apply keeps_ret|].
  pose proof (local_mount_volume n m). go_local.
Qed.
(** Every mount point is the one of its volume. *)
Definition own_paths (n : string) (mounted : gmap string string) : Prop := map_Forall (fun v mp => mp = mountPath n v) mounted.
Lemma local_release n vol : local n (release (mountPath n vol)).
Proof. unfold release. go_local. Qed.
Lemma local_for_each {A} n (l : list A) (f : A -> prog (CDriver D) unit) : (forall a, a ∈ l -> local n (f a)) -> local n (for_each l f).
Proof. intros H. apply keeps_preserves. intros b. apply preserves_for_each. intros a Ha w Hw. by rewrite (H a Ha). Qed.
Lemma local_unmount n mounted : own_paths n mounted -> local n (unmountContainerVolumes n mounted).
Proof.
  intros Hm. unfold unmountContainerVolumes. cbv zeta. destruct (decide (mounted = ∅)) as [|_].
  - go_local. apply local_for_each. intros x _. apply (local_release n x).
  - go_local. apply local_for_each. intros mp Hin. apply list_elem_of_fmap in Hin as ([v x] & -> & Hx). apply elem_of_map_to_list in Hx.
    cbn. rewrite (Hm v x Hx). apply local_release.
Qed.
Lemma local_kill_task n pid b pm : local n (kill_task n pid b pm).
Proof. unfold kill_task. go_local. Qed.
Lemma local_Remove n : local n (Ctr_Remove n).
Proof.
  unfold Ctr_Remove. pose proof (local_unmount n ∅ (map_Forall_empty _)). pose proof local_kill_task. go_local.
Qed.
Lemma local_settle n h : local n (settle n h).
Proof. unfold settle, drop_container. pose proof (local_Remove n). go_local. Qed.
Lemma mount_all_paths n declared : forall mounted w r w', own_paths n mounted -> mount_all n declared mounted w = (Ok r, w') -> own_paths n r.1.
Proof.
  induction declared as [|m declared IH]; intros mounted w r w' Hm H; cbn in H; [by injection H as <- <-|].
  destruct (String.eqb _ ""); [by eapply IH|]. unfold bind, catch in H. destruct (mount_volume n m w) as [[[]|e] w1].
  - eapply IH; [|exact H]. by apply map_Forall_insert_2.
  - by injection H as <- <-.
Qed.
Lemma local_mount_declared n declared : local n (mount_declared n declared).
Proof.
  intros w. unfold mount_declared, mountContainerVolumes, bind. pose proof (local_mount_all n declared ∅ w) as Hl.
  destruct (mount_all n declared ∅ w) as [[r|e] w1] eqn:E; [|done]. apply mount_all_paths in E; [|apply map_Forall_empty].
  destruct r as [mounted [[]|err]]; cbn [snd fst] in *; [done|]. rewrite <- Hl.
  pose proof (local_unmount n mounted E w1) as H. destruct (unmountContainerVolumes n mounted w1) as [[]]; done.
Qed.
Lemma local_create n spec h : local n (create n spec h).
Proof.
  unfold create, find_image, new_task, bring_network, start_task, discard. pose proof local_mount_declared. go_local.
Qed.
Lemma local_EnsureRunning marshal sha256 w : local (wl_name w) (Ctr_EnsureRunning marshal sha256 w).
Proof. unfold Ctr_EnsureRunning. pose proof local_settle. pose proof local_create. go_local. Qed.
Lemma local_Status n : local n (Ctr_Status n).
Proof. unfold Ctr_Status. go_local. Qed.
End local_steps.

(** ** What a successful call leaves *)
Section results.
Context {D : Type} `{!Containerd D, !ContainerdLaws D}.
Abbreviation W := (CDriver D).
Abbreviation ctr_of w := (ctrs (cd_world w)).
Abbreviation mounts_of w := (vmounts (cd_world w)).
Abbreviation nat_of w := (attached (cd_world w)).

Lemma call_inv {A} (m : prog D A) (w : W) r w' : call m w = (r, w') -> exists d', m (cd_world w) = (r, d') /\ w' = mkCDriver d' (cd_cni w).
Proof. unfold call, zoom. destruct (m (cd_world w)) as [r1 d']. intros [= <- <-]. eauto. Qed.

(** Containers and networks, while volumes are mounted and unmounted. *)
Definition nodes (w : W) : gmap string Ctr * gmap string (list CniPort) := (ctr_of w, nat_of w).
Definition quiet (w w' : W) : Prop := same ctrs vmounts attached (cd_world w) (cd_world w').
Lemma quiet_nodes w w' : quiet w w' -> nodes w' = nodes w.
Proof. intros (H1 & _ & H3). unfold nodes. by rewrite H1, H3. Qed.

Lemma quiet_call {A} (m : prog D A) w r w' : (forall d, same ctrs vmounts attached d (m d).2) -> call m w = (r, w') -> quiet w w'.
Proof. intros H (d' & E & ->)%call_inv. specialize (H (cd_world w)). by rewrite E in H. Qed.

Lemma nodes_quiet {A} (m : prog D A) : (forall d, same ctrs vmounts attached d (m d).2) -> keeps nodes (call m).
Proof. intros H w. destruct (call m w) as [r w'] eqn:E. by eapply quiet_nodes, quiet_call. Qed.
Lemma readdir_same p d : same ctrs vmounts attached d (os_ReadDir p d).2.
Proof. pose proof (readdir_law p d) as H. destruct (os_ReadDir p d). apply H. Qed.
Lemma runMount_cases m dev mp (w : W) r w' : runMount (mount_args m dev mp) w = (r, w') ->
  nodes w' = nodes w /\
  match r with
  | Ok _ => mounts_of w' = <[mp := (dev, vm_read_only m)]> (mounts_of w) /\ forall ro, mounts_of w !! mp <> Some (dev, ro)
  | Err _ => mounts_of w' = mounts_of w
  end.
Proof.
  unfold runMount. pose proof (call_exec_or_fail ("mount " +:+ show_args (mount_args m dev mp)) "/bin/mount" (mount_args m dev mp) w) as E.
  pose proof (mount_law m dev mp (cd_world w)) as H. destruct (exec_Command _ _ _) as [o d']. rewrite E. destruct H as ([H1 H2] & H3 & H4).
  intros [= <- <-]. unfold nodes. cbn. rewrite H1, H2. split; [done|]. destruct (o_err o); [done|]. split; [done|].
  intros ro Hro. by apply (H4 ro).
Qed.
Lemma runUmount_cases mp (w : W) r w' : runUmount mp w = (r, w') ->
  nodes w' = nodes w /\ mounts_of w' = match r with Ok _ => delete mp (mounts_of w) | Err _ => mounts_of w end.
Proof.
  unfold runUmount. pose proof (call_exec_or_fail ("umount " +:+ mp) "/bin/umount" [mp] w) as E.
  pose proof (umount_law mp (cd_world w)) as H. destruct (exec_Command _ _ _) as [o d']. rewrite E. destruct H as ([H1 H2] & H3).
  intros [= <- <-]. unfold nodes. cbn. rewrite H1, H2, H3. split; [done|]. by destruct (o_err o).
Qed.

Lemma nodes_mount m dev mp : keeps nodes (runMount (D:=D) (mount_args m dev mp)).
Proof. intros w. destruct (runMount _ w) eqn:E. by apply runMount_cases in E as [? _]. Qed.
Lemma nodes_umount mp : keeps nodes (runUmount (D:=D) mp).
Proof. intros w. destruct (runUmount _ w) eqn:E. by apply runUmount_cases in E as [? _]. Qed.
Lemma nodes_unmount n mounted : keeps nodes (unmountContainerVolumes (D:=D) n mounted).
Proof.
  pose proof nodes_umount as H1. pose proof (fun p => nodes_quiet _ (rm_law p)) as H2. pose proof (fun p => nodes_quiet _ (readdir_same p)) as H3.
  assert (forall mp, keeps nodes (release (D:=D) mp)) as H4 by (intros mp; unfold release; go_keeps).
  assert (forall l, keeps nodes (for_each l (release (D:=D)))) as H5.
  { intros l. apply keeps_preserves. intros b. apply preserves_for_each. intros mp _ w Hw. by rewrite (H4 mp). }
  unfold unmountContainerVolumes. cbv zeta. go_keeps; try apply H1; try apply H2; try apply H3; try apply H5.
  apply keeps_preserves. intros b. apply preserves_for_each. intros mp _ w Hw. by rewrite H4.
Qed.

(** *** Mounting the declared volumes *)

Lemma mount_volume_cases n m (w : W) r w' : mount_volume n m w = (r, w') ->
  let mp := mountPath n (vm_volume_name m) in let dev := volumeBlockDevice (vm_volume_name m) in
  nodes w' = nodes w /\
  match r with
  | Ok _ => mounts_of w' = <[mp := (dev, vm_read_only m)]> (mounts_of w) /\ forall ro, mounts_of w !! mp <> Some (dev, ro)
  | Err _ => mounts_of w' = mounts_of w
  end.
Proof.
  cbv zeta. unfold mount_volume, bind, catch, wrap_err. destruct (call (os_Stat _) w) as [s w1] eqn:E1.
  apply (quiet_call _ _ _ _ (stat_law _)) in E1. destruct s as [[]|e].
  2: { intros [= <- <-]. split; [by apply quiet_nodes|]. by destruct E1 as (_ & -> & _). }
  destruct (call (os_MkdirAll _) w1) as [s w2] eqn:E2. apply (quiet_call _ _ _ _ (mkdir_law _)) in E2.
  assert (nodes w2 = nodes w) as Hn by by rewrite (quiet_nodes _ _ E2), (quiet_nodes _ _ E1).
  assert (mounts_of w2 = mounts_of w) as Hm by by rewrite (proj1 (proj2 E2)), (proj1 (proj2 E1)).
  destruct s as [[]|e].
  2: { intros [= <- <-]. done. }
  destruct (runMount _ w2) as [s w3] eqn:E3. apply runMount_cases in E3 as [H1 H2]. rewrite Hn in H1. rewrite Hm in H2.
  destruct s as [[]|e]; intros [= <- <-]; done.
Qed.

Definition holds_volume (n : string) (w : W) (vol : string) (ro : bool) : Prop :=
  mounts_of w !! mountPath n vol = Some (volumeBlockDevice vol, ro).
Lemma mountPath_inj n a b : mountPath n a = mountPath n b -> a = b.
Proof. unfold mountPath. rewrite <- !app_assoc_str. apply app_inj_l. Qed.

Lemma own_insert n vol mounted : own_paths n mounted -> own_paths n (<[vol := mountPath n vol]> mounted) /\ mounted ⊆ <[vol := mountPath n vol]> mounted.
Proof.
  intros H. split; [by apply map_Forall_insert_2|]. destruct (mounted !! vol) as [x|] eqn:E; [|by apply insert_subseteq].
  rewrite insert_id; [done|]. by rewrite E, (H _ _ E).
Qed.

Lemma mount_all_cases n declared : forall mounted (w : W) res w',
  own_paths n mounted -> mount_all n declared mounted w = (res, w') ->
  exists mounted' r, res = Ok (mounted', r) /\ nodes w' = nodes w /\ mounted ⊆ mounted' /\ own_paths n mounted' /\
    (forall vol ro, holds_volume n w vol ro -> holds_volume n w' vol ro) /\
    (forall mp x, mounts_of w' !! mp = Some x -> mounts_of w !! mp = Some x \/ exists vol, mounted' !! vol = Some mp) /\
    (r = Ok tt -> forall m, m ∈ declared -> vm_volume_name m <> "" ->
       mounted' !! vm_volume_name m = Some (mountPath n (vm_volume_name m)) /\ holds_volume n w' (vm_volume_name m) (vm_read_only m)).
Proof.
  induction declared as [|m declared IH]; intros mounted w res w' Hown H; cbn in H.
  - injection H as <- <-. exists mounted, (Ok tt). split_and!; [done..|by intros; left|]. intros _ m Hin. by apply not_elem_of_nil in Hin.
  - destruct (String.eqb_spec (vm_volume_name m) "") as [Hv|Hv].
    + destruct (IH _ _ _ _ Hown H) as (mounted' & r & H1 & H2 & H3 & H4 & H5 & H6 & H7). exists mounted', r. split_and!; [done..|].
      intros Hr x [->|Hin]%elem_of_cons Hx; [done|by apply H7].
    + unfold bind, catch in H. destruct (mount_volume n m w) as [s w1] eqn:E. apply mount_volume_cases in E as [Hn Hs].
      destruct s as [[]|e].
      2: { injection H as <- <-. exists mounted, (Err e). split_and!; [done..| | |done].
           - intros vol ro. unfold holds_volume. by rewrite Hs.
           - intros mp x Hx. left. by rewrite Hs in Hx. }
      destruct Hs as [Hm Hno]. destruct (own_insert n (vm_volume_name m) mounted Hown) as [Hown' Hsub].
      destruct (IH _ _ _ _ Hown' H) as (mounted' & r & H1 & H2 & H3 & H4 & H5 & H6 & H7). exists mounted', r.
      assert (mounted' !! vm_volume_name m = Some (mountPath n (vm_volume_name m))) as Hin by (eapply lookup_weaken; [|exact H3]; by rewrite lookup_insert_eq).
      assert (holds_volume n w1 (vm_volume_name m) (vm_read_only m)) as Hhold by (unfold holds_volume; by rewrite Hm, lookup_insert_eq).
      split_and!; [done|congruence|by etrans|done| | |].
      * intros vol ro Hh. apply H5. unfold holds_volume in *. rewrite Hm, lookup_insert_ne; [done|].
        intros Heq. apply mountPath_inj in Heq as <-. by apply (Hno ro).
      * intros mp x Hx. apply H6 in Hx as [Hx|?]; [|by right]. rewrite Hm in Hx.
        apply lookup_insert_Some in Hx as [[<- _]|[_ Hx]]; [right; by eexists|by left].
      * intros Hr x [->|Hx]%elem_of_cons Hxv; [|by apply H7]. split; [done|]. by apply H5.
Qed.

Lemma mount_declared_Ok n declared (w : W) mounted w' : mount_declared n declared w = (Ok mounted, w') ->
  nodes w' = nodes w /\ own_paths n mounted /\
  forall m, m ∈ declared -> vm_volume_name m <> "" ->
    mounted !! vm_volume_name m = Some (mountPath n (vm_volume_name m)) /\ holds_volume n w' (vm_volume_name m) (vm_read_only m).
Proof.
  unfold mount_declared, mountContainerVolumes, bind. destruct (mount_all n declared ∅ w) as [res w1] eqn:E.
  apply mount_all_cases in E as (mounted' & r & -> & H1 & _ & H2 & _ & _ & H3); [|apply map_Forall_empty].
  destruct r as [[]|e].
  - intros [= <- <-]. split_and!; [done..|]. by apply H3.
  - destruct (unmountContainerVolumes n mounted' w1) as [[]]; done.
Qed.

(** *** Creating *)

(** The port mappings installed for a name. *)
Definition ports_of (n : string) (w : W) : list CniPort := ports_in (nat_of w) n.

(** The container of [n] with its options, and what it needs, while its task changes. *)
Definition made (n : string) (o : CtrOpts) (V : gmap string (string * bool)) (w : W) : Prop :=
  ct_opts <$> ctr_of w !! n = Some o /\ mounts_of w = V.

Lemma made_quiet n o V w w' : quiet w w' -> made n o V w -> made n o V w'.
Proof. intros (H1 & H2 & _) [H3 H4]. split; congruence. Qed.
Lemma made_task {A} n o V (m : prog D A) w r w' : (forall d, only_task ctrs vmounts attached n d (m d).2) -> call m w = (r, w') ->
  made n o V w -> made n o V w' /\ nat_of w' = nat_of w.
Proof.
  intros H (d' & E & ->)%call_inv [H1 H2]. specialize (H (cd_world w)). rewrite E in H. destruct H as (_ & H3 & H4 & H5).
  cbn [snd cd_world] in *. split; [split; cbn [cd_world]; [by rewrite H3|by rewrite H4]|done].
Qed.

Lemma find_image_quiet ref (w : W) r w' : find_image ref w = (r, w') -> quiet w w'.
Proof.
  unfold find_image, bind, catch, wrap_err. destruct (call (GetImage ref) w) as [g w1] eqn:E1. apply (quiet_call _ _ _ _ (image_law _)) in E1.
  destruct g as [i|e]; [by intros [= <- <-]|]. destruct (IsNotFound e); [|by intros [= <- <-]].
  destruct (call (Pull ref) w1) as [g w2] eqn:E2. apply (quiet_call _ _ _ _ (pull_law _)) in E2.
  destruct E1 as (H1 & H2 & H3), E2 as (H4 & H5 & H6). destruct g; intros [= <- <-]; unfold quiet, same; split_and!; congruence.
Qed.

Lemma new_task_Ok n o V w pid w' : new_task n w = (Ok pid, w') -> made n o V w -> made n o V w' /\ nat_of w' = nat_of w.
Proof.
  unfold new_task, bind, catch. destruct (call (os_MkdirAll _) w) as [s w1] eqn:E1. apply (quiet_call _ _ _ _ (mkdir_law _)) in E1.
  destruct s as [[]|e]; [|by destruct (ignore _ w1) as [[]]]. destruct (call (NewTask _ _) w1) as [t w2] eqn:E2.
  destruct t as [p|e]; [|by destruct (ignore _ w2) as [[]]]. intros [= <- <-] Hm. apply (made_quiet _ _ _ _ _ E1) in Hm.
  pose proof (made_task n o V _ _ _ _ (new_task_law n _) E2 Hm) as [? ?]. split; [done|]. by destruct E1 as (_ & _ & <-).
Qed.

Lemma ensureCNI_quiet (w : W) r w' : ensureCNI w = (r, w') -> quiet w w'.
Proof.
  unfold ensureCNI. destruct w as [d [x|]]; cbn; [by intros [= <- <-]|]. pose proof (load_cni_law d) as H.
  destruct (cni_Load d) as [x d']. by intros [= <- <-].
Qed.
Lemma cniTeardown_net n pid pm (w : W) r w' : cniTeardown n pid pm w = (r, w') ->
  only_net ctrs vmounts attached n (cd_world w) (cd_world w') /\ ports_of n w' ⊆ ports_of n w.
Proof.
  unfold cniTeardown, bind, ports_of. destruct (ensureCNI w) as [x w1] eqn:E. apply ensureCNI_quiet in E as (H1 & H2 & H3).
  destruct x; [|intros [= <- <-]; split; [split_and!; [done..|congruence]|by rewrite H3]]. intros (d' & E & ->)%call_inv.
  pose proof (teardown_law n (netnsPath pid) pm (cd_world w1)) as H. rewrite E in H. destruct H as [(H4 & H5 & H6) [H7 _]].
  rewrite H3 in H7. split; [|done]. split_and!; cbn; [congruence..|]. intros m Hm. by rewrite H6, H3.
Qed.
Lemma cniSetup_Ok n pid ports (w : W) w' : cniSetup n pid ports w = (Ok tt, w') ->
  only_net ctrs vmounts attached n (cd_world w) (cd_world w') /\ ports_of n w' = ports_of n w ++ gocniPortMappings ports.
Proof.
  unfold cniSetup, bind, ports_of. destruct (ensureCNI w) as [x w1] eqn:E. apply ensureCNI_quiet in E as (H1 & H2 & H3).
  destruct x; [|done]. intros (d' & E & ->)%call_inv.
  pose proof (setup_law n (netnsPath pid) (gocniPortMappings ports) (cd_world w1)) as H. rewrite E in H. destruct H as [(H4 & H5 & H6) H7].
  split; [|cbn; rewrite <- H3; by apply H7]. split_and!; cbn; [congruence..|]. intros m Hm. by rewrite H6, H3.
Qed.
Lemma made_net n o V w w' : only_net ctrs vmounts attached n (cd_world w) (cd_world w') -> made n o V w -> made n o V w'.
Proof. intros (H1 & H2 & _) [H3 H4]. split; congruence. Qed.

Lemma bring_network_Ok n spec pid o V (w : W) w' : bring_network n spec pid w = (Ok tt, w') -> made n o V w ->
  made n o V w' /\ exists old, old ⊆ ports_of n w /\ ports_of n w' = old ++ gocniPortMappings (cs_ports spec).
Proof.
  unfold bring_network, bind, ignore, catch. destruct (cniTeardown n pid _ w) as [x w1] eqn:E1. apply cniTeardown_net in E1 as [E1 H1].
  destruct (cniSetup n pid _ w1) as [x2 w2] eqn:E2. destruct x2 as [[]|e]; [|by destruct (discard n w2) as [[]]].
  intros [= <-] Hm. apply cniSetup_Ok in E2 as [E2 Hn]. split; [by eapply made_net, made_net|by eexists].
Qed.
Lemma start_task_Ok n spec pid o V (w : W) w' : start_task n spec pid w = (Ok tt, w') -> made n o V w ->
  ctr_of w' !! n = Some (mkCtr o (Some Running)) /\ mounts_of w' = V /\ nat_of w' = nat_of w.
Proof.
  unfold start_task, bind, catch. destruct (call (Task_Start n) w) as [x w1] eqn:E. destruct x as [[]|e].
  2: { unfold when. destruct (is_bridge spec); unfold ignore, ret; [destruct (cniTeardown _ _ _ w1) as [? w2]|]; by destruct (discard n _) as [[]]. }
  intros [= <-] [H1 H2]. apply call_inv in E as (d' & E & ->). pose proof (start_law n (cd_world w)) as H. rewrite E in H.
  destruct H as [(_ & H3 & H4 & H5) H6]. specialize (H6 eq_refl). cbn [cd_world]. rewrite H1 in H3. split_and!; [|congruence..].
  destruct (ctrs d' !! n) as [[o' t]|]; [|done]. cbn in H3, H6. congruence.
Qed.

(** What [EnsureRunning] means to set up. *)
Definition set_up (n : string) (spec : ContainerSpec) (h : string) (old : list CniPort) (w : W) : Prop :=
  exists image mounted,
    ctr_of w !! n = Some (mkCtr (containerOpts n spec h image mounted) (Some Running)) /\ own_paths n mounted /\
    (forall m, m ∈ cs_mounts spec -> vm_volume_name m <> "" ->
       mounted !! vm_volume_name m = Some (mountPath n (vm_volume_name m)) /\ holds_volume n w (vm_volume_name m) (vm_read_only m)) /\
    (is_bridge spec = true -> ports_of n w = old ++ gocniPortMappings (cs_ports spec)).

(** Until the network is set up, no step adds port mappings. *)
Definition fewer (n : string) (P : list CniPort) (w : W) : Prop := ports_of n w ⊆ P.
Lemma fewer_call {A} n P (m : prog D A) : (forall d, attached (m d).2 = attached d) -> preserves (fewer n P) (call m).
Proof. intros H w Hw. destruct (call m w) as [r w'] eqn:E. apply call_inv in E as (d' & E & ->). specialize (H (cd_world w)). rewrite E in H. unfold fewer, ports_of in *. cbn in *. by rewrite H. Qed.
Lemma fewer_keeps {A} n P (m : prog W A) : keeps nodes m -> preserves (fewer n P) m.
Proof. intros H w Hw. specialize (H w). unfold nodes in H. injection H as _ H. unfold fewer, ports_of in *. by rewrite H. Qed.
Lemma fewer_teardown n P pid pm : preserves (fewer n P) (cniTeardown n pid pm).
Proof. intros w Hw. destruct (cniTeardown n pid pm w) as [r w'] eqn:E. apply cniTeardown_net in E as [_ E]. unfold fewer in *. cbn. by etrans. Qed.
Ltac attached_law :=
  intros d; first
    [ apply (task_law _ d) | apply (image_law _ d) | apply (pull_law _ d) | apply (mkdir_law _ d) | apply (kill_law _ d) | apply (wait_law _ d)
    | apply (task_delete_law _ d) | apply (new_task_law _ _ d)
    | let n := match goal with |- attached (LoadContainer ?n d).2 = _ => n end in pose proof (load_law n d) as Hlaw; destruct (LoadContainer n d); apply Hlaw
    | let n := match goal with |- attached (Ctr_Info ?n d).2 = _ => n end in pose proof (info_law n d) as Hlaw; destruct (Ctr_Info n d); apply Hlaw
    | let n := match goal with |- attached (Task_Status ?n d).2 = _ => n end in pose proof (status_law n d) as Hlaw; destruct (Task_Status n d); apply Hlaw
    | let n := match goal with |- attached (Ctr_Delete ?n d).2 = _ => n end in pose proof (delete_law n d) as Hlaw; destruct (Ctr_Delete n d); apply Hlaw
    | let n := match goal with |- attached (NewContainer ?n ?o d).2 = _ => constr:((n, o)) end in
      pose proof (new_law (fst n) (snd n) d) as Hlaw; cbn [fst snd] in Hlaw; destruct (NewContainer _ _ d); apply Hlaw ].
Ltac go_fewer := go_preserves; try first [apply fewer_teardown|apply fewer_call; attached_law].

Lemma fewer_Remove n P : preserves (fewer n P) (Ctr_Remove n).
Proof. pose proof (fewer_keeps n P _ (nodes_unmount n ∅)). unfold Ctr_Remove, kill_task. go_fewer; done. Qed.
Lemma fewer_settle n P h : preserves (fewer n P) (settle n h).
Proof. pose proof (fewer_Remove n P). unfold settle, drop_container. go_fewer; done. Qed.

Lemma create_Ok n spec h P (w : W) w' : create n spec h w = (Ok tt, w') -> fewer n P w ->
  exists old, old ⊆ P /\ set_up n spec h old w'.
Proof.
  unfold create. intros (image & w1 & E1 & H)%bind_Ok_inv HP. apply find_image_quiet in E1 as (_ & _ & N1). apply bind_Ok_inv in H as (mounted & w2 & E2 & H).
  apply mount_declared_Ok in E2 as (N2 & Hown & Hvol). unfold nodes in N2. injection N2 as _ N2. apply bind_Ok_inv in H as ([] & w3 & E3 & H).
  unfold wrap_err in E3. destruct (call (NewContainer _ _) w2) as [x w4] eqn:E; destruct x as [[]|]; [|done]. injection E3 as ->.
  apply call_inv in E as (d' & E & ->). set (o := containerOpts n spec h image mounted) in *. pose proof (new_law n o (cd_world w2)) as Hl. rewrite E in Hl.
  destruct Hl as (H1 & N3 & H2). apply bind_Ok_inv in H as (pid & w5 & E5 & H).
  assert (made n o (mounts_of w2) (mkCDriver d' (cd_cni w2))) as Hm by (split; cbn; [by rewrite H2, lookup_insert_eq|done]).
  apply (new_task_Ok _ _ _ _ _ _ E5) in Hm as [Hm N5]. apply bind_Ok_inv in H as ([] & w6 & E6 & H).
  assert (ports_of n w5 ⊆ P) as HP5 by (unfold fewer, ports_of in *; rewrite N5; cbn; by rewrite N3, N2, N1).
  assert (made n o (mounts_of w2) w6 /\ exists old, old ⊆ P /\ (is_bridge spec = true -> ports_of n w6 = old ++ gocniPortMappings (cs_ports spec))) as [Hm6 (old & Hold & Hn6)].
  { unfold when in E6. destruct (is_bridge spec).
    - apply (bring_network_Ok _ _ _ o (mounts_of w2)) in E6 as [? (old & H3 & H4)]; [|done]. split; [done|]. exists old. split; [by etrans|done].
    - injection E6 as <-. split; [done|]. exists []. split; [apply list_subseteq_nil|done]. }
  apply (start_task_Ok _ _ _ _ _ _ _ H) in Hm6 as (H3 & H4 & H5). exists old. split; [done|]. exists image, mounted. split_and!; [done..| |].
  - intros m Hin Hv. destruct (Hvol m Hin Hv) as [? Hh]. split; [done|]. unfold holds_volume in *. by rewrite H4.
  - intros Hb. unfold ports_of. rewrite H5. by apply Hn6.
Qed.

(** *** What is there already *)

Definition hash_label (c : Ctr) : string := default "" (co_labels (ct_opts c) !! SpecHashLabel).
Definition info_fails (n : string) (w : W) : Prop := exists w1 e, quiet w w1 /\ (call (Ctr_Info n) w1).1 = Err e.
(** A container of the name runs, and nothing tells its spec from the desired one. *)
Definition kept (n h : string) (w w' : W) : Prop :=
  quiet w w' /\ exists c, ctr_of w !! n = Some c /\ ct_task c = Some Running /\
    (hash_label c = h \/ hash_label c = "" \/ info_fails n w).

Lemma quiet_refl w : quiet w w.
Proof. by split_and!. Qed.
Lemma quiet_trans w1 w2 w3 : quiet w1 w2 -> quiet w2 w3 -> quiet w1 w3.
Proof. intros (H1 & H2 & H3) (H4 & H5 & H6). unfold quiet, same. split_and!; congruence. Qed.
Lemma load_cases n (w : W) r w' : call (LoadContainer n) w = (r, w') -> quiet w w' /\
  match r with Ok _ => is_Some (ctr_of w !! n) | Err e => IsNotFound e = true -> ctr_of w !! n = None end.
Proof.
  intros (d' & E & ->)%call_inv. pose proof (load_law n (cd_world w)) as H. rewrite E in H. exact H.
Qed.
Lemma info_cases n (w : W) r w' : call (Ctr_Info n) w = (r, w') -> quiet w w' /\
  forall l, r = Ok l -> (co_labels ∘ ct_opts <$> ctr_of w !! n) = Some l.
Proof. intros (d' & E & ->)%call_inv. pose proof (info_law n (cd_world w)) as H. rewrite E in H. exact H. Qed.
Lemma status_cases n (w : W) r w' : call (Task_Status n) w = (r, w') -> quiet w w' /\
  forall s c, r = Ok (s, c) -> ctr_of w !! n ≫= ct_task = Some s.
Proof. intros (d' & E & ->)%call_inv. pose proof (status_law n (cd_world w)) as H. rewrite E in H. exact H. Qed.

Lemma settle_true n h (w w' : W) : settle n h w = (Ok true, w') -> kept n h w w'.
Proof.
  unfold settle. unfold bind at 1, catch at 1. destruct (call (LoadContainer n) w) as [l w1] eqn:E1. apply load_cases in E1 as [Q1 H1].
  destruct l as [[]|e]; [|by destruct (IsNotFound e)]. destruct H1 as [c Hc].
  unfold bind at 1, catch at 1. destruct (call (Ctr_Info n) w1) as [info w2] eqn:E2. pose proof E2 as E2'. apply info_cases in E2 as [Q2 H2].
  unfold bind at 1, catch at 1. destruct (call (Ctr_Task n) w2) as [t w3] eqn:E3. apply (quiet_call _ _ _ _ (task_law n)) in E3 as Q3.
  destruct t as [pid|e]; [|unfold bind; by destruct (drop_container n w3) as [[]]].
  unfold bind at 1, catch at 1. destruct (call (Task_Status n) w3) as [st w4] eqn:E4. apply status_cases in E4 as [Q4 H4].
  pose proof (quiet_trans _ _ _ Q1 Q2) as Q12. pose proof (quiet_trans _ _ _ Q12 Q3) as Q13. pose proof (quiet_trans _ _ _ Q13 Q4) as Q14.
  destruct (is_running st) eqn:Er.
  2: { unfold bind, ignore. destruct (call (Task_Delete n) w4) as [? w5]. by destruct (drop_container n w5) as [[]]. }
  set (rh := match info with Ok labels => _ | Err _ => _ end).
  destruct (negb (negb (String.eqb rh "") && negb (String.eqb rh h))) eqn:Ec.
  2: { unfold bind, wrap_err. by destruct (Ctr_Remove n w4) as [[]]. }
  intros [= <-]. split; [done|]. exists c. split; [done|]. split.
  - destruct st as [[s code]|]; [|done]. cbn in Er. apply String.eqb_eq in Er as ->. specialize (H4 _ _ eq_refl).
    rewrite (proj1 Q13), Hc in H4. exact H4.
  - destruct info as [labels|e].
    + specialize (H2 _ eq_refl). rewrite (proj1 Q1), Hc in H2. injection H2 as H2. subst rh. unfold hash_label. rewrite H2.
      apply negb_true_iff, andb_false_iff in Ec as [Ec|Ec]; apply negb_false_iff, String.eqb_eq in Ec; tauto.
    + right. right. exists w1, e. split; [done|]. by rewrite E2'.
Qed.

(** What is not running is taken away, its volumes stay mounted. *)
Lemma drop_mounts n (w : W) r w' : drop_container n w = (r, w') -> mounts_of w' = mounts_of w.
Proof.
  unfold drop_container, wrap_err. destruct (call (Ctr_Delete n) w) as [x w1] eqn:E. apply call_inv in E as (d' & E & ->).
  pose proof (delete_law n (cd_world w)) as H. rewrite E in H. destruct H as (H & _ & _). by destruct x; intros [= _ <-].
Qed.
Lemma settle_mounts n h (w : W) r w' : (ctr_of w !! n ≫= ct_task) <> Some Running -> settle n h w = (r, w') ->
  mounts_of w' = mounts_of w /\ r <> Ok true.
Proof.
  intros Hs. unfold settle. unfold bind at 1, catch at 1. destruct (call (LoadContainer n) w) as [l w1] eqn:E1. apply load_cases in E1 as [Q1 _].
  destruct l as [[]|e]; [|destruct (IsNotFound e); intros [= <- <-]; (split; [apply Q1|done])].
  unfold bind at 1, catch at 1. destruct (call (Ctr_Info n) w1) as [info w2] eqn:E2. apply info_cases in E2 as [Q2 _].
  pose proof (quiet_trans _ _ _ Q1 Q2) as Q12.
  unfold bind at 1, catch at 1. destruct (call (Ctr_Task n) w2) as [t w3] eqn:E3. apply (quiet_call _ _ _ _ (task_law n)) in E3 as Q3.
  pose proof (quiet_trans _ _ _ Q12 Q3) as Q13. destruct t as [pid|e].
  2: { unfold bind. destruct (drop_container n w3) as [x w4] eqn:Ed. apply drop_mounts in Ed. destruct Q13 as (_ & <- & _).
       destruct x; intros [= <- <-]; (split; [done|done]). }
  unfold bind at 1, catch at 1. destruct (call (Task_Status n) w3) as [st w4] eqn:E4. apply status_cases in E4 as [Q4 H4].
  pose proof (quiet_trans _ _ _ Q13 Q4) as (_ & <- & _). destruct (is_running st) eqn:Er.
  { exfalso. destruct st as [[s c]|]; [|done]. cbn in Er. apply String.eqb_eq in Er as ->. apply Hs. rewrite <- (proj1 Q13). by apply (H4 Running c). }
  unfold bind, ignore. destruct (call (Task_Delete n) w4) as [x w5] eqn:E5. apply call_inv in E5 as (d' & E5 & ->).
  pose proof (task_delete_law n (cd_world w4)) as H5. rewrite E5 in H5. destruct H5 as (_ & _ & <- & _).
  destruct (drop_container n (mkCDriver d' (cd_cni w4))) as [y w6] eqn:Ed. apply drop_mounts in Ed.
  destruct y; intros [= <- <-]; (split; [done|done]).
Qed.

(** A volume that is still mounted keeps its workload from coming back: the
    path that takes a stopped container away leaves the volumes mounted, and
    mounting one a second time fails, so [EnsureRunning] fails.  (The mount's
    own roll back then releases them, for the next call.) *)
Theorem stale_mount_blocks_restart marshal sha256 wl spec m rest ro (w : W) :
  wl_container wl = Some spec -> cs_mounts spec = m :: rest -> vm_volume_name m <> "" ->
  holds_volume (wl_name wl) w (vm_volume_name m) ro -> (ctr_of w !! wl_name wl ≫= ct_task) <> Some Running ->
  is_ok (Ctr_EnsureRunning marshal sha256 wl w).1 = false.
Proof.
  intros Hc Hm Hv Hh Hs. unfold Ctr_EnsureRunning. rewrite Hc. unfold bind at 1, lift. destruct (SpecHash marshal sha256 wl) as [h|]; [|done].
  unfold bind at 1. destruct (settle (wl_name wl) h w) as [r w1] eqn:E1. apply settle_mounts in E1 as [M1 Hr]; [|done].
  destruct r as [[]|]; [done| |done]. unfold create. unfold bind at 1. destruct (find_image (cs_image spec) w1) as [i w2] eqn:E2.
  apply find_image_quiet in E2 as (_ & M2 & _). destruct i as [image|]; [|done]. unfold bind at 1.
  destruct (mount_declared (wl_name wl) (cs_mounts spec) w2) as [x w3] eqn:E3. destruct x as [mounted|]; [exfalso|done].
  revert E3. unfold mount_declared, mountContainerVolumes. rewrite Hm. unfold bind at 1. cbn [mount_all].
  destruct (String.eqb_spec (vm_volume_name m) ""); [done|]. unfold bind at 1, catch at 1.
  destruct (mount_volume (wl_name wl) m w2) as [y w4] eqn:E4. apply mount_volume_cases in E4 as [_ H4]. destruct y as [[]|e].
  - destruct H4 as [_ H4]. exfalso. apply (H4 ro). unfold holds_volume in Hh. by rewrite M2, M1.
  - cbn. unfold bind. by destruct (unmountContainerVolumes _ ∅ w4) as [[]].
Qed.

(** *** Removing *)

Lemma unmount_nodes n mounted (w : W) r w' : unmountContainerVolumes n mounted w = (r, w') -> nodes w' = nodes w.
Proof. intros E. pose proof (nodes_unmount n mounted w) as H. by rewrite E in H. Qed.
Lemma delete_cases n (w : W) r w' : call (Ctr_Delete n) w = (r, w') ->
  mounts_of w' = mounts_of w /\ nat_of w' = nat_of w /\
  match r with Ok _ => ctr_of w' = delete n (ctr_of w) | Err e => ctr_of w' = ctr_of w /\ (IsNotFound e = true -> ctr_of w !! n = None) end.
Proof. intros (d' & E & ->)%call_inv. pose proof (delete_law n (cd_world w)) as H. rewrite E in H. exact H. Qed.

Lemma Remove_gone n (w w' : W) : Ctr_Remove n w = (Ok tt, w') -> ctr_of w' !! n = None.
Proof.
  unfold Ctr_Remove. unfold bind at 1, catch at 1. destruct (call (LoadContainer n) w) as [l w1] eqn:E1. apply load_cases in E1 as [(Q1 & _) H1].
  destruct l as [[]|e].
  2: { destruct (IsNotFound e); [|done]. intros [= <-]. rewrite Q1. by apply H1. }
  intros (info & w2 & _ & H)%bind_Ok_inv. apply bind_Ok_inv in H as (t & w3 & _ & H). apply bind_Ok_inv in H as ([] & w4 & _ & H).
  apply bind_Ok_inv in H as (dl & w5 & E5 & H). unfold catch in E5. destruct (call (Ctr_Delete n) w4) as [x w6] eqn:E6. injection E5 as <- ->.
  apply delete_cases in E6 as (_ & _ & H6). apply bind_Ok_inv in H as ([] & w7 & E7 & H).
  assert (ctr_of w7 !! n = None) as Hgone.
  { destruct x as [[]|e]; [injection E7 as <-; by rewrite H6, lookup_delete_eq|]. destruct H6 as [H6 H6'].
    destruct (IsNotFound e); [|done]. injection E7 as <-. rewrite H6. by apply H6'. }
  apply unmount_nodes in H. unfold nodes in H. by injection H as -> _.
Qed.

Lemma EnsureRunning_frame marshal sha256 wl (w : W) r w' : Ctr_EnsureRunning marshal sha256 wl w = (r, w') ->
  others (wl_name wl) w' = others (wl_name wl) w /\
  (r = Ok tt -> exists spec h, wl_container wl = Some spec /\ SpecHash marshal sha256 wl = Ok h /\
     (kept (wl_name wl) h w w' \/ exists old, old ⊆ ports_of (wl_name wl) w /\ set_up (wl_name wl) spec h old w')).
Proof.
  intros E. split; [pose proof (local_EnsureRunning marshal sha256 wl w) as H; by rewrite E in H|]. intros ->.
  unfold Ctr_EnsureRunning in E. destruct (wl_container wl) as [spec|]; [|done].
  apply bind_Ok_inv in E as (h & w1 & E1 & E). unfold lift in E1. injection E1 as Eh <-. exists spec, h. split_and!; [done..|].
  apply bind_Ok_inv in E as (b & w2 & E2 & E). destruct b; [left; injection E as <-; by apply settle_true|].
  right. eapply create_Ok; [exact E|]. eapply (preserves_run _ _ _ _ _ E2 (fewer_settle _ _ _)). unfold fewer. by rewrite E1 || done.
Qed.

(** A successful [EnsureRunning] either finds a container of the name that
    runs on the desired spec - or whose spec the driver could not read - and
    changes nothing, or leaves a container made from the workload's spec and
    labelled with its hash, its task running, every declared volume mounted at
    its place with the declared access, and in bridge mode the declared ports
    mapped, beside none or some of those mapped for the name before.  In every case, failures included, the other containers,
    their networks and every mount outside the workload's directory stay as
    they were. *)
Theorem EnsureRunning_spec marshal sha256 wl (w : W) r w' : Ctr_EnsureRunning marshal sha256 wl w = (r, w') ->
  others (wl_name wl) w' = others (wl_name wl) w /\
  (r = Ok tt -> exists spec h, wl_container wl = Some spec /\ SpecHash marshal sha256 wl = Ok h /\
     (kept (wl_name wl) h w w' \/ exists old, old ⊆ ports_of (wl_name wl) w /\ set_up (wl_name wl) spec h old w')).
Proof. apply EnsureRunning_frame. Qed.
End results.

(** ** Releasing what a workload held *)

(** An environment in which mounted volumes can be unmounted and listed, and
    containerd and CNI answer. *)
Class ContainerdLive (D : Type) `{!Containerd D, !ContainerdLaws D} := {
  live_umount mp d : is_Some (vmounts d !! mp) -> o_err (exec_Command "/bin/umount" [mp] d).1 = None;
  live_readdir p vol d : is_Some (vmounts d !! (p +:+ "/" +:+ vol)) -> is_ok (os_ReadDir p d).1 = true;
  live_info n d : is_Some (ctrs d !! n) -> is_ok (Ctr_Info n d).1 = true;
  live_task n d : is_Some (ctrs d !! n ≫= ct_task) -> is_ok (Ctr_Task n d).1 = true;
  live_cni d : (cni_Load d).1 = Ok tt;
  live_teardown n ns pm d : (cni_Remove n ns pm d).1 = Ok tt }.

Section release.
Context {D : Type} `{!Containerd D, !ContainerdLaws D, !ContainerdLive D}.
Abbreviation W := (CDriver D).
Abbreviation ctr_of w := (ctrs (cd_world w)).
Abbreviation mounts_of w := (vmounts (cd_world w)).
Abbreviation nat_of w := (attached (cd_world w)).

Lemma release_mounts mp (w : W) : exists w', release mp w = (Ok tt, w') /\ mounts_of w' = delete mp (mounts_of w).
Proof.
  unfold release, bind, ignore. destruct (runUmount mp w) as [r w1] eqn:E1. pose proof (runUmount_cases _ _ _ _ E1) as [_ H1].
  destruct (call (os_Remove mp) w1) as [r2 w2] eqn:E2. apply (quiet_call _ _ _ _ (rm_law mp)) in E2 as (_ & H2 & _).
  exists w2. split; [done|]. rewrite H2, H1. destruct r as [[]|e]; [done|].
  unfold runUmount in E1. pose proof (call_exec_or_fail ("umount " +:+ mp) "/bin/umount" [mp] w) as Ex.
  pose proof (live_umount mp (cd_world w)) as Hl. destruct (exec_Command _ _ _) as [o d']. rewrite Ex in E1. cbn [fst] in Hl.
  destruct (o_err o); [|done]. symmetry. apply delete_id. destruct (mounts_of w !! mp); [|done]. by specialize (Hl ltac:(by eexists)).
Qed.
Lemma release_all l : forall w : W, exists w', for_each l release w = (Ok tt, w') /\
  forall mp, mounts_of w' !! mp = if decide (mp ∈ l) then None else mounts_of w !! mp.
Proof.
  induction l as [|x l IH]; intros w.
  - exists w. split; [done|]. intros mp. by rewrite decide_False by apply not_elem_of_nil.
  - destruct (release_mounts x w) as (w1 & E1 & H1). destruct (IH w1) as (w2 & E2 & H2). exists w2. cbn [for_each]. unfold bind at 1. rewrite E1.
    split; [done|]. intros mp. rewrite H2, H1. destruct (decide (mp ∈ l)) as [Hin|Hin].
    + by rewrite decide_True by by apply list_elem_of_further.
    + destruct (decide (mp = x)) as [->|Hne].
      * rewrite decide_True by apply list_elem_of_here. by rewrite lookup_delete_eq.
      * rewrite lookup_delete_ne, decide_False; [done| |done]. by intros [->|?]%elem_of_cons.
Qed.
Lemma for_each_map {A B} (f : A -> B) (l : list A) (k : B -> prog W unit) (w : W) : for_each l (k ∘ f) w = for_each (f <$> l) k w.
Proof. revert w. induction l as [|a l IH]; intros w; [done|]. cbn. unfold bind, compose at 1. destruct (k (f a) w) as [[]]; [apply IH|done]. Qed.

(** With nothing in memory, every volume found in the directory is released. *)
Lemma unmount_scan n (w : W) r w' : unmountContainerVolumes n ∅ w = (r, w') ->
  (forall mp x, mounts_of w' !! mp = Some x -> mounts_of w !! mp = Some x) /\
  forall vol, no_char "/" vol = true -> mounts_of w' !! mountPath n vol = None.
Proof.
  unfold unmountContainerVolumes. cbv zeta. destruct (decide (∅ = ∅)); [|done]. unfold bind at 1, catch at 1.
  destruct (call (os_ReadDir (mountDir n)) w) as [l w1] eqn:E. apply call_inv in E as (d' & E & ->).
  pose proof (readdir_law (mountDir n) (cd_world w)) as H. pose proof (fun vol => live_readdir (mountDir n) vol (cd_world w)) as Hl.
  rewrite E in H, Hl. cbn [fst] in Hl. destruct H as [(_ & H2 & _) H]. destruct l as [l|err].
  - unfold bind, ignore.
    destruct (release_all ((fun e => mountDir n +:+ "/" +:+ e) <$> l) (mkCDriver d' (cd_cni w))) as (w2 & E2 & H3).
    rewrite <- for_each_map in E2. unfold compose in E2. rewrite E2. cbn [cd_world] in H3. rewrite H2 in H3.
    destruct (call (os_Remove _) w2) as [r2 w3] eqn:E3. apply (quiet_call _ _ _ _ (rm_law _)) in E3 as (_ & H4 & _).
    intros [= <- <-]. rewrite H4. split.
    + intros mp x Hx. rewrite H3 in Hx. by destruct (decide _).
    + intros vol Hvol. rewrite H3. destruct (decide _) as [|Hn]; [done|]. destruct (mounts_of w !! mountPath n vol) eqn:Em; [|done].
      exfalso. apply Hn. apply list_elem_of_fmap. exists vol. split; [done|]. by apply (H l vol); [done|eexists|].
  - intros [= <- <-]. cbn [cd_world]. rewrite H2. split; [done|]. intros vol _. destruct (mounts_of w !! mountPath n vol) eqn:Em; [|done].
    by specialize (Hl vol ltac:(by eexists)).
Qed.

(** The mounts of a failed mounting are undone. *)
Lemma failed_mounting n declared (w : W) e w' : mount_declared n declared w = (Err e, w') ->
  forall mp x, mounts_of w' !! mp = Some x -> mounts_of w !! mp = Some x.
Proof.
  unfold mount_declared, mountContainerVolumes. unfold bind at 1. destruct (mount_all n declared ∅ w) as [res w1] eqn:E.
  apply mount_all_cases in E as (mounted & r & -> & _ & _ & _ & _ & H & _); [|apply map_Forall_empty]. destruct r as [|err]; [done|].
  unfold bind. destruct (decide (mounted = ∅)) as [->|Hne].
  - destruct (unmountContainerVolumes n ∅ w1) as [u w2] eqn:E2. apply unmount_scan in E2 as [H2 _].
    intros Hw mp x Hx. assert (w' = w2) as -> by (by destruct u as [[]|]; injection Hw). apply H2, H in Hx as [?|[vol Hvol]]; [done|].
    by rewrite lookup_empty in Hvol.
  - unfold unmountContainerVolumes. cbv zeta. rewrite decide_False by done. unfold bind, ignore.
    destruct (release_all (map_to_list mounted).*2 w1) as (w2 & -> & H2). destruct (call (os_Remove _) w2) as [r2 w3] eqn:E3.
    apply (quiet_call _ _ _ _ (rm_law _)) in E3 as (_ & H4 & _). intros [= _ <-] mp x Hx. rewrite H4, H2 in Hx.
    destruct (decide _) as [|Hn]; [done|]. apply H in Hx as [?|[vol Hvol]]; [done|]. exfalso. apply Hn.
    apply list_elem_of_fmap. exists (vol, mp). split; [done|]. by apply elem_of_map_to_list.
Qed.

(** *** Remove *)

(** CNI was not tried yet, or came up. *)
Definition cni_usable (w : W) : Prop := cd_cni w = None \/ cd_cni w = Some (Ok tt).

Lemma cniTeardown_done n pid pm (w : W) : cni_usable w -> ports_of n w = pm ->
  exists w', cniTeardown n pid pm w = (Ok tt, w') /\ ports_of n w' = [].
Proof.
  intros Hu Hn. unfold cniTeardown, bind.
  assert (exists w1, ensureCNI w = (Ok tt, w1) /\ nat_of w1 = nat_of w) as (w1 & E1 & H1).
  { unfold ensureCNI. destruct Hu as [-> | ->]; [|by eexists]. pose proof (live_cni (cd_world w)) as H. pose proof (load_cni_law (cd_world w)) as (_ & _ & Hs).
    destruct (cni_Load (cd_world w)) as [x d']. cbn in H, Hs. subst x. eexists. split; [done|]. cbn. congruence. }
  rewrite E1. unfold call, zoom. pose proof (live_teardown n (netnsPath pid) pm (cd_world w1)) as H.
  pose proof (teardown_law n (netnsPath pid) pm (cd_world w1)) as Hl.
  destruct (cni_Remove n (netnsPath pid) pm (cd_world w1)) as [x d']. cbn in H. subst x. destruct Hl as (_ & _ & Hl). eexists. split; [done|].
  apply Hl; [done|]. unfold ports_of in Hn. by rewrite H1.
Qed.

Lemma nat_task {A} n (m : prog D A) : (forall d, only_task ctrs vmounts attached n d (m d).2) -> keeps (fun w : W => nat_of w) (call m).
Proof. intros H. apply call_keeps. intros d c. cbn. by destruct (H d) as (_ & _ & _ & ->). Qed.
Lemma kill_task_nat n pid pm (w : W) r w' : cni_usable w -> ports_of n w = pm ->
  kill_task n pid true pm w = (r, w') -> ports_of n w' = [].
Proof.
  intros Hu Hn. unfold kill_task, when. destruct (cniTeardown_done n pid pm w Hu Hn) as (w1 & E1 & H1).
  unfold bind at 1, ignore at 1. rewrite E1. intros E.
  set (m := (ignore (call (Task_Kill n)) ;;; ignore (call (Task_Wait n)) ;;; ignore (call (Task_Delete n)))) in E.
  assert (keeps (fun w : W => nat_of w) m) as Hk.
  { unfold m. pose proof (nat_task n _ (kill_law n)). pose proof (nat_task n _ (wait_law n)). pose proof (nat_task n _ (task_delete_law n)). go_keeps. }
  specialize (Hk w1). cbn beta in Hk. rewrite E in Hk. cbn [snd] in Hk. unfold ports_of in *. by rewrite Hk.
Qed.

(** What a container holds: a task, and the ports its label tells. *)
Definition netted (n : string) (w : W) : Prop :=
  exists c s labels, ctr_of w !! n = Some c /\ ct_task c = Some s /\ labels = co_labels (ct_opts c) /\
    labels !! BridgeLabel = Some "bridge" /\
    ports_of n w = decodePortMappings (default "" (labels !! PortMapLabel)).

Lemma Remove_releases n (w w' : W) : is_Some (ctr_of w !! n) -> Ctr_Remove n w = (Ok tt, w') ->
  (forall vol, no_char "/" vol = true -> mounts_of w' !! mountPath n vol = None) /\
  (cni_usable w -> netted n w -> ports_of n w' = []).
Proof.
  intros [c Hc]. unfold Ctr_Remove. unfold bind at 1, catch at 1. destruct (call (LoadContainer n) w) as [l w1] eqn:E1.
  assert (cd_cni w1 = cd_cni w) as Hcni by (by apply call_inv in E1 as (? & _ & ->)).
  apply load_cases in E1 as [Q1 H1].
  destruct l as [[]|err].
  2: { destruct (IsNotFound err) eqn:En; [|done]. specialize (H1 eq_refl). congruence. }
  intros (info & w2 & E2 & H)%bind_Ok_inv. unfold catch in E2. destruct (call (Ctr_Info n) w1) as [inf w2'] eqn:Einfo. injection E2 as <- ->.
  assert (cd_cni w2 = cd_cni w1) as Hcni2 by (by apply call_inv in Einfo as (? & _ & ->)).
  assert (is_ok inf = true) as Hinfo.
  { apply call_inv in Einfo as (d' & Ei & _). pose proof (live_info n (cd_world w1)) as Hl. rewrite Ei in Hl. apply Hl. rewrite (proj1 Q1), Hc. by eexists. }
  apply info_cases in Einfo as [Q2 H2]. destruct inf as [labels|]; [|done]. specialize (H2 _ eq_refl). rewrite (proj1 Q1), Hc in H2. cbn in H2. injection H2 as H2.
  apply bind_Ok_inv in H as (t & w3 & E3 & H). unfold catch in E3. destruct (call (Ctr_Task n) w2) as [t' w3'] eqn:Et. injection E3 as <- ->.
  assert (cd_cni w3 = cd_cni w) as Hcni3 by (apply call_inv in Et as (? & _ & ->); cbn; congruence).
  pose proof (quiet_trans _ _ _ Q1 Q2) as Q12. pose proof (fun Hs => live_task n (cd_world w2) Hs) as Hlt.
  pose proof Et as Et'. apply call_inv in Et' as (d' & Et' & _). rewrite Et' in Hlt. cbn [fst] in Hlt.
  apply (quiet_call _ _ _ _ (task_law n)) in Et. pose proof (quiet_trans _ _ _ Q12 Et) as Q13.
  apply bind_Ok_inv in H as ([] & w4 & E4 & H). apply bind_Ok_inv in H as (dl & w5 & E5 & H). unfold catch in E5.
  destruct (call (Ctr_Delete n) w4) as [x w6] eqn:E6. injection E5 as <- ->. apply delete_cases in E6 as (_ & Hn6 & _).
  apply bind_Ok_inv in H as ([] & w7 & E7 & H). assert (w7 = w5) as -> by (destruct x as [|ex]; [|destruct (IsNotFound ex)]; by injection E7).
  split; [by apply unmount_scan in H as [_ H]|]. intros Hu (c' & s & labels' & Hc' & Hs & -> & Hb & Hnat). rewrite Hc in Hc'. injection Hc' as <-.
  apply unmount_nodes in H. unfold nodes in H. injection H as _ H. unfold ports_of. rewrite H, Hn6. fold (ports_of n w4).
  assert (is_ok t' = true) as Ht by (apply Hlt; rewrite (proj1 Q12), Hc; by eexists). destruct t' as [pid|]; [|done].
  subst labels. rewrite Hb in E4. cbn [default from_option] in E4. eapply kill_task_nat, E4.
  - unfold cni_usable. by rewrite Hcni3.
  - unfold ports_of in *. by rewrite (proj2 (proj2 Q13)).
Qed.

End release.

(** ** The driver meets its contract

    What runs under a name is the spec its container is labelled with
    ([unhash]: two container specs do not share a hash). *)
Section contract.
Context {D : Type} `{!Containerd D, !ContainerdLaws D}.
Abbreviation W := (CDriver D).
Context (marshal : RuntimeSpec -> result string) (sha256 : string -> string) (unhash : string -> option RuntimeSpec).
Hypothesis unhash_spec : forall wl spec h, wl_kind wl = WORKLOAD_KIND_CONTAINER -> wl_container wl = Some spec ->
  SpecHash marshal sha256 wl = Ok h -> unhash h = Some (RunContainer (Some spec)).
(** Labels are readable, and the namespace is the driver's own. *)
Hypothesis info_works : forall n d, is_Some (ctrs d !! n) -> is_ok (Ctr_Info n d).1 = true.
Hypothesis all_labelled : forall (d : D) n c, ctrs d !! n = Some c -> hash_label c <> "".

Definition ctr_running (w : W) : gmap string RuntimeSpec :=
  omap (fun c => if decide (ct_task c = Some Running) then unhash (hash_label c) else None) (ctrs (cd_world w)).

Lemma running_at n (w : W) c : ctrs (cd_world w) !! n = Some c -> ct_task c = Some Running -> ctr_running w !! n = unhash (hash_label c).
Proof. intros H1 H2. unfold ctr_running. rewrite lookup_omap, H1. cbn. by rewrite decide_True. Qed.
Lemma running_others n (w w' : W) : others n w' = others n w -> forall m, m <> n -> ctr_running w' !! m = ctr_running w !! m.
Proof.
  unfold others. intros [= H _ _] m Hm. unfold ctr_running. rewrite !lookup_omap.
  assert (ctrs (cd_world w') !! m = ctrs (cd_world w) !! m) as ->; [|done].
  rewrite <- (lookup_delete_ne (ctrs (cd_world w')) n m), <- (lookup_delete_ne (ctrs (cd_world w)) n m) by done. by rewrite H.
Qed.
Lemma running_nodes {A} (m : prog W A) w : keeps nodes m -> ctr_running (m w).2 = ctr_running w.
Proof. intros H. specialize (H w). unfold nodes in H. injection H as H _. unfold ctr_running. by rewrite H. Qed.

Ltac nodes_law :=
  apply nodes_quiet; intros d; first
    [ apply task_law | apply spec_law | apply exec_law | apply (process_law _ d)
    | let n := match goal with |- same _ _ _ _ (LoadContainer ?n d).2 => n end in pose proof (load_law n d) as Hlaw; destruct (LoadContainer n d); apply Hlaw
    | let n := match goal with |- same _ _ _ _ (Ctr_Info ?n d).2 => n end in pose proof (info_law n d) as Hlaw; destruct (Ctr_Info n d); apply Hlaw
    | let n := match goal with |- same _ _ _ _ (Task_Status ?n d).2 => n end in pose proof (status_law n d) as Hlaw; destruct (Task_Status n d); apply Hlaw ].
Lemma nodes_Status n : keeps nodes (Ctr_Status (D:=D) n).
Proof. unfold Ctr_Status. go_keeps; nodes_law. Qed.
Lemma nodes_Exec req : keeps nodes (Ctr_Exec (D:=D) req).
Proof.
  assert (forall n, keeps nodes (exec_process (D:=D) n)) as He by (intros n; unfold exec_process; go_keeps; nodes_law).
  unfold Ctr_Exec. go_keeps; try nodes_law. apply keeps_finally; [apply He|]. apply keeps_ignore. nodes_law.
Qed.

End contract.

(** ** A reference containerd

    Containers with their labels, mounts in a table, CNI's mappings per name;
    a container without a spec hash is refused. *)
Module RefContainerd.
Record machine := mkMachine {
  m_ctrs : gmap string Ctr; m_mounts : gmap string (string * bool); m_nat : gmap string (list CniPort); m_devs : list string }.

Definition labelled (kv : string * Ctr) : Prop := hash_label kv.2 <> "".
#[export] Instance labelled_dec kv : Decision (labelled kv).
Proof. unfold labelled. apply _. Defined.
Definition cs (m : machine) : gmap string Ctr := filter labelled (m_ctrs m).
Definition with_ctrs (c : gmap string Ctr) (m : machine) : machine := mkMachine c (m_mounts m) (m_nat m) (m_devs m).
Definition with_mounts (c : gmap string (string * bool)) (m : machine) : machine := mkMachine (m_ctrs m) c (m_nat m) (m_devs m).
Definition with_nat (c : gmap string (list CniPort)) (m : machine) : machine := mkMachine (m_ctrs m) (m_mounts m) c (m_devs m).

Definition gone : error := Wrap "container: " (Sentinel ErrdefsNotFound) "".
Definition missing : error := Errorf "no such device".
Definition fine : Output := mkOutput "" "" None.
Definition busy : Output := mkOutput "" "busy" (Some (Errorf "exit status 32")).

Definition mount (dev mp : string) (ro : bool) (m : machine) : Output * machine :=
  match m_mounts m !! mp with
  | Some _ => (busy, m)
  | None => (fine, with_mounts (<[mp := (dev, ro)]> (m_mounts m)) m)
  end.
Definition exec : Commands machine := fun path args m =>
  match args with
  | [mp] => match m_mounts m !! mp with Some _ => (fine, with_mounts (delete mp (m_mounts m)) m) | None => (busy, m) end
  | [_; _; dev; mp] => mount dev mp false m
  | [_; _; _; _; dev; mp] => mount dev mp true m
  | _ => (busy, m)
  end.

(** Of a container, when it is there. *)
Definition on_ctr {A} (n : string) (f : Ctr -> result A) : prog machine A := fun m =>
  match cs m !! n with Some c => (f c, m) | None => (Err gone, m) end.
Definition set_task (n : string) (t : option string) : prog machine unit := fun m =>
  match cs m !! n with
  | Some c => (Ok tt, with_ctrs (<[n := mkCtr (ct_opts c) t]> (cs m)) m)
  | None => (Err gone, m)
  end.
Definition new (n : string) (o : CtrOpts) : prog machine unit := fun m =>
  if decide (labelled (n, mkCtr o None)) then
    match cs m !! n with
    | Some _ => (Err (Errorf "already exists"), m)
    | None => (Ok tt, with_ctrs (<[n := mkCtr o None]> (cs m)) m)
    end
  else (Err (Errorf "no label"), m).
Definition del (n : string) : prog machine unit := fun m =>
  match cs m !! n with Some _ => (Ok tt, with_ctrs (delete n (cs m)) m) | None => (Err gone, m) end.
Definition add_ports (n : string) (pm : list CniPort) : prog machine unit := fun m =>
  (Ok tt, with_nat (<[n := ports_in (m_nat m) n ++ pm]> (m_nat m)) m).
Definition drop_ports (n : string) (pm : list CniPort) : prog machine unit := fun m =>
  (Ok tt, with_nat (<[n := list_difference (ports_in (m_nat m) n) pm]> (m_nat m)) m).

Definition strip (pre s : string) : option string :=
  if HasPrefix s pre then Some (slice_from (String.length pre) s) else None.
Definition entries (p : string) (m : machine) : list string := omap (fun kv => strip (p +:+ "/") kv.1) (map_to_list (m_mounts m)).

Lemma cs_insert n c m : labelled (n, c) -> cs (with_ctrs (<[n := c]> (cs m)) m) = <[n := c]> (cs m).
Proof. intros H. unfold cs at 1. cbn. rewrite map_filter_insert_True by done. f_equal. unfold cs. by rewrite map_filter_filter_l by (by intros). Qed.
Lemma cs_delete n m : cs (with_ctrs (delete n (cs m)) m) = delete n (cs m).
Proof. unfold cs at 1. cbn. rewrite map_filter_delete. f_equal. unfold cs. by rewrite map_filter_filter_l by (by intros). Qed.
Lemma cs_labelled n c m : cs m !! n = Some c -> labelled (n, c).
Proof. unfold cs. by intros [_ ?]%map_lookup_filter_Some. Qed.
Lemma task_set n t m : only_task cs m_mounts m_nat n m (set_task n t m).2.
Proof.
  unfold set_task. destruct (cs m !! n) as [c|] eqn:E; [|by split_and!]. pose proof (cs_labelled _ _ _ E) as Hl.
  split_and!; cbn [snd]; rewrite ?cs_insert by done; [|by rewrite lookup_insert_eq, E|done..]. intros k Hk. by rewrite lookup_insert_ne.
Qed.
Lemma strip_app p s : strip p (p +:+ s) = Some s.
Proof.
  unfold strip. rewrite prefix_append. f_equal. induction p as [|c p IH]; [by destruct s|exact IH].
Qed.
End RefContainerd.

Import RefContainerd.
#[local] Instance ref_containerd : Containerd machine := {|
  ctr_commands := exec;
  LoadContainer n := on_ctr n (fun _ => Ok tt);
  Ctr_Info n := on_ctr n (fun c => Ok (co_labels (ct_opts c)));
  Ctr_Task n := on_ctr n (fun c => match ct_task c with Some _ => Ok 42%Z | None => Err gone end);
  Task_Status n := on_ctr n (fun c => match ct_task c with Some s => Ok (s, 0%Z) | None => Err gone end);
  Task_Delete n := set_task n None;
  Ctr_Delete n := del n;
  GetImage ref := if String.eqb ref "" then fail (Errorf "no image") else ret ref;
  Pull ref := fail (Errorf "no network");
  NewContainer n o := new n o;
  NewTask n log := set_task n (Some Created) ;;; ret 42%Z;
  Task_Start n := set_task n (Some Running);
  Task_Kill n := set_task n (Some Stopped);
  Task_Wait n := ret tt;
  cni_Load := ret tt;
  cni_Setup n ns pm := add_ports n pm;
  cni_Remove n ns pm := drop_ports n pm;
  os_Stat p := fun m => if decide (p ∈ m_devs m) then (Ok tt, m) else (Err missing, m);
  os_MkdirAll p := ret tt;
  os_ReadDir p := fun m => (Ok (entries p m), m);
  os_Remove p := ret tt;
  Ctr_Spec n := on_ctr n (fun _ => Ok (mkProcessSpec ["sh"] false ["PATH=/bin"]));
  Task_Exec n p := on_ctr n (fun _ => Ok tt);
  Process_Wait n := ret tt;
  Process_Start n := ret tt;
  Process_Result n := ret 0%Z;
  Process_Delete n := ret tt |}.

Lemma ref_on_ctr {A} n (f : Ctr -> result A) m : same cs m_mounts m_nat m (on_ctr n f m).2.
Proof. unfold on_ctr. by destruct (cs m !! n). Qed.
Lemma ref_mount mp dev ro m : let '(o, m') := mount dev mp ro m in only_mounts cs m_nat m m' /\
  m_mounts m' = match o_err o with None => <[mp := (dev, ro)]> (m_mounts m) | Some _ => m_mounts m end /\
  (forall ro', m_mounts m !! mp = Some (dev, ro') -> o_err o <> None).
Proof. unfold mount. by destruct (m_mounts m !! mp). Qed.
#[local] Program Instance ref_containerd_laws : ContainerdLaws machine := {| ctrs := cs; vmounts := m_mounts; attached := m_nat |}.
Next Obligation. intros n d. cbn. unfold on_ctr. destruct (cs d !! n) eqn:E; rewrite ?E; [by split; [|eexists]|by split]. Qed.
Next Obligation. intros n d. cbn. unfold on_ctr. destruct (cs d !! n) eqn:E; rewrite ?E; (split; [done|]); [by intros l [= <-]|done]. Qed.
Next Obligation. intros n d. apply ref_on_ctr. Qed.
Next Obligation.
  intros n d. cbn. unfold on_ctr. destruct (cs d !! n) as [c|] eqn:E; rewrite ?E; (split; [done|]); [|done].
  intros s code. cbn. by destruct (ct_task c); intros [= <- <-].
Qed.
Next Obligation. intros ref d. cbn. by destruct (String.eqb ref ""). Qed.
Next Obligation. done. Qed.
Next Obligation. done. Qed.
Next Obligation. intros p d. cbn. by destruct (decide _). Qed.
Next Obligation. done. Qed.
Next Obligation. done. Qed.
Next Obligation. intros n d. apply ref_on_ctr. Qed.
Next Obligation. intros n p d. apply ref_on_ctr. Qed.
Next Obligation. done. Qed.
Next Obligation.
  intros p d. cbn. split; [done|]. intros l mp [= <-] [x Hx] _. unfold entries. apply list_elem_of_omap.
  exists (p +:+ "/" +:+ mp, x). split; [by apply elem_of_map_to_list|]. cbn [fst]. rewrite <- app_assoc_str. apply strip_app.
Qed.
Next Obligation. intros n d. apply task_set. Qed.
Next Obligation. done. Qed.
Next Obligation. intros n d. apply task_set. Qed.
Next Obligation. intros n log d. cbn. unfold bind. pose proof (task_set n (Some Created) d) as H. by destruct (set_task n (Some Created) d) as [[]]. Qed.
Next Obligation.
  intros n d. pose proof (task_set n (Some Running) d) as H. cbn. unfold set_task in *. destruct (cs d !! n) as [c|] eqn:E; [|done].
  split; [exact H|]. intros _. rewrite cs_insert by (by apply (cs_labelled _ _ _ E)). by rewrite lookup_insert_eq.
Qed.
Next Obligation. intros n d. cbn. unfold del. destruct (cs d !! n) eqn:E; [|by split_and!]. split_and!; [done..|apply cs_delete]. Qed.
Next Obligation.
  intros n o d. cbn. unfold new. destruct (decide _); [|done]. destruct (cs d !! n); [done|]. split_and!; [done..|by apply cs_insert].
Qed.
Next Obligation.
  intros n ns pm d. cbn. split; [split_and!; [done..|]; intros k Hk; cbn; by rewrite lookup_insert_ne|].
  intros _. unfold ports_in at 1. cbn. by rewrite lookup_insert_eq.
Qed.
Next Obligation.
  intros n ns pm d. cbn. split_and!; [split_and!; [done..|]; intros k Hk; cbn; by rewrite lookup_insert_ne| |].
  - unfold ports_in at 1. cbn. rewrite lookup_insert_eq. by intros x [? _]%list_elem_of_difference.
  - intros _ <-. unfold ports_in at 1. cbn. rewrite lookup_insert_eq. cbn. apply list_nil_subseteq. by intros x [? ?]%list_elem_of_difference.
Qed.
Next Obligation. intros m dev mp d. unfold mount_args. destruct (vm_read_only m); [exact (ref_mount mp dev true d)|exact (ref_mount mp dev false d)]. Qed.
Next Obligation. intros mp d. cbn. destruct (m_mounts d !! mp) eqn:E; cbn; done. Qed.
#[local] Program Instance ref_containerd_live : ContainerdLive machine.
Next Obligation. intros mp d [x H]. cbn in *. by rewrite H. Qed.
Next Obligation. done. Qed.
Next Obligation. intros n d [x H]. cbn in *. unfold on_ctr. by rewrite H. Qed.
Next Obligation. intros n d [x H]. cbn in *. unfold on_ctr. destruct (cs d !! n) as [c|]; [|done]. cbn in *. by rewrite H. Qed.
Next Obligation. done. Qed.
Next Obligation. done. Qed.

(** A bridged workload with a volume, beside another one's container; first
    started, then applied again with another image. *)
Module ContainerDemo.
Definition spec (image : string) : ContainerSpec :=
  mkContainerSpec image [] [] ∅ [mkVolumeMount "data" "/data" false] NETWORK_MODE_BRIDGE [mkPortMapping 80 8080 ""] false false false false [].
Definition web (image : string) : Workload := mkWorkload "web" WORKLOAD_KIND_CONTAINER (Some (spec image)) None None DESIRED_STATE_RUNNING.
Definition marshal (r : RuntimeSpec) : result string :=
  if decide (r = RunContainer (Some (spec "web:1"))) then Ok "1"
  else if decide (r = RunContainer (Some (spec "web:2"))) then Ok "2" else Err (Errorf "marshal").
Definition unhash (h : string) : option RuntimeSpec :=
  if String.eqb h "31" then Some (RunContainer (Some (spec "web:1")))
  else if String.eqb h "32" then Some (RunContainer (Some (spec "web:2"))) else None.
Definition db : Ctr := mkCtr (mkCtrOpts "db" "db-snapshot" [] {[SpecHashLabel := "99"]}) (Some Running).
Definition start : CDriver machine :=
  mkCDriver (mkMachine {["db" := db]} {["/boot" := ("/dev/sda1", true)]} {["db" := [mkCniPort 5432 5432 "tcp"]]} ["/dev/capsule/vol-data"]) None.
Definition ensure (image : string) (w : CDriver machine) := Ctr_EnsureRunning marshal (fun b => b) (web image) w.
Definition first : CDriver machine := (ensure "web:1" start).2.
Definition second : CDriver machine := (ensure "web:2" first).2.
Definition removed : CDriver machine := (Ctr_Remove "web" second).2.

Lemma unhash_spec wl s h : wl_kind wl = WORKLOAD_KIND_CONTAINER -> wl_container wl = Some s ->
  SpecHash marshal (fun b => b) wl = Ok h -> unhash h = Some (RunContainer (Some s)).
Proof.
  intros Hk Hs. unfold SpecHash. rewrite Hk, Hs. unfold marshal.
  destruct (decide (RunContainer (Some s) = RunContainer (Some (spec "web:1")))) as [E|_]; [rewrite E; by intros [= <-]|].
  destruct (decide (RunContainer (Some s) = RunContainer (Some (spec "web:2")))) as [E|_]; [rewrite E; by intros [= <-]|done].
Qed.
Lemma all_labelled (d : machine) n c : ctrs d !! n = Some c -> hash_label c <> "".
Proof. apply cs_labelled. Qed.
Lemma second_set_up : exists h, set_up "web" (spec "web:2") h [] second.
Proof.
  exists "32", "web:2", {["data" := "/run/capsule/mounts/web/data"]}. split_and!.
  - vm_compute. reflexivity.
  - by apply map_Forall_singleton.
  - intros m Hm _. apply list_elem_of_singleton in Hm as ->. split; by vm_compute.
  - by vm_compute.
Qed.
End ContainerDemo.

Lemma EnsureRunning_spec_witness :
  (ContainerDemo.ensure "web:1" ContainerDemo.start).1 = Ok tt /\ (ContainerDemo.ensure "web:2" ContainerDemo.first).1 = Ok tt /\
  others "web" ContainerDemo.second = others "web" ContainerDemo.first /\
  (ctrs (cd_world ContainerDemo.second) !! "web" ≫= (fun c => Some (co_image (ct_opts c)))) = Some "web:2".
Proof.
  split; [by vm_compute|]. split; [by vm_compute|]. split; [|by vm_compute].
  apply (EnsureRunning_spec ContainerDemo.marshal (fun b => b) (ContainerDemo.web "web:2") ContainerDemo.first
    (ContainerDemo.ensure "web:2" ContainerDemo.first).1 ContainerDemo.second). apply surjective_pairing.
Defined.

Lemma stale_mount_blocks_restart_witness :
  let stopped := mkCDriver (set_task "web" (Some Stopped) (cd_world ContainerDemo.first)).2 (cd_cni ContainerDemo.first) in
  is_ok (ContainerDemo.ensure "web:1" stopped).1 = false /\
  is_ok (ContainerDemo.ensure "web:1" (ContainerDemo.ensure "web:1" stopped).2).1 = true.
Proof.
  intros stopped. split; [|by vm_compute].
  apply (stale_mount_blocks_restart ContainerDemo.marshal (fun b => b) (ContainerDemo.web "web:1") (ContainerDemo.spec "web:1")
    (mkVolumeMount "data" "/data" false) [] false stopped); by vm_compute.
Defined.


