(* ===== verification/VmSpec.v ===== *)
(** * What a MicroVM is made of: runtime/microvm/firecracker

    The names and addresses derived from a workload's name (driver.go), the
    drives and the guest's mounts (volumes.go), the payload command and the
    size of its disk (image.go). *)

From S2P Require Import Prelude GoStrings Models Runtime VolumeService.

Set Default Goal Selector "!".
Local Open Scope go_scope.

(** ** Data *)

(** [fcmodels.Drive] *)
Record Drive := mkDrive { dr_DriveID : string; dr_PathOnHost : string; dr_IsRootDevice : bool; dr_IsReadOnly : bool }.
Record GuestVolumeMount := mkGuestVolumeMount { gm_Device : string; gm_MountPath : string; gm_Fstype : string; gm_ReadOnly : bool }.
Record OCIPayload := mkOCIPayload { op_Command : list string; op_Env : list string; op_Cwd : string }.
(** The part of an image's config that [buildOCIPayload] decodes. *)
Record ImageConfig := mkImageConfig { ic_Cmd : list string; ic_Entrypoint : list string; ic_Env : list string; ic_WorkingDir : string }.

Definition vmSubnetGateway : string := "172.20.0.1".
Definition vmSubnetMask : string := "255.255.0.0".
Definition vmThirdOctet : Z := 254.
Definition defaultKernelCmdline : string := "ro root=/dev/vda console=ttyS0 reboot=k panic=1 pci=off nomodule".

(** ** Names and addresses *)

Definition byte_at (i : nat) (s : string) : Z := match String.get i s with Some c => ord c | None => 0 end.
(** [%02X] of a byte *)
Definition upper (c : ascii) : ascii := if is_lower c then chr (Z.to_N (ord c - 32)) else c.
Definition hex2_upper (b : Z) : string := map_string upper (String (hex_digit (b / 16)) (String (hex_digit (b mod 16)) "")).

Section names.
Context (sha256 : string -> string).

Definition tapName (workload : string) : string := "kv-" +:+ EncodeToString (slice_to 4 (sha256 workload)).

(** The first byte with the locally-administered bit set and the multicast bit cleared. *)
Definition mac_first (b : Z) : Z := Z.lor (Z.land b 254) 2.
Definition mac_bytes (workload : string) : list Z :=
  let sum := sha256 workload in
  mac_first (byte_at 0 sum) :: ((fun i => byte_at i sum) <$> [1; 2; 3; 4; 5]%nat).
Definition macForName (workload : string) : string := Join (hex2_upper <$> mac_bytes workload) ":".

Definition guest_host (workload : string) : Z :=
  let sum := sha256 workload in
  let host := Z.lor (Z.shiftl (byte_at 0 sum) 8) (byte_at 1 sum) in
  host mod 252 + 2.
Definition guestIPFor (workload : string) : string :=
  "172.20." +:+ Itoa vmThirdOctet +:+ "." +:+ Itoa (guest_host workload).
End names.

Definition kernelIPArg (guestIP : string) : string :=
  "ip=" +:+ guestIP +:+ "::" +:+ vmSubnetGateway +:+ ":" +:+ vmSubnetMask +:+ "::eth0:off".

Definition kernel_cmdline (guestIP extra : string) : string :=
  let cmdline := defaultKernelCmdline +:+ " " +:+ kernelIPArg guestIP in
  let extra := TrimSpace extra in
  if String.eqb extra "" then cmdline else cmdline +:+ " " +:+ extra.

(** ** Drives *)

Definition id_char (c : ascii) : bool := is_lower c || is_upper c || is_digit c || Ascii.eqb c "_".
Definition sanitizeID (s : string) : string := map_string (fun c => if id_char c then c else "_"%char) s.

(** [string(letter)] of a byte: UTF-8, two bytes from 128 on. *)
Definition letter_text (l : Z) : string :=
  if (l <? 128)%Z then String (chr (Z.to_N l)) ""
  else String (chr (Z.to_N (192 + l / 64))) (String (chr (Z.to_N (128 + l mod 64))) "").

Definition volume_drive (m : VolumeMount) : Drive :=
  mkDrive ("vol_" +:+ sanitizeID (vm_volume_name m)) (HostPath (vm_volume_name m)) false (vm_read_only m).
Definition guest_mount (letter : Z) (m : VolumeMount) : GuestVolumeMount :=
  mkGuestVolumeMount ("/dev/vd" +:+ letter_text letter) (vm_mount_path m) "ext4" (vm_read_only m).

(** [os.Stat]: only whether it succeeds. *)
Class Stats (D : Type) := vm_Stat : string -> prog D unit.

Section drives.
Context {D : Type} `{!Stats D}.

Fixpoint volume_loop (i : nat) (letter : Z) (mounts : list VolumeMount) (drives : list Drive) (out : list GuestVolumeMount)
    : prog D (list Drive * list GuestVolumeMount) :=
  match mounts with
  | [] => ret (drives, out)
  | m :: mounts =>
      let name := vm_volume_name m in
      if String.eqb name "" || String.eqb (vm_mount_path m) "" then
        fail (Errorf ("mount[" +:+ Itoa (Z.of_nat i) +:+ "]: volume_name and mount_path are required"))
      else
        s <- catch (vm_Stat (HostPath name)) ;;
        match s with
        | Err err => fail (Wrap ("volume " +:+ Quote name +:+ ": ") err (" (run `capsulectl volume create " +:+ name +:+ "`)"))
        | Ok _ => volume_loop (S i) (u8 (letter + 1)) mounts (drives ++ [volume_drive m]) (out ++ [guest_mount letter m])
        end
  end.
Definition prepareVolumeDrives (mounts : list VolumeMount) (drives : list Drive) : prog D (list Drive * list GuestVolumeMount) :=
  volume_loop 0 99 mounts drives [].
End drives.

(** The drives before the volumes: the root, and the payload in image mode. *)
Definition root_drive (rootfsPath : string) (imageMode : bool) : Drive := mkDrive "rootfs" rootfsPath true imageMode.
Definition payload_drive (path : string) : Drive := mkDrive "payload" path false false.
Definition base_drives (rootfsPath payloadDisk : string) (imageMode : bool) : list Drive :=
  root_drive rootfsPath imageMode :: (if String.eqb payloadDisk "" then [] else [payload_drive payloadDisk]).

(** ** The payload *)

Definition buildOCIPayload (img : string) (cfg : ImageConfig) (spec : MicroVMSpec) : result OCIPayload :=
  let entrypoint := match mv_command spec with [] => ic_Entrypoint cfg | l => l end in
  let cmd := match mv_args spec with [] => ic_Cmd cfg | l => l end in
  let argv := entrypoint ++ cmd in
  match argv with
  | [] => Err (Errorf ("image " +:+ img +:+ " has no entrypoint or cmd"))
  | _ => Ok (mkOCIPayload argv (ic_Env cfg ++ ((fun kv => kv.1 +:+ "=" +:+ kv.2) <$> map_to_list (mv_env spec))) (ic_WorkingDir cfg))
  end.

(** [digest.FromString] is a parameter. *)
Definition identChainID (FromString : string -> string) (diffIDs : list string) : string :=
  match diffIDs with
  | [] => ""
  | [d] => d
  | chain :: diffIDs => foldl (fun chain d => FromString (chain +:+ " " +:+ d)) chain diffIDs
  end.

(** The size [makeExt4FromDir] gives the image of [used] bytes of files; int64. *)
Definition MiB : Z := 1024 * 1024.
Definition headroom (used : Z) : Z := if (used ÷ 5 >? 50 * MiB)%Z then (used ÷ 5)%Z else (50 * MiB)%Z.
Definition ext4_size (used : Z) : Z :=
  let total := i64 (used + headroom used) in
  i64 (i64 (i64 (total + (MiB - 1)) ÷ MiB) * MiB).
Definition dirSizeBytes (sizes : list Z) : Z := foldl (fun total s => i64 (total + s)) 0%Z sizes.

(** ** Addresses *)

Lemma byte_range i s : (0 <= byte_at i s < 256)%Z.
Proof.
  unfold byte_at. destruct (String.get i s) as [c|]; [|lia]. unfold ord. pose proof (N_ascii_bounded c). lia.
Qed.
Lemma length_EncodeToString b : String.length (EncodeToString b) = (2 * String.length b)%nat.
Proof. induction b as [|c b IH]; [done|]. cbn [EncodeToString String.length]. rewrite IH. lia. Qed.
Lemma length_slice_to n s : (n <= String.length s)%nat -> String.length (slice_to n s) = n.
Proof. revert s. induction n as [|n IH]; intros s H; [done|]. destruct s as [|c s]; cbn in *; [lia|]. rewrite IH; lia. Qed.
Lemma mac_first_bits b : (0 <= b < 256)%Z ->
  (0 <= mac_first b < 256)%Z /\ Z.testbit (mac_first b) 0 = false /\ Z.testbit (mac_first b) 1 = true.
Proof.
  intros Hb. unfold mac_first. split; [|split].
  - split; [apply Z.lor_nonneg; split; [apply Z.land_nonneg; lia|lia]|].
    assert (0 <= Z.lor (Z.land b 254) 2)%Z by (apply Z.lor_nonneg; split; [apply Z.land_nonneg; lia|lia]).
    destruct (Z.eq_dec (Z.lor (Z.land b 254) 2) 0) as [->|]; [lia|]. apply (Z.log2_lt_pow2 _ 8); [lia|].
    rewrite Z.log2_lor; [|apply Z.land_nonneg; lia|lia]. pose proof (Z.log2_land b 254 ltac:(lia) ltac:(lia)) as H2.
    change (Z.log2 254) with 7%Z in H2. change (Z.log2 2) with 1%Z. lia.
  - rewrite Z.lor_spec, Z.land_spec. change (Z.testbit 254 0) with false. by rewrite andb_false_r.
  - by rewrite Z.lor_spec, orb_true_r.
Qed.

(** The names a workload's MicroVM gets fit: the interface name has 11
    characters (15 are allowed), the MAC is six bytes, unicast and locally
    administered, and the guest's address is one of 172.20.254.2 to .253,
    neither the network, the gateway nor the broadcast address. *)
Theorem vm_address_bounds sha256 workload : String.length (sha256 workload) = 32%nat ->
  String.length (tapName sha256 workload) = 11%nat /\
  (exists b bs, mac_bytes sha256 workload = b :: bs /\ List.length bs = 5%nat /\ Forall (fun x => 0 <= x < 256)%Z (b :: bs) /\
     Z.testbit b 0 = false /\ Z.testbit b 1 = true) /\
  exists host, guestIPFor sha256 workload = "172.20.254." +:+ Itoa host /\ (2 <= host <= 253)%Z.
Proof.
  intros Hlen. split; [|split].
  - unfold tapName. change ("kv-" +:+ ?s) with (String "k" (String "v" (String "-" s))). cbn [String.length].
    rewrite length_EncodeToString, length_slice_to by lia. done.
  - destruct (mac_first_bits (byte_at 0 (sha256 workload)) (byte_range _ _)) as (H1 & H2 & H3). do 2 eexists. split_and!; [reflexivity|done| |done..].
    constructor; [lia|]. repeat constructor; apply byte_range.
  - exists (guest_host sha256 workload). split; [done|]. unfold guest_host.
    set (h := Z.lor _ _). pose proof (Z.mod_pos_bound h 252). lia.
Qed.
Lemma vm_address_bounds_witness :
  let sha := fun s => if String.eqb s "web" then "0123456789abcdef0123456789abcdef" else "" in
  macForName sha "web" = "32:31:32:33:34:35" /\ guestIPFor sha "web" = "172.20.254.243" /\ String.length (tapName sha "web") = 11%nat.
Proof.
  intros sha. split; [by vm_compute|]. split; [by vm_compute|]. apply (vm_address_bounds sha "web"). by vm_compute.
Defined.

(** ** Drives *)

Lemma map_string_inj (P : ascii -> bool) f s t : (forall c d, P c = true -> P d = true -> f c = f d -> c = d) ->
  all_chars P s = true -> all_chars P t = true -> map_string f s = map_string f t -> s = t.
Proof.
  intros Hf. revert t. induction s as [|c s IH]; intros [|d t] Hs Ht H; try done. cbn in *.
  apply andb_true_iff in Hs as [Hc Hs], Ht as [Hd Ht]. injection H as H1 H2. f_equal; [by apply Hf|by apply IH].
Qed.
Lemma sanitize_label_char c d : is_label_char c = true -> is_label_char d = true ->
  (if id_char c then c else "_"%char) = (if id_char d then d else "_"%char) -> c = d.
Proof.
  intros Hc Hd. assert (forall e, is_label_char e = true -> id_char e = false -> e = "-"%char) as Hdash.
  { intros e. destruct e as [[] [] [] [] [] [] [] []]; vm_compute; congruence. }
  assert (forall e, is_label_char e = true -> e <> "_"%char) as Hno by (intros e He ->; by vm_compute in He).
  destruct (id_char c) eqn:Ec, (id_char d) eqn:Ed; intros H; [done| | |by rewrite (Hdash c), (Hdash d)].
  - by destruct (Hno c Hc).
  - by destruct (Hno d Hd).
Qed.
Lemma sanitizeID_inj s t : all_chars is_label_char s = true -> all_chars is_label_char t = true -> sanitizeID s = sanitizeID t -> s = t.
Proof. apply map_string_inj, sanitize_label_char. Qed.

Lemma letter_wrap i : (0 <= i)%Z -> (i < 24)%Z -> u8 (99 + i) = (99 + i)%Z.
Proof. intros. apply wrap_small. lia. Qed.
Lemma u8_succ l : u8 (u8 l + 1) = u8 (l + 1).
Proof. unfold wrap. by rewrite Zplus_mod_idemp_l. Qed.

Section drive_lemmas.
Context {D : Type} `{!Stats D}.

Lemma volume_loop_Ok mounts : forall i k drives out (d : D) drives' out' d',
  volume_loop i (u8 k) mounts drives out d = (Ok (drives', out'), d') ->
  drives' = drives ++ (volume_drive <$> mounts) /\
  out' = out ++ imap (fun j m => guest_mount (u8 (k + Z.of_nat j)) m) mounts /\
  Forall (fun m => vm_volume_name m <> "" /\ vm_mount_path m <> "") mounts.
Proof.
  induction mounts as [|m mounts IH]; intros i k drives out d drives' out' d' H; cbn in H.
  - injection H as <- <- _. by rewrite !app_nil_r.
  - destruct (String.eqb_spec (vm_volume_name m) "") as [|Hn]; [done|]. destruct (String.eqb_spec (vm_mount_path m) "") as [|Hp]; [done|].
    cbn in H. apply bind_Ok_inv in H as (s & d1 & _ & H). destruct s as [[]|]; [|done].
    rewrite u8_succ in H. apply IH in H as (H1 & H2 & H3). split_and!; [|rewrite H2|by constructor].
    + by rewrite H1, <- app_assoc.
    + rewrite <- app_assoc. cbn [imap app]. f_equal. f_equal; [by rewrite Z.add_0_r|]. apply imap_ext. intros j x _. cbn. do 2 f_equal. lia.
Qed.
End drive_lemmas.

(** The devices the guest is told are the ones its volumes appear under.
    Firecracker names virtio disks in attach order: in image mode, where the
    root and the payload come first, the n-th volume's drive has the letter of
    its position in the drive list, holds the volume's block device with the
    mount's access, and its mount names that device, for the first 24 volumes.
    Distinct volumes have distinct drive ids, other than the fixed ones. *)
Theorem vm_drive_letters {D} `{!Stats D} rootfs payload mounts (d : D) drives guest d' : payload <> "" ->
  prepareVolumeDrives mounts (base_drives rootfs payload true) d = (Ok (drives, guest), d') ->
  List.length guest = List.length mounts /\
  (forall i m, mounts !! i = Some m -> (i < 24)%nat ->
     exists dr, drives !! (2 + i)%nat = Some dr /\ dr_PathOnHost dr = HostPath (vm_volume_name m) /\ dr_IsReadOnly dr = vm_read_only m /\
       guest !! i = Some (mkGuestVolumeMount ("/dev/vd" +:+ String (chr (97 + N.of_nat (2 + i))) "") (vm_mount_path m) "ext4" (vm_read_only m))) /\
  (Forall (fun m => all_chars is_label_char (vm_volume_name m) = true) mounts -> NoDup (vm_volume_name <$> mounts) -> NoDup (dr_DriveID <$> drives)).
Proof.
  intros Hp. unfold prepareVolumeDrives. change 99%Z with (u8 99). intros H. apply volume_loop_Ok in H as (-> & -> & _).
  unfold base_drives. destruct (String.eqb_spec payload ""); [done|]. split; [by rewrite length_app, length_imap|split].
  - intros i m Hm Hi. exists (volume_drive m). cbn [app]. split; [|split; [done|split; [done|]]].
    + change ((volume_drive <$> mounts) !! i = Some (volume_drive m)). by rewrite list_lookup_fmap, Hm.
    + rewrite list_lookup_imap, Hm. cbn [fmap option_fmap option_map]. unfold guest_mount. rewrite letter_wrap by lia.
      do 2 f_equal. unfold letter_text. destruct (Z.ltb_spec (99 + Z.of_nat i) 128); [|lia]. do 4 f_equal. lia.
  - intros Hall Hnd. cbn [app fmap list_fmap dr_DriveID root_drive payload_drive]. rewrite <- list_fmap_compose.
    assert (forall s (l : list VolumeMount), String.prefix "vol_" s = false -> s ∉ (dr_DriveID ∘ volume_drive <$> l)) as Hno.
    { intros s l Hs (m & -> & _)%list_elem_of_fmap. cbn [compose dr_DriveID volume_drive] in Hs. by destruct (sanitizeID _). }
    constructor; [|constructor]; [|by apply Hno|].
    { apply not_elem_of_cons. split; [done|by apply Hno]. }
    clear -Hall Hnd. induction Hall as [|m l Hm Hall IH]; [constructor|]. cbn in *. apply NoDup_cons in Hnd as [Hin Hnd].
    constructor; [|by apply IH]. intros (x & Hx & Hxl)%list_elem_of_fmap. apply Hin. apply list_elem_of_fmap. exists x. split; [|done].
    cbn in Hx. injection Hx as Hx. eapply sanitizeID_inj; [done| |done]. rewrite Forall_forall in Hall. by apply Hall.
Qed.

(** ** The size of the payload's disk *)

(** The disk of a payload holds it: its size is a whole number of MiB, at
    least the bytes used and 50 MiB, and at least the bytes used and a fifth of
    them; the 64-bit arithmetic does not overflow up to 4 EiB. *)
Theorem ext4_size_bounds used : (0 <= used <= 2 ^ 62)%Z ->
  (ext4_size used mod MiB = 0 /\ used + 50 * MiB <= ext4_size used /\ used + used / 5 <= ext4_size used /\
   ext4_size used < used + Z.max (50 * MiB) (used / 5) + MiB)%Z.
Proof.
  intros Hu. unfold ext4_size, headroom. rewrite !(Z.quot_div_nonneg used 5) by lia.
  assert (0 <= used / 5 <= used)%Z as H5 by (split; [apply Z.div_pos|apply Z.div_le_upper_bound]; lia).
  assert (used / 5 * 5 <= used)%Z as H5' by (pose proof (Z.mul_div_le used 5); lia).
  set (h := if (used / 5 >? 50 * MiB)%Z then (used / 5)%Z else (50 * MiB)%Z).
  assert (h = Z.max (50 * MiB) (used / 5))%Z as -> by (unfold h; destruct (Z.gtb_spec (used / 5) (50 * MiB)); lia).
  set (hd := Z.max _ _). assert (0 <= hd)%Z by (unfold hd, MiB; lia). assert (hd <= 2 ^ 61)%Z as Hhd by (unfold hd, MiB; lia).
  rewrite (swrap_small 64 (used + hd)) by lia. rewrite (swrap_small 64 (used + hd + (MiB - 1))) by (unfold MiB; lia).
  rewrite Z.quot_div_nonneg by (unfold MiB; lia).
  pose proof (Z.div_mod (used + hd + (MiB - 1)) MiB ltac:(unfold MiB; lia)) as Hd.
  pose proof (Z.mod_pos_bound (used + hd + (MiB - 1)) MiB ltac:(unfold MiB; lia)) as Hm.
  set (q := ((used + hd + (MiB - 1)) / MiB)%Z) in *. set (r := ((used + hd + (MiB - 1)) mod MiB)%Z) in *. clearbody q r.
  rewrite (swrap_small 64 q) by (unfold MiB in *; lia). rewrite (swrap_small 64 (q * MiB)) by (unfold MiB in *; lia).
  split; [apply Z.mod_mul; unfold MiB; lia|]. unfold hd, MiB in *. lia.
Qed.
Lemma ext4_size_bounds_witness : (ext4_size 1 mod MiB = 0)%Z /\ ext4_size 1 = (51 * MiB)%Z /\ ext4_size (1000 * MiB) = (1200 * MiB)%Z.
Proof. split; [|split; by vm_compute]. apply (ext4_size_bounds 1). lia. Defined.

(** A machine on which the devices of the listed volumes exist. *)
#[local] Instance list_stats : Stats (list string) := fun p d =>
  if decide (p ∈ d) then (Ok tt, d) else (Err (Sentinel OsNotExist), d).
Lemma vm_drive_letters_witness :
  let mounts := [mkVolumeMount "data" "/data" false; mkVolumeMount "my-logs" "/logs" true] in
  let devs := ["/dev/capsule/vol-data"; "/dev/capsule/vol-my-logs"] in
  exists drives guest,
    prepareVolumeDrives mounts (base_drives "/root.ext4" "/payload.ext4" true) devs = (Ok (drives, guest), devs) /\
    dr_DriveID <$> drives = ["rootfs"; "payload"; "vol_data"; "vol_my_logs"] /\
    (exists dr, drives !! 3%nat = Some dr /\ guest !! 1%nat = Some (mkGuestVolumeMount "/dev/vdd" "/logs" "ext4" true)) /\
    NoDup (dr_DriveID <$> drives).
Proof.
  intros mounts devs. do 2 eexists. split; [by vm_compute|]. split; [done|].
  destruct (vm_drive_letters "/root.ext4" "/payload.ext4" mounts devs
    (base_drives "/root.ext4" "/payload.ext4" true ++ (volume_drive <$> mounts)) (imap (fun j m => guest_mount (99 + Z.of_nat j) m) mounts) devs)
    as (_ & H2 & H3); [done|by vm_compute|]. split.
  - destruct (H2 1%nat (mkVolumeMount "my-logs" "/logs" true) eq_refl ltac:(lia)) as (dr & Hd & _ & _ & Hg). exists dr. by split.
  - apply H3; [repeat constructor; by vm_compute|]. apply (bool_decide_unpack _). vm_compute. exact I.
Defined.
