(* ===== verification/Vm.v ===== *)
(** * The MicroVM driver: runtime/microvm/firecracker

    [EnsureRunning], [Remove], [Status], [Exec] over the Firecracker SDK, the
    guest agent, containerd and the ip, iptables and mkfs commands.  These are
    interfaces: their operations ([Vmm]) and what the driver relies on
    ([VmmLaws]).  A name's directory holds no path separator, so
    [filepath.Join] is concatenation. *)

From S2P Require Import Prelude GoStrings Exec Models Runtime Iptables VmSpec.

Set Default Goal Selector "!".
Local Open Scope go_scope.

(** ** Data *)

(** [fc.Config] *)
Record FcConfig := mkFcConfig {
  fc_SocketPath : string; fc_LogPath : string; fc_KernelImagePath : string; fc_KernelArgs : string; fc_Drives : list Drive;
  fc_HostDevName : string; fc_MacAddress : string; fc_VsockPath : string; fc_CID : Z; fc_VcpuCount : Z; fc_MemSizeMib : Z }.

Record StartPayloadRequest := mkStartPayload {
  sp_PayloadBlockDevice : string; sp_Command : list string; sp_Env : list string; sp_WorkingDir : string; sp_Chroot : bool;
  sp_Mounts : list GuestVolumeMount }.

(** [vmState]: the machine, its TAP and address, and the connection to the
    guest agent in image mode (numbers name the SDK's objects).  [cancel] belongs to the machine. *)
Record VmState := mkVmState { vs_machine : nat; vs_tap : string; vs_ip : string; vs_guestConn : option positive }.

Definition defaultVCPUs : Z := 1.
Definition defaultMemMiB : Z := 256.
Definition stateDir : string := "/run/capsule/vms".
Definition bridgeName : string := "br0".
Definition SharedKernel : string := "/usr/share/capsule/vmlinux".
Definition SharedRootfs : string := "/usr/share/capsule/vm-shared.ext4".
Definition specHashFile : string := "spec.hash".
Definition guestVsockPort : Z := 52.
Definition guestReadyTimeout : Z := 60 * Second.
Definition vm_dir (name : string) : string := stateDir +:+ "/" +:+ name.

(** A message of the guest's Exec stream. *)
Inductive ExecServerMessage :=
  | ExecStdout (data : string)
  | ExecStderr (data : string)
  | ExecExit (code : Z).

(** ** The environment *)

Class Vmm (D : Type) := {
  vmm_commands :: Commands D;
  vmm_stats :: Stats D;
  vm_MkdirAll : string -> prog D unit;
  vm_Remove : string -> prog D unit;
  vm_RemoveAll : string -> prog D unit;
  vm_ReadFile : string -> prog D string;
  vm_WriteFile : string -> string -> prog D unit;
  vm_OpenTrunc : string -> prog D unit;           (* O_CREATE, O_WRONLY, O_TRUNC *)
  vm_Truncate : string -> Z -> prog D unit;
  vm_WalkSizes : string -> prog D (list Z);       (* of the regular files below *)
  vm_MkdirTemp : prog D string;
  vm_copyTree : string -> string -> prog D unit;
  ctrd_New : prog D unit;                         (* containerd.New *)
  vm_GetImage : string -> prog D string;
  vm_Pull : string -> prog D string;
  img_RootFS : string -> prog D (list string);
  img_Config : string -> prog D string;           (* images.Config *)
  img_Content : string -> prog D string;          (* readContent *)
  snap_Remove : string -> prog D unit;
  snap_View : string -> string -> prog D (list string);
  mnt_Mount : string -> string -> prog D unit;
  fc_NewMachine : FcConfig -> prog D nat;
  fc_Start : nat -> prog D unit;
  fc_Shutdown : nat -> prog D unit;
  fc_StopVMM : nat -> prog D unit;
  fc_Wait : nat -> prog D unit;                   (* until it exits, 10 s at most *)
  fc_cancel : nat -> prog D unit;                 (* cancel of the context its process runs in *)
  vm_dial : string -> Z -> prog D positive;            (* dialGuest, 2 s at most *)
  ga_Ping : positive -> prog D unit;                   (* 2 s at most *)
  ga_StartPayload : positive -> StartPayloadRequest -> prog D unit;
  ga_Stop : positive -> Z -> prog D unit;
  ga_Close : positive -> prog D unit;
  ga_Exec : positive -> list string -> bool -> gmap string string -> prog D (list ExecServerMessage * result unit);
  vm_now : D -> Z;
  vm_select : Z -> prog D (option error) }.       (* until the context is done or the time has passed *)

Record VDriver (D : Type) := mkVDriver { vd_world : D; vd_vms : gmap string VmState; vd_ctrd : bool }.
Arguments mkVDriver {D}.
Arguments vd_world {D}.
Arguments vd_vms {D}.
Arguments vd_ctrd {D}.

(** ** Networking *)

Section net.
Context {D : Type} `{!Vmm D}.

Definition runIP (args : list string) : prog D unit := exec_or_fail ("ip " +:+ Join args " ") "/sbin/ip" args.

Definition masquerade_rule (bridge : string) : list string := ["-s"; "172.20.0.0/16"; "!"; "-o"; bridge; "-j"; "MASQUERADE"].
Definition ensureMasquerade (bridge : string) : prog D unit :=
  o <- exec_prog iptables (["-t"; "nat"; "-C"; "POSTROUTING"] ++ masquerade_rule bridge) ;;
  match o_err o with
  | None => ret tt
  | Some _ => exec_or_fail "iptables masquerade" iptables (["-t"; "nat"; "-A"; "POSTROUTING"] ++ masquerade_rule bridge)
  end.

Definition add_bridge (name : string) : prog D unit :=
  r <- catch (runIP ["link"; "add"; "name"; name; "type"; "bridge"]) ;;
  match r with
  | Err err => if Contains (Error err) "File exists" then ret tt else fail err
  | Ok _ => ret tt
  end ;;;
  ignore (runIP ["addr"; "add"; vmSubnetGateway +:+ "/16"; "dev"; name]) ;;;
  runIP ["link"; "set"; name; "up"].
Definition ensureBridge (name : string) : prog D unit :=
  s <- catch (vm_Stat ("/sys/class/net/" +:+ name)) ;;
  match s with Err _ => add_bridge name | Ok _ => ret tt end ;;;
  ensureMasquerade name.

Definition tuntap_add (name : string) : prog D unit := runIP ["tuntap"; "add"; "mode"; "tap"; "name"; name].
Definition set_master (name : string) : prog D unit := runIP ["link"; "set"; name; "master"; bridgeName].
Definition teardownTAP (name : string) : prog D unit := ignore (runIP ["link"; "del"; name]).

Definition add_tap (name : string) : prog D unit :=
  r <- catch (tuntap_add name) ;;
  match r with
  | Err addErr =>
      let es := Error addErr in
      if negb (Contains es "File exists") && negb (Contains es "Resource busy") && negb (Contains es "exists") then fail addErr else ret tt
  | Ok _ => ret tt
  end.
(** A TAP that cannot be attached is made anew, once. *)
Definition attach_tap (name : string) : prog D unit :=
  r <- catch (set_master name) ;;
  match r with
  | Err err =>
      if Contains (Error err) "Resource busy" || Contains (Error err) "does not exist" then
        teardownTAP name ;;;
        wrap_err ("tap recreate " +:+ name +:+ ": ") (tuntap_add name) ;;;
        set_master name
      else fail err
  | Ok _ => ret tt
  end.
Definition setupTAP (name : string) : prog D unit :=
  wrap_err ("ensure bridge " +:+ bridgeName +:+ ": ") (ensureBridge bridgeName) ;;;
  add_tap name ;;;
  attach_tap name ;;;
  runIP ["link"; "set"; name; "up"].
End net.

(** ** Images *)

Section image.
Context {D : Type} `{!Vmm D} (FromString : string -> string) (unmarshal : string -> result ImageConfig).

(** The deferred clean-ups run in the reverse order. *)
Definition unpackImageRootfs (img dst : string) : prog D unit :=
  diffIDs <- wrap_err "image rootfs diff ids: " (img_RootFS img) ;;
  let chainID := identChainID FromString diffIDs in
  let key := "capsule-vm-unpack-" +:+ img in
  ignore (snap_Remove key) ;;;
  mounts <- wrap_err ("snapshot view (chain=" +:+ chainID +:+ "): ") (snap_View key chainID) ;;
  finally
    (mountDir <- vm_MkdirTemp ;;
     finally
       (for_each mounts (fun m => wrap_err "mount snapshot: " (mnt_Mount m mountDir)) ;;;
        finally (wrap_err "copy snapshot: " (vm_copyTree mountDir dst)) (exec_quiet "/bin/umount" [mountDir]))
       (ignore (vm_RemoveAll mountDir)))
    (ignore (snap_Remove key)).

Definition resolve_payload (img : string) (spec : MicroVMSpec) : prog D OCIPayload :=
  cfgDesc <- wrap_err "image config descriptor: " (img_Config img) ;;
  raw <- img_Content cfgDesc ;;
  imageCfg <- wrap_err "parse image config: " (lift (unmarshal raw)) ;;
  lift (buildOCIPayload img imageCfg spec).

Definition makeExt4FromDir (dir out : string) : prog D unit :=
  sizes <- vm_WalkSizes dir ;;
  let total := ext4_size (dirSizeBytes sizes) in
  vm_WriteFile out "" ;;;
  vm_Truncate out total ;;;
  o <- exec_prog "/usr/sbin/mkfs.ext4" ["-q"; "-F"; "-d"; dir; out] ;;
  match o_err o with
  | None => ret tt
  | Some err =>
      o2 <- exec_prog "/sbin/mkfs.ext4" ["-q"; "-F"; "-d"; dir; out] ;;
      match o_err o2 with
      | None => ret tt
      | Some _ => fail (Wrap "mkfs.ext4: " err (": " +:+ o_combined o +:+ " / " +:+ o_combined o2))
      end
  end.

Definition build_payload (img vmDir : string) (spec : MicroVMSpec) : prog D (string * OCIPayload) :=
  let payloadDir := vmDir +:+ "/payload" in
  wrap_err ("clean " +:+ payloadDir +:+ ": ") (vm_RemoveAll payloadDir) ;;;
  wrap_err ("mkdir " +:+ payloadDir +:+ ": ") (vm_MkdirAll payloadDir) ;;;
  wrap_err "unpack image: " (unpackImageRootfs img payloadDir) ;;;
  payload <- wrap_err "resolve image config: " (resolve_payload img spec) ;;
  let ext4Path := vmDir +:+ "/payload.ext4" in
  wrap_err "build ext4: " (makeExt4FromDir payloadDir ext4Path) ;;;
  ignore (vm_RemoveAll payloadDir) ;;;
  ret (ext4Path, payload).
(** The image, pulled when the store does not have it - or cannot tell. *)
Definition vm_find_image (ref : string) : prog D string :=
  g <- catch (vm_GetImage ref) ;;
  match g with Ok img => ret img | Err _ => wrap_err ("pull " +:+ Quote ref +:+ ": ") (vm_Pull ref) end.
End image.

(** ** Waiting for the guest agent *)

Section ready.
Context {D : Type} `{!Vmm D}.

Definition ready_fuel (timeout : Z) : nat := Z.to_nat (timeout / (50 * Millisecond) + 1).
Definition not_ready (lastErr : option error) : error :=
  match lastErr with
  | Some e => Wrap "guest agent not ready within 1m0s: " e ""
  | None => Errorf "guest agent not ready within 1m0s: %!w(<nil>)"
  end.
(** One attempt: a connection that answered a ping, or the error. *)
Definition try_guest (udsPath : string) : prog D (result positive) :=
  c <- catch (vm_dial udsPath guestVsockPort) ;;
  match c with
  | Err err => ret (Err err)
  | Ok conn =>
      p <- catch (ga_Ping conn) ;;
      match p with
      | Ok _ => ret (Ok conn)
      | Err perr => ignore (ga_Close conn) ;;; ret (Err perr)
      end
  end.
Fixpoint ready_loop (fuel : nat) (deadline : Z) (udsPath : string) (lastErr : option error) : prog D positive := fun d =>
  match fuel with
  | O => (Err (not_ready lastErr), d)
  | S fuel =>
      if (vm_now d <? deadline)%Z then
        (r <- try_guest udsPath ;;
         match r with
         | Ok conn => ret conn
         | Err e =>
             s <- vm_select (50 * Millisecond) ;;
             match s with Some ctxErr => fail ctxErr | None => ready_loop fuel deadline udsPath (Some e) end
         end) d
      else (Err (not_ready lastErr), d)
  end.
Definition waitForGuestReady (udsPath : string) (timeout : Z) : prog D positive := fun d =>
  ready_loop (ready_fuel timeout) (vm_now d + timeout) udsPath None d.
End ready.

(** ** The driver *)

Section driver.
Context {D : Type} `{!Vmm D}.
Abbreviation W := (VDriver D).

Definition vcall {A} : prog D A -> prog W A := zoom vd_world (fun d w => mkVDriver d (vd_vms w) (vd_ctrd w)).
Definition set_vms (f : gmap string VmState -> gmap string VmState) : prog W unit := fun w =>
  (Ok tt, mkVDriver (vd_world w) (f (vd_vms w)) (vd_ctrd w)).
Definition tracked (name : string) : prog W (option VmState) := fun w => (Ok (vd_vms w !! name), w).

(** [d.containerd()]: dialled once. *)
Definition containerd_client : prog W unit := fun w =>
  if vd_ctrd w then (Ok tt, w)
  else match vcall ctrd_New w with
       | (Ok _, w') => (Ok tt, mkVDriver (vd_world w') (vd_vms w') true)
       | (Err e, w') => (Err (Wrap "containerd dial: " e ""), w')
       end.

Definition readSpecHash (vmDir : string) : prog W string :=
  r <- catch (vcall (vm_ReadFile (vmDir +:+ "/" +:+ specHashFile))) ;;
  match r with Ok b => ret (TrimSpace b) | Err _ => ret "" end.
Definition writeSpecHash (vmDir hash : string) : prog W unit := vcall (vm_WriteFile (vmDir +:+ "/" +:+ specHashFile) hash).

Definition validateSpec (s : MicroVMSpec) : prog W unit :=
  let absolute what p := if negb (HasPrefix p "/") then fail (Errorf (what +:+ " must be absolute, got " +:+ Quote p)) else ret tt in
  if negb (String.eqb (mv_image s) "") then
    if String.eqb (mv_kernel_path s) "" then ret tt else absolute "kernel_path" (mv_kernel_path s)
  else if String.eqb (mv_kernel_path s) "" then fail (Errorf "either image or kernel_path is required")
  else
    absolute "kernel_path" (mv_kernel_path s) ;;;
    (if String.eqb (mv_rootfs_path s) "" then fail (Errorf "rootfs_path is required when image is not set") else ret tt) ;;;
    absolute "rootfs_path" (mv_rootfs_path s) ;;;
    wrap_err "kernel_path: " (vcall (vm_Stat (mv_kernel_path s))) ;;;
    wrap_err "rootfs_path: " (vcall (vm_Stat (mv_rootfs_path s))).

(** *** Remove *)

Definition stop_machine (s : VmState) : prog W unit :=
  match vs_guestConn s with
  | Some conn => ignore (vcall (ga_Stop conn 5)) ;;; ignore (vcall (ga_Close conn))
  | None => ret tt
  end ;;;
  ignore (vcall (fc_Shutdown (vs_machine s))) ;;;
  ignore (vcall (fc_StopVMM (vs_machine s))) ;;;
  ignore (vcall (fc_Wait (vs_machine s))) ;;;
  ignore (vcall (fc_cancel (vs_machine s))).

(** Works without a record of the VM too: TAP, rules and directory are found by the name. *)
Definition Vm_Remove (sha256 : string -> string) (name : string) : prog W unit :=
  s <- tracked name ;;
  set_vms (delete name) ;;;
  vcall (teardownPortMappings name) ;;;
  match s with Some s => stop_machine s | None => ret tt end ;;;
  vcall (teardownTAP (tapName sha256 name)) ;;;
  ignore (vcall (vm_RemoveAll (vm_dir name))).

(** *** EnsureRunning *)

Section create.
Context (sha256 FromString : string -> string) (unmarshal : string -> result ImageConfig) (marshal : RuntimeSpec -> result string).

Definition preparePayloadDisk (spec : MicroVMSpec) (vmDir : string) : prog W (string * OCIPayload) :=
  let ref := mv_image spec in
  if String.eqb ref "" then fail (Errorf "image is required for image-mode microVM")
  else
    containerd_client ;;;
    img <- vcall (vm_find_image ref) ;;
    vcall (build_payload FromString unmarshal img vmDir spec).

Definition image_mode (spec : MicroVMSpec) : bool := negb (String.eqb (mv_image spec) "").
Definition kernel_of (spec : MicroVMSpec) : string :=
  if image_mode spec && String.eqb (mv_kernel_path spec) "" then SharedKernel else mv_kernel_path spec.
Definition rootfs_of (spec : MicroVMSpec) : string := if image_mode spec then SharedRootfs else mv_rootfs_path spec.
Definition or_default (x d : Z) : Z := if (x <=? 0)%Z then d else x.

Definition vm_config (name : string) (spec : MicroVMSpec) (drives : list Drive) : FcConfig :=
  let vmDir := vm_dir name in
  mkFcConfig (vmDir +:+ "/api.sock") (vmDir +:+ "/combined.log") (kernel_of spec)
    (kernel_cmdline (guestIPFor sha256 name) (mv_kernel_cmdline_extra spec)) drives
    (tapName sha256 name) (macForName sha256 name) (vmDir +:+ "/vsock.uds") 3
    (or_default (mv_vcpus spec) defaultVCPUs) (or_default (mv_memory_mib spec) defaultMemMiB).

Definition start_request (payload : OCIPayload) (mounts : list GuestVolumeMount) : StartPayloadRequest :=
  mkStartPayload "/dev/vdb" (op_Command payload) (op_Env payload) (op_Cwd payload) true mounts.

(** The machine is made and started, or nothing is left running and the TAP is deleted. *)
Definition start_machine (name : string) (cfg : FcConfig) : prog W nat :=
  let tap := fc_HostDevName cfg in
  m <- catch (vcall (fc_NewMachine cfg)) ;;
  match m with
  | Err err => vcall (teardownTAP tap) ;;; fail (Wrap ("new machine " +:+ Quote name +:+ ": ") err "")
  | Ok m =>
      s <- catch (vcall (fc_Start m)) ;;
      match s with
      | Err err => ignore (vcall (fc_cancel m)) ;;; vcall (teardownTAP tap) ;;; fail (Wrap ("start machine " +:+ Quote name +:+ ": ") err "")
      | Ok _ => ret m
      end
  end.
Definition halt (m : nat) (tap : string) : prog W unit :=
  ignore (vcall (fc_Shutdown m)) ;;; ignore (vcall (fc_StopVMM m)) ;;; ignore (vcall (fc_cancel m)) ;;; vcall (teardownTAP tap).
(** In image mode the agent in the guest is asked to start the payload. *)
Definition start_payload (m : nat) (cfg : FcConfig) (req : StartPayloadRequest) : prog W positive :=
  c <- catch (vcall (waitForGuestReady (fc_VsockPath cfg) guestReadyTimeout)) ;;
  match c with
  | Err err => halt m (fc_HostDevName cfg) ;;; fail (Wrap ("guest agent on " +:+ fc_VsockPath cfg +:+ ": ") err "")
  | Ok conn =>
      s <- catch (vcall (ga_StartPayload conn req)) ;;
      match s with
      | Err err => ignore (vcall (ga_Close conn)) ;;; halt m (fc_HostDevName cfg) ;;; fail (Wrap "guest StartPayload: " err "")
      | Ok _ => ret conn
      end
  end.

Definition vm_payload (name : string) (spec : MicroVMSpec) : prog W (option (string * OCIPayload)) :=
  if image_mode spec then p <- wrap_err "prepare payload disk: " (preparePayloadDisk spec (vm_dir name)) ;; ret (Some p)
  else ret None.
Definition payload_path (payload : option (string * OCIPayload)) : string := match payload with Some (p, _) => p | None => "" end.
(** Up to the serial log: what the machine is made of. *)
Definition vm_prepare (name : string) (spec : MicroVMSpec) (payloadDisk : string) : prog W (list Drive * list GuestVolumeMount) :=
  let vmDir := vm_dir name in
  let tap := tapName sha256 name in
  wrap_err ("tap setup " +:+ tap +:+ ": ") (vcall (setupTAP tap)) ;;;
  ignore (vcall (vm_Remove (vmDir +:+ "/vsock.uds"))) ;;;
  ignore (vcall (vm_Remove (vmDir +:+ "/api.sock"))) ;;;
  dg <- wrap_err "prepare volumes: "
          (vcall (prepareVolumeDrives (mv_mounts spec) (base_drives (rootfs_of spec) payloadDisk (image_mode spec)))) ;;
  wrap_err ("open serial log " +:+ vmDir +:+ "/vm-serial.log: ") (vcall (vm_OpenTrunc (vmDir +:+ "/vm-serial.log"))) ;;;
  ret dg.
(** The port mappings and the hash are only tried. *)
Definition record_vm (name : string) (spec : MicroVMSpec) (desiredHash : string) (s : VmState) : prog W unit :=
  ignore (vcall (applyPortMappings name (guestIPFor sha256 name) (mv_ports spec))) ;;;
  ignore (writeSpecHash (vm_dir name) desiredHash) ;;;
  set_vms <[name := s]>.
Definition vm_create (name : string) (spec : MicroVMSpec) (desiredHash : string) : prog W unit :=
  wrap_err ("mkdir " +:+ vm_dir name +:+ ": ") (vcall (vm_MkdirAll (vm_dir name))) ;;;
  payload <- vm_payload name spec ;;
  dg <- vm_prepare name spec (payload_path payload) ;;
  let cfg := vm_config name spec dg.1 in
  m <- start_machine name cfg ;;
  conn <- match payload with
          | Some (_, pl) => c <- start_payload m cfg (start_request pl dg.2) ;; ret (Some c)
          | None => ret None
          end ;;
  record_vm name spec desiredHash (mkVmState m (tapName sha256 name) (guestIPFor sha256 name) conn).

(** [true] when the tracked VM is kept: its hash is the desired one, or unknown. *)
Definition vm_settle (name desiredHash : string) : prog W bool :=
  s <- tracked name ;;
  match s with
  | None => ret false
  | Some _ =>
      runningHash <- readSpecHash (vm_dir name) ;;
      if String.eqb runningHash "" || String.eqb runningHash desiredHash then ret true
      else wrap_err ("remove stale vm " +:+ Quote name +:+ ": ") (Vm_Remove sha256 name) ;;; ret false
  end.
Definition Vm_EnsureRunning (w : Workload) : prog W unit :=
  match wl_micro_vm w with
  | None => fail (Errorf ("workload " +:+ Quote (wl_name w) +:+ " has no micro_vm spec"))
  | Some spec =>
      validateSpec spec ;;;
      desiredHash <- lift (SpecHash marshal sha256 w) ;;
      done <- vm_settle (wl_name w) desiredHash ;;
      if (done : bool) then ret tt else vm_create (wl_name w) spec desiredHash
  end.
End create.

(** *** Status and Exec *)

Definition Vm_Status (name : string) : prog W Status :=
  s <- tracked name ;;
  ret (mkStatus (match s with Some _ => PhaseRunning | None => PhaseUnknown end) "" 0).

(** The exit code the guest's messages tell, -1 without one. *)
Definition drain_exec (msgs : list ExecServerMessage) : Z :=
  foldl (fun exit m => match m with ExecExit c => c | _ => exit end) (-1)%Z msgs.
Definition Vm_Exec (req : ExecRequest) : prog W Z :=
  s <- tracked (ex_Name req) ;;
  match s ≫= vs_guestConn with
  | None => fail (Errorf ("no running vm " +:+ Quote (ex_Name req)))
  | Some conn =>
      r <- vcall (ga_Exec conn (ex_Command req) (ex_TTY req) (ex_Env req)) ;;
      match r with
      | (_, Err err) => fail err
      | (msgs, Ok _) => ret (drain_exec msgs)
      end
  end.
(** Which streams [Logs] and [SerialLogs] read. *)
Definition Vm_Logs (name : string) (follow : bool) (tailLines : Z) : prog W LogStream :=
  s <- tracked name ;;
  match s ≫= vs_guestConn with
  | None => fail (Errorf ("no running vm " +:+ Quote name))
  | Some _ => ret (PayloadLog name follow (i32 tailLines))
  end.
End driver.

(** ** What the driver relies on

    The machines with the state of their process, the network links, the
    files, and the payload each guest runs, by its vsock path; beside them the
    iptables chains.  A call touches what its scope names. *)

Inductive PState := PCreated | PUp | PEnding | PEnded.
#[export] Instance PState_eq_dec : EqDecision PState.
Proof. solve_decision. Defined.
Record Proc := mkProc { pr_config : FcConfig; pr_state : PState }.
Record Link := mkLink { ln_master : option string; ln_up : bool }.

Definition under (dir p : string) : Prop := p = dir \/ HasPrefix p (dir +:+ "/") = true.
Definition cfg_file (cfg : FcConfig) (p : string) : Prop := p = fc_SocketPath cfg \/ p = fc_LogPath cfg \/ p = fc_VsockPath cfg.

Record scope := mkScope {
  s_proc : nat -> Prop; s_link : string -> Prop; s_file : string -> Prop; s_uds : string -> Prop; s_rules : Prop }.
Definition none {A} : A -> Prop := fun _ => False.
Definition nothing : scope := mkScope none none none none False.
Definition a_link (n : string) : scope := mkScope none (eq n) none none False.
Definition a_file (P : string -> Prop) : scope := mkScope none none P none False.
Definition the_rules : scope := mkScope none none none none True.

Section effect.
Context {D : Type} (procs : D -> gmap nat Proc) (links : D -> gmap string Link) (vfiles : D -> gmap string string)
  (payloads : D -> gmap string StartPayloadRequest) (rules : D -> string * string -> list Rule).

Definition effect (s : scope) (d d' : D) : Prop :=
  (forall i, ~ s_proc s i -> procs d' !! i = procs d !! i) /\ (forall l, ~ s_link s l -> links d' !! l = links d !! l) /\
  (forall p, ~ s_file s p -> vfiles d' !! p = vfiles d !! p) /\ (forall u, ~ s_uds s u -> payloads d' !! u = payloads d !! u) /\
  (~ s_rules s -> rules d' = rules d).
Definition touches {A} (s : scope) (m : prog D A) : Prop := forall d, effect s d (m d).2.

Definition within (s t : scope) : Prop :=
  (forall i, s_proc s i -> s_proc t i) /\ (forall i, s_link s i -> s_link t i) /\ (forall i, s_file s i -> s_file t i) /\
  (forall i, s_uds s i -> s_uds t i) /\ (s_rules s -> s_rules t).
Lemma effect_refl s d : effect s d d.
Proof. by split_and!. Qed.
Lemma effect_trans s d1 d2 d3 : effect s d1 d2 -> effect s d2 d3 -> effect s d1 d3.
Proof.
  intros (A1 & A2 & A3 & A4 & A5) (B1 & B2 & B3 & B4 & B5).
  split_and!; [intros i Hi; by rewrite B1, A1|intros i Hi; by rewrite B2, A2|intros i Hi; by rewrite B3, A3|intros i Hi; by rewrite B4, A4|].
  intros H. by rewrite B5, A5.
Qed.
Lemma effect_within s t d d' : within s t -> effect s d d' -> effect t d d'.
Proof.
  intros (A1 & A2 & A3 & A4 & A5) (B1 & B2 & B3 & B4 & B5).
  split_and!; [intros i Hi; apply B1; auto|intros i Hi; apply B2; auto|intros i Hi; apply B3; auto|intros i Hi; apply B4; auto|intros H; apply B5; auto].
Qed.
(** A scope bounds a program from a fixed start. *)
Lemma effect_preserves {A} s t d0 (m : prog D A) : within s t -> touches s m -> preserves (effect t d0) m.
Proof. intros H Hm d Hd. eapply effect_trans; [exact Hd|]. by eapply effect_within, Hm. Qed.
End effect.

Definition exec_scope (path : string) (args : list string) : scope :=
  if String.eqb path iptables then the_rules
  else if String.eqb path "/sbin/ip" then
    match args with
    | ["tuntap"; "add"; "mode"; "tap"; "name"; n] | ["link"; "add"; "name"; n; "type"; "bridge"]
    | ["link"; "set"; n; _] | ["link"; "set"; n; _; _] | ["link"; "del"; n] => a_link n
    | _ => nothing
    end
  else match last args with Some out => a_file (under out) | None => nothing end.

(** The state of one process; its config stays. *)
Definition proc_step (i : nat) (R : PState -> PState -> Prop) (m m' : gmap nat Proc) : Prop :=
  match m !! i with
  | Some p => exists st, m' !! i = Some (mkProc (pr_config p) st) /\ R (pr_state p) st
  | None => m' !! i = None
  end.
(** A stopping call starts nothing. *)
Definition calms (s s' : PState) : Prop := s' = PUp -> s = PUp.

Class VmmLaws (D : Type) `{!Vmm D, !IptablesLaws D} := {
  procs : D -> gmap nat Proc;
  links : D -> gmap string Link;
  vfiles : D -> gmap string string;
  payloads : D -> gmap string StartPayloadRequest;
  conn_uds : positive -> string;
  (** calls that change nothing here *)
  stat_quiet p : touches procs links vfiles payloads chain_rules nothing (vm_Stat p);
  mkdir_quiet p : touches procs links vfiles payloads chain_rules nothing (vm_MkdirAll p);
  read_quiet p : touches procs links vfiles payloads chain_rules nothing (vm_ReadFile p);
  walk_quiet p : touches procs links vfiles payloads chain_rules nothing (vm_WalkSizes p);
  ctrd_quiet : touches procs links vfiles payloads chain_rules nothing ctrd_New;
  get_quiet r : touches procs links vfiles payloads chain_rules nothing (vm_GetImage r);
  pull_quiet r : touches procs links vfiles payloads chain_rules nothing (vm_Pull r);
  rootfs_quiet r : touches procs links vfiles payloads chain_rules nothing (img_RootFS r);
  config_quiet r : touches procs links vfiles payloads chain_rules nothing (img_Config r);
  content_quiet r : touches procs links vfiles payloads chain_rules nothing (img_Content r);
  snap_quiet k : touches procs links vfiles payloads chain_rules nothing (snap_Remove k);
  view_quiet k c : touches procs links vfiles payloads chain_rules nothing (snap_View k c);
  dial_quiet u p : touches procs links vfiles payloads chain_rules nothing (vm_dial u p);
  ping_quiet c : touches procs links vfiles payloads chain_rules nothing (ga_Ping c);
  close_quiet c : touches procs links vfiles payloads chain_rules nothing (ga_Close c);
  gexec_quiet c x t e : touches procs links vfiles payloads chain_rules nothing (ga_Exec c x t e);
  select_quiet t : touches procs links vfiles payloads chain_rules nothing (vm_select t);
  (** files; a temporary directory lies outside the state directory *)
  temp_law d : effect procs links vfiles payloads chain_rules nothing d (vm_MkdirTemp d).2 /\
    forall dir, (vm_MkdirTemp d).1 = Ok dir -> forall n p, under (vm_dir n) p -> ~ under dir p;
  remove_law p : touches procs links vfiles payloads chain_rules (a_file (eq p)) (vm_Remove p);
  trunc_law p : touches procs links vfiles payloads chain_rules (a_file (eq p)) (vm_OpenTrunc p);
  truncate_law p z : touches procs links vfiles payloads chain_rules (a_file (eq p)) (vm_Truncate p z);
  removeall_law p d : effect procs links vfiles payloads chain_rules (a_file (under p)) d (vm_RemoveAll p d).2 /\
    ((vm_RemoveAll p d).1 = Ok tt -> forall q, under p q -> vfiles (vm_RemoveAll p d).2 !! q = None);
  write_law p b d : effect procs links vfiles payloads chain_rules (a_file (eq p)) d (vm_WriteFile p b d).2 /\
    ((vm_WriteFile p b d).1 = Ok tt -> vfiles (vm_WriteFile p b d).2 !! p = Some b);
  read_law p d b : (vm_ReadFile p d).1 = Ok b -> vfiles d !! p = Some b;
  copy_law src dst : touches procs links vfiles payloads chain_rules (a_file (under dst)) (vm_copyTree src dst);
  mnt_law m dir : touches procs links vfiles payloads chain_rules (a_file (under dir)) (mnt_Mount m dir);
  (** commands *)
  exec_law path args d : effect procs links vfiles payloads chain_rules (exec_scope path args) d (exec_Command path args d).2;
  tap_add_law n d : let '(o, d') := exec_Command "/sbin/ip" ["tuntap"; "add"; "mode"; "tap"; "name"; n] d in
    o_err o = None -> links d' !! n = Some (mkLink None false);
  master_law n b d : let '(o, d') := exec_Command "/sbin/ip" ["link"; "set"; n; "master"; b] d in
    o_err o = None -> exists up, links d' !! n = Some (mkLink (Some b) up);
  up_law n d : let '(o, d') := exec_Command "/sbin/ip" ["link"; "set"; n; "up"] d in
    o_err o = None -> links d' !! n = (fun l => mkLink (ln_master l) true) <$> links d !! n;
  del_law n d : let '(o, d') := exec_Command "/sbin/ip" ["link"; "del"; n] d in
    links d' !! n = match o_err o with None => None | Some _ => links d !! n end;
  (** machines *)
  new_law cfg d : let '(r, d') := fc_NewMachine cfg d in
    (exists i, procs d !! i = None /\ effect procs links vfiles payloads chain_rules (mkScope (eq i) none (cfg_file cfg) none False) d d' /\
       match r with Ok j => i = j /\ procs d' !! i = Some (mkProc cfg PCreated) | Err _ => procs d' !! i = None end);
  start_law i d : let '(r, d') := fc_Start i d in
    effect procs links vfiles payloads chain_rules
      (mkScope (eq i) none (fun p => exists q, procs d !! i = Some q /\ cfg_file (pr_config q) p) none False) d d' /\
    proc_step i (fun _ s' => r = Ok tt -> s' = PUp) (procs d) (procs d');
  shutdown_law i d : effect procs links vfiles payloads chain_rules (mkScope (eq i) none none none False) d (fc_Shutdown i d).2 /\
    proc_step i calms (procs d) (procs (fc_Shutdown i d).2);
  stop_law i d : effect procs links vfiles payloads chain_rules (mkScope (eq i) none none none False) d (fc_StopVMM i d).2 /\
    proc_step i calms (procs d) (procs (fc_StopVMM i d).2);
  wait_law i d : effect procs links vfiles payloads chain_rules (mkScope (eq i) none none none False) d (fc_Wait i d).2 /\
    proc_step i (fun s s' => calms s s' /\ ((fc_Wait i d).1 = Ok tt -> s' = PEnded)) (procs d) (procs (fc_Wait i d).2);
  cancel_law i d : effect procs links vfiles payloads chain_rules (mkScope (eq i) none none none False) d (fc_cancel i d).2 /\
    proc_step i (fun s s' => s' <> PUp /\ (s = PEnded -> s' = PEnded)) (procs d) (procs (fc_cancel i d).2);
  (** the guest agent behind a connection *)
  dial_law u p d c : (vm_dial u p d).1 = Ok c -> conn_uds c = u;
  payload_law c q d : effect procs links vfiles payloads chain_rules (mkScope none none none (eq (conn_uds c)) False) d (ga_StartPayload c q d).2 /\
    ((ga_StartPayload c q d).1 = Ok tt -> payloads (ga_StartPayload c q d).2 !! conn_uds c = Some q);
  gstop_law c t : touches procs links vfiles payloads chain_rules (mkScope none none none (eq (conn_uds c)) False) (ga_Stop c t) }.

(** ** Frames

    What a call for one workload may touch: its machine and new ones, its TAP
    and the bridge, its directory and what lies outside the state directory,
    its guest, and the iptables chains. *)

Definition plain (n : string) : Prop := no_char "/" n = true.

Lemma slash_split n m r r' : plain n -> plain m -> (r = "" \/ exists t, r = String "/" t) -> (r' = "" \/ exists t, r' = String "/" t) ->
  n +:+ r = m +:+ r' -> n = m.
Proof.
  unfold plain, no_char. revert m. induction n as [|c n IH]; intros [|d m] Hn Hm Hr Hr' H; cbn in *.
  - done.
  - apply andb_true_iff in Hm as [Hd _]. destruct Hr as [->|[t ->]]; [done|]. injection H as <- _. by vm_compute in Hd.
  - apply andb_true_iff in Hn as [Hc _]. destruct Hr' as [->|[t ->]]; [done|]. injection H as -> _. by vm_compute in Hc.
  - apply andb_true_iff in Hn as [_ Hn], Hm as [_ Hm]. injection H as -> H. f_equal. by apply IH.
Qed.
Lemma HasPrefix_split p q : HasPrefix p q = true -> exists r, p = q +:+ r.
Proof.
  unfold HasPrefix. revert p. induction q as [|c q IH]; intros p H; [by exists p|]. destruct p as [|d p]; [done|]. cbn in H.
  destruct (ascii_dec c d) as [->|]; [|done]. apply IH in H as [r ->]. by exists r.
Qed.
Lemma under_split dir p : under dir p -> exists r, p = dir +:+ r /\ (r = "" \/ exists t, r = String "/" t).
Proof.
  intros [->|H]; [exists ""; split; [by rewrite app_nil_str|by left]|]. apply HasPrefix_split in H as [r ->].
  exists ("/" +:+ r). split; [by rewrite app_assoc_str|right; by exists r].
Qed.
Lemma under_same n m p : plain n -> plain m -> under (vm_dir n) p -> under (vm_dir m) p -> n = m.
Proof.
  intros Hn Hm (r & -> & Hr)%under_split (r' & E & Hr')%under_split. unfold vm_dir in E. rewrite !app_assoc_str in E.
  do 2 apply app_inj_l in E. exact (slash_split n m r r' Hn Hm Hr Hr' E).
Qed.
Lemma prefix_refl_app p s : HasPrefix (p +:+ s) p = true.
Proof. unfold HasPrefix. induction p as [|c p IH]; cbn; [by destruct s|]. by destruct (ascii_dec c c). Qed.
Lemma in_vm_dir n s : under (vm_dir n) (vm_dir n +:+ "/" +:+ s).
Proof. right. rewrite <- app_assoc_str. apply prefix_refl_app. Qed.

Section frame.
Context {D : Type} `{!Vmm D, !IptablesLaws D, !VmmLaws D}.
Context (sha256 : string -> string).
Abbreviation W := (VDriver D).
Abbreviation eff := (effect procs links vfiles payloads chain_rules).
Abbreviation op_touches := (touches procs links vfiles payloads chain_rules).

Definition uds_of (n : string) : string := vm_dir n +:+ "/vsock.uds".
Definition own (n : string) (w : W) (i : nat) : Prop := exists s, vd_vms w !! n = Some s /\ vs_machine s = i.
Definition mine (n : string) (w0 : W) : scope :=
  mkScope (fun i => procs (vd_world w0) !! i = None \/ own n w0 i)
    (fun l => l = bridgeName \/ l = tapName sha256 n)
    (fun p => forall m, m <> n -> plain m -> ~ under (vm_dir m) p)
    (eq (uds_of n)) True.

Context (n : string) (w0 : W) (Hn : plain n) (X : nat -> Prop).
(** A machine that is up was up at the start, or is excepted. *)
Definition no_stray (d : D) : Prop := forall i p, procs d !! i = Some p -> pr_state p = PUp ->
  X i \/ exists p0, procs (vd_world w0) !! i = Some p0 /\ pr_state p0 = PUp.
Definition framed (d : D) : Prop := eff (mine n w0) (vd_world w0) d /\ no_stray d.

Lemma file_mine p : under (vm_dir n) p -> s_file (mine n w0) p.
Proof. intros Hp m Hm Hpm H. apply Hm. by eapply under_same. Qed.
Lemma within_nothing : within nothing (mine n w0).
Proof. by split_and!. Qed.
Lemma within_rules : within the_rules (mine n w0).
Proof. by split_and!. Qed.
Lemma within_link l : s_link (mine n w0) l -> within (a_link l) (mine n w0).
Proof. intros H. split_and!; [done| |done..]. intros i <-. exact H. Qed.
Lemma within_file (P : string -> Prop) : (forall p, P p -> s_file (mine n w0) p) -> within (a_file P) (mine n w0).
Proof. intros H. by split_and!. Qed.
Lemma within_proc i : s_proc (mine n w0) i -> within (mkScope (eq i) none none none False) (mine n w0).
Proof. intros H. split_and!; [|done..]. intros j <-. exact H. Qed.
Lemma within_uds c : conn_uds c = uds_of n -> within (mkScope none none none (eq (conn_uds c)) False) (mine n w0).
Proof. intros H. split_and!; [done..| |done]. intros j <-. by rewrite H. Qed.

Lemma framed_op {A} s (m : prog D A) : within s (mine n w0) -> (forall i, ~ s_proc s i) -> op_touches s m -> preserves framed m.
Proof.
  intros Hs Hp Hm d [H1 H2]. split; [exact (effect_preserves _ _ _ _ _ s _ _ m Hs Hm d H1)|].
  intros i p Hi. apply H2. destruct (Hm d) as [H _]. by rewrite <- H.
Qed.
Lemma framed_quiet {A} (m : prog D A) : op_touches nothing m -> preserves framed m.
Proof. apply framed_op; [apply within_nothing|by intros i []]. Qed.
Lemma framed_file {A} p (m : prog D A) : under (vm_dir n) p -> op_touches (a_file (eq p)) m -> preserves framed m.
Proof. intros Hp. apply framed_op; [|by intros i []]. apply within_file. intros q <-. by apply file_mine. Qed.
Lemma under_trans a b p : under a b -> under b p -> under a p.
Proof.
  intros (r & -> & Hr)%under_split (r' & -> & Hr')%under_split. rewrite app_assoc_str. destruct Hr as [->|[t ->]].
  - destruct Hr' as [->|[t ->]]; [left; by rewrite app_nil_str|right]. cbn [String.append]. replace (a +:+ String "/" t) with ((a +:+ "/") +:+ t) by (by rewrite app_assoc_str). apply prefix_refl_app.
  - right. replace (a +:+ String "/" t +:+ r') with ((a +:+ "/") +:+ (t +:+ r')) by (by rewrite app_assoc_str). apply prefix_refl_app.
Qed.
Lemma framed_under {A} p (m : prog D A) : under (vm_dir n) p -> op_touches (a_file (under p)) m -> preserves framed m.
Proof. intros Hp. apply framed_op; [|by intros i []]. apply within_file. intros q Hq. apply file_mine. by eapply under_trans. Qed.
Lemma removeall_touches p : op_touches (a_file (under p)) (vm_RemoveAll p).
Proof. intros d. apply removeall_law. Qed.
Lemma write_touches p b : op_touches (a_file (eq p)) (vm_WriteFile p b).
Proof. intros d. apply write_law. Qed.

(** *** Commands *)

Lemma exec_scope_procs path args i : ~ s_proc (exec_scope path args) i.
Proof. unfold exec_scope. intros H. by repeat case_match. Qed.
Lemma framed_exec path args : within (exec_scope path args) (mine n w0) -> preserves framed (exec_prog path args).
Proof.
  intros H. apply (framed_op (exec_scope path args)); [done|apply exec_scope_procs|]. intros d. unfold exec_prog. pose proof (exec_law path args d) as Hl.
  by destruct (exec_Command path args d).
Qed.
Lemma framed_iptables args : preserves framed (exec_prog iptables args).
Proof. apply framed_exec. exact within_rules. Qed.
Lemma framed_or_fail what path args : preserves framed (exec_prog path args) -> preserves framed (exec_or_fail what path args).
Proof. intros H. unfold exec_or_fail. go_preserves. Qed.
Lemma framed_quietly path args : preserves framed (exec_prog path args) -> preserves framed (exec_quiet path args).
Proof. intros H. unfold exec_quiet. by apply preserves_ignore. Qed.

Abbreviation tap := (tapName sha256 n).
Lemma link_tap : s_link (mine n w0) tap.
Proof. by right. Qed.
Lemma link_br : s_link (mine n w0) bridgeName.
Proof. by left. Qed.
Lemma framed_ip args : within (exec_scope "/sbin/ip" args) (mine n w0) -> preserves framed (runIP args).
Proof. intros H. by apply framed_or_fail, framed_exec. Qed.
Lemma framed_masquerade b : preserves framed (ensureMasquerade b).
Proof. unfold ensureMasquerade. go_preserves; [apply framed_iptables|apply framed_or_fail, framed_iptables]. Qed.
Lemma framed_add_rule t ch b : preserves framed (addIptablesRule t ch b).
Proof. unfold addIptablesRule. go_preserves; [apply framed_iptables|apply framed_or_fail, framed_iptables]. Qed.
Lemma framed_ports ip ports : preserves framed (applyPortMappings n ip ports).
Proof.
  unfold applyPortMappings. apply preserves_for_each. intros p _. unfold apply_mapping. go_preserves; apply framed_add_rule.
Qed.
Lemma framed_teardown_ports : preserves framed (teardownPortMappings n).
Proof.
  unfold teardownPortMappings. apply preserves_for_each. intros c _. unfold teardown_chain, findRulesWithComment. go_preserves; [apply framed_iptables|].
  apply preserves_for_each. intros r _. apply framed_quietly, framed_iptables.
Qed.
Lemma framed_bridge : preserves framed (ensureBridge bridgeName).
Proof.
  unfold ensureBridge, add_bridge. go_preserves; [apply framed_quiet, stat_quiet|..|apply framed_masquerade].
  all: apply framed_ip; cbn [exec_scope]; first [exact within_nothing|apply within_link, link_br].
Qed.
Lemma framed_teardownTAP : preserves framed (teardownTAP tap).
Proof. unfold teardownTAP. go_preserves. apply framed_ip, within_link, link_tap. Qed.
Lemma framed_setupTAP : preserves framed (setupTAP tap).
Proof.
  pose proof framed_teardownTAP. unfold setupTAP, add_tap, attach_tap, tuntap_add, set_master. go_preserves; try done; [apply framed_bridge|..].
  all: apply framed_ip, within_link, link_tap.
Qed.

(** *** Images and drives *)

Lemma framed_each {A} (l : list A) (f : A -> prog D unit) : (forall a, preserves framed (f a)) -> preserves framed (for_each l f).
Proof. intros H. apply preserves_for_each. intros a _. apply H. Qed.
Lemma framed_unpack FromString img dst : under (vm_dir n) dst -> preserves framed (unpackImageRootfs FromString img dst).
Proof.
  intros Hd. unfold unpackImageRootfs. go_preserves; try (apply framed_quiet; first [apply rootfs_quiet|apply snap_quiet|apply view_quiet]).
  apply preserves_finally; [|apply preserves_ignore, framed_quiet, snap_quiet].
  apply (preserves_bind_post _ (fun dir => forall m p, under (vm_dir m) p -> ~ under dir p)).
  - apply framed_quiet. intros d. apply temp_law.
  - intros d dir d' E. pose proof (temp_law d) as [_ H]. rewrite E in H. by apply H.
  - intros dir Hdir. assert (within (a_file (under dir)) (mine n w0)) as Hw.
    { apply within_file. intros p Hp m _ _ Hm. by apply (Hdir m p). }
    apply preserves_finally; [|apply preserves_ignore; apply (framed_op _ _ Hw); [by intros i []|apply removeall_touches]].
    go_preserves.
    + apply framed_each. intros m. apply preserves_wrap_err, (framed_op _ _ Hw); [by intros i []|apply mnt_law].
    + apply preserves_finally; [apply preserves_wrap_err, framed_under with dst; [done|apply copy_law]|]. by apply framed_quietly, framed_exec.
Qed.
Lemma framed_ext4 dir out : under (vm_dir n) out -> preserves framed (makeExt4FromDir dir out).
Proof.
  intros Ho. unfold makeExt4FromDir. go_preserves; [apply framed_quiet, walk_quiet|apply framed_file with out; [done|apply write_touches]
    |apply framed_file with out; [done|apply truncate_law]|..].
  all: apply framed_exec, within_file; intros q Hq; apply file_mine; by eapply under_trans.
Qed.
Lemma framed_build FromString unmarshal img spec : preserves framed (build_payload FromString unmarshal img (vm_dir n) spec).
Proof.
  pose proof (in_vm_dir n "payload") as H1. pose proof (in_vm_dir n "payload.ext4") as H2. unfold build_payload, resolve_payload. go_preserves.
  all: first [by apply framed_unpack|by apply framed_ext4|apply framed_under with (vm_dir n +:+ "/payload"); [done|apply removeall_touches]
    |apply framed_quiet; first [apply mkdir_quiet|apply config_quiet|apply content_quiet]].
Qed.
Lemma framed_drives mounts drives : preserves framed (prepareVolumeDrives mounts drives).
Proof.
  unfold prepareVolumeDrives. generalize 0%nat 99%Z (@nil GuestVolumeMount). revert drives.
  induction mounts as [|m mounts IH]; intros drives i l out; cbn; go_preserves. apply framed_quiet, stat_quiet.
Qed.
Lemma framed_ready u timeout : preserves framed (waitForGuestReady u timeout).
Proof.
  intros d. unfold waitForGuestReady. generalize (vm_now d + timeout)%Z (@None error) (ready_fuel timeout). intros deadline e fuel. revert d e.
  induction fuel as [|fuel IH]; intros d e Hd; cbn; [done|]. destruct (vm_now d <? deadline)%Z; [|done].
  match goal with |- framed (?m d).2 => enough (preserves framed m) as Hm by by apply Hm end. unfold try_guest. go_preserves.
  all: first [by intros d1 H1; apply IH|apply framed_quiet; first [apply dial_quiet|apply ping_quiet|apply close_quiet|apply select_quiet]].
Qed.
End frame.

(** *** The handlers *)

Section handlers.
Context {D : Type} `{!Vmm D, !IptablesLaws D, !VmmLaws D}.
Context (sha256 : string -> string).
Abbreviation W := (VDriver D).
Abbreviation eff := (effect procs links vfiles payloads chain_rules).
Abbreviation op_touches := (touches procs links vfiles payloads chain_rules).

(** What a call for [n] leaves of the rest, seen from [w0]. *)
Definition isolated (n : string) (w0 w : W) : Prop :=
  eff (mine sha256 n w0) (vd_world w0) (vd_world w) /\ delete n (vd_vms w) = delete n (vd_vms w0).
Lemma isolated_refl n w : isolated n w w.
Proof. split; [apply effect_refl|done]. Qed.
Lemma isolated_trans n w0 w1 w2 : delete n (vd_vms w1) = delete n (vd_vms w0) -> (forall i, own n w1 i -> own n w0 i \/ procs (vd_world w0) !! i = None) ->
  isolated n w0 w1 -> isolated n w1 w2 -> isolated n w0 w2.
Proof.
  intros Hv Ho [H1 H2] [H3 H4]. split; [|congruence]. eapply effect_trans; [exact H1|]. eapply effect_within; [|exact H3].
  destruct H1 as (H1 & _). split_and!; cbn; [|done..]. intros i [Hi|Hi].
  - destruct (procs (vd_world w0) !! i) as [p|] eqn:E; [|by left]. right. destruct (vd_vms w0 !! n) as [s|] eqn:Es.
    + destruct (decide (vs_machine s = i)) as [<-|Hne]; [by exists s|]. exfalso. rewrite H1 in Hi; [congruence|].
      intros [Hc|(s' & Hs' & <-)]; [congruence|]. rewrite Es in Hs'. by injection Hs' as <-.
    + exfalso. rewrite H1 in Hi; [congruence|]. intros [Hc|(s' & Hs' & _)]; congruence.
  - destruct (Ho i Hi); [by right|by left].
Qed.

Context (n : string) (w0 : W) (Hn : plain n).
Abbreviation fr X := (framed (D:=D) sha256 n w0 X).
Definition good (X : nat -> Prop) (w : W) : Prop := fr X (vd_world w) /\ delete n (vd_vms w) = delete n (vd_vms w0).
Lemma good_isolated X w : good X w -> isolated n w0 w.
Proof. intros [[H1 _] H2]. by split. Qed.
Lemma good_mono (X Y : nat -> Prop) w : (forall i, X i -> Y i) -> good X w -> good Y w.
Proof. intros H [[H1 H2] H3]. split; [split; [done|]|done]. intros i p Hi Hu. destruct (H2 i p Hi Hu); [left; auto|by right]. Qed.

Lemma good_call {A} X (m : prog D A) : preserves (fr X) m -> preserves (good X) (vcall m).
Proof. intros H [d v c] [H1 H2]. unfold vcall, zoom. cbn in *. specialize (H d H1). by destruct (m d). Qed.
Lemma good_set X f : (forall v, delete n (f v) = delete n v) -> preserves (good X) (set_vms f).
Proof. intros H w [H1 H2]. split; [done|]. cbn. by rewrite H. Qed.
Lemma good_tracked X m : preserves (good X) (tracked m).
Proof. by intros w. Qed.
Lemma good_client X : preserves (good X) (containerd_client (D:=D)).
Proof.
  intros w Hw. unfold containerd_client. destruct (vd_ctrd w); [done|].
  pose proof (good_call X ctrd_New (framed_quiet sha256 n w0 X _ ctrd_quiet) w Hw) as H. by destruct (vcall ctrd_New w) as [[]].
Qed.
Lemma good_readSpecHash X dir : preserves (good X) (readSpecHash (D:=D) dir).
Proof. unfold readSpecHash. go_preserves. apply good_call, framed_quiet, read_quiet. Qed.
Lemma good_writeSpecHash X h : preserves (good X) (writeSpecHash (D:=D) (vm_dir n) h).
Proof. apply good_call, framed_file with (vm_dir n +:+ "/" +:+ specHashFile); [done|apply in_vm_dir|apply write_touches]. Qed.
Lemma good_validate X spec : preserves (good X) (validateSpec (D:=D) spec).
Proof. unfold validateSpec. go_preserves; apply good_call, framed_quiet, stat_quiet. Qed.
Lemma good_payload X FromString unmarshal spec : preserves (good X) (vm_payload (D:=D) FromString unmarshal n spec).
Proof.
  unfold vm_payload, preparePayloadDisk, vm_find_image. pose proof (good_client X). go_preserves; try done.
  - apply good_call. go_preserves; apply framed_quiet; first [apply get_quiet|apply pull_quiet].
  - by apply good_call, framed_build.
Qed.
Lemma good_prepare X spec pd : preserves (good X) (vm_prepare (D:=D) sha256 n spec pd).
Proof.
  unfold vm_prepare. go_preserves; apply good_call.
  - by apply framed_setupTAP.
  - apply framed_file with (vm_dir n +:+ "/vsock.uds"); [done|apply in_vm_dir|apply remove_law].
  - apply framed_file with (vm_dir n +:+ "/api.sock"); [done|apply in_vm_dir|apply remove_law].
  - by apply framed_drives.
  - apply framed_file with (vm_dir n +:+ "/vm-serial.log"); [done|apply in_vm_dir|apply trunc_law].
Qed.

(** Stopping calls on a machine of ours. *)
Lemma framed_calms {A} X i (R : PState -> PState -> Prop) (m : prog D A) : s_proc (mine sha256 n w0) i -> (forall s s', R s s' -> calms s s') ->
  (forall d, eff (mkScope (eq i) none none none False) d (m d).2 /\ proc_step i R (procs d) (procs (m d).2)) -> preserves (fr X) m.
Proof.
  intros Hi HR Hm d [H1 H2]. destruct (Hm d) as [He Hp]. split; [eapply effect_trans; [exact H1|]; by eapply effect_within, He; apply within_proc|].
  intros j p Hj Hu. destruct (decide (j = i)) as [->|Hne].
  - unfold proc_step in Hp. destruct (procs d !! i) as [q|] eqn:Eq; [|congruence]. destruct Hp as (st & Hst & HRst).
    rewrite Hj in Hst. injection Hst as ->. by apply (H2 i q Eq), (HR _ _ HRst).
  - apply (H2 j p); [|done]. destruct He as [He _]. rewrite <- Hj. symmetry. apply He. cbn. congruence.
Qed.
Lemma framed_shutdown X i : s_proc (mine sha256 n w0) i -> preserves (fr X) (fc_Shutdown i).
Proof. intros Hi. eapply framed_calms; [done|by intros ??|apply shutdown_law]. Qed.
Lemma framed_stop X i : s_proc (mine sha256 n w0) i -> preserves (fr X) (fc_StopVMM i).
Proof. intros Hi. eapply framed_calms; [done|by intros ??|apply stop_law]. Qed.
Lemma framed_wait X i : s_proc (mine sha256 n w0) i -> preserves (fr X) (fc_Wait i).
Proof.
  intros Hi. eapply (framed_calms X i calms); [done|by intros ??|]. intros d. destruct (wait_law i d) as [H1 H2]. split; [done|].
  unfold proc_step in *. destruct (procs d !! i); [|done]. destruct H2 as (st & ? & ? & _). eauto.
Qed.
Lemma framed_cancel X i : s_proc (mine sha256 n w0) i -> preserves (fr X) (fc_cancel i).
Proof. intros Hi. eapply framed_calms; [done| |apply cancel_law]. by intros s s' [? _] ->. Qed.

(** Once its context is cancelled a machine is not up. *)
Definition down (i : nat) (w : W) : Prop := forall p, procs (vd_world w) !! i = Some p -> pr_state p <> PUp.
Lemma good_down X i w : good (fun j => X j \/ i = j) w -> down i w -> good X w.
Proof.
  intros [[H1 H2] H3] Hd. split; [split; [done|]|done]. intros j p Hj Hu. destruct (H2 j p Hj Hu) as [[HX| ->]|Ho]; [by left| |by right].
  by destruct (Hd p Hj).
Qed.
Lemma cancel_down i (w : W) : down i (vcall (fc_cancel i) w).2.
Proof.
  unfold down, vcall, zoom. destruct (cancel_law i (vd_world w)) as [_ Hp]. destruct (fc_cancel i (vd_world w)) as [r d]. cbn in *.
  intros p Hi. unfold proc_step in Hp. destruct (procs (vd_world w) !! i); [|congruence]. destruct Hp as (st & Hst & Hne & _).
  rewrite Hi in Hst. by injection Hst as ->.
Qed.

Lemma proc_step_config i R m m' : proc_step i R m m' -> pr_config <$> m' !! i = pr_config <$> m !! i.
Proof. unfold proc_step. destruct (m !! i); [intros (st & -> & _)|intros ->]; done. Qed.
Lemma down_step i R (w w' : W) : proc_step i R (procs (vd_world w)) (procs (vd_world w')) -> (forall s s', R s s' -> calms s s') -> down i w -> down i w'.
Proof.
  intros H HR Hd p Hp. unfold proc_step in H. destruct (procs (vd_world w) !! i) as [q|] eqn:E; [|congruence]. destruct H as (st & Hst & HRs).
  rewrite Hp in Hst. injection Hst as ->. intros Hu. by apply (Hd q E), (HR _ _ HRs).
Qed.
Lemma down_procs {A} i s (m : prog D A) (w : W) : op_touches s m -> (forall j, ~ s_proc s j) -> down i w -> down i (vcall m w).2.
Proof.
  intros Hm Hs Hd p. unfold vcall, zoom. pose proof (Hm (vd_world w)) as [H _]. destruct (m (vd_world w)) as [r d]. cbn in *. rewrite H by done. apply Hd.
Qed.
Lemma ip_touches args : op_touches (exec_scope "/sbin/ip" args) (runIP args).
Proof.
  intros d. unfold runIP, exec_or_fail, exec_prog, bind. pose proof (exec_law "/sbin/ip" args d) as H.
  destruct (exec_Command "/sbin/ip" args d) as [o d']. by destruct (o_err o).
Qed.
Lemma teardown_touches t : op_touches (a_link t) (teardownTAP t).
Proof. intros d. unfold teardownTAP, ignore. pose proof (ip_touches ["link"; "del"; t] d) as H. by destruct (runIP _ d). Qed.

Lemma good_halt X i : s_proc (mine sha256 n w0) i -> preserves (good X) (halt (D:=D) i (tapName sha256 n)).
Proof.
  intros Hi. unfold halt. go_preserves; apply good_call; first [by apply framed_shutdown|by apply framed_stop|by apply framed_cancel|by apply framed_teardownTAP].
Qed.
Lemma halt_Ok i t (w : W) : exists w', halt i t w = (Ok tt, w') /\ down i w'.
Proof.
  unfold halt, bind, ignore. destruct (vcall (fc_Shutdown i) w) as [? w1]. destruct (vcall (fc_StopVMM i) w1) as [? w2].
  pose proof (cancel_down i w2) as H. destruct (vcall (fc_cancel i) w2) as [? w3]. pose proof (down_procs i _ _ w3 (teardown_touches t) ltac:(by intros j []) H) as H'.
  destruct (vcall (teardownTAP t) w3) as [r4 w4] eqn:E. unfold teardownTAP, vcall, zoom, ignore in E. destruct (runIP _ _). injection E as <- <-. by eexists.
Qed.

(** *** Starting *)

Context (cfg : FcConfig) (Htap : fc_HostDevName cfg = tapName sha256 n) (Hfiles : forall p, cfg_file cfg p -> under (vm_dir n) p).

Lemma start_framed X i d (Hi : s_proc (mine sha256 n w0) i) : procs d !! i = Some (mkProc cfg PCreated) ->
  fr X d -> fr (fun j => X j \/ i = j) (fc_Start i d).2.
Proof.
  intros Hp [H1 H2]. pose proof (start_law i d) as H. destruct (fc_Start i d) as [r d']. destruct H as [He _]. cbn. split.
  - eapply effect_trans; [exact H1|]. eapply effect_within; [|exact He]. split_and!; cbn; [by intros j <-|done| |done|done].
    intros p (q & Hq & Hf). rewrite Hp in Hq. injection Hq as <-. by apply file_mine, Hfiles.
  - intros j p Hj Hu. destruct (decide (i = j)) as [<-|Hne]; [by left; right|]. destruct He as (He & _). rewrite He in Hj by (cbn; done).
    destruct (H2 j p Hj Hu); [by left; left|by right].
Qed.

Lemma fresh_mine X i (w : W) : good X w -> procs (vd_world w) !! i = None -> s_proc (mine sha256 n w0) i.
Proof.
  intros [[[H _] _] _] Hi. destruct (procs (vd_world w0) !! i) as [p|] eqn:E; [|by left]. right.
  destruct (vd_vms w0 !! n) as [s|] eqn:Es; [destruct (decide (vs_machine s = i)) as [<-|Hne]; [by exists s|]|].
  - exfalso. rewrite H in Hi; [congruence|]. intros [Hc|(s' & Hs' & <-)]; [congruence|]. rewrite Es in Hs'. by injection Hs' as <-.
  - exfalso. rewrite H in Hi; [congruence|]. intros [Hc|(s' & Hs' & _)]; congruence.
Qed.

Lemma good_new X (w : W) r w' : good X w -> vcall (fc_NewMachine cfg) w = (r, w') ->
  good X w' /\ links (vd_world w') = links (vd_world w) /\
  match r with
  | Ok i => s_proc (mine sha256 n w0) i /\ procs (vd_world w') !! i = Some (mkProc cfg PCreated) /\ procs (vd_world w) !! i = None
  | Err _ => True
  end.
Proof.
  intros Hw. unfold vcall, zoom. pose proof (new_law cfg (vd_world w)) as H. destruct (fc_NewMachine cfg (vd_world w)) as [r' d'].
  destruct H as (i & Hi & He & Hr). intros [= -> <-]. pose proof (fresh_mine X i w Hw Hi) as Hmine. destruct Hw as [[H1 H2] H3]. cbn.
  assert (match procs d' !! i with Some p => pr_state p = PCreated | None => True end) as Hst.
  { destruct r as [j|e]; [destruct Hr as [_ ->]; done|by rewrite Hr]. }
  split_and!; [split; [split|done]| |].
  - eapply effect_trans; [exact H1|]. eapply effect_within; [|exact He]. split_and!; cbn; [by intros j <-|done| |done|done].
    intros p Hf. by apply file_mine, Hfiles.
  - intros j p Hj Hu. cbn [vd_world] in Hj. destruct (decide (i = j)) as [<-|Hne]; [rewrite Hj in Hst; congruence|]. destruct He as (He & _).
    rewrite He in Hj by (cbn; done). by apply (H2 j p).
  - apply map_eq. intros l. destruct He as (_ & He & _). apply He. by intros [].
  - destruct r as [j|e]; [|done]. destruct Hr as [<- Hr]. done.
Qed.

Lemma start_machine_spec (w : W) r w' : good none w -> start_machine n cfg w = (r, w') ->
  match r with
  | Ok i => good (eq i) w' /\ links (vd_world w') = links (vd_world w) /\ procs (vd_world w') !! i = Some (mkProc cfg PUp) /\ s_proc (mine sha256 n w0) i /\
            procs (vd_world w) !! i = None
  | Err _ => good none w'
  end.
Proof.
  intros Hw. unfold start_machine. unfold bind at 1, catch at 1. destruct (vcall (fc_NewMachine cfg) w) as [m w1] eqn:E1.
  apply (good_new none) in E1 as (Hw1 & Hl1 & Hm); [|done]. rewrite Htap.
  assert (forall X u, good X u -> good X (vcall (teardownTAP (tapName sha256 n)) u).2) as Htd by (intros X u; by apply good_call, framed_teardownTAP).
  destruct m as [i|err].
  2: { unfold bind. specialize (Htd none w1 Hw1). destruct (vcall (teardownTAP _) w1) as [[[]|] w2]; by intros [= <- <-]. }
  destruct Hm as (Hi & Hp & Hf). unfold bind at 1, catch at 1. destruct (vcall (fc_Start i) w1) as [s w2] eqn:E2.
  assert (good (eq i) w2) as Hw2.
  { pose proof (start_framed none i (vd_world w1) Hi Hp (proj1 Hw1)) as H. unfold vcall, zoom in E2. destruct (fc_Start i (vd_world w1)) as [s' d'].
    injection E2 as <- <-. apply (good_mono (fun j => none j \/ i = j)); [by intros j [[]|<-]|]. split; [exact H|apply Hw1]. }
  destruct s as [[]|err].
  - intros [= <- <-]. unfold vcall, zoom in E2. pose proof (start_law i (vd_world w1)) as Hl. destruct (fc_Start i (vd_world w1)) as [s' d'].
    injection E2 as -> <-. destruct Hl as [He Hs]. split_and!; [done| | |done|done].
    + rewrite <- Hl1. apply map_eq. intros l. destruct He as (_ & He & _). apply He. by intros [].
    + unfold proc_step in Hs. cbn. rewrite Hp in Hs. destruct Hs as (st & -> & Hst). cbn. by rewrite Hst.
  - unfold bind at 1, ignore at 1. pose proof (good_call (eq i) _ (framed_cancel (eq i) i Hi) w2 Hw2) as Hw3. pose proof (cancel_down i w2) as Hd3.
    destruct (vcall (fc_cancel i) w2) as [c w3]. cbn [snd] in *. assert (good none w3) as Hg3.
    { apply (good_down none i); [|done]. apply (good_mono (eq i)); [by intros j <-; right|done]. }
    unfold bind. specialize (Htd none w3 Hg3). destruct (vcall (teardownTAP _) w3) as [[[]|] w4]; by intros [= <- <-].
Qed.

Lemma halted X i (w : W) e r w' : good (eq i) w -> s_proc (mine sha256 n w0) i ->
  (halt i (tapName sha256 n) ;;; fail (A:=X) e) w = (r, w') -> good none w' /\ exists e, r = Err e.
Proof.
  intros Hw Hi. unfold bind. pose proof (good_halt (eq i) i Hi w Hw) as H. destruct (halt_Ok i (tapName sha256 n) w) as (w1 & E & Hd).
  rewrite E in H |- *. intros [= <- <-]. split; [|by eexists]. apply (good_down none i); [|done]. apply (good_mono (eq i)); [by intros j <-; right|exact H].
Qed.

(** The state that calls to the guest and of files leave alone. *)
Definition core (d : D) : gmap nat Proc * gmap string Link * gmap string StartPayloadRequest := (procs d, links d, payloads d).
Lemma keeps_core {A} s (m : prog D A) : op_touches s m -> (forall i, ~ s_proc s i) -> (forall i, ~ s_link s i) -> (forall i, ~ s_uds s i) -> keeps core m.
Proof.
  intros Hm H1 H2 H3 d. destruct (Hm d) as (A1 & A2 & _ & A4 & _). unfold core. f_equal; [f_equal|]; apply map_eq; intros; auto.
Qed.
Lemma core_quiet {A} (m : prog D A) : op_touches nothing m -> keeps core m.
Proof. intros H. apply (keeps_core nothing); [done|by intros ? []..]. Qed.
Lemma core_iptables args : keeps core (exec_prog (D:=D) iptables args).
Proof.
  apply (keeps_core the_rules); [|by intros ? []..]. intros d. unfold exec_prog. pose proof (exec_law iptables args d) as H.
  by destruct (exec_Command iptables args d).
Qed.
Lemma core_ports name ip ports : keeps core (applyPortMappings (D:=D) name ip ports).
Proof.
  apply keeps_preserves. intros b. apply preserves_for_each. intros p _ d Hd.
  enough (keeps core (apply_mapping (D:=D) (portmapComment name) ip p)) as H by by rewrite H.
  assert (forall t ch body, keeps core (addIptablesRule (D:=D) t ch body)) as Ha.
  { intros t ch body. unfold addIptablesRule, exec_or_fail. go_keeps; apply core_iptables. }
  unfold apply_mapping. go_keeps; apply Ha.
Qed.
Lemma core_write p b : keeps core (vm_WriteFile p b).
Proof. apply (keeps_core (a_file (eq p))); [apply write_touches|by intros ? []..]. Qed.
Lemma core_try u : keeps core (try_guest (D:=D) u).
Proof. unfold try_guest. go_keeps; apply core_quiet; first [apply dial_quiet|apply ping_quiet|apply close_quiet]. Qed.
Lemma core_ready u t : keeps core (waitForGuestReady (D:=D) u t).
Proof.
  intros d. unfold waitForGuestReady. generalize (vm_now d + t)%Z (@None error) (ready_fuel t). intros deadline e fuel. revert d e.
  induction fuel as [|fuel IH]; intros d e; cbn; [done|]. destruct (vm_now d <? deadline)%Z; [|done].
  match goal with |- core (?m d).2 = _ => enough (keeps core m) as Hm by apply Hm end. pose proof (core_try u). go_keeps; try done.
  - apply core_quiet, select_quiet.
  - intros d1. apply IH.
Qed.
Lemma try_guest_Ok u (d : D) c d' : try_guest u d = (Ok (Ok c), d') -> conn_uds c = u.
Proof.
  unfold try_guest, bind, catch, ignore. destruct (vm_dial u guestVsockPort d) as [x d1] eqn:E. destruct x as [conn|]; [|done].
  destruct (ga_Ping conn d1) as [[]  d2]; [|by destruct (ga_Close conn d2)]. intros [= <- _]. eapply (dial_law u guestVsockPort d). by rewrite E.
Qed.
Lemma ready_Ok u t (d : D) c d' : waitForGuestReady u t d = (Ok c, d') -> conn_uds c = u.
Proof.
  unfold waitForGuestReady. generalize (vm_now d + t)%Z (@None error) (ready_fuel t). intros deadline e fuel. revert d e.
  induction fuel as [|fuel IH]; intros d e; cbn; [done|]. destruct (vm_now d <? deadline)%Z; [|done].
  intros (r & d1 & E1 & H)%bind_Ok_inv. destruct r as [conn|er]; [injection H as <- _; by eapply try_guest_Ok|].
  apply bind_Ok_inv in H as (s & d2 & _ & H). destruct s; [done|]. by eapply IH.
Qed.

Lemma vcall_core {A} (m : prog D A) (w : W) r w' : keeps core m -> vcall m w = (r, w') -> core (vd_world w') = core (vd_world w).
Proof. intros H E. unfold vcall, zoom in E. specialize (H (vd_world w)). destruct (m (vd_world w)) as [x d]. by injection E as _ <-. Qed.
Lemma vcall_run {A} (m : prog D A) (w : W) r w' : vcall m w = (r, w') -> exists d', m (vd_world w) = (r, d') /\ w' = mkVDriver d' (vd_vms w) (vd_ctrd w).
Proof. unfold vcall, zoom. destruct (m (vd_world w)) as [x d]. intros [= -> <-]. eauto. Qed.

Lemma start_payload_spec (w : W) i req r w' : fc_VsockPath cfg = uds_of n ->
  good (eq i) w -> s_proc (mine sha256 n w0) i -> start_payload i cfg req w = (r, w') ->
  match r with
  | Ok c => good (eq i) w' /\ procs (vd_world w') = procs (vd_world w) /\ links (vd_world w') = links (vd_world w) /\
            conn_uds c = uds_of n /\ payloads (vd_world w') !! uds_of n = Some req
  | Err _ => good none w'
  end.
Proof.
  intros Hu Hw Hi. unfold start_payload. rewrite Hu, Htap. unfold bind at 1, catch at 1.
  destruct (vcall (waitForGuestReady (uds_of n) guestReadyTimeout) w) as [c w1] eqn:E1.
  assert (good (eq i) w1) as Hw1 by (eapply preserves_run; [exact E1|by apply good_call, framed_ready|done]).
  pose proof (vcall_core _ _ _ _ (core_ready _ _) E1) as C1. destruct c as [conn|err].
  2: { intros H. apply halted in H as [H (e & ->)]; done. }
  assert (conn_uds conn = uds_of n) as Hc by (apply vcall_run in E1 as (d1 & E1 & _); by eapply ready_Ok).
  unfold bind at 1, catch at 1. destruct (vcall (ga_StartPayload conn req) w1) as [s w2] eqn:E2.
  apply vcall_run in E2 as (d2 & E2 & ->). pose proof (payload_law conn req (vd_world w1)) as [He Hp]. rewrite E2 in He, Hp. cbn [fst snd] in *.
  assert (good (eq i) (mkVDriver d2 (vd_vms w1) (vd_ctrd w1))) as Hw2.
  { destruct Hw1 as [H1 H2]. split; [|done]. cbn.
    pose proof (framed_op sha256 n w0 (eq i) _ (ga_StartPayload conn req) (within_uds sha256 n w0 _ Hc) ltac:(by intros j [])
      (fun d => proj1 (payload_law conn req d)) (vd_world w1) H1) as H. by rewrite E2 in H. }
  destruct s as [[]|err].
  - intros [= <- <-]. destruct He as (A1 & A2 & _). unfold core in C1. injection C1 as C1 C2 _. split_and!; [done| | |done|].
    + rewrite <- C1. apply map_eq. intros j. apply A1. by intros [].
    + rewrite <- C2. apply map_eq. intros j. apply A2. by intros [].
    + rewrite <- Hc. by apply Hp.
  - unfold bind at 1, ignore at 1. pose proof (good_call (eq i) _ (framed_quiet sha256 n w0 (eq i) _ (close_quiet conn)) _ Hw2) as Hw3.
    destruct (vcall (ga_Close conn) _) as [? w3]. intros H. apply halted in H as [H (e & ->)]; done.
Qed.
End handlers.

(** ** EnsureRunning *)

Section ensure.
Context {D : Type} `{!Vmm D, !IptablesLaws D, !VmmLaws D}.
Context (sha256 FromString : string -> string) (unmarshal : string -> result ImageConfig) (marshal : RuntimeSpec -> result string).
Abbreviation W := (VDriver D).
Abbreviation tap n := (tapName sha256 n).

Lemma runIP_Ok args (d : D) d' : runIP args d = (Ok tt, d') -> exists o, exec_Command "/sbin/ip" args d = (o, d') /\ o_err o = None.
Proof.
  unfold runIP, exec_or_fail, exec_prog, bind. destruct (exec_Command "/sbin/ip" args d) as [o d1]. destruct (o_err o) eqn:E; [done|].
  intros [= <-]. by exists o.
Qed.
Lemma set_master_Ok n (d : D) d' : set_master n d = (Ok tt, d') -> exists up, links d' !! n = Some (mkLink (Some bridgeName) up).
Proof. intros (o & E & Ho)%runIP_Ok. pose proof (master_law n bridgeName d) as H. rewrite E in H. by apply H. Qed.
Lemma attach_tap_Ok n (d : D) d' : attach_tap n d = (Ok tt, d') -> exists up, links d' !! n = Some (mkLink (Some bridgeName) up).
Proof.
  unfold attach_tap. intros (r & d1 & E & H)%bind_Ok_inv. unfold catch in E. destruct (set_master n d) as [r' d1'] eqn:Em. injection E as <- ->.
  destruct r' as [[]|e]; [injection H as <-; by eapply set_master_Ok|]. destruct (Contains _ _ || _); [|done].
  apply bind_Ok_inv in H as ([] & d2 & _ & H). apply bind_Ok_inv in H as ([] & d3 & _ & H). by eapply set_master_Ok.
Qed.
(** After a successful setup the TAP is there, up, and a port of the bridge. *)
Lemma setupTAP_Ok n (d : D) d' : setupTAP n d = (Ok tt, d') -> links d' !! n = Some (mkLink (Some bridgeName) true).
Proof.
  unfold setupTAP. intros ([] & d1 & _ & H)%bind_Ok_inv. apply bind_Ok_inv in H as ([] & d2 & _ & H).
  apply bind_Ok_inv in H as ([] & d3 & E3 & (o & E4 & Ho)%runIP_Ok). apply attach_tap_Ok in E3 as [up E3].
  pose proof (up_law n d3) as H. rewrite E4 in H. rewrite (H Ho), E3. done.
Qed.

Lemma core_drives mounts drives : keeps core (prepareVolumeDrives (D:=D) mounts drives).
Proof.
  unfold prepareVolumeDrives. generalize 0%nat 99%Z (@nil GuestVolumeMount). revert drives.
  induction mounts as [|m mounts IH]; intros drives i l out; cbn; go_keeps. apply core_quiet, stat_quiet.
Qed.
Lemma vms_call {A} (m : prog D A) : keeps vd_vms (vcall m).
Proof. intros w. unfold vcall, zoom. by destruct (m (vd_world w)). Qed.
Hint Resolve vms_call : keeps.
Lemma vms_client : keeps vd_vms (containerd_client (D:=D)).
Proof. intros w. unfold containerd_client. destruct (vd_ctrd w); [done|]. pose proof (vms_call ctrd_New w) as H. by destruct (vcall ctrd_New w) as [[]]. Qed.
Lemma vms_payload n spec : keeps vd_vms (vm_payload (D:=D) FromString unmarshal n spec).
Proof. pose proof vms_client. unfold vm_payload, preparePayloadDisk. go_keeps. Qed.
Lemma vms_prepare n spec pd : keeps vd_vms (vm_prepare (D:=D) sha256 n spec pd).
Proof. unfold vm_prepare. go_keeps. Qed.
Lemma vms_start n cfg : keeps vd_vms (start_machine (D:=D) n cfg).
Proof. unfold start_machine. go_keeps. Qed.
Lemma vms_start_payload i cfg req : keeps vd_vms (start_payload (D:=D) i cfg req).
Proof. unfold start_payload, halt. go_keeps. Qed.

Lemma vm_prepare_Ok n spec pd (w : W) dg w' : vm_prepare sha256 n spec pd w = (Ok dg, w') ->
  dg.1 = base_drives (rootfs_of spec) pd (image_mode spec) ++ (volume_drive <$> mv_mounts spec) /\
  links (vd_world w') !! tap n = Some (mkLink (Some bridgeName) true).
Proof.
  unfold vm_prepare. intros ([] & w1 & E1 & H)%bind_Ok_inv. unfold wrap_err in E1. destruct (vcall (setupTAP _) w) as [[[]|] w1'] eqn:E; [|done].
  injection E1 as ->. apply vcall_run in E as (d1 & E & ->). apply setupTAP_Ok in E.
  assert (forall p, keeps core (vm_Remove (D:=D) p)) as Hrm by (intros p; apply (keeps_core (a_file (eq p))); [apply remove_law|by intros ? []..]).
  apply bind_Ok_inv in H as ([] & w2 & E2 & H). assert (core (vd_world w2) = core d1) as C2.
  { unfold ignore in E2. destruct (vcall (vm_Remove _) _) as [? w2'] eqn:E3. injection E2 as ->. by apply vcall_core in E3. }
  apply bind_Ok_inv in H as ([] & w3 & E3 & H). assert (core (vd_world w3) = core d1) as C3.
  { unfold ignore in E3. destruct (vcall (vm_Remove _) w2) as [? w3'] eqn:E4. injection E3 as ->. apply vcall_core in E4; [congruence|done]. }
  apply bind_Ok_inv in H as (dg' & w4 & E4 & H). unfold wrap_err in E4. destruct (vcall (prepareVolumeDrives _ _) w3) as [[dg4|] w4'] eqn:E5; [|done].
  injection E4 as -> ->. pose proof (vcall_core _ _ _ _ (core_drives _ _) E5) as C4. apply vcall_run in E5 as (d4 & E5 & ->).
  destruct dg' as [drives guest]. unfold prepareVolumeDrives in E5. change 99%Z with (u8 99) in E5. apply volume_loop_Ok in E5 as (Hd & _ & _).
  apply bind_Ok_inv in H as ([] & w5 & E6 & H). injection H as <- <-. split; [exact Hd|].
  unfold wrap_err in E6. destruct (vcall (vm_OpenTrunc _) _) as [[[]|] w5'] eqn:E7; [|done]. injection E6 as ->.
  apply vcall_core in E7 as C5; [|apply (keeps_core (a_file (eq (vm_dir n +:+ "/vm-serial.log")))); [apply trunc_law|by intros ? []..]].
  assert (core (vd_world w5) = core d1) as C by congruence. unfold core in C. injection C as _ C _. by rewrite C.
Qed.

(** What runs under the name once it was created. *)
Definition vm_up (n : string) (spec : MicroVMSpec) (w : W) : Prop :=
  exists i conn drives payload,
    vd_vms w !! n = Some (mkVmState i (tap n) (guestIPFor sha256 n) conn) /\
    procs (vd_world w) !! i = Some (mkProc (vm_config sha256 n spec drives) PUp) /\
    drives = base_drives (rootfs_of spec) (payload_path payload) (image_mode spec) ++ (volume_drive <$> mv_mounts spec) /\
    links (vd_world w) !! tap n = Some (mkLink (Some bridgeName) true) /\
    match payload with
    | Some (_, pl) => image_mode spec = true /\ exists c guest, conn = Some c /\ conn_uds c = uds_of n /\
        payloads (vd_world w) !! uds_of n = Some (start_request pl guest)
    | None => image_mode spec = false /\ conn = None
    end.

Lemma vm_payload_Ok n spec (w : W) p w' : vm_payload FromString unmarshal n spec w = (Ok p, w') ->
  match p with Some _ => image_mode spec = true | None => image_mode spec = false end.
Proof.
  unfold vm_payload. destruct (image_mode spec); [|by intros [= <- _]]. intros (x & w1 & _ & H)%bind_Ok_inv. by injection H as <- _.
Qed.

Lemma config_files n spec drives p : cfg_file (vm_config sha256 n spec drives) p -> under (vm_dir n) p.
Proof. intros [->|[->| ->]]; apply in_vm_dir. Qed.

Lemma record_vm_spec n (w0 : W) X spec h s (w : W) r w' : plain n -> good sha256 n w0 X w -> record_vm sha256 n spec h s w = (r, w') ->
  r = Ok tt /\ good sha256 n w0 X w' /\ core (vd_world w') = core (vd_world w) /\ vd_vms w' = <[n := s]> (vd_vms w).
Proof.
  intros Hn Hw. unfold record_vm, ignore, bind. destruct (vcall (applyPortMappings _ _ _) w) as [x w1] eqn:E1.
  assert (good sha256 n w0 X w1) as G1 by (eapply preserves_run; [exact E1|by apply good_call, framed_ports|done]).
  pose proof (vms_call _ w : vd_vms (vcall (applyPortMappings n (guestIPFor sha256 n) (mv_ports spec)) w).2 = _) as V1. rewrite E1 in V1. cbn in V1.
  apply vcall_core in E1 as C1; [|apply core_ports].
  destruct (writeSpecHash (vm_dir n) h w1) as [y w2] eqn:E2.
  assert (good sha256 n w0 X w2) as G2 by (eapply preserves_run; [exact E2|by apply good_writeSpecHash|done]).
  pose proof (vms_call _ w1 : vd_vms (writeSpecHash (vm_dir n) h w1).2 = _) as V2. rewrite E2 in V2. cbn in V2.
  apply vcall_core in E2 as C2; [|apply core_write]. intros [= <- <-]. split_and!; [done| |cbn; congruence|cbn; congruence].
  destruct G2 as [G2 G3]. split; [done|]. cbn. rewrite <- G3. by rewrite delete_insert_eq.
Qed.

Lemma vm_create_spec n spec h (w : W) r w' : plain n -> vd_vms w !! n = None -> vm_create sha256 FromString unmarshal n spec h w = (r, w') ->
  match r with
  | Ok _ => vm_up n spec w' /\ exists s, good sha256 n w (eq (vs_machine s)) w' /\ procs (vd_world w) !! vs_machine s = None /\
              vd_vms w' = <[n := s]> (vd_vms w)
  | Err _ => good sha256 n w none w' /\ vd_vms w' = vd_vms w
  end.
Proof.
  intros Hn Hfree. assert (good sha256 n w none w) as G0.
  { split; [split; [apply effect_refl|]|done]. intros i p Hi Hu. right. by exists p. }
  unfold vm_create. unfold bind at 1, wrap_err at 1. destruct (vcall (vm_MkdirAll (vm_dir n)) w) as [x w1] eqn:E1.
  assert (good sha256 n w none w1) as G1 by (eapply preserves_run; [exact E1|by apply good_call, framed_quiet, mkdir_quiet|done]).
  pose proof (vms_call (vm_MkdirAll (vm_dir n)) w) as V1. rewrite E1 in V1. cbn in V1. destruct x as [[]|]; [|by intros [= <- <-]].
  unfold bind at 1. destruct (vm_payload FromString unmarshal n spec w1) as [x w2] eqn:E2.
  assert (good sha256 n w none w2) as G2 by (eapply preserves_run; [exact E2|by apply good_payload|done]).
  pose proof (vms_payload n spec w1) as V2. rewrite E2 in V2. cbn in V2. destruct x as [payload|]; [|intros [= <- <-]; split; [done|congruence]].
  apply vm_payload_Ok in E2. unfold bind at 1. destruct (vm_prepare sha256 n spec (payload_path payload) w2) as [x w3] eqn:E3.
  assert (good sha256 n w none w3) as G3 by (eapply preserves_run; [exact E3|by apply good_prepare|done]).
  pose proof (vms_prepare n spec (payload_path payload) w2) as V3. rewrite E3 in V3. cbn in V3. destruct x as [dg|]; [|intros [= <- <-]; split; [done|congruence]].
  apply vm_prepare_Ok in E3 as [Hd L3]. cbv zeta. set (cfg := vm_config sha256 n spec dg.1).
  assert (forall p, cfg_file cfg p -> under (vm_dir n) p) as Hf by apply config_files.
  unfold bind at 1. destruct (start_machine n cfg w3) as [x w4] eqn:E4. pose proof (vms_start n cfg w3) as V4. rewrite E4 in V4. cbn in V4.
  apply (start_machine_spec sha256 n w Hn cfg eq_refl Hf) in E4; [|done]. destruct x as [i|]; [|intros [= <- <-]; split; [done|congruence]].
  destruct E4 as (G4 & L4 & P4 & M4 & F4).
  assert (procs (vd_world w) !! i = None) as Hfresh.
  { destruct M4 as [M4|(s & Hs & _)]; [done|congruence]. }
  destruct payload as [[pd pl]|].
  - unfold bind at 1. unfold bind at 1. destruct (start_payload i cfg (start_request pl dg.2) w4) as [x w5] eqn:E5.
    pose proof (vms_start_payload i cfg (start_request pl dg.2) w4) as V5. rewrite E5 in V5. cbn in V5.
    apply (start_payload_spec sha256 n w cfg eq_refl) in E5; [|done..]. destruct x as [c|]; [|intros [= <- <-]; split; [done|congruence]].
    destruct E5 as (G5 & P5 & L5 & Hc & Y5). unfold ret. intros H.
    apply (record_vm_spec n w (eq i) spec h (mkVmState i (tap n) (guestIPFor sha256 n) (Some c)) w5) in H as (-> & G6 & C6 & V6); [|done..].
    unfold core in C6. injection C6 as P6 L6 Y6. split.
    + exists i, (Some c), dg.1, (Some (pd, pl)). split_and!; [by rewrite V6, lookup_insert_eq|by rewrite P6, P5|done|by rewrite L6, L5, L4|done|].
      exists c, dg.2. split_and!; [done..|by rewrite Y6].
    + exists (mkVmState i (tap n) (guestIPFor sha256 n) (Some c)). split_and!; [done..|rewrite V6; f_equal; congruence].
  - unfold bind at 1, ret. intros H.
    apply (record_vm_spec n w (eq i) spec h (mkVmState i (tap n) (guestIPFor sha256 n) None) w4) in H as (-> & G6 & C6 & V6); [|done..].
    unfold core in C6. injection C6 as P6 L6 Y6. split.
    + exists i, None, dg.1, None. split_and!; [by rewrite V6, lookup_insert_eq|by rewrite P6|done|by rewrite L6, L4|done..].
    + exists (mkVmState i (tap n) (guestIPFor sha256 n) None). split_and!; [done..|rewrite V6; f_equal; congruence].
Qed.

(** *** Remove *)

Lemma stop_machine_spec n (w0 w : W) s r w' : plain n -> good sha256 n w0 none w -> s_proc (mine sha256 n w0) (vs_machine s) ->
  (forall c, vs_guestConn s = Some c -> conn_uds c = uds_of n) -> stop_machine s w = (r, w') ->
  r = Ok tt /\ good sha256 n w0 none w' /\ vd_vms w' = vd_vms w /\ down (vs_machine s) w'.
Proof.
  intros Hn Hw Hi Hc. unfold stop_machine.
  set (guest := match vs_guestConn s with Some conn => _ | None => _ end). unfold bind at 1.
  assert (preserves (good sha256 n w0 none) guest) as Hg.
  { unfold guest. destruct (vs_guestConn s) as [c|] eqn:E; [|apply preserves_ret]. go_preserves; apply good_call.
    - apply (framed_op sha256 n w0 none _ _ (within_uds sha256 n w0 c (Hc c eq_refl))); [by intros j []|apply gstop_law].
    - apply framed_quiet, close_quiet. }
  assert (keeps vd_vms guest) as Hv by (unfold guest; destruct (vs_guestConn s); go_keeps).
  assert (forall u, exists u', guest u = (Ok tt, u')) as Hok.
  { intros u. unfold guest. destruct (vs_guestConn s); [|by eexists]. unfold bind, ignore. destruct (vcall _ u) as [? u1]. destruct (vcall _ u1) as [? u2]. by eexists. }
  destruct (Hok w) as [w1 E1]. rewrite E1. pose proof (preserves_run _ _ _ _ _ E1 Hg Hw) as G1. specialize (Hv w). rewrite E1 in Hv. cbn in Hv.
  unfold bind, ignore. destruct (vcall (fc_Shutdown _) w1) as [x2 w2] eqn:E2. pose proof (preserves_run _ _ _ _ _ E2 (good_call sha256 n w0 none _ (framed_shutdown sha256 n w0 none _ Hi)) G1) as G2.
  destruct (vcall (fc_StopVMM _) w2) as [x3 w3] eqn:E3. pose proof (preserves_run _ _ _ _ _ E3 (good_call sha256 n w0 none _ (framed_stop sha256 n w0 none _ Hi)) G2) as G3.
  destruct (vcall (fc_Wait _) w3) as [x4 w4] eqn:E4. pose proof (preserves_run _ _ _ _ _ E4 (good_call sha256 n w0 none _ (framed_wait sha256 n w0 none _ Hi)) G3) as G4.
  pose proof (cancel_down (vs_machine s) w4) as Hd.
  destruct (vcall (fc_cancel _) w4) as [x5 w5] eqn:E5. pose proof (preserves_run _ _ _ _ _ E5 (good_call sha256 n w0 none _ (framed_cancel sha256 n w0 none _ Hi)) G4) as G5.
  intros [= <- <-]. split_and!; [done..| |done].
  pose proof (vms_call (fc_Shutdown (vs_machine s)) w1) as V2. pose proof (vms_call (fc_StopVMM (vs_machine s)) w2) as V3.
  pose proof (vms_call (fc_Wait (vs_machine s)) w3) as V4. pose proof (vms_call (fc_cancel (vs_machine s)) w4) as V5.
  rewrite E2 in V2. rewrite E3 in V3. rewrite E4 in V4. rewrite E5 in V5. cbn in *. congruence.
Qed.
Lemma vcall_ignored {A} (m : prog D A) (w : W) : exists w', ignore (vcall m) w = (Ok tt, w') /\ vd_vms w' = vd_vms w /\ vcall m w = ((vcall m w).1, w').
Proof. unfold ignore. pose proof (vms_call m w). destruct (vcall m w) as [r w']. by exists w'. Qed.

Lemma each_Ok {A} (l : list A) (f : A -> prog D unit) : (forall a d, (f a d).1 = Ok tt) -> forall d, (for_each l f d).1 = Ok tt.
Proof.
  intros Hf. induction l as [|a l IH]; intros d; [done|]. cbn. unfold bind. specialize (Hf a d). destruct (f a d) as [r d1]. cbn in Hf. by subst r.
Qed.
Lemma teardown_ports_Ok n (d : D) : (teardownPortMappings n d).1 = Ok tt.
Proof.
  apply each_Ok. intros c d1. unfold teardown_chain, findRulesWithComment, bind, exec_prog. destruct (exec_Command _ _ d1) as [o d2].
  assert (forall rule d, (delete_rule c.1 c.2 rule d).1 = Ok tt) as Hd.
  { intros rule d3. unfold delete_rule, exec_quiet, ignore. by destruct (exec_prog _ _ d3). }
  destruct (o_err o); [done|]. cbn [ret]. by apply each_Ok.
Qed.
Lemma Vm_Remove_spec n (w : W) : plain n -> (forall s c, vd_vms w !! n = Some s -> vs_guestConn s = Some c -> conn_uds c = uds_of n) ->
  exists w', Vm_Remove sha256 n w = (Ok tt, w') /\ good sha256 n w none w' /\
    vd_vms w' = delete n (vd_vms w) /\ forall s, vd_vms w !! n = Some s -> down (vs_machine s) w'.
Proof.
  intros Hn Hc. assert (good sha256 n w none w) as G0.
  { split; [split; [apply effect_refl|]|done]. intros i p Hi Hu. right. by exists p. }
  unfold Vm_Remove, tracked. unfold bind at 1. unfold bind at 1. destruct (set_vms (delete n) w) as [x1 w1] eqn:E1.
  assert (good sha256 n w none w1) as G1 by (eapply preserves_run; [exact E1|apply good_set; intros v; apply delete_delete_eq|done]).
  unfold set_vms in E1. injection E1 as <- <-. set (w1 := mkVDriver _ _ _) in *. unfold bind at 1.
  destruct (vcall (teardownPortMappings n) w1) as [x2 w2] eqn:E2.
  assert (good sha256 n w none w2) as G2 by (eapply preserves_run; [exact E2|by apply good_call, framed_teardown_ports|done]).
  pose proof (vms_call (teardownPortMappings n) w1) as V2. rewrite E2 in V2. cbn [snd] in V2.
  assert (x2 = Ok tt) as -> by (apply vcall_run in E2 as (d2 & E2 & _); pose proof (teardown_ports_Ok n (vd_world w1)) as H; by rewrite E2 in H).
  set (stop := match vd_vms w !! n with Some s => stop_machine s | None => ret tt end).
  assert (exists w3, stop w2 = (Ok tt, w3) /\ good sha256 n w none w3 /\ vd_vms w3 = vd_vms w2 /\ forall s, vd_vms w !! n = Some s -> down (vs_machine s) w3)
    as (w3 & E3 & G3 & V3 & D3).
  { unfold stop. destruct (vd_vms w !! n) as [s|] eqn:Es; [|by exists w2]. destruct (stop_machine s w2) as [x3 w3] eqn:E3.
    apply (stop_machine_spec n w) in E3 as (-> & G3 & V3 & D3); [|done..|by right; exists s|by intros c; apply Hc]. exists w3. split_and!; [done..|]. by intros s' [= <-]. }
  unfold bind at 1. rewrite E3. unfold bind at 1. destruct (vcall (teardownTAP (tap n)) w3) as [x4 w4] eqn:E4.
  assert (good sha256 n w none w4) as G4 by (eapply preserves_run; [exact E4|by apply good_call, framed_teardownTAP|done]).
  assert (x4 = Ok tt) as -> by (apply vcall_run in E4 as (d4 & E4 & _); unfold teardownTAP, ignore in E4; destruct (runIP _ _); congruence).
  destruct (vcall_ignored (vm_RemoveAll (vm_dir n)) w4) as (w5 & E5 & V5 & E5'). exists w5. split; [exact E5|].
  pose proof (vms_call (teardownTAP (tap n)) w3) as V4. rewrite E4 in V4. cbn [snd] in V4. split; [|split].
  - eapply preserves_run; [exact E5'| |exact G4]. apply good_call, framed_under with (vm_dir n); [done|by left|apply removeall_touches].
  - rewrite V5, V4, V3, V2. done.
  - intros s Hs. specialize (D3 s Hs). apply (down_procs _ _ _ _ (teardown_touches (tap n)) ltac:(by intros j [])) in D3. rewrite E4 in D3. cbn [snd] in D3.
    apply (down_procs _ _ _ _ (removeall_touches (vm_dir n)) ltac:(by intros j [])) in D3. by rewrite E5' in D3.
Qed.

(** *** The driver's record of its machines

    A tracked VM has a machine of its own and, in image mode, a connection to
    its own guest; and nothing runs that is not tracked. *)
Definition consistent (w : W) : Prop :=
  (forall n s, vd_vms w !! n = Some s -> plain n /\ is_Some (procs (vd_world w) !! vs_machine s) /\
     forall c, vs_guestConn s = Some c -> conn_uds c = uds_of n) /\
  (forall n m s t, vd_vms w !! n = Some s -> vd_vms w !! m = Some t -> vs_machine s = vs_machine t -> n = m) /\
  (forall i p, procs (vd_world w) !! i = Some p -> pr_state p = PUp -> exists n s, vd_vms w !! n = Some s /\ vs_machine s = i).

Lemma vms_other n m (v v' : gmap string VmState) : m <> n -> delete n v' = delete n v -> v' !! m = v !! m.
Proof. intros Hm H. rewrite <- (lookup_delete_ne v' n m), <- (lookup_delete_ne v n m) by done. by rewrite H. Qed.
Lemma vm_others_same n X (w w' : W) m s : consistent w -> good sha256 n w X w' -> m <> n -> vd_vms w !! m = Some s ->
  vd_vms w' !! m = Some s /\ procs (vd_world w') !! vs_machine s = procs (vd_world w) !! vs_machine s.
Proof.
  intros (C1 & C2 & _) [[[H1 _] _] H3] Hm Hs. split; [by rewrite (vms_other n m (vd_vms w))|]. apply H1. intros [Hc|(t & Ht & He)].
  - destruct (C1 m s Hs) as (_ & [p Hp] & _). congruence.
  - by destruct (Hm (C2 m n s t Hs Ht (eq_sym He))).
Qed.
Lemma stray_tracked n X (w w' : W) i p : consistent w -> good sha256 n w X w' -> procs (vd_world w') !! i = Some p -> pr_state p = PUp ->
  X i \/ (exists m s, m <> n /\ vd_vms w' !! m = Some s /\ vs_machine s = i) \/ (exists s, vd_vms w !! n = Some s /\ vs_machine s = i).
Proof.
  intros HC Hg Hi Hu. pose proof Hg as [[_ H2] _]. destruct (H2 i p Hi Hu) as [HX|(p0 & Hp0 & Hu0)]; [by left|right].
  pose proof HC as (_ & _ & C3). destruct (C3 i p0 Hp0 Hu0) as (m & s & Hs & He). destruct (decide (m = n)) as [->|Hm]; [right; eauto|left].
  destruct (vm_others_same n X w w' m s HC Hg Hm Hs) as [Hs' _]. eauto.
Qed.

Lemma consistent_removed n (w w' : W) : consistent w -> good sha256 n w none w' -> vd_vms w' !! n = None ->
  (forall s, vd_vms w !! n = Some s -> down (vs_machine s) w') -> consistent w'.
Proof.
  intros HC Hg Hn Hd. pose proof HC as (C1 & C2 & _).
  assert (forall m s, vd_vms w' !! m = Some s -> m <> n /\ vd_vms w !! m = Some s) as Hback.
  { intros m s Hs. assert (m <> n) as Hm by congruence. split; [done|]. by rewrite <- (vms_other n m _ _ Hm (proj2 Hg)). }
  split_and!.
  - intros m s Hs. destruct (Hback m s Hs) as [Hm Hs']. destruct (C1 m s Hs') as (P1 & P2 & P3). split_and!; [done| |done].
    by rewrite (proj2 (vm_others_same n none w w' m s HC Hg Hm Hs')).
  - intros m k s t Hs Ht. destruct (Hback m s Hs), (Hback k t Ht). by apply C2.
  - intros i p Hi Hu. destruct (stray_tracked n none w w' i p HC Hg Hi Hu) as [[]|[(m & s & _ & ?)|(s & Hs & He)]]; [eauto|].
    exfalso. by apply (Hd s Hs p); [rewrite He|].
Qed.
Lemma consistent_created n s (w w' : W) : consistent w -> vd_vms w !! n = None -> good sha256 n w (eq (vs_machine s)) w' ->
  procs (vd_world w) !! vs_machine s = None -> vd_vms w' = <[n := s]> (vd_vms w) -> plain n -> is_Some (procs (vd_world w') !! vs_machine s) ->
  (forall c, vs_guestConn s = Some c -> conn_uds c = uds_of n) -> consistent w'.
Proof.
  intros HC Hfree Hg Hfresh Hv Hn Hp Hc. pose proof HC as (C1 & C2 & _). split_and!.
  - intros m t. rewrite Hv. intros [[<- <-]|[Hm Ht]]%lookup_insert_Some; [done|]. destruct (C1 m t Ht) as (P1 & P2 & P3). split_and!; [done| |done].
    by rewrite (proj2 (vm_others_same n _ w w' m t HC Hg (not_eq_sym Hm) Ht)).
  - assert (forall m t, vd_vms w !! m = Some t -> vs_machine t <> vs_machine s) as Hne.
    { intros m t Ht He. destruct (C1 m t Ht) as (_ & [p Hp'] & _). rewrite He in Hp'. congruence. }
    intros m k t u. rewrite Hv. intros [[<- <-]|[Hm Ht]]%lookup_insert_Some [[<- <-]|[Hk Hu]]%lookup_insert_Some He; [done| | |by eapply C2].
    + by destruct (Hne k u Hu).
    + by destruct (Hne m t Ht).
  - intros i p Hi Hu. destruct (stray_tracked n _ w w' i p HC Hg Hi Hu) as [<-|[(m & t & _ & ?)|(t & Ht & _)]]; [|eauto|congruence].
    exists n, s. by rewrite Hv, lookup_insert_eq.
Qed.

(** *** EnsureRunning *)

(** Only reads. *)
Definition vm_quiet (w w' : W) : Prop :=
  effect procs links vfiles payloads chain_rules nothing (vd_world w) (vd_world w') /\ vd_vms w' = vd_vms w.
Lemma vm_quiet_refl w : vm_quiet w w.
Proof. split; [apply effect_refl|done]. Qed.
Lemma vm_quiet_trans w1 w2 w3 : vm_quiet w1 w2 -> vm_quiet w2 w3 -> vm_quiet w1 w3.
Proof. intros [H1 H2] [H3 H4]. split; [by eapply effect_trans|congruence]. Qed.
Lemma vm_quiet_call {A} (m : prog D A) w0 : touches procs links vfiles payloads chain_rules nothing m -> preserves (vm_quiet w0) (vcall m).
Proof.
  intros H w Hw. eapply vm_quiet_trans; [exact Hw|]. split; [|apply vms_call]. unfold vcall, zoom. specialize (H (vd_world w)). by destruct (m (vd_world w)).
Qed.
Lemma consistent_quiet (w w' : W) : vm_quiet w w' -> consistent w -> consistent w'.
Proof.
  intros [(H & _) Hv] (C1 & C2 & C3). assert (forall i, procs (vd_world w') !! i = procs (vd_world w) !! i) as Hp by (intros i; apply H; by intros []).
  unfold consistent. rewrite Hv. split_and!; [|done|].
  - intros n s Hs. rewrite Hp. by apply C1.
  - intros i p. rewrite Hp. apply C3.
Qed.
Lemma quiet_isolated n (w w' : W) : vm_quiet w w' -> isolated sha256 n w w'.
Proof. intros [H1 H2]. split; [|by rewrite H2]. eapply effect_within; [apply within_nothing|exact H1]. Qed.
Lemma quiet_validate w0 spec : preserves (vm_quiet w0) (validateSpec spec).
Proof. unfold validateSpec. go_preserves; apply vm_quiet_call, stat_quiet. Qed.

(** What the driver reads as the hash of what runs is the desired one, or nothing. *)
Definition hash_kept (n h : string) (w : W) : Prop :=
  let path := vm_dir n +:+ "/" +:+ specHashFile in
  (exists b, vfiles (vd_world w) !! path = Some b /\ (TrimSpace b = h \/ TrimSpace b = "")) \/ exists w1 e, vm_quiet w w1 /\ (vcall (vm_ReadFile path) w1).1 = Err e.
Definition vm_kept (n h : string) (w w' : W) : Prop := vm_quiet w w' /\ is_Some (vd_vms w !! n) /\ hash_kept n h w.

Lemma vm_settle_spec n h (w : W) r w' : plain n -> consistent w -> vm_settle sha256 n h w = (r, w') ->
  (r = Ok true /\ vm_kept n h w w') \/ (r = Ok false /\ consistent w' /\ isolated sha256 n w w' /\ vd_vms w' !! n = None).
Proof.
  intros Hn HC. unfold vm_settle, tracked. unfold bind at 1. destruct (vd_vms w !! n) as [s|] eqn:Es.
  2: { intros [= <- <-]. right. split_and!; [done|done|apply isolated_refl|done]. }
  unfold bind at 1, readSpecHash. unfold bind at 1, catch. destruct (vcall (vm_ReadFile _) w) as [rh w1] eqn:E1.
  assert (vm_quiet w w1) as Q1 by (eapply preserves_run; [exact E1|apply vm_quiet_call, read_quiet|apply vm_quiet_refl]).
  set (hash := match rh with Ok b => TrimSpace b | Err _ => "" end).
  assert ((match rh with Ok b => ret (TrimSpace b) | Err _ => ret "" end) w1 = (Ok hash, w1)) as -> by (by unfold hash; destruct rh).
  destruct (String.eqb hash "" || String.eqb hash h) eqn:Eh.
  - intros [= <- <-]. left. split; [done|]. split; [done|]. split; [by eexists|]. destruct rh as [b|e].
    + left. exists b. split.
      * apply vcall_run in E1 as (d & E1 & _). apply (read_law _ (vd_world w)). by rewrite E1.
      * apply orb_true_iff in Eh as [Eh|Eh]; apply String.eqb_eq in Eh; unfold hash in Eh; auto.
    + right. exists w, e. split; [apply vm_quiet_refl|]. by rewrite E1.
  - unfold bind, wrap_err. pose proof (consistent_quiet _ _ Q1 HC) as HC1. destruct (Vm_Remove_spec n w1 Hn) as (w2 & E2 & G2 & V2 & D2).
    { intros t c Ht Hc. by apply (proj1 HC1 n t Ht). }
    rewrite E2. intros [= <- <-]. right. assert (vd_vms w2 !! n = None) as Hnone by (rewrite V2; apply lookup_delete_eq).
    split_and!; [done|by eapply consistent_removed| |done].
    apply (isolated_trans sha256 n w w1 w2); [by rewrite (proj2 Q1)| |by apply quiet_isolated|by eapply good_isolated].
    intros i (t & Ht & Hi). left. exists t. by rewrite <- (proj2 Q1).
Qed.

Lemma Vm_EnsureRunning_all wl (w : W) r w' : consistent w -> plain (wl_name wl) ->
  Vm_EnsureRunning sha256 FromString unmarshal marshal wl w = (r, w') ->
  consistent w' /\ isolated sha256 (wl_name wl) w w' /\
  (r = Ok tt -> exists spec h, wl_micro_vm wl = Some spec /\ SpecHash marshal sha256 wl = Ok h /\ (vm_kept (wl_name wl) h w w' \/ vm_up (wl_name wl) spec w')).
Proof.
  intros HC Hn. unfold Vm_EnsureRunning. set (n := wl_name wl) in *. destruct (wl_micro_vm wl) as [spec|].
  2: { intros [= <- <-]. split_and!; [done|apply isolated_refl|done]. }
  unfold bind at 1. destruct (validateSpec spec w) as [x w1] eqn:E1.
  assert (vm_quiet w w1) as Q1 by (eapply preserves_run; [exact E1|apply quiet_validate|apply vm_quiet_refl]). pose proof (consistent_quiet _ _ Q1 HC) as HC1.
  assert (forall w2 : W, isolated sha256 n w1 w2 -> isolated sha256 n w w2) as Htr.
  { intros w2. apply isolated_trans; [by rewrite (proj2 Q1)| |by apply quiet_isolated]. intros i (t & Ht & Hi). left. exists t. by rewrite <- (proj2 Q1). }
  destruct x as [[]|]; [|intros [= <- <-]; split_and!; [done|by apply quiet_isolated|done]].
  unfold bind at 1, lift. destruct (SpecHash marshal sha256 wl) as [h|]; [|intros [= <- <-]; split_and!; [done|by apply quiet_isolated|done]].
  unfold bind. destruct (vm_settle sha256 n h w1) as [x w2] eqn:E2. apply vm_settle_spec in E2 as [[-> K]|(-> & HC2 & I2 & Hfree)]; [| |done..].
  - intros [= <- <-]. destruct K as (Q2 & Hs & Hk). split_and!; [by eapply consistent_quiet|by apply Htr, quiet_isolated|]. intros _.
    exists spec, h. split_and!; [done..|]. left. split_and!; [by eapply vm_quiet_trans|by rewrite <- (proj2 Q1)|].
    destruct Hk as [(b & Hb & H)|(w3 & e & Q3 & H)]; [left; exists b|right; exists w3, e]; split; [|done| |done].
    + destruct Q1 as [(_ & _ & Hf & _) _]. rewrite <- Hf; [done|by intros []].
    + by eapply vm_quiet_trans.
  - intros E. apply vm_create_spec in E; [|done..].
    assert (forall X w3, good sha256 n w2 X w3 -> isolated sha256 n w w3) as Htr2.
    { intros X w3 G. apply Htr. apply (isolated_trans sha256 n w1 w2 w3); [apply I2| |done|by eapply good_isolated].
      intros i (t & Ht & _). congruence. }
    destruct r as [[]|e].
    + destruct E as (Hup & s & G & Hf & Hv). assert (consistent w') as HC'.
      { destruct Hup as (i & conn & drives & payload & Ht & Hp & _ & _ & Hy). rewrite Hv, lookup_insert_eq in Ht. injection Ht as ->.
        apply (consistent_created n _ w2 w' HC2 Hfree G Hf Hv Hn); cbn; [by eexists|]. intros c Hc.
        destruct payload as [[pd pl]|]; [|destruct Hy as [_ Hy]; congruence]. destruct Hy as (_ & c' & guest & Hc' & Hu & _). rewrite Hc in Hc'. by injection Hc' as <-. }
      split_and!; [done|by eapply Htr2|]. intros _. exists spec, h. split_and!; [done..|by right].
    + destruct E as (G & Hv). split_and!; [|by eapply Htr2|done]. apply (consistent_removed n w2 w' HC2 G); [by rewrite Hv|congruence].
Qed.


Lemma isolated_untouched n m (w w' : W) : consistent w -> isolated sha256 n w w' -> plain n -> plain m -> m <> n ->
  vd_vms w' !! m = vd_vms w !! m /\
  (forall s, vd_vms w !! m = Some s -> procs (vd_world w') !! vs_machine s = procs (vd_world w) !! vs_machine s) /\
  (forall p, under (vm_dir m) p -> vfiles (vd_world w') !! p = vfiles (vd_world w) !! p) /\
  payloads (vd_world w') !! uds_of m = payloads (vd_world w) !! uds_of m /\
  (tap m <> tap n -> links (vd_world w') !! tap m = links (vd_world w) !! tap m).
Proof.
  intros (C1 & C2 & _) [(H1 & H2 & H3 & H4 & _) Hv] Hn Hm Hne. split_and!.
  - by apply (vms_other n m).
  - intros s Hs. apply H1. intros [Hc|(t & Ht & He)]; [destruct (C1 m s Hs) as (_ & [p Hp] & _); congruence|].
    by destruct (Hne (C2 m n s t Hs Ht (eq_sym He))).
  - intros p Hp. apply H3. intros Hf. by apply (Hf m Hne Hm).
  - apply H4. intros Hu. apply Hne. symmetry. apply (under_same n m (uds_of n)); [done..|apply in_vm_dir|]. change (uds_of n = uds_of m) in Hu. rewrite Hu. apply in_vm_dir.
  - intros Ht. apply H2. by intros [Hb|Hb].
Qed.

(** C17: Whatever fails, [EnsureRunning] and [Remove] of one MicroVM leave every
    other one alone: the driver's record of it, its process, its files - its
    spec hash and logs among them -, what its guest runs, and its TAP unless
    the two names hash to the same one. *)
Theorem vm_isolation n m (w : W) wl : consistent w -> plain n -> plain m -> m <> n -> wl_name wl = n ->
  forall w', w' = (Vm_EnsureRunning sha256 FromString unmarshal marshal wl w).2 \/ w' = (Vm_Remove sha256 n w).2 ->
  vd_vms w' !! m = vd_vms w !! m /\
  (forall s, vd_vms w !! m = Some s -> procs (vd_world w') !! vs_machine s = procs (vd_world w) !! vs_machine s) /\
  (forall p, under (vm_dir m) p -> vfiles (vd_world w') !! p = vfiles (vd_world w) !! p) /\
  payloads (vd_world w') !! uds_of m = payloads (vd_world w) !! uds_of m /\
  (tap m <> tap n -> links (vd_world w') !! tap m = links (vd_world w) !! tap m).
Proof.
  intros HC Hn Hm Hne Hwl w' Hw'. apply (isolated_untouched n m w w' HC); [|done..]. destruct Hw' as [-> | ->].
  - destruct (Vm_EnsureRunning _ _ _ _ wl w) as [r w1] eqn:E. rewrite <- Hwl in Hn |- *. by apply (Vm_EnsureRunning_all wl w r w1).
  - destruct (Vm_Remove_spec n w Hn) as (w1 & E & G & _); [intros s c Hs Hc; by apply (proj1 HC n s Hs)|]. rewrite E. by eapply good_isolated.
Qed.

(** A client's calls. *)
Inductive VmOp := DoEnsure (wl : Workload) | DoRemove (name : string) | DoStatus (name : string) | DoExec (req : ExecRequest).
Definition vm_op (o : VmOp) (w : W) : W :=
  match o with
  | DoEnsure wl => (Vm_EnsureRunning sha256 FromString unmarshal marshal wl w).2
  | DoRemove n => (Vm_Remove sha256 n w).2
  | DoStatus n => (Vm_Status n w).2
  | DoExec q => (Vm_Exec q w).2
  end.
Definition op_plain (o : VmOp) : Prop := match o with DoEnsure wl => plain (wl_name wl) | DoRemove n => plain n | _ => True end.
Lemma vm_op_consistent o w : op_plain o -> consistent w -> consistent (vm_op o w).
Proof.
  intros Ho HC. destruct o as [wl|n|n|q]; cbn [vm_op op_plain] in *.
  - destruct (Vm_EnsureRunning _ _ _ _ wl w) as [r w1] eqn:E. by apply (Vm_EnsureRunning_all wl w r w1).
  - destruct (Vm_Remove_spec n w Ho) as (w1 & E & G & V & Dn); [intros s c Hs Hc; by apply (proj1 HC n s Hs)|]. rewrite E.
    eapply consistent_removed; [done..| |done]. cbn. by rewrite V, lookup_delete_eq.
  - done.
  - apply (consistent_quiet w); [|done]. assert (preserves (vm_quiet w) (Vm_Exec q)) as H; [|apply H, vm_quiet_refl].
    unfold Vm_Exec. go_preserves; [by intros w1|apply vm_quiet_call, gexec_quiet].
Qed.

(** C13: Whatever calls are made on a fresh driver, in whatever order and
    whatever fails in them, no MicroVM runs that the driver does not track, no
    two names share a machine, and every connection leads to the guest of its
    own VM. *)
Theorem vm_always_tracked ops (d : D) : (forall i p, procs d !! i = Some p -> pr_state p <> PUp) -> Forall op_plain ops ->
  let w := foldl (fun w o => vm_op o w) (mkVDriver d ∅ false) ops in
  (forall i p, procs (vd_world w) !! i = Some p -> pr_state p = PUp -> exists n s, vd_vms w !! n = Some s /\ vs_machine s = i) /\
  (forall n m s t, vd_vms w !! n = Some s -> vd_vms w !! m = Some t -> vs_machine s = vs_machine t -> n = m) /\
  (forall n s c, vd_vms w !! n = Some s -> vs_guestConn s = Some c -> conn_uds c = uds_of n).
Proof.
  intros Hd Hops w. assert (consistent w) as (C1 & C2 & C3); [|split_and!; [done..|]; intros n s c Hs Hc; by apply (C1 n s Hs)].
  unfold w. clear w. assert (consistent (mkVDriver d ∅ false)) as H0.
  { split_and!; [by intros|by intros|]. intros i p Hi Hu. by destruct (Hd i p Hi). }
  revert H0. generalize (mkVDriver d ∅ false). induction Hops as [|o ops Ho Hops IH]; intros w Hw; [done|]. cbn. by apply IH, vm_op_consistent.
Qed.
End ensure.
