(* ===== verification/VmLive.v ===== *)
(** * MicroVMs on a working host

    What [Remove] leaves when the commands it runs work, how long the wait for
    a guest lasts, and a reference host on which the driver runs. *)

From S2P Require Import Prelude GoStrings Exec Models Runtime Iptables VmSpec Vm.

Set Default Goal Selector "!".
Local Open Scope go_scope.

(** ** Waiting for the guest *)

(** A clock that goes forward, at least by the time slept. *)
Class VmmClock (D : Type) `{!Vmm D} := {
  dial_time u p d : (vm_now d <= vm_now (vm_dial u p d).2)%Z;
  ping_time c d : (vm_now d <= vm_now (ga_Ping c d).2)%Z;
  close_time c d : (vm_now d <= vm_now (ga_Close c d).2)%Z;
  select_time t d : let '(r, d') := vm_select t d in (vm_now d <= vm_now d')%Z /\ (r = Ok None -> vm_now d + t <= vm_now d')%Z;
  select_Ok t d : is_ok (vm_select t d).1 = true }.

Section wait.
Context {D : Type} `{!Vmm D, !VmmClock D}.

Lemma try_guest_time u (d : D) : exists r, (try_guest u d).1 = Ok r /\ (vm_now d <= vm_now (try_guest u d).2)%Z /\
  forall c, r = Ok c -> exists d1 d2, vm_dial u guestVsockPort d = (Ok c, d1) /\ ga_Ping c d1 = (Ok tt, d2).
Proof.
  unfold try_guest, bind, catch, ignore. pose proof (dial_time u guestVsockPort d) as H1. destruct (vm_dial u guestVsockPort d) as [x d1] eqn:E1.
  destruct x as [c|e]; [|by exists (Err e)]. pose proof (ping_time c d1) as H2. destruct (ga_Ping c d1) as [p d2] eqn:E2. cbn in *.
  destruct p as [[]|e].
  - exists (Ok c). split_and!; [done|cbn; lia|]. intros c' [= <-]. by exists d1, d2.
  - pose proof (close_time c d2) as H3. destruct (ga_Close c d2) as [? d3]. cbn in *. exists (Err e). split_and!; [done|lia|done].
Qed.

(** The outcomes of the wait. *)
Definition wait_outcome (deadline : Z) (u : string) (r : result positive) (d' : D) : Prop :=
  match r with
  | Ok c => exists d1 d2 d3, vm_dial u guestVsockPort d1 = (Ok c, d2) /\ ga_Ping c d2 = (Ok tt, d3)
  | Err e => (deadline <= vm_now d')%Z \/ exists d1, vm_select (50 * Millisecond) d1 = (Ok (Some e), d')
  end.
Lemma ready_loop_spec fuel deadline u : forall lastErr (d : D), (deadline - vm_now d < Z.of_nat fuel * (50 * Millisecond))%Z ->
  wait_outcome deadline u (ready_loop fuel deadline u lastErr d).1 (ready_loop fuel deadline u lastErr d).2.
Proof.
  induction fuel as [|fuel IH]; intros lastErr d Hf; cbn [ready_loop]; [left; cbn; lia|].
  destruct (Z.ltb_spec (vm_now d) deadline) as [Hlt|]; [|left; cbn; lia]. unfold bind.
  destruct (try_guest_time u d) as (r & E & Ht & Hc). destruct (try_guest u d) as [x d1]. cbn in E, Ht. subst x.
  destruct r as [c|e]; [destruct (Hc c eq_refl) as (d2 & d3 & ? & ?); cbn; eauto|].
  pose proof (select_time (50 * Millisecond) d1) as Hs. pose proof (select_Ok (50 * Millisecond) d1) as Hok.
  destruct (vm_select (50 * Millisecond) d1) as [s d2] eqn:Es. destruct s as [[ctxErr|]|]; [cbn; right; by exists d1| |done].
  apply IH. destruct Hs as [_ Hs]. specialize (Hs eq_refl). unfold Millisecond in *. lia.
Qed.

(** The wait for a guest's agent ends: with a connection that was dialled on
    the VM's own vsock and answered a ping, with the context's error once it is
    done, or with an error when the timeout has passed - however long the
    attempts take; the fuel of the loop is never used up. *)
Theorem guest_wait_ends u timeout (d : D) : (0 <= timeout)%Z ->
  wait_outcome (vm_now d + timeout) u (waitForGuestReady u timeout d).1 (waitForGuestReady u timeout d).2.
Proof.
  intros Ht. unfold waitForGuestReady. apply ready_loop_spec. unfold ready_fuel.
  pose proof (Z.mul_succ_div_gt timeout (50 * Millisecond) ltac:(unfold Millisecond; lia)).
  pose proof (Z.div_pos timeout (50 * Millisecond) Ht ltac:(unfold Millisecond; lia)). lia.
Qed.
End wait.

(** ** Removing on a working host *)

(** [StopVMM] makes a process end, [Wait] sees it ended, and a TAP that no
    living process holds can be deleted. *)
Class VmmLive (D : Type) `{!Vmm D, !IptablesLaws D, !VmmLaws D} := {
  live_shutdown i d : proc_step i (fun s s' => s <> PCreated -> s' <> PCreated) (procs d) (procs (fc_Shutdown i d).2);
  live_stop i d : proc_step i (fun s s' => s <> PCreated -> s' = PEnding \/ s' = PEnded) (procs d) (procs (fc_StopVMM i d).2);
  live_wait i d : proc_step i (fun s s' => s = PEnding \/ s = PEnded -> s' = PEnded) (procs d) (procs (fc_Wait i d).2);
  live_del n d : (forall i p, procs d !! i = Some p -> fc_HostDevName (pr_config p) = n -> pr_state p = PCreated \/ pr_state p = PEnded) ->
    is_Some (links d !! n) -> o_err (exec_Command "/sbin/ip" ["link"; "del"; n] d).1 = None;
  live_removeall p d : is_ok (vm_RemoveAll p d).1 = true }.

#[local] Instance own_dec {D} n (w : VDriver D) i : Decision (own n w i).
Proof.
  unfold own. destruct (vd_vms w !! n) as [s|]; [|right; by intros (? & ? & _)].
  destruct (decide (vs_machine s = i)); [left; by exists s|right; intros (? & [= <-] & ?); done].
Defined.

Section remove.
Context {D : Type} `{!Vmm D, !IptablesLaws D, !VmmLaws D, !VmmLive D, !IptablesLive D} (sha256 : string -> string).
Abbreviation W := (VDriver D).
Abbreviation tap n := (tapName sha256 n).
Abbreviation eff s := (effect procs links vfiles payloads chain_rules s).

(** What stopping a machine touches. *)
Definition stopping (i : nat) (u : string) : scope := mkScope (eq i) none none (eq u) False.
Lemma step_at {i R} {m m' : gmap nat Proc} {cfg st} : proc_step i R m m' -> m !! i = Some (mkProc cfg st) ->
  exists st', m' !! i = Some (mkProc cfg st') /\ R st st'.
Proof. unfold proc_step. by intros H E; rewrite E in H. Qed.
Lemma within_stopping i u : within (mkScope (eq i) none none none False) (stopping i u).
Proof. by split_and!. Qed.
Lemma vcall_world {A} (m : prog D A) (w : W) : vd_world (vcall m w).2 = (m (vd_world w)).2.
Proof. unfold vcall, zoom. by destruct (m (vd_world w)). Qed.
Lemma ignore_vcall {A B} (m : prog D A) (k : unit -> prog W B) (w : W) : bind (ignore (vcall m)) k w = k tt (vcall m w).2.
Proof. unfold bind, ignore. by destruct (vcall m w). Qed.

Lemma stop_machine_live n s (w : W) cfg st : (forall c, vs_guestConn s = Some c -> conn_uds c = uds_of n) ->
  procs (vd_world w) !! vs_machine s = Some (mkProc cfg st) -> st <> PCreated ->
  eff (stopping (vs_machine s) (uds_of n)) (vd_world w) (vd_world (stop_machine s w).2) /\
  procs (vd_world (stop_machine s w).2) !! vs_machine s = Some (mkProc cfg PEnded).
Proof.
  intros Hc Hp Hst. set (i := vs_machine s) in *. set (sc := stopping i (uds_of n)).
  assert (forall A (m : prog D A) (w1 : W), touches procs links vfiles payloads chain_rules (mkScope none none none (eq (uds_of n)) False) m ->
    eff sc (vd_world w) (vd_world w1) -> eff sc (vd_world w) (vd_world (vcall m w1).2) /\ procs (vd_world (vcall m w1).2) !! i = procs (vd_world w1) !! i) as Hquiet.
  { intros A m w1 Hm H1. rewrite vcall_world. split; [|apply Hm; by intros []]. eapply effect_trans; [exact H1|]. eapply effect_within, Hm. by split_and!. }
  unfold stop_machine. set (guest := match vs_guestConn s with Some c => _ | None => _ end).
  assert (eff sc (vd_world w) (vd_world (guest w).2) /\ procs (vd_world (guest w).2) !! i = Some (mkProc cfg st) /\ (guest w).1 = Ok tt) as (G1 & G2 & G3).
  { unfold guest. destruct (vs_guestConn s) as [c|] eqn:E; [|split_and!; [apply effect_refl|done..]]. rewrite ignore_vcall.
    destruct (Hquiet _ (ga_Stop c 5) w) as [A1 A2]; [rewrite <- (Hc c eq_refl); apply gstop_law|apply effect_refl|].
    destruct (Hquiet _ (ga_Close c) (vcall (ga_Stop c 5) w).2) as [B1 B2]; [|done|].
    { intros d. eapply effect_within; [|apply close_quiet]. by split_and!. }
    unfold ignore. destruct (vcall (ga_Close c) _) as [r w2]. cbn [snd fst] in *. split_and!; [done|congruence|done]. }
  destruct (guest w) as [x w1] eqn:Eg. cbn [fst snd] in *. subst x.
  set (w2 := (vcall (fc_Shutdown i) w1).2). set (w3 := (vcall (fc_StopVMM i) w2).2). set (w4 := (vcall (fc_Wait i) w3).2).
  match goal with |- context [vd_world (?m w).2] => assert (vd_world (m w).2 = (fc_cancel i (vd_world w4)).2) as -> end.
  { unfold bind at 1. rewrite Eg, !ignore_vcall. fold i. fold w2. fold w3. fold w4. rewrite <- vcall_world. unfold ignore. by destruct (vcall (fc_cancel i) w4). }
  assert (forall d d', eff sc (vd_world w) d -> eff (mkScope (eq i) none none none False) d d' -> eff sc (vd_world w) d') as Hext.
  { intros d d' H1 H2. eapply effect_trans; [exact H1|]. eapply effect_within; [apply within_stopping|exact H2]. }
  destruct (step_at (live_shutdown i (vd_world w1)) G2) as (s2 & P2 & R2). destruct (shutdown_law i (vd_world w1)) as [E2 _].
  rewrite <- (vcall_world (fc_Shutdown i) w1) in P2, E2. fold w2 in P2, E2.
  destruct (step_at (live_stop i (vd_world w2)) P2) as (s3 & P3 & R3). destruct (stop_law i (vd_world w2)) as [E3 _].
  rewrite <- (vcall_world (fc_StopVMM i) w2) in P3, E3. fold w3 in P3, E3.
  destruct (step_at (live_wait i (vd_world w3)) P3) as (s4 & P4 & R4). destruct (wait_law i (vd_world w3)) as [E4 _].
  rewrite <- (vcall_world (fc_Wait i) w3) in P4, E4. fold w4 in P4, E4.
  destruct (cancel_law i (vd_world w4)) as [E5 P5]. destruct (step_at P5 P4) as (s5 & P5' & _ & R5).
  split; [by eapply Hext, E5; eapply Hext, E4; eapply Hext, E3; eapply Hext, E2|]. rewrite P5'. by rewrite R5 by auto.
Qed.

Lemma stop_machine_total s (w : W) : exists w', stop_machine s w = (Ok tt, w') /\ vd_vms w' = vd_vms w.
Proof.
  assert (keeps vd_vms (stop_machine (D:=D) s)) as Hk.
  { assert (forall A (m : prog D A), keeps vd_vms (vcall m)) as Hv by (intros; apply vms_call). unfold stop_machine. go_keeps; apply Hv. }
  specialize (Hk w). assert ((stop_machine s w).1 = Ok tt) as E.
  { unfold stop_machine. unfold bind at 1. destruct (vs_guestConn s) as [c|]; [rewrite ignore_vcall; unfold ignore at 1; destruct (vcall (ga_Close c) _)|unfold ret].
    all: rewrite !ignore_vcall; unfold ignore; by destruct (vcall (fc_cancel _) _). }
  destruct (stop_machine s w) as [r w']. cbn in *. subst r. by exists w'.
Qed.
Lemma ports_touch n : touches procs links vfiles payloads chain_rules the_rules (teardownPortMappings n).
Proof.
  intros d. assert (preserves (eff the_rules d) (teardownPortMappings n)) as H; [|apply H, effect_refl].
  assert (forall args, preserves (eff the_rules d) (exec_prog iptables args)) as He.
  { intros args. apply (effect_preserves _ _ _ _ _ the_rules); [by split_and!|]. intros d1. unfold exec_prog. pose proof (exec_law iptables args d1) as Hl.
    by destruct (exec_Command iptables args d1). }
  unfold teardownPortMappings. apply preserves_for_each. intros c _. unfold teardown_chain, findRulesWithComment. go_preserves.
  apply preserves_for_each. intros r _. unfold delete_rule, exec_quiet. apply preserves_ignore, He.
Qed.
Lemma teardownTAP_gone t (d : D) : (forall i p, procs d !! i = Some p -> fc_HostDevName (pr_config p) = t -> pr_state p = PCreated \/ pr_state p = PEnded) ->
  links (teardownTAP t d).2 !! t = None /\ (teardownTAP t d).1 = Ok tt.
Proof.
  intros Hp. unfold teardownTAP, ignore, runIP, exec_or_fail, exec_prog, bind. pose proof (del_law t d) as H. pose proof (live_del t d Hp) as Hl.
  destruct (exec_Command "/sbin/ip" ["link"; "del"; t] d) as [o d']. cbn [fst] in Hl. destruct (o_err o) eqn:Eo; cbn; (split; [|reflexivity]).
  - rewrite H. destruct (links d !! t); [|done]. by specialize (Hl ltac:(by eexists)).
  - exact H.
Qed.

(** C15: On a working host [Remove] takes down all of a VM: it is not tracked,
    its process has ended - which is what lets its TAP, still open until then,
    be deleted -, its iptables rules are gone and those of others are as they
    were, and nothing is left under its state directory. *)
Theorem vm_Remove_releases n (w : W) : consistent w -> plain_name n -> plain n -> ipt_works (vd_world w) ->
  (forall k, k ∈ chains -> Forall (readable (portmapComment n) k.2) (chain_rules (vd_world w) k)) ->
  (forall i p, procs (vd_world w) !! i = Some p -> fc_HostDevName (pr_config p) = tap n ->
     own n w i \/ pr_state p = PCreated \/ pr_state p = PEnded) ->
  (forall s p, vd_vms w !! n = Some s -> procs (vd_world w) !! vs_machine s = Some p -> pr_state p <> PCreated) ->
  exists w', Vm_Remove sha256 n w = (Ok tt, w') /\ vd_vms w' !! n = None /\
    (forall s, vd_vms w !! n = Some s -> exists p, procs (vd_world w') !! vs_machine s = Some p /\ pr_state p = PEnded) /\
    links (vd_world w') !! tap n = None /\ (forall p, under (vm_dir n) p -> vfiles (vd_world w') !! p = None) /\
    forall k, chain_rules (vd_world w') k = if decide (k ∈ chains) then untagged (portmapComment n) (chain_rules (vd_world w) k) else chain_rules (vd_world w) k.
Proof.
  intros (C1 & _) Hpn Hn Hw Hr Htap Hst. unfold Vm_Remove, tracked. unfold bind at 1. unfold bind at 1, set_vms. set (w1 := mkVDriver _ _ _).
  destruct (teardown_chains n chains Hpn) with (d := vd_world w) as (d2 & E2 & _ & R2); [|by repeat constructor|done..|].
  { apply (bool_decide_unpack _). vm_compute. exact I. }
  pose proof (ports_touch n (vd_world w)) as F2. change (for_each chains _) with (teardownPortMappings (D:=D) n) in E2. rewrite E2 in F2. cbn [snd] in F2.
  unfold bind at 1. assert (vcall (teardownPortMappings n) w1 = (Ok tt, mkVDriver d2 (vd_vms w1) (vd_ctrd w))) as ->.
  { unfold vcall, zoom. change (vd_world w1) with (vd_world w). by rewrite E2. }
  set (w2 := mkVDriver d2 _ _). set (stop := match vd_vms w !! n with Some s => stop_machine s | None => ret tt end).
  assert (exists w3, stop w2 = (Ok tt, w3) /\ vd_vms w3 = delete n (vd_vms w) /\ chain_rules (vd_world w3) = chain_rules d2 /\
    (forall s, vd_vms w !! n = Some s -> exists p, procs (vd_world w3) !! vs_machine s = Some p /\ pr_state p = PEnded) /\
    (forall i, ~ own n w i -> procs (vd_world w3) !! i = procs (vd_world w) !! i)) as (w3 & E3 & V3 & R3 & P3 & O3).
  { unfold stop. destruct (vd_vms w !! n) as [s|] eqn:Es.
    2: { exists w2. split_and!; [done..|]. intros i _. apply F2. by intros []. }
    destruct (C1 n s Es) as (_ & [[cfg st] Hp] & Hc). assert (procs (vd_world w2) !! vs_machine s = Some (mkProc cfg st)) as Hp2.
    { rewrite <- Hp. apply F2. by intros []. }
    destruct (stop_machine_live n s w2 cfg st Hc Hp2 (Hst s _ eq_refl Hp)) as [(A1 & _ & _ & _ & A5) A6].
    destruct (stop_machine_total s w2) as (w3 & E3 & V3). rewrite E3 in A1, A5, A6 |- *. cbn [snd] in *. exists w3. split_and!; [done|done|apply A5; by intros []| |].
    - intros s' [= <-]. by exists (mkProc cfg PEnded).
    - intros i Hi. rewrite A1; [apply F2; by intros []|]. cbn. intros <-. apply Hi. by exists s. }
  unfold bind at 1. rewrite E3. unfold bind at 1. destruct (teardownTAP_gone (tap n) (vd_world w3)) as [L4 T4].
  { intros i p Hi Ht. destruct (decide (own n w i)) as [(s & Hs & <-)|Hno].
    - destruct (P3 s Hs) as (q & Hq & Hqs). right. congruence.
    - rewrite O3 in Hi by done. by destruct (Htap i p Hi Ht). }
  pose proof (teardown_touches (tap n) (vd_world w3)) as F4. pose proof (vcall_world (teardownTAP (tap n)) w3) as V4. pose proof (vms_call (teardownTAP (tap n)) w3) as V4'.
  assert ((vcall (teardownTAP (tap n)) w3).1 = Ok tt) as T4' by (unfold vcall, zoom; by destruct (teardownTAP _ _)).
  destruct (vcall (teardownTAP (tap n)) w3) as [x4 w4]. cbn [fst snd] in *. subst x4. rewrite <- V4 in L4, F4.
  destruct (removeall_law (vm_dir n) (vd_world w4)) as [F5 N5]. pose proof (live_removeall (vm_dir n) (vd_world w4)) as K5.
  pose proof (vcall_world (vm_RemoveAll (vm_dir n)) w4) as V5. pose proof (vms_call (vm_RemoveAll (vm_dir n)) w4) as V5'.
  unfold ignore. destruct (vcall (vm_RemoveAll (vm_dir n)) w4) as [x5 w5]. cbn [fst snd] in *. rewrite <- V5 in F5, N5.
  exists w5. split_and!; [done| | | | |].
  - rewrite V5', V4', V3. apply lookup_delete_eq.
  - intros s Hs. destruct (P3 s Hs) as (p & Hp & Hps). exists p. split; [|done]. rewrite <- Hp. destruct F5 as [F5 _], F4 as [F4 _]. rewrite F5, F4; [done|by intros []..].
  - destruct F5 as (_ & F5 & _). rewrite F5; [done|by intros []].
  - intros p Hp. apply N5; [|done]. by destruct (vm_RemoveAll _ _).1 as [[]|].
  - intros k. destruct F5 as (_ & _ & _ & _ & F5), F4 as (_ & _ & _ & _ & F4). rewrite F5, F4, R3 by (by intros []). apply R2.
Qed.
End remove.

(** ** A reference host

    Links, files and processes in tables, the reference iptables, and a guest
    that is ready when its machine is up; containerd holds one image. *)
Module RefHost.
Record host := mkHost {
  h_procs : gmap nat Proc; h_links : gmap string Link; h_files : gmap string string; h_payloads : gmap string StartPayloadRequest;
  h_ipt : RefIptables.machine; h_devs : list string; h_now : Z }.
Definition with_procs (m : gmap nat Proc) (h : host) : host := mkHost m (h_links h) (h_files h) (h_payloads h) (h_ipt h) (h_devs h) (h_now h).
Definition with_links (m : gmap string Link) (h : host) : host := mkHost (h_procs h) m (h_files h) (h_payloads h) (h_ipt h) (h_devs h) (h_now h).
Definition with_files (m : gmap string string) (h : host) : host := mkHost (h_procs h) (h_links h) m (h_payloads h) (h_ipt h) (h_devs h) (h_now h).
Definition with_payloads (m : gmap string StartPayloadRequest) (h : host) : host := mkHost (h_procs h) (h_links h) (h_files h) m (h_ipt h) (h_devs h) (h_now h).
Definition with_ipt (m : RefIptables.machine) (h : host) : host := mkHost (h_procs h) (h_links h) (h_files h) (h_payloads h) m (h_devs h) (h_now h).
Definition sleep (t : Z) (h : host) : host := mkHost (h_procs h) (h_links h) (h_files h) (h_payloads h) (h_ipt h) (h_devs h) (h_now h + Z.max 0 t).

Definition fine : Output := mkOutput "" "" None.
Definition bad (text : string) : Output := mkOutput "" text (Some (ExitError 1)).

(** A process that still holds the interface. *)
Definition holds (n : string) (p : Proc) : bool :=
  String.eqb (fc_HostDevName (pr_config p)) n && (bool_decide (pr_state p = PUp) || bool_decide (pr_state p = PEnding)).
Definition in_use (n : string) (h : host) : bool := existsb (fun kv => holds n kv.2) (map_to_list (h_procs h)).

Definition add_link (n : string) (h : host) : Output * host :=
  match h_links h !! n with
  | Some _ => (bad "ioctl(TUNSETIFF): Device or resource busy", h)
  | None => (fine, with_links (<[n := mkLink None false]> (h_links h)) h)
  end.
Definition on_link (n : string) (f : Link -> Link) (h : host) : Output * host :=
  match h_links h !! n with
  | Some l => (fine, with_links (<[n := f l]> (h_links h)) h)
  | None => (bad ("Cannot find device " +:+ n), h)
  end.
Definition del_link (n : string) (h : host) : Output * host :=
  match h_links h !! n with
  | Some _ => if in_use n h then (bad "Resource busy", h) else (fine, with_links (delete n (h_links h)) h)
  | None => (bad ("Cannot find device " +:+ n), h)
  end.
Definition ip (args : list string) (h : host) : Output * host :=
  match args with
  | [_; _; _; _; _; n] => if decide (args = ["tuntap"; "add"; "mode"; "tap"; "name"; n]) then add_link n h else (fine, h)
  | [_; _; n; _; b] => if decide (args = ["link"; "set"; n; "master"; b]) then on_link n (fun l => mkLink (Some b) (ln_up l)) h else (fine, h)
  | [_; _; n; _] => if decide (args = ["link"; "set"; n; "up"]) then on_link n (fun l => mkLink (ln_master l) true) h else (fine, h)
  | [_; _; n] => if decide (args = ["link"; "del"; n]) then del_link n h else (fine, h)
  | _ => (fine, h)
  end.
Definition exec : Commands host := fun path args h =>
  if String.eqb path iptables then let '(o, m) := RefIptables.exec path args (h_ipt h) in (o, with_ipt m h)
  else if String.eqb path "/sbin/ip" then ip args h
  else (fine, h).

Definition step (i : nat) (f : PState -> PState) (h : host) : host :=
  match h_procs h !! i with
  | Some p => with_procs (<[i := mkProc (pr_config p) (f (pr_state p))]> (h_procs h)) h
  | None => h
  end.
Definition end_it (s : PState) : PState := match s with PUp => PEnding | s => s end.
Definition over (s : PState) : bool := match s with PEnding | PEnded => true | _ => false end.
Definition new_machine (cfg : FcConfig) : prog host nat := fun h =>
  let i := fresh (dom (h_procs h)) in (Ok i, with_procs (<[i := mkProc cfg PCreated]> (h_procs h)) h).
Definition underb (dir p : string) : bool := String.eqb p dir || HasPrefix p (dir +:+ "/").
Lemma underb_spec dir p : underb dir p = true <-> under dir p.
Proof. unfold underb, under. by rewrite orb_true_iff, String.eqb_eq. Qed.
Definition kept (p : string) (kv : string * string) : Prop := underb p kv.1 = false.
#[export] Instance kept_dec p kv : Decision (kept p kv).
Proof. unfold kept. apply _. Defined.
Definition upd (f : host -> host) : prog host unit := fun h => (Ok tt, f h).
Definition uds_handle (u : string) : positive := encode u.
Definition handle_uds (c : positive) : string := default "" (decode c).
End RefHost.

Import RefHost.
#[local] Instance host_exec : Commands host := RefHost.exec.
#[local] Instance host_stats : Stats host := fun p h =>
  if decide (p ∈ h_devs h) then (Ok tt, h) else (Err (Sentinel OsNotExist), h).
#[local] Instance host_vmm : Vmm host := {|
  vmm_commands := host_exec; vmm_stats := host_stats;
  vm_MkdirAll p := ret tt;
  vm_Remove p := upd (fun h => with_files (delete p (h_files h)) h);
  vm_RemoveAll p := upd (fun h => with_files (filter (kept p) (h_files h)) h);
  vm_ReadFile p := fun h => match h_files h !! p with Some b => (Ok b, h) | None => (Err (Sentinel OsNotExist), h) end;
  vm_WriteFile p b := upd (fun h => with_files (<[p := b]> (h_files h)) h);
  vm_OpenTrunc p := upd (fun h => with_files (<[p := ""]> (h_files h)) h);
  vm_Truncate p z := ret tt;
  vm_WalkSizes p := ret [1000%Z];
  vm_MkdirTemp := ret "/tmp/capsule-vm-mnt-1";
  vm_copyTree src dst := ret tt;
  ctrd_New := ret tt;
  vm_GetImage r := if String.eqb r "app" then ret r else fail (Sentinel ErrdefsNotFound);
  vm_Pull r := fail (Errorf "no network");
  img_RootFS r := ret ["sha256:1"; "sha256:2"];
  img_Config r := ret "config";
  img_Content r := ret "{}";
  snap_Remove k := ret tt;
  snap_View k c := ret ["overlay"];
  mnt_Mount m d := ret tt;
  fc_NewMachine cfg := new_machine cfg;
  fc_Start i := fun h => match h_procs h !! i with
    | Some p => (Ok tt, with_procs (<[i := mkProc (pr_config p) PUp]> (h_procs h)) h) | None => (Err (Errorf "no machine"), h) end;
  fc_Shutdown i := ret tt;
  fc_StopVMM i := upd (step i end_it);
  fc_Wait i := fun h => match h_procs h !! i with
    | Some p => if over (pr_state p) then (Ok tt, step i (fun _ => PEnded) h) else (Err (Errorf "context deadline exceeded"), h)
    | None => (Err (Errorf "no machine"), h) end;
  fc_cancel i := upd (step i end_it);
  vm_dial u p := fun h =>
    if existsb (fun kv => String.eqb (fc_VsockPath (pr_config kv.2)) u && bool_decide (pr_state kv.2 = PUp)) (map_to_list (h_procs h))
    then (Ok (uds_handle u), sleep (300 * Millisecond) h) else (Err (Errorf "connection refused"), h);
  ga_Ping c := ret tt;
  ga_StartPayload c q := upd (fun h => with_payloads (<[handle_uds c := q]> (h_payloads h)) h);
  ga_Stop c t := upd (fun h => with_payloads (delete (handle_uds c) (h_payloads h)) h);
  ga_Close c := ret tt;
  ga_Exec c x t e := ret ([ExecStdout "ok"; ExecExit 0], Ok tt);
  vm_now := h_now;
  vm_select t := fun h => (Ok None, sleep t h) |}.

#[local] Program Instance host_iptables : IptablesLaws host := {|
  chain_rules h := RefIptables.rules (h_ipt h); parse_rule := RefIptables.parse; print_rule := RefIptables.print |}.
Next Obligation. intros body c. exact (parse_tag (IptablesLaws:=ref_iptables) body c). Qed.
Next Obligation. intros body c. exact (parse_tidy (IptablesLaws:=ref_iptables) body c). Qed.
Next Obligation. intros h ch r. exact (parse_back (IptablesLaws:=ref_iptables) (h_ipt h) ch r). Qed.
Next Obligation. intros r. exact (print_tidy (IptablesLaws:=ref_iptables) r). Qed.
Next Obligation. intros r. exact (print_line (IptablesLaws:=ref_iptables) r). Qed.
Next Obligation. intros h t ch r. exact (print_fits (IptablesLaws:=ref_iptables) (h_ipt h) t ch r). Qed.
Next Obligation.
  intros t ch body h. pose proof (law_check (IptablesLaws:=ref_iptables) t ch body (h_ipt h)) as H. unfold exec_Command, ref_commands in H.
  unfold exec_Command, host_exec, RefHost.exec. rewrite String.eqb_refl. by destruct (RefIptables.exec _ _ (h_ipt h)).
Qed.
Next Obligation.
  intros t ch body h. pose proof (law_append (IptablesLaws:=ref_iptables) t ch body (h_ipt h)) as H. unfold exec_Command, ref_commands in H.
  unfold exec_Command, host_exec, RefHost.exec. rewrite String.eqb_refl. by destruct (RefIptables.exec _ _ (h_ipt h)).
Qed.
Next Obligation.
  intros t ch body h. pose proof (law_delete (IptablesLaws:=ref_iptables) t ch body (h_ipt h)) as H. unfold exec_Command, ref_commands in H.
  unfold exec_Command, host_exec, RefHost.exec. rewrite String.eqb_refl. by destruct (RefIptables.exec _ _ (h_ipt h)).
Qed.
Next Obligation.
  intros t ch h. pose proof (law_list (IptablesLaws:=ref_iptables) t ch (h_ipt h)) as H. unfold exec_Command, ref_commands in H.
  unfold exec_Command, host_exec, RefHost.exec. rewrite String.eqb_refl. by destruct (RefIptables.exec _ _ (h_ipt h)).
Qed.

Abbreviation host_effect := (effect h_procs h_links h_files h_payloads (chain_rules (D:=host))).
Lemma host_same s h : host_effect s h h.
Proof. apply effect_refl. Qed.
Lemma host_file (P : string -> Prop) f h : (forall p, ~ P p -> f !! p = h_files h !! p) -> host_effect (a_file P) h (with_files f h).
Proof. intros H. split_and!; [done..|exact H|done|done]. Qed.
Lemma host_links n m h : (forall l, l <> n -> m !! l = h_links h !! l) -> host_effect (a_link n) h (with_links m h).
Proof. intros H. split_and!; [done| |done..]. intros l Hl. apply H. intros ->. by apply Hl. Qed.
Lemma host_step i f h : host_effect (mkScope (eq i) none none none False) h (step i f h) /\
  proc_step i (fun s s' => s' = f s) (h_procs h) (h_procs (step i f h)).
Proof.
  unfold step, proc_step. destruct (h_procs h !! i) as [p|] eqn:E; [|by split; [apply host_same|]]. split.
  - split_and!; [|done..]. intros j Hj. cbn. by rewrite lookup_insert_ne.
  - eexists. split; [cbn; by rewrite lookup_insert_eq|done].
Qed.
Lemma proc_step_impl i (R S : PState -> PState -> Prop) m m' : (forall s s', R s s' -> S s s') -> proc_step i R m m' -> proc_step i S m m'.
Proof. intros H. unfold proc_step. destruct (m !! i); [|done]. intros (st & ? & ?). eauto. Qed.
Lemma host_add n h : host_effect (a_link n) h (add_link n h).2.
Proof. unfold add_link. case_match; [apply host_same|]. apply host_links. intros x Hx. by rewrite lookup_insert_ne. Qed.
Lemma host_on n f h : host_effect (a_link n) h (on_link n f h).2.
Proof. unfold on_link. case_match; [|apply host_same]. apply host_links. intros x Hx. by rewrite lookup_insert_ne. Qed.
Lemma host_del n h : host_effect (a_link n) h (del_link n h).2.
Proof.
  unfold del_link. case_match; [|apply host_same]. case_match; [apply host_same|]. apply host_links. intros x Hx. by rewrite lookup_delete_ne.
Qed.
Lemma host_ip args h : host_effect (exec_scope "/sbin/ip" args) h (ip args h).2.
Proof.
  unfold ip. repeat case_match; try apply host_same.
  all: match goal with E : decide _ = left ?e |- _ => clear E; injection e; intros; subst end; first [apply host_add|apply host_on|apply host_del].
Qed.

Lemma host_command path args h : host_effect (exec_scope path args) h (exec_Command path args h).2.
Proof.
  unfold exec_Command, host_exec, RefHost.exec. destruct (String.eqb_spec path iptables) as [->|Hi].
  - destruct (RefIptables.exec _ _ _) as [o m]. change (exec_scope iptables args) with the_rules. by split_and!; [..|intros []].
  - destruct (String.eqb_spec path "/sbin/ip") as [->|]; [apply host_ip|apply host_same].
Qed.
Lemma host_quiet {A} (m : prog host A) : (forall h, exists t, (m h).2 = sleep t h \/ (m h).2 = h) -> touches h_procs h_links h_files h_payloads chain_rules nothing m.
Proof. intros H h. destruct (H h) as [t [-> | ->]]; by split_and!. Qed.
Lemma in_use_false n h : in_use n h = false <-> forall i p, h_procs h !! i = Some p -> holds n p = false.
Proof.
  unfold in_use. rewrite <- not_true_iff_false, existsb_exists. split.
  - intros H i p Hp. destruct (holds n p) eqn:E; [|done]. exfalso. apply H. exists (i, p). split; [|done]. apply list_elem_of_In. by apply elem_of_map_to_list.
  - intros H ([i p] & Hin & Hh). apply list_elem_of_In, elem_of_map_to_list in Hin. cbn in Hh. by rewrite (H i p Hin) in Hh.
Qed.

#[local] Program Instance host_laws : VmmLaws host := {|
  procs := h_procs; links := h_links; vfiles := h_files; payloads := h_payloads; conn_uds := handle_uds |}.
Next Obligation. intros p. apply host_quiet. intros h. exists 0%Z. right. cbn. unfold vm_Stat, host_stats. by destruct (decide _). Qed.
Next Obligation. intros p. apply host_quiet. intros h. exists 0%Z. by right. Qed.
Next Obligation. intros p. apply host_quiet. intros h. exists 0%Z. right. cbn. by destruct (h_files h !! p). Qed.
Next Obligation. intros p. apply host_quiet. intros h. exists 0%Z. by right. Qed.
Next Obligation. apply host_quiet. intros h. exists 0%Z. by right. Qed.
Next Obligation. intros r. apply host_quiet. intros h. exists 0%Z. right. cbn. by destruct (String.eqb r "app"). Qed.
Next Obligation. intros r. apply host_quiet. intros h. exists 0%Z. by right. Qed.
Next Obligation. intros r. apply host_quiet. intros h. exists 0%Z. by right. Qed.
Next Obligation. intros r. apply host_quiet. intros h. exists 0%Z. by right. Qed.
Next Obligation. intros r. apply host_quiet. intros h. exists 0%Z. by right. Qed.
Next Obligation. intros k. apply host_quiet. intros h. exists 0%Z. by right. Qed.
Next Obligation. intros k c. apply host_quiet. intros h. exists 0%Z. by right. Qed.
Next Obligation. intros u p. apply host_quiet. intros h. exists (300 * Millisecond)%Z. cbn. destruct (existsb _ _); [by left|by right]. Qed.
Next Obligation. intros c. apply host_quiet. intros h. exists 0%Z. by right. Qed.
Next Obligation. intros c. apply host_quiet. intros h. exists 0%Z. by right. Qed.
Next Obligation. intros c x t e. apply host_quiet. intros h. exists 0%Z. by right. Qed.
Next Obligation. intros t. apply host_quiet. intros h. exists t. by left. Qed.
Next Obligation.
  intros h. split; [apply host_same|]. cbn. intros dir [= <-] n p (r & -> & _)%under_split (r' & E & _)%under_split. by vm_compute in E.
Qed.
Next Obligation. intros p h. apply host_file. intros q Hq. by rewrite lookup_delete_ne by (intros ->; by apply Hq). Qed.
Next Obligation. intros p h. apply host_file. intros q Hq. by rewrite lookup_insert_ne by (intros ->; by apply Hq). Qed.
Next Obligation. intros p z h. apply host_same. Qed.
Next Obligation.
  intros p h. assert (forall q, filter (kept p) (h_files h) !! q = if underb p q then None else h_files h !! q) as Hf.
  { intros q. destruct (underb p q) eqn:E.
    - apply map_lookup_filter_None. right. intros b _ Hk. unfold kept in Hk. cbn in Hk. congruence.
    - destruct (h_files h !! q) as [b|] eqn:Eb; [by apply map_lookup_filter_Some|]. apply map_lookup_filter_None. by left. }
  cbn. split.
  - apply host_file. intros q Hq. rewrite Hf. destruct (underb p q) eqn:E; [|done]. by destruct Hq; apply underb_spec.
  - intros _ q Hq. cbn. by rewrite Hf, (proj2 (underb_spec p q) Hq).
Qed.
Next Obligation.
  intros p b h. cbn. split; [|intros _; apply lookup_insert_eq]. apply host_file. intros q Hq. by rewrite lookup_insert_ne by (intros ->; by apply Hq).
Qed.
Next Obligation. intros p h b. cbn. destruct (h_files h !! p); [|done]. cbn. congruence. Qed.
Next Obligation. intros src dst h. apply host_same. Qed.
Next Obligation. intros m dir h. apply host_same. Qed.
Next Obligation. intros path args h. apply host_command. Qed.
Next Obligation.
  intros n h. cbn. rewrite decide_True by done. unfold add_link. destruct (h_links h !! n); [done|]. cbn. intros _. apply lookup_insert_eq.
Qed.
Next Obligation.
  intros n b h. cbn. rewrite decide_True by done. unfold on_link. destruct (h_links h !! n) as [l|]; [|done]. cbn. intros _. exists (ln_up l). apply lookup_insert_eq.
Qed.
Next Obligation.
  intros n h. cbn. rewrite decide_True by done. unfold on_link. destruct (h_links h !! n) as [l|] eqn:E; [|done]. cbn. intros _. apply lookup_insert_eq.
Qed.
Next Obligation.
  intros n h. cbn. rewrite decide_True by done. unfold del_link. destruct (h_links h !! n) as [l|] eqn:E; [|done].
  destruct (in_use n h); [done|]. cbn. apply lookup_delete_eq.
Qed.
Next Obligation.
  intros cfg h. cbn. set (i := fresh (dom (h_procs h))). assert (h_procs h !! i = None) as Hi by apply not_elem_of_dom, is_fresh.
  exists i. split_and!; [done| |done|apply lookup_insert_eq]. split_and!; [|done..]. intros j Hj. cbn. by rewrite lookup_insert_ne.
Qed.
Next Obligation.
  intros i h. cbn. destruct (h_procs h !! i) as [p|] eqn:E.
  - split.
    + split_and!; [|done..]. intros j Hj. cbn. by rewrite lookup_insert_ne.
    + unfold proc_step. rewrite E. eexists. split; [cbn; apply lookup_insert_eq|done].
  - split; [apply host_same|]. unfold proc_step. by rewrite E.
Qed.
Next Obligation.
  intros i h. split; [apply host_same|]. unfold proc_step. cbn. destruct (h_procs h !! i) as [p|] eqn:E; [|done]. exists (pr_state p). split; [by destruct p|by intros H].
Qed.
Next Obligation.
  intros i h. destruct (host_step i end_it h) as [H1 H2]. split; [exact H1|]. eapply proc_step_impl, H2. intros s s' ->. by destruct s.
Qed.
Next Obligation.
  intros i h. cbn. unfold proc_step. destruct (h_procs h !! i) as [p|] eqn:E; [|by split; [apply host_same|]].
  destruct (over (pr_state p)); cbn.
  - destruct (host_step i (fun _ => PEnded) h) as [H1 H2]. split; [exact H1|]. unfold proc_step in H2. rewrite E in H2.
    destruct H2 as (st & H2 & ->). by exists PEnded.
  - split; [apply host_same|]. exists (pr_state p). split; [by destruct p|]. by split; [intros H|].
Qed.
Next Obligation.
  intros i h. destruct (host_step i end_it h) as [H1 H2]. split; [exact H1|]. eapply proc_step_impl, H2. intros s s' ->. by destruct s.
Qed.
Lemma handle_back u : handle_uds (uds_handle u) = u.
Proof. unfold handle_uds, uds_handle. by rewrite decode_encode. Qed.
Next Obligation. intros u p h c. cbn. destruct (existsb _ _); [|done]. cbn. intros [= <-]. apply handle_back. Qed.
Next Obligation.
  intros c q h. cbn. split; [|intros _; apply lookup_insert_eq]. split_and!; [done..| |done]. intros u Hu. cbn. by rewrite lookup_insert_ne.
Qed.
Next Obligation. intros c t h. cbn. split_and!; [done..| |done]. intros u Hu. cbn. by rewrite lookup_delete_ne. Qed.

#[local] Program Instance host_live : VmmLive host.
Next Obligation. intros i h. cbn. unfold proc_step. destruct (h_procs h !! i) as [p|]; [|done]. exists (pr_state p). by destruct p. Qed.
Next Obligation.
  intros i h. destruct (host_step i end_it h) as [_ H]. eapply proc_step_impl, H. intros s s' -> Hs. destruct s; cbn; tauto.
Qed.
Next Obligation.
  intros i h. cbn. unfold proc_step. destruct (h_procs h !! i) as [p|] eqn:E; [|done]. destruct (over (pr_state p)) eqn:Eo; cbn.
  - destruct (host_step i (fun _ => PEnded) h) as [_ H]. unfold proc_step in H. rewrite E in H. destruct H as (st & H & ->). by exists PEnded.
  - exists (pr_state p). split; [by destruct p|]. by intros [H|H]; rewrite H in Eo.
Qed.
Next Obligation.
  intros n h Hp [l Hl]. cbn. rewrite decide_True by done. unfold del_link. cbn in Hl. rewrite Hl.
  rewrite (proj2 (in_use_false n h)); [done|]. intros i p Hi. unfold holds.
  destruct (String.eqb_spec (fc_HostDevName (pr_config p)) n) as [E|]; [|done]. by destruct (Hp i p Hi E) as [-> | ->].
Qed.
Next Obligation. done. Qed.

#[local] Program Instance host_iptables_live : IptablesLive host := {| ipt_works := fun _ => True |}.
Next Obligation. done. Qed.
Next Obligation. intros t ch body h _ H. cbn. rewrite bool_decide_true by exact H. done. Qed.
Next Obligation. done. Qed.

#[local] Program Instance host_clock : VmmClock host.
Next Obligation. intros u p h. cbn. destruct (existsb _ _); cbn; unfold Millisecond; lia. Qed.
Next Obligation. intros c h. cbn. lia. Qed.
Next Obligation. intros c h. cbn. lia. Qed.
Next Obligation. intros t h. cbn. split; [lia|intros _; lia]. Qed.
Next Obligation. done. Qed.

(** A web VM from an image, with a volume and a port, beside a database VM. *)
Module VmDemo.
Definition sha256 (s : string) : string := match s with "db" => "DBDBDBDBDBDBDBDBDBDBDBDBDBDBDBDB" | _ => "0123456789abcdef0123456789abcdef" end.
Definition FromString (s : string) : string := "sha256:" +:+ s.
Definition unmarshal (raw : string) : result ImageConfig := Ok (mkImageConfig ["serve"] [] ["PATH=/bin"] "/srv").
Definition marshal (s : RuntimeSpec) : result string := Ok "spec".
Definition spec : MicroVMSpec := mkMicroVMSpec "app" [] [] ∅ "" "" 2 512 [mkVolumeMount "data" "/data" false] "" 0 [mkPortMapping 80 8080 ""].
Definition wl (name : string) : Workload := mkWorkload name WORKLOAD_KIND_MICRO_VM None (Some spec) None DESIRED_STATE_RUNNING.
Definition bare : host := mkHost ∅ {[bridgeName := mkLink None true]} ∅ ∅ (RefIptables.mkMachine ∅)
  ["/sys/class/net/br0"; "/dev/capsule/vol-data"; "/usr/share/capsule/vmlinux"] 0.
Definition fresh_driver : VDriver host := mkVDriver bare ∅ false.
Definition ensure (name : string) : VDriver host -> result unit * VDriver host := Vm_EnsureRunning sha256 FromString unmarshal marshal (wl name).
Definition with_db : VDriver host := (ensure "db" fresh_driver).2.
Definition with_web : VDriver host := (ensure "web" with_db).2.
End VmDemo.
Import VmDemo.

Lemma demo_fresh_consistent : consistent fresh_driver.
Proof. split_and!; intros; [simplify_map_eq..]. Qed.
Lemma demo_ensure_consistent name w : plain name -> consistent w -> consistent (ensure name w).2.
Proof. exact (vm_op_consistent sha256 FromString unmarshal marshal (DoEnsure (wl name)) w). Qed.
Lemma demo_db_consistent : consistent with_db.
Proof. apply demo_ensure_consistent; [by vm_compute|apply demo_fresh_consistent]. Qed.
Lemma demo_web_consistent : consistent with_web.
Proof. apply demo_ensure_consistent; [by vm_compute|apply demo_db_consistent]. Qed.


Lemma vm_isolation_witness : let w' := (Vm_Remove sha256 "web" with_web).2 in
  vd_vms w' !! "web" = None /\ is_Some (vd_vms w' !! "db") /\ vd_vms w' !! "db" = vd_vms with_web !! "db".
Proof.
  split; [by vm_compute|]. split; [eexists; by vm_compute|].
  apply (vm_isolation sha256 FromString unmarshal marshal "web" "db" with_web (wl "web") demo_web_consistent); [by vm_compute..|by right].
Defined.

Lemma vm_always_tracked_witness :
  let w := foldl (fun w o => vm_op sha256 FromString unmarshal marshal o w) fresh_driver
             [DoEnsure (wl "db"); DoEnsure (wl "web"); DoStatus "web"; DoEnsure (wl "web"); DoRemove "db"] in
  pr_state <$> procs (vd_world w) !! 0%nat = Some PEnded /\ pr_state <$> procs (vd_world w) !! 1%nat = Some PUp /\
  forall i p, procs (vd_world w) !! i = Some p -> pr_state p = PUp -> exists n s, vd_vms w !! n = Some s /\ vs_machine s = i.
Proof.
  split; [by vm_compute|]. split; [by vm_compute|].
  apply (vm_always_tracked sha256 FromString unmarshal marshal _ bare).
  - intros i p Hp. by vm_compute in Hp.
  - by repeat (constructor; [by vm_compute|]).
Defined.

Lemma guest_wait_ends_witness :
  is_ok (waitForGuestReady "/nowhere" (2 * Second) bare).1 = false /\
  wait_outcome (vm_now bare + 2 * Second) "/nowhere" (waitForGuestReady "/nowhere" (2 * Second) bare).1 (waitForGuestReady "/nowhere" (2 * Second) bare).2.
Proof. split; [vm_compute; reflexivity|]. apply (guest_wait_ends "/nowhere" (2 * Second) bare). discriminate. Defined.

Lemma demo_tap i p : procs (vd_world with_web) !! i = Some p -> fc_HostDevName (pr_config p) = tapName sha256 "web" ->
  own "web" with_web i.
Proof.
  intros Hi Hc. apply elem_of_map_to_list in Hi. vm_compute in Hi. apply list_elem_of_In in Hi. destruct Hi as [Hi|[Hi|[]]]; injection Hi as <- <-; [|by vm_compute in Hc].
  clear Hc. unfold own. eexists. vm_compute. split; reflexivity.
Qed.
Lemma demo_up s : vd_vms with_web !! "web" = Some s -> pr_state <$> procs (vd_world with_web) !! vs_machine s = Some PUp.
Proof. intros E. vm_compute in E. injection E as <-. by vm_compute. Qed.
Lemma demo_readable k : k ∈ chains -> Forall (readable (portmapComment "web") k.2) (chain_rules (vd_world with_web) k).
Proof.
  intros Hk. apply Forall_forall. intros r Hr. left. apply RefIptables.tidyb_spec. revert k Hk r Hr.
  apply (Forall_forall (fun k => forall r, r ∈ RefIptables.rules (h_ipt (vd_world with_web)) k -> RefIptables.tidyb r = true)).
  unfold chains. repeat (apply Forall_cons; split; [apply Forall_forall; apply (bool_decide_unpack _); vm_compute; exact I|]). by apply Forall_nil.
Qed.

Lemma vm_Remove_releases_witness :
  vd_vms with_web !! "web" <> None /\
  exists w', Vm_Remove sha256 "web" with_web = (Ok tt, w') /\ vd_vms w' !! "web" = None /\ links (vd_world w') !! tapName sha256 "web" = None.
Proof.
  split; [by vm_compute|].
  destruct (vm_Remove_releases sha256 "web" with_web demo_web_consistent) as (w' & E & V & _ & L & _).
  - by vm_compute.
  - by vm_compute.
  - exact I.
  - exact demo_readable.
  - intros i p Hi Hc. left. exact (demo_tap i p Hi Hc).
  - intros s p Hs Hp. pose proof (demo_up s Hs) as H. rewrite Hp in H. by injection H as ->.
  - exists w'. split; [exact E|]. by split.
Defined.
