(* ===== verification/Paths.v ===== *)
(** * Paths: package path/filepath on Unix

    [Clean], [Join], [Base], [Dir] and [Abs], with what the components that
    build paths from names rely on. *)

From S2P Require Import Prelude GoStrings.

Set Default Goal Selector "!".

(** Empty and "." elements go, ".." takes the last one away. *)
Definition clean_step (stack : list string) (c : string) : list string :=
  if String.eqb c "" || String.eqb c "." then stack
  else if String.eqb c ".." then tail stack
  else c :: stack.
Definition Clean_rooted (p : string) : string := "/" +:+ Join (rev (foldl clean_step [] (Split "/" p))) "/".
(** A relative path keeps the ".." it starts with. *)
Definition clean_rel_step (stack : list string) (c : string) : list string :=
  if String.eqb c "" || String.eqb c "." then stack
  else if String.eqb c ".." then
    match stack with
    | d :: rest => if String.eqb d ".." then c :: stack else rest
    | [] => [c]
    end
  else c :: stack.
Definition Clean (p : string) : string :=
  if HasPrefix p "/" then Clean_rooted p
  else match rev (foldl clean_rel_step [] (Split "/" p)) with [] => "." | l => Join l "/" end.

(** [filepath.Join(a, b)]: empty elements are ignored. *)
Definition JoinPath (a b : string) : string :=
  if String.eqb a "" then if String.eqb b "" then "" else Clean b
  else if String.eqb b "" then Clean a
  else Clean (a +:+ "/" +:+ b).
(** [filepath.Abs] in the working directory [cwd]. *)
Definition Abs (cwd p : string) : string := if HasPrefix p "/" then Clean p else JoinPath cwd p.

Fixpoint TrimRight (c : ascii) (s : string) : string :=
  match s with
  | "" => ""
  | String d t => match TrimRight c t with "" => if Ascii.eqb d c then "" else String d "" | t => String d t end
  end.
Fixpoint TrimLeft (c : ascii) (s : string) : string :=
  match s with "" => "" | String d t => if Ascii.eqb d c then TrimLeft c t else s end.

Definition Base (p : string) : string :=
  if String.eqb p "" then "."
  else match TrimRight "/" p with
       | "" => "/"
       | p => List.last (Split "/" p) ""
       end.
(** What is before the last slash, cleaned. *)
Definition Dir (p : string) : string :=
  Clean (Join (removelast (Split "/" p)) "/" +:+ match Split "/" p with [_] => "" | _ => "/" end).
Definition IsAbs (p : string) : bool := HasPrefix p "/".

(** ** Names that are path elements *)

Definition element (c : string) : Prop := c <> "" /\ c <> "." /\ c <> ".." /\ no_char "/" c = true.

(** An element, or the nothing between two slashes. *)
Definition name_or_empty (c : string) : Prop := c = "" \/ element c.
Abbreviation named := (filter (fun c : string => c <> "")).

Lemma clean_names l : Forall name_or_empty l -> forall stack, foldl clean_step stack l = rev (named l) ++ stack.
Proof.
  induction 1 as [|c l Hc Hl IH]; intros stack; [done|]. cbn [foldl]. rewrite filter_cons. unfold clean_step at 2. destruct Hc as [->|(H1 & H2 & H3 & _)].
  - rewrite decide_False by naive_solver. apply IH.
  - rewrite decide_True by done. apply String.eqb_neq in H1, H2, H3. rewrite H1, H2, H3. cbn [orb rev]. by rewrite IH, <- app_assoc.
Qed.
Lemma named_elements l : Forall element l -> named l = l.
Proof. induction 1 as [|c l (Hc & _) _ IH]; [done|]. by rewrite filter_cons, decide_True, IH. Qed.
Lemma names_no_slash l : Forall name_or_empty l -> Forall (fun s => no_char "/" s = true) l.
Proof. intros H. eapply Forall_impl; [exact H|]. by intros x [->|(_ & _ & _ & ?)]. Qed.
Lemma elements_names l : Forall element l -> Forall name_or_empty l.
Proof. intros H. eapply Forall_impl; [exact H|]. by right. Qed.
Lemma Split_slash p : Split "/" ("/" +:+ p) = "" :: Split "/" p.
Proof. done. Qed.
Lemma rooted p : HasPrefix ("/" +:+ p) "/" = true.
Proof. by destruct p. Qed.

(** A cleaned absolute path is its elements. *)
Definition path_of (l : list string) : string := "/" +:+ Join l "/".
Lemma Clean_names l : Forall name_or_empty l -> Clean (path_of l) = path_of (named l).
Proof.
  intros Hl. unfold Clean, path_of. rewrite rooted. unfold Clean_rooted. rewrite Split_slash. destruct l as [|c l]; [done|].
  rewrite Split_Join; [|done|by apply names_no_slash]. change (foldl clean_step [] ("" :: c :: l)) with (foldl clean_step [] (c :: l)).
  by rewrite clean_names, app_nil_r, rev_involutive.
Qed.
Lemma Clean_path_of l : Forall element l -> Clean (path_of l) = path_of l.
Proof. intros Hl. rewrite Clean_names by by apply elements_names. by rewrite named_elements. Qed.
Lemma Join_both l m : l <> [] -> m <> [] -> Join (l ++ m) "/" = Join l "/" +:+ "/" +:+ Join m "/".
Proof.
  intros Hl Hm. induction l as [|c l IH]; [done|]. destruct l as [|d l].
  - destruct m as [|e m]; [done|]. change ([c] ++ e :: m) with (c :: e :: m). by rewrite Join_cons.
  - change ((c :: d :: l) ++ m) with (c :: d :: (l ++ m)). rewrite !Join_cons. change (d :: l ++ m) with ((d :: l) ++ m). rewrite IH by done.
    by rewrite !app_assoc_str.
Qed.
Lemma JoinPath_names l m : Forall element l -> Forall name_or_empty m -> Join m "/" <> "" -> JoinPath (path_of l) (Join m "/") = path_of (l ++ named m).
Proof.
  intros Hl Hm Hj. unfold JoinPath. change (String.eqb (path_of l) "") with false. cbv iota. apply String.eqb_neq in Hj as Hj'. rewrite Hj'.
  assert (m <> []) as Hne by (by intros ->). destruct l as [|c l].
  - change (path_of [] +:+ "/" +:+ Join m "/") with ("/" +:+ "/" +:+ Join m "/"). unfold Clean. rewrite rooted. unfold Clean_rooted.
    rewrite !Split_slash. change (foldl clean_step [] ("" :: "" :: ?x)) with (foldl clean_step [] x).
    rewrite Split_Join; [|done|by apply names_no_slash]. by rewrite clean_names, app_nil_r, rev_involutive.
  - replace (path_of (c :: l) +:+ "/" +:+ Join m "/") with (path_of ((c :: l) ++ m)).
    + rewrite Clean_names by (apply Forall_app; split; [by apply elements_names|done]). by rewrite filter_app, (named_elements (c :: l)).
    + unfold path_of. rewrite Join_both by done. by rewrite app_assoc_str.
Qed.
Lemma Dir_path_of l c : Forall element l -> element c -> Dir (path_of (l ++ [c])) = path_of l.
Proof.
  intros Hl Hc. assert (Forall element (l ++ [c])) as Hlc by (apply Forall_app; split; [done|by constructor]).
  assert (Split "/" (path_of (l ++ [c])) = ("" :: l) ++ [c]) as E.
  { unfold path_of. rewrite Split_slash, Split_Join; [done|by destruct l|by apply names_no_slash, elements_names]. }
  unfold Dir. rewrite E, removelast_last. replace (match ("" :: l) ++ [c] with [_] => "" | _ => "/" end) with "/" by (by destruct l).
  destruct l as [|d l]; [done|]. rewrite Join_cons.
  replace (("" +:+ "/" +:+ Join (d :: l) "/") +:+ "/") with (path_of ((d :: l) ++ [""])).
  - rewrite Clean_names; [|apply Forall_app; split; [by apply elements_names|by constructor; [left|]]]. rewrite filter_app, (named_elements (d :: l)) by done.
    change (named [""]) with (@nil string). by rewrite app_nil_r.
  - unfold path_of. rewrite Join_both by done. done.
Qed.
(** A path below another starts with it and a slash. *)
Lemma path_below l m : l <> [] -> m <> [] -> HasPrefix (path_of (l ++ m)) (path_of l +:+ "/") = true.
Proof.
  intros Hl Hm. unfold path_of. rewrite Join_both by done. unfold HasPrefix. generalize (Join m "/"). intros t.
  replace ("/" +:+ Join l "/" +:+ "/" +:+ t) with ((("/" +:+ Join l "/") +:+ "/") +:+ t) by (by rewrite !app_assoc_str).
  generalize (("/" +:+ Join l "/") +:+ "/"). intros p. induction p as [|d p IH]; cbn; [by destruct t|]. by destruct (ascii_dec d d).
Qed.

(** No ".." appears across a slash. *)
Lemma Contains_slash a b : Contains (a +:+ "/" +:+ b) ".." = Contains a ".." || Contains b "..".
Proof.
  induction a as [|c a IH]; [done|]. change (String c a +:+ ?x) with (String c (a +:+ x)). cbn [Contains]. rewrite IH, orb_assoc. f_equal. f_equal.
  destruct a as [|d a]; cbn [String.prefix String.append]; destruct (ascii_dec "." c); [done..| |done]. destruct (ascii_dec "." d); [by destruct a|done].
Qed.
Lemma Contains_Join l : Forall (fun c => Contains c ".." = false) l -> Contains (Join l "/") ".." = false.
Proof.
  induction 1 as [|c l Hc Hl IH]; [done|]. destruct l as [|d l]; [done|]. by rewrite Join_cons, Contains_slash, Hc.
Qed.

Lemma last_char_Join l c : element c -> last_char (Join (l ++ [c]) "/") = last_char c.
Proof.
  intros (Hc & _). destruct l as [|d l]; [done|]. rewrite Join_both by done. change (Join [c] "/") with c. rewrite last_char_app by done.
  by apply last_char_app.
Qed.

Lemma last_char_nonempty s : s <> "" -> exists d, last_char s = Some d.
Proof.
  induction s as [|c s IH]; [done|]. intros _. destruct s as [|e s]; [by exists c|]. destruct (IH ltac:(done)) as [d Hd]. by exists d.
Qed.
Lemma Join_snoc_nonempty l c : element c -> Join (l ++ [c]) "/" <> "".
Proof.
  intros Hc E. pose proof (last_char_Join l c Hc) as H. rewrite E in H. destruct (last_char_nonempty c) as [d Hd]; [apply Hc|].
  by rewrite Hd in H.
Qed.

(** A path that ends in an element keeps it, whatever the directory is. *)
Lemma last_char_JoinPath dir c : element c -> last_char (JoinPath dir c) = last_char c.
Proof.
  intros Hc. pose proof Hc as (H0 & H1 & H2 & Hs). apply String.eqb_neq in H0 as E0, H1 as E1, H2 as E2.
  assert (forall st, clean_step st c = c :: st) as Hst by (intros st; unfold clean_step; by rewrite E0, E1, E2).
  assert (forall st, clean_rel_step st c = c :: st) as Hrel by (intros st; unfold clean_rel_step; by rewrite E0, E1, E2).
  assert (forall p l, Split "/" p = l ++ [c] -> last_char (Clean p) = last_char c) as H.
  { intros p l Hp. unfold Clean, Clean_rooted. rewrite Hp. destruct (HasPrefix p "/").
    - rewrite foldl_snoc, Hst. cbn [rev]. rewrite last_char_app by by apply Join_snoc_nonempty. by apply last_char_Join.
    - rewrite foldl_snoc, Hrel. cbn [rev]. destruct (rev (foldl clean_rel_step [] l) ++ [c]) as [|x y] eqn:E; [by apply app_nil in E as [_ ?]|]. rewrite <- E. by apply last_char_Join. }
  unfold JoinPath. rewrite E0. destruct (String.eqb_spec dir "").
  - apply (H c []). by apply Split_single.
  - apply (H _ (Split "/" dir)). change (dir +:+ "/" +:+ c) with (dir +:+ String "/" c). rewrite Split_app_both. f_equal. by apply Split_single.
Qed.
