(* ===== verification/Guest.v ===== *)
(** * The guest agent: cmd/capsule-guest

    Process 1 of a MicroVM: the early mounts, the OCI bundle of the payload,
    and the agent that starts, watches and stops it.  The kernel's calls and
    runc are an interface ([GuestOS]); the agent's fields are a record. *)

From S2P Require Import Prelude GoStrings Exec Models VmSpec Vm Paths.

Set Default Goal Selector "!".
Local Open Scope go_scope.

(** ** The environment *)

Record Mnt := mkMnt { m_source : string; m_target : string; m_fstype : string; m_flags : Z; m_data : string }.

Class GuestOS (D : Type) := {
  gos_commands :: Commands D;                 (* runc *)
  g_MkdirAll : string -> prog D unit;
  g_Stat : string -> prog D unit;
  g_Lstat : string -> prog D unit;
  g_Symlink : string -> string -> prog D unit;
  g_ReadFile : string -> prog D string;
  g_WriteFile : string -> string -> prog D unit;
  g_Remove : string -> prog D unit;
  g_OpenFile : string -> prog D unit;         (* O_CREATE, O_WRONLY, O_APPEND *)
  g_Open : string -> prog D unit;
  g_Create : string -> prog D unit;
  g_Write : string -> string -> prog D unit;  (* on the file just created *)
  g_Mount : Mnt -> prog D unit;
  g_Unmount : string -> Z -> prog D unit;
  g_Sync : prog D unit;
  g_Now : D -> Z;
  g_Sleep : Z -> D -> D }.

Definition MS_RDONLY : Z := 1.
Definition MS_NOSUID : Z := 2.
Definition MS_NODEV : Z := 4.
Definition MS_NOEXEC : Z := 8.
Definition MNT_DETACH : Z := 2.

(** ** Early mounts (main.go) *)

Section early.
Context {D : Type} `{!GuestOS D}.

Definition early_mounts : list (Mnt * bool) :=
  let strict := Z.lor MS_NOSUID (Z.lor MS_NODEV MS_NOEXEC) in
  [(mkMnt "proc" "/proc" "proc" strict "", true);
   (mkMnt "sysfs" "/sys" "sysfs" strict "", true);
   (mkMnt "devtmpfs" "/dev" "devtmpfs" MS_NOSUID "mode=0755", true);
   (mkMnt "tmpfs" "/run" "tmpfs" (Z.lor MS_NOSUID MS_NODEV) "mode=0755", true);
   (mkMnt "tmpfs" "/tmp" "tmpfs" (Z.lor MS_NOSUID MS_NODEV) "mode=1777", true);
   (mkMnt "devpts" "/dev/pts" "devpts" (Z.lor MS_NOSUID MS_NOEXEC) "ptmxmode=0666,mode=0620,gid=5", false);
   (mkMnt "cgroup2" "/sys/fs/cgroup" "cgroup2" strict "", false)].

Definition is_busy (e : error) : bool := bool_decide (e = Sentinel SysEBUSY).
Definition early_mount (mt : Mnt * bool) : prog D unit :=
  ignore (g_MkdirAll (m_target mt.1)) ;;;
  r <- catch (g_Mount mt.1) ;;
  match r with
  | Ok _ => ret tt
  | Err err =>
      if is_busy err then ret tt
      else if mt.2 then fail (Wrap ("mount " +:+ m_source mt.1 +:+ " -> " +:+ m_target mt.1 +:+ ": ") err "")
      else ret tt
  end.
Definition earlyMounts : prog D unit :=
  for_each early_mounts early_mount ;;;
  s <- catch (g_Lstat "/dev/ptmx") ;;
  match s with
  | Err e => if errors_Is e OsNotExist then ignore (g_Symlink "pts/ptmx" "/dev/ptmx") else ret tt
  | Ok _ => ret tt
  end.
End early.

(** ** The OCI bundle (ocibundle.go) *)

Record OciBind := mkBind { ob_Destination : string; ob_Type : string; ob_Source : string; ob_Options : list string }.
(** [rspec.Spec], what the code sets of it. *)
Record OciSpec := mkOciSpec {
  os_Version : string; os_Terminal : bool; os_UID : Z; os_GID : Z; os_Args : list string; os_Env : list string; os_Cwd : string;
  os_Capabilities : list string;       (* bounding, effective, permitted, ambient and inheritable *)
  os_NoNewPrivileges : bool; os_Rlimits : list (string * (Z * Z)); os_RootPath : string; os_RootReadonly : bool;
  os_Hostname : string; os_Mounts : list OciBind; os_Namespaces : list string;
  os_MaskedPaths : list string; os_ReadonlyPaths : list string }.

Record extraMount := mkExtra { em_src : string; em_dst : string; em_readOnly : bool }.

Definition defaultCaps : list string :=
  ["CAP_AUDIT_WRITE"; "CAP_CHOWN"; "CAP_DAC_OVERRIDE"; "CAP_FOWNER"; "CAP_FSETID"; "CAP_KILL"; "CAP_MKNOD"; "CAP_NET_BIND_SERVICE";
   "CAP_NET_RAW"; "CAP_SETFCAP"; "CAP_SETGID"; "CAP_SETPCAP"; "CAP_SETUID"; "CAP_SYS_CHROOT"].
Definition has_path (e : string) : bool := HasPrefix e "PATH=".
Definition ensurePath (env : list string) : list string :=
  if existsb has_path env then env else env ++ ["PATH=/usr/local/sbin:/usr/local/bin:/usr/sbin:/usr/bin:/sbin:/bin"].

Definition standard_mounts : list OciBind :=
  [mkBind "/proc" "proc" "proc" [];
   mkBind "/dev" "tmpfs" "tmpfs" ["nosuid"; "strictatime"; "mode=755"; "size=65536k"];
   mkBind "/dev/pts" "devpts" "devpts" ["nosuid"; "noexec"; "newinstance"; "ptmxmode=0666"; "mode=0620"; "gid=5"];
   mkBind "/dev/shm" "tmpfs" "shm" ["nosuid"; "noexec"; "nodev"; "mode=1777"; "size=65536k"];
   mkBind "/dev/mqueue" "mqueue" "mqueue" ["nosuid"; "noexec"; "nodev"];
   mkBind "/sys" "sysfs" "sysfs" ["nosuid"; "noexec"; "nodev"; "ro"]].
Definition bind_of (m : extraMount) : OciBind :=
  mkBind (em_dst m) "bind" (em_src m) (["rbind"; "rprivate"] ++ [if em_readOnly m then "ro" else "rw"]).
Definition oci_spec (command env : list string) (cwd : string) (extra : list extraMount) : OciSpec :=
  mkOciSpec "1.0.2-dev" false 0 0 command (ensurePath env) cwd defaultCaps true [("RLIMIT_NOFILE", (1048576, 1048576)%Z)]
    "/oci" false "payload" (standard_mounts ++ (bind_of <$> extra)) ["pid"; "ipc"; "uts"; "mount"]
    ["/proc/asound"; "/proc/acpi"; "/proc/kcore"; "/proc/keys"; "/proc/latency_stats"; "/proc/timer_list"; "/proc/timer_stats";
     "/proc/sched_debug"; "/sys/firmware"; "/proc/scsi"]
    ["/proc/bus"; "/proc/fs"; "/proc/irq"; "/proc/sys"; "/proc/sysrq-trigger"].

(** ** The agent (agent.go) *)

Inductive PayloadPhase := PAYLOAD_PHASE_UNSPECIFIED | PAYLOAD_PHASE_RUNNING | PAYLOAD_PHASE_EXITED | PAYLOAD_PHASE_FAILED.

Definition runcBinary : string := "/usr/bin/runc".
Definition containerID : string := "payload".
Definition bundleDir : string := "/run/capsule-guest/bundle".
Definition logPath : string := "/run/capsule-guest/payload.log".
Definition pidFile : string := "/run/capsule-guest/payload.pid".

(** What [runc state] prints, as far as it is used. *)
Record runcStateResult := mkRuncState { rs_Status : string; rs_ExitStatus : option Z }.

(** The agent over its machine; [ag_watchers] counts the goroutines that run [watchPayload]. *)
Record Agent (D : Type) := mkAgent {
  ag_os : D; ag_boot : Z; ag_phase : PayloadPhase; ag_exitCode : Z; ag_message : string; ag_logDone : bool;
  ag_started : bool; ag_watching : bool; ag_watchers : nat; ag_volumeMounts : list string }.
Arguments mkAgent {D}.
Arguments ag_os {D}.
Arguments ag_boot {D}.
Arguments ag_phase {D}.
Arguments ag_exitCode {D}.
Arguments ag_message {D}.
Arguments ag_logDone {D}.
Arguments ag_started {D}.
Arguments ag_watching {D}.
Arguments ag_watchers {D}.
Arguments ag_volumeMounts {D}.

Section agent.
Context {D : Type} `{!GuestOS D} (encode : OciSpec -> result string) (unmarshal : string -> result runcStateResult).
Abbreviation A := (Agent D).

Definition set_os (d : D) (a : A) : A :=
  mkAgent d (ag_boot a) (ag_phase a) (ag_exitCode a) (ag_message a) (ag_logDone a) (ag_started a) (ag_watching a) (ag_watchers a) (ag_volumeMounts a).
Definition os {B} : prog D B -> prog A B := zoom ag_os set_os.

Definition newAgent (d : D) : A :=
  let d := (ignore (g_MkdirAll bundleDir) (ignore (g_MkdirAll "/run/capsule-guest") d).2).2 in
  mkAgent d (g_Now d) PAYLOAD_PHASE_UNSPECIFIED 0 "" false false false 0 [].

(** *** runc *)

Definition runRuncQuiet (args : list string) : prog D unit := exec_quiet runcBinary args.
Definition runcState : prog D runcStateResult :=
  o <- exec_prog runcBinary ["state"; containerID] ;;
  match o_err o with
  | Some err => fail (Wrap "runc state: " err "")
  | None => lift (unmarshal (o_stdout o))
  end.
(** [fmt.Sscanf(s, "%d", &pid)], 0 when it does not scan. *)
Fixpoint take_digits (s : string) : string :=
  match s with String c s => if is_digit c then String c (take_digits s) else "" | EmptyString => "" end.
Fixpoint skip_blanks (s : string) : string :=
  match s with String c t => if is_space c && negb (Ascii.eqb c NL) then skip_blanks t else s | EmptyString => "" end.
Definition scan_d (s : string) : Z :=
  let s := skip_blanks s in
  let num := match s with String "-" t => String "-" (take_digits t) | String "+" t => take_digits t | _ => take_digits s end in
  default 0%Z (Atoi num).
Definition readPID : prog D Z :=
  b <- g_ReadFile pidFile ;;
  ret (scan_d b).

(** *** Ping and Status *)

Definition Ping (a : A) : string * Z := ("0.2.0-runc", (g_Now (ag_os a) - ag_boot a) / Second)%Z.
Definition Guest_Status (a : A) : PayloadPhase * Z * string := (ag_phase a, ag_exitCode a, ag_message a).

(** *** StartPayload *)

Definition writeOCIConfig (dir : string) (command env : list string) (cwd : string) (extra : list extraMount) : prog D unit :=
  g_MkdirAll dir ;;;
  g_Create (dir +:+ "/config.json") ;;;
  b <- lift (encode (oci_spec command env cwd extra)) ;;
  g_Write (dir +:+ "/config.json") b.

(** A mount point that is busy counts as mounted. *)
Definition mount_or_busy (m : Mnt) : prog D unit :=
  r <- catch (g_Mount m) ;;
  match r with
  | Err err => if is_busy err then ret tt else fail (Wrap ("mount " +:+ m_source m +:+ " -> " +:+ m_target m +:+ ": ") err "")
  | Ok _ => ret tt
  end.
Definition ensure_resolv (mountPoint : string) : prog D unit :=
  let resolvPath := mountPoint +:+ "/etc/resolv.conf" in
  s <- catch (g_Stat resolvPath) ;;
  match s with
  | Err e =>
      if errors_Is e OsNotExist then
        ignore (g_MkdirAll (mountPoint +:+ "/etc")) ;;;
        ignore (g_WriteFile resolvPath ("nameserver 1.1.1.1" +:+ String NL "" +:+ "nameserver 8.8.8.8" +:+ String NL ""))
      else ret tt
  | Ok _ => ret tt
  end.
Definition mount_rootfs (dev : string) : prog D unit :=
  wrap_err "mkdir /oci: " (g_MkdirAll "/oci") ;;;
  mount_or_busy (mkMnt (if String.eqb dev "" then "/dev/vdb" else dev) "/oci" "ext4" 0 "") ;;;
  ensure_resolv "/oci".

Definition volume_target (vm : GuestVolumeMount) : string := JoinPath "/oci" (gm_MountPath vm).
Definition volume_mnt (vm : GuestVolumeMount) : Mnt :=
  mkMnt (gm_Device vm) (volume_target vm) (if String.eqb (gm_Fstype vm) "" then "ext4" else gm_Fstype vm)
    (if gm_ReadOnly vm then MS_RDONLY else 0) "".
Definition add_volume (p : string) : prog A unit := fun a =>
  (Ok tt, mkAgent (ag_os a) (ag_boot a) (ag_phase a) (ag_exitCode a) (ag_message a) (ag_logDone a) (ag_started a) (ag_watching a)
            (ag_watchers a) (ag_volumeMounts a ++ [p])).
Definition mount_guest_volume (vm : GuestVolumeMount) : prog A unit :=
  let hostMP := volume_target vm in
  os (wrap_err ("mkdir volume " +:+ hostMP +:+ ": ") (g_MkdirAll hostMP)) ;;;
  os (mount_or_busy (volume_mnt vm)) ;;;
  add_volume hostMP.
Definition extra_of (vm : GuestVolumeMount) : extraMount := mkExtra (volume_target vm) (gm_MountPath vm) (gm_ReadOnly vm).

Definition run_container : prog D unit :=
  o <- exec_prog runcBinary ["run"; "--bundle"; bundleDir; "-d"; "--pid-file"; pidFile; containerID] ;;
  match o_err o with
  | Some err =>
      r <- catch (g_ReadFile logPath) ;;
      fail (Wrap "runc run: " err (": " +:+ TrimSpace (match r with Ok b => b | Err _ => "" end)))
  | None => ret tt
  end.
Definition mark_started : prog A unit := fun a =>
  (Ok tt, mkAgent (ag_os a) (ag_boot a) PAYLOAD_PHASE_RUNNING 0 "" false true true
            (if ag_watching a then ag_watchers a else S (ag_watchers a)) (ag_volumeMounts a)).

Definition launch (req : StartPayloadRequest) : prog D unit :=
  let cwd := if String.eqb (sp_WorkingDir req) "" then "/" else sp_WorkingDir req in
  wrap_err "write config.json: " (writeOCIConfig bundleDir (sp_Command req) (sp_Env req) cwd (extra_of <$> sp_Mounts req)) ;;;
  ignore (g_Remove logPath) ;;;
  wrap_err ("open log " +:+ logPath +:+ ": ") (g_OpenFile logPath) ;;;
  runRuncQuiet ["delete"; "--force"; containerID] ;;;
  g_Open "/dev/null" ;;;
  run_container.
Definition StartPayload (req : StartPayloadRequest) : prog A Z := fun a =>
  if ag_started a then (Err (Errorf "payload already started"), a)
  else
    (match sp_Command req with [] => fail (Errorf "command is required") | _ => ret tt end ;;;
     os (mount_rootfs (sp_PayloadBlockDevice req)) ;;;
     for_each (sp_Mounts req) mount_guest_volume ;;;
     os (launch req) ;;;
     p <- catch (os readPID) ;;
     mark_started ;;;
     ret (i32 (match p with Ok pid => pid | Err _ => 0 end))) a.

(** *** watchPayload *)

Definition set_outcome (phase : PayloadPhase) (code : Z) (message : string) (a : A) : A :=
  mkAgent (ag_os a) (ag_boot a) phase code message true (ag_started a) (ag_watching a) (pred (ag_watchers a)) (ag_volumeMounts a).
(** A round of the loop; on a [return] the goroutine is gone. *)
Definition watch_round (a : A) : A :=
  match ag_watchers a with
  | O => a
  | S _ =>
      match os runcState a with
      | (Err err, a) => set_outcome PAYLOAD_PHASE_FAILED (ag_exitCode a) ("runc state: " +:+ Error err) a
      | (Ok st, a) =>
          if String.eqb (rs_Status st) "running" || String.eqb (rs_Status st) "created" || String.eqb (rs_Status st) "paused" then a
          else if String.eqb (rs_Status st) "stopped" then
            set_outcome PAYLOAD_PHASE_EXITED (match rs_ExitStatus st with Some c => i32 c | None => 0 end) (ag_message a) a
          else set_outcome PAYLOAD_PHASE_FAILED (ag_exitCode a) ("unknown runc status: " +:+ rs_Status st) a
      end
  end.

(** *** Stop *)

(** [GraceSeconds] is a uint32: the product fits an int64. *)
Definition grace_of (seconds : Z) : Z := if (seconds * Second <=? 0)%Z then (10 * Second)%Z else (seconds * Second)%Z.
Definition stop_fuel (grace : Z) : nat := Z.to_nat (grace / (200 * Millisecond) + 1).
Fixpoint stop_wait (fuel : nat) (deadline : Z) : prog D unit := fun d =>
  match fuel with
  | O => (Ok tt, d)
  | S fuel =>
      if (g_Now d <? deadline)%Z then
        (st <- catch runcState ;;
         if match st with Ok st => String.eqb (rs_Status st) "stopped" | Err _ => true end then ret tt
         else fun d => stop_wait fuel deadline (g_Sleep (200 * Millisecond) d)) d
      else (Ok tt, d)
  end.
Definition take_volumes : prog A (list string) := fun a =>
  (Ok (ag_volumeMounts a), mkAgent (ag_os a) (ag_boot a) (ag_phase a) (ag_exitCode a) (ag_message a) (ag_logDone a) false
                             (ag_watching a) (ag_watchers a) []).
Definition unmount_volume (p : string) : prog D unit :=
  r <- catch (g_Unmount p 0) ;;
  match r with
  | Err _ => ignore (g_Unmount p MNT_DETACH)
  | Ok _ => ret tt
  end.
Definition kill_payload (grace : Z) : prog D unit :=
  runRuncQuiet ["kill"; containerID; "TERM"] ;;;
  (fun d => stop_wait (stop_fuel grace) (g_Now d + grace) d) ;;;
  runRuncQuiet ["kill"; containerID; "KILL"] ;;;
  runRuncQuiet ["delete"; "--force"; containerID].
Definition Guest_Stop (graceSeconds : Z) : prog A unit := fun a =>
  if negb (ag_started a) then (Ok tt, a)
  else
    (os (kill_payload (grace_of graceSeconds)) ;;;
     mps <- take_volumes ;;
     os (for_each (rev mps) unmount_volume) ;;;
     os g_Sync) a.
End agent.

(** ** What the agent relies on

    [mounted] counts the mounts on a mount point, [bundle] is the config.json
    of the bundle, [payload_of] the config the container runs with, [unsaved]
    the mount points with writes that are not on their device yet. *)

Definition configPath : string := bundleDir +:+ "/config.json".

Class GuestLaws (D : Type) `{!GuestOS D} := {
  mounted : D -> string -> nat;
  bundle : D -> option string;
  payload_of : D -> option string;
  unsaved : D -> gset string;
  mkdir_keeps p : keeps mounted (g_MkdirAll p);
  stat_keeps p : keeps mounted (g_Stat p);
  wfile_keeps p b : keeps mounted (g_WriteFile p b);
  create_keeps p : keeps mounted (g_Create p);
  sleep_keeps t d : mounted (g_Sleep t d) = mounted d;
  write_law p b d : mounted (g_Write p b d).2 = mounted d /\
    ((g_Write p b d).1 = Ok tt -> p = configPath -> bundle (g_Write p b d).2 = Some b);
  remove_keeps p : p <> configPath -> keeps (fun d => (mounted d, bundle d)) (g_Remove p);
  openfile_keeps p : keeps (fun d => (mounted d, bundle d)) (g_OpenFile p);
  open_keeps p : keeps (fun d => (mounted d, bundle d)) (g_Open p);
  read_keeps p : keeps (fun d => (mounted d, bundle d, payload_of d)) (g_ReadFile p);
  exec_keeps args d : mounted (exec_Command runcBinary args d).2 = mounted d /\ bundle (exec_Command runcBinary args d).2 = bundle d;
  run_law d : o_err (exec_Command runcBinary ["run"; "--bundle"; bundleDir; "-d"; "--pid-file"; pidFile; containerID] d).1 = None ->
    payload_of (exec_Command runcBinary ["run"; "--bundle"; bundleDir; "-d"; "--pid-file"; pidFile; containerID] d).2 = bundle d;
  delete_law d : o_err (exec_Command runcBinary ["delete"; "--force"; containerID] d).1 = None ->
    payload_of (exec_Command runcBinary ["delete"; "--force"; containerID] d).2 = None;
  mount_law m d : let '(r, d') := g_Mount m d in
    mounted d' (m_target m) = (if is_ok r then S (mounted d (m_target m)) else mounted d (m_target m)) /\
    forall q, q <> m_target m -> mounted d' q = mounted d q;
  unmount_law p f d : let '(r, d') := g_Unmount p f d in
    payload_of d' = payload_of d /\ (forall q, q <> p -> mounted d' q = mounted d q) /\
    mounted d p = (if is_ok r then S (mounted d' p) else mounted d' p);
  detach_law p d : (0 < mounted d p)%nat -> is_ok (g_Unmount p MNT_DETACH d).1 = true;
  sync_law d : (g_Sync d).1 = Ok tt /\ unsaved (g_Sync d).2 = ∅ /\ mounted (g_Sync d).2 = mounted d /\ payload_of (g_Sync d).2 = payload_of d }.

Section laws.
Context {D : Type} `{!GuestOS D, !GuestLaws D}.

Lemma keeps_view_mounted {B} (m : prog D B) : keeps (fun d => (mounted d, bundle d)) m -> keeps mounted m.
Proof. intros H d. specialize (H d). by injection H. Qed.
Lemma exec_prog_view args : keeps (fun d => (mounted d, bundle d)) (exec_prog runcBinary args).
Proof. intros d. unfold exec_prog. destruct (exec_keeps args d) as [H1 H2]. destruct (exec_Command runcBinary args d). cbn in *. congruence. Qed.
Lemma quiet_view args : keeps (fun d => (mounted d, bundle d)) (runRuncQuiet args).
Proof. apply keeps_ignore, exec_prog_view. Qed.
Lemma read_view p : keeps (fun d => (mounted d, bundle d)) (g_ReadFile p).
Proof. intros d. pose proof (read_keeps p d) as H. by injection H as -> -> _. Qed.
Lemma write_keeps p b : keeps mounted (g_Write p b).
Proof. intros d. apply write_law. Qed.
Lemma keeps_runcState unmarshal : keeps mounted (runcState unmarshal).
Proof. unfold runcState. go_keeps. apply keeps_view_mounted, exec_prog_view. Qed.
#[local] Hint Resolve keeps_runcState mkdir_keeps stat_keeps wfile_keeps create_keeps write_keeps : keeps.

Lemma keeps_ensure_resolv p : keeps mounted (ensure_resolv p).
Proof. unfold ensure_resolv. go_keeps. Qed.
Lemma keeps_config encode dir command env cwd extra : keeps mounted (writeOCIConfig encode dir command env cwd extra).
Proof. unfold writeOCIConfig. go_keeps. Qed.
Lemma keeps_run_container : keeps (fun d => (mounted d, bundle d)) run_container.
Proof. unfold run_container. go_keeps; [apply exec_prog_view|apply read_view]. Qed.
Lemma keeps_launch encode req : keeps mounted (launch encode req).
Proof.
  unfold launch. go_keeps; first [apply keeps_config|apply keeps_view_mounted]; [by apply remove_keeps|apply openfile_keeps|apply quiet_view
    |apply open_keeps|apply keeps_run_container].
Qed.
Lemma keeps_stop_wait unmarshal fuel deadline : keeps mounted (stop_wait unmarshal fuel deadline).
Proof.
  induction fuel as [|fuel IH]; intros d; cbn [stop_wait]; [done|]. destruct (_ <? _)%Z; [|done].
  match goal with |- _ (?m d).2 = _ => enough (keeps mounted m) as H by apply H end. go_keeps.
  intros d1. by rewrite IH, sleep_keeps.
Qed.
Lemma stop_wait_Ok unmarshal fuel deadline : forall d, (stop_wait unmarshal fuel deadline d).1 = Ok tt.
Proof.
  induction fuel as [|fuel IH]; intros d; cbn [stop_wait]; [done|]. destruct (_ <? _)%Z; [|done]. unfold bind, catch.
  destruct (runcState unmarshal d) as [r d1]. destruct (match r with Ok _ => _ | Err _ => _ end); [done|apply IH].
Qed.
Lemma keeps_kill unmarshal grace : keeps mounted (kill_payload unmarshal grace).
Proof.
  unfold kill_payload. go_keeps; first [apply keeps_view_mounted, quiet_view|intros d; apply keeps_stop_wait].
Qed.
End laws.

(** ** Accounting for the volumes

    Beside what was mounted at the start and /oci, every mount is recorded in
    [volumeMounts]. *)

Definition occurs (p : string) (l : list string) : nat := List.count_occ String.string_dec l p.
Arguments occurs : simpl never.
Lemma occurs_nil p : occurs p [] = 0%nat.
Proof. done. Qed.
Lemma occurs_app p l l' : occurs p (l ++ l') = (occurs p l + occurs p l')%nat.
Proof. apply List.count_occ_app. Qed.
Lemma occurs_cons p q l : occurs p (q :: l) = (if decide (q = p) then S (occurs p l) else occurs p l).
Proof. unfold occurs. cbn. destruct (String.string_dec q p), (decide (q = p)); congruence. Qed.
Lemma occurs_rev p l : occurs p (rev l) = occurs p l.
Proof. induction l as [|q l IH]; [done|]. cbn [rev]. rewrite occurs_app, IH, !occurs_cons, occurs_nil. destruct (decide (q = p)); lia. Qed.

Section account.
Context {D : Type} `{!GuestOS D, !GuestLaws D} (encode : OciSpec -> result string) (unmarshal : string -> result runcStateResult).
Abbreviation A := (Agent D).

Definition accounted (base : string -> nat) (a : A) : Prop := forall p, p <> "/oci" ->
  (mounted (ag_os a) p <= base p + occurs p (ag_volumeMounts a))%nat.

Lemma os_run {B} (m : prog D B) (a : A) : os m a = ((m (ag_os a)).1, set_os (m (ag_os a)).2 a).
Proof. unfold os, zoom. by destruct (m (ag_os a)). Qed.
Lemma accounted_os {B} base (m : prog D B) : keeps mounted m -> preserves (accounted base) (os m).
Proof. intros Hm a Ha p Hp. rewrite os_run. cbn. rewrite Hm. by apply Ha. Qed.

Lemma mount_or_busy_law m (d : D) :
  (forall q, q <> m_target m -> mounted (mount_or_busy m d).2 q = mounted d q) /\
  (mounted (mount_or_busy m d).2 (m_target m) <= S (mounted d (m_target m)))%nat /\
  (is_ok (mount_or_busy m d).1 = false -> mounted (mount_or_busy m d).2 (m_target m) = mounted d (m_target m)).
Proof.
  unfold mount_or_busy, bind, catch. pose proof (mount_law m d) as H. destruct (g_Mount m d) as [[[]|e] d']; cbn in *; destruct H as [H1 H2].
  - split_and!; [done|lia|done].
  - destruct (is_busy e); cbn; (split_and!; [done|lia|done]).
Qed.
Lemma accounted_rootfs base dev : preserves (accounted base) (os (mount_rootfs dev)).
Proof.
  intros a Ha p Hp. rewrite os_run. cbn. unfold mount_rootfs. unfold bind at 1. pose proof (keeps_wrap_err mounted "mkdir /oci: " _ (mkdir_keeps "/oci") (ag_os a)) as H1.
  destruct (wrap_err _ _ (ag_os a)) as [[[]|e] d1]; cbn in *; [|rewrite H1; by apply Ha].
  unfold bind. set (m := mkMnt _ _ _ _ _). destruct (mount_or_busy_law m d1) as [H2 _]. destruct (mount_or_busy m d1) as [[[]|e] d2]; cbn in *.
  - rewrite keeps_ensure_resolv, H2, H1; [by apply Ha|done].
  - rewrite H2, H1; [by apply Ha|done].
Qed.
Lemma accounted_volume base vm : preserves (accounted base) (mount_guest_volume vm).
Proof.
  intros a Ha p Hp. unfold mount_guest_volume. set (t := volume_target vm). unfold bind. rewrite os_run.
  pose proof (keeps_wrap_err mounted ("mkdir volume " +:+ t +:+ ": ") _ (mkdir_keeps t) (ag_os a)) as H1.
  destruct (wrap_err _ _ (ag_os a)) as [[[]|e] d1]; cbn [fst snd] in *; [|cbn; rewrite H1; by apply Ha].
  rewrite os_run. cbn [ag_os set_os]. destruct (mount_or_busy_law (volume_mnt vm) d1) as (H2 & H3 & H4). change (m_target (volume_mnt vm)) with t in *. clearbody t.
  destruct (mount_or_busy (volume_mnt vm) d1) as [[[]|e] d2]; cbn in *; specialize (Ha p Hp).
  - rewrite occurs_app, occurs_cons, occurs_nil. destruct (decide (t = p)) as [->|]; [rewrite H1 in H3|rewrite H2, H1 by done]; lia.
  - destruct (decide (p = t)) as [->|]; [rewrite H4 by done|rewrite H2 by done]; by rewrite H1.
Qed.
Lemma accounted_StartPayload base req : preserves (accounted base) (StartPayload encode req).
Proof.
  intros a Ha. unfold StartPayload. destruct (ag_started a); [done|].
  match goal with |- _ (?m a).2 => enough (preserves (accounted base) m) as H by by apply H end. go_preserves.
  - apply accounted_rootfs.
  - apply preserves_for_each. intros vm _. apply accounted_volume.
  - apply accounted_os, keeps_launch.
  - apply accounted_os. unfold readPID. go_keeps. intros d. pose proof (read_keeps pidFile d) as H. by injection H as -> _ _.
  - by intros w Hw.
Qed.

Lemma unmount_volume_law p (d : D) : exists d', unmount_volume p d = (Ok tt, d') /\ payload_of d' = payload_of d /\
  (forall q, q <> p -> mounted d' q = mounted d q) /\ mounted d' p = pred (mounted d p).
Proof.
  unfold unmount_volume, bind, catch. pose proof (unmount_law p 0 d) as H. destruct (g_Unmount p 0 d) as [[[]|e] d1]; cbn in *.
  - exists d1. destruct H as (H1 & H2 & H3). split_and!; [done..|by rewrite H3].
  - destruct H as (H1 & H2 & H3). unfold ignore. pose proof (unmount_law p MNT_DETACH d1) as H4. pose proof (detach_law p d1) as H5.
    destruct (g_Unmount p MNT_DETACH d1) as [[[]|e'] d2]; cbn in *; destruct H4 as (H4 & H6 & H7); exists d2; (split_and!; [done|congruence| |]);
      try (intros q Hq; by rewrite H6, H2); rewrite H3; [by rewrite H7|]. destruct (mounted d1 p) as [|k]; [by rewrite <- H7|]. by specialize (H5 ltac:(lia)).
Qed.
Lemma unmount_all_law l : forall d : D, exists d', for_each l unmount_volume d = (Ok tt, d') /\ payload_of d' = payload_of d /\
  forall q, mounted d' q = (mounted d q - occurs q l)%nat.
Proof.
  induction l as [|p l IH]; intros d; [exists d; split_and!; [done..|intros q; rewrite occurs_nil; lia]|].
  destruct (unmount_volume_law p d) as (d1 & E1 & P1 & O1 & M1). destruct (IH d1) as (d2 & E2 & P2 & M2).
  exists d2. cbn [for_each]. unfold bind. rewrite E1. split_and!; [done|congruence|]. intros q. rewrite M2, occurs_cons.
  destruct (decide (p = q)) as [->|]; [rewrite M1; lia|by rewrite O1].
Qed.
(** [Stop] on a machine whose containers can be deleted. *)
Lemma Guest_Stop_run base g (a : A) : accounted base a -> ag_started a = true -> exists d',
  Guest_Stop unmarshal g a = (Ok tt, mkAgent d' (ag_boot a) (ag_phase a) (ag_exitCode a) (ag_message a) (ag_logDone a) false
                                       (ag_watching a) (ag_watchers a) []) /\
  (forall p, p <> "/oci" -> (mounted d' p <= base p)%nat) /\ unsaved d' = ∅ /\
  ((forall d, o_err (exec_Command runcBinary ["delete"; "--force"; containerID] d).1 = None) -> payload_of d' = None).
Proof.
  intros Ha Hs. unfold Guest_Stop. rewrite Hs. cbn [negb]. unfold bind at 1. rewrite os_run.
  pose proof (keeps_kill unmarshal (grace_of g) (ag_os a)) as HK. set (kp := kill_payload unmarshal (grace_of g)) in *.
  assert ((kp (ag_os a)).1 = Ok tt /\ ((forall d, o_err (exec_Command runcBinary ["delete"; "--force"; containerID] d).1 = None) ->
            payload_of (kp (ag_os a)).2 = None)) as [EK PK].
  { unfold kp, kill_payload, runRuncQuiet, exec_quiet, ignore, bind, exec_prog. destruct (exec_Command runcBinary ["kill"; containerID; "TERM"] _) as [o1 d1].
    pose proof (stop_wait_Ok unmarshal (stop_fuel (grace_of g)) (g_Now d1 + grace_of g) d1) as E. destruct (stop_wait _ _ _ d1) as [r2 d2]. cbn in E. subst r2.
    destruct (exec_Command runcBinary ["kill"; containerID; "KILL"] d2) as [o3 d3]. pose proof (delete_law d3) as Hd.
      destruct (exec_Command runcBinary ["delete"; "--force"; containerID] d3) as [o4 d4] eqn:E4. cbn in *. split; [done|]. intros H. specialize (H d3). rewrite E4 in H. by apply Hd. }
  destruct (kp (ag_os a)) as [r d1]. cbn [fst snd] in *. subst r. unfold bind at 1, take_volumes. cbn. unfold bind. rewrite os_run. cbn.
  destruct (unmount_all_law (rev (ag_volumeMounts a)) d1) as (d2 & E2 & P2 & M2). rewrite E2. cbn. rewrite os_run. cbn.
  destruct (sync_law d2) as (S1 & S2 & S3 & S4). exists (g_Sync d2).2. rewrite S1. split_and!; [done| |done|].
  - intros p Hp. rewrite S3, M2, HK, occurs_rev. specialize (Ha p Hp). lia.
  - intros H. rewrite S4, P2. by apply PK.
Qed.
End account.

(** ** The agent over time *)

Section agent_ops.
Context {D : Type} `{!GuestOS D, !GuestLaws D} (encode : OciSpec -> result string) (unmarshal : string -> result runcStateResult).
Abbreviation A := (Agent D).

(** The host's calls and the rounds of [watchPayload] between them. *)
Inductive GuestOp := GStart (req : StartPayloadRequest) | GStop (graceSeconds : Z) | GWatch.
Definition guest_op (o : GuestOp) (a : A) : A :=
  match o with
  | GStart req => (StartPayload encode req a).2
  | GStop g => (Guest_Stop unmarshal g a).2
  | GWatch => watch_round unmarshal a
  end.
Definition guest_ops (ops : list GuestOp) (a : A) : A := foldl (fun a o => guest_op o a) a ops.

(** A goroutine that watches is one, started once. *)
Definition one_watcher (a : A) : Prop :=
  (ag_watchers a <= 1)%nat /\ (ag_watchers a <> 0%nat -> ag_watching a = true) /\ (ag_started a = true -> ag_watching a = true).
Definition watch_fields (a : A) := (ag_watchers a, ag_watching a).
Definition fields (a : A) := (watch_fields a, ag_started a).

Lemma fields_os {B} (m : prog D B) : keeps fields (os m).
Proof. intros a. by rewrite os_run. Qed.
Lemma fields_volumes l : keeps fields (for_each l mount_guest_volume).
Proof.
  induction l as [|vm l IH]; [apply keeps_ret|]. cbn [for_each]. apply keeps_bind; [|by intros _].
  unfold mount_guest_volume. go_keeps; first [apply fields_os|by intros w].
Qed.
(** [StartPayload] changes these when the container runs, and not before. *)
Lemma StartPayload_fields req (a : A) : let '(r, a') := StartPayload encode req a in
  match r with
  | Ok _ => ag_started a = false /\ ag_started a' = true /\ ag_watching a' = true /\
      ag_watchers a' = (if ag_watching a then ag_watchers a else S (ag_watchers a))
  | Err _ => fields a' = fields a
  end.
Proof.
  unfold StartPayload. destruct (ag_started a) eqn:Hs; [done|]. destruct (sp_Command req); [done|]. unfold bind at 1, ret at 1.
  unfold bind at 1. pose proof (fields_os (mount_rootfs (sp_PayloadBlockDevice req)) a) as H1.
  destruct (os (mount_rootfs _) a) as [[[]|e] a1]; cbn [snd] in H1; [|done].
  unfold bind at 1. pose proof (fields_volumes (sp_Mounts req) a1) as H2. destruct (for_each (sp_Mounts req) _ a1) as [[[]|e] a2]; cbn [snd] in H2; [|by rewrite H2, H1].
  unfold bind at 1. pose proof (fields_os (launch encode req) a2) as H3. destruct (os (launch encode req) a2) as [[[]|e] a3]; cbn [snd] in H3; [|by rewrite H3, H2, H1].
  unfold bind at 1. pose proof (keeps_catch fields _ (fields_os readPID) a3) as H4. destruct (catch (os readPID) a3) as [[p|e] a4]; cbn [snd] in H4; [|by rewrite H4, H3, H2, H1].
  rewrite H3, H2, H1 in H4. injection H4 as E1 E2 E3. cbn. by rewrite E1, E2.
Qed.
Lemma Guest_Stop_fields g (a : A) : ag_watchers (Guest_Stop unmarshal g a).2 = ag_watchers a /\ ag_watching (Guest_Stop unmarshal g a).2 = ag_watching a /\
  (ag_started (Guest_Stop unmarshal g a).2 = true -> ag_started a = true).
Proof.
  assert (keeps watch_fields (Guest_Stop unmarshal g)) as H.
  { intros b. unfold Guest_Stop. destruct (negb _); [done|].
    match goal with |- ?f (?m b).2 = _ => enough (keeps f m) as H by apply H end.
    go_keeps; first [by intros w|intros w; by rewrite os_run]. }
  specialize (H a). injection H as H1 H2. split_and!; [done..|]. destruct (ag_started a) eqn:Hs; [done|]. unfold Guest_Stop. rewrite Hs. cbn. congruence.
Qed.
Lemma watch_round_fields (a : A) : (ag_watchers (watch_round unmarshal a) <= ag_watchers a)%nat /\
  ag_watching (watch_round unmarshal a) = ag_watching a /\ ag_started (watch_round unmarshal a) = ag_started a /\
  (ag_watchers a = 0%nat -> watch_round unmarshal a = a).
Proof.
  unfold watch_round. destruct (ag_watchers a) as [|n] eqn:E; [by rewrite E|]. rewrite os_run.
  destruct (runcState unmarshal (ag_os a)) as [[st|e] d]; cbn.
  - destruct (_ || _); cbn; [rewrite E; split_and!; [lia|done..]|]. destruct (String.eqb _ _); cbn; rewrite E; split_and!; (done || lia).
  - rewrite E. split_and!; (done || lia).
Qed.
Lemma one_watcher_op o a : one_watcher a -> one_watcher (guest_op o a).
Proof.
  intros (H1 & H2 & H3). destruct o as [req|g|]; cbn.
  - pose proof (StartPayload_fields req a) as H. destruct (StartPayload encode req a) as [[p|e] a']; cbn.
    + destruct H as (_ & S1 & W1 & N1). split_and!; [|done|done]. rewrite N1. destruct (ag_watching a) eqn:Ew; [done|].
      destruct (ag_watchers a); [lia|]. by specialize (H2 ltac:(lia)).
    + injection H as E1 E2 E3. unfold one_watcher. by rewrite E1, E2, E3.
  - destruct (Guest_Stop_fields g a) as (E1 & E2 & E3). unfold one_watcher. rewrite E1, E2. split_and!; [done..|]. intros H. by apply H3, E3.
  - destruct (watch_round_fields a) as (E1 & E2 & E3 & _). unfold one_watcher. rewrite E2, E3. split_and!; [lia| |done]. intros H. apply H2. lia.
Qed.
Lemma accounted_op base o : forall a, accounted base a -> accounted base (guest_op o a).
Proof.
  intros a Ha. destruct o as [req|g|]; cbn.
  - by apply accounted_StartPayload.
  - destruct (ag_started a) eqn:Hs; [|unfold Guest_Stop; by rewrite Hs]. destruct (Guest_Stop_run unmarshal base g a Ha Hs) as (d' & -> & H & _).
    intros p Hp. cbn. specialize (H p Hp). lia.
  - unfold watch_round. destruct (ag_watchers a); [done|]. rewrite os_run. pose proof (keeps_runcState unmarshal (ag_os a)) as H.
    intros p Hp. specialize (Ha p Hp). destruct (runcState unmarshal (ag_os a)) as [[st|e] d]; cbn [snd] in H; repeat case_match; cbn; by rewrite H.
Qed.

(** Whatever calls the host makes and whatever fails in them - a start that
    gives up half way included -, every mount beside those the VM had at the
    start and /oci is recorded for [Stop] to take down, and at most one goroutine
    watches the payload. *)
Theorem guest_volumes_accounted ops (d : D) : let a := guest_ops ops (newAgent d) in
  (forall p, p <> "/oci" -> (mounted (ag_os a) p <= mounted d p + occurs p (ag_volumeMounts a))%nat) /\ one_watcher a.
Proof.
  assert (accounted (mounted d) (newAgent d) /\ one_watcher (newAgent d)) as H0.
  { split; [|split_and!; (done || cbn; lia)]. intros p _. cbn. rewrite (keeps_ignore mounted _ (mkdir_keeps bundleDir)), (keeps_ignore mounted _ (mkdir_keeps _)). lia. }
  unfold guest_ops. revert H0. generalize (newAgent d). induction ops as [|o ops IH]; intros a [H1 H2]; [done|]. cbn.
  apply IH. split; [by apply accounted_op|by apply one_watcher_op].
Qed.

(** C30: Stopping a payload that was started never fails, and it ends with
    everything the payload wrote on its device: every volume is unmounted, what
    an unmount left over is synced, and the container is gone when runc could
    delete it. *)
Theorem guest_Stop_commits ops (d : D) g : let a := guest_ops ops (newAgent d) in ag_started a = true -> exists a',
  Guest_Stop unmarshal g a = (Ok tt, a') /\ ag_started a' = false /\ ag_volumeMounts a' = [] /\
  (forall p, p <> "/oci" -> (mounted (ag_os a') p <= mounted d p)%nat) /\ unsaved (ag_os a') = ∅ /\
  ((forall e, o_err (exec_Command runcBinary ["delete"; "--force"; containerID] e).1 = None) -> payload_of (ag_os a') = None).
Proof.
  intros a Hs. assert (accounted (mounted d) a) as Ha.
  { unfold a, guest_ops. assert (accounted (mounted d) (newAgent d)) as H0.
    { intros p _. cbn. rewrite (keeps_ignore mounted _ (mkdir_keeps bundleDir)), (keeps_ignore mounted _ (mkdir_keeps _)). lia. }
    revert H0. generalize (newAgent d). clear. induction ops as [|o ops IH]; intros a Ha; [done|]. cbn. by apply IH, accounted_op. }
  destruct (Guest_Stop_run unmarshal _ g a Ha Hs) as (d' & -> & H1 & H2 & H3). eexists. split; [reflexivity|]. by split_and!.
Qed.

Lemma StartPayload_marks req (a a' : A) pid : StartPayload encode req a = (Ok pid, a') -> ag_phase a' = PAYLOAD_PHASE_RUNNING /\ ag_logDone a' = false.
Proof.
  unfold StartPayload. destruct (ag_started a); [done|].
  intros (? & a1 & _ & (? & a2 & _ & (? & a3 & _ & (? & a4 & _ & (? & a5 & _ & H)%bind_Ok_inv)%bind_Ok_inv)%bind_Ok_inv)%bind_Ok_inv)%bind_Ok_inv.
  apply bind_Ok_inv in H as (? & a6 & H & [= _ <-]). injection H as _ <-. done.
Qed.
Lemma iter_fix {B} (f : B -> B) x n : f x = x -> Nat.iter n f x = x.
Proof. intros H. induction n as [|n IH]; [done|]. change (f (Nat.iter n f x) = x). by rewrite IH. Qed.
(** Once the goroutine has ended it is not started again. *)
Lemma unwatched_stays ops : forall a : A, ag_watching a = true -> ag_watchers a = 0%nat ->
  ag_watching (guest_ops ops a) = true /\ ag_watchers (guest_ops ops a) = 0%nat.
Proof.
  induction ops as [|o ops IH]; intros a Hw Hn; [done|]. cbn. apply IH.
  - destruct o as [req|g|]; cbn; [|by destruct (Guest_Stop_fields g a) as (_ & -> & _)|by destruct (watch_round_fields a) as (_ & -> & _)].
    pose proof (StartPayload_fields req a) as H. destruct (StartPayload encode req a) as [[p|e] a']; cbn; [by destruct H as (_ & _ & -> & _)|by injection H as _ -> _].
  - destruct o as [req|g|]; cbn; [|by destruct (Guest_Stop_fields g a) as (-> & _)|by destruct (watch_round_fields a) as (_ & _ & _ & ->)].
    pose proof (StartPayload_fields req a) as H. destruct (StartPayload encode req a) as [[p|e] a']; cbn; [destruct H as (_ & _ & _ & ->)|by injection H as -> _ _].
    by rewrite Hw.
Qed.
(** The goroutine that watches the payload is started once: a payload that
    is started after the first one ended is reported as running, with its log
    open, however often its state would be read. *)
Theorem second_payload_unwatched ops req (a : A) pid : ag_watching a = true -> ag_watchers a = 0%nat ->
  let b := guest_ops ops a in (StartPayload encode req b).1 = Ok pid -> forall n,
  let c := Nat.iter n (watch_round unmarshal) (StartPayload encode req b).2 in
  (Guest_Status c).1.1 = PAYLOAD_PHASE_RUNNING /\ ag_logDone c = false.
Proof.
  intros Hw Hn b Hb n. destruct (unwatched_stays ops a Hw Hn) as [Bw Bn]. fold b in Bw, Bn.
  pose proof (StartPayload_fields req b) as H. pose proof (StartPayload_marks req b) as HP.
  destruct (StartPayload encode req b) as [r b'] eqn:E. cbn [fst snd] in *. subst r. destruct H as (_ & _ & _ & Hc). rewrite Bw, Bn in Hc.
  rewrite iter_fix; [by eapply HP|]. by apply watch_round_fields.
Qed.
End agent_ops.

(** ** Starting *)

Section start.
Context {D : Type} `{!GuestOS D, !GuestLaws D} (encode : OciSpec -> result string).
Abbreviation A := (Agent D).

Lemma os_Ok {B} (m : prog D B) (a a' : A) x : os m a = (Ok x, a') -> exists d', m (ag_os a) = (Ok x, d') /\ a' = set_os d' a.
Proof. rewrite os_run. destruct (m (ag_os a)) as [r d']. cbn. intros [= -> <-]. by exists d'. Qed.
Lemma volumes_Ok l : forall a a' : A, for_each l mount_guest_volume a = (Ok tt, a') ->
  ag_volumeMounts a' = ag_volumeMounts a ++ (volume_target <$> l).
Proof.
  induction l as [|vm l IH]; intros a a' H; [injection H as <-; by rewrite app_nil_r|]. cbn [for_each] in H.
  apply bind_Ok_inv in H as ([] & a1 & H1 & H2). apply IH in H2. rewrite H2. unfold mount_guest_volume in H1.
  apply bind_Ok_inv in H1 as ([] & a2 & (d2 & _ & ->)%os_Ok & H1). apply bind_Ok_inv in H1 as ([] & a3 & (d3 & _ & ->)%os_Ok & H1).
  injection H1 as <-. cbn. by rewrite <- app_assoc.
Qed.
Lemma view_bundle {B} (m : prog D B) d : keeps (fun d => (mounted d, bundle d)) m -> bundle (m d).2 = bundle d.
Proof. intros H. specialize (H d). by injection H. Qed.
Lemma launch_Ok req (d d' : D) : launch encode req d = (Ok tt, d') -> exists b,
  encode (oci_spec (sp_Command req) (sp_Env req) (if String.eqb (sp_WorkingDir req) "" then "/" else sp_WorkingDir req) (extra_of <$> sp_Mounts req)) = Ok b /\
  payload_of d' = Some b.
Proof.
  unfold launch. set (cwd := if String.eqb _ _ then _ else _). intros ([] & d1 & H1 & H)%bind_Ok_inv.
  assert (exists b, encode (oci_spec (sp_Command req) (sp_Env req) cwd (extra_of <$> sp_Mounts req)) = Ok b /\ bundle d1 = Some b) as (b & Eb & B1).
  { unfold wrap_err in H1. destruct (writeOCIConfig _ _ _ _ _ _ d) as [[[]|e] dx] eqn:E; [|done]. injection H1 as ->. unfold writeOCIConfig in E.
    apply bind_Ok_inv in E as (? & e1 & _ & E). apply bind_Ok_inv in E as (? & e2 & _ & E). apply bind_Ok_inv in E as (b & e3 & Eb & E). unfold lift in Eb.
    injection Eb as Eb <-. exists b. split; [done|]. destruct (write_law (bundleDir +:+ "/config.json") b e2) as [_ Hw]. rewrite E in Hw. by apply Hw. }
  exists b. split; [done|]. apply bind_Ok_inv in H as ([] & d2 & H2 & H). apply bind_Ok_inv in H as ([] & d3 & H3 & H).
  apply bind_Ok_inv in H as ([] & d4 & H4 & H). apply bind_Ok_inv in H as ([] & d5 & H5 & H).
  assert (bundle d5 = Some b) as B5.
  { pose proof (view_bundle _ d1 (keeps_ignore _ _ (remove_keeps logPath ltac:(done)))) as E2. rewrite H2 in E2.
    pose proof (view_bundle _ d2 (keeps_wrap_err _ ("open log " +:+ logPath +:+ ": ") _ (openfile_keeps logPath))) as E3. rewrite H3 in E3.
    pose proof (view_bundle _ d3 (quiet_view ["delete"; "--force"; containerID])) as E4. rewrite H4 in E4.
    pose proof (view_bundle _ d4 (open_keeps "/dev/null")) as E5. rewrite H5 in E5. cbn in *. congruence. }
  unfold run_container, bind, exec_prog in H. pose proof (run_law d5) as Hr. destruct (exec_Command runcBinary _ d5) as [o d6]. cbn in Hr.
  destruct (o_err o); [by destruct (catch _ d6) as [[]]|]. injection H as <-. by rewrite Hr.
Qed.

Lemma ensurePath_keeps env e : e ∈ env -> e ∈ ensurePath env.
Proof. intros H. unfold ensurePath. case_match; [done|]. apply elem_of_app. by left. Qed.
Lemma ensurePath_has env : List.existsb has_path (ensurePath env) = true.
Proof. unfold ensurePath. destruct (List.existsb has_path env) eqn:E; [done|]. rewrite existsb_app. by apply orb_true_r. Qed.

End start.

(** ** Stopping ends *)

Class GuestClock (D : Type) `{!GuestOS D} := {
  gexec_time path args d : (g_Now d <= g_Now (exec_Command path args d).2)%Z;
  gsleep_time t d : (g_Now d + t <= g_Now (g_Sleep t d))%Z }.
Section stop_time.
Context {D : Type} `{!GuestOS D, !GuestClock D} (unmarshal : string -> result runcStateResult).

(** Why the wait of [Stop] ended: runc says the payload stopped, cannot tell, or the grace period is over. *)
Definition stop_reason (deadline : Z) (d' : D) : Prop :=
  (deadline <= g_Now d')%Z \/
  exists d1 r, runcState unmarshal d1 = (r, d') /\ match r with Ok st => rs_Status st = "stopped" | Err _ => True end.
Lemma runcState_time (d : D) : (g_Now d <= g_Now (runcState unmarshal d).2)%Z.
Proof.
  unfold runcState, bind, exec_prog. pose proof (gexec_time runcBinary ["state"; containerID] d) as H. destruct (exec_Command _ _ d) as [o d']. cbn in *.
  by destruct (o_err o).
Qed.
Lemma stop_wait_spec deadline fuel : forall d : D, (deadline - g_Now d < Z.of_nat fuel * (200 * Millisecond))%Z ->
  stop_reason deadline (stop_wait unmarshal fuel deadline d).2.
Proof.
  induction fuel as [|fuel IH]; intros d Hf; cbn [stop_wait]; [left; cbn; lia|]. destruct (Z.ltb_spec (g_Now d) deadline); [|left; cbn; lia].
  unfold bind, catch. pose proof (runcState_time d) as Ht. destruct (runcState unmarshal d) as [r d1] eqn:E. cbn in Ht.
  destruct (match r with Ok _ => _ | Err _ => _ end) eqn:Er.
  - right. exists d, r. split; [done|]. destruct r as [st|e]; [by apply String.eqb_eq|done].
  - apply IH. pose proof (gsleep_time (200 * Millisecond) d1). unfold Millisecond in *. lia.
Qed.
(** The grace period is as asked for, ten seconds by default; the wait of [Stop] ends. *)
Lemma stop_wait_ends g (d : D) : (0 <= g < 2 ^ 32)%Z ->
  (grace_of g = if decide (g = 0%Z) then 10 * Second else g * Second)%Z /\ (0 < grace_of g < 2 ^ 63)%Z /\
  stop_reason (g_Now d + grace_of g) (stop_wait unmarshal (stop_fuel (grace_of g)) (g_Now d + grace_of g) d).2.
Proof.
  intros Hg. assert (0 < grace_of g < 2 ^ 63)%Z as Hr.
  { unfold grace_of, Second, Millisecond in *. destruct (Z.leb_spec (g * (1000 * 1000000)) 0); lia. }
  split_and!; [|lia|lia|].
  - unfold grace_of, Second, Millisecond. destruct (Z.leb_spec (g * (1000 * 1000000)) 0); destruct (decide (g = 0%Z)); lia.
  - apply stop_wait_spec. unfold stop_fuel. pose proof (Z.mul_succ_div_gt (grace_of g) (200 * Millisecond) ltac:(unfold Millisecond; lia)).
    pose proof (Z.div_pos (grace_of g) (200 * Millisecond) ltac:(lia) ltac:(unfold Millisecond; lia)). lia.
Qed.
End stop_time.

(** ** A reference guest

    Mount counts, files, one container and a clock that only sleeping moves. *)
Module RefGuest.
Record vm := mkVm { v_mounts : gmap string nat; v_files : gmap string string; v_payload : option string; v_stopped : bool;
  v_unsaved : gset string; v_now : Z }.
Definition mounts_of (d : vm) (p : string) : nat := default 0%nat (v_mounts d !! p).
Definition put (p b : string) : prog vm unit := fun d =>
  (Ok tt, mkVm (v_mounts d) (<[p := b]> (v_files d)) (v_payload d) (v_stopped d) (v_unsaved d) (v_now d)).
Definition mount (m : Mnt) : prog vm unit := fun d =>
  let t := m_target m in
  (Ok tt, mkVm (<[t := S (mounts_of d t)]> (v_mounts d)) (v_files d) (v_payload d) (v_stopped d) ({[t]} ∪ v_unsaved d) (v_now d)).
Definition unmount (p : string) (f : Z) : prog vm unit := fun d =>
  match mounts_of d p with
  | O => (Err (Errorf "invalid argument"), d)
  | S n => (Ok tt, mkVm (<[p := n]> (v_mounts d)) (v_files d) (v_payload d) (v_stopped d) (v_unsaved d) (v_now d))
  end.
Definition contain (p : option string) (s : bool) (d : vm) : vm := mkVm (v_mounts d) (v_files d) p s (v_unsaved d) (v_now d).
Definition fine (s : string) : Output := mkOutput s s None.
Definition bad (s : string) : Output := mkOutput "" s (Some (ExitError 1)).
Definition runc (path : string) (args : list string) (d : vm) : Output * vm :=
  match args with
  | "run" :: _ => match v_files d !! configPath with Some b => (fine "", contain (Some b) false d) | None => (bad "no bundle", d) end
  | "delete" :: _ => (fine "", contain None false d)
  | ["kill"; _; "KILL"] => (fine "", contain (v_payload d) true d)
  | ["state"; _] => match v_payload d with
                    | Some _ => (fine (if v_stopped d then "stopped" else "running"), d)
                    | None => (bad "container does not exist", d) end
  | _ => (fine "", d)
  end.
Definition start : vm := mkVm {[ "/proc" := 1%nat ]} ∅ None false ∅ 0.
Definition encode (s : OciSpec) : result string := Ok (Join (os_Args s) " ").
Definition unmarshal (s : string) : result runcStateResult := Ok (mkRuncState s None).
Definition req : StartPayloadRequest := mkStartPayload "" ["serve"; "-p"; "80"] [] "" true
  [mkGuestVolumeMount "/dev/vdc" "/data" "ext4" false; mkGuestVolumeMount "/dev/vdd" "/data/log" "" true].
End RefGuest.

Import RefGuest.
#[local] Instance guest_ref : GuestOS vm := {|
  gos_commands := runc;
  g_MkdirAll p := ret tt; g_Stat p := fail (Sentinel OsNotExist); g_Lstat p := ret tt; g_Symlink o n := ret tt;
  g_ReadFile p := fun d => match v_files d !! p with Some b => (Ok b, d) | None => (Err (Sentinel OsNotExist), d) end;
  g_WriteFile := put; g_Remove p := ret tt; g_OpenFile p := ret tt; g_Open p := ret tt; g_Create p := put p ""; g_Write := put;
  g_Mount := mount; g_Unmount := unmount;
  g_Sync := fun d => (Ok tt, mkVm (v_mounts d) (v_files d) (v_payload d) (v_stopped d) ∅ (v_now d));
  g_Now := v_now; g_Sleep t d := mkVm (v_mounts d) (v_files d) (v_payload d) (v_stopped d) (v_unsaved d) (v_now d + t) |}.
#[local] Program Instance guest_ref_laws : GuestLaws vm := {|
  mounted := mounts_of; bundle d := v_files d !! configPath; payload_of := v_payload; unsaved := v_unsaved |}.
Next Obligation. by intros p d. Qed.
Next Obligation. by intros p d. Qed.
Next Obligation. by intros p b d. Qed.
Next Obligation. by intros p d. Qed.
Next Obligation. by intros t d. Qed.
Next Obligation. intros p b d. split; [done|]. intros _ ->. apply lookup_insert_eq. Qed.
Next Obligation. by intros p Hp d. Qed.
Next Obligation. by intros p d. Qed.
Next Obligation. by intros p d. Qed.
Next Obligation. intros p d. cbn. by destruct (v_files d !! p). Qed.
Next Obligation. intros args d. unfold exec_Command; cbn. unfold runc. repeat case_match; done. Qed.
Next Obligation. intros d. unfold exec_Command; cbn. by destruct (v_files d !! "/run/capsule-guest/bundle/config.json"). Qed.
Next Obligation. done. Qed.
Next Obligation.
  intros m d. cbn. unfold mounts_of. cbn. split; [by rewrite lookup_insert_eq|]. intros q Hq. by rewrite lookup_insert_ne.
Qed.
Next Obligation.
  intros p f d. cbn. unfold unmount. destruct (mounts_of d p) as [|n] eqn:E; cbn; [done|]. split_and!; [done| |].
  - intros q Hq. unfold mounts_of. cbn. by rewrite lookup_insert_ne.
  - unfold mounts_of. cbn. by rewrite lookup_insert_eq.
Qed.
Next Obligation. intros p d H. cbn in *. unfold unmount. destruct (mounts_of d p); [lia|done]. Qed.
Next Obligation. by intros d. Qed.

Lemma guest_Stop_commits_witness : let a := guest_ops encode unmarshal [GStart req] (newAgent start) in
  size (unsaved (ag_os a)) = 3%nat /\ exists a', Guest_Stop unmarshal 5 a = (Ok tt, a') /\ unsaved (ag_os a') = ∅ /\ mounted (ag_os a') "/oci/data" = 0%nat.
Proof.
  split; [vm_compute; reflexivity|].
  destruct (guest_Stop_commits encode unmarshal [GStart req] start 5) as (a' & E & _ & _ & M & U & _); [by vm_compute|].
  exists a'. split; [exact E|]. split; [exact U|]. specialize (M "/oci/data" ltac:(done)). apply Nat.le_0_r. exact M.
Defined.
Definition after_first : Agent vm := guest_ops encode unmarshal [GStart req; GStop 1] (newAgent start).
Lemma second_payload_unwatched_witness :
  let a := watch_round unmarshal after_first in let b := guest_ops encode unmarshal [GWatch] a in forall n,
  let c := Nat.iter n (watch_round unmarshal) (StartPayload encode req b).2 in (Guest_Status c).1.1 = PAYLOAD_PHASE_RUNNING /\ ag_logDone c = false.
Proof.
  intros a b.
  assert (ag_watching a = true) as H1 by by vm_compute. assert (ag_watchers a = 0%nat) as H2 by by vm_compute.
  assert ((StartPayload encode req b).1 = Ok 0%Z) as H3 by by vm_compute.
  exact (second_payload_unwatched encode unmarshal [GWatch] req a 0 H1 H2 H3).
Defined.
