(* ===== verification/Streams.v ===== *)
(** * Byte streams: logs and exec

    What travels from a payload to the client in pieces: the chunks of a gRPC
    stream read through a buffer (guest_io.go, cp.go), the writer that prefixes
    the lines of the serial console (driver.go), the pumps of [Exec] in the
    guest, the driver and the controller, the tail of a log file and the loop
    that streams it (controllers/workload.go), and the follower of the payload's
    log in the guest (agent.go). *)

From S2P Require Import Prelude GoStrings Bytes Exec Models Runtime VmSpec Vm Guest.

Set Default Goal Selector "!".
Local Open Scope go_scope.

Fixpoint flat (l : list string) : string := match l with [] => "" | s :: l => s +:+ flat l end.
Lemma flat_app l l' : flat (l ++ l') = flat l +:+ flat l'.
Proof. induction l as [|s l IH]; [done|]. cbn. by rewrite IH, app_assoc_str. Qed.

(** ** Chunks through a buffer

    [guestLogsReader] and [grpcChunkReader]: a [Read] takes from the pending
    bytes and receives the next chunk only when there are none. *)

Record chunkReader := mkChunkReader { cr_stream : list string; cr_pending : string }.
(** The bytes read, or io.EOF when the stream has ended. *)
Definition chunk_Read (n : Z) (r : chunkReader) : result string * chunkReader :=
  if String.eqb (cr_pending r) "" then
    match cr_stream r with
    | [] => (Err (Sentinel IoEOF), r)
    | chunk :: rest => (Ok (take n chunk), mkChunkReader rest (drop n chunk))
    end
  else (Ok (take n (cr_pending r)), mkChunkReader (cr_stream r) (drop n (cr_pending r))).
Definition guestLogsReader_Read : Z -> chunkReader -> result string * chunkReader := chunk_Read.
Definition grpcChunkReader_Read : Z -> chunkReader -> result string * chunkReader := chunk_Read.

(** Reads with buffers of the given sizes. *)
Fixpoint read_sizes (ns : list Z) (r : chunkReader) : list string * chunkReader :=
  match ns with
  | [] => ([], r)
  | n :: ns =>
      match chunk_Read n r with
      | (Ok s, r) => let '(l, r) := read_sizes ns r in (s :: l, r)
      | (Err _, r) => ([], r)
      end
  end.
Definition left_over (r : chunkReader) : string := cr_pending r +:+ flat (cr_stream r).

Lemma chunk_Read_left n r : match chunk_Read n r with
  | (Ok s, r') => s +:+ left_over r' = left_over r
  | (Err e, r') => e = Sentinel IoEOF /\ left_over r = "" /\ r' = r
  end.
Proof.
  unfold chunk_Read, left_over. destruct r as [st p]. cbn. destruct (String.eqb_spec p "") as [->|].
  - destruct st as [|c st]; [done|]. cbn. by rewrite <- app_assoc_str, take_drop.
  - cbn. by rewrite <- app_assoc_str, take_drop.
Qed.
Lemma read_sizes_left ns : forall r, flat (read_sizes ns r).1 +:+ left_over (read_sizes ns r).2 = left_over r.
Proof.
  induction ns as [|n ns IH]; intros r; [done|]. cbn. pose proof (chunk_Read_left n r) as H. destruct (chunk_Read n r) as [[s|e] r'].
  - specialize (IH r'). destruct (read_sizes ns r') as [l r'']. cbn in *. by rewrite app_assoc_str, IH.
  - by destruct H as (_ & _ & ->).
Qed.

(** ** The prefix of the serial console *)

Fixpoint prefix_loop (fuel : nat) (prefix buf : string) : string * string :=
  match fuel with
  | O => ("", buf)
  | S fuel =>
      match Cut NL buf with
      | None => ("", buf)
      | Some (line, rest) => let '(out, tail) := prefix_loop fuel prefix rest in (prefix +:+ line +:+ String NL out, tail)
      end
  end.
(** What [Write] passes on, and the new tail. *)
Definition prefixedWriter_Write (prefix tail b : string) : string * string :=
  let buf := tail +:+ b in prefix_loop (String.length buf) prefix buf.
Fixpoint write_chunks (prefix tail : string) (chunks : list string) : string * string :=
  match chunks with
  | [] => ("", tail)
  | b :: chunks =>
      let '(out, tail) := prefixedWriter_Write prefix tail b in
      let '(out', tail) := write_chunks prefix tail chunks in (out +:+ out', tail)
  end.
(** Every complete line with its prefix, and the text after the last newline. *)
Fixpoint prefix_lines (prefix line s : string) : string * string :=
  match s with
  | "" => ("", line)
  | String c s =>
      if Ascii.eqb c NL then let '(out, tail) := prefix_lines prefix "" s in (prefix +:+ line +:+ String NL out, tail)
      else prefix_lines prefix (line +:+ String c "") s
  end.

Lemma prefix_lines_app prefix s t : forall line, prefix_lines prefix line (s +:+ t) =
  let '(out, tail) := prefix_lines prefix line s in let '(out', tail') := prefix_lines prefix tail t in (out +:+ out', tail').
Proof.
  induction s as [|c s IH]; intros line; cbn [prefix_lines String.append]; [by destruct (prefix_lines prefix line t)|].
  destruct (Ascii.eqb c NL); [|apply IH]. rewrite IH. destruct (prefix_lines prefix "" s) as [o r], (prefix_lines prefix r t) as [o' r'].
  by rewrite !app_assoc_str.
Qed.
Lemma Cut_None sep s : Cut sep s = None <-> no_char sep s = true.
Proof.
  unfold no_char. induction s as [|c s IH]; [done|]. cbn. rewrite (Ascii.eqb_sym sep c). destruct (Ascii.eqb c sep); [done|].
  cbn. rewrite <- IH. destruct (Cut sep s) as [[]|]; naive_solver.
Qed.
Lemma Cut_Some sep s b a : Cut sep s = Some (b, a) -> s = b +:+ String sep a /\ no_char sep b = true.
Proof.
  unfold no_char. revert b. induction s as [|c s IH]; intros b; [done|]. cbn. destruct (Ascii.eqb_spec c sep) as [->|Hc].
  - by intros [= <- <-].
  - destruct (Cut sep s) as [[b' a']|]; [|done]. intros [= <- ->]. destruct (IH b' eq_refl) as [-> H]. split; [done|].
    cbn. rewrite H. destruct (Ascii.eqb_spec sep c); [congruence|done].
Qed.
Lemma prefix_lines_plain prefix s : no_char NL s = true -> forall line, prefix_lines prefix line s = ("", line +:+ s).
Proof.
  unfold no_char. induction s as [|c s IH]; intros H line; [by rewrite app_nil_str|]. cbn [all_chars] in H. apply andb_true_iff in H as [Hc Hs].
  cbn [prefix_lines]. rewrite Ascii.eqb_sym. apply negb_true_iff in Hc. rewrite Hc, IH by done. by rewrite app_assoc_str.
Qed.
Lemma prefix_loop_lines prefix fuel : forall buf, (String.length buf <= fuel)%nat -> prefix_loop fuel prefix buf = prefix_lines prefix "" buf.
Proof.
  induction fuel as [|fuel IH]; intros buf Hl; cbn [prefix_loop]; [destruct buf; [done|cbn in Hl; lia]|].
  destruct (Cut NL buf) as [[line rest]|] eqn:E.
  - apply Cut_Some in E as [-> H]. rewrite prefix_lines_app, (prefix_lines_plain prefix line H). cbn [prefix_lines]. rewrite Ascii.eqb_refl.
    rewrite IH; [by destruct (prefix_lines prefix "" rest)|]. clear -Hl. induction line as [|c line IHl]; cbn in *; [lia|]. apply IHl. lia.
  - apply Cut_None in E. by rewrite (prefix_lines_plain prefix buf E).
Qed.
Lemma prefixedWriter_Write_lines prefix tail b : no_char NL tail = true -> prefixedWriter_Write prefix tail b = prefix_lines prefix tail b.
Proof.
  intros H. unfold prefixedWriter_Write. rewrite prefix_loop_lines by done. rewrite prefix_lines_app, (prefix_lines_plain prefix tail H).
  cbn. by destruct (prefix_lines prefix tail b).
Qed.
Lemma prefix_lines_tail prefix s : forall line, no_char NL line = true -> no_char NL (prefix_lines prefix line s).2 = true.
Proof.
  induction s as [|c s IH]; intros line H; [done|]. cbn [prefix_lines]. destruct (Ascii.eqb c NL) eqn:E.
  - specialize (IH "" eq_refl). by destruct (prefix_lines prefix "" s).
  - apply IH. unfold no_char. rewrite all_chars_app. change (all_chars _ line) with (no_char NL line). rewrite H. cbn [all_chars]. by rewrite Ascii.eqb_sym, E.
Qed.
(** However the console's output is cut into writes, the same lines come out. *)
Lemma prefixed_chunks prefix chunks : forall tail, no_char NL tail = true -> write_chunks prefix tail chunks = prefix_lines prefix tail (flat chunks).
Proof.
  induction chunks as [|b chunks IH]; intros tail H; [done|]. cbn [write_chunks flat]. rewrite prefixedWriter_Write_lines by done.
  pose proof (prefix_lines_tail prefix b tail H) as Ht. rewrite prefix_lines_app.
  destruct (prefix_lines prefix tail b) as [o r]. cbn in Ht. by rewrite IH.
Qed.

(** ** Exec, from the guest to the client

    The pumps run side by side: the messages of the two outputs are merged in
    some order.  The exit code comes last. *)

Inductive merge {A} : list A -> list A -> list A -> Prop :=
  | merge_nil : merge [] [] []
  | merge_left x l r m : merge l r m -> merge (x :: l) r (x :: m)
  | merge_right x l r m : merge l r m -> merge l (x :: r) (x :: m).

(** [io.Pipe]: a write is read in pieces of the reader's buffer. *)
Fixpoint pieces_go (fuel : nat) (k : Z) (s : string) : list string :=
  match fuel with
  | O => []
  | S fuel => if String.eqb s "" then [] else take k s :: pieces_go fuel k (drop k s)
  end.
Definition pieces (k : Z) (s : string) : list string := pieces_go (String.length s) k s.

Lemma len_0 s : len s = 0%Z -> s = "".
Proof. destruct s; [done|]. unfold len. cbn. lia. Qed.
Lemma pieces_spec k s : (0 < k)%Z -> flat (pieces k s) = s /\ Forall (fun p => 0 < len p <= k)%Z (pieces k s).
Proof.
  intros Hk. unfold pieces. assert (len s <= Z.of_nat (String.length s))%Z as Hl by done. revert Hl. generalize (String.length s) as fuel. intros fuel. revert s.
  induction fuel as [|fuel IH]; intros s Hl; cbn [pieces_go].
  - split; [|done]. symmetry. apply len_0. pose proof (len_nonneg s). lia.
  - destruct (String.eqb_spec s "") as [->|Hs]; [done|]. assert (0 < len s)%Z as Hp by (pose proof (len_nonneg s); destruct (Z.eq_dec (len s) 0) as [E|]; [by apply len_0 in E|lia]).
    destruct (IH (drop k s)) as [H1 H2]; [rewrite len_drop by lia; lia|]. cbn [flat]. rewrite H1, take_drop. split; [done|].
    constructor; [rewrite len_take by lia; lia|done].
Qed.

(** *** In the guest: agent.go *)

Record ExecConfig := mkExecConfig { ec_Command : list string; ec_Tty : bool; ec_Env : gmap string string }.
Definition exec_args (cfg : ExecConfig) : list string :=
  "exec" :: (if ec_Tty cfg then ["--tty"] else []) ++
  List.concat ((fun kv => ["--env"; kv.1 +:+ "=" +:+ kv.2]) <$> map_to_list (ec_Env cfg)) ++ containerID :: ec_Command cfg.
Definition guest_exec_start (first : option ExecConfig) : result (list string) :=
  match first with
  | None => Err (Errorf "first message must be config")
  | Some cfg => match ec_Command cfg with [] => Err (Errorf "command is required") | _ => Ok (exec_args cfg) end
  end.
Definition guest_exec_code (werr : option error) : Z :=
  match werr with
  | None => 0
  | Some (ExitError c) => i32 c
  | Some _ => -1
  end.
(** What a pump sends for the reads of its pipe. *)
Definition pump (mk : string -> ExecServerMessage) (reads : list string) : list ExecServerMessage :=
  mk <$> filter (fun s => s <> "") reads.
Definition guest_Exec (tty : bool) (outs errs : list string) (werr : option error) (msgs : list ExecServerMessage) : Prop :=
  exists m, merge (pump ExecStdout outs) (if tty then [] else pump ExecStderr errs) m /\ msgs = m ++ [ExecExit (guest_exec_code werr)].

(** *** In the driver: guest_io.go *)

Definition stdout_of (msgs : list ExecServerMessage) : list string := omap (fun m => match m with ExecStdout s => Some s | _ => None end) msgs.
Definition stderr_of (msgs : list ExecServerMessage) : list string := omap (fun m => match m with ExecStderr s => Some s | _ => None end) msgs.

(** *** In the controller: controllers/workload.go *)

Definition ctl_Exec_start (first : option ExecRequest) : result ExecRequest :=
  match first with
  | None => Err (StatusError CodeInvalidArgument "first Exec message must carry config")
  | Some cfg =>
      if String.eqb (ex_Name cfg) "" then Err (StatusError CodeInvalidArgument "config.name is required")
      else match ex_Command cfg with [] => Err (StatusError CodeInvalidArgument "config.command is required") | _ => Ok cfg end
  end.
Definition pumpReaderToStream (mk : string -> ExecServerMessage) (writes : list string) : list ExecServerMessage :=
  mk <$> List.concat (pieces (16 * 1024) <$> writes).
(** The messages to the client for what the driver wrote, and its result. *)
Definition ctl_Exec (tty : bool) (outs errs : list string) (code : result Z) (msgs : list ExecServerMessage) (r : result unit) : Prop :=
  exists m, merge (pumpReaderToStream ExecStdout outs) (if tty then [] else pumpReaderToStream ExecStderr errs) m /\
  match code with
  | Ok c => msgs = m ++ [ExecExit (i32 c)] /\ r = Ok tt
  | Err e => msgs = m /\ r = Err (StatusError CodeInternal (Error e))
  end.

Lemma omap_merge {A B} (f : A -> option B) (l r m : list A) : merge l r m -> omap f r = [] -> omap f m = omap f l.
Proof.
  induction 1 as [|x l r m _ IH|x l r m _ IH]; intros Hr; [done|cbn; by rewrite IH|]. cbn in Hr |- *. destruct (f x); [done|]. by apply IH.
Qed.
Lemma omap_merge_r {A B} (f : A -> option B) (l r m : list A) : merge l r m -> omap f l = [] -> omap f m = omap f r.
Proof.
  induction 1 as [|x l r m _ IH|x l r m _ IH]; intros Hl; [done| |cbn; by rewrite IH]. cbn in Hl |- *. destruct (f x); [done|]. by apply IH.
Qed.
Lemma omap_Some_of {A B} (f : B -> option A) (mk : A -> B) (l : list A) : (forall x, f (mk x) = Some x) -> omap f (mk <$> l) = l.
Proof. intros H. induction l as [|x l IH]; [done|]. cbn. rewrite H. by f_equal. Qed.
Lemma omap_None_of {A B C} (f : B -> option C) (mk : A -> B) (l : list A) : (forall x, f (mk x) = None) -> omap f (mk <$> l) = [].
Proof. intros H. induction l as [|x l IH]; [done|]. cbn. by rewrite H. Qed.
Lemma flat_filter l : flat (filter (fun s => s <> "") l) = flat l.
Proof. induction l as [|s l IH]; [done|]. rewrite filter_cons. destruct (decide (s <> "")) as [|H]; cbn; [by rewrite IH|]. apply dec_stable in H. by subst s. Qed.
Lemma flat_pieces k ws : (0 < k)%Z -> flat (List.concat (pieces k <$> ws)) = flat ws.
Proof. intros Hk. induction ws as [|w ws IH]; [done|]. cbn. by rewrite flat_app, (proj1 (pieces_spec k w Hk)), IH. Qed.
Lemma drain_last m c : drain_exec (m ++ [ExecExit c]) = c.
Proof. unfold drain_exec. by rewrite foldl_app. Qed.

(** The two outputs of merged messages. *)
Lemma merged_outputs lo le m e : merge (ExecStdout <$> lo) (ExecStderr <$> le) m ->
  stdout_of (m ++ [ExecExit e]) = lo /\ stderr_of (m ++ [ExecExit e]) = le.
Proof.
  intros H. unfold stdout_of, stderr_of. rewrite !omap_app. cbn. rewrite !app_nil_r. split.
  - rewrite (omap_merge _ _ _ _ H); [by apply omap_Some_of|by apply omap_None_of].
  - rewrite (omap_merge_r _ _ _ _ H); [by apply omap_Some_of|by apply omap_None_of].
Qed.


(** ** The tail of a log file: seekTail

    The file is read backwards in blocks of 4096 bytes until the newline before
    the last [lines] lines is found. *)

Section tail.
Local Open Scope Z_scope.

Definition tail_block : Z := 4096.
Fixpoint chars (s : string) : list ascii := match s with "" => [] | String c s => c :: chars s end.

(** A block from its end: the count so far, or the index of the newline looked for. *)
Fixpoint scan_back (l : list ascii) (i found want : Z) : Z + Z :=
  match l with
  | [] => inl found
  | c :: l =>
      if Ascii.eqb c NL then if found + 1 =? want then inr i else scan_back l (i - 1) (found + 1) want
      else scan_back l (i - 1) found want
  end.
Fixpoint seek_loop (ReadAt : Z -> Z -> result string) (fuel : nat) (off found want : Z) : result Z :=
  match fuel with
  | O => Ok 0
  | S fuel =>
      if 0 <? off then
        let chunk := if off <? tail_block then off else tail_block in
        let off := off - chunk in
        match ReadAt off chunk with
        | Err e => Err e
        | Ok buf =>
            match scan_back (rev (chars buf)) (chunk - 1) found want with
            | inr i => Ok (off + i + 1)
            | inl found => seek_loop ReadAt fuel off found want
            end
        end
      else Ok 0
  end.
Definition seek_fuel (size : Z) : nat := Z.to_nat (size / tail_block + 1).
(** Where the next read starts. *)
Definition seekTail (ReadAt : Z -> Z -> result string) (size lines : Z) : result Z :=
  if (size =? 0) || (lines <=? 0) then Ok 0 else seek_loop ReadAt (seek_fuel size) size 0 (lines + 1).

Fixpoint newlines (l : list ascii) : Z := match l with [] => 0 | c :: l => (if Ascii.eqb c NL then 1 else 0) + newlines l end.
Lemma newlines_nonneg l : 0 <= newlines l.
Proof. induction l as [|c l IH]; cbn [newlines]; [lia|]. destruct (Ascii.eqb c NL); lia. Qed.
Lemma newlines_app l l' : newlines (l ++ l') = newlines l + newlines l'.
Proof. induction l as [|c l IH]; [done|]. cbn [newlines app]. rewrite IH. lia. Qed.
Lemma newlines_rev l : newlines (rev l) = newlines l.
Proof. induction l as [|c l IH]; [done|]. cbn [rev]. rewrite newlines_app, IH. cbn [newlines]. lia. Qed.
Lemma chars_app s t : chars (s +:+ t) = chars s ++ chars t.
Proof. induction s as [|c s IH]; [done|]. cbn. by rewrite IH. Qed.
Lemma length_chars s : Z.of_nat (List.length (chars s)) = len s.
Proof. induction s as [|c s IH]; [done|]. rewrite len_cons. cbn. lia. Qed.
Lemma chars_split s : forall l r, chars s = l ++ r -> exists a b, s = a +:+ b /\ chars a = l /\ chars b = r.
Proof.
  induction s as [|c s IH]; intros l r H; cbn in H.
  - destruct l, r; try done. by exists "", "".
  - destruct l as [|d l]; [exists "", (String c s); by split_and!|]. injection H as <- H. destruct (IH l r H) as (a & b & -> & <- & <-).
    exists (String c a), b. by split_and!.
Qed.

Lemma scan_back_spec l : forall i found want, found < want ->
  match scan_back l i found want with
  | inl f => f = found + newlines l /\ f < want
  | inr j => exists p q, l = p ++ NL :: q /\ newlines p = want - found - 1 /\ j = i - Z.of_nat (List.length p)
  end.
Proof.
  induction l as [|c l IH]; intros i found want Hf; cbn [scan_back newlines]; [lia|]. destruct (Ascii.eqb_spec c NL) as [->|Hc].
  - destruct (Z.eqb_spec (found + 1) want); [exists [], l; split_and!; cbn; [done|lia|lia]|].
    specialize (IH (i - 1) (found + 1) want ltac:(lia)). destruct (scan_back l (i - 1) (found + 1) want) as [f|j]; [lia|].
    destruct IH as (p & q & -> & Hp & ->). exists (NL :: p), q. split_and!; [done| |cbn [List.length]; lia]. cbn [newlines]. rewrite Ascii.eqb_refl. lia.
  - specialize (IH (i - 1) found want Hf). destruct (scan_back l (i - 1) found want) as [f|j]; [lia|].
    destruct IH as (p & q & -> & Hp & ->). exists (c :: p), q. split_and!; [done| |cbn [List.length]; lia]. cbn [newlines].
    destruct (Ascii.eqb_spec c NL); [done|lia].
Qed.

(** Reading a file that does not shrink. *)
Definition file_ReadAt (content : string) (off n : Z) : result string := Ok (read_at off n content).

(** With [a] still to scan and [found] newlines after it. *)
Lemma seek_loop_spec fuel want : forall a b found, len a <= Z.of_nat fuel * tail_block -> found = newlines (chars b) -> found < want ->
  exists o, seek_loop (file_ReadAt (a +:+ b)) fuel (len a) found want = Ok o /\
  ((o = 0 /\ newlines (chars (a +:+ b)) < want) \/
   exists x y, a +:+ b = x +:+ String NL y /\ o = len x + 1 /\ newlines (chars y) = want - 1).
Proof.
  induction fuel as [|fuel IH]; intros a b found Hl Hf Hw; cbn [seek_loop].
  - assert (a = "") as -> by (apply len_0; pose proof (len_nonneg a); lia). exists 0. split; [done|]. left. cbn. lia.
  - destruct (Z.ltb_spec 0 (len a)) as [Hp|]; [|exists 0; split; [done|]; left; assert (a = "") as -> by (apply len_0; pose proof (len_nonneg a); lia); cbn; lia].
    set (chunk := if len a <? tail_block then len a else tail_block).
    assert (0 < chunk <= len a /\ len a - chunk <= Z.of_nat fuel * tail_block) as [Hc Hr].
    { unfold chunk. unfold tail_block in *. destruct (Z.ltb_spec (len a) 4096); lia. }
    set (a1 := take (len a - chunk) a). set (a2 := drop (len a - chunk) a). assert (a = a1 +:+ a2) as Ea by (unfold a1, a2; by rewrite take_drop).
    assert (len a1 = len a - chunk) as L1 by (unfold a1; rewrite len_take by lia; lia). assert (len a2 = chunk) as L2 by (unfold a2; rewrite len_drop by lia; lia).
    clearbody chunk a1 a2. assert (read_at (len a - chunk) chunk (a +:+ b) = a2) as Eb.
    { unfold read_at. rewrite <- L1, Ea, app_assoc_str, drop_app_r by lia. rewrite drop_nonpos by lia. rewrite take_app_l by lia. apply take_all. lia. }
    unfold file_ReadAt at 1. rewrite Eb.
    pose proof (scan_back_spec (rev (chars a2)) (chunk - 1) found want Hw) as Hs. destruct (scan_back _ _ _ _) as [f|j].
    + destruct Hs as [-> Hf2]. rewrite newlines_rev in *. destruct (IH a1 (a2 +:+ b) (found + newlines (chars a2))) as (o & E & Ho); [lia|rewrite chars_app, newlines_app; lia|lia|].
      rewrite <- app_assoc_str, <- Ea in E, Ho. rewrite L1 in E. exists o. by split.
    + destruct Hs as (p & q & E & Hn & ->). exists (len a - chunk + (chunk - 1 - Z.of_nat (List.length p)) + 1). split; [done|]. right.
      assert (chars a2 = rev q ++ NL :: rev p) as E2.
      { rewrite <- (rev_involutive (chars a2)), E, rev_app_distr. cbn [rev]. by rewrite <- app_assoc. }
      destruct (chars_split a2 (rev q) (NL :: rev p) E2) as (u & v & -> & Hu & Hv). destruct v as [|c v]; [done|]. cbn in Hv. injection Hv as -> Hv.
      exists (a1 +:+ u), (v +:+ b). split_and!.
      * rewrite Ea, !app_assoc_str. done.
      * rewrite len_app. pose proof (length_chars v) as Lv. rewrite Hv, length_rev in Lv. rewrite len_app, len_cons in L2. lia.
      * rewrite chars_app, newlines_app, Hv, newlines_rev. lia.
Qed.

(** [seekTail] finds the last lines of a file of any size in bounded work:
    it starts at the beginning when the file has at most as many newlines as
    lines asked for, and otherwise right after a newline that is followed by
    exactly that many. *)
Theorem seekTail_spec content lines : 0 < lines -> exists o, seekTail (file_ReadAt content) (len content) lines = Ok o /\
  ((o = 0 /\ newlines (chars content) <= lines) \/
   exists x y, content = x +:+ String NL y /\ o = len x + 1 /\ newlines (chars y) = lines).
Proof.
  intros Hl. unfold seekTail. destruct (Z.eqb_spec (len content) 0) as [E|E].
  - exists 0. apply len_0 in E. subst content. split; [done|]. left. cbn. lia.
  - destruct (Z.leb_spec lines 0); [lia|]. cbn [orb]. destruct (seek_loop_spec (seek_fuel (len content)) (lines + 1) content "" 0) as (o & Eo & Ho); [|done|lia|].
    + unfold seek_fuel, tail_block. pose proof (Z.mul_succ_div_gt (len content) 4096 ltac:(lia)). pose proof (len_nonneg content).
      pose proof (Z.div_pos (len content) 4096 ltac:(lia) ltac:(lia)). lia.
    + rewrite app_nil_str in *. exists o. split; [done|]. destruct Ho as [[-> H0]|(x & y & -> & -> & H0)]; [left; lia|right; exists x, y; split_and!; (done || lia)].
Qed.
Lemma seekTail_spec_witness : let content := "a" +:+ String NL ("b" +:+ String NL ("c" +:+ String NL "")) in
  seekTail (file_ReadAt content) (len content) 2 = Ok 2 /\ exists o, seekTail (file_ReadAt content) (len content) 2 = Ok o /\ o <> 0.
Proof.
  split; [by vm_compute|]. destruct (seekTail_spec ("a" +:+ String NL ("b" +:+ String NL ("c" +:+ String NL ""))) 2) as (o & E & H); [lia|].
  exists o. split; [exact E|]. vm_compute in E. injection E as <-. lia.
Defined.
End tail.

(** ** Streaming a log to the client: controllers/workload.go *)

(** A round of the loop: what [Read] gave, whether [Send] worked, and at the end
    of the file whether [shouldStop] says so and the client is gone. *)
Record log_read := mkLogRead { lr_data : string; lr_err : option error; lr_send : result unit; lr_stop : bool; lr_gone : bool }.
(** The chunks sent, and how the loop ended; [None] when it goes on. *)
Fixpoint streamReaderToLogs (follow : bool) (rounds : list log_read) : list string * option (result unit) :=
  match rounds with
  | [] => ([], None)
  | r :: rounds =>
      let next :=
        match lr_err r with
        | None => streamReaderToLogs follow rounds
        | Some e =>
            if decide (e = Sentinel IoEOF) then
              if negb follow then ([], Some (Ok tt))
              else if lr_stop r then ([], Some (Ok tt))
              else if lr_gone r then ([], Some (Ok tt))
              else streamReaderToLogs follow rounds
            else ([], Some (Err (StatusError CodeInternal (Error e))))
        end in
      if String.eqb (lr_data r) "" then next
      else match lr_send r with
           | Err e => ([], Some (Err e))
           | Ok _ => let '(sent, out) := next in (lr_data r :: sent, out)
           end
  end.

(** [makeLogsShouldStop]: the store is asked at most every two seconds. *)
Definition stop_phase (w : result Workload) : bool :=
  match w with
  | Err _ => true
  | Ok w => match ws_phase <$> wl_status w with
            | Some (WORKLOAD_PHASE_RUNNING | WORKLOAD_PHASE_PENDING) => false
            | _ => true
            end
  end.
Record stopCheck := mkStopCheck { sc_lastCheck : option Z; sc_lastResult : bool }.
Definition logs_should_stop (now : Z) (Get : unit -> result Workload) (st : stopCheck) : bool * stopCheck :=
  let due := match sc_lastCheck st with Some t => negb (now - t <? 2 * Second)%Z | None => true end in
  if due then let r := stop_phase (Get tt) in (r, mkStopCheck (Some now) r) else (sc_lastResult st, st).

Definition sent_all (r : log_read) : bool := is_ok (lr_send r).
(** As long as the client takes them, what is read is sent, in order. *)
Lemma stream_sends follow : forall rounds, forallb sent_all rounds = true ->
  exists k, flat (streamReaderToLogs follow rounds).1 = flat (lr_data <$> firstn k rounds).
Proof.
  induction rounds as [|r rounds IH]; intros H; [by exists 0%nat|]. cbn in H. apply andb_true_iff in H as [Hr H]. destruct (IH H) as [k Hk].
  unfold sent_all in Hr. cbn [streamReaderToLogs]. set (next := match lr_err r with Some _ => _ | None => _ end).
  assert (exists j, flat next.1 = flat (lr_data <$> firstn j rounds)) as [j Hj].
  { unfold next. destruct (lr_err r) as [e|]; [|by exists k]. destruct (decide _); [|by exists 0%nat].
    destruct (negb follow); [by exists 0%nat|]. destruct (lr_stop r); [by exists 0%nat|]. destruct (lr_gone r); [by exists 0%nat|by exists k]. }
  exists (S j). cbn [firstn fmap list_fmap flat]. destruct (String.eqb_spec (lr_data r) "") as [->|]; [by rewrite Hj|].
  destruct (lr_send r); [|done]. destruct next as [sent out]. cbn in *. by rewrite Hj.
Qed.
(** The reads of a file from an offset, with the 32 KiB buffer. *)
Definition file_rounds (content : string) (off : Z) : list log_read :=
  ((fun s => mkLogRead s None (Ok tt) false false) <$> pieces (32 * 1024) (drop off content)) ++ [mkLogRead "" (Some (Sentinel IoEOF)) (Ok tt) false false].
(** Without follow the rest of the file is sent and the stream ends. *)
Lemma stream_file content off : exists sent, streamReaderToLogs false (file_rounds content off) = (sent, Some (Ok tt)) /\ flat sent = drop off content.
Proof.
  unfold file_rounds. destruct (pieces_spec (32 * 1024) (drop off content) ltac:(lia)) as [He Hp].
  set (l := pieces _ _) in *. clearbody l. exists l. split; [|exact He]. clear He.
  induction Hp as [|p l Hp _ IH]; [by cbn; rewrite decide_True|]. cbn [fmap list_fmap app streamReaderToLogs lr_data lr_err lr_send].
  change (list_fmap _ _ ?f l) with (f <$> l) in *. destruct (String.eqb_spec p "") as [->|]; [by destruct Hp|]. by rewrite IH.
Qed.

(** ** Following the payload's log in the guest: agent.go

    The payload appends to the file, [watchPayload] sets [logDone] and wakes the
    follower, [StartPayload] clears it; the follower reads, checks under the
    lock, waits. *)

Inductive follow_phase := FReading | FAtEOF | FWaiting | FEnded.
Record logState := mkLog { ls_file : string; ls_logDone : bool; ls_phase : follow_phase; ls_sent : list string }.
Definition ls_off (s : logState) : Z := len (flat (ls_sent s)).
Inductive log_label := LAppend (b : string) | LRead | LEof | LCheck | LExit | LRestart.
Inductive log_step (follow : bool) : log_label -> logState -> logState -> Prop :=
  | step_append b s : log_step follow (LAppend b) s (mkLog (ls_file s +:+ b) (ls_logDone s) (ls_phase s) (ls_sent s))
  | step_read s : ls_phase s = FReading -> (ls_off s < len (ls_file s))%Z ->
      log_step follow LRead s (mkLog (ls_file s) (ls_logDone s) FReading (ls_sent s ++ [take 4096 (drop (ls_off s) (ls_file s))]))
  | step_eof s : ls_phase s = FReading -> ls_off s = len (ls_file s) ->
      log_step follow LEof s (mkLog (ls_file s) (ls_logDone s) (if follow then FAtEOF else FEnded) (ls_sent s))
  | step_check s : ls_phase s = FAtEOF ->
      log_step follow LCheck s (mkLog (ls_file s) (ls_logDone s) (if ls_logDone s then FEnded else FWaiting) (ls_sent s))
  | step_exit s : log_step follow LExit s (mkLog (ls_file s) true (match ls_phase s with FWaiting => FReading | p => p end) (ls_sent s))
  | step_restart s : log_step follow LRestart s (mkLog (ls_file s) false (ls_phase s) (ls_sent s)).
Inductive log_run (follow : bool) : list log_label -> logState -> logState -> Prop :=
  | run_nil s : log_run follow [] s s
  | run_cons l ls s1 s2 s3 : log_step follow l s1 s2 -> log_run follow ls s2 s3 -> log_run follow (l :: ls) s1 s3.

Definition log_ok (s : logState) : Prop :=
  (exists rest, ls_file s = flat (ls_sent s) +:+ rest) /\ Forall (fun c => 0 < len c <= 4096)%Z (ls_sent s).
Lemma log_step_ok follow l s s' : log_step follow l s s' -> log_ok s -> log_ok s'.
Proof.
  unfold log_ok. destruct 1 as [b s|s Hp Hl|s Hp Hl|s Hp|s|s]; intros [(rest & E) HF]; cbn; try (split; [by exists rest|done]).
  - split; [|done]. exists (rest +:+ b). by rewrite E, app_assoc_str.
  - unfold ls_off in *. rewrite E in *. rewrite drop_app_r by lia. rewrite Z.sub_diag, drop_nonpos by lia. rewrite len_app in Hl. split.
    + exists (drop 4096 rest). rewrite flat_app, app_assoc_str. cbn [flat]. by rewrite app_nil_str, take_drop.
    + apply Forall_app. split; [done|]. constructor; [|done]. rewrite len_take by lia. lia.
Qed.
(** What a client of the guest's log has received is always the beginning of
    the log, in chunks of at most 4096 bytes; without follow it is all of the log
    when the stream ends.  With follow nothing is sent between the first end of
    file and the exit of the payload, however much it writes. *)
Theorem guest_logs_prefix follow file done ls s : log_run follow ls (mkLog file done FReading []) s ->
  log_ok s /\
  (forall s', log_step false LEof s s' -> ls_phase s' = FEnded /\ flat (ls_sent s') = ls_file s') /\
  (ls_phase s = FWaiting -> forall ls' s', log_run true ls' s s' -> LExit ∉ ls' -> ls_phase s' = FWaiting /\ ls_sent s' = ls_sent s).
Proof.
  intros H. assert (log_ok s) as Hok.
  { assert (log_ok (mkLog file done FReading [])) as H0 by (split; [by exists file|done]). revert H0. generalize (mkLog file done FReading []) as s0, H. clear H. intros s0 H. induction H as [|l ls s1 s2 s3 Hs _ IH]; [done|]. intros H0. by eapply IH, log_step_ok. }
  split; [done|]. split.
  - intros s' Hs. destruct Hok as [(rest & E) _]. inversion Hs; subst; cbn in *. split; [done|]. unfold ls_off in *.
    assert (rest = "") as ->; [|by rewrite app_nil_str in E]. apply len_0. pose proof (len_nonneg rest). rewrite E, len_app in *. lia.
  - intros Hw ls' s' Hr. clear Hok H. induction Hr as [s|l ls' s1 s2 s3 Hs _ IH]; intros Hl; [done|].
    assert (ls_phase s2 = FWaiting /\ ls_sent s2 = ls_sent s1) as [P2 S2].
    { inversion Hs; subst; cbn in *; try congruence; [done|by destruct Hl; left|done]. }
    destruct (IH P2) as [IH1 IH2]; [by intros Hin; apply Hl; right|]. by rewrite IH2.
Qed.
Lemma guest_logs_prefix_witness : let s := mkLog "boot, ready" false FWaiting ["boot"] in
  log_run true [LRead; LEof; LCheck; LAppend ", ready"] (mkLog "boot" false FReading []) s /\
  forall ls' s', log_run true ls' s s' -> LExit ∉ ls' -> ls_sent s' = ["boot"].
Proof.
  assert (log_run true [LRead; LEof; LCheck; LAppend ", ready"] (mkLog "boot" false FReading []) (mkLog "boot, ready" false FWaiting ["boot"])) as H.
  { eapply run_cons; [apply step_read; [done|by vm_compute]|]. eapply run_cons; [apply step_eof; [done|by vm_compute]|].
    eapply run_cons; [by apply step_check|]. eapply run_cons; [by apply step_append|]. apply run_nil. }
  split; [exact H|]. intros ls' s' Hr Hl.
  destruct (guest_logs_prefix true "boot" false [LRead; LEof; LCheck; LAppend ", ready"] (mkLog "boot, ready" false FWaiting ["boot"]) H) as (_ & _ & Hw).
  exact (proj2 (Hw eq_refl ls' s' Hr Hl)).
Defined.

(** What a payload writes last, between the follower's end of file and its check, is not sent. *)
Lemma follow_loses_tail : exists s, log_run true [LRead; LEof; LAppend "panic"; LExit; LCheck] (mkLog "boot " false FReading []) s /\
  ls_phase s = FEnded /\ ls_file s = "boot panic" /\ flat (ls_sent s) = "boot ".
Proof.
  eexists. split.
  - eapply run_cons; [apply step_read; [done|by vm_compute]|]. eapply run_cons; [apply step_eof; [done|by vm_compute]|].
    eapply run_cons; [by apply step_append|]. eapply run_cons; [by apply step_exit|]. eapply run_cons; [by apply step_check|]. apply run_nil.
  - by vm_compute.
Qed.

(** ** The vsock handshake: runtime/microvm/firecracker/vsock.go

    The connection under [dialGuest]: Firecracker's socket is asked for the
    guest's port, and answers with a line. *)

(** What happens on the socket: the connection, the write, and the bytes that
    come before the end or an error. *)
Record Socket := mkSocket { so_connect : result unit; so_write : string -> result unit; so_bytes : string; so_end : error }.
Definition vsock_request (port : Z) : string := "CONNECT " +:+ Itoa port +:+ String NL "".
Definition vsock_dial (s : Socket) (port : Z) : result unit :=
  match so_connect s with
  | Err e => Err e
  | Ok _ =>
      match so_write s (vsock_request port) with
      | Err e => Err e
      | Ok _ =>
          match Cut NL (so_bytes s) with
          | None => Err (Wrap "vsock read reply: " (so_end s) "")
          | Some (line, _) =>
              if HasPrefix (line +:+ String NL "") "OK " then Ok tt
              else Err (Errorf ("vsock unexpected reply " +:+ Quote (TrimSpace (line +:+ String NL ""))))
          end
      end
  end.

Lemma ok_line line : HasPrefix (line +:+ String NL "") "OK " = HasPrefix line "OK ".
Proof.
  unfold HasPrefix. destruct line as [|a [|b [|c line]]]; cbn [String.append String.prefix]; repeat case_match; done || (by destruct line).
Qed.
Lemma Cut_inv sep s b a : Cut sep s = Some (b, a) -> s = b +:+ String sep a /\ no_char sep b = true.
Proof.
  revert b. induction s as [|c s IH]; intros b; cbn [Cut]; [done|]. destruct (Ascii.eqb_spec c sep) as [->|Hne].
  - by intros [= <- <-].
  - destruct (Cut sep s) as [[b' a']|]; [|done]. intros [= <- <-]. destruct (IH b' eq_refl) as [-> Hn]. split; [done|].
    cbn. rewrite Hn. destruct (Ascii.eqb_spec sep c); [congruence|done].
Qed.

(** The connection stands exactly when the port was asked for and the first
    line of the answer, which must be complete, is an OK. *)
Theorem vsock_dial_spec s port : vsock_dial s port = Ok tt <->
  so_connect s = Ok tt /\ so_write s (vsock_request port) = Ok tt /\
  exists line rest, so_bytes s = line +:+ String NL rest /\ no_char NL line = true /\ HasPrefix line "OK " = true.
Proof.
  unfold vsock_dial. destruct (so_connect s) as [[]|e]; [|naive_solver]. destruct (so_write s _) as [[]|e]; [|naive_solver].
  destruct (Cut NL (so_bytes s)) as [[line rest]|] eqn:Hc.
  - rewrite ok_line. pose proof (Cut_inv _ _ _ _ Hc) as [Hb Hn]. split.
    + destruct (HasPrefix line "OK ") eqn:Hp; [|done]. intros _. split_and!; [done|done|]. by exists line, rest.
    + intros (_ & _ & line' & rest' & Hb' & Hn' & Hp). rewrite Hb', Cut_app in Hc by done. injection Hc as -> ->. by rewrite Hp.
  - split; [done|]. intros (_ & _ & line & rest & Hb & Hn & _). by rewrite Hb, Cut_app in Hc.
Qed.
