(* ===== verification/Copy.v ===== *)
(** * Copying files in and out of workloads: capsulectl cp, CopyTo, CopyFrom

    cmd/capsulectl/cp.go: the arguments, the destination, packing a local tree
    and unpacking an archive; controllers/workload_copy.go: the checks and the
    answers of the two RPCs around the tar that runs in the workload.  An
    archive is the entries that [tar.Reader] gives; the local file system is an
    interface. *)

From S2P Require Import Prelude GoStrings Bytes Models Runtime Paths.

Set Default Goal Selector "!".
Local Open Scope go_scope.

(** ** The arguments *)

(** [strings.IndexByte(s, ':')] as a cut at the first colon. *)
Definition parseCpArg (s : string) : string * string * bool :=
  match Cut ":" s with
  | None => ("", s, false)
  | Some (w, p) => if negb (no_char "/" w) || String.eqb w "" then ("", s, false) else (w, p, true)
  end.

Inductive CpAction :=
  | CpToWorkload (localSrc wl remotePath : string)
  | CpFromWorkload (wl remotePath localDst : string).
Definition runCp (args : list string) : result CpAction :=
  match args with
  | [srcArg; dstArg] =>
      let '(srcWl, srcPath, srcIsRemote) := parseCpArg srcArg in
      let '(dstWl, dstPath, dstIsRemote) := parseCpArg dstArg in
      if srcIsRemote && dstIsRemote then Err (Errorf "workload-to-workload copy not supported; copy via your workstation")
      else if negb srcIsRemote && negb dstIsRemote then Err (Errorf "one of <src> or <dst> must be of the form <workload>:<path>")
      else if (dstIsRemote : bool) then Ok (CpToWorkload srcArg dstWl dstPath)
      else Ok (CpFromWorkload srcWl srcPath dstArg)
  | _ => Err (Errorf "cp requires exactly two args: <src> <dst>")
  end.

(** The name of the archive's root, from the local source. *)
Definition root_name (localSrc : string) : result string :=
  let rootName := Base (TrimRight "/" localSrc) in
  if String.eqb rootName "." || String.eqb rootName ".." || String.eqb rootName "/" || String.eqb rootName "" then
    Err (Errorf ("cannot derive a top-level name from local source " +:+ Quote localSrc +:+ " (try a real file or directory path)"))
  else Ok rootName.
(** The checks of [cpToWorkload] before it connects. *)
Definition cpToWorkload_root (Lstat : string -> result unit) (localSrc remotePath : string) : result string :=
  match Lstat localSrc with
  | Err err => Err (Wrap ("stat " +:+ localSrc +:+ ": ") err "")
  | Ok _ =>
      if String.eqb remotePath "" then Err (Errorf "remote path is empty")
      else if negb (IsAbs remotePath) then Err (Errorf ("remote path " +:+ Quote remotePath +:+ " must be absolute"))
      else root_name localSrc
  end.
(** Where [cpFromWorkload] unpacks, and under which name ("" keeps the archive's). *)
Definition cp_destination (is_dir : string -> bool) (localDst : string) : string * string :=
  if bool_decide (last_char localDst = Some "/"%char) then
    let d := TrimRight "/" localDst in (if String.eqb d "" then "." else d, "")
  else if is_dir localDst then (localDst, "")
  else (Dir localDst, Base localDst).
Definition cpFromWorkload_root (remotePath : string) : result string :=
  if String.eqb remotePath "" then Err (Errorf "remote path is empty")
  else if negb (IsAbs remotePath) then Err (Errorf ("remote path " +:+ Quote remotePath +:+ " must be absolute"))
  else
    let srcRoot := Base remotePath in
    if String.eqb srcRoot "" || String.eqb srcRoot "/" || String.eqb srcRoot "." then
      Err (Errorf ("cannot derive a source name from " +:+ Quote remotePath))
    else Ok srcRoot.

(** ** Archives *)

Inductive TarType := TypeDir | TypeReg | TypeSymlink | TypeXGlobalHeader | TypeOther (c : ascii).
(** A header with the content of its entry, cut short by [te_err]. *)
Record TarEntry := mkTarEntry { te_Name : string; te_Type : TarType; te_Mode : Z; te_Linkname : string; te_data : string; te_err : option error }.

(** A local tree as [filepath.Walk] visits it, children in lexical order. *)
Inductive tree :=
  | TFile (mode : Z) (content : string)
  | TDir (mode : Z) (children : list (string * tree))
  | TLink (mode : Z) (target : string)
  | TSpecial (mode : Z) (c : ascii).

Definition dir_suffix (name : string) : string := (if bool_decide (last_char name = Some "/"%char) then take (len name - 1) name else name) +:+ "/".
Definition tarWriteOne (name : string) (t : tree) : TarEntry :=
  match t with
  | TFile m b => mkTarEntry name TypeReg m "" b None
  | TDir m _ => mkTarEntry (dir_suffix name) TypeDir m "" "" None
  | TLink m l => mkTarEntry name TypeSymlink m l "" None
  | TSpecial m c => mkTarEntry name (TypeOther c) m "" "" None
  end.
Fixpoint walk (name : string) (t : tree) : list TarEntry :=
  tarWriteOne name t ::
  match t with
  | TDir _ cs => List.concat (map (fun c => walk (name +:+ "/" +:+ c.1) c.2) cs)
  | _ => []
  end.
(** The entries [tarPack] writes. *)
Definition tarPack (rootName : string) (t : tree) : list TarEntry := walk rootName t.

(** ** Unpacking *)

Definition rewriteRoot (name oldRoot newRoot : string) : string :=
  if String.eqb name oldRoot then newRoot
  else if HasPrefix name (oldRoot +:+ "/") then newRoot +:+ slice_from (String.length oldRoot) name
  else name.

Class LocalFS (D : Type) := {
  fs_MkdirAll : string -> Z -> prog D unit;
  (** [OpenFile], [io.Copy] and [Close]: the bytes written, the error of the first two and that of [Close]. *)
  fs_Write : string -> string -> Z -> D -> Z * option error * option error * D;
  fs_Remove : string -> prog D unit;
  fs_Symlink : string -> string -> prog D unit }.

Section unpack.
Context {D : Type} `{!LocalFS D} (cwd : string).

Definition entry_name (oldRoot newRoot : string) (e : TarEntry) : string :=
  let name := TrimLeft "/" (te_Name e) in
  if String.eqb newRoot "" then name else rewriteRoot name oldRoot newRoot.
Definition escapes (destDir full : string) : bool :=
  let absDest := Abs cwd destDir in
  let absFull := Abs cwd full in
  negb (String.eqb absDest "") && negb (HasPrefix absFull (absDest +:+ "/")) && negb (String.eqb absFull absDest).
(** The place of an entry, or why it is refused. *)
Definition entry_path (destDir oldRoot newRoot : string) (e : TarEntry) : result string :=
  let name := entry_name oldRoot newRoot e in
  if Contains name ".." then Err (Errorf ("tar entry " +:+ Quote (te_Name e) +:+ " contains '..'"))
  else
    let full := JoinPath destDir name in
    if escapes destDir full then Err (Errorf ("tar entry " +:+ Quote (te_Name e) +:+ " escapes destination"))
    else Ok full.
(** The bytes written and the error. *)
Definition unpack_entry (destDir oldRoot newRoot : string) (e : TarEntry) (d : D) : Z * option error * D :=
  match entry_path destDir oldRoot newRoot e with
  | Err err => (0%Z, Some err, d)
  | Ok full =>
      let mode := Z.land (te_Mode e) 4095 in
      let quiet (p : prog D unit) := match p d with (Ok _, d) => (0%Z, None, d) | (Err err, d) => (0%Z, Some err, d) end in
      match te_Type e with
      | TypeDir => quiet (fs_MkdirAll full (Z.lor mode 448))
      | TypeReg =>
          match fs_MkdirAll (Dir full) 493 d with
          | (Err err, d) => (0%Z, Some err, d)
          | (Ok _, d) =>
              let '(n, err, cerr, d) := fs_Write full (te_data e) mode d in
              (n, match err, te_err e with Some err, _ | None, Some err => Some err | None, None => cerr end, d)
          end
      | TypeSymlink => quiet (fs_MkdirAll (Dir full) 493 ;;; ignore (fs_Remove full) ;;; fs_Symlink (te_Linkname e) full)
      | TypeXGlobalHeader | TypeOther _ => (0%Z, None, d)
      end
  end.
(** [rest] is what [tr.Next] says after the last entry: nothing at the end of the archive. *)
Fixpoint tarUnpack (destDir oldRoot newRoot : string) (entries : list TarEntry) (rest : option error) (written : Z) (d : D) : Z * option error * D :=
  match entries with
  | [] => (written, rest, d)
  | e :: entries =>
      match unpack_entry destDir oldRoot newRoot e d with
      | (n, Some err, d) => (i64 (written + n), Some err, d)
      | (n, None, d) => tarUnpack destDir oldRoot newRoot entries rest (i64 (written + n)) d
      end
  end.
End unpack.

(** ** The RPCs: controllers/workload_copy.go *)

Definition copyTrim (buf : string) : string :=
  let s := TrimSpace buf in
  if (1024 <? Z.of_nat (String.length s))%Z then slice_to 1024 s +:+ String (chr 226) (String (chr 128) (String (chr 166) "")) else s.

(** The script, a tilde standing for each double quote. *)
Fixpoint quotes (s : string) : string :=
  match s with "" => "" | String c s => String (if Ascii.eqb c "~" then DQ else c) (quotes s) end.
Definition copyToScript : string := List.fold_right (fun l s => quotes l +:+ String NL s) ""
  ["set -e";
   "DEST=~$CAPSULE_CP_DEST~";
   "case ~$DEST~ in";
   "    */)";
   "        D=~${DEST%/}~";
   "        [ -z ~$D~ ] && D=/";
   "        mkdir -p ~$D~";
   "        exec tar x -C ~$D~";
   "        ;;";
   "esac";
   "if [ -d ~$DEST~ ]; then";
   "    exec tar x -C ~$DEST~";
   "fi";
   "parent=$(dirname ~$DEST~)";
   "mkdir -p ~$parent~";
   "tmp=$(mktemp -d ~${parent%/}/.capsule-cp.XXXXXX~)";
   "trap 'rm -rf ~$tmp~' EXIT";
   "tar x -C ~$tmp~";
   "nentries=$(ls -A ~$tmp~ | wc -l)";
   "if [ ~$nentries~ -ne 1 ]; then";
   "    echo ~capsule cp: expected 1 top-level archive entry, got $nentries~ >&2";
   "    exit 1";
   "fi";
   "entry=$(ls -A ~$tmp~)";
   "[ -e ~$DEST~ ] && rm -rf ~$DEST~";
   "mv ~$tmp/$entry~ ~$DEST~"].

Definition CopyTo_start (first : option (string * string)) : result ExecRequest :=
  match first with
  | None => Err (StatusError CodeInvalidArgument "first CopyTo message must carry metadata")
  | Some (name, dest) =>
      if String.eqb name "" then Err (StatusError CodeInvalidArgument "metadata.name is required")
      else if String.eqb dest "" || negb (IsAbs dest) then Err (StatusError CodeInvalidArgument "metadata.dest_path must be an absolute path")
      else Ok (mkExecRequest name ["/bin/sh"; "-c"; copyToScript] {["CAPSULE_CP_DEST" := dest]} false)
  end.
(** The answer, from what [Exec] returned, tar's errors, and how receiving ended. *)
Definition CopyTo_answer (name : string) (exec : result Z) (errBuf : string) (recv : result unit) (bytesIn : Z) : result Z :=
  match exec with
  | Err e => Err (StatusError CodeInternal ("exec tar x: " +:+ Error e))
  | Ok code =>
      if negb (code =? 0)%Z then
        Err (StatusError CodeInternal ("tar x in " +:+ Quote name +:+ " exited " +:+ Itoa code +:+ ": " +:+ copyTrim errBuf))
      else match recv with
           | Err e => Err (StatusError CodeInternal ("receive: " +:+ Error e))
           | Ok _ => Ok bytesIn
           end
  end.
(** The bytes counted while the pipe takes the chunks, and what ended the loop. *)
Fixpoint CopyTo_receive (chunks : list string) (rest : result unit) (write : string -> Z * result unit) (bytesIn : Z) : Z * result unit :=
  match chunks with
  | [] => (bytesIn, rest)
  | chunk :: chunks =>
      if String.eqb chunk "" then CopyTo_receive chunks rest write bytesIn
      else match write chunk with
           | (n, Err e) => (i64 (bytesIn + n), Err e)
           | (n, Ok _) => CopyTo_receive chunks rest write (i64 (bytesIn + n))
           end
  end.

Definition copyFromScript : string :=
  "exec tar c -C " +:+ String DQ "$CAPSULE_CP_PARENT" +:+ String DQ " -- " +:+ String DQ "$CAPSULE_CP_BASE" +:+ String DQ "".
Definition CopyFrom_start (name src : string) : result ExecRequest :=
  if String.eqb name "" then Err (StatusError CodeInvalidArgument "name is required")
  else if String.eqb src "" || negb (IsAbs src) then Err (StatusError CodeInvalidArgument "src_path must be an absolute path")
  else Ok (mkExecRequest name ["/bin/sh"; "-c"; copyFromScript] (<["CAPSULE_CP_PARENT" := Dir src]> {["CAPSULE_CP_BASE" := Base src]}) false).
Definition CopyFrom_answer (name src : string) (exec : result Z) (errBuf : string) (send : result unit) : result unit :=
  match exec with
  | Err e => Err (StatusError CodeInternal ("exec tar c: " +:+ Error e))
  | Ok code =>
      if negb (code =? 0)%Z then
        Err (StatusError CodeInternal ("tar c " +:+ src +:+ " in " +:+ Quote name +:+ " exited " +:+ Itoa code +:+ ": " +:+ copyTrim errBuf))
      else send
  end.

(** ** Unpacking stays inside, by name *)

Section inside.
Context {D : Type} `{!LocalFS D} (cwd destDir : string).

(** The destination itself or a path below it. *)
Definition inside (p : string) : Prop := exists rest, Abs cwd p = Abs cwd destDir +:+ rest /\ (rest = "" \/ HasPrefix rest "/" = true).
Hypothesis cwd_rooted : HasPrefix cwd "/" = true.

Lemma Clean_nonempty p : HasPrefix p "/" = true -> Clean p <> "".
Proof. intros H. unfold Clean. by rewrite H. Qed.
Lemma Abs_nonempty p : Abs cwd p <> "".
Proof using cwd_rooted.
  unfold Abs, JoinPath. destruct (HasPrefix p "/") eqn:E; [by apply Clean_nonempty|].
  destruct (String.eqb_spec cwd "") as [->|_]; [done|]. destruct (String.eqb p ""); apply Clean_nonempty; [done|].
  destruct (HasPrefix_app _ _ cwd_rooted) as [r ->]. rewrite app_assoc_str. apply rooted.
Qed.
Lemma not_escapes p : escapes cwd destDir p = false -> inside p.
Proof using cwd_rooted.
  unfold inside, escapes. destruct (String.eqb_spec (Abs cwd destDir) "") as [E|_]; [by destruct (Abs_nonempty _ E)|]. cbn [negb andb].
  destruct (HasPrefix (Abs cwd p) _) eqn:Hp; cbn [negb andb].
  - intros _. apply HasPrefix_app in Hp as [r Hr]. exists ("/" +:+ r). rewrite Hr. split; [apply app_assoc_str|]. right. apply rooted.
  - destruct (String.eqb_spec (Abs cwd p) (Abs cwd destDir)) as [->|]; [|done]. intros _. exists "". rewrite app_nil_str. by split; [|left].
Qed.
Lemma entry_path_inside oldRoot newRoot e full : entry_path cwd destDir oldRoot newRoot e = Ok full ->
  inside full /\ full = JoinPath destDir (entry_name oldRoot newRoot e) /\ Contains (entry_name oldRoot newRoot e) ".." = false.
Proof using cwd_rooted.
  unfold entry_path. destruct (Contains _ _) eqn:E; [done|]. destruct (escapes _ _ _) eqn:Ee; [done|]. intros [= <-]. split; [by apply not_escapes|done].
Qed.

End inside.

(** ** Round trip

    A file system that records what it is asked, and the calls that build a
    tree: a directory before what is in it, for files and links the directory
    they are in. *)

Inductive FsOp := OMkdir (p : string) (mode : Z) | OWrite (p b : string) (mode : Z) | ORemove (p : string) | OSymlink (target p : string).
Definition op_log := list FsOp.
#[export] Instance log_fs : LocalFS op_log := {|
  fs_MkdirAll p m := fun d => (Ok tt, d ++ [OMkdir p m]);
  fs_Write p b m := fun d => (Z.of_nat (String.length b), None, None, d ++ [OWrite p b m]);
  fs_Remove p := fun d => (Ok tt, d ++ [ORemove p]);
  fs_Symlink t p := fun d => (Ok tt, d ++ [OSymlink t p]) |}.

Fixpoint rebuild (parent : list string) (name : string) (t : tree) : list FsOp :=
  let p := path_of (parent ++ [name]) in
  match t with
  | TFile m b => [OMkdir (path_of parent) 493; OWrite p b (Z.land m 4095)]
  | TDir m cs => OMkdir p (Z.lor (Z.land m 4095) 448) :: List.concat (map (fun c => rebuild (parent ++ [name]) c.1 c.2) cs)
  | TLink m l => [OMkdir (path_of parent) 493; ORemove p; OSymlink l p]
  | TSpecial _ _ => []
  end.

Definition good_name (c : string) : bool :=
  negb (String.eqb c "") && negb (String.eqb c ".") && negb (Contains c "..") && no_char "/" c.
Fixpoint names_ok (t : tree) : bool :=
  match t with TDir _ cs => forallb (fun c => good_name c.1 && names_ok c.2) cs | _ => true end.

Lemma good_name_spec c : good_name c = true <-> element c /\ Contains c ".." = false.
Proof.
  unfold good_name, element. rewrite !andb_true_iff, !negb_true_iff, !String.eqb_neq. split; [|naive_solver].
  intros [[[H1 H2] H3] H4]. split_and!; [done..| |done|done]. by intros ->.
Qed.
Lemma tree_induction (P : tree -> Prop) : (forall m b, P (TFile m b)) -> (forall m cs, Forall (fun c => P c.2) cs -> P (TDir m cs)) ->
  (forall m l, P (TLink m l)) -> (forall m c, P (TSpecial m c)) -> forall t, P t.
Proof.
  intros H1 H2 H3 H4. fix IH 1. intros [m b|m cs|m l|m c]; [apply H1|apply H2|apply H3|apply H4].
  induction cs as [|[n t] cs IHcs]; constructor; [apply IH|apply IHcs].
Qed.
Lemma no_char_last c s : no_char c s = true -> last_char s <> Some c.
Proof.
  unfold no_char. induction s as [|d s IH]; [done|]. cbn [all_chars]. intros [Hd Hs]%andb_true_iff. destruct s as [|e s].
  - cbn. intros [= ->]. by rewrite Ascii.eqb_refl in Hd.
  - change (last_char (String d (String e s))) with (last_char (String e s)). by apply IH.
Qed.
Section roundtrip.
Context (cwd : string) (dest : list string) (old new : string).
Hypothesis dest_ok : Forall element dest.
Hypothesis dest_not_root : dest <> [].
Hypothesis old_ok : good_name old = true.
Hypothesis new_ok : new = "" \/ good_name new = true.
Definition new_root : string := if String.eqb new "" then old else new.

Lemma new_root_ok : good_name new_root = true.
Proof using old_ok new_ok. unfold new_root. destruct (String.eqb_spec new ""); [done|]. by destruct new_ok. Qed.
(** The name of an entry below the root, rewritten. *)
Lemma entry_name_join sfx ty m l b err : entry_name old new (mkTarEntry (Join (old :: sfx) "/") ty m l b err) = Join (new_root :: sfx) "/".
Proof using old_ok.
  unfold entry_name, new_root. cbn [te_Name]. assert (TrimLeft "/" (Join (old :: sfx) "/") = Join (old :: sfx) "/") as ->.
  { apply good_name_spec in old_ok as [(Ho & _ & _ & Hs) _]. destruct old as [|c o]; [done|]. rewrite Join_head. cbn [TrimLeft].
    unfold no_char in Hs. cbn [all_chars] in Hs. apply andb_true_iff in Hs as [Hc _]. rewrite Ascii.eqb_sym. apply negb_true_iff in Hc. by rewrite Hc. }
  destruct (String.eqb_spec new "") as [|Hn]; [done|]. unfold rewriteRoot. destruct sfx as [|s sfx].
  - change (Join [old] "/") with old. by rewrite String.eqb_refl.
  - rewrite !Join_cons. destruct (String.eqb_spec (old +:+ "/" +:+ Join (s :: sfx) "/") old) as [E|_].
    + exfalso. rewrite <- (app_nil_str old) in E at 2. by apply app_inj_l in E.
    + rewrite <- app_assoc_str, prefix_app. by rewrite app_assoc_str, slice_from_app.
Qed.
Lemma entry_path_join sfx ty m l b err : Forall (fun c => c = "" \/ good_name c = true) sfx ->
  entry_path cwd (path_of dest) old new (mkTarEntry (Join (old :: sfx) "/") ty m l b err) = Ok (path_of (dest ++ new_root :: named sfx)).
Proof using dest_ok dest_not_root old_ok new_ok.
  intros Hs. unfold entry_path. rewrite entry_name_join. pose proof new_root_ok as Hr. apply good_name_spec in Hr as [Hr Hd].
  assert (Forall name_or_empty sfx) as Hn by (eapply Forall_impl; [exact Hs|]; intros x [->|Hx%good_name_spec]; [by left|right; apply Hx]).
  rewrite Contains_Join; [|constructor; [done|]; eapply Forall_impl; [exact Hs|]; by intros x [->|[_ Hx]%good_name_spec]].
  assert (JoinPath (path_of dest) (Join (new_root :: sfx) "/") = path_of (dest ++ new_root :: named sfx)) as ->.
  { rewrite JoinPath_names; [|done|by constructor; [right|]|].
    - rewrite filter_cons, decide_True by apply Hr. done.
    - destruct Hr as (Hr & _). destruct new_root; [done|]. by rewrite Join_head. }
  unfold escapes, Abs. change (HasPrefix (path_of ?x) "/") with (HasPrefix ("/" +:+ Join x "/") "/"). rewrite !rooted.
  assert (Forall element (dest ++ new_root :: named sfx)) as He.
  { apply Forall_app. split; [done|]. constructor; [done|]. apply Forall_forall. intros x [Hx1 Hx2]%list_elem_of_filter. rewrite Forall_forall in Hn.
    by destruct (Hn x Hx2). }
  rewrite (Clean_path_of dest), (Clean_path_of (dest ++ _)) by done. rewrite path_below by done. cbn [negb]. by rewrite andb_false_r.
Qed.

(** The path of an entry below the root: its directory and its last name. *)
Lemma split_root rel : Forall (fun c => good_name c = true) rel ->
  Forall element (removelast (dest ++ new_root :: rel)) /\ element (List.last (dest ++ new_root :: rel) "") /\
  removelast (dest ++ new_root :: rel) ++ [List.last (dest ++ new_root :: rel) ""] = dest ++ new_root :: rel /\
  Forall (fun c => c = "" \/ good_name c = true) rel /\ named rel = rel.
Proof using dest_ok dest_not_root old_ok new_ok.
  intros Hrel. pose proof new_root_ok as Hroot. apply good_name_spec in Hroot as [Hroot _].
  assert (Forall element (dest ++ new_root :: rel)) as He.
  { apply Forall_app. split; [done|]. constructor; [done|]. eapply Forall_impl; [exact Hrel|]. by intros x [? _]%good_name_spec. }
  assert (removelast (dest ++ new_root :: rel) ++ [List.last (dest ++ new_root :: rel) ""] = dest ++ new_root :: rel) as Er.
  { symmetry. apply app_removelast_last. by destruct dest. }
  pose proof He as He2. rewrite <- Er in He2. apply Forall_app in He2 as [H1 H2]. apply Forall_cons in H2 as [H2 _]. split_and!; [done..| |].
  - eapply Forall_impl; [exact Hrel|]. by right.
  - apply named_elements. eapply Forall_impl; [exact Hrel|]. by intros x [? _]%good_name_spec.
Qed.
Lemma last_root rel : Forall (fun c => good_name c = true) rel -> last_char (Join (old :: rel) "/") <> Some "/"%char.
Proof using old_ok.
  intros Hrel. destruct (exists_last (l := old :: rel)) as (l & x & E); [done|]. rewrite E. assert (element x) as Hx.
  { assert (x ∈ old :: rel) as Hin by (rewrite E; apply elem_of_app; right; by left). apply elem_of_cons in Hin as [->|Hin]; [by apply good_name_spec in old_ok as [? _]|].
    rewrite Forall_forall in Hrel. by apply Hrel, good_name_spec in Hin as [? _]. }
  rewrite last_char_Join by done. apply no_char_last, Hx.
Qed.

Abbreviation unpack := (tarUnpack (D:=op_log) cwd (path_of dest) old new).
Lemma unpack_walk t : forall rel, names_ok t = true -> Forall (fun c => good_name c = true) rel -> forall more rest w d,
  exists w', unpack (walk (Join (old :: rel) "/") t ++ more) rest w d =
    unpack more rest w' (d ++ rebuild (removelast (dest ++ new_root :: rel)) (List.last (dest ++ new_root :: rel) "") t).
Proof using dest_ok dest_not_root old_ok new_ok.
  induction t as [m b|m cs IH|m l|m c] using tree_induction; intros rel Ht Hrel more rest w d; destruct (split_root rel Hrel) as (S1 & S2 & S3 & S4 & S5).
  all: pose proof (Dir_path_of _ _ S1 S2) as S6; rewrite S3 in S6.
  - cbn [walk app tarUnpack tarWriteOne]. unfold unpack_entry. rewrite entry_path_join by done. cbn [te_Type te_data te_err te_Mode]. rewrite S5.
    eexists. cbn [fs_MkdirAll fs_Write log_fs rebuild]. f_equal. rewrite S6, S3. by rewrite <- app_assoc.
  - cbn [walk]. rewrite <- app_comm_cons. cbn [tarUnpack tarWriteOne]. unfold dir_suffix.
    pose proof (last_root rel Hrel) as Hl.
    rewrite bool_decide_false by done. replace (Join (old :: rel) "/" +:+ "/") with (Join (old :: (rel ++ [""])) "/").
    2: { change (old :: rel ++ [""]) with ((old :: rel) ++ [""]). by rewrite Join_both. }
    unfold unpack_entry. rewrite entry_path_join by (apply Forall_app; split; [done|by constructor; [left|]]). cbn [te_Type te_Mode].
    rewrite filter_app, S5. change (named [""]) with (@nil string). rewrite app_nil_r. cbn [fs_MkdirAll log_fs rebuild]. rewrite S3.
    cbn [names_ok] in Ht. clear S1 S2 S3 S4 S5 Hl.
    assert (forall w d, exists w', unpack (List.concat (map (fun c => walk (Join (old :: rel) "/" +:+ "/" +:+ c.1) c.2) cs) ++ more) rest w d =
              unpack more rest w' (d ++ List.concat (map (fun c => rebuild (dest ++ new_root :: rel) c.1 c.2) cs))) as Hcs.
    { induction cs as [|[n t] cs IHcs]; intros w1 d1; [exists w1; by rewrite app_nil_r|]. cbn [map List.concat fst snd] in *. cbn [forallb fst snd] in Ht.
      apply andb_true_iff in Ht as [[Hn Ht]%andb_true_iff Hrest]. inversion IH as [|? ? IH1 IH2]; subst. cbn [snd] in IH1.
      rewrite <- app_assoc. replace (Join (old :: rel) "/" +:+ "/" +:+ n) with (Join (old :: (rel ++ [n])) "/").
      2: { change (old :: rel ++ [n]) with ((old :: rel) ++ [n]). by rewrite Join_both. }
      destruct (IH1 (rel ++ [n]) Ht ltac:(apply Forall_app; split; [done|by constructor]) (List.concat (map (fun c => walk (Join (old :: rel) "/" +:+ "/" +:+ c.1) c.2) cs) ++ more) rest w1 d1) as [w2 E2].
      rewrite E2. destruct (IHcs IH2 Hrest w2 (d1 ++ rebuild (dest ++ new_root :: rel) n t)) as [w3 E3]. exists w3.
      change (dest ++ new_root :: rel ++ [n]) with (dest ++ (new_root :: rel) ++ [n]). rewrite app_assoc, removelast_last, last_last. rewrite E3. by rewrite app_assoc. }
    destruct (Hcs (i64 (w + 0)) (d ++ [OMkdir (path_of (dest ++ new_root :: rel)) (Z.lor (Z.land m 4095) 448)])) as [w' E]. exists w'. rewrite E. by rewrite <- app_assoc.
  - cbn [walk app tarUnpack tarWriteOne]. unfold unpack_entry. rewrite entry_path_join by done. cbn [te_Type te_data te_err te_Mode te_Linkname]. rewrite S5.
    eexists. unfold bind, ignore. cbn [fs_MkdirAll fs_Remove fs_Symlink log_fs rebuild]. f_equal. rewrite S6, S3. by rewrite <- !app_assoc.
  - cbn [walk app tarUnpack tarWriteOne]. unfold unpack_entry. rewrite entry_path_join by done. cbn [te_Type rebuild]. eexists. by rewrite app_nil_r.
Qed.
End roundtrip.


(** ** On concrete archives *)

Module CopyDemo.
Definition site : tree := TDir 493 [("css", TDir 493 [("a.css", TFile 420 "body{}")]); ("index.html", TFile 420 "<html>"); ("latest", TLink 511 "index.html")].
(** What a hostile workload sends: a link out of the destination, then a file through it. *)
Definition hostile : list TarEntry :=
  [mkTarEntry "x/" TypeDir 493 "" "" None; mkTarEntry "x/up" TypeSymlink 511 "/home/u" "" None; mkTarEntry "x/up/.profile" TypeReg 420 "" "evil" None].
(** Files and links, a path being resolved link by link. *)
Record linked_fs := mkLinked { lf_files : gmap string string; lf_links : gmap string string }.
Fixpoint resolve (links : gmap string string) (fuel : nat) (acc rest : list string) : string :=
  match fuel, rest with
  | S fuel, c :: rest =>
      match links !! path_of (acc ++ [c]) with
      | Some target => if IsAbs target then resolve links fuel [] (Split "/" (TrimLeft "/" target) ++ rest) else resolve links fuel acc (Split "/" target ++ rest)
      | None => resolve links fuel (acc ++ [c]) rest
      end
  | _, _ => path_of (acc ++ rest)
  end.
Definition real_path (d : linked_fs) (p : string) : string := resolve (lf_links d) 64 [] (Split "/" (TrimLeft "/" p)).
End CopyDemo.
Import CopyDemo.
#[local] Instance linked : LocalFS linked_fs := {|
  fs_MkdirAll p m := ret tt;
  fs_Write p b m := fun d => (Z.of_nat (String.length b), None, None, mkLinked (<[real_path d p := b]> (lf_files d)) (lf_links d));
  fs_Remove p := ret tt;
  fs_Symlink t p := fun d => (Ok tt, mkLinked (lf_files d) (<[p := t]> (lf_links d))) |}.

Definition op_inside (cwd dest : string) (o : FsOp) : Prop :=
  match o with
  | OMkdir p _ => inside cwd dest p \/ exists q, inside cwd dest q /\ p = Dir q
  | OWrite p _ _ | ORemove p | OSymlink _ p => inside cwd dest p
  end.

(** The paths are inside by name; through a link the file is written elsewhere. *)
Lemma symlink_escapes : let r := tarUnpack "/root" "/tmp/dl" "x" "" hostile None 0 (mkLinked ∅ ∅) in
  r.1.2 = None /\ lf_files r.2 !! "/home/u/.profile" = Some "evil".
Proof. by vm_compute. Qed.
(** A destination in the root directory: every entry is refused; "/" itself means the working directory. *)
Lemma root_destination is_dir name : element name -> is_dir ("/" +:+ name) = false ->
  cp_destination is_dir ("/" +:+ name) = ("/", name) /\ cp_destination is_dir "/" = (".", "") /\
  forall cwd old e, Contains (entry_name old name e) ".." = false -> Abs cwd (JoinPath "/" (entry_name old name e)) <> "/" ->
    HasPrefix (Abs cwd (JoinPath "/" (entry_name old name e))) "//" = false ->
    entry_path cwd "/" old name e = Err (Errorf ("tar entry " +:+ Quote (te_Name e) +:+ " escapes destination")).
Proof.
  intros Hn Hd. assert (last_char ("/" +:+ name) <> Some "/"%char) as Hl.
  { destruct Hn as (Hn & _ & _ & Hs). rewrite last_char_app by done. by apply no_char_last. }
  split_and!; [|done|].
  - unfold cp_destination. rewrite bool_decide_false, Hd by done. f_equal.
    + apply (Dir_path_of [] name); [done|done].
    + unfold Base. destruct Hn as (Hn & _ & _ & Hs). change (String.eqb ("/" +:+ name) "") with false. cbv iota.
      assert (forall s, last_char s <> Some "/"%char -> TrimRight "/" s = s) as Ht.
      { clear. induction s as [|c s IH]; intros H; [done|]. cbn [TrimRight]. destruct s as [|d s].
        - cbn. destruct (Ascii.eqb_spec c "/") as [->|]; [by destruct H|done].
        - rewrite IH by exact H. done. }
      rewrite Ht by done. change ("/" +:+ name) with (String "/" name). cbn [Split Ascii.eqb]. by rewrite (Split_single "/" name) by done.
  - intros cwd old e H1 H2 H3. unfold entry_path. rewrite H1. unfold escapes. change (Abs cwd "/") with "/". change ("/" +:+ "/") with "//".
    rewrite H3. apply String.eqb_neq in H2. by rewrite H2.
Qed.
