(* ===== verification/Images.v ===== *)
(** * Images: core/image/service.go, runtime/container/images.go, controllers/image.go

    Listing what containerd has cached and importing an archive that the client
    streams.  The archive goes through an [io.Pipe]: a goroutine writes the
    chunks, the import reads as much as it wants. *)

From S2P Require Import Prelude GoStrings Bytes Models Streams.

Set Default Goal Selector "!".
Local Open Scope go_scope.

(** ** Data *)

(** [runtime.Image], and its wire form. *)
Record Image := mkImage { im_Name : string; im_Digest : string; im_Size : Z; im_CreatedUnix : Z }.
(** An image of containerd, and the client calls that are used. *)
Record CImage := mkCImage { ci_Name : string; ci_Digest : string; ci_UpdatedUnix : Z }.

Class CtrImages (D : Type) := {
  ci_ListImages : prog D (list CImage);
  ci_Size : CImage -> prog D Z;
  (** the names imported and the bytes read of the archive, which ends with an error or at its end *)
  ci_Import : string -> option error -> D -> result (list string) * Z * D;
  ci_Unpack : string -> prog D unit }.

(** ** The driver: runtime/container/images.go *)

Section driver.
Context {D : Type} `{!CtrImages D}.

Definition image_of (img : CImage) : prog D Image :=
  size <- catch (ci_Size img) ;;
  ret (mkImage (ci_Name img) (ci_Digest img) (match size with Ok n => n | Err _ => 0%Z end) (ci_UpdatedUnix img)).
Fixpoint images_of (imgs : list CImage) : prog D (list Image) :=
  match imgs with
  | [] => ret []
  | img :: imgs => x <- image_of img ;; l <- images_of imgs ;; ret (x :: l)
  end.
Definition img_List : prog D (list Image) :=
  imgs <- wrap_err "list images: " ci_ListImages ;; images_of imgs.

(** An image that does not unpack is kept. *)
Definition img_Import (archive : string) (rest : option error) (d : D) : result (list string) * Z * D :=
  match ci_Import archive rest d with
  | (Err e, n, d) => (Err (Wrap "import: " e ""), n, d)
  | (Ok refs, n, d) => (Ok refs, n, (for_each refs (fun name => ignore (ci_Unpack name)) d).2)
  end.

(** ** The service: core/image/service.go *)

Definition image_Service_List (store : bool) : prog D (list Image) :=
  if negb store then fail (Sentinel ImageNoRuntime) else img_List.
Definition image_Service_Import (store : bool) (archive : string) (rest : option error) (d : D) : result (list string) * Z * D :=
  if negb store then (Err (Sentinel ImageNoRuntime), 0%Z, d) else img_Import archive rest d.

(** ** The controller: controllers/image.go *)

Definition image_error (e : error) : error :=
  StatusError (if errors_Is e ImageNoRuntime then CodeFailedPrecondition else CodeInternal) (Error e).
Definition ctl_Image_List (store : bool) : prog D (list Image) := fun d =>
  match image_Service_List store d with
  | (Ok l, d) => (Ok l, d)
  | (Err e, d) => (Err (image_error e), d)
  end.

(** The goroutine: a write returns when its bytes were read, or fails when the
    reader is gone; [budget] is what the import reads. *)
Fixpoint push_recv (chunks : list string) (rest : option error) (budget received : Z) : result unit * Z :=
  match chunks with
  | [] => (match rest with None => Ok tt | Some e => Err e end, received)
  | c :: chunks =>
      if String.eqb c "" then push_recv chunks rest budget received
      else if len c <=? budget then push_recv chunks rest (budget - len c) (u64 (received + len c))
      else (Err (Sentinel IoEOF), received)
  end%Z.
(** [first]: whether the first message, when there is one, carries metadata. *)
Definition Push (store : bool) (first : result bool) (chunks : list string) (rest : option error) : prog D (list string * Z) := fun d =>
  match first with
  | Err e => (Err e, d)
  | Ok false => (Err (StatusError CodeInvalidArgument "first Push message must carry metadata"), d)
  | Ok true =>
      let '(imported, budget, d) := image_Service_Import store (flat chunks) rest d in
      let '(received, n) := push_recv chunks rest budget 0 in
      match imported, received with
      | Err e, _ => (Err (image_error e), d)
      | _, Err e => (Err (StatusError CodeInternal (Error e)), d)
      | Ok refs, Ok _ => (Ok (refs, n), d)
      end
  end.
End driver.

(** ** What a push answers *)

Lemma push_recv_all chunks budget : forall received, (len (flat chunks) <= budget)%Z ->
  push_recv chunks None budget received = (Ok tt, foldl (fun n c => if String.eqb c "" then n else u64 (n + len c)) received chunks).
Proof.
  revert budget. induction chunks as [|c chunks IH]; intros budget received H; [done|]. cbn [push_recv flat foldl] in *. rewrite len_app in H.
  pose proof (len_nonneg (flat chunks)). destruct (String.eqb_spec c "") as [->|_]; [by apply IH|].
  destruct (Z.leb_spec (len c) budget); [|lia]. apply IH. lia.
Qed.
Lemma received_total chunks : forall received, (0 <= received)%Z -> (received + len (flat chunks) < 2 ^ 64)%Z ->
  foldl (fun n c => if String.eqb c "" then n else u64 (n + len c)) received chunks = (received + len (flat chunks))%Z.
Proof.
  induction chunks as [|c chunks IH]; intros received H0 H; cbn [foldl flat] in *; [by rewrite Z.add_0_r|].
  rewrite len_app in *. pose proof (len_nonneg c). pose proof (len_nonneg (flat chunks)). destruct (String.eqb_spec c "") as [->|_].
  - change (len "") with 0%Z in *. rewrite IH; lia.
  - rewrite wrap_small by lia. rewrite IH; lia.
Qed.
Lemma push_recv_short chunks rest : forall budget received, (0 <= budget)%Z -> (budget < len (flat chunks))%Z ->
  (push_recv chunks rest budget received).1 = Err (Sentinel IoEOF).
Proof.
  induction chunks as [|c chunks IH]; intros budget received H0 H; cbn [push_recv flat] in *; [change (len "") with 0%Z in H; lia|]. rewrite len_app in H.
  destruct (String.eqb_spec c "") as [->|_]; [by apply IH|]. destruct (Z.leb_spec (len c) budget); [|done]. apply IH; lia.
Qed.

Section push.
Context {D : Type} `{!CtrImages D}.

End push.

(** ** A concrete run *)

Module ImagesDemo.
(** An importer that reads up to the first "|" and takes what is before it for the name. *)
Definition importer (archive : string) (rest : option error) (d : list string) : result (list string) * Z * list string :=
  match Cut "|" archive with
  | Some (name, _) => (Ok [name], len name + 1, d ++ [name])
  | None => (Err (Errorf "unrecognized archive"), len archive, d)
  end%Z.
End ImagesDemo.
Import ImagesDemo.
#[local] Instance images_ref : CtrImages (list string) := {|
  ci_ListImages := fun d => (Ok ((fun n => mkCImage n "sha256:0" 0) <$> d), d);
  ci_Size _ := fail (Errorf "content not found");
  ci_Import := importer;
  ci_Unpack _ := ret tt |}.

