(* ===== verification/Controllers.v ===== *)
(** * gRPC controllers: controllers/workload.go, volume.go, capsule.go

    The translation of calls and answers around the services: the checks on a
    request, the status code of every error, the log streams, and the reboot
    that is scheduled after an answer. *)

From S2P Require Import Prelude GoStrings Bytes Models Store MemoryStore Runtime WorkloadService VolumeService Update Streams.

Set Default Goal Selector "!".
Local Open Scope go_scope.

(** ** Status codes *)

Definition with_code (c : code) (e : error) : error := StatusError c (Error e).
(** A missing row is NotFound, anything else Internal. *)
Definition row_error (kind name : string) (e : error) : error :=
  if errors_Is e StoreNotFound then StatusError CodeNotFound (kind +:+ " " +:+ Quote name +:+ " not found")
  else with_code CodeInternal e.

(** ** Workloads: controllers/workload.go *)

(** [tail_lines] is an int32. *)
Record LogsRequest := mkLogsRequest { lq_Name : string; lq_Follow : bool; lq_TailLines : Z; lq_Serial : bool }.
(** What is streamed: a file from an offset, or the stream of a driver. *)
Inductive Opened := OpenedFile (path content : string) (off : Z) | OpenedStream (s : LogStream).

Section workload.
Context {S C V : Type} `{!Store S, !ContainerDriver C, !VMDriver V}.
Context (cfg : Config).

Definition ctl_Apply (w : option Workload) : prog (Node S C V) Workload :=
  match w with
  | None => fail (StatusError CodeInvalidArgument "workload is required")
  | Some w => on_error (with_code CodeInvalidArgument) (Apply cfg (Some w))
  end.
Definition ctl_Get (name : string) : prog (Node S C V) Workload := on_error (row_error "workload" name) (Service_Get name).
Definition ctl_List : prog (Node S C V) (list Workload) := on_error (with_code CodeInternal) Service_List.
Definition ctl_Delete (name : string) : prog (Node S C V) unit := on_error (with_code CodeInternal) (Delete cfg name).
Definition ctl_Restart (name : string) : prog (Node S C V) unit := on_error (row_error "workload" name) (Restart cfg name).
Definition ctl_Stop (name : string) : prog (Node S C V) unit := on_error (row_error "workload" name) (Stop cfg name).
Definition ctl_Start (name : string) : prog (Node S C V) unit := on_error (row_error "workload" name) (Start cfg name).

(** Where the log comes from; [files] is what [os.Open] and reading find. *)
Definition logs_error (name : string) (e : error) : error :=
  if errors_Is e OsNotExist then StatusError CodeNotFound ("no logs yet for " +:+ Quote name) else with_code CodeInternal e.
Definition open_stream (os_Open : string -> result LogStream) (q : LogsRequest) : prog (Node S C V) Opened :=
  let source := if lq_Serial q then LogSourceSerial else LogSourcePayload in
  s <- on_error (logs_error (lq_Name q)) (OpenLogs cfg os_Open (lq_Name q) (lq_Follow q) (lq_TailLines q) source) ;;
  ret (OpenedStream s).
Definition tail_file (files : string -> result string) (q : LogsRequest) : option (result Opened) :=
  if negb (lq_Serial q) && (0 <? lq_TailLines q)%Z then
    let path := LogPath cfg (lq_Name q) in
    if String.eqb path "" then None
    else match files path with
         | Err _ => None
         | Ok content =>
             Some (match seekTail (file_ReadAt content) (len content) (lq_TailLines q) with
                   | Err e => Err (with_code CodeInternal e)
                   | Ok off => Ok (OpenedFile path content off)
                   end)
         end
  else None.
Definition logs_open (files : string -> result string) (q : LogsRequest) : prog (Node S C V) Opened :=
  if String.eqb (lq_Name q) "" then fail (StatusError CodeInvalidArgument "name is required")
  else match tail_file files q with
       | Some r => lift r
       | None => open_stream (fun p => match files p with Ok _ => Ok (LogFile p) | Err e => Err e end) q
       end.
(** The chunks sent and how the stream ended; [rounds] is what the loop reads. *)
Definition ctl_Logs (files : string -> result string) (rounds : Opened -> list log_read) (q : LogsRequest)
    : Node S C V -> list string * option (result unit) * Node S C V := fun n =>
  match logs_open files q n with
  | (Err e, n) => ([], Some (Err e), n)
  | (Ok o, n) => (streamReaderToLogs (lq_Follow q) (rounds o), n)
  end.
End workload.

(** ** Volumes: controllers/volume.go *)

Section volume.
Context {S D : Type} `{!Store S, !LVM D}.

Definition ctl_vol_Create (now : Z) (name : string) (sizeMiB : Z) : prog (VNode S D) Volume :=
  on_error (with_code CodeInvalidArgument) (vol_Create now name sizeMiB).
Definition ctl_vol_Get (name : string) : prog (VNode S D) Volume := on_error (row_error "volume" name) (vol_Get name).
Definition ctl_vol_List : prog (VNode S D) (list Volume) := on_error (with_code CodeInternal) vol_List.
Definition delete_error (e : error) : error := with_code (if errors_Is e VolumeInUse then CodeFailedPrecondition else CodeInternal) e.
Definition ctl_vol_Delete (name : string) (force : bool) : prog (VNode S D) unit := on_error delete_error (vol_Delete name force).
Definition resize_error (name : string) (e : error) : error :=
  if errors_Is e StoreNotFound then StatusError CodeNotFound ("volume " +:+ Quote name +:+ " not found")
  else with_code (if errors_Is e VolumeInUse then CodeFailedPrecondition
                  else if errors_Is e VolumeShrink then CodeInvalidArgument else CodeInternal) e.
Definition ctl_vol_Resize (name : string) (newSizeMiB : Z) : prog (VNode S D) Volume := on_error (resize_error name) (vol_Resize name newSizeMiB).
End volume.

(** ** The capsule: controllers/capsule.go *)

(** [StreamLogs]: as for workloads, with nothing but the client to stop it. *)
Fixpoint capsule_loop (follow : bool) (rounds : list log_read) : list string * option (result unit) :=
  match rounds with
  | [] => ([], None)
  | r :: rounds =>
      let next :=
        match lr_err r with
        | None => capsule_loop follow rounds
        | Some e =>
            if decide (e = Sentinel IoEOF) then
              if negb follow then ([], Some (Ok tt))
              else if lr_gone r then ([], Some (Ok tt)) else capsule_loop follow rounds
            else ([], Some (Err (with_code CodeInternal e)))
        end in
      if String.eqb (lr_data r) "" then next
      else match lr_send r with
           | Err e => ([], Some (Err e))
           | Ok _ => let '(sent, out) := next in (lr_data r :: sent, out)
           end
  end.
Definition StreamLogs (path : string) (open : result string) (follow : bool) (tailLines : Z) (rounds : Z -> list log_read)
    : list string * option (result unit) :=
  if String.eqb path "" then ([], Some (Err (StatusError CodeFailedPrecondition "capsuled log path not configured")))
  else match open with
       | Err e => ([], Some (Err (if errors_Is e OsNotExist then StatusError CodeNotFound "no capsule logs yet" else with_code CodeInternal e)))
       | Ok content =>
           if (0 <? tailLines)%Z then
             match seekTail (file_ReadAt content) (len content) tailLines with
             | Err e => ([], Some (Err (with_code CodeInternal e)))
             | Ok off => capsule_loop follow (rounds off)
             end
           else capsule_loop follow (rounds 0%Z)
       end.

(** The messages after the first one: a chunk, or metadata again, which is ignored. *)
Definition update_chunks (msgs : list (option string)) : list string := (fun m => default "" m) <$> msgs.
Definition update_error (e : error) : error :=
  with_code (if errors_Is e UpdateChecksum then CodeInvalidArgument
             else if errors_Is e UpdateTooLarge then CodeFailedPrecondition else CodeInternal) e.
Definition confirm_error (e : error) : error :=
  with_code (if errors_Is e UpdateNoPending then CodeFailedPrecondition
             else if errors_Is e UpdateSlotMismatch then CodeFailedPrecondition else CodeInternal) e.
Definition reboot_delay (delay : Z) : Z := if (delay <=? 0)%Z then Second else delay.

Section capsule.
Context {S : Type} `{!Store S}.
Context (sha256 : string -> string) (find_partition : Z -> result string) (ActiveSlot : string)
        (tar_members : string -> option error -> list Member * result unit).
(** Is there an update service, and the delay configured. *)
Context (has_update : bool) (RebootDelay : Z).

Record UpdateRequest := mkUpdateRequest {
  uq_first : result (option (Z * string));     (* the first message: size and digest, or no metadata *)
  uq_msgs : list (option string);
  uq_end : option error;                       (* why the stream ends, unless it is the client's end *)
  uq_send : result unit }.                     (* whether the answer could be sent *)

(** The answer, and the delay after which a goroutine reboots. *)
Definition UpdateOS (now : Z) (q : UpdateRequest) : prog (UWorld S) (string * string * Z) :=
  if negb has_update then fail (StatusError CodeUnimplemented "update service not configured")
  else match uq_first q with
       | Err e => fail (StatusError CodeInvalidArgument ("no metadata: " +:+ Error e))
       | Ok None => fail (StatusError CodeInvalidArgument "first message must be UpdateOSMetadata")
       | Ok (Some (total, sha)) =>
           r <- on_error update_error
                  (ReceiveBundle sha256 find_partition ActiveSlot tar_members now (mkStream (update_chunks (uq_msgs q)) (uq_end q)) total sha) ;;
           match uq_send q with
           | Err e => fail e
           | Ok _ => ret (r.1, r.2, reboot_delay RebootDelay)
           end
       end.
Definition UpdateConfirm (now : Z) : prog (UWorld S) (string * string) :=
  if negb has_update then fail (StatusError CodeUnimplemented "update service not configured")
  else on_error confirm_error (Confirm ActiveSlot now).
Definition RebootNode : prog (UWorld S) Z :=
  if negb has_update then fail (StatusError CodeUnimplemented "update service not configured")
  else ret (reboot_delay RebootDelay).
End capsule.

(** ** Logs *)

(** How a stream of a whole file is read. *)
Definition reads_file (rounds : Opened -> list log_read) : Prop := forall p content off, rounds (OpenedFile p content off) = file_rounds content off.
(** The last lines of a text: all of it when it has no more, else what follows a newline. *)
Definition last_lines (k : Z) (content t : string) : Prop :=
  (t = content /\ (newlines (chars content) <= k)%Z) \/ (newlines (chars t) = k /\ exists x, content = x +:+ String NL t).

Section logs.
Context {S C V : Type} `{!Store S, !ContainerDriver C, !VMDriver V}.
Context (cfg : Config).

End logs.

Module ControllersDemo.
Definition lines (l : list string) : string := flat ((fun s => s +:+ String NL "") <$> l).
Definition web_log : string := "/run/capsule/workloads/web/combined.log".
Definition logs_of (p : string) : result string := if String.eqb p web_log then Ok (lines ["boot"; "ready"; "GET /"; "GET /a"]) else Err (Sentinel OsNotExist).
Definition rounds_of (o : Opened) : list log_read := match o with OpenedFile _ content off => file_rounds content off | OpenedStream _ => [] end.
End ControllersDemo.
Import ControllersDemo.


(** Without a newline at its end the file has one line more than was asked for. *)
Lemma tail_without_newline : (ctl_Logs Demo.full (fun _ => Ok ("a" +:+ String NL ("b" +:+ String NL "c"))) rounds_of (mkLogsRequest "web" false 1 false) Demo.empty).1.1
  = ["b" +:+ String NL "c"].
Proof. by vm_compute. Qed.
