(* ===== verification/Info.v ===== *)
(** * What a capsule reports: GetInfo of controllers/capsule.go, capsule_linux.go

    The numbers of the kernel, read from what /proc, sysinfo, statfs and lvs
    show, and the pending update from the store. *)

From S2P Require Import Prelude GoStrings Models Store Disks.
From Stdlib Require Import DecimalString Decimal.

Set Default Goal Selector "!".
Local Open Scope go_scope.

(** ** The kernel *)

(** What the system calls and the files show: the fields of [utsname] padded
    with NUL bytes, the uptime, /proc/meminfo, the number of CPUs,
    /proc/cpuinfo, the disks, the size of a block device, the output of lvs,
    and block size, blocks and free blocks of /perm. *)
Record Kernel := mkKernel {
  k_Hostname : result string;
  k_Uname : result (string * string * string);
  k_Sysinfo_Uptime : result Z;
  k_meminfo : result string;
  k_NumCPU : Z;
  k_cpuinfo : result string;
  k_sys : Sys;
  k_BLKGETSIZE64 : string -> result Z;
  k_lvs : result string;
  k_Statfs_perm : result (Z * Z * Z) }.

Record InfoResponse := mkInfo {
  if_Hostname : string; if_ShortId : string; if_KernelRelease : string; if_KernelVersion : string; if_Architecture : string;
  if_UptimeSeconds : Z; if_CapsuleVersion : string; if_ActiveSlot : string;
  if_MemoryTotalBytes : Z; if_MemoryAvailableBytes : Z; if_CpuCores : Z; if_CpuModel : string;
  if_BootDisk : string; if_DiskTotalBytes : Z; if_ThinpoolTotalBytes : Z; if_ThinpoolUsedBytes : Z;
  if_PermTotalBytes : Z; if_PermUsedBytes : Z; if_LocalTimeUnix : Z;
  if_PendingSlot : string; if_PendingDeadlineUnix : Z; if_LastVersion : string }.

Fixpoint cstr (b : string) : string :=
  match b with "" => "" | String c b => if Ascii.eqb c (chr 0) then "" else String c (cstr b) end.
Definition uname (k : Kernel) : string * string * string :=
  match k_Uname k with Ok (release, version, machine) => (cstr release, cstr version, cstr machine) | Err _ => ("", "", "") end.
Definition uptimeSeconds (k : Kernel) : Z :=
  match k_Sysinfo_Uptime k with Ok n => if (n <? 0)%Z then 0 else n | Err _ => 0%Z end.

(** [v, _ := strconv.ParseUint(s, 10, 64)]: zero for what is no number, the
    largest value for one that is too large. *)
Definition ParseUint_value (s : string) : Z :=
  match NilZero.uint_of_string s with Some u => Z.min (Z.of_uint u) (2 ^ 64 - 1) | None => 0 end.
Definition meminfoKB (line : string) : Z :=
  match Fields line with _ :: v :: _ => ParseUint_value v | _ => 0%Z end.
Definition mem_line (acc : Z * Z) (line : string) : Z * Z :=
  if HasPrefix line "MemTotal:" then (u64 (meminfoKB line * 1024), acc.2)
  else if HasPrefix line "MemAvailable:" then (acc.1, u64 (meminfoKB line * 1024))
  else acc.
Definition memInfo (k : Kernel) : Z * Z :=
  match k_meminfo k with Err _ => (0, 0)%Z | Ok data => foldl mem_line (0, 0)%Z (Split NL data) end.

Definition model_line (model line : string) : string :=
  if str_empty model && HasPrefix line "model name" then
    match Cut ":" line with Some (_, v) => TrimSpace v | None => model end
  else model.
Definition cpuInfo (k : Kernel) : Z * string :=
  (u32 (k_NumCPU k), match k_cpuinfo k with Err _ => "" | Ok data => foldl model_line "" (Split NL data) end).

Definition diskInfo (k : Kernel) : string * Z :=
  match BootDisk (k_sys k) with
  | Err _ => ("", 0%Z)
  | Ok dev => (dev, match k_BLKGETSIZE64 k dev with Ok n => n | Err _ => 0%Z end)
  end.

(** [share total s] is [uint64(float64(total) * pct / 100.0)] for the
    percentage [s], when it is a number. *)
Definition thinpoolUsage (share : Z -> string -> option Z) (k : Kernel) : Z * Z :=
  match k_lvs k with
  | Err _ => (0, 0)%Z
  | Ok out =>
      match Fields (TrimSpace out) with
      | size :: percent :: _ =>
          match ParseUint size with
          | None => (0, 0)%Z
          | Some total => (total, default 0%Z (share total percent))
          end
      | _ => (0, 0)%Z
      end
  end.
Definition permUsage (k : Kernel) : Z * Z :=
  match k_Statfs_perm k with
  | Err _ => (0, 0)%Z
  | Ok (bsize, blocks, bfree) => (u64 (u64 bsize * blocks), u64 (u64 bsize * u64 (blocks - bfree)))
  end.

(** ** The call *)

(** What the controller was built with. *)
Record About := mkAbout { ab_CapsuleVersion : string; ab_ActiveSlot : string; ab_ShortID : string; ab_OSStateStore : bool }.

Section info.
Context {S : Type} `{!Store S}.
Context (ab : About) (share : Z -> string -> option Z) (k : Kernel).

Definition kernel_info (now : Z) : InfoResponse :=
  let '(release, version, machine) := uname k in
  let '(memTotal, memAvail) := memInfo k in
  let '(cores, model) := cpuInfo k in
  let '(disk, diskTotal) := diskInfo k in
  let '(poolTotal, poolUsed) := thinpoolUsage share k in
  let '(permTotal, permUsed) := permUsage k in
  mkInfo (match k_Hostname k with Ok h => h | Err _ => "" end) (ab_ShortID ab) release version machine (uptimeSeconds k)
    (ab_CapsuleVersion ab) (ab_ActiveSlot ab) memTotal memAvail cores model disk diskTotal poolTotal poolUsed permTotal permUsed now "" 0 "".
Definition with_pending (st : OSState) (i : InfoResponse) : InfoResponse :=
  mkInfo (if_Hostname i) (if_ShortId i) (if_KernelRelease i) (if_KernelVersion i) (if_Architecture i) (if_UptimeSeconds i)
    (if_CapsuleVersion i) (if_ActiveSlot i) (if_MemoryTotalBytes i) (if_MemoryAvailableBytes i) (if_CpuCores i) (if_CpuModel i)
    (if_BootDisk i) (if_DiskTotalBytes i) (if_ThinpoolTotalBytes i) (if_ThinpoolUsedBytes i) (if_PermTotalBytes i) (if_PermUsedBytes i)
    (if_LocalTimeUnix i) (os_PendingSlot st) (os_PendingDeadlineUnix st) (os_LastVersion st).
Definition GetInfo (now : Z) : prog S InfoResponse :=
  let resp := kernel_info now in
  if negb (ab_OSStateStore ab) then ret resp
  else
    r <- catch ost_Get ;;
    ret (match r with Ok st => with_pending st resp | Err _ => resp end).
End info.

(** ** What is reported *)

Lemma meminfo_word w rest cur : all_chars (fun c => negb (is_space c)) w = true -> fields_go (w +:+ rest) cur = fields_go rest (cur +:+ w).
Proof.
  revert cur. induction w as [|c w IH]; intros cur H; [by rewrite app_nil_str|]. cbn [all_chars] in H. apply andb_true_iff in H as [Hc Hw].
  apply negb_true_iff in Hc. cbn [String.append fields_go]. rewrite Hc, IH by done. by rewrite app_assoc_str.
Qed.
Lemma fields_spaces n rest : fields_go (Nat.iter n (String " ") rest) "" = fields_go rest "".
Proof. induction n as [|n IH]; [done|]. exact IH. Qed.
Lemma fields_cons w rest : w <> "" -> all_chars (fun c => negb (is_space c)) w = true -> fields_go (w +:+ String " " rest) "" = w :: fields_go rest "".
Proof. intros Hne Hw. rewrite meminfo_word by done. cbn [String.append fields_go]. change (is_space " ") with true. by destruct w. Qed.

Lemma ParseUint_value_Itoa n : (0 <= n < 2 ^ 64)%Z -> ParseUint_value (Itoa n) = n.
Proof.
  intros Hn. pose proof (ParseUint_Itoa n Hn) as H. unfold ParseUint, ParseUint_value in *. destruct (NilZero.uint_of_string (Itoa n)) as [u|]; [|done].
  destruct (Z.ltb_spec (Z.of_uint u) (2 ^ 64)); [|done]. injection H as ->. lia.
Qed.

(** A line of /proc/meminfo, as the kernel prints it. *)
Definition mem_entry (name : string) (pad : nat) (kb : Z) : string := (name +:+ ":") +:+ String " " (Nat.iter pad (String " ") (Itoa kb +:+ " kB")).
Lemma meminfoKB_entry name pad kb : all_chars (fun c => negb (is_space c)) name = true -> (0 <= kb < 2 ^ 64)%Z ->
  meminfoKB (mem_entry name pad kb) = kb.
Proof.
  intros Hn Hkb. unfold meminfoKB, Fields, mem_entry. rewrite fields_cons; cycle 1.
  { by destruct name. }
  { by rewrite all_chars_app, Hn. }
  rewrite fields_spaces. change " kB" with (String " " "kB"). rewrite fields_cons; [by apply ParseUint_value_Itoa|apply Itoa_not_empty|].
  eapply all_chars_impl; [|apply Itoa_digits; lia]. intros c Hc. destruct c as [[] [] [] [] [] [] [] []]; first [reflexivity|discriminate Hc].
Qed.

(** The text of /proc/meminfo: one entry a line. *)
Definition meminfo_text (entries : list (string * nat * Z)) : string :=
  List.fold_right (fun e t => mem_entry e.1.1 e.1.2 e.2 +:+ String NL t) "" entries.
(** The last entry of a name. *)
Definition entry_value (name : string) (entries : list (string * nat * Z)) (dflt : Z) : Z :=
  foldl (fun v e => if String.eqb e.1.1 name then e.2 else v) dflt entries.
Definition entry_ok (e : string * nat * Z) : Prop :=
  all_chars (fun c => negb (is_space c)) e.1.1 = true /\ no_char ":" e.1.1 = true /\ (0 <= e.2 < 2 ^ 64)%Z.

Lemma no_space_no_char c s : is_space c = true -> all_chars (fun c => negb (is_space c)) s = true -> no_char c s = true.
Proof.
  intros Hc. apply all_chars_impl. intros d Hd. apply negb_true_iff. destruct (Ascii.eqb_spec c d) as [<-|]; [|done]. by rewrite Hc in Hd.
Qed.
Lemma prefix_sep sep p s t : no_char sep p = true -> no_char sep s = true ->
  HasPrefix (s +:+ String sep t) (p +:+ String sep "") = String.eqb s p.
Proof.
  unfold HasPrefix, no_char. revert s. induction p as [|c p IH]; intros [|d s] Hp Hs; cbn [String.append String.prefix all_chars String.eqb] in *.
  - destruct (ascii_dec sep sep); [by destruct t|done].
  - apply andb_true_iff in Hs as [Hd _]. apply negb_true_iff, Ascii.eqb_neq in Hd. by destruct (ascii_dec sep d).
  - apply andb_true_iff in Hp as [Hd _]. apply negb_true_iff, Ascii.eqb_neq in Hd. by destruct (ascii_dec c sep).
  - apply andb_true_iff in Hs as [_ Hs], Hp as [_ Hp]. destruct (ascii_dec c d) as [->|Hne].
    + by rewrite Ascii.eqb_refl, IH.
    + by assert (Ascii.eqb d c = false) as -> by (apply Ascii.eqb_neq; congruence).
Qed.

Lemma mem_entry_line e : entry_ok e -> no_char NL (mem_entry e.1.1 e.1.2 e.2) = true.
Proof.
  destruct e as [[name pad] kb]. intros (Hn & _ & Hk). unfold mem_entry, no_char. cbn [fst snd] in *. rewrite !all_chars_app. cbn [all_chars].
  assert (forall n s, all_chars (fun d => negb (Ascii.eqb NL d)) (Nat.iter n (String " ") s) = all_chars (fun d => negb (Ascii.eqb NL d)) s) as Hi.
  { intros n s. induction n as [|n IH]; [done|]. exact IH. }
  rewrite Hi, all_chars_app. pose proof (no_space_no_char NL name eq_refl Hn) as H1. unfold no_char in H1. rewrite H1.
  pose proof (Itoa_no_char kb NL eq_refl) as H2. unfold no_char in H2. by rewrite H2.
Qed.
Lemma mem_line_entry acc e : entry_ok e -> mem_line acc (mem_entry e.1.1 e.1.2 e.2) =
  if String.eqb e.1.1 "MemTotal" then (u64 (e.2 * 1024), acc.2)
  else if String.eqb e.1.1 "MemAvailable" then (acc.1, u64 (e.2 * 1024)) else acc.
Proof.
  destruct e as [[name pad] kb]. intros (Hn & Hc & Hk). cbn [fst snd] in *. unfold mem_line. rewrite meminfoKB_entry by done.
  unfold mem_entry. rewrite app_assoc_str. change (":" +:+ ?x) with (String ":" x).
  change "MemTotal:" with ("MemTotal" +:+ String ":" ""). change "MemAvailable:" with ("MemAvailable" +:+ String ":" "").
  by rewrite !prefix_sep.
Qed.

(** What /proc/meminfo says in kB is reported in bytes, in 64-bit arithmetic;
    names other than the two are passed over, and the last entry of a name
    counts. *)
Theorem memInfo_spec entries k : Forall entry_ok entries -> k_meminfo k = Ok (meminfo_text entries) ->
  memInfo k = (u64 (entry_value "MemTotal" entries 0 * 1024), u64 (entry_value "MemAvailable" entries 0 * 1024)).
Proof.
  intros Hok Hk. unfold memInfo. rewrite Hk. clear Hk. unfold entry_value.
  enough (forall a b, foldl mem_line (u64 (a * 1024), u64 (b * 1024)) (Split NL (meminfo_text entries)) =
    (u64 (foldl (fun v e => if String.eqb e.1.1 "MemTotal" then e.2 else v) a entries * 1024),
     u64 (foldl (fun v e => if String.eqb e.1.1 "MemAvailable" then e.2 else v) b entries * 1024))) as H by exact (H 0 0)%Z.
  induction Hok as [|e entries He _ IH]; intros a b; [done|]. cbn [meminfo_text List.fold_right]. fold (meminfo_text entries).
  rewrite Split_app by by apply mem_entry_line. cbn [foldl]. rewrite mem_line_entry by done. cbn [fst snd].
  destruct (String.eqb_spec e.1.1 "MemTotal") as [->|_]; [exact (IH e.2 b)|].
  destruct (String.eqb e.1.1 "MemAvailable"); apply IH.
Qed.

Section call.
Context {S : Type} `{!Store S, !StoreLaws S}.
Context (ab : About) (share : Z -> string -> option Z) (k : Kernel).

Lemma kernel_info_fixed now : let i := kernel_info ab share k now in
  if_LocalTimeUnix i = now /\ if_ActiveSlot i = ab_ActiveSlot ab /\ if_PendingSlot i = "".
Proof.
  cbv zeta. unfold kernel_info. destruct (uname k) as [[r v] m], (memInfo k), (cpuInfo k), (diskInfo k), (thinpoolUsage share k), (permUsage k).
  done.
Qed.
Lemma GetInfo_keeps now (s : S) : store_ok s -> store_ok (GetInfo ab share k now s).2 /\ view (GetInfo ab share k now s).2 = view s.
Proof.
  intros Hs. unfold GetInfo, catch, bind. destruct (negb _); [done|]. pose proof (ost_Get_law s Hs) as H.
  destruct (ost_Get s) as [r s']. by destruct H as (? & ? & _).
Qed.

(** The call never fails, whatever the kernel refuses; it changes nothing, and
    reports the pending update as it is stored. *)
Theorem GetInfo_spec now (s : S) : store_ok s -> ab_OSStateStore ab = true ->
  exists i s', GetInfo ab share k now s = (Ok i, s') /\ store_ok s' /\ view s' = view s /\ (if_LocalTimeUnix i = now)%Z /\ if_ActiveSlot i = ab_ActiveSlot ab /\
    match (ost_Get s).1 with
    | Ok st => v_os (view s) = Some st /\ if_PendingSlot i = os_PendingSlot st /\ if_PendingDeadlineUnix i = os_PendingDeadlineUnix st
    | Err _ => if_PendingSlot i = ""
    end.
Proof.
  intros Hs Hab. unfold GetInfo. rewrite Hab. cbn [negb]. unfold catch, bind. pose proof (ost_Get_law s Hs) as H.
  destruct (kernel_info_fixed now) as (H1 & H2 & H3). set (i := kernel_info ab share k now) in *. clearbody i.
  destruct (ost_Get s) as [[st|e] s']; destruct H as (Hok & Hv & H); [exists (with_pending st i), s'|exists i, s']; by split_and!.
Qed.
End call.

(** ** A concrete machine *)

Module InfoDemo.
Definition entries : list (string * nat * Z) := [("MemTotal", 8%nat, 2027548%Z); ("MemFree", 9%nat, 1000000%Z); ("MemAvailable", 3%nat, 1500000%Z)].
Definition meminfo : string := meminfo_text entries.
Definition kernel : Kernel := mkKernel (Ok "capsule-6f1c") (Ok ("6.12.1" +:+ String (chr 0) "", "#1 SMP", "x86_64")) (Ok 93784%Z) (Ok meminfo) 4
  (Err (Sentinel OsNotExist)) (mkSys (Err (Sentinel OsNotExist)) (Ok []) ∅) (fun _ => Ok 0%Z) (Ok "  10737418240  42.50") (Ok (4096, 1000, 250)%Z).
Definition about : About := mkAbout "1.4.0" "slot_a" "capsule-6f1c" true.
Definition share (total : Z) (percent : string) : option Z := if String.eqb percent "42.50" then Some (total * 4250 / 10000)%Z else None.
End InfoDemo.

Lemma memInfo_spec_witness : memInfo InfoDemo.kernel = (2027548 * 1024, 1500000 * 1024)%Z /\
  thinpoolUsage InfoDemo.share InfoDemo.kernel = (10737418240, 4563402752)%Z /\ permUsage InfoDemo.kernel = (4096000, 3072000)%Z.
Proof.
  split; [|by vm_compute]. etransitivity; [apply (memInfo_spec InfoDemo.entries InfoDemo.kernel); [repeat constructor; discriminate|reflexivity]|by vm_compute].
Defined.
