(* ===== verification/Server.v ===== *)
(** * The server: router/router.go over the controllers

    One capsule: the store that all services share, the drivers, the volumes,
    the claim window, the update machinery.  A call goes through the gate of
    auth/ and then to the handler of its method; every handler works on its part
    of the capsule. *)

From S2P Require Import Prelude GoStrings Bytes Models Store MemoryStore Runtime WorkloadService VolumeService Auth Mdns Identity Update Streams Copy Images Controllers Info.

Set Default Goal Selector "!".
Local Open Scope go_scope.

(** ** The capsule *)

Record Srv (S C V L : Type) := mkSrv {
  sv_node : Node S C V;              (* the store and the drivers *)
  sv_lvm : L;
  sv_claim : ClaimWindow;
  sv_mdns : option Announcer;
  sv_up : UWorld unit;               (* devices, boot partition and timer of core/update *)
  sv_reboots : list Z }.             (* the delays of the reboots that goroutines wait for *)
Arguments mkSrv {S C V L}.
Arguments sv_node {S C V L}.
Arguments sv_lvm {S C V L}.
Arguments sv_claim {S C V L}.
Arguments sv_mdns {S C V L}.
Arguments sv_up {S C V L}.
Arguments sv_reboots {S C V L}.

Section parts.
Context {S C V L : Type}.
Abbreviation srv := (Srv S C V L).
Implicit Types s : srv.

Definition sv_store s : S := n_store (sv_node s).
Definition put_store (x : S) (n : Node S C V) : Node S C V := mkNode x (n_ctr n) (n_vm n) (n_wake n).
Definition set_node (n : Node S C V) s : srv := mkSrv n (sv_lvm s) (sv_claim s) (sv_mdns s) (sv_up s) (sv_reboots s).

Definition in_node {A} : prog (Node S C V) A -> prog srv A := zoom sv_node set_node.
Definition in_volumes {A} : prog (VNode S L) A -> prog srv A :=
  zoom (fun s => mkVNode (sv_store s) (sv_lvm s))
       (fun v s => mkSrv (put_store (vn_store v) (sv_node s)) (vn_lvm v) (sv_claim s) (sv_mdns s) (sv_up s) (sv_reboots s)).
Definition in_identity {A} : prog (IWorld S) A -> prog srv A :=
  zoom (fun s => mkIWorld (sv_store s) (sv_claim s) (sv_mdns s))
       (fun w s => mkSrv (put_store (iw_store w) (sv_node s)) (sv_lvm s) (iw_claim w) (iw_mdns w) (sv_up s) (sv_reboots s)).
Definition up_with {T T'} (x : T') (u : UWorld T) : UWorld T' :=
  mkUWorld x (u_dev u) (u_stage u) (u_boot u) (u_mounted u) (u_timer u) (u_reboots u) (u_faults u).
Definition in_update {A} : prog (UWorld S) A -> prog srv A :=
  zoom (fun s => up_with (sv_store s) (sv_up s))
       (fun u s => mkSrv (put_store (u_store u) (sv_node s)) (sv_lvm s) (sv_claim s) (sv_mdns s) (up_with tt u) (sv_reboots s)).
Definition schedule_reboot (delay : Z) : prog srv unit := fun s =>
  (Ok tt, mkSrv (sv_node s) (sv_lvm s) (sv_claim s) (sv_mdns s) (sv_up s) (sv_reboots s ++ [delay])).
End parts.

(** ** Calls *)

Inductive Request :=
  | RqApply (w : option Workload) | RqGet (name : string) | RqList | RqDelete (name : string)
  | RqRestart (name : string) | RqStop (name : string) | RqStart (name : string)
  | RqLogs (q : LogsRequest) | RqExec (first : option ExecRequest)
  (* the first message or the request, what tar wrote to stderr, how the stream ended, the bytes received *)
  | RqCopyTo (first : option (string * string)) (errBuf : string) (recv : result unit) (bytesIn : Z)
  | RqCopyFrom (name src errBuf : string) (send : result unit)
  | RqVolCreate (name : string) (sizeMiB : Z) | RqVolGet (name : string) | RqVolList
  | RqVolDelete (name : string) (force : bool) | RqVolResize (name : string) (newSizeMiB : Z)
  | RqImageList | RqImagePush (first : result bool) (chunks : list string) (rest : option error)
  | RqAdopt (pubkey name : string) | RqWhoAmI | RqKeyAdd (pubkey name : string) | RqKeyList | RqKeyRemove (kid : string)
  | RqGetInfo | RqStreamLogs (follow : bool) (tailLines : Z)
  | RqUpdateOS (q : UpdateRequest) | RqUpdateConfirm | RqRebootNode.

Definition service (name : string) : string := "/capsule.v1." +:+ name +:+ "/".
Definition method (q : Request) : string :=
  match q with
  | RqApply _ => service "WorkloadService" +:+ "Apply"
  | RqGet _ => service "WorkloadService" +:+ "Get"
  | RqList => service "WorkloadService" +:+ "List"
  | RqDelete _ => service "WorkloadService" +:+ "Delete"
  | RqRestart _ => service "WorkloadService" +:+ "Restart"
  | RqStop _ => service "WorkloadService" +:+ "Stop"
  | RqStart _ => service "WorkloadService" +:+ "Start"
  | RqLogs _ => service "WorkloadService" +:+ "Logs"
  | RqExec _ => service "WorkloadService" +:+ "Exec"
  | RqCopyTo _ _ _ _ => service "WorkloadService" +:+ "CopyTo"
  | RqCopyFrom _ _ _ _ => service "WorkloadService" +:+ "CopyFrom"
  | RqVolCreate _ _ => service "VolumeService" +:+ "Create"
  | RqVolGet _ => service "VolumeService" +:+ "Get"
  | RqVolList => service "VolumeService" +:+ "List"
  | RqVolDelete _ _ => service "VolumeService" +:+ "Delete"
  | RqVolResize _ _ => service "VolumeService" +:+ "Resize"
  | RqImageList => service "ImageService" +:+ "List"
  | RqImagePush _ _ _ => service "ImageService" +:+ "Push"
  | RqAdopt _ _ => service "IdentityService" +:+ "Adopt"
  | RqWhoAmI => service "IdentityService" +:+ "WhoAmI"
  | RqKeyAdd _ _ => service "IdentityService" +:+ "KeyAdd"
  | RqKeyList => service "IdentityService" +:+ "KeyList"
  | RqKeyRemove _ => service "IdentityService" +:+ "KeyRemove"
  | RqGetInfo => service "CapsuleService" +:+ "GetInfo"
  | RqStreamLogs _ _ => service "CapsuleService" +:+ "StreamLogs"
  | RqUpdateOS _ => service "CapsuleService" +:+ "UpdateOS"
  | RqUpdateConfirm => service "CapsuleService" +:+ "UpdateConfirm"
  | RqRebootNode => service "CapsuleService" +:+ "RebootNode"
  end.

Inductive Reply :=
  | RpWorkload (w : Workload) | RpWorkloads (l : list Workload) | RpEmpty | RpChunks (l : list string) | RpExit (code : Z) | RpReceived (bytes : Z)
  | RpVolume (v : Volume) | RpVolumes (l : list Volume)
  | RpImages (l : list Image) | RpPushed (refs : list string) (received : Z)
  | RpAdopted (r : AdoptResponse) | RpWho (r : WhoAmIResponse) | RpKey (k : KeyInfo) | RpKeys (l : list KeyInfo)
  | RpInfo (i : InfoResponse) | RpUpdated (slot version : string) | RpReboot.

Definition answer {W A} (f : A -> Reply) (m : prog W A) : prog W Reply := a <- m ;; ret (f a).
Definition no_content {W} : prog W unit -> prog W Reply := answer (fun _ => RpEmpty).

(** What [router.Config] and the controllers were built with. *)
Record Wiring := mkWiring {
  wi_cfg : Config;
  wi_images : bool;                               (* is there an image store? *)
  wi_registers : string -> option error;
  wi_fingerprint : string;
  wi_sha256 : string -> string;
  wi_find_partition : Z -> result string;
  wi_ActiveSlot : string;
  wi_tar : string -> option error -> list Member * result unit;
  wi_has_update : bool;
  wi_RebootDelay : Z;
  wi_files : string -> result string;
  wi_rounds : Opened -> list log_read;
  wi_LogPath : string;
  wi_about : About;
  wi_share : Z -> string -> option Z;
  wi_kernel : Kernel }.

Section handlers.
Context {S C V L : Type} `{!Store S, !ContainerDriver C, !VMDriver V, !LVM L, !CtrImages C} {TL : TokenLib}.
Context (wi : Wiring).
Abbreviation srv := (Srv S C V L).

Definition stream_logs (q : LogsRequest) : prog (Node S C V) Reply := fun n =>
  let '(sent, out, n) := ctl_Logs (wi_cfg wi) (wi_files wi) (wi_rounds wi) q n in
  (match out with Some (Err e) => Err e | _ => Ok (RpChunks sent) end, n).
Definition capsule_logs_call (follow : bool) (tailLines : Z) : prog srv Reply := fun s =>
  let path := wi_LogPath wi in
  let rounds off := wi_rounds wi (OpenedFile path (match wi_files wi path with Ok content => content | Err _ => "" end) off) in
  (match (StreamLogs path (wi_files wi path) follow tailLines rounds) with (_, Some (Err e)) => Err e | (sent, _) => Ok (RpChunks sent) end, s).
Definition exec_call (first : option ExecRequest) : prog (Node S C V) Z :=
  q <- lift (ctl_Exec_start first) ;; on_error (with_code CodeInternal) (Exec (wi_cfg wi) q).
Definition copy_to_call (first : option (string * string)) (errBuf : string) (recv : result unit) (bytesIn : Z) : prog (Node S C V) Z :=
  q <- lift (CopyTo_start first) ;; r <- catch (Exec (wi_cfg wi) q) ;; lift (CopyTo_answer (ex_Name q) r errBuf recv bytesIn).
Definition copy_from_call (name src errBuf : string) (send : result unit) : prog (Node S C V) unit :=
  q <- lift (CopyFrom_start name src) ;; r <- catch (Exec (wi_cfg wi) q) ;; lift (CopyFrom_answer name src r errBuf send).
Definition update_call (now : Z) (q : UpdateRequest) : prog srv Reply :=
  r <- in_update (UpdateOS (wi_sha256 wi) (wi_find_partition wi) (wi_ActiveSlot wi) (wi_tar wi) (wi_has_update wi) (wi_RebootDelay wi) now q) ;;
  schedule_reboot r.2 ;;;
  ret (RpUpdated r.1.1 r.1.2).
Definition reboot_call : prog srv Reply :=
  d <- in_update (RebootNode (wi_has_update wi) (wi_RebootDelay wi)) ;; schedule_reboot d ;;; ret RpReboot.

Definition handle (now : Z) (q : Request) (ctx : Ctx) : prog srv Reply :=
  let cfg := wi_cfg wi in
  match q with
  | RqApply w => in_node (answer RpWorkload (ctl_Apply cfg w))
  | RqGet name => in_node (answer RpWorkload (ctl_Get name))
  | RqList => in_node (answer RpWorkloads ctl_List)
  | RqDelete name => in_node (no_content (ctl_Delete cfg name))
  | RqRestart name => in_node (no_content (ctl_Restart cfg name))
  | RqStop name => in_node (no_content (ctl_Stop cfg name))
  | RqStart name => in_node (no_content (ctl_Start cfg name))
  | RqLogs q => in_node (stream_logs q)
  | RqExec first => in_node (answer RpExit (exec_call first))
  | RqCopyTo first errBuf recv n => in_node (answer RpReceived (copy_to_call first errBuf recv n))
  | RqCopyFrom name src errBuf send => in_node (no_content (copy_from_call name src errBuf send))
  | RqVolCreate name size => in_volumes (answer RpVolume (ctl_vol_Create now name size))
  | RqVolGet name => in_volumes (answer RpVolume (ctl_vol_Get name))
  | RqVolList => in_volumes (answer RpVolumes ctl_vol_List)
  | RqVolDelete name force => in_volumes (no_content (ctl_vol_Delete name force))
  | RqVolResize name size => in_volumes (answer RpVolume (ctl_vol_Resize name size))
  | RqImageList => in_node (answer RpImages (in_ctr (ctl_Image_List (wi_images wi))))
  | RqImagePush first chunks rest => in_node (answer (fun r => RpPushed r.1 r.2) (in_ctr (Push (wi_images wi) first chunks rest)))
  | RqAdopt pubkey name => in_identity (answer RpAdopted (Adopt (wi_registers wi) (wi_fingerprint wi) now pubkey name))
  | RqWhoAmI => in_identity (answer RpWho (WhoAmI ctx))
  | RqKeyAdd pubkey name => in_identity (answer RpKey (KeyAdd now ctx pubkey name))
  | RqKeyList => in_identity (answer RpKeys KeyList)
  | RqKeyRemove kid => in_identity (no_content (KeyRemove ctx kid))
  | RqGetInfo => in_node (answer RpInfo (in_store (GetInfo (wi_about wi) (wi_share wi) (wi_kernel wi) now)))
  | RqStreamLogs follow tailLines => capsule_logs_call follow tailLines
  | RqUpdateOS q => update_call now q
  | RqUpdateConfirm => in_update (answer (fun r => RpUpdated r.1 r.2) (UpdateConfirm (wi_ActiveSlot wi) (wi_has_update wi) now))
  | RqRebootNode => reboot_call
  end.

(** The key lookup of the authenticator reads the same store. *)
Definition lookup_of (s : srv) (kid : string) : option string :=
  match (lookup_key kid (mkIWorld (sv_store s) (sv_claim s) (sv_mdns s))).1 with Ok o => o | Err _ => None end.
(** A call as the server runs it. *)
Definition serve (now : Z) (ctx : Ctx) (q : Request) : prog (Authenticator * srv) Reply := fun w =>
  Unary now (lookup_of w.2) (method q) (handle now q) ctx w.
End handlers.

(** ** Frames

    An operation of one table leaves the others alone; so does every handler
    that works on its part of the store. *)

Section frames.
Context {S : Type} `{!Store S, !StoreLaws S}.

Definition frames {A B} (off : StoreView -> B) (op : prog S A) : Prop :=
  forall x, store_ok x -> store_ok (op x).2 /\ off (view (op x).2) = off (view x).
(** The store of [w] is sound and shows [F] beside a service's own tables. *)
Definition shows {W B} (get : W -> S) (off : StoreView -> B) (F : B) (w : W) : Prop :=
  store_ok (get w) /\ off (view (get w)) = F.

Lemma preserves_zoom_store {W A B} (get : W -> S) set (off : StoreView -> B) F (op : prog S A) :
  (forall x w, get (set x w) = x) -> frames off op -> preserves (shows get off F) (zoom get set op).
Proof.
  intros Hg Ho w [Hok HF]. specialize (Ho (get w) Hok). unfold zoom, shows in *. destruct (op (get w)) as [r x]. cbn in *. rewrite Hg.
  destruct Ho as [? ->]. by split.
Qed.

Definition off_volumes (v : StoreView) := (v_workloads v, v_os v, v_identity v, v_keys v).
Definition off_identity (v : StoreView) := (v_workloads v, v_volumes v, v_os v).
Definition off_os (v : StoreView) := (v_workloads v, v_volumes v, v_identity v, v_keys v).

Ltac by_law law :=
  let H := fresh "H" in let x := fresh "x" in let Hx := fresh "Hx" in
  intros x Hx; pose proof (law x Hx) as H;
  repeat match type of H with context [match ?m x with _ => _ end] => destruct (m x) as [[?|?] ?] end;
  cbn [fst snd]; naive_solver congruence.

Lemma frame_wst_List {B} (off : StoreView -> B) : frames off wst_List.
Proof. by_law wst_List_law. Qed.
Lemma frame_vst_Get {B} (off : StoreView -> B) n : frames off (vst_Get n).
Proof. by_law (vst_Get_law n). Qed.
Lemma frame_vst_List {B} (off : StoreView -> B) : frames off vst_List.
Proof. by_law vst_List_law. Qed.
Lemma frame_vst_Put now v : vol_name v <> "" -> frames off_volumes (vst_Put now v).
Proof.
  intros Hn x Hx. pose proof (vst_Put_law now v x Hx Hn) as H. destruct (vst_Put now v x) as [[u|e] x']; cbn.
  - by destruct H as (? & v' & -> & _).
  - by destruct H as (? & ->).
Qed.
Lemma frame_vst_Delete n : frames off_volumes (vst_Delete n).
Proof. intros x Hx. pose proof (vst_Delete_law n x Hx) as H. destruct (vst_Delete n x) as [[u|e] x']; cbn; by destruct H as (? & ->). Qed.
Lemma frame_ost_Get {B} (off : StoreView -> B) : frames off ost_Get.
Proof. by_law ost_Get_law. Qed.
Lemma frame_ost_Put now st : frames off_os (ost_Put now st).
Proof.
  intros x Hx. pose proof (ost_Put_law now st x Hx) as H. destruct (ost_Put now st x) as [[u|e] x']; cbn.
  - by destruct H as (? & v' & -> & _).
  - by destruct H as (? & ->).
Qed.
Lemma frame_ist_Get {B} (off : StoreView -> B) : frames off ist_Get.
Proof. by_law ist_Get_law. Qed.
Lemma frame_ist_Put now id : frames off_identity (ist_Put now id).
Proof. intros x Hx. pose proof (ist_Put_law now id x Hx) as H. destruct (ist_Put now id x) as [[u|e] x']; cbn; by destruct H as (? & ->). Qed.
Lemma frame_kst_Get {B} (off : StoreView -> B) n : frames off (kst_Get n).
Proof. by_law (kst_Get_law n). Qed.
Lemma frame_kst_List {B} (off : StoreView -> B) : frames off kst_List.
Proof. by_law kst_List_law. Qed.
Lemma frame_kst_Count {B} (off : StoreView -> B) : frames off kst_Count.
Proof. by_law kst_Count_law. Qed.
Lemma frame_kst_Add now k : frames off_identity (kst_Add now k).
Proof. intros x Hx. pose proof (kst_Add_law now k x Hx) as H. destruct (kst_Add now k x) as [[u|e] x']; cbn; [by destruct H as (? & _ & ->)|by destruct H as (? & -> & _)]. Qed.
Lemma frame_kst_Delete n : frames off_identity (kst_Delete n).
Proof. intros x Hx. pose proof (kst_Delete_law n x Hx) as H. destruct (kst_Delete n x) as [[u|e] x']; cbn; by destruct H as (? & ->). Qed.
End frames.

Create HintDb frames.
#[export] Hint Resolve frame_wst_List frame_vst_Get frame_vst_List frame_vst_Delete frame_ost_Get frame_ost_Put frame_ist_Get frame_ist_Put
  frame_kst_Get frame_kst_List frame_kst_Count frame_kst_Add frame_kst_Delete : frames.

Section handler_frames.
Context {S C V L : Type} `{!Store S, !ContainerDriver C, !VMDriver V, !LVM L, !CtrImages C} {TL : TokenLib}.
Context `{!StoreLaws S, !DriverLaws C, !DriverLaws V}.
Context (wi : Wiring).

(** *** Volumes *)

Abbreviation vol_shows := (shows (vn_store (S:=S) (D:=L)) off_volumes).
Lemma vol_store {A} F (op : prog S A) : frames off_volumes op -> preserves (vol_shows F) (on_store op).
Proof. by apply preserves_zoom_store. Qed.
Lemma vol_lvm {A} F (m : prog L A) : preserves (vol_shows F) (on_lvm m).
Proof. intros n Hn. unfold on_lvm, zoom. by destruct (m (vn_lvm n)). Qed.
Hint Extern 2 (preserves _ (on_store _)) => apply vol_store; eauto with frames : preserves.
Hint Extern 2 (preserves _ (on_lvm _)) => apply vol_lvm : preserves.

Lemma populate_frame F v : preserves (vol_shows F) (populateDerived v).
Proof. unfold populateDerived. go_preserves. Qed.
Lemma derive_frame F ws vs : preserves (vol_shows F) (derive_all ws vs).
Proof. induction vs as [|v vs IH]; cbn [derive_all]; go_preserves. Qed.
Lemma refsTo_frame F name : preserves (vol_shows F) (refsTo name).
Proof. unfold refsTo. go_preserves. Qed.
Hint Resolve populate_frame derive_frame refsTo_frame : preserves.

Lemma Create_frame F now name size : preserves (vol_shows F) (ctl_vol_Create now name size).
Proof.
  apply preserves_on_error. unfold vol_Create. apply (preserves_bind_post _ (fun _ => vol_validateName name = Ok tt)).
  - go_preserves.
  - intros w [] w' H. by injection H.
  - intros _ Hn. assert (name <> "") by (by intros ->). go_preserves.
    apply vol_store, frame_vst_Put. done.
Qed.
Lemma vGet_frame F name : preserves (vol_shows F) (ctl_vol_Get name).
Proof. apply preserves_on_error. unfold vol_Get. go_preserves. Qed.
Lemma vList_frame F : preserves (vol_shows F) ctl_vol_List.
Proof. apply preserves_on_error. unfold vol_List. go_preserves. Qed.
Lemma vDelete_frame F name force : preserves (vol_shows F) (ctl_vol_Delete name force).
Proof. apply preserves_on_error. unfold vol_Delete. go_preserves. Qed.
Lemma vResize_frame F name size : preserves (vol_shows F) (ctl_vol_Resize name size).
Proof. apply preserves_on_error. unfold vol_Resize. go_preserves. Qed.

(** *** Identity *)

Abbreviation id_shows := (shows (iw_store (S:=S)) off_identity).
Lemma id_store {A} F (op : prog S A) : frames off_identity op -> preserves (id_shows F) (istore op).
Proof. by apply preserves_zoom_store. Qed.
Lemma preserves_status_of {W A} (inv : W -> Prop) c pre (m : prog W A) : preserves inv m -> preserves inv (status_of c pre m).
Proof. intros H w Hw. specialize (H w Hw). unfold status_of. by destruct (m w) as [[]]. Qed.
Hint Extern 2 (preserves _ (istore _)) => apply id_store; eauto with frames : preserves.
Hint Extern 2 (preserves _ (status_of _ _ _)) => apply preserves_status_of : preserves.
Lemma mark_frame F registers : preserves (id_shows F) (mark_adopted registers).
Proof. intros w Hw. unfold mark_adopted. by destruct (iw_mdns w). Qed.
Lemma claim_frame F : preserves (id_shows F) claim_Open /\ preserves (id_shows F) claim_Close.
Proof. by split; intros w Hw. Qed.
Hint Resolve mark_frame : preserves.
Hint Extern 2 (preserves _ claim_Open) => apply claim_frame : preserves.
Hint Extern 2 (preserves _ claim_Close) => apply claim_frame : preserves.

Lemma Adopt_frame F registers fp now pubkey name : preserves (id_shows F) (Adopt registers fp now pubkey name).
Proof. unfold Adopt, adopt_open, adopt_closed. go_preserves. Qed.
Lemma WhoAmI_frame F ctx : preserves (id_shows F) (WhoAmI ctx).
Proof. unfold WhoAmI. go_preserves. Qed.
Lemma KeyAdd_frame F now ctx pubkey name : preserves (id_shows F) (KeyAdd now ctx pubkey name).
Proof. unfold KeyAdd. go_preserves. Qed.
Lemma KeyList_frame F : preserves (id_shows F) KeyList.
Proof. unfold KeyList. go_preserves. Qed.
Lemma KeyRemove_frame F ctx kid : preserves (id_shows F) (KeyRemove ctx kid).
Proof. unfold KeyRemove, key_remove_check, key_remove_commit. go_preserves. Qed.

(** *** Updates *)

Abbreviation up_shows := (shows (u_store (S:=S)) off_os).
Lemma up_store {A} F (op : prog S A) : frames off_os op -> preserves (up_shows F) (state op).
Proof. by apply preserves_zoom_store. Qed.
Hint Extern 2 (preserves _ (state _)) => apply up_store; eauto with frames : preserves.
Lemma up_keeps {A} F (m : prog (UWorld S) A) : keeps u_store m -> preserves (up_shows F) m.
Proof. intros H w Hw. unfold shows. by rewrite (H w). Qed.

Lemma receive_keeps_store find_partition sha256 tar s sz sha slot : keeps u_store (receive_stream (S:=S) sha256 find_partition tar s sz sha slot).
Proof.
  destruct (find_partition (slotPartitionNumber slot)) as [dev|e] eqn:E.
  - intros w. pose proof (keeps_receive_stream sha256 find_partition tar dev s sz sha slot E w) as H. by injection H.
  - unfold receive_stream. rewrite E. go_keeps; by apply keeps_pure_call.
Qed.
Lemma Receive_frame F now sha256 find_partition active tar s sz sha : preserves (up_shows F) (ReceiveBundle sha256 find_partition active tar now s sz sha).
Proof.
  unfold ReceiveBundle, record_pending. go_preserves; apply up_keeps; [apply receive_keeps_store|].
  intros w. pose proof (keeps_stage_boot sha256 a0 (otherSlot active) w) as H. by injection H.
Qed.
Lemma UpdateOS_frame F now q : preserves (up_shows F)
  (UpdateOS (wi_sha256 wi) (wi_find_partition wi) (wi_ActiveSlot wi) (wi_tar wi) (wi_has_update wi) (wi_RebootDelay wi) now q).
Proof. unfold UpdateOS. go_preserves. apply preserves_on_error, Receive_frame. Qed.
Lemma UpdateConfirm_frame F now : preserves (up_shows F) (UpdateConfirm (wi_ActiveSlot wi) (wi_has_update wi) now).
Proof.
  unfold UpdateConfirm. go_preserves. apply preserves_on_error. unfold Confirm. go_preserves. by apply up_keeps.
Qed.

(** *** One call *)

Abbreviation srv := (Srv S C V L).
(** The rows of the store are valid, every key is filed under its kid. *)
Definition srv_ok (s : srv) : Prop :=
  node_ok (sv_node s) /\ map_Forall key_ok (v_keys (view (sv_store s))) /\ claim_ok (sv_claim s).
(** Adopted: a key is enrolled and the claim window is closed. *)
Definition sealed (s : srv) : Prop := cw_open (sv_claim s) = false /\ v_keys (view (sv_store s)) <> ∅.
Definition evolves (s s' : srv) : Prop := srv_ok s' /\ (sealed s -> sealed s').

Lemma node_evolves {A} (m : prog (Node S C V) A) s : (forall F, preserves (node_with F) m) -> srv_ok s -> evolves s (in_node m s).2.
Proof.
  intros Hm (Hn & Hk & Hc). destruct (Hm _ (sv_node s) (conj Hn eq_refl)) as [Hn' HF]. unfold evolves, srv_ok, sealed, sv_store, in_node, zoom in *.
  destruct (m (sv_node s)) as [r n']. cbn in *. injection HF as _ _ _ ->. by split_and!.
Qed.
Lemma volumes_evolve {A} (m : prog (VNode S L) A) s : (forall F, preserves (vol_shows F) m) -> srv_ok s -> evolves s (in_volumes m s).2.
Proof.
  intros Hm (Hn & Hk & Hc). destruct (Hm _ (mkVNode (sv_store s) (sv_lvm s)) (conj (proj1 Hn) eq_refl)) as [Ho HF]. unfold in_volumes, zoom.
  destruct (m (mkVNode (sv_store s) (sv_lvm s))) as [r v']. unfold evolves, srv_ok, node_ok, sealed, rows, put_store, sv_store in *. cbn in *. injection HF as -> _ _ ->.
  destruct Hn as [_ Hn]. by split_and!.
Qed.
Lemma update_evolves {A} (m : prog (UWorld S) A) s : (forall F, preserves (up_shows F) m) -> srv_ok s -> evolves s (in_update m s).2.
Proof.
  intros Hm (Hn & Hk & Hc). destruct (Hm _ (up_with (sv_store s) (sv_up s)) (conj (proj1 Hn) eq_refl)) as [Ho HF]. unfold in_update, zoom.
  destruct (m (up_with (sv_store s) (sv_up s))) as [r u']. unfold evolves, srv_ok, node_ok, sealed, rows, put_store, sv_store in *. cbn in *. injection HF as -> _ _ ->.
  destruct Hn as [_ Hn]. by split_and!.
Qed.
(** What the identity handlers keep. *)
Definition id_good {A} (m : prog (IWorld S) A) : Prop := (forall F, preserves (id_shows F) m) /\
  forall w, iworld_ok w -> let w' := (m w).2 in
    iworld_ok w' /\ (cw_open (iw_claim w) = false -> ikeys w <> ∅ -> cw_open (iw_claim w') = false /\ ikeys w' <> ∅).
Lemma identity_evolves {A} (m : prog (IWorld S) A) s : id_good m -> srv_ok s -> evolves s (in_identity m s).2.
Proof.
  intros [Hm Hg] (Hn & Hk & Hc). destruct (Hm _ (mkIWorld (sv_store s) (sv_claim s) (sv_mdns s)) (conj (proj1 Hn) eq_refl)) as [Ho HF].
  specialize (Hg (mkIWorld (sv_store s) (sv_claim s) (sv_mdns s))). unfold in_identity, zoom. destruct (m (mkIWorld (sv_store s) (sv_claim s) (sv_mdns s))) as [r w'].
  unfold evolves, srv_ok, node_ok, sealed, rows, iworld_ok, ikeys, put_store, sv_store in *. cbn in *. injection HF as -> _ _. destruct Hg as [(? & ? & ?) Hs]; [by split_and!; [apply Hn|..]|]. split; [split_and!; [done|apply Hn|done|done]|].
  intros [? ?]. by apply Hs.
Qed.
Lemma evolves_refl s : srv_ok s -> evolves s s.
Proof. by split. Qed.
Lemma evolves_trans s1 s2 s3 : evolves s1 s2 -> evolves s2 s3 -> evolves s1 s3.
Proof. intros [_ H1] [? H2]. split; [done|auto]. Qed.

Lemma Adopt_good registers fp now pubkey name : id_good (Adopt registers fp now pubkey name).
Proof.
  split; [intros F; apply Adopt_frame|]. intros w Hw. destruct (Adopt registers fp now pubkey name w) as [r w'] eqn:E.
  apply Adopt_cases in E as (Hw' & Hx & Hc & _); [|done]. split; [done|]. intros Ho Hne. cbn. destruct (Hc Ho) as (-> & _ & ->). done.
Qed.
Lemma KeyAdd_good now ctx pubkey name : id_good (KeyAdd now ctx pubkey name).
Proof.
  split; [intros F; apply KeyAdd_frame|]. intros w Hw. destruct (KeyAdd now ctx pubkey name w) as [r w'] eqn:E.
  apply KeyAdd_cases in E as (Hw' & _ & Hc & Hx & _); [|done]. split; [done|]. intros Ho Hne. cbn. rewrite Hc. split; [done|].
  by eapply keys_extend_nonempty.
Qed.
Lemma KeyRemove_good ctx kid : id_good (KeyRemove ctx kid).
Proof.
  split; [intros F; apply KeyRemove_frame|]. intros w Hw. split.
  - destruct (KeyRemove ctx kid w) as [r w'] eqn:E. by apply KeyRemove_cases in E as (Hw' & _); [|done].
  - intros Ho Hne. by destruct (run_id_step (fun _ => None) "" (CallKeyRemove ctx kid) w Hw Ho Hne) as (_ & ? & ? & _).
Qed.
(** A handler that reads. *)
Lemma reads_good {A} (m : prog (IWorld S) A) : (forall F, preserves (id_shows F) m) -> (forall F, preserves (shows iw_store v_keys F) m) ->
  keeps iw_claim m -> id_good m.
Proof.
  intros Hm Hk Hc. split; [done|]. intros w (Ho & Hok & Hcl). specialize (Hk _ w (conj Ho eq_refl)). specialize (Hc w).
  unfold iworld_ok, ikeys, shows in *. destruct (m w) as [r w']. cbn in *. destruct Hk as [Ho' ->]. by rewrite Hc.
Qed.
Lemma keys_store {A} F (op : prog S A) : frames v_keys op -> preserves (shows (iw_store (S:=S)) v_keys F) (istore op).
Proof. by apply preserves_zoom_store. Qed.
Lemma istore_claim {A} (op : prog S A) : keeps iw_claim (istore op).
Proof. intros w. unfold istore, zoom. by destruct (op (iw_store w)). Qed.
Lemma keeps_status_of {W B A} (f : W -> B) c pre (m : prog W A) : keeps f m -> keeps f (status_of c pre m).
Proof. intros H w. specialize (H w). unfold status_of. by destruct (m w) as [[]]. Qed.
Hint Extern 2 (preserves (shows _ v_keys _) (istore _)) => apply keys_store; eauto with frames : preserves.
Hint Extern 2 (keeps _ (status_of _ _ _)) => apply keeps_status_of : keeps.
Hint Resolve istore_claim : keeps.
Lemma WhoAmI_good ctx : id_good (WhoAmI ctx).
Proof. apply reads_good; [intros F; apply WhoAmI_frame|intros F; unfold WhoAmI; go_preserves|unfold WhoAmI; go_keeps]. Qed.
Lemma KeyList_good : id_good KeyList.
Proof. apply reads_good; [intros F; apply KeyList_frame|intros F; unfold KeyList; go_preserves|unfold KeyList; go_keeps]. Qed.

Lemma answer_preserves {W A} (inv : W -> Prop) (f : A -> Reply) (m : prog W A) : preserves inv m -> preserves inv (answer f m).
Proof. intros H. unfold answer. go_preserves. Qed.
Lemma answer_good {A} (f : A -> Reply) (m : prog (IWorld S) A) : id_good m -> id_good (answer f m).
Proof.
  intros [H1 H2]. split; [intros F; by apply answer_preserves|]. intros w Hw. specialize (H2 w Hw). unfold answer, bind.
  by destruct (m w) as [[a|e] w'].
Qed.
Lemma stream_logs_preserves F q : preserves (node_with F) (stream_logs wi q).
Proof.
  intros n Hn. assert (preserves (node_with F) (logs_open (wi_cfg wi) (wi_files wi) q)) as H.
  { unfold logs_open, open_stream. go_preserves; apply preserves_on_error; auto with preserves. }
  specialize (H n Hn). unfold stream_logs, ctl_Logs. destruct (logs_open _ _ q n) as [[o|e] n']; [|done]. by destruct (streamReaderToLogs _ _).
Qed.
Lemma exec_call_preserves F first : preserves (node_with F) (exec_call wi first).
Proof. unfold exec_call. go_preserves; apply preserves_on_error; auto with preserves. Qed.

Lemma GetInfo_preserves F now : preserves (node_with F) (in_store (C:=C) (V:=V) (GetInfo (wi_about wi) (wi_share wi) (wi_kernel wi) now)).
Proof.
  intros n [[Hok Hrows] HF]. unfold in_store, zoom. pose proof (GetInfo_keeps (wi_about wi) (wi_share wi) (wi_kernel wi) now (n_store n) Hok) as [H1 H2].
  destruct (GetInfo _ _ _ now (n_store n)) as [r x]. unfold node_with, node_ok, rows in *. cbn in *. by rewrite H2.
Qed.

Lemma handle_evolves now q ctx s : srv_ok s -> evolves s (handle wi now q ctx s).2.
Proof.
  intros Hs. destruct q; cbn [handle]; try (apply node_evolves; [intros F; unfold no_content; apply answer_preserves|done]).
  - unfold ctl_Apply. go_preserves; apply preserves_on_error; auto with preserves.
  - apply preserves_on_error. apply ri_Get.
  - apply preserves_on_error, ri_List.
  - apply preserves_on_error. auto with preserves.
  - apply preserves_on_error. auto with preserves.
  - apply preserves_on_error. auto with preserves.
  - apply preserves_on_error. auto with preserves.
  - apply node_evolves; [|done]. intros F. apply stream_logs_preserves.
  - apply exec_call_preserves.
  - unfold copy_to_call. go_preserves.
  - unfold copy_from_call. go_preserves.
  - apply volumes_evolve; [|done]. intros F. apply answer_preserves, Create_frame.
  - apply volumes_evolve; [|done]. intros F. apply answer_preserves, vGet_frame.
  - apply volumes_evolve; [|done]. intros F. apply answer_preserves, vList_frame.
  - apply volumes_evolve; [|done]. intros F. unfold no_content. apply answer_preserves, vDelete_frame.
  - apply volumes_evolve; [|done]. intros F. apply answer_preserves, vResize_frame.
  - apply ri_ctr.
  - apply ri_ctr.
  - apply identity_evolves; [|done]. apply answer_good, Adopt_good.
  - apply identity_evolves; [|done]. apply answer_good, WhoAmI_good.
  - apply identity_evolves; [|done]. apply answer_good, KeyAdd_good.
  - apply identity_evolves; [|done]. apply answer_good, KeyList_good.
  - apply identity_evolves; [|done]. unfold no_content. apply answer_good, KeyRemove_good.
  - apply GetInfo_preserves.
  - by apply evolves_refl.
  - pose proof (update_evolves _ s (fun F => UpdateOS_frame F now q) Hs) as H. unfold update_call, bind. destruct (in_update _ s) as [[r|e] s']; done.
  - apply update_evolves; [|done]. intros F. apply answer_preserves, UpdateConfirm_frame.
  - unfold reboot_call, RebootNode, bind. pose proof (update_evolves (RebootNode (wi_has_update wi) (wi_RebootDelay wi)) s) as H.
    unfold RebootNode in H. destruct (in_update _ s) as [[r|e] s']; (apply H; [intros F; go_preserves|done]).
Qed.
End handler_frames.

(** ** Any sequence of calls *)

Section server.
Context {S C V L : Type} `{!Store S, !ContainerDriver C, !VMDriver V, !LVM L, !CtrImages C} {TL : TokenLib}.
Context `{!StoreLaws S, !DriverLaws C, !DriverLaws V}.
Context (wi : Wiring).
Abbreviation srv := (Srv S C V L).

Record Call := mkCall { ca_now : Z; ca_ctx : Ctx; ca_req : Request }.
Definition run_call (w : Authenticator * srv) (c : Call) : Authenticator * srv := (serve wi (ca_now c) (ca_ctx c) (ca_req c) w).2.
Definition run_calls (cs : list Call) (w : Authenticator * srv) : Authenticator * srv := foldl run_call w cs.

(** The handler runs behind the gate, or not at all. *)
Lemma serve_cases now ctx q (a : Authenticator) (s : srv) r a' s' : serve wi now ctx q (a, s) = (r, (a', s')) ->
  (exists e, authorize now (lookup_of s) ctx (method q) a = (Err e, a') /\ r = Err e /\ s' = s) \/
  (exists ctx', authorize now (lookup_of s) ctx (method q) a = (Ok ctx', a') /\ handle wi now q ctx' s = (r, s')).
Proof.
  unfold serve, Unary, bind, zoom. cbn [fst snd]. destruct (authorize now (lookup_of s) ctx (method q) a) as [[c|e] a1]; cbn.
  - destruct (handle wi now q c s) as [r1 s1] eqn:E. intros [= <- <- <-]. right. by exists c.
  - intros [= <- <- <-]. left. by exists e.
Qed.


(** Nothing an operator would see has changed. *)
Definition unchanged (s s' : srv) : Prop :=
  view (sv_store s') = view (sv_store s) /\ n_ctr (sv_node s') = n_ctr (sv_node s) /\ n_vm (sv_node s') = n_vm (sv_node s) /\
  n_wake (sv_node s') = n_wake (sv_node s) /\ sv_lvm s' = sv_lvm s /\ sv_claim s' = sv_claim s /\ sv_mdns s' = sv_mdns s /\
  sv_up s' = sv_up s /\ sv_reboots s' = sv_reboots s.

Lemma adopt_closed_mdns fp kid : keeps iw_mdns (adopt_closed (S:=S) fp kid).
Proof.
  assert (forall A (op : prog S A), keeps iw_mdns (istore op)) as H by (intros A op w; unfold istore, zoom; by destruct (op (iw_store w))).
  unfold adopt_closed. go_keeps. by apply keeps_status_of.
Qed.
Lemma Adopt_sealed now pubkey name s r s' : store_ok (sv_store s) -> cw_open (sv_claim s) = false ->
  handle wi now (RqAdopt pubkey name) (mkCtx [] None) s = (r, s') ->
  unchanged s s' /\ forall rp, r = Ok rp -> is_Some (v_keys (view (sv_store s)) !! KidFromPubkey pubkey).
Proof.
  intros Hok Hc H. cbn [handle] in H. unfold in_identity, zoom, answer, bind, Adopt in H. destruct (ParsePubkey pubkey) as [pub|e] eqn:Hp.
  2:{ unfold fail in H. injection H as <- <-. split; [|done]. by destruct s as [[] ? ? ? ? ?]. }
  apply ParsePubkey_Ok in Hp as [-> _]. unfold bind, claim_Open in H. cbn in H. rewrite Hc in H. cbn [negb] in H.
  set (w := mkIWorld (sv_store s) (sv_claim s) (sv_mdns s)) in *. pose proof (adopt_closed_mdns (wi_fingerprint wi) (KidFromPubkey pubkey) w) as Hm.
  destruct (adopt_closed (wi_fingerprint wi) (KidFromPubkey pubkey) w) as [ra w'] eqn:E. apply adopt_closed_spec in E as (Hv & _ & Hcl & E); [|done].
  cbn in *. destruct ra as [resp|e]; unfold ret in H; injection H as <- <-; unfold unchanged, sv_store, put_store; cbn; (split; [by split_and!|]); [|done].
  intros rp _. by destruct E as [E _].
Qed.

End server.

(** ** A concrete capsule *)

#[local] Existing Instance DemoLib.lib.
#[local] Instance no_images : CtrImages RefDriver := {|
  ci_ListImages := ret []; ci_Size _ := ret 0%Z; ci_Import s _ d := (Err (Errorf "unrecognized archive"), len s, d); ci_Unpack _ := ret tt |}.

Module ServerDemo.
Definition wi : Wiring := mkWiring Demo.full true (fun _ => None) "fp" UpdateDemo.digest UpdateDemo.find "slot_a" UpdateDemo.tar true 0
  ControllersDemo.logs_of ControllersDemo.rounds_of ControllersDemo.web_log InfoDemo.about InfoDemo.share InfoDemo.kernel.
Definition operator : AuthorizedKey := mkAuthorizedKey DemoLib.kid DemoLib.pub "me" "" 1700000000.
(** One operator, a container and a MicroVM. *)
Definition adopted : Srv memStore RefDriver RefDriver RefLVM :=
  mkSrv (put_store (mem_set_keys {[DemoLib.kid := operator]} (mem_set_identity (Some IdentityDemo.self) (n_store Demo.busy))) Demo.busy)
    (mkRefLVM ∅ []) (mkClaimWindow false true None) None (up_with tt UpdateDemo.m0) [].
Definition no_token : Ctx := mkCtx [] None.
Definition calls : list Call :=
  [mkCall DemoLib.t0 no_token (RqDelete "web"); mkCall DemoLib.t0 no_token (RqAdopt IdentityDemo.pubB "intruder");
   mkCall DemoLib.t0 DemoLib.ctx (RqDelete "box"); mkCall DemoLib.t0 DemoLib.ctx RqRebootNode].
Lemma capsule_ok : srv_ok adopted.
Proof.
  split_and!; [| |done].
  - split; [done|]. refine (bool_decide_eq_true_1 _ _). by vm_compute.
  - apply map_Forall_singleton. by split_and!.
Qed.
End ServerDemo.
Import ServerDemo.

