(* ===== verification/Startup.v ===== *)
(** * Startup after an install: cmd/capsuled/main.go

    The part of [main] that makes a sealed install work: the bundle is
    ingested, the identity resolved, the TLS pair loaded, and the claim window
    opened or not.  [startup] runs these steps in the order of main.go on the
    store [choose_store] picked; the update service's startup in between works
    on other state (Update). *)

From S2P Require Import Prelude GoStrings Exec Models Store MemoryStore Base64 Bytes Disks DiskLayout Auth Identity Files Boot Tls FirstBoot Installer.

Set Default Goal Selector "!".
Local Open Scope go_scope.

Record Started := mkStarted {
  st_ingest : result unit;        (* of the bundle; logged *)
  st_identity : CapsuleIdentity;
  st_cert : result Certificate;   (* a failure is logged *)
  st_fingerprint : result string;
  st_count : result nat;
  st_claim : ClaimWindow }.

(** A failing load returns the zero certificate with its error. *)
Definition cert_or_zero (r : result Certificate) : Certificate := match r with Ok c => c | Err _ => mkCertificate [] "" end.
Definition nil_dereference : error := Errorf "runtime error: invalid memory address or nil pointer dereference".

Section startup.
Context {S : Type} `{!Store S} {TL : TokenLib} {CL : CertLib}.
Context (unmarshal_bundle : string -> option FirstBootBundle) (uuid_Parse : string -> option (list Z)).
(** The clock, the fresh UUID, the draws of the key generation, the names of
    temporary files and directories. *)
Context (now : Z) (fresh e1 e2 sfx1 sfx2 tmpdir : string).

Definition tls_dir (br : BootResult) : string := if br_MountedPerm br then "/perm/tls" else tmpdir.

Definition startup (isPID1 : bool) (br : BootResult) (stateBroken : bool) : prog (FWorld S) Started :=
  ing <- (if isPID1 && br_MountedPerm br && negb (br_InstallerMode br)
          then catch (IngestFirstBoot unmarshal_bundle now "/perm") else ret (Ok tt)) ;;
  id <- catch (fstore (ensureIdentity uuid_Parse now fresh)) ;;
  match id with
  | Err _ => fail nil_dereference
  | Ok id =>
      cert <- catch (LoadOrGenerate now e1 e2 sfx1 sfx2 (tls_dir br +:+ "/server.crt") (tls_dir br +:+ "/server.key")
                       (ci_CapsuleID id)) ;;
      count <- catch (fstore kst_Count) ;;
      ret (mkStarted ing id cert (LeafFingerprint (cert_or_zero cert)) count
             (boot_claim now stateBroken count))
  end.
End startup.

(** ** From the installer to the first boot *)

Section sealed_boot.
Context {S : Type} `{!Store S, !StoreLaws S} {TL : TokenLib} {CL : CertLib} {CLs : CertLaws}.
Context (unmarshal_bundle : string -> option FirstBootBundle) (uuid_Parse : string -> option (list Z)).
Context (now : Z) (fresh e1 e2 sfx1 sfx2 tmpdir : string).
Implicit Types w : FWorld S.

(** The pair of a bundle built by the installer loads as a certificate whose
    fingerprint is the one the installer reports. *)
Lemma bundle_pair inow uuid ie1 ie2 req b fp :
  buildFirstBootBundle uuid_Parse inow uuid ie1 ie2 req = Ok b -> fingerprintFromPEM (fb_TLSCertPEM b) = Ok fp ->
  exists c, X509KeyPair (fb_TLSCertPEM b) (fb_TLSKeyPEM b) = Ok c /\ LeafFingerprint c = Ok fp /\
    fb_CapsuleID b = uuid /\ fb_OperatorPubkey b = std_encode (rq_OperatorPubkey req).
Proof.
  unfold buildFirstBootBundle, GenerateCertPEM.
  destruct (mint_cert inow ie1 ie2 uuid) as [[[der cp] kp]|e] eqn:Em; [|done]. simpl. intros [= <-]. simpl.
  apply mint_cert_spec in Em as (-> & priv & Hp). unfold fingerprintFromPEM. rewrite pem_roundtrip. simpl. intros [= <-].
  exists (mkCertificate [der] priv). by split_and!.
Qed.

Lemma faultless_Ingest : preserves faultless (IngestFirstBoot (S:=S) unmarshal_bundle now "/perm").
Proof.
  unfold IngestFirstBoot, writeTLSMaterial, f_ReadFile, f_Rename, f_Remove, f_Stat, f_MkdirAll, f_WriteFile. cbv zeta.
  assert (forall A (m : prog S A), preserves faultless (fstore m)) as Hs.
  { intros A m w Hw. rewrite fstore_run. done. }
  go_preserves; try apply Hs; apply faultless_os_call; try (by intros w); intros w Hw; by case_match.
Qed.

Lemma real_faultless w : fw_faults w = [] -> real_faults w.
Proof. unfold real_faults. by intros ->. Qed.

Lemma startup_cases isPID1 br broken w st w' :
  startup unmarshal_bundle uuid_Parse now fresh e1 e2 sfx1 sfx2 tmpdir isPID1 br broken w = (Ok st, w') ->
  exists w1 w2 w3 w4 id,
    (if isPID1 && br_MountedPerm br && negb (br_InstallerMode br)
     then IngestFirstBoot unmarshal_bundle now "/perm" w = (st_ingest st, w1) else st_ingest st = Ok tt /\ w1 = w) /\
    fstore (ensureIdentity uuid_Parse now fresh) w1 = (Ok id, w2) /\
    LoadOrGenerate now e1 e2 sfx1 sfx2 (tls_dir tmpdir br +:+ "/server.crt") (tls_dir tmpdir br +:+ "/server.key") (ci_CapsuleID id) w2
      = (st_cert st, w3) /\
    fstore kst_Count w3 = (st_count st, w4) /\ w' = w4 /\ st_identity st = id /\
    st_fingerprint st = LeafFingerprint (cert_or_zero (st_cert st)) /\
    st_claim st = boot_claim now broken (st_count st).
Proof.
  unfold startup. intros (ing & w1 & H1 & H)%bind_Ok_inv. apply bind_Ok_inv in H as (rid & w2 & H2 & H).
  unfold catch in H2. destruct (fstore _ w1) as [r2 v2] eqn:E2. injection H2 as <- <-. destruct r2 as [id|e]; [|done].
  apply bind_Ok_inv in H as (cert & w3 & H3 & H). unfold catch in H3.
  destruct (LoadOrGenerate _ _ _ _ _ _ _ _ v2) as [r3 v3] eqn:E3. injection H3 as <- <-.
  apply bind_Ok_inv in H as (count & w4 & H4 & H). unfold catch in H4.
  destruct (fstore kst_Count v3) as [r4 v4] eqn:E4. injection H4 as <- <-. injection H as <- <-. simpl.
  exists w1, v2, v3, v4, id. split; [|by split_and!].
  destruct (isPID1 && _ && _).
  - unfold catch in H1. destruct (IngestFirstBoot _ _ _ w) as [r1 v1]. by injection H1 as -> ->.
  - unfold ret in H1. by injection H1 as <- <-.
Qed.

(** C19: From sealed install to adopted capsule.  When the disk of a sealed
    install boots, /perm is mounted, the database opens and nothing fails
    afterwards, the capsule is the one the installer reported: it has that id,
    its TLS certificate has the reported fingerprint, the operator's key is
    enrolled under the reported kid, and the claim window stays closed. *)
Theorem sealed_install_boots_adopted {M} (iw : PWorld M) marshal_bundle inow uuid ie1 ie2 req res fs
    {D} `{!Host D, !PermLaws D} parse_MiB entropy (bw bw' : FWorld (Node D)) br w st w' :
  (forall b data, marshal_bundle b = Ok data -> unmarshal_bundle data = Some b) ->
  sealed marshal_bundle uuid_Parse inow uuid ie1 ie2 req res iw ->
  m_fss (pw_machine iw) !! metaDM = Some fs -> fs !! "tls/server.key" = None ->
  fresh_boot fs (dev bw) -> boot_Init parse_MiB entropy bw = (br, bw') -> br_MountedPerm br = true ->
  store_ok (fw_store w) -> fw_files w = fw_files bw' -> fw_faults w = [] ->
  startup unmarshal_bundle uuid_Parse now fresh e1 e2 sfx1 sfx2 tmpdir true br false w = (Ok st, w') ->
  st_ingest st = Ok tt -> is_ok (st_count st) = true ->
  ci_CapsuleID (st_identity st) = rs_CapsuleID res /\
  st_fingerprint st = Ok (rs_TLSFingerprintSha256 res) /\
  is_Some (fkeys w' !! rs_Kid res) /\ cw_open (st_claim st) = false.
Proof.
  intros Hround (b & data & fp & Hb & Hm & Hfp & (fs' & Hfs' & Hfile) & ->) Hfs Hnokey Hmeta Hboot Hperm Hok Hfw Hf H Hing Hcount.
  destruct (boot_Init_shows parse_MiB entropy fs bw br bw' Hmeta Hboot Hperm) as [Hmode Hfiles]. unfold shows in Hfiles. rewrite <- Hfw in Hfiles.
  rewrite Hfs in Hfs'. injection Hfs' as <-. apply Hround in Hm.
  destruct (bundle_pair _ _ _ _ _ _ _ Hb Hfp) as (c & Hc & Hleaf & Hid & Hpub).
  apply startup_cases in H as (w1 & w2 & w3 & w4 & id & H1 & H2 & H3 & H4 & -> & -> & Hfpr & Hcl).
  rewrite Hperm, Hmode, Hing in H1. simpl in H1.
  pose proof (preserves_run _ _ _ _ _ H1 faultless_Ingest Hf) as Hf1. unfold faultless in Hf1. simpl in Hf1.
  apply (IngestFirstBoot_cases unmarshal_bundle now "/perm" data b) in H1; [|done|by apply real_faultless| |done].
  2: { rewrite <- Hfile. apply (Hfiles "firstboot.json"). apply (bool_decide_unpack _). exact I. }
  destruct H1 as (Hok1 & _ & _ & _ & (id0 & Hid0 & Hid1 & _) & (kid & pub & k & Hkid & Hdec & Hparse & Hk & _) & _ & Htls).
  destruct Htls as [Hcrt Hkey].
  { intros [_ [x Hx]]. unfold keyPath in Hx. change ("/perm" +:+ "/tls/server.key") with ("/perm/" +:+ "tls/server.key") in Hx.
    rewrite Hfiles in Hx; [congruence|]. apply (bool_decide_unpack _). exact I. }
  rewrite fstore_run in H2. destruct (ensureIdentity uuid_Parse now fresh (fw_store w1)) as [r2 s2] eqn:E2. simpl in H2.
  injection H2 as -> <-. apply ensureIdentity_cases in E2 as (Hok2 & Hkeys & _ & _ & Hcid & _); [|done].
  rewrite Hid0 in Hcid. simpl in Hcid.
  unfold tls_dir in H3. rewrite Hperm in H3.
  pose proof (LoadOrGenerate_existing now e1 e2 sfx1 sfx2 "/perm/tls/server.crt" "/perm/tls/server.key" (ci_CapsuleID id) _ _
    (mkFWorld s2 (fw_files w1) (fw_faults w1)) Hf1 Hcrt Hkey ltac:(intros e; by rewrite Hc)) as E3.
  rewrite Hc in E3. pose proof (eq_trans (eq_sym E3) H3) as E. injection E as Hcert <-. clear H3 E3. rewrite fstore_run in H4. simpl in H4.
  pose proof (kst_Count_law s2 Hok2) as HC. destruct (kst_Count s2) as [rc s3]. destruct HC as (_ & Hv & HC). simpl in H4. injection H4 as Hrc <-.
  assert (Hk2 : v_keys (view s2) !! kid = Some k) by (rewrite Hkeys; exact Hk).
  rewrite Hpub, std_decode_encode in *. injection Hdec as <-. unfold fb_kid in Hkid. rewrite Hpub, std_decode_encode in Hkid. injection Hkid as <-.
  simpl. split; [congruence|]. split; [rewrite Hfpr, <- Hcert; exact Hleaf|].
  split; [unfold fkeys; simpl; rewrite Hv; eauto|].
  rewrite Hcl, <- Hrc. rewrite <- Hrc in Hcount. destruct rc as [n|e]; [|done]. subst n.
  unfold boot_claim, NewClaimWindow. destruct (size (v_keys (view s2))) eqn:Es; [|done].
  apply map_size_empty_inv in Es. by rewrite Es in Hk2.
Qed.
End sealed_boot.

(** ** Concrete boots *)

#[local] Existing Instance DemoLib.lib.
#[local] Existing Instance TlsDemo.lib.
#[local] Existing Instance TlsDemo.laws.
#[local] Existing Instance ref_host.
#[local] Existing Instance ref_laws.

Module StartupDemo.
Lemma split_encoded l : l <> [] -> mapM b64_decode (Split "." (Join (b64_encode <$> l) ".")) = Some l.
Proof.
  intros Hl. rewrite Split_Join.
  - apply mapM_Some, Forall2_fmap_l, Forall_Forall2_diag, Forall_true. intros x. apply b64_decode_encode.
  - by destruct l.
  - apply Forall_fmap, Forall_true. intros x. by apply b64_no_char.
Qed.
Lemma marshal_roundtrip b data : InstallDemo.marshal b = Ok data -> InstallDemo.unmarshal data = Some b.
Proof.
  intros H. assert (data = Join (b64_encode <$> [fb_CapsuleID b; fb_ShortID b; fb_TLSCertPEM b; fb_TLSKeyPEM b;
    fb_OperatorPubkey b; fb_OperatorName b]) ".") as -> by (by injection H).
  unfold InstallDemo.unmarshal. rewrite split_encoded by done. by destruct b.
Qed.

Definition perm_fs : gmap string string := default ∅ (m_fss (pw_machine InstallDemo.done) !! metaDM).
(** The sealed disk boots: the early boot mounts its meta volume. *)
Definition early : BootResult * FWorld (Node RefHost.machine) :=
  boot_Init BootDemo.parse_MiB BootDemo.entropy (BootDemo.world (BootDemo.machine (Some perm_fs))).
Lemma early_run :
  boot_Init BootDemo.parse_MiB BootDemo.entropy (BootDemo.world (BootDemo.machine (Some perm_fs))) = (early.1, early.2).
Proof. unfold early. apply surjective_pairing. Qed.
(** The rest, on files; [broken]: the database does not open. *)
Definition boot (broken : bool) (files : gmap string string) : result Started * FWorld memStore :=
  startup InstallDemo.unmarshal InstallDemo.uuid_Parse 1700000100 "fresh-id" "k2" "n2" "1" "2" "/tmp/capsule-tls-1"
    true early.1 broken (mkFWorld mem_New files []).
Lemma start_files (files : gmap string string) : fw_files (mkFWorld mem_New files []) = files.
Proof. reflexivity. Qed.
Lemma start_faults (files : gmap string string) : fw_faults (mkFWorld mem_New files []) = [].
Proof. reflexivity. Qed.
Definition started : Started :=
  match (boot false (fw_files early.2)).1 with
  | Ok s => s
  | Err e => mkStarted (Err e) (mkCapsuleIdentity "" "" 0 0 "") (Err e) (Err e) (Err e) (mkClaimWindow true true None)
  end.
End StartupDemo.

Lemma sealed_install_boots_adopted_witness :
  ci_CapsuleID (st_identity StartupDemo.started) = rs_CapsuleID InstallDemo.res /\
  st_fingerprint StartupDemo.started = Ok (rs_TLSFingerprintSha256 InstallDemo.res) /\
  cw_open (st_claim StartupDemo.started) = false.
Proof.
  destruct (sealed_install_boots_adopted InstallDemo.unmarshal InstallDemo.uuid_Parse 1700000100 "fresh-id" "k2" "n2" "1" "2"
    "/tmp/capsule-tls-1" InstallDemo.done InstallDemo.marshal 1700000000 InstallDemo.uuid "k1" "n1" InstallDemo.request InstallDemo.res
    StartupDemo.perm_fs BootDemo.parse_MiB BootDemo.entropy
    (BootDemo.world (BootDemo.machine (Some StartupDemo.perm_fs))) StartupDemo.early.2 StartupDemo.early.1
    (mkFWorld mem_New (fw_files StartupDemo.early.2) []) StartupDemo.started
    (StartupDemo.boot false (fw_files StartupDemo.early.2)).2) as (Hid & Hfp & _ & Hcl).
  - exact StartupDemo.marshal_roundtrip.
  - eexists _, _, _. split; [reflexivity|]. split; [reflexivity|]. split; [vm_compute; reflexivity|].
    split; [eexists; split; vm_compute; reflexivity|vm_compute; reflexivity].
  - vm_compute; reflexivity.
  - vm_compute; reflexivity.
  - apply demo_fresh.
  - exact StartupDemo.early_run.
  - vm_compute; reflexivity.
  - exact I.
  - exact (StartupDemo.start_files _).
  - exact (StartupDemo.start_faults _).
  - vm_compute; reflexivity.
  - vm_compute; reflexivity.
  - vm_compute; reflexivity.
  - split; [exact Hid|]. split; [exact Hfp|exact Hcl].
Defined.

(** The sealed bundle can be lost.  If the database does not open on the
    first boot, the daemon falls back to the memory store, ingests the bundle
    into it and deletes it; on the next boot, with an empty database that
    opens, the disk that was sealed for its operator opens a claim window for
    whoever comes first. *)
Theorem bundle_lost_on_memory_fallback e :
  choose_store true StartupDemo.early.1 (Err e) = (UseMemory, true, "sqlite open: " +:+ Error e) /\
  let '(r1, w1) := StartupDemo.boot true (fw_files StartupDemo.early.2) in
  let '(r2, w2) := StartupDemo.boot false (fw_files w1) in
  (exists s1, r1 = Ok s1 /\ st_ingest s1 = Ok tt) /\
  fw_files w1 !! "/perm/firstboot.json" = None /\
  (exists s2, r2 = Ok s2 /\ cw_open (st_claim s2) = true).
Proof.
  split; [vm_compute; reflexivity|]. vm_compute. split; [eexists; split; reflexivity|]. split; [reflexivity|]. eexists; split; reflexivity.
Qed.

(** A required early mount that fails leaves the boot result empty, so an A/B
    install does not count as one: the daemon runs on memory, not broken, and
    opens a claim window although the disk may belong to an operator. *)
Theorem early_mount_failure_opens_claim {D} `{!Host D} parse_MiB entropy (w w' : FWorld (Node D)) e now opened :
  initPlatform parse_MiB entropy w = (Err e, w') ->
  choose_store true (boot_Init parse_MiB entropy w).1 opened = (UseMemory, false, "") /\
  cw_open (boot_claim now false (Ok 0%nat)) = true.
Proof. unfold boot_Init. intros ->. done. Qed.
