(* ===== verification/Daemon.v ===== *)
(** * The daemon: cmd/capsuled/main.go, router/router.go

    What [main] makes of a boot and a startup: the gate, the announcement, the
    install service, the drivers and the reconciler, the banner, and the
    services [Serve] exposes - or why it serves nothing. *)

From S2P Require Import Prelude GoStrings Exec Models Store MemoryStore Base64 Bytes Disks DiskLayout Auth Mdns Identity Files Boot Banner Tls FirstBoot Installer Startup.

Set Default Goal Selector "!".
Local Open Scope go_scope.

(** ** [net.SplitHostPort] *)

Fixpoint cut_last (c : ascii) (s : string) : option (string * string) :=
  match s with
  | "" => None
  | String d s' =>
      match cut_last c s' with
      | Some (a, b) => Some (String d a, b)
      | None => if Ascii.eqb d c then Some ("", s') else None
      end
  end.
Definition SplitHostPort (hostport : string) : option (string * string) :=
  match cut_last ":" hostport with
  | None => None
  | Some (before, port) =>
      match hostport with
      | String "[" rest =>
          match Cut "]" rest with
          | None => None
          | Some (host, after) =>
              if negb (String.eqb before (String "[" (host +:+ "]"))) then None
              else if Contains rest "[" || Contains after "]" then None else Some (host, port)
          end
      | _ => if Contains before ":" || Contains hostport "[" || Contains hostport "]" then None else Some (before, port)
      end
  end.
(** The port of the listen address, 50000 when there is none. *)
Definition listen_port (addr : string) : Z :=
  match SplitHostPort addr with Some (_, p) => default 50000%Z (Atoi p) | None => 50000%Z end.
Example listen_port_1 : listen_port ":50000" = 50000%Z /\ listen_port "[fe80::1]:7443" = 7443%Z /\ listen_port "fe80::1:7443" = 50000%Z /\
  listen_port "0.0.0.0:http" = 50000%Z.
Proof. by vm_compute. Qed.

(** ** The announcement and the install service *)

Definition announcement (br : BootResult) (id : CapsuleIdentity) (enrolled : Z) (version : string) : Announcement :=
  let '(mode, disk, size, paths) :=
    if br_InstallerMode br then
      match br_Targets br with
      | t :: _ => ("installer", td_Path t, td_SizeBytes t, td_Path <$> br_Targets br)
      | [] => ("installer", "", 0%Z, [])
      end
    else ("runtime", "", 0%Z, []) in
  mkAnnouncement (ci_CapsuleID id) (ci_ShortID id) "" (0 <? enrolled)%Z version mode disk size paths.
(** [BootDisk] is what finding the USB stick came to. *)
Definition install_service (isPID1 : bool) (br : BootResult) (BootDisk : result string) (id : CapsuleIdentity) (version : string) : option InstallController :=
  if isPID1 && br_InstallerMode br then
    match BootDisk with
    | Ok usbDisk => Some (mkInstallController (ci_ShortID id) (ci_CapsuleID id) version usbDisk (br_Targets br))
    | Err _ => None
    end
  else None.

(** ** containerd *)

(** Attempt [k] takes some time and succeeds or not; [cancelled] is the state of
    the context before it. *)
Fixpoint dial_loop (fuel k : nat) (attempt : nat -> Z * result unit) (cancelled : nat -> bool) (now deadline : Z) : bool :=
  match fuel with
  | O => false
  | S fuel =>
      if (now <? deadline)%Z then
        if cancelled k then false
        else
          let '(took, r) := attempt k in
          match r with
          | Ok _ => true
          | Err _ => dial_loop fuel (S k) attempt cancelled (now + took + 500 * Millisecond)%Z deadline
          end
      else false
  end.
Definition dial_fuel (timeout : Z) : nat := S (Z.to_nat (timeout / (500 * Millisecond) + 1)).
Definition dialContainerd (attempt : nat -> Z * result unit) (cancelled : nat -> bool) (now timeout : Z) : bool :=
  dial_loop (dial_fuel timeout) 0 attempt cancelled now (now + timeout).

(** ** The services *)

Inductive Service := IdentityService | CapsuleService | WorkloadService | VolumeService | ImageService | InstallService.
#[export] Instance Service_eq_dec : EqDecision Service.
Proof. solve_decision. Defined.
Definition service_name (s : Service) : string :=
  match s with
  | IdentityService => "/capsule.v1.IdentityService/" | CapsuleService => "/capsule.v1.CapsuleService/"
  | WorkloadService => "/capsule.v1.WorkloadService/" | VolumeService => "/capsule.v1.VolumeService/"
  | ImageService => "/capsule.v1.ImageService/" | InstallService => "/capsule.v1.InstallService/"
  end.

Record RouterConfig := mkRouterConfig {
  rc_Addr : string; rc_TLSCert : Certificate;
  rc_Auth : bool; rc_Capsule : bool; rc_Workload : bool; rc_Volume : bool; rc_Image : bool; rc_Identity : bool; rc_Install : bool }.
Definition registered (cfg : RouterConfig) : list Service :=
  [IdentityService; CapsuleService] ++ (if rc_Workload cfg then [WorkloadService] else []) ++ (if rc_Volume cfg then [VolumeService] else [])
    ++ (if rc_Image cfg then [ImageService] else []) ++ (if rc_Install cfg then [InstallService] else []).
(** The services a server that could be started exposes; [listen] is the
    outcome of [net.Listen]. *)
Definition Serve (listen : string -> result unit) (cfg : RouterConfig) : result (list Service) :=
  if str_empty (rc_Addr cfg) then Err (Errorf "router: missing Addr")
  else if negb (rc_Capsule cfg) then Err (Errorf "router: missing Capsule controller")
  else if negb (rc_Auth cfg) then Err (Errorf "router: missing Authenticator")
  else if negb (rc_Identity cfg) then Err (Errorf "router: missing Identity controller")
  else if bool_decide (tc_Certificate (rc_TLSCert cfg) = []) then Err (Errorf "router: missing TLSCert")
  else match listen (rc_Addr cfg) with
       | Err e => Err (Wrap ("router: listen " +:+ rc_Addr cfg +:+ ": ") e "")
       | Ok _ => Ok (registered cfg)
       end.
(** After [Serve] has failed: PID 1 waits, another process exits. *)
Inductive Ending := Serving (services : list Service) | Waiting | ExitStatus (n : Z).
Definition main_end (isPID1 : bool) (served : result (list Service)) : Ending :=
  match served with Ok l => Serving l | Err _ => if isPID1 then Waiting else ExitStatus 1 end.

(** ** [main] after the startup *)

Record Daemon := mkDaemon {
  dm_Auth : Authenticator;
  dm_claim : ClaimWindow;
  dm_announcer : option Announcer;
  dm_install : option InstallController;
  dm_containers : bool;      (* is there a container driver? *)
  dm_vms : bool;
  dm_images : bool;          (* the image store of the image service *)
  dm_reconciler : bool;
  dm_router : RouterConfig }.

Section main.
Context {S : Type} `{!Store S}.
(** zeroconf, the USB stick, containerd, the listener. *)
Context (registers : string -> option error) (BootDisk : result string) (containerd : bool).
Context (isPID1 : bool) (addr version : string).
Abbreviation world := (FWorld S).

Definition count_or_zero (r : result nat) : Z := match r with Ok n => Z.of_nat n | Err _ => 0%Z end.
Definition announce (br : BootResult) (id : CapsuleIdentity) : prog world (option Announcer) :=
  if isPID1 && negb (str_empty (ci_ShortID id)) then
    enrolled <- catch (fstore kst_Count) ;;
    let '(r, a) := mdns_Start registers (announcement br id (count_or_zero enrolled) version) (New (listen_port addr)) in
    ret (match r with Ok _ => Some a | Err _ => None end)
  else ret None.
Definition gate (br : BootResult) (id : CapsuleIdentity) : Authenticator :=
  mkAuthenticator (ci_CapsuleID id) (br_InstallerMode br) (au_jti (NewAuthenticator (ci_CapsuleID id))).
Definition drivers (br : BootResult) : bool := isPID1 && negb (br_InstallerMode br).
Definition wire (br : BootResult) (st : Started) : prog world Daemon :=
  let id := st_identity st in
  announcer <- announce br id ;;
  let install := install_service isPID1 br BootDisk id version in
  let container := drivers br && containerd in
  let vm := drivers br in
  ret (mkDaemon (gate br id) (st_claim st) announcer install container vm container (container || vm)
         (mkRouterConfig addr (cert_or_zero (st_cert st)) true true true true true true (bool_decide (is_Some install)))).

(** The banner that the console shows two seconds later; [claimOpen] and the
    count are of that moment. *)
Definition late_banner (br : BootResult) (st : Started) (claimOpen : bool) (stateBroken : bool) (stateErr : string) (size : Z -> string) : prog world BannerInfo :=
  n <- catch (fstore kst_Count) ;;
  ret (banner_info (listen_port addr) (match st_fingerprint st with Ok fp => fp | Err _ => "" end) (ci_ShortID (st_identity st)) claimOpen n
         br stateBroken stateErr size).
End main.

(** ** What the daemon exposes *)

Lemma dial_loop_fuel attempt cancelled deadline m fuel : forall k now, (forall k, 0 <= (attempt k).1)%Z ->
  (deadline - now <= Z.of_nat fuel * (500 * Millisecond))%Z ->
  dial_loop (fuel + m) k attempt cancelled now deadline = dial_loop fuel k attempt cancelled now deadline.
Proof.
  induction fuel as [|fuel IH]; intros k now Ht Hf.
  - destruct m; [done|]. cbn [dial_loop Nat.add]. destruct (Z.ltb_spec now deadline); [lia|done].
  - cbn [dial_loop Nat.add]. destruct (_ <? _)%Z; [|done]. destruct (cancelled k); [done|]. specialize (Ht k) as Hk.
    destruct (attempt k) as [took [[]|e]]; [done|]. apply IH; [done|]. cbn [fst] in Hk. lia.
Qed.
(** The wait for containerd is over by the clock. *)
Theorem dialContainerd_ends attempt cancelled now timeout m : (forall k, 0 <= (attempt k).1)%Z ->
  dialContainerd attempt cancelled now timeout = dial_loop (dial_fuel timeout + m) 0 attempt cancelled now (now + timeout).
Proof.
  intros Ht. unfold dialContainerd. rewrite dial_loop_fuel; [done|done|]. unfold dial_fuel.
  pose proof (Z.mul_succ_div_gt timeout (500 * Millisecond) ltac:(done)). change (500 * Millisecond)%Z with 500000000%Z in *. lia.
Qed.

Section wired.
Context {S : Type} `{!Store S, !StoreLaws S}.
Context (registers : string -> option error) (BootDisk : result string) (containerd : bool).
Context (isPID1 : bool) (addr version : string).
Context (br : BootResult) (st : Started).
Implicit Types w : FWorld S.

(** The service of a method: what is registered and asks for no token. *)
Definition has_service (l : list Service) (m : string) : bool := existsb (fun s => HasPrefix m (service_name s)) l.
Definition open_to_all (d : Daemon) (m : string) : Prop :=
  has_service (registered (dm_router d)) m = true /\ exempt (dm_Auth d) m.

Lemma wire_run w : exists a w', wire registers BootDisk containerd isPID1 addr version br st w =
  (Ok (mkDaemon (gate br (st_identity st)) (st_claim st) a (install_service isPID1 br BootDisk (st_identity st) version)
        (drivers isPID1 br && containerd) (drivers isPID1 br) (drivers isPID1 br && containerd) (drivers isPID1 br && containerd || drivers isPID1 br)
        (mkRouterConfig addr (cert_or_zero (st_cert st)) true true true true true true
           (bool_decide (is_Some (install_service isPID1 br BootDisk (st_identity st) version))))), w') /\
  announce registers isPID1 addr version br (st_identity st) w = (Ok a, w').
Proof.
  unfold wire. unfold bind at 1. destruct (announce _ _ _ _ _ _ w) as [[a|e] w'] eqn:E; [by eexists _, _|]. exfalso.
  unfold announce, bind, catch, ret in E. destruct (isPID1 && _); [|done]. destruct (fstore kst_Count w) as [r w1]. by destruct (mdns_Start _ _ _).
Qed.

(** C35: What a daemon answers without a token.  On a capsule that runs
    workloads it is Adopt and nothing else: the install service is not even
    registered, whatever the disks are.  In installer mode it is Adopt, and the
    two install calls when the USB stick was found; no driver and no
    reconciler runs. *)
Theorem daemon_open_surface w d w' : wire registers BootDisk containerd isPID1 addr version br st w = (Ok d, w') ->
  (forall m, open_to_all d m <->
     m = AdoptMethod \/
     (isPID1 = true /\ br_InstallerMode br = true /\ is_ok BootDisk = true /\ m ∈ InstallerMethods)) /\
  (br_InstallerMode br = false -> dm_install d = None /\ InstallService ∉ registered (dm_router d)) /\
  (br_InstallerMode br = true -> dm_containers d = false /\ dm_vms d = false /\ dm_images d = false /\ dm_reconciler d = false).
Proof.
  intros H. destruct (wire_run w) as (a & w1 & E & _). rewrite E in H. injection H as <- <-. clear E. cbn [dm_Auth dm_install dm_containers dm_vms dm_images dm_reconciler dm_router].
  assert (forall b, registered (mkRouterConfig addr (cert_or_zero (st_cert st)) true true true true true true b) =
    [IdentityService; CapsuleService; WorkloadService; VolumeService; ImageService] ++ if b then [InstallService] else []) as Hr by done.
  split; [|split].
  - intros m. unfold open_to_all, exempt. cbn [dm_router dm_Auth]. rewrite Hr. unfold gate. cbn [au_InstallerMode].
    unfold install_service. destruct isPID1, (br_InstallerMode br), BootDisk as [usb|e]; cbn [andb is_ok];
      rewrite ?(bool_decide_true (is_Some (Some _))) by eauto; rewrite ?(bool_decide_false (is_Some None)) by (by intros []);
      (split; [intros [Hs [->|[? Hm]]]; try (by left); try done; try (by right); exfalso|intros [->|(? & ? & ? & Hm)]; try done; (split; [|by auto])]);
      try (by vm_compute); unfold InstallerMethods in Hm; rewrite !elem_of_cons, elem_of_nil in Hm; destruct Hm as [->|[->|[]]]; try (by vm_compute); by vm_compute in Hs.
  - intros Hi. unfold install_service. rewrite Hi, andb_false_r. split; [done|]. rewrite Hr. cbn. set_solver.
  - intros Hi. unfold drivers. by rewrite Hi, andb_false_r.
Qed.

(** Without a TLS pair there is no server at all: as process 1 the daemon
    waits, with nothing that could be called. *)
Theorem no_certificate_no_server listen w d w' e : wire registers BootDisk containerd isPID1 addr version br st w = (Ok d, w') -> st_cert st = Err e ->
  is_ok (Serve listen (dm_router d)) = false /\ main_end isPID1 (Serve listen (dm_router d)) = if isPID1 then Waiting else ExitStatus 1.
Proof.
  intros H He. destruct (wire_run w) as (a & w1 & E & _). rewrite E in H. injection H as <- <-. unfold Serve. cbn [dm_router rc_Addr rc_Capsule rc_Auth rc_Identity rc_TLSCert negb].
  rewrite He. by destruct (str_empty addr).
Qed.

(** The announcement carries the mode of the boot and the identity; a target is
    named in installer mode only, and then all of them are. *)
Lemma announce_Ok w a w' : announce registers isPID1 addr version br (st_identity st) w = (Ok (Some a), w') ->
  exists n, am_current a = announcement br (st_identity st) n version /\ am_port a = listen_port addr /\
    am_server a = Some (instanceName (am_current a), Mdns.text (am_current a)) /\ ci_ShortID (st_identity st) <> "".
Proof.
  unfold announce, bind, catch, ret. destruct isPID1; [|done]. destruct (ci_ShortID (st_identity st)) as [|c sid] eqn:Hs; [done|]. change (negb (str_empty (String c sid))) with true. cbn [andb].
  cbv beta iota. destruct (fstore kst_Count w) as [n w1]. unfold mdns_Start, New. cbn [am_server].
  destruct (registers (instanceName (announcement br (st_identity st) (count_or_zero n) version))); [done|].
  intros H. injection H as <- <-. exists (count_or_zero n). by split_and!.
Qed.
End wired.

(** ** Concrete daemons *)

#[local] Existing Instance DemoLib.lib.
#[local] Existing Instance TlsDemo.lib.

Module DaemonDemo.
(** On a stick in a machine with two disks; and an A/B install whose perm
    partition does not mount. *)
Definition on_stick : BootResult := mkBootResult false "slot_a" true "" [mkTarget "/dev/nvme0n1" 256060514304 false; mkTarget "/dev/sda" 500107862016 false].
Definition unmounted : BootResult := mkBootResult false "slot_a" false "mount /dev/sda4: input/output error" [].
Definition begin (br : BootResult) (broken : bool) : result Started * FWorld memStore :=
  startup InstallDemo.unmarshal InstallDemo.uuid_Parse 1700000100 InstallDemo.uuid "k1" "n1" "1" "2" "/tmp/capsule-tls-1" true br broken (mkFWorld mem_New ∅ []).
Definition boot (br : BootResult) (broken : bool) : option (Started * Daemon) :=
  match begin br broken with
  | (Ok st, w) =>
      match (wire (fun _ => None) (Ok "/dev/sdb") true true ":50000" "1.4.0" br st w).1 with
      | Ok d => Some (st, d)
      | Err _ => None
      end
  | _ => None
  end.
End DaemonDemo.

Lemma daemon_open_surface_witness : exists d,
  snd <$> DaemonDemo.boot DaemonDemo.on_stick false = Some d /\
  open_to_all d "/capsule.v1.InstallService/Install" /\ ~ open_to_all d "/capsule.v1.CapsuleService/RebootNode" /\ dm_reconciler d = false.
Proof.
  assert (is_ok (DaemonDemo.begin DaemonDemo.on_stick false).1 = true) as Hr by (vm_compute; reflexivity).
  destruct (DaemonDemo.begin DaemonDemo.on_stick false) as [r w] eqn:E. cbn [fst] in Hr. destruct r as [st|e]; [|done].
  destruct (wire_run (fun _ => None) (Ok "/dev/sdb") true true ":50000" "1.4.0" DaemonDemo.on_stick st w) as (a & w' & H & _).
  eexists. split; [unfold DaemonDemo.boot; rewrite E, H; reflexivity|].
  destruct (daemon_open_surface (fun _ => None) (Ok "/dev/sdb") true true ":50000" "1.4.0" DaemonDemo.on_stick st w _ w' H) as (Hm & _ & Hi).
  split; [apply Hm; right; split_and!; [done..|]; apply list_elem_of_further, list_elem_of_here|]. split; [|apply Hi; reflexivity].
  intros [Hx|(_ & _ & _ & Hx)]%Hm; [done|]. apply elem_of_cons in Hx as [Hx|Hx]; [done|]. apply elem_of_cons in Hx as [Hx|Hx]; [done|]. by apply elem_of_nil in Hx.
Defined.

(** A capsule whose state cannot be read keeps its claim window closed, but it
    announces itself as not adopted: the seed of the window is corrected, the
    count behind the announcement is not. *)
Theorem broken_capsule_announced_unadopted : match DaemonDemo.boot DaemonDemo.unmounted true with
  | Some (st, d) =>
      choose_store true DaemonDemo.unmounted (Ok tt) = (UseMemory, true, "/perm mount failed: mount /dev/sda4: input/output error") /\
      cw_open (dm_claim d) = false /\ match dm_announcer d with Some a => an_Adopted (am_current a) = false /\ an_Mode (am_current a) = "runtime" | None => False end
  | None => False
  end.
Proof. vm_compute. split_and!; reflexivity. Qed.
