(* ===== verification/Processes.v ===== *)
(** * Child processes: supervise/supervise.go, boot/reap_linux.go, boot/execlock.go

    The restart policy of a supervised child, and the mutex that keeps PID 1's
    reaper away from the children other goroutines wait for. *)

From S2P Require Import Prelude GoStrings.

Set Default Goal Selector "!".
Local Open Scope go_scope.

(** ** [supervise.Run] *)

Record SupConfig := mkSupConfig {
  sc_Name : string; sc_Path : string; sc_Args : list string; sc_Env : list string;
  sc_MinRestart : Z; sc_MaxRestart : Z }.

Definition defaultMinRestart : Z := 200 * Millisecond.
Definition defaultMaxRestart : Z := 30 * Second.

Definition minBackoff (cfg : SupConfig) : Z :=
  if (sc_MinRestart cfg <=? 0)%Z then defaultMinRestart else sc_MinRestart cfg.
Definition maxBackoff (cfg : SupConfig) : Z :=
  if (sc_MaxRestart cfg <=? 0)%Z then defaultMaxRestart else sc_MaxRestart cfg.

(** What the outside world decides in one turn of the loop: whether the
    context is cancelled at the top, how long the child ran, whether it is
    cancelled when the child ends, and whether it is during the wait. *)
Record Turn := mkTurn { tu_cancelled : bool; tu_ran : Z; tu_done : bool; tu_stop : bool }.

Inductive SupEvent :=
  | ChildStarted (path : string) (args env : list string)
  | Waited (backoff : Z).

Definition long_run : Z := 10 * Second.

(** [backoff*2] is a [time.Duration], a signed 64-bit count. *)
Definition next_backoff (cfg : SupConfig) (backoff : Z) : Z := Z.min (swrap 64 (backoff * 2)) (maxBackoff cfg).

Fixpoint supervise_loop (cfg : SupConfig) (backoff : Z) (turns : list Turn) : list SupEvent :=
  match turns with
  | [] => []
  | t :: rest =>
      if tu_cancelled t then [] else
      ChildStarted (sc_Path cfg) (sc_Args cfg) (sc_Env cfg) ::
      if tu_done t then [] else
      let backoff := if (long_run <? tu_ran t)%Z then minBackoff cfg else backoff in
      Waited backoff :: if tu_stop t then [] else supervise_loop cfg (next_backoff cfg backoff) rest
  end.

Definition supervise_Run (cfg : SupConfig) (turns : list Turn) : list SupEvent :=
  supervise_loop cfg (minBackoff cfg) turns.

(** The child of capsuled's [main]. *)
Definition containerd_child : SupConfig :=
  mkSupConfig "containerd" "/usr/bin/containerd" ["--config"; "/etc/containerd/config.toml"] []
    (500 * Millisecond) (30 * Second).

Definition waited (e : SupEvent) : option Z := match e with Waited b => Some b | _ => None end.
Definition started (e : SupEvent) : bool := match e with ChildStarted _ _ _ => true | _ => false end.

(** The restart policy without a machine word in it: the number of deaths in
    a row since the last long run is the exponent of the wait. *)
Definition waits_for (cfg : SupConfig) (deaths : nat) : Z := Z.min (minBackoff cfg * 2 ^ Z.of_nat deaths) (maxBackoff cfg).

Fixpoint ideal_waits (cfg : SupConfig) (deaths : nat) (turns : list Turn) : list Z :=
  match turns with
  | [] => []
  | t :: rest =>
      if tu_cancelled t || tu_done t then [] else
      let deaths := if (long_run <? tu_ran t)%Z then 0%nat else deaths in
      waits_for cfg deaths :: if tu_stop t then [] else ideal_waits cfg (S deaths) rest
  end.

(** Turns in which nothing is cancelled. *)
Definition undisturbed (t : Turn) : Prop := tu_cancelled t = false /\ tu_done t = false /\ tu_stop t = false.

Section supervise.
Context (cfg : SupConfig).
Hypothesis Hbounds : (minBackoff cfg <= maxBackoff cfg < 2 ^ 62)%Z.

Lemma minBackoff_pos : (0 < minBackoff cfg)%Z.
Proof. unfold minBackoff, defaultMinRestart, Millisecond. destruct (Z.leb_spec (sc_MinRestart cfg) 0); lia. Qed.

Lemma waits_for_range k : (minBackoff cfg <= waits_for cfg k <= maxBackoff cfg)%Z.
Proof using Hbounds.
  unfold waits_for. pose proof minBackoff_pos. assert (1 <= 2 ^ Z.of_nat k)%Z by lia. nia.
Qed.

Lemma next_backoff_doubles k : next_backoff cfg (waits_for cfg k) = waits_for cfg (S k).
Proof using Hbounds.
  unfold next_backoff. pose proof (waits_for_range k) as Hr. pose proof minBackoff_pos.
  rewrite swrap_small by lia. unfold waits_for in *.
  replace (Z.of_nat (S k)) with (Z.of_nat k + 1)%Z by lia. rewrite Z.pow_add_r by lia. lia.
Qed.

Lemma supervise_loop_ideal k turns :
  omap waited (supervise_loop cfg (waits_for cfg k) turns) = ideal_waits cfg k turns.
Proof using Hbounds.
  revert k. induction turns as [|t rest IH]; intros k; [done|]. cbn [supervise_loop ideal_waits].
  destruct (tu_cancelled t); [done|]. destruct (tu_done t); [done|]. cbn [orb omap list_omap waited].
  assert (minBackoff cfg = waits_for cfg 0) as E0 by (unfold waits_for; rewrite Z.pow_0_r; lia).
  destruct (long_run <? tu_ran t)%Z.
  - rewrite E0, next_backoff_doubles. f_equal. destruct (tu_stop t); [done|]. apply IH.
  - rewrite next_backoff_doubles. f_equal. destruct (tu_stop t); [done|]. apply IH.
Qed.

Lemma ideal_waits_range k turns : Forall (fun b => minBackoff cfg <= b <= maxBackoff cfg)%Z (ideal_waits cfg k turns).
Proof using Hbounds.
  revert k. induction turns as [|t rest IH]; intros k; [constructor|]. cbn [ideal_waits].
  destruct (tu_cancelled t || tu_done t); [constructor|]. constructor; [apply waits_for_range|].
  destruct (tu_stop t); [constructor|apply IH].
Qed.

Lemma undisturbed_starts k turns : Forall undisturbed turns ->
  List.filter started (supervise_loop cfg (waits_for cfg k) turns) =
    replicate (List.length turns) (ChildStarted (sc_Path cfg) (sc_Args cfg) (sc_Env cfg)).
Proof using Hbounds.
  revert k. induction turns as [|t rest IH]; intros k H; [done|]. apply Forall_cons in H as [(E1 & E2 & E3) H].
  cbn [supervise_loop]. rewrite E1, E2, E3. cbn [List.filter started List.length replicate]. f_equal.
  destruct (long_run <? tu_ran t)%Z.
  - replace (minBackoff cfg) with (waits_for cfg 0) by (unfold waits_for; rewrite Z.pow_0_r; lia).
    rewrite next_backoff_doubles. by apply IH.
  - rewrite next_backoff_doubles. by apply IH.
Qed.

(** C39: the supervisor's waits are the ideal restart policy, computed
    without a machine word: [min * 2^k] capped at the maximum, [k] the deaths
    in a row since the child last ran for more than ten seconds; every wait
    lies within the configured bounds, and a child that nothing cancels is
    started again after each of its exits. *)
Theorem supervise_backoff turns :
  omap waited (supervise_Run cfg turns) = ideal_waits cfg 0 turns /\
  Forall (fun b => minBackoff cfg <= b <= maxBackoff cfg)%Z (omap waited (supervise_Run cfg turns)) /\
  (Forall undisturbed turns -> List.filter started (supervise_Run cfg turns) =
     replicate (List.length turns) (ChildStarted (sc_Path cfg) (sc_Args cfg) (sc_Env cfg))).
Proof using Hbounds.
  assert (supervise_Run cfg turns = supervise_loop cfg (waits_for cfg 0) turns) as ->.
  { unfold supervise_Run. f_equal. unfold waits_for. rewrite Z.pow_0_r. lia. }
  rewrite supervise_loop_ideal. split; [done|]. split; [apply ideal_waits_range|]. apply undisturbed_starts.
Qed.
End supervise.

Definition quick_death : Turn := mkTurn false Second false false.
Definition long_life : Turn := mkTurn false (11 * Second) false false.

Lemma supervise_backoff_witness :
  omap waited (supervise_Run containerd_child (replicate 8 quick_death ++ [long_life; quick_death])) =
    map (fun ms => ms * Millisecond)%Z [500; 1000; 2000; 4000; 8000; 16000; 30000; 30000; 500; 1000]%Z.
Proof.
  rewrite (proj1 (supervise_backoff containerd_child ltac:(vm_compute; split; [discriminate|reflexivity]) _)).
  vm_compute. reflexivity.
Defined.

(** ** The reaper and the mutex of child processes *)

(** A child of PID 1 in the kernel's table: the caller that forked it, or
    none for an orphan the kernel gave to PID 1; its exit status once it has
    ended and nobody has waited for it. *)
Record Child := mkChild { ch_caller : option nat; ch_status : option Z }.

(** Where [exec.Cmd.Run] of a caller is: [ECHILD] is the answer of a wait for
    a child that is no longer in the table. *)
Inductive Progress :=
  | Ready
  | Locked
  | Waiting (pid : Z)
  | Collected (status : Z)
  | ECHILD
  | Finished (status : option Z).

(** A caller and whether it takes [ExecMu] around its command. *)
Record Caller := mkCaller { ca_locks : bool; ca_at : Progress }.

Inductive Holder := ByCaller (i : nat) | ByReaper.

Record Machine := mkMachine {
  ma_children : gmap Z Child; ma_callers : gmap nat Caller; ma_ExecMu : option Holder; ma_draining : bool }.

Definition at_ (i : nat) (locks : bool) (p : Progress) (m : Machine) : Machine :=
  mkMachine (ma_children m) (<[i := mkCaller locks p]> (ma_callers m)) (ma_ExecMu m) (ma_draining m).
Definition children (cs : gmap Z Child) (m : Machine) : Machine :=
  mkMachine cs (ma_callers m) (ma_ExecMu m) (ma_draining m).
Definition mutex (h : option Holder) (m : Machine) : Machine :=
  mkMachine (ma_children m) (ma_callers m) h (ma_draining m).
Definition draining (b : bool) (m : Machine) : Machine :=
  mkMachine (ma_children m) (ma_callers m) (ma_ExecMu m) b.

Inductive step : Machine -> Machine -> Prop :=
  (** [boot.ExecMu.Lock()] of a caller *)
  | step_lock i m : ma_callers m !! i = Some (mkCaller true Ready) -> ma_ExecMu m = None ->
      step m (mutex (Some (ByCaller i)) (at_ i true Locked m))
  (** [cmd.Start]: with the mutex held, or without it *)
  | step_fork i b pid m : ma_callers m !! i = Some (mkCaller b (if b then Locked else Ready)) ->
      ma_children m !! pid = None ->
      step m (children (<[pid := mkChild (Some i) None]> (ma_children m)) (at_ i b (Waiting pid) m))
  (** an orphan becomes PID 1's child *)
  | step_orphan pid m : ma_children m !! pid = None ->
      step m (children (<[pid := mkChild None None]> (ma_children m)) m)
  (** a child ends *)
  | step_exit pid o st m : ma_children m !! pid = Some (mkChild o None) ->
      step m (children (<[pid := mkChild o (Some st)]> (ma_children m)) m)
  (** [cmd.Wait] collects the child it waits for *)
  | step_wait i b pid o st m : ma_callers m !! i = Some (mkCaller b (Waiting pid)) ->
      ma_children m !! pid = Some (mkChild o (Some st)) ->
      step m (children (delete pid (ma_children m)) (at_ i b (Collected st) m))
  (** "waitid: no child processes" *)
  | step_lost i b pid m : ma_callers m !! i = Some (mkCaller b (Waiting pid)) -> ma_children m !! pid = None ->
      step m (at_ i b ECHILD m)
  (** the command returns; a caller that holds the mutex releases it *)
  | step_return i b p r m : ma_callers m !! i = Some (mkCaller b p) ->
      (exists st, p = Collected st /\ r = Some st) \/ (p = ECHILD /\ r = None) ->
      step m ((if b then mutex None else id) (at_ i b (Finished r) m))
  (** [drainZombies] takes the mutex, waits for any ended child until there
      is none, and releases it *)
  | step_drain m : ma_draining m = false -> ma_ExecMu m = None -> step m (mutex (Some ByReaper) (draining true m))
  | step_reap pid o st m : ma_draining m = true -> ma_children m !! pid = Some (mkChild o (Some st)) ->
      step m (children (delete pid (ma_children m)) m)
  | step_drained m : ma_draining m = true -> map_Forall (fun _ c => ch_status c = None) (ma_children m) ->
      step m (mutex None (draining false m)).

Definition initial (m : Machine) : Prop :=
  ma_children m = ∅ /\ ma_ExecMu m = None /\ ma_draining m = false /\
  map_Forall (fun _ c => ca_at c = Ready) (ma_callers m).

(** Every caller follows the rule of execlock.go. *)
Definition disciplined (m : Machine) : Prop := map_Forall (fun _ c => ca_locks c = true) (ma_callers m).

(** What holds of a caller that follows it: between Lock and Unlock it owns
    the mutex, and the child it waits for is still in the table, its own. *)
Definition caller_ok (m : Machine) (i : nat) (p : Progress) : Prop :=
  match p with
  | Ready | Finished (Some _) => True
  | Locked | Collected _ => ma_ExecMu m = Some (ByCaller i)
  | Waiting pid => ma_ExecMu m = Some (ByCaller i) /\ exists st, ma_children m !! pid = Some (mkChild (Some i) st)
  | ECHILD | Finished None => False
  end.

Definition machine_ok (m : Machine) : Prop :=
  disciplined m /\ map_Forall (fun i c => caller_ok m i (ca_at c)) (ma_callers m) /\
  (ma_draining m = true -> ma_ExecMu m = Some ByReaper).

Lemma initial_ok m : initial m -> disciplined m -> machine_ok m.
Proof.
  intros (_ & _ & Hd & Hr) Hdis. split; [done|]. split; [|congruence]. intros i c Hc. by rewrite (Hr i c Hc).
Qed.

(** A caller other than [i] keeps what it has when the children it does not
    own and the progress of [i] change. *)
Lemma caller_ok_mono m m' i p :
  (ma_ExecMu m = Some (ByCaller i) -> ma_ExecMu m' = Some (ByCaller i)) ->
  (forall pid st, ma_ExecMu m = Some (ByCaller i) -> ma_children m !! pid = Some (mkChild (Some i) st) ->
     exists st', ma_children m' !! pid = Some (mkChild (Some i) st')) ->
  caller_ok m i p -> caller_ok m' i p.
Proof.
  intros Hmu Hch. destruct p as [| |pid|st| |[st|]]; cbn; auto. intros [Hh [st Hst]]. eauto.
Qed.

Lemma ok_same m m' : machine_ok m -> ma_callers m' = ma_callers m ->
  (forall j q, caller_ok m j q -> caller_ok m' j q) ->
  (ma_draining m' = true -> ma_ExecMu m' = Some ByReaper) -> machine_ok m'.
Proof.
  intros (Hdis & Hall & _) E Hmono Hdr. unfold machine_ok, disciplined. rewrite E. split; [done|]. split; [|done].
  intros j c Hc. apply Hmono, (Hall j c Hc).
Qed.

Lemma ok_at i p m m' : machine_ok m -> ma_callers m' = <[i := mkCaller true p]> (ma_callers m) ->
  caller_ok m' i p -> (forall j q, j <> i -> caller_ok m j q -> caller_ok m' j q) ->
  (ma_draining m' = true -> ma_ExecMu m' = Some ByReaper) -> machine_ok m'.
Proof.
  intros (Hdis & Hall & _) E Hi Hmono Hdr. unfold machine_ok, disciplined. rewrite E.
  assert (forall j c, <[i := mkCaller true p]> (ma_callers m) !! j = Some c ->
    (j = i /\ c = mkCaller true p) \/ (j <> i /\ ma_callers m !! j = Some c)) as Hcases.
  { intros j c Hc. destruct (decide (j = i)) as [->|Hj]; [left|right].
    - rewrite lookup_insert_eq in Hc. by injection Hc as <-.
    - by rewrite lookup_insert_ne in Hc. }
  split; [|split; [|done]]; intros j c [[-> ->]|[Hj Hc]]%Hcases; [done|by apply (Hdis j)|done|].
  by apply Hmono, (Hall j c Hc).
Qed.

(** A lookup that survives the change of another child. *)
Lemma child_insert m pid c i q st : ma_children m !! pid = None \/ (exists o, ch_caller c = o /\ exists s, ma_children m !! pid = Some (mkChild o s)) ->
  ma_children m !! q = Some (mkChild (Some i) st) ->
  exists st', <[pid := c]> (ma_children m) !! q = Some (mkChild (Some i) st').
Proof.
  intros H Hq. destruct (decide (pid = q)) as [->|Hne]; [|rewrite lookup_insert_ne by done; eauto].
  rewrite lookup_insert_eq. destruct H as [H|(o & Ho & s & H)]; rewrite H in Hq; [done|]. injection Hq as -> ->.
  destruct c as [o' s']. cbn in Ho. subst. eauto.
Qed.

Lemma step_keeps_ok m m' : machine_ok m -> step m m' -> machine_ok m'.
Proof.
  intros Hok Hstep. pose proof Hok as (Hdis & Hall & Hdr).
  assert (forall i b p, ma_callers m !! i = Some (mkCaller b p) -> b = true /\ caller_ok m i p) as Hof
    by (intros i b p E; split; [apply (Hdis i _ E)|apply (Hall i _ E)]).
  destruct Hstep as [i m Hi Hm|i b pid m Hi Hn|pid m Hn|pid o st m Hp|i b pid o st m Hi Hp|i b pid m Hi Hn|
                     i b p r m Hi Hr|m Hd Hm|pid o st m Hd Hp|m Hd Hz].
  - eapply (ok_at i Locked); [done|done|done| |].
    + intros j q _. apply caller_ok_mono; congruence.
    + intros Hd. apply Hdr in Hd. congruence.
  - destruct (Hof i b _ Hi) as [-> Hmu]. eapply (ok_at i (Waiting pid)); [done|done| | |done].
    + split; [done|]. exists None. apply lookup_insert_eq.
    + intros j q _. apply caller_ok_mono; [done|]. intros q' st _. cbn. apply child_insert. by left.
  - apply (ok_same m); [done|done| |done].
    intros j q. apply caller_ok_mono; [done|]. intros q' st _. cbn. apply child_insert. by left.
  - apply (ok_same m); [done|done| |done].
    intros j q. apply caller_ok_mono; [done|]. intros q' st' _. cbn. apply child_insert. right. eauto.
  - destruct (Hof i b _ Hi) as [-> [Hmu _]]. eapply (ok_at i (Collected st)); [done|done|done| |done].
    intros j q Hj. apply caller_ok_mono; [done|]. congruence.
  - destruct (Hof i b _ Hi) as [_ [_ [st Hst]]]. congruence.
  - destruct (Hof i b _ Hi) as [-> Hp]. destruct Hr as [(st & -> & ->)|[-> ->]]; [|destruct Hp].
    eapply (ok_at i (Finished (Some st))); [done|done|done| |].
    + intros j q Hj. cbn in Hp. apply caller_ok_mono; cbn; congruence.
    + intros Hd. apply Hdr in Hd. cbn in Hp. congruence.
  - apply (ok_same m); [done|done| |done]. intros j q. apply caller_ok_mono; congruence.
  - pose proof (Hdr Hd) as Hmu. apply (ok_same m); [done|done| |done]. intros j q. apply caller_ok_mono; congruence.
  - pose proof (Hdr Hd) as Hmu. apply (ok_same m); [done|done| |done]. intros j q. apply caller_ok_mono; congruence.
Qed.


(** ** A caller without the mutex *)

(** Caller 0 runs its command without ExecMu, as the installer, the DHCP and
    the NTP commands do; caller 1 takes it. *)
Definition mixed : Machine := mkMachine ∅ {[0%nat := mkCaller false Ready; 1%nat := mkCaller true Ready]} None false.
Definition locked_only : Machine := mkMachine ∅ {[1%nat := mkCaller true Ready]} None false.

(** A command run on PID 1 without ExecMu can lose its exit status to
    the reaper: the wait answers "no child processes" although the command
    succeeded. *)
Theorem unlocked_caller_loses_its_child :
  exists m, rtc step mixed m /\ ma_callers m !! 0%nat = Some (mkCaller false (Finished None)).
Proof.
  eexists. split.
  - eapply rtc_l; [by apply (step_fork 0 false 41)|].
    eapply rtc_l; [by apply (step_exit 41 (Some 0%nat) 0)|].
    eapply rtc_l; [by apply step_drain|].
    eapply rtc_l; [by eapply (step_reap 41 (Some 0%nat) 0)|].
    eapply rtc_l; [by eapply (step_lost 0 false 41)|].
    apply rtc_once. apply (step_return 0 false ECHILD None); [done|by right].
  - vm_compute. reflexivity.
Qed.

