(* ===== verification/Cli.v ===== *)
(** * The command line: cmd/capsulectl/main.go, discover.go

    The arguments of capsulectl: what package flag makes of them, the helpers
    that reorder them first, sizes, the dispatch of [main], and the formatting
    of the tables. *)

From S2P Require Import Prelude GoStrings Bytes Models Banner.

Set Default Goal Selector "!".
Local Open Scope go_scope.

(** ** Package strconv, as package flag uses it *)

(** The value of a digit in any base up to 36. *)
Definition digit_value (c : ascii) : option Z :=
  let c := lower c in
  if is_digit c then Some (ord c - 48)%Z else if is_lower c then Some (ord c - 87)%Z else None.

(** [strconv.underscoreOK]: underscores only between digits; [prev] is '0'
    after a digit, '_' after an underscore, '!' after anything else, '^' at the
    beginning. *)
Fixpoint underscores_from (hex : bool) (prev : ascii) (s : string) : bool :=
  match s with
  | "" => negb (Ascii.eqb prev "_")
  | String c s =>
      if is_digit c || (hex && (97 <=? ord (lower c))%Z && (ord (lower c) <=? 102)%Z) then underscores_from hex "0" s
      else if Ascii.eqb c "_" then Ascii.eqb prev "0" && underscores_from hex "_" s
      else negb (Ascii.eqb prev "_") && underscores_from hex "!" s
  end.
Definition base_prefix (s : string) : option (Z * string) :=
  match s with
  | String "0" (String c rest) =>
      if Ascii.eqb (lower c) "b" then Some (2%Z, rest) else if Ascii.eqb (lower c) "o" then Some (8%Z, rest)
      else if Ascii.eqb (lower c) "x" then Some (16%Z, rest) else None
  | _ => None
  end.
Definition underscoreOK (s : string) : bool :=
  match base_prefix s with
  | Some (b, rest) => underscores_from (b =? 16)%Z "0" rest
  | None => underscores_from false "^" s
  end.

(** The digits in a base, underscores skipped. *)
Fixpoint digits_in (base acc : Z) (s : string) : option Z :=
  match s with
  | "" => Some acc
  | String c s =>
      if Ascii.eqb c "_" then digits_in base acc s
      else match digit_value c with
           | Some d => if (d <? base)%Z then digits_in base (acc * base + d)%Z s else None
           | None => None
           end
  end.
Definition ParseUint0 (s : string) : option Z :=
  let '(base, digits) :=
    match s with
    | String "0" (String _ (String _ _)) => match base_prefix s with Some p => p | None => (8%Z, slice_from 1 s) end
    | String "0" rest => (8%Z, rest)
    | _ => (10%Z, s)
    end in
  if str_empty s then None
  else match digits_in base 0 digits with
       | Some n => if negb (n <? 2 ^ 64)%Z || (Contains s "_" && negb (underscoreOK s)) then None else Some n
       | None => None
       end.
(** [strconv.ParseInt(s, 0, 64)] *)
Definition ParseInt0 (s : string) : option Z :=
  let '(neg, digits) := match s with String "-" r => (true, r) | String "+" r => (false, r) | _ => (false, s) end in
  match ParseUint0 digits with
  | Some n => if neg then (if (2 ^ 63 <? n)%Z then None else Some (- n)%Z) else if (2 ^ 63 <=? n)%Z then None else Some n
  | None => None
  end.

Definition ParseBool (s : string) : option bool :=
  if existsb (String.eqb s) ["1"; "t"; "T"; "TRUE"; "true"; "True"] then Some true
  else if existsb (String.eqb s) ["0"; "f"; "F"; "FALSE"; "false"; "False"] then Some false
  else None.

(** *** [time.ParseDuration] *)

(** The digits in front: their value, how many, and the rest. *)
Fixpoint leading_digits (acc : Z) (n : nat) (s : string) : Z * nat * string :=
  match s with
  | String c s' => if is_digit c then leading_digits (acc * 10 + (ord c - 48))%Z (S n) s' else (acc, n, s)
  | "" => (acc, n, s)
  end.
(** [strconv]'s leadingInt: [None] above 2^63. *)
Definition leadingInt (s : string) : option (Z * nat * string) :=
  let '(v, n, rest) := leading_digits 0 0 s in if (2 ^ 63 <? v)%Z then None else Some (v, n, rest).
Definition duration_units : list (string * Z) :=
  [("ns", 1%Z); ("us", 1000%Z); ("µs", 1000%Z); ("μs", 1000%Z); ("ms", 1000000%Z); ("s", 1000000000%Z);
   ("m", 60000000000%Z); ("h", 3600000000000%Z)].
(** Everything up to the next digit or dot. *)
Fixpoint cut_unit (s : string) : string * string :=
  match s with
  | String c s' => if is_digit c || Ascii.eqb c "." then ("", s) else let '(u, rest) := cut_unit s' in (String c u, rest)
  | "" => ("", "")
  end.
(** A number with a unit; the nanoseconds of the fraction are rounded down, in
    exact arithmetic. *)
Definition duration_part (s : string) : option (Z * string) :=
  match leadingInt s with
  | None => None
  | Some (v, pre, s1) =>
      let '(f, post, s2) := match s1 with String "." s2 => leading_digits 0 0 s2 | _ => (0%Z, O, s1) end in
      if (pre + post =? 0)%nat then None
      else
        let '(u, rest) := cut_unit s2 in
        match List.find (fun e => String.eqb e.1 u) duration_units with
        | None => None
        | Some (_, unit) =>
            let d := (v * unit + f * unit / 10 ^ Z.of_nat post)%Z in
            if (2 ^ 63 <? d)%Z then None else Some (d, rest)
        end
  end.
Fixpoint duration_parts (fuel : nat) (d : Z) (s : string) : option Z :=
  match s, fuel with
  | "", _ => Some d
  | _, O => None
  | _, S fuel =>
      match duration_part s with
      | Some (v, rest) => if (2 ^ 63 <? d + v)%Z then None else duration_parts fuel (d + v)%Z rest
      | None => None
      end
  end.
Definition ParseDuration (s : string) : option Z :=
  let '(neg, s) := match s with String "-" r => (true, r) | String "+" r => (false, r) | _ => (false, s) end in
  if String.eqb s "0" then Some 0%Z
  else if str_empty s then None
  else match duration_parts (String.length s) 0 s with
       | Some d => if neg then Some (- d)%Z else if (2 ^ 63 - 1 <? d)%Z then None else Some d
       | None => None
       end.
Example ParseDuration_1 : ParseDuration "1m30s" = Some 90000000000%Z /\ ParseDuration "1.5h" = Some 5400000000000%Z /\
  ParseDuration "-.5s" = Some (-500000000)%Z /\ ParseDuration "3" = None /\ ParseDuration "s" = None /\ ParseDuration "10x" = None.
Proof. by vm_compute. Qed.

(** ** Package flag *)

Inductive FlagKind := FlagBool | FlagString | FlagInt | FlagDuration.
Definition FlagSet := list (string * FlagKind).

(** The assignments in order and the arguments left, or the end of the
    process: [flag.ExitOnError] exits with 0 after "-h", with 2 after an error. *)
Inductive FlagOutcome := Parsed (set : list (string * string)) (args : list string) | FlagExit (status : Z).

Definition formal (fs : FlagSet) (name : string) : option FlagKind :=
  match List.find (fun f => String.eqb f.1 name) fs with Some (_, k) => Some k | None => None end.
Definition accepts (k : FlagKind) (value : string) : bool :=
  match k with
  | FlagBool => match ParseBool value with Some _ => true | None => false end
  | FlagString => true
  | FlagInt => match ParseInt0 value with Some _ => true | None => false end
  | FlagDuration => match ParseDuration value with Some _ => true | None => false end
  end.
(** The name and the value of a token without its dashes: "=" cannot be first. *)
Definition cut_value (name : string) : string * option string :=
  match name with
  | String c rest => match Cut "=" rest with Some (n, v) => (String c n, Some v) | None => (name, None) end
  | "" => (name, None)
  end.
(** A token as the parser sees it. *)
Inductive Token := Positional | Terminator | BadSyntax | Flag (name : string) (value : option string).
Definition token (s : string) : Token :=
  match s with
  | String "-" (String c rest) =>
      if Ascii.eqb c "-" && str_empty rest then Terminator
      else
        let name := if Ascii.eqb c "-" then rest else String c rest in
        match name with
        | "" => BadSyntax
        | String d _ => if Ascii.eqb d "-" || Ascii.eqb d "=" then BadSyntax else let '(n, v) := cut_value name in Flag n v
        end
  | _ => Positional
  end.
Definition set_flag (name value : string) (k : FlagKind) (rest : FlagOutcome) : FlagOutcome :=
  if accepts k value then match rest with Parsed set args => Parsed ((name, value) :: set) args | e => e end
  else FlagExit 2.

Fixpoint flag_Parse (fs : FlagSet) (args : list string) : FlagOutcome :=
  match args with
  | [] => Parsed [] []
  | s :: rest =>
      match token s with
      | Positional => Parsed [] args
      | Terminator => Parsed [] rest
      | BadSyntax => FlagExit 2
      | Flag name value =>
          match formal fs name with
          | None => FlagExit (if String.eqb name "help" || String.eqb name "h" then 0 else 2)
          | Some FlagBool => set_flag name (default "true" value) FlagBool (flag_Parse fs rest)
          | Some k =>
              match value, rest with
              | Some v, _ => set_flag name v k (flag_Parse fs rest)
              | None, v :: rest => set_flag name v k (flag_Parse fs rest)
              | None, [] => FlagExit 2
              end
          end
      end
  end.

(** The last assignment wins. *)
Fixpoint assigned (name : string) (set : list (string * string)) : option string :=
  match set with
  | [] => None
  | (n, v) :: set => match assigned name set with Some w => Some w | None => if String.eqb n name then Some v else None end
  end.
Definition flag_str (name dflt : string) (set : list (string * string)) : string := default dflt (assigned name set).
Definition flag_bool (name : string) (set : list (string * string)) : bool :=
  match assigned name set with Some v => default false (ParseBool v) | None => false end.
Definition flag_int (name : string) (set : list (string * string)) : Z :=
  match assigned name set with Some v => default 0%Z (ParseInt0 v) | None => 0%Z end.
Definition flag_duration (name : string) (dflt : Z) (set : list (string * string)) : Z :=
  match assigned name set with Some v => default 0%Z (ParseDuration v) | None => dflt end.

(** ** Reordering the arguments *)

Fixpoint splitAtDashDash (args : list string) : list string * list string :=
  match args with
  | [] => ([], [])
  | a :: rest => if String.eqb a "--" then ([], rest) else let '(pre, post) := splitAtDashDash rest in (a :: pre, post)
  end.

(** [len(a) > 1 && a[0] == '-'] *)
Definition dashed (a : string) : bool := match a with String "-" (String _ _) => true | _ => false end.

Definition partitionFlags (args : list string) : list string * list string :=
  foldl (fun p a => if dashed a then (p.1 ++ [a], p.2) else (p.1, p.2 ++ [a])) ([], []) args.
Definition frontLoadFlags (args : list string) : list string :=
  let '(flags, positionals) := partitionFlags args in flags ++ positionals.

(** The name of the flag that may take the next argument. *)
Definition joinable (a : string) : option string :=
  if HasPrefix a "--" && negb (Contains a "=") then Some (slice_from 2 a)
  else if HasPrefix a "-" && (1 <? len a)%Z && negb (HasPrefix a "--") && negb (Contains a "=") then Some (slice_from 1 a)
  else None.
Fixpoint joinValueFlags (args valueFlags : list string) : list string :=
  match args with
  | [] => []
  | a :: rest =>
      match joinable a, rest with
      | Some name, v :: rest' =>
          if existsb (String.eqb name) valueFlags then (a +:+ "=" +:+ v) :: joinValueFlags rest' valueFlags
          else a :: joinValueFlags rest valueFlags
      | _, _ => a :: joinValueFlags rest valueFlags
      end
  end.

(** ** Sizes *)

(** The end of the numeric prefix: everything up to the last digit. *)
Fixpoint up_to_digit (s : string) : nat :=
  match s with
  | "" => 0
  | String c s' => match up_to_digit s' with O => if is_digit c then 1 else 0 | S n => S (S n) end
  end.

Definition parseSize (s : string) : result Z :=
  let s := TrimSpace s in
  if str_empty s then Err (Errorf "empty size")
  else
    let i := up_to_digit s in
    let num := slice_to i s in
    let unit := ToLower (TrimSpace (slice_from i s)) in
    match ParseUint (TrimSpace num) with
    | None => Err (Errorf ("parse " +:+ Quote s))
    | Some n =>
        if existsb (String.eqb unit) [""; "m"; "mi"; "mib"] then Ok n
        else if existsb (String.eqb unit) ["k"; "ki"; "kib"] then
          if negb (n mod 1024 =? 0)%Z then Err (Errorf (s +:+ " not a whole MiB")) else Ok (n / 1024)%Z
        else if existsb (String.eqb unit) ["g"; "gi"; "gib"] then Ok (u64 (n * 1024))
        else if existsb (String.eqb unit) ["t"; "ti"; "tib"] then Ok (u64 (u64 (n * 1024) * 1024))
        else Err (Errorf ("unknown size unit " +:+ Quote unit +:+ " (use KiB/MiB/GiB/TiB)"))
    end.

(** ** Formatting *)

Definition formatUptime (secs : Z) : string :=
  if (secs =? 0)%Z then "0s"
  else
    let d := (secs / 86400)%Z in
    let h := (secs mod 86400 / 3600)%Z in
    let m := (secs mod 3600 / 60)%Z in
    let s := (secs mod 60)%Z in
    let parts :=
      (if (0 <? d)%Z then [Itoa d +:+ "d"] else []) ++
      (if (0 <? h)%Z || (0 <? d)%Z then [Itoa h +:+ "h"] else []) ++
      (if (0 <? m)%Z || (0 <? h)%Z || (0 <? d)%Z then [Itoa m +:+ "m"] else []) ++
      [Itoa s +:+ "s"] in
    Join parts " ".

(** What is printed: text, or the rows of a table. *)
Inductive Printed := Text (s : string) | Rows (l : list (list string)).

(** [fmt_f1 n d]: [%.1f] of the quotient of the floats of [n] and [d]. *)
Definition humanBytes (fmt_f1 : Z -> Z -> string) (n : Z) : result string :=
  if (n <? 1024)%Z then Ok (Itoa n +:+ "B")
  else
    let '(div, exp) := human_loop 1024 human_fuel (n / 1024) 1024 0 in
    match String.get exp "KMGTPE" with
    | Some u => Ok (fmt_f1 n div +:+ String u "B")
    | None => Err (Errorf "runtime error: index out of range")
    end.

Definition kindShort (k : WorkloadKind) : string :=
  match k with WORKLOAD_KIND_CONTAINER => "Container" | WORKLOAD_KIND_MICRO_VM => "MicroVM" | _ => "?" end.
Definition phaseShort (p : WorkloadPhase) : string :=
  match p with
  | WORKLOAD_PHASE_PENDING => "Pending" | WORKLOAD_PHASE_RUNNING => "Running"
  | WORKLOAD_PHASE_STOPPED => "Stopped" | WORKLOAD_PHASE_FAILED => "Failed" | _ => "-"
  end.
Definition desiredShort (d : DesiredState) : string :=
  match d with DESIRED_STATE_STOPPED => "Stopped" | _ => "Running" end.

(** The rows of [workloadList]. *)
Definition workload_row (w : Workload) : list string :=
  let image := from_option cs_image "" (wl_container w) in
  let image := if String.eqb image "" then from_option mv_image "" (wl_micro_vm w) else image in
  let '(phase, message) := match wl_status w with Some st => (ws_phase st, ws_message st) | None => (WORKLOAD_PHASE_UNSPECIFIED, "") end in
  [wl_name w; kindShort (wl_kind w); image; desiredShort (wl_desired_state w); phaseShort phase; message].

(** The first eight bytes of a fingerprint. *)
Fixpoint short_pairs (n : nat) (fp : string) : string :=
  match n, fp with
  | S n, String a (String b rest) => ":" +:+ String a (String b (short_pairs n rest))
  | _, _ => "..."
  end.
Definition shortFingerprint (fp : string) : string :=
  if String.eqb fp "" then "-"
  else if (len fp <=? 16)%Z then fp
  else match fp with String a (String b rest) => String a (String b (short_pairs 7 rest)) | _ => fp end.

(** The digest column of [imageList]. *)
Definition short_digest (digest : string) : string :=
  if (19 <? len digest)%Z && HasPrefix digest "sha256:" then take 19 digest else digest.

(** ** The dispatch of [main] *)

(** What runs: the capsule to talk to and the arguments of the function. *)
Inductive Command :=
  | RunCp (addr : string) (args : list string) | RunAdopt (addr : string) (args : list string)
  | RunWhoAmI (addr : string) | RunDiscover (args : list string) | RunInstall (args : list string)
  | CapsuleInfo (addr : string) | CapsuleReboot (addr : string)
  | CapsuleUpdatePush (addr bundle : string) (autoConfirm : Z) | CapsuleUpdateConfirm (addr : string)
  | CapsuleDebug (addr image : string) (keep : bool) (cmd : list string)
  | CapsuleLogs (addr : string) (follow : bool) (tail : Z)
  | ApplyManifest (addr path : string)
  | WorkloadList (addr : string) | WorkloadGet (addr name : string) | WorkloadDelete (addr name : string)
  | WorkloadLifecycle (addr name verb : string)
  | WorkloadLogs (addr name : string) (follow : bool) (tail : Z) (serial : bool)
  | WorkloadExec (addr name : string) (command : list string) (tty : bool)
  | VolumeCreate (addr name : string) (sizeMiB : Z) | VolumeList (addr : string) | VolumeGet (addr name : string)
  | VolumeDelete (addr name : string) (force : bool) | VolumeResize (addr name : string) (newSizeMiB : Z)
  | RunKeyAdd (addr pubPath name : string) | RunKeyList (addr : string) | RunKeyRemove (addr kid : string) | RunKeyShow (addr : string)
  | RunContextList | RunContextUse (name : string) | RunContextRemove (name : string)
  | ImageList (addr : string) | ImagePush (addr path : string).

(** A command, an error of [main] itself (exit status 1), or the end of the
    process from a flag parser or from the usage text. *)
Inductive Invocation := Run (c : Command) | Reject (msg : string) | Exit (status : Z).

Definition with_flags (fs : FlagSet) (args : list string) (k : list (string * string) -> list string -> Invocation) : Invocation :=
  match flag_Parse fs args with Parsed set rest => k set rest | FlagExit n => Exit n end.
Definition with_arg (args : list string) (missing : string) (k : string -> Invocation) : Invocation :=
  match args with a :: _ => k a | [] => Reject missing end.

Section commands.
Context (addr : string).

Definition capsule_update (args : list string) : Invocation :=
  match args with
  | [] => Reject "capsule update requires a subcommand: push | confirm"
  | sub :: args =>
      if String.eqb sub "push" then
        with_flags [("auto-confirm", FlagInt)] (frontLoadFlags (joinValueFlags args ["auto-confirm"])) (fun set rest =>
          with_arg rest "capsule update push requires a bundle path" (fun bundle =>
            Run (CapsuleUpdatePush addr bundle (flag_int "auto-confirm" set))))
      else if String.eqb sub "confirm" then Run (CapsuleUpdateConfirm addr)
      else Reject ("unknown capsule update subcommand: " +:+ sub)
  end.
Definition capsule_debug (args : list string) : Invocation :=
  let '(preDash, postDash) := splitAtDashDash args in
  with_flags [("i", FlagString); ("keep", FlagBool)] preDash (fun set _ =>
    let cmd := match postDash with [] => ["/bin/sh"] | _ => postDash end in
    Run (CapsuleDebug addr (flag_str "i" "docker.io/library/alpine:3.20" set) (flag_bool "keep" set) cmd)).
Definition capsule_logs (args : list string) : Invocation :=
  with_flags [("f", FlagBool); ("n", FlagInt)] args (fun set _ => Run (CapsuleLogs addr (flag_bool "f" set) (flag_int "n" set))).

Definition workload_logs (args : list string) : Invocation :=
  let '(flagTokens, positionals) := partitionFlags args in
  with_flags [("f", FlagBool); ("n", FlagInt); ("serial", FlagBool)] flagTokens (fun set _ =>
    with_arg positionals "workload logs requires a name" (fun name =>
      Run (WorkloadLogs addr name (flag_bool "f" set) (flag_int "n" set) (flag_bool "serial" set)))).
Definition workload_exec (args : list string) : Invocation :=
  let '(preDash, postDash) := splitAtDashDash args in
  let '(flagTokens, positionals) := partitionFlags preDash in
  with_flags [("t", FlagBool)] flagTokens (fun set _ =>
    match positionals with
    | [] => Reject "workload exec requires a name"
    | name :: more =>
        match more ++ postDash with
        | [] => Reject "workload exec requires a command (e.g. -- /bin/sh)"
        | cmd => Run (WorkloadExec addr name cmd (flag_bool "t" set))
        end
    end).

Definition volume_create (args : list string) : Invocation :=
  with_flags [("size", FlagString)] (frontLoadFlags (joinValueFlags args ["size"])) (fun set rest =>
    with_arg rest "volume create requires a name" (fun name =>
      let size := flag_str "size" "" set in
      if String.eqb size "" then Run (VolumeCreate addr name 0)
      else match parseSize size with
           | Err e => Reject ("--size: " +:+ Error e)
           | Ok n => Run (VolumeCreate addr name n)
           end)).
Definition volume_delete (args : list string) : Invocation :=
  with_flags [("force", FlagBool)] args (fun set rest =>
    with_arg rest "volume delete requires a name" (fun name => Run (VolumeDelete addr name (flag_bool "force" set)))).
Definition volume_resize (args : list string) : Invocation :=
  match args with
  | name :: size :: _ =>
      match parseSize size with Err e => Reject ("size: " +:+ Error e) | Ok n => Run (VolumeResize addr name n) end
  | _ => Reject "volume resize requires <name> <size>"
  end.
Definition key_add (args : list string) : Invocation :=
  with_flags [("name", FlagString)] args (fun set rest =>
    let name := flag_str "name" "" set in
    match rest with
    | file :: _ => if String.eqb name "" then Reject "key add requires --name <label> <pubkey-file>" else Run (RunKeyAdd addr file name)
    | [] => Reject "key add requires --name <label> <pubkey-file>"
    end).

(** The cases of the switch on group and command. *)
Definition commands : list (string * (list string -> Invocation)) :=
  [("capsule info", fun _ => Run (CapsuleInfo addr));
   ("capsule reboot", fun _ => Run (CapsuleReboot addr));
   ("capsule update", capsule_update);
   ("capsule debug", capsule_debug);
   ("capsule logs", capsule_logs);
   ("apply -f", fun a => with_arg a "apply -f requires a manifest path" (fun p => Run (ApplyManifest addr p)));
   ("workload list", fun _ => Run (WorkloadList addr));
   ("workload get", fun a => with_arg a "workload get requires a name" (fun n => Run (WorkloadGet addr n)));
   ("workload delete", fun a => with_arg a "workload delete requires a name" (fun n => Run (WorkloadDelete addr n)));
   ("workload restart", fun a => with_arg a "workload restart requires a name" (fun n => Run (WorkloadLifecycle addr n "restart")));
   ("workload stop", fun a => with_arg a "workload stop requires a name" (fun n => Run (WorkloadLifecycle addr n "stop")));
   ("workload start", fun a => with_arg a "workload start requires a name" (fun n => Run (WorkloadLifecycle addr n "start")));
   ("workload logs", workload_logs);
   ("volume create", volume_create);
   ("volume list", fun _ => Run (VolumeList addr));
   ("volume get", fun a => with_arg a "volume get requires a name" (fun n => Run (VolumeGet addr n)));
   ("volume delete", volume_delete);
   ("key add", key_add);
   ("key list", fun _ => Run (RunKeyList addr));
   ("key rm", fun a => with_arg a "key rm requires a kid" (fun k => Run (RunKeyRemove addr k)));
   ("key show", fun _ => Run (RunKeyShow addr));
   ("context list", fun _ => Run RunContextList);
   ("context use", fun a => with_arg a "context use requires a name" (fun n => Run (RunContextUse n)));
   ("context rm", fun a => with_arg a "context rm requires a name" (fun n => Run (RunContextRemove n)));
   ("image list", fun _ => Run (ImageList addr));
   ("image push", fun a => with_arg a "image push requires a tarball path (or '-' for stdin)" (fun p => Run (ImagePush addr p)));
   ("volume resize", volume_resize);
   ("workload exec", workload_exec)].

(** The verbs that stand alone, then a group and a command. *)
Definition dispatch (rest : list string) : Invocation :=
  match rest with
  | "cp" :: args => Run (RunCp addr args)
  | "adopt" :: args => Run (RunAdopt addr args)
  | "whoami" :: _ => Run (RunWhoAmI addr)
  | "discover" :: args => Run (RunDiscover args)
  | "install" :: args => Run (RunInstall args)
  | group :: cmd :: subArgs =>
      match List.find (fun c => String.eqb c.1 (group +:+ " " +:+ cmd)) commands with
      | Some (_, run) => run subArgs
      | None => Exit 2
      end
  | _ => Exit 2
  end.
End commands.

Definition main_dispatch (CAPSULE_HOST : string) (args : list string) : Invocation :=
  with_flags [("capsule", FlagString)] args (fun set rest => dispatch (flag_str "capsule" CAPSULE_HOST set) rest).

(** ** Laws *)

Lemma partitionFlags_go args p :
  foldl (fun p a => if dashed a then (p.1 ++ [a], p.2) else (p.1, p.2 ++ [a])) p args =
    (p.1 ++ List.filter dashed args, p.2 ++ List.filter (fun a => negb (dashed a)) args).
Proof.
  revert p. induction args as [|a args IH]; intros [f q]; cbn [foldl List.filter fst snd]; [by rewrite !app_nil_r|].
  rewrite IH. destruct (dashed a); cbn; by rewrite <- !app_assoc.
Qed.
Lemma partitionFlags_filter args :
  partitionFlags args = (List.filter dashed args, List.filter (fun a => negb (dashed a)) args).
Proof. unfold partitionFlags. by rewrite partitionFlags_go. Qed.
Lemma frontLoadFlags_filter args :
  frontLoadFlags args = List.filter dashed args ++ List.filter (fun a => negb (dashed a)) args.
Proof. unfold frontLoadFlags. by rewrite partitionFlags_filter. Qed.
Lemma frontLoadFlags_Permutation args : frontLoadFlags args ≡ₚ args.
Proof.
  rewrite frontLoadFlags_filter. induction args as [|a args IH]; [done|]. cbn [List.filter].
  destruct (dashed a); cbn [negb app]; [by rewrite IH|]. rewrite <- Permutation_middle. by rewrite IH.
Qed.

Lemma splitAtDashDash_app pre post : ~ "--" ∈ pre -> splitAtDashDash (pre ++ "--" :: post) = (pre, post).
Proof.
  intros H. induction pre as [|a pre IH]; [done|]. apply not_elem_of_cons in H as [Ha H]. cbn [app splitAtDashDash].
  destruct (String.eqb_spec a "--"); [by subst|]. by rewrite IH.
Qed.
Lemma splitAtDashDash_none args : ~ "--" ∈ args -> splitAtDashDash args = (args, []).
Proof.
  intros H. induction args as [|a args IH]; [done|]. apply not_elem_of_cons in H as [Ha H]. cbn [splitAtDashDash].
  destruct (String.eqb_spec a "--"); [by subst|]. by rewrite IH.
Qed.

(** *** Sizes *)

Lemma digit_not_space c : is_digit c = true -> is_space c = false.
Proof. unfold is_digit, is_space. lia. Qed.

Lemma last_char_digit s : s <> "" -> all_chars is_digit s = true -> exists d, last_char s = Some d /\ is_digit d = true.
Proof.
  induction s as [|c s IH]; [done|]. intros _ H. cbn [all_chars] in H. apply andb_prop in H as [Hc Hs].
  destruct s as [|e s]; [by exists c|]. destruct (IH ltac:(done) Hs) as (d & Hd & ?). exists d. split; [|done].
  change (last_char (String e s) = Some d). done.
Qed.

(** No digit, and no blank at the end. *)
Definition suffix_ok (u : string) : bool :=
  all_chars (fun c => negb (is_digit c)) u && match last_char u with Some d => negb (is_space d) | None => true end.

Lemma up_to_digit_none u : all_chars (fun c => negb (is_digit c)) u = true -> up_to_digit u = 0%nat.
Proof.
  induction u as [|c u IH]; [done|]. cbn [all_chars up_to_digit]. intros [Hc Hu]%andb_prop. rewrite (IH Hu).
  by apply negb_true_iff in Hc as ->.
Qed.
Lemma up_to_digit_app s u : s <> "" -> all_chars is_digit s = true -> up_to_digit u = 0%nat -> up_to_digit (s +:+ u) = String.length s.
Proof.
  intros Hne Hs Hu. induction s as [|c s IH]; [done|]. cbn [all_chars] in Hs. apply andb_prop in Hs as [Hc Hs].
  cbn [String.append up_to_digit String.length]. destruct s as [|e s].
  - cbn [String.append]. by rewrite Hu, Hc.
  - rewrite IH by done. done.
Qed.
Lemma slice_to_app s u : slice_to (String.length s) (s +:+ u) = s.
Proof. induction s as [|c s IH]; [by destruct u|]. cbn [String.append String.length slice_to]. by rewrite IH. Qed.

Lemma TrimSpace_size s u : s <> "" -> all_chars is_digit s = true -> suffix_ok u = true -> TrimSpace (s +:+ u) = s +:+ u.
Proof.
  intros Hne Hs [_ Hu]%andb_prop. destruct (last_char_digit s Hne Hs) as (d & Hd & Hdd). destruct s as [|c s]; [done|].
  assert (is_space c = false) as Hc by (cbn [all_chars] in Hs; apply andb_prop in Hs as [? _]; by apply digit_not_space).
  destruct u as [|e u].
  - rewrite app_nil_str. eapply TrimSpace_id; [done|done|by apply digit_not_space].
  - assert (exists f, last_char (String e u) = Some f) as [f Hf].
    { clear. revert e. induction u as [|g u IH]; intros e; [by exists e|]. destruct (IH g) as [f Hf]. exists f. exact Hf. }
    rewrite Hf in Hu. apply negb_true_iff in Hu. cbn [String.append]. eapply TrimSpace_id; [done| |exact Hu].
    change (last_char (String c s +:+ String e u) = Some f). by rewrite last_char_app.
Qed.

(** The bytes of a unit: binary, a bare number counts MiB. *)
Definition unit_bytes (unit : string) : option Z :=
  if existsb (String.eqb unit) [""; "m"; "mi"; "mib"] then Some (2 ^ 20)%Z
  else if existsb (String.eqb unit) ["k"; "ki"; "kib"] then Some (2 ^ 10)%Z
  else if existsb (String.eqb unit) ["g"; "gi"; "gib"] then Some (2 ^ 30)%Z
  else if existsb (String.eqb unit) ["t"; "ti"; "tib"] then Some (2 ^ 40)%Z
  else None.

(** C40: a size is read in MiB.  A number followed by a suffix without
    digits is the number of bytes the binary unit gives, in whole MiB: rejected
    when it is not a multiple of one or when the unit is unknown, exact as long
    as the count of MiB fits 64 bits, and reduced modulo 2^64 without an error
    beyond. *)
Theorem parseSize_spec n u : (0 <= n < 2 ^ 64)%Z -> suffix_ok u = true ->
  match unit_bytes (ToLower (TrimSpace u)), parseSize (Itoa n +:+ u) with
  | Some b, Ok mib => (n * b mod 2 ^ 20 = 0)%Z /\ mib = u64 (n * b / 2 ^ 20) /\
                      ((n * b < 2 ^ 84)%Z -> (mib * 2 ^ 20 = n * b)%Z)
  | Some b, Err _ => (n * b mod 2 ^ 20 <> 0)%Z
  | None, r => is_ok r = false
  end.
Proof.
  intros Hn Hu. pose proof (Itoa_digits n (proj1 Hn)) as Hd. pose proof (Itoa_not_empty n) as Hne.
  unfold parseSize. rewrite TrimSpace_size by done.
  destruct (str_empty (Itoa n +:+ u)) eqn:He.
  { unfold str_empty in He. apply String.eqb_eq in He. by destruct (Itoa n). }
  rewrite up_to_digit_app by (try done; apply up_to_digit_none; by apply andb_prop in Hu as [? _]).
  rewrite slice_to_app, slice_from_app. cbv zeta.
  assert (TrimSpace (Itoa n) = Itoa n) as -> by (rewrite <- (app_nil_str (Itoa n)) at 1; rewrite TrimSpace_size by done; apply app_nil_str).
  rewrite ParseUint_Itoa by done. unfold unit_bytes. set (unit := ToLower (TrimSpace u)).
  destruct (existsb (String.eqb unit) [""; "m"; "mi"; "mib"]); [|destruct (existsb (String.eqb unit) ["k"; "ki"; "kib"]);
    [|destruct (existsb (String.eqb unit) ["g"; "gi"; "gib"]); [|destruct (existsb (String.eqb unit) ["t"; "ti"; "tib"]); [|done]]]].
  - rewrite Z.mod_mul, Z.div_mul by done. rewrite wrap_small by done. done.
  - destruct (Z.eqb_spec (n mod 1024) 0) as [Hz|Hz]; cbn [negb].
    + apply Z.mod_divide in Hz as [k ->]; [|done]. replace (k * 1024 * 2 ^ 10)%Z with (k * 2 ^ 20)%Z by lia.
      rewrite Z.mod_mul, !Z.div_mul by done. rewrite wrap_small by lia. done.
    + intros Hm. apply Hz. change (2 ^ 20)%Z with (1024 * 2 ^ 10)%Z in Hm. rewrite Z.mul_mod_distr_r in Hm by done. lia.
  - replace (n * 2 ^ 30)%Z with (n * 1024 * 2 ^ 20)%Z by lia. rewrite Z.mod_mul, Z.div_mul by done.
    split; [done|]. split; [done|]. intros Hb. rewrite wrap_small by lia. done.
  - replace (n * 2 ^ 40)%Z with (n * 1024 * 1024 * 2 ^ 20)%Z by lia. rewrite Z.mod_mul, Z.div_mul by done.
    assert (u64 (u64 (n * 1024) * 1024) = u64 (n * 1024 * 1024)) as -> by (unfold wrap; by rewrite Z.mul_mod_idemp_l).
    split; [done|]. split; [done|]. intros Hb. rewrite wrap_small by lia. done.
Qed.

Lemma parseSize_spec_witness : parseSize "10GiB" = Ok 10240%Z /\ is_ok (parseSize "3 pebibyte") = false.
Proof.
  split; [vm_compute; reflexivity|]. exact (parseSize_spec 3 " pebibyte" ltac:(lia) ltac:(reflexivity)).
Defined.

(** A size beyond 64 bits wraps: the volume asked for as 16 ZiB and one GiB
    is created with one GiB. *)
Theorem parseSize_wraps : parseSize "18014398509481985GiB" = Ok 1024%Z.
Proof. vm_compute. reflexivity. Qed.

(** For every 64-bit count of bytes the unit is the largest one it reaches. *)
Theorem humanBytes_spec fmt_f1 n : (1024 <= n < 2 ^ 64)%Z ->
  exists e u, String.get e "KMGTPE" = Some u /\ (1024 ^ Z.of_nat (S e) <= n < 1024 ^ Z.of_nat (S (S e)))%Z /\
    humanBytes fmt_f1 n = Ok (fmt_f1 n (1024 ^ Z.of_nat (S e))%Z +:+ String u "B").
Proof.
  intros Hn. destruct (human_loop_units 1024 ltac:(lia) n Hn) as (e & u & Hu & Hl & Hr). exists e, u. split; [done|]. split; [done|].
  unfold humanBytes. destruct (Z.ltb_spec n 1024); [lia|]. by rewrite Hl, Hu.
Qed.

(** *** Flags *)

Lemma token_positional a : dashed a = false -> token a = Positional.
Proof. destruct a as [|c [|d a]]; cbn; [done| |]; destruct c as [[] [] [] [] [] [] [] []]; done. Qed.
Lemma joinable_positional a : dashed a = false -> joinable a = None.
Proof.
  intros H. destruct a as [|c [|d a]]; [done| |].
  - unfold joinable. cbn [HasPrefix String.prefix]. destruct (ascii_dec "-" c) as [<-|Hne]; [done|]. unfold HasPrefix. cbn. by destruct (ascii_dec "-" c).
  - unfold joinable, HasPrefix. cbn [String.prefix]. destruct (ascii_dec "-" c) as [<-|Hne]; [done|]. done.
Qed.
Lemma Contains_char c s t : Contains (s +:+ String c t) (String c "") = true.
Proof.
  induction s as [|d s IH]; cbn [String.append Contains String.prefix].
  - destruct (ascii_dec c c); [by destruct t|done].
  - rewrite IH. apply orb_true_r.
Qed.
Lemma joinable_assigned name v : joinable ("--" +:+ name +:+ "=" +:+ v) = None.
Proof.
  unfold joinable. replace (Contains ("--" +:+ name +:+ "=" +:+ v) "=") with true.
  - by rewrite !andb_false_r.
  - symmetry. change (Contains (("--" +:+ name) +:+ String "=" v) "=" = true). apply Contains_char.
Qed.

(** Flags and the value of --size may stand before or after the name. *)
Theorem volume_create_order addr name v : dashed name = false ->
  volume_create addr [name; "--size"; v] = volume_create addr ["--size"; v; name] /\
  volume_create addr ["--size=" +:+ v; name] = volume_create addr ["--size"; v; name] /\
  volume_create addr [name; "--size=" +:+ v] = volume_create addr ["--size"; v; name].
Proof.
  intros Hn. pose proof (joinable_positional name Hn) as Hj. pose proof (joinable_assigned "size" v) as Hs.
  change ("--" +:+ "size" +:+ "=" +:+ v) with ("--size=" +:+ v) in Hs. change ("--size" +:+ "=" +:+ v) with ("--size=" +:+ v).
  assert (joinable "--size" = Some "size") as H1 by reflexivity.
  assert (dashed ("--size=" +:+ v) = true) as Hd by reflexivity.
  unfold volume_create. rewrite !frontLoadFlags_filter.
  assert (forall l, joinValueFlags [name; "--size"; v] l = name :: joinValueFlags ["--size"; v] l) as -> by (intros l; cbn [joinValueFlags]; by rewrite Hj).
  assert (joinValueFlags ["--size=" +:+ v; name] ["size"] = ["--size=" +:+ v; name]) as ->.
  { cbn [joinValueFlags]. by rewrite Hs, Hj. }
  assert (joinValueFlags [name; "--size=" +:+ v] ["size"] = [name; "--size=" +:+ v]) as ->.
  { cbn [joinValueFlags]. by rewrite Hs, Hj. }
  assert (joinValueFlags ["--size"; v; name] ["size"] = ["--size=" +:+ v; name]) as ->.
  { cbn [joinValueFlags]. rewrite H1. cbn. by rewrite Hj. }
  assert (joinValueFlags ["--size"; v] ["size"] = ["--size=" +:+ v]) as ->.
  { cbn [joinValueFlags]. by rewrite H1. }
  cbn [List.filter]. rewrite Hd, Hn. cbn [negb]. done.
Qed.

Lemma main_positional host verb rest : dashed verb = false -> main_dispatch host (verb :: rest) = dispatch host (verb :: rest).
Proof. intros H. unfold main_dispatch, with_flags. cbn [flag_Parse]. by rewrite (token_positional verb H). Qed.

Lemma flags_t k : flag_Parse [("t", FlagBool)] (replicate k "-t") = Parsed (replicate k ("t", "true")) [].
Proof. induction k as [|k IH]; [done|]. cbn [replicate flag_Parse]. change (token "-t") with (Flag "t" None). cbn. by rewrite IH. Qed.
Lemma flag_bool_t k : flag_bool "t" (replicate k ("t", "true")) = (0 <? Z.of_nat k)%Z.
Proof.
  assert (assigned "t" (replicate (S k) ("t", "true")) = Some "true") as H by (induction k as [|k IH]; [done|]; cbn [replicate assigned] in *; by rewrite IH).
  destruct k as [|k]; [done|]. unfold flag_bool.
  assert (assigned "t" (replicate (S k) ("t", "true")) = Some "true") as ->; [|by destruct k].
  clear H. induction k as [|k IH]; [done|]. cbn [replicate assigned] in *. by rewrite IH.
Qed.

(** what follows "--" reaches the workload untouched.  In
    "workload exec", with -t anywhere before the "--", the command is the words
    after the workload's name and then everything after the first "--", dashes,
    flags and further "--" included; with no "--" a command without flags works
    too. *)
Theorem exec_command_verbatim host pre post k name more :
  ~ "--" ∈ pre -> List.filter dashed pre = replicate k "-t" -> List.filter (fun a => negb (dashed a)) pre = name :: more ->
  more ++ post <> [] ->
  main_dispatch host ("workload" :: "exec" :: pre ++ "--" :: post) = Run (WorkloadExec host name (more ++ post) (0 <? Z.of_nat k)%Z) /\
  (post = [] -> main_dispatch host ("workload" :: "exec" :: pre) = Run (WorkloadExec host name more (0 <? Z.of_nat k)%Z)).
Proof.
  intros Hpre Hf Hp Hne. assert (forall args, splitAtDashDash args = (pre, post) ->
    main_dispatch host ("workload" :: "exec" :: args) = Run (WorkloadExec host name (more ++ post) (0 <? Z.of_nat k)%Z)) as H.
  { intros args Hs. rewrite main_positional by done. cbn [dispatch commands List.find].
    transitivity (workload_exec host args); [reflexivity|]. unfold workload_exec. rewrite Hs, partitionFlags_filter, Hf, Hp.
    unfold with_flags. rewrite flags_t, flag_bool_t. destruct (more ++ post) as [|c l]; [done|]. done. }
  split; [by apply H, splitAtDashDash_app|]. intros ->. rewrite app_nil_r in H. by apply H, splitAtDashDash_none.
Qed.

Lemma exec_command_verbatim_witness :
  main_dispatch "lab1" ["workload"; "exec"; "web"; "-t"; "--"; "ls"; "-l"; "--"; "-x"] =
    Run (WorkloadExec "lab1" "web" ["ls"; "-l"; "--"; "-x"] true).
Proof.
  refine (proj1 (exec_command_verbatim "lab1" ["web"; "-t"] ["ls"; "-l"; "--"; "-x"] 1 "web" [] _ _ _ _)); [|reflexivity|reflexivity|discriminate].
  intros [H|[H|[]%elem_of_nil]%elem_of_cons]%elem_of_cons; discriminate H.
Defined.

(** The documented "workload logs -n N name" never runs: the flags are cut
    from the values that follow them, and the parser exits. *)
Theorem logs_n_exits host n name : dashed n = false -> dashed name = false ->
  main_dispatch host ["workload"; "logs"; "-n"; n; name] = Exit 2 /\
  main_dispatch host ["workload"; "logs"; "-f"; "-n"; n; name] = Exit 2.
Proof.
  intros H1 H2. split; rewrite main_positional by done.
  - transitivity (workload_logs host ["-n"; n; name]); [reflexivity|]. unfold workload_logs. rewrite partitionFlags_filter. cbn [List.filter]. by rewrite H1, H2.
  - transitivity (workload_logs host ["-f"; "-n"; n; name]); [reflexivity|]. unfold workload_logs. rewrite partitionFlags_filter. cbn [List.filter]. by rewrite H1, H2.
Qed.
