(* ===== verification/Operator.v ===== *)
(** * The operator's side: cmd/capsulectl config.go, auth.go, identity.go, install.go

    The contexts an operator's machine knows, the key it signs with, the
    connection that is pinned to a fingerprint, and the commands that enrol a
    capsule.  The network is a class: what a TLS handshake shows and what a call
    is answered. *)

From S2P Require Import Prelude GoStrings Base64 Bytes Models Store Runtime Auth Mdns Files Paths Tls Cli Identity Installer Server.

Set Default Goal Selector "!".
Local Open Scope go_scope.

(** ** The environment *)

(** A network: the certificates an address presents in a TLS 1.3 handshake,
    a unary call over a connection that stands, and the installer's service. *)
Record InstallOffer := mkInstallOffer { io_TargetDisk : string; io_Targets : list string; io_ShortId : string }.
Record InstallOrder := mkInstallOrder { it_TargetDisk : string; it_Pubkey : string; it_Name : string; it_Seal : bool }.
Class Fabric (N : Type) := {
  handshake : string -> prog N (list string);
  invoke : string -> Ctx -> Server.Request -> prog N Reply;
  install_Status : string -> prog N InstallOffer;
  (* the results the progress messages carry, and how the stream ends; the error of the call itself first *)
  install_Install : string -> InstallOrder -> prog N (list (option Installer.Result) * result unit) }.

(** x509.ParsePKCS8PrivateKey, MarshalPKIXPublicKey and ParsePKIXPublicKey on
    DER: [None] is a key of another type. *)
Class KeyLib := {
  ParsePKCS8PrivateKey : string -> result (option string);
  MarshalPKIXPublicKey : string -> result string;
  ParsePKIXPublicKey : string -> result (option string) }.

(** What the commands rely on of the keys: a PEM block and a PKCS#8 blob are
    read back, and an Ed25519 private key has 64 bytes. *)
Class KeyLaws `{!CertLib, !KeyLib} := {
  private_pem der : pem_Decode (pem_Encode "PRIVATE KEY" der) = Some ("PRIVATE KEY", der);
  pkcs8_roundtrip priv der : MarshalPKCS8PrivateKey priv = Ok der -> ParsePKCS8PrivateKey der = Ok (Some priv);
  generated_length ent pub priv : GenerateKey ent = Ok (pub, priv) -> Z.of_nat (String.length priv) = PrivateKeySize;
  parsed_length der priv : ParsePKCS8PrivateKey der = Ok (Some priv) -> Z.of_nat (String.length priv) = PrivateKeySize }.

(** [Context] of config.go. *)
Record CtlContext := mkCtlContext { cx_Addr : string; cx_CapsuleID : string; cx_TLSFingerprint : string; cx_KeyPath : string }.
Record CtlConfig := mkCtlConfig { cf_Current : string; cf_Contexts : gmap string CtlContext }.

(** The YAML codec of the registry. *)
Class ConfigCodec := { yaml_Marshal : CtlConfig -> result string; yaml_Unmarshal : string -> option CtlConfig }.

(** [os.IsNotExist] does not look into wrapped errors. *)
Definition os_IsNotExist (e : error) : bool := match e with Sentinel OsNotExist => true | _ => false end.

(** What a process is started with. *)
Record Env := mkEnv { ev_CONFIG_DIR : string; ev_Home : result string }.

(** ** config.go *)

Section config.
Context {N : Type} {CC : ConfigCodec} (env : Env).
Abbreviation world := (FWorld N).

Definition configDir : result string :=
  if negb (str_empty (ev_CONFIG_DIR env)) then Ok (ev_CONFIG_DIR env)
  else match ev_Home env with Ok home => Ok (JoinPath (JoinPath home ".config") "capsule") | Err e => Err e end.
Definition in_configDir (name : string) : result string :=
  match configDir with Ok dir => Ok (JoinPath dir name) | Err e => Err e end.
Definition operatorKeyPath : result string := in_configDir "operator.ed25519".
Definition configPath : result string := in_configDir "config.yaml".

Definition loadConfig : prog world CtlConfig :=
  path <- lift configPath ;;
  r <- catch (f_ReadFile path) ;;
  match r with
  | Err e => if os_IsNotExist e then ret (mkCtlConfig "" ∅) else fail (Wrap ("read " +:+ path +:+ ": ") e "")
  | Ok b => match yaml_Unmarshal b with Some c => ret c | None => fail (Errorf ("parse " +:+ path)) end
  end.

(** [sfx] is what [os.CreateTemp] puts for the star. *)
Definition config_tmp (sfx dir : string) : string := dir +:+ "/.config-" +:+ sfx +:+ ".tmp".
Definition Save (sfx : string) (c : CtlConfig) : prog world unit :=
  dir <- lift configDir ;;
  wrap_err ("mkdir " +:+ dir +:+ ": ") (f_MkdirAll dir) ;;;
  let path := JoinPath dir "config.yaml" in
  b <- lift (yaml_Marshal c) ;;
  write_via_temp (fun _ e => e) false (config_tmp sfx dir) path b.

Definition errNoContext : error := Errorf "no enrolled context".

(** Go's map iteration has no order: [iterate] is the one that happens. *)
Definition Iteration : Type := gmap string CtlContext -> list (string * CtlContext).
Definition Resolve (iterate : Iteration) (c : CtlConfig) (addr : string) : result CtlContext :=
  let target := if str_empty addr then cf_Current c else addr in
  if str_empty target then Err errNoContext
  else match cf_Contexts c !! target with
       | Some ctx => Ok ctx
       | None =>
           match List.find (fun e => String.eqb (cx_Addr e.2) target) (iterate (cf_Contexts c)) with
           | Some (_, ctx) => Ok ctx
           | None => Err errNoContext
           end
       end.
End config.

(** ** auth.go *)

Section auth.
Context {N : Type} {FB : Fabric N} {TL : TokenLib} {CL : CertLib} {KL : KeyLib}.
Abbreviation world := (FWorld N).

(** [pinningTLSConfig]: what VerifyPeerCertificate decides. *)
Definition pinned (fingerprintHex : string) (rawCerts : list string) : result unit :=
  let want := ToLower (TrimSpace fingerprintHex) in
  match rawCerts with
  | [] => Err (Errorf "server presented no certificates")
  | leaf :: _ =>
      let got := FingerprintRaw leaf in
      if negb (String.eqb got want) then
        Err (Errorf ("tls fingerprint mismatch: pinned " +:+ want +:+ ", server presented " +:+ got))
      else Ok tt
  end.

Definition captureLeafFingerprint (addr : string) : prog world string :=
  certs <- wrap_err ("tls dial " +:+ addr +:+ ": ") (fstore (handshake addr)) ;;
  match certs with
  | [] => fail (Errorf "server presented no certificates")
  | leaf :: _ => ret (FingerprintRaw leaf)
  end.

(** A call on a connection that is pinned; it is made with the first call. *)
Definition call_pinned {A} (addr fingerprint : string) (m : prog N A) : prog world A :=
  certs <- fstore (handshake addr) ;; lift (pinned fingerprint certs) ;;; fstore m.

(** The draws from the random source and the clock during one call. *)
Record Draw := mkDraw { dr_now : Z; dr_jti : result string }.

(** [jwtUnary] and [jwtStream]: a fresh token for every call; the first call
    connects. *)
Definition with_jwt (d : Draw) (priv : string) (c : CtlContext) (connect : bool) (q : Server.Request) : prog world Reply :=
  tok <- lift (Mint (dr_now d) (dr_jti d) priv (cx_CapsuleID c) DefaultLifetime) ;;
  let call := invoke (cx_Addr c) (mkCtx ["Bearer " +:+ tok] None) q in
  if connect then call_pinned (cx_Addr c) (cx_TLSFingerprint c) call else fstore call.

Definition key_tmp (sfx path : string) : string := Dir path +:+ "/.key-" +:+ sfx +:+ ".tmp".
Definition generatePrivateKey (entropy sfx path : string) : prog world string :=
  f_MkdirAll (Dir path) ;;;
  s <- catch (f_Stat path) ;;
  if is_ok s then fail (Errorf ("refusing to overwrite existing key at " +:+ path))
  else
    k <- lift (GenerateKey entropy) ;;
    der <- lift (MarshalPKCS8PrivateKey k.2) ;;
    write_via_temp (fun _ e => e) true (key_tmp sfx path) path (pem_Encode "PRIVATE KEY" der) ;;;
    ret k.2.

Definition parse_private (path pem : string) : result string :=
  match pem_Decode pem with
  | None => Err (Errorf ("key " +:+ path +:+ ": no PEM block"))
  | Some (_, der) =>
      match ParsePKCS8PrivateKey der with
      | Err e => Err (Wrap ("parse key " +:+ path +:+ ": ") e "")
      | Ok None => Err (Errorf ("key " +:+ path +:+ " is not Ed25519"))
      | Ok (Some priv) => Ok priv
      end
  end.
Definition loadPrivateKey (path : string) : prog world string :=
  b <- wrap_err ("read key " +:+ path +:+ ": ") (f_ReadFile path) ;; lift (parse_private path b).

(** [dialAuth]: the checks, and the key the tokens are minted with. *)
Definition dialAuth (c : CtlContext) : prog world string :=
  if str_empty (cx_Addr c) then fail (Errorf "context missing addr")
  else if str_empty (cx_TLSFingerprint c) then fail (Errorf "context missing tls fingerprint")
  else if str_empty (cx_KeyPath c) then fail (Errorf "context missing key path")
  else if str_empty (cx_CapsuleID c) then fail (Errorf "context missing capsule_id")
  else loadPrivateKey (cx_KeyPath c).
End auth.

(** ** identity.go *)

Section identity.
Context {N : Type} {FB : Fabric N} {CC : ConfigCodec} {TL : TokenLib} {CL : CertLib} {KL : KeyLib}.
Context (env : Env) (iterate : Iteration).
Abbreviation world := (FWorld N).

(** [dial] of main.go. *)
Definition dial (addr : string) : prog world (CtlContext * string) :=
  cfg <- loadConfig env ;;
  match Resolve iterate cfg addr with
  | Err _ =>
      fail (Errorf ("no enrolled context for " +:+ Quote addr +:+ ". If this is a fresh capsule, run: capsulectl adopt --capsule "
        +:+ (if str_empty addr then "<addr>" else addr)))
  | Ok c => priv <- dialAuth c ;; ret (c, priv)
  end.
(** One authenticated call of a command. *)
Definition rpc (d : Draw) (addr : string) (q : Server.Request) : prog world Reply :=
  p <- dial addr ;; with_jwt d p.2 p.1 true q.

Definition defaultContextName (addr : string) : string :=
  match LastIndex ":" addr with Some i => if (0 <? i)%nat then slice_to i addr else addr | None => addr end.

(** What the operator answers: the word that was typed, or nothing. *)
Definition confirmed (answer : option string) : bool :=
  match answer with Some got => String.eqb (ToLower (TrimSpace got)) "yes" | None => false end.
Definition confirm (autoYes : bool) (answer : option string) (note : string) : result unit :=
  if autoYes then Ok tt
  else match answer with
       | None => Err (Errorf ("confirmation cancelled" +:+ note))
       | Some _ => if confirmed answer then Ok tt else Err (Errorf ("confirmation declined" +:+ note))
       end.
Definition isClaimWindowClosed (e : error) : bool :=
  match e with StatusError CodeFailedPrecondition m => Contains m "adoption window closed" | _ => false end.

(** The operator key, made at the first adoption. *)
Definition operator_key (entropy sfx keyPath : string) : prog world string :=
  s <- catch (f_Stat keyPath) ;;
  if is_ok s then loadPrivateKey keyPath else generatePrivateKey entropy sfx keyPath.

Definition adopt_rpc (target wireFingerprint keyPath pub ctxName : string) : prog world AdoptResponse :=
  r <- catch (call_pinned target wireFingerprint (invoke target (mkCtx [] None) (RqAdopt pub ctxName))) ;;
  match r with
  | Ok (RpAdopted resp) => ret resp
  | Ok _ => fail (Errorf "adopt rpc: not an AdoptResponse")
  | Err e =>
      if isClaimWindowClosed e then
        let der := match MarshalPKIXPublicKey pub with Ok der => der | Err _ => "" end in
        ignore (f_WriteFile (keyPath +:+ ".pub") (pem_Encode "PUBLIC KEY" der)) ;;;
        fail (Wrap "adopt: " e "")
      else fail (Wrap "adopt rpc: " e "")
  end.

Definition add_context (name : string) (c : CtlContext) (cfg : CtlConfig) : CtlConfig :=
  mkCtlConfig name (<[name := c]> (cf_Contexts cfg)).

(** [addr] is the global flag, [capsuleAddr], [name] and [autoYes] the ones of
    the command, [answer] what the operator types. *)
Definition runAdopt (entropy sfx1 sfx2 addr capsuleAddr name : string) (autoYes : bool) (answer : option string) : prog world unit :=
  let target := if str_empty capsuleAddr then addr else capsuleAddr in
  if str_empty target then fail (Errorf "adopt requires --capsule host:port")
  else
    let ctxName := if str_empty name then defaultContextName target else name in
    cfg <- loadConfig env ;;
    match cf_Contexts cfg !! ctxName with
    | Some existing =>
        fail (Errorf ("context " +:+ Quote ctxName +:+ " already exists (addr=" +:+ cx_Addr existing
          +:+ "); pick another --name or `capsulectl context rm " +:+ ctxName +:+ "` first"))
    | None =>
        wireFingerprint <- wrap_err ("capture fingerprint from " +:+ target +:+ ": ") (captureLeafFingerprint target) ;;
        lift (confirm autoYes answer " (claim window untouched)") ;;;
        keyPath <- lift (operatorKeyPath env) ;;
        priv <- operator_key entropy sfx1 keyPath ;;
        resp <- adopt_rpc target wireFingerprint keyPath (ed_Public priv) ctxName ;;
        if negb (EqualFold wireFingerprint (ar_TlsFingerprintSha256 resp)) then
          ignore (f_Remove keyPath) ;;;
          fail (Errorf ("tls fingerprint mismatch: wire=" +:+ wireFingerprint +:+ " response=" +:+ ar_TlsFingerprintSha256 resp
            +:+ " - refusing to save context"))
        else
          wrap_err "save config: "
            (Save env sfx2 (add_context ctxName (mkCtlContext target (ar_CapsuleId resp) wireFingerprint keyPath) cfg))
    end.

(** [readPublicKey]: the raw key of a PEM file. *)
Definition readPublicKey (path : string) : prog world string :=
  b <- f_ReadFile path ;;
  match pem_Decode b with
  | None => fail (Errorf (path +:+ ": no PEM block"))
  | Some (_, der) =>
      match ParsePKIXPublicKey der with
      | Err e => fail (Wrap (path +:+ ": parse: ") e "")
      | Ok None => fail (Errorf (path +:+ ": not an Ed25519 public key"))
      | Ok (Some pub) => ret pub
      end
  end.
Definition runKeyAdd (d : Draw) (addr pubPath name : string) : prog world Reply :=
  pub <- readPublicKey pubPath ;; rpc d addr (RqKeyAdd pub name).

(** The kid and the PEM block that [runKeyShow] prints. *)
Definition runKeyShow : prog world (string * string) :=
  keyPath <- lift (operatorKeyPath env) ;;
  r <- catch (loadPrivateKey keyPath) ;;
  match r with
  | Err e => if os_IsNotExist e then fail (Errorf "no operator key yet — run: capsulectl adopt --capsule <addr>") else fail e
  | Ok priv =>
      let pub := ed_Public priv in
      der <- lift (MarshalPKIXPublicKey pub) ;;
      ret (KidFromPubkey pub, pem_Encode "PUBLIC KEY" der)
  end.

(** The lines of [runContextList], with the marker of the current context. *)
Definition runContextList : prog world (list (bool * string * CtlContext)) :=
  cfg <- loadConfig env ;;
  ret (map (fun e => (String.eqb e.1 (cf_Current cfg), e.1, e.2)) (iterate (cf_Contexts cfg))).
Definition runContextUse (sfx name : string) : prog world unit :=
  cfg <- loadConfig env ;;
  match cf_Contexts cfg !! name with
  | None => fail (Errorf ("no such context: " +:+ name))
  | Some _ => Save env sfx (mkCtlConfig name (cf_Contexts cfg))
  end.
Definition runContextRemove (sfx name : string) : prog world unit :=
  cfg <- loadConfig env ;;
  match cf_Contexts cfg !! name with
  | None => fail (Errorf ("no such context: " +:+ name))
  | Some _ => Save env sfx (mkCtlConfig (if String.eqb (cf_Current cfg) name then "" else cf_Current cfg) (delete name (cf_Contexts cfg)))
  end.

(** ** install.go *)

(** The first installer of the answers to a browse that has the name. *)
Definition resolveInstaller (posArgs : list string) (addrFlag : string) (browse : result (list Entry)) : result (string * string) :=
  let hint := default "" (head posArgs) in
  if negb (str_empty addrFlag) then Ok (addrFlag, hint)
  else match browse with
       | Err e => Err (Wrap "mdns browse: " e " (try --addr <ip:port>)")
       | Ok entries =>
           match List.find (fun e => IsInstaller e && existsb (String.eqb hint) [en_ShortID e; en_Hostname e; en_Instance e]) entries with
           | Some e => if str_empty (en_Addr e) then Err (Errorf ("found installer " +:+ Quote hint +:+ " but it has no advertised address"))
                       else Ok (en_Addr e, en_ShortID e)
           | None => Err (Errorf ("no installer named " +:+ Quote hint +:+ " on the LAN (try --addr <ip:port>, or check `capsulectl discover --installers`)"))
           end
       end.

(** The context name of an installed capsule. *)
Definition install_context (name shortId shortHint installerAddr : string) : string :=
  if negb (str_empty name) then name else if negb (str_empty shortId) then shortId
  else if negb (str_empty shortHint) then shortHint else defaultContextName installerAddr.

(** The stream of progress: the last result, or the reason to give up. *)
Definition install_result (r : result (list (option Installer.Result) * result unit)) : result Installer.Result :=
  match r with
  | Err e => Err (Wrap "install rpc: " e "")
  | Ok (_, Err e) => Err (Wrap "install stream: " e "")
  | Ok (msgs, Ok _) => match last (omap id msgs) with Some r => Ok r | None => Err (Errorf "install completed without an InstallResult") end
  end.

Definition runInstall (entropy sfx1 sfx2 : string) (posArgs : list string) (target name addrFlag : string) (noSeal autoYes : bool)
    (browse : result (list Entry)) (answer : option string) : prog world unit :=
  if str_empty addrFlag && bool_decide (posArgs = []) then fail (Errorf "install requires <short-id> or --addr host:port")
  else
    a <- lift (resolveInstaller posArgs addrFlag browse) ;;
    let '(installerAddr, shortHint) := a in
    wireFingerprint <- wrap_err ("capture fingerprint from " +:+ installerAddr +:+ ": ") (captureLeafFingerprint installerAddr) ;;
    lift (confirm autoYes answer "") ;;;
    offer <- on_error (fun e => Wrap "install Status: " e " (is this an installer-mode capsule?)")
               (call_pinned installerAddr wireFingerprint (install_Status installerAddr)) ;;
    if negb (str_empty target) && negb (existsb (String.eqb target) (io_Targets offer)) then
      fail (Errorf ("target " +:+ target +:+ " not in installer candidates: " +:+ Join (io_Targets offer) ", "))
    else
      let target := if str_empty target then io_TargetDisk offer else target in
      let contextName := install_context name (io_ShortId offer) shortHint installerAddr in
      cfg <- loadConfig env ;;
      match cf_Contexts cfg !! contextName with
      | Some existing =>
          fail (Errorf ("context " +:+ Quote contextName +:+ " already exists (addr=" +:+ cx_Addr existing
            +:+ "); pick another --name or `capsulectl context rm " +:+ contextName +:+ "`"))
      | None =>
          dir <- lift (configDir env) ;;
          let keyPath := JoinPath (JoinPath dir "keys") (contextName +:+ ".ed25519") in
          priv <- generatePrivateKey entropy sfx1 keyPath ;;
          (* the connection of the Status call stands *)
          r <- catch (fstore (install_Install installerAddr (mkInstallOrder target (ed_Public priv) contextName (negb noSeal)))) ;;
          match install_result r with
          | Err e => ignore (f_Remove keyPath) ;;; fail e
          | Ok res =>
              wrap_err "save config: "
                (Save env sfx2 (add_context contextName
                   (mkCtlContext installerAddr (rs_CapsuleID res) (rs_TLSFingerprintSha256 res) keyPath) cfg))
          end
      end.
End identity.

(** ** Correctness *)

(** The files under the configuration directory are told apart by how they end. *)
Section paths.
Context (dir : string).

Lemma config_path_last : last_char (JoinPath dir "config.yaml") = Some "l"%char.
Proof. rewrite last_char_JoinPath; [done|by repeat split]. Qed.
Lemma operator_path_last : last_char (JoinPath dir "operator.ed25519") = Some "9"%char.
Proof. rewrite last_char_JoinPath; [done|by repeat split]. Qed.
Lemma ends_apart p q c d : last_char p = Some c -> last_char q = Some d -> c <> d -> p <> q.
Proof. intros Hp Hq Hne ->. congruence. Qed.
Lemma not_config p c : last_char p = Some c -> c <> "l"%char -> JoinPath dir "config.yaml" <> p.
Proof. intros H Hc. eapply ends_apart; [apply config_path_last|exact H|congruence]. Qed.
Lemma not_operator p c : last_char p = Some c -> c <> "9"%char -> JoinPath dir "operator.ed25519" <> p.
Proof. intros H Hc. eapply ends_apart; [apply operator_path_last|exact H|congruence]. Qed.
Lemma last_suffix s t c : last_char t = Some c -> last_char (s +:+ t) = Some c.
Proof. intros H. rewrite last_char_app; [done|by intros ->]. Qed.
End paths.

Section correctness.
Context {N : Type} {FB : Fabric N} {CC : ConfigCodec} {TL : TokenLib} {CL : CertLib} {KL : KeyLib}.
Context (yaml_roundtrip : forall c b, yaml_Marshal c = Ok b -> yaml_Unmarshal b = Some c).
Context (env : Env) (iterate : Iteration).
Context (iterate_all : forall m, iterate m ≡ₚ map_to_list m).
Implicit Types w : FWorld N.

(** A name wins over an address; an address is found whatever the order of
    the iteration. *)
Lemma Resolve_spec c addr :
  let target := if str_empty addr then cf_Current c else addr in
  match Resolve iterate c addr with
  | Ok ctx => target <> "" /\ (cf_Contexts c !! target = Some ctx \/
      (cf_Contexts c !! target = None /\ cx_Addr ctx = target /\ exists n, cf_Contexts c !! n = Some ctx))
  | Err e => e = errNoContext /\ (target = "" \/
      (cf_Contexts c !! target = None /\ forall n ctx, cf_Contexts c !! n = Some ctx -> cx_Addr ctx <> target))
  end.
Proof using iterate_all.
  cbv zeta. unfold Resolve. set (target := if str_empty addr then cf_Current c else addr). unfold str_empty at 1.
  destruct (String.eqb_spec target "") as [|Hne]; [by auto|]. destruct (cf_Contexts c !! target) as [ctx|] eqn:E; [by auto|].
  destruct (List.find _ _) as [[n ctx]|] eqn:F.
  - apply List.find_some in F as [Hin Ha]. apply list_elem_of_In in Hin. rewrite iterate_all in Hin. apply elem_of_map_to_list in Hin.
    apply String.eqb_eq in Ha. cbn in Ha. eauto 10.
  - split; [done|]. right. split; [done|]. intros m ctx Hm Ha. apply elem_of_map_to_list in Hm. rewrite <- iterate_all in Hm.
    apply list_elem_of_In in Hm. pose proof (List.find_none _ _ F _ Hm) as Hnf. cbn in Hnf. by apply String.eqb_neq in Hnf.
Qed.

(** *** Frames *)

Abbreviation at_path p := (fun w : FWorld N => fw_files w !! p).
Lemma keeps_files_fstore {A} (m : prog N A) : keeps fw_files (fstore m).
Proof. intros w. unfold fstore, zoom. by destruct (m (fw_store w)). Qed.
Lemma keeps_path_fstore {A} p (m : prog N A) : keeps (at_path p) (fstore m).
Proof. intros w. by rewrite keeps_files_fstore. Qed.
Lemma keeps_files_quiet {A} (act : prog (FWorld N) A) : (forall w, fw_files (act w).2 = fw_files w) -> keeps fw_files (os_call no_part act).
Proof. intros H. by apply keeps_files_call. Qed.
Lemma keeps_files_Read path : keeps (W:=FWorld N) fw_files (f_ReadFile path).
Proof. apply keeps_files_quiet. intros w. by destruct (fw_files w !! path). Qed.
Lemma keeps_files_Stat path : keeps (W:=FWorld N) fw_files (f_Stat path).
Proof. apply keeps_files_quiet. intros w. by destruct (fw_files w !! path). Qed.
Lemma keeps_files_Mkdir path : keeps (W:=FWorld N) fw_files (f_MkdirAll path).
Proof. by apply keeps_files_quiet. Qed.
Lemma keeps_one {A} p (m : prog (FWorld N) A) : keeps fw_files m -> keeps (at_path p) m.
Proof. intros H w. by rewrite (H w). Qed.
Hint Resolve keeps_files_fstore keeps_files_Read keeps_files_Stat keeps_files_Mkdir : keeps.
Hint Extern 3 (keeps (fun w => fw_files w !! _) _) => apply keeps_one; auto with keeps : keeps.

Lemma keeps_loadConfig : keeps fw_files (loadConfig (N:=N) env).
Proof. unfold loadConfig. go_keeps. Qed.
Lemma keeps_capture addr : keeps fw_files (captureLeafFingerprint addr).
Proof. unfold captureLeafFingerprint. go_keeps. Qed.
Lemma keeps_call_pinned {A} addr fp (m : prog N A) : keeps fw_files (call_pinned addr fp m).
Proof. unfold call_pinned. go_keeps. Qed.
Lemma keeps_loadPrivateKey path : keeps fw_files (loadPrivateKey (N:=N) path).
Proof. unfold loadPrivateKey. go_keeps. Qed.
Hint Resolve keeps_loadConfig keeps_capture @keeps_call_pinned keeps_loadPrivateKey : keeps.

Lemma keeps_write_via_temp p wrap clean tmp path data : p <> tmp -> p <> path ->
  keeps (at_path p) (write_via_temp wrap clean tmp path data).
Proof.
  intros H1 H2. unfold write_via_temp. go_keeps.
  - by apply keeps_stage.
  - apply keeps_or_remove; [done|]. go_keeps. by apply keeps_path_Rename.
  - by apply keeps_path_Rename.
Qed.
Lemma keeps_operator_key p entropy sfx path : p <> key_tmp sfx path -> p <> path -> keeps (at_path p) (operator_key entropy sfx path).
Proof. intros H1 H2. unfold operator_key, generatePrivateKey. go_keeps. by apply keeps_write_via_temp. Qed.
Lemma keeps_adopt_rpc p target fp keyPath pub name : p <> keyPath +:+ ".pub" -> keeps (at_path p) (adopt_rpc target fp keyPath pub name).
Proof. intros H. unfold adopt_rpc. go_keeps. by apply keeps_path_WriteFile. Qed.

(** A saved registry is read back; one that could not be saved is the old one. *)
Lemma Save_spec sfx c dir w r w' : configDir env = Ok dir -> Save env sfx c w = (r, w') ->
  match r with
  | Ok _ => exists b, fw_files w' !! JoinPath dir "config.yaml" = Some b /\ yaml_Unmarshal b = Some c
  | Err _ => fw_files w' !! JoinPath dir "config.yaml" = fw_files w !! JoinPath dir "config.yaml"
  end.
Proof using yaml_roundtrip.
  intros Hd H. unfold Save in H. rewrite Hd in H. unfold lift at 1, bind at 1, bind at 1 in H. cbv zeta in H.
  pose proof (keeps_wrap_err fw_files ("mkdir " +:+ dir +:+ ": ") _ (keeps_files_Mkdir dir) w) as Hm.
  destruct (wrap_err ("mkdir " +:+ dir +:+ ": ") (f_MkdirAll dir) w) as [[[]|e] w1]; cbn in Hm; [|injection H as <- <-; by rewrite Hm].
  unfold bind, lift in H. destruct (yaml_Marshal c) as [b|e] eqn:Hb; [|injection H as <- <-; by rewrite Hm].
  apply write_via_temp_spec in H as [H _].
  - destruct r as [[]|e]; [|by rewrite H, Hm]. exists b. split; [done|by apply yaml_roundtrip].
  - apply not_eq_sym, (not_config dir _ "p"); [|done]. unfold config_tmp. by do 3 apply last_suffix.
Qed.

(** *** Pinning *)

Lemma hex_chars b : all_chars (fun c => negb (is_space c)) (EncodeToString b) = true /\ all_chars (fun c => negb (is_upper c)) (EncodeToString b) = true.
Proof.
  induction b as [|c b [IH1 IH2]]; [done|]. cbn [EncodeToString all_chars]. rewrite IH1, IH2, !andb_true_r.
  destruct c as [[] [] [] [] [] [] [] []]; by split.
Qed.
Lemma fingerprint_canonical raw : ToLower (TrimSpace (FingerprintRaw raw)) = FingerprintRaw raw.
Proof. unfold FingerprintRaw. destruct (hex_chars (sha256 raw)) as [H1 H2]. by rewrite trim_no_space, ToLower_id. Qed.
(** A connection that is pinned to the fingerprint of a certificate reaches a
    peer with that fingerprint only. *)
Lemma pinned_spec leaf certs : pinned (FingerprintRaw leaf) certs = Ok tt <-> exists leaf' rest, certs = leaf' :: rest /\ FingerprintRaw leaf' = FingerprintRaw leaf.
Proof.
  unfold pinned. rewrite fingerprint_canonical. destruct certs as [|leaf' rest]; [split; [done|by intros (? & ? & ? & _)]|].
  destruct (String.eqb_spec (FingerprintRaw leaf') (FingerprintRaw leaf)) as [E|E]; cbn [negb]; (split; [intros|intros (? & ? & [= <- <-] & ?)]); try done. eauto.
Qed.
Lemma call_pinned_Ok {A} addr leaf (m : prog N A) w a w' : call_pinned addr (FingerprintRaw leaf) m w = (Ok a, w') ->
  exists leaf' rest n, handshake addr (fw_store w) = (Ok (leaf' :: rest), n) /\ FingerprintRaw leaf' = FingerprintRaw leaf /\ m n = (Ok a, fw_store w').
Proof.
  unfold call_pinned. intros (certs & w1 & H1 & H)%bind_Ok_inv. apply bind_Ok_inv in H as ([] & w2 & H2 & H3).
  injection H2 as H2 <-. apply pinned_spec in H2 as (leaf' & rest & -> & Hf). exists leaf', rest, (fw_store w1).
  unfold fstore, zoom in *. destruct (handshake addr (fw_store w)) as [r n]. injection H1 as -> <-. destruct (m _) as [r2 n2] eqn:E. injection H3 as -> <-.
  done.
Qed.

(** *** Adoption *)

Context (dir : string) (Hdir : configDir env = Ok dir).
Let registry : string := JoinPath dir "config.yaml".
Let operator : string := JoinPath dir "operator.ed25519".

Lemma operator_key_Ok entropy sfx w priv w' : operator_key entropy sfx operator w = (Ok priv, w') -> fw_store w' = fw_store w.
Proof.
  intros H. apply (keeps_run fw_store) in H; [done|]. unfold operator_key, loadPrivateKey, generatePrivateKey, write_via_temp, stage_temp, or_remove.
  go_keeps; apply keeps_store_call; try done; intros; repeat case_match; done.
Qed.
Lemma Save_store sfx c w r w' : Save env sfx c w = (r, w') -> fw_store w' = fw_store w.
Proof.
  intros H. apply (keeps_run fw_store) in H; [done|]. unfold Save, write_via_temp, stage_temp, or_remove.
  go_keeps; apply keeps_store_call; try done; intros; repeat case_match; done.
Qed.

Lemma adopt_rpc_Ok target leaf keyPath pub name w resp w' : adopt_rpc target (FingerprintRaw leaf) keyPath pub name w = (Ok resp, w') ->
  exists leaf' rest n, handshake target (fw_store w) = (Ok (leaf' :: rest), n) /\ FingerprintRaw leaf' = FingerprintRaw leaf /\
    invoke target (mkCtx [] None) (RqAdopt pub name) n = (Ok (RpAdopted resp), fw_store w').
Proof using Type.
  unfold adopt_rpc. intros (r & w1 & H1 & H)%bind_Ok_inv. unfold catch in H1. destruct (call_pinned _ _ _ w) as [r1 w2] eqn:E. injection H1 as <- <-.
  destruct r1 as [[]|e]; try (by unfold fail in H).
  - injection H as <- <-. by apply call_pinned_Ok in E.
  - destruct (isClaimWindowClosed e); [|done]. by apply bind_Ok_inv in H as (? & ? & _ & H).
Qed.

Lemma capture_Ok addr w fp w' : captureLeafFingerprint addr w = (Ok fp, w') ->
  exists leaf rest, handshake addr (fw_store w) = (Ok (leaf :: rest), fw_store w') /\ fp = FingerprintRaw leaf.
Proof using Type.
  unfold captureLeafFingerprint. intros (certs & w1 & H1 & H)%bind_Ok_inv. unfold wrap_err, fstore, zoom in H1.
  destruct (handshake addr (fw_store w)) as [r n] eqn:E. destruct r as [cs|e]; [|done]. injection H1 as <- <-.
  destruct cs as [|leaf rest]; [done|]. injection H as <- <-. eauto.
Qed.

(** What [runAdopt] has done when it succeeds: what was read before, what the
    first handshake showed, what the call over the pinned connection answered. *)
Record adopted_as entropy sfx1 target ctxName (cfg : CtlConfig) (leaf : string) (priv : string) (resp : AdoptResponse) w w' : Prop := {
  aa_target : target <> "";
  aa_config : exists w1, loadConfig env w = (Ok cfg, w1);
  aa_free : cf_Contexts cfg !! ctxName = None;
  aa_key : exists w3 w4, operator_key entropy sfx1 operator w3 = (Ok priv, w4) /\ fw_files w' !! operator = fw_files w4 !! operator;
  (* all that happens on the network: two handshakes and a call *)
  aa_network : exists rest n0 leaf' rest' n1, handshake target (fw_store w) = (Ok (leaf :: rest), n0) /\
    handshake target n0 = (Ok (leaf' :: rest'), n1) /\ FingerprintRaw leaf' = FingerprintRaw leaf /\
    invoke target (mkCtx [] None) (RqAdopt (ed_Public priv) ctxName) n1 = (Ok (RpAdopted resp), fw_store w');
  aa_same : EqualFold (FingerprintRaw leaf) (ar_TlsFingerprintSha256 resp) = true;
  aa_saved : exists b, fw_files w' !! registry = Some b /\
    yaml_Unmarshal b = Some (add_context ctxName (mkCtlContext target (ar_CapsuleId resp) (FingerprintRaw leaf) operator) cfg) }.

Lemma capture_handshake addr w r w' : captureLeafFingerprint addr w = (r, w') -> exists res, handshake addr (fw_store w) = (res, fw_store w').
Proof using Type.
  unfold captureLeafFingerprint, bind, wrap_err, fstore, zoom. destruct (handshake addr (fw_store w)) as [[[|leaf rest]|e] n]; intros [= <- <-]; eauto.
Qed.
Lemma keeps_store_loadConfig : keeps fw_store (loadConfig (N:=N) env).
Proof using Type. unfold loadConfig. go_keeps; apply keeps_store_call; try done; intros; by case_match. Qed.
Lemma confirm_Ok autoYes answer note : confirm autoYes answer note = Ok tt -> autoYes = true \/ confirmed answer = true.
Proof using Type. unfold confirm. destruct autoYes; [by left|]. destruct answer; [|done]. destruct (confirmed _); [by right|done]. Qed.
Lemma registry_not_operator : registry <> operator.
Proof using Type. apply (not_config dir _ "9"); [apply operator_path_last|done]. Qed.
Lemma keeps_operator_key' entropy sfx : keeps (at_path registry) (operator_key entropy sfx operator).
Proof using Type.
  apply keeps_operator_key; [|apply registry_not_operator]. apply (not_config dir _ "p"); [|done]. unfold key_tmp. by do 3 apply last_suffix.
Qed.
Lemma keeps_Save p sfx c : p <> config_tmp sfx dir -> p <> registry -> keeps (at_path p) (Save env sfx c).
Proof using Hdir. 
  intros H1 H2. unfold Save. rewrite Hdir.
  match goal with |- keeps _ (bind (lift (Ok ?d)) ?k) => change (keeps (at_path p) (k d)) end. cbv beta zeta.
  go_keeps. by apply keeps_write_via_temp.
Qed.
Lemma keeps_adopt_rpc_operator target fp pub name : keeps (at_path operator) (adopt_rpc target fp operator pub name).
Proof using Type. apply keeps_adopt_rpc, (not_operator dir _ "b"); [|done]. by apply last_suffix. Qed.
Lemma keeps_Save_operator sfx c : keeps (at_path operator) (Save env sfx c).
Proof using Hdir.
  apply keeps_Save; [|apply not_eq_sym, registry_not_operator]. apply (not_operator dir _ "p"); [|done]. unfold config_tmp. by do 3 apply last_suffix.
Qed.
Lemma keeps_adopt_rpc' target fp pub name : keeps (at_path registry) (adopt_rpc target fp operator pub name).
Proof using Type. apply keeps_adopt_rpc, (not_config dir _ "b"); [|done]. by apply last_suffix. Qed.

Lemma runAdopt_outcome entropy sfx1 sfx2 addr capsuleAddr name autoYes answer w r w' :
  runAdopt env entropy sfx1 sfx2 addr capsuleAddr name autoYes answer w = (r, w') ->
  let target := if str_empty capsuleAddr then addr else capsuleAddr in
  let ctxName := if str_empty name then defaultContextName target else name in
  match r with
  | Ok _ => (autoYes = true \/ confirmed answer = true) /\
      exists cfg leaf priv resp, adopted_as entropy sfx1 target ctxName cfg leaf priv resp w w'
  | Err _ => fw_files w' !! registry = fw_files w !! registry
  end /\
  (autoYes = false -> confirmed answer = false -> is_ok r = false /\ fw_files w' = fw_files w /\
     (fw_store w' = fw_store w \/ exists res, handshake target (fw_store w) = (res, fw_store w'))).
Proof using yaml_roundtrip Hdir.
  intros H target ctxName. unfold runAdopt in H. fold target ctxName in H.
  unfold str_empty in H at 1. destruct (String.eqb_spec target "") as [|Htgt]; [injection H as <- <-; by auto|].
  pose proof (keeps_store_loadConfig w) as Sw1. pose proof (keeps_loadConfig w) as Fw1.
  apply bind_cases in H as [(e & H & ->)|(cfg & w1 & H1 & H)]; [rewrite H in *; cbn in *; rewrite Fw1; by auto|].
  rewrite H1 in Sw1, Fw1. cbn in Sw1, Fw1. destruct (cf_Contexts cfg !! ctxName) eqn:Hfree; [injection H as <- <-; rewrite Fw1; by auto|].
  pose proof (keeps_capture target w1) as Fw2.
  apply bind_cases in H as [(e & H & ->)|(fp & w2 & H2 & H)].
  { apply wrap_err_Err in H as [e' H]. rewrite H in Fw2. cbn in Fw2. rewrite Fw2, Fw1. split; [done|]. intros _ _. split_and!; [done..|].
    right. rewrite <- Sw1. by eapply capture_handshake. }
  apply wrap_err_Ok in H2. rewrite H2 in Fw2. cbn in Fw2. pose proof (capture_handshake _ _ _ _ H2) as Hhs. rewrite Sw1 in Hhs.
  apply capture_Ok in H2 as (leaf & rest & Hshake & ->).
  apply bind_cases in H as [(e & H & ->)|([] & w3 & H3 & H)].
  { injection H as _ <-. rewrite Fw2, Fw1. split; [done|]. intros _ _. by auto. }
  injection H3 as Hyes <-. apply confirm_Ok in Hyes.
  split; [|intros -> Hno; destruct Hyes; congruence].
  assert (operatorKeyPath env = Ok operator) as Hop by (unfold operatorKeyPath, in_configDir; by rewrite Hdir).
  rewrite Hop in H. unfold lift at 1, bind at 1 in H. rewrite <- Fw1, <- Fw2.
  apply bind_cases in H as [(e & H & ->)|(priv & w3 & H3 & H)].
  { apply (keeps_run (at_path registry)) in H; [done|]. by apply keeps_operator_key'. }
  pose proof (keeps_run (at_path registry) _ _ _ _ (keeps_operator_key' entropy sfx1) H3) as R3. cbv beta in R3.
  apply bind_cases in H as [(e & H & ->)|(resp & w4 & H4 & H)].
  { apply (keeps_run (at_path registry)) in H; [by rewrite H, R3|]. by apply keeps_adopt_rpc'. }
  pose proof (keeps_run (at_path registry) _ _ _ _ (keeps_adopt_rpc' _ _ _ _) H4) as R4. cbv beta in R4.
  destruct (EqualFold _ _) eqn:Hsame; cbn [negb] in H.
  - pose proof H as Hsave. unfold wrap_err in H. destruct (Save env sfx2 _ w4) as [r5 w5] eqn:E5. pose proof (Save_store _ _ _ _ _ E5) as S5.
    apply (Save_spec _ _ dir) in E5; [|done]. fold registry in E5. destruct r5 as [[]|e]; injection H as <- <-; [|by rewrite E5, R4, R3].
    split; [done|]. exists cfg, leaf, priv, resp. split; [done|by eauto|done| | |done|done].
    { exists w2, w3. split; [done|]. rewrite <- (keeps_run (at_path operator) _ _ _ _ (keeps_adopt_rpc_operator _ _ _ _) H4).
      exact (keeps_run (at_path operator) _ _ _ _ (keeps_wrap_err _ _ _ (keeps_Save_operator sfx2 _)) Hsave). }
    apply adopt_rpc_Ok in H4 as (leaf' & rest' & n & Hs & Hf & Hc). rewrite S5. apply operator_key_Ok in H3. rewrite Sw1 in Hshake. rewrite H3 in Hs.
    by exists rest, (fw_store w2), leaf', rest', n.
  - apply bind_cases in H as [(e & H & ->)|([] & w5 & H5 & H)].
    + apply (keeps_run (at_path registry)) in H; [by rewrite H, R4, R3|]. go_keeps. apply keeps_path_Remove, registry_not_operator.
    + injection H as <- <-. apply (keeps_run (at_path registry)) in H5; [by rewrite H5, R4, R3|]. go_keeps. apply keeps_path_Remove, registry_not_operator.
Qed.

(** C8: adoption pins what the operator confirmed.  When [runAdopt]
    succeeds, the operator had confirmed (or waived with --yes) the fingerprint
    of the certificate the first handshake showed; the Adopt call went to a peer
    with that same fingerprint, which repeats it in its answer; and the registry
    on disk is the old one with one context added under a name that was free -
    that address, fingerprint, the answered capsule id and the operator's key -
    and made the current one.  When it fails, the registry is as it was; without
    a confirmation no file changes and nothing but a handshake has happened. *)
Theorem runAdopt_spec entropy sfx1 sfx2 addr capsuleAddr name autoYes answer w r w' :
  runAdopt env entropy sfx1 sfx2 addr capsuleAddr name autoYes answer w = (r, w') ->
  let target := if str_empty capsuleAddr then addr else capsuleAddr in
  let ctxName := if str_empty name then defaultContextName target else name in
  match r with
  | Ok _ => (autoYes = true \/ confirmed answer = true) /\
      exists cfg leaf priv resp, adopted_as entropy sfx1 target ctxName cfg leaf priv resp w w'
  | Err _ => fw_files w' !! registry = fw_files w !! registry
  end /\
  (autoYes = false -> confirmed answer = false -> is_ok r = false /\ fw_files w' = fw_files w /\
     (fw_store w' = fw_store w \/ exists res, handshake target (fw_store w) = (res, fw_store w'))).
Proof using yaml_roundtrip Hdir. apply runAdopt_outcome. Qed.

(** The key that is used is the one its file holds. *)
Lemma operator_key_file {KLaws : KeyLaws} entropy sfx w priv w' : operator_key entropy sfx operator w = (Ok priv, w') ->
  Z.of_nat (String.length priv) = PrivateKeySize /\ exists pem, fw_files w' !! operator = Some pem /\ parse_private operator pem = Ok priv.
Proof using Type.
  unfold operator_key. intros (st & w1 & H1 & H)%bind_Ok_inv. destruct (is_ok st).
  - unfold loadPrivateKey in H. apply bind_Ok_inv in H as (b & w2 & H2 & H). apply wrap_err_Ok in H2. injection H as Hp <-.
    pose proof (f_ReadFile_cases operator w1) as (F & _ & B). rewrite H2 in F, B. cbn in F, B. split.
    + revert Hp. unfold parse_private. destruct (pem_Decode b) as [[? der]|]; [|done]. destruct (ParsePKCS8PrivateKey der) as [[k|]|] eqn:E; try done.
      intros [= ->]. by eapply parsed_length.
    + exists b. split; [|done]. rewrite F. by apply B.
  - unfold generatePrivateKey in H. apply bind_Ok_inv in H as ([] & w2 & _ & H). apply bind_Ok_inv in H as (st2 & w3 & _ & H).
    destruct (is_ok st2); [done|]. apply bind_Ok_inv in H as ([pub k] & w4 & Hk & H). injection Hk as Hk <-.
    apply bind_Ok_inv in H as (der & w5 & Hd & H). injection Hd as Hd <-. apply bind_Ok_inv in H as ([] & w6 & Hw & H). injection H as <- <-. cbn [snd] in *.
    split; [by eapply generated_length|]. apply write_via_temp_spec in Hw as [Hw _].
    + eexists. split; [exact Hw|]. unfold parse_private. by rewrite private_pem, (pkcs8_roundtrip _ _ Hd).
    + apply not_eq_sym, (not_operator dir _ "p"); [|done]. unfold key_tmp. by do 3 apply last_suffix.
Qed.

(** Without failures the registry and the key are read as they are. *)
Lemma loadConfig_faultless w b c : fw_faults w = [] -> fw_files w !! registry = Some b -> yaml_Unmarshal b = Some c -> loadConfig env w = (Ok c, w).
Proof using Hdir.
  intros Hf Hb Hc. unfold loadConfig, configPath, in_configDir. rewrite Hdir. unfold bind, lift, catch. fold registry.
  by rewrite (f_ReadFile_faultless _ _ b Hf Hb), Hc.
Qed.
Lemma loadPrivateKey_faultless path w pem : fw_faults w = [] -> fw_files w !! path = Some pem -> loadPrivateKey path w = (parse_private path pem, w).
Proof using Type. intros Hf Hb. unfold loadPrivateKey, bind, wrap_err, lift. by rewrite (f_ReadFile_faultless _ _ pem Hf Hb). Qed.

(** Without a name the current context is dialled. *)
Lemma Resolve_current c ctx : cf_Current c <> "" -> cf_Contexts c !! cf_Current c = Some ctx -> Resolve iterate c "" = Ok ctx.
Proof using Type. intros Hne Hc. unfold Resolve. cbn [str_empty String.eqb]. unfold str_empty. apply String.eqb_neq in Hne as ->. by rewrite Hc. Qed.
Lemma dialAuth_Ok c w pem priv : fw_faults w = [] -> cx_Addr c <> "" -> cx_TLSFingerprint c <> "" -> cx_KeyPath c <> "" -> cx_CapsuleID c <> "" ->
  fw_files w !! cx_KeyPath c = Some pem -> parse_private (cx_KeyPath c) pem = Ok priv -> dialAuth c w = (Ok priv, w).
Proof using Type.
  intros Hf H1 H2 H3 H4 Hpem Hp. unfold dialAuth, str_empty. apply String.eqb_neq in H1 as ->, H2 as ->, H3 as ->, H4 as ->.
  by rewrite (loadPrivateKey_faultless _ _ _ Hf Hpem), Hp.
Qed.
Lemma defaultContextName_nonempty addr : addr <> "" -> defaultContextName addr <> "".
Proof using Type.
  intros Hne. unfold defaultContextName. destruct (LastIndex ":" addr) as [[|i]|]; [done| |done]. by destruct addr.
Qed.

(** [loadPrivateKey] wraps what reading the file says, and [os.IsNotExist]
    does not unwrap: the hint of [runKeyShow] is never given. *)
Theorem key_show_hint_unreachable path w e w' : loadPrivateKey path w = (Err e, w') -> os_IsNotExist e = false.
Proof using Type.
  unfold loadPrivateKey. intros [(e' & H & [= ->])|(b & w1 & _ & H)]%bind_cases.
  - unfold wrap_err in H. destruct (f_ReadFile path w) as [[]]; [done|]. by injection H as <- _.
  - injection H as H _. revert H. unfold parse_private. destruct (pem_Decode b) as [[? der]|]; [|by intros [= <-]].
    destruct (ParsePKCS8PrivateKey der) as [[k|]|]; [done|by intros [= <-]..].
Qed.
End correctness.

(** ** Concrete codecs *)

Module OperatorDemo.
(** A key is its 64 bytes. *)
Definition sized (s : string) : bool := (String.length s =? 64)%nat.
Lemma sized_length s : sized s = true -> Z.of_nat (String.length s) = PrivateKeySize.
Proof. intros H. apply Nat.eqb_eq in H. by rewrite H. Qed.

#[export] Instance certs : CertLib := {|
  GenerateKey ent := if sized ent then Ok (slice_to 32 ent, ent) else Err (Errorf "unexpected EOF");
  rand_Int _ := Ok 7%Z;
  CreateCertificate tpl pub _ := Ok pub;
  MarshalPKCS8PrivateKey priv := if sized priv then Ok priv else Err (Errorf "x509: invalid private key");
  pem_Encode t b := t +:+ ":" +:+ b;
  pem_Decode s := Cut ":" s;
  X509KeyPair c k := Err (Errorf "not used") |}.
#[export] Instance keys : KeyLib := {|
  ParsePKCS8PrivateKey der := if sized der then Ok (Some der) else Err (Errorf "x509: malformed private key");
  MarshalPKIXPublicKey pub := Ok pub;
  ParsePKIXPublicKey der := Ok (Some der) |}.
#[export] Instance key_laws : KeyLaws.
Proof.
  split; cbn; try done.
  - intros priv der. destruct (sized priv) eqn:E; [|done]. intros [= <-]. by rewrite E.
  - intros ent pub priv. destruct (sized ent) eqn:E; [|done]. intros [= <- <-]. by apply sized_length.
  - intros der priv. destruct (sized der) eqn:E; [|done]. intros [= <-]. by apply sized_length.
Qed.

(** A registry of one context is a line of fields. *)
#[export] Instance codec : ConfigCodec := {|
  yaml_Marshal c := match map_to_list (cf_Contexts c) with
    | [(n, x)] => Ok (Join (b64_encode <$> [cf_Current c; n; cx_Addr x; cx_CapsuleID x; cx_TLSFingerprint x; cx_KeyPath x]) ".")
    | _ => Err (Errorf "yaml: one context only") end;
  yaml_Unmarshal s := match mapM b64_decode (Split "." s) with
    | Some [cur; n; a; i; f; k] => Some (mkCtlConfig cur {[n := mkCtlContext a i f k]})
    | _ => None end |}.
Lemma decode_all l : mapM b64_decode (b64_encode <$> l) = Some l.
Proof. apply mapM_Some_2, Forall2_fmap_l, Forall_Forall2_diag, Forall_forall. intros x _. apply b64_decode_encode. Qed.
Lemma registry_roundtrip c b : yaml_Marshal c = Ok b -> yaml_Unmarshal b = Some c.
Proof.
  destruct c as [cur m]. unfold yaml_Marshal, yaml_Unmarshal, codec. cbn [cf_Current cf_Contexts].
  destruct (map_to_list m) as [|[n [a i f k]] [|]] eqn:E; [done| |done]. cbn [cx_Addr cx_CapsuleID cx_TLSFingerprint cx_KeyPath].
  intros H. apply (f_equal (fun r => match r with Ok s => s | Err _ => "" end)) in H. rewrite <- H.
  rewrite Split_Join, decode_all; [|done|repeat constructor; by apply b64_no_char]. do 2 f_equal. by rewrite <- (list_to_map_to_list m), E.
Qed.

Definition env : Env := mkEnv "/cfg" (Err (Errorf "no home")).
Definition entropy : string := "0123456789abcdefghijklmnopqrstuvSECRETSECRETSECRETSECRETSECRETSE".
Definition in_order : Iteration := map_to_list.
End OperatorDemo.
