(* ===== verification/Adoption.v ===== *)
(** * From the operator's adoption to the operator's calls

    capsulectl on one side and the server on the other: one capsule at one
    address.  A capsule that was adopted with [runAdopt] serves the calls that
    this machine makes afterwards. *)

From S2P Require Import Prelude GoStrings Base64 Bytes Net Models Store MemoryStore Runtime WorkloadService VolumeService Disks Auth Mdns Identity Update Streams Images Controllers Info Files Paths Tls Cli Server VmSpec Operator.

Set Default Goal Selector "!".
Local Open Scope go_scope.

(** ** One capsule on the network *)

(** The capsule and its clock, in seconds. *)
Record Site (S C V L : Type) := mkSite { st_now : Z; st_auth : Authenticator; st_srv : Srv S C V L }.
Arguments mkSite {S C V L}.
Arguments st_now {S C V L}.
Arguments st_auth {S C V L}.
Arguments st_srv {S C V L}.

Section site.
Context {S C V L : Type} `{!Store S, !ContainerDriver C, !VMDriver V, !LVM L, !CtrImages C} {TL : TokenLib}.
Context (wi : Wiring) (home leaf : string).
Abbreviation site := (Site S C V L).

Definition unreachable {A} (addr : string) : prog site A := fail (Errorf ("dial tcp " +:+ addr +:+ ": connect: no route to host")).
Definition on_site {A} (m : prog (Authenticator * Srv S C V L) A) : prog site A :=
  zoom (fun n => (st_auth n, st_srv n)) (fun p n => mkSite (st_now n) p.1 p.2) m.

(** The server's certificate, and its calls behind the gate; a runtime capsule
    has no installer service. *)
Definition one_capsule : Fabric site := {|
  handshake addr := if String.eqb addr home then ret [leaf] else unreachable addr;
  invoke addr ctx q := fun n => if String.eqb addr home then on_site (serve wi (st_now n) ctx q) n else unreachable addr n;
  install_Status addr := fail (StatusError CodeUnimplemented "unknown service capsule.v1.InstallService");
  install_Install addr _ := fail (StatusError CodeUnimplemented "unknown service capsule.v1.InstallService") |}.
End site.

Section adoption.
Context {S C V L : Type} `{!Store S, !ContainerDriver C, !VMDriver V, !LVM L, !CtrImages C, !StoreLaws S}.
Context {TL : TokenLib} {TLaws : TokenLaws} {CL : CertLib} {KL : KeyLib} {KLaws : KeyLaws} {CC : ConfigCodec}.
Context (wi : Wiring) (home leaf : string) (env : Env) (iterate : Iteration) (dir : string).
Abbreviation site := (Site S C V L).
#[local] Instance fabric : Fabric site := one_capsule wi home leaf.
Hypothesis yaml_roundtrip : forall c b, yaml_Marshal c = Ok b -> yaml_Unmarshal b = Some c.
Hypothesis Hdir : configDir env = Ok dir.
(** The store answers for a key it has; SHA-256 tells two public keys apart. *)
Hypothesis store_reads : forall kid k x, store_ok x -> v_keys (view x) !! kid = Some k -> exists x', kst_Get kid x = (Ok k, x').
Hypothesis kids_apart : forall k k', Z.of_nat (String.length k) = PublicKeySize -> Z.of_nat (String.length k') = PublicKeySize ->
  KidFromPubkey k = KidFromPubkey k' -> k = k'.

(** The key of the registered operator is the one the gate looks up. *)
Lemma lookup_enrolled (s : Srv S C V L) pub : store_ok (sv_store s) -> map_Forall key_ok (v_keys (view (sv_store s))) ->
  Z.of_nat (String.length pub) = PublicKeySize -> is_Some (v_keys (view (sv_store s)) !! KidFromPubkey pub) ->
  lookup_of s (KidFromPubkey pub) = Some pub.
Proof using store_reads kids_apart.
  intros Hok Hkeys Hlen [k Hk]. unfold lookup_of, lookup_key, bind, catch, istore, zoom. cbn [iw_store].
  destruct (store_reads _ k _ Hok Hk) as [x' ->]. destruct (Hkeys _ _ Hk) as (_ & Hkid & Hl). cbn [fst].
  unfold ParsePubkey. rewrite Hl. cbn. f_equal. by apply kids_apart.
Qed.

(** What the Adopt call of the first adoption leaves on the server. *)
Lemma Adopt_served a (s : Srv S C V L) now pub name resp a' s' :
  srv_ok s -> serve wi now (mkCtx [] None) (RqAdopt pub name) (a, s) = (Ok (RpAdopted resp), (a', s')) ->
  a' = a /\ store_ok (sv_store s') /\ map_Forall key_ok (v_keys (view (sv_store s'))) /\
  Z.of_nat (String.length pub) = PublicKeySize /\ is_Some (v_keys (view (sv_store s')) !! KidFromPubkey pub) /\
  exists id, v_identity (view (sv_store s)) = Some id /\ ar_CapsuleId resp = ci_CapsuleID id.
Proof using Type.
  intros (Hn & Hk & Hc) H. apply serve_cases in H as [(e & _ & ? & _)|(ctx' & Ha & H)]; [done|].
  apply authorize_cases in Ha as [(_ & [= ->] & ->)|(Hx & _)]; [|destruct Hx; by left]. split; [done|].
  cbn [handle] in H. unfold in_identity, zoom, answer, bind in H. set (w := mkIWorld (sv_store s) (sv_claim s) (sv_mdns s)) in H.
  destruct (Adopt (wi_registers wi) (wi_fingerprint wi) now pub name w) as [r w'] eqn:E. destruct r as [resp'|e]; [|done].
  unfold ret in H. injection H as -> <-. assert (iworld_ok w) as Hw by (split_and!; [apply Hn|done|done]).
  pose proof (Adopt_Ok _ _ _ _ _ _ _ _ Hw E) as [Hlen Hid]. apply Adopt_cases in E as ((Hok & Hk' & _) & _ & _ & Hin & _); [|done].
  unfold sv_store, put_store. cbn. split_and!; [done..|]. unfold iid in Hid. cbn in Hid. unfold sv_store in Hid.
  destruct (v_identity _) as [id|]; [|done]. injection Hid as <-. by exists id.
Qed.

(** *** The token on the wire *)

Lemma fingerprint_nonempty raw : FingerprintRaw raw <> "".
Proof using TLaws. intros E. apply (f_equal String.length) in E. unfold FingerprintRaw in E. by rewrite length_EncodeToString, sha256_length in E. Qed.
Abbreviation no_space := (all_chars (fun c => negb (is_space c))).
Lemma b64_no_space s : no_space (b64_encode s) = true.
Proof using Type.
  eapply all_chars_impl; [|apply b64_encode_chars]. intros c Hc. destruct c as [[] [] [] [] [] [] [] []]; first [reflexivity|discriminate Hc].
Qed.
Lemma Mint_no_space now r priv aud life tok : Mint now r priv aud life = Ok tok -> tok <> "" /\ no_space tok = true.
Proof using Type.
  unfold Mint. destruct (negb _); [done|]. destruct (randomJTI r); [|done]. destruct (marshal_header _) as [hb|]; [|done].
  destruct (marshal_claims _) as [pb|]; [|done]. cbv zeta. intros [= <-]. split.
  - intros E. apply (f_equal String.length) in E. rewrite !length_append in E. cbn in E. lia.
  - assert (forall s, no_space (String "." s) = no_space s) as Hdot by done. by rewrite !all_chars_app, !Hdot, !b64_no_space.
Qed.
Lemma bearer_token tok : tok <> "" -> no_space tok = true -> bearer ["Bearer " +:+ tok] = tok.
Proof using Type.
  intros Hne Hs. destruct (last_char_nonempty tok Hne) as [d Hd].
  assert (is_space d = false) as Hds.
  { clear Hne. induction tok as [|c t IH]; [done|]. cbn [all_chars] in Hs. apply andb_true_iff in Hs as [Hc Ht].
    destruct t as [|e t]; [injection Hd as <-; by apply negb_true_iff|]. by apply IH. }
  unfold bearer. assert (TrimSpace ("Bearer " +:+ tok) = "Bearer " +:+ tok) as ->.
  { apply (TrimSpace_id "B" ("earer " +:+ tok) d); [done| |done]. change (last_char ("Bearer " +:+ tok) = Some d). by rewrite last_char_app. }
  rewrite length_append. change (slice_from 7 ("Bearer " +:+ tok)) with (slice_from 0 tok).
  assert (slice_from 0 tok = tok) as -> by (by destruct tok). change (slice_to 7 ("Bearer " +:+ tok)) with ("Bearer " +:+ slice_to 0 tok).
  assert (slice_to 0 tok = "") as -> by (by destruct tok). destruct (Z.ltb_spec (Z.of_nat (String.length "Bearer " + String.length tok)) 7) as [Hl|_]; [cbn in Hl; lia|].
  change (EqualFold ("Bearer " +:+ "") "Bearer ") with true. cbn [negb orb]. by apply trim_no_space.
Qed.

(** A call with a fresh valid token is answered by its handler, for the kid of
    the token. *)
Lemma served_fresh t tok c q a (s : Srv S C V L) : au_InstallerMode a = false -> method q <> AdoptMethod ->
  tok <> "" -> no_space tok = true -> Verify t tok (au_CapsuleID a) (lookup_of s) = Ok c -> au_jti a !! cl_Jti c = None ->
  (serve wi t (mkCtx ["Bearer " +:+ tok] None) q (a, s)).1 = (handle wi t q (mkCtx ["Bearer " +:+ tok] (Some (cl_Sub c))) s).1.
Proof using Type.
  intros Him Hq Hne Hsp Hver Hfresh. destruct (serve wi t _ q (a, s)) as [r1 [a1 s1]] eqn:Hs1.
  apply serve_cases in Hs1 as [(e & Ha & -> & _)|(ctx' & Ha & Hh)]; apply authorize_cases in Ha as [([?|[? _]] & _)|(_ & Ha)]; try congruence.
  - destruct Ha as [(c' & _ & ? & _)|(Hno & _)]; [done|]. destruct (Hno c). split_and!; cbn [ctx_authorization]; by rewrite ?bearer_token.
  - destruct Ha as [(c' & (_ & Hv & _) & [= ->] & _)|(_ & [msg ?] & _)]; [|done]. cbn [ctx_authorization] in Hv, Hh. rewrite bearer_token in Hv; [|done..].
    rewrite Hver in Hv. injection Hv as <-. exact (eq_sym (f_equal fst Hh)).
Qed.

(** The site at a later time. *)
Definition later (t : Z) (w : FWorld site) : FWorld site :=
  mkFWorld (mkSite t (st_auth (fw_store w)) (st_srv (fw_store w))) (fw_files w) [].

(** C3: an adoption makes an operator.  After [runAdopt] against this capsule
    has succeeded, a later call from the same machine - naming no capsule, with
    clocks that agree to five minutes and an unused token id - is let through
    the gate: its answer is the handler's, run for the kid of the operator key
    on disk, and that key is enrolled. *)
Theorem adopted_operator_is_served entropy sfx1 sfx2 addr capsuleAddr name autoYes answer (w : FWorld site) w' id :
  let a := st_auth (fw_store w) in
  srv_ok (st_srv (fw_store w)) -> au_InstallerMode a = false ->
  v_identity (view (sv_store (st_srv (fw_store w)))) = Some id -> ci_CapsuleID id = au_CapsuleID a ->
  au_CapsuleID a <> "" -> ascii_text (au_CapsuleID a) ->
  runAdopt env entropy sfx1 sfx2 addr capsuleAddr name autoYes answer w = (Ok tt, w') ->
  exists priv, let s' := st_srv (fw_store w') in let kid := KidFromPubkey (ed_Public priv) in
    is_Some (v_keys (view (sv_store s')) !! kid) /\
    forall d r q t, method q <> AdoptMethod -> dr_jti d = Ok r -> r <> "" -> au_jti a !! b64_encode r = None ->
      (0 < dr_now d)%Z -> (dr_now d < 2 ^ 62)%Z -> (0 <= t < 2 ^ 62)%Z -> (dr_now d - 300 <= t <= dr_now d + 360)%Z ->
      exists token, (rpc env iterate d "" q (later t w')).1 = (handle wi t q (mkCtx [token] (Some kid)) s').1.
Proof using yaml_roundtrip Hdir store_reads kids_apart TLaws KLaws.
  intros a Hs Him Hid Hcid Hne Hascii H. pose proof (runAdopt_outcome yaml_roundtrip env dir Hdir _ _ _ _ _ _ _ _ _ _ _ H) as [[_ (cfg & leaf0 & priv & resp & Ha)] _].
  set (target := if str_empty capsuleAddr then addr else capsuleAddr) in *. set (ctxName := if str_empty name then defaultContextName target else name) in *.
  destruct Ha as [Htgt _ _ (w3 & w4 & Hkey & Hkf) (rest & n0 & leaf' & rest' & n1 & Hh1 & Hh2 & Hfp & Hinv) _ (b & Hb & Hdec)].
  cbn [handshake fabric one_capsule] in Hh1, Hh2. destruct (String.eqb_spec target home) as [Ht|]; [|done].
  injection Hh1 as <- <- <-. injection Hh2 as <- <- <-. cbn [invoke fabric one_capsule] in Hinv. rewrite Ht, String.eqb_refl in Hinv.
  unfold on_site, zoom in Hinv. destruct (serve wi _ _ _ _) as [rs [a' s']] eqn:Hserve. injection Hinv as -> Hw'. cbn [fst snd] in Hw'.
  apply Adopt_served in Hserve as (-> & Hok' & Hkeys' & Hlen & Hin & id' & Hid' & Hresp); [|done].
  rewrite Hid in Hid'. injection Hid' as <-. apply (operator_key_file _ (KLaws:=KLaws)) in Hkey as (Hplen & pem & Hpem & Hparse). rewrite Hpem in Hkf.
  exists priv. rewrite <- Hw'. cbn [st_srv]. split; [done|]. intros d r q t Hq Hjti Hr Hfresh Ht0 Ht1 Ht2 Hskew.
  destruct (Mint_Verify (dr_now d) t r priv (au_CapsuleID a) DefaultLifetime (lookup_of s')) as (tok & c & Hmint & Hver & Hsub & _ & _ & _ & Hcj);
    try done; try (by apply lookup_enrolled);
    change (Z.quot (if (DefaultLifetime <=? 0)%Z then DefaultLifetime else DefaultLifetime) Second) with 60%Z; unfold skew; try lia.
  pose proof (Mint_no_space _ _ _ _ _ _ Hmint) as [Htne Htns]. exists ("Bearer " +:+ tok).
  set (W := later t w'). assert (fw_faults W = []) as HW by done.
  assert (dial env iterate "" W = (Ok (mkCtlContext home (au_CapsuleID a) (FingerprintRaw leaf) (JoinPath dir "operator.ed25519"), priv), W)) as Hdial.
  { unfold dial. rewrite (bind_Ok _ _ _ _ _ (loadConfig_faultless env dir Hdir W b _ HW Hb Hdec)).
    rewrite (Resolve_current _ _ (mkCtlContext home (au_CapsuleID a) (FingerprintRaw leaf) (JoinPath dir "operator.ed25519"))).
    - refine (bind_Ok _ _ _ _ _ (dialAuth_Ok _ _ pem _ HW _ _ _ _ _ _)); [|apply fingerprint_nonempty| |done|exact Hkf|exact Hparse].
      + cbn. by rewrite <- Ht.
      + cbn. intros E. pose proof (operator_path_last dir) as Hl. by rewrite E in Hl.
    - cbn. unfold ctxName. destruct (str_empty name) eqn:En; [by apply defaultContextName_nonempty|by apply String.eqb_neq].
    - cbn. by rewrite lookup_insert_eq, Ht, Hresp, Hcid. }
  unfold rpc. rewrite (bind_Ok _ _ _ _ _ Hdial). cbn [fst snd]. unfold with_jwt. cbn [cx_CapsuleID cx_Addr cx_TLSFingerprint].
  rewrite Hjti, Hmint. unfold lift at 1, bind at 1. cbv zeta iota.
  rewrite <- Hsub, <- (served_fresh t tok c q a s') by (try done; by rewrite Hcj).
  unfold call_pinned, bind, lift, fstore, zoom. cbn [handshake invoke fabric one_capsule]. rewrite String.eqb_refl. unfold ret at 1.
  rewrite (proj2 (pinned_spec leaf [leaf])) by eauto. unfold on_site, zoom. subst W. unfold later. cbn [fw_store st_now st_auth st_srv].
  rewrite <- Hw'. cbn [st_auth st_srv]. by destruct (serve _ _ _ _ _) as [r1 s1].
Qed.
End adoption.

(** ** A concrete capsule *)

#[local] Existing Instance DemoLib.lib.
#[local] Existing Instance DemoLib.laws.
#[local] Existing Instance OperatorDemo.certs.
#[local] Existing Instance OperatorDemo.keys.
#[local] Existing Instance OperatorDemo.key_laws.
#[local] Existing Instance OperatorDemo.codec.
#[local] Existing Instance no_images.

Module AdoptionDemo.
Definition home : string := "10.0.0.7:50000".
Definition leaf : string := "certificate of 6f1c0d9e".
Definition wi : Wiring := mkWiring Demo.full true (fun _ => None) (FingerprintRaw leaf) UpdateDemo.digest UpdateDemo.find "slot_a" UpdateDemo.tar true 0
  ControllersDemo.logs_of ControllersDemo.rounds_of ControllersDemo.web_log InfoDemo.about InfoDemo.share InfoDemo.kernel.
(** A capsule with workloads and an open claim window. *)
Definition fresh : Srv memStore RefDriver RefDriver RefLVM :=
  mkSrv (put_store (mem_set_identity (Some IdentityDemo.self) (n_store Demo.busy)) Demo.busy)
    (mkRefLVM ∅ []) (NewClaimWindow 0 0 claimWindowDuration) None (up_with tt UpdateDemo.m0) [].
Abbreviation site := (Site memStore RefDriver RefDriver RefLVM).
#[export] Instance network : Fabric site := one_capsule wi home leaf.
Definition start : FWorld site := mkFWorld (mkSite DemoLib.t0 (NewAuthenticator "6f1c0d9e") fresh) ∅ [].
Definition adopt (autoYes : bool) (answer : option string) : result unit * FWorld site :=
  runAdopt OperatorDemo.env OperatorDemo.entropy "1" "2" "" home "lab" autoYes answer start.
Definition draw : Draw := mkDraw (DemoLib.t0 + 10) (Ok DemoLib.rnd).

Lemma capsule_fresh : srv_ok fresh.
Proof. split_and!; [|apply map_Forall_empty|done]. split; [done|]. refine (bool_decide_eq_true_1 _ _). by vm_compute. Qed.
Lemma digest_id k : Z.of_nat (String.length k) = PublicKeySize -> DemoLib.digest k = k.
Proof.
  intros H. unfold DemoLib.digest. assert (String.length k = 32%nat) as <- by (unfold PublicKeySize in H; lia). apply slice_to_app.
Qed.
Lemma kids_apart k k' : Z.of_nat (String.length k) = PublicKeySize -> Z.of_nat (String.length k') = PublicKeySize ->
  KidFromPubkey k = KidFromPubkey k' -> k = k'.
Proof. intros H1 H2 H%b64_encode_inj. by rewrite <- (digest_id k), <- (digest_id k'). Qed.
Lemma store_reads kid k (x : memStore) : store_ok x -> v_keys (view x) !! kid = Some k -> exists x', kst_Get kid x = (Ok k, x').
Proof. intros _ H. exists x. cbn in *. unfold mem_key_Get. by rewrite H. Qed.
End AdoptionDemo.
Import AdoptionDemo.

(** Only the whole word confirms. *)
Lemma runAdopt_spec_witness :
  (exists cfg leaf' priv resp, adopted_as OperatorDemo.env "/cfg" OperatorDemo.entropy "1" home "lab" cfg leaf' priv resp start (adopt false (Some "Yes")).2) /\
  fw_files (adopt false (Some "y")).2 = ∅.
Proof.
  split.
  - destruct (adopt false (Some "Yes")) as [r w'] eqn:E. assert (is_ok (adopt false (Some "Yes")).1 = true) as Hr by (by vm_compute).
    destruct (runAdopt_spec OperatorDemo.registry_roundtrip OperatorDemo.env "/cfg" eq_refl OperatorDemo.entropy "1" "2" "" home "lab" false (Some "Yes") start r w' E) as [H _].
    rewrite E in Hr. destruct r as [[]|]; [exact (proj2 H)|done].
  - destruct (adopt false (Some "y")) as [r w'] eqn:E.
    destruct (runAdopt_spec OperatorDemo.registry_roundtrip OperatorDemo.env "/cfg" eq_refl OperatorDemo.entropy "1" "2" "" home "lab" false (Some "y") start r w' E) as (_ & H).
    exact (proj1 (proj2 (H eq_refl eq_refl))).
Defined.

Lemma adopted_operator_is_served_witness : exists l,
  (rpc OperatorDemo.env OperatorDemo.in_order draw "" RqList (later (DemoLib.t0 + 60) (adopt true None).2)).1 = Ok (RpWorkloads l) /\
  map wl_name l = ["box"; "gone"; "web"].
Proof.
  assert (adopt true None = (Ok tt, (adopt true None).2)) as E by (by vm_compute).
  destruct (adopted_operator_is_served wi home leaf OperatorDemo.env OperatorDemo.in_order "/cfg" OperatorDemo.registry_roundtrip eq_refl store_reads kids_apart
    OperatorDemo.entropy "1" "2" "" home "lab" true None start (adopt true None).2 IdentityDemo.self capsule_fresh eq_refl eq_refl eq_refl) as (priv & _ & H);
    [done|repeat constructor|exact E|].
  assert (method RqList <> AdoptMethod) as H1 by discriminate. assert (DemoLib.rnd <> "") as H2 by discriminate.
  assert (0 < dr_now draw)%Z as H3 by reflexivity. assert (dr_now draw < 2 ^ 62)%Z as H4 by reflexivity.
  assert (0 <= DemoLib.t0 + 60 < 2 ^ 62)%Z as H5 by (split; [discriminate|reflexivity]).
  assert (dr_now draw - 300 <= DemoLib.t0 + 60 <= dr_now draw + 360)%Z as H6 by (split; discriminate).
  destruct (H draw DemoLib.rnd RqList (DemoLib.t0 + 60)%Z H1 eq_refl H2 eq_refl H3 H4 H5 H6) as [token Ht].
  exists (match (rpc OperatorDemo.env OperatorDemo.in_order draw "" RqList (later (DemoLib.t0 + 60) (adopt true None).2)).1 with
          | Ok (RpWorkloads l) => l | _ => [] end).
  split; [etransitivity; [exact Ht|]|]; vm_compute; reflexivity.
Defined.

(** The operator key is shared by every context, and an adoption that ends in a
    mismatch of the fingerprints deletes it, also when it was there before: the
    capsules that were adopted with it are out of reach. *)
Theorem mismatch_deletes_shared_key : let N := one_capsule ServerDemo.wi home leaf in
  let before := mkFWorld (fw_store start) {["/cfg/operator.ed25519" := "PRIVATE KEY:" +:+ OperatorDemo.entropy]} [] in
  let '(r, after) := runAdopt (FB:=N) OperatorDemo.env OperatorDemo.entropy "1" "2" "" home "lab" true None before in
  is_ok r = false /\ fw_files after !! "/cfg/operator.ed25519" = None /\ fw_files after !! "/cfg/config.yaml" = None /\
  is_Some (v_keys (view (sv_store (st_srv (fw_store after)))) !! DemoLib.kid).
Proof. vm_compute. by eauto. Qed.
