(* ===== verification/Manifest.v ===== *)
(** * Manifests: cmd/capsulectl/main.go

    What [apply -f] makes of a file: the peek at its kind, the volume manifest,
    and the workload manifest with its aliases.  The YAML reader and protojson
    are parameters. *)

From S2P Require Import Prelude GoStrings Bytes Models Cli.

Set Default Goal Selector "!".
Local Open Scope go_scope.

(** ** encoding/json into a struct of strings *)

Inductive Json :=
  | JNull | JBool (b : bool) | JNumber (text : string) | JString (s : string)
  | JArray (l : list Json) | JObject (fields : list (string * Json)).

(** A key is matched without regard to case; null leaves the field alone. *)
Definition json_field (name : string) (fields : list (string * Json)) : string :=
  foldl (fun v e => if EqualFold e.1 name then match e.2 with JString s => s | _ => v end else v) "" fields.
Definition json_mismatch (names : list string) (e : string * Json) : bool :=
  existsb (EqualFold e.1) names && match e.2 with JString _ | JNull => false | _ => true end.
(** [json.Unmarshal] into a struct with string fields of these names. *)
Definition json_Unmarshal (names : list string) (j : Json) : result (string -> string) :=
  match j with
  | JObject fields =>
      if existsb (json_mismatch names) fields then Err (Errorf "json: cannot unmarshal into Go struct field of type string")
      else Ok (fun name => json_field name fields)
  | JNull => Ok (fun _ => "")
  | _ => Err (Errorf "json: cannot unmarshal into Go value of type struct")
  end.

(** [strings.ReplaceAll(s, old, new)] for a non-empty [old]; [skip] bytes of a
    match are still to be passed. *)
Fixpoint replace_go (old new : string) (skip : nat) (s : string) : string :=
  match s with
  | "" => ""
  | String c s' =>
      match skip with
      | S skip => replace_go old new skip s'
      | O => if HasPrefix s old then new +:+ replace_go old new (Nat.pred (String.length old)) s'
             else String c (replace_go old new 0 s')
      end
  end.
Definition ReplaceAll (s old new : string) : string := replace_go old new 0 s.

(** ** The manifests *)

Class ManifestLib := {
  YAMLToJSON : string -> result Json;
  protojson_Unmarshal : Json -> result Workload }.

Section manifest.
Context {ML : ManifestLib}.

Definition decode_error {A} (prefix : string) (r : result A) : result A :=
  match r with Ok a => Ok a | Err e => Err (Wrap prefix e "") end.

Definition manifestKind (raw : string) : result string :=
  match decode_error "parse manifest: " (YAMLToJSON raw) with
  | Err e => Err e
  | Ok j =>
      match decode_error "parse kind: " (json_Unmarshal ["kind"] j) with
      | Err e => Err e
      | Ok stub => if str_empty (stub "kind") then Err (Errorf "manifest missing required `kind:` field") else Ok (stub "kind")
      end
  end.

(** The name and the size in MiB, zero for none. *)
Definition volume_manifest (raw : string) : result (string * Z) :=
  match decode_error "parse YAML: " (YAMLToJSON raw) with
  | Err e => Err e
  | Ok j =>
      match decode_error "parse volume: " (json_Unmarshal ["kind"; "name"; "size"] j) with
      | Err e => Err e
      | Ok m =>
          if str_empty (m "name") then Err (Errorf "volume.name is required")
          else if str_empty (m "size") then Ok (m "name", 0%Z)
          else match decode_error "size: " (parseSize (m "size")) with Ok n => Ok (m "name", n) | Err e => Err e end
      end
  end.

Definition kind_aliases (raw : string) : string :=
  ReplaceAll (ReplaceAll raw "kind: Container" "kind: WORKLOAD_KIND_CONTAINER") "kind: MicroVM" "kind: WORKLOAD_KIND_MICRO_VM".
Definition parseWorkload (raw : string) : result Workload :=
  match decode_error "parse YAML: " (YAMLToJSON (kind_aliases raw)) with
  | Err e => Err e
  | Ok j => decode_error "parse workload: " (protojson_Unmarshal j)
  end.

(** The service a manifest goes to. *)
Inductive Manifest := VolumeManifest | WorkloadManifest.
Definition manifest_target (kind : string) : result Manifest :=
  if String.eqb kind "Volume" then Ok VolumeManifest
  else if existsb (String.eqb kind) ["Container"; "MicroVM"; "WORKLOAD_KIND_CONTAINER"; "WORKLOAD_KIND_MICRO_VM"] then Ok WorkloadManifest
  else Err (Errorf ("unsupported kind " +:+ Quote kind +:+ " (expected Container, MicroVM, or Volume)")).

(** ** What is accepted *)

Lemma json_field_snoc name fields key v : json_field name (fields ++ [(key, v)]) =
  if EqualFold key name then match v with JString s => s | _ => json_field name fields end else json_field name fields.
Proof. unfold json_field. by rewrite foldl_app. Qed.

(** A size without a unit is documented as MiB, but YAML makes a bare integer
    a number, and a number is refused as the value of a string: a manifest that
    gives one is never accepted. *)
Theorem bare_size_rejected raw fields key n : YAMLToJSON raw = Ok (JObject fields) -> EqualFold key "size" = true ->
  (key, JNumber n) ∈ fields -> exists e, volume_manifest raw = Err (Wrap "parse volume: " e "").
Proof.
  intros Hy Hk Hin. unfold volume_manifest. rewrite Hy. cbn [decode_error json_Unmarshal].
  assert (existsb (json_mismatch ["kind"; "name"; "size"]) fields = true) as ->; [|by eexists].
  apply existsb_exists. exists (key, JNumber n). split; [by apply list_elem_of_In|]. unfold json_mismatch. cbn [fst snd existsb].
  rewrite Hk. by rewrite !orb_true_r.
Qed.

(** A manifest of strings is a volume of its name and size. *)
Theorem volume_manifest_spec raw name size n : YAMLToJSON raw = Ok (JObject [("kind", JString "Volume"); ("name", JString name); ("size", JString size)]) ->
  name <> "" -> size <> "" -> parseSize size = Ok n -> manifestKind raw = Ok "Volume" /\ volume_manifest raw = Ok (name, n).
Proof.
  intros Hy Hn Hs Hp. unfold manifestKind, volume_manifest. rewrite Hy. split; [done|].
  destruct name as [|c name]; [done|]. destruct size as [|d size]; [done|].
  change (match decode_error "size: " (parseSize (String d size)) with Ok n => Ok (String c name, n) | Err e => Err e end = Ok (String c name, n)). by rewrite Hp.
Qed.
End manifest.

(** The alias is replaced in the text, not in the document: a quoted kind,
    which [manifestKind] accepts, stays as it is, and a value that contains the
    alias is changed. *)
Example quoted_kind_kept : let raw := "kind: " +:+ Quote "Container" +:+ String NL "name: web" in kind_aliases raw = raw.
Proof. by vm_compute. Qed.
Example value_rewritten : kind_aliases "args: [report, 'kind: ContainerCrash']" = "args: [report, 'kind: WORKLOAD_KIND_CONTAINERCrash']".
Proof. by vm_compute. Qed.
