(* ===== verification/Discover.v ===== *)
(** * Finding capsules: cmd/capsulectl/discover.go

    What [discover] makes of the answers to an mDNS browse: a fingerprint for
    every address, captured by one goroutine each, the filters, the order, and
    the table and the JSON that are printed. *)

From S2P Require Import Prelude GoStrings Models Store MemoryStore Runtime WorkloadService VolumeService Base64 Bytes Disks Auth Mdns Identity Files Installer Images Server Startup Daemon Cli Operator Adoption Manifest.

Set Default Goal Selector "!".
Local Open Scope go_scope.

Record discoverRow := mkRow { row_Entry : Entry; row_Fingerprint : string; row_Unreachable : bool }.

Definition label (r : discoverRow) : string :=
  let e := row_Entry r in
  if negb (str_empty (en_Hostname e)) then en_Hostname e
  else if negb (str_empty (en_ShortID e)) then en_ShortID e else en_Instance e.
Definition addrOrMark (r : discoverRow) : string :=
  let addr := en_Addr (row_Entry r) in
  if str_empty addr then "(no address)" else if row_Unreachable r then addr +:+ " (unreachable)" else addr.
Definition installer_row (r : discoverRow) : bool := IsInstaller (row_Entry r).

(** ** The rows *)

(** The row of an entry before its result has arrived, and after. *)
Definition new_row (e : Entry) : discoverRow := mkRow e "" (str_empty (en_Addr e)).
Definition take_result (res : result string) (r : discoverRow) : discoverRow :=
  match res with
  | Ok fp => mkRow (row_Entry r) fp (row_Unreachable r)
  | Err _ => mkRow (row_Entry r) (row_Fingerprint r) true
  end.
(** The entries that get a goroutine. *)
Definition pending (entries : list Entry) : list nat :=
  List.filter (fun i => match entries !! i with Some e => negb (str_empty (en_Addr e)) | None => false end) (seq 0 (List.length entries)).

Definition keep_row (installers unadopted : bool) (r : discoverRow) : bool :=
  if installers && negb (installer_row r) then false
  else if unadopted && (installer_row r || en_Adopted (row_Entry r)) then false
  else true.

(** Installers first, then by short id. *)
Definition row_less (r s : discoverRow) : bool :=
  if negb (Bool.eqb (installer_row r) (installer_row s)) then installer_row r
  else String.ltb (en_ShortID (row_Entry r)) (en_ShortID (row_Entry s)).
(** [sort.Slice]; where Go leaves the order of equal elements open, they stay
    as they are. *)
Fixpoint insert_row (r : discoverRow) (l : list discoverRow) : list discoverRow :=
  match l with [] => [r] | s :: l' => if row_less s r then s :: insert_row r l' else r :: l end.
Definition sort_rows (l : list discoverRow) : list discoverRow := foldr insert_row [] l.

(** ** What is printed *)

(** A map is printed with its keys in order; no targets are a nil slice. *)
Definition json_row (r : discoverRow) : Json :=
  let e := row_Entry r in
  let targets :=
    if installer_row r then
      [("target_disk", JString (en_TargetDisk e)); ("target_size_bytes", JNumber (Itoa (en_TargetSizeBytes e)));
       ("targets", match en_Targets e with [] => JNull | l => JArray (JString <$> l) end)]
    else [] in
  JObject ([("addr", JString (en_Addr e)); ("adopted", JBool (en_Adopted e)); ("capsule_id", JString (en_CapsuleID e));
            ("fingerprint", JString (row_Fingerprint r)); ("hostname", JString (en_Hostname e)); ("instance", JString (en_Instance e));
            ("mode", JString (if str_empty (en_Mode e) then "runtime" else en_Mode e)); ("short_id", JString (en_ShortID e))]
           ++ targets ++ [("unreachable", JBool (row_Unreachable r)); ("version", JString (en_Version e))]).
Definition emitJSON (rows : list discoverRow) : Json := JArray (json_row <$> rows).

(** The rows of a table, if none of them fails. *)
Fixpoint rows_of {A} (row : A -> result (list string)) (l : list A) : result (list (list string)) :=
  match l with
  | [] => Ok []
  | x :: l => match row x, rows_of row l with Ok r, Ok rs => Ok (r :: rs) | Err e, _ => Err e | _, Err e => Err e end
  end.
Definition no_capsules : string :=
  "(no capsules found — try --timeout 10s if the LAN is slow, or check that mDNS isn't blocked)" +:+ String NL "".
Definition known_contexts (l : list (string * CtlContext)) : gmap string string :=
  foldl (fun m e => if str_empty (cx_CapsuleID e.2) then m else <[cx_CapsuleID e.2 := e.1]> m) ∅ l.
Definition runtime_row (known : gmap string string) (r : discoverRow) : list string :=
  let e := row_Entry r in
  [label r; addrOrMark r; shortFingerprint (row_Fingerprint r);
   if en_Adopted e then match known !! en_CapsuleID e with Some name => "yes (context: " +:+ name +:+ ")" | None => "yes" end else "no"].

Section discover.
Context {N : Type} {FB : Fabric N} {TL : TokenLib} {CC : ConfigCodec}.
Context (env : Env) (iterate : Iteration).
Context (fmt_f1 : Z -> Z -> string) (json_Encode : Json -> string).
(** The order in which the goroutines get to run. *)
Context (schedule : list nat -> list nat).
Abbreviation world := (FWorld N).

Definition capture_row (entries : list Entry) (rows : list discoverRow) (i : nat) : prog world (list discoverRow) :=
  match entries !! i with
  | Some e => r <- catch (captureLeafFingerprint (en_Addr e)) ;; ret (alter (take_result r) i rows)
  | None => ret rows
  end.
Fixpoint capture_rows (entries : list Entry) (order : list nat) (rows : list discoverRow) : prog world (list discoverRow) :=
  match order with
  | [] => ret rows
  | i :: order => rows <- capture_row entries rows i ;; capture_rows entries order rows
  end.
Definition enrichEntries (entries : list Entry) : prog world (list discoverRow) :=
  capture_rows entries (schedule (pending entries)) (new_row <$> entries).

Definition pending_install_row (r : discoverRow) : result (list string) :=
  let e := row_Entry r in
  let more := (Z.of_nat (List.length (en_Targets e)) - 1)%Z in
  let target := if (0 <? more)%Z then en_TargetDisk e +:+ (" (+" +:+ Itoa more +:+ " more)") else en_TargetDisk e in
  match humanBytes fmt_f1 (en_TargetSizeBytes e) with
  | Ok h => Ok [label r +:+ " (installer)"; addrOrMark r; target; h; shortFingerprint (row_Fingerprint r)]
  | Err e => Err e
  end.
Definition emitTable (rows : list discoverRow) : prog world (list Printed) :=
  match rows with
  | [] => ret [Text no_capsules]
  | _ =>
      let installerRows := List.filter installer_row rows in
      let runtimeRows := List.filter (fun r => negb (installer_row r)) rows in
      cfg <- catch (loadConfig env) ;;
      let known := match cfg with Ok c => known_contexts (iterate (cf_Contexts c)) | Err _ => ∅ end in
      l <- lift (rows_of pending_install_row installerRows) ;;
      ret ((match installerRows with
            | [] => []
            | _ => [Text ("PENDING INSTALL" +:+ String NL ""); Rows (["NAME"; "ADDRESS"; "TARGET"; "SIZE"; "FINGERPRINT"] :: l)]
                   ++ match runtimeRows with [] => [] | _ => [Text (String NL "")] end
            end) ++
           (match runtimeRows with
            | [] => []
            | _ => match installerRows with [] => [] | _ => [Text ("CAPSULES" +:+ String NL "")] end
                   ++ [Rows (["NAME"; "ADDRESS"; "FINGERPRINT"; "ADOPTED"] :: (runtime_row known <$> runtimeRows))]
            end))
  end.

(** The flags of [discover]; [browse] is what [mdns.Browse] returns. *)
Definition discover_flags : FlagSet :=
  [("timeout", FlagDuration); ("json", FlagBool); ("installers", FlagBool); ("unadopted", FlagBool)].
Definition discover_rows (installers unadopted : bool) (entries : list Entry) : prog world (list discoverRow) :=
  rows <- enrichEntries entries ;; ret (sort_rows (List.filter (keep_row installers unadopted) rows)).
Definition runDiscover (browse : Z -> result (list Entry)) (timeout : Z) (jsonOut installers unadopted : bool) : prog world (list Printed) :=
  if installers && unadopted then fail (Errorf "--installers and --unadopted are mutually exclusive")
  else
    entries <- wrap_err "browse: " (lift (browse timeout)) ;;
    rows <- discover_rows installers unadopted entries ;;
    if jsonOut then ret [Text (json_Encode (emitJSON rows))] else emitTable rows.
End discover.

(** ** The order *)

Definition row_le (r s : discoverRow) : Prop := row_less s r = false.
Lemma ltb_leb s t : String.ltb s t = negb (String.leb t s).
Proof. unfold String.ltb, String.leb. rewrite (String.compare_antisym t s). by destruct (String.compare s t) eqn:E; rewrite ?E. Qed.
Lemma row_le_iff r s : row_le r s <->
  (installer_row r = true /\ installer_row s = false) \/
  (installer_row r = installer_row s /\ String.le (en_ShortID (row_Entry r)) (en_ShortID (row_Entry s))).
Proof.
  unfold row_le, row_less, String.le. rewrite ltb_leb, Is_true_true.
  destruct (installer_row r), (installer_row s), (String.leb _ _); cbn; intuition congruence.
Qed.
#[export] Instance row_le_preorder : PreOrder row_le.
Proof.
  split.
  - intros r. apply row_le_iff. right. split; [done|]. reflexivity.
  - intros r s t H1%row_le_iff H2%row_le_iff. apply row_le_iff. destruct H1 as [[A B]|[A B]], H2 as [[C D]|[C D]]; rewrite ?A, ?B in *; try congruence; try (left; split; congruence).
    right. split; [congruence|]. by etransitivity.
Qed.
#[export] Instance row_le_total : Total row_le.
Proof.
  intros r s. rewrite !row_le_iff. destruct (installer_row r), (installer_row s); try (by left; left); try (by right; left).
  all: destruct (total String.le (en_ShortID (row_Entry r)) (en_ShortID (row_Entry s))); [left|right]; right; done.
Qed.
(** The rows that the order cannot tell apart. *)
Definition same_key (r s : discoverRow) : Prop := installer_row r = installer_row s /\ en_ShortID (row_Entry r) = en_ShortID (row_Entry s).
Lemma row_le_antisym r s : row_le r s -> row_le s r -> same_key r s.
Proof.
  intros H1%row_le_iff H2%row_le_iff. destruct H1 as [[A B]|[A B]], H2 as [[C D]|[C D]]; try congruence.
  split; [done|]. by apply (anti_symm String.le).
Qed.

Lemma insert_row_perm r l : insert_row r l ≡ₚ r :: l.
Proof. induction l as [|s l IH]; cbn; [done|]. destruct (row_less s r); [rewrite IH; constructor|done]. Qed.
Lemma sort_rows_perm l : sort_rows l ≡ₚ l.
Proof. induction l as [|r l IH]; cbn; [done|]. by rewrite insert_row_perm, IH. Qed.
Lemma insert_row_sorted r l : StronglySorted row_le l -> StronglySorted row_le (insert_row r l).
Proof.
  induction 1 as [|s l Hs IH Hl]; cbn; [repeat constructor|]. destruct (row_less s r) eqn:E.
  - constructor; [done|]. rewrite insert_row_perm. constructor; [|done]. destruct (total row_le r s) as [H|H]; [unfold row_le in H; congruence|done].
  - constructor; [by constructor|]. constructor; [done|]. eapply Forall_impl; [exact Hl|]. intros t Ht. by transitivity s.
Qed.
Lemma sort_rows_sorted l : StronglySorted row_le (sort_rows l).
Proof. induction l; cbn; [constructor|by apply insert_row_sorted]. Qed.
(** With a key for each row any sorting algorithm gives the same list. *)
Lemma sort_rows_unique l l' : (forall r s, r ∈ l -> s ∈ l -> same_key r s -> r = s) -> l' ≡ₚ l -> StronglySorted row_le l' -> l' = sort_rows l.
Proof.
  intros Hk Hp Hs. eapply (StronglySorted_unique_strong row_le); [|done|apply sort_rows_sorted|by rewrite sort_rows_perm].
  intros r s Hr Hs' H1 H2. rewrite Hp in Hr. rewrite sort_rows_perm in Hs'. apply Hk; [done..|by apply row_le_antisym].
Qed.

(** ** The fingerprints *)

Section enrich.
Context {N : Type} {FB : Fabric N} {TL : TokenLib} {CC : ConfigCodec}.
Context (schedule : list nat -> list nat).
Abbreviation world := (FWorld N).
(** A network that shows the same certificates whenever it is asked. *)
Context (certs : string -> result (list string)).
Hypothesis steady : forall addr (n : N), (handshake addr n).1 = certs addr.
Hypothesis schedule_perm : forall l, schedule l ≡ₚ l.

Definition captured (addr : string) : result string :=
  match certs addr with
  | Err e => Err (Wrap ("tls dial " +:+ addr +:+ ": ") e "")
  | Ok [] => Err (Errorf "server presented no certificates")
  | Ok (leaf :: _) => Ok (FingerprintRaw leaf)
  end.
Definition row_of (e : Entry) : discoverRow := if str_empty (en_Addr e) then new_row e else take_result (captured (en_Addr e)) (new_row e).

Lemma captured_run addr (w : world) : exists w', captureLeafFingerprint addr w = (captured addr, w') /\ fw_files w' = fw_files w.
Proof.
  unfold captureLeafFingerprint, captured, bind, wrap_err, fstore, zoom. pose proof (steady addr (fw_store w)) as H.
  destruct (handshake addr (fw_store w)) as [r n]. cbn [fst] in H. rewrite <- H. destruct r as [[|c l]|e]; by eexists.
Qed.
Definition after_capture (entries : list Entry) (rows : list discoverRow) (i : nat) : list discoverRow :=
  match entries !! i with Some e => alter (take_result (captured (en_Addr e))) i rows | None => rows end.
Lemma capture_rows_run entries order : forall rows (w : world), exists w',
  capture_rows entries order rows w = (Ok (foldl (after_capture entries) rows order), w') /\ fw_files w' = fw_files w.
Proof.
  induction order as [|i order IH]; intros rows w; cbn [capture_rows foldl]; [by exists w|].
  assert (exists w1, capture_row entries rows i w = (Ok (after_capture entries rows i), w1) /\ fw_files w1 = fw_files w) as (w1 & E & F).
  { unfold capture_row, after_capture. destruct (entries !! i) as [e|]; [|by exists w].
    destruct (captured_run (en_Addr e) w) as (w1 & E & F). exists w1. unfold bind, catch. by rewrite E. }
  rewrite (bind_Ok _ _ _ _ _ E). destruct (IH (after_capture entries rows i) w1) as (w2 & E2 & F2). exists w2. split; [exact E2|congruence].
Qed.
Lemma after_captures_lookup entries order : NoDup order -> forall rows j,
  foldl (after_capture entries) rows order !! j =
    match entries !! j with Some e => if decide (j ∈ order) then take_result (captured (en_Addr e)) <$> rows !! j else rows !! j | None => rows !! j end.
Proof.
  induction 1 as [|i order Hi Hn IH]; intros rows j; cbn [foldl]; [by destruct (entries !! j)|].
  rewrite IH. unfold after_capture. destruct (decide (j = i)) as [->|Hne].
  - destruct (entries !! i) as [e|]; [|done]. rewrite decide_False by done. rewrite decide_True by apply list_elem_of_here.
    apply list_lookup_alter_eq.
  - assert ((j ∈ i :: order) <-> j ∈ order) as Hj by (rewrite elem_of_cons; tauto).
    destruct (entries !! i); [rewrite !list_lookup_alter_ne by done|]; (destruct (entries !! j); [|done]); by rewrite (decide_ext _ _ _ _ Hj).
Qed.
Lemma pending_spec entries i : i ∈ pending entries <-> exists e, entries !! i = Some e /\ en_Addr e <> "".
Proof.
  unfold pending. rewrite list_elem_of_In, filter_In, <- list_elem_of_In, elem_of_seq. split.
  - intros [_ H]. destruct (entries !! i) as [e|]; [|done]. exists e. split; [done|]. intros E. by rewrite E in H.
  - intros (e & He & Hne). split; [apply lookup_lt_Some in He; lia|]. rewrite He. by destruct (en_Addr e).
Qed.
Lemma pending_NoDup entries : NoDup (pending entries).
Proof. apply NoDup_ListNoDup, List.NoDup_filter, List.seq_NoDup. Qed.

(** Whatever order the goroutines run in, every entry gets the fingerprint of
    its own address, or the mark. *)
Lemma enrich_rows entries (w : world) : exists w',
  enrichEntries schedule entries w = (Ok (row_of <$> entries), w') /\ fw_files w' = fw_files w.
Proof using steady schedule_perm.
  unfold enrichEntries. destruct (capture_rows_run entries (schedule (pending entries)) (new_row <$> entries) w) as (w' & E & F).
  exists w'. rewrite E. split; [|done]. do 2 f_equal. apply list_eq. intros j. rewrite after_captures_lookup by (rewrite schedule_perm; apply pending_NoDup).
  rewrite !list_lookup_fmap. destruct (entries !! j) as [e|] eqn:He; [|done]. cbn [fmap option_fmap option_map].
  assert (j ∈ schedule (pending entries) <-> en_Addr e <> "") as Hj by (rewrite schedule_perm, pending_spec; naive_solver).
  rewrite (decide_ext _ _ _ _ Hj). unfold row_of. case_decide as Hd; destruct (en_Addr e) eqn:Ha; try done.
Qed.

(** [discover] lists every capsule that answered and passes the filter
    once, with the fingerprint of its own address - the mDNS records never
    supply it - or the mark that it cannot be reached, installers first and
    then by short id; neither the order in which the goroutines finish nor the
    sorting algorithm shows, as long as the short ids differ. *)
Theorem discover_rows_spec installers unadopted entries (w : world) : exists rows w',
  discover_rows schedule installers unadopted entries w = (Ok rows, w') /\ fw_files w' = fw_files w /\
  rows ≡ₚ List.filter (keep_row installers unadopted) (row_of <$> entries) /\ StronglySorted row_le rows /\
  ((forall r s, r ∈ rows -> s ∈ rows -> same_key r s -> r = s) -> forall l, l ≡ₚ rows -> StronglySorted row_le l -> l = rows).
Proof using steady schedule_perm.
  unfold discover_rows. destruct (enrich_rows entries w) as (w' & E & F). rewrite (bind_Ok _ _ _ _ _ E).
  set (l0 := List.filter _ _). exists (sort_rows l0), w'. split_and!; [done|done|apply sort_rows_perm|apply sort_rows_sorted|].
  intros Hk l Hp Hs. rewrite sort_rows_perm in Hp. apply sort_rows_unique; [|done|done]. intros r s Hr Hss. rewrite <- (sort_rows_perm l0) in Hr, Hss. by apply Hk.
Qed.
End enrich.

(** ** An installer is found by its short id *)

(** "install <short-id>" reaches the machine it names.  What the daemon of
    a booted stick announces, read back by a browse, is resolved by its short
    id to the address it came from, ahead of whatever answers later, and shows
    its first target as the default. *)
Theorem installer_found {S} `{!Store S} host_port registers isPID1 addr version br st (w w' : FWorld S) a s rest :
  announce registers isPID1 addr version br (st_identity st) w = (Ok (Some a), w') -> br_InstallerMode br = true ->
  Forall (fun t => 0 <= td_SizeBytes t < 2 ^ 64)%Z (br_Targets br) -> plain_targets (td_Path <$> br_Targets br) ->
  se_Text s = Mdns.text (am_current a) -> ci_CapsuleID (st_identity st) <> "" -> en_Addr (fromServiceEntry host_port s) <> "" ->
  let e := fromServiceEntry host_port s in
  resolveInstaller [ci_ShortID (st_identity st)] "" (Ok (Browse host_port (s :: rest))) = Ok (en_Addr e, ci_ShortID (st_identity st)) /\
  IsInstaller e = true /\ en_TargetDisk e = default "" (td_Path <$> head (br_Targets br)).
Proof.
  intros Ha Hi Hsz Htg Htx Hid Haddr. apply announce_Ok in Ha as (n & Hc & _ & _ & Hs).
  assert (0 <= an_TargetSizeBytes (am_current a) < 2 ^ 64)%Z as H1.
  { rewrite Hc. unfold announcement. rewrite Hi. destruct (br_Targets br) as [|t l]; [done|]. by apply Forall_cons in Hsz as [? _]. }
  assert (plain_targets (an_Targets (am_current a))) as H2.
  { rewrite Hc. unfold announcement. rewrite Hi. destruct (br_Targets br) as [|t l]; [constructor|exact Htg]. }
  destruct (announcement_roundtrip host_port _ s H1 H2 Htx) as (E1 & E2 & _ & _ & _ & E6 & E7). cbv zeta in *.
  assert (an_Mode (am_current a) = "installer" /\ an_CapsuleID (am_current a) = ci_CapsuleID (st_identity st) /\
    an_ShortID (am_current a) = ci_ShortID (st_identity st) /\ an_TargetDisk (am_current a) = default "" (td_Path <$> head (br_Targets br))) as (M1 & M2 & M3 & M4).
  { rewrite Hc. unfold announcement. rewrite Hi. by destruct (br_Targets br). }
  set (e := fromServiceEntry host_port s) in *.
  assert (announced_mode (am_current a) = "installer") as Hmode by (unfold announced_mode; by rewrite M1).
  assert (IsInstaller e = true) as Hin by (unfold IsInstaller; rewrite E6, Hmode; done).
  split; [|split; [done|]].
  - unfold resolveInstaller, Browse. cbn [head default str_empty negb fmap list_fmap]. rewrite filter_cons_True by (fold e; congruence). fold e. cbn [List.find].
    change (id (ci_ShortID (st_identity st))) with (ci_ShortID (st_identity st)). change (negb (str_empty "")) with false.
    rewrite Hin, E2, M3. cbn [existsb]. rewrite String.eqb_refl. cbn [orb andb]. rewrite ?E2, ?M3. destruct (en_Addr e); [by destruct Haddr|done].
  - unfold target_fields in E7. rewrite Hmode, String.eqb_refl in E7. by injection E7 as -> _ _.
Qed.

#[local] Existing Instance DemoLib.lib.
#[local] Existing Instance no_images.
#[local] Existing Instance AdoptionDemo.network.

Module DiscoverDemo.
Definition runtime (id addr : string) : Entry := mkEntry id addr id id "" true "1.4.0" "" "" 0 [].
Definition installer : Entry := mkEntry "usb" "" "77aa" "capsule-77aa" "usb" false "1.4.0" "installer" "/dev/sda" 256060514304 ["/dev/sda"; "/dev/sdb"].
Definition entries : list Entry := [runtime "capsule-b" "10.0.0.9:50000"; runtime "capsule-a" AdoptionDemo.home; installer].
Definition certs (addr : string) : result (list string) := (handshake addr (fw_store AdoptionDemo.start)).1.
Lemma steady addr (n : AdoptionDemo.site) : (handshake addr n).1 = certs addr.
Proof. unfold certs. cbn. by destruct (String.eqb _ _). Qed.
End DiscoverDemo.

Lemma discover_rows_spec_witness : exists rows, (discover_rows (@rev nat) false false DiscoverDemo.entries AdoptionDemo.start).1 = Ok rows /\
  StronglySorted row_le rows /\
  map (fun r => (label r, addrOrMark r, row_Fingerprint r)) rows =
    [("usb", "(no address)", ""); ("capsule-a", AdoptionDemo.home, FingerprintRaw AdoptionDemo.leaf);
     ("capsule-b", "10.0.0.9:50000 (unreachable)", "")].
Proof.
  destruct (discover_rows_spec (@rev nat) DiscoverDemo.certs DiscoverDemo.steady (fun l => symmetry (Permutation_rev l)) false false DiscoverDemo.entries AdoptionDemo.start)
    as (rows & w' & E & _ & _ & Hs & _).
  exists rows. rewrite E. split; [done|]. split; [exact Hs|].
  assert ((discover_rows (@rev nat) false false DiscoverDemo.entries AdoptionDemo.start).1 = Ok rows) as H by by rewrite E. revert H. vm_compute. by intros [= <-].
Defined.
