(* ===== verification/Commands.v ===== *)
(** * The commands of capsulectl: cmd/capsulectl/main.go, identity.go

    Every command that talks to a capsule, over the network class of [Operator]:
    the connection, the calls in their order, and what is printed.  The clock and
    the random source of the operator's machine are a class. *)

From S2P Require Import Prelude GoStrings Net Exec Models Store MemoryStore Runtime WorkloadService VolumeService Base64 Bytes Disks Auth Mdns Identity Files Tls Update VmSpec Paths Streams Images Controllers Info Server Cli Operator Adoption Manifest Discover.

Set Default Goal Selector "!".
Local Open Scope go_scope.

(** Time in nanoseconds, [time.Sleep], and the random part of a token id. *)
Class Desk (N : Type) := {
  d_Now : N -> Z;
  d_Sleep : Z -> N -> N;
  d_jti : N -> result string * N }.

(** A connection of [dial]: the context, the key, and whether the handshake has
    been made. *)
Record Conn := mkConn { cn_Context : CtlContext; cn_key : string; cn_up : bool }.

Section commands.
Context {N : Type} {FB : Fabric N} {DK : Desk N} {CC : ConfigCodec} {TL : TokenLib} {CL : CertLib} {KL : KeyLib} {ML : ManifestLib}.
Context (env : Env) (iterate : Iteration).
(** The formatting of floats ([fmt_percent n a b]: n digits of 100*a/b), times
    and durations, the JSON printers, how reads cut a file into chunks, and the
    order in which the goroutines of [discover] run. *)
Context (fmt_f1 : Z -> Z -> string) (fmt_percent : nat -> Z -> Z -> string) (rfc3339 dur_String : Z -> string) (json_Encode : Json -> string).
Context (json_Workload : Workload -> result string) (json_Volume : Volume -> result string).
Context (reads : string -> list string) (schedule : list nat -> list nat).
Abbreviation world := (FWorld N).

Definition time_Now : prog world Z := fun w => (Ok (d_Now (fw_store w)), w).
Definition time_Sleep (d : Z) : prog world unit := fstore (fun n => (Ok tt, d_Sleep d n)).
Definition draw : prog world Draw := fstore (fun n => let '(r, n') := d_jti n in (Ok (mkDraw (d_Now n / Second) r), n')).

Definition open_conn (addr : string) : prog world Conn := p <- dial env iterate addr ;; ret (mkConn p.1 p.2 false).
(** A call: the token, the connection if there is none, the call itself; and
    the connection afterwards. *)
Definition call (c : Conn) (q : Server.Request) : prog world (result Reply * Conn) :=
  d <- draw ;;
  match Mint (dr_now d) (dr_jti d) (cn_key c) (cx_CapsuleID (cn_Context c)) DefaultLifetime with
  | Err e => ret (Err e, c)
  | Ok tok =>
      let run := fstore (invoke (cx_Addr (cn_Context c)) (mkCtx ["Bearer " +:+ tok] None) q) in
      if cn_up c then r <- catch run ;; ret (r, c)
      else
        h <- catch (certs <- fstore (handshake (cx_Addr (cn_Context c))) ;; lift (pinned (cx_TLSFingerprint (cn_Context c)) certs)) ;;
        match h with
        | Err e => ret (Err e, c)
        | Ok _ => r <- catch run ;; ret (r, mkConn (cn_Context c) (cn_key c) true)
        end
  end.
(** The reply of the method that was called. *)
Definition expect {A} (pick : Reply -> option A) (r : result Reply) : prog world A :=
  lift (match r with
        | Err e => Err e
        | Ok x => match pick x with Some a => Ok a | None => Err (Errorf "grpc: unexpected reply") end
        end).
(** A command of a single call. *)
Definition ask {A} (addr : string) (q : Server.Request) (pick : Reply -> option A) : prog world A :=
  c <- open_conn addr ;; r <- call c q ;; expect pick r.1.

Definition pick_empty (r : Reply) : option unit := match r with RpEmpty => Some tt | _ => None end.
Definition pick_workload (r : Reply) := match r with RpWorkload w => Some w | _ => None end.
Definition pick_workloads (r : Reply) := match r with RpWorkloads l => Some l | _ => None end.
Definition pick_chunks (r : Reply) := match r with RpChunks l => Some l | _ => None end.
Definition pick_exit (r : Reply) := match r with RpExit code => Some code | _ => None end.
Definition pick_volume (r : Reply) := match r with RpVolume v => Some v | _ => None end.
Definition pick_volumes (r : Reply) := match r with RpVolumes l => Some l | _ => None end.
Definition pick_images (r : Reply) := match r with RpImages l => Some l | _ => None end.
Definition pick_pushed (r : Reply) := match r with RpPushed refs n => Some (refs, n) | _ => None end.
Definition pick_info (r : Reply) := match r with RpInfo i => Some i | _ => None end.
Definition pick_updated (r : Reply) := match r with RpUpdated slot version => Some (slot, version) | _ => None end.
Definition pick_reboot (r : Reply) := match r with RpReboot => Some tt | _ => None end.
Definition pick_who (r : Reply) := match r with RpWho x => Some x | _ => None end.
Definition pick_key (r : Reply) := match r with RpKey k => Some k | _ => None end.
Definition pick_keys (r : Reply) := match r with RpKeys l => Some l | _ => None end.

Definition text (s : string) : prog world (list Printed) := ret [Text s].
Definition line (s : string) : prog world (list Printed) := text (s +:+ String NL "").

(** ** Workloads *)

Definition workloadList (addr : string) : prog world (list Printed) :=
  l <- ask addr RqList pick_workloads ;;
  ret [Rows (["NAME"; "KIND"; "IMAGE"; "DESIRED"; "PHASE"; "MESSAGE"] :: (workload_row <$> l))].
Definition workloadGet (addr name : string) : prog world (list Printed) :=
  w <- ask addr (RqGet name) pick_workload ;; j <- lift (json_Workload w) ;; line j.
Definition workloadDelete (addr name : string) : prog world (list Printed) :=
  ask addr (RqDelete name) pick_empty ;;; line ("deleted workload " +:+ Quote name).
(** [conn] is made before the verb is looked at. *)
Definition workloadLifecycle (addr name verb : string) : prog world (list Printed) :=
  c <- open_conn addr ;;
  match List.find (fun e => String.eqb e.1.1 verb)
          [("restart", RqRestart name, "restarted"); ("stop", RqStop name, "stopped"); ("start", RqStart name, "started")] with
  | None => fail (Errorf ("unknown verb " +:+ Quote verb))
  | Some (_, q, past) => r <- call c q ;; expect pick_empty r.1 ;;; line (past +:+ " workload " +:+ Quote name)
  end.
Definition workloadLogs (addr name : string) (follow : bool) (tail : Z) (serial : bool) : prog world (list Printed) :=
  l <- ask addr (RqLogs (mkLogsRequest name follow (i32 tail) serial)) pick_chunks ;; ret (Text <$> l).
(** The exit code of the remote command. *)
Definition workloadExecCore (addr name : string) (command : list string) (tty : bool) : prog world Z :=
  ask addr (RqExec (Some (mkExecRequest name command ∅ tty))) pick_exit.

(** ** Volumes and images *)

Definition volumeCreate (addr name : string) (sizeMiB : Z) : prog world (list Printed) :=
  v <- ask addr (RqVolCreate name sizeMiB) pick_volume ;;
  line ("created volume " +:+ Quote (vol_name v) +:+ " at " +:+ vol_host_path v).
Definition volumeResize (addr name : string) (newSizeMiB : Z) : prog world (list Printed) :=
  v <- ask addr (RqVolResize name newSizeMiB) pick_volume ;;
  h <- lift (humanBytes fmt_f1 (vol_size_bytes v)) ;;
  line ("resized volume " +:+ Quote (vol_name v) +:+ " to " +:+ h).
Definition volume_row (v : Volume) : result (list string) :=
  match humanBytes fmt_f1 (vol_size_bytes v) with
  | Ok h => Ok [vol_name v; h; vol_host_path v; Join (vol_mounted_by v) ","]
  | Err e => Err e
  end.
Definition volumeList (addr : string) : prog world (list Printed) :=
  l <- ask addr RqVolList pick_volumes ;;
  rows <- lift (rows_of volume_row l) ;; ret [Rows (["NAME"; "SIZE"; "HOST_PATH"; "MOUNTED_BY"] :: rows)].
Definition volumeGet (addr name : string) : prog world (list Printed) :=
  v <- ask addr (RqVolGet name) pick_volume ;; j <- lift (json_Volume v) ;; line j.
Definition volumeDelete (addr name : string) (force : bool) : prog world (list Printed) :=
  ask addr (RqVolDelete name force) pick_empty ;;; line ("deleted volume " +:+ Quote name).

Definition image_row (img : Image) : result (list string) :=
  match humanBytes fmt_f1 (u64 (im_Size img)) with
  | Ok h => Ok [im_Name img; short_digest (im_Digest img); h; if (0 <? im_CreatedUnix img)%Z then rfc3339 (im_CreatedUnix img) else "-"]
  | Err e => Err e
  end.
Definition imageList (addr : string) : prog world (list Printed) :=
  l <- ask addr RqImageList pick_images ;;
  rows <- lift (rows_of image_row l) ;; ret [Rows (["NAME"; "DIGEST"; "SIZE"; "UPDATED"] :: rows)].

(** [os.Stat] for the size of a file. *)
Definition f_Size (path : string) : prog world Z :=
  os_call no_part (fun w => match fw_files w !! path with Some b => (Ok (len b), w) | None => (Err (Sentinel OsNotExist), w) end).
(** [stdin] is what can be read there. *)
Definition imagePush (stdin addr path : string) : prog world (list Printed) :=
  b <- (if String.eqb path "-" then ret stdin
        else wrap_err "stat tarball: " (f_Size path) ;;; wrap_err "open tarball: " (f_ReadFile path)) ;;
  c <- open_conn addr ;;
  r <- call c (RqImagePush (Ok true) (reads b) None) ;;
  p <- wrap_err "CloseAndRecv: " (expect pick_pushed r.1) ;;
  match p.1 with
  | [] => line ("imported (no manifests in archive — bytes: " +:+ Itoa p.2 +:+ ")")
  | refs => ret (Text ("imported " +:+ Itoa (Z.of_nat (List.length refs)) +:+ " ref(s) (" +:+ Itoa p.2 +:+ " bytes):" +:+ String NL "")
                 :: ((fun r => Text ("  " +:+ r +:+ String NL "")) <$> refs))
  end.

(** ** The capsule *)

Definition capsuleLogs (addr : string) (follow : bool) (tail : Z) : prog world (list Printed) :=
  l <- ask addr (RqStreamLogs follow (i32 tail)) pick_chunks ;; ret (Text <$> l).
Definition capsuleUpdateConfirm (addr : string) : prog world (list Printed) :=
  p <- ask addr RqUpdateConfirm pick_updated ;;
  line ("update committed: slot=" +:+ p.1 +:+ " version=" +:+ p.2).
Definition capsuleReboot (addr : string) : prog world (list Printed) :=
  ask addr RqRebootNode pick_reboot ;;;
  line ("capsule " +:+ addr +:+ ": reboot scheduled — it will go down now; wait for it to come back").

(** *** [capsule info] *)

(** [t.Sub(u)]: the difference, as far as 64 bits go. *)
Definition duration_Sub (t u : Z) : Z := Z.max (- 2 ^ 63) (Z.min (2 ^ 63 - 1) (t - u)).
(** [d.Round(m)]: to the nearest multiple, halves away from zero, saturating. *)
Definition duration_Round (d m : Z) : Z :=
  if (d <? 0)%Z then
    let r := (- Z.rem d m)%Z in
    if (r + r <? m)%Z then (d + r)%Z else if (d - m + r <? - 2 ^ 63)%Z then (- 2 ^ 63)%Z else (d - m + r)%Z
  else
    let r := Z.rem d m in
    if (r + r <? m)%Z then (d - r)%Z else if (2 ^ 63 - 1 <? d + m - r)%Z then (2 ^ 63 - 1)%Z else (d + m - r)%Z.
Definition skew_text (now localUnix : Z) : string :=
  let skew := duration_Round (duration_Sub now (localUnix * Second)) Second in
  if (skew <? 0)%Z then
    let abs := i64 (- skew) in
    if (5 * Second <? abs)%Z then " (skew: capsule is " +:+ dur_String abs +:+ " ahead)" else ""
  else if (5 * Second <? skew)%Z then " (skew: capsule is " +:+ dur_String skew +:+ " behind)" else "".
Definition until_deadline (now localUnix deadlineUnix : Z) : Z :=
  duration_Round (if (0 <? localUnix)%Z then i64 (i64 (deadlineUnix - localUnix) * Second) else duration_Sub (deadlineUnix * Second) now) Second.
Definition pending_marker (until : Z) : string :=
  if (until <=? 0)%Z then "deadline passed" else "auto-rollback in " +:+ dur_String until.
Definition info_line (name value : string) : Printed := Text (name +:+ value +:+ String NL "").
Definition usage_line (name : string) (used total : Z) : result Printed :=
  match humanBytes fmt_f1 used, humanBytes fmt_f1 total with
  | Ok u, Ok t => Ok (info_line name (u +:+ " used / " +:+ t +:+ " total (" +:+ fmt_percent 1 used total +:+ "% full)"))
  | Err e, _ => Err e
  | _, Err e => Err e
  end.
Definition memory_line (total available : Z) : result Printed :=
  match humanBytes fmt_f1 (u64 (total - available)), humanBytes fmt_f1 total with
  | Ok u, Ok t => Ok (info_line "  memory:          " (u +:+ " used / " +:+ t +:+ " total (" +:+ fmt_percent 0 available total +:+ "% available)"))
  | Err e, _ => Err e
  | _, Err e => Err e
  end.
Definition optional (b : bool) (m : prog world Printed) : prog world (list Printed) := if b then x <- m ;; ret [x] else ret [].
Definition capsuleInfo (addr : string) : prog world (list Printed) :=
  i <- ask addr RqGetInfo pick_info ;;
  let head :=
    [info_line "Capsule " addr; info_line "  hostname:        " (if_Hostname i); info_line "  kernel_release:  " (if_KernelRelease i);
     info_line "  kernel_version:  " (if_KernelVersion i); info_line "  architecture:    " (if_Architecture i);
     info_line "  uptime:          " (formatUptime (if_UptimeSeconds i)); info_line "  capsule_version: " (if_CapsuleVersion i);
     info_line "  active_slot:     " (if_ActiveSlot i)] in
  version <- optional (negb (str_empty (if_LastVersion i))) (ret (info_line "  last_version:    " (if_LastVersion i))) ;;
  time <- optional (0 <? if_LocalTimeUnix i)%Z
    (t <- time_Now ;; ret (info_line "  local_time:      " (rfc3339 (if_LocalTimeUnix i) +:+ skew_text t (if_LocalTimeUnix i)))) ;;
  slot <- optional (negb (str_empty (if_PendingSlot i)))
    (t <- time_Now ;;
     ret (info_line "  pending_slot:    " (if_PendingSlot i +:+ " (" +:+ pending_marker (until_deadline t (if_LocalTimeUnix i) (if_PendingDeadlineUnix i))
            +:+ " — run `capsule update confirm` to commit)"))) ;;
  cpu <- optional (0 <? if_CpuCores i)%Z
    (ret (info_line "  cpu:             " (Itoa (if_CpuCores i) +:+ " core(s) — " +:+ (if str_empty (if_CpuModel i) then "(unknown model)" else if_CpuModel i)))) ;;
  memory <- optional (0 <? if_MemoryTotalBytes i)%Z (lift (memory_line (if_MemoryTotalBytes i) (if_MemoryAvailableBytes i))) ;;
  disk <- optional (0 <? if_DiskTotalBytes i)%Z
    (h <- lift (humanBytes fmt_f1 (if_DiskTotalBytes i)) ;; ret (info_line "  disk:            " (if_BootDisk i +:+ " — " +:+ h +:+ " total"))) ;;
  perm <- optional (0 <? if_PermTotalBytes i)%Z (lift (usage_line "  /perm:           " (if_PermUsedBytes i) (if_PermTotalBytes i))) ;;
  pool <- optional (0 <? if_ThinpoolTotalBytes i)%Z (lift (usage_line "  volume pool:     " (if_ThinpoolUsedBytes i) (if_ThinpoolTotalBytes i))) ;;
  ret (head ++ version ++ time ++ slot ++ cpu ++ memory ++ disk ++ perm ++ pool).

(** *** [capsule update] *)

Definition sha256File (path : string) : prog world string := b <- f_ReadFile path ;; ret (EncodeToString (sha256 b)).

(** [GetInfo] on a connection of its own. *)
Definition get_info (addr : string) : prog world InfoResponse := ask addr RqGetInfo pick_info.

(** Phase 1: until the capsule answers from the slot, or the deadline. *)
Fixpoint reach_loop (fuel : nat) (addr expectSlot : string) (deadline : Z) : prog world unit :=
  match fuel with
  | O => ret tt
  | S fuel =>
      t <- time_Now ;;
      if (t <? deadline)%Z then
        r <- catch (get_info addr) ;;
        if match r with Ok i => String.eqb (if_ActiveSlot i) expectSlot | Err _ => false end then ret tt
        else time_Sleep (3 * Second) ;;; reach_loop fuel addr expectSlot deadline
      else ret tt
  end.
(** Phase 2: the settle window. *)
Definition settle_poll (addr expectSlot : string) : prog world unit :=
  c <- wrap_err "auto-confirm: dial during settle: " (open_conn addr) ;;
  i <- wrap_err "auto-confirm: GetInfo during settle: " (r <- call c RqGetInfo ;; expect pick_info r.1) ;;
  if String.eqb (if_ActiveSlot i) expectSlot then ret tt
  else fail (Errorf ("auto-confirm: active_slot drifted from " +:+ expectSlot +:+ " to " +:+ if_ActiveSlot i)).
Fixpoint settle_loop (fuel : nat) (addr expectSlot : string) (settleEnd : Z) : prog world unit :=
  match fuel with
  | O => fail (Errorf "out of fuel")
  | S fuel =>
      t <- time_Now ;;
      if (t <? settleEnd)%Z then
        time_Sleep (5 * Second) ;;; settle_poll addr expectSlot ;;; settle_loop fuel addr expectSlot settleEnd
      else ret tt
  end.
(** [time.Duration(settleSecs) * time.Second], a signed 64-bit count. *)
Definition settle_window (settleSecs : Z) : Z := i64 (settleSecs * Second).
Definition reach_timeout : Z := 15 * 60 * Second.
Definition reach_fuel : nat := Z.to_nat (reach_timeout / (3 * Second) + 1).
Definition settle_fuel (settleSecs : Z) : nat := S (Z.to_nat (settle_window settleSecs / (5 * Second) + 1)).
Definition capsuleUpdateAutoConfirm (addr expectSlot : string) (settleSecs : Z) : prog world (list Printed) :=
  t0 <- time_Now ;;
  reach_loop reach_fuel addr expectSlot (t0 + reach_timeout) ;;;
  t1 <- time_Now ;;
  settle_loop (settle_fuel settleSecs) addr expectSlot (t1 + settle_window settleSecs) ;;;
  out <- capsuleUpdateConfirm addr ;;
  ret (Text ("auto-confirm: waiting for capsule to come back as " +:+ expectSlot +:+ ", then settle for " +:+ Itoa settleSecs +:+ "s" +:+ String NL "") :: out).

Definition update_request (size : Z) (sum bundle : string) : UpdateRequest :=
  mkUpdateRequest (Ok (Some (size, sum))) (Some <$> reads bundle) None (Ok tt).
Definition capsuleUpdatePush (addr bundlePath : string) (autoConfirmSecs : Z) : prog world (list Printed) :=
  totalBytes <- wrap_err "stat bundle: " (f_Size bundlePath) ;;
  sum <- wrap_err "sha256: " (sha256File bundlePath) ;;
  c <- open_conn addr ;;
  bundle <- wrap_err "open bundle: " (f_ReadFile bundlePath) ;;
  r <- call c (RqUpdateOS (update_request totalBytes sum bundle)) ;;
  p <- wrap_err "CloseAndRecv: " (expect pick_updated r.1) ;;
  let pushed := [Text ("update pushed: slot=" +:+ p.1 +:+ " version=" +:+ p.2 +:+ String NL "");
                 Text ("capsule will reboot now. wait for it to come back, then verify health." +:+ String NL "")] in
  if (autoConfirmSecs <=? 0)%Z then
    ret (pushed ++ [Text ("when ready, run: capsulectl --capsule " +:+ addr +:+ " capsule update confirm" +:+ String NL "")])
  else out <- capsuleUpdateAutoConfirm addr p.1 autoConfirmSecs ;; ret (pushed ++ out).

(** ** The debug container *)

Definition debug_name : string := "capsule-debug".
Definition debug_workload (image : string) : Workload :=
  mkWorkload debug_name WORKLOAD_KIND_CONTAINER
    (Some (mkContainerSpec image ["/bin/sh"; "-c"] ["sleep infinity"] ∅ [] NETWORK_MODE_HOST [] true true false false
       ["/perm"; "/sys"; "/dev"; "/run/capsule"; "/sbin"; "/usr/sbin"; "/usr/bin"]))
    None None DESIRED_STATE_UNSPECIFIED.
Definition is_running (r : result Reply) : bool :=
  match r with
  | Ok (RpWorkload w) => match wl_status w with Some st => bool_decide (ws_phase st = WORKLOAD_PHASE_RUNNING) | None => false end
  | _ => false
  end.
Fixpoint running_loop (fuel : nat) (c : Conn) (deadline : Z) : prog world Conn :=
  match fuel with
  | O => ret c
  | S fuel =>
      t <- time_Now ;;
      if (t <? deadline)%Z then
        r <- call c (RqGet debug_name) ;;
        if is_running r.1 then ret r.2 else time_Sleep Second ;;; running_loop fuel r.2 deadline
      else ret c
  end.
Definition running_timeout : Z := 60 * Second.
(** The exit status of the process. *)
Definition capsuleDebug (addr image : string) (keep : bool) (cmdArgs : list string) : prog world Z :=
  c <- open_conn addr ;;
  a <- call c (RqApply (Some (debug_workload image))) ;;
  wrap_err "apply debug workload: " (expect pick_workload a.1) ;;;
  t <- time_Now ;;
  c <- running_loop (Z.to_nat (running_timeout / Second + 1)) a.2 (t + running_timeout) ;;
  code <- catch (workloadExecCore addr debug_name cmdArgs true) ;;
  (if keep then ret tt else ignore (call c (RqDelete debug_name))) ;;;
  lift code.

(** ** Manifests *)

Definition readManifest (stdin path : string) : prog world string := if String.eqb path "-" then ret stdin else f_ReadFile path.
(** [WorkloadKind.String]. *)
Definition kind_String (k : WorkloadKind) : string :=
  match k with
  | WORKLOAD_KIND_CONTAINER => "WORKLOAD_KIND_CONTAINER" | WORKLOAD_KIND_MICRO_VM => "WORKLOAD_KIND_MICRO_VM"
  | WORKLOAD_KIND_UNSPECIFIED => "WORKLOAD_KIND_UNSPECIFIED" | WORKLOAD_KIND_OTHER n => Itoa n
  end.
Definition workloadApplyRaw (addr raw : string) : prog world (list Printed) :=
  w <- lift (parseWorkload raw) ;;
  w <- ask addr (RqApply (Some w)) pick_workload ;;
  line ("applied workload " +:+ Quote (wl_name w) +:+ " (kind=" +:+ kind_String (wl_kind w) +:+ ")").
Definition mib (n : Z) : string := Itoa n +:+ " MiB".
(** [err == nil && existing != nil] *)
Definition volume_of (r : result Reply) : option Volume := match r with Ok (RpVolume v) => Some v | _ => None end.
Definition volume_sync (c : Conn) (name : string) (sizeMiB : Z) : prog world (list Printed) :=
  r <- call c (RqVolGet name) ;;
  match volume_of r.1 with
  | Some v =>
      let currentMiB := (vol_size_bytes v / (1024 * 1024))%Z in
      if ((sizeMiB =? 0) || (sizeMiB =? currentMiB))%Z then line ("volume " +:+ Quote name +:+ " unchanged (" +:+ mib currentMiB +:+ ")")
      else if (currentMiB <? sizeMiB)%Z then
        s <- call r.2 (RqVolResize name sizeMiB) ;;
        wrap_err "resize: " (expect pick_volume s.1) ;;;
        line ("volume " +:+ Quote name +:+ " resized " +:+ mib currentMiB +:+ " -> " +:+ mib sizeMiB)
      else fail (Errorf ("volume " +:+ Quote name +:+ " is " +:+ mib currentMiB +:+ "; resize is grow-only (requested " +:+ mib sizeMiB +:+ ")"))
  | None =>
      s <- call r.2 (RqVolCreate name sizeMiB) ;;
      wrap_err "create: " (expect pick_volume s.1) ;;;
      line ("volume " +:+ Quote name +:+ " created (" +:+ mib sizeMiB +:+ ")")
  end.
Definition volumeApplyRaw (addr raw : string) : prog world (list Printed) :=
  m <- lift (volume_manifest raw) ;; c <- open_conn addr ;; volume_sync c m.1 m.2.
Definition applyManifest (stdin addr path : string) : prog world (list Printed) :=
  raw <- readManifest stdin path ;;
  kind <- lift (manifestKind raw) ;;
  target <- lift (manifest_target kind) ;;
  match target with VolumeManifest => volumeApplyRaw addr raw | WorkloadManifest => workloadApplyRaw addr raw end.

(** ** Identity *)

Definition runWhoAmI (addr : string) : prog world (list Printed) :=
  r <- ask addr RqWhoAmI pick_who ;;
  ret (Text ("capsule_id : " +:+ wr_CapsuleId r +:+ String NL "") :: Text ("kid        : " +:+ wr_Kid r +:+ String NL "")
       :: if str_empty (wr_Name r) then [] else [Text ("name       : " +:+ wr_Name r +:+ String NL "")]).
Definition runKeyList (addr : string) : prog world (list Printed) :=
  l <- ask addr RqKeyList pick_keys ;;
  match l with
  | [] => line "(no keys enrolled)"
  | _ => ret ((fun k => Text (ki_Kid k +:+ "  " +:+ ki_Name k +:+ "  added=" +:+ rfc3339 (ki_AddedAtUnix k) +:+ " by=" +:+ ki_AddedByKid k +:+ String NL "")) <$> l)
  end.
Definition runKeyRemove (addr kid : string) : prog world (list Printed) :=
  ask addr (RqKeyRemove kid) pick_empty ;;; line ("removed: " +:+ kid).

Definition keyAdd (addr pubPath name : string) : prog world (list Printed) :=
  pub <- readPublicKey pubPath ;;
  k <- ask addr (RqKeyAdd pub name) pick_key ;; line ("enrolled: " +:+ ki_Kid k +:+ " (" +:+ ki_Name k +:+ ")").
Definition keyShow : prog world (list Printed) :=
  p <- runKeyShow env ;; ret [Text ("# kid: " +:+ p.1 +:+ String NL ""); Text p.2].
Definition contextList : prog world (list Printed) :=
  l <- runContextList env iterate ;;
  match l with
  | [] => line "(no contexts — run: capsulectl adopt --capsule <addr>)"
  | _ => ret ((fun e => let '(current, name, c) := e in
                 Text ((if current : bool then "*" else " ") +:+ " " +:+ name +:+ "  addr=" +:+ cx_Addr c +:+ "  capsule_id=" +:+ cx_CapsuleID c +:+ String NL "")) <$> l)
  end.

(** ** The flags of [adopt] and [install] *)

(** What the operator's machine gives a command: standard input, the line typed
    at the prompt, randomness for a key, the names of two temporary files, and
    what an mDNS browse of some time finds. *)
Record Desktop := mkDesktop {
  dt_stdin : string; dt_answer : option string; dt_entropy : string; dt_sfx1 : string; dt_sfx2 : string;
  dt_browse : Z -> result (list Entry) }.
Definition flagged (fs : FlagSet) (args : list string) (k : list (string * string) -> list string -> prog world (list Printed * Z)) : prog world (list Printed * Z) :=
  match flag_Parse fs args with Parsed set rest => k set rest | FlagExit n => ret ([], n) end.
Definition adopt_flags : FlagSet := [("capsule", FlagString); ("name", FlagString); ("yes", FlagBool)].
Definition adopt_command (dt : Desktop) (addr : string) (args : list string) : prog world (list Printed * Z) :=
  flagged adopt_flags args (fun set _ =>
    runAdopt env (dt_entropy dt) (dt_sfx1 dt) (dt_sfx2 dt) addr (flag_str "capsule" "" set) (flag_str "name" "" set) (flag_bool "yes" set) (dt_answer dt) ;;;
    ret ([], 0%Z)).
Definition install_flags : FlagSet :=
  [("target", FlagString); ("name", FlagString); ("no-seal", FlagBool); ("addr", FlagString); ("yes", FlagBool); ("timeout", FlagDuration)].
Definition install_command (dt : Desktop) (args : list string) : prog world (list Printed * Z) :=
  flagged install_flags args (fun set rest =>
    runInstall env (dt_entropy dt) (dt_sfx1 dt) (dt_sfx2 dt) rest (flag_str "target" "" set) (flag_str "name" "" set) (flag_str "addr" "" set)
      (flag_bool "no-seal" set) (flag_bool "yes" set) (dt_browse dt (flag_duration "timeout" (5 * Second) set)) (dt_answer dt) ;;;
    ret ([], 0%Z)).

(** ** [main] *)

(** The exit status of the process, and what a command that succeeds prints on
    its standard output; of [adopt] and [install] only the status.  [cp] is
    [other]. *)
Definition plain (m : prog world (list Printed)) : prog world (list Printed * Z) := out <- m ;; ret (out, 0%Z).
Definition exits (m : prog world Z) : prog world (list Printed * Z) := code <- m ;; ret ([], code).
Definition run_command (dt : Desktop) (other : Command -> prog world (list Printed * Z)) (c : Command) : prog world (list Printed * Z) :=
  match c with
  | RunWhoAmI addr => plain (runWhoAmI addr)
  | CapsuleReboot addr => plain (capsuleReboot addr)
  | CapsuleUpdatePush addr bundle secs => plain (capsuleUpdatePush addr bundle secs)
  | CapsuleUpdateConfirm addr => plain (capsuleUpdateConfirm addr)
  | CapsuleDebug addr image keep cmd => exits (capsuleDebug addr image keep cmd)
  | CapsuleLogs addr follow tail => plain (capsuleLogs addr follow tail)
  | ApplyManifest addr path => plain (applyManifest (dt_stdin dt) addr path)
  | WorkloadList addr => plain (workloadList addr)
  | WorkloadGet addr name => plain (workloadGet addr name)
  | WorkloadDelete addr name => plain (workloadDelete addr name)
  | WorkloadLifecycle addr name verb => plain (workloadLifecycle addr name verb)
  | WorkloadLogs addr name follow tail serial => plain (workloadLogs addr name follow tail serial)
  | WorkloadExec addr name command tty => exits (workloadExecCore addr name command tty)
  | VolumeCreate addr name size => plain (volumeCreate addr name size)
  | VolumeList addr => plain (volumeList addr)
  | VolumeGet addr name => plain (volumeGet addr name)
  | VolumeDelete addr name force => plain (volumeDelete addr name force)
  | VolumeResize addr name size => plain (volumeResize addr name size)
  | RunKeyList addr => plain (runKeyList addr)
  | RunKeyRemove addr kid => plain (runKeyRemove addr kid)
  | RunContextUse name => runContextUse env (dt_sfx1 dt) name ;;; ret ([Text ("current context: " +:+ name +:+ String NL "")], 0%Z)
  | RunContextRemove name => runContextRemove env (dt_sfx1 dt) name ;;; ret ([Text ("removed context " +:+ Quote name +:+ String NL "")], 0%Z)
  | ImageList addr => plain (imageList addr)
  | ImagePush addr path => plain (imagePush (dt_stdin dt) addr path)
  | CapsuleInfo addr => plain (capsuleInfo addr)
  | RunKeyAdd addr pubPath name => plain (keyAdd addr pubPath name)
  | RunKeyShow _ => plain keyShow
  | RunContextList => plain contextList
  | RunDiscover args =>
      flagged discover_flags args (fun set _ =>
        plain (runDiscover env iterate fmt_f1 json_Encode schedule (dt_browse dt) (flag_duration "timeout" (3 * Second) set)
                 (flag_bool "json" set) (flag_bool "installers" set) (flag_bool "unadopted" set)))
  | RunAdopt addr args => adopt_command dt addr args
  | RunInstall args => install_command dt args
  | RunCp _ _ => other c
  end.
(** A failing command ends the process with status 1. *)
Definition capsulectl (dt : Desktop) (CAPSULE_HOST : string) (other : Command -> prog world (list Printed * Z)) (args : list string) : prog world (list Printed * Z) :=
  match main_dispatch CAPSULE_HOST args with
  | Exit n => ret ([], n)
  | Reject msg => ret ([], 1%Z)
  | Run c => r <- catch (run_command dt other c) ;; ret (match r with Ok p => p | Err _ => ([], 1%Z) end)
  end.
End commands.

(** ** The calls a command makes

    Any network, with every call written down: when it was made, what was asked
    and what was answered. *)

Record LogEntry := mkLogged { lg_Time : Z; lg_Request : Server.Request; lg_Reply : result Reply }.
Definition Recorded (N : Type) : Type := N * list LogEntry.

Section recorded.
Context {N : Type} {FB : Fabric N} {DK : Desk N}.

#[export] Instance recorded_fabric : Fabric (Recorded N) := {|
  handshake addr := fun n => let '(r, m) := handshake addr n.1 in (r, (m, n.2));
  invoke addr ctx q := fun n => let '(r, m) := invoke addr ctx q n.1 in (r, (m, n.2 ++ [mkLogged (d_Now n.1) q r]));
  install_Status addr := fun n => let '(r, m) := install_Status addr n.1 in (r, (m, n.2));
  install_Install addr o := fun n => let '(r, m) := install_Install addr o n.1 in (r, (m, n.2)) |}.
#[export] Instance recorded_desk : Desk (Recorded N) := {|
  d_Now n := d_Now n.1;
  d_Sleep d n := (d_Sleep d n.1, n.2);
  d_jti n := let '(r, m) := d_jti n.1 in (r, (m, n.2)) |}.
End recorded.

(** The clock of the operator's machine runs forward. *)
Class DeskLaws (N : Type) {FB : Fabric N} {DK : Desk N} := {
  sleep_time d n : (d_Now n + d <= d_Now (d_Sleep d n))%Z;
  jti_time n : (d_Now n <= d_Now (d_jti n).2)%Z;
  handshake_time addr n : (d_Now n <= d_Now (handshake addr n).2)%Z;
  invoke_time addr ctx q n : (d_Now n <= d_Now (invoke addr ctx q n).2)%Z }.

#[export] Instance recorded_laws {N} {FB : Fabric N} {DK : Desk N} {DL : DeskLaws N} : DeskLaws (Recorded N).
Proof.
  split; intros; cbn.
  - apply sleep_time.
  - pose proof (jti_time n.1). by destruct (d_jti n.1).
  - pose proof (handshake_time addr n.1). by destruct (handshake addr n.1).
  - pose proof (invoke_time addr ctx q n.1). by destruct (invoke addr ctx q n.1).
Qed.

Section correct.
Context {N : Type} {FB : Fabric N} {DK : Desk N} {DL : DeskLaws N} {CC : ConfigCodec} {TL : TokenLib} {CL : CertLib} {KL : KeyLib} {ML : ManifestLib}.
Context (env : Env) (iterate : Iteration) (reads : string -> list string).
Abbreviation world := (FWorld (Recorded N)).
Implicit Types w : world.

Definition calls w : list LogEntry := (fw_store w).2.
Definition clock w : Z := d_Now (fw_store w).

(** A step of a command that makes the calls [l], while time goes on. *)
Definition makes (l : list LogEntry) w w' : Prop :=
  calls w' = calls w ++ l /\ (clock w <= clock w')%Z /\ Forall (fun e => clock w <= lg_Time e <= clock w')%Z l.
Lemma makes_none w w' : fw_store w' = fw_store w -> makes [] w w'.
Proof. intros E. unfold makes, calls, clock. rewrite E, app_nil_r. done. Qed.
Lemma makes_trans l1 l2 w1 w2 w3 : makes l1 w1 w2 -> makes l2 w2 w3 -> makes (l1 ++ l2) w1 w3.
Proof.
  intros (E1 & T1 & F1) (E2 & T2 & F2). split_and!; [by rewrite E2, E1, app_assoc|lia|]. apply Forall_app.
  split; (eapply Forall_impl; [eassumption|]); intros e [? ?]; lia.
Qed.

(** Programs that make no call. *)
Abbreviation quiet m := (forall l w0, preserves (makes l w0) m).
Lemma quiet_run {A} (m : prog world A) w : quiet m -> makes [] w (m w).2.
Proof. intros H. apply H. by apply makes_none. Qed.
Lemma quiet_keeps {A} (m : prog world A) : keeps fw_store m -> quiet m.
Proof. intros H l w0 w M. unfold makes, calls, clock in *. by rewrite (H w). Qed.
Lemma quiet_fstore {A} (op : prog (Recorded N) A) :
  (forall n, (op n).2.2 = n.2 /\ (d_Now n <= d_Now (op n).2)%Z) -> quiet (fstore op).
Proof.
  intros H l w0 w (E & T & F). unfold fstore, zoom, makes, calls, clock in *. destruct (H (fw_store w)) as [E' T'].
  destruct (op (fw_store w)) as [r n]. cbn [snd fst fw_store] in *. split_and!; [by rewrite E'|lia|]. eapply Forall_impl; [exact F|]. intros e [? ?]. lia.
Qed.
Lemma quiet_dial addr : quiet (dial env iterate addr).
Proof.
  apply quiet_keeps. unfold dial, loadConfig, dialAuth, loadPrivateKey. go_keeps; apply keeps_store_call; try done; intros; repeat case_match; done.
Qed.
Lemma quiet_draw : quiet draw.
Proof.
  apply quiet_fstore. intros n. cbn. pose proof (jti_time n.1) as H. by destruct (d_jti n.1).
Qed.
Lemma quiet_handshake addr : quiet (fstore (handshake addr)).
Proof. apply quiet_fstore. intros n. cbn. pose proof (handshake_time addr n.1) as H. by destruct (handshake addr n.1). Qed.
Lemma Sleep_Ok d w : time_Sleep d w = (Ok tt, (time_Sleep d w).2).
Proof. done. Qed.
Lemma quiet_Sleep d : (0 <= d)%Z -> quiet (time_Sleep d).
Proof. intros Hd. apply quiet_fstore. intros n. split; [done|]. cbn. pose proof (sleep_time d n.1). lia. Qed.

Lemma invoke_makes addr ctx q w : let '(x, w') := fstore (invoke addr ctx q) w in makes [mkLogged (clock w) q x] w w'.
Proof.
  unfold fstore, zoom. cbn. pose proof (invoke_time addr ctx q (fw_store w).1) as T. destruct (invoke addr ctx q (fw_store w).1) as [x m].
  split_and!; [done|exact T|]. repeat constructor; [done|exact T].
Qed.

(** A call is written down, unless the token or the connection failed. *)
Lemma call_makes c q w : exists x c' w', call c q w = (Ok (x, c'), w') /\
  ((exists t, makes [mkLogged t q x] w w') \/ ((exists e, x = Err e) /\ makes [] w w')).
Proof.
  unfold call. pose proof (quiet_run draw w quiet_draw) as M1.
  assert (exists d w1, draw w = (Ok d, w1)) as (d & w1 & E1).
  { unfold draw, fstore, zoom. destruct (d_jti (fw_store w)) as [r n]. by eexists _, _. }
  rewrite (bind_Ok _ _ _ _ _ E1). rewrite E1 in M1. cbn [snd] in M1. clear E1.
  destruct (Mint _ _ _ _ _) as [tok|e]; [|eexists _, _, _; split; [done|]; right; by split; [eexists|]].
  destruct (cn_up c).
  - pose proof (invoke_makes (cx_Addr (cn_Context c)) (mkCtx ["Bearer " +:+ tok] None) q w1) as M2. unfold bind, catch.
    destruct (fstore _ w1) as [x w2]. eexists _, _, _. split; [done|]. left. exists (clock w1). exact (makes_trans [] _ _ _ _ M1 M2).
  - set (h := bind (fstore (handshake _)) _). assert (quiet h) as Hh by (intros l w0; unfold h; go_preserves; apply quiet_handshake).
    pose proof (quiet_run h w1 Hh) as M2. unfold bind, catch. destruct (h w1) as [[u|e] w2]; cbn [snd] in M2.
    + pose proof (invoke_makes (cx_Addr (cn_Context c)) (mkCtx ["Bearer " +:+ tok] None) q w2) as M3.
      destruct (fstore _ w2) as [x w3]. eexists _, _, _. split; [done|]. left. exists (clock w2).
      pose proof (makes_trans [] [] _ _ _ M1 M2) as M. exact (makes_trans [] _ _ _ _ M M3).
    + eexists _, _, _. split; [done|]. right. split; [by eexists|]. exact (makes_trans [] [] _ _ _ M1 M2).
Qed.

(** A command of a single call makes it, or fails before. *)
Abbreviation only q := (Forall (fun e => lg_Request e = q)).
Lemma ask_makes {A} addr q (pick : Reply -> option A) w : let '(r, w') := ask env iterate addr q pick w in
  match r with
  | Ok a => exists t x, makes [mkLogged t q (Ok x)] w w' /\ pick x = Some a
  | Err _ => exists l, makes l w w' /\ only q l /\ (List.length l <= 1)%nat
  end.
Proof.
  unfold ask. assert (quiet (open_conn env iterate addr)) as Hq by (intros l w0; unfold open_conn; go_preserves; apply quiet_dial).
  pose proof (quiet_run _ w Hq) as M1. unfold bind at 1. destruct (open_conn env iterate addr w) as [[c|e] w1]; cbn [snd] in M1.
  2:{ exists []. split_and!; [done|constructor|cbn; lia]. }
  destruct (call_makes c q w1) as (x & c' & w2 & E & M). rewrite (bind_Ok _ _ _ _ _ E). unfold expect, lift. cbn [fst].
  destruct M as [[t M]|[[e ->] M]].
  - pose proof (makes_trans [] _ _ _ _ M1 M) as M'. cbn [app] in M'.
    destruct x as [x|e]; [destruct (pick x) as [a|] eqn:Hp; [by exists t, x|]|]; eexists; (split_and!; [exact M'|by repeat constructor|cbn; lia]).
  - exists []. split_and!; [exact (makes_trans [] [] _ _ _ M1 M)|constructor|cbn; lia].
Qed.

(** A remote command ends the process with its own exit code; any failure on
    the way is status 1.  What the command line gave goes to the workload in
    one call. *)
Theorem exec_status fmt_f1 fmt_percent rfc3339 dur_String json_Encode json_Workload json_Volume schedule dt host other args addr name command tty w :
  main_dispatch host args = Run (WorkloadExec addr name command tty) ->
  let q := RqExec (Some (mkExecRequest name command ∅ tty)) in
  let '(r, w') := capsulectl env iterate fmt_f1 fmt_percent rfc3339 dur_String json_Encode json_Workload json_Volume reads schedule dt host other args w in
  exists code, r = Ok ([], code) /\
    ((exists t, makes [mkLogged t q (Ok (RpExit code))] w w') \/
     (code = 1%Z /\ exists l, makes l w w' /\ only q l /\ (List.length l <= 1)%nat)).
Proof.
  intros H q. unfold capsulectl. rewrite H. cbn [run_command]. unfold exits, workloadExecCore.
  pose proof (ask_makes addr q pick_exit w) as M. fold q. unfold bind, catch. destruct (ask _ _ _ _ _ w) as [[code|e] w'].
  - destruct M as (t & x & M & Hp). exists code. split; [done|]. left. exists t. by destruct x; simplify_eq/=.
  - exists 1%Z. split; [done|]. by right.
Qed.

(** *** The automatic confirmation *)

(** A poll that was answered from the slot. *)
Definition answered_from (slot : string) (e : LogEntry) : Prop := exists i, lg_Reply e = Ok (RpInfo i) /\ if_ActiveSlot i = slot.

Lemma reach_makes addr slot deadline fuel : forall w, exists w' l,
  reach_loop env iterate fuel addr slot deadline w = (Ok tt, w') /\ makes l w w' /\ only RqGetInfo l.
Proof.
  induction fuel as [|fuel IH]; intros w; cbn [reach_loop]; [exists w, []; split_and!; [done|by apply makes_none|constructor]|].
  unfold bind at 1, time_Now. cbv beta iota. destruct (_ <? deadline)%Z; [|exists w, []; split_and!; [done|by apply makes_none|constructor]].
  unfold bind at 1, catch. pose proof (ask_makes addr RqGetInfo pick_info w) as M. unfold get_info. destruct (ask _ _ _ _ _ w) as [r w1].
  assert (exists l, makes l w w1 /\ only RqGetInfo l) as (l & M1 & F1).
  { destruct r as [i|e]; [destruct M as (t & x & M & _)|destruct M as (l & M & F & _); by exists l]. eexists. split; [exact M|by repeat constructor]. }
  clear M. destruct (match r with Ok i => _ | Err _ => _ end); [by exists w1, l|].
  assert (quiet (time_Sleep (3 * Second))) as Hs by (apply quiet_Sleep; done). pose proof (quiet_run _ w1 Hs) as M2. rewrite (bind_Ok _ _ _ _ _ (Sleep_Ok _ _)).
  destruct (IH (time_Sleep (3 * Second) w1).2) as (w3 & l3 & E & M3 & F3). exists w3, (l ++ l3). split_and!; [exact E| |by apply Forall_app].
  exact (makes_trans _ _ _ _ _ M1 (makes_trans [] _ _ _ _ M2 M3)).
Qed.
Lemma settle_poll_ask addr slot w : exists e, settle_poll env iterate addr slot w =
  let '(r, w') := ask env iterate addr RqGetInfo pick_info w in
  (match r with Ok i => if String.eqb (if_ActiveSlot i) slot then Ok tt else Err e | Err _ => Err e end, w').
Proof.
  unfold settle_poll, ask, bind, wrap_err, expect, lift, ret, fail. destruct (open_conn env iterate addr w) as [[c|e] w1]; [|by eexists].
  destruct (call c RqGetInfo w1) as [[r|e] w2]; [|by eexists]. destruct r.1 as [x|e]; [|by eexists].
  destruct (pick_info x) as [i|]; [|by eexists]. destruct (String.eqb _ slot); [by exists (Errorf "")|by eexists].
Qed.
Lemma settle_poll_makes addr slot w : let '(r, w') := settle_poll env iterate addr slot w in
  exists l, makes l w w' /\ only RqGetInfo l /\ (r = Ok tt -> l <> [] /\ Forall (answered_from slot) l).
Proof.
  destruct (settle_poll_ask addr slot w) as [e0 ->]. pose proof (ask_makes addr RqGetInfo pick_info w) as M.
  destruct (ask _ _ _ _ _ w) as [[i|e] w1].
  - destruct M as (t & x & M & Hp). assert (only RqGetInfo [mkLogged t RqGetInfo (Ok x)]) as F by repeat constructor.
    destruct (String.eqb_spec (if_ActiveSlot i) slot) as [Hs|Hs]; eexists; (split; [exact M|]; split; [exact F|]); [|done].
    intros _. split; [done|]. repeat constructor. exists i. by destruct x; simplify_eq/=.
  - destruct M as (l & M & F & _). exists l. by split_and!.
Qed.

Lemma settle_makes addr slot fin fuel : forall w, let '(r, w') := settle_loop env iterate fuel addr slot fin w in
  exists l, makes l w w' /\ only RqGetInfo l /\
    (r = Ok tt -> Forall (answered_from slot) l /\ (fin <= clock w')%Z /\ ((clock w < fin)%Z -> l <> [])).
Proof.
  induction fuel as [|fuel IH]; intros w; cbn [settle_loop]; [exists []; split_and!; [by apply makes_none|constructor|done]|].
  unfold bind at 1, time_Now. cbv beta iota. fold (clock w). destruct (Z.ltb_spec (clock w) fin) as [Hlt|Hge].
  2:{ exists []. split_and!; [by apply makes_none|constructor|]. intros _. split_and!; [constructor|done|lia]. }
  assert (quiet (time_Sleep (5 * Second))) as Hs by (apply quiet_Sleep; done). pose proof (quiet_run _ w Hs) as M1.
  rewrite (bind_Ok _ _ _ _ _ (Sleep_Ok _ _)). set (w1 := (time_Sleep (5 * Second) w).2) in *.
  pose proof (settle_poll_makes addr slot w1) as P. unfold bind. destruct (settle_poll _ _ _ _ w1) as [[[]|e] w2].
  - destruct P as (l & M2 & F2 & G). destruct (G eq_refl) as [Hne G2]. specialize (IH w2). destruct (settle_loop _ _ _ _ _ _ w2) as [r w3].
    destruct IH as (l3 & M3 & F3 & G3). exists (l ++ l3). split_and!; [|by apply Forall_app|].
    + exact (makes_trans [] _ _ _ _ M1 (makes_trans _ _ _ _ _ M2 M3)).
    + intros Hr. destruct (G3 Hr) as (G4 & T & _). split_and!; [by apply Forall_app|done|]. intros _ [? _]%app_eq_nil. by destruct Hne.
  - destruct P as (l & M2 & F2 & _). exists l. split_and!; [exact (makes_trans [] _ _ _ _ M1 M2)|done|done].
Qed.

(** C36: a tentative update is only confirmed by a capsule that has stayed on
    it.  With a settle window that is positive as a 64-bit duration, the
    automatic confirmation makes nothing but GetInfo calls until the window is
    over, then at most one UpdateConfirm; it gets there only when at least one
    poll fell into the window and every poll of it was answered from the
    expected slot.  Otherwise the command fails and nothing is confirmed. *)
Theorem auto_confirm_safe addr slot secs w r w' : (0 < settle_window secs)%Z ->
  capsuleUpdateAutoConfirm env iterate addr slot secs w = (r, w') ->
  exists P Q C start, makes (P ++ Q ++ C) w w' /\ only RqGetInfo (P ++ Q) /\ only RqUpdateConfirm C /\ (List.length C <= 1)%nat /\
    Forall (fun e => (lg_Time e <= start)%Z) P /\ Forall (fun e => (start <= lg_Time e)%Z) Q /\
    Forall (fun e => (start + settle_window secs <= lg_Time e)%Z) C /\
    ((C <> [] \/ is_ok r = true) -> Q <> [] /\ Forall (answered_from slot) Q).
Proof.
  intros Hw H. unfold capsuleUpdateAutoConfirm in H. unfold bind at 1, time_Now at 1 in H. cbv beta iota in H.
  destruct (reach_makes addr slot (clock w + reach_timeout) reach_fuel w) as (w1 & P & E1 & M1 & F1).
  change (d_Now (fw_store w)) with (clock w) in H. rewrite (bind_Ok _ _ _ _ _ E1) in H. unfold bind at 1, time_Now in H. cbv beta iota in H.
  change (d_Now (fw_store w1)) with (clock w1) in H. set (fin := (clock w1 + settle_window secs)%Z) in *.
  pose proof (settle_makes addr slot fin (settle_fuel secs) w1) as M2. unfold bind at 1 in H.
  destruct (settle_loop _ _ _ _ _ _ w1) as [r2 w2]. destruct M2 as (Q & M2 & F2 & G2).
  assert (forall C, makes (P ++ Q ++ C) w w' -> makes C w2 w' -> (C <> [] -> (fin <= clock w2)%Z) ->
    Forall (fun e => (lg_Time e <= clock w1)%Z) P /\ Forall (fun e => (clock w1 <= lg_Time e)%Z) Q /\ Forall (fun e => (fin <= lg_Time e)%Z) C) as Ht.
  { intros C _ (_ & _ & TC) Hfin. destruct M1 as (_ & _ & T1), M2 as (_ & _ & T2).
    split_and!; [eapply Forall_impl; [exact T1|]; intros e [? ?]; lia|eapply Forall_impl; [exact T2|]; intros e [? ?]; lia|].
    destruct C as [|e C]; [constructor|]. specialize (Hfin ltac:(done)). eapply Forall_impl; [exact TC|]. intros e' [? ?]. lia. }
  destruct r2 as [[]|e].
  - destruct (G2 eq_refl) as (G3 & Tf & Hne). unfold capsuleUpdateConfirm in H. unfold bind in H.
    pose proof (ask_makes addr RqUpdateConfirm pick_updated w2) as M3. destruct (ask _ _ _ _ _ w2) as [r3 w3].
    assert (w3 = w' /\ exists C, makes C w2 w3 /\ only RqUpdateConfirm C /\ (List.length C <= 1)%nat) as (-> & C & MC & FC & LC).
    { destruct r3 as [p|e]; injection H as <- <-; (split; [done|]); [|by destruct M3 as (l & ? & ? & ?); exists l].
      destruct M3 as (t & x & M3 & _). eexists. split_and!; [exact M3|by repeat constructor|done]. }
    exists P, Q, C, (clock w1). pose proof (makes_trans _ _ _ _ _ M1 (makes_trans _ _ _ _ _ M2 MC)) as M.
    destruct (Ht C M MC ltac:(done)) as (? & ? & ?). split_and!; try done; [by apply Forall_app|].
    intros _. split; [apply Hne; unfold fin; lia|done].
  - injection H as <- <-. exists P, Q, [], (clock w1). pose proof (makes_trans _ _ _ _ _ M1 M2) as M. rewrite app_nil_r.
    destruct (Ht [] ltac:(by rewrite app_nil_r) ltac:(by apply makes_none) ltac:(done)) as (? & ? & ?).
    split_and!; try done; [by apply Forall_app|cbn; lia|by intros [|]].
Qed.
(** *** The loops end *)

Lemma clock_ask {A} addr q (pick : Reply -> option A) w : (clock w <= clock (ask env iterate addr q pick w).2)%Z.
Proof.
  pose proof (ask_makes addr q pick w) as M. destruct (ask _ _ _ _ _ w) as [[a|e] w1]; [destruct M as (t & x & M & _)|destruct M as (l & M & _)]; apply M.
Qed.
Lemma clock_Sleep d w : (clock w + d <= clock (time_Sleep d w).2)%Z.
Proof. apply (sleep_time d (fw_store w)). Qed.

Lemma Now_Ok w : time_Now w = (Ok (clock w), w).
Proof. done. Qed.
Lemma reach_step fuel addr slot deadline w : reach_loop env iterate (S fuel) addr slot deadline w =
  if (clock w <? deadline)%Z then
    (r <- catch (get_info env iterate addr) ;;
     if match r with Ok i => String.eqb (if_ActiveSlot i) slot | Err _ => false end then ret tt
     else time_Sleep (3 * Second) ;;; reach_loop env iterate fuel addr slot deadline) w
  else (Ok tt, w).
Proof. cbn [reach_loop]. unfold bind at 1, time_Now. cbv beta iota. fold (clock w). by destruct (_ <? _)%Z. Qed.
Lemma settle_step fuel addr slot fin w : settle_loop env iterate (S fuel) addr slot fin w =
  if (clock w <? fin)%Z then (time_Sleep (5 * Second) ;;; settle_poll env iterate addr slot ;;; settle_loop env iterate fuel addr slot fin) w
  else (Ok tt, w).
Proof. cbn [settle_loop]. unfold bind at 1, time_Now. cbv beta iota. fold (clock w). by destruct (_ <? _)%Z. Qed.

Lemma reach_fuel_enough addr slot deadline k fuel : forall w, (deadline - clock w <= Z.of_nat fuel * (3 * Second))%Z ->
  reach_loop env iterate (fuel + k) addr slot deadline w = reach_loop env iterate fuel addr slot deadline w.
Proof.
  induction fuel as [|fuel IH]; intros w Hf.
  - destruct k as [|k]; [done|]. rewrite Nat.add_0_l, reach_step. destruct (Z.ltb_spec (clock w) deadline); [lia|done].
  - rewrite Nat.add_succ_l, !reach_step. destruct (_ <? deadline)%Z; [|done].
    unfold bind at 1 3, catch. pose proof (clock_ask addr RqGetInfo pick_info w) as T. unfold get_info in *.
    destruct (ask _ _ _ _ _ w) as [r w1]. cbn [snd] in T. destruct (match r with Ok i => _ | Err _ => _ end); [done|].
    rewrite !(bind_Ok _ _ _ _ _ (Sleep_Ok _ _)). apply IH. pose proof (clock_Sleep (3 * Second) w1). unfold Second in *. lia.
Qed.
Lemma settle_fuel_enough addr slot fin k fuel : forall w, (fin - clock w <= Z.of_nat fuel * (5 * Second))%Z ->
  settle_loop env iterate (S fuel + k) addr slot fin w = settle_loop env iterate (S fuel) addr slot fin w.
Proof.
  induction fuel as [|fuel IH]; intros w Hf; rewrite Nat.add_succ_l, !settle_step; destruct (Z.ltb_spec (clock w) fin); try done; [lia|].
  rewrite !(bind_Ok _ _ _ _ _ (Sleep_Ok _ _)). pose proof (clock_Sleep (5 * Second) w) as T. set (w1 := (time_Sleep (5 * Second) w).2) in *.
  pose proof (settle_poll_makes addr slot w1) as P. unfold bind. destruct (settle_poll _ _ _ _ w1) as [[[]|e] w2]; [|done].
  destruct P as (l & (_ & T2 & _) & _). apply IH. unfold Second in *. lia.
Qed.

(** Both loops of the automatic confirmation end by the clock: more rounds
    than the timeout and the settle window allow change nothing. *)
Theorem auto_confirm_ends addr slot secs k w :
  capsuleUpdateAutoConfirm env iterate addr slot secs w =
  (t0 <- time_Now ;;
   reach_loop env iterate (reach_fuel + k) addr slot (t0 + reach_timeout) ;;;
   t1 <- time_Now ;;
   settle_loop env iterate (settle_fuel secs + k) addr slot (t1 + settle_window secs) ;;;
   out <- capsuleUpdateConfirm env iterate addr ;;
   ret (Text ("auto-confirm: waiting for capsule to come back as " +:+ slot +:+ ", then settle for " +:+ Itoa secs +:+ "s" +:+ String NL "") :: out)) w.
Proof.
  unfold capsuleUpdateAutoConfirm. rewrite !(bind_Ok _ _ _ _ _ (Now_Ok _)). unfold bind. rewrite reach_fuel_enough; cycle 1.
  { assert (reach_timeout <= Z.of_nat reach_fuel * (3 * Second))%Z by (vm_compute; discriminate). lia. }
  destruct (reach_loop _ _ _ _ _ _ w) as [[[]|e] w1]; [|done]. rewrite Now_Ok. unfold settle_fuel. rewrite settle_fuel_enough; [done|].
  pose proof (Z.mul_succ_div_gt (settle_window secs) (5 * Second) ltac:(done)). change (5 * Second)%Z with 5000000000%Z in *. lia.
Qed.
(** *** The commands that change things *)

Lemma quiet_open addr : quiet (open_conn env iterate addr).
Proof. intros l w0. unfold open_conn. go_preserves. apply quiet_dial. Qed.

(** The world after a second call, whatever is printed. *)
Lemma last_call {A B} b c q (pick : Reply -> option A) (k : A -> prog world B) w : (forall a w0, (k a w0).2 = w0) ->
  let '(r, w') := (s <- call c q ;; a <- wrap_err b (expect pick s.1) ;; k a) w in
  makes [] w w' \/ exists t x, makes [mkLogged t q x] w w'.
Proof.
  intros Hk. destruct (call_makes c q w) as (x & c' & w1 & E & M). rewrite (bind_Ok _ _ _ _ _ E). cbn [fst].
  assert (((a <- wrap_err b (expect pick x) ;; k a) w1).2 = w1) as E1.
  { unfold expect, bind, wrap_err, lift. destruct x as [y|e]; [|done]. destruct (pick y); [apply Hk|done]. }
  destruct ((a <- wrap_err b (expect pick x) ;; k a) w1) as [r w2]. cbn [snd] in E1. subst w2.
  destruct M as [[t M]|[_ M]]; [right; by exists t, x|by left].
Qed.

(** Syncing the volume of a manifest looks it up first; a volume that is there
    is never made again and only ever grown, and then to the size asked for. *)
Theorem volume_sync_requests c name size w : let '(r, w') := volume_sync c name size w in
  exists l, makes l w w' /\
    match l with
    | [] => True
    | [e] => lg_Request e = RqVolGet name \/ lg_Request e = RqVolCreate name size
    | [e; f] => lg_Request e = RqVolGet name /\
        match volume_of (lg_Reply e) with
        | Some v => lg_Request f = RqVolResize name size /\ (vol_size_bytes v / 2 ^ 20 < size)%Z
        | None => lg_Request f = RqVolCreate name size
        end
    | _ => False
    end.
Proof.
  unfold volume_sync. destruct (call_makes c (RqVolGet name) w) as (x & c1 & w1 & E & M1). rewrite (bind_Ok _ _ _ _ _ E). cbn [fst snd]. clear E.
  destruct (volume_of x) as [v|] eqn:Hv.
  - destruct M1 as [[t M1]|[[e ->] _]]; [|done]. cbv zeta. change (1024 * 1024)%Z with (2 ^ 20)%Z.
    destruct ((size =? 0) || _)%Z; [eexists; split; [exact M1|by left]|]. destruct (Z.ltb_spec (vol_size_bytes v / 2 ^ 20) size); [|eexists; split; [exact M1|by left]].
    match goal with |- context [wrap_err _ _ ;;; ?k] => pose proof (last_call "resize: " c1 (RqVolResize name size) pick_volume (fun _ => k) w1 ltac:(done)) as L end.
    destruct (bind _ _ w1) as [r w2]. destruct L as [L|(t2 & y & L)]; (eexists; split; [exact (makes_trans _ _ _ _ _ M1 L)|]); cbn [app lg_Request lg_Reply]; [by left|].
    rewrite Hv. by split_and!.
  - match goal with |- context [wrap_err _ _ ;;; ?k] => pose proof (last_call "create: " c1 (RqVolCreate name size) pick_volume (fun _ => k) w1 ltac:(done)) as L end.
    destruct (bind _ _ w1) as [r w2]. destruct M1 as [[t M1]|[_ M1]], L as [L|(t2 & y & L)];
      (eexists; split; [exact (makes_trans _ _ _ _ _ M1 L)|]); cbn [app lg_Request lg_Reply]; [by left| |done|by right].
    by rewrite Hv.
Qed.

(** Reads of a file cut it into pieces. *)
Hypothesis reads_whole : forall b, String.concat "" (reads b) = b.

Lemma f_Size_cases path w : fw_files (f_Size path w).2 = fw_files w /\ fw_store (f_Size path w).2 = fw_store w /\
  forall n, (f_Size path w).1 = Ok n -> exists b, fw_files w !! path = Some b /\ n = len b.
Proof.
  unfold f_Size, os_call. cbn. destruct (fw_faults w) as [|[[n e]|] l]; cbn; [|done|];
    (destruct (fw_files w !! path) as [b|]; cbn; (split_and!; [done|done|]); [intros m [= <-]; by exists b|done]).
Qed.
Lemma quiet_Size path : quiet (f_Size path).
Proof. apply quiet_keeps. intros w. apply f_Size_cases. Qed.
Lemma quiet_Read path : quiet (f_ReadFile path).
Proof. apply quiet_keeps. intros w. apply f_ReadFile_cases. Qed.
Lemma files_open addr : keeps (W:=world) fw_files (open_conn env iterate addr).
Proof.
  unfold open_conn, dial, dialAuth. go_keeps; [apply keeps_loadConfig|apply keeps_loadPrivateKey].
Qed.

(** The confirmation asks for nothing else. *)
Lemma auto_confirm_calls addr slot secs w : exists l, makes l w (capsuleUpdateAutoConfirm env iterate addr slot secs w).2 /\
  Forall (fun e => lg_Request e = RqGetInfo \/ lg_Request e = RqUpdateConfirm) l.
Proof.
  assert (forall q l, (q = RqGetInfo \/ q = RqUpdateConfirm) -> only q l -> Forall (fun e => lg_Request e = RqGetInfo \/ lg_Request e = RqUpdateConfirm) l) as Hq.
  { intros q l Hq F. eapply Forall_impl; [exact F|]. intros e ->. done. }
  unfold capsuleUpdateAutoConfirm. rewrite (bind_Ok _ _ _ _ _ (Now_Ok _)).
  destruct (reach_makes addr slot (clock w + reach_timeout) reach_fuel w) as (w1 & P & E1 & M1 & F1).
  rewrite (bind_Ok _ _ _ _ _ E1), (bind_Ok _ _ _ _ _ (Now_Ok _)).
  pose proof (settle_makes addr slot (clock w1 + settle_window secs) (settle_fuel secs) w1) as M2. unfold bind at 1.
  destruct (settle_loop _ _ _ _ _ _ w1) as [[[]|e] w2]; destruct M2 as (Q & M2 & F2 & _).
  - pose proof (ask_makes addr RqUpdateConfirm pick_updated w2) as M3. unfold capsuleUpdateConfirm, bind.
    destruct (ask _ _ _ _ _ w2) as [[p|e] w3].
    + destruct M3 as (t & x & M3 & _). eexists. split; [exact (makes_trans _ _ _ _ _ M1 (makes_trans _ _ _ _ _ M2 M3))|].
      apply Forall_app; split; [apply (Hq RqGetInfo); [by left|done]|]. apply Forall_app; split; [apply (Hq RqGetInfo); [by left|done]|]. constructor; [by right|constructor].
    + destruct M3 as (l & M3 & F3 & _). eexists. split; [exact (makes_trans _ _ _ _ _ M1 (makes_trans _ _ _ _ _ M2 M3))|].
      apply Forall_app; split; [apply (Hq RqGetInfo); [by left|done]|]. apply Forall_app; split; [apply (Hq RqGetInfo); [by left|done]|apply (Hq RqUpdateConfirm); [by right|done]].
  - eexists. split; [exact (makes_trans _ _ _ _ _ M1 M2)|]. apply Forall_app; split; (apply (Hq RqGetInfo); [by left|done]).
Qed.

(** The update that [push] sends is the file, announced with its own size and
    digest: whatever the file holds, the capsule's checks of a transfer that
    arrives whole accept it. *)
Definition faithful_update (w : world) (path : string) (q : UpdateRequest) : Prop :=
  exists b size sum, fw_files w !! path = Some b /\ uq_first q = Ok (Some (size, sum)) /\
    let s := mkStream (update_chunks (uq_msgs q)) (uq_end q) in s_bytes s = b /\ check_bundle sha256 s size sum [] = Ok tt.
Lemma update_request_faithful w path b : fw_files w !! path = Some b ->
  faithful_update w path (update_request reads (len b) (EncodeToString (sha256 b)) b).
Proof using reads_whole.
  intros Hb. exists b, (len b), (EncodeToString (sha256 b)). cbn [uq_first uq_msgs uq_end update_request].
  assert (update_chunks (Some <$> reads b) = reads b) as -> by (unfold update_chunks; rewrite <-list_fmap_compose; apply list_fmap_id).
  assert (s_bytes (mkStream (reads b) None) = b) as Hs by apply reads_whole.
  cbv zeta. split_and!; [done|done|exact Hs|]. unfold check_bundle. rewrite Hs. cbv zeta. cbn [s_end negb].
  change (Z.of_nat (String.length b)) with (len b). rewrite Z.eqb_refl, andb_false_r. unfold EqualFold. by rewrite String.eqb_refl.
Qed.
Lemma quiet_bind {A B} (m : prog world A) (k : A -> prog world B) w0 w r w' : quiet m -> makes [] w0 w -> bind m k w = (r, w') ->
  makes [] w0 w' \/ exists a w1, m w = (Ok a, w1) /\ makes [] w0 w1 /\ k a w1 = (r, w').
Proof.
  intros Hm M H. pose proof (Hm [] w0 w M) as M1. apply bind_cases in H as [(e & H & _)|(a & w1 & H & Hk)]; rewrite H in M1; [by left|right; by exists a, w1].
Qed.
Lemma quiet_wrap {A} b (m : prog world A) : quiet m -> quiet (wrap_err b m).
Proof. intros Hm l w0. by apply preserves_wrap_err. Qed.
Theorem pushed_bundle_verifies addr path secs w r w' : capsuleUpdatePush env iterate reads addr path secs w = (r, w') ->
  exists l, makes l w w' /\ forall e q, e ∈ l -> lg_Request e = RqUpdateOS q -> faithful_update w path q.
Proof using reads_whole DL.
  intros H. unfold capsuleUpdatePush in H.
  assert (forall w1, makes [] w w1 -> exists l, makes l w w1 /\ forall e q, e ∈ l -> lg_Request e = RqUpdateOS q -> faithful_update w path q) as Hnone.
  { intros w1 M. exists []. split; [done|]. by intros e q []%elem_of_nil. }
  apply (quiet_bind _ _ w) in H as [M|(size & w1 & H1 & M1 & H)]; [by apply Hnone| |by apply quiet_wrap, quiet_Size|by apply makes_none].
  pose proof (f_Size_cases path w) as (F1 & _ & S1). apply wrap_err_Ok in H1. rewrite H1 in F1, S1. cbn [fst snd] in F1, S1.
  destruct (S1 _ eq_refl) as (b & Hb & ->). clear S1 H1.
  apply (quiet_bind _ _ w) in H as [M|(sum & w2 & H2 & M2 & H)]; [by apply Hnone| |apply quiet_wrap; intros l w0; unfold sha256File; go_preserves; apply quiet_Read|done].
  pose proof (f_ReadFile_cases path w1) as (F2 & _ & S2). apply wrap_err_Ok in H2. unfold sha256File in H2.
  apply bind_cases in H2 as [(e & _ & [=])|(b2 & w2' & H2 & [= <- <-])]. rewrite H2 in F2, S2. cbn [fst snd] in F2, S2.
  specialize (S2 _ eq_refl). rewrite F1, Hb in S2. injection S2 as <-. clear H2.
  apply (quiet_bind _ _ w) in H as [M|(c & w3 & H3 & M3 & H)]; [by apply Hnone| |apply quiet_open|done].
  pose proof (files_open addr w2') as F3. rewrite H3 in F3. cbn [snd] in F3. clear H3.
  apply (quiet_bind _ _ w) in H as [M|(b4 & w4 & H4 & M4 & H)]; [by apply Hnone| |by apply quiet_wrap, quiet_Read|done].
  pose proof (f_ReadFile_cases path w3) as (_ & _ & S4). apply wrap_err_Ok in H4. rewrite H4 in S4. cbn [fst snd] in S4.
  specialize (S4 _ eq_refl). rewrite F3, F2, F1, Hb in S4. injection S4 as <-. clear H4.
  set (q := update_request _ _ _ _) in *. pose proof (update_request_faithful w path b Hb) as Hq. fold q in Hq.
  destruct (call_makes c (RqUpdateOS q) w4) as (x & c' & w5 & E & M). rewrite (bind_Ok _ _ _ _ _ E) in H. clear E.
  assert (exists l0, makes l0 w w5 /\ only (RqUpdateOS q) l0) as (l0 & M5 & O5).
  { destruct M as [[t M]|[_ M]]; eexists; (split; [exact (makes_trans _ _ _ _ _ M4 M)|by repeat constructor]). }
  clear M. assert (forall l, Forall (fun e => lg_Request e = RqGetInfo \/ lg_Request e = RqUpdateConfirm) l ->
    forall e q0, e ∈ l0 ++ l -> lg_Request e = RqUpdateOS q0 -> faithful_update w path q0) as Hl.
  { intros l F e q0 [He|He]%elem_of_app Hr; [|rewrite Forall_forall in F; destruct (F e He); congruence].
    rewrite Forall_forall in O5. specialize (O5 e He). cbn in O5. rewrite O5 in Hr. injection Hr as <-. exact Hq. }
  assert (forall w6, makes l0 w w6 -> exists l, makes l w w6 /\ forall e q0, e ∈ l -> lg_Request e = RqUpdateOS q0 -> faithful_update w path q0) as Hend.
  { intros w6 M. exists l0. split; [done|]. intros e q0 He. specialize (Hl [] ltac:(constructor) e q0). rewrite app_nil_r in Hl. by apply Hl. }
  assert (quiet (wrap_err "CloseAndRecv: " (expect pick_updated x))) as Hx by (apply quiet_wrap, quiet_keeps; intros w0; done).
  pose proof (Hx l0 w _ M5) as M6. unfold bind at 1 in H. cbn [fst] in H. destruct (wrap_err _ _ w5) as [[p|e] w6]; cbn [snd] in M6.
  2:{ injection H as <- <-. by apply Hend. }
  cbv zeta in H. destruct (secs <=? 0)%Z; [injection H as <- <-; by apply Hend|].
  destruct (auto_confirm_calls addr p.1 secs w6) as (l & M7 & F7). unfold bind in H.
  destruct (capsuleUpdateAutoConfirm _ _ _ _ _ w6) as [[out|e] w7]; injection H as <- <-; (exists (l0 ++ l); split; [exact (makes_trans _ _ _ _ _ M6 M7)|by apply Hl]).
Qed.
End correct.

#[local] Existing Instance DemoLib.lib.
#[local] Existing Instance DemoLib.laws.
#[local] Existing Instance OperatorDemo.certs.
#[local] Existing Instance OperatorDemo.keys.
#[local] Existing Instance OperatorDemo.codec.
#[local] Existing Instance no_images.

Module CommandsDemo.
(** A clock that stands still but for sleeps, and the capsule's count of tokens
    as the random part of the next one. *)
#[export] Instance desk {S C V L} : Desk (Site S C V L) := {|
  d_Now n := (st_now n * Second)%Z;
  d_Sleep d n := mkSite (st_now n + (d + Second - 1) / Second)%Z (st_auth n) (st_srv n);
  d_jti n := (Ok (Itoa (st_now n) +:+ "." +:+ Itoa (Z.of_nat (size (au_jti (st_auth n))))), n) |}.
Lemma site_laws {S C V L} `{!Store S, !ContainerDriver C, !VMDriver V, !LVM L, !CtrImages C} {TL : TokenLib} wi home leaf :
  @DeskLaws (Site S C V L) (one_capsule wi home leaf) desk.
Proof.
  split; cbn.
  - intros d n. rewrite Z.mul_add_distr_r. pose proof (Z.div_mod (d + Second - 1) Second ltac:(done)).
    pose proof (Z.mod_pos_bound (d + Second - 1) Second ltac:(done)). lia.
  - done.
  - intros addr n. by destruct (String.eqb _ _).
  - intros addr ctx q n. destruct (String.eqb _ _); [|done]. unfold on_site, zoom. by destruct (serve _ _ _ _ _).
Qed.

(** The adopted capsule, booted into slot B on trial. *)
Definition wi : Wiring := mkWiring (wi_cfg AdoptionDemo.wi) true (fun _ => None) (FingerprintRaw AdoptionDemo.leaf) UpdateDemo.digest UpdateDemo.find "slot_b" UpdateDemo.tar true 0
  ControllersDemo.logs_of ControllersDemo.rounds_of ControllersDemo.web_log (mkAbout "1.4.0" "slot_b" "capsule-6f1c" true) InfoDemo.share InfoDemo.kernel.
Abbreviation site := (Site memStore RefDriver RefDriver RefLVM).
#[export] Instance network : Fabric site := one_capsule wi AdoptionDemo.home AdoptionDemo.leaf.
#[export] Instance laws : DeskLaws site := site_laws wi AdoptionDemo.home AdoptionDemo.leaf.
Definition on_trial : FWorld (Recorded site) := Eval vm_compute in
  let w := (AdoptionDemo.adopt true None).2 in
  let n := fw_store w in
  let v := st_srv n in
  let x := mem_set_os (Some (mkOSState "slot_b" "slot_b" 2000 "slot_a" "v2" 0)) (sv_store v) in
  let s := mkSrv (put_store x (sv_node v)) (sv_lvm v) (sv_claim v) (sv_mdns v) (sv_up v) (sv_reboots v) in
  mkFWorld (mkSite (st_now n) (NewAuthenticator "6f1c0d9e") s, []) (fw_files w) [].
Definition waiting (secs : Z) : Printed :=
  Text ("auto-confirm: waiting for capsule to come back as slot_b, then settle for " +:+ Itoa secs +:+ "s" +:+ String NL "").
Definition confirm (slot : string) (secs : Z) : result (list Printed) * FWorld (Recorded site) :=
  capsuleUpdateAutoConfirm OperatorDemo.env OperatorDemo.in_order "" slot secs on_trial.
End CommandsDemo.
Import CommandsDemo.

Lemma auto_confirm_safe_witness :
  (confirm "slot_b" 12).1 = Ok [waiting 12; Text ("update committed: slot=slot_b version=v2" +:+ String NL "")] /\
  exists P Q C, makes (P ++ Q ++ C) on_trial (confirm "slot_b" 12).2 /\ Q <> [] /\ Forall (answered_from "slot_b") Q /\
    Forall (fun e => lg_Request e = RqUpdateConfirm) C.
Proof.
  assert ((confirm "slot_b" 12).1 = Ok [waiting 12; Text ("update committed: slot=slot_b version=v2" +:+ String NL "")]) as Hr by (vm_compute; reflexivity).
  split; [exact Hr|]. destruct (confirm "slot_b" 12) as [r w'] eqn:E. cbn [fst snd] in *.
  destruct (auto_confirm_safe OperatorDemo.env OperatorDemo.in_order "" "slot_b" 12 on_trial r w' eq_refl E) as (P & Q & C & t & M & _ & FC & _ & _ & _ & _ & H).
  exists P, Q, C. destruct H as [H1 H2]; [right; by rewrite Hr|]. by split_and!.
Defined.

(** A settle window of more than 292 years is negative as a 64-bit duration:
    the update is confirmed at once, also when the capsule never answered from
    the expected slot. *)
Theorem wrapped_window_confirms :
  let from_slot e := match lg_Reply e with Ok (RpInfo i) => String.eqb (if_ActiveSlot i) "slot_a" | _ => false end in
  let is_confirm e := match lg_Request e with RqUpdateConfirm => true | _ => false end in
  let '(r, w) := confirm "slot_a" (2 ^ 63 / Second + 10) in
  is_ok r = true /\ existsb from_slot (calls w) = false /\ List.length (List.filter is_confirm (calls w)) = 1%nat.
Proof. vm_compute. split_and!; reflexivity. Qed.

(** *** Flags after a name

    "install <short-id> --target /dev/X --name n", as the usage text and the
    console of an installer show it: package flag stops at the short id, so
    everything behind it is dropped without a word.  The disk is the one the
    installer proposes, and the key is sealed into it whatever was asked for. *)
Theorem install_flags_ignored {N} {FB : Fabric N} {CC : ConfigCodec} {TL : TokenLib} {CL : CertLib} {KL : KeyLib} env dt id rest :
  dashed id = false -> install_command (N:=N) env dt (id :: rest) = install_command env dt [id].
Proof.
  intros H%token_positional. unfold install_command, flagged. cbn [flag_Parse]. by rewrite H.
Qed.

Lemma duration_Round_whole k : duration_Round (k * Second) Second = (k * Second)%Z.
Proof.
  unfold duration_Round. rewrite Z.rem_mul by done. change (- 0 + - 0 <? Second)%Z with true. change (0 + 0 <? Second)%Z with true.
  destruct (k * Second <? 0)%Z; lia.
Qed.
(** What "capsule info" says of a tentative update, when the capsule sent its
    clock: the deadline has passed exactly when that clock is at it or beyond. *)
Theorem pending_marker_spec dur_String now localUnix deadlineUnix :
  (0 < localUnix < 2 ^ 33)%Z -> (0 <= deadlineUnix < 2 ^ 33)%Z ->
  pending_marker dur_String (until_deadline now localUnix deadlineUnix) =
    if (deadlineUnix <=? localUnix)%Z then "deadline passed"
    else "auto-rollback in " +:+ dur_String ((deadlineUnix - localUnix) * Second)%Z.
Proof.
  intros Hl Hd. unfold until_deadline, pending_marker. destruct (Z.ltb_spec 0 localUnix); [|lia].
  assert (duration_Round (i64 (i64 (deadlineUnix - localUnix) * Second)) Second = ((deadlineUnix - localUnix) * Second))%Z as ->.
  { set (d := (deadlineUnix - localUnix)%Z). assert (- 2 ^ 33 < d < 2 ^ 33)%Z as Hb by lia.
    assert (i64 d = d) as -> by (apply swrap_small; [done|]; change (2 ^ (64 - 1))%Z with (2 ^ 63)%Z; lia). assert (i64 (d * Second) = d * Second)%Z as -> by (apply swrap_small; [done|]; change (2 ^ (64 - 1))%Z with (2 ^ 63)%Z; change Second with 1000000000%Z; change (2 ^ 63)%Z with 9223372036854775808%Z; change (2 ^ 33)%Z with 8589934592%Z in *; lia).
    apply duration_Round_whole. }
  destruct (Z.leb_spec deadlineUnix localUnix), (Z.leb_spec ((deadlineUnix - localUnix) * Second) 0); try done; change Second with 1000000000%Z in *; lia.
Qed.

(** *** Volumes of whole extents

    LVM rounds a size up to a multiple of its extents of 4 MiB. *)
Module ExtentsDemo.
Record Extents := mkExtents { ex_lvm : RefLVM }.
Definition round_up (b : Z) : Z := ((b + 4 * MiB - 1) / (4 * MiB) * (4 * MiB))%Z.
Definition ex_exec (path : string) (args : list string) (d : Extents) : Output * Extents :=
  let '(o, l) := rl_exec path args (ex_lvm d) in (o, mkExtents (mkRefLVM (round_up <$> rl_lvs l) (rl_failing l))).
#[export] Instance extents : LVM Extents := {| lvm_exec := ex_exec; blkgetsize64 path d := rl_blk path (ex_lvm d) |}.
(** A manifest is a line of fields. *)
#[export] Instance flat : ManifestLib := {|
  YAMLToJSON raw := match mapM (Cut ":") (Split ";" raw) with Some l => Ok (JObject (prod_map id JString <$> l)) | None => Err (Errorf "yaml") end;
  protojson_Unmarshal _ := Err (Errorf "not used") |}.
Abbreviation place := (Site memStore RefDriver RefDriver Extents).
#[export] Instance network : Fabric place := one_capsule wi AdoptionDemo.home AdoptionDemo.leaf.
Definition before : FWorld place :=
  let w := (AdoptionDemo.adopt true None).2 in let v := st_srv (fw_store w) in
  mkFWorld (mkSite DemoLib.t0 (NewAuthenticator "6f1c0d9e") (mkSrv (sv_node v) (mkExtents (sv_lvm v)) (sv_claim v) (sv_mdns v) (sv_up v) (sv_reboots v))) (fw_files w) [].
Definition apply_file (text : string) : prog (FWorld place) (list Printed) := applyManifest OperatorDemo.env OperatorDemo.in_order text "" "-".
Definition manifest : string := "kind:Volume;name:data;size:50".
End ExtentsDemo.
Import ExtentsDemo.

(** Applying the same manifest again fails when LVM made the volume larger than
    it was asked for: to [apply] the size is then a request to shrink. *)
Theorem reapply_fails : let '(r, w) := apply_file manifest before in
  r = Ok [Text ("volume " +:+ Quote "data" +:+ " created (50 MiB)" +:+ String NL "")] /\
  (apply_file manifest w).1 = Err (Errorf ("volume " +:+ Quote "data" +:+ " is 52 MiB; resize is grow-only (requested 50 MiB)")).
Proof. vm_compute. split; reflexivity. Qed.
